(* ===== verification/_CoqProject ===== *)
-Q . S2P
Prelude.v
Defines.v
Spinlock.v
KMalloc.v
Service.v
PhysicalMemory.v
Stdio.v
Clock.v
Base64.v
Terminal.v
Console.v
MemoryPageMap.v
SharedMemory.v
Interrupts.v
Segments.v
FastMem.v
Network.v
Device.v
Worker.v
Apic.v
IPIoE.v
Pci.v
Ata.v
AtaManager.v
Asm.v
MemoryAsm.v
MemoryRoutines.v
CopyAsm.v
Strings.v
XmlParser.v
XmlQuery.v
ServiceXml.v
Ackermann.v
Acpi.v
E1000.v
Rtl8139.v
BlockService.v
XmlConfig.v
NetStack.v
KernelMain.v
KernelStart.v
Regex.v
ProgrammingModel.v
GeneratedServices.v
