(* ===== verification/Prelude.v ===== *)
(** * NileOS: a verification library

    NileOS is a 64-bit kernel for several cores, in C (the second stage, under
    [src/stage2]) and assembly (the boot stages and the routines C calls).  This
    library translates the C code into definitions that can be run, and proves
    what makes the parts correct.  Every file names the sources it models;
    definitions have the names of the C functions, fields and constants.

    ** The program

    The kernel is one structure, [kernel], whose parts are services.  A service
    is a table of function pointers that is registered with the transport layer;
    parts call each other through the dispatcher by the number of a service and
    of a method, parameters and results being fields of the service.  The start
    ([bsp_kernel_main]) brings the parts up one after the other and then wakes the
    other cores.  After that everything happens in interrupt handlers (timer,
    keyboard, disk, network card, inter-processor interrupts) and in the loops
    of cores 1 and 2, which call and serve methods of services across machines:
    a request is XML text, in an Ethernet frame, from the queue of one core to the
    queue of another.  A preprocessor in C++, run before the kernel is built, turns
    services written as marked C files into files for the kernel and for user programs,
    and writes the code that registers them.

    ** Conventions

    - A C integer is a [Z] in the range of its type; wrap-around is written out
      ([u8] ... [s64]).  Records stand for structures, lists for arrays.
    - A pointer to an entry of a table is an index.  Where code works on bytes,
      memory is a function from addresses to bytes ([FastMem.memory]), pointers are
      addresses, NULL is 0; buffers on the stack and memory [kmalloc] has
      returned but nobody has written are arguments.
    - The option monad is the effect of code that may go wrong: [None] is undefined
      behaviour (an access outside an array, a call through NULL), or a wait that
      never ends.  A C function that fails returns its error value, in [Some].
    - Code that talks to a device is in [Device.IO]: it runs against an arbitrary
      device, which answers every read from the trace of all accesses so far, and
      extends the trace.  Theorems on drivers hold for every device that meets
      the conditions they state on the values it returns, and speak about the
      writes of the trace.  Descriptors a card shares with the driver are such
      accesses too.
    - What the interrupts taken during a [hlt] do is an argument.
    - Printing has no effect, except in Console.v, which models it.
    - The string and memory routines of [asm/stage2/misc/MemoryUtilities.asm] are
      code for the processor of Asm.v.  C code that calls them is stated against the
      class [Strings.Routines] with the laws [Strings.RoutinesOk], which are the
      promises the assembly keeps: [Strings.assembly] runs it,
      [Strings.assembly_ok] proves the laws, for processors whose DIV leaves ZF
      alone ([Asm.DivKeeps]; the manual leaves it undefined, and the code relies on
      it).  The block copies the C tables call are stated by [FastMem.fast_memcpy_n] and
      [FastMem.fast_memswap_n]; CopyAsm.v proves that of their assembly.  Other
      assembly and the compiler's builtins are stated where they are used.

    ** The files

    Foundations: Prelude.v (integers, record updates, loops, tactics), Defines.v
    ([headers/defines.h]), Device.v ([misc/Ports.c], [misc/MMIOUtils.c]), FastMem.v
    ([misc/memcpy.c], [misc/memswap.c], memory), Asm.v (the processor), MemoryAsm.v
    ([asm/stage2/misc/MemoryUtilities.asm], with the contracts of
    [headers/misc/MemoryUtilities.h]), MemoryRoutines.v (which of them the routines
    keep), CopyAsm.v ([asm/stage2/misc/memcpy.asm], [memswap.asm]), Strings.v
    ([misc/MemoryUtilities.c]), Stdio.v ([misc/stdio.c], [misc/numbers.c]), Clock.v
    ([misc/ClockUtils.c]), Base64.v ([misc/Base64Encoding.c]).

    Locks and memory: Spinlock.v ([sync/Spinlock.c]), KMalloc.v
    ([memory/KMalloc.c]), PhysicalMemory.v ([memory/PhysicalMemory.c]),
    MemoryPageMap.v ([memory/MemoryPageMap.c]), SharedMemory.v
    ([memory/SharedMemory.c]), Segments.v ([memory/GlobalDescriptorTable*.c],
    [memory/TSSDescriptor.c], [kernel/Kernel.c]).

    Services: Service.v ([devices/service/service.c],
    [devices/service_transport_layer/service_transport_layer.c]), ServiceXml.v
    ([ConvertTagToXML]), XmlParser.v ([xml/XMLParser.c], [misc/void_ptr_stack.c]),
    XmlQuery.v ([xml/XQuery.c], [xml/XMLService.c]), XmlConfig.v ([parseAFile]),
    Ackermann.v ([dummyServs/AckermannFunction.c]).

    Interrupts and cores: Interrupts.v ([interrupts/]), Apic.v ([devices/apic/],
    [ipi/ipi.c], [devices/pit/pit.c], [misc/CoreUtils.c]), Acpi.v
    ([devices/acpi/ACPI.c]).

    Devices: Terminal.v and Console.v ([devices/console/], [devices/keyboard/],
    [misc/printk.c]), Pci.v ([devices/pci/]), Ata.v and AtaManager.v
    ([devices/ata/]), BlockService.v ([memory/BlockService.c]), E1000.v
    ([devices/network/E1000.c]), Rtl8139.v ([devices/network/rtl8139.c]).

    Network: Network.v (Ethernet, ARP, IP, ICMP, checksums), Worker.v (the packets and
    queues of [IPIoE.h]), IPIoE.v ([devices/network/IPIoE.c]), NetStack.v (from the
    card to a core).

    The whole: KernelMain.v (the loops of cores 1 and 2 and the handlers of
    [KernelMain.c]), KernelStart.v ([bsp_kernel_main], and [ap_kernel_main] up to those loops).

    The preprocessor: Regex.v (the regular expressions it uses), ProgrammingModel.v
    ([preprocessor/ProgrammingModel.cpp]), GeneratedServices.v (what the code it writes
    does on the service layer).

    ** What is proved

    - Locks: mutual exclusion and progress in every interleaving of the accesses
      of any number of cores (Spinlock.v), by an invariant over the step relation.
    - Allocation: blocks are disjoint whatever is allocated (KMalloc.v); the frame
      allocator is a refinement of a set of free frames and never grants an owned
      frame (PhysicalMemory.v); a mapping is found by the walk and
      disturbs no other one (MemoryPageMap.v); an allocation of shared memory
      takes the first free run (SharedMemory.v).
    - Data: Base64, decimal numbers, dates, string comparison and search against
      reference definitions (Base64.v, Stdio.v, Clock.v, Strings.v); copies and
      exchanges of any length (FastMem.v).
    - Assembly: routine by routine, for which lengths it does what its header comment
      promises, and for which it does not (MemoryRoutines.v); the
      512 copy and exchange routines move what they should (CopyAsm.v).
    - XML: the text of a document is parsed to exactly its tree; queries return what
      the document has; a value that was converted to text comes back (XmlParser.v,
      XmlQuery.v, ServiceXml.v); the configuration file (XmlConfig.v).
    - Devices: the commands a driver issues, the transfers of many sectors chunk by
      chunk, the ring buffers of the cards, the table of PCI devices, the
      routing of interrupts against a model of the I/O APIC, the MADT.
    - Terminals: the cursor and the buffers stay in bounds, the screen shows the
      selected terminal.
    - The preprocessor: from the sources of services it writes code that makes a
      dispatch by the enumerators of a service and a function call this
      function; the sample of [preprocessor/input] gives the files of
      [preprocessor/output] (GeneratedServices.v).
    - Composition: a dispatch reaches the function its numbers stand for, in the
      start and after it (KernelStart.v); a frame in the card's ring reaches the queue
      of its core, which is told (NetStack.v); a message arrives as it was sent
      (IPIoE.v); a call of the Ackermann service across two machines returns the
      value of the function (KernelMain.v, over Ackermann.v, XmlQuery.v, ServiceXml.v
      and IPIoE.v).

    Theorems without a number are consequences worth keeping, or show where the code
    does less than it means to.

    ** Fuel

    Loops that count are [for_each] and [for_loop] with their number of rounds.
    Loops of pure code with another end get a bound the definition computes from the
    input, enough since every round moves forward: the length of the text
    ([XmlParser.parse_loop], [Strings.strstr_loop], [Network.mac_loop], [Regex.iterate]), of the block
    ([FastMem.rounds]), of the table ([Acpi.parseAPIC_loop]), the number of nodes
    ([XmlQuery.getXMLNode_loop]) or of digits ([Stdio.decimal_loop]); 513 rounds
    fill a descriptor table, since a command has at most 65534 sectors
    ([Ata.PRDT_FUEL]).  Where the code waits for a device, the clock or another core,
    the fuel is an argument ([Device.io_loop], [Device.poll], [Clock.wait_update],
    [Apic.wait_touched], [IPIoE.wait_until]): theorems say when the wait is over and hold for
    any fuel beyond that.  [Ackermann.ack] recurses to a depth between the value of
    the function and that value plus the first argument.

    ** Not modelled

    The boot stages, the trampoline and the interrupt stubs (assembly);
    the two routines of MemoryUtilities.asm on SSE 4.2 instructions, [fast_ndfs_full_packet_copy] and the two routines of checksum.asm, which
    nothing calls; UDP.c, which only prints, TCP.c and
    NetworkDriver.c, which are empty; HashTable.c, which is commented out; the
    functions that only print.  Interrupts
    during the code of a handler, and cores that change a structure while another
    reads it, are modelled for the lock only: the other parts rely on it, or on
    nothing, as the findings of the manifest say.

    Still to be done: the state of [kernel] as one record under all parts, so that the
    start can be run through the models of the initialisers; several requests
    served in a row by core 2, which never returns the memory of a parsed
    document. *)

From stdpp Require Export base tactics numbers list option gmap strings.
From Stdlib Require Export ZArith Lia.
From coqutil Require Export Datatypes.RecordSetters.
Export DoubleBraceUpdate.

Declare Scope nile_scope.
Delimit Scope nile_scope with nile.
Open Scope nile_scope.

#[local] Open Scope Z_scope.

(** Record updates [r {{ f := x }}] are coqutil's.  A record that declares its
    eta expansion gets setters whose simplified form reads the other fields
    through their projections. *)
Class Eta (R : Type) := eta_of : R -> R.

Ltac eta_setter R E getter :=
  exact (fun (change_field : E -> E) (r : R) => ltac:(
    lazymatch constr:(@eta_of R _ r) with
    | @eta_of _ ?inst _ =>
        let e := eval cbv beta delta [eta_of inst] in (@eta_of R inst r) in
        match e with
        | context C [getter r] => let b := context C [change_field (getter r)] in exact b
        end
    end)).

#[export] Hint Extern 0 (@RecordSetters.Setter ?R ?E ?getter) => eta_setter R E getter : typeclass_instances.

(** Simplification unfolds arithmetic on closed terms only. *)
#[global] Arguments Z.eqb : simpl nomatch.
#[global] Arguments Z.ltb : simpl nomatch.
#[global] Arguments Z.leb : simpl nomatch.
#[global] Arguments Z.add : simpl nomatch.
#[global] Arguments Z.sub : simpl nomatch.
#[global] Arguments Z.mul : simpl nomatch.
#[global] Arguments RecordSetters.constant {_} _ _ /.

(** ** Machine integers

    A w-bit object is a [Z] in range; every conversion the compiler inserts is
    written out.  Unsigned conversions reduce modulo [2^w]; signed ones choose
    the representative in [[-2^(w-1), 2^(w-1))], which is what gcc emits. *)

Definition u8 (z : Z) : Z := z mod 2 ^ 8.
Definition u16 (z : Z) : Z := z mod 2 ^ 16.
Definition u32 (z : Z) : Z := z mod 2 ^ 32.
Definition u64 (z : Z) : Z := z mod 2 ^ 64.
Definition s8 (z : Z) : Z := (z + 2 ^ 7) mod 2 ^ 8 - 2 ^ 7.
Definition s32 (z : Z) : Z := (z + 2 ^ 31) mod 2 ^ 32 - 2 ^ 31.
Definition s64 (z : Z) : Z := (z + 2 ^ 63) mod 2 ^ 64 - 2 ^ 63.

(** The value of a C condition. *)
Definition truthy (z : Z) : bool := negb (z =? 0).

(** ** Arrays

    A C array is a list; an access outside it has no defined behaviour, which
    the model renders as [None]. *)

Definition zget {A} (l : list A) (i : Z) : option A :=
  if 0 <=? i then l !! Z.to_nat i else None.

Definition zset {A} (l : list A) (i : Z) (x : A) : option (list A) :=
  if (0 <=? i) && (i <? Z.of_nat (length l)) then Some (<[Z.to_nat i := x]> l) else None.

Definition zlen {A} (l : list A) : Z := Z.of_nat (length l).

(** [upd l i f]: read-modify-write of one cell, [l[i] = f(l[i])]. *)
Definition zupd {A} (l : list A) (i : Z) (f : A -> A) : option (list A) :=
  x ← zget l i; zset l i (f x).

(** The characters of a C string literal. *)
Definition codes (s : string) : list Z :=
  map (fun a => Z.of_N (Ascii.N_of_ascii a)) (String.list_ascii_of_string s).

(** ** Loops

    A counted [for] loop whose body may [return]: [inl] carries the state on,
    [inr] leaves the function with a value.  [for_loop] runs the body at the
    [n] indices [i], [i + step], ... ; the trip count is the C loop's own. *)

Fixpoint for_loop {S R} (n : nat) (i step : Z) (body : Z -> S -> option (S + R)) (s : S)
  : option (S + R) :=
  match n with
  | O => Some (inl s)
  | Datatypes.S n' =>
      r ← body i s;
      match r with
      | inl s' => for_loop n' (i + step) step body s'
      | inr v => Some (inr v)
      end
  end.

(** The common case: no early exit. *)
Fixpoint for_each {S} (n : nat) (i : Z) (body : Z -> S -> option S) (s : S) : option S :=
  match n with
  | O => Some s
  | Datatypes.S n' => s' ← body i s; for_each n' (i + 1) body s'
  end.

(** ** Tactics *)

Ltac znorm := unfold u8, u16, u32, u64, s8, s32, s64 in *.

(** Solve linear goals that mention quotients and remainders by constants. *)
Ltac zdiv := Z.div_mod_to_equations; lia.

(** Take apart a chain of monadic binds that is known to succeed. *)
Ltac inv_bind :=
  repeat match goal with
  | H : mbind ?f ?m = Some _ |- _ =>
      let E := fresh "E" in
      destruct m eqn:E; simpl in H; [|discriminate H]
  | H : Some _ = Some _ |- _ => injection H as H; subst
  end.

Ltac bdestr b := let H := fresh "Hb" in destruct b eqn:H;
  rewrite ?Z.eqb_eq, ?Z.eqb_neq, ?Z.ltb_lt, ?Z.ltb_ge, ?Z.leb_le, ?Z.leb_gt,
    ?andb_true_iff, ?orb_true_iff, ?negb_true_iff, ?negb_false_iff in H.

(** Decide every comparison of the goal. *)
Ltac zcases :=
  repeat match goal with
  | |- context [?a <=? ?b] => destruct (Z.leb_spec a b)
  | |- context [?a <? ?b] => destruct (Z.ltb_spec a b)
  | |- context [?a =? ?b] => destruct (Z.eqb_spec a b)
  end; cbn [andb orb negb].

(** ** Lemmas on machine integers *)

Lemma u8_range z : 0 <= u8 z < 256.
Proof. apply Z.mod_pos_bound. lia. Qed.

Lemma u16_range z : 0 <= u16 z < 65536.
Proof. apply Z.mod_pos_bound. lia. Qed.

Lemma u32_range z : 0 <= u32 z < 4294967296.
Proof. apply Z.mod_pos_bound. lia. Qed.

Lemma u64_range z : 0 <= u64 z < 2 ^ 64.
Proof. apply Z.mod_pos_bound. lia. Qed.

Lemma u8_small z : 0 <= z < 256 -> u8 z = z.
Proof. intros. apply Z.mod_small. lia. Qed.

Lemma u16_small z : 0 <= z < 65536 -> u16 z = z.
Proof. intros. apply Z.mod_small. lia. Qed.

Lemma u32_small z : 0 <= z < 2 ^ 32 -> u32 z = z.
Proof. intros. apply Z.mod_small. lia. Qed.

Lemma u64_small z : 0 <= z < 2 ^ 64 -> u64 z = z.
Proof. intros. apply Z.mod_small. lia. Qed.

Lemma s32_small z : - 2 ^ 31 <= z < 2 ^ 31 -> s32 z = z.
Proof. intros. unfold s32. rewrite Z.mod_small; lia. Qed.

Lemma s64_small z : - 2 ^ 63 <= z < 2 ^ 63 -> s64 z = z.
Proof. intros. unfold s64. rewrite Z.mod_small; lia. Qed.

Lemma u32_u64 z : u32 (u64 z) = u32 z.
Proof. unfold u32, u64. apply Z.mod_mod_divide. by exists (2 ^ 32). Qed.

Lemma u64_add_l a b : u64 (u64 a + b) = u64 (a + b).
Proof. unfold u64. by rewrite Zplus_mod_idemp_l. Qed.

Lemma u64_sub_l a b : u64 (u64 a - b) = u64 (a - b).
Proof. unfold u64. by rewrite Zminus_mod_idemp_l. Qed.

Lemma truthy_true z : truthy z = true <-> z <> 0.
Proof. unfold truthy. rewrite negb_true_iff, Z.eqb_neq. done. Qed.

Lemma truthy_false z : truthy z = false <-> z = 0.
Proof. unfold truthy. rewrite negb_false_iff, Z.eqb_eq. done. Qed.

(** ** Lemmas on bits *)

Lemma testbit_u8 z n : 0 <= n -> Z.testbit (u8 z) n = (n <? 8) && Z.testbit z n.
Proof.
  intros Hn. unfold u8. bdestr (n <? 8).
  - by rewrite Z.mod_pow2_bits_low.
  - rewrite Z.mod_pow2_bits_high; [done | lia].
Qed.

Lemma testbit_high z w n : 0 <= z < 2 ^ w -> w <= n -> Z.testbit z n = false.
Proof.
  intros Hz Hn. destruct (decide (w < 0)) as [Hw|Hw].
  { rewrite Z.pow_neg_r in Hz by lia. lia. }
  rewrite <- (Z.mod_small z (2 ^ w)) by lia. apply Z.mod_pow2_bits_high. lia.
Qed.

Lemma testbit_s8 b n : 0 <= b < 256 -> 0 <= n < 8 -> Z.testbit (s8 b) n = Z.testbit b n.
Proof.
  intros Hb Hn. unfold s8.
  assert (exists k, (b + 2 ^ 7) mod 2 ^ 8 - 2 ^ 7 = b - k * 2 ^ 8) as [k ->].
  { exists ((b + 2 ^ 7) / 2 ^ 8). zdiv. }
  rewrite <- (Z.mod_pow2_bits_low (b - k * 2 ^ 8) 8), <- (Z.mod_pow2_bits_low b 8) by lia.
  f_equal. rewrite <- Zminus_mod_idemp_r, Z.mod_mul, Z.sub_0_r by lia. done.
Qed.

(** [(x >> k) & 1] is the bit [k] of [x]. *)
Lemma land_shiftr_1 x k : 0 <= k -> Z.land (Z.shiftr x k) 1 = Z.b2z (Z.testbit x k).
Proof.
  intros Hk. change 1 with (Z.ones 1). rewrite Z.land_ones by lia. change (2 ^ 1) with 2.
  rewrite <- Z.bit0_mod, Z.shiftr_spec by lia. do 2 f_equal.
Qed.

Lemma testbit_pow2 k n : 0 <= k -> Z.testbit (Z.shiftl 1 k) n = (n =? k).
Proof.
  intros Hk. rewrite Z.shiftl_mul_pow2, Z.mul_1_l by lia.
  rewrite Z.pow2_bits_eqb by lia. apply Z.eqb_sym.
Qed.

Lemma truthy_b2z b : truthy (Z.b2z b) = b.
Proof. by destruct b. Qed.

(** The test of one bit, as the code writes it. *)
Lemma land_bit c j : 0 <= j -> truthy (Z.land c (Z.shiftl 1 j)) = Z.testbit c j.
Proof.
  intros Hj. unfold truthy. destruct (Z.testbit c j) eqn:E.
  - apply negb_true_iff, Z.eqb_neq. intros H0. apply (f_equal (fun z => Z.testbit z j)) in H0.
    by rewrite Z.land_spec, testbit_pow2, Z.eqb_refl, E, Z.bits_0 in H0 by lia.
  - apply negb_false_iff, Z.eqb_eq, Z.bits_inj'. intros i Hi. rewrite Z.land_spec, testbit_pow2, Z.bits_0 by lia.
    bdestr (i =? j); subst; rewrite ?E; simpl; [done | apply andb_false_r].
Qed.

(** Clearing the low [k] bits. *)
Lemma ldiff_ones x k : 0 <= k -> Z.ldiff x (Z.ones k) = x - x mod 2 ^ k.
Proof.
  intros. rewrite Z.ldiff_ones_r, Z.shiftl_mul_pow2, Z.shiftr_div_pow2 by lia.
  pose proof (Z.div_mod x (2 ^ k)). lia.
Qed.

(** ** Finite case analysis

    A boolean property of an interval is decided by evaluating it at every
    point. *)

Definition all_between (lo hi : Z) (P : Z -> bool) : bool :=
  forallb P (seqZ lo (hi - lo)).

Lemma all_between_spec lo hi P i : all_between lo hi P = true -> lo <= i < hi -> P i = true.
Proof.
  unfold all_between. rewrite forallb_forall. intros H Hi. apply H.
  apply list_elem_of_In, elem_of_seqZ. lia.
Qed.

Lemma all_between_spec2 lo hi lo' hi' P i j :
  all_between lo hi (fun x => all_between lo' hi' (P x)) = true ->
  lo <= i < hi -> lo' <= j < hi' -> P i j = true.
Proof.
  intros H Hi Hj. eapply (all_between_spec lo' hi' (P i)); [|done].
  exact (all_between_spec _ _ (fun x => all_between lo' hi' (P x)) _ H Hi).
Qed.

(** The page masks of the memory code. *)
Lemma land_page_mask x : 0 <= x < 2 ^ 64 -> Z.land x 0xFFFFFFFFFFFFF000 = x - x mod 4096.
Proof.
  intros Hx. change 4096 with (2 ^ 12). rewrite <- ldiff_ones by lia.
  apply Z.bits_inj'. intros n Hn. rewrite Z.land_spec, Z.ldiff_spec.
  destruct (decide (n < 64)) as [Hlt|Hge].
  - f_equal. apply eqb_true_iff.
    exact (all_between_spec 0 64
      (fun n => eqb (Z.testbit 0xFFFFFFFFFFFFF000 n) (negb (Z.testbit (Z.ones 12) n)))
      n eq_refl (conj Hn Hlt)).
  - by rewrite (testbit_high x 64) by lia.
Qed.

(** The least multiple of the page size that is not below [x], as the
    allocators compute it. *)
Lemma page_round_up x :
  0 <= x < 2 ^ 64 - 4096 ->
  let y := if Z.land x 0xFFFFFFFFFFFFF000 <? x
           then u64 (Z.land x 0xFFFFFFFFFFFFF000 + 0x1000) else x in
  x <= y < x + 4096 /\ y mod 4096 = 0.
Proof.
  intros Hx. rewrite land_page_mask by lia.
  pose proof (Z.mod_pos_bound x 4096). bdestr (x - x mod 4096 <? x); cbn zeta.
  - rewrite u64_small by lia. split; [lia|].
    rewrite <- Z.add_sub_swap, <- Z.add_sub_assoc, Zplus_mod.
    pose proof (Z.div_mod x 4096). rewrite <- Zplus_mod.
    replace (x + (0x1000 - x mod 4096)) with ((x / 4096 + 1) * 4096) by lia. apply Z.mod_mul. lia.
  - lia.
Qed.

(** ** Lemmas on arrays *)

Lemma zlen_cons {A} (x : A) l : zlen (x :: l) = 1 + zlen l.
Proof. unfold zlen. cbn [length]. lia. Qed.

Lemma zlen_app {A} (l k : list A) : zlen (l ++ k) = zlen l + zlen k.
Proof. unfold zlen. rewrite length_app. lia. Qed.

Lemma zlen_nonneg {A} (l : list A) : 0 <= zlen l.
Proof. unfold zlen. lia. Qed.

Section arrays.
Context {A : Type}.
Implicit Types (l : list A) (i j : Z) (x : A).

Lemma zget_lt l i x : zget l i = Some x -> 0 <= i < zlen l.
Proof.
  unfold zget, zlen. bdestr (0 <=? i); [|done]. intros H%lookup_lt_Some. lia.
Qed.

Lemma zget_some l i : 0 <= i < zlen l -> exists x, zget l i = Some x.
Proof.
  unfold zget, zlen. intros H. bdestr (0 <=? i); [|lia]. apply lookup_lt_is_Some. lia.
Qed.

Lemma zget_none l i : zget l i = None <-> ~ (0 <= i < zlen l).
Proof.
  split.
  - intros H Hi. destruct (zget_some l i Hi). congruence.
  - intros H. destruct (zget l i) eqn:E; [|done]. by apply zget_lt in E.
Qed.

Lemma zset_eq l i x : 0 <= i < zlen l -> zset l i x = Some (<[Z.to_nat i := x]> l).
Proof. unfold zset, zlen. intros. bdestr (0 <=? i); bdestr (i <? Z.of_nat (length l)); done || lia. Qed.

Lemma zset_inv l i x l' :
  zset l i x = Some l' -> 0 <= i < zlen l /\ l' = <[Z.to_nat i := x]> l.
Proof.
  unfold zset, zlen. bdestr (0 <=? i); bdestr (i <? Z.of_nat (length l)); try done.
  simpl. intros [= <-]. split; [lia | done].
Qed.

Lemma zset_len l i x l' : zset l i x = Some l' -> length l' = length l.
Proof. intros [_ ->]%zset_inv. apply length_insert. Qed.

Lemma zget_zset l i x l' j :
  zset l i x = Some l' -> zget l' j = if j =? i then Some x else zget l j.
Proof.
  intros [Hi ->]%zset_inv. unfold zget, zlen in *. bdestr (0 <=? j); bdestr (j =? i); try lia; try done.
  - subst j. rewrite list_lookup_insert_eq; [done | lia].
  - rewrite list_lookup_insert_ne; [done | lia].
Qed.

Lemma zget_zset_eq l i x l' : zset l i x = Some l' -> zget l' i = Some x.
Proof. intros H. by rewrite (zget_zset _ _ _ _ _ H), Z.eqb_refl. Qed.

Lemma zget_zset_ne l i x l' j : zset l i x = Some l' -> j <> i -> zget l' j = zget l j.
Proof. intros H Hj. rewrite (zget_zset _ _ _ _ _ H). by bdestr (j =? i). Qed.

Lemma zget_ext l l' :
  length l = length l' -> (forall i, 0 <= i < zlen l -> zget l i = zget l' i) -> l = l'.
Proof.
  intros Hlen H. apply list_eq. intros k.
  destruct (decide (k < length l)%nat) as [Hk|Hk].
  - specialize (H (Z.of_nat k)). unfold zget, zlen in H.
    bdestr (0 <=? Z.of_nat k); [|lia]. rewrite Nat2Z.id in H. apply H. lia.
  - rewrite !lookup_ge_None_2; [done | lia | lia].
Qed.
End arrays.

(** ** Lemmas on loops *)

Lemma for_each_S {S} n i (body : Z -> S -> option S) s : for_each (Datatypes.S n) i body s = s' ← body i s; for_each n (i + 1) body s'.
Proof. done. Qed.

Lemma for_loop_S {S R} n i step (body : Z -> S -> option (S + R)) s :
  for_loop (Datatypes.S n) i step body s =
    r ← body i s; match r with inl s' => for_loop n (i + step) step body s' | inr v => Some (inr v) end.
Proof. done. Qed.

Lemma for_each_app {S} n m i (body : Z -> S -> option S) s :
  for_each (n + m) i body s = s' ← for_each n i body s; for_each m (i + Z.of_nat n) body s'.
Proof.
  revert i s. induction n as [|n IH]; intros i s; simpl.
  - by rewrite Z.add_0_r.
  - destruct (body i s) as [s'|]; simpl; [|done]. rewrite IH.
    by replace (i + 1 + Z.of_nat n) with (i + Z.pos (Pos.of_succ_nat n)) by lia.
Qed.

(** An invariant of the body that is indexed by the loop counter. *)
Lemma for_each_inv {S} (P : Z -> S -> Prop) (body : Z -> S -> option S) n i s :
  P i s ->
  (forall k t, i <= k < i + Z.of_nat n -> P k t -> exists t', body k t = Some t' /\ P (k + 1) t') ->
  exists s', for_each n i body s = Some s' /\ P (i + Z.of_nat n) s'.
Proof.
  revert i s. induction n as [|n IH]; intros i s HP Hstep; simpl.
  - exists s. rewrite Z.add_0_r. done.
  - destruct (Hstep i s) as (t & -> & Ht); [lia | done |]. simpl.
    destruct (IH (i + 1) t Ht) as (s' & -> & Hs').
    + intros k u Hk. apply Hstep. lia.
    + exists s'. split; [done|]. by replace (i + Z.of_nat (Datatypes.S n)) with (i + 1 + Z.of_nat n) by lia.
Qed.

(** The same for a loop that may return: what it returns satisfies [Q]. *)
Lemma for_loop_inv {S R} (P : Z -> S -> Prop) (Q : R -> Prop) (body : Z -> S -> option (S + R)) n i s :
  P i s ->
  (forall k t, i <= k < i + Z.of_nat n -> P k t ->
     exists r, body k t = Some r /\ match r with inl t' => P (k + 1) t' | inr v => Q v end) ->
  exists r, for_loop n i 1 body s = Some r /\
    match r with inl t => P (i + Z.of_nat n) t | inr v => Q v end.
Proof.
  revert i s. induction n as [|n IH]; intros i s HP Hstep; simpl.
  - eexists. split; [done|]. simpl. by rewrite Z.add_0_r.
  - destruct (Hstep i s) as ([t|v] & -> & Ht); [lia | done | |]; simpl; [|by eexists].
    destruct (IH (i + 1) t Ht) as (r & -> & Hr).
    + intros k u Hk. apply Hstep. lia.
    + exists r. split; [done|]. replace (i + Z.of_nat (Datatypes.S n)) with (i + 1 + Z.of_nat n) by lia. exact Hr.
Qed.

(** Apply it to the first loop of the goal. *)
Ltac loop_inv P Q r Hr :=
  match goal with |- context [for_loop ?n ?i 1 ?body ?s] =>
    let E := fresh "E" in
    destruct (for_loop_inv P Q body n i s) as (r & E & Hr); [| | rewrite E; clear E]
  end.

(** A search loop that leaves its state alone until it returns. *)
Lemma for_loop_skip {S R} n i (body : Z -> S -> option (S + R)) s :
  (forall k, i <= k < i + Z.of_nat n -> body k s = Some (inl s)) ->
  for_loop n i 1 body s = Some (inl s).
Proof.
  revert i. induction n as [|n IH]; intros i H; simpl; [done|].
  rewrite H by lia. simpl. apply IH. intros k Hk. apply H. lia.
Qed.

Lemma for_loop_hit {S R} n i (body : Z -> S -> option (S + R)) s k r :
  i <= k < i + Z.of_nat n -> (forall j, i <= j < k -> body j s = Some (inl s)) ->
  body k s = Some (inr r) -> for_loop n i 1 body s = Some (inr r).
Proof.
  revert i. induction n as [|n IH]; intros i Hk Hs Hb; simpl; [lia|].
  destruct (decide (k = i)) as [->|Hne]; [by rewrite Hb|].
  rewrite Hs by lia. simpl. apply IH; [lia | | done]. intros j Hj. apply Hs. lia.
Qed.

(** A loop that returns at the first element of a table that passes a test. *)
Lemma for_loop_find {A S R} (l : list A) (test : A -> bool) (res : A -> R)
    (body : Z -> S -> option (S + R)) s n i :
  (forall k, body k s = x ← zget l k; Some (if test x then inr (res x) else inl s)) ->
  (i + n <= length l)%nat ->
  for_loop n (Z.of_nat i) 1 body s =
    Some (match List.find test (take n (drop i l)) with Some x => inr (res x) | None => inl s end).
Proof.
  intros Hb. revert i. induction n as [|n IH]; intros i Hn; simpl; [done|].
  rewrite Hb. destruct (lookup_lt_is_Some_2 l i) as [x Hx]; [lia|].
  unfold zget. bdestr (0 <=? Z.of_nat i); [|lia]. rewrite Nat2Z.id, Hx. simpl.
  rewrite (drop_S _ _ _ Hx). simpl. destruct (test x); simpl; [done|].
  replace (Z.of_nat i + 1) with (Z.of_nat (Datatypes.S i)) by lia. apply IH. lia.
Qed.

Lemma for_loop_find0 {A S R} (l : list A) (test : A -> bool) (res : A -> R)
    (body : Z -> S -> option (S + R)) s n :
  (forall k, body k s = x ← zget l k; Some (if test x then inr (res x) else inl s)) ->
  (n <= length l)%nat ->
  for_loop n 0 1 body s =
    Some (match List.find test (take n l) with Some x => inr (res x) | None => inl s end).
Proof. intros Hb Hn. exact (for_loop_find l test res body s n 0 Hb Hn). Qed.

(** Joining words of [n] bits. *)
Lemma lor_bound n v w : 0 <= n -> 0 <= v < 2 ^ n -> 0 <= w < 2 ^ n -> 0 <= Z.lor v w < 2 ^ n.
Proof.
  intros Hn Hv Hw. split; [apply Z.lor_nonneg; lia|].
  destruct (decide (Z.lor v w = 0)) as [->|Hne]; [lia|].
  assert (0 <= Z.lor v w) by (apply Z.lor_nonneg; lia). assert (0 < n) by (destruct (decide (n = 0)) as [->|]; [change (2 ^ 0) with 1 in *; assert (v = 0) as -> by lia; assert (w = 0) as -> by lia; done | lia]).
  apply Z.log2_lt_pow2; [lia|]. rewrite Z.log2_lor by lia. apply Z.max_lub_lt.
  - destruct (decide (v = 0)) as [->|]; [done | apply Z.log2_lt_pow2; lia].
  - destruct (decide (w = 0)) as [->|]; [done | apply Z.log2_lt_pow2; lia].
Qed.

(** ** Counting and searching in an interval *)

Lemma seqZ_snoc lo n : 0 <= n -> seqZ lo (n + 1) = seqZ lo n ++ [lo + n].
Proof. intros. rewrite seqZ_app by lia. reflexivity. Qed.

Definition count (P : Z -> bool) (lo n : Z) : Z := zlen (filter (fun k => P k) (seqZ lo n)).

Lemma first_true (P : Z -> bool) lo n : 0 <= n ->
  (forall k, lo <= k < lo + n -> P k = false) \/
  exists k, lo <= k < lo + n /\ P k = true /\ forall j, lo <= j < k -> P j = false.
Proof.
  revert n. apply natlike_ind; [left; lia|]. intros n Hn [H|(k & Hk & HP & Hj)].
  - destruct (P (lo + n)) eqn:E.
    + right. exists (lo + n). split_and!; [lia | lia | done | intros j Hj; apply H; lia].
    + left. intros k Hk. destruct (decide (k = lo + n)) as [->|]; [done | apply H; lia].
  - right. exists k. split_and!; auto; lia.
Qed.

Lemma count_nil P lo : count P lo 0 = 0.
Proof. done. Qed.

Lemma count_succ P lo n : 0 <= n -> count P lo (Z.succ n) = count P lo n + Z.b2z (P (lo + n)).
Proof.
  intros Hn. unfold count. rewrite <- Z.add_1_r, seqZ_snoc by lia.
  rewrite filter_app. unfold zlen. rewrite length_app, filter_cons.
  destruct (P (lo + n)); case_decide as Hd; try (by destruct Hd); simpl; lia.
Qed.

Lemma count_bounds P lo n : 0 <= n -> 0 <= count P lo n <= n.
Proof.
  revert n. apply natlike_ind; [done|]. intros n Hn IH. rewrite count_succ by done.
  destruct (P (lo + n)); simpl; lia.
Qed.

Lemma count_ext P Q lo n : 0 <= n -> (forall k, lo <= k < lo + n -> P k = Q k) ->
  count P lo n = count Q lo n.
Proof.
  revert n. apply (natlike_ind (fun n => _ -> count P lo n = count Q lo n)); [done|].
  intros n Hn IH H. rewrite !count_succ by done. rewrite IH, H; [done | lia |].
  intros k Hk. apply H. lia.
Qed.

Lemma count_change P Q lo n f : 0 <= n -> lo <= f < lo + n ->
  (forall k, lo <= k < lo + n -> k <> f -> P k = Q k) ->
  count P lo n - Z.b2z (P f) = count Q lo n - Z.b2z (Q f).
Proof.
  revert n. apply (natlike_ind (fun n => _ -> _ -> count P lo n - _ = count Q lo n - _)); [lia|].
  intros n Hn IH Hf H. rewrite !count_succ by done. destruct (decide (f = lo + n)) as [->|Hne].
  - rewrite (count_ext P Q) by (done || (intros; apply H; lia)). lia.
  - rewrite (H (lo + n)) by lia. rewrite Z.add_sub_swap, IH; [lia | lia |].
    intros k Hk. apply H. lia.
Qed.

Lemma count_zero P lo n : 0 <= n ->
  count P lo n <= 0 <-> forall k, lo <= k < lo + n -> P k = false.
Proof.
  revert n. apply natlike_ind; [split; [lia | by rewrite count_nil]|]. intros n Hn IH.
  pose proof (count_bounds P lo n Hn). rewrite count_succ by done. split.
  - intros H0 k Hk. destruct (P (lo + n)) eqn:E; simpl in *; [lia|].
    destruct (decide (k = lo + n)) as [->|]; [done|]. apply IH; lia.
  - intros H0. rewrite H0 by lia. simpl. assert (count P lo n <= 0); [|lia].
    apply IH. intros k Hk. apply H0. lia.
Qed.

Lemma count_full P lo n : 0 <= n ->
  count P lo n = n <-> forall k, lo <= k < lo + n -> P k = true.
Proof.
  revert n. apply natlike_ind; [split; [lia | done]|]. intros n Hn IH.
  pose proof (count_bounds P lo n Hn). rewrite count_succ by done. split.
  - intros H0 k Hk. destruct (P (lo + n)) eqn:E; simpl in *; [|lia].
    destruct (decide (k = lo + n)) as [->|]; [done|]. apply IH; lia.
  - intros H0. rewrite H0 by lia. simpl. assert (count P lo n = n); [|lia].
    apply IH. intros k Hk. apply H0. lia.
Qed.

Lemma count_pos P lo n : 0 < count P lo n -> 0 <= n -> exists k, lo <= k < lo + n /\ P k = true.
Proof.
  intros Hpos Hn. revert Hpos. revert n Hn. apply (natlike_ind (fun n => _ -> exists k, _)); [done|].
  intros n Hn IH. rewrite count_succ by done. destruct (P (lo + n)) eqn:E.
  - intros _. exists (lo + n). split; [lia | done].
  - rewrite Z.add_0_r. intros H. destruct (IH H) as (k & Hk & HP). exists k. split; [lia | done].
Qed.

(** A counting loop. *)
Lemma for_each_count (P : Z -> bool) (body : Z -> Z -> option Z) n lo c :
  (forall k x, lo <= k < lo + Z.of_nat n -> c <= x < c + Z.of_nat n ->
     body k x = Some (if P k then x + 1 else x)) ->
  for_each n lo body c = Some (c + count P lo (Z.of_nat n)).
Proof.
  intros H. destruct (for_each_inv (fun k x => x = c + count P lo (k - lo)) body n lo c) as (s' & E & ->).
  - rewrite Z.sub_diag, count_nil. lia.
  - intros k t Hk ->. pose proof (count_bounds P lo (k - lo)). rewrite H by lia.
    eexists. split; [done|]. replace (k + 1 - lo) with (Z.succ (k - lo)) by lia.
    rewrite count_succ by lia. replace (lo + (k - lo)) with k by lia. destruct (P k); simpl; lia.
  - rewrite E. do 2 f_equal. f_equal. lia.
Qed.

(** ** Automation shared by the components *)

(** Loops are unrolled by the lemmas above, not by simplification. *)
#[global] Arguments for_loop : simpl never.
#[global] Arguments for_each : simpl never.

Create HintDb nile.
Create Rewrite HintDb nile.
#[export] Hint Resolve u8_range u16_range u32_range u64_range : nile.
#[export] Hint Rewrite @length_insert @length_replicate @length_app : nile.
#[export] Hint Rewrite truthy_b2z Z.b2z_bit0 : nile.
