(* ===== verification/Defines.v ===== *)
(** * Constants of [stage2/headers/defines.h] *)

From S2P Require Import Prelude.

#[local] Open Scope Z_scope.

(** ** Physical memory *)

Definition E820_MEMORY_ENTRY_TYPE_USABLE : Z := 0x1.
Definition E820_MEMORY_ENTRY_TYPE_RESEARVED : Z := 0x2.
Definition E820_MEMORY_ENTRY_TYPE_ACPI_RECLAINMED : Z := 0x3.
Definition E820_MEMORY_ENTRY_TYPE_ACPI_NVS : Z := 0x4.
Definition E820_MEMORY_ENTRY_TYPE_HOLE : Z := 0x6.

(** ** Memory map *)

Definition FIRST_MEMORY_1_MiB : Z := 0x100000.
Definition ONE_GIG_VALUE : Z := 0x40000000.
Definition TWO_MiB_MEMORY_PAGE_SIZE : Z := 0x200000.
Definition FOUR_KiB_MEMORY_PAGE_SIZE : Z := 0x1000.
Definition KERNEL_MEMORY_SIZE : Z := 0x2EE00000.
Definition PAGE_TABLE_UNIT_SIZE : Z := 0x200.
Definition PGD_ENTRIES_LIMIT : Z := 0x4.

Definition MEMORY_PAGE_TABLE_ENTRY_PRESENT : Z := 0x1.
Definition MEMORY_PAGE_TABLE_ENTRY_RW : Z := 0x2.
Definition MEMORY_PAGE_TABLE_ENTRY_USER : Z := 0x4.
Definition MEMORY_PAGE_TABLE_ENTRY_2MIB : Z := 0x80.

(** ** Service tables *)

Definition MAX_SERVICES : Z := 255.
Definition MAX_FUNCTIONS : Z := 255.

(** ** Interrupt numbers *)

Definition IRQ0 : Z := 32.
Definition IRQ14 : Z := 46.
Definition IRQ15 : Z := 47.
Definition IPIOE_IPI : Z := 98.
Definition WAKEUP_IPI : Z := 99.
Definition ATA_IPI : Z := 100.

(** ** Byte order *)

Definition htons (A : Z) : Z :=
  Z.lor (Z.shiftr (Z.land (u16 A) 0xff00) 8) (Z.shiftl (Z.land (u16 A) 0x00ff) 8).

Definition ntohs : Z -> Z := htons.
