(* ===== verification/Spinlock.v ===== *)
(** * Spin lock: [sources/sync/Spinlock.c]

    Two views of the same code.  [spinlock_lock], [spinlock_unlock] and
    [spinlock_trylock] are the functions as one core runs them without
    interference; [core_step] cuts [spinlock_lock] and [spinlock_unlock] at
    their accesses to the lock word, so that any number of cores interleave. *)

From S2P Require Import Prelude.

#[local] Open Scope Z_scope.

Definition SL_EBUSY : Z := 1.

Record spinlock_t := mkspinlock {
  lapic : Z;
  stack : Z;
  core_id : Z;
  spin_lock : Z
}.

#[export] Instance eta_spinlock_t : Eta spinlock_t :=
  fun r => mkspinlock (lapic r) (stack r) (core_id r) (spin_lock r).

(** [xchg] on the low word: the operand size selects how much is exchanged. *)
Definition spinlock_xchg_32 (s : spinlock_t) (x : Z) : spinlock_t * Z :=
  (s {{ spin_lock := Z.lor (Z.shiftl (Z.shiftr (spin_lock s) 32) 32) (u32 x) }},
   u32 (spin_lock s)).

Definition spinlock_xchg_64 (s : spinlock_t) (x : Z) : spinlock_t * Z :=
  (s {{ spin_lock := u64 x }}, spin_lock s).

Definition spinlock_init (s : spinlock_t) : spinlock_t :=
  s {{ core_id := 0; lapic := 0; stack := 0; spin_lock := 0 }}.

(** ** One core alone

    [apic] is [getAPICId(spinlock->lapic)] on the running core.  [None] stands
    for the wait loop that nobody will end: with one core running, the lock
    word never changes. *)

Definition spinlock_lock (apic : Z) (s : spinlock_t) : option spinlock_t :=
  if (0 <? lapic s) && (core_id s =? apic + 1) then Some (s {{ stack := u16 (stack s + 1) }})
  else
    let '(s1, old) := spinlock_xchg_32 s SL_EBUSY in
    if old =? 0 then
      let s2 := s1 {{ stack := u16 (stack s1 + 1) }} in
      Some (if 0 <? lapic s2 then s2 {{ core_id := u16 (apic + 1) }} else s2)
    else None.

Definition spinlock_unlock (apic : Z) (s : spinlock_t) : spinlock_t :=
  if (0 <? lapic s) && negb (core_id s =? apic + 1) then s
  else
    let s1 := s {{ stack := u16 (stack s - 1) }} in
    if stack s1 =? 0 then s1 {{ spin_lock := 0; core_id := 0 }} else s1.

Definition spinlock_trylock (apic : Z) (s : spinlock_t) : spinlock_t * Z :=
  if (0 <? lapic s) && (core_id s =? apic + 1) then (s, core_id s)
  else let '(s1, old) := spinlock_xchg_64 s SL_EBUSY in (s1, u16 old).

(** ** Interleaved cores

    The program counters of a core that repeatedly runs
    [spinlock_lock; <critical section>; spinlock_unlock]. *)

Inductive pc :=
  | Idle        (* before the call of spinlock_lock *)
  | Acquire     (* about to execute xchg *)
  | Spin        (* in while (spinlock->spin_lock) *)
  | CountUp     (* xchg returned 0: about to execute stack++ *)
  | SetOwner    (* about to test lapic and store core_id *)
  | Critical    (* spinlock_lock has returned *)
  | CheckOwner  (* spinlock_unlock called: about to test core_id *)
  | CountDown   (* about to execute stack-- *)
  | TestStack   (* about to test stack == 0 *)
  | Release     (* about to store spin_lock = 0 *)
  | ClearOwner. (* about to store core_id = 0 *)

#[export] Instance pc_eq_dec : EqDecision pc.
Proof. solve_decision. Defined.

Definition core_step (apic : Z) (p : pc) (s : spinlock_t) : spinlock_t * pc :=
  match p with
  | Idle =>
      if (0 <? lapic s) && (core_id s =? apic + 1)
      then (s {{ stack := u16 (stack s + 1) }}, Critical) else (s, Acquire)
  | Acquire =>
      let '(s1, old) := spinlock_xchg_32 s SL_EBUSY in
      (s1, if old =? 0 then CountUp else Spin)
  | Spin => (s, if spin_lock s =? 0 then Acquire else Spin)
  | CountUp => (s {{ stack := u16 (stack s + 1) }}, SetOwner)
  | SetOwner => (if 0 <? lapic s then s {{ core_id := u16 (apic + 1) }} else s, Critical)
  | Critical => (s, CheckOwner)
  | CheckOwner =>
      (s, if (0 <? lapic s) && negb (core_id s =? apic + 1) then Idle else CountDown)
  | CountDown => (s {{ stack := u16 (stack s - 1) }}, TestStack)
  | TestStack => (s, if stack s =? 0 then Release else Idle)
  | Release => (s {{ spin_lock := 0 }}, ClearOwner)
  | ClearOwner => (s {{ core_id := 0 }}, Idle)
  end.

Record machine := mkmachine { lock : spinlock_t; pcs : nat -> pc }.

(** Core [c] has the local APIC identifier [Z.of_nat c]. *)
Definition step_core (c : nat) (m : machine) : machine :=
  let '(s, p) := core_step (Z.of_nat c) (pcs m c) (lock m) in
  mkmachine s (fun d => if decide (d = c) then p else pcs m d).

Inductive step : machine -> machine -> Prop :=
  | step_intro c m : step m (step_core c m).

Inductive reachable (m0 : machine) : machine -> Prop :=
  | reach_refl : reachable m0 m0
  | reach_step m m' : reachable m0 m -> step m m' -> reachable m0 m'.

Definition boot : machine :=
  mkmachine (spinlock_init (mkspinlock 0 0 0 0)) (fun _ => Idle).

(** The cores that own the lock, and the value the nesting counter has at each
    of their program counters. *)
Definition owns (p : pc) : bool :=
  match p with
  | CountUp | SetOwner | Critical | CheckOwner | CountDown | TestStack | Release => true
  | Idle | Acquire | Spin | ClearOwner => false
  end.

Definition nesting (p : pc) : Z :=
  match p with SetOwner | Critical | CheckOwner | CountDown => 1 | _ => 0 end.

(** Run the cores of a schedule, one step each. *)
Definition run (cs : list nat) (m : machine) : machine := fold_left (fun m c => step_core c m) cs m.

(** The invariant: at most one core is between its successful exchange and its
    store of [spin_lock = 0], and the lock word and the nesting counter are a
    function of where that core stands. *)
Definition lock_inv (m : machine) : Prop :=
  lapic (lock m) = 0 /\
  exists h : option nat,
    (forall d, owns (pcs m d) = true <-> h = Some d) /\
    match h with
    | None => spin_lock (lock m) = 0 /\ stack (lock m) = 0
    | Some c => spin_lock (lock m) = 1 /\ stack (lock m) = nesting (pcs m c)
    end.

(** Any number of nested acquisitions and releases by one core. *)
Fixpoint lock_times (n : nat) (apic : Z) (s : spinlock_t) : option spinlock_t :=
  match n with O => Some s | S n' => s' ← lock_times n' apic s; spinlock_lock apic s' end.

Fixpoint unlock_times (n : nat) (apic : Z) (s : spinlock_t) : spinlock_t :=
  match n with O => s | S n' => unlock_times n' apic (spinlock_unlock apic s) end.

(** An unheld lock, as [spinlock_init] leaves it, whether or not it tracks its owner. *)
Definition unheld (s : spinlock_t) : Prop := stack s = 0 /\ core_id s = 0 /\ spin_lock s = 0.

(** ** Lemmas: one core *)

Lemma spinlock_eta s : s = mkspinlock (lapic s) (stack s) (core_id s) (spin_lock s).
Proof. by destruct s. Qed.

Lemma lock_unheld apic s :
  unheld s -> 0 <= apic < 65535 ->
  spinlock_lock apic s =
    Some (mkspinlock (lapic s) 1 (if 0 <? lapic s then apic + 1 else 0) 1).
Proof.
  intros (H1 & H2 & H3) Ha. destruct s as [l st c w]; simpl in *; subst.
  unfold spinlock_lock, spinlock_xchg_32, SL_EBUSY. cbn.
  bdestr (0 =? apic + 1); [lia|]. bdestr (0 <? l); cbn; [|done].
  rewrite (u16_small (apic + 1)) by lia. done.
Qed.

(** The whole bracket [spinlock_lock; ...; spinlock_unlock] leaves the lock as it was. *)
Lemma lock_unlock apic s :
  unheld s -> 0 <= apic < 65535 ->
  exists s', spinlock_lock apic s = Some s' /\ spinlock_unlock apic s' = s.
Proof.
  intros Hs Ha. eexists. split; [by apply lock_unheld|]. destruct Hs as (H1 & H2 & H3).
  destruct s as [l st c w]; simpl in *; subst. unfold spinlock_unlock. simpl.
  bdestr (0 <? l); simpl; [rewrite Z.eqb_refl; simpl|]; done.
Qed.

Lemma lock_times_owner n apic s :
  unheld s -> 0 < lapic s -> 0 <= apic < 65535 -> 0 < Z.of_nat n < 65536 ->
  lock_times n apic s = Some (mkspinlock (lapic s) (Z.of_nat n) (apic + 1) 1).
Proof.
  intros Hs Hl Ha. induction n as [|n IH]; intros Hn; [lia|]. simpl.
  destruct n as [|n].
  - simpl. rewrite lock_unheld by done. bdestr (0 <? lapic s); [done | lia].
  - rewrite IH by lia. simpl. unfold spinlock_lock. cbn [lapic core_id].
    bdestr (0 <? lapic s); [|lia]. rewrite Z.eqb_refl. cbn [andb]. cbv [RecordSetters.constant]. cbn.
    do 2 f_equal. rewrite u16_small by lia. lia.
Qed.

Lemma unlock_times_owner k apic l n :
  0 < l -> Z.of_nat k < n < 65536 ->
  unlock_times k apic (mkspinlock l n (apic + 1) 1) =
    mkspinlock l (n - Z.of_nat k) (apic + 1) 1.
Proof.
  intros Hl. revert n. induction k as [|k IH]; intros n Hn; cbn [unlock_times].
  - f_equal. lia.
  - unfold spinlock_unlock at 1. cbn. bdestr (0 <? l); [|lia]. rewrite Z.eqb_refl. cbn.
    rewrite u16_small by lia. bdestr (n - 1 =? 0); [lia|]. rewrite IH by lia. f_equal. lia.
Qed.

(** ** Lemmas: interleaved cores *)

Lemma run_reachable cs m0 m : reachable m0 m -> reachable m0 (run cs m).
Proof.
  revert m. induction cs as [|c cs IH]; intros m H; simpl; [done|].
  apply IH. econstructor 2; [exact H | constructor].
Qed.

Lemma boot_inv : lock_inv boot.
Proof. split; [done|]. exists None. split; [|done]. by intros d. Qed.

Lemma step_core_lock c m : lock (step_core c m) = fst (core_step (Z.of_nat c) (pcs m c) (lock m)).
Proof. unfold step_core. by destruct (core_step _ _ _). Qed.

Lemma step_core_pc c m : pcs (step_core c m) c = snd (core_step (Z.of_nat c) (pcs m c) (lock m)).
Proof. unfold step_core. destruct (core_step _ _ _). simpl. by rewrite decide_True. Qed.

Lemma step_core_other c d m : d <> c -> pcs (step_core c m) d = pcs m d.
Proof. intros. unfold step_core. destruct (core_step _ _ _). simpl. by rewrite decide_False. Qed.

(** A step of the owner: it keeps the lock, or frees it. *)
Lemma owner_step apic p s :
  owns p = true -> lapic s = 0 -> spin_lock s = 1 -> stack s = nesting p ->
  let '(s', p') := core_step apic p s in
  lapic s' = 0 /\
  if owns p' then spin_lock s' = 1 /\ stack s' = nesting p'
  else spin_lock s' = 0 /\ stack s' = 0.
Proof. destruct s as [l st ci w]. simpl. intros Ho -> -> ->. by destruct p. Qed.

(** A step of another core while the lock is held. *)
Lemma waiter_step apic p s :
  owns p = false -> lapic s = 0 -> spin_lock s = 1 ->
  let '(s', p') := core_step apic p s in
  owns p' = false /\ lapic s' = 0 /\ spin_lock s' = 1 /\ stack s' = stack s.
Proof. destruct s as [l st ci w]. simpl. intros Ho -> ->. by destruct p. Qed.

(** A step of any core while the lock is free: it takes the lock, or not. *)
Lemma free_step apic p s :
  owns p = false -> lapic s = 0 -> spin_lock s = 0 -> stack s = 0 ->
  let '(s', p') := core_step apic p s in
  lapic s' = 0 /\ stack s' = 0 /\ nesting p' = 0 /\
  spin_lock s' = if owns p' then 1 else 0.
Proof. destruct s as [l st ci w]. simpl. intros Ho -> -> ->. by destruct p. Qed.

Lemma step_inv c m : lock_inv m -> lock_inv (step_core c m).
Proof.
  intros (Hl & h & Hh & Hw).
  pose proof (owner_step (Z.of_nat c) (pcs m c) (lock m)) as Ho.
  pose proof (waiter_step (Z.of_nat c) (pcs m c) (lock m)) as Hwt.
  pose proof (free_step (Z.of_nat c) (pcs m c) (lock m)) as Hf.
  pose proof (step_core_other c) as Hd. pose proof (Hh c) as Hc.
  unfold lock_inv. rewrite step_core_lock.
  pose proof (step_core_pc c m) as Ep.
  destruct (core_step (Z.of_nat c) (pcs m c) (lock m)) as [s' p'] eqn:Es. simpl in *.
  assert (forall h', (owns p' = true <-> h' = Some c) ->
    (forall d, d <> c -> h' = Some d <-> h = Some d) ->
    forall d, owns (pcs (step_core c m) d) = true <-> h' = Some d) as Hnext.
  { intros h' H1 H2 d. destruct (decide (d = c)) as [->|Hn]; [by rewrite Ep|].
    rewrite Hd, Hh, H2 by done. done. }
  destruct h as [c'|].
  - destruct Hw as [Hw Hst]. destruct (decide (c' = c)) as [->|Hn].
    + destruct Ho as [? Ho]; try done; [by apply Hc|]. split; [done|].
      destruct (owns p') eqn:Eo.
      * exists (Some c). rewrite Ep. split; [|done]. by apply Hnext.
      * exists None. split; [|done]. apply Hnext; naive_solver.
    + assert (owns (pcs m c) = false) as Eo by (apply not_true_is_false; naive_solver).
      destruct Hwt as (? & ? & ? & ?); try done. split; [done|]. exists (Some c').
      rewrite Hd by done. split; [|split; congruence]. apply Hnext; naive_solver.
  - destruct Hw as [Hw Hst].
    assert (owns (pcs m c) = false) as Eo by (apply not_true_is_false; naive_solver).
    destruct Hf as (? & ? & ? & ?); try done. split; [done|]. destruct (owns p') eqn:Eo'.
    + exists (Some c). rewrite Ep. split; [|split; congruence]. apply Hnext; naive_solver.
    + exists None. split; [|done]. apply Hnext; naive_solver.
Qed.

Lemma reachable_inv m : reachable boot m -> lock_inv m.
Proof. induction 1 as [|m m' _ IH H]; [apply boot_inv|]. destruct H. by apply step_inv. Qed.

(** *** Progress *)

(** From any point of its cycle, a core that runs alone on a free lock gets it. *)
Lemma acquire_alone m c :
  lapic (lock m) = 0 -> spin_lock (lock m) = 0 -> owns (pcs m c) = false ->
  exists cs, pcs (run cs m) c = Critical.
Proof.
  destruct m as [[l st ci w] p]. simpl. intros -> -> Hp.
  assert (forall k m', pcs m' c = Critical -> m' = run (replicate k c) (mkmachine (mkspinlock 0 st ci 0) p) ->
    exists cs, pcs (run cs (mkmachine (mkspinlock 0 st ci 0) p)) c = Critical) as Hk.
  { intros k m' H ->. by exists (replicate k c). }
  destruct (p c) eqn:E; try done;
    [eapply (Hk 4%nat) | eapply (Hk 3%nat) | eapply (Hk 4%nat) | eapply (Hk 5%nat)]; try reflexivity;
    cbn [replicate run fold_left]; unfold run; cbn [fold_left];
    repeat (rewrite step_core_pc || (unfold step_core at 1; cbn [pcs lock]));
    rewrite ?E; cbn; rewrite ?decide_True by done; done.
Qed.

(** Steps an owner has left before it frees the lock. *)
Definition steps_to_release (p : pc) : nat :=
  match p with
  | CountUp => 7 | SetOwner => 6 | Critical => 5 | CheckOwner => 4
  | CountDown => 3 | TestStack => 2 | Release => 1 | _ => 0
  end.

Lemma owner_advances apic p s :
  owns p = true -> lapic s = 0 -> spin_lock s = 1 -> stack s = nesting p ->
  let p' := snd (core_step apic p s) in
  owns p' = true -> (steps_to_release p' < steps_to_release p)%nat.
Proof. destruct s as [l st ci w]. simpl. intros Ho -> -> ->. destruct p; simpl in *; done || lia. Qed.

Lemma owner_releases n m c :
  (steps_to_release (pcs m c) <= n)%nat -> lock_inv m -> owns (pcs m c) = true ->
  exists cs, spin_lock (lock (run cs m)) = 0 /\ lock_inv (run cs m).
Proof.
  revert m. induction n as [|n IH]; intros m Hn Hm Ho.
  { by destruct (pcs m c); simpl in *; try lia. }
  pose proof Hm as (Hl & h & Hh & Hw). assert (h = Some c) as -> by by apply Hh.
  destruct Hw as [Hw Hst].
  pose proof (owner_advances (Z.of_nat c) (pcs m c) (lock m) Ho Hl Hw Hst) as Hadv.
  pose proof (owner_step (Z.of_nat c) (pcs m c) (lock m) Ho Hl Hw Hst) as Hos.
  pose proof (step_core_lock c m) as El. pose proof (step_core_pc c m) as Ep.
  destruct (core_step (Z.of_nat c) (pcs m c) (lock m)) as [s' p'] eqn:Es. simpl in *.
  destruct (owns p') eqn:Eo.
  - destruct (IH (step_core c m)) as (cs & H1 & H2).
    + rewrite Ep. specialize (Hadv eq_refl). lia.
    + by apply step_inv.
    + by rewrite Ep.
    + by exists (c :: cs).
  - exists [c]. simpl. rewrite El. split; [naive_solver | by apply step_inv].
Qed.

Lemma run_app cs cs' m : run (cs ++ cs') m = run cs' (run cs m).
Proof. apply fold_left_app. Qed.

Lemma free_nobody_owns m c : lock_inv m -> spin_lock (lock m) = 0 -> owns (pcs m c) = false.
Proof.
  intros (_ & h & Hh & Hw) H. apply not_true_is_false. intros Hc. apply Hh in Hc. subst h.
  destruct Hw. congruence.
Qed.

(** *** A lock that tracks its owner *)

Definition tracked_boot : machine := mkmachine (mkspinlock 0xFEE00020 0 0 0) (fun _ => Idle).

(** A state no core leaves: the word is taken, nobody is recorded as owner. *)
Definition stuck (m : machine) : Prop :=
  lapic (lock m) = 0xFEE00020 /\ core_id (lock m) = 0 /\ spin_lock (lock m) = 1 /\
  forall c, pcs m c = Idle \/ pcs m c = Acquire \/ pcs m c = Spin.

Lemma stuck_step c m : stuck m -> stuck (step_core c m).
Proof.
  intros (H1 & H2 & H3 & Hp). unfold stuck. rewrite step_core_lock.
  pose proof (step_core_pc c m) as Ep. pose proof (step_core_other c) as Hd.
  destruct (lock m) as [l st ci w]. simpl in *. subst.
  assert (0 =? Z.of_nat c + 1 = false) as Ez by (apply Z.eqb_neq; lia).
  destruct (Hp c) as [E|[E|E]]; rewrite E in Ep |- *; simpl in Ep |- *; rewrite ?Ez in Ep |- *;
    simpl in Ep |- *; split_and!; try done; intros d;
    (destruct (decide (d = c)) as [->|]; [rewrite Ep; auto | rewrite Hd by done; auto]).
Qed.

Lemma stuck_run cs m : stuck m -> stuck (run cs m).
Proof. revert m. induction cs as [|c cs IH]; intros m H; [done|]. apply IH, stuck_step, H. Qed.

(** Core 0 stores [spin_lock = 0] and is overtaken before it stores [core_id = 0]. *)
Definition overtaking_schedule : list nat :=
  replicate 9 0%nat ++ replicate 4 1%nat ++ [0%nat] ++ replicate 2 1%nat.

(** * Properties *)

(** C3: mutual exclusion.  Whatever the interleaving of the cores' accesses to
    the lock word, two cores are never both between the return of
    [spinlock_lock] and the release in [spinlock_unlock]. *)
Theorem mutual_exclusion m c d :
  reachable boot m -> owns (pcs m c) = true -> owns (pcs m d) = true -> c = d.
Proof.
  intros (_ & h & Hh & _)%reachable_inv Hc Hd. apply Hh in Hc, Hd. congruence.
Qed.

Lemma mutual_exclusion_witness :
  let m := run (replicate 4 3%nat ++ replicate 4 7%nat) boot in
  pcs m 3%nat = Critical /\ pcs m 7%nat = Spin /\
  (forall d, owns (pcs m d) = true -> 3%nat = d).
Proof.
  split; [reflexivity|]. split; [reflexivity|]. intros d.
  apply (mutual_exclusion (run (replicate 4 3%nat ++ replicate 4 7%nat) boot) 3 d);
    [apply run_reachable; constructor | reflexivity].
Defined.

(** C26: no deadlock.  From every state the cores can reach, every core can be
    scheduled so that its [spinlock_lock] returns. *)
Theorem lock_progress m c :
  reachable boot m -> exists cs, pcs (run cs m) c = Critical.
Proof.
  intros Hm%reachable_inv.
  assert (exists cs, spin_lock (lock (run cs m)) = 0 /\ lock_inv (run cs m)) as (cs & H0 & Hi).
  { pose proof Hm as (_ & [d|] & Hh & Hw); [|by exists []; destruct Hw].
    eapply owner_releases; [reflexivity | done | by apply Hh]. }
  pose proof Hi as (Hl & _).
  destruct (acquire_alone (run cs m) c) as [cs' H']; auto using free_nobody_owns.
  exists (cs ++ cs'). by rewrite run_app.
Qed.

Lemma lock_progress_witness :
  exists cs, pcs (run cs (run (replicate 5 0%nat) boot)) 1%nat = Critical.
Proof. apply (lock_progress (run (replicate 5 0%nat) boot)), run_reachable. constructor. Defined.

(** Nesting.  A core that locks [n] times a lock that tracks its owner holds
    it through [n - 1] unlocks, and the last unlock restores the lock. *)
Theorem nested_lock_unlock n k apic s :
  unheld s -> 0 < lapic s -> 0 <= apic < 65535 -> 0 < Z.of_nat n < 65536 -> (k < n)%nat ->
  exists s', lock_times n apic s = Some s' /\
    spin_lock (unlock_times k apic s') = 1 /\ core_id (unlock_times k apic s') = apic + 1 /\
    unlock_times n apic s' = s.
Proof.
  intros Hs Hl Ha Hn Hk. rewrite lock_times_owner by done. eexists. split; [done|].
  rewrite unlock_times_owner by lia. split_and!; try done.
  replace n with ((n - 1) + 1)%nat at 1 by lia.
  assert (forall i j t, unlock_times (i + j) apic t = unlock_times j apic (unlock_times i apic t)) as Happ.
  { intros i. induction i as [|i IH]; intros j t; simpl; [done | by rewrite IH]. }
  rewrite Happ, unlock_times_owner by lia. simpl. unfold spinlock_unlock. cbn [lapic core_id].
  bdestr (0 <? lapic s); [|lia]. rewrite Z.eqb_refl. cbn.
  replace (Z.of_nat n - Z.of_nat (n - 1) - 1) with 0 by lia. cbn.
  destruct Hs as (-> & -> & ->) || destruct s, Hs as (? & ? & ?); simpl in *; by subst.
Qed.

Lemma nested_lock_unlock_witness :
  let s := mkspinlock 0xFEE00020 0 0 0 in
  unheld s /\ exists s', lock_times 3 5 s = Some s' /\
    spin_lock (unlock_times 2 5 s') = 1 /\ core_id (unlock_times 2 5 s') = 6 /\
    unlock_times 3 5 s' = s.
Proof.
  split; [repeat split|]. apply (nested_lock_unlock 3 2 5); [repeat split | | | |]; simpl; lia.
Defined.

(** An acquisition by [spinlock_trylock] is not counted.  The lock it takes
    is not given back by the matching [spinlock_unlock]: the nesting counter
    wraps to 65535 and the word stays taken. *)
Theorem trylock_never_released apic s :
  unheld s -> lapic s = 0 ->
  let '(s1, r) := spinlock_trylock apic s in
  r = 0 /\ stack (spinlock_unlock apic s1) = 65535 /\ spin_lock (spinlock_unlock apic s1) = 1 /\
  spinlock_lock apic (spinlock_unlock apic s1) = None.
Proof. destruct s as [l st ci w]. intros (H1 & H2 & H3) H4. simpl in *. by subst. Qed.

Lemma trylock_never_released_witness :
  let '(s1, r) := spinlock_trylock 0 (mkspinlock 0 0 0 0) in
  r = 0 /\ stack (spinlock_unlock 0 s1) = 65535 /\ spin_lock (spinlock_unlock 0 s1) = 1 /\
  spinlock_lock 0 (spinlock_unlock 0 s1) = None.
Proof. apply (trylock_never_released 0 (mkspinlock 0 0 0 0)); repeat split. Defined.

(** With an owner-tracking lock, [spinlock_unlock] frees the word before it
    clears [core_id], so a core that acquires in between loses its ownership
    record, its own unlock returns early, and no core ever enters again. *)
Theorem tracked_lock_lost :
  exists cs, let m := run cs tracked_boot in
    (exists c, pcs m c = Idle) /\
    forall cs' c, pcs (run cs' m) c <> Critical.
Proof.
  exists overtaking_schedule. split; [by exists 0%nat|]. intros cs' c.
  assert (stuck (run overtaking_schedule tracked_boot)) as Hs.
  { repeat split. intros [|[|d]]; auto. }
  apply (stuck_run cs') in Hs as (_ & _ & _ & Hp). destruct (Hp c) as [->|[->| ->]]; done.
Qed.
