(* ===== verification/KMalloc.v ===== *)
(** * Kernel and user bump allocators: [sources/memory/KMalloc.c]

    Every operation runs under the allocator's own spin lock; a call that
    would wait forever on it is [None].  The argument [apic] is the identifier
    of the core that runs the operation. *)

From S2P Require Import Prelude Spinlock.

#[local] Open Scope Z_scope.

Record MemoryAllocator := mkMemoryAllocator {
  kernel_memory_start_address : Z;
  kernel_memory_current_address : Z;
  kernel_memory_end_address : Z;
  user_memory_start_address : Z;
  user_memory_current_address : Z;
  user_memory_end_address : Z;
  touch : Z;
  spinlock : spinlock_t
}.

#[export] Instance eta_MemoryAllocator : Eta MemoryAllocator :=
  fun r => mkMemoryAllocator (kernel_memory_start_address r)
    (kernel_memory_current_address r) (kernel_memory_end_address r)
    (user_memory_start_address r) (user_memory_current_address r)
    (user_memory_end_address r) (touch r) (spinlock r).

Definition lock_allocator (apic : Z) (m : MemoryAllocator) : option MemoryAllocator :=
  l ← spinlock_lock apic (spinlock m); Some (m {{ spinlock := l }}).

Definition unlock_allocator (apic : Z) (m : MemoryAllocator) : MemoryAllocator :=
  m {{ spinlock := spinlock_unlock apic (spinlock m) }}.

Definition kmalloc (apic : Z) (m : MemoryAllocator) (p_size : Z) : option (MemoryAllocator * Z) :=
  m ← lock_allocator apic m;
  if u64 (kernel_memory_current_address m + p_size) <? kernel_memory_end_address m then
    let cur := kernel_memory_current_address m in
    let m := m {{ kernel_memory_current_address := u64 (cur + p_size) }} in
    Some (unlock_allocator apic m, cur)
  else Some (unlock_allocator apic m, 0x0).

(** [if ((cur & 0xFFFFFFFFFFFFF000) < cur) { cur &= ...; cur += 0x1000; }] *)
Definition page_align (cur : Z) : Z :=
  if Z.land cur 0xFFFFFFFFFFFFF000 <? cur
  then u64 (Z.land cur 0xFFFFFFFFFFFFF000 + 0x1000) else cur.

Definition kvalloc (apic : Z) (m : MemoryAllocator) (p_size : Z) : option (MemoryAllocator * Z) :=
  m ← lock_allocator apic m;
  let cur := page_align (kernel_memory_current_address m) in
  if u64 (cur + p_size) <? kernel_memory_end_address m then
    let m := m {{ kernel_memory_current_address := u64 (cur + p_size) }} in
    Some (unlock_allocator apic m, cur)
  else Some (unlock_allocator apic m, 0x0).

Definition malloc (apic : Z) (m : MemoryAllocator) (p_size : Z) : option (MemoryAllocator * Z) :=
  m ← lock_allocator apic m;
  if u64 (user_memory_current_address m + p_size) <? user_memory_end_address m then
    let cur := user_memory_current_address m in
    let m := m {{ user_memory_current_address := u64 (cur + p_size) }} in
    Some (unlock_allocator apic m, cur)
  else Some (unlock_allocator apic m, 0x0).

Definition valloc (apic : Z) (m : MemoryAllocator) (p_size : Z) : option (MemoryAllocator * Z) :=
  m ← lock_allocator apic m;
  let cur := page_align (user_memory_current_address m) in
  if u64 (cur + p_size) <? user_memory_end_address m then
    let m := m {{ user_memory_current_address := u64 (cur + p_size) }} in
    Some (unlock_allocator apic m, cur)
  else Some (unlock_allocator apic m, 0x0).

(** ** Resetting the user arena

    Memory is a function from addresses to bytes. *)

Definition memset (mem : Z -> Z) (dst value len : Z) : Z -> Z :=
  fun a => if (dst <=? a) && (a <? dst + len) then u8 value else mem a.

Definition memset_user_memory (m : MemoryAllocator) (mem : Z -> Z) : Z -> Z :=
  memset mem (user_memory_start_address m) 0
    (u64 (user_memory_end_address m - user_memory_start_address m)).

Definition memoryAllocatorTouch (apic : Z) (m : MemoryAllocator) : option MemoryAllocator :=
  m ← lock_allocator apic m;
  Some (unlock_allocator apic (m {{ touch := u16 (touch m + 1) }})).

Definition memoryAllocatorUntouch (apic : Z) (m : MemoryAllocator) (mem : Z -> Z)
  : option (MemoryAllocator * (Z -> Z)) :=
  m ← lock_allocator apic m;
  let m := if 0 <? touch m then m {{ touch := u16 (touch m - 1) }} else m in
  if touch m =? 0 then
    let m := m {{ user_memory_current_address := user_memory_start_address m }} in
    Some (unlock_allocator apic m, memset_user_memory m mem)
  else Some (unlock_allocator apic m, mem).

(** ** Moving the boundary between the arenas

    [kernel_used_memory * 1.1] is a product of binary64 numbers: the integer
    is rounded to 53 significant bits, multiplied by the binary64 number
    nearest to 1.1, which is [DOUBLE_1_1 / 2^52], rounded again, and truncated. *)

Definition DOUBLE_1_1 : Z := 4953959590107546.

(** Round a natural number to 53 significant bits, ties to even. *)
Definition round53 (n : Z) : Z :=
  let k := Z.max 0 (Z.log2 n - 52) in
  let q := n / 2 ^ k in
  let r := 2 * (n mod 2 ^ k) in
  let up := (2 ^ k <? r) || ((r =? 2 ^ k) && (0 <? k) && Z.odd q) in
  (if up then q + 1 else q) * 2 ^ k.

Definition times_1_1 (n : Z) : Z := u64 (round53 (round53 n * DOUBLE_1_1) / 2 ^ 52).

Definition memoryAllocatorAdjust (apic : Z) (m : MemoryAllocator) : option MemoryAllocator :=
  m ← lock_allocator apic m;
  let kernel_used_memory := u64 (kernel_memory_current_address m - kernel_memory_start_address m) in
  let kernel_used_memory := times_1_1 kernel_used_memory in
  let m := m {{ kernel_memory_end_address := u64 (kernel_used_memory + kernel_memory_start_address m) }} in
  let m := m {{ user_memory_start_address := u64 (kernel_memory_end_address m + 1) }} in
  let m := m {{ user_memory_start_address := page_align (user_memory_start_address m) }} in
  let m := m {{ user_memory_current_address := user_memory_start_address m }} in
  Some (unlock_allocator apic m).

(** ** The allocator as one service *)

Inductive request :=
  | Kmalloc (size : Z) | Kvalloc (size : Z) | Malloc (size : Z) | Valloc (size : Z).

Definition request_size (r : request) : Z :=
  match r with Kmalloc n | Kvalloc n | Malloc n | Valloc n => n end.

Definition for_user (r : request) : bool :=
  match r with Malloc _ | Valloc _ => true | _ => false end.

Definition page_aligned (r : request) : bool :=
  match r with Kvalloc _ | Valloc _ => true | _ => false end.

Definition serve (apic : Z) (m : MemoryAllocator) (r : request) : option (MemoryAllocator * Z) :=
  match r with
  | Kmalloc n => kmalloc apic m n
  | Kvalloc n => kvalloc apic m n
  | Malloc n => malloc apic m n
  | Valloc n => valloc apic m n
  end.

(** The calls of a program and the address each of them returned. *)
Fixpoint serve_all (apic : Z) (m : MemoryAllocator) (rs : list request)
  : option (MemoryAllocator * list (request * Z)) :=
  match rs with
  | [] => Some (m, [])
  | r :: rs =>
      x ← serve apic m r; let '(m', a) := x in
      y ← serve_all apic m' rs; let '(m'', out) := y in
      Some (m'', (r, a) :: out)
  end.

Definition arena_start (u : bool) (m : MemoryAllocator) : Z :=
  if u then user_memory_start_address m else kernel_memory_start_address m.
Definition arena_current (u : bool) (m : MemoryAllocator) : Z :=
  if u then user_memory_current_address m else kernel_memory_current_address m.
Definition arena_end (u : bool) (m : MemoryAllocator) : Z :=
  if u then user_memory_end_address m else kernel_memory_end_address m.

(** Two disjoint arenas below 2^63, their bump pointers inside, the lock free. *)
Record alloc_wf (m : MemoryAllocator) : Prop := {
  wf_unheld : unheld (spinlock m);
  wf_kernel : 0 < kernel_memory_start_address m <= kernel_memory_current_address m;
  wf_kernel_end : kernel_memory_current_address m <= kernel_memory_end_address m;
  wf_order : kernel_memory_end_address m <= user_memory_start_address m;
  wf_user : user_memory_start_address m <= user_memory_current_address m;
  wf_user_end : user_memory_current_address m <= user_memory_end_address m < 2 ^ 63;
  wf_touch : 0 <= touch m < 65536
}.

Definition valid_request (r : request) : Prop := 0 <= request_size r < 2 ^ 63 - 2 ^ 12.

(** The block [(r, a)] was granted and lies between two addresses. *)
Definition block_within (lo hi : Z) (b : request * Z) : Prop :=
  lo <= snd b /\ snd b + request_size (fst b) <= hi /\
  (page_aligned (fst b) = true -> snd b mod 4096 = 0).

Definition disjoint_blocks (b b' : request * Z) : Prop :=
  snd b + request_size (fst b) <= snd b' \/ snd b' + request_size (fst b') <= snd b.

(** ** Lemmas *)

Lemma lock_allocator_ok apic m :
  unheld (spinlock m) -> 0 <= apic < 65535 ->
  exists m', lock_allocator apic m = Some m' /\
    exists l, m' = m {{ spinlock := l }} /\ spinlock_unlock apic l = spinlock m.
Proof.
  intros Hu Ha. destruct (lock_unlock apic (spinlock m) Hu Ha) as (l & El & Eu).
  unfold lock_allocator. rewrite El. simpl. eauto.
Qed.

(** The locked bump operation common to the four functions. *)
Lemma allocator_eta m : m {{ spinlock := spinlock m }} = m.
Proof. by destruct m. Qed.

Lemma page_align_spec x : 0 <= x < 2 ^ 64 - 4096 ->
  x <= page_align x < x + 4096 /\ page_align x mod 4096 = 0.
Proof. apply page_round_up. Qed.

Definition set_current (u : bool) (m : MemoryAllocator) (a : Z) : MemoryAllocator :=
  if u then m {{ user_memory_current_address := a }}
  else m {{ kernel_memory_current_address := a }}.

(** The four functions are one bump operation on their arena, without the lock. *)
Lemma serve_bump apic m r :
  unheld (spinlock m) -> 0 <= apic < 65535 ->
  let u := for_user r in
  let base := if page_aligned r then page_align (arena_current u m) else arena_current u m in
  let next := u64 (base + request_size r) in
  serve apic m r =
    Some (if next <? arena_end u m then (set_current u m next, base) else (m, 0)).
Proof.
  intros Hu Ha. destruct (lock_allocator_ok apic m Hu Ha) as (m' & El & l & -> & Eu).
  destruct r as [n|n|n|n]; simpl; unfold kmalloc, kvalloc, malloc, valloc; rewrite El; simpl;
    case_match; unfold unlock_allocator; simpl; rewrite ?Eu; destruct m; simpl in *; repeat case_match; congruence || done.
Qed.

Lemma serve_spec apic m r :
  alloc_wf m -> 0 <= apic < 65535 -> valid_request r ->
  let u := for_user r in
  exists m' a, serve apic m r = Some (m', a) /\ alloc_wf m' /\
    (forall v, arena_start v m' = arena_start v m /\ arena_end v m' = arena_end v m /\
               arena_current v m <= arena_current v m') /\
    (m' = m /\ a = 0 \/
     block_within (arena_current u m) (arena_current u m') (r, a) /\
     m' = set_current u m (a + request_size r) /\ a + request_size r < arena_end u m).
Proof.
  intros Hm Ha Hr. rewrite serve_bump by (auto using wf_unheld). cbv zeta.
  destruct Hm as [H1 H2 H3 H4 H5 H6 H7]. unfold valid_request in Hr.
  generalize (for_user r) as u. intros u.
  assert (0 < arena_current u m <= arena_end u m /\ arena_end u m < 2 ^ 63) as Hc
    by (unfold arena_current, arena_end; destruct u; lia).
  remember (if page_aligned r then page_align (arena_current u m) else arena_current u m) as base.
  assert (arena_current u m <= base < arena_current u m + 4096 /\
    (page_aligned r = true -> base mod 4096 = 0)) as [Hb Hal].
  { subst base. destruct (page_aligned r); [|split; [lia|done]].
    pose proof (page_align_spec (arena_current u m)). split; [|intros _]; lia. }
  rewrite u64_small by lia. bdestr (base + request_size r <? arena_end u m).
  - eexists _, _. split; [reflexivity|]. clear Heqbase.
    unfold set_current, arena_end, arena_current, arena_start, block_within in *.
    destruct m, u; simpl in *; (split; [split; simpl; done || lia|]); (split; [intros []; simpl; lia|]);
      right; simpl; auto with lia.
  - exists m, 0. split; [done|]. split; [by split|]. split; [|by left]. intros v. lia.
Qed.

(** The case of a caller that knows there is room. *)
Lemma kmalloc_fits apic m n :
  alloc_wf m -> 0 <= apic < 65535 -> 0 <= n ->
  kernel_memory_current_address m + n < kernel_memory_end_address m ->
  let m' := m {{ kernel_memory_current_address := kernel_memory_current_address m + n }} in
  kmalloc apic m n = Some (m', kernel_memory_current_address m) /\ alloc_wf m' /\
  kernel_memory_current_address m <> 0.
Proof.
  intros Hm Ha Hn Hfit. pose proof (serve_bump apic m (Kmalloc n) (wf_unheld _ Hm) Ha) as E.
  simpl in *. destruct Hm as [H1 H2 H3 H4 H5 H6 H7]. rewrite u64_small in E by lia.
  bdestr (kernel_memory_current_address m + n <? kernel_memory_end_address m); [|lia].
  split; [exact E|]. split; [split; simpl; done || lia | lia].
Qed.

Lemma kvalloc_fits apic m n :
  alloc_wf m -> 0 <= apic < 65535 -> 0 <= n ->
  kernel_memory_current_address m + n + 4096 < kernel_memory_end_address m ->
  exists m' a, kvalloc apic m n = Some (m', a) /\ alloc_wf m' /\
    kernel_memory_end_address m' = kernel_memory_end_address m /\
    kernel_memory_current_address m <= a < kernel_memory_current_address m + 4096 /\
    kernel_memory_current_address m' = a + n.
Proof.
  intros Hm Ha Hn Hfit. pose proof (serve_bump apic m (Kvalloc n) (wf_unheld _ Hm) Ha) as E.
  simpl in *. destruct Hm as [H1 H2 H3 H4 H5 H6 H7].
  destruct (page_align_spec (kernel_memory_current_address m)) as [Hp _]; [lia|]. rewrite u64_small in E by lia.
  bdestr (page_align (kernel_memory_current_address m) + n <? kernel_memory_end_address m); [|lia].
  eexists _, _. split; [exact E|]. split; [split; simpl; done || lia|]. simpl. split; [done|]. lia.
Qed.

Definition granted (b : request * Z) : Prop := snd b <> 0.

Definition granted_disjoint (b b' : request * Z) : Prop :=
  granted b -> granted b' -> disjoint_blocks b b'.

(** The granted block lies in the part of its arena consumed between two states. *)
Definition block_between (m m' : MemoryAllocator) (b : request * Z) : Prop :=
  granted b ->
  block_within (arena_current (for_user (fst b)) m) (arena_current (for_user (fst b)) m') b.

Definition same_arenas (m m' : MemoryAllocator) : Prop :=
  forall v, arena_start v m' = arena_start v m /\ arena_end v m' = arena_end v m /\
            arena_current v m <= arena_current v m'.

Lemma same_arenas_trans m1 m2 m3 : same_arenas m1 m2 -> same_arenas m2 m3 -> same_arenas m1 m3.
Proof. intros H1 H2 v. specialize (H1 v). specialize (H2 v). lia. Qed.

Lemma alloc_wf_arena m v : alloc_wf m ->
  0 < arena_start v m <= arena_current v m /\ arena_current v m <= arena_end v m.
Proof. intros []. destruct v; simpl; lia. Qed.

Lemma alloc_wf_order m : alloc_wf m -> arena_current false m <= arena_start true m.
Proof. intros []. simpl. lia. Qed.

(** A block granted before a state and a block granted after it are disjoint. *)
Lemma block_before_after m0 m1 m2 b b' :
  alloc_wf m0 -> alloc_wf m1 -> alloc_wf m2 -> same_arenas m0 m1 -> same_arenas m1 m2 ->
  block_between m0 m1 b -> block_between m1 m2 b' -> granted_disjoint b b'.
Proof.
  intros W0 W1 W2 S1 S2 B B' G G'. specialize (B G). specialize (B' G').
  unfold block_within in *. pose proof (alloc_wf_order _ W1). pose proof (alloc_wf_order _ W2).
  pose proof (alloc_wf_arena _ true W0). pose proof (alloc_wf_arena _ true W1).
  pose proof (S1 true). pose proof (S2 true). unfold disjoint_blocks.
  destruct (for_user (fst b)), (for_user (fst b')); lia.
Qed.

Lemma block_between_mono m0 m1 m2 m3 b :
  same_arenas m0 m1 -> same_arenas m2 m3 -> block_between m1 m2 b -> block_between m0 m3 b.
Proof.
  intros S1 S2 H G. specialize (H G). unfold block_within in *.
  specialize (S1 (for_user (fst b))). specialize (S2 (for_user (fst b))). intuition lia.
Qed.

Lemma serve_all_spec apic m rs :
  alloc_wf m -> 0 <= apic < 65535 -> Forall valid_request rs ->
  exists m' out, serve_all apic m rs = Some (m', out) /\ alloc_wf m' /\ same_arenas m m' /\
    map fst out = rs /\ Forall (block_between m m') out /\
    ForallOrdPairs granted_disjoint out.
Proof.
  intros Hm Ha Hrs. revert m Hm. induction Hrs as [|r rs Hr _ IH]; intros m Hm; simpl.
  { exists m, []. split_and!; try done; try constructor; intros v; lia. }
  destruct (serve_spec apic m r Hm Ha Hr) as (m1 & a & -> & Hm1 & Hs & Hb). simpl.
  destruct (IH m1 Hm1) as (m2 & out & -> & Hm2 & Hs2 & <- & Hall & Hpairs). simpl.
  assert (block_between m m1 (r, a)) as Hb1 by (intros G; destruct Hb as [[_ ->]|[? _]]; done).
  eexists _, _. split; [reflexivity|].
  assert (same_arenas m1 m1) as Hr1 by (intros v; lia).
  assert (same_arenas m2 m2) as Hr2 by (intros v; lia).
  split_and!; [done | by eapply same_arenas_trans | done | |].
  - apply Forall_cons; split; [eapply (block_between_mono m m m1 m2); try done; intros v; lia|].
    eapply Forall_impl; [done|]. intros b. by apply block_between_mono.
  - constructor; [|done]. eapply Forall_impl; [done|]. intros b.
    intros Hb2. by eapply (block_before_after m m1 m2).
Qed.

Lemma round53_error n : 0 <= n -> 2 ^ 53 * Z.abs (round53 n - n) <= n.
Proof.
  intros Hn. unfold round53. set (k := Z.max 0 (Z.log2 n - 52)).
  assert (0 <= k) as Hk by lia. pose proof (Z.pow_pos_nonneg 2 k).
  pose proof (Z.div_mod n (2 ^ k)). pose proof (Z.mod_pos_bound n (2 ^ k)).
  destruct (decide (k = 0)) as [E|E].
  { rewrite E in *. change (2 ^ 0) with 1 in *. rewrite Z.mod_1_r in *. cbn.
    replace (n / 1 * 1 - n) with 0 by lia. simpl. lia. }
  assert (2 ^ 52 * 2 ^ k <= n) as Hbig.
  { rewrite <- Z.pow_add_r by lia. destruct (decide (n = 0)) as [->|]; [simpl in *; lia|].
    pose proof (Z.log2_spec n). replace (52 + k) with (Z.log2 n) by lia. lia. }
  set (q := n / 2 ^ k) in *. set (r := n mod 2 ^ k) in *. set (p := 2 ^ k) in *.
  assert (2 * Z.abs ((if (p <? 2 * r) || ((2 * r =? p) && (0 <? k) && Z.odd q)
            then q + 1 else q) * p - n) <= p); [|nia].
  bdestr (p <? 2 * r); simpl; [nia|]. destruct ((2 * r =? p) && (0 <? k) && Z.odd q) eqn:Eb.
  - apply andb_true_iff in Eb as [Eb _]. apply andb_true_iff in Eb as [Eb _].
    apply Z.eqb_eq in Eb. nia.
  - nia.
Qed.

Lemma round53_exact n : 0 <= n < 2 ^ 53 -> round53 n = n.
Proof. intros Hn. pose proof (round53_error n). lia. Qed.

(** The factor applied to the used memory: never a shrink, at most a tenth more. *)
Lemma times_1_1_spec n :
  0 <= n < 2 ^ 48 -> n <= times_1_1 n /\ 10 * times_1_1 n <= 11 * n.
Proof.
  intros Hn. unfold times_1_1. rewrite (round53_exact n) by lia.
  assert (0 <= n * DOUBLE_1_1) as Hp by (unfold DOUBLE_1_1; lia).
  pose proof (round53_error _ Hp) as He. remember (round53 (n * DOUBLE_1_1)) as x.
  unfold DOUBLE_1_1 in *. rewrite u64_small; [split|]; zdiv.
Qed.

(** * Properties *)


(** The allocator used by the witnesses: 64 KiB for the kernel, 64 KiB for users. *)
Definition small_allocator : MemoryAllocator :=
  mkMemoryAllocator 0x10000 0x10010 0x20000 0x20000 0x20000 0x30000 0 (mkspinlock 0 0 0 0).

Lemma small_allocator_wf : alloc_wf small_allocator.
Proof. by split. Qed.


(** What each allocation call does.  It grants the next free address of its
    arena exactly when the block ends below the arena's end, moves the bump
    pointer behind the block and touches nothing else; otherwise it returns 0
    and the allocator, its spin lock included, is as before. *)
Theorem allocate_step apic m r :
  alloc_wf m -> 0 <= apic < 65535 -> valid_request r ->
  let u := for_user r in
  let base := if page_aligned r then page_align (arena_current u m) else arena_current u m in
  serve apic m r =
    Some (if base + request_size r <? arena_end u m
          then (set_current u m (base + request_size r), base) else (m, 0)).
Proof.
  intros Hm Ha Hr. rewrite serve_bump by auto using wf_unheld. cbv zeta.
  pose proof (alloc_wf_arena _ (for_user r) Hm). unfold valid_request in Hr.
  assert (arena_end (for_user r) m < 2 ^ 63) by (destruct Hm, r; simpl; lia).
  pose proof (page_align_spec (arena_current (for_user r) m)).
  rewrite u64_small; [done|]. destruct (page_aligned r); lia.
Qed.

Lemma allocate_step_witness :
  serve 3 small_allocator (Kvalloc 32) =
    Some (set_current false small_allocator 0x11020, 0x11000).
Proof.
  rewrite (allocate_step 3 small_allocator (Kvalloc 32));
    [reflexivity | apply small_allocator_wf | lia | unfold valid_request; simpl; lia].
Defined.

(** The guard [current + size < end] is computed modulo 2^64, so a request
    larger than the whole address range that is left is granted, the bump
    pointer moves backwards and the next block overlaps an earlier one. *)
Theorem kmalloc_wraps apic m back :
  alloc_wf m -> 0 <= apic < 65535 -> 0 < back <= kernel_memory_current_address m ->
  exists m', kmalloc apic m (2 ^ 64 - back) = Some (m', kernel_memory_current_address m) /\
    kernel_memory_current_address m' = kernel_memory_current_address m - back.
Proof.
  intros Hm Ha Hb. pose proof (serve_bump apic m (Kmalloc (2 ^ 64 - back))) as E.
  cbn [serve] in E. rewrite E by auto using wf_unheld. clear E. cbn.
  destruct Hm as [H1 H2 H3 H4 H5 H6 H7].
  assert (u64 (kernel_memory_current_address m + (2 ^ 64 - back)) =
          kernel_memory_current_address m - back) as E by (unfold u64; zdiv).
  cbn in E. rewrite E. bdestr (kernel_memory_current_address m - back <? kernel_memory_end_address m);
    [|lia]. eexists. split; [reflexivity|]. by destruct m.
Qed.

Lemma kmalloc_wraps_witness :
  exists m', kmalloc 0 small_allocator (2 ^ 64 - 16) = Some (m', 0x10010) /\
    kernel_memory_current_address m' = 0x10000.
Proof. apply (kmalloc_wraps 0 small_allocator 16); [apply small_allocator_wf | lia | simpl; lia]. Defined.

(** Touches nest.  An untouch above depth one only counts down; the one
    that reaches depth zero gives the whole user arena back and zeroes it,
    and memory outside the user arena keeps its contents. *)
Theorem touch_untouch apic m mem :
  alloc_wf m -> 0 <= apic < 65535 -> touch m < 65535 ->
  exists m1, memoryAllocatorTouch apic m = Some m1 /\ touch m1 = touch m + 1 /\
  exists m2 mem2, memoryAllocatorUntouch apic m1 mem = Some (m2, mem2) /\ touch m2 = touch m /\
    (0 < touch m -> m2 = m /\ mem2 = mem) /\
    (touch m = 0 ->
       m2 = m {{ user_memory_current_address := user_memory_start_address m }} /\
       forall a, mem2 a = if (user_memory_start_address m <=? a) && (a <? user_memory_end_address m)
                          then 0 else mem a).
Proof.
  intros Hm Ha Ht. unfold memoryAllocatorTouch, memoryAllocatorUntouch.
  destruct (lock_allocator_ok apic m (wf_unheld _ Hm) Ha) as (m' & -> & l & -> & Eu).
  destruct Hm as [H1 H2 H3 H4 H5 H6 H7]. eexists. split; [reflexivity|].
  destruct m as [ks kc ke us uc ue t sl]. simpl in *. unfold lock_allocator, unlock_allocator. simpl. rewrite Eu.
  rewrite (u16_small (t + 1)) by lia. split; [done|].
  unfold lock_allocator, unlock_allocator. simpl.
  destruct (lock_unlock apic sl H1 Ha) as (l' & -> & Eu'). simpl.
  bdestr (0 <? t + 1); [|lia]. simpl. replace (t + 1 - 1) with t by lia.
  rewrite u16_small, Eu' by lia. bdestr (t =? 0).
  - eexists _, _. split; [reflexivity|]. simpl. split_and!; [done | lia |].
    intros _. split; [done|]. intros a. unfold memset_user_memory, memset. simpl.
    rewrite u64_small by lia. by replace (us + (ue - us)) with ue by lia.
  - eexists _, _. split; [reflexivity|]. simpl. split_and!; [done | done | lia].
Qed.

Lemma touch_untouch_witness :
  exists m1, memoryAllocatorTouch 0 small_allocator = Some m1 /\ touch m1 = 1 /\
  exists m2 mem2, memoryAllocatorUntouch 0 m1 (fun _ => 7) = Some (m2, mem2) /\ touch m2 = 0 /\
    mem2 0x20005 = 0 /\ mem2 0x30000 = 7.
Proof.
  destruct (touch_untouch 0 small_allocator (fun _ => 7)) as (m1 & E1 & T1 & m2 & mem2 & E2 & T2 & _ & H);
    [apply small_allocator_wf | lia | simpl; lia |].
  exists m1. split; [done|]. split; [done|]. exists m2, mem2. split; [done|]. split; [done|].
  destruct (H eq_refl) as [_ Hm]. by rewrite !Hm.
Defined.

#[local] Arguments times_1_1 : simpl never.

(** [memoryAllocatorAdjust] fits the kernel arena to the memory in use plus
    at most a tenth, and starts the user arena on the first page boundary
    behind it: nothing allocated so far is cut off. *)
Theorem adjust_keeps_used_memory apic m :
  alloc_wf m -> 0 <= apic < 65535 ->
  kernel_memory_current_address m - kernel_memory_start_address m < 2 ^ 48 ->
  exists m', memoryAllocatorAdjust apic m = Some m' /\
    let used := kernel_memory_current_address m - kernel_memory_start_address m in
    let capacity := kernel_memory_end_address m' - kernel_memory_start_address m' in
    used <= capacity /\ 10 * capacity <= 11 * used /\
    kernel_memory_current_address m' = kernel_memory_current_address m /\
    kernel_memory_end_address m' < user_memory_start_address m' <= kernel_memory_end_address m' + 4096 /\
    user_memory_start_address m' mod 4096 = 0 /\
    user_memory_current_address m' = user_memory_start_address m' /\
    spinlock m' = spinlock m.
Proof.
  intros Hm Ha Hu. unfold memoryAllocatorAdjust.
  destruct (lock_allocator_ok apic m (wf_unheld _ Hm) Ha) as (m' & -> & l & -> & Eu).
  destruct Hm as [H1 H2 H3 H4 H5 H6 H7]. destruct m as [ks kc ke us uc ue t sl]. simpl in *.
  rewrite (u64_small (kc - ks)) by lia.
  destruct (times_1_1_spec (kc - ks)) as [T1 T2]; [lia|].
  remember (times_1_1 (kc - ks)) as cap. eexists. split; [reflexivity|]. simpl.
  rewrite (u64_small (cap + ks)) by lia. rewrite (u64_small (cap + ks + 1)) by lia.
  pose proof (page_align_spec (cap + ks + 1)). rewrite Eu. split_and!; lia || done.
Qed.

Lemma adjust_keeps_used_memory_witness :
  exists m', memoryAllocatorAdjust 0 small_allocator = Some m' /\
    kernel_memory_current_address m' = 0x10010.
Proof.
  destruct (adjust_keeps_used_memory 0 small_allocator) as (m' & E & H);
    [apply small_allocator_wf | lia | simpl; lia |].
  exists m'. split; [done|]. apply H.
Defined.
