(* ===== verification/Service.v ===== *)
(** * Services and the service transport layer:
    [sources/devices/service/service.c] and
    [sources/devices/service_transport_layer/service_transport_layer.c]

    A function pointer is the name of the C function it points to, [None] is
    NULL; what a call through it does is an argument of the dispatcher. *)

From S2P Require Import Prelude Defines.

#[local] Open Scope Z_scope.

Definition functionPtr : Type := option string.

Record Parameter_t := mkParameter {
  param_tag : string;
  param_type : string;
  encrypted : bool;
  base64Encoded : bool;
  variableSize : bool;
  sizeOfParameter : Z
}.

#[export] Instance eta_Parameter_t : Eta Parameter_t :=
  fun r => mkParameter (param_tag r) (param_type r) (encrypted r) (base64Encoded r)
    (variableSize r) (sizeOfParameter r).

Record MethodStructure := mkMethodStructure {
  methodPtr : functionPtr;
  parameters : list Parameter_t;
  parametersCount : Z;
  method_returns : list Parameter_t;
  returnsCount : Z
}.

#[export] Instance eta_MethodStructure : Eta MethodStructure :=
  fun r => mkMethodStructure (methodPtr r) (parameters r) (parametersCount r)
    (method_returns r) (returnsCount r).

Definition sharedMemory_t : Z := 7.
Definition ackermannFunctionService_t : Z := 9.

Record Service := mkService {
  service_method : list functionPtr;          (* MAX_FUNCTIONS entries *)
  testMethod : list MethodStructure;          (* 10 entries *)
  service_name : Z;
  service_method_count : Z;
  serviceString : string;
  add_service_ptr : functionPtr;
  add_serviceTest_ptr : functionPtr;
  serviceTestParameterDescription_ptr : functionPtr;
  parserMethod : functionPtr
}.

#[export] Instance eta_Service : Eta Service :=
  fun r => mkService (service_method r) (testMethod r) (service_name r)
    (service_method_count r) (serviceString r) (add_service_ptr r) (add_serviceTest_ptr
    r) (serviceTestParameterDescription_ptr r) (parserMethod r).

Definition service_init (service : Service) (name : Z) : option (Service * Z) :=
  let service := service {{ service_name := name }} in
  let service :=
    if negb (name =? sharedMemory_t) && negb (name =? ackermannFunctionService_t)
    then service {{ add_service_ptr := Some "add_service" }}
    else service {{ add_serviceTest_ptr := Some "add_service_test";
                    serviceTestParameterDescription_ptr := Some "add_serviceTestParameterDescription" }} in
  service ← for_each (Z.to_nat (service_method_count service)) 0
    (fun i service =>
       methods ← zupd (testMethod service) i (fun me => me {{ parametersCount := 0; returnsCount := 0 }});
       Some (service {{ testMethod := methods }})) service;
  Some (service, 1).

Definition add_service (service : Service) (fnptr : functionPtr) (location : Z) : option (Service * Z) :=
  match fnptr with
  | Some _ =>
      if MAX_FUNCTIONS <=? location then Some (service, 0)
      else methods ← zset (service_method service) location fnptr;
           Some (service {{ service_method := methods }}, 1)
  | None => Some (service, 0)
  end.

(** Calls of [add_service] in a row, their results dropped. *)
Definition add_services (fs : list (string * Z)) (s : Service) : option Service :=
  foldl (fun s '(f, loc) => s ← s; x ← add_service s (Some f) loc; Some (fst x)) (Some s) fs.

(** [strcpy] into [char serviceString[100]]: a longer name leaves the field. *)
Definition add_service_test (service : Service) (fnptr : functionPtr) (location : Z) (name : string)
  : option (Service * Z) :=
  if 100 <=? Z.of_nat (String.length name) then None else
  let service := service {{ serviceString := name }} in
  match fnptr with
  | Some _ =>
      if MAX_FUNCTIONS <=? location then Some (service, 0)
      else methods ← zupd (testMethod service) location (fun me => me {{ methodPtr := fnptr }});
           Some (service {{ testMethod := methods }}, 1)
  | None => Some (service, 0)
  end.

(** [memcpy(dst, src, strlen(src))] into a zeroed field of [n] characters. *)
Definition copy_field (n : Z) (src : string) : option string :=
  if Z.of_nat (String.length src) <=? n then Some src else None.

Definition add_serviceTestParameterDescription (service : Service) (location : Z) (tag type : string)
    (size : Z) (variableSize encrypted base64Encoded isReturn : bool) : option Service :=
  method ← zget (testMethod service) location;
  tag ← copy_field 50 tag; type ← copy_field 20 type;
  let p := mkParameter tag type encrypted base64Encoded variableSize size in
  method ← (if negb isReturn then
      ps ← zset (parameters method) (parametersCount method) p;
      Some (method {{ parameters := ps; parametersCount := s32 (parametersCount method + 1) }})
    else
      rs ← zset (method_returns method) (returnsCount method) p;
      Some (method {{ method_returns := rs; returnsCount := s32 (returnsCount method + 1) }}));
  methods ← zset (testMethod service) location method;
  Some (service {{ testMethod := methods }}).

(** ** Transport layer *)

Record service_transport_kernel := mkTransport {
  max_services : Z;
  curr_count : Z;
  kernel_services : list (option Service)     (* 256 entries *)
}.

#[export] Instance eta_service_transport_kernel : Eta service_transport_kernel :=
  fun r => mkTransport (max_services r) (curr_count r) (kernel_services r).

Definition InitServiceTransportLayer (t : service_transport_kernel) : service_transport_kernel * bool :=
  (t {{ max_services := 256; curr_count := 0 }}, true).

Definition RegisterServiceToKernel (t : service_transport_kernel) (service_to_register : Service)
    (location : Z) : option (service_transport_kernel * bool) :=
  if curr_count t =? max_services t then Some (t, false)
  else
    services ← zset (kernel_services t) location (Some service_to_register);
    Some (t {{ curr_count := s32 (curr_count t + 1); kernel_services := services }}, true).

(** [exec f w] runs the function named [f] on the state [w] of the system. *)
Definition DispatchKernel {W} (exec : string -> W -> option W) (t : service_transport_kernel)
    (service method_num : Z) (w : W) : option (W * bool) :=
  s ← zget (kernel_services t) service; s ← s;
  f ← zget (service_method s) method_num; f ← f;
  w ← exec f w;
  Some (w, true).

(** The request is parsed into parameters, which the method gets; its result is
    returned.  A call through NULL is undefined. *)
Definition DispatchKernelTest {W} (parse : string -> Service -> Z -> Z -> W -> option (W * Z)) (call : string -> Z -> W -> option (W * Z))
    (t : service_transport_kernel) (service method_num location_of_message : Z) (w : W) : option (W * Z) :=
  s ← zget (kernel_services t) service; s ← s;
  f ← parserMethod s;
  '(w, params) ← parse f s location_of_message method_num w;
  method ← zget (testMethod s) method_num;
  g ← methodPtr method;
  call g params w.

(** A service whose tables have the sizes of the declarations. *)
Definition service_wf (s : Service) : Prop :=
  zlen (service_method s) = MAX_FUNCTIONS /\ zlen (testMethod s) = 10.

Definition no_method : MethodStructure :=
  mkMethodStructure None (replicate 15 (mkParameter EmptyString EmptyString false false false 0)) 0
    (replicate 15 (mkParameter EmptyString EmptyString false false false 0)) 0.

(** The zeroed static object a service starts as. *)
Definition blank_service : Service :=
  mkService (replicate 255 None) (replicate 10 no_method) 0 0 EmptyString None None None None.

Definition blank_transport : service_transport_kernel :=
  mkTransport 0 0 (replicate 256 None).

(** * Properties *)

(** A function that was added to a service and a service that was
    registered with the transport layer are what a dispatch to their numbers
    calls; other methods of the service are still dispatched as before. *)
Theorem dispatch_calls_registered {W} (exec : string -> W -> option W) s t f method service w :
  service_wf s -> zlen (kernel_services t) = 256 -> curr_count t < max_services t ->
  0 <= method < MAX_FUNCTIONS -> 0 <= service < 256 ->
  exists s' t', add_service s (Some f) method = Some (s', 1) /\ service_wf s' /\
    RegisterServiceToKernel t s' service = Some (t', true) /\
    DispatchKernel exec t' service method w = (w' ← exec f w; Some (w', true)) /\
    forall m g, m <> method -> zget (service_method s) m = Some (Some g) ->
      DispatchKernel exec t' service m w = (w' ← exec g w; Some (w', true)).
Proof.
  intros [Hs1 Hs2] Ht Hc Hm Hl. unfold add_service, RegisterServiceToKernel.
  bdestr (MAX_FUNCTIONS <=? method); [lia|].
  pose proof (zset_eq (service_method s) method (Some f) ltac:(lia)) as Es. rewrite Es. simpl.
  eexists _, _. split; [reflexivity|].
  split; [split; simpl; [|done]; unfold zlen in *; by rewrite length_insert|].
  bdestr (curr_count t =? max_services t); [lia|].
  match goal with |- context [zset (kernel_services t) service ?x] =>
    pose proof (zset_eq (kernel_services t) service x ltac:(lia)) as Ek end.
  rewrite Ek. simpl. split; [reflexivity|]. unfold DispatchKernel. simpl.
  rewrite (zget_zset_eq _ _ _ _ Ek). simpl. split.
  - by rewrite (zget_zset_eq _ _ _ _ Es).
  - intros m g Hne Hg. by rewrite (zget_zset_ne _ _ _ _ _ Es Hne), Hg.
Qed.

Lemma dispatch_calls_registered_witness :
  let exec := fun (f : string) (w : list string) => Some (f :: w) in
  let t := fst (InitServiceTransportLayer blank_transport) in
  exists s' t', add_service blank_service (Some "IsAddress"%string) 5 = Some (s', 1) /\
    RegisterServiceToKernel t s' 1 = Some (t', true) /\
    DispatchKernel exec t' 1 5 [] = Some (["IsAddress"%string], true).
Proof.
  intros exec t.
  destruct (dispatch_calls_registered exec blank_service t "IsAddress"%string 5 1 [])
    as (s' & t' & E & W & R & D & _); [by split | done | done | done | done |].
  exists s', t'. split; [exact E|]. split; [exact R | exact D].
Defined.

(** [add_service_test] checks its location against [MAX_FUNCTIONS], not
    against the ten methods a service has: every location from 10 to 254
    passes the check and addresses a method outside the array. *)
Theorem add_service_test_unbounded s f location name :
  service_wf s -> 10 <= location < MAX_FUNCTIONS -> add_service_test s (Some f) location name = None.
Proof.
  destruct s as [sm tm sn sc ss p1 p2 p3]. unfold service_wf. simpl. intros [_ Hs] Hl.
  unfold add_service_test. case_match; [done|].
  bdestr (MAX_FUNCTIONS <=? location); [lia|]. simpl. unfold zupd.
  by rewrite (proj2 (zget_none tm location)) by lia.
Qed.

Lemma add_service_test_unbounded_witness :
  add_service_test blank_service (Some "Ackermann"%string) 10 "A" = None.
Proof. by apply (add_service_test_unbounded blank_service "Ackermann" 10 "A"). Defined.
