(* ===== verification/PhysicalMemory.v ===== *)
(** * Physical memory manager: [sources/memory/PhysicalMemory.c]

    The manager the functions receive is [kernel.physicalMemoryManager]
    itself, so the [params] and [returns] of the two names are one state. *)

From S2P Require Import Prelude Defines Spinlock KMalloc Service.

#[local] Open Scope Z_scope.

Record PhysicalMemoryEntry := mkPhysicalMemoryEntry {
  entry_start : Z;
  entry_size : Z;
  entry_type : Z;
  entry_unused : Z;
  entry_vstart : Z;
  entry_end : Z
}.

#[export] Instance eta_PhysicalMemoryEntry : Eta PhysicalMemoryEntry :=
  fun r => mkPhysicalMemoryEntry (entry_start r) (entry_size r) (entry_type r)
    (entry_unused r) (entry_vstart r) (entry_end r).

Record PhysicalMemoryFrameCollection := mkPhysicalMemoryFrameCollection {
  available_frames : Z;
  initial_physical_address : Z
}.

#[export] Instance eta_PhysicalMemoryFrameCollection : Eta PhysicalMemoryFrameCollection :=
  fun r => mkPhysicalMemoryFrameCollection (available_frames r)
    (initial_physical_address r).

(** [physicalMemoryEntry] is the whole table in low memory, of which the first
    [memory_entries] slots are in use. *)
Record PhysicalMemoryManager := mkPhysicalMemoryManager {
  physicalMemoryEntry : list PhysicalMemoryEntry;
  physical_memory_bitmap : list Z;
  memory_entries : Z;
  usable_memory_size : Z;
  reserved_memory_size : Z;
  hole_memory_size : Z;
  maximum_address : Z;
  reserved_plus_usable_size : Z;
  available_frame : Z;
  physical_memory_frame_collection : list PhysicalMemoryFrameCollection;
  number_physical_memory_frame_collection : Z;
  p_physical_address : Z;
  p_size : Z;
  number_of_frames_to_allocate : Z;
  is_address : bool;
  is_usable_address : bool;
  virtualAddress : Z
}.

#[export] Instance eta_PhysicalMemoryManager : Eta PhysicalMemoryManager :=
  fun r => mkPhysicalMemoryManager (physicalMemoryEntry r) (physical_memory_bitmap r)
    (memory_entries r) (usable_memory_size r) (reserved_memory_size r) (hole_memory_size
    r) (maximum_address r) (reserved_plus_usable_size r) (available_frame r)
    (physical_memory_frame_collection r) (number_physical_memory_frame_collection r)
    (p_physical_address r) (p_size r) (number_of_frames_to_allocate r) (is_address r)
    (is_usable_address r) (virtualAddress r).

(** ** Building the manager from the E820 table

    [scanned] is what [scanmem] finds in the first MiB: the table behind the
    indicator string and the entry count stored behind the table. *)

Definition account_entry (i : Z) (m : PhysicalMemoryManager) : option PhysicalMemoryManager :=
  e ← zget (physicalMemoryEntry m) i;
  let e := e {{ entry_end := u64 (entry_start e + entry_size e) }} in
  entries ← zset (physicalMemoryEntry m) i e;
  let m := m {{ physicalMemoryEntry := entries }} in
  if entry_type e =? E820_MEMORY_ENTRY_TYPE_USABLE then
    let m := m {{ usable_memory_size := u64 (usable_memory_size m + entry_size e) }} in
    Some (if maximum_address m <? u64 (entry_start e + entry_size e)
          then m {{ maximum_address := u64 (entry_start e + entry_size e) }} else m)
  else if (entry_type e =? E820_MEMORY_ENTRY_TYPE_RESEARVED) ||
          (entry_type e =? E820_MEMORY_ENTRY_TYPE_ACPI_NVS) ||
          (entry_type e =? E820_MEMORY_ENTRY_TYPE_ACPI_RECLAINMED)
  then Some (m {{ reserved_memory_size := u64 (reserved_memory_size m + entry_size e) }})
  else Some m.

(** The methods of the service, in the order of [PhysicalMemory_exposed_functions]. *)
Definition exposed_functions : list (string * Z) :=
  [("PrintPhysicalMemory", 1); ("AddPhysicalMemoryEntry", 2); ("GetVirtualAddress", 3);
   ("IsUsableAddress", 4); ("IsAddress", 5); ("CreatePhysicalPagesBitMap", 0);
   ("InitializePhysicalMemoryFrames", 6); ("AllocatePhysicalFrames", 7);
   ("DeallocatePhysicalFrame", 8)]%string.

Definition InitializePhysicalMemory (scanned : option (list PhysicalMemoryEntry * Z))
    (m : PhysicalMemoryManager) (p_service : Service)
  : option (PhysicalMemoryManager * Service * bool) :=
  let m := m {{ memory_entries := 0; usable_memory_size := 0; reserved_memory_size := 0;
                maximum_address := 0; hole_memory_size := 0; physicalMemoryEntry := [] }} in
  match scanned with
  | Some (table, count) =>
      let m := m {{ physicalMemoryEntry := table; memory_entries := count }} in
      m ← for_each (Z.to_nat (memory_entries m)) 0 account_entry m;
      p_service ← add_services exposed_functions p_service;
      let m := m {{ reserved_plus_usable_size := u64 (reserved_memory_size m + usable_memory_size m) }} in
      Some (m, p_service, true)
  | None => Some (m, p_service, false)
  end.

(** ** Questions about addresses *)

Definition IsAddress (m : PhysicalMemoryManager) : option PhysicalMemoryManager :=
  r ← for_loop (Z.to_nat (memory_entries m)) 0 1 (fun i m =>
    e ← zget (physicalMemoryEntry m) i;
    Some (if (entry_start e <=? p_physical_address m) &&
             (p_physical_address m <? u64 (entry_start e + entry_size e))
          then inr (m {{ is_address := true }}) else inl m)) m;
  Some (match r with inr m => m | inl m => m {{ is_address := false }} end).

(** [a && b && c || d] of the source: the test against the first MiB stands
    alone. *)
Definition IsUsableAddress (m : PhysicalMemoryManager) : option PhysicalMemoryManager :=
  r ← for_loop (Z.to_nat (memory_entries m)) 0 1 (fun i m =>
    e ← zget (physicalMemoryEntry m) i;
    Some (if ((entry_start e <=? p_physical_address m) &&
              (u64 (p_physical_address m + p_size m) <? entry_end e) &&
              (entry_type e =? E820_MEMORY_ENTRY_TYPE_USABLE)) ||
             (p_physical_address m <? FIRST_MEMORY_1_MiB)
          then inr (m {{ is_usable_address := true }}) else inl m)) m;
  Some (match r with inr m => m | inl m => m {{ is_usable_address := false }} end).

Definition GetVirtualAddress (m : PhysicalMemoryManager) : option PhysicalMemoryManager :=
  r ← for_loop (Z.to_nat (memory_entries m)) 0 1 (fun i m =>
    e ← zget (physicalMemoryEntry m) i;
    Some (if (entry_start e <=? p_physical_address m) && (p_physical_address m <? entry_end e)
          then inr (m {{ virtualAddress :=
                 u64 (entry_vstart e + u64 (p_physical_address m - entry_start e)) }})
          else inl m)) m;
  Some (match r with inr m => m | inl m => m {{ virtualAddress := 0x0 }} end).

Definition AddPhysicalMemoryEntry (m : PhysicalMemoryManager) : option PhysicalMemoryManager :=
  m ← IsAddress m;
  if negb (is_address m) then
    entries ← zupd (physicalMemoryEntry m) (memory_entries m) (fun e =>
      e {{ entry_start := p_physical_address m; entry_size := p_size m;
           entry_type := E820_MEMORY_ENTRY_TYPE_RESEARVED;
           entry_end := u64 (p_physical_address m + p_size m) }});
    Some (m {{ physicalMemoryEntry := entries; memory_entries := u16 (memory_entries m + 1) }})
  else Some m.

Definition GetReservedAndUsableMemorySize (m : PhysicalMemoryManager) : Z :=
  u64 (usable_memory_size m + reserved_memory_size m).

(** ** The frame bitmap

    [SetBit], [ClearBit] and [GetBit] number the bits of a byte from the most
    significant end.  Bytes are kept as their unsigned value. *)

Definition SetBit (initial_bitmap_address : list Z) (bit_number : Z) : option (list Z) :=
  zupd initial_bitmap_address (Z.quot bit_number 8)
    (fun c => u8 (Z.lor c (Z.shiftl 1 (7 - Z.rem bit_number 8)))).

Definition ClearBit (initial_bitmap_address : list Z) (bit_number : Z) : option (list Z) :=
  zupd initial_bitmap_address (Z.quot bit_number 8)
    (fun c => u8 (Z.land c (s8 (Z.lnot (s8 (Z.shiftl 1 (7 - Z.rem bit_number 8))))))).

Definition GetBit (initial_bitmap_address : list Z) (bit_number : Z) : option Z :=
  c ← zget initial_bitmap_address (Z.quot bit_number 8);
  Some (Z.land (Z.shiftr (s8 c) (7 - Z.rem bit_number 8)) 1).

Definition bytes (bm : list Z) : Prop := Forall (fun b => 0 <= b < 256) bm.

Definition bit_at (bm : list Z) (n : Z) : bool :=
  match zget bm (n / 8) with
  | Some b => Z.testbit b (7 - n mod 8)
  | None => false
  end.

(** ** Creating the bitmap and the collections

    [mem] is the contents of memory, which the bitmap's buffer has before it is
    written.  A NULL buffer is not written to. *)

Definition buffer (mem : Z -> Z) (addr len : Z) : list Z :=
  map mem (seqZ addr len).

Definition frame_address (page_number : Z) : Z := u64 (s32 (page_number * FOUR_KiB_MEMORY_PAGE_SIZE)).

Definition CreatePhysicalPagesBitMap (apic : Z) (mem : Z -> Z) (k : MemoryAllocator)
    (m : PhysicalMemoryManager) : option (MemoryAllocator * PhysicalMemoryManager) :=
  let total_memory := GetReservedAndUsableMemorySize m in
  let number_of_page_frames := s32 (total_memory / FOUR_KiB_MEMORY_PAGE_SIZE) in
  x ← kmalloc apic k (u64 (Z.quot number_of_page_frames 8));
  let '(k, addr) := x in
  let m := m {{ physical_memory_bitmap :=
                  if addr =? 0 then [] else buffer mem addr (Z.quot number_of_page_frames 8) }} in
  let kernelFrames := Z.quot KERNEL_MEMORY_SIZE FOUR_KiB_MEMORY_PAGE_SIZE in
  m ← for_each (Z.to_nat number_of_page_frames) 0 (fun page_frame_number m =>
    let m := m {{ p_physical_address := frame_address page_frame_number;
                  p_size := FOUR_KiB_MEMORY_PAGE_SIZE }} in
    m ← IsUsableAddress m;
    bitmap ← (if is_usable_address m && (kernelFrames <=? page_frame_number)
              then SetBit (physical_memory_bitmap m) page_frame_number
              else ClearBit (physical_memory_bitmap m) page_frame_number);
    Some (m {{ physical_memory_bitmap := bitmap }})) m;
  numberofusableframes ← for_each (Z.to_nat number_of_page_frames) 0 (fun page_frame_number n =>
    b ← GetBit (physical_memory_bitmap m) page_frame_number;
    Some (if truthy b then s32 (n + 1) else n)) 0;
  Some (k, m {{ available_frame := u64 numberofusableframes }}).

Definition InitializePhysicalMemoryFrames (apic : Z) (k : MemoryAllocator) (m : PhysicalMemoryManager)
  : option (MemoryAllocator * PhysicalMemoryManager) :=
  x ← kmalloc apic k (u64 (16 * (available_frame m / 512)));
  let '(k, addr) := x in
  let m := m {{ physical_memory_frame_collection :=
                  if addr =? 0 then []
                  else replicate (Z.to_nat (available_frame m / 512)) (mkPhysicalMemoryFrameCollection 0 0) }} in
  let number_of_page_frames := s32 (available_frame m) in
  let m := m {{ number_physical_memory_frame_collection := u16 (Z.quot number_of_page_frames 512) }} in
  let mx := number_physical_memory_frame_collection m in
  m ← for_each (Z.to_nat mx) 0 (fun page_frame_number m =>
    available ← for_each 512 (page_frame_number * 512) (fun frames_start n =>
      b ← GetBit (physical_memory_bitmap m) frames_start;
      Some (if truthy b then n + 1 else n)) 0;
    collection ← zset (physical_memory_frame_collection m) page_frame_number
      (mkPhysicalMemoryFrameCollection (u16 available)
         (u64 (s32 (page_frame_number * 512 * FOUR_KiB_MEMORY_PAGE_SIZE))));
    Some (m {{ physical_memory_frame_collection := collection }})) m;
  Some (k, m).

(** ** Frames *)

(** [-1] as the functions return it. *)
Definition NO_FRAME : Z := 2 ^ 64 - 1.

Definition start_bit_index (c : PhysicalMemoryFrameCollection) : Z :=
  s32 (u64 (initial_physical_address c / 512 / FOUR_KiB_MEMORY_PAGE_SIZE * 512)).

(** [ClearBit] of a frame and [available_frames--] of its collection. *)
Definition take_frame (i page_number : Z) (m : PhysicalMemoryManager) : option PhysicalMemoryManager :=
  bitmap ← ClearBit (physical_memory_bitmap m) page_number;
  collection ← zupd (physical_memory_frame_collection m) i
    (fun c => c {{ available_frames := u16 (available_frames c - 1) }});
  Some (m {{ physical_memory_bitmap := bitmap; physical_memory_frame_collection := collection }}).

Definition AllocateOnePhysicalFrame (m : PhysicalMemoryManager) : option (PhysicalMemoryManager * Z) :=
  let size := number_physical_memory_frame_collection m in
  r ← for_loop (Z.to_nat size) 0 1 (fun i m =>
    c ← zget (physical_memory_frame_collection m) i;
    if 0 <? available_frames c then
      for_loop 512 (start_bit_index c) 1 (fun page_number m =>
        b ← GetBit (physical_memory_bitmap m) page_number;
        if truthy b then
          m ← take_frame i page_number m; Some (inr (m, frame_address page_number))
        else Some (inl m)) m
    else Some (inl m)) m;
  Some (match r with inr x => x | inl m => (m, NO_FRAME) end).

Definition AllocatePhysicalFrames (m : PhysicalMemoryManager) : option PhysicalMemoryManager :=
  for_each (Z.to_nat (s32 (number_of_frames_to_allocate m))) 0
    (fun _ m => x ← AllocateOnePhysicalFrame m; Some (fst x)) m.

Definition DeallocatePhysicalFrame (m : PhysicalMemoryManager) : option PhysicalMemoryManager :=
  let frame_to_deall := p_physical_address m / 4096 in
  b ← GetBit (physical_memory_bitmap m) (s32 frame_to_deall);
  if truthy b then Some m
  else
    bitmap ← SetBit (physical_memory_bitmap m) (s32 frame_to_deall);
    let m := m {{ physical_memory_bitmap := bitmap }} in
    let address_of_collection := u64 (frame_to_deall / 512 * TWO_MiB_MEMORY_PAGE_SIZE) in
    for_each (Z.to_nat (number_physical_memory_frame_collection m)) 0 (fun i m =>
      c ← zget (physical_memory_frame_collection m) i;
      if initial_physical_address c =? address_of_collection then
        collection ← zset (physical_memory_frame_collection m) i
          (c {{ available_frames := u16 (available_frames c + 1) }});
        Some (m {{ physical_memory_frame_collection := collection }})
      else Some m) m.

(** The loop runs while [address < frameToDeallocate + 2 MiB] modulo 2^64: not
    at all when the sum wraps. *)
Definition DeallocateOnePhysicalFrameCollection (m : PhysicalMemoryManager)
  : option PhysicalMemoryManager :=
  let frameToDeallocate := p_physical_address m in
  let n := if frameToDeallocate <? u64 (frameToDeallocate + TWO_MiB_MEMORY_PAGE_SIZE)
           then 512%nat else 0%nat in
  for_each n 0 (fun k m =>
    DeallocatePhysicalFrame
      (m {{ p_physical_address := u64 (frameToDeallocate + k * FOUR_KiB_MEMORY_PAGE_SIZE) }})) m.

Definition AllocateOnePhysicalFrameCollection (m : PhysicalMemoryManager)
  : option (PhysicalMemoryManager * Z) :=
  let size := number_physical_memory_frame_collection m in
  r ← for_loop (Z.to_nat size) 0 1 (fun i m =>
    c ← zget (physical_memory_frame_collection m) i;
    if available_frames c =? 512 then
      m ← for_each 512 (start_bit_index c) (fun page_number m =>
        b ← GetBit (physical_memory_bitmap m) page_number;
        if truthy b then take_frame i page_number m else Some m) m;
      c ← zget (physical_memory_frame_collection m) i;
      Some (inr (m, initial_physical_address c))
    else Some (inl m)) m;
  Some (match r with inr x => x | inl m => (m, NO_FRAME) end).

Definition AllocateUsableCollection (m : PhysicalMemoryManager) : option (PhysicalMemoryManager * Z) :=
  AllocateOnePhysicalFrameCollection m.

(** ** The abstract manager: a set of free frames *)

Definition popcount (bm : list Z) (lo n : Z) : Z := count (bit_at bm) lo n.

Definition managed_frames (m : PhysicalMemoryManager) : Z :=
  512 * number_physical_memory_frame_collection m.

Definition free_frames (m : PhysicalMemoryManager) : gset Z :=
  list_to_set (filter (fun k => bit_at (physical_memory_bitmap m) k) (seqZ 0 (managed_frames m))).

(** Each collection counts the set bits of its 2 MiB.  1024 collections are
    2 GiB: from there on [page_number * 4096] leaves the type [int]. *)
Record manager_wf (m : PhysicalMemoryManager) : Prop := {
  wf_bytes : bytes (physical_memory_bitmap m);
  wf_number : 0 <= number_physical_memory_frame_collection m <= 1024;
  wf_bitmap : managed_frames m <= 8 * zlen (physical_memory_bitmap m);
  wf_collections : zlen (physical_memory_frame_collection m) = number_physical_memory_frame_collection m;
  wf_counts : forall i, 0 <= i < number_physical_memory_frame_collection m ->
    zget (physical_memory_frame_collection m) i =
      Some (mkPhysicalMemoryFrameCollection
              (popcount (physical_memory_bitmap m) (512 * i) 512) (i * TWO_MiB_MEMORY_PAGE_SIZE))
}.

(** What allocating a frame means: the lowest free one, or none. *)
Inductive frame_alloc (S : gset Z) : Z -> gset Z -> Prop :=
  | frame_alloc_some f : f ∈ S -> (forall g, g ∈ S -> f <= g) -> frame_alloc S (f * 4096) (S ∖ {[f]})
  | frame_alloc_none : S = ∅ -> frame_alloc S NO_FRAME S.

Definition collection_frames (i : Z) : gset Z := list_to_set (seqZ (512 * i) 512).

(** What allocating a collection means: the first one that is free as a whole, or none. *)
Inductive collection_alloc (n : Z) (S : gset Z) : Z -> gset Z -> Prop :=
  | collection_alloc_some i :
      0 <= i < n -> collection_frames i ⊆ S ->
      (forall j, 0 <= j < i -> ~ collection_frames j ⊆ S) ->
      collection_alloc n S (i * TWO_MiB_MEMORY_PAGE_SIZE) (S ∖ collection_frames i)
  | collection_alloc_none :
      (forall j, 0 <= j < n -> ~ collection_frames j ⊆ S) -> collection_alloc n S NO_FRAME S.

(** ** Lemmas on the bitmap *)

Lemma bytes_get bm i b : bytes bm -> zget bm i = Some b -> 0 <= b < 256.
Proof.
  unfold bytes, zget. intros HF. bdestr (0 <=? i); [|done].
  intros H. by apply (Forall_lookup_1 _ _ _ _ HF H).
Qed.

Lemma bytes_set bm i b bm' : bytes bm -> 0 <= b < 256 -> zset bm i b = Some bm' -> bytes bm'.
Proof. intros HF Hb [_ ->]%zset_inv. by apply Forall_insert. Qed.

Lemma bit_index n len : 0 <= n < 8 * len -> 0 <= n / 8 < len /\ 0 <= 7 - n mod 8 < 8.
Proof. intros. zdiv. Qed.

Lemma testbit_clear_mask k j :
  0 <= k < 8 -> 0 <= j < 8 -> Z.testbit (s8 (Z.lnot (s8 (Z.shiftl 1 k)))) j = negb (j =? k).
Proof.
  intros Hk Hj. apply eqb_true_iff.
  exact (all_between_spec2 0 8 0 8
    (fun k j => eqb (Z.testbit (s8 (Z.lnot (s8 (Z.shiftl 1 k)))) j) (negb (j =? k)))
    k j eq_refl Hk Hj).
Qed.

Lemma GetBit_bit bm n :
  bytes bm -> 0 <= n < 8 * zlen bm -> GetBit bm n = Some (Z.b2z (bit_at bm n)).
Proof.
  intros Hb Hn. unfold GetBit, bit_at. rewrite Z.quot_div_nonneg, Z.rem_mod_nonneg by lia.
  destruct (bit_index n (zlen bm)) as [Hi Hj]; [done|].
  destruct (zget_some bm (n / 8) Hi) as [b Hg]. rewrite Hg. simpl.
  rewrite land_shiftr_1 by lia. rewrite testbit_s8; [done | by eapply bytes_get | lia].
Qed.

Lemma upd_bit bm n f :
  bytes bm -> 0 <= n < 8 * zlen bm -> (forall b, 0 <= f b < 256) ->
  exists bm' b, zget bm (n / 8) = Some b /\ 0 <= b < 256 /\
    zupd bm (n / 8) f = Some bm' /\ length bm' = length bm /\ bytes bm' /\
    forall m, 0 <= m -> bit_at bm' m =
      if m / 8 =? n / 8 then Z.testbit (f b) (7 - m mod 8) else bit_at bm m.
Proof.
  intros Hb Hn Hf. destruct (bit_index n (zlen bm)) as [Hi Hj]; [done|].
  destruct (zget_some bm (n / 8) Hi) as [b Hg]. unfold zupd. rewrite Hg. simpl.
  rewrite (zset_eq _ _ _ Hi). pose proof (zset_eq _ _ (f b) Hi) as Hs.
  eexists _, b. split_and!; [done | by eapply bytes_get | by eapply bytes_get | done | | |].
  - by eapply zset_len.
  - by eapply bytes_set.
  - intros m Hm. unfold bit_at. rewrite (zget_zset _ _ _ _ _ Hs). by bdestr (m / 8 =? n / 8).
Qed.

Lemma same_bit m n : 0 <= m -> 0 <= n ->
  (m =? n) = (m / 8 =? n / 8) && (7 - m mod 8 =? 7 - n mod 8).
Proof.
  intros. apply eq_bool_prop_intro. rewrite andb_True, !Is_true_true, !Z.eqb_eq. zdiv.
Qed.

Lemma SetBit_bit bm n :
  bytes bm -> 0 <= n < 8 * zlen bm ->
  exists bm', SetBit bm n = Some bm' /\ length bm' = length bm /\ bytes bm' /\
    forall m, 0 <= m -> bit_at bm' m = (m =? n) || bit_at bm m.
Proof.
  intros Hb Hn. unfold SetBit. rewrite Z.quot_div_nonneg, Z.rem_mod_nonneg by lia.
  destruct (bit_index n (zlen bm)) as [Hi Hj]; [done|].
  destruct (upd_bit bm n (fun c => u8 (Z.lor c (Z.shiftl 1 (7 - n mod 8)))))
    as (bm' & b & Hg & Hr & Hs & Hl & Hb' & Hm); auto using u8_range.
  exists bm'. split_and!; auto. intros m Hm0. rewrite Hm, (same_bit m n) by lia.
  unfold bit_at. bdestr (m / 8 =? n / 8); simpl; [|done].
  replace (m / 8) with (n / 8) by lia. rewrite Hg, testbit_u8 by zdiv.
  rewrite Z.lor_spec, testbit_pow2 by lia. bdestr (7 - m mod 8 <? 8); [|zdiv]. simpl.
  apply orb_comm.
Qed.

Lemma ClearBit_bit bm n :
  bytes bm -> 0 <= n < 8 * zlen bm ->
  exists bm', ClearBit bm n = Some bm' /\ length bm' = length bm /\ bytes bm' /\
    forall m, 0 <= m -> bit_at bm' m = negb (m =? n) && bit_at bm m.
Proof.
  intros Hb Hn. unfold ClearBit. rewrite Z.quot_div_nonneg, Z.rem_mod_nonneg by lia.
  destruct (bit_index n (zlen bm)) as [Hi Hj]; [done|].
  destruct (upd_bit bm n (fun c => u8 (Z.land c (s8 (Z.lnot (s8 (Z.shiftl 1 (7 - n mod 8))))))))
    as (bm' & b & Hg & Hr & Hs & Hl & Hb' & Hm); auto using u8_range.
  exists bm'. split_and!; auto. intros m Hm0. rewrite Hm, (same_bit m n) by lia.
  unfold bit_at. bdestr (m / 8 =? n / 8); simpl; [|done].
  replace (m / 8) with (n / 8) by lia. rewrite Hg, testbit_u8 by zdiv.
  rewrite Z.land_spec, testbit_clear_mask by zdiv.
  bdestr (7 - m mod 8 <? 8); [|zdiv]. simpl. apply andb_comm.
Qed.

(** ** Lemmas on the collections *)

Lemma free_frames_spec m k :
  k ∈ free_frames m <-> 0 <= k < managed_frames m /\ bit_at (physical_memory_bitmap m) k = true.
Proof.
  unfold free_frames. rewrite elem_of_list_to_set, list_elem_of_filter, elem_of_seqZ, Is_true_true.
  intuition lia.
Qed.

Lemma free_frames_update m m' (f : Z) (b : bool) :
  managed_frames m' = managed_frames m -> 0 <= f < managed_frames m ->
  (forall k, 0 <= k -> bit_at (physical_memory_bitmap m') k =
     if k =? f then b else bit_at (physical_memory_bitmap m) k) ->
  free_frames m' = if b then free_frames m ∪ {[f]} else free_frames m ∖ {[f]}.
Proof.
  intros Hn Hf Hb. apply set_eq. intros k. rewrite free_frames_spec, Hn.
  destruct b; [rewrite elem_of_union | rewrite elem_of_difference];
    rewrite elem_of_singleton, free_frames_spec;
    (destruct (decide (0 <= k)); [rewrite Hb by done | lia]); bdestr (k =? f); intuition (lia || done).
Qed.

Lemma collection_of k m : 0 <= k < managed_frames m ->
  0 <= k / 512 < number_physical_memory_frame_collection m /\ 512 * (k / 512) <= k < 512 * (k / 512) + 512.
Proof. unfold managed_frames. intros. zdiv. Qed.

Lemma start_bit_index_spec i n :
  0 <= i < 1024 -> start_bit_index (mkPhysicalMemoryFrameCollection n (i * TWO_MiB_MEMORY_PAGE_SIZE)) = 512 * i.
Proof.
  intros Hi. unfold start_bit_index, TWO_MiB_MEMORY_PAGE_SIZE, FOUR_KiB_MEMORY_PAGE_SIZE. simpl.
  rewrite Z.div_div by lia. replace (i * 0x200000) with (i * (512 * 0x1000)) by lia.
  rewrite Z.div_mul, u64_small, s32_small by lia. lia.
Qed.

Lemma frame_address_small f : 0 <= f < 524288 -> frame_address f = f * 4096.
Proof. intros. unfold frame_address, FOUR_KiB_MEMORY_PAGE_SIZE. rewrite s32_small, u64_small; lia. Qed.

(** Changing bit [f] of collection [i] to [b] along with the counter keeps the
    invariant. *)
Lemma manager_wf_update m bm' col' i f (b : bool) :
  manager_wf m -> 0 <= f < managed_frames m -> i = f / 512 ->
  bit_at (physical_memory_bitmap m) f = negb b ->
  length bm' = length (physical_memory_bitmap m) -> bytes bm' ->
  (forall k, 0 <= k -> bit_at bm' k = if k =? f then b else bit_at (physical_memory_bitmap m) k) ->
  zset (physical_memory_frame_collection m) i
    (mkPhysicalMemoryFrameCollection
       (popcount (physical_memory_bitmap m) (512 * i) 512 + (if b then 1 else -1))
       (i * TWO_MiB_MEMORY_PAGE_SIZE)) = Some col' ->
  manager_wf (m {{ physical_memory_bitmap := bm'; physical_memory_frame_collection := col' }}).
Proof.
  intros [W1 W2 W3 W4 W5] Hf -> Hbit Hlen Hbytes Hb Hset.
  destruct (collection_of f m Hf) as [Hi Hr]. unfold managed_frames in *. destruct m. simpl in *.
  split; simpl; try done; unfold managed_frames, zlen in *; simpl.
  - lia.
  - by rewrite (zset_len _ _ _ _ Hset).
  - intros j Hj. rewrite (zget_zset _ _ _ _ _ Hset). bdestr (j =? f / 512).
    + subst j. do 2 f_equal. unfold popcount.
      pose proof (count_change (bit_at physical_memory_bitmap0) (bit_at bm')
        (512 * (f / 512)) 512 f) as Hc.
      rewrite Hbit, (Hb f), Z.eqb_refl in Hc by lia.
      rewrite <- (Z.sub_add (Z.b2z b) (count (bit_at bm') _ _)), <- Hc; [destruct b; simpl; lia | lia | lia |].
      intros k Hk Hne. rewrite Hb by lia. by bdestr (k =? f).
    + rewrite W5 by done. do 2 f_equal. apply count_ext; [lia|]. intros k Hk.
      rewrite Hb by lia. bdestr (k =? f); [exfalso; subst; zdiv | done].
Qed.

Lemma take_frame_spec m f :
  manager_wf m -> f ∈ free_frames m ->
  exists m', take_frame (f / 512) f m = Some m' /\ manager_wf m' /\
    free_frames m' = free_frames m ∖ {[f]} /\
    number_physical_memory_frame_collection m' = number_physical_memory_frame_collection m.
Proof.
  intros Hm [Hf Hbit]%free_frames_spec. pose proof Hm as [W1 W2 W3 W4 W5].
  destruct (collection_of f m Hf) as [Hi Hr].
  destruct (ClearBit_bit (physical_memory_bitmap m) f) as (bm' & E1 & Hl & Hby & Hb); [done | lia |].
  unfold take_frame. rewrite E1. simpl. unfold zupd. rewrite W5 by done. simpl.
  assert (1 <= popcount (physical_memory_bitmap m) (512 * (f / 512)) 512 <= 512) as Hp.
  { unfold popcount. pose proof (count_bounds (bit_at (physical_memory_bitmap m)) (512 * (f / 512)) 512).
    destruct (decide (count (bit_at (physical_memory_bitmap m)) (512 * (f / 512)) 512 <= 0)) as [Hz|]; [|lia].
    rewrite count_zero in Hz by lia. rewrite Hz in Hbit; [done | lia]. }
  rewrite u16_small by lia. rewrite zset_eq by lia. simpl. eexists. split; [reflexivity|].
  assert (forall k, 0 <= k -> bit_at bm' k = if k =? f then false else bit_at (physical_memory_bitmap m) k)
    as Hb'. { intros k Hk. rewrite Hb by done. by bdestr (k =? f). }
  split_and!; [| | done].
  - eapply (manager_wf_update m bm' _ (f / 512) f false); try done. rewrite zset_eq by lia.
    reflexivity.
  - by apply (free_frames_update m _ f false).
Qed.

Lemma GetBit_wf m k : manager_wf m -> 0 <= k < managed_frames m ->
  GetBit (physical_memory_bitmap m) k = Some (Z.b2z (bit_at (physical_memory_bitmap m) k)).
Proof. intros [W1 W2 W3 W4 W5] Hk. apply GetBit_bit; [done | lia]. Qed.

(** A collection has a set bit exactly when its counter is positive. *)
Lemma popcount_positive m i :
  popcount (physical_memory_bitmap m) (512 * i) 512 <= 0 <->
  forall k, 512 * i <= k < 512 * i + 512 -> bit_at (physical_memory_bitmap m) k = false.
Proof. unfold popcount. by apply count_zero. Qed.

Lemma AllocateOnePhysicalFrame_spec m :
  manager_wf m ->
  exists m' a, AllocateOnePhysicalFrame m = Some (m', a) /\ manager_wf m' /\
    frame_alloc (free_frames m) a (free_frames m') /\
    number_physical_memory_frame_collection m' = number_physical_memory_frame_collection m.
Proof.
  intros Hm. pose proof Hm as [W1 W2 W3 W4 W5]. set (N := number_physical_memory_frame_collection m) in *.
  unfold AllocateOnePhysicalFrame. fold N.
  destruct (first_true (fun i => 0 <? popcount (physical_memory_bitmap m) (512 * i) 512) 0 N)
    as [Hnone|(i & Hi & Hpos & Hmin)]; [lia| |].
  - rewrite for_loop_skip.
    + exists m, NO_FRAME. split_and!; try done. apply frame_alloc_none. apply set_eq. intros k.
      rewrite free_frames_spec. split; [|by intros []%elem_of_empty]. intros [Hk Hb].
      destruct (collection_of k m Hk) as [Hc Hr]. specialize (Hnone (k / 512) ltac:(lia)).
      apply Z.ltb_ge, popcount_positive with (k := k) in Hnone; [congruence | lia].
    + intros k Hk. rewrite W5 by lia. simpl. by rewrite (Hnone k) by lia.
  - destruct (first_true (bit_at (physical_memory_bitmap m)) (512 * i) 512)
      as [Hz|(f & Hf & Hb & Hfirst)]; [lia| |].
    { apply popcount_positive in Hz. apply Z.ltb_lt in Hpos. lia. }
    assert (f / 512 = i) as Hfi by zdiv.
    assert (f ∈ free_frames m) as Hfree. { apply free_frames_spec. unfold managed_frames. fold N. split; [lia|done]. }
    destruct (take_frame_spec m f Hm Hfree) as (m' & Et & Hm' & Hfr & Hn).
    rewrite (for_loop_hit _ _ _ _ i (m', f * 4096)).
    + exists m', (f * 4096). split_and!; try done. rewrite Hfr. apply frame_alloc_some; [done|].
      intros g [Hg Hgb]%free_frames_spec. destruct (collection_of g m Hg) as [Hgc Hgr].
      destruct (decide (f <= g)) as [|Hlt]; [done|].
      destruct (decide (g / 512 = i)) as [E|Hne]; [rewrite Hfirst in Hgb; [done | lia]|].
      specialize (Hmin (g / 512) ltac:(zdiv)).
      apply Z.ltb_ge, popcount_positive with (k := g) in Hmin; [congruence | lia].
    + lia.
    + intros j Hj. rewrite W5 by lia. simpl. by rewrite (Hmin j) by lia.
    + rewrite W5 by lia. simpl. rewrite Hpos, start_bit_index_spec by lia.
      apply (for_loop_hit _ _ _ _ f); [lia | |].
      * intros j Hj. rewrite GetBit_wf by (done || (unfold managed_frames; fold N; lia)).
        simpl. by rewrite (Hfirst j).
      * rewrite GetBit_wf by (done || (unfold managed_frames; fold N; lia)). simpl. rewrite Hb. simpl.
        rewrite <- Hfi, Et. simpl. by rewrite frame_address_small by lia.
Qed.

Definition params_set (m : PhysicalMemoryManager) (a : Z) : PhysicalMemoryManager :=
  m {{ p_physical_address := a }}.

Lemma manager_wf_params m a : manager_wf m -> manager_wf (params_set m a).
Proof. intros []. destruct m. by split. Qed.

(** The search for the collection at an address finds the one of that number and counts one more frame. *)
Lemma count_freed m avail q :
  let N := number_physical_memory_frame_collection m in
  N <= 1024 -> 0 <= q < N -> zlen (physical_memory_frame_collection m) = N -> 0 <= avail q < 512 ->
  (forall k, 0 <= k < N ->
    zget (physical_memory_frame_collection m) k = Some (mkPhysicalMemoryFrameCollection (avail k) (k * 0x200000))) ->
  for_each (Z.to_nat N) 0 (fun i m =>
    c ← zget (physical_memory_frame_collection m) i;
    if initial_physical_address c =? u64 (q * TWO_MiB_MEMORY_PAGE_SIZE) then
      collection ← zset (physical_memory_frame_collection m) i (c {{ available_frames := u16 (available_frames c + 1) }});
      Some (m {{ physical_memory_frame_collection := collection }})
    else Some m) m =
  Some (m {{ physical_memory_frame_collection :=
    <[Z.to_nat q := mkPhysicalMemoryFrameCollection (avail q + 1) (q * 0x200000)]> (physical_memory_frame_collection m) }}).
Proof.
  intros N HN Hq HL Hav Hall.
  set (c' := mkPhysicalMemoryFrameCollection (avail q + 1) (q * 0x200000)).
  pose proof (zset_eq (physical_memory_frame_collection m) q c') as Hset. rewrite HL in Hset. specialize (Hset Hq).
  set (col' := <[Z.to_nat q := c']> (physical_memory_frame_collection m)) in *.
  unfold TWO_MiB_MEMORY_PAGE_SIZE. rewrite u64_small by lia.
  match goal with |- for_each _ _ ?f _ = _ =>
    destruct (for_each_inv (fun k t => t = if q <? k then m {{ physical_memory_frame_collection := col' }} else m) f
      (Z.to_nat N) 0 m) as (m' & Em & Hm') end.
  - by bdestr (q <? 0); [lia|].
  - intros k t Hk ->.
    assert (zget (physical_memory_frame_collection (if q <? k then m {{ physical_memory_frame_collection := col' }} else m)) k =
      Some (mkPhysicalMemoryFrameCollection (avail k) (k * 0x200000))) as ->.
    { bdestr (q <? k); simpl; [|apply Hall; lia].
      rewrite (zget_zset _ _ _ _ _ Hset). bdestr (k =? q); [lia|]. apply Hall; lia. }
    simpl. bdestr (k * 0x200000 =? q * 0x200000).
    + assert (k = q) as -> by lia. rewrite Z.ltb_irrefl. bdestr (q <? q + 1); [|lia].
      simpl. rewrite u16_small by lia. fold c'. rewrite Hset. simpl. eauto.
    + eexists. split; [done|]. by bdestr (q <? k); bdestr (q <? k + 1); try lia.
  - rewrite Em, Hm'. by bdestr (q <? 0 + Z.of_nat (Z.to_nat N)); [|lia].
Qed.

Lemma DeallocatePhysicalFrame_spec m :
  manager_wf m -> 0 <= p_physical_address m < 4096 * managed_frames m ->
  let f := p_physical_address m / 4096 in
  exists m', DeallocatePhysicalFrame m = Some m' /\ manager_wf m' /\
    free_frames m' = free_frames m ∪ {[f]} /\
    number_physical_memory_frame_collection m' = number_physical_memory_frame_collection m /\
    (f ∈ free_frames m -> m' = m).
Proof.
  intros Hm Ha f. pose proof Hm as [W1 W2 W3 W4 W5].
  assert (0 <= f < managed_frames m) as Hf by (unfold f; zdiv).
  assert (f < 524288) as Hsmall by (unfold managed_frames in *; lia).
  destruct (collection_of f m Hf) as [Hi Hr].
  unfold DeallocatePhysicalFrame. fold f. rewrite s32_small by lia. rewrite GetBit_wf by done. simpl.
  rewrite truthy_b2z. destruct (bit_at (physical_memory_bitmap m) f) eqn:Hb.
  { exists m. split_and!; try done. apply set_eq. intros k.
    assert (f ∈ free_frames m) by by apply free_frames_spec. set_solver. }
  destruct (SetBit_bit (physical_memory_bitmap m) f) as (bm' & E1 & Hl & Hby & Hbm); [done | lia |].
  rewrite E1. simpl.
  set (p := popcount (physical_memory_bitmap m) (512 * (f / 512)) 512).
  assert (0 <= p < 512) as Hp.
  { unfold p, popcount. pose proof (count_bounds (bit_at (physical_memory_bitmap m)) (512 * (f / 512)) 512).
    destruct (decide (count (bit_at (physical_memory_bitmap m)) (512 * (f / 512)) 512 = 512)) as [Hz|]; [|lia].
    rewrite count_full in Hz by lia. rewrite Hz in Hb; [done | lia]. }
  pose proof (count_freed (m {{ physical_memory_bitmap := bm' }})
    (fun k => popcount (physical_memory_bitmap m) (512 * k) 512) (f / 512)) as Em. cbv zeta in Em. simpl in Em.
  rewrite Em by (lia || done || (intros; apply W5; lia)). eexists. split; [reflexivity|]. fold p.
  assert (forall k, 0 <= k -> bit_at bm' k = if k =? f then true else bit_at (physical_memory_bitmap m) k)
    as Hb'. { intros k Hk. rewrite Hbm by done. by bdestr (k =? f). }
  split_and!; [| | done |].
  - eapply (manager_wf_update m bm' _ (f / 512) f true); try done. rewrite zset_eq by lia. reflexivity.
  - by apply (free_frames_update m _ f true).
  - intros [_ Hc]%free_frames_spec. congruence.
Qed.

(** *** Collections *)

Definition first_frames (i n : Z) : gset Z := list_to_set (seqZ (512 * i) n).

Lemma elem_of_first_frames i n k : k ∈ first_frames i n <-> 512 * i <= k < 512 * i + n.
Proof. unfold first_frames. rewrite elem_of_list_to_set, elem_of_seqZ. lia. Qed.

Lemma collection_full m i :
  manager_wf m -> 0 <= i < number_physical_memory_frame_collection m ->
  (popcount (physical_memory_bitmap m) (512 * i) 512 =? 512) = true <->
  collection_frames i ⊆ free_frames m.
Proof.
  intros Hm Hi. rewrite Z.eqb_eq. unfold popcount. rewrite count_full by lia.
  change (collection_frames i) with (first_frames i 512). split.
  - intros H k Hk%elem_of_first_frames. apply free_frames_spec. unfold managed_frames.
    split; [lia | by apply H].
  - intros H k Hk. assert (k ∈ first_frames i 512) as Hin by (apply elem_of_first_frames; lia).
    apply H, free_frames_spec in Hin. tauto.
Qed.

Lemma take_collection m i :
  manager_wf m -> 0 <= i < number_physical_memory_frame_collection m ->
  collection_frames i ⊆ free_frames m ->
  exists m', for_each 512 (512 * i) (fun page_number m =>
      b ← GetBit (physical_memory_bitmap m) page_number;
      if truthy b then take_frame i page_number m else Some m) m = Some m' /\ manager_wf m' /\
    free_frames m' = free_frames m ∖ collection_frames i /\
    number_physical_memory_frame_collection m' = number_physical_memory_frame_collection m.
Proof.
  intros Hm Hi Hfull.
  destruct (for_each_inv
    (fun k t => manager_wf t /\ free_frames t = free_frames m ∖ first_frames i (k - 512 * i) /\
       number_physical_memory_frame_collection t = number_physical_memory_frame_collection m)
    (fun page_number m =>
      b ← GetBit (physical_memory_bitmap m) page_number;
      if truthy b then take_frame i page_number m else Some m) 512 (512 * i) m) as (m' & E & H).
  - split_and!; [done | | done]. apply set_eq. intros k.
    rewrite elem_of_difference, elem_of_first_frames. intuition lia.
  - intros k t Hk (Ht & Hfr & Hn).
    assert (k ∈ free_frames t) as Hin.
    { rewrite Hfr, elem_of_difference, elem_of_first_frames. split; [|lia]. apply Hfull.
      apply (elem_of_first_frames i 512). lia. }
    pose proof Hin as [Hr Hb]%free_frames_spec. rewrite GetBit_wf by done. simpl. rewrite Hb. simpl.
    destruct (take_frame_spec t k Ht Hin) as (t' & Et & Ht' & Hfr' & Hn').
    replace (k / 512) with i in Et by zdiv. exists t'. split_and!; [done | done | | congruence].
    rewrite Hfr', Hfr. apply set_eq. intros j.
    rewrite !elem_of_difference, !elem_of_first_frames, elem_of_singleton. intuition lia.
  - exists m'. split; [exact E|]. destruct H as (H1 & H2 & H3). split_and!; [done | | done].
    rewrite H2. by replace (512 * i + Z.of_nat 512 - 512 * i) with 512 by lia.
Qed.

Lemma AllocateOnePhysicalFrameCollection_spec m :
  manager_wf m ->
  exists m' a, AllocateOnePhysicalFrameCollection m = Some (m', a) /\ manager_wf m' /\
    collection_alloc (number_physical_memory_frame_collection m) (free_frames m) a (free_frames m') /\
    number_physical_memory_frame_collection m' = number_physical_memory_frame_collection m.
Proof.
  intros Hm. pose proof Hm as [W1 W2 W3 W4 W5]. set (N := number_physical_memory_frame_collection m) in *.
  unfold AllocateOnePhysicalFrameCollection. fold N.
  assert (forall j, 0 <= j < N -> popcount (physical_memory_bitmap m) (512 * j) 512 =? 512 = false ->
    ~ collection_frames j ⊆ free_frames m) as Hnot.
  { intros j Hj Hf Hs. apply collection_full in Hs; [congruence | done | done]. }
  destruct (first_true (fun i => popcount (physical_memory_bitmap m) (512 * i) 512 =? 512) 0 N)
    as [Hnone|(i & Hi & Hfull & Hmin)]; [lia| |].
  - rewrite for_loop_skip.
    + exists m, NO_FRAME. split_and!; try done. apply collection_alloc_none. intros j Hj.
      apply Hnot; [lia|]. apply Hnone. lia.
    + intros k Hk. rewrite W5 by lia. simpl. by rewrite (Hnone k) by lia.
  - apply collection_full in Hfull as Hsub; [|done|lia].
    destruct (take_collection m i Hm ltac:(lia) Hsub) as (m' & E & Hm' & Hfr & Hn).
    rewrite (for_loop_hit _ _ _ _ i (m', i * TWO_MiB_MEMORY_PAGE_SIZE)).
    + exists m', (i * TWO_MiB_MEMORY_PAGE_SIZE). split_and!; try done. rewrite Hfr.
      apply collection_alloc_some; [lia | done |]. intros j Hj. apply Hnot; [lia|]. apply Hmin. lia.
    + lia.
    + intros j Hj. rewrite W5 by lia. simpl. by rewrite (Hmin j) by lia.
    + rewrite W5 by lia. simpl. rewrite Hfull, start_bit_index_spec by lia. rewrite E. simpl.
      destruct Hm' as [_ _ _ _ ->]; [done|]. fold N in Hn. lia.
Qed.

Lemma free_frames_params m a : free_frames (params_set m a) = free_frames m.
Proof. done. Qed.

Lemma DeallocateOnePhysicalFrameCollection_spec m i :
  manager_wf m -> 0 <= i < number_physical_memory_frame_collection m ->
  p_physical_address m = i * TWO_MiB_MEMORY_PAGE_SIZE ->
  exists m', DeallocateOnePhysicalFrameCollection m = Some m' /\ manager_wf m' /\
    free_frames m' = free_frames m ∪ collection_frames i /\
    number_physical_memory_frame_collection m' = number_physical_memory_frame_collection m.
Proof.
  intros Hm Hi Ha. pose proof (wf_number m Hm) as Hn0. unfold DeallocateOnePhysicalFrameCollection.
  rewrite Ha. unfold TWO_MiB_MEMORY_PAGE_SIZE, FOUR_KiB_MEMORY_PAGE_SIZE.
  rewrite u64_small by lia. bdestr (i * 0x200000 <? i * 0x200000 + 0x200000); [|lia].
  destruct (for_each_inv
    (fun k t => manager_wf t /\ free_frames t = free_frames m ∪ first_frames i k /\
       number_physical_memory_frame_collection t = number_physical_memory_frame_collection m)
    (fun k m => DeallocatePhysicalFrame (params_set m (u64 (i * 0x200000 + k * 0x1000))))
    512 0 m) as (m' & E & H1 & H2 & H3).
  - split_and!; [done | | done]. apply set_eq. intros k.
    rewrite elem_of_union, elem_of_first_frames. intuition lia.
  - intros k t Hk (Ht & Hfr & Hn). rewrite u64_small by lia.
    destruct (DeallocatePhysicalFrame_spec (params_set t (i * 0x200000 + k * 0x1000)))
      as (t' & Et & Ht' & Hfr' & Hn' & _).
    + by apply manager_wf_params.
    + unfold managed_frames. simpl. lia.
    + exists t'. split_and!; [done | done | | simpl in *; congruence].
      rewrite Hfr', free_frames_params, Hfr. simpl.
      replace ((i * 0x200000 + k * 0x1000) / 4096) with (512 * i + k) by zdiv.
      apply set_eq. intros j. rewrite !elem_of_union, !elem_of_first_frames, elem_of_singleton. intuition lia.
  - exists m'. by split_and!.
Qed.

(** *** The table of memory entries *)

Definition used_entries (m : PhysicalMemoryManager) : list PhysicalMemoryEntry :=
  take (Z.to_nat (memory_entries m)) (physicalMemoryEntry m).

Definition table_wf (m : PhysicalMemoryManager) : Prop :=
  0 <= memory_entries m <= zlen (physicalMemoryEntry m).

Definition usable_entry (a n : Z) (e : PhysicalMemoryEntry) : bool :=
  ((entry_start e <=? a) && (u64 (a + n) <? entry_end e) &&
   (entry_type e =? E820_MEMORY_ENTRY_TYPE_USABLE)) || (a <? FIRST_MEMORY_1_MiB).

Definition usable_at (m : PhysicalMemoryManager) (a n : Z) : bool :=
  existsb (usable_entry a n) (used_entries m).

Lemma existsb_find {A} (f : A -> bool) l :
  existsb f l = match List.find f l with Some _ => true | None => false end.
Proof. induction l as [|x l IH]; simpl; [done|]. by destruct (f x). Qed.

Lemma IsUsableAddress_spec m :
  table_wf m ->
  IsUsableAddress m =
    Some (m {{ is_usable_address := usable_at m (p_physical_address m) (p_size m) }}).
Proof.
  intros Hm. unfold IsUsableAddress, usable_at. rewrite existsb_find.
  unfold table_wf, zlen in Hm.
  erewrite (for_loop_find0 (physicalMemoryEntry m)
    (usable_entry (p_physical_address m) (p_size m))
    (fun _ => m {{ is_usable_address := true }}) _ m); [|done|lia].
  simpl. unfold used_entries. by destruct (List.find _ _).
Qed.

Lemma IsAddress_spec m :
  table_wf m ->
  IsAddress m = Some (m {{ is_address :=
    existsb (fun e => (entry_start e <=? p_physical_address m) &&
                      (p_physical_address m <? u64 (entry_start e + entry_size e))) (used_entries m) }}).
Proof.
  intros Hm. unfold IsAddress. rewrite existsb_find.
  unfold table_wf, zlen in Hm.
  erewrite (for_loop_find0 (physicalMemoryEntry m)
    (fun e => (entry_start e <=? p_physical_address m) &&
              (p_physical_address m <? u64 (entry_start e + entry_size e)))
    (fun _ => m {{ is_address := true }}) _ m); [|done|lia].
  simpl. unfold used_entries. by destruct (List.find _ _).
Qed.

(** One step of the search of [GetVirtualAddress]. *)
Definition translate_in (i : Z) (m : PhysicalMemoryManager) : option (PhysicalMemoryManager + PhysicalMemoryManager) :=
  e ← zget (physicalMemoryEntry m) i;
  Some (if (entry_start e <=? p_physical_address m) && (p_physical_address m <? entry_end e)
        then inr (m {{ virtualAddress := u64 (entry_vstart e + u64 (p_physical_address m - entry_start e)) }})
        else inl m).

Lemma translate_loop n : forall i m r, for_loop n i 1 translate_in m = Some r ->
  (r = inl m \/ exists v, r = inr (m {{ virtualAddress := v }})) /\
  forall w, for_loop n i 1 translate_in (m {{ virtualAddress := w }}) =
    Some (match r with inl _ => inl (m {{ virtualAddress := w }}) | inr m' => inr m' end).
Proof.
  induction n as [|n IH]; intros i m r H; [change (Some (inl m) = Some r) in H; injection H as <-; split; [by left | by intros w]|].
  rewrite for_loop_S in H. assert (forall w, translate_in i (m {{ virtualAddress := w }}) =
    e ← zget (physicalMemoryEntry m) i;
    Some (if (entry_start e <=? p_physical_address m) && (p_physical_address m <? entry_end e)
          then inr (m {{ virtualAddress := u64 (entry_vstart e + u64 (p_physical_address m - entry_start e)) }})
          else inl (m {{ virtualAddress := w }}))) as Hw by done.
  setoid_rewrite for_loop_S. setoid_rewrite Hw. unfold translate_in at 2 in H.
  destruct (zget (physicalMemoryEntry m) i) as [e|]; cbn [mbind option_bind] in *; [|discriminate H].
  destruct (_ && _); [|by apply IH]. injection H as <-. split; [right; by eexists | done].
Qed.

(** Asking for the same address once more gives the same answer. *)
Lemma GetVirtualAddress_again m m' : GetVirtualAddress m = Some m' ->
  GetVirtualAddress (m' {{ p_physical_address := p_physical_address m }}) = Some m'.
Proof.
  change (GetVirtualAddress m) with (r ← for_loop (Z.to_nat (memory_entries m)) 0 1 translate_in m;
    Some (match r with inr m => m | inl m => m {{ virtualAddress := 0x0 }} end)).
  destruct (for_loop _ _ _ translate_in m) as [r|] eqn:E; [|done].
  assert (forall v, GetVirtualAddress ((m {{ virtualAddress := v }}) {{ p_physical_address := p_physical_address m }}) =
    r ← for_loop (Z.to_nat (memory_entries m)) 0 1 translate_in (m {{ virtualAddress := v }});
    Some (match r with inr m => m | inl m => m {{ virtualAddress := 0x0 }} end)) as Hv by done.
  destruct (translate_loop _ _ _ _ E) as [[-> | [v ->]] Hw]; cbn [mbind option_bind]; intros [= <-].
  - etrans; [exact (Hv 0)|]. by rewrite Hw.
  - etrans; [exact (Hv v)|]. by rewrite Hw.
Qed.

Lemma GetVirtualAddress_spec m :
  table_wf m ->
  GetVirtualAddress m = Some (m {{ virtualAddress :=
    match List.find (fun e => (entry_start e <=? p_physical_address m) &&
                              (p_physical_address m <? entry_end e)) (used_entries m) with
    | Some e => u64 (entry_vstart e + u64 (p_physical_address m - entry_start e))
    | None => 0
    end }}).
Proof.
  intros Hm. unfold GetVirtualAddress.
  unfold table_wf, zlen in Hm.
  erewrite (for_loop_find0 (physicalMemoryEntry m)
    (fun e => (entry_start e <=? p_physical_address m) && (p_physical_address m <? entry_end e))
    (fun e => m {{ virtualAddress :=
                 u64 (entry_vstart e + u64 (p_physical_address m - entry_start e)) }}) _ m); [|done|lia].
  simpl. unfold used_entries. by destruct (List.find _ _).
Qed.

(** *** Building the bitmap *)

Definition KERNEL_FRAMES : Z := 192000.

(** The bit a frame gets. *)
Definition frame_usable (m : PhysicalMemoryManager) (f : Z) : bool :=
  usable_at m (frame_address f) FOUR_KiB_MEMORY_PAGE_SIZE && (KERNEL_FRAMES <=? f).

Definition number_of_page_frames (m : PhysicalMemoryManager) : Z :=
  s32 (GetReservedAndUsableMemorySize m / FOUR_KiB_MEMORY_PAGE_SIZE).

Lemma buffer_len mem a n : zlen (buffer mem a n) = Z.max 0 n.
Proof. unfold zlen, buffer. rewrite length_map, length_seqZ. lia. Qed.

Lemma buffer_bytes mem a n : (forall x, 0 <= mem x < 256) -> bytes (buffer mem a n).
Proof. intros H. apply Forall_forall. intros x [y [-> _]]%list_elem_of_fmap. apply H. Qed.

(** The state of the first loop before frame [k]. *)
Record building (m : PhysicalMemoryManager) (n k : Z) (t : PhysicalMemoryManager) : Prop := {
  b_len : zlen (physical_memory_bitmap t) = n / 8;
  b_bytes : bytes (physical_memory_bitmap t);
  b_table : physicalMemoryEntry t = physicalMemoryEntry m;
  b_entries : memory_entries t = memory_entries m;
  b_bits : forall f, 0 <= f < k -> bit_at (physical_memory_bitmap t) f = frame_usable m f
}.

Definition mark_frame (page_frame_number : Z) (m : PhysicalMemoryManager) : option PhysicalMemoryManager :=
  let m := m {{ p_physical_address := frame_address page_frame_number;
                p_size := FOUR_KiB_MEMORY_PAGE_SIZE }} in
  m ← IsUsableAddress m;
  bitmap ← (if is_usable_address m && (Z.quot KERNEL_MEMORY_SIZE FOUR_KiB_MEMORY_PAGE_SIZE <=? page_frame_number)
            then SetBit (physical_memory_bitmap m) page_frame_number
            else ClearBit (physical_memory_bitmap m) page_frame_number);
  Some (m {{ physical_memory_bitmap := bitmap }}).

Lemma mark_frame_spec m n k t :
  table_wf m -> n mod 8 = 0 -> 0 <= k < n -> building m n k t ->
  exists t', mark_frame k t = Some t' /\ building m n (k + 1) t'.
Proof.
  intros Hm Hn Hk [H1 H2 H3 H4 H5]. unfold mark_frame.
  rewrite IsUsableAddress_spec by (unfold table_wf in *; simpl; by rewrite H3, H4). simpl.
  change (Z.quot KERNEL_MEMORY_SIZE FOUR_KiB_MEMORY_PAGE_SIZE) with KERNEL_FRAMES.
  match goal with |- context [if ?c then _ else _] => replace c with (frame_usable m k) end.
  2: { unfold frame_usable, usable_at, used_entries. simpl. by rewrite H3, H4. }
  assert (0 <= k < 8 * zlen (physical_memory_bitmap t)) as Hr by (rewrite H1; zdiv).
  assert (exists bm', (if frame_usable m k then SetBit (physical_memory_bitmap t) k
                       else ClearBit (physical_memory_bitmap t) k) = Some bm' /\
    length bm' = length (physical_memory_bitmap t) /\ bytes bm' /\
    forall f, 0 <= f -> bit_at bm' f =
      if f =? k then frame_usable m k else bit_at (physical_memory_bitmap t) f) as (bm' & -> & Hl & Hb & Hbit).
  { destruct (frame_usable m k).
    - destruct (SetBit_bit _ k H2 Hr) as (bm' & E & Hl & Hb & Hbit). exists bm'. split_and!; try done.
    - destruct (ClearBit_bit _ k H2 Hr) as (bm' & E & Hl & Hb & Hbit). exists bm'. split_and!; try done.
      intros f Hf. rewrite Hbit by done. by bdestr (f =? k). }
  simpl. eexists. split; [reflexivity|]. split; simpl; try done.
  - unfold zlen in *. lia.
  - intros f Hf. rewrite Hbit by lia. bdestr (f =? k); [by subst | apply H5; lia].
Qed.

Lemma CreatePhysicalPagesBitMap_spec apic mem k m :
  let n := number_of_page_frames m in
  table_wf m -> alloc_wf k -> 0 <= apic < 65535 -> (forall a, 0 <= mem a < 256) ->
  0 <= n < 524288 -> n mod 8 = 0 ->
  kernel_memory_current_address k + n / 8 < kernel_memory_end_address k ->
  exists k' m', CreatePhysicalPagesBitMap apic mem k m = Some (k', m') /\
    building m n n m' /\ available_frame m' = count (frame_usable m) 0 n /\
    k' = k {{ kernel_memory_current_address := kernel_memory_current_address k + n / 8 }}.
Proof.
  intros n Hm Hk Ha Hmem Hn Hn8 Hfit. unfold CreatePhysicalPagesBitMap.
  change (s32 (GetReservedAndUsableMemorySize m / FOUR_KiB_MEMORY_PAGE_SIZE)) with n.
  rewrite (Z.quot_div_nonneg n 8) by lia.
  pose proof (serve_bump apic k (Kmalloc (n / 8)) (wf_unheld _ Hk) Ha) as Hs. simpl in Hs.
  destruct Hk as [K1 K2 K3 K4 K5 K6 K7]. rewrite (u64_small (n / 8)) by zdiv. rewrite Hs.
  rewrite u64_small by zdiv.
  bdestr (kernel_memory_current_address k + n / 8 <? kernel_memory_end_address k); [|lia]. simpl.
  bdestr (kernel_memory_current_address k =? 0); [lia|].
  match goal with |- context [for_each _ 0 _ ?r] =>
    match type of r with PhysicalMemoryManager => set (m0 := r) end end.
  destruct (for_each_inv (building m n) mark_frame (Z.to_nat n) 0 m0) as (m1 & E & H1).
  { split; simpl; try done; [rewrite buffer_len; zdiv | by apply buffer_bytes | lia]. }
  { intros i t Hi. apply mark_frame_spec; [done | done | lia]. }
  replace (0 + Z.of_nat (Z.to_nat n)) with n in H1 by lia.
  change (for_each (Z.to_nat n) 0 _ m0) with (for_each (Z.to_nat n) 0 mark_frame m0).
  rewrite E. simpl. pose proof H1 as [B1 B2 B3 B4 B5].
  rewrite (for_each_count (frame_usable m)).
  - simpl. eexists _, _. split; [reflexivity|]. rewrite Z2Nat.id by lia.
    pose proof (count_bounds (frame_usable m) 0 n). rewrite u64_small by lia.
    split_and!; [by split | done | done].
  - intros i x Hi Hx. rewrite GetBit_bit by (done || (rewrite B1; zdiv)). simpl.
    rewrite truthy_b2z, B5 by lia. rewrite s32_small by lia. done.
Qed.

(** *** Building the collections *)

Lemma InitializePhysicalMemoryFrames_spec apic k m :
  let N := available_frame m / 512 in
  alloc_wf k -> 0 <= apic < 65535 -> bytes (physical_memory_bitmap m) ->
  0 <= available_frame m < 524288 -> 512 * N <= 8 * zlen (physical_memory_bitmap m) ->
  kernel_memory_current_address k + 16 * N < kernel_memory_end_address k ->
  exists k' m', InitializePhysicalMemoryFrames apic k m = Some (k', m') /\ manager_wf m' /\
    number_physical_memory_frame_collection m' = N /\
    physical_memory_bitmap m' = physical_memory_bitmap m.
Proof.
  intros N Hk Ha Hb Hav Hbm Hfit. unfold InitializePhysicalMemoryFrames. fold N.
  assert (0 <= N <= 1023) as HN by (unfold N; zdiv).
  pose proof (serve_bump apic k (Kmalloc (16 * N)) (wf_unheld _ Hk) Ha) as Hs. simpl in Hs.
  destruct Hk as [K1 K2 K3 K4 K5 K6 K7]. rewrite (u64_small (16 * N)) by lia. rewrite Hs.
  rewrite u64_small by lia.
  bdestr (kernel_memory_current_address k + 16 * N <? kernel_memory_end_address k); [|lia]. simpl.
  bdestr (kernel_memory_current_address k =? 0); [lia|].
  rewrite s32_small, Z.quot_div_nonneg by lia. fold N. rewrite u16_small by lia.
  match goal with |- context [for_each (Z.to_nat N) 0 ?f ?r] => set (body := f); set (m0 := r) end.
  destruct (for_each_inv (fun i t =>
      physical_memory_bitmap t = physical_memory_bitmap m /\
      number_physical_memory_frame_collection t = N /\
      zlen (physical_memory_frame_collection t) = N /\
      forall j, 0 <= j < i -> zget (physical_memory_frame_collection t) j =
        Some (mkPhysicalMemoryFrameCollection
                (popcount (physical_memory_bitmap m) (512 * j) 512) (j * TWO_MiB_MEMORY_PAGE_SIZE)))
    body (Z.to_nat N) 0 m0) as (m1 & E & H1 & H2 & H3 & H4).
  - split_and!; try done; [|lia]. simpl. unfold zlen. rewrite length_replicate. lia.
  - intros i t Hi (T1 & T2 & T3 & T4). unfold body. rewrite T1.
    rewrite (for_each_count (bit_at (physical_memory_bitmap m))).
    + simpl. rewrite ?Z.add_0_l. change (Z.of_nat 512) with 512.
      replace (i * 512) with (512 * i) by lia.
      pose proof (count_bounds (bit_at (physical_memory_bitmap m)) (512 * i) 512).
      unfold FOUR_KiB_MEMORY_PAGE_SIZE. rewrite s32_small, u16_small, u64_small by lia.
      match goal with |- context [zset ?l ?j ?c] =>
        pose proof (zset_eq l j c ltac:(lia)) as Hz; rewrite Hz end.
      simpl. eexists. split; [reflexivity|]. simpl. split_and!; try done.
      * unfold zlen in *. by rewrite length_insert.
      * intros j Hj. rewrite (zget_zset _ _ _ _ _ Hz). bdestr (j =? i).
        { subst j. unfold popcount, TWO_MiB_MEMORY_PAGE_SIZE. do 2 f_equal. lia. }
        apply T4. lia.
    + intros j x Hj Hx. rewrite GetBit_bit by (done || lia). simpl. by rewrite truthy_b2z.
  - rewrite E. simpl. eexists _, m1. split; [reflexivity|]. split_and!; try done.
    split; try (rewrite ?H1, ?H2; done || lia).
    + unfold managed_frames. rewrite H1, H2. lia.
    + intros j Hj. rewrite H1. apply H4. lia.
Qed.

(** *** Operations as one interface *)

Inductive frame_op :=
  | AllocFrame | FreeFrame (address : Z) | AllocCollection | FreeCollection (i : Z).

(** The result of an operation that returns nothing is recorded as 0. *)
Definition exec_op (m : PhysicalMemoryManager) (op : frame_op) : option (PhysicalMemoryManager * Z) :=
  match op with
  | AllocFrame => AllocateOnePhysicalFrame m
  | FreeFrame a => m ← DeallocatePhysicalFrame (params_set m a); Some (m, 0)
  | AllocCollection => AllocateUsableCollection m
  | FreeCollection i =>
      m ← DeallocateOnePhysicalFrameCollection (params_set m (i * TWO_MiB_MEMORY_PAGE_SIZE));
      Some (m, 0)
  end.

Definition valid_op (n : Z) (op : frame_op) : Prop :=
  match op with
  | FreeFrame a => 0 <= a < n * TWO_MiB_MEMORY_PAGE_SIZE
  | FreeCollection i => 0 <= i < n
  | _ => True
  end.

(** The abstract manager: a set of free frames of [n] collections. *)
Definition abstract_op (n : Z) (S : gset Z) (op : frame_op) (r : Z) (S' : gset Z) : Prop :=
  match op with
  | AllocFrame => frame_alloc S r S'
  | FreeFrame a => r = 0 /\ S' = S ∪ {[a / 4096]}
  | AllocCollection => collection_alloc n S r S'
  | FreeCollection i => r = 0 /\ S' = S ∪ collection_frames i
  end.

Lemma exec_op_spec m op :
  manager_wf m -> valid_op (number_physical_memory_frame_collection m) op ->
  exists m' r, exec_op m op = Some (m', r) /\ manager_wf m' /\
    number_physical_memory_frame_collection m' = number_physical_memory_frame_collection m /\
    abstract_op (number_physical_memory_frame_collection m) (free_frames m) op r (free_frames m').
Proof.
  intros Hm Hv. destruct op as [|a| |i]; simpl in *.
  - destruct (AllocateOnePhysicalFrame_spec m Hm) as (m' & r & E & W & A & N). eauto 10.
  - destruct (DeallocatePhysicalFrame_spec (params_set m a)) as (m' & -> & W & A & N & _).
    { by apply manager_wf_params. }
    { unfold managed_frames, TWO_MiB_MEMORY_PAGE_SIZE in *. simpl. lia. }
    simpl. exists m', 0. by split_and!.
  - destruct (AllocateOnePhysicalFrameCollection_spec m Hm) as (m' & r & E & W & A & N). eauto 10.
  - destruct (DeallocateOnePhysicalFrameCollection_spec (params_set m (i * TWO_MiB_MEMORY_PAGE_SIZE)) i)
      as (m' & -> & W & A & N); [by apply manager_wf_params | done | done |].
    simpl. exists m', 0. by split_and!.
Qed.

Fixpoint exec_ops (m : PhysicalMemoryManager) (ops : list frame_op)
  : option (PhysicalMemoryManager * list (frame_op * Z)) :=
  match ops with
  | [] => Some (m, [])
  | op :: ops =>
      x ← exec_op m op; y ← exec_ops (fst x) ops;
      Some (fst y, (op, snd x) :: snd y)
  end.

(** The frames an operation hands out and the frames it takes back. *)
Definition granted_frames (op : frame_op) (r : Z) : gset Z :=
  match op with
  | AllocFrame => if r =? NO_FRAME then ∅ else {[r / 4096]}
  | AllocCollection => if r =? NO_FRAME then ∅ else collection_frames (r / TWO_MiB_MEMORY_PAGE_SIZE)
  | _ => ∅
  end.

Definition released_frames (op : frame_op) : gset Z :=
  match op with
  | FreeFrame a => {[a / 4096]} | FreeCollection i => collection_frames i | _ => ∅
  end.

(** No operation of the trace hands out a frame that is owned when it runs. *)
Fixpoint fresh_grants (owned : gset Z) (trace : list (frame_op * Z)) : Prop :=
  match trace with
  | [] => True
  | (op, r) :: trace =>
      granted_frames op r ## owned /\
      fresh_grants ((owned ∪ granted_frames op r) ∖ released_frames op) trace
  end.

Lemma abstract_op_grants n S op r S' :
  0 <= n <= 1024 -> (forall f, f ∈ S -> 0 <= f < 512 * n) -> abstract_op n S op r S' ->
  granted_frames op r ⊆ S /\ S' = (S ∖ granted_frames op r) ∪ released_frames op.
Proof.
  intros Hn Hr H. destruct op as [|a| |i]; simpl in *.
  - destruct H as [f Hf Hmin|He].
    + pose proof (Hr f Hf). bdestr (f * 4096 =? NO_FRAME); [unfold NO_FRAME in *; lia|].
      rewrite Z.div_mul by lia. set_solver.
    + rewrite Z.eqb_refl. set_solver.
  - destruct H as [-> ->]. set_solver.
  - destruct H as [i Hi Hs Hmin|He].
    + bdestr (i * TWO_MiB_MEMORY_PAGE_SIZE =? NO_FRAME);
        [unfold NO_FRAME, TWO_MiB_MEMORY_PAGE_SIZE in *; lia|].
      unfold TWO_MiB_MEMORY_PAGE_SIZE. rewrite Z.div_mul by lia. set_solver.
    + rewrite Z.eqb_refl. set_solver.
  - destruct H as [-> ->]. set_solver.
Qed.

Lemma exec_ops_fresh m owned ops :
  manager_wf m -> owned ## free_frames m ->
  Forall (valid_op (number_physical_memory_frame_collection m)) ops ->
  exists m' trace, exec_ops m ops = Some (m', trace) /\ manager_wf m' /\
    map fst trace = ops /\ fresh_grants owned trace.
Proof.
  intros Hm Ho Hv. revert m owned Hm Ho Hv. induction ops as [|op ops IH]; intros m owned Hm Ho Hv; simpl.
  { exists m, []. by split_and!. }
  apply Forall_cons in Hv as [Hv1 Hv].
  destruct (exec_op_spec m op Hm Hv1) as (m1 & r & -> & W1 & N1 & A1). simpl.
  destruct (abstract_op_grants _ _ _ _ _ (wf_number m Hm) ltac:(intros f [Hf _]%free_frames_spec; exact Hf) A1)
    as [G1 G2].
  destruct (IH m1 ((owned ∪ granted_frames op r) ∖ released_frames op)) as (m' & tr & -> & W & <- & F).
  - done.
  - rewrite G2. set_solver.
  - by rewrite N1.
  - simpl. eexists _, _. split; [reflexivity|]. split_and!; try done; set_solver.
Qed.

Lemma frame_usable_high m f : frame_usable m f = true -> KERNEL_FRAMES <= f.
Proof. intros [_ H%Z.leb_le]%andb_true_iff. done. Qed.

(** At most the frames behind the kernel's are counted as available. *)
Lemma count_usable_bound m n : 0 <= n -> count (frame_usable m) 0 n <= Z.max 0 (n - KERNEL_FRAMES).
Proof.
  revert n. apply natlike_ind; [done|]. intros n Hn IH. rewrite count_succ by done. simpl.
  destruct (frame_usable m n) eqn:E; simpl; [apply frame_usable_high in E; lia | lia].
Qed.

(** Nothing free: both searches fail and leave the manager alone. *)
Lemma nothing_free m i :
  manager_wf m -> free_frames m = ∅ -> 0 <= i < number_physical_memory_frame_collection m ->
  zget (physical_memory_frame_collection m) i =
    Some (mkPhysicalMemoryFrameCollection 0 (i * TWO_MiB_MEMORY_PAGE_SIZE)).
Proof.
  intros Hm He Hi. rewrite (wf_counts m Hm i Hi). do 2 f_equal.
  pose proof (count_bounds (bit_at (physical_memory_bitmap m)) (512 * i) 512).
  assert (popcount (physical_memory_bitmap m) (512 * i) 512 <= 0); [|unfold popcount in *; lia].
  apply popcount_positive. intros k Hk. apply not_true_is_false. intros Hb.
  assert (k ∈ free_frames m) as Hin by (apply free_frames_spec; unfold managed_frames; split; [lia|done]).
  rewrite He in Hin. by apply elem_of_empty in Hin.
Qed.

Lemma allocate_none m :
  manager_wf m -> free_frames m = ∅ ->
  AllocateOnePhysicalFrame m = Some (m, NO_FRAME) /\ AllocateUsableCollection m = Some (m, NO_FRAME).
Proof.
  intros Hm He. unfold AllocateUsableCollection, AllocateOnePhysicalFrame, AllocateOnePhysicalFrameCollection.
  pose proof (wf_number m Hm).
  rewrite !for_loop_skip; [done | |]; intros i Hi; by rewrite nothing_free by (done || lia).
Qed.

(** The state the witnesses start from: four collections over a bitmap of 256
    bytes, of which the second is free and the third partly. *)
Definition sample_manager : PhysicalMemoryManager :=
  mkPhysicalMemoryManager
    [mkPhysicalMemoryEntry 0 0x9f000 1 0 0 0x9f000;
     mkPhysicalMemoryEntry 0x100000 0x700000 1 0 0xC0000000 0x800000]
    (replicate 64 0 ++ replicate 64 255 ++ [0x18] ++ replicate 127 0)
    2 0x79f000 0 0 0x800000 0x79f000 514
    (map (fun i => mkPhysicalMemoryFrameCollection
       (if i =? 1 then 512 else if i =? 2 then 2 else 0) (i * 0x200000)) [0; 1; 2; 3])
    4 0 0 0 false false 0.

Lemma sample_manager_wf : manager_wf sample_manager.
Proof.
  split.
  - by repeat constructor.
  - simpl. lia.
  - done.
  - done.
  - intros i Hi. simpl in Hi.
    assert (i = 0 \/ i = 1 \/ i = 2 \/ i = 3) as [->|[->|[->| ->]]] by lia; by vm_compute.
Qed.

(** * Properties *)

(** C1: refinement.  Every operation of the frame allocator, on a manager whose
    counters agree with its bitmap, terminates with such a manager and is a
    step of the abstract allocator over the set of free frames: allocation
    takes the lowest free frame or the first wholly free collection, or
    reports that there is none; deallocation adds the frames to the set. *)
Theorem frame_allocator_refines m op :
  manager_wf m -> valid_op (number_physical_memory_frame_collection m) op ->
  exists m' r, exec_op m op = Some (m', r) /\ manager_wf m' /\
    number_physical_memory_frame_collection m' = number_physical_memory_frame_collection m /\
    abstract_op (number_physical_memory_frame_collection m) (free_frames m) op r (free_frames m').
Proof. apply exec_op_spec. Qed.

Lemma frame_allocator_refines_witness :
  (exists m', exec_op sample_manager AllocFrame = Some (m', 512 * 4096)) /\
  exists m' r, exec_op sample_manager AllocFrame = Some (m', r) /\ manager_wf m' /\
    number_physical_memory_frame_collection m' = 4 /\
    frame_alloc (free_frames sample_manager) r (free_frames m').
Proof.
  split; [eexists; vm_compute; reflexivity|].
  exact (frame_allocator_refines sample_manager AllocFrame sample_manager_wf I).
Defined.

(** C11: no frame is handed out twice.  Along any sequence of allocations and
    deallocations, frames or collections, a grant never overlaps the frames
    that were granted before and not released since. *)
Theorem no_double_allocation m owned ops :
  manager_wf m -> owned ## free_frames m ->
  Forall (valid_op (number_physical_memory_frame_collection m)) ops ->
  exists m' trace, exec_ops m ops = Some (m', trace) /\ manager_wf m' /\
    map fst trace = ops /\ fresh_grants owned trace.
Proof. apply exec_ops_fresh. Qed.

Lemma no_double_allocation_witness :
  let ops := [AllocFrame; AllocCollection; FreeFrame (512 * 4096); AllocCollection; AllocFrame] in
  (exists m', exec_ops sample_manager ops =
    Some (m', [(AllocFrame, 512 * 4096); (AllocCollection, NO_FRAME); (FreeFrame (512 * 4096), 0);
               (AllocCollection, 0x200000); (AllocFrame, 1027 * 4096)])) /\
  exists m' trace, exec_ops sample_manager ops = Some (m', trace) /\ manager_wf m' /\
    map fst trace = ops /\ fresh_grants ∅ trace.
Proof.
  split; [eexists; vm_compute; reflexivity|].
  apply (no_double_allocation sample_manager ∅);
    [apply sample_manager_wf | apply disjoint_empty_l | repeat constructor; simpl; done || lia].
Defined.

(** Round trip.  A collection that was allocated and is deallocated at the
    address that was returned is free again, and so is everything else. *)
Theorem collection_round_trip m m1 a :
  manager_wf m -> AllocateUsableCollection m = Some (m1, a) -> a <> NO_FRAME ->
  collection_frames (a / TWO_MiB_MEMORY_PAGE_SIZE) ⊆ free_frames m /\
  exists m2, DeallocateOnePhysicalFrameCollection (params_set m1 a) = Some m2 /\ manager_wf m2 /\
    free_frames m2 = free_frames m.
Proof.
  intros Hm E Ha. destruct (AllocateOnePhysicalFrameCollection_spec m Hm) as (m1' & a' & E' & W & A & N).
  unfold AllocateUsableCollection in E. assert (m1' = m1 /\ a' = a) as [-> ->] by (split; congruence).
  remember (free_frames m1) as S1 eqn:HS. destruct A as [i Hi Hs Hmin|]; [|done].
  unfold TWO_MiB_MEMORY_PAGE_SIZE in *. rewrite Z.div_mul by lia. split; [done|].
  destruct (DeallocateOnePhysicalFrameCollection_spec (params_set m1 (i * 0x200000)) i)
    as (m2 & E2 & W2 & F2 & _); [by apply manager_wf_params | simpl; lia | done |].
  exists m2. split_and!; [done | done |]. rewrite F2, free_frames_params, <- HS.
  by rewrite difference_union_L, union_comm_L, (subseteq_union_1_L _ _ Hs).
Qed.

Lemma collection_round_trip_witness :
  exists m1, AllocateUsableCollection sample_manager = Some (m1, 0x200000) /\
  exists m2, DeallocateOnePhysicalFrameCollection (params_set m1 0x200000) = Some m2 /\
    free_frames m2 = free_frames sample_manager.
Proof.
  assert (exists m1, AllocateUsableCollection sample_manager = Some (m1, 0x200000)) as [m1 E]
    by (eexists; vm_compute; reflexivity).
  exists m1. split; [exact E|].
  destruct (collection_round_trip sample_manager m1 0x200000) as (_ & m2 & E2 & _ & F);
    [apply sample_manager_wf | exact E | unfold NO_FRAME; lia |].
  exists m2. split; [exact E2 | exact F].
Defined.

(** C30: building the bitmap.  For a memory below 2 GiB whose frame count is a
    multiple of eight, the bitmap fits its buffer, a frame's bit says that it
    is usable and lies behind the kernel's memory, [available_frame] counts the
    set bits, and the buffer is what [kmalloc] took. *)
Theorem bitmap_marks_usable_frames apic mem k m :
  let n := number_of_page_frames m in
  table_wf m -> alloc_wf k -> 0 <= apic < 65535 -> (forall a, 0 <= mem a < 256) ->
  0 <= n < 524288 -> n mod 8 = 0 ->
  kernel_memory_current_address k + n / 8 < kernel_memory_end_address k ->
  exists k' m', CreatePhysicalPagesBitMap apic mem k m = Some (k', m') /\
    (forall f, 0 <= f < n -> bit_at (physical_memory_bitmap m') f =
       usable_at m (f * 4096) 4096 && (KERNEL_FRAMES <=? f)) /\
    available_frame m' = popcount (physical_memory_bitmap m') 0 n /\
    kernel_memory_current_address k' = kernel_memory_current_address k + n / 8.
Proof.
  intros n Hm Hk Ha Hmem Hn Hn8 Hfit.
  destruct (CreatePhysicalPagesBitMap_spec apic mem k m) as (k' & m' & E & [B1 B2 B3 B4 B5] & Hav & ->);
    try done.
  fold n in B5, Hav, E. eexists _, m'. split; [exact E|]. split_and!; [| |done].
  - intros f Hf. rewrite B5 by done. unfold frame_usable. by rewrite frame_address_small by lia.
  - rewrite Hav. symmetry. apply count_ext; [lia|]. intros f Hf. apply B5. lia.
Qed.

(** A machine with 64 KiB of memory, small enough to evaluate. *)
Definition tiny_memory : PhysicalMemoryManager :=
  sample_manager {{ usable_memory_size := 0x10000; reserved_memory_size := 0x0 }}.

Lemma bitmap_marks_usable_frames_witness :
  number_of_page_frames tiny_memory = 16 /\
  exists k' m', CreatePhysicalPagesBitMap 0 (fun _ => 255) small_allocator tiny_memory = Some (k', m') /\
    (forall f, 0 <= f < 16 -> bit_at (physical_memory_bitmap m') f =
       usable_at tiny_memory (f * 4096) 4096 && (KERNEL_FRAMES <=? f)) /\
    available_frame m' = popcount (physical_memory_bitmap m') 0 16 /\
    kernel_memory_current_address k' = 0x10012.
Proof.
  split; [reflexivity|].
  apply (bitmap_marks_usable_frames 0 (fun _ => 255) small_allocator tiny_memory);
    [by vm_compute | apply small_allocator_wf | lia | lia | by vm_compute | by vm_compute | by vm_compute].
Defined.

(** The collections cover too little.  [InitializePhysicalMemoryFrames]
    derives their number from the usable frames, but they tile memory from
    address 0, where the 192000 frames of the kernel are never usable: on a
    machine with fewer than twice as many frames (1.46 GiB), although every
    usable frame behind the kernel has its bit set, no frame and no collection
    can be allocated at all. *)
Theorem small_machine_allocates_nothing apic mem k m :
  let n := number_of_page_frames m in
  table_wf m -> alloc_wf k -> 0 <= apic < 65535 -> (forall a, 0 <= mem a < 256) ->
  0 <= n < 2 * KERNEL_FRAMES -> n mod 8 = 0 ->
  kernel_memory_current_address k + n / 8 + 16 * (n / 512) < kernel_memory_end_address k ->
  exists k1 m1 k2 m2,
    CreatePhysicalPagesBitMap apic mem k m = Some (k1, m1) /\
    InitializePhysicalMemoryFrames apic k1 m1 = Some (k2, m2) /\
    AllocateOnePhysicalFrame m2 = Some (m2, NO_FRAME) /\
    AllocateUsableCollection m2 = Some (m2, NO_FRAME).
Proof.
  intros n Hm Hk Ha Hmem Hn Hn8 Hfit. unfold KERNEL_FRAMES in *.
  assert (0 <= n / 512) as Hd by zdiv. pose proof Hk as [K1 K2 K3 K4 K5 K6 K7].
  destruct (CreatePhysicalPagesBitMap_spec apic mem k m) as (k1 & m1 & E1 & [B1 B2 B3 B4 B5] & Hav & ->);
    try done; fold n; [lia | lia |]. fold n in B1, B5, Hav.
  pose proof (count_bounds (frame_usable m) 0 n). pose proof (count_usable_bound m n) as Hub.
  unfold KERNEL_FRAMES in Hub.
  destruct (InitializePhysicalMemoryFrames_spec apic
    (k {{ kernel_memory_current_address := kernel_memory_current_address k + n / 8 }}) m1)
    as (k2 & m2 & E2 & W2 & N2 & Bm2); try done; rewrite ?Hav, ?B1; simpl; try lia.
  { split; simpl; done || lia || zdiv. }
  { zdiv. }
  { assert (count (frame_usable m) 0 n / 512 <= n / 512) by (apply Z.div_le_mono; lia). lia. }
  assert (managed_frames m2 <= 192000) as HM by (unfold managed_frames; rewrite N2, Hav; zdiv).
  assert (free_frames m2 = ∅) as Hfree.
  { apply set_eq. intros f. rewrite free_frames_spec. split; [|by intros []%elem_of_empty].
    intros [Hf Hb]. rewrite Bm2, B5 in Hb.
    - apply frame_usable_high in Hb. unfold KERNEL_FRAMES in Hb. lia.
    - split; [lia|]. unfold managed_frames in Hf. rewrite N2, Hav in Hf. zdiv. }
  eexists _, m1, k2, m2. split; [exact E1|]. split; [exact E2|]. by apply allocate_none.
Qed.

Lemma small_machine_allocates_nothing_witness :
  exists k1 m1 k2 m2,
    CreatePhysicalPagesBitMap 0 (fun _ => 255) small_allocator tiny_memory = Some (k1, m1) /\
    InitializePhysicalMemoryFrames 0 k1 m1 = Some (k2, m2) /\
    AllocateOnePhysicalFrame m2 = Some (m2, NO_FRAME) /\
    AllocateUsableCollection m2 = Some (m2, NO_FRAME).
Proof.
  apply (small_machine_allocates_nothing 0 (fun _ => 255) small_allocator tiny_memory);
    [by vm_compute | apply small_allocator_wf | lia | lia | by vm_compute | by vm_compute | by vm_compute].
Defined.

(** What [IsUsableAddress] answers.  A range is usable when it ends strictly
    below the end of a usable entry that contains its start, but also, because
    of the misplaced parenthesis, whenever it starts in the first MiB and the
    table has any entry, whatever its type and extent. *)
Theorem usable_address_answer m :
  table_wf m -> p_physical_address m + p_size m < 2 ^ 64 ->
  0 <= p_physical_address m -> 0 <= p_size m ->
  exists m', IsUsableAddress m = Some m' /\ used_entries m' = used_entries m /\
    (is_usable_address m' = true <->
     (exists e, e ∈ used_entries m /\ entry_type e = E820_MEMORY_ENTRY_TYPE_USABLE /\
        entry_start e <= p_physical_address m /\ p_physical_address m + p_size m < entry_end e) \/
     (p_physical_address m < FIRST_MEMORY_1_MiB /\ used_entries m <> [])).
Proof.
  intros Hm Hw Ha Hs. rewrite IsUsableAddress_spec by done. eexists. split; [reflexivity|].
  split; [done|]. simpl. unfold usable_at. rewrite existsb_exists. unfold usable_entry.
  rewrite u64_small by lia. split.
  - intros (e & Hin & [[[H1 H2]%andb_true_iff H3]%andb_true_iff|H]%orb_true_iff).
    + left. exists e. rewrite list_elem_of_In. split; [done | lia].
    + right. split; [lia|]. by intros E; rewrite E in Hin.
  - intros [(e & Hin & H1 & H2 & H3)|[H Hne]].
    + exists e. rewrite <- list_elem_of_In. split; [done|]. rewrite H1. lia.
    + destruct (used_entries m) as [|e es]; [done|]. exists e. split; [by left|]. lia.
Qed.

Lemma usable_address_answer_witness :
  let m := sample_manager {{ p_physical_address := 0xA0000; p_size := 0x1000 }} in
  (exists m', IsUsableAddress m = Some m' /\ is_usable_address m' = true) /\
  exists m', IsUsableAddress m = Some m' /\ used_entries m' = used_entries m.
Proof.
  split; [eexists; split; [vm_compute; reflexivity | reflexivity]|].
  destruct (usable_address_answer (sample_manager {{ p_physical_address := 0xA0000; p_size := 0x1000 }}))
    as (m' & E & U & _); [by vm_compute | by vm_compute | by vm_compute | by vm_compute |].
  exists m'. split; [exact E | exact U].
Defined.

(** [AddPhysicalMemoryEntry] appends a reserved entry when its start lies in
    no entry yet, after which exactly the addresses of the old entries and of
    the new one are addresses; otherwise it leaves the table alone. *)
Theorem add_entry_extends_addresses m :
  table_wf m -> memory_entries m < zlen (physicalMemoryEntry m) -> memory_entries m < 65535 ->
  0 <= p_physical_address m -> 0 <= p_size m -> p_physical_address m + p_size m < 2 ^ 64 ->
  exists m', AddPhysicalMemoryEntry m = Some m' /\ table_wf m' /\
    if is_address m' then used_entries m' = used_entries m
    else
      length (used_entries m') = Datatypes.S (length (used_entries m)) /\
      forall a, exists q q', IsAddress (params_set m' a) = Some q /\ IsAddress (params_set m a) = Some q' /\
        is_address q = is_address q' ||
          ((p_physical_address m <=? a) && (a <? p_physical_address m + p_size m)).
Proof.
  intros Hm Hcap Hmax Ha Hs Hw. unfold AddPhysicalMemoryEntry. rewrite IsAddress_spec by done. simpl.
  unfold table_wf in *. case_match eqn:E; simpl.
  2: { eexists. split; [reflexivity|]. simpl. split; [done|].
       apply negb_false_iff in E. rewrite E. done. }
  apply negb_true_iff in E. unfold zupd.
  destruct (zget_some (physicalMemoryEntry m) (memory_entries m)) as [e He]; [lia|]. rewrite He. simpl.
  rewrite zset_eq by lia. simpl. rewrite u16_small by lia. eexists. split; [reflexivity|]. simpl.
  rewrite u64_small by lia. rewrite E.
  assert (used_entries (m {{ physicalMemoryEntry :=
      <[Z.to_nat (memory_entries m):=e {{ entry_start := p_physical_address m; entry_size := p_size m;
           entry_type := E820_MEMORY_ENTRY_TYPE_RESEARVED;
           entry_end := p_physical_address m + p_size m }}]> (physicalMemoryEntry m);
      memory_entries := memory_entries m + 1 }}) =
    used_entries m ++ [e {{ entry_start := p_physical_address m; entry_size := p_size m;
           entry_type := E820_MEMORY_ENTRY_TYPE_RESEARVED;
           entry_end := p_physical_address m + p_size m }}]) as Hu.
  { unfold used_entries. simpl. unfold zlen in *.
    replace (Z.to_nat (memory_entries m + 1)) with (Datatypes.S (Z.to_nat (memory_entries m))) by lia.
    erewrite take_S_r; [|apply list_lookup_insert_eq; lia]. by rewrite take_insert_ge by lia. }
  split; [unfold zlen in *; rewrite length_insert; lia|]. split.
  - etransitivity; [exact (f_equal length Hu)|]. rewrite length_app. simpl. lia.
  - intros a. unfold params_set. eexists _, _. split; [apply IsAddress_spec; unfold table_wf, zlen in *; simpl; rewrite length_insert; lia|].
    split; [apply IsAddress_spec; done|]. simpl.
    match goal with |- existsb ?f _ = _ =>
      transitivity (existsb f (used_entries m ++ [e {{ entry_start := p_physical_address m; entry_size := p_size m;
           entry_type := E820_MEMORY_ENTRY_TYPE_RESEARVED;
           entry_end := p_physical_address m + p_size m }}]));
      [exact (f_equal (existsb f) Hu)|] end.
    rewrite existsb_app. simpl. rewrite orb_false_r. by rewrite u64_small by lia.
Qed.

Lemma add_entry_extends_addresses_witness :
  let m := sample_manager {{ physicalMemoryEntry := physicalMemoryEntry sample_manager ++
                               [mkPhysicalMemoryEntry 0 0 0 0 0 0];
                             p_physical_address := 0xFEE00000; p_size := 0x1000 }} in
  exists m', AddPhysicalMemoryEntry m = Some m' /\ table_wf m' /\ is_address m' = false.
Proof.
  destruct (add_entry_extends_addresses
    (sample_manager {{ physicalMemoryEntry := physicalMemoryEntry sample_manager ++
                         [mkPhysicalMemoryEntry 0 0 0 0 0 0];
                       p_physical_address := 0xFEE00000; p_size := 0x1000 }}))
    as (m' & E & W & _); [by vm_compute.. |].
  exists m'. split; [exact E|]. split; [exact W|].
  vm_compute in E. injection E as <-. reflexivity.
Defined.
