(* ===== verification/Stdio.v ===== *)
(** * Formatting and parsing of numbers: [sources/misc/stdio.c], [sources/misc/numbers.c]

    [sprintf_raw] is modelled by the characters it stores; strings are lists of
    character codes without their NUL. *)

From S2P Require Import Prelude.

#[local] Open Scope Z_scope.

(** The next value [va_arg] delivers. *)
Inductive va_item :=
  | VaInt (n : Z)                     (* int, uint64_t or uint128_t *)
  | VaStr (s : option (list Z)).      (* char pointer, None is NULL *)

Definition CH_PERCENT : Z := 37.
Definition CH_ZERO : Z := 48.
Definition CH_SPACE : Z := 32.
Definition CH_c : Z := 99.
Definition CH_s : Z := 115.
Definition CH_d : Z := 100.
Definition CH_x : Z := 120.
Definition CH_y : Z := 121.
Definition CH_v : Z := 118.
Definition CH_z : Z := 122.

(** [%d]: from the divisor 10^19 downwards. *)
Fixpoint decimal_loop (fuel : nat) (divisor decimal : Z) (add_zero : bool) : option (list Z) :=
  match fuel with
  | O => None
  | S fuel =>
      if 0 <? divisor then
        let v := u8 (decimal / divisor) in
        let emit := (0 <? v) || add_zero in
        rest ← decimal_loop fuel (divisor / 10) (decimal mod divisor) emit;
        Some (if emit then u8 (v + CH_ZERO) :: rest else rest)
      else Some []
  end.

Definition print_decimal (decimal : Z) : option (list Z) :=
  if decimal =? 0 then Some [CH_ZERO]
  else decimal_loop 21 0x8AC7230489E80000 decimal false.

Definition hex_digit (l_tmp : Z) : Z :=
  if 0xA <=? l_tmp then l_tmp - 0xA + 97 else l_tmp + CH_ZERO.

(** [for (uint8_t y = top; y <= top && y >= 0; y -= 4)]: [y] wraps to 252. *)
Fixpoint hexa_loop (fuel : nat) (top y hexa : Z) (l_no_zeros : bool) : option (list Z) :=
  match fuel with
  | O => None
  | S fuel =>
      if (y <=? top) && (0 <=? y) then
        let l_tmp := Z.land (Z.shiftr hexa y) 0xF in
        if (l_tmp =? 0) && l_no_zeros then hexa_loop fuel top (u8 (y - 4)) hexa l_no_zeros
        else rest ← hexa_loop fuel top (u8 (y - 4)) hexa false;
             Some (hex_digit l_tmp :: rest)
      else Some []
  end.

(** [%x] and [%y] with [top = 60], [%v] and [%z] with [top = 124]; [pad] for
    the conversions that print at least two digits. *)
Definition print_hexa (top : Z) (pad : bool) (hexa : Z) : option (list Z) :=
  if hexa =? 0 then Some [CH_ZERO; CH_ZERO]
  else
    digits ← hexa_loop 33 top top hexa true;
    Some ((if pad && (hexa <? 0x10) then [CH_ZERO] else []) ++ digits).

(** [%s]: a NULL argument is consumed without advancing in the template, so the
    next argument is taken for a string as well. *)
Fixpoint next_string (args : list va_item) : option (list Z * list va_item) :=
  match args with
  | VaStr (Some s) :: args => Some (s, args)
  | VaStr None :: args => next_string args
  | _ => None
  end.

Definition next_int (args : list va_item) : option (Z * list va_item) :=
  match args with VaInt n :: args => Some (n, args) | _ => None end.

Fixpoint sprintf_raw (str_template : list Z) (args : list va_item) : option (list Z) :=
  match str_template with
  | [] => Some []
  | c :: rest =>
      if c =? CH_PERCENT then
        match rest with
        | k :: rest' =>
            if k =? CH_c then
              x ← next_int args; let '(n, args) := x in
              out ← sprintf_raw rest' args; Some (u8 n :: out)
            else if k =? CH_s then
              x ← next_string args; let '(s, args) := x in
              out ← sprintf_raw rest' args; Some (s ++ out)
            else if k =? CH_d then
              x ← next_int args; let '(n, args) := x in
              s ← print_decimal (u64 n); out ← sprintf_raw rest' args; Some (s ++ out)
            else if (k =? CH_x) || (k =? CH_y) then
              x ← next_int args; let '(n, args) := x in
              s ← print_hexa 60 (k =? CH_y) (u64 n); out ← sprintf_raw rest' args; Some (s ++ out)
            else if (k =? CH_v) || (k =? CH_z) then
              x ← next_int args; let '(n, args) := x in
              s ← print_hexa 124 (k =? CH_z) (n mod 2 ^ 128); out ← sprintf_raw rest' args; Some (s ++ out)
            else out ← sprintf_raw rest args; Some (c :: out)
        | [] => Some [c]
        end
      else out ← sprintf_raw rest args; Some (c :: out)
  end.

Definition is_digit (c : Z) : bool := (CH_ZERO <=? c) && (c <=? 57).

Definition is_integer (number : list Z) : bool :=
  if zlen number =? 0 then false else forallb is_digit number.

(** [str] is the memory from the argument on; running off its end is undefined. *)
Fixpoint atoi_skip (str : list Z) : option (list Z) :=
  match str with
  | [] => None
  | c :: str' => if c =? CH_SPACE then atoi_skip str' else Some str
  end.

Fixpoint atoi_loop (str : list Z) (res : Z) : option Z :=
  match str with
  | [] => None
  | c :: str' =>
      if c =? CH_SPACE then Some res
      else if (c <? CH_ZERO) || (57 <? c) then Some 0
      else atoi_loop str' (u64 (u64 (res * 10) + (c - CH_ZERO)))
  end.

Definition atoi (str : list Z) : option Z :=
  str ← atoi_skip str; atoi_loop str 0.

(** ** Positional notation *)

(** The [k] digits of [n] in base [b], most significant first. *)
Fixpoint digits (b : Z) (k : nat) (n : Z) : list Z :=
  match k with O => [] | S k' => (n / b ^ Z.of_nat k') mod b :: digits b k' n end.

Definition value (b : Z) (ds : list Z) : Z := foldl (fun a d => a * b + d) 0 ds.

Fixpoint drop_zeros (ds : list Z) : list Z :=
  match ds with d :: ds' => if d =? 0 then drop_zeros ds' else ds | [] => [] end.

(** What a printed number must be: digits in the base, no leading zero, the value. *)
Definition canonical (b n : Z) (ds : list Z) : Prop :=
  Forall (fun d => 0 <= d < b) ds /\ head ds <> Some 0 /\ value b ds = n.

(** ** Lemmas *)

Lemma value_acc b ds a : foldl (fun a d => a * b + d) a ds = a * b ^ zlen ds + value b ds.
Proof.
  unfold value. revert a. induction ds as [|d ds IH]; intros a; unfold zlen in *; simpl.
  - change (b ^ Z.of_nat 0) with 1. lia.
  - rewrite (IH (a * b + d)), (IH d).
    replace (Z.of_nat (Datatypes.S (length ds))) with (1 + Z.of_nat (length ds)) by lia.
    rewrite Z.pow_add_r, Z.pow_1_r by lia. lia.
Qed.

Lemma digits_length b k n : length (digits b k n) = k.
Proof. induction k as [|k IH]; simpl; [done | by rewrite IH]. Qed.

Lemma value_digits b k n : 1 < b -> value b (digits b k n) = n mod b ^ Z.of_nat k.
Proof.
  intros Hb. induction k as [|k IH].
  - simpl. change (b ^ Z.of_nat 0) with 1. by rewrite Z.mod_1_r.
  - unfold value. cbn [digits foldl]. rewrite value_acc, IH. unfold zlen. rewrite digits_length.
    replace (Z.of_nat (Datatypes.S k)) with (Z.of_nat k + 1) by lia.
    rewrite Z.pow_add_r, Z.pow_1_r by lia. rewrite Z.rem_mul_r by lia. lia.
Qed.

Lemma digits_range b k n : 1 < b -> Forall (fun d => 0 <= d < b) (digits b k n).
Proof.
  intros Hb. induction k as [|k IH]; simpl; constructor; [|done]. apply Z.mod_pos_bound. lia.
Qed.

Lemma canonical_drop_zeros b n ds :
  Forall (fun d => 0 <= d < b) ds -> value b ds = n -> canonical b n (drop_zeros ds).
Proof.
  intros Hr. revert n. induction Hr as [|d ds Hd Hr IH]; intros n Hv; simpl.
  - by split_and!.
  - bdestr (d =? 0).
    + apply IH. subst d. exact Hv.
    + split_and!; [by constructor | simpl; congruence | done].
Qed.

(** A digit below the cut is not changed by the cut. *)
Lemma digit_mod b n j k : 1 < b -> (j < k)%nat ->
  (n mod b ^ Z.of_nat k / b ^ Z.of_nat j) mod b = (n / b ^ Z.of_nat j) mod b.
Proof.
  intros Hb Hj. replace (Z.of_nat k) with (Z.of_nat j + 1 + (Z.of_nat k - Z.of_nat j - 1)) by lia.
  rewrite !Z.pow_add_r, Z.pow_1_r by lia. set (p := b ^ Z.of_nat j).
  set (q := b ^ (Z.of_nat k - Z.of_nat j - 1)).
  assert (0 < p) by (apply Z.pow_pos_nonneg; lia). assert (0 < q) by (apply Z.pow_pos_nonneg; lia).
  rewrite (Z.mod_eq n) by nia. replace (n - p * b * q * (n / (p * b * q)))
    with (n + (- (b * q * (n / (p * b * q)))) * p) by lia.
  rewrite Z.div_add by lia. replace (- (b * q * (n / (p * b * q)))) with (- (q * (n / (p * b * q))) * b) by lia.
  by rewrite Z.mod_add by lia.
Qed.

Lemma digits_mod b n j k : 1 < b -> (j <= k)%nat -> digits b j (n mod b ^ Z.of_nat k) = digits b j n.
Proof.
  intros Hb. induction j as [|j IH]; intros Hj; simpl; [done|]. by rewrite IH, digit_mod by lia.
Qed.

(** The divisor before [k] more digits. *)
Definition divisor_of (k : nat) : Z := match k with O => 0 | S k' => 10 ^ Z.of_nat k' end.

Lemma divisor_next k : divisor_of (S k) / 10 = divisor_of k.
Proof.
  destruct k as [|k']; [done|]. unfold divisor_of. replace (Z.of_nat (S k')) with (1 + Z.of_nat k') by lia.
  rewrite Z.pow_add_r, Z.mul_comm by lia. by apply Z.div_mul.
Qed.

Definition show_digits (ds : list Z) : list Z := map (fun d => d + CH_ZERO) ds.

(** The two loops print the digits without the leading zeros. *)
Lemma decimal_loop_spec k fuel n z :
  (k < fuel)%nat -> 0 <= n < 10 ^ Z.of_nat k ->
  decimal_loop fuel (divisor_of k) n z =
    Some (show_digits (if z then digits 10 k n else drop_zeros (digits 10 k n))).
Proof.
  revert fuel n z. induction k as [|k IH]; intros [|fuel] n z Hf Hn; try lia.
  { by destruct z. }
  cbn [decimal_loop]. rewrite divisor_next. cbn [divisor_of digits].
  assert (0 < 10 ^ Z.of_nat k) as Hp by (apply Z.pow_pos_nonneg; lia).
  bdestr (0 <? 10 ^ Z.of_nat k); [|lia].
  assert (0 <= n / 10 ^ Z.of_nat k < 10) as Hd.
  { split; [apply Z.div_pos; lia|]. apply Z.div_lt_upper_bound; [lia|].
    replace (Z.of_nat (Datatypes.S k)) with (Z.of_nat k + 1) in Hn by lia.
    rewrite Z.pow_add_r in Hn by lia. lia. }
  rewrite u8_small by lia. rewrite IH by (lia || apply Z.mod_pos_bound; lia).
  rewrite digits_mod by lia. rewrite (Z.mod_small (n / 10 ^ Z.of_nat k) 10) by lia.
  cbn [mbind option_bind]. unfold CH_ZERO.
  rewrite u8_small by lia. destruct z.
  - by rewrite orb_true_r.
  - rewrite orb_false_r. cbn [drop_zeros]. bdestr (0 <? n / 10 ^ Z.of_nat k);
      bdestr (n / 10 ^ Z.of_nat k =? 0); done || lia.
Qed.

Lemma print_decimal_spec n : 0 < n < 2 ^ 64 ->
  exists ds, print_decimal n = Some (show_digits ds) /\ canonical 10 n ds.
Proof.
  intros Hn. unfold print_decimal. bdestr (n =? 0); [lia|].
  change 0x8AC7230489E80000 with (divisor_of 20).
  rewrite decimal_loop_spec by lia. eexists. split; [reflexivity|].
  apply canonical_drop_zeros; [by apply digits_range|]. rewrite value_digits by lia.
  apply Z.mod_small. lia.
Qed.

Definition show_hex (ds : list Z) : list Z := map hex_digit ds.

Lemma hexa_loop_spec k fuel top n z :
  (k < fuel)%nat -> Z.of_nat k * 4 <= top + 4 -> 0 <= top <= 124 -> 0 <= n ->
  hexa_loop fuel top (u8 (Z.of_nat k * 4 - 4)) n z =
    Some (show_hex (if z then drop_zeros (digits 16 k n) else digits 16 k n)).
Proof.
  revert fuel z. induction k as [|k IH]; intros [|fuel] z Hf Hk Ht Hn; try lia.
  { cbn [hexa_loop]. change (u8 (Z.of_nat 0 * 4 - 4)) with 252.
    bdestr (252 <=? top); [lia|]. by destruct z. }
  replace (Z.of_nat (Datatypes.S k) * 4 - 4) with (Z.of_nat k * 4) by lia.
  rewrite u8_small by lia. cbn [hexa_loop]. bdestr (Z.of_nat k * 4 <=? top); [|lia].
  bdestr (0 <=? Z.of_nat k * 4); [|lia]. cbn [andb].
  assert (Z.land (Z.shiftr n (Z.of_nat k * 4)) 15 = (n / 16 ^ Z.of_nat k) mod 16) as ->.
  { change 15 with (Z.ones 4). rewrite Z.land_ones, Z.shiftr_div_pow2 by lia.
    change 16 with (2 ^ 4). by rewrite <- Z.pow_mul_r, (Z.mul_comm 4) by lia. }
  cbn [digits]. destruct z; cbn [drop_zeros].
  - bdestr ((n / 16 ^ Z.of_nat k) mod 16 =? 0); cbn [andb]; rewrite IH by lia; done.
  - rewrite andb_false_r. rewrite IH by lia. done.
Qed.

Lemma print_hexa_spec top k pad n :
  top = Z.of_nat k * 4 - 4 -> (0 < k < 33)%nat -> 0 < n < 16 ^ Z.of_nat k ->
  exists ds, print_hexa top pad n = Some (show_hex ds) /\ value 16 ds = n /\
    Forall (fun d => 0 <= d < 16) ds /\ (pad = true -> (2 <= length ds)%nat) /\
    (pad = false -> head ds <> Some 0).
Proof.
  intros -> Hk Hn. unfold print_hexa. bdestr (n =? 0); [lia|].
  assert (hexa_loop 33 (Z.of_nat k * 4 - 4) (Z.of_nat k * 4 - 4) n true =
    Some (show_hex (drop_zeros (digits 16 k n)))) as ->.
  { rewrite <- (hexa_loop_spec k 33 (Z.of_nat k * 4 - 4) n true) by lia. by rewrite u8_small by lia. }
  destruct (canonical_drop_zeros 16 n (digits 16 k n)) as (Hr & Hh & Hv).
  { by apply digits_range. }
  { rewrite value_digits by lia. apply Z.mod_small. lia. }
  set (ds := drop_zeros (digits 16 k n)) in *. cbn [mbind option_bind].
  destruct pad; cbn [andb].
  - bdestr (n <? 16).
    + exists (0 :: ds). split_and!; [done | exact Hv | by constructor | | done].
      intros _. simpl. destruct ds; [unfold value in Hv; simpl in Hv; lia | simpl; lia].
    + exists ds. split_and!; try done. intros _. destruct ds as [|d [|d' ds']]; simpl; [| |lia].
      * unfold value in Hv. simpl in Hv. lia.
      * apply Forall_cons in Hr as [Hr _]. unfold value in Hv. simpl in Hv. lia.
  - by exists ds.
Qed.

Lemma foldl_ge ds a : Forall (fun d => 0 <= d < 10) ds -> 0 <= a -> a <= foldl (fun a d => a * 10 + d) a ds.
Proof.
  intros Hr. revert a. induction Hr as [|d ds Hd Hr IH]; intros a Ha; simpl; [lia|].
  etransitivity; [|apply IH; lia]. lia.
Qed.

Lemma atoi_loop_digits ds a c rest :
  Forall (fun d => 0 <= d < 10) ds -> 0 <= a -> foldl (fun a d => a * 10 + d) a ds < 2 ^ 64 ->
  atoi_loop (show_digits ds ++ c :: rest) a =
    if c =? CH_SPACE then Some (foldl (fun a d => a * 10 + d) a ds)
    else atoi_loop (c :: rest) (foldl (fun a d => a * 10 + d) a ds).
Proof.
  unfold CH_SPACE, CH_ZERO. intros Hr. revert a. induction Hr as [|d ds Hd Hr IH]; intros a Ha Hb.
  - cbn [show_digits map app foldl atoi_loop]. unfold CH_SPACE. by bdestr (c =? 32).
  - cbn [foldl] in *. pose proof (foldl_ge ds (a * 10 + d) Hr ltac:(lia)).
    cbn [show_digits map app atoi_loop]. unfold CH_SPACE, CH_ZERO.
    bdestr (d + 48 =? 32); [lia|]. bdestr (d + 48 <? 48); [lia|]. bdestr (57 <? d + 48); [lia|].
    cbn [orb]. rewrite (u64_small (a * 10)) by lia. replace (d + 48 - 48) with d by lia.
    rewrite u64_small by lia. fold (show_digits ds). rewrite IH by lia. done.
Qed.

Lemma is_integer_digits ds :
  ds <> [] -> Forall (fun d => 0 <= d < 10) ds -> is_integer (show_digits ds) = true.
Proof.
  intros Hne Hr. unfold is_integer. bdestr (zlen (show_digits ds) =? 0).
  { destruct ds; [done|]. unfold zlen in Hb. simpl in Hb. lia. }
  apply forallb_forall. intros c Hc%list_elem_of_In.
  apply list_elem_of_fmap in Hc as (d & -> & Hd). rewrite Forall_forall in Hr. specialize (Hr _ Hd).
  unfold is_digit, CH_ZERO. lia.
Qed.

(** The digits printed for any 64-bit number, zero included. *)
Lemma decimal_digits n : 0 <= n < 2 ^ 64 ->
  exists ds, print_decimal n = Some (show_digits ds) /\ ds <> [] /\
    Forall (fun d => 0 <= d < 10) ds /\ value 10 ds = n /\ (n <> 0 -> head ds <> Some 0).
Proof.
  intros Hn. destruct (decide (n = 0)) as [->|Hne].
  - exists [0]. split_and!; try done. repeat constructor; lia.
  - destruct (print_decimal_spec n) as (ds & E & Hr & Hh & Hv); [lia|].
    exists ds. split_and!; try done. intros ->. unfold value in Hv. simpl in Hv. lia.
Qed.

(** * Properties *)



(** Hexadecimal output.  [%x] and [%y] of a 64-bit number and [%v] and [%z]
    of a 128-bit number print the digits of exactly that number; the padded
    forms print at least two digits, the others no leading zero. *)
Theorem hexadecimal_output (k : nat) pad n :
  (k = 16%nat \/ k = 32%nat) -> 0 < n < 16 ^ Z.of_nat k ->
  exists ds, sprintf_raw [CH_PERCENT;
        if Nat.eqb k 16 then (if pad : bool then CH_y else CH_x) else if pad then CH_z else CH_v] [VaInt n]
      = Some (show_hex ds) /\ value 16 ds = n /\ Forall (fun d => 0 <= d < 16) ds /\
    (pad = true -> (2 <= length ds)%nat) /\ (pad = false -> head ds <> Some 0).
Proof.
  intros Hk Hn. destruct (print_hexa_spec (Z.of_nat k * 4 - 4) k pad n eq_refl) as (ds & E & Hds); [lia | done |].
  exists ds. split; [|done]. destruct Hk as [->| ->]; simpl in E;
    [change (u64 n) with (n mod 2 ^ 64)|]; destruct pad; cbn; 
    (rewrite ?u64_small by (simpl in Hn; lia)); rewrite ?(Z.mod_small n) by (simpl in Hn; lia);
    rewrite E; cbn; by rewrite app_nil_r.
Qed.

Lemma hexadecimal_output_witness :
  sprintf_raw (codes "%x %y") [VaInt 0xfeed; VaInt 5] = Some (codes "feed 05") /\
  exists ds, sprintf_raw [CH_PERCENT; CH_x] [VaInt 0xfeed] = Some (show_hex ds) /\ value 16 ds = 0xfeed.
Proof.
  split; [vm_compute; reflexivity|].
  destruct (hexadecimal_output 16 false 0xfeed) as (ds & E & V & _); [by left | simpl; lia |].
  exists ds. split; [exact E | exact V].
Defined.

(** A NULL for [%s] prints nothing and takes the next argument for the string. *)
Theorem null_string_skipped rest args :
  sprintf_raw (CH_PERCENT :: CH_s :: rest) (VaStr None :: args) =
  sprintf_raw (CH_PERCENT :: CH_s :: rest) args.
Proof. done. Qed.
