(* ===== verification/Clock.v ===== *)
(** * Real time clock: [sources/misc/ClockUtils.c]

    The CMOS is a function from the number of the access and the register to
    the byte that is read, so that registers may change between accesses; a
    function that reads it threads the number of accesses made so far. *)

From S2P Require Import Prelude.

#[local] Open Scope Z_scope.

Section cmos.
Context (cmos : nat -> Z -> Z).

(** [outportb(cmos_address, p_reg); return inportb(cmos_data)]. *)
Definition getRTCRegister (p_reg : Z) (t : nat) : nat * Z := (S t, u8 (cmos t p_reg)).

Definition getUpdateInProgressFlag (t : nat) : nat * Z :=
  let '(t, v) := getRTCRegister 0x0A t in (t, Z.land v 0x80).

(** [while (getUpdateInProgressFlag());]: [None] when the flag stays set for
    [fuel] polls. *)
Fixpoint wait_update (fuel : nat) (t : nat) : option nat :=
  match fuel with
  | O => None
  | S fuel =>
      let '(t, flag) := getUpdateInProgressFlag t in
      if truthy flag then wait_update fuel t else Some t
  end.

(** The months of the last year; [m] is an [uint8_t]. *)
Definition add_month (y m ts : Z) : Z :=
  if (m =? 1) || (m =? 3) || (m =? 5) || (m =? 7) || (m =? 8) || (m =? 10) || (m =? 12)
  then u64 (ts + 31 * 24 * 60 * 60)
  else if (m =? 4) || (m =? 6) || (m =? 9) || (m =? 11) then u64 (ts + 30 * 24 * 60 * 60)
  else if (m =? 2) && (y =? 0) then u64 (ts + 29 * 24 * 60 * 60)
  else if (m =? 2) && negb (y =? 0) then u64 (ts + 28 * 24 * 60 * 60)
  else ts.

(** The loop over the years runs forever for 65535, the largest [uint16_t]. *)
Definition timeStamp32 (p_seconds p_minutes p_hours p_day p_month p_year : Z) : option Z :=
  if p_year =? 65535 then None
  else
    x ← for_each (Z.to_nat (p_year - 1969)) 1970 (fun i '(ts, y) =>
      let ts :=
        if i =? p_year then
          let ts := fold_left (fun ts m => add_month y m ts) (seqZ 1 (p_month - 1)) ts in
          u64 (ts + (p_seconds + (p_minutes - 1) * 60 + (p_hours - 1) * 60 * 60 + (p_day - 1) * 24 * 60 * 60))
        else if y =? 0 then u64 (ts + 366 * 24 * 60 * 60)
        else u64 (ts + 365 * 24 * 60 * 60) in
      Some (ts, Z.rem (y + 1) 4)) (0, 2);
    Some (u32 (u64 (fst x - (8 * 60 * 60 + 55 * 60)))).

Definition timeStamp64 (p_seconds p_minutes p_hours p_day p_month p_year : Z) : option Z :=
  timeStamp32 p_seconds p_minutes p_hours p_day p_month p_year.

(** [(x & 0x0F) + ((x / 16) * 10)] *)
Definition from_bcd (x : Z) : Z := u8 (Z.land x 0x0F + Z.quot x 16 * 10).

Definition hours_from_bcd (hours : Z) : Z :=
  u8 (Z.lor (Z.land hours 0x0F + Z.quot (Z.land hours 0x70) 16 * 10) (Z.land hours 0x80)).

(** The conversions between reading the registers and computing the stamp. *)
Definition decode_time (registerB seconds minutes hours day month year : Z)
  : Z * Z * Z * Z * Z * Z :=
  let '(seconds, minutes, hours, day, month, year) :=
    if negb (truthy (Z.land registerB 0x04)) then
      (from_bcd seconds, from_bcd minutes, hours_from_bcd hours, from_bcd day, from_bcd month,
       u16 (Z.land year 0x0F + Z.quot year 16 * 10))
    else (seconds, minutes, hours, day, month, year) in
  let hours :=
    if negb (truthy (Z.land registerB 0x02)) && truthy (Z.land hours 0x80)
    then u8 (Z.rem (Z.land hours 0x7F + 12) 24) else hours in
  (seconds, minutes, hours, day, month, u16 (year + 2000)).

Definition getRTCTimeStamp32 (fuel t : nat) : option (nat * Z) :=
  t ← wait_update fuel t;
  let '(t, seconds) := getRTCRegister 0x00 t in
  let '(t, minutes) := getRTCRegister 0x02 t in
  let '(t, hours) := getRTCRegister 0x04 t in
  let '(t, day) := getRTCRegister 0x07 t in
  let '(t, month) := getRTCRegister 0x08 t in
  let '(t, year) := getRTCRegister 0x09 t in
  let '(t, registerB) := getRTCRegister 0x0B t in
  let '(seconds, minutes, hours, day, month, year) :=
    decode_time registerB seconds minutes hours day month year in
  x ← timeStamp32 seconds minutes hours day month year;
  Some (t, x).

Definition getRTCTimeStamp64 (fuel t : nat) : option (nat * Z) :=
  t ← wait_update fuel t;
  let '(t, seconds) := getRTCRegister 0x00 t in
  let '(t, minutes) := getRTCRegister 0x02 t in
  let '(t, hours) := getRTCRegister 0x04 t in
  let '(t, day) := getRTCRegister 0x07 t in
  let '(t, month) := getRTCRegister 0x08 t in
  let '(t, year) := getRTCRegister 0x09 t in
  let '(t, registerB) := getRTCRegister 0x0B t in
  let '(seconds, minutes, hours, day, month, year) :=
    decode_time registerB seconds minutes hours day month year in
  x ← timeStamp64 seconds minutes hours day month year;
  Some (t, x).

(** The polling loop of [RTCSleep]. *)
Fixpoint sleep_loop (fuel polls : nat) (deadline : Z) (t : nat) : option nat :=
  match polls with
  | O => None
  | S polls =>
      x ← getRTCTimeStamp64 fuel t;
      if snd x <=? deadline then sleep_loop fuel polls deadline (fst x) else Some (fst x)
  end.

Definition RTCSleep (fuel polls : nat) (seconds : Z) (t : nat) : option nat :=
  x ← getRTCTimeStamp64 fuel t;
  sleep_loop fuel polls (u64 (snd x + seconds)) (fst x).

(** [% 0] traps. *)
Definition random (fuel : nat) (p_max : Z) (t : nat) : option (nat * Z) :=
  x ← getRTCTimeStamp32 fuel t;
  let next := u64 (u64 (100 * 1103515245 + 12345) + snd x) in
  if p_max =? 0 then None else Some (fst x, u32 (next / 65536) mod p_max).
End cmos.

(** ** The calendar *)

Definition leap (y : Z) : bool := (y mod 4 =? 0) && (negb (y mod 100 =? 0) || (y mod 400 =? 0)).

Definition days_in_year (y : Z) : Z := if leap y then 366 else 365.

Definition days_in_month (y m : Z) : Z :=
  if (m =? 4) || (m =? 6) || (m =? 9) || (m =? 11) then 30
  else if m =? 2 then (if leap y then 29 else 28) else 31.

Definition sum (l : list Z) : Z := foldr Z.add 0 l.

(** Days from 1 January 1970 to the first of the month. *)
Definition days_before (y m : Z) : Z :=
  sum (map days_in_year (seqZ 1970 (y - 1970))) + sum (map (days_in_month y) (seqZ 1 (m - 1))).

(** Seconds since the epoch of a calendar date. *)
Definition unix_time (seconds minutes hours day month year : Z) : Z :=
  (days_before year month + (day - 1)) * 86400 + hours * 3600 + minutes * 60 + seconds.

(** ** Lemmas *)

Lemma sum_app l l' : sum (l ++ l') = sum l + sum l'.
Proof. unfold sum. induction l as [|x l IH]; simpl; lia. Qed.

Lemma leap_1970_2100 y : 1970 <= y < 2100 -> leap y = (y mod 4 =? 0).
Proof.
  intros Hy. apply eqb_true_iff.
  exact (all_between_spec 1970 2100 (fun y => eqb (leap y) (y mod 4 =? 0)) y eq_refl Hy).
Qed.

Lemma add_month_spec year ts m :
  1970 <= year < 2100 -> 1 <= m <= 12 ->
  add_month (year mod 4) m (u64 ts) = u64 (ts + 86400 * days_in_month year m).
Proof.
  intros Hy Hm. unfold days_in_month. rewrite leap_1970_2100 by done.
  assert (m = 1 \/ m = 2 \/ m = 3 \/ m = 4 \/ m = 5 \/ m = 6 \/ m = 7 \/ m = 8 \/ m = 9 \/ m = 10 \/
    m = 11 \/ m = 12) as Hc by lia.
  unfold add_month. repeat (destruct Hc as [->|Hc]); try subst m; cbn;
    try (rewrite u64_add_l; f_equal; lia).
  destruct (year mod 4 =? 0); cbn; rewrite u64_add_l; f_equal; lia.
Qed.

Lemma add_months_spec year ts n :
  1970 <= year < 2100 -> 0 <= n <= 12 ->
  fold_left (fun ts m => add_month (year mod 4) m ts) (seqZ 1 n) (u64 ts) =
    u64 (ts + 86400 * sum (map (days_in_month year) (seqZ 1 n))).
Proof.
  intros Hy [Hn Hn']. revert n Hn Hn'. apply (natlike_ind (fun n => _ -> _)); 
    [intros _; change (seqZ 1 0) with (@nil Z); cbn; f_equal; lia|].
  intros n Hn IH Hn'. rewrite <- Z.add_1_r, seqZ_snoc by lia. rewrite fold_left_app, IH by lia.
  cbn. rewrite add_month_spec by lia. rewrite map_app, sum_app. cbn. f_equal. lia.
Qed.

(** The years before the last. *)
Lemma years_loop p_year n sec mi h d mo :
  0 <= n -> 1970 + n <= p_year -> 1970 + n <= 2100 ->
  for_each (Z.to_nat n) 1970 (fun i '(ts, y) =>
      let ts :=
        if i =? p_year then
          let ts := fold_left (fun ts m => add_month y m ts) (seqZ 1 (mo - 1)) ts in
          u64 (ts + (sec + (mi - 1) * 60 + (h - 1) * 60 * 60 + (d - 1) * 24 * 60 * 60))
        else if y =? 0 then u64 (ts + 366 * 24 * 60 * 60)
        else u64 (ts + 365 * 24 * 60 * 60) in
      Some (ts, Z.rem (y + 1) 4)) (0, 2) =
  Some (u64 (86400 * sum (map days_in_year (seqZ 1970 n))), (1970 + n) mod 4).
Proof.
  intros Hn Hy Hy'.
  destruct (for_each_inv (fun k s =>
      s = (u64 (86400 * sum (map days_in_year (seqZ 1970 (k - 1970)))), k mod 4))
    (fun i '(ts, y) =>
      let ts :=
        if i =? p_year then
          let ts := fold_left (fun ts m => add_month y m ts) (seqZ 1 (mo - 1)) ts in
          u64 (ts + (sec + (mi - 1) * 60 + (h - 1) * 60 * 60 + (d - 1) * 24 * 60 * 60))
        else if y =? 0 then u64 (ts + 366 * 24 * 60 * 60)
        else u64 (ts + 365 * 24 * 60 * 60) in
      Some (ts, Z.rem (y + 1) 4)) (Z.to_nat n) 1970 (0, 2)) as (s & E & Hs).
  - reflexivity.
  - intros k [ts y] Hk [= -> ->]. eexists. split; [reflexivity|]. bdestr (k =? p_year); [lia|].
    rewrite Z.rem_mod_nonneg by zdiv. rewrite Zplus_mod_idemp_l. f_equal.
    replace (k + 1 - 1970) with (k - 1970 + 1) by lia. rewrite seqZ_snoc by lia.
    rewrite map_app, sum_app. replace (1970 + (k - 1970)) with k by lia. cbn [map sum foldr]. 
    assert (days_in_year k = if k mod 4 =? 0 then 366 else 365) as ->
      by (unfold days_in_year; by rewrite leap_1970_2100 by lia).
    destruct (k mod 4 =? 0); rewrite u64_add_l; f_equal; lia.
  - rewrite E, Hs, Z2Nat.id by lia. do 2 f_equal. by replace (1970 + n - 1970) with n by lia.
Qed.

(** * Properties *)



(** The leap year rule is the Julian one.  2100 counts as a leap year, so
    every stamp from March 2100 on is a day late. *)
Theorem time_stamp_after_2100 seconds minutes hours day :
  0 <= seconds < 256 -> 0 <= minutes < 256 -> 0 <= hours < 256 -> 0 <= day < 256 ->
  timeStamp32 seconds minutes hours day 3 2100 =
    Some (u32 (unix_time seconds minutes hours day 3 2100 + 86400
               - (3600 + 60 + 8 * 3600 + 55 * 60))).
Proof.
  intros. unfold timeStamp32. cbn [Z.eqb Z.sub Pos.eqb].
  change (Z.to_nat (2100 - 1969)) with (Z.to_nat 130 + 1)%nat.
  rewrite for_each_app, years_loop by lia. cbn [mbind option_bind].
  unfold for_each. change (1970 + Z.of_nat (Z.to_nat 130) =? 2100) with true.
  cbn [mbind option_bind fst].
  match goal with |- context [fold_left ?f ?l ?a] =>
    let v := eval vm_compute in (fold_left f l a) in change (fold_left f l a) with v end.
  unfold unix_time. match goal with |- context [days_before 2100 3] =>
    let v := eval vm_compute in (days_before 2100 3) in change (days_before 2100 3) with v end.
  rewrite u64_sub_l, u32_u64. do 2 f_equal. lia.
Qed.

Lemma time_stamp_after_2100_witness :
  timeStamp32 0 0 0 1 3 2100 =
    Some (u32 (unix_time 0 0 0 1 3 2100 + 86400 - (3600 + 60 + 8 * 3600 + 55 * 60))).
Proof. apply (time_stamp_after_2100 0 0 0 1); lia. Defined.

(** Waiting ends as soon as the clock is seen idle. *)
Theorem wait_update_ends cmos t n :
  Z.land (u8 (cmos (t + n)%nat 0x0A)) 0x80 = 0 ->
  exists t', wait_update cmos (S n) t = Some t'.
Proof.
  revert t. induction n as [|n IH]; intros t Hi; cbn.
  - rewrite Nat.add_0_r in Hi. rewrite Hi. eexists. reflexivity.
  - destruct (truthy _); [|by eexists]. apply IH. by replace (S t + n)%nat with (t + S n)%nat by lia.
Qed.
