(* ===== verification/Base64.v ===== *)
(** * Base64: [sources/misc/Base64Encoding.c]

    Buffers come from [kmalloc]; a write behind the end of a buffer has no
    defined behaviour.  The result is the allocator and the [out_len] bytes
    written, or NULL. *)

From S2P Require Import Prelude Spinlock KMalloc.

#[local] Open Scope Z_scope.

Definition base64_table : list Z :=
  codes "ABCDEFGHIJKLMNOPQRSTUVWXYZabcdefghijklmnopqrstuvwxyz0123456789+/".

(** [base64_table[i]] with the terminating NUL of the literal. *)
Definition table_at (i : Z) : option Z := zget (base64_table ++ [0]) i.

(** The four characters of a full block. *)
Definition encode_block (a b c : Z) : option (list Z) :=
  w ← table_at (Z.shiftr a 2);
  x ← table_at (Z.lor (Z.shiftl (Z.land a 0x03) 4) (Z.shiftr b 4));
  y ← table_at (Z.lor (Z.shiftl (Z.land b 0x0f) 2) (Z.shiftr c 6));
  z ← table_at (Z.land c 0x3f);
  Some [w; x; y; z].

Definition EQUALS : Z := 61.

(** The [while] loop over whole blocks and the [if (end - in)] behind it. *)
Fixpoint encode_loop (src : list Z) : option (list Z) :=
  match src with
  | a :: b :: c :: src' =>
      block ← encode_block a b c;
      rest ← encode_loop src';
      Some (block ++ rest)
  | [] => Some []
  | [a] =>
      w ← table_at (Z.shiftr a 2);
      x ← table_at (Z.shiftl (Z.land a 0x03) 4);
      Some [w; x; EQUALS; EQUALS]
  | [a; b] =>
      w ← table_at (Z.shiftr a 2);
      x ← table_at (Z.lor (Z.shiftl (Z.land a 0x03) 4) (Z.shiftr b 4));
      y ← table_at (Z.shiftl (Z.land b 0x0f) 2);
      Some [w; x; y; EQUALS]
  end.

Definition base64_encode (apic : Z) (k : MemoryAllocator) (src : list Z)
  : option (MemoryAllocator * option (list Z)) :=
  let len := zlen src in
  let olen := u64 (u64 (len * 4) / 3 + 4) in
  if olen <? len then Some (k, None)
  else
    x ← kmalloc apic k olen;
    let '(k, out) := x in
    if out =? 0 then Some (k, None)
    else
      written ← encode_loop src;
      if zlen written <=? olen then Some (k, Some written) else None.

(** [dtable]: 0x80 everywhere, the index of each character of the table, 0 at '='. *)
Definition dtable_init : option (list Z) :=
  t ← for_each 64 0 (fun i t => c ← table_at i; zset t c i) (replicate 256 0x80);
  zset t EQUALS 0.

Definition count_valid (dtable : list Z) (src : list Z) : option Z :=
  foldl (fun n c => n ← n; d ← zget dtable c; Some (if d =? 0x80 then n else n + 1)) (Some 0) src.

(** The three bytes of a full block. *)
Definition decode_block (b0 b1 b2 b3 : Z) : list Z :=
  [u8 (Z.lor (Z.shiftl b0 2) (Z.shiftr b1 4));
   u8 (Z.lor (Z.shiftl b1 4) (Z.shiftr b2 2));
   u8 (Z.lor (Z.shiftl b2 6) b3)].

(** The decoding loop: [block] holds the [count] values read so far, [out] the
    bytes written.  [inr None] is [return NULL]; a full block with padding
    breaks the loop. *)
Fixpoint decode_loop (dtable src block : list Z) (pad : Z) (out : list Z) : option (option (list Z)) :=
  match src with
  | [] => Some (Some out)
  | c :: src =>
      tmp ← zget dtable c;
      if tmp =? 0x80 then decode_loop dtable src block pad out
      else
        let pad := if c =? EQUALS then s32 (pad + 1) else pad in
        match block ++ [tmp] with
        | [b0; b1; b2; b3] =>
            let out := out ++ decode_block b0 b1 b2 b3 in
            if truthy pad then
              if pad =? 1 then Some (Some (take (length out - 1) out))
              else if pad =? 2 then Some (Some (take (length out - 2) out))
              else Some None
            else decode_loop dtable src [] pad out
        | block => decode_loop dtable src block pad out
        end
  end.

Definition base64_decode (apic : Z) (k : MemoryAllocator) (src : list Z)
  : option (MemoryAllocator * option (list Z)) :=
  dtable ← dtable_init;
  count ← count_valid dtable src;
  if (count =? 0) || negb (count mod 4 =? 0) then Some (k, None)
  else
    let olen := count / 4 * 3 in
    x ← kmalloc apic k olen;
    let '(k, out) := x in
    if out =? 0 then Some (k, None)
    else
      r ← decode_loop dtable src [] 0 [];
      match r with
      | Some written => if zlen written <=? olen then Some (k, Some written) else None
      | None => Some (k, None)
      end.

(** ** Lemmas *)

Definition in_bytes (src : list Z) : Prop := Forall (fun b => 0 <= b < 256) src.

(** The table as a function, and its inverse. *)
Definition sextet_char (i : Z) : Z := default 0 (table_at i).

Lemma table_at_char i : 0 <= i < 64 -> table_at i = Some (sextet_char i).
Proof.
  intros Hi. unfold sextet_char. destruct (table_at i) eqn:E; [done|].
  unfold table_at in E. apply zget_none in E. exfalso. apply E. unfold zlen. simpl. lia.
Qed.

Definition the_dtable : list Z := default [] dtable_init.

Lemma dtable_init_ok : dtable_init = Some the_dtable.
Proof. vm_compute. reflexivity. Qed.

(** Decoding a character of the table gives its index, and none of them is '='. *)
Lemma dtable_char i : 0 <= i < 64 ->
  zget the_dtable (sextet_char i) = Some i /\ sextet_char i <> EQUALS.
Proof.
  intros Hi.
  assert (bool_decide (zget the_dtable (sextet_char i) = Some i) && negb (sextet_char i =? EQUALS) = true)
    as [H1%bool_decide_eq_true H2]%andb_true_iff.
  { refine (all_between_spec 0 64 (fun i =>
      bool_decide (zget the_dtable (sextet_char i) = Some i) && negb (sextet_char i =? EQUALS)) i _ Hi).
    vm_compute. reflexivity. }
  split; [done|]. by apply negb_true_iff, Z.eqb_neq in H2.
Qed.

Lemma dtable_equals : zget the_dtable EQUALS = Some 0.
Proof. vm_compute. reflexivity. Qed.

(** The sextets of three bytes. *)
Definition s1 (a : Z) : Z := Z.shiftr a 2.
Definition s2 (a b : Z) : Z := Z.lor (Z.shiftl (Z.land a 0x03) 4) (Z.shiftr b 4).
Definition s3 (b c : Z) : Z := Z.lor (Z.shiftl (Z.land b 0x0f) 2) (Z.shiftr c 6).
Definition s4 (c : Z) : Z := Z.land c 0x3f.

Definition sextet (z : Z) : bool := (0 <=? z) && (z <? 64).

Definition pair_ok (a b : Z) : bool :=
  sextet (s1 a) && sextet (s2 a b) && sextet (s3 a b) && sextet (s4 a) &&
  (u8 (Z.lor (Z.shiftl (s1 a) 2) (Z.shiftr (s2 a b) 4)) =? a) &&
  (u8 (Z.lor (Z.shiftl (s3 a b) 6) (s4 b)) =? b).

Lemma pairs_ok a b : 0 <= a < 256 -> 0 <= b < 256 -> pair_ok a b = true.
Proof.
  intros Ha Hb. refine (all_between_spec2 0 256 0 256 pair_ok a b _ Ha Hb).
  vm_compute. reflexivity.
Qed.

(** The middle byte mixes all three: split it into its nibbles. *)
Lemma middle_byte a b c :
  0 <= a < 256 -> 0 <= b < 256 -> 0 <= c < 256 ->
  u8 (Z.lor (Z.shiftl (s2 a b) 4) (Z.shiftr (s3 b c) 2)) = b.
Proof.
  intros Ha Hb Hc. unfold s2, s3, u8. apply Z.bits_inj'. intros n Hn.
  destruct (decide (n < 8)).
  - rewrite Z.mod_pow2_bits_low by lia.
    rewrite Z.lor_spec, Z.shiftl_spec, Z.shiftr_spec, !Z.lor_spec by lia.
    rewrite (Z.shiftl_spec (Z.land b 0x0f)), Z.land_spec by lia.
    rewrite !(Z.shiftr_spec c) by lia. rewrite (testbit_high c 8 (n + 2 + 6)) by lia.
    destruct (decide (n < 4)).
    + rewrite !(Z.testbit_neg_r _ (n - 4)) by lia. simpl. rewrite orb_false_r.
      replace (n + 2 - 2) with n by lia.
      assert (Z.testbit 15 n = true) as -> by
        exact (all_between_spec 0 4 (Z.testbit 15) n eq_refl ltac:(lia)).
      by rewrite andb_true_r.
    + rewrite Z.shiftl_spec, Z.shiftr_spec by lia.
      rewrite Z.testbit_neg_r by lia. simpl. replace (n - 4 + 4) with n by lia.
      replace (n + 2 - 2) with n by lia.
      assert (Z.testbit 15 n = false) as ->.
      { apply negb_true_iff.
        exact (all_between_spec 4 8 (fun n => negb (Z.testbit 15 n)) n eq_refl ltac:(lia)). }
      by rewrite andb_false_r, !orb_false_r.
  - rewrite Z.mod_pow2_bits_high by lia. symmetry. apply (testbit_high b 8); lia.
Qed.

Lemma list_by_three (P : list Z -> Prop) :
  P [] -> (forall a, P [a]) -> (forall a b, P [a; b]) ->
  (forall a b c l, P l -> P (a :: b :: c :: l)) -> forall l, P l.
Proof.
  intros H0 H1 H2 H3. fix go 1. intros [|a [|b [|c l]]]; [done | done | done |].
  apply H3, go.
Qed.

Lemma sextet_spec z : sextet z = true -> 0 <= z < 64.
Proof. unfold sextet. rewrite andb_true_iff. lia. Qed.

Record sextets_of (a b : Z) : Prop := {
  so_1 : 0 <= s1 a < 64; so_2 : 0 <= s2 a b < 64; so_3 : 0 <= s3 a b < 64; so_4 : 0 <= s4 a < 64;
  so_first : u8 (Z.lor (Z.shiftl (s1 a) 2) (Z.shiftr (s2 a b) 4)) = a;
  so_last : u8 (Z.lor (Z.shiftl (s3 a b) 6) (s4 b)) = b
}.

Lemma sextets a b : 0 <= a < 256 -> 0 <= b < 256 -> sextets_of a b.
Proof.
  intros Ha Hb. pose proof (pairs_ok a b Ha Hb) as H. unfold pair_ok in H.
  rewrite !andb_true_iff, !Z.eqb_eq in H. destruct H as (((((H1 & H2) & H3) & H4) & H5) & H6).
  apply sextet_spec in H1, H2, H3, H4. by split.
Qed.

Lemma decode_encode_block a b c : 0 <= a < 256 -> 0 <= b < 256 -> 0 <= c < 256 ->
  decode_block (s1 a) (s2 a b) (s3 b c) (s4 c) = [a; b; c].
Proof.
  intros Ha Hb Hc. unfold decode_block.
  by rewrite (so_first _ _ (sextets a b Ha Hb)), middle_byte, (so_last _ _ (sextets b c Hb Hc)).
Qed.

Lemma encode_block_ok a b c : 0 <= a < 256 -> 0 <= b < 256 -> 0 <= c < 256 ->
  encode_block a b c =
    Some [sextet_char (s1 a); sextet_char (s2 a b); sextet_char (s3 b c); sextet_char (s4 c)].
Proof.
  intros Ha Hb Hc. destruct (sextets a b Ha Hb) as [A1 A2 A3 A4 _ _].
  destruct (sextets b c Hb Hc) as [B1 B2 B3 B4 _ _]. destruct (sextets c c Hc Hc) as [C1 C2 C3 C4 _ _].
  unfold encode_block. fold (s1 a) (s2 a b) (s3 b c) (s4 c).
  by rewrite !table_at_char by done.
Qed.

(** One character of the table is read into the block. *)
Lemma decode_char i src block pad out : 0 <= i < 64 ->
  decode_loop the_dtable (sextet_char i :: src) block pad out =
    match block ++ [i] with
    | [b0; b1; b2; b3] =>
        let out := out ++ decode_block b0 b1 b2 b3 in
        if truthy pad then
          if pad =? 1 then Some (Some (take (length out - 1) out))
          else if pad =? 2 then Some (Some (take (length out - 2) out))
          else Some None
        else decode_loop the_dtable src [] pad out
    | block => decode_loop the_dtable src block pad out
    end.
Proof.
  intros Hi. cbn [decode_loop]. destruct (dtable_char i Hi) as [-> Hne].
  cbn [mbind option_bind]. bdestr (i =? 0x80); [lia|]. by bdestr (sextet_char i =? EQUALS).
Qed.

Lemma decode_pad src block pad out :
  decode_loop the_dtable (EQUALS :: src) block pad out =
    match block ++ [0] with
    | [b0; b1; b2; b3] =>
        let out := out ++ decode_block b0 b1 b2 b3 in
        if truthy (s32 (pad + 1)) then
          if s32 (pad + 1) =? 1 then Some (Some (take (length out - 1) out))
          else if s32 (pad + 1) =? 2 then Some (Some (take (length out - 2) out))
          else Some None
        else decode_loop the_dtable src [] (s32 (pad + 1)) out
    | block => decode_loop the_dtable src block (s32 (pad + 1)) out
    end.
Proof. cbn [decode_loop]. by rewrite dtable_equals. Qed.

Definition valid_char (c : Z) : Prop := exists d, zget the_dtable c = Some d /\ d <> 0x80.

Lemma valid_sextet i : 0 <= i < 64 -> valid_char (sextet_char i).
Proof. intros Hi. exists i. split; [by apply dtable_char | lia]. Qed.

Lemma valid_equals : valid_char EQUALS.
Proof. exists 0. split; [apply dtable_equals | lia]. Qed.

#[local] Hint Resolve valid_sextet valid_equals : nile.

Lemma count_valid_all l : Forall valid_char l -> count_valid the_dtable l = Some (zlen l).
Proof.
  unfold count_valid. change (Some (zlen l)) with (Some (0 + zlen l)). generalize 0 as n.
  intros n Hl. revert n. induction Hl as [|c l (d & Hd & Hne) _ IH]; intros n; simpl.
  - unfold zlen. simpl. by rewrite Z.add_0_r.
  - rewrite Hd. simpl. bdestr (d =? 128); [lia|]. rewrite IH. unfold zlen. simpl. f_equal. lia.
Qed.

Lemma take_but (l m : list Z) n : length m = n -> take (length (l ++ m) - n) (l ++ m) = l.
Proof. intros <-. rewrite length_app, Nat.add_sub. apply take_app_length. Qed.

Lemma encode_decode_loop src :
  in_bytes src ->
  exists w, encode_loop src = Some w /\ zlen w = 4 * ((zlen src + 2) / 3) /\ Forall valid_char w /\
    forall out, decode_loop the_dtable w [] 0 out = Some (Some (out ++ src)).
Proof.
  induction src as [|a|a b|a b c l IH] using list_by_three; intros Hsrc.
  - exists []. split_and!; [done | done | constructor |]. intros out. simpl. by rewrite app_nil_r.
  - apply Forall_cons in Hsrc as [Ha _]. destruct (sextets a 0 Ha ltac:(lia)) as [A1 A2 A3 A4 A5 A6].
    unfold s2 in A2, A5. rewrite Z.lor_0_r in A2, A5. cbn [encode_loop]. fold (s1 a).
    rewrite !table_at_char by done. eexists. split; [reflexivity|].
    split; [done|]. split; [repeat constructor; auto with nile|]. intros out.
    do 2 (rewrite decode_char by done; cbn [app]). do 2 (rewrite decode_pad; cbn [app]).
    change (s32 (s32 (0 + 1) + 1)) with 2. cbn -[take length decode_block]. unfold decode_block. rewrite A5.
    change [a; ?x; ?y] with ([a] ++ [x; y]). rewrite app_assoc. by rewrite take_but.
  - apply Forall_cons in Hsrc as [Ha Hb]. apply Forall_cons in Hb as [Hb _].
    destruct (sextets a b Ha Hb) as [A1 A2 A3 A4 A5 A6].
    destruct (sextets b 0 Hb ltac:(lia)) as [B1 B2 B3 B4 B5 B6].
    pose proof (middle_byte a b 0 Ha Hb ltac:(lia)) as Hmid.
    unfold s3 in B3, Hmid. rewrite Z.shiftr_0_l, Z.lor_0_r in B3, Hmid.
    cbn [encode_loop]. fold (s1 a) (s2 a b). rewrite !table_at_char by done.
    eexists. split; [reflexivity|]. split; [done|]. split; [repeat constructor; auto with nile|].
    intros out. do 3 (rewrite decode_char by done; cbn [app]). rewrite decode_pad. cbn [app].
    change (s32 (0 + 1)) with 1. cbn -[take length decode_block].
    unfold decode_block. rewrite A5, Hmid.
    change [a; b; ?x] with ([a; b] ++ [x]). rewrite app_assoc. by rewrite take_but.
  - apply Forall_cons in Hsrc as [Ha Hsrc]. apply Forall_cons in Hsrc as [Hb Hsrc].
    apply Forall_cons in Hsrc as [Hc Hsrc]. destruct (IH Hsrc) as (w & Ew & Hlen & Hval & Hdec).
    destruct (sextets a b Ha Hb) as [A1 A2 A3 A4 A5 A6].
    destruct (sextets b c Hb Hc) as [B1 B2 B3 B4 B5 B6].
    destruct (sextets c c Hc Hc) as [C1 C2 C3 C4 C5 C6].
    cbn [encode_loop]. rewrite encode_block_ok by done. rewrite Ew. cbn.
    eexists. split; [reflexivity|]. split_and!.
    + unfold zlen in *. cbn [length]. rewrite !Nat2Z.inj_succ, Hlen. zdiv.
    + repeat (apply Forall_cons; split); auto with nile.
    + intros out. do 4 (rewrite decode_char by done; cbn [app]).
      rewrite decode_encode_block by done. cbn [truthy negb Z.eqb]. rewrite Hdec.
      by rewrite <- app_assoc.
Qed.

(** The case of a caller that knows there is room. *)
Lemma base64_encode_fits apic k src w :
  alloc_wf k -> 0 <= apic < 65535 -> 0 <= zlen src < 2 ^ 60 -> encode_loop src = Some w -> zlen w <= zlen src * 4 / 3 + 4 ->
  kernel_memory_current_address k + (zlen src * 4 / 3 + 4) < kernel_memory_end_address k ->
  let k' := k {{ kernel_memory_current_address := kernel_memory_current_address k + (zlen src * 4 / 3 + 4) }} in
  base64_encode apic k src = Some (k', Some w) /\ alloc_wf k'.
Proof.
  intros Hk Ha Hlen Ew Hw Hfit k'. assert (0 <= zlen src * 4 / 3) by zdiv. assert (zlen src * 4 / 3 <= 2 * zlen src) by zdiv.
  unfold base64_encode. rewrite (u64_small (zlen src * 4)), u64_small by lia.
  bdestr (zlen src * 4 / 3 + 4 <? zlen src); [zdiv|].
  destruct (kmalloc_fits apic k (zlen src * 4 / 3 + 4) Hk Ha ltac:(lia) ltac:(lia)) as (-> & Hk1 & Hnz). cbn [mbind option_bind].
  bdestr (kernel_memory_current_address k =? 0); [lia|]. rewrite Ew. cbn [mbind option_bind].
  bdestr (zlen w <=? zlen src * 4 / 3 + 4); [|lia]. by split.
Qed.

Lemma base64_decode_fits apic k text n src :
  alloc_wf k -> 0 <= apic < 65535 -> count_valid the_dtable text = Some (4 * n) -> 0 < n -> zlen src <= 3 * n ->
  decode_loop the_dtable text [] 0 [] = Some (Some src) ->
  kernel_memory_current_address k + 3 * n < kernel_memory_end_address k ->
  let k' := k {{ kernel_memory_current_address := kernel_memory_current_address k + 3 * n }} in
  base64_decode apic k text = Some (k', Some src) /\ alloc_wf k'.
Proof.
  intros Hk Ha Hc Hn Hs Hdec Hfit k'. unfold base64_decode. rewrite dtable_init_ok. cbn [mbind option_bind].
  rewrite Hc. cbn [mbind option_bind]. bdestr (4 * n =? 0); [lia|].
  rewrite (Z.mul_comm 4 n), Z.mod_mul, Z.div_mul by lia. cbn [orb negb Z.eqb]. rewrite (Z.mul_comm n 3).
  destruct (kmalloc_fits apic k (3 * n) Hk Ha ltac:(lia) ltac:(lia)) as (-> & Hk2 & Hnz). cbn [mbind option_bind].
  bdestr (kernel_memory_current_address k =? 0); [lia|]. rewrite Hdec. cbn [mbind option_bind].
  bdestr (zlen src <=? 3 * n); [|lia]. by split.
Qed.

(** Characters outside the table are skipped, a blank for one. *)
Lemma count_valid_app a b n : count_valid the_dtable a = Some n ->
  count_valid the_dtable (a ++ b) = (m ← count_valid the_dtable b; Some (n + m)).
Proof.
  unfold count_valid. rewrite foldl_app. intros ->.
  assert (forall n m, foldl (fun n c => n ← n; d ← zget the_dtable c; Some (if d =? 0x80 then n else n + 1)) (Some (n + m)) b =
    (r ← foldl (fun n c => n ← n; d ← zget the_dtable c; Some (if d =? 0x80 then n else n + 1)) (Some m) b; Some (n + r))) as H; [|by rewrite <- (H n 0), Z.add_0_r].
  induction b as [|c b IH]; intros k m; [done|]. cbn [foldl mbind option_bind]. destruct (zget the_dtable c) as [d|]; cbn [mbind option_bind].
  - destruct (d =? 0x80); [apply IH|]. rewrite <- Z.add_assoc. apply IH.
  - assert (forall l, foldl (fun n c => n ← n; d ← zget the_dtable c; Some (if d =? 0x80 then n else n + 1)) None l = None) as Hn by (induction l; done).
    by rewrite !Hn.
Qed.

Lemma decode_trailing_blank src block pad out o :
  decode_loop the_dtable src block pad out = Some (Some o) -> decode_loop the_dtable (src ++ [32]) block pad out = Some (Some o).
Proof.
  revert block pad out. induction src as [|c src IH]; intros block pad out.
  - intros [= ->]. vm_compute. reflexivity.
  - cbn [app decode_loop]. destruct (zget the_dtable c) as [t|]; cbn [mbind option_bind]; [|done].
    destruct (t =? 0x80); [apply IH|]. destruct (block ++ [t]) as [|b0 [|b1 [|b2 [|b3 [|b4 l]]]]]; try apply IH.
    destruct (truthy _); [done | apply IH].
Qed.

Lemma decode_leading_blank src block pad out : decode_loop the_dtable (32 :: src) block pad out = decode_loop the_dtable src block pad out.
Proof. cbn [decode_loop]. by replace (zget the_dtable 32) with (Some 0x80) by (vm_compute; reflexivity). Qed.

(** Text between blanks decodes as without them. *)
Lemma base64_decode_blanks apic k src w :
  alloc_wf k -> 0 <= apic < 65535 -> in_bytes src -> 0 < zlen src -> encode_loop src = Some w ->
  kernel_memory_current_address k + (zlen src + 2) < kernel_memory_end_address k ->
  exists k', base64_decode apic k ([32] ++ w ++ [32]) = Some (k', Some src) /\ alloc_wf k'.
Proof.
  intros Hk Ha Hs Hl Ew Hfit. destruct (encode_decode_loop src Hs) as (w' & Ew' & Hw & Hval & Hdec).
  rewrite Ew in Ew'. injection Ew' as <-. eexists.
  apply (base64_decode_fits apic k _ ((zlen src + 2) / 3)); try done; try zdiv.
  - rewrite (count_valid_app [32] (w ++ [32]) 0 eq_refl), (count_valid_app w [32] (zlen w)) by by apply count_valid_all.
    change (count_valid the_dtable [32]) with (Some 0). cbn [mbind option_bind]. f_equal. lia.
  - cbn [app]. rewrite decode_leading_blank. by apply decode_trailing_blank, (Hdec []).
Qed.

(** * Properties *)


