(* ===== verification/Terminal.v ===== *)
(** * Terminals: [sources/devices/console/Terminal.c]

    A terminal's buffer is the list of its 16-bit cells; an access outside it
    has no defined behaviour. *)

From S2P Require Import Prelude.

#[local] Open Scope Z_scope.

Definition COLOR_BLACK : Z := 0.
Definition COLOR_GREEN : Z := 2.
Definition COLOR_CYAN : Z := 3.
Definition COLOR_LIGHT_RED : Z := 12.
Definition COLOR_WHITE : Z := 15.

Definition NEWLINE : Z := 10.
Definition BLANK : Z := 32.

(** ** Blocks of cells

    [memmove16], [memset16] and the source half of [memcpy16]. *)

Definition block_in (l : list Z) (at_ n : Z) : bool :=
  (0 <=? at_) && (0 <=? n) && (at_ + n <=? zlen l).

Definition memmove16 (l : list Z) (dst src n : Z) : option (list Z) :=
  if block_in l dst n && block_in l src n then
    Some (take (Z.to_nat dst) l ++ take (Z.to_nat n) (drop (Z.to_nat src) l) ++ drop (Z.to_nat (dst + n)) l)
  else None.

Definition memset16 (l : list Z) (dst value n : Z) : option (list Z) :=
  if block_in l dst n then
    Some (take (Z.to_nat dst) l ++ replicate (Z.to_nat n) (u16 value) ++ drop (Z.to_nat (dst + n)) l)
  else None.

Definition read_block (l : list Z) (src n : Z) : option (list Z) :=
  if block_in l src n then Some (take (Z.to_nat n) (drop (Z.to_nat src) l)) else None.

(** ** The terminal *)

Record Terminal := mkTerminal {
  terminal_buffer : list Z;
  terminal_buffer_size : Z;
  y_rows : Z;
  x_position : Z;
  y_position : Z;
  x_max : Z;
  y_max : Z
}.

#[export] Instance eta_Terminal : Eta Terminal :=
  fun r => mkTerminal (terminal_buffer r) (terminal_buffer_size r) (y_rows r) (x_position r)
    (y_position r) (x_max r) (y_max r).

(** The cell of a [char], which is signed, and its colours. *)
Definition cell (p_character p_background_color p_foreground_color : Z) : Z :=
  let color16 := u16 (Z.shiftl (Z.lor p_foreground_color (Z.shiftl p_background_color 4)) 8) in
  u16 (Z.lor (s8 p_character) color16).

Definition terminal_putCharacterAt (t : Terminal) (p_character p_x_position p_y_position
    p_background_color p_foreground_color : Z) : option Terminal :=
  buffer ← zset (terminal_buffer t) (p_y_position * x_max t + p_x_position)
             (cell p_character p_background_color p_foreground_color);
  Some (t {{ terminal_buffer := buffer }}).

(** The next row: down, or scroll when the last row is reached. *)
Definition next_row (t : Terminal) : option Terminal :=
  if y_position t <? y_rows t - 1 then Some (t {{ y_position := u8 (y_position t + 1) }})
  else
    let n := (y_rows t - 1) * x_max t in
    buffer ← memmove16 (terminal_buffer t) 0 (x_max t) n;
    buffer ← memset16 buffer n 0 (x_max t);
    Some (t {{ terminal_buffer := buffer }}).

Definition terminal_putCharacterAndAdvanceString (t : Terminal) (p_character
    p_background_color p_foreground_color : Z) : option Terminal :=
  if p_character =? NEWLINE then
    t ← next_row t; Some (t {{ x_position := 0 }})
  else
    t ← terminal_putCharacterAt t p_character (x_position t) (y_position t)
          p_background_color p_foreground_color;
    if x_position t <? x_max t then Some (t {{ x_position := u8 (x_position t + 1) }})
    else t ← next_row t; Some (t {{ x_position := 0 }}).

(** [p_string] without its NUL. *)
Fixpoint terminal_putString (t : Terminal) (p_string : list Z) (bg fg : Z) : option Terminal :=
  match p_string with
  | [] => Some t
  | c :: p_string =>
      t ← terminal_putCharacterAndAdvanceString t c bg fg; terminal_putString t p_string bg fg
  end.

Definition terminal_hex_digit (l_tmp : Z) : Z := if 0xA <=? l_tmp then l_tmp - 0xA + 97 else l_tmp + 48.

(** The loop of [terminal_putHexa] and [terminal_putHexa128]; [i] is an [int]. *)
Fixpoint put_hexa_loop (fuel : nat) (t : Terminal) (top i p_hexa : Z) (l_no_zeros : bool) (bg fg : Z)
  : option Terminal :=
  match fuel with
  | O => None
  | S fuel =>
      if (i <=? top) && (0 <=? i) then
        let l_tmp := Z.land (Z.shiftr p_hexa i) 0xF in
        if (l_tmp =? 0) && l_no_zeros then put_hexa_loop fuel t top (i - 4) p_hexa l_no_zeros bg fg
        else
          t ← terminal_putCharacterAndAdvanceString t (terminal_hex_digit l_tmp) bg fg;
          put_hexa_loop fuel t top (i - 4) p_hexa false bg fg
      else Some t
  end.

Definition put_hexa (top : Z) (t : Terminal) (p_hexa bg fg : Z) (p_show_x_flag : bool) : option Terminal :=
  t ← (if p_show_x_flag then terminal_putString t (codes "0x") bg fg else Some t);
  if p_hexa =? 0 then terminal_putString t (codes "00") bg fg
  else put_hexa_loop 33 t top top p_hexa true bg fg.

Definition terminal_putHexa : Terminal -> Z -> Z -> Z -> bool -> option Terminal := put_hexa 60.
Definition terminal_putHexa128 : Terminal -> Z -> Z -> Z -> bool -> option Terminal := put_hexa 124.

Definition terminal_setPosition (t : Terminal) (p_x_position p_y_position : Z) : Terminal :=
  t {{ x_position := p_x_position; y_position := p_y_position }}.

Definition terminal_clearScreen (t : Terminal) (p_background_color : Z) : option Terminal :=
  t ← for_each (Z.to_nat (y_max t)) 0 (fun y t =>
    for_each (Z.to_nat (x_max t)) 0 (fun x t =>
      terminal_putCharacterAt t BLANK (u8 x) (u8 y) p_background_color COLOR_WHITE) t) t;
  Some (t {{ x_position := 0; y_position := 0 }}).

Definition terminal_initialize (t : Terminal) (p_terminal_buffer : option (list Z))
    (p_x_max p_y_max p_y_rows : Z) : option Terminal :=
  let t := t {{ terminal_buffer_size := u32 (p_x_max * p_y_rows) }} in
  let t := match p_terminal_buffer with Some b => t {{ terminal_buffer := b }} | None => t end in
  terminal_clearScreen
    (t {{ x_position := 0; y_position := 0; x_max := p_x_max; y_max := p_y_max; y_rows := p_y_rows }})
    COLOR_BLACK.

(** The index of the first cell on the screen. *)
Definition terminal_getViewPort (t : Terminal) : Z :=
  if y_position t <? y_max t then 0 else (y_position t - y_max t) * x_max t.

(** ** The invariant

    The column after the last one is written to before the row is left, so the
    last row needs a cell more than [terminal_buffer_size] says. *)

Record terminal_wf (t : Terminal) : Prop := {
  tw_rows : 0 < y_rows t <= 256;
  tw_columns : 0 < x_max t < 256;
  tw_x : 0 <= x_position t <= x_max t;
  tw_y : 0 <= y_position t < y_rows t;
  tw_buffer : x_max t * y_rows t < zlen (terminal_buffer t)
}.

(** The cell in column [x] of row [y]. *)
Definition cell_at (t : Terminal) (x y : Z) : option Z := zget (terminal_buffer t) (y * x_max t + x).

Definition same_geometry (t t' : Terminal) : Prop :=
  x_max t' = x_max t /\ y_max t' = y_max t /\ y_rows t' = y_rows t /\
  zlen (terminal_buffer t') = zlen (terminal_buffer t).

(** ** Lemmas *)

Lemma same_geometry_trans t1 t2 t3 : same_geometry t1 t2 -> same_geometry t2 t3 -> same_geometry t1 t3.
Proof. unfold same_geometry. intuition congruence. Qed.

Lemma block_in_true l a n : 0 <= a -> 0 <= n -> a + n <= zlen l -> block_in l a n = true.
Proof. intros. unfold block_in. rewrite !andb_true_iff. lia. Qed.

(** Scrolling moves every row up by one and blanks the last. *)
Lemma scroll_spec l w n :
  0 < w -> 0 <= n -> w + n <= zlen l ->
  exists l1 l2, memmove16 l 0 w n = Some l1 /\ memset16 l1 n 0 w = Some l2 /\ zlen l2 = zlen l /\
    forall i, 0 <= i -> zget l2 i = if i <? n then zget l (i + w)
                                    else if i <? n + w then Some 0 else zget l i.
Proof.
  intros Hw Hn Hl. unfold memmove16. rewrite !block_in_true by lia. cbn [andb].
  eexists _, _. split; [reflexivity|]. unfold zlen in *.
  assert (length (take (Z.to_nat n) (drop (Z.to_nat w) l)) = Z.to_nat n) as L1
    by (rewrite length_take, length_drop; lia).
  unfold memset16. rewrite block_in_true; [|lia|lia|].
  2: { unfold zlen. change (Z.to_nat 0) with 0%nat. rewrite take_0, !length_app, L1, length_drop. simpl. lia. }
  split; [reflexivity|]. change (Z.to_nat 0) with 0%nat. rewrite take_0, Z.add_0_l. cbn [app].
  rewrite take_app_length' by (rewrite L1; lia). rewrite drop_app_ge by (rewrite L1; lia). rewrite drop_drop.
  rewrite L1. replace (Z.to_nat n + (Z.to_nat (n + w) - Z.to_nat n))%nat with (Z.to_nat (n + w)) by lia.
  split.
  { rewrite !length_app, L1, length_replicate, length_drop. lia. }
  intros i Hi. unfold zget. bdestr (0 <=? i); [|lia]. bdestr (0 <=? i + w); [|lia].
  bdestr (i <? n); [|bdestr (i <? n + w)].
  - rewrite lookup_app_l by (rewrite L1; lia). rewrite lookup_take_lt by lia. rewrite lookup_drop.
    f_equal. lia.
  - rewrite lookup_app_r by (rewrite L1; lia). rewrite L1, lookup_app_l by (rewrite length_replicate; lia).
    by rewrite lookup_replicate_2 by lia.
  - rewrite lookup_app_r by (rewrite L1; lia).
    rewrite L1, lookup_app_r by (rewrite length_replicate; lia). rewrite length_replicate, lookup_drop.
    f_equal. lia.
Qed.

(** The two ways to leave a row. *)
Lemma next_row_spec t :
  terminal_wf t ->
  exists t', next_row t = Some t' /\ same_geometry t t' /\ x_position t' = x_position t /\
    0 <= y_position t' < y_rows t /\
    if y_position t <? y_rows t - 1
    then y_position t' = y_position t + 1 /\ terminal_buffer t' = terminal_buffer t
    else y_position t' = y_position t /\
         forall x y, 0 <= x < x_max t -> 0 <= y < y_rows t ->
           cell_at t' x y = if y <? y_rows t - 1 then cell_at t x (y + 1) else Some 0.
Proof.
  intros [H1 H2 H3 H4 H5]. unfold next_row. bdestr (y_position t <? y_rows t - 1).
  - eexists. split; [reflexivity|]. rewrite u8_small by lia. simpl.
    split; [by repeat split|]. split_and!; done || lia.
  - destruct (scroll_spec (terminal_buffer t) (x_max t) ((y_rows t - 1) * x_max t))
      as (l1 & l2 & E1 & E2 & Hl & Hg); [lia | nia | nia |].
    rewrite E1. cbn [mbind option_bind]. rewrite E2. cbn [mbind option_bind].
    eexists. split; [reflexivity|]. simpl. split; [by repeat split|]. split; [done|]. split; [lia|].
    split; [done|]. intros x y Hx Hy. unfold cell_at. simpl. rewrite Hg by nia.
    bdestr (y <? y_rows t - 1).
    + bdestr (y * x_max t + x <? (y_rows t - 1) * x_max t); [f_equal; lia | nia].
    + bdestr (y * x_max t + x <? (y_rows t - 1) * x_max t); [nia|].
      bdestr (y * x_max t + x <? (y_rows t - 1) * x_max t + x_max t); [done | nia].
Qed.

(** Ending a row: the column is 0 again and the invariant holds. *)
Lemma end_row t :
  terminal_wf t ->
  exists t', (t ← next_row t; Some (t {{ x_position := 0 }})) = Some t' /\
    same_geometry t t' /\ terminal_wf t'.
Proof.
  intros Hw. destruct (next_row_spec t Hw) as (t' & -> & Hg & Hx & Hy & _).
  cbn [mbind option_bind]. eexists. split; [reflexivity|]. destruct Hw as [H1 H2 H3 H4 H5].
  destruct Hg as (G1 & G2 & G3 & G4). split; [by repeat split|]. split; simpl; lia.
Qed.

Lemma put_character_wf t c bg fg :
  terminal_wf t ->
  exists t', terminal_putCharacterAndAdvanceString t c bg fg = Some t' /\
    same_geometry t t' /\ terminal_wf t'.
Proof.
  intros Hw. unfold terminal_putCharacterAndAdvanceString. bdestr (c =? NEWLINE); [by apply end_row|].
  pose proof Hw as [H1 H2 H3 H4 H5]. unfold terminal_putCharacterAt.
  rewrite zset_eq by nia. cbn [mbind option_bind].
  set (t1 := t {{ terminal_buffer := <[Z.to_nat (y_position t * x_max t + x_position t):=cell c bg fg]>
                                       (terminal_buffer t) }}).
  assert (same_geometry t t1) as Hg by (repeat split; unfold t1, zlen; simpl; by rewrite length_insert).
  assert (terminal_wf t1) as Hw1.
  { split; try done. unfold t1, zlen in *. simpl. by rewrite length_insert. }
  change (x_position t1) with (x_position t). change (x_max t1) with (x_max t).
  bdestr (x_position t <? x_max t).
  - eexists. split; [reflexivity|]. split; [done|]. destruct Hw1 as [A1 A2 A3 A4 A5]. unfold t1 in *.
    split; simpl in *; rewrite ?u8_small; lia.
  - destruct (end_row t1 Hw1) as (t' & -> & Hg' & Hw'). exists t'. split; [done|].
    split; [by eapply same_geometry_trans | done].
Qed.

Lemma put_string_wf t s bg fg :
  terminal_wf t ->
  exists t', terminal_putString t s bg fg = Some t' /\ same_geometry t t' /\ terminal_wf t'.
Proof.
  revert t. induction s as [|c s IH]; intros t Hw; simpl; [by exists t|].
  destruct (put_character_wf t c bg fg Hw) as (t1 & -> & G1 & W1). cbn [mbind option_bind].
  destruct (IH t1 W1) as (t2 & -> & G2 & W2). exists t2. split; [done|].
  split; [by eapply same_geometry_trans | done].
Qed.

Lemma for_each_geometry n i (body : Z -> Terminal -> option Terminal) t :
  (forall k u, i <= k < i + Z.of_nat n -> same_geometry t u ->
     exists u', body k u = Some u' /\ same_geometry u u') ->
  exists t', for_each n i body t = Some t' /\ same_geometry t t'.
Proof.
  intros H. apply (for_each_inv (fun _ u => same_geometry t u)); [by repeat split|].
  intros k u Hk Hu. destruct (H k u Hk Hu) as (u' & E & G). exists u'. split; [done|].
  by eapply same_geometry_trans.
Qed.

(** Clearing needs the rows on the screen only. *)
Lemma clear_screen_spec t bg :
  0 <= x_max t < 256 -> 0 <= y_max t < 256 -> x_max t * y_max t <= zlen (terminal_buffer t) ->
  exists t', terminal_clearScreen t bg = Some t' /\ same_geometry t t' /\
    x_position t' = 0 /\ y_position t' = 0.
Proof.
  intros Hx Hy Hb. unfold terminal_clearScreen.
  match goal with |- context [for_each _ 0 ?f t] =>
    destruct (for_each_geometry (Z.to_nat (y_max t)) 0 f t) as (t' & E & G) end.
  - intros y u Hk (G1 & G2 & G3 & G4).
    apply for_each_geometry. intros x v Hx' (F1 & F2 & F3 & F4). unfold terminal_putCharacterAt.
    rewrite !u8_small by lia. rewrite zset_eq by nia. eexists. split; [reflexivity|].
    repeat split. unfold zlen. simpl. by rewrite length_insert.
  - rewrite E. eexists. split; [reflexivity|]. by split.
Qed.

Lemma put_newlines t n bg fg :
  y_position t + Z.of_nat n < y_rows t <= 256 -> 0 <= y_position t ->
  exists t', terminal_putString t (replicate n NEWLINE) bg fg = Some t' /\ same_geometry t t' /\
    y_position t' = y_position t + Z.of_nat n /\ terminal_buffer t' = terminal_buffer t /\
    (x_position t = 0 -> x_position t' = 0).
Proof.
  revert t. induction n as [|n IH]; intros t Hn Hy; cbn [replicate terminal_putString].
  { exists t. split_and!; try done. lia. }
  unfold terminal_putCharacterAndAdvanceString. change (NEWLINE =? NEWLINE) with true. cbn [mbind option_bind].
  unfold next_row. bdestr (y_position t <? y_rows t - 1); [|lia]. cbn [mbind option_bind].
  match goal with |- context [terminal_putString ?u _ _ _] => destruct (IH u) as (t' & -> & G & Y & B & X) end;
    simpl in *; rewrite ?u8_small by lia; try lia.
  exists t'. rewrite u8_small in Y by lia. split_and!; try done; [lia | intros _; by apply X].
Qed.

Lemma put_string_app t s s' bg fg :
  terminal_putString t (s ++ s') bg fg =
    (t' ← terminal_putString t s bg fg; terminal_putString t' s' bg fg).
Proof.
  revert t. induction s as [|c s IH]; intros t; simpl; [done|].
  destruct (terminal_putCharacterAndAdvanceString t c bg fg); simpl; [apply IH | done].
Qed.

(** A terminal for the witnesses: three rows of four columns, two of them on the screen. *)
Definition small_terminal : Terminal := mkTerminal (replicate 13 0) 12 3 0 0 4 2.

Lemma small_terminal_wf : terminal_wf small_terminal.
Proof. split; simpl; unfold zlen; simpl; lia. Qed.

(** * Properties *)

(** Printing is safe.  On a terminal whose buffer has one cell more than its
    rows need, any string is printed without an access outside the buffer, and
    the cursor stays within the rows and within the columns, the column behind
    the last one included. *)
Theorem put_string_safe t s bg fg :
  terminal_wf t ->
  exists t', terminal_putString t s bg fg = Some t' /\ terminal_wf t' /\ same_geometry t t'.
Proof.
  intros Hw. destruct (put_string_wf t s bg fg Hw) as (t' & E & G & W). exists t'. by split_and!.
Qed.

Lemma put_string_safe_witness :
  (cell_at (default small_terminal (terminal_putString small_terminal (codes "ab") 0 2)) 1 0
     = Some (cell 98 0 2)) /\
  exists t', terminal_putString small_terminal (codes "a string longer than the terminal") 0 2 = Some t' /\
    terminal_wf t' /\ same_geometry small_terminal t'.
Proof.
  split; [vm_compute; reflexivity|]. apply (put_string_safe small_terminal), small_terminal_wf.
Defined.

(** What a character does.  An ordinary character appears at the cursor and
    nowhere else and the cursor moves right; a newline, and a character behind
    the last column, go to the start of the next row, and on the last row every
    row moves up by one and the last becomes blank. *)
Theorem put_character_effect t c bg fg :
  terminal_wf t ->
  exists t', terminal_putCharacterAndAdvanceString t c bg fg = Some t' /\
    if c =? NEWLINE then
      x_position t' = 0 /\
      if y_position t <? y_rows t - 1
      then y_position t' = y_position t + 1 /\ terminal_buffer t' = terminal_buffer t
      else y_position t' = y_position t /\
           forall x y, 0 <= x < x_max t -> 0 <= y < y_rows t ->
             cell_at t' x y = if y <? y_rows t - 1 then cell_at t x (y + 1) else Some 0
    else if x_position t <? x_max t then
      x_position t' = x_position t + 1 /\ y_position t' = y_position t /\
      forall x y, 0 <= x < x_max t -> 0 <= y < y_rows t ->
        cell_at t' x y =
          if (x =? x_position t) && (y =? y_position t) then Some (cell c bg fg) else cell_at t x y
    else x_position t' = 0.
Proof.
  intros Hw. pose proof Hw as [H1 H2 H3 H4 H5].
  unfold terminal_putCharacterAndAdvanceString. bdestr (c =? NEWLINE).
  - destruct (next_row_spec t Hw) as (t' & -> & _ & _ & _ & H). cbn [mbind option_bind].
    eexists. split; [reflexivity|]. split; [done | exact H].
  - unfold terminal_putCharacterAt.
    pose proof (zset_eq (terminal_buffer t) (y_position t * x_max t + x_position t) (cell c bg fg)
      ltac:(nia)) as Ez. rewrite Ez. cbn [mbind option_bind]. simpl.
    bdestr (x_position t <? x_max t).
    + eexists. split; [reflexivity|]. rewrite u8_small by lia. simpl. split; [done|]. split; [done|].
      intros x y Hx Hy. unfold cell_at. simpl. rewrite (zget_zset _ _ _ _ _ Ez).
      bdestr (y * x_max t + x =? y_position t * x_max t + x_position t);
        bdestr (x =? x_position t); bdestr (y =? y_position t); simpl; try done; exfalso; nia.
    + destruct (put_character_wf t c bg fg Hw) as (t' & E & _ & _).
      unfold terminal_putCharacterAndAdvanceString, terminal_putCharacterAt in E. rewrite Ez in E.
      bdestr (c =? NEWLINE); [done|]. cbn [mbind option_bind] in E. simpl in E.
      bdestr (x_position t <? x_max t); [lia|]. rewrite E. exists t'. split; [done|].
      inv_bind. done.
Qed.

Lemma put_character_effect_witness :
  exists t', terminal_putCharacterAndAdvanceString small_terminal 65 0 2 = Some t' /\
    x_position t' = 1 /\ y_position t' = 0 /\
    forall x y, 0 <= x < 4 -> 0 <= y < 3 ->
      cell_at t' x y = if (x =? 0) && (y =? 0) then Some (cell 65 0 2) else cell_at small_terminal x y.
Proof. exact (put_character_effect small_terminal 65 0 2 small_terminal_wf). Defined.

(** The row behind the screen.  As soon as the cursor has left the rows of
    the screen, the rows that are shown are the [y_max] rows before the
    cursor's: the row that is being written is never visible. *)
Theorem viewport_misses_cursor t :
  terminal_wf t -> 0 < y_max t <= y_position t ->
  let first := terminal_getViewPort t in
  let last := first + x_max t * y_max t in
  0 <= first /\ last = y_position t * x_max t /\
  forall x, 0 <= x < x_max t -> last <= y_position t * x_max t + x.
Proof.
  intros [H1 H2 H3 H4 H5] Hy. unfold terminal_getViewPort.
  bdestr (y_position t <? y_max t); [lia|]. cbv zeta. split_and!; [nia | lia | intros; lia].
Qed.

Lemma viewport_misses_cursor_witness :
  let t := small_terminal {{ y_position := 2 }} in
  0 <= terminal_getViewPort t /\ terminal_getViewPort t + 4 * 2 = 2 * 4 /\
  forall x, 0 <= x < 4 -> terminal_getViewPort t + 4 * 2 <= 2 * 4 + x.
Proof.
  intros t. assert (terminal_wf t) as Hw by (split; simpl; unfold zlen; simpl; lia).
  assert (0 < y_max t <= y_position t) as Hy by (simpl; lia).
  exact (viewport_misses_cursor t Hw Hy).
Defined.
