(* ===== verification/Console.v ===== *)
(** * Console, kernel printing and keyboard: [sources/devices/console/Console.c],
    [sources/misc/printk.c], [sources/devices/keyboard/keyboard.c] *)

From S2P Require Import Prelude Spinlock KMalloc Service Stdio Terminal.

#[local] Open Scope Z_scope.

Definition DEFAULT_VIDEO_MAX_X : Z := 80.
Definition DEFAULT_VIDEO_MAX_Y : Z := 25.
Definition DEFAULT_TERMINAL_Y_ROWS : Z := 50.

(** The methods of the console service and the number of the service. *)
Definition add_string : Z := 0.
Definition add_hexa : Z := 1.
Definition add_hexa128 : Z := 2.
Definition switch_terminal : Z := 3.
Definition add_to_terminal : Z := 4.
Definition clear_screen : Z := 5.
Definition console_t : Z := 0.

Record Console := mkConsole {
  video_buffer : list Z;
  con_x_max : Z;
  con_y_max : Z;
  terminals : list Terminal;
  terminals_max_count : Z;
  terminals_current_count : Z;
  current_terminal_index : Z;
  p_background_color : Z;
  p_foreground_color : Z;
  p_hexa : Z;
  newIndex : Z;
  p_string : list Z
}.

#[export] Instance eta_Console : Eta Console :=
  fun r => mkConsole (video_buffer r) (con_x_max r) (con_y_max r) (terminals r)
    (terminals_max_count r) (terminals_current_count r) (current_terminal_index r)
    (p_background_color r) (p_foreground_color r) (p_hexa r) (newIndex r) (p_string r).

(** A block from [kmalloc]; NULL is not written to. *)
Definition kmalloc_block (apic : Z) (k : MemoryAllocator) (n : Z) : option (MemoryAllocator * Z) :=
  x ← kmalloc apic k n; if snd x =? 0 then None else Some x.

Definition console_services : list (string * Z) :=
  [("console_addStringToCurrentTerminal", add_string);
   ("console_addHexaToCurrentTerminal", add_hexa);
   ("console_addHexa128ToCurrentTerminal", add_hexa128);
   ("console_switchTerminal", switch_terminal);
   ("console_writeToTerminal", add_to_terminal);
   ("console_clearScreen", clear_screen)]%string.

Definition register_services (fs : list (string * Z)) (s : Service) : option Service :=
  foldl (fun s '(f, loc) => s ← s; x ← add_service s (Some f) loc; Some (fst x)) (Some s) fs.

(** [mem16 a] is the cell that lies at address [a] before it is written. *)
Definition console_preInialize (apic : Z) (mem16 : Z -> Z) (k : MemoryAllocator) (con : Console)
    (p_service : Service) : option (MemoryAllocator * Console * Service * bool) :=
  let con := con {{ con_x_max := DEFAULT_VIDEO_MAX_X; con_y_max := DEFAULT_VIDEO_MAX_Y;
                    terminals_max_count := 5; terminals_current_count := 5;
                    current_terminal_index := 0; terminals := [] }} in
  x ← kmalloc_block apic k (8 * terminals_max_count con);
  x ← kmalloc_block apic (fst x) (8 * terminals_max_count con);
  y ← for_each (Z.to_nat (terminals_max_count con)) 0 (fun i '(k, con) =>
    x ← kmalloc_block apic k 24;
    x ← kmalloc_block apic (fst x) (2 * DEFAULT_VIDEO_MAX_X * DEFAULT_VIDEO_MAX_Y);
    let '(k, addr) := x in
    let cells := map (fun j => mem16 (addr + 2 * j)) (seqZ 0 (DEFAULT_VIDEO_MAX_X * DEFAULT_VIDEO_MAX_Y)) in
    t ← terminal_initialize (mkTerminal [] 0 0 0 0 0 0) (Some cells)
          (con_x_max con) (con_y_max con) DEFAULT_TERMINAL_Y_ROWS;
    Some (k, con {{ terminals := terminals con ++ [t] }})) (fst x, con);
  p_service ← register_services console_services p_service;
  Some (fst y, snd y, p_service, true).

(** [memcpy16] of the view port of a terminal to the screen. *)
Definition show_terminal (con : Console) (t : Terminal) : option Console :=
  cells ← read_block (terminal_buffer t) (terminal_getViewPort t) (con_x_max con * con_y_max con);
  Some (con {{ video_buffer := cells }}).

Definition console_addStringToCurrentTerminal (con : Console) : option Console :=
  t ← zget (terminals con) (current_terminal_index con);
  t ← terminal_putString t (p_string con) (p_background_color con) (p_foreground_color con);
  ts ← zset (terminals con) (current_terminal_index con) t;
  show_terminal (con {{ terminals := ts }}) t.

Definition console_writeToTerminal (con : Console) : option Console :=
  t ← zget (terminals con) (newIndex con);
  t ← terminal_putString t (p_string con) (p_background_color con) (p_foreground_color con);
  ts ← zset (terminals con) (newIndex con) t;
  Some (con {{ terminals := ts }}).

Definition console_switchTerminal (con : Console) : option Console :=
  let con := con {{ current_terminal_index := u8 (if newIndex con =? 1 then 2 else newIndex con) }} in
  t ← zget (terminals con) (current_terminal_index con);
  show_terminal con t.

Definition console_addHexaToCurrentTerminal (con : Console) : option Console :=
  t ← zget (terminals con) (current_terminal_index con);
  t ← terminal_putHexa t (p_hexa con) (p_background_color con) (p_foreground_color con) true;
  ts ← zset (terminals con) (current_terminal_index con) t;
  show_terminal (con {{ terminals := ts }}) t.

Definition console_addHexa128ToCurrentTerminal (con : Console) : option Console :=
  t ← zget (terminals con) (current_terminal_index con);
  t ← terminal_putHexa128 t (p_hexa con) (p_background_color con) (p_foreground_color con) true;
  ts ← zset (terminals con) (current_terminal_index con) t;
  show_terminal (con {{ terminals := ts }}) t.

Definition console_clearScreen (con : Console) : option Console :=
  t ← zget (terminals con) (current_terminal_index con);
  t ← terminal_clearScreen t COLOR_BLACK;
  ts ← zset (terminals con) (current_terminal_index con) t;
  show_terminal (con {{ terminals := ts }}) t.

(** ** Calls through the service transport layer *)

Definition console_exec (f : string) (con : Console) : option Console :=
  if (f =? "console_addStringToCurrentTerminal")%string then console_addStringToCurrentTerminal con
  else if (f =? "console_addHexaToCurrentTerminal")%string then console_addHexaToCurrentTerminal con
  else if (f =? "console_addHexa128ToCurrentTerminal")%string then console_addHexa128ToCurrentTerminal con
  else if (f =? "console_switchTerminal")%string then console_switchTerminal con
  else if (f =? "console_writeToTerminal")%string then console_writeToTerminal con
  else if (f =? "console_clearScreen")%string then console_clearScreen con
  else None.

Definition console_dispatch (tr : service_transport_kernel) (method : Z) (con : Console) : option Console :=
  x ← DispatchKernel console_exec tr console_t method con; Some (fst x).

(** The string ends at the first NUL. *)
Fixpoint cstring (s : list Z) : list Z :=
  match s with c :: s => if c =? 0 then [] else c :: cstring s | [] => [] end.

(** The body shared by the four functions: [char str[2048]] with its NUL. *)
Definition printk_on (index color : Z) (tr : service_transport_kernel) (con : Console)
    (str_template : list Z) (args : list va_item) : option Console :=
  str ← sprintf_raw str_template args;
  if 2048 <=? zlen str then None else
  let con := con {{ p_string := cstring str; newIndex := index;
                    p_background_color := COLOR_BLACK; p_foreground_color := color }} in
  if negb (newIndex con =? current_terminal_index con)
  then console_dispatch tr add_to_terminal con
  else console_dispatch tr add_string con.

Definition printk := printk_on 0 COLOR_GREEN.
Definition printk_network := printk_on 2 COLOR_CYAN.
Definition printk_debug := printk_on 3 COLOR_LIGHT_RED.
Definition printk_fs := printk_on 4 COLOR_WHITE.

(** ** Keyboard *)

(** Reading the status port until a scan code is ready; the list holds what the
    port delivers, and running out of it means that the loop still waits. *)
Fixpoint poll_scancode (status : list Z) (data : Z) : option Z :=
  match status with
  | [] => None
  | v :: status => if truthy (Z.land (u8 v) 1) then Some (u8 data) else poll_scancode status data
  end.

Record keyboard_state := mkKeyboard {
  kb_console : Console;
  up_arrow : bool;
  down_arrow : bool;
  eoi_sent : Z
}.

#[export] Instance eta_keyboard_state : Eta keyboard_state :=
  fun r => mkKeyboard (kb_console r) (up_arrow r) (down_arrow r) (eoi_sent r).

Definition handle_key (tr : service_transport_kernel) (scancode : Z) (s : keyboard_state)
  : option keyboard_state :=
  let con := kb_console s in
  if truthy (Z.land scancode 0x80) then Some s
  else if scancode =? 72 then Some (s {{ up_arrow := true }})
  else if scancode =? 80 then
    con ← printk tr con (codes "in down arrow!" ++ [NEWLINE]) [];
    Some (s {{ kb_console := con; down_arrow := true }})
  else if scancode =? 75 then
    let con := con {{ newIndex :=
      if newIndex con =? 2 then 0
      else Z.rem (current_terminal_index con + terminals_max_count con - 1) (terminals_max_count con) }} in
    con ← console_dispatch tr switch_terminal con;
    Some (s {{ kb_console := con }})
  else if scancode =? 77 then
    let con := con {{ newIndex := Z.rem (current_terminal_index con + 1) (terminals_max_count con) }} in
    con ← console_dispatch tr switch_terminal con;
    Some (s {{ kb_console := con }})
  else Some s.

Definition keyboard_handler (tr : service_transport_kernel) (status : list Z) (data : Z)
    (s : keyboard_state) : option keyboard_state :=
  scancode ← poll_scancode status data;
  s ← handle_key tr scancode s;
  Some (s {{ eoi_sent := eoi_sent s + 1 }}).

(** ** Invariant of the console *)

(** A terminal whose view port lies in its buffer. *)
Definition shown_ok (con : Console) (t : Terminal) : Prop :=
  terminal_wf t /\ x_max t = con_x_max con /\ y_max t = con_y_max con /\ 0 < y_max t <= y_rows t.

Record console_wf (con : Console) : Prop := {
  cw_count : zlen (terminals con) = terminals_max_count con;
  cw_current : 0 <= current_terminal_index con < terminals_max_count con;
  cw_max : 3 <= terminals_max_count con < 256;
  cw_terminals : Forall (shown_ok con) (terminals con)
}.

(** A transport layer on which the console service is registered. *)
Definition console_registered (tr : service_transport_kernel) : Prop :=
  forall f m, In (f, m) console_services ->
    forall con, console_dispatch tr m con = console_exec f con.

(** ** Lemmas *)

Lemma read_block_ok l a n : 0 <= a -> 0 <= n -> a + n <= zlen l ->
  read_block l a n = Some (take (Z.to_nat n) (drop (Z.to_nat a) l)).
Proof. intros. unfold read_block. by rewrite block_in_true. Qed.

Lemma show_terminal_ok con t : shown_ok con t ->
  show_terminal con t = Some (con {{ video_buffer :=
    take (Z.to_nat (con_x_max con * con_y_max con))
      (drop (Z.to_nat (terminal_getViewPort t)) (terminal_buffer t)) }}).
Proof.
  intros ([H1 H2 H3 H4 H5] & Hx & Hy & Hr). unfold show_terminal, terminal_getViewPort.
  rewrite read_block_ok; [done | | |]; rewrite <- ?Hx, <- ?Hy; bdestr (y_position t <? y_max t); nia.
Qed.

Lemma console_wf_terminal con i : console_wf con -> 0 <= i < terminals_max_count con ->
  exists t, zget (terminals con) i = Some t /\ shown_ok con t.
Proof.
  intros [H1 H2 H3 H4] Hi. destruct (zget_some (terminals con) i) as [t Ht]; [lia|].
  exists t. split; [done|]. unfold zget in Ht. bdestr (0 <=? i); [|done].
  by apply (Forall_lookup_1 _ _ _ _ H4 Ht).
Qed.

Lemma shown_ok_geometry con t t' :
  shown_ok con t -> same_geometry t t' -> terminal_wf t' -> shown_ok con t'.
Proof. unfold shown_ok, same_geometry. intros (W & X & Y & R) (G1 & G2 & G3 & G4) W'. split_and!; done || lia. Qed.

Lemma console_wf_set con i t ts :
  console_wf con -> shown_ok con t -> zset (terminals con) i t = Some ts ->
  console_wf (con {{ terminals := ts }}).
Proof.
  intros [H1 H2 H3 H4] Ht [Hi ->]%zset_inv. split; simpl; try done.
  - unfold zlen in *. by rewrite length_insert.
  - by apply Forall_insert.
Qed.

Lemma switch_terminal_ok con :
  console_wf con -> 0 <= newIndex con < terminals_max_count con ->
  exists v, console_switchTerminal con = Some (con {{
      current_terminal_index := if newIndex con =? 1 then 2 else newIndex con; video_buffer := v }}) /\
    console_wf (con {{ current_terminal_index := if newIndex con =? 1 then 2 else newIndex con;
                       video_buffer := v }}).
Proof.
  intros Hw Hn. pose proof Hw as [H1 H2 H3 H4]. unfold console_switchTerminal.
  set (i := if newIndex con =? 1 then 2 else newIndex con).
  assert (0 <= i < terminals_max_count con) as Hi by (unfold i; bdestr (newIndex con =? 1); lia).
  rewrite u8_small by lia. simpl.
  destruct (console_wf_terminal con i Hw Hi) as (t & -> & Ht). cbn [mbind option_bind].
  rewrite show_terminal_ok by exact Ht. eexists. split; [reflexivity|]. by split.
Qed.

Lemma add_string_ok con :
  console_wf con -> exists con', console_addStringToCurrentTerminal con = Some con' /\ console_wf con' /\
    current_terminal_index con' = current_terminal_index con /\
    terminals_max_count con' = terminals_max_count con /\ newIndex con' = newIndex con.
Proof.
  intros Hw. unfold console_addStringToCurrentTerminal.
  destruct (console_wf_terminal con _ Hw (cw_current con Hw)) as (t & -> & Ht). cbn [mbind option_bind].
  destruct (put_string_wf t (p_string con) (p_background_color con) (p_foreground_color con))
    as (t' & -> & G & W); [apply Ht|]. cbn [mbind option_bind].
  assert (shown_ok con t') as Ht' by by eapply shown_ok_geometry.
  pose proof (cw_current con Hw). pose proof (cw_count con Hw).
  pose proof (zset_eq (terminals con) (current_terminal_index con) t' ltac:(lia)) as Ez.
  rewrite Ez. cbn [mbind option_bind].
  rewrite show_terminal_ok by exact Ht'. eexists. split; [reflexivity|].
  pose proof (console_wf_set con _ _ _ Hw Ht' Ez) as [A1 A2 A3 A4]. by split.
Qed.

Lemma write_to_terminal_ok con :
  console_wf con -> 0 <= newIndex con < terminals_max_count con ->
  exists con', console_writeToTerminal con = Some con' /\ console_wf con' /\
    current_terminal_index con' = current_terminal_index con /\
    terminals_max_count con' = terminals_max_count con /\ newIndex con' = newIndex con.
Proof.
  intros Hw Hn. unfold console_writeToTerminal.
  destruct (console_wf_terminal con _ Hw Hn) as (t & -> & Ht). cbn [mbind option_bind].
  destruct (put_string_wf t (p_string con) (p_background_color con) (p_foreground_color con))
    as (t' & -> & G & W); [apply Ht|]. cbn [mbind option_bind].
  assert (shown_ok con t') as Ht' by by eapply shown_ok_geometry.
  pose proof (cw_count con Hw).
  pose proof (zset_eq (terminals con) (newIndex con) t' ltac:(lia)) as Ez.
  rewrite Ez. eexists. split; [reflexivity|]. split; [by eapply console_wf_set | done].
Qed.

(** Printing keeps the console in order, whatever is printed and wherever. *)
Lemma printk_on_ok tr con index color str args s :
  console_registered tr -> console_wf con -> 0 <= index < terminals_max_count con ->
  sprintf_raw str args = Some s -> zlen s < 2048 ->
  exists con', printk_on index color tr con str args = Some con' /\ console_wf con' /\
    current_terminal_index con' = current_terminal_index con /\
    terminals_max_count con' = terminals_max_count con /\ newIndex con' = index.
Proof.
  intros Htr Hw Hi Hs Hl. unfold printk_on. rewrite Hs. cbn [mbind option_bind].
  bdestr (2048 <=? zlen s); [lia|].
  match goal with |- context [newIndex ?c] => set (con1 := c) end.
  assert (console_wf con1) as Hw1 by (destruct Hw as [A1 A2 A3 A4]; by split).
  destruct (negb (newIndex con1 =? current_terminal_index con1)).
  - rewrite (Htr "console_writeToTerminal"%string) by (simpl; auto 10). cbn [console_exec].
    destruct (write_to_terminal_ok con1 Hw1 Hi) as (c & E & W & C & M & N).
    exists c. split_and!; done.
  - rewrite (Htr "console_addStringToCurrentTerminal"%string) by (simpl; auto 10). cbn [console_exec].
    destruct (add_string_ok con1 Hw1) as (c & E & W & C & M & N). exists c. split_and!; done.
Qed.

(** The index that a switch can make current. *)
Definition reachable_terminal (con : Console) : Prop :=
  console_wf con /\ current_terminal_index con <> 1.

Lemma switch_key tr con i :
  console_registered tr -> console_wf con -> 0 <= i < terminals_max_count con ->
  exists con', console_dispatch tr switch_terminal (con {{ newIndex := i }}) = Some con' /\
    reachable_terminal con' /\ current_terminal_index con' = (if i =? 1 then 2 else i) /\
    newIndex con' = i.
Proof.
  intros Htr Hw Hi. rewrite (Htr "console_switchTerminal"%string) by (simpl; auto 10). cbn [console_exec].
  assert (console_wf (con {{ newIndex := i }})) as Hw1 by (destruct Hw as [A1 A2 A3 A4]; by split).
  destruct (switch_terminal_ok (con {{ newIndex := i }}) Hw1 Hi) as (v & E & W).
  eexists. split; [exact E|]. split; [|done]. split; [exact W|]. simpl. bdestr (i =? 1); lia.
Qed.

Lemma handle_key_ok tr scancode s :
  console_registered tr -> reachable_terminal (kb_console s) ->
  exists s', handle_key tr scancode s = Some s' /\ reachable_terminal (kb_console s').
Proof.
  intros Htr [Hw Hr]. pose proof Hw as [A1 A2 A3 A4]. unfold handle_key.
  destruct (truthy _); [by exists s|]. bdestr (scancode =? 72); [by eexists|].
  bdestr (scancode =? 80); [|bdestr (scancode =? 75); [|bdestr (scancode =? 77); [|by exists s]]].
  - destruct (printk_on_ok tr (kb_console s) 0 COLOR_GREEN (codes "in down arrow!" ++ [NEWLINE]) []
      (codes "in down arrow!" ++ [NEWLINE])) as (c & E & W & C & _);
      [done | done | lia | vm_compute; reflexivity | vm_compute; reflexivity |].
    unfold printk. rewrite E. eexists. split; [reflexivity|]. split; simpl; [done | congruence].
  - set (i := if newIndex (kb_console s) =? 2 then 0 else _).
    assert (0 <= i < terminals_max_count (kb_console s)) as Hi.
    { unfold i. bdestr (newIndex (kb_console s) =? 2); [lia|]. rewrite Z.rem_mod_nonneg by lia.
      apply Z.mod_pos_bound. lia. }
    destruct (switch_key tr (kb_console s) i Htr Hw Hi) as (c & -> & R & _). eexists. by split.
  - destruct (switch_key tr (kb_console s)
      (Z.rem (current_terminal_index (kb_console s) + 1) (terminals_max_count (kb_console s))))
      as (c & -> & R & _); [done | done | | eexists; by split].
    rewrite Z.rem_mod_nonneg by lia. apply Z.mod_pos_bound. lia.
Qed.

Fixpoint handle_keys (tr : service_transport_kernel) (keys : list Z) (s : keyboard_state)
  : option keyboard_state :=
  match keys with
  | [] => Some s
  | key :: keys => s ← handle_key tr key s; handle_keys tr keys s
  end.

Lemma handle_keys_ok tr keys s :
  console_registered tr -> reachable_terminal (kb_console s) ->
  exists s', handle_keys tr keys s = Some s' /\ reachable_terminal (kb_console s').
Proof.
  intros Htr. revert s. induction keys as [|key keys IH]; intros s Hs; simpl; [by exists s|].
  destruct (handle_key_ok tr key s Htr Hs) as (s1 & -> & H1). by apply IH.
Qed.

(** *** The terminals [console_preInialize] makes *)

Definition overflows (t : Terminal) : Prop :=
  forall bg fg, terminal_putString t (replicate 25 NEWLINE ++ [65]) bg fg = None.

Lemma initialized_overflows t cells :
  zlen cells = 2000 ->
  exists t', terminal_initialize t (Some cells) 80 25 DEFAULT_TERMINAL_Y_ROWS = Some t' /\ overflows t'.
Proof.
  intros Hc. unfold terminal_initialize, DEFAULT_TERMINAL_Y_ROWS.
  match goal with |- context [terminal_clearScreen ?u _] =>
    destruct (clear_screen_spec u COLOR_BLACK) as (t' & -> & (G1 & G2 & G3 & G4) & X & Y) end; [simpl; lia.. |].
  exists t'. split; [done|]. intros bg fg. simpl in G1, G2, G3, G4. rewrite put_string_app.
  destruct (put_newlines t' 25 bg fg) as (u & -> & (F1 & F2 & F3 & F4) & Yu & Bu & Xu); [lia | lia |].
  cbn [mbind option_bind terminal_putString]. unfold terminal_putCharacterAndAdvanceString.
  change (65 =? NEWLINE) with false. cbv iota. unfold terminal_putCharacterAt.
  rewrite F1, G1, Yu, Y, Xu by done. unfold zset.
  change (Z.of_nat 25) with 25. rewrite Bu. unfold zlen in *. rewrite G4, Hc. done.
Qed.

Lemma kmalloc_block_ok apic k n :
  alloc_wf k -> 0 <= apic < 65535 -> 0 <= n ->
  kernel_memory_current_address k + n < kernel_memory_end_address k ->
  exists k' a, kmalloc_block apic k n = Some (k', a) /\ alloc_wf k' /\
    kernel_memory_current_address k' = kernel_memory_current_address k + n /\
    kernel_memory_end_address k' = kernel_memory_end_address k.
Proof.
  intros W0 Ha Hn Hf. unfold kmalloc_block.
  destruct (kmalloc_fits apic k n W0 Ha Hn Hf) as (-> & W & Hz). cbn [mbind option_bind snd].
  bdestr (kernel_memory_current_address k =? 0); [lia|]. eexists _, _. split; [reflexivity|]. by split.
Qed.

(** The transport layer the kernel builds for the console. *)
Definition console_transport : service_transport_kernel :=
  mkTransport 256 1 (Some (default blank_service (register_services console_services blank_service)) ::
                     replicate 255 None).

Lemma console_transport_ok : console_registered console_transport.
Proof.
  intros f m Hin con. unfold console_dispatch, DispatchKernel.
  repeat (destruct Hin as [[= <- <-]|Hin]); [..|done];
    (match goal with |- context [zget ?l console_t] =>
       let v := eval vm_compute in (zget l console_t) in change (zget l console_t) with v end);
    cbn [mbind option_bind service_method];
    (match goal with |- context [zget ?l ?i] =>
       let v := eval vm_compute in (zget l i) in change (zget l i) with v end);
    cbn [mbind option_bind]; by destruct (console_exec _ con).
Qed.

(** Five small terminals. *)
Definition small_console : Console :=
  mkConsole (replicate 8 0) 4 2 (replicate 5 small_terminal) 5 5 0 0 2 0 0 [].

Lemma small_console_wf : console_wf small_console.
Proof.
  split; simpl; try (done || lia). apply Forall_forall. intros t Ht%list_elem_of_In.
  repeat (destruct Ht as [<-|Ht]; [split; [apply small_terminal_wf | simpl; lia]|]). destruct Ht.
Qed.

(** * Properties *)



(** The left arrow gets stuck.  Terminal 2, when it was reached with the
    right arrow, is not left again with the left arrow, however often it is
    pressed. *)
Theorem left_arrow_stuck tr s n :
  console_registered tr -> console_wf (kb_console s) -> terminals_max_count (kb_console s) = 5 ->
  current_terminal_index (kb_console s) = 0 ->
  exists s', handle_keys tr (77 :: replicate n 75) s = Some s' /\
    current_terminal_index (kb_console s') = 2.
Proof.
  intros Htr Hw Hm Hc. cbn [handle_keys]. unfold handle_key. cbn [Z.eqb Pos.eqb].
  change (truthy (Z.land 77 128)) with false. cbv iota. rewrite Hc, Hm.
  destruct (switch_key tr (kb_console s) 1 Htr Hw ltac:(lia)) as (c & E & [W N] & C & I).
  change (Z.rem (0 + 1) 5) with 1. rewrite E. cbn [mbind option_bind].
  assert (terminals_max_count c = 5) as Hm'.
  { rewrite (Htr "console_switchTerminal"%string) in E by (simpl; auto 10). cbn [console_exec] in E.
    change (console_switchTerminal ((kb_console s) {{ newIndex := 1 }}) = Some c) in E.
    destruct (switch_terminal_ok ((kb_console s) {{ newIndex := 1 }})) as (v & E' & _);
      [destruct Hw; by split | simpl; lia |]. rewrite E' in E. injection E as <-. exact Hm. }
  assert (forall k u, console_wf (kb_console u) -> current_terminal_index (kb_console u) = 2 ->
    newIndex (kb_console u) = 1 -> terminals_max_count (kb_console u) = 5 ->
    exists u', handle_keys tr (replicate k 75) u = Some u' /\ current_terminal_index (kb_console u') = 2) as Hstay.
  { induction k as [|k IH]; intros u Wu Cu Iu Mu; cbn [replicate handle_keys]; [by exists u|].
    unfold handle_key. change (truthy (Z.land 75 128)) with false. cbv iota. cbn [Z.eqb Pos.eqb].
    rewrite Iu, Cu, Mu. cbn [Z.eqb Pos.eqb]. change (Z.rem (2 + 5 - 1) 5) with 1.
    rewrite (Htr "console_switchTerminal"%string) by (simpl; auto 10).
    change (console_exec "console_switchTerminal" ?c) with (console_switchTerminal c).
    destruct (switch_terminal_ok ((kb_console u) {{ newIndex := 1 }})) as (v & E' & W');
      [destruct Wu; by split | simpl; lia |].
    rewrite E'. cbn [mbind option_bind]. apply IH; done. }
  apply Hstay; done.
Qed.

Lemma left_arrow_stuck_witness :
  exists s', handle_keys console_transport [77; 75; 75] (mkKeyboard small_console false false 0) = Some s' /\
    current_terminal_index (kb_console s') = 2.
Proof.
  apply (left_arrow_stuck console_transport (mkKeyboard small_console false false 0) 2);
    [apply console_transport_ok | apply small_console_wf | reflexivity | reflexivity].
Defined.



(** The terminals of the kernel are too small.  [console_preInialize]
    gives each a buffer of 80 * 25 cells, but 50 rows: the first character
    after 25 newlines is written behind the buffer. *)
Theorem console_buffer_too_small apic mem16 k con s :
  alloc_wf k -> 0 <= apic < 65535 ->
  kernel_memory_current_address k + 25000 < kernel_memory_end_address k ->
  register_services console_services s <> None ->
  exists k' con' s', console_preInialize apic mem16 k con s = Some (k', con', s', true) /\
    zlen (terminals con') = 5 /\
    Forall (fun t => forall bg fg, terminal_putString t (replicate 25 NEWLINE ++ [65]) bg fg = None)
      (terminals con').
Proof.
  intros Hk Ha Hfit Hreg. unfold console_preInialize. simpl terminals_max_count.
  destruct (kmalloc_block_ok apic k (8 * 5) Hk Ha) as (k1 & a1 & -> & W1 & C1 & E1); [lia | lia |].
  cbn [mbind option_bind fst].
  destruct (kmalloc_block_ok apic k1 (8 * 5) W1 Ha) as (k2 & a2 & -> & W2 & C2 & E2); [lia | lia |].
  cbn [mbind option_bind fst].
  match goal with |- context [for_each _ 0 ?f ?x] =>
    destruct (for_each_inv (fun i '(k', con') =>
      alloc_wf k' /\ kernel_memory_current_address k' = kernel_memory_current_address k + 80 + i * 4024 /\
      kernel_memory_end_address k' = kernel_memory_end_address k /\
      con_x_max con' = 80 /\ con_y_max con' = 25 /\ zlen (terminals con') = i /\
      Forall overflows (terminals con')) f (Z.to_nat 5) 0 x)
      as ([k3 con3] & -> & W3 & _ & _ & _ & _ & L3 & F3) end.
  - split_and!; first [done | simpl; lia | by constructor].
  - intros i [k' c'] Hi (W & C & E & X & Y & L & F).
    destruct (kmalloc_block_ok apic k' 24 W Ha) as (k3 & a3 & -> & W3 & C3 & E3); [lia | lia |].
    cbn [mbind option_bind fst]. unfold DEFAULT_VIDEO_MAX_X, DEFAULT_VIDEO_MAX_Y.
    destruct (kmalloc_block_ok apic k3 (2 * 80 * 25) W3 Ha) as (k4 & a4 & -> & W4 & C4 & E4); [lia | lia |].
    cbn [mbind option_bind]. rewrite X, Y.
    match goal with |- context [terminal_initialize ?t0 (Some ?cells) _ _ _] =>
      destruct (initialized_overflows t0 cells) as (t' & -> & O) end.
    { unfold zlen. rewrite length_map, length_seqZ. lia. }
    cbn [mbind option_bind]. eexists. split; [reflexivity|]. simpl.
    split_and!; try done; try lia.
    + unfold zlen in *. rewrite length_app. simpl. lia.
    + apply Forall_app. split; [done | by constructor].
  - cbn [mbind option_bind fst snd]. destruct (register_services console_services s) as [s'|]; [|done].
    cbn [mbind option_bind]. eexists _, con3, s'. split; [reflexivity|]. by split.
Qed.

(** An allocator with a megabyte for the kernel. *)
Definition boot_allocator : MemoryAllocator :=
  mkMemoryAllocator 0x100000 0x100000 0x200000 0x200000 0x200000 0x300000 0 (mkspinlock 0 0 0 0).

Lemma console_buffer_too_small_witness :
  exists k' con' s', console_preInialize 0 (fun _ => 0) boot_allocator small_console blank_service
      = Some (k', con', s', true) /\ zlen (terminals con') = 5 /\
    Forall (fun t => forall bg fg, terminal_putString t (replicate 25 NEWLINE ++ [65]) bg fg = None)
      (terminals con').
Proof.
  apply (console_buffer_too_small 0 (fun _ => 0) boot_allocator small_console blank_service);
    [by split | lia | simpl; lia | by vm_compute].
Defined.
