(* ===== verification/MemoryPageMap.v ===== *)
(** * Page tables: [sources/memory/MemoryPageMap.c]

    Page tables are words of memory: a table is an address, an entry an aligned
    64-bit word, and the walk dereferences the addresses it finds.  Memory is a
    function from the addresses of words to words. *)

From S2P Require Import Prelude Defines Spinlock KMalloc Service PhysicalMemory.

#[local] Open Scope Z_scope.

Definition words : Type := Z -> Z.

Definition store (mem : words) (a v : Z) : words := fun b => if b =? a then u64 v else mem b.

Definition fill_words (mem : words) (a v n : Z) : words :=
  fun b => if (a <=? b) && (b <? a + 8 * n) then v else mem b.

Definition ALL_ONES : Z := 0xFFFFFFFFFFFFFFFF.

(** PRESENT | RW | USER *)
Definition TABLE_FLAGS : Z :=
  Z.lor (Z.lor MEMORY_PAGE_TABLE_ENTRY_PRESENT MEMORY_PAGE_TABLE_ENTRY_RW) MEMORY_PAGE_TABLE_ENTRY_USER.

(** 2MIB | PRESENT | RW | USER: also the entries of 4 KiB pages carry the first flag. *)
Definition PAGE_FLAGS : Z := Z.lor MEMORY_PAGE_TABLE_ENTRY_2MIB TABLE_FLAGS.

Definition clr_offset4 : Z := 0xFFFFFFFFFFFFF000.
Definition set_offset : Z := 0x1FFFFF.

(** [PGD] and [PUD] are the addresses of the arrays inside the structure. *)
Record MemoryPageTable := mkMemoryPageTable {
  PGD : Z;
  PUD : Z;
  PMD_ptr : Z;
  map_start_address : Z;
  map_size : Z;
  mapped_pages : Z;
  last_virtual_address : Z;
  start_address : Z;
  physical_address : Z
}.

#[export] Instance eta_MemoryPageTable : Eta MemoryPageTable :=
  fun r => mkMemoryPageTable (PGD r) (PUD r) (PMD_ptr r) (map_start_address r) (map_size r)
    (mapped_pages r) (last_virtual_address r) (start_address r) (physical_address r).

Record Level_4 := mkLevel_4 {
  numBlocks : Z;
  PTE_ptr : Z;
  bit_map : list Z
}.

#[export] Instance eta_Level_4 : Eta Level_4 :=
  fun r => mkLevel_4 (numBlocks r) (PTE_ptr r) (bit_map r).

(** What the operations share: memory, [kernel.L4] and [kernel.physicalMemoryManager]. *)
Record paging := mkPaging {
  pg_mem : words;
  L4 : Level_4;
  physicalMemoryManager : PhysicalMemoryManager
}.

#[export] Instance eta_paging : Eta paging :=
  fun r => mkPaging (pg_mem r) (L4 r) (physicalMemoryManager r).

(** ** The walk *)

Definition ptl1 : Z := Z.shiftl 0x1FF 39.
Definition ptl2 : Z := Z.shiftl 0x1FF 30.
Definition ptl3 : Z := Z.shiftl 0x1FF 21.
Definition ptl4 : Z := Z.shiftl 0x1FF 12.

Definition v2p (mem : words) (v_address pgd : Z) : Z :=
  let ptl1_index := u16 (Z.shiftr (Z.land v_address ptl1) 39) in
  let ptl2_index := u16 (Z.shiftr (Z.land v_address ptl2) 30) in
  let ptl3_index := u16 (Z.shiftr (Z.land v_address ptl3) 21) in
  let ptl4_index := u16 (Z.shiftr (Z.land v_address ptl4) 12) in
  let pud := Z.land (mem (pgd + 8 * ptl1_index)) clr_offset4 in
  let pmd := Z.land (mem (pud + 8 * ptl2_index)) clr_offset4 in
  let pte := Z.land (mem (pmd + 8 * ptl3_index)) clr_offset4 in
  mem (pte + 8 * ptl4_index).

Definition v2p2m (mem : words) (v_address pgd : Z) : Z :=
  let ptl1_index := u16 (Z.shiftr (Z.land v_address ptl1) 39) in
  let ptl2_index := u16 (Z.shiftr (Z.land v_address ptl2) 30) in
  let ptl3_index := u16 (Z.shiftr (Z.land v_address ptl3) 21) in
  let pud := Z.land (mem (pgd + 8 * ptl1_index)) 0xFFFFFFFFFFFFF000 in
  let pmd := Z.land (mem (pud + 8 * ptl2_index)) 0xFFFFFFFFFFFFF000 in
  let p_address := mem (pmd + 8 * ptl3_index) in
  u64 (Z.land p_address 0xFFFFFFFFFFFFF000 + Z.land set_offset v_address).

(** The indices as the linking functions compute them; [idx] must lie in the
    [PGD_ENTRIES_LIMIT * PAGE_TABLE_UNIT_SIZE] tables behind [PMD_ptr]. *)
Definition pgd_index (a : Z) : Z := Z.shiftr a (48 - 9).
Definition pud_index (a : Z) : Z := Z.land (Z.shiftr a (48 - 18)) 0x1FF.
Definition pmd_index (a : Z) : Z := Z.land (Z.shiftr a (48 - 27)) 0x1FF.
Definition pte_index (a : Z) : Z := Z.land (Z.shiftr a (48 - 36)) 0x1FF.

(** [&PMD_ptr[idx].tpage[pmd_index]] *)
Definition pmd_entry (t : MemoryPageTable) (a : Z) : option Z :=
  let idx := pgd_index a * PAGE_TABLE_UNIT_SIZE + pud_index a in
  if idx <? PGD_ENTRIES_LIMIT * PAGE_TABLE_UNIT_SIZE
  then Some (PMD_ptr t + 4096 * idx + 8 * pmd_index a) else None.

(** ** Blocks for the fourth level *)

Definition first_bit (bt : Z) : Z :=
  if (bt <=? 255) && (128 <=? bt) then 0
  else if (bt <=? 127) && (64 <=? bt) then 1
  else if (bt <=? 63) && (32 <=? bt) then 2
  else if (bt <=? 31) && (16 <=? bt) then 3
  else if (bt <=? 15) && (8 <=? bt) then 4
  else if (bt <=? 7) && (4 <=? bt) then 5
  else if (bt <=? 3) && (2 <=? bt) then 6
  else if (bt <=? 1) && (0 <=? bt) then 7
  else -1.

Definition AllocateVirtualMemoryBlock (l4 : Level_4) : option (Level_4 * Z) :=
  r ← for_loop (Z.to_nat (numBlocks l4 / 8)) 0 1 (fun i l4 =>
    bt ← zget (bit_map l4) i;
    if bt =? 0 then Some (inl l4)
    else
      let idx := first_bit bt in
      bits ← zset (bit_map l4) i
        (u8 (Z.land bt (s8 (Z.lnot (s8 (Z.shiftl 1 (7 - idx)))))));
      Some (inr (l4 {{ bit_map := bits }}, u64 (PTE_ptr l4 + 4096 * (i * 8 + idx))))) l4;
  Some (match r with inr x => x | inl l4 => (l4, ALL_ONES) end).

Definition DeallocateVirtualMemoryBlock (l4 : Level_4) (address : Z) : option (Level_4 * Z) :=
  let block_index := s32 (u64 (address - PTE_ptr l4) / FOUR_KiB_MEMORY_PAGE_SIZE) in
  let idx1 := Z.quot block_index 8 in
  let idx2 := Z.rem block_index 8 in
  b ← zget (bit_map l4) idx1;
  if truthy (Z.rem (Z.shiftr b (7 - idx2)) 2) then Some (l4, 0)
  else
    bits ← zset (bit_map l4) idx1 (u8 (Z.lor b (Z.shiftl 1 (7 - idx2))));
    Some (l4 {{ bit_map := bits }}, 1).

(** ** Linking *)

Definition LinkThirdStageToCollectionPhysical (s : paging) (t : MemoryPageTable)
    (start_address physical_address : Z) : option paging :=
  e ← pmd_entry t start_address;
  Some (s {{ pg_mem := store (pg_mem s) e (Z.lor physical_address PAGE_FLAGS) }}).

(** The result of the allocation is not tested: without a free collection the
    entry becomes [-1]. *)
Definition LinkThirdStageToCollection (s : paging) (t : MemoryPageTable) (start_address : Z)
  : option (paging * Z) :=
  x ← AllocateOnePhysicalFrameCollection (physicalMemoryManager s);
  let '(m, physical_memory_address) := x in
  e ← pmd_entry t start_address;
  Some (s {{ physicalMemoryManager := m;
             pg_mem := store (pg_mem s) e (Z.lor physical_memory_address PAGE_FLAGS) }},
        physical_memory_address).

(** The block behind a third-level entry, allocated when the entry is unused. *)
Definition fourth_level (s : paging) (e : Z) : option (paging * Z) :=
  if pg_mem s e =? ALL_ONES then
    x ← AllocateVirtualMemoryBlock (L4 s);
    let '(l4, returned_pte) := x in
    let s := s {{ L4 := l4; pg_mem := store (pg_mem s) e (Z.lor returned_pte TABLE_FLAGS) }} in
    Some (s, Z.land (pg_mem s e) clr_offset4)
  else Some (s, Z.land (pg_mem s e) clr_offset4).

Definition LinkFourthStageToFramePhysical (s : paging) (t : MemoryPageTable)
    (start_address physical_address : Z) : option paging :=
  e ← pmd_entry t start_address;
  x ← fourth_level s e;
  let '(s, tp_pte) := x in
  Some (s {{ pg_mem := store (pg_mem s) (tp_pte + 8 * pte_index start_address)
                         (Z.lor physical_address PAGE_FLAGS) }}).

Definition LinkFourthStageToFrame (s : paging) (t : MemoryPageTable) (start_address : Z)
  : option paging :=
  e ← pmd_entry t start_address;
  x ← fourth_level s e;
  let '(s, tp_pte) := x in
  y ← AllocateOnePhysicalFrame (physicalMemoryManager s);
  let '(m, physical_memory_address) := y in
  Some (s {{ physicalMemoryManager := m;
             pg_mem := store (pg_mem s) (tp_pte + 8 * pte_index start_address)
                         (Z.lor physical_memory_address PAGE_FLAGS) }}).

Definition LinkThirdStageToCollectionWrapper (s : paging) (t : MemoryPageTable) : option paging :=
  x ← LinkThirdStageToCollection s t (start_address t); Some (fst x).
Definition LinkThirdStageToCollectionPhysicalWrapper (s : paging) (t : MemoryPageTable) : option paging :=
  LinkThirdStageToCollectionPhysical s t (start_address t) (physical_address t).
Definition LinkFourthStageToFrameWrapper (s : paging) (t : MemoryPageTable) : option paging :=
  LinkFourthStageToFrame s t (start_address t).
Definition LinkFourthStageToFramePhysicalWrapper (s : paging) (t : MemoryPageTable) : option paging :=
  LinkFourthStageToFramePhysical s t (start_address t) (physical_address t).

(** The entry is left as 0xFFFFFFFFFFFFFFF0, which no other function takes for unused. *)
Definition DeallocateVirtualMemoryCollection (s : paging) (t : MemoryPageTable) (start_address : Z)
  : option paging :=
  e ← pmd_entry t start_address;
  let physical_memory_address := pg_mem s e in
  m ← DeallocateOnePhysicalFrameCollection
        ((physicalMemoryManager s) {{ p_physical_address := physical_memory_address }});
  Some (s {{ physicalMemoryManager := m;
             pg_mem := store (store (pg_mem s) e ALL_ONES) e 0xFFFFFFFFFFFFFFF0 }}).

(** ** Loops over memory *)

(** The last address below the four PGD entries, less one page. *)
Definition LAST_AVAILABLE_VADDRESS : Z :=
  (PGD_ENTRIES_LIMIT * PAGE_TABLE_UNIT_SIZE * PAGE_TABLE_UNIT_SIZE * PAGE_TABLE_UNIT_SIZE - 1)
  * FOUR_KiB_MEMORY_PAGE_SIZE.

Definition BspLinkFirst3Levels (mem : words) (t : MemoryPageTable) : option (words * MemoryPageTable) :=
  let t := t {{ mapped_pages := 0; last_virtual_address := 0 }} in
  for_each (Z.to_nat (LAST_AVAILABLE_VADDRESS / ONE_GIG_VALUE + 1)) 0 (fun k '(mem, t) =>
    let physical_address := k * ONE_GIG_VALUE in
    let pgd := u16 (pgd_index physical_address) in
    let pud := u16 (pud_index physical_address) in
    let mem := store mem (PGD t + 8 * pgd) (Z.lor (PUD t + 4096 * pgd) TABLE_FLAGS) in
    let mem := store mem (PUD t + 4096 * pgd + 8 * pud)
                 (Z.lor (PMD_ptr t + 4096 * (pgd * PAGE_TABLE_UNIT_SIZE + pud)) TABLE_FLAGS) in
    Some (mem, t {{ last_virtual_address := u64 (physical_address + ONE_GIG_VALUE - 1);
                    mapped_pages := u64 (mapped_pages t + 1) }})) (mem, t).

Definition MapKernelUsableMemory (s : paging) (t : MemoryPageTable) : option paging :=
  for_each (Z.to_nat (Z.quot KERNEL_MEMORY_SIZE FOUR_KiB_MEMORY_PAGE_SIZE)) 0 (fun i s =>
    let current_address := i * FOUR_KiB_MEMORY_PAGE_SIZE in
    LinkFourthStageToFramePhysical s t current_address current_address) s.

Definition isReservedMemory (entry : PhysicalMemoryEntry) : bool :=
  (0x0100000 <? entry_start entry) &&
  ((entry_type entry =? E820_MEMORY_ENTRY_TYPE_RESEARVED) ||
   (entry_type entry =? E820_MEMORY_ENTRY_TYPE_ACPI_RECLAINMED) ||
   (entry_type entry =? E820_MEMORY_ENTRY_TYPE_ACPI_NVS)).

(** Pages from [start] while below [start + size]; the sum wraps. *)
Definition page_count (start size : Z) : Z :=
  let last := u64 (start + size) in
  if start <? last then (last - start + 4095) / 4096 else 0.

Definition MapReservedMemory (s : paging) (t : MemoryPageTable) : option paging :=
  x ← for_each (Z.to_nat (memory_entries (physicalMemoryManager s))) 0
    (fun i '(s, last_available_vaddress) =>
      let m := physicalMemoryManager s in
      entry ← zget (physicalMemoryEntry m) i;
      if isReservedMemory entry then
        let num_frames_needed := entry_size entry / FOUR_KiB_MEMORY_PAGE_SIZE in
        let start_vaddress := u64 (last_available_vaddress - num_frames_needed * FOUR_KiB_MEMORY_PAGE_SIZE) in
        let last_available_vaddress := u64 (start_vaddress - FOUR_KiB_MEMORY_PAGE_SIZE) in
        entries ← zset (physicalMemoryEntry m) i (entry {{ entry_vstart := start_vaddress }});
        let s := s {{ physicalMemoryManager := m {{ physicalMemoryEntry := entries }} }} in
        s ← for_each (Z.to_nat (page_count (entry_start entry) (entry_size entry))) 0 (fun k s =>
          LinkFourthStageToFramePhysical s t
            (u64 (start_vaddress + k * FOUR_KiB_MEMORY_PAGE_SIZE))
            (u64 (entry_start entry + k * FOUR_KiB_MEMORY_PAGE_SIZE))) s;
        Some (s, last_available_vaddress)
      else if negb (entry_type entry =? E820_MEMORY_ENTRY_TYPE_HOLE) then
        entries ← zset (physicalMemoryEntry m) i (entry {{ entry_vstart := entry_start entry }});
        Some (s {{ physicalMemoryManager := m {{ physicalMemoryEntry := entries }} }}, last_available_vaddress)
      else Some (s, last_available_vaddress)) (s, LAST_AVAILABLE_VADDRESS);
  Some (fst x).

(** The pages of a shared block, for every core: [start <= virtualAddressStart + size]. *)
Definition shared_page_count (virtualAddressStart size : Z) : Z :=
  let last := u64 (virtualAddressStart + size) in
  if virtualAddressStart <=? last then (last - virtualAddressStart) / TWO_MiB_MEMORY_PAGE_SIZE + 1 else 0.

Definition AllocateSharedMemoryTwoMb (cores : list MemoryPageTable) (s : paging)
    (virtualAddressStart size : Z) : option paging :=
  for_each (Z.to_nat (shared_page_count virtualAddressStart size)) 0 (fun k s =>
    let start := virtualAddressStart + k * TWO_MiB_MEMORY_PAGE_SIZE in
    match cores with
    | [] => Some s
    | t :: others =>
        x ← LinkThirdStageToCollection s t start;
        let '(s, address) := x in
        foldl (fun s t => s ← s; LinkThirdStageToCollectionPhysical s t start address) (Some s) others
    end) s.

Definition DeallocateSharedMemoryTwoMb (cores : list MemoryPageTable) (s : paging)
    (virtualAddressStart size : Z) : option paging :=
  foldl (fun s t => s ← s;
    for_each (Z.to_nat (shared_page_count virtualAddressStart size)) 0 (fun k s =>
      DeallocateVirtualMemoryCollection s t (virtualAddressStart + k * TWO_MiB_MEMORY_PAGE_SIZE)) s)
    (Some s) cores.

Definition virtual_memory_services : list (string * Z) :=
  [("LinkThirdStageToCollectionWrapper", 0); ("LinkThirdStageToCollectionPhysicalWrapper", 1);
   ("LinkFourthStageToFrameWrapper", 2); ("LinkFourthStageToFramePhysicalWrapper", 3)]%string.

(** [kvalloc]; a NULL result is written to, which has no defined behaviour. *)
Definition kvalloc_table (apic : Z) (k : MemoryAllocator) (n : Z) : option (MemoryAllocator * Z) :=
  x ← kvalloc apic k n; if snd x =? 0 then None else Some x.

Definition InitVirtualMemoryService (apic : Z) (k : MemoryAllocator) (s : paging)
    (t : MemoryPageTable) (p_service : Service)
  : option (MemoryAllocator * paging * MemoryPageTable * Service) :=
  let m := physicalMemoryManager s in
  let total_memory_size := u64 (usable_memory_size m + reserved_memory_size m) in
  let total_number_of_frames := total_memory_size / FOUR_KiB_MEMORY_PAGE_SIZE in
  let blocks := (total_number_of_frames + 512 - 1) / 512 in
  x ← kvalloc_table apic k (4096 * blocks); let '(k, pte) := x in
  x ← kvalloc_table apic k blocks; let '(k, _) := x in
  let s := s {{ L4 := mkLevel_4 blocks pte (replicate (Z.to_nat blocks) 255);
                pg_mem := fill_words (pg_mem s) pte 0 (512 * blocks) }} in
  x ← kvalloc_table apic k (4096 * PGD_ENTRIES_LIMIT * PAGE_TABLE_UNIT_SIZE); let '(k, pmd) := x in
  let t := t {{ PMD_ptr := pmd; map_start_address := 0x0; map_size := maximum_address m }} in
  let mem := fill_words (pg_mem s) (PGD t) 0 PAGE_TABLE_UNIT_SIZE in
  let mem := fill_words mem (PUD t) 0 (PGD_ENTRIES_LIMIT * PAGE_TABLE_UNIT_SIZE) in
  let mem := fill_words mem pmd ALL_ONES (512 * (PGD_ENTRIES_LIMIT * PAGE_TABLE_UNIT_SIZE)) in
  y ← BspLinkFirst3Levels mem t; let '(mem, t) := y in
  s ← MapKernelUsableMemory (s {{ pg_mem := mem }}) t;
  s ← MapReservedMemory s t;
  p_service ← add_services virtual_memory_services p_service;
  Some (k, s, t, p_service).

(** A page table for every further core; [pgd] of a core's structure is the
    address [kvalloc] returns, the other arrays follow it. *)
Definition BuildApCoresPageTables (apic : Z) (k : MemoryAllocator) (s : paging)
    (bootstrap : MemoryPageTable) (cores_count : Z)
  : option (MemoryAllocator * paging * list MemoryPageTable) :=
  x ← kvalloc_table apic k (u64 (8 * cores_count)); let '(k, _) := x in
  y ← for_each (Z.to_nat (cores_count - 1)) 1 (fun _ '(k, s, cores) =>
    x ← kvalloc_table apic k (4096 + 4 * 4096 + 8 * 9); let '(k, base) := x in
    x ← kvalloc_table apic k (4096 * PGD_ENTRIES_LIMIT * PAGE_TABLE_UNIT_SIZE); let '(k, pmd) := x in
    let t := mkMemoryPageTable base (base + 4096) pmd 0x0
               (maximum_address (physicalMemoryManager s)) 0 0 0 0 in
    let mem := fill_words (pg_mem s) (PGD t) 0 PAGE_TABLE_UNIT_SIZE in
    let mem := fill_words mem (PUD t) 0 (PGD_ENTRIES_LIMIT * PAGE_TABLE_UNIT_SIZE) in
    let mem := fill_words mem pmd ALL_ONES (512 * (PGD_ENTRIES_LIMIT * PAGE_TABLE_UNIT_SIZE)) in
    z ← BspLinkFirst3Levels mem t; let '(mem, t) := z in
    s ← MapKernelUsableMemory (s {{ pg_mem := mem }}) t;
    s ← MapReservedMemory s t;
    Some (k, s, cores ++ [t])) (k, s, [bootstrap]);
  Some y.

(** ** The first page table

    [mapLimitedUsableMemory] looks for usable memory at 4 KiB steps and maps it
    to consecutive 2 MiB pages. *)

Record LimitedMemoryPageMap := mkLimited {
  lim_PGD : Z;
  lim_PUD : Z;
  lim_PMD : Z;
  lim_mapped_pages : Z;
  lim_last_virtual_address : Z
}.

#[export] Instance eta_LimitedMemoryPageMap : Eta LimitedMemoryPageMap :=
  fun r => mkLimited (lim_PGD r) (lim_PUD r) (lim_PMD r) (lim_mapped_pages r) (lim_last_virtual_address r).

Fixpoint map_limited_loop (fuel : nat) (pa va last : Z) (mem : words) (m : PhysicalMemoryManager)
    (p : LimitedMemoryPageMap) : option (words * PhysicalMemoryManager * LimitedMemoryPageMap) :=
  if pa <? last then
    match fuel with
    | O => None
    | S fuel =>
        m ← IsUsableAddress (m {{ p_physical_address := pa; p_size := TWO_MiB_MEMORY_PAGE_SIZE }});
        if is_usable_address m then
          let pgd := u16 (pgd_index va) in
          let pud := u16 (pud_index va) in
          let pmd := u16 (pmd_index va) in
          let mem := store mem (lim_PGD p + 8 * pgd) (Z.lor (lim_PUD p + 4096 * pgd) TABLE_FLAGS) in
          let mem := store mem (lim_PUD p + 4096 * pgd + 8 * pud)
                       (Z.lor (lim_PMD p + 4096 * (pgd * PAGE_TABLE_UNIT_SIZE + pud)) TABLE_FLAGS) in
          let mem := store mem (lim_PMD p + 4096 * (pgd * PAGE_TABLE_UNIT_SIZE + pud) + 8 * pmd)
                       (Z.lor pa PAGE_FLAGS) in
          map_limited_loop fuel (u64 (pa + TWO_MiB_MEMORY_PAGE_SIZE)) (u64 (va + TWO_MiB_MEMORY_PAGE_SIZE))
            last mem m
            (p {{ lim_last_virtual_address := u64 (va + TWO_MiB_MEMORY_PAGE_SIZE - 1);
                  lim_mapped_pages := u64 (lim_mapped_pages p + 1) }})
        else map_limited_loop fuel (u64 (pa + FOUR_KiB_MEMORY_PAGE_SIZE)) va last mem m p
    end
  else Some (mem, m, p).

Definition mapLimitedUsableMemory (fuel : nat) (mem : words) (m : PhysicalMemoryManager)
    (p : LimitedMemoryPageMap) (p_start_address p_size : Z)
  : option (words * PhysicalMemoryManager * LimitedMemoryPageMap) :=
  map_limited_loop fuel p_start_address 0 (u64 (p_start_address + p_size)) mem m
    (p {{ lim_mapped_pages := 0; lim_last_virtual_address := 0 }}).

Definition KERNEL_MEMORY_MAP_ADDRESS : Z := 0x80000.
Definition MAX_PMD_COUNT : Z := 0x10.
Definition KERNELKMALLOC_INITIAL_MEMORY_SIZE : Z := 0x25800000.
Definition KERNELKMALLOC_INITIAL_MEMORY_ADDRESS : Z := 0x200000 + 0x200000 * 0x8 + 0x1E00000.

(** [LimitedMemoryPageMap] holds the arrays PGD, PUD4, PMD4, PTE[2] and PUD[4]
    and six words; the PMD follows at the next page.  The stage ends by loading
    [&PGD] into CR3, the last component of the result. *)
Definition PageMapStage1 (fuel : nat) (mem : words) (m : PhysicalMemoryManager) (k : MemoryAllocator)
  : option (words * PhysicalMemoryManager * LimitedMemoryPageMap * MemoryAllocator * Z) :=
  let base := KERNEL_MEMORY_MAP_ADDRESS in
  let pmd_address := base + (9 * 4096 + 6 * 8) in
  let pmd_address :=
    if Z.land pmd_address 0xFFFFFFFFFFFFF000 <? pmd_address
    then u64 (Z.land pmd_address 0xFFFFFFFFFFFFF000 + 0x1000) else pmd_address in
  let p := mkLimited base (base + 5 * 4096) pmd_address 0 0 in
  let map_size := KERNELKMALLOC_INITIAL_MEMORY_ADDRESS + KERNELKMALLOC_INITIAL_MEMORY_SIZE in
  let mem := fill_words mem base 0 PAGE_TABLE_UNIT_SIZE in
  let mem := fill_words mem (base + 5 * 4096) 0 (PGD_ENTRIES_LIMIT * PAGE_TABLE_UNIT_SIZE) in
  let mem := fill_words mem pmd_address 0 (512 * MAX_PMD_COUNT) in
  let mem := fill_words mem (base + 3 * 4096) 0 (PAGE_TABLE_UNIT_SIZE * 2) in
  let mem := fill_words mem (base + 4096) 0 PAGE_TABLE_UNIT_SIZE in
  let mem := fill_words mem (base + 2 * 4096) 0 PAGE_TABLE_UNIT_SIZE in
  x ← mapLimitedUsableMemory fuel mem m p 0x0 map_size;
  let '(mem, m, p) := x in
  let k := k {{ spinlock := spinlock_init (spinlock k);
                kernel_memory_start_address := KERNELKMALLOC_INITIAL_MEMORY_ADDRESS;
                kernel_memory_current_address := KERNELKMALLOC_INITIAL_MEMORY_ADDRESS;
                kernel_memory_end_address :=
                  KERNELKMALLOC_INITIAL_MEMORY_ADDRESS + KERNELKMALLOC_INITIAL_MEMORY_SIZE - 1 }} in
  Some (mem, m, p, k, lim_PGD p).

(** CR3 is loaded when the loop reaches the running core; the counter has 8 bits. *)
Definition RefreshReserved (cores : list MemoryPageTable) (core_id : Z) (s : paging) (cr3 : Z)
  : option (paging * Z) :=
  if 256 <=? zlen cores then None
  else
    for_each (length cores) 0 (fun i '(s, cr3) =>
      t ← zget cores i;
      s ← MapReservedMemory s t;
      Some (s, if i =? core_id then PGD t else cr3)) (s, cr3).

(** ** Well-formed page tables *)

Definition apart (a n b m : Z) : Prop := a + n <= b \/ b + m <= a.

(** The first two levels point to the consecutive tables of the next. *)
Record tables_linked (mem : words) (t : MemoryPageTable) : Prop := {
  tl_pgd : forall g, 0 <= g < 4 -> mem (PGD t + 8 * g) = PUD t + 4096 * g + 7;
  tl_pud : forall h, 0 <= h < 2048 -> mem (PUD t + 8 * h) = PMD_ptr t + 4096 * h + 7
}.

Record layout_ok (t : MemoryPageTable) (l4 : Level_4) : Prop := {
  lo_pgd : 0 <= PGD t < 2 ^ 52;
  lo_pud : 0 <= PUD t < 2 ^ 52 /\ PUD t mod 4096 = 0;
  lo_pmd : 0 <= PMD_ptr t < 2 ^ 52 /\ PMD_ptr t mod 4096 = 0;
  lo_pte : 0 <= PTE_ptr l4 < 2 ^ 52 /\ PTE_ptr l4 mod 4096 = 0;
  lo_blocks : 0 <= numBlocks l4 < 2 ^ 40 /\ numBlocks l4 / 8 <= zlen (bit_map l4) /\ bytes (bit_map l4);
  lo_pgd_pmd : apart (PGD t) 4096 (PMD_ptr t) (8 * 2 ^ 20);
  lo_pud_pmd : apart (PUD t) 16384 (PMD_ptr t) (8 * 2 ^ 20);
  lo_pgd_pte : apart (PGD t) 4096 (PTE_ptr l4) (4096 * numBlocks l4);
  lo_pud_pte : apart (PUD t) 16384 (PTE_ptr l4) (4096 * numBlocks l4);
  lo_pmd_pte : apart (PMD_ptr t) (8 * 2 ^ 20) (PTE_ptr l4) (4096 * numBlocks l4)
}.

(** The third-level entry [i] points to the block [b], which is in use. *)
Definition entry_block (s : paging) (t : MemoryPageTable) (i b : Z) : Prop :=
  0 <= b < 8 * (numBlocks (L4 s) / 8) /\ bit_at (bit_map (L4 s)) b = false /\
  pg_mem s (PMD_ptr t + 8 * i) = PTE_ptr (L4 s) + 4096 * b + 7.

Record paging_ok (s : paging) (t : MemoryPageTable) : Prop := {
  po_linked : tables_linked (pg_mem s) t;
  po_layout : layout_ok t (L4 s);
  po_entries : forall i, 0 <= i < 2 ^ 20 ->
    pg_mem s (PMD_ptr t + 8 * i) = ALL_ONES \/ exists b, entry_block s t i b;
  po_distinct : forall i j b, 0 <= i < 2 ^ 20 -> 0 <= j < 2 ^ 20 ->
    entry_block s t i b -> entry_block s t j b -> i = j
}.

(** A virtual address whose 2 MiB region has a fourth-level table. *)
Definition has_table (s : paging) (t : MemoryPageTable) (va : Z) : Prop :=
  pg_mem s (PMD_ptr t + 8 * (va / 2 ^ 21)) <> ALL_ONES.

Definition free_block (l4 : Level_4) (b : Z) : Prop :=
  0 <= b < 8 * (numBlocks l4 / 8) /\ bit_at (bit_map l4) b = true.

Definition free_blocks (l4 : Level_4) : Z :=
  count (bit_at (bit_map l4)) 0 (8 * (numBlocks l4 / 8)).

(** ** Lemmas *)

Lemma lor_aligned a c : a mod 4096 = 0 -> 0 <= c < 4096 -> Z.lor a c = a + c.
Proof.
  intros Ha Hc. rewrite <- Z.lxor_lor, <- Z.add_nocarry_lxor; [done| |];
    (apply Z.bits_inj'; intros n Hn; rewrite Z.land_spec, Z.bits_0;
     destruct (decide (n < 12));
     [ rewrite <- (Z.mod_pow2_bits_low a 12) by lia; change (2 ^ 12) with 4096;
       by rewrite Ha, Z.bits_0
     | rewrite (testbit_high c 12 n) by lia; apply andb_false_r ]).
Qed.

Lemma clear_flags a c : a mod 4096 = 0 -> 0 <= c < 4096 -> 0 <= a < 2 ^ 60 ->
  Z.land (a + c) clr_offset4 = a.
Proof.
  intros Ha Hc Hr. unfold clr_offset4. rewrite land_page_mask by lia.
  rewrite <- Zplus_mod_idemp_l, Ha, Z.mod_small by lia. lia.
Qed.

Lemma index_field a k : 0 <= a -> 0 <= k -> Z.land (Z.shiftr a k) 0x1FF = (a / 2 ^ k) mod 512.
Proof.
  intros Ha Hk. change 0x1FF with (Z.ones 9). by rewrite Z.land_ones, Z.shiftr_div_pow2 by lia.
Qed.

Lemma walk_field a k : 0 <= a -> 0 <= k ->
  u16 (Z.shiftr (Z.land a (Z.shiftl 0x1FF k)) k) = (a / 2 ^ k) mod 512.
Proof.
  intros Ha Hk. rewrite Z.shiftr_land, Z.shiftr_shiftl_l, Z.sub_diag, Z.shiftl_0_r by lia.
  rewrite index_field by lia. apply u16_small. pose proof (Z.mod_pos_bound (a / 2 ^ k) 512). lia.
Qed.

Lemma pmd_entry_spec t a : 0 <= a < 2 ^ 41 -> pmd_entry t a = Some (PMD_ptr t + 8 * (a / 2 ^ 21)).
Proof.
  intros Ha. unfold pmd_entry, pgd_index, pud_index, pmd_index, PAGE_TABLE_UNIT_SIZE, PGD_ENTRIES_LIMIT.
  rewrite !index_field, Z.shiftr_div_pow2 by lia. change (48 - 9) with 39. change (48 - 18) with 30.
  change (48 - 27) with 21.
  assert (a / 2 ^ 39 * 512 + (a / 2 ^ 30) mod 512 = a / 2 ^ 30) as -> by zdiv.
  bdestr (a / 2 ^ 30 <? 4 * 512); [|zdiv]. f_equal. zdiv.
Qed.

Lemma v2p_linked mem t va :
  tables_linked mem t -> PUD t mod 4096 = 0 -> PMD_ptr t mod 4096 = 0 ->
  0 <= PUD t < 2 ^ 52 -> 0 <= PMD_ptr t < 2 ^ 52 -> 0 <= va < 2 ^ 41 ->
  v2p mem va (PGD t) =
    mem (Z.land (mem (PMD_ptr t + 8 * (va / 2 ^ 21))) clr_offset4 + 8 * ((va / 2 ^ 12) mod 512)).
Proof.
  intros [H1 H2] Ha Hb Hc Hd Hv. unfold v2p, ptl1, ptl2, ptl3, ptl4.
  rewrite !walk_field by lia.
  rewrite (H1 ((va / 2 ^ 39) mod 512)) by zdiv.
  rewrite clear_flags; [| zdiv | lia | zdiv].
  assert (PUD t + 4096 * ((va / 2 ^ 39) mod 512) + 8 * ((va / 2 ^ 30) mod 512) =
          PUD t + 8 * (va / 2 ^ 30)) as -> by zdiv.
  rewrite H2 by zdiv. rewrite clear_flags; [| zdiv | lia | zdiv].
  by assert (PMD_ptr t + 4096 * (va / 2 ^ 30) + 8 * ((va / 2 ^ 21) mod 512) =
          PMD_ptr t + 8 * (va / 2 ^ 21)) as -> by zdiv.
Qed.

Lemma first_bit_spec bt : 1 <= bt < 256 ->
  0 <= first_bit bt < 8 /\ Z.testbit bt (7 - first_bit bt) = true.
Proof.
  intros Hb.
  pose proof (all_between_spec 1 256
    (fun bt => (0 <=? first_bit bt) && (first_bit bt <? 8) && Z.testbit bt (7 - first_bit bt)) bt
    ltac:(vm_compute; reflexivity) Hb) as H. simpl in H.
  rewrite !andb_true_iff in H. lia || (destruct H as [[? ?] ?]; split; [lia | done]).
Qed.

Lemma AllocateVirtualMemoryBlock_free l4 b0 :
  bytes (bit_map l4) -> 0 <= numBlocks l4 < 2 ^ 40 -> numBlocks l4 / 8 <= zlen (bit_map l4) ->
  0 <= PTE_ptr l4 < 2 ^ 52 -> free_block l4 b0 ->
  exists bits b, AllocateVirtualMemoryBlock l4 =
      Some (l4 {{ bit_map := bits }}, PTE_ptr l4 + 4096 * b) /\
    free_block l4 b /\ length bits = length (bit_map l4) /\ bytes bits /\
    forall c, 0 <= c -> bit_at bits c = negb (c =? b) && bit_at (bit_map l4) c.
Proof.
  intros Hby Hn Hlen Hp [Hb0 Hbit0]. unfold AllocateVirtualMemoryBlock.
  destruct (first_true (fun i => match zget (bit_map l4) i with Some bt => negb (bt =? 0) | None => false end)
    0 (numBlocks l4 / 8)) as [Hnone|(i & Hi & Hbt & Hmin)]; [zdiv | |].
  { exfalso. specialize (Hnone (b0 / 8) ltac:(zdiv)). unfold bit_at in Hbit0.
    destruct (zget (bit_map l4) (b0 / 8)) as [bt|]; [|done].
    apply negb_false_iff, Z.eqb_eq in Hnone. subst bt. by rewrite Z.bits_0 in Hbit0. }
  destruct (zget (bit_map l4) i) as [bt|] eqn:Hg; [|done]. apply negb_true_iff, Z.eqb_neq in Hbt.
  pose proof (bytes_get _ _ _ Hby Hg) as Hr.
  destruct (first_bit_spec bt) as [Hf Hset]; [lia|].
  set (b := i * 8 + first_bit bt).
  assert (b / 8 = i /\ b mod 8 = first_bit bt) as [Hb8 Hbm] by (unfold b; zdiv).
  destruct (ClearBit_bit (bit_map l4) b Hby) as (bits & Ec & Hl & Hbb & Hbits); [unfold b; lia|].
  exists bits, b.
  assert (zset (bit_map l4) i (u8 (Z.land bt (s8 (Z.lnot (s8 (Z.shiftl 1 (7 - first_bit bt))))))) = Some bits)
    as Ez.
  { unfold ClearBit in Ec. rewrite Z.quot_div_nonneg, Z.rem_mod_nonneg in Ec by (unfold b; lia).
    rewrite Hb8, Hbm in Ec. unfold zupd in Ec. by rewrite Hg in Ec. }
  rewrite (for_loop_hit _ _ _ _ i (l4 {{ bit_map := bits }}, PTE_ptr l4 + 4096 * b)).
  - split; [done|]. split; [|by split_and!]. split; [unfold b; lia|]. unfold bit_at. by rewrite Hb8, Hbm, Hg.
  - zdiv.
  - intros j Hj. specialize (Hmin j Hj). destruct (zget_some (bit_map l4) j) as [bj Hgj]; [lia|].
    rewrite Hgj in Hmin |- *. apply negb_false_iff in Hmin. cbn [mbind option_bind]. by rewrite Hmin.
  - rewrite Hg. cbn [mbind option_bind]. bdestr (bt =? 0); [done|]. rewrite Ez. cbn [mbind option_bind].
    by rewrite u64_small by (unfold b; zdiv).
Qed.

Ltac by_parts := split_and!; simpl; first [done | lia | tauto].

Lemma store_same mem a v : 0 <= v < 2 ^ 64 -> store mem a v a = v.
Proof. intros. unfold store. rewrite Z.eqb_refl. by apply u64_small. Qed.

Lemma store_other mem a v b : b <> a -> store mem a v b = mem b.
Proof. intros. unfold store. by bdestr (b =? a). Qed.

Lemma linked_store mem t a v :
  tables_linked mem t -> ~ (PGD t <= a < PGD t + 4096) -> ~ (PUD t <= a < PUD t + 16384) ->
  tables_linked (store mem a v) t.
Proof. intros [H1 H2] Ha Hb. split; intros; rewrite store_other by lia; auto. Qed.

Lemma block_range s t i b : layout_ok t (L4 s) -> entry_block s t i b ->
  0 <= b < numBlocks (L4 s) /\ 0 <= PTE_ptr (L4 s) + 4096 * b < 2 ^ 60 /\
  (PTE_ptr (L4 s) + 4096 * b) mod 4096 = 0 /\ PTE_ptr (L4 s) + 4096 * b + 7 <> ALL_ONES.
Proof. intros [] [Hb _]. unfold ALL_ONES. split_and!; zdiv. Qed.

(** Entries whose word does not change keep their block. *)
Lemma entry_block_transfer s s' t j b :
  PTE_ptr (L4 s') = PTE_ptr (L4 s) -> numBlocks (L4 s') = numBlocks (L4 s) ->
  pg_mem s' (PMD_ptr t + 8 * j) = pg_mem s (PMD_ptr t + 8 * j) ->
  bit_at (bit_map (L4 s')) b = false -> entry_block s t j b -> entry_block s' t j b.
Proof. unfold entry_block. intros -> -> -> Hb (H1 & _ & H3). tauto. Qed.

Lemma entry_word_block s t j b : paging_ok s t -> 0 <= j < 2 ^ 20 ->
  0 <= b < 8 * (numBlocks (L4 s) / 8) ->
  pg_mem s (PMD_ptr t + 8 * j) = PTE_ptr (L4 s) + 4096 * b + 7 -> entry_block s t j b.
Proof.
  intros [H1 H2 H3 H4] Hj Hb Hw. destruct (H3 j Hj) as [E|(b' & Hb')].
  - exfalso. destruct H2. rewrite Hw in E. unfold ALL_ONES in E. zdiv.
  - pose proof Hb' as (_ & _ & E). rewrite Hw in E. assert (b' = b) as -> by lia. done.
Qed.

(** Allocating the fourth-level table of the region [i]. *)
Lemma new_table s t i b bits :
  paging_ok s t -> 0 <= i < 2 ^ 20 -> free_block (L4 s) b ->
  length bits = length (bit_map (L4 s)) -> bytes bits ->
  (forall c, 0 <= c -> bit_at bits c = negb (c =? b) && bit_at (bit_map (L4 s)) c) ->
  let s1 := s {{ L4 := (L4 s) {{ bit_map := bits }};
                 pg_mem := store (pg_mem s) (PMD_ptr t + 8 * i) (PTE_ptr (L4 s) + 4096 * b + 7) }} in
  paging_ok s1 t /\ entry_block s1 t i b.
Proof.
  intros Hok Hi [Hb Hfree] Hlen Hby Hbits. pose proof Hok as [H1 H2 H3 H4]. pose proof H2 as [].
  intros s1.
  assert (pg_mem s1 (PMD_ptr t + 8 * i) = PTE_ptr (L4 s) + 4096 * b + 7) as Hnew
    by (apply store_same; zdiv).
  assert (forall j, j <> i -> pg_mem s1 (PMD_ptr t + 8 * j) = pg_mem s (PMD_ptr t + 8 * j)) as Hold
    by (intros j Hj; apply store_other; lia).
  assert (forall j c, 0 <= j < 2 ^ 20 -> j <> i -> entry_block s1 t j c -> entry_block s t j c /\ c <> b) as Hback.
  { intros j c Hj Hne (C1 & C2 & C3). simpl in C1. rewrite Hold in C3 by done.
    pose proof (entry_word_block s t j c Hok Hj C1 C3) as Hc. split; [done|].
    intros ->. destruct Hc as (_ & Hc & _). congruence. }
  assert (bit_at bits b = false) as Hbb by (rewrite Hbits, Z.eqb_refl by lia; done).
  split; [split|].
  - apply linked_store; [done | unfold apart in *; lia | unfold apart in *; lia].
  - split; try done; simpl. split_and!; try tauto. unfold zlen in *. lia.
  - intros j Hj. destruct (decide (j = i)) as [->|Hne].
    + right. exists b. by_parts.
    + destruct (H3 j Hj) as [E|(c & Hc)]; [left; by rewrite Hold|]. right. exists c.
      eapply (entry_block_transfer s s1); try done; [by apply Hold|]. destruct Hc as (C1 & C2 & _).
      simpl. rewrite Hbits, C2 by lia. apply andb_false_r.
  - intros j k c Hj Hk Cj Ck. destruct (decide (j = i)) as [->|Hji], (decide (k = i)) as [->|Hki]; try done.
    + destruct (Hback k c Hk Hki Ck) as [_ Hne]. destruct Cj as (_ & _ & E). rewrite Hnew in E. simpl in E. lia.
    + destruct (Hback j c Hj Hji Cj) as [_ Hne]. destruct Ck as (_ & _ & E). rewrite Hnew in E. simpl in E. lia.
    + apply (H4 j k c); [done | done | by apply Hback | by apply Hback].
  - by_parts.
Qed.

Lemma free_blocks_pos l4 : 0 <= numBlocks l4 -> 0 < free_blocks l4 -> exists b, free_block l4 b.
Proof.
  intros Hn Hf. destruct (count_pos _ _ _ Hf) as (b & Hb & Hbit); [zdiv|]. exists b. split; [lia | done].
Qed.

Lemma free_blocks_take l4 bits b : 0 <= numBlocks l4 -> free_block l4 b ->
  (forall c, 0 <= c -> bit_at bits c = negb (c =? b) && bit_at (bit_map l4) c) ->
  free_blocks (l4 {{ bit_map := bits }}) = free_blocks l4 - 1.
Proof.
  intros Hn [Hb Hbit] Hbits. unfold free_blocks. simpl.
  assert (H : count (bit_at (bit_map l4)) 0 (8 * (numBlocks l4 / 8)) - Z.b2z (bit_at (bit_map l4) b) =
    count (bit_at bits) 0 (8 * (numBlocks l4 / 8)) - Z.b2z (bit_at bits b)).
  { apply count_change; [zdiv | lia |]. intros k Hk Hne. rewrite Hbits by lia. bdestr (k =? b); done. }
  rewrite Hbits, Z.eqb_refl, Hbit in H by lia. simpl in H. lia.
Qed.

Lemma fourth_level_spec s t i :
  paging_ok s t -> 0 <= i < 2 ^ 20 ->
  (pg_mem s (PMD_ptr t + 8 * i) <> ALL_ONES \/ exists b, free_block (L4 s) b) ->
  exists s1 b, fourth_level s (PMD_ptr t + 8 * i) = Some (s1, PTE_ptr (L4 s) + 4096 * b) /\
    paging_ok s1 t /\ entry_block s1 t i b /\
    PTE_ptr (L4 s1) = PTE_ptr (L4 s) /\ numBlocks (L4 s1) = numBlocks (L4 s) /\
    physicalMemoryManager s1 = physicalMemoryManager s /\
    (forall a, a <> PMD_ptr t + 8 * i -> pg_mem s1 a = pg_mem s a) /\
    (pg_mem s (PMD_ptr t + 8 * i) <> ALL_ONES -> s1 = s) /\
    free_blocks (L4 s) - 1 <= free_blocks (L4 s1).
Proof.
  intros Hok Hi Hcase. pose proof Hok as [H1 H2 H3 H4]. pose proof H2 as [].
  unfold fourth_level. bdestr (pg_mem s (PMD_ptr t + 8 * i) =? ALL_ONES).
  - destruct Hcase as [|[b0 Hb0]]; [done|]. destruct lo_blocks0 as (B1 & B2 & B3).
    destruct (AllocateVirtualMemoryBlock_free (L4 s) b0) as (bits & b & -> & Hfree & Hl & Hby & Hbits); try done; [tauto|].
    cbn [mbind option_bind]. pose proof Hfree as [Hbr _].
    unfold TABLE_FLAGS. change (Z.lor (Z.lor _ _) _) with 7.
    rewrite lor_aligned by zdiv.
    destruct (new_table s t i b bits Hok Hi Hfree Hl Hby Hbits) as [Hok1 Hent].
    eexists _, b. split; [|split; [exact Hok1|split; [exact Hent|split_and!]]]; simpl; try done.
    + rewrite store_same by zdiv. rewrite clear_flags; [done | zdiv | lia | zdiv].
    + intros a Ha. by apply store_other.
    + pose proof (free_blocks_take (L4 s) bits b ltac:(tauto) Hfree Hbits) as Hf. simpl in Hf. lia.
  - destruct (H3 i Hi) as [|[b Hbe]]; [done|].
    destruct (block_range s t i b H2 Hbe) as (R1 & R2 & R3 & _). pose proof Hbe as (B1 & B2 & ->).
    rewrite clear_flags by lia. exists s, b. by_parts.
Qed.

(** Storing a page in the block of the region [i]. *)
Lemma store_page s t i b k v :
  paging_ok s t -> entry_block s t i b -> 0 <= k < 512 ->
  paging_ok (s {{ pg_mem := store (pg_mem s) (PTE_ptr (L4 s) + 4096 * b + 8 * k) v }}) t /\
  forall j, 0 <= j < 2 ^ 20 ->
    store (pg_mem s) (PTE_ptr (L4 s) + 4096 * b + 8 * k) v (PMD_ptr t + 8 * j) = pg_mem s (PMD_ptr t + 8 * j).
Proof.
  intros Hok Hb Hk. pose proof Hok as [H1 H2 H3 H4].
  destruct (block_range s t i b H2 Hb) as (R1 & _). pose proof H2 as [].
  assert (forall j, 0 <= j < 2 ^ 20 ->
    store (pg_mem s) (PTE_ptr (L4 s) + 4096 * b + 8 * k) v (PMD_ptr t + 8 * j) = pg_mem s (PMD_ptr t + 8 * j)) as Hsame.
  { intros j Hj. apply store_other. unfold apart in *. lia. }
  split; [|done]. split; simpl.
  - apply linked_store; [done | unfold apart in *; lia | unfold apart in *; lia].
  - done.
  - intros j Hj. rewrite Hsame by done. destruct (H3 j Hj) as [|(c & C1 & C2 & C3)]; [by left|].
    right. exists c. split; [tauto|]. split; [done|]. simpl. by rewrite Hsame.
  - intros j k' c Hj Hk' (A1 & A2 & A3) (B1 & B2 & B3). simpl in *.
    rewrite Hsame in A3, B3 by done. apply (H4 j k' c); try done; by_parts.
Qed.

Lemma v2p_block s t va b :
  paging_ok s t -> 0 <= va < 2 ^ 41 -> entry_block s t (va / 2 ^ 21) b ->
  v2p (pg_mem s) va (PGD t) = pg_mem s (PTE_ptr (L4 s) + 4096 * b + 8 * ((va / 2 ^ 12) mod 512)).
Proof.
  intros Hok Hva Hb. pose proof Hok as [H1 H2 H3 H4].
  destruct (block_range s t _ b H2 Hb) as (_ & R2 & R3 & _). pose proof H2 as [].
  rewrite (v2p_linked _ t) by (done || tauto). destruct Hb as (_ & _ & ->). by rewrite clear_flags by lia.
Qed.

Lemma v2p_page mem t a :
  tables_linked mem t -> layout_ok t (L4 a) -> forall va, 0 <= va < 2 ^ 41 ->
  v2p mem va (PGD t) = v2p mem (va / 4096 * 4096) (PGD t).
Proof.
  intros H1 [] va Hva. rewrite !(v2p_linked mem t) by (tauto || zdiv).
  assert (va / 4096 * 4096 / 2 ^ 21 = va / 2 ^ 21) as -> by zdiv.
  by assert (va / 4096 * 4096 / 2 ^ 12 = va / 2 ^ 12) as -> by zdiv.
Qed.

Lemma map_page s t va pa :
  paging_ok s t -> 0 <= va < 2 ^ 41 -> 0 <= pa < 2 ^ 52 -> pa mod 4096 = 0 ->
  (has_table s t va \/ exists b, free_block (L4 s) b) ->
  exists s', LinkFourthStageToFramePhysical s t va pa = Some s' /\ paging_ok s' t /\
    v2p (pg_mem s') va (PGD t) = pa + 0x87 /\ has_table s' t va /\
    (forall va', 0 <= va' < 2 ^ 41 -> va' / 4096 <> va / 4096 -> has_table s t va' ->
      has_table s' t va' /\ v2p (pg_mem s') va' (PGD t) = v2p (pg_mem s) va' (PGD t)) /\
    free_blocks (L4 s) - (if decide (has_table s t va) then 0 else 1) <= free_blocks (L4 s').
Proof.
  intros Hok Hva Hpa Hal Hcase. unfold LinkFourthStageToFramePhysical.
  rewrite pmd_entry_spec by done. cbn [mbind option_bind].
  destruct (fourth_level_spec s t (va / 2 ^ 21) Hok ltac:(zdiv) Hcase)
    as (s1 & b & -> & Hok1 & Hb & Hp & Hn & _ & Hother & Hsame & Hfree).
  cbn [mbind option_bind]. unfold pte_index. rewrite index_field by lia. change (48 - 36) with 12.
  set (k := (va / 2 ^ 12) mod 512). assert (0 <= k < 512) as Hk by (unfold k; zdiv).
  unfold PAGE_FLAGS, TABLE_FLAGS. change (Z.lor _ (Z.lor (Z.lor _ _) _)) with 0x87.
  rewrite lor_aligned, <- Hp by lia.
  destruct (store_page s1 t _ b k (pa + 0x87) Hok1 Hb Hk) as [Hok2 Hpmd].
  assert (forall j c, 0 <= j < 2 ^ 20 -> entry_block s1 t j c ->
    entry_block (s1 {{ pg_mem := store (pg_mem s1) (PTE_ptr (L4 s1) + 4096 * b + 8 * k) (pa + 0x87) }}) t j c)
    as Hkeep.
  { intros j c Hj (C1 & C2 & C3). split; [done|]. split; [done|]. simpl. by rewrite Hpmd. }
  pose proof Hok as [_ Hlay He Hd]. pose proof Hlay as [].
  eexists. split; [reflexivity|]. split; [exact Hok2|].
  split; [rewrite (v2p_block _ t va b Hok2 Hva); [apply store_same; lia | apply Hkeep; [zdiv | done]]|].
  split; [|split].
  - unfold has_table. simpl. rewrite Hpmd by zdiv. destruct Hb as (_ & _ & ->). unfold ALL_ONES. zdiv.
  - intros va' Hva' Hne Ht. unfold has_table in Ht |- *. simpl. rewrite Hpmd by zdiv.
    destruct (He (va' / 2 ^ 21) ltac:(zdiv)) as [|(b' & Hb')]; [done|].
    assert (entry_block s1 t (va' / 2 ^ 21) b') as Hb1.
    { destruct (decide (va' / 2 ^ 21 = va / 2 ^ 21)) as [E|E].
      - rewrite E in Ht. by rewrite (Hsame Ht).
      - destruct Hb' as (C1 & C2 & C3). apply (entry_word_block s1 t _ b' Hok1); [zdiv | by rewrite Hn |].
        rewrite Hother, Hp by lia. done. }
    split; [destruct Hb1 as (_ & _ & ->); unfold ALL_ONES; destruct Hb' as (C1 & _); zdiv|].
    rewrite (v2p_block s t va' b' Hok Hva' Hb').
    pose proof (v2p_block _ t va' b' Hok2 Hva' ltac:(apply Hkeep; [zdiv | done])) as Hv'. simpl in Hv'. rewrite Hv'.
    destruct (block_range s t _ b' Hlay Hb') as (R1 & _). rewrite store_other.
    + rewrite Hp. apply Hother. unfold apart in *. zdiv.
    + intros E. assert (b' = b) as -> by (unfold k in *; zdiv).
      assert (va' / 2 ^ 21 = va / 2 ^ 21) as E2 by
        (apply (po_distinct s1 t Hok1 _ _ b); [zdiv | zdiv | done | done]).
      apply Hne. unfold k in E. zdiv.
  - simpl. destruct (decide _) as [Ht|]; [rewrite (Hsame Ht); lia | lia].
Qed.

Lemma region_table s t va va' : va / 2 ^ 21 = va' / 2 ^ 21 -> has_table s t va -> has_table s t va'.
Proof. unfold has_table. by intros ->. Qed.

(** The invariant of [BspLinkFirst3Levels] after [k] gigabytes. *)
Definition linked_upto (t0 : MemoryPageTable) (mem0 : words) (k : Z) (x : words * MemoryPageTable) : Prop :=
  let '(mem, t) := x in
  PGD t = PGD t0 /\ PUD t = PUD t0 /\ PMD_ptr t = PMD_ptr t0 /\ mapped_pages t = k /\
  (0 < k -> last_virtual_address t = k * ONE_GIG_VALUE - 1) /\
  (forall g, 0 <= g -> 512 * g < k -> mem (PGD t0 + 8 * g) = PUD t0 + 4096 * g + 7) /\
  (forall h, 0 <= h < k -> mem (PUD t0 + 8 * h) = PMD_ptr t0 + 4096 * h + 7) /\
  (forall a, ~ (PGD t0 <= a < PGD t0 + 4096) -> ~ (PUD t0 <= a < PUD t0 + 16384) -> mem a = mem0 a).

Lemma BspLinkFirst3Levels_links mem t :
  0 <= PGD t < 2 ^ 52 -> 0 <= PUD t < 2 ^ 52 -> 0 <= PMD_ptr t < 2 ^ 52 ->
  PUD t mod 4096 = 0 -> PMD_ptr t mod 4096 = 0 -> apart (PGD t) 4096 (PUD t) 16384 ->
  exists mem' t', BspLinkFirst3Levels mem t = Some (mem', t') /\ linked_upto t mem 2048 (mem', t').
Proof.
  intros H1 H2 H3 Ha Hb Hapart. unfold BspLinkFirst3Levels.
  change (Z.to_nat _) with (Z.to_nat 2048).
  edestruct (for_each_inv (linked_upto t mem)) as ([mem' t'] & E & HP); [| |eexists mem', t'; split; [exact E | exact HP]].
  { split_and!; done || lia. }
  intros k [m t1] Hk (P1 & P2 & P3 & P4 & P5 & P6 & P7 & P8). eexists. split; [reflexivity|].
  unfold ONE_GIG_VALUE in *. unfold pgd_index, pud_index, PAGE_TABLE_UNIT_SIZE.
  change TABLE_FLAGS with 7. rewrite index_field, Z.shiftr_div_pow2 by lia.
  change (48 - 9) with 39. change (48 - 18) with 30.
  assert (k * 1073741824 / 2 ^ 39 = k / 512) as -> by zdiv.
  assert (k * 1073741824 / 2 ^ 30 = k) as -> by zdiv.
  rewrite !u16_small by zdiv. rewrite P1, P2, P3, !lor_aligned by zdiv.
  unfold linked_upto, ONE_GIG_VALUE. simpl. rewrite P4, !u64_small by lia. unfold apart in Hapart.
  split_and!; try done; try lia; intros.
  - rewrite store_other by zdiv. destruct (decide (g = k / 512)) as [->|]; [apply store_same; zdiv|].
    rewrite store_other by lia. apply P6; zdiv.
  - destruct (decide (h = k)) as [->|].
    + assert (PUD t + 4096 * (k / 512) + 8 * (k mod 512) = PUD t + 8 * k) as -> by zdiv.
      rewrite store_same by zdiv. zdiv.
    + rewrite !store_other by zdiv. apply P7. lia.
  - rewrite !store_other by zdiv. by apply P8.
Qed.

(** The invariant of [MapKernelUsableMemory]: the first [i] pages are mapped to
    themselves, at the cost of one block for each region begun. *)
Definition mapped_upto (n : Z) (t : MemoryPageTable) (i : Z) (s : paging) : Prop :=
  paging_ok s t /\ n - (i + 511) / 512 <= free_blocks (L4 s) /\
  forall p, 0 <= p < i -> has_table s t (4096 * p) /\ v2p (pg_mem s) (4096 * p) (PGD t) = 4096 * p + 0x87.

Lemma mapped_upto_step n t i s :
  0 <= i < 192000 -> 375 <= n -> mapped_upto n t i s ->
  exists s', LinkFourthStageToFramePhysical s t (i * 4096) (i * 4096) = Some s' /\ mapped_upto n t (i + 1) s'.
Proof.
  intros Hi Hn (Hok & Hfree & Hmap). pose proof Hok as [_ [] _ _].
  assert (i mod 512 <> 0 -> has_table s t (i * 4096)) as Hht.
  { intros Hm. destruct (Hmap (i - 1)) as [Ht _]; [zdiv|]. eapply region_table; [|exact Ht]. zdiv. }
  destruct (map_page s t (i * 4096) (i * 4096) Hok) as (s' & -> & Hok' & Hv & Ht & Hold & Hf); [lia | lia | zdiv | |].
  { destruct (decide (i mod 512 = 0)) as [Hm|Hm]; [|by left; apply Hht]. right.
    apply free_blocks_pos; [tauto | zdiv]. }
  exists s'. split; [done|]. split; [done|]. split.
  - destruct (decide (has_table s t (i * 4096))) as [|Hno]; [zdiv|].
    destruct (decide (i mod 512 = 0)); [zdiv | tauto].
  - intros p Hp. destruct (decide (p = i)) as [->|Hne].
    + rewrite (Z.mul_comm 4096 i). done.
    + destruct (Hmap p) as [Ht' Hv']; [lia|]. rewrite <- Hv'. apply Hold; [lia | zdiv | done].
Qed.

(** * Properties *)

(** C2: mapping a page.  [LinkFourthStageToFramePhysical] on well-formed page
    tables, with a table for the region or a free block to make one, keeps them
    well-formed; walking the tables from the virtual address then gives the
    physical address with its flags, and every other page that had a table is
    translated as before. *)
Theorem map_page_translates s t va pa :
  paging_ok s t -> 0 <= va < 2 ^ 41 -> 0 <= pa < 2 ^ 52 -> pa mod 4096 = 0 ->
  (has_table s t va \/ exists b, free_block (L4 s) b) ->
  exists s', LinkFourthStageToFramePhysical s t va pa = Some s' /\ paging_ok s' t /\
    v2p (pg_mem s') va (PGD t) = pa + 0x87 /\
    forall va', 0 <= va' < 2 ^ 41 -> va' / 4096 <> va / 4096 -> has_table s t va' ->
      v2p (pg_mem s') va' (PGD t) = v2p (pg_mem s) va' (PGD t).
Proof.
  intros Hok Hva Hpa Hal Hcase.
  destruct (map_page s t va pa Hok Hva Hpa Hal Hcase) as (s' & E & Hok' & Hv & _ & Hold & _).
  exists s'. split_and!; try done. intros va' Hr Hne Ht. by apply Hold.
Qed.

(** The kernel's own memory.  With a free block for each of its 375 regions
    of 2 MiB, [MapKernelUsableMemory] ends, keeps the page tables well-formed,
    and from then on every address below [KERNEL_MEMORY_SIZE] translates to the
    frame at the same address, present, writable and accessible to users. *)
Theorem kernel_memory_identity s t :
  paging_ok s t -> 375 <= free_blocks (L4 s) ->
  exists s', MapKernelUsableMemory s t = Some s' /\ paging_ok s' t /\
    forall va, 0 <= va < KERNEL_MEMORY_SIZE ->
      v2p (pg_mem s') va (PGD t) = va / 4096 * 4096 + 0x87.
Proof.
  intros Hok Hfree. unfold MapKernelUsableMemory.
  change (Z.quot KERNEL_MEMORY_SIZE FOUR_KiB_MEMORY_PAGE_SIZE) with 192000.
  destruct (for_each_inv (mapped_upto (free_blocks (L4 s)) t)
    (fun i s => LinkFourthStageToFramePhysical s t (i * FOUR_KiB_MEMORY_PAGE_SIZE) (i * FOUR_KiB_MEMORY_PAGE_SIZE))
    (Z.to_nat 192000) 0 s) as (s' & E & Hok' & _ & Hmap).
  - split; [done|]. split; [zdiv | lia].
  - intros k s0 Hk Hinv. unfold FOUR_KiB_MEMORY_PAGE_SIZE. apply mapped_upto_step; [lia | done | done].
  - exists s'. split; [exact E|]. split; [done|]. intros va Hva. unfold KERNEL_MEMORY_SIZE in Hva.
    pose proof Hok' as [Hl Hlay _ _]. rewrite (v2p_page _ t s' Hl Hlay) by lia.
    rewrite (Z.mul_comm _ 4096). apply Hmap. zdiv.
Qed.

(** ** A concrete page table *)

Definition example_table : MemoryPageTable := mkMemoryPageTable 0x1000 0x2000 0x100000 0 0 0 0 0 0.

Definition example_words : words := fun a =>
  if (0x1000 <=? a) && (a <? 0x2000) then 0x2000 + 4096 * ((a - 0x1000) / 8) + 7
  else if (0x2000 <=? a) && (a <? 0x6000) then 0x100000 + 4096 * ((a - 0x2000) / 8) + 7
  else ALL_ONES.

Definition example_paging : paging :=
  mkPaging example_words (mkLevel_4 384 0x1000000 (replicate 48 255)) sample_manager.

Lemma example_paging_ok : paging_ok example_paging example_table.
Proof.
  split; simpl.
  - split; simpl; intros x Hx; unfold example_words; zcases; zdiv.
  - split; simpl; unfold apart, zlen; simpl; split_and?; try lia; try reflexivity.
    repeat constructor; lia.
  - intros i Hi. left. unfold example_words.
    zcases; lia || done.
  - intros i j b Hi Hj (_ & _ & E). exfalso. revert E. simpl. unfold example_words.
    zcases; unfold ALL_ONES; lia.
Qed.

Lemma map_page_translates_witness :
  exists s', LinkFourthStageToFramePhysical example_paging example_table 0x12345000 0xABC000 = Some s' /\
    paging_ok s' example_table /\ v2p (pg_mem s') 0x12345000 (PGD example_table) = 0xABC087.
Proof.
  destruct (map_page_translates example_paging example_table 0x12345000 0xABC000) as (s' & E & Hok & Hv & _).
  - exact example_paging_ok.
  - lia.
  - lia.
  - reflexivity.
  - right. exists 0. split; [vm_compute; split; congruence | reflexivity].
  - exists s'. split; [exact E|]. split; [exact Hok|]. exact Hv.
Defined.

Lemma kernel_memory_identity_witness :
  exists s', MapKernelUsableMemory example_paging example_table = Some s' /\
    v2p (pg_mem s') 0x12345678 (PGD example_table) = 0x12345087.
Proof.
  destruct (kernel_memory_identity example_paging example_table) as (s' & E & _ & Hv).
  - exact example_paging_ok.
  - vm_compute. congruence.
  - exists s'. split; [exact E|]. apply Hv. split; [lia | reflexivity].
Defined.
