(* ===== verification/SharedMemory.v ===== *)
(** * Shared memory: [sources/memory/SharedMemory.c]

    A bitmap of 1024 pages of 2 MiB above the second gigabyte, under a
    spinlock; the pages of an allocation are mapped on every core.  The strings
    the services return are built by [ConvertTagToXML] and are not modelled:
    the result is the address, or the status, put into them. *)

From S2P Require Import Prelude Defines Spinlock KMalloc Service PhysicalMemory MemoryPageMap.

#[local] Open Scope Z_scope.

Definition SHARED_MEMORY_BYTES : Z := 2 * 1024 * 1024 * 1024.
Definition PAGE_TABLE_SIZE_BYTES : Z := 2 * 1024 * 1024.
Definition NUMBER_OF_TABLE_ENTRIES : Z := SHARED_MEMORY_BYTES / PAGE_TABLE_SIZE_BYTES.
Definition START_OFFSET : Z := 2 * 1024 * 1024 * 1024.
Definition allocatedSharedMemory_t : Z := 0.
Definition deallocateSharedMemory_t : Z := 1.
Definition UINT64_MAX : Z := 0xFFFFFFFFFFFFFFFF.

Record SharedMemory := mkSharedMemory {
  bitMap : list Z;
  sm_spinlock : spinlock_t
}.

#[export] Instance eta_SharedMemory : Eta SharedMemory :=
  fun r => mkSharedMemory (bitMap r) (sm_spinlock r).

Record params_t := mkparams { numberOfBytes : Z; virtualAddress : Z }.

(** ** The bitmap *)

(** The two nested loops share [consecutiveBits]. *)
Definition AllocateConsecutivePages (bitMap : list Z) (length numberOfConsecutivePages : Z) : option Z :=
  r ← for_loop (Z.to_nat length) 0 1 (fun charIndex consecutiveBits =>
    currentChar ← zget bitMap charIndex;
    for_loop 8 0 1 (fun bitIndex consecutiveBits =>
      let currentBit := Z.land currentChar (Z.shiftl 1 (7 - bitIndex)) in
      let consecutiveBits := if truthy currentBit then 0 else s32 (consecutiveBits + 1) in
      if consecutiveBits =? numberOfConsecutivePages
      then Some (inr (charIndex * 8 + bitIndex + 1 - consecutiveBits))
      else Some (inl consecutiveBits)) consecutiveBits) 0;
  Some (match r with inr res => res | inl _ => -1 end).

Fixpoint set_bits (tempPagesToAllocate : nat) (bitMap : list Z) (length charIndex bitIndex : Z) (value : bool)
  : option (list Z * bool) :=
  match tempPagesToAllocate with
  | O => Some (bitMap, true)
  | S temp =>
      bitMap ← zupd bitMap charIndex (fun c =>
        if value then u8 (Z.lor c (Z.shiftl 1 (7 - bitIndex)))
        else u8 (Z.land c (Z.lnot (Z.shiftl 1 (7 - bitIndex)))));
      let bitIndex := u64 (bitIndex + 1) in
      if bitIndex =? 8 then
        let charIndex := u64 (charIndex + 1) in
        if charIndex =? length then Some (bitMap, false)
        else set_bits temp bitMap length charIndex 0 value
      else set_bits temp bitMap length charIndex bitIndex value
  end.

Definition SetBitsToValue (bitMap : list Z) (length returnIndexInBitMap numberOfPagesToSet : Z) (value : bool)
  : option (list Z * bool) :=
  set_bits (Z.to_nat (u64 (s32 numberOfPagesToSet))) bitMap length
    (u64 (Z.quot returnIndexInBitMap 8)) (u64 (Z.rem returnIndexInBitMap 8)) value.

(** ** The services *)

Definition pages_of (numberOfBytes : Z) : Z :=
  u64 (numberOfBytes + PAGE_TABLE_SIZE_BYTES - 1) / PAGE_TABLE_SIZE_BYTES.

(** The failure of [SetBitsToValue] returns with the lock held. *)
Definition AllocateSharedMemory (apic : Z) (cores : list MemoryPageTable) (sm : SharedMemory) (s : paging)
    (p : params_t) : option (SharedMemory * paging * Z) :=
  let numberOfPagesToAllocate := pages_of (numberOfBytes p) in
  l ← spinlock_lock apic (sm_spinlock sm);
  let sm := sm {{ sm_spinlock := l }} in
  returnIndexInBitMap ← AllocateConsecutivePages (bitMap sm) (NUMBER_OF_TABLE_ENTRIES / 8)
    (s32 numberOfPagesToAllocate);
  let virtualAddress := u64 (START_OFFSET + returnIndexInBitMap * TWO_MiB_MEMORY_PAGE_SIZE) in
  if 0 <=? returnIndexInBitMap then
    x ← SetBitsToValue (bitMap sm) (NUMBER_OF_TABLE_ENTRIES / 8) returnIndexInBitMap numberOfPagesToAllocate true;
    let '(bits, status) := x in
    let sm := sm {{ bitMap := bits }} in
    if negb status then Some (sm, s, UINT64_MAX)
    else
      s ← AllocateSharedMemoryTwoMb cores s virtualAddress (numberOfBytes p);
      Some (sm {{ sm_spinlock := spinlock_unlock apic (sm_spinlock sm) }}, s, virtualAddress)
  else
    Some (sm {{ sm_spinlock := spinlock_unlock apic (sm_spinlock sm) }}, s, UINT64_MAX).

Definition DeallocateSharedMemory (apic : Z) (cores : list MemoryPageTable) (sm : SharedMemory) (s : paging)
    (p : params_t) : option (SharedMemory * paging * bool) :=
  let numberOfPagesToDeallocate := pages_of (numberOfBytes p) in
  let startIndexOfDeallocation := u64 (virtualAddress p - START_OFFSET) in
  let startIndexOfDeallocation := startIndexOfDeallocation / TWO_MiB_MEMORY_PAGE_SIZE / 8 in
  l ← spinlock_lock apic (sm_spinlock sm);
  let sm := sm {{ sm_spinlock := l }} in
  x ← SetBitsToValue (bitMap sm) (NUMBER_OF_TABLE_ENTRIES / 8) startIndexOfDeallocation
        numberOfPagesToDeallocate false;
  let '(bits, status) := x in
  let sm := sm {{ bitMap := bits }} in
  if negb status then
    Some (sm {{ sm_spinlock := spinlock_unlock apic (sm_spinlock sm) }}, s, status)
  else
    s ← DeallocateSharedMemoryTwoMb cores s (virtualAddress p) (numberOfBytes p);
    Some (sm {{ sm_spinlock := spinlock_unlock apic (sm_spinlock sm) }}, s, status).

Definition initSharedMemoryService (sm : SharedMemory) (p_service : Service) : option (SharedMemory * Service) :=
  let sm := sm {{ bitMap := replicate (Z.to_nat (NUMBER_OF_TABLE_ENTRIES / 8)) 0;
                  sm_spinlock := spinlock_init (sm_spinlock sm) }} in
  let p_service := p_service {{ service_method_count := 2 }} in
  x ← add_service_test p_service (Some "AllocateSharedMemory"%string) allocatedSharedMemory_t
        "Allocate Shared Memory";
  let p_service := fst x in
  p_service ← add_serviceTestParameterDescription p_service allocatedSharedMemory_t
    "numberOfBytes" "uint64_t" 8 false false true false;
  p_service ← add_serviceTestParameterDescription p_service allocatedSharedMemory_t
    "virtualAddress" "uint64_t" 8 false false true true;
  x ← add_service_test p_service (Some "DeallocateSharedMemory"%string) deallocateSharedMemory_t
        "Deallocate Shared Memory";
  let p_service := fst x in
  p_service ← add_serviceTestParameterDescription p_service deallocateSharedMemory_t
    "numberOfBytes" "uint64_t" 8 false false true false;
  p_service ← add_serviceTestParameterDescription p_service deallocateSharedMemory_t
    "virtualAddress" "uint64_t" 8 false false true false;
  p_service ← add_serviceTestParameterDescription p_service deallocateSharedMemory_t
    "DeallocationStatus" "bool" 1 false false true true;
  Some (sm, p_service {{ parserMethod := Some "ParseSharedMemoryXML"%string }}).

(** ** Lemmas: the bitmap *)

(** [n] free pages from [r] on. *)
Definition free_run (bm : list Z) (r n : Z) : Prop := forall k, r <= k < r + n -> bit_at bm k = false.

(** The state of the search before bit [k]: the length of the free run that ends there. *)
Definition scanned (bm : list Z) (n k c : Z) : Prop :=
  0 <= c <= k /\ c < n /\ free_run bm (k - c) c /\ (c < k -> bit_at bm (k - c - 1) = true) /\
  forall r, 0 <= r -> r + n <= k -> ~ free_run bm r n.

Definition first_run (bm : list Z) (n size r : Z) : Prop :=
  0 <= r /\ r + n <= size /\ free_run bm r n /\ forall r', 0 <= r' < r -> ~ free_run bm r' n.

Lemma scanned_step bm n k c :
  1 <= n -> scanned bm n k c ->
  let c' := if bit_at bm k then 0 else c + 1 in
  if c' =? n then first_run bm n (k + 1) (k + 1 - c') else scanned bm n (k + 1) c'.
Proof.
  intros Hn (H1 & H2 & H3 & H4 & H5) c'. subst c'. destruct (bit_at bm k) eqn:E.
  - bdestr (0 =? n); [lia|]. split_and!; try lia.
    + intros j Hj. lia.
    + intros _. by replace (k + 1 - 0 - 1) with k by lia.
    + intros r Hr Hrk Hrun. destruct (decide (r + n <= k)); [by apply (H5 r)|].
      rewrite Hrun in E by lia. done.
  - assert (free_run bm (k - c) (c + 1)) as Hrun.
    { intros j Hj. destruct (decide (j = k)) as [->|]; [done | apply H3; lia]. }
    bdestr (c + 1 =? n).
    + subst n. replace (k + 1 - (c + 1)) with (k - c) by lia. split_and!; try lia; [done|].
      intros r' Hr'. apply H5; lia.
    + replace (k + 1 - (c + 1)) with (k - c) by lia. split_and!; try lia.
      * by replace (k + 1 - (c + 1)) with (k - c) by lia.
      * intros. replace (k + 1 - (c + 1) - 1) with (k - c - 1) by lia. apply H4. lia.
      * intros r Hr Hrk Hfree. destruct (decide (r + n <= k)); [by apply (H5 r)|].
        assert (bit_at bm (k - c - 1) = false) by (apply Hfree; lia). rewrite H4 in * by lia. done.
Qed.

Lemma AllocateConsecutivePages_spec bm len n :
  bytes bm -> 0 <= len <= zlen bm -> len < 2 ^ 27 -> 1 <= n ->
  exists r, AllocateConsecutivePages bm len n = Some r /\
    (r = -1 /\ (forall r', 0 <= r' -> r' + n <= 8 * len -> ~ free_run bm r' n) \/ first_run bm n (8 * len) r).
Proof.
  intros Hb Hlen Hmax Hn. unfold AllocateConsecutivePages.
  loop_inv (fun k c => scanned bm n (8 * k) c) (first_run bm n (8 * len)) r Hr.
  - split_and!; try lia; intros ? ?; lia.
  - intros ci c Hci Hc. destruct (zget_some bm ci) as [b Hg]; [lia|]. rewrite Hg. cbn [mbind option_bind].
    loop_inv (fun k c => scanned bm n (8 * ci + k) c) (first_run bm n (8 * len)) r Hr.
    + by rewrite Z.add_0_r.
    + intros bi c' Hbi Hs. pose proof (scanned_step bm n _ c' Hn Hs) as Hstep. cbv zeta in *.
      rewrite land_bit by lia. pose proof Hs as (Hc0 & _).
      assert (bit_at bm (8 * ci + bi) = Z.testbit b (7 - bi)) as Hbit.
      { unfold bit_at. assert ((8 * ci + bi) / 8 = ci) as -> by zdiv. rewrite Hg. f_equal. zdiv. }
      rewrite Hbit in Hstep. rewrite s32_small by lia.
      destruct ((if Z.testbit b (7 - bi) then 0 else c' + 1) =? n) eqn:Ec; eexists; (split; [reflexivity|]); simpl.
      * destruct Hstep as (F1 & F2 & F3 & F4).
        replace (ci * 8 + bi + 1 - _) with (8 * ci + bi + 1 - (if Z.testbit b (7 - bi) then 0 else c' + 1)) by lia.
        split_and!; auto. lia.
      * by rewrite Z.add_assoc.
    + exists r. split; [done|]. destruct r; [|done]. by replace (8 * (ci + 1)) with (8 * ci + (0 + Z.of_nat 8)) by lia.
  - destruct r as [c|r]; cbn [mbind option_bind]; eexists; (split; [reflexivity|]); [left|by right].
    split; [done|]. destruct Hr as (_ & _ & _ & _ & Hr). intros r' H1 H2. apply Hr; lia.
Qed.

Lemma set_one bm ci bi (value : bool) :
  bytes bm -> 0 <= ci < zlen bm -> 0 <= bi < 8 ->
  exists bm', zupd bm ci (fun c =>
      if value then u8 (Z.lor c (Z.shiftl 1 (7 - bi))) else u8 (Z.land c (Z.lnot (Z.shiftl 1 (7 - bi))))) = Some bm' /\
    length bm' = length bm /\ bytes bm' /\
    forall k, 0 <= k -> bit_at bm' k = if k =? 8 * ci + bi then value else bit_at bm k.
Proof.
  intros Hb Hci Hbi.
  destruct (upd_bit bm (8 * ci + bi) (fun c =>
    if value then u8 (Z.lor c (Z.shiftl 1 (7 - bi))) else u8 (Z.land c (Z.lnot (Z.shiftl 1 (7 - bi))))))
    as (bm' & b & Hg & Hr & Hs & Hl & Hb' & Hm); [done | lia | intros; destruct value; apply u8_range |].
  assert ((8 * ci + bi) / 8 = ci) as E by zdiv. rewrite E in *.
  exists bm'. split_and!; auto. intros k Hk. rewrite Hm, (same_bit k) by lia. rewrite E.
  unfold bit_at. bdestr (k / 8 =? ci); simpl; [|done]. replace (k / 8) with ci by lia. rewrite Hg.
  assert ((8 * ci + bi) mod 8 = bi) as -> by zdiv.
  destruct value; rewrite testbit_u8 by zdiv; rewrite ?Z.lor_spec, ?Z.land_spec, ?Z.lnot_spec, testbit_pow2 by zdiv;
    (bdestr (7 - k mod 8 <? 8); [|zdiv]); bdestr (7 - k mod 8 =? 7 - bi); simpl;
    rewrite ?orb_true_r, ?orb_false_r, ?andb_true_r, ?andb_false_r; done.
Qed.

Lemma set_bits_spec temp len value : len < 2 ^ 60 -> forall bm ci bi,
  bytes bm -> len = zlen bm -> 0 <= ci -> 0 <= bi < 8 -> 8 * ci + bi + Z.of_nat temp <= 8 * len ->
  exists bm', set_bits temp bm len ci bi value =
      Some (bm', (Z.of_nat temp =? 0) || (8 * ci + bi + Z.of_nat temp <? 8 * len)) /\
    length bm' = length bm /\ bytes bm' /\
    forall k, 0 <= k -> bit_at bm' k =
      if (8 * ci + bi <=? k) && (k <? 8 * ci + bi + Z.of_nat temp) then value else bit_at bm k.
Proof.
  intros Hmax. induction temp as [|temp IH]; intros bm ci bi Hb Hlen Hci Hbi Hrange.
  - exists bm. split; [done|]. split; [done|]. split; [done|]. intros k Hk. zcases; lia || done.
  - destruct (set_one bm ci bi value Hb) as (bm1 & E & Hl1 & Hb1 & Hbit1); [lia | done |].
    cbn [set_bits]. rewrite E. cbn [mbind option_bind].
    assert (zlen bm1 = zlen bm) as Hlen1 by (unfold zlen; lia). rewrite (u64_small (bi + 1)) by lia.
    bdestr (bi + 1 =? 8); [rewrite (u64_small (ci + 1)) by lia; bdestr (ci + 1 =? len)|].
    + assert (temp = 0%nat) as -> by lia. exists bm1. split.
      { bdestr (8 * ci + bi + Z.of_nat 1 <? 8 * len); [lia | done]. }
      split; [done|]. split; [done|]. intros k Hk. rewrite Hbit1 by done. zcases; lia || done.
    + destruct (IH bm1 (ci + 1) 0) as (bm' & -> & Hl & Hb' & Hbit); [done | lia | lia | lia | lia |].
      exists bm'. split; [f_equal; f_equal; bdestr (Z.of_nat temp =? 0); bdestr (Z.of_nat (S temp) =? 0); try lia;
        zcases; lia || done|].
      split; [lia|]. split; [done|]. intros k Hk. rewrite Hbit, Hbit1 by done. zcases; lia || done.
    + destruct (IH bm1 ci (bi + 1)) as (bm' & -> & Hl & Hb' & Hbit); [done | lia | lia | lia | lia |].
      exists bm'. split; [f_equal; f_equal; bdestr (Z.of_nat temp =? 0); bdestr (Z.of_nat (S temp) =? 0); try lia;
        zcases; lia || done|].
      split; [lia|]. split; [done|]. intros k Hk. rewrite Hbit, Hbit1 by done. zcases; lia || done.
Qed.

Lemma SetBitsToValue_spec bm len i n value :
  bytes bm -> len = zlen bm -> len < 2 ^ 27 -> 0 <= i -> 0 <= n -> i + n <= 8 * len ->
  exists bm', SetBitsToValue bm len i n value = Some (bm', (n =? 0) || (i + n <? 8 * len)) /\
    length bm' = length bm /\ bytes bm' /\
    forall k, 0 <= k -> bit_at bm' k = if (i <=? k) && (k <? i + n) then value else bit_at bm k.
Proof.
  intros Hb Hlen Hmax Hi Hn Hin. unfold SetBitsToValue.
  rewrite Z.quot_div_nonneg, Z.rem_mod_nonneg, s32_small, !u64_small by zdiv.
  destruct (set_bits_spec (Z.to_nat n) len value ltac:(lia) bm (i / 8) (i mod 8)) as (bm' & E & H);
    [done | done | zdiv | zdiv | zdiv |].
  exists bm'. rewrite E. rewrite Z2Nat.id in * by done. assert (8 * (i / 8) + i mod 8 = i) as Ei by zdiv.
  rewrite Ei in *. done.
Qed.

(** ** Lemmas: the pages on every core *)

(** The third-level entry of [a] in the table [t]. *)
Definition entry_of (t : MemoryPageTable) (a : Z) : Z := PMD_ptr t + 8 * (a / 2 ^ 21).

(** The third levels of two cores do not overlap. *)
Definition separate (cores : list MemoryPageTable) : Prop :=
  forall t t', t ∈ cores -> t' ∈ cores ->
    PMD_ptr t = PMD_ptr t' \/ apart (PMD_ptr t) (8 * 2 ^ 20) (PMD_ptr t') (8 * 2 ^ 20).

Lemma separate_entries cores t t' a a' :
  separate cores -> t ∈ cores -> t' ∈ cores -> 0 <= a < 2 ^ 41 -> 0 <= a' < 2 ^ 41 ->
  a / 2 ^ 21 <> a' / 2 ^ 21 -> entry_of t a <> entry_of t' a'.
Proof. intros Hs Ht Ht' Ha Ha' Hne. destruct (Hs t t' Ht Ht') as [E|E]; unfold entry_of, apart in *; zdiv. Qed.

Lemma link_others (a address : Z) others : 0 <= a < 2 ^ 41 -> forall s,
  exists s', foldl (fun s t => s ← s; LinkThirdStageToCollectionPhysical s t a address) (Some s) others = Some s' /\
    physicalMemoryManager s' = physicalMemoryManager s /\
    (forall t, t ∈ others -> pg_mem s' (entry_of t a) = u64 (Z.lor address PAGE_FLAGS)) /\
    (forall b, (forall t, t ∈ others -> b <> entry_of t a) -> pg_mem s' b = pg_mem s b) /\
    (forall b, pg_mem s b = u64 (Z.lor address PAGE_FLAGS) -> pg_mem s' b = u64 (Z.lor address PAGE_FLAGS)).
Proof.
  intros Ha. induction others as [|t others IH]; intros s; simpl.
  - exists s. split_and!; try done. intros t Ht. by apply not_elem_of_nil in Ht.
  - unfold LinkThirdStageToCollectionPhysical at 2. rewrite pmd_entry_spec by done. simpl.
    edestruct IH as (s' & -> & Hm & Hin & Hout & Hkeep). exists s'. split_and!; try done.
    + intros t' Ht'. apply elem_of_cons in Ht' as [->|Ht']; [|by apply Hin].
      apply Hkeep. simpl. unfold store, entry_of. by rewrite Z.eqb_refl.
    + intros b Hb. rewrite Hout by (intros; apply Hb; by constructor). simpl.
      apply store_other. apply Hb. by constructor.
    + intros b Hb. apply Hkeep. simpl. unfold store. by case_match.
Qed.

Definition shared_page (cores : list MemoryPageTable) (start : Z) (s : paging) : option paging :=
  match cores with
  | [] => Some s
  | t :: others =>
      x ← LinkThirdStageToCollection s t start;
      let '(s, address) := x in
      foldl (fun s t => s ← s; LinkThirdStageToCollectionPhysical s t start address) (Some s) others
  end.

Lemma shared_page_spec cores a s :
  0 <= a < 2 ^ 41 -> manager_wf (physicalMemoryManager s) ->
  exists s' v, shared_page cores a s = Some s' /\ manager_wf (physicalMemoryManager s') /\
    (forall t, t ∈ cores -> pg_mem s' (entry_of t a) = v) /\
    (forall b, (forall t, t ∈ cores -> b <> entry_of t a) -> pg_mem s' b = pg_mem s b).
Proof.
  intros Ha Hm. destruct cores as [|t others]; simpl.
  { exists s, 0. split_and!; try done. intros t Ht. by apply not_elem_of_nil in Ht. }
  unfold LinkThirdStageToCollection.
  destruct (AllocateOnePhysicalFrameCollection_spec _ Hm) as (m' & address & -> & Hm' & _). cbn [mbind option_bind].
  rewrite pmd_entry_spec by done. cbn [mbind option_bind].
  edestruct (link_others a address others Ha) as (s' & -> & Em & Hin & Hout & Hkeep).
  exists s', (u64 (Z.lor address PAGE_FLAGS)). split; [done|]. split; [by rewrite Em|]. split.
  - intros t' Ht'. apply elem_of_cons in Ht' as [->|Ht']; [|by apply Hin].
    apply Hkeep. simpl. unfold store, entry_of. by rewrite Z.eqb_refl.
  - intros b Hb. rewrite Hout by (intros; apply Hb; by constructor). simpl.
    apply store_other. apply Hb. by constructor.
Qed.

(** The cores agree on the entry of [a]. *)
Definition cores_agree (cores : list MemoryPageTable) (s : paging) (a : Z) : Prop :=
  exists v, forall t, t ∈ cores -> pg_mem s (entry_of t a) = v.

Lemma AllocateSharedMemoryTwoMb_spec cores s va size :
  separate cores -> manager_wf (physicalMemoryManager s) ->
  0 <= va -> va mod 2 ^ 21 = 0 -> 0 <= size -> va + size < 2 ^ 41 ->
  exists s', AllocateSharedMemoryTwoMb cores s va size = Some s' /\ manager_wf (physicalMemoryManager s') /\
    forall a, va <= a <= va + size -> cores_agree cores s' a.
Proof.
  intros Hsep Hm Hva Hal Hsize Htop. unfold AllocateSharedMemoryTwoMb.
  assert (shared_page_count va size = size / 2 ^ 21 + 1) as ->.
  { unfold shared_page_count. rewrite u64_small by lia. bdestr (va <=? va + size); [|lia].
    unfold TWO_MiB_MEMORY_PAGE_SIZE. do 2 f_equal; lia. }
  destruct (for_each_inv (fun k s => manager_wf (physicalMemoryManager s) /\
      forall j, 0 <= j < k -> cores_agree cores s (va + j * 2 ^ 21))
    (fun k s => shared_page cores (va + k * TWO_MiB_MEMORY_PAGE_SIZE) s) (Z.to_nat (size / 2 ^ 21 + 1)) 0 s)
    as (s' & E & Hm' & Hag).
  - split; [done | lia].
  - intros k s1 Hk [Hm1 Hag]. unfold TWO_MiB_MEMORY_PAGE_SIZE. change 2097152 with (2 ^ 21).
    destruct (shared_page_spec cores (va + k * 2 ^ 21) s1) as (s2 & v & E & Hm2 & Hin & Hout); [zdiv | done |].
    exists s2. split; [done|]. split; [done|]. intros j Hj.
    destruct (decide (j = k)) as [->|Hne]; [by exists v|].
    destruct (Hag j) as [w Hw]; [lia|]. exists w. intros t Ht. rewrite Hout; [by apply Hw|].
    intros t' Ht'. apply (separate_entries cores); try done; zdiv.
  - exists s'. split; [exact E|]. split; [done|]. intros a Ha.
    destruct (Hag ((a - va) / 2 ^ 21)) as [v Hv]; [zdiv|]. exists v. intros t Ht. rewrite <- (Hv t Ht).
    unfold entry_of. do 3 f_equal. zdiv.
Qed.

(** * Properties *)

(** What [AllocateSharedMemory] does with the pages from [i] on. *)
Definition pages_taken (bm bm' : list Z) (i n : Z) : Prop :=
  length bm' = length bm /\ bytes bm' /\
  forall k, 0 <= k -> bit_at bm' k = ((i <=? k) && (k <? i + n)) || bit_at bm k.

(** C35: an allocation of shared memory.  With the lock free,
    [AllocateSharedMemory] takes the first run of free pages that is long
    enough: it marks those pages and no others, returns the address of the
    first, leaves the lock as it was, and every core translates every address of
    the block alike.  Without such a run nothing changes and the address is -1.
    A run that ends with the bitmap is marked too, but reported as a failure,
    and the lock stays held. *)
Theorem shared_allocation apic cores sm s p :
  unheld (sm_spinlock sm) -> 0 <= apic < 65535 -> bytes (bitMap sm) -> zlen (bitMap sm) = 128 ->
  separate cores -> manager_wf (physicalMemoryManager s) -> 1 <= numberOfBytes p <= 2 ^ 31 ->
  let n := (numberOfBytes p + 2 ^ 21 - 1) / 2 ^ 21 in
  exists sm' s' r, AllocateSharedMemory apic cores sm s p = Some (sm', s', r) /\
    ((r = UINT64_MAX /\ sm' = sm /\ s' = s /\ forall i, 0 <= i -> i + n <= 1024 -> ~ free_run (bitMap sm) i n) \/
     exists i, first_run (bitMap sm) n 1024 i /\ pages_taken (bitMap sm) (bitMap sm') i n /\
       if i + n <? 1024 then
         r = START_OFFSET + i * 2 ^ 21 /\ sm_spinlock sm' = sm_spinlock sm /\
         forall a, r <= a < r + numberOfBytes p -> cores_agree cores s' a
       else r = UINT64_MAX /\ s' = s /\ spinlock_lock apic (sm_spinlock sm) = Some (sm_spinlock sm')).
Proof.
  intros Hl Ha Hb Hlen Hsep Hm Hp n. unfold AllocateSharedMemory.
  destruct (lock_unlock apic _ Hl Ha) as (l & -> & Hun). cbn [mbind option_bind].
  assert (pages_of (numberOfBytes p) = n) as Hn.
  { unfold pages_of, PAGE_TABLE_SIZE_BYTES. rewrite u64_small by lia. reflexivity. }
  rewrite Hn. assert (1 <= n <= 1024) as Hr by (unfold n; zdiv). rewrite s32_small by lia.
  change (NUMBER_OF_TABLE_ENTRIES / 8) with 128. cbn [bitMap].
  destruct (AllocateConsecutivePages_spec (bitMap sm) 128 n) as (i & E & Hi); [done | lia | lia | lia |].
  simpl. rewrite E. simpl. destruct Hi as [[-> Hno]|Hrun].
  - simpl. do 3 eexists. split; [reflexivity|]. left. split_and!; try done. rewrite Hun. by destruct sm.
  - pose proof Hrun as (R1 & R2 & R3 & R4). bdestr (0 <=? i); [|lia].
    destruct (SetBitsToValue_spec (bitMap sm) 128 i n true) as (bm' & -> & Hl' & Hb' & Hbit); [done | lia | lia | lia | lia | lia |].
    cbn [mbind option_bind]. assert (pages_taken (bitMap sm) bm' i n) as Ht.
    { by split_and!. }
    change (8 * 128) with 1024 in *. bdestr (n =? 0); [lia|]. cbn [orb]. destruct (i + n <? 1024) eqn:Hend; cbn [negb].
    + unfold START_OFFSET, TWO_MiB_MEMORY_PAGE_SIZE in *. rewrite u64_small by lia.
      destruct (AllocateSharedMemoryTwoMb_spec cores s (2 * 1024 * 1024 * 1024 + i * 2097152) (numberOfBytes p))
        as (s' & -> & Hm' & Hag); [done | done | lia | zdiv | lia | lia |].
      simpl. do 3 eexists. split; [reflexivity|]. right. exists i. rewrite Hend. simpl. split_and!; try done.
      intros a Har. apply Hag. lia.
    + do 3 eexists. split; [reflexivity|]. right. exists i. rewrite Hend. simpl. by split_and!.
Qed.

Definition example_cores : list MemoryPageTable :=
  [example_table; mkMemoryPageTable 0x2001000 0x2002000 0x2100000 0 0 0 0 0 0].

Definition example_shared : SharedMemory :=
  mkSharedMemory (255 :: 128 :: replicate 126 0) (mkspinlock 0 0 0 0).

Lemma example_cores_separate : separate example_cores.
Proof.
  intros t t' Ht Ht'. unfold example_cores in *.
  rewrite !elem_of_cons, elem_of_nil in Ht, Ht'. unfold apart.
  destruct Ht as [->|[->|[]]], Ht' as [->|[->|[]]]; simpl; lia.
Qed.

Lemma example_shared_bytes : bytes (bitMap example_shared).
Proof. repeat constructor; lia. Qed.

Lemma shared_allocation_witness :
  exists sm' s', AllocateSharedMemory 0 example_cores example_shared example_paging (mkparams 0x300000 0) =
    Some (sm', s', 0x81200000) /\ cores_agree example_cores s' 0x81234567.
Proof.
  destruct (shared_allocation 0 example_cores example_shared example_paging (mkparams 0x300000 0))
    as (sm' & s' & r & E & [(_ & _ & _ & Hno)|(i & Hrun & _ & Hr)]).
  - split; [reflexivity | split; reflexivity].
  - lia.
  - exact example_shared_bytes.
  - reflexivity.
  - exact example_cores_separate.
  - exact sample_manager_wf.
  - simpl. lia.
  - exfalso. refine (Hno 9 _ _ _); [lia | vm_compute; congruence |].
    intros k Hk. change ((numberOfBytes (mkparams 3145728 0) + 2 ^ 21 - 1) / 2 ^ 21) with 2 in Hk.
    assert (k = 9 \/ k = 10) as [-> | ->] by lia; reflexivity.
  - change ((numberOfBytes (mkparams 3145728 0) + 2 ^ 21 - 1) / 2 ^ 21) with 2 in *.
    destruct Hrun as (H1 & H2 & H3 & H4). assert (i = 9) as ->.
    { destruct (Z.lt_trichotomy i 9) as [Hlt|[|Hgt]]; [exfalso | done | exfalso].
      - revert Hlt H3. assert (Hf : forallb (fun k => bit_at (bitMap example_shared) k) (seqZ 0 9) = true)
          by (vm_compute; reflexivity). rewrite forallb_forall in Hf. intros Hlt H3.
        specialize (H3 i ltac:(lia)). rewrite (Hf i) in H3 by (apply list_elem_of_In, elem_of_seqZ; lia). done.
      - apply (H4 9); [lia|]. intros k Hk. assert (k = 9 \/ k = 10) as [-> | ->] by lia; reflexivity. }
    destruct Hr as (-> & _ & Hag). exists sm', s'. split; [exact E|]. apply Hag. simpl. lia.
Defined.

(** The index [DeallocateSharedMemory] computes is divided by eight before
    [SetBitsToValue] divides it: page 9 comes back, page 1 is freed instead. *)
Lemma deallocation_frees_wrong_page :
  match AllocateSharedMemory 0 example_cores example_shared example_paging (mkparams 0x100000 0) with
  | Some (sm1, s1, va) =>
      match DeallocateSharedMemory 0 example_cores sm1 s1 (mkparams 0x100000 va) with
      | Some (sm2, _, status) =>
          (va =? 0x81200000) && status && bit_at (bitMap sm2) 9 &&
          bit_at (bitMap sm1) 1 && negb (bit_at (bitMap sm2) 1) = true
      | None => False
      end
  | None => False
  end.
Proof. vm_compute. reflexivity. Qed.
