(* ===== verification/Interrupts.v ===== *)
(** * Interrupts: [sources/interrupts/InterruptDescriptorTable.c],
    [sources/interrupts/InterruptManager.c], [sources/interrupts/isr_stub.c],
    with the numbers the stubs of [asm/stage2/interrupts/idt.asm] push

    A gate holds the address of a stub.  Where the linker puts the stubs is an
    argument, [address]. *)

From S2P Require Import Prelude Defines Service.

#[local] Open Scope Z_scope.

(** ** The PIC masks *)

Definition PIC1_DATA : Z := 0x20 + 1.
Definition PIC2_DATA : Z := 0xA0 + 1.

(** The mask registers behind the two data ports. *)
Record pic := mkpic { master_mask : Z; slave_mask : Z }.

#[export] Instance eta_pic : Eta pic := fun r => mkpic (master_mask r) (slave_mask r).

Definition inportb (port : Z) (p : pic) : option Z :=
  if port =? PIC1_DATA then Some (master_mask p)
  else if port =? PIC2_DATA then Some (slave_mask p) else None.

Definition outportb (port value : Z) (p : pic) : option pic :=
  if port =? PIC1_DATA then Some (p {{ master_mask := u8 value }})
  else if port =? PIC2_DATA then Some (p {{ slave_mask := u8 value }}) else None.

Definition IrqSetMask (p_irq_line : Z) (p : pic) : option pic :=
  if 15 <? p_irq_line then Some p
  else
    let '(port, p_irq_line) := if p_irq_line <? 8 then (PIC1_DATA, p_irq_line) else (PIC2_DATA, p_irq_line - 8) in
    v ← inportb port p;
    let value := u8 (Z.lor v (Z.shiftl 1 p_irq_line)) in
    outportb port value p.

Definition IrqClearMask (p_irq_line : Z) (p : pic) : option pic :=
  if 15 <? p_irq_line then Some p
  else
    let '(port, p_irq_line) := if p_irq_line <? 8 then (PIC1_DATA, p_irq_line) else (PIC2_DATA, p_irq_line - 8) in
    v ← inportb port p;
    let value := u8 (Z.land v (Z.lnot (Z.shiftl 1 p_irq_line))) in
    outportb port value p.

(** ** The descriptor table *)

Definition IDT_SIZE : Z := 256.
Definition KERNEL_CODESEG : Z := 0x8.
Definition IDT_P_KERNEL_INTERRUPT_GATE : Z := 0x8E.
Definition IDT_P_USER_INTERRUPT_GATE : Z := 0xEE.

Record InterruptDescriptorTableEntry := mkGate {
  base_low : Z;
  selector : Z;
  reserved_ist : Z;
  gate_flags : Z;
  base_mid : Z;
  base_high : Z;
  gate_reserved : Z
}.

#[export] Instance eta_gate : Eta InterruptDescriptorTableEntry :=
  fun r => mkGate (base_low r) (selector r) (reserved_ist r) (gate_flags r) (base_mid r) (base_high r)
    (gate_reserved r).

(** The entry points defined in assembly. *)
Inductive stub :=
  | isr (n : Z)
  | irq (n : Z)
  | apirq (n : Z)
  | swirq (n : Z)
  | isr255.

(** The interrupt number a stub pushes; [isr255] returns without pushing any. *)
Definition pushed (s : stub) : option Z :=
  match s with
  | isr n => Some n
  | irq n => Some (32 + n)
  | apirq n => Some (96 + n)
  | swirq n => Some (128 + n)
  | isr255 => None
  end.

Definition SetInterruptDescriptorTableEntry (idt : list InterruptDescriptorTableEntry)
    (p_number p_base p_selector p_flags : Z) : option (list InterruptDescriptorTableEntry) :=
  zset idt (u8 p_number)
    (mkGate (u16 (Z.land p_base 0xFFFF)) (u16 p_selector) 0 (u8 p_flags)
       (u16 (Z.land (Z.shiftr p_base 16) 0xFFFF)) (u32 (Z.land (Z.shiftr p_base 32) 0xFFFFFFFF)) 0).

(** [count] calls in a row, for the vectors from [first] and the stubs from [n]. *)
Definition range (first count : Z) (s : Z -> stub) (n : Z) : list (Z * stub) :=
  map (fun k => (first + k, s (n + k))) (seqZ 0 count).

Definition exception_gates : list (Z * stub) := range 0 32 isr 0.

(** Vector 36 has no call; [irq22] is set twice and [irq30] never. *)
Definition irq_gates : list (Z * stub) :=
  range 32 4 irq 0 ++ range 37 18 irq 5 ++ range 55 8 irq 22 ++ range 63 33 irq 31.

Definition ap_gates : list (Z * stub) := range 96 32 apirq 0.

(** No call for vector 139; [swirq22] twice, [swirq4] and [swirq30] never. *)
Definition sw_gates : list (Z * stub) :=
  range 128 4 swirq 0 ++ range 132 7 swirq 5 ++ range 140 11 swirq 12 ++ range 151 8 swirq 22 ++ range 159 96 swirq 31.

Section Tables.

Context (address : stub -> Z).

Definition set_gates (flags : Z) (gates : list (Z * stub)) (idt : list InterruptDescriptorTableEntry)
  : option (list InterruptDescriptorTableEntry) :=
  foldl (fun idt '(v, s) => idt ← idt; SetInterruptDescriptorTableEntry idt v (address s) KERNEL_CODESEG flags)
    (Some idt) gates.

Definition registerExceptions := set_gates IDT_P_KERNEL_INTERRUPT_GATE exception_gates.
Definition registerIRQs := set_gates IDT_P_KERNEL_INTERRUPT_GATE irq_gates.
Definition registerAPIRQs := set_gates IDT_P_KERNEL_INTERRUPT_GATE ap_gates.
Definition registerSWIRQs := set_gates IDT_P_USER_INTERRUPT_GATE sw_gates.

(** What [lidt] loads. *)
Record InterruptDescriptorTablePointer := mkIDTP { idt_limit : Z; idt_base : Z }.

Definition SetupInterruptDescriptorTable (table_address : Z) (p : pic) (idt : list InterruptDescriptorTableEntry)
  : option (pic * list InterruptDescriptorTableEntry * InterruptDescriptorTablePointer) :=
  p ← outportb PIC2_DATA 0xff p;
  p ← outportb PIC1_DATA 0xff p;
  idt ← registerExceptions idt;
  idt ← registerIRQs idt;
  idt ← registerAPIRQs idt;
  idt ← registerSWIRQs idt;
  idt ← SetInterruptDescriptorTableEntry idt 255 (address isr255) KERNEL_CODESEG IDT_P_KERNEL_INTERRUPT_GATE;
  Some (p, idt, mkIDTP (16 * IDT_SIZE - 1) table_address).

End Tables.

(** The address the processor jumps to through a gate. *)
Definition gate_target (g : InterruptDescriptorTableEntry) : Z :=
  Z.lor (base_low g) (Z.lor (Z.shiftl (base_mid g) 16) (Z.shiftl (base_high g) 32)).

Definition gate_present (g : InterruptDescriptorTableEntry) : bool := Z.testbit (gate_flags g) 7.

(** ** The interrupt manager

    A handler is the name of a C function; [exec h n w] runs it for the
    interrupt [n] on the state [w] of the rest of the system. *)

Record InterruptManager := mkInterruptManager {
  interruptHandlers : list (option string);
  p_interruptNumber : Z;
  p_interruptHandler : option string
}.

#[export] Instance eta_InterruptManager : Eta InterruptManager :=
  fun r => mkInterruptManager (interruptHandlers r) (p_interruptNumber r) (p_interruptHandler r).

Definition RegisterInterrupt (m : InterruptManager) : option (InterruptManager * bool) :=
  h ← zset (interruptHandlers m) (u8 (p_interruptNumber m)) (p_interruptHandler m);
  Some (m {{ interruptHandlers := h }}, true).

(** Per core: the flags of the interrupts that fired and the writes to its EOI register. *)
Record core_interrupts := mkCore { fired_interrupts : list Z; eoi_count : Z }.

#[export] Instance eta_core_interrupts : Eta core_interrupts :=
  fun r => mkCore (fired_interrupts r) (eoi_count r).

Definition ServiceInterrupt {W} (exec : string -> Z -> W -> option W) (m : InterruptManager)
    (interrupt_number : Z) (w : W) : option (W * bool) :=
  h ← zget (interruptHandlers m) (u8 interrupt_number);
  match h with
  | Some f => w ← exec f interrupt_number w; Some (w, true)
  | None => Some (w, false)
  end.

(** [core_id] is the answer of [get_current_core_id].  A page fault never returns. *)
Definition IdtHandler {W} (exec : string -> Z -> list core_interrupts * W -> option (list core_interrupts * W))
    (core_id : Z) (m : InterruptManager) (interrupt_number : Z) (cores : list core_interrupts) (w : W)
  : option (list core_interrupts * W) :=
  let core_id := u8 core_id in
  if interrupt_number =? 14 then None
  else
    c ← zget cores core_id;
    fired ← zset (fired_interrupts c) interrupt_number 1;
    cores ← zset cores core_id (c {{ fired_interrupts := fired }});
    x ← ServiceInterrupt exec m interrupt_number (cores, w);
    let '(cores, w) := fst x in
    cores ← zupd cores core_id (fun c => c {{ eoi_count := eoi_count c + 1 }});
    Some (cores, w).

Definition interrupt_services : list (string * Z) :=
  [("RegisterInterrupt", 0); ("ServiceInterrupt", 1)]%string.

Definition InitializeInterruptManager (address : stub -> Z) (table_address : Z) (p : pic)
    (idt : list InterruptDescriptorTableEntry) (p_service : Service)
  : option (pic * list InterruptDescriptorTableEntry * InterruptDescriptorTablePointer * Service) :=
  x ← SetupInterruptDescriptorTable address table_address p idt;
  p_service ← add_services interrupt_services p_service;
  Some (x, p_service).

(** ** Lemmas: the masks *)

Definition masked (p : pic) (line : Z) : bool :=
  if line <? 8 then Z.testbit (master_mask p) line else Z.testbit (slave_mask p) (line - 8).

Definition pic_ok (p : pic) : Prop := 0 <= master_mask p < 256 /\ 0 <= slave_mask p < 256.

(** ** Lemmas: the gates *)

Definition gate_of (a flags : Z) : InterruptDescriptorTableEntry :=
  mkGate (u16 (Z.land a 0xFFFF)) KERNEL_CODESEG 0 flags
    (u16 (Z.land (Z.shiftr a 16) 0xFFFF)) (u32 (Z.land (Z.shiftr a 32) 0xFFFFFFFF)) 0.

Lemma gate_target_of a flags : 0 <= a < 2 ^ 64 -> gate_target (gate_of a flags) = a.
Proof.
  intros Ha. unfold gate_target, gate_of. simpl.
  change 0xFFFF with (Z.ones 16). change 0xFFFFFFFF with (Z.ones 32). rewrite !Z.land_ones by lia.
  rewrite !Z.shiftr_div_pow2, u32_small, !u16_small by zdiv.
  apply Z.bits_inj'. intros n Hn. rewrite !Z.lor_spec, !Z.shiftl_spec by lia.
  destruct (decide (n < 16)); [|destruct (decide (n < 32))].
  - rewrite Z.mod_pow2_bits_low, !(Z.testbit_neg_r _ (n - _)) by lia. by rewrite !orb_false_r.
  - rewrite Z.mod_pow2_bits_high, Z.mod_pow2_bits_low, Z.div_pow2_bits, (Z.testbit_neg_r _ (n - 32)) by lia.
    rewrite orb_false_r. simpl. f_equal. lia.
  - rewrite !Z.mod_pow2_bits_high by lia. simpl.
    destruct (decide (n < 64)).
    + rewrite Z.mod_pow2_bits_low, Z.div_pow2_bits by lia. f_equal. lia.
    + rewrite Z.mod_pow2_bits_high by lia. symmetry. by apply (testbit_high a 64); lia.
Qed.

(** The stub the last call for the vector [v] sets. *)
Definition last_stub (v : Z) (gates : list (Z * stub)) : option stub :=
  foldl (fun r '(v', s) => if v =? v' then Some s else r) None gates.

Lemma last_stub_snoc v gates v' s :
  last_stub v (gates ++ [(v', s)]) = if v =? v' then Some s else last_stub v gates.
Proof. unfold last_stub. by rewrite foldl_app. Qed.

Lemma set_gates_spec address flags gates idt :
  Forall (fun g => 0 <= fst g < 256) gates -> zlen idt = 256 -> 0 <= flags < 256 ->
  exists idt', set_gates address flags gates idt = Some idt' /\ zlen idt' = 256 /\
    forall v, zget idt' v = match last_stub v gates with
                            | Some s => Some (gate_of (address s) flags)
                            | None => zget idt v
                            end.
Proof.
  intros Hg Hlen Hf. induction gates as [|[v s] gates IH] using rev_ind.
  - exists idt. done.
  - apply Forall_app in Hg as [Hg Hv]. inversion_clear Hv as [|? ? Hv' _]. simpl in Hv'.
    destruct (IH Hg) as (idt' & E & Hl & Hget). unfold set_gates in *. rewrite foldl_app, E. simpl.
    unfold SetInterruptDescriptorTableEntry. rewrite u8_small, zset_eq by lia.
    pose proof (zset_eq idt' v (gate_of (address s) flags) ltac:(lia)) as Es.
    eexists. split; [reflexivity|]. split; [unfold zlen in *; rewrite length_insert; done|].
    intros w. rewrite last_stub_snoc. rewrite (u16_small KERNEL_CODESEG), (u8_small flags) by (unfold KERNEL_CODESEG; lia).
    change (mkGate _ _ _ _ _ _ _) with (gate_of (address s) flags).
    rewrite (zget_zset _ _ _ _ _ Es). bdestr (w =? v); [by subst|]. apply Hget.
Qed.

(** * Properties *)

(** The number with which the stub behind the gate of [v] reports the interrupt. *)
Definition reported (v : Z) : option Z :=
  if (v =? 36) || (v =? 139) || (v =? 255) then None
  else if (55 <=? v) && (v <=? 62) then Some (v - 1)
  else if (132 <=? v) && (v <=? 138) then Some (v + 1)
  else if (151 <=? v) && (v <=? 158) then Some (v - 1)
  else Some v.

Definition gate_flags_of (v : Z) : Z :=
  if (128 <=? v) && (v <=? 254) then IDT_P_USER_INTERRUPT_GATE else IDT_P_KERNEL_INTERRUPT_GATE.

(** The last call for each vector, over the four groups and the call for 255. *)
Definition installed (v : Z) : option stub :=
  if v =? 255 then Some isr255
  else match last_stub v sw_gates with Some s => Some s | None =>
       match last_stub v ap_gates with Some s => Some s | None =>
       match last_stub v irq_gates with Some s => Some s | None => last_stub v exception_gates end end end.


Definition table_ok (v : Z) : bool :=
  match installed v with
  | Some s =>
      negb ((v =? 36) || (v =? 139)) &&
      match pushed s, reported v with Some a, Some b => a =? b | None, None => true | _, _ => false end &&
      eqb (match last_stub v sw_gates with Some _ => true | None => false end) ((128 <=? v) && (v <=? 254))
  | None => (v =? 36) || (v =? 139)
  end.

Lemma gate_flags_present v : Z.testbit (gate_flags_of v) 7 = true.
Proof. unfold gate_flags_of. by destruct ((128 <=? v) && (v <=? 254)). Qed.

Lemma tables_ok v : 0 <= v < 256 -> table_ok v = true.
Proof. apply (all_between_spec 0 256 table_ok). vm_compute. reflexivity. Qed.

Lemma gates_in_range (gates : list (Z * stub)) :
  forallb (fun g => (0 <=? fst g) && (fst g <? 256)) gates = true -> Forall (fun g => 0 <= fst g < 256) gates.
Proof.
  rewrite forallb_forall, Forall_forall. intros H g Hg. specialize (H g).
  rewrite <- list_elem_of_In, andb_true_iff in H. specialize (H Hg). lia.
Qed.

Lemma SetupInterruptDescriptorTable_spec address ta p idt :
  zlen idt = 256 ->
  exists idt', SetupInterruptDescriptorTable address ta p idt = Some (mkpic 255 255, idt', mkIDTP 4095 ta) /\
    zlen idt' = 256 /\
    forall v, 0 <= v < 256 ->
      zget idt' v = match installed v with
                    | Some s => Some (gate_of (address s) (gate_flags_of v))
                    | None => zget idt v
                    end.
Proof.
  intros Hlen. unfold SetupInterruptDescriptorTable, registerExceptions, registerIRQs, registerAPIRQs, registerSWIRQs.
  change (outportb PIC2_DATA 255 p) with (Some (p {{ slave_mask := 255 }})). cbn [mbind option_bind].
  change (outportb PIC1_DATA 255 _) with (Some (mkpic 255 255)). cbn [mbind option_bind].
  unfold IDT_P_KERNEL_INTERRUPT_GATE, IDT_P_USER_INTERRUPT_GATE.
  destruct (set_gates_spec address 0x8E exception_gates idt) as (i1 & -> & L1 & G1);
    [by apply gates_in_range | done | lia |]. cbn [mbind option_bind].
  destruct (set_gates_spec address 0x8E irq_gates i1) as (i2 & -> & L2 & G2);
    [by apply gates_in_range | done | lia |]. cbn [mbind option_bind].
  destruct (set_gates_spec address 0x8E ap_gates i2) as (i3 & -> & L3 & G3);
    [by apply gates_in_range | done | lia |]. cbn [mbind option_bind].
  destruct (set_gates_spec address 0xEE sw_gates i3) as (i4 & -> & L4 & G4);
    [by apply gates_in_range | done | lia |]. cbn [mbind option_bind].
  destruct (set_gates_spec address 0x8E [(255, isr255)] i4) as (i5 & E5 & L5 & G5);
    [by apply gates_in_range | done | lia |].
  unfold set_gates in E5. simpl in E5. rewrite E5. simpl. exists i5. split; [done|]. split; [done|].
  intros v Hv. pose proof (tables_ok v Hv) as Hok. unfold table_ok, installed, gate_flags_of in *. rewrite G5.
  cbn [last_stub foldl] in *. bdestr (v =? 255); [by subst|]. rewrite G4, G3, G2, G1.
  destruct (last_stub v sw_gates).
  - destruct ((128 <=? v) && (v <=? 254)); [done|]. by rewrite andb_false_r in Hok.
  - destruct ((128 <=? v) && (v <=? 254)).
    + destruct (last_stub v ap_gates), (last_stub v irq_gates), (last_stub v exception_gates);
        rewrite ?andb_false_r in Hok; done.
    + by destruct (last_stub v ap_gates), (last_stub v irq_gates), (last_stub v exception_gates).
Qed.

(** C24: the interrupt descriptor table.  [SetupInterruptDescriptorTable] masks
    both PICs and sets every gate but those of the vectors 36 and 139.  A gate
    is present, with the user gate type exactly for the software interrupts, and
    leads to a stub that reports the gate's own vector, except for the three
    groups of vectors next to a repeated or left out stub, where the number is
    off by one. *)
Theorem interrupt_gates address ta p idt :
  (forall s, 0 <= address s < 2 ^ 64) -> zlen idt = 256 ->
  exists idt', SetupInterruptDescriptorTable address ta p idt = Some (mkpic 255 255, idt', mkIDTP 4095 ta) /\
    zget idt' 36 = zget idt 36 /\ zget idt' 139 = zget idt 139 /\
    forall v, 0 <= v < 256 -> v <> 36 -> v <> 139 ->
      exists g s, zget idt' v = Some g /\ gate_present g = true /\ selector g = KERNEL_CODESEG /\
        gate_flags g = gate_flags_of v /\ gate_target g = address s /\ pushed s = reported v.
Proof.
  intros Ha Hlen. destruct (SetupInterruptDescriptorTable_spec address ta p idt Hlen) as (idt' & E & Hl & G).
  exists idt'. split; [done|]. split; [by rewrite G by lia|]. split; [by rewrite G by lia|].
  intros v Hv H1 H2. rewrite G by done. pose proof (tables_ok v Hv) as Hok. unfold table_ok in Hok.
  destruct (installed v) as [s|]; [|rewrite orb_true_iff, !Z.eqb_eq in Hok; lia].
  exists (gate_of (address s) (gate_flags_of v)), s. split; [done|].
  split; [apply gate_flags_present|]. split; [done|]. split; [done|].
  split; [by apply gate_target_of|]. rewrite !andb_true_iff in Hok. destruct Hok as [[_ Hp] _].
  destruct (pushed s), (reported v); try done. f_equal. by apply Z.eqb_eq.
Qed.

Lemma interrupt_gates_witness :
  exists idt', SetupInterruptDescriptorTable (fun s => 0x100000 + 16 * match pushed s with Some n => u8 n | None => 255 end)
      0x9000 (mkpic 0 0) (replicate 256 (mkGate 0 0 0 0 0 0 0)) = Some (mkpic 255 255, idt', mkIDTP 4095 0x9000) /\
    zget idt' 139 = Some (mkGate 0 0 0 0 0 0 0) /\
    exists g s, zget idt' 55 = Some g /\ gate_target g = 0x100000 + 16 * 54 /\ pushed s = Some 54.
Proof.
  destruct (interrupt_gates (fun s => 0x100000 + 16 * match pushed s with Some n => u8 n | None => 255 end)
    0x9000 (mkpic 0 0) (replicate 256 (mkGate 0 0 0 0 0 0 0))) as (idt' & E & _ & H139 & H).
  - intros s. destruct (pushed s) as [n|]; [pose proof (u8_range n)|]; lia.
  - reflexivity.
  - destruct (H 55) as (g & s & Hg & _ & _ & _ & Ht & Hp); [lia | lia | lia |].
    exists idt'. split; [exact E|]. split; [exact H139|]. exists g, s. split; [exact Hg|].
    change (reported 55) with (Some 54) in Hp. rewrite Hp in Ht. split; [exact Ht | exact Hp].
Defined.

Lemma set_mask_byte b l k : 0 <= b < 256 -> 0 <= l < 8 -> 0 <= k < 8 ->
  Z.testbit (u8 (Z.lor b (Z.shiftl 1 l))) k = (k =? l) || Z.testbit b k.
Proof.
  intros Hb Hl Hk. rewrite testbit_u8, Z.lor_spec, testbit_pow2 by lia. bdestr (k <? 8); [|lia]. apply orb_comm.
Qed.

Lemma clear_mask_byte b l k : 0 <= b < 256 -> 0 <= l < 8 -> 0 <= k < 8 ->
  Z.testbit (u8 (Z.land b (Z.lnot (Z.shiftl 1 l)))) k = negb (k =? l) && Z.testbit b k.
Proof.
  intros Hb Hl Hk. rewrite testbit_u8, Z.land_spec, Z.lnot_spec, testbit_pow2 by lia.
  bdestr (k <? 8); [|lia]. cbn [andb]; apply andb_comm.
Qed.

(** The PIC masks.  Setting the mask of one of the 16 lines masks that line
    and no other, clearing it unmasks that line and no other; the registers stay
    bytes; and a line number beyond 15 is ignored. *)
Theorem irq_masks p line :
  pic_ok p -> 0 <= line < 256 ->
  exists p1 p2, IrqSetMask line p = Some p1 /\ IrqClearMask line p = Some p2 /\ pic_ok p1 /\ pic_ok p2 /\
    forall k, 0 <= k < 16 -> masked p1 k = (k =? line) || masked p k /\
                             masked p2 k = negb (k =? line) && masked p k.
Proof.
  intros [H1 H2] Hl. unfold IrqSetMask, IrqClearMask. bdestr (15 <? line).
  { exists p, p. split_and!; try done. intros k Hk. bdestr (k =? line); [lia | done]. }
  unfold masked. bdestr (line <? 8); cbn [inportb mbind option_bind Z.eqb].
  - change (inportb PIC1_DATA p) with (Some (master_mask p)). cbn [mbind option_bind].
    do 2 eexists. split; [reflexivity|]. split; [reflexivity|].
    split; [by split; try apply u8_range|]. split; [by split; try apply u8_range|]. simpl.
    intros k Hk. rewrite !(u8_small (u8 _)) by apply u8_range. bdestr (k <? 8).
    + rewrite set_mask_byte, clear_mask_byte by lia. done.
    + bdestr (k =? line); [lia | done].
  - change (inportb PIC2_DATA p) with (Some (slave_mask p)). cbn [mbind option_bind].
    do 2 eexists. split; [reflexivity|]. split; [reflexivity|].
    split; [by split; try apply u8_range|]. split; [by split; try apply u8_range|]. simpl.
    intros k Hk. rewrite !(u8_small (u8 _)) by apply u8_range. bdestr (k <? 8).
    + bdestr (k =? line); [lia | done].
    + rewrite set_mask_byte, clear_mask_byte by lia.
      assert ((k - 8 =? line - 8) = (k =? line)) as -> by (zcases; lia || done). done.
Qed.

Lemma irq_masks_witness :
  exists p1 p2, IrqSetMask 11 (mkpic 0 0) = Some p1 /\ IrqClearMask 11 (mkpic 255 255) = Some p2 /\
    masked p1 11 = true /\ masked p1 3 = false /\ masked p2 11 = false.
Proof.
  destruct (irq_masks (mkpic 0 0) 11) as (p1 & q1 & E1 & _ & _ & _ & M1); [split; simpl; lia | lia |].
  destruct (irq_masks (mkpic 255 255) 11) as (q2 & p2 & _ & E2 & _ & _ & M2); [split; simpl; lia | lia |].
  exists p1, p2. split; [exact E1|]. split; [exact E2|].
  split; [rewrite (proj1 (M1 11 ltac:(lia))); reflexivity|].
  split; [rewrite (proj1 (M1 3 ltac:(lia))); reflexivity|].
  rewrite (proj2 (M2 11 ltac:(lia))); reflexivity.
Defined.

(** Registering a handler, then an interrupt on some core. *)
Lemma registered_handler_runs {W} (exec : string -> Z -> list core_interrupts * W -> option (list core_interrupts * W))
    m n f core c (cores : list core_interrupts) w :
  zlen (interruptHandlers m) = 256 -> 0 <= n < 256 -> n <> 14 -> 0 <= core < 256 ->
  zget cores core = Some c -> zlen (fired_interrupts c) = 256 ->
  exists m' marked, RegisterInterrupt (m {{ p_interruptNumber := n; p_interruptHandler := Some f }}) = Some (m', true) /\
    zget marked core = Some (mkCore (<[Z.to_nat n := 1]> (fired_interrupts c)) (eoi_count c)) /\
    IdtHandler exec core m' n cores w =
      (x ← exec f n (marked, w);
       cores ← zupd (fst x) core (fun c => c {{ eoi_count := eoi_count c + 1 }}); Some (cores, snd x)).
Proof.
  intros Hlen Hn H14 Hc Hg Hf. unfold RegisterInterrupt. simpl. rewrite u8_small by lia.
  rewrite zset_eq by lia. simpl.
  destruct (zset cores core (mkCore (<[Z.to_nat n := 1]> (fired_interrupts c)) (eoi_count c))) as [marked|] eqn:Em.
  - eexists _, marked. split; [reflexivity|]. split; [by eapply zget_zset_eq|].
    unfold IdtHandler, ServiceInterrupt. rewrite !u8_small by lia. bdestr (n =? 14); [lia|].
    rewrite Hg. simpl. rewrite zset_eq by lia. simpl. rewrite Em. simpl.
    erewrite zget_zset_eq; [|apply zset_eq; lia]. simpl.
    destruct (exec f n (marked, w)) as [[cores' w']|]; done.
  - exfalso. unfold zget in Hg. bdestr (0 <=? core); [|done]. apply lookup_lt_Some in Hg.
    unfold zset in Em. bdestr ((0 <=? core) && (core <? Z.of_nat (length cores))); [done|].
    apply andb_false_iff in Hb0. lia.
Qed.
