(* ===== verification/Segments.v ===== *)
(** * Segment descriptors: [sources/memory/GlobalDescriptorTable.c],
    [sources/memory/GlobalDescriptorTableEntry.c] and [sources/memory/TSSDescriptor.c],
    and the selectors of [sources/kernel/Kernel.c]

    A descriptor is a packed structure of bit fields.  [encode_entry] and
    [encode_tss] lay the fields out as the compiler does, first field in the
    lowest bits, so the two views of entries 5 and 6 of the table (as entries and
    as a TSS descriptor) share their words. *)

From S2P Require Import Prelude Defines.

#[local] Open Scope Z_scope.

Definition AR_PRESENT : Z := Z.shiftl 1 7.
Definition AR_DATA : Z := Z.shiftl 2 3.
Definition AR_CODE : Z := Z.shiftl 3 3.
Definition AR_WRITABLE : Z := Z.shiftl 1 1.
Definition AR_READABLE : Z := Z.shiftl 1 1.
Definition AR_TSS : Z := 0x09.
Definition PL_KERNEL : Z := 0.
Definition PL_USER : Z := 3.
Definition DPL_KERNEL : Z := Z.shiftl PL_KERNEL 5.
Definition DPL_USER : Z := Z.shiftl PL_USER 5.
Definition GDT_SIZE : Z := 7.
Definition TSS_BASIC_SIZE : Z := 104.

(** Assignment to a bit field of [n] bits. *)
Definition bits (n x : Z) : Z := Z.land x (Z.ones n).

Record GlobalDescriptorTableEntry := mkEntry {
  limit_0_15 : Z;
  base_0_15 : Z;
  base_16_23 : Z;
  access : Z;
  limit_16_19 : Z;
  available : Z;
  longmode : Z;
  special : Z;
  granularity : Z;
  base_24_31 : Z
}.

#[export] Instance eta_entry : Eta GlobalDescriptorTableEntry :=
  fun r => mkEntry (limit_0_15 r) (base_0_15 r) (base_16_23 r) (access r) (limit_16_19 r) (available r)
    (longmode r) (special r) (granularity r) (base_24_31 r).

Definition setGlobalDescriptorTableEntry (p_limit_0_15 p_base_0_15 p_base_16_23 p_access p_limit_16_19
    p_available p_longmode p_special p_granularity p_base_24_31 : Z) : GlobalDescriptorTableEntry :=
  mkEntry (bits 16 (u16 p_limit_0_15)) (bits 16 (u16 p_base_0_15)) (bits 8 (u8 p_base_16_23))
    (bits 8 (u8 p_access)) (bits 4 (u8 p_limit_16_19)) (bits 1 (u8 p_available)) (bits 1 (u8 p_longmode))
    (bits 1 (u8 p_special)) (bits 1 (u8 p_granularity)) (bits 8 (u8 p_base_24_31)).

(** A word from its fields, lowest first, each with its width. *)
Fixpoint pack (fields : list (Z * Z)) : Z :=
  match fields with
  | [] => 0
  | (w, x) :: fields => x + 2 ^ w * pack fields
  end.

Definition encode_entry (e : GlobalDescriptorTableEntry) : Z :=
  pack [(16, limit_0_15 e); (16, base_0_15 e); (8, base_16_23 e); (8, access e); (4, limit_16_19 e);
        (1, available e); (1, longmode e); (1, special e); (1, granularity e); (8, base_24_31 e)].

(** The unnamed fields keep what the memory held. *)
Record TSSDescriptor := mkTSSDescriptor {
  tss_limit_0_15 : Z;
  tss_base_0_15 : Z;
  tss_base_16_23 : Z;
  type : Z;
  unnamed1 : Z;
  dpl : Z;
  present : Z;
  tss_limit_16_19 : Z;
  tss_available : Z;
  unnamed2 : Z;
  tss_granularity : Z;
  tss_base_24_31 : Z;
  base_32_63 : Z;
  unnamed3 : Z
}.

#[export] Instance eta_tssd : Eta TSSDescriptor :=
  fun r => mkTSSDescriptor (tss_limit_0_15 r) (tss_base_0_15 r) (tss_base_16_23 r) (type r) (unnamed1 r)
    (dpl r) (present r) (tss_limit_16_19 r) (tss_available r) (unnamed2 r) (tss_granularity r)
    (tss_base_24_31 r) (base_32_63 r) (unnamed3 r).

Definition setTSSDescriptorLimit (d : TSSDescriptor) (p_limit : Z) : TSSDescriptor :=
  d {{ tss_limit_0_15 := bits 16 (Z.land p_limit 0xffff);
       tss_limit_16_19 := bits 4 (Z.land (Z.shiftr p_limit 16) 0x0f) }}.

Definition setTSSDescriptorBase (d : TSSDescriptor) (p_base : Z) : TSSDescriptor :=
  d {{ tss_base_0_15 := bits 16 (Z.land p_base 0xffff);
       tss_base_16_23 := bits 8 (Z.land (Z.shiftr p_base 16) 0xff);
       tss_base_24_31 := bits 8 (Z.land (Z.shiftr p_base 24) 0xff);
       base_32_63 := bits 32 (Z.shiftr p_base 32) }}.

Definition initializeTSSDescriptor (d : TSSDescriptor) (p_base p_limit p_type p_present p_dpl : Z) : TSSDescriptor :=
  let d := setTSSDescriptorBase d p_base in
  let d := setTSSDescriptorLimit d p_limit in
  d {{ type := bits 4 p_type; present := bits 1 p_present; dpl := bits 2 p_dpl; tss_available := 1 }}.

Definition encode_tss (d : TSSDescriptor) : Z * Z :=
  (pack [(16, tss_limit_0_15 d); (16, tss_base_0_15 d); (8, tss_base_16_23 d); (4, type d); (1, unnamed1 d);
         (2, dpl d); (1, present d); (4, tss_limit_16_19 d); (1, tss_available d); (2, unnamed2 d);
         (1, tss_granularity d); (8, tss_base_24_31 d)],
   pack [(32, base_32_63 d); (32, unnamed3 d)]).

(** The bit field of [w] bits from bit [k] of a word. *)
Definition field (word k w : Z) : Z := (word / 2 ^ k) mod 2 ^ w.

Definition decode_tss (lo hi : Z) : TSSDescriptor :=
  mkTSSDescriptor (field lo 0 16) (field lo 16 16) (field lo 32 8) (field lo 40 4) (field lo 44 1)
    (field lo 45 2) (field lo 47 1) (field lo 48 4) (field lo 52 1) (field lo 53 2) (field lo 55 1)
    (field lo 56 8) (field hi 0 32) (field hi 32 32).

(** ** The table of a core *)

Record TSSEntry := mkTSSEntry {
  rsp0 : Z;
  rsp1 : Z;
  rsp2 : Z;
  ists : list Z;
  reserves : list Z;
  iomap_base : Z;
  iomap : list Z
}.

#[export] Instance eta_tss : Eta TSSEntry :=
  fun r => mkTSSEntry (rsp0 r) (rsp1 r) (rsp2 r) (ists r) (reserves r) (iomap_base r) (iomap r).

Definition zero_tss : TSSEntry :=
  mkTSSEntry 0 0 0 (replicate 7 0) (replicate 4 0) 0 (replicate 8193 0).

#[local] Arguments zero_tss : simpl never.

(** The entries as the words they occupy, and the pointer structure, whose base
    has 32 bits. *)
Record GlobalDescriptorTable := mkGDT {
  globalDescriptorTableEntries : list Z;
  tssDescriptor : Z;
  tssEntry : TSSEntry
}.

#[export] Instance eta_gdt : Eta GlobalDescriptorTable :=
  fun r => mkGDT (globalDescriptorTableEntries r) (tssDescriptor r) (tssEntry r).

Record GlobalDescriptorTablePointer := mkGDTP { gdt_limit : Z; gdt_base : Z }.

Definition set_entry (i : Z) (e : GlobalDescriptorTableEntry) (g : GlobalDescriptorTable) : option GlobalDescriptorTable :=
  entries ← zset (globalDescriptorTableEntries g) i (encode_entry e);
  Some (g {{ globalDescriptorTableEntries := entries }}).

(** [table_address] and [tss_address] are the addresses of the two members of
    [kernel.globalDescriptorTable[apic_id]], [kstack_ptr] the core's stack. *)
Definition initGlobalDescriptorTable (table_address tss_address kstack_ptr : Z) (g : GlobalDescriptorTable)
  : option (GlobalDescriptorTablePointer * GlobalDescriptorTable) :=
  let ptr := mkGDTP (u16 (8 * GDT_SIZE - 1)) (u32 table_address) in
  let g := g {{ globalDescriptorTableEntries := replicate (Z.to_nat GDT_SIZE) 0 }} in
  g ← set_entry 0 (setGlobalDescriptorTableEntry 0 0 0 0 0 0 0 0 0 0) g;
  g ← set_entry 1 (setGlobalDescriptorTableEntry 0xffff 0 0
        (Z.lor (Z.lor (Z.lor AR_PRESENT AR_CODE) DPL_KERNEL) AR_READABLE) 0x0f 0 1 0 1 0) g;
  g ← set_entry 2 (setGlobalDescriptorTableEntry 0xffff 0 0
        (Z.lor (Z.lor (Z.lor AR_PRESENT AR_DATA) DPL_KERNEL) AR_WRITABLE) 0x0f 0 0 1 1 0) g;
  g ← set_entry 3 (setGlobalDescriptorTableEntry 0xffff 0 0
        (Z.lor (Z.lor (Z.lor AR_PRESENT AR_CODE) DPL_USER) AR_READABLE) 0x0f 0 1 0 1 0) g;
  g ← set_entry 4 (setGlobalDescriptorTableEntry 0xffff 0 0
        (Z.lor (Z.lor (Z.lor AR_PRESENT AR_DATA) DPL_USER) AR_READABLE) 0x0f 0 0 1 1 0) g;
  g ← set_entry 5 (setGlobalDescriptorTableEntry 0 0 0 0 0 0 0 0 0 0) g;
  g ← set_entry 6 (setGlobalDescriptorTableEntry 0 0 0 0 0 0 0 0 0 0) g;
  let g := g {{ tssDescriptor := u64 (table_address + 5 * 8); tssEntry := zero_tss }} in
  lo ← zget (globalDescriptorTableEntries g) 5;
  hi ← zget (globalDescriptorTableEntries g) 6;
  let d := initializeTSSDescriptor (decode_tss lo hi) tss_address (TSS_BASIC_SIZE - 1) AR_TSS 1 PL_KERNEL in
  entries ← zset (globalDescriptorTableEntries g) 5 (fst (encode_tss d));
  entries ← zset entries 6 (snd (encode_tss d));
  Some (ptr, g {{ globalDescriptorTableEntries := entries; tssEntry := (tssEntry g) {{ rsp0 := kstack_ptr }} }}).

(** ** Entering user mode: [switchToUserMode] of [kernel/Kernel.c]

    Interrupts are disabled, the data selectors loaded, and [iretq] takes what was
    pushed, last first: the address of the next instruction, its code selector, the
    flags, the stack and its selector. *)
Record UserMode := mkUserMode {
  data_selectors : Z;
  user_rip : Z;
  user_cs : Z;
  user_rflags : Z;
  user_rsp : Z;
  user_ss : Z
}.

Definition switchToUserMode (next rsp rflags : Z) : UserMode :=
  mkUserMode 0x23 next 0x1B (Z.lor (Z.clearbit rflags 9) 0x200) rsp 0x23.

(** ** Lemmas *)

Lemma bits_mod n x : 0 <= n -> bits n x = x mod 2 ^ n.
Proof. intros. unfold bits. by rewrite Z.land_ones. Qed.

(** The base and limit the processor reads from a 16-byte descriptor. *)
Definition system_base (lo hi : Z) : Z := field lo 16 24 + 2 ^ 24 * field lo 56 8 + 2 ^ 32 * field hi 0 32.
Definition system_limit (lo : Z) : Z := field lo 0 16 + 2 ^ 16 * field lo 48 4.

(** The descriptor of a TSS over zeroed memory, as its two words. *)
Lemma tss_words tss :
  0 <= tss < 2 ^ 64 ->
  encode_tss (initializeTSSDescriptor (decode_tss 0 0) tss 103 9 1 0) =
    (103 + 2 ^ 16 * (tss mod 2 ^ 24) + 2 ^ 40 * (0x89 + 2 ^ 12 * 1 + 2 ^ 16 * ((tss / 2 ^ 24) mod 2 ^ 8)),
     tss / 2 ^ 32).
Proof.
  intros Ht. change (decode_tss 0 0) with (mkTSSDescriptor 0 0 0 0 0 0 0 0 0 0 0 0 0 0).
  cbv -[Z.add Z.mul Z.div Z.modulo Z.pow bits Z.land Z.shiftr Z.sub].
  rewrite !bits_mod by lia. change 65535 with (Z.ones 16). change 255 with (Z.ones 8). change 15 with (Z.ones 4).
  rewrite !Z.land_ones, !Z.shiftr_div_pow2 by lia. f_equal; zdiv.
Qed.

(** * Properties *)

(** The descriptor table of a core.  [initGlobalDescriptorTable] leaves the
    null entry, flat 64-bit code and data segments for the kernel and for users,
    and a present TSS descriptor from which the processor reads back the full
    64-bit address of the TSS and the limit 103, whose kernel stack is the
    core's. *)
Theorem gdt_layout ta tss k g :
  0 <= tss < 2 ^ 64 ->
  exists ptr g' lo hi, initGlobalDescriptorTable ta tss k g = Some (ptr, g') /\
    globalDescriptorTableEntries g' =
      [0; 0x00AF9A000000FFFF; 0x00CF92000000FFFF; 0x00AFFA000000FFFF; 0x00CFF2000000FFFF; lo; hi] /\
    system_base lo hi = tss /\ system_limit lo = 103 /\
    field lo 40 8 = 0x89 /\ field lo 52 4 = 1 /\ hi < 2 ^ 32 /\ rsp0 (tssEntry g') = k /\ gdt_limit ptr = 55.
Proof.
  intros Ht.
  set (w := encode_tss (initializeTSSDescriptor (decode_tss 0 0) tss 103 9 1 0)).
  assert (initGlobalDescriptorTable ta tss k g =
    Some (mkGDTP 55 (u32 ta),
          mkGDT [0; 0x00AF9A000000FFFF; 0x00CF92000000FFFF; 0x00AFFA000000FFFF; 0x00CFF2000000FFFF; fst w; snd w]
            (u64 (ta + 5 * 8)) (zero_tss {{ rsp0 := k }}))) as -> by reflexivity.
  unfold w. rewrite tss_words by done. do 4 eexists. split; [reflexivity|]. split; [reflexivity|].
  unfold system_base, system_limit, field. cbn [fst snd tssEntry rsp0 gdt_limit].
  split_and!; try reflexivity; zdiv.
Qed.

Lemma gdt_layout_witness :
  exists ptr g', initGlobalDescriptorTable 0x500000 0xFFFF800012345678 0x777000 (mkGDT [] 0 zero_tss) = Some (ptr, g') /\
    rsp0 (tssEntry g') = 0x777000.
Proof.
  destruct (gdt_layout 0x500000 0xFFFF800012345678 0x777000 (mkGDT [] 0 zero_tss)) as (ptr & g' & lo & hi & E & _ & _ & _ & _ & _ & _ & R & _).
  - lia.
  - exists ptr, g'. split; [exact E | exact R].
Defined.

(** The descriptor a selector names, its privilege and whether it holds code. *)
Definition descriptor (g : GlobalDescriptorTable) (selector : Z) : option Z := zget (globalDescriptorTableEntries g) (selector / 8).
Definition privilege (word : Z) : Z := field word 45 2.
Definition executable (word : Z) : bool := Z.testbit word 43.

(** User mode.  With the table of [initGlobalDescriptorTable] the two selectors of [switchToUserMode] name a code and
    a data segment of privilege 3, with which they are requested; interrupts are enabled, and every other flag,
    the stack pointer and the place to continue are kept. *)
Theorem user_mode_entered ta tss k g next rsp rflags ptr g' :
  initGlobalDescriptorTable ta tss k g = Some (ptr, g') ->
  let u := switchToUserMode next rsp rflags in
  (exists code data, descriptor g' (user_cs u) = Some code /\ executable code = true /\ privilege code = PL_USER /\
     descriptor g' (user_ss u) = Some data /\ executable data = false /\ privilege data = PL_USER) /\
  data_selectors u = user_ss u /\ user_cs u mod 4 = PL_USER /\ user_ss u mod 4 = PL_USER /\
  Z.testbit (user_rflags u) 9 = true /\ (forall b, b <> 9 -> Z.testbit (user_rflags u) b = Z.testbit rflags b) /\
  user_rsp u = rsp /\ user_rip u = next.
Proof.
  set (w := encode_tss (initializeTSSDescriptor (decode_tss 0 0) tss 103 9 1 0)).
  change (initGlobalDescriptorTable ta tss k g) with (Some (mkGDTP 55 (u32 ta),
    mkGDT [0; 0x00AF9A000000FFFF; 0x00CF92000000FFFF; 0x00AFFA000000FFFF; 0x00CFF2000000FFFF; fst w; snd w]
      (u64 (ta + 5 * 8)) (zero_tss {{ rsp0 := k }}))).
  intros E u. apply (inj Some), pair_equal_spec in E. destruct E as [<- <-].
  split; [by do 2 eexists|]. do 3 (split; [reflexivity|]).
  assert (forall b, Z.testbit 0x200 b = (b =? 9)) as H9 by (intros b; rewrite (Z.eqb_sym b); exact (Z.pow2_bits_eqb 9 b ltac:(lia))).
  split; [|split; [|done]]; cbn [u switchToUserMode user_rflags].
  - by rewrite Z.lor_spec, H9, orb_true_r.
  - intros b Hb. rewrite Z.lor_spec, H9, Z.clearbit_neq by lia. bdestr (b =? 9); [done|]. by rewrite orb_false_r.
Qed.

Lemma user_mode_entered_witness : exists ptr g',
  initGlobalDescriptorTable 0x500000 0x600000 0x777000 (mkGDT [] 0 zero_tss) = Some (ptr, g') /\
  Z.testbit (user_rflags (switchToUserMode 0x100000 0x777000 2)) 9 = true.
Proof.
  eexists _, _. split; [reflexivity|].
  eapply (user_mode_entered 0x500000 0x600000 0x777000 (mkGDT [] 0 zero_tss) 0x100000 0x777000 2). reflexivity.
Defined.
