(* ===== verification/FastMem.v ===== *)
(** * Bytes of memory: [sources/misc/memcpy.c] and [sources/misc/memswap.c]

    Memory is a function from addresses to bytes.  The 256 routines the tables
    point to are assembly that copies, or exchanges, as many bytes as their name
    says with the widest moves that fit and returns that number; for blocks that
    do not overlap this is [write_bytes] of [read_bytes]. *)

From S2P Require Import Prelude.

#[local] Open Scope Z_scope.

Definition memory : Type := Z -> Z.

Definition read_bytes (mem : memory) (a n : Z) : list Z := map mem (seqZ a n).

(** The characters [s] and a terminator lie at [p]. *)
Definition cstring (mem : memory) (p : Z) (s : list Z) : Prop :=
  read_bytes mem p (zlen s) = s /\ mem (p + zlen s) = 0 /\ Forall (fun c => 0 < c < 256) s.

Definition write_bytes (mem : memory) (a : Z) (l : list Z) : memory :=
  fun b => match zget l (b - a) with Some v => v | None => mem b end.

(** Little-endian integers of [n] bytes. *)
Fixpoint le_bytes (n : nat) (v : Z) : list Z :=
  match n with O => [] | S n => v mod 256 :: le_bytes n (v / 256) end.

Fixpoint le_value (l : list Z) : Z :=
  match l with [] => 0 | b :: l => b + 256 * le_value l end.

Definition get (n : nat) (mem : memory) (a : Z) : Z := le_value (read_bytes mem a (Z.of_nat n)).
Definition put (n : nat) (mem : memory) (a v : Z) : memory := write_bytes mem a (le_bytes n v).

(** What the routine of [n] bytes does to memory, and what it returns. *)
Definition fast_memcpy_n (n : Z) (mem : memory) (dest src : Z) : memory * Z :=
  (write_bytes mem dest (read_bytes mem src n), n).

Definition fast_memswap_n (n : Z) (mem : memory) (dest src : Z) : memory * Z :=
  (write_bytes (write_bytes mem src (read_bytes mem dest n)) dest (read_bytes mem src n), n).

(** The tables: the number of bytes of the routine in each slot. *)
Definition init_fast_memcpy_handlers : list Z := 256 :: seqZ 1 255.
Definition init_fast_memswap_handlers : list Z := 256 :: seqZ 1 255.

(** [ab] and [b] are 64- and 16-bit here. *)
Fixpoint fast_memcpy_loop (fuel : nat) (handlers : list Z) (mem : memory) (dest src ab l : Z) : option memory :=
  if l =? 0 then Some mem
  else match fuel with
  | O => None
  | S fuel =>
      n ← zget handlers (u8 l);
      let '(mem, b) := fast_memcpy_n n mem (dest + ab) (src + ab) in
      let b := u16 b in
      fast_memcpy_loop fuel handlers mem dest src (u64 (ab + b)) (u64 (l - b))
  end.

(** The number of rounds: a first one that leaves a multiple of 256, then one for each 256 bytes. *)
Definition rounds (l : Z) : nat := Z.to_nat ((l + 255) / 256).

Definition fast_memcpy (mem : memory) (dest src l : Z) : option memory :=
  fast_memcpy_loop (rounds l) init_fast_memcpy_handlers mem dest src 0 l.

(** Here [ab] has 16 bits. *)
Fixpoint fast_memswap_loop (fuel : nat) (handlers : list Z) (mem : memory) (dest src ab l : Z) : option memory :=
  if l =? 0 then Some mem
  else match fuel with
  | O => None
  | S fuel =>
      n ← zget handlers (u8 l);
      let '(mem, b) := fast_memswap_n n mem (dest + ab) (src + ab) in
      let b := u16 b in
      fast_memswap_loop fuel handlers mem dest src (u16 (ab + b)) (u64 (l - b))
  end.

Definition fast_memswap (mem : memory) (dest src l : Z) : option memory :=
  fast_memswap_loop (rounds l) init_fast_memswap_handlers mem dest src 0 l.

(** ** Lemmas *)

Lemma zlen_read mem a n : 0 <= n -> zlen (read_bytes mem a n) = n.
Proof. intros. unfold zlen, read_bytes. rewrite length_map, length_seqZ. lia. Qed.

Lemma length_le_bytes n v : length (le_bytes n v) = n.
Proof. revert v. induction n as [|n IH]; intros v; simpl; [done | by rewrite IH]. Qed.

Lemma le_value_bytes n v : 0 <= v < 2 ^ (8 * Z.of_nat n) -> le_value (le_bytes n v) = v.
Proof.
  revert v. induction n as [|n IH]; intros v Hv; cbn [le_bytes le_value]; [simpl in Hv; lia|].
  rewrite Nat2Z.inj_succ, Z.mul_succ_r, Z.pow_add_r in Hv by lia. change (2 ^ 8) with 256 in Hv.
  rewrite IH; [|split; [zdiv | apply Z.div_lt_upper_bound; lia]]. zdiv.
Qed.

Lemma zget_read mem a n i : zget (read_bytes mem a n) i =
  if (0 <=? i) && (i <? n) then Some (mem (a + i)) else None.
Proof.
  unfold zget, read_bytes. zcases; simpl; try done.
  - rewrite list_lookup_fmap, lookup_seqZ_lt by lia. simpl. do 2 f_equal. lia.
  - rewrite list_lookup_fmap, lookup_seqZ_ge by lia. done.
Qed.

Lemma write_read mem mem' d s n b :
  write_bytes mem d (read_bytes mem' s n) b =
    if (d <=? b) && (b <? d + n) then mem' (s + (b - d)) else mem b.
Proof. unfold write_bytes. rewrite zget_read. zcases; lia || done. Qed.

Lemma write_bytes_out mem a l b : b < a \/ a + zlen l <= b -> write_bytes mem a l b = mem b.
Proof.
  intros H. unfold write_bytes, zget. bdestr (0 <=? b - a); [|done].
  rewrite lookup_ge_None_2; [done | unfold zlen in H; lia].
Qed.

Lemma write_bytes_app mem a l l' b :
  write_bytes mem a (l ++ l') b = write_bytes (write_bytes mem a l) (a + zlen l) l' b.
Proof.
  unfold write_bytes, zget, zlen. bdestr (0 <=? b - a); cycle 1.
  - bdestr (0 <=? b - (a + Z.of_nat (length l))); [lia | done].
  - destruct (decide (b - a < Z.of_nat (length l))).
    + rewrite lookup_app_l by lia. bdestr (0 <=? b - (a + Z.of_nat (length l))); [lia|]. done.
    + rewrite lookup_app_r by lia. bdestr (0 <=? b - (a + Z.of_nat (length l))); [|lia].
      replace (Z.to_nat (b - (a + Z.of_nat (length l)))) with (Z.to_nat (b - a) - length l)%nat by lia.
      destruct (l' !! _); [done|]. by rewrite lookup_ge_None_2 by lia.
Qed.

Lemma write_bytes_ext mem mem' a l b : mem b = mem' b -> write_bytes mem a l b = write_bytes mem' a l b.
Proof. unfold write_bytes. by destruct (zget l (b - a)). Qed.

Lemma get_ext n mem mem' a : (forall b, a <= b < a + Z.of_nat n -> mem b = mem' b) -> get n mem a = get n mem' a.
Proof.
  intros H. unfold get, read_bytes. f_equal. apply map_ext_in. intros b Hb%list_elem_of_In%elem_of_seqZ. apply H. lia.
Qed.

Lemma read_write_same mem a l : read_bytes (write_bytes mem a l) a (zlen l) = l.
Proof.
  apply list_eq. intros i. unfold read_bytes, zlen. rewrite list_lookup_fmap.
  destruct (decide (i < length l)%nat) as [Hi|Hi].
  - rewrite lookup_seqZ_lt by lia. simpl. unfold write_bytes, zget.
    bdestr (0 <=? a + Z.of_nat i - a); [|lia]. replace (Z.to_nat (a + Z.of_nat i - a)) with i by lia.
    destruct (lookup_lt_is_Some_2 l i Hi) as [x ->]. done.
  - rewrite lookup_seqZ_ge by lia. rewrite lookup_ge_None_2 by lia. done.
Qed.

Lemma read_bytes_app mem a n m : 0 <= n -> 0 <= m -> read_bytes mem a (n + m) = read_bytes mem a n ++ read_bytes mem (a + n) m.
Proof. intros. unfold read_bytes. rewrite seqZ_app, map_app by lia. do 3 f_equal. Qed.

Lemma read_ext mem mem' a n : (forall b, a <= b < a + n -> mem b = mem' b) -> read_bytes mem a n = read_bytes mem' a n.
Proof.
  intros H. apply zget_ext; [unfold read_bytes; by rewrite !length_map|].
  intros i _. rewrite !zget_read. zcases; try done. f_equal. apply H. lia.
Qed.

Lemma read_bytes_equal mem a b n : (forall k, 0 <= k < n -> mem (a + k) = mem (b + k)) -> read_bytes mem a n = read_bytes mem b n.
Proof.
  intros H. apply zget_ext.
  - unfold read_bytes. by rewrite !length_map, !length_seqZ.
  - intros i Hi. rewrite !zget_read. destruct ((0 <=? i) && (i <? n)) eqn:E; [|done].
    rewrite andb_true_iff, Z.leb_le, Z.ltb_lt in E. by rewrite H.
Qed.

Lemma read_bytes_at mem a n l k : read_bytes mem a n = l -> 0 <= k < n -> zget l k = Some (mem (a + k)).
Proof. intros <- Hk. rewrite zget_read. replace ((0 <=? k) && (k <? n)) with true; [done | symmetry; apply andb_true_iff; lia]. Qed.

Lemma read_out mem a l b n : b + n <= a \/ a + zlen l <= b -> read_bytes (write_bytes mem a l) b n = read_bytes mem b n.
Proof. intros H. apply read_ext. intros c Hc. apply write_bytes_out. lia. Qed.

Lemma read_write_n mem a l n : zlen l = n -> read_bytes (write_bytes mem a l) a n = l.
Proof. intros <-. apply read_write_same. Qed.

Lemma get_put n mem a v : 0 <= v < 2 ^ (8 * Z.of_nat n) -> get n (put n mem a v) a = v.
Proof.
  intros Hv. unfold get, put. pose proof (read_write_same mem a (le_bytes n v)) as E.
  unfold zlen in E. rewrite length_le_bytes in E. rewrite E. by apply le_value_bytes.
Qed.

Lemma put_out n mem a v b : b < a \/ a + Z.of_nat n <= b -> put n mem a v b = mem b.
Proof. intros H. apply write_bytes_out. unfold zlen. rewrite length_le_bytes. lia. Qed.

Lemma range_true {A} x b y (p q : A) : x <= b < y -> (if (x <=? b) && (b <? y) then p else q) = p.
Proof. intros. zcases; lia || done. Qed.

Lemma range_false {A} x b y (p q : A) : b < x \/ y <= b -> (if (x <=? b) && (b <? y) then p else q) = q.
Proof. intros. zcases; lia || done. Qed.

(** Decide the block tests of the goal from the hypotheses. *)
Ltac ranges :=
  repeat match goal with |- context [if (?x <=? ?b) && (?b <? ?y) then ?p else ?q] =>
    first [rewrite (range_true x b y p q) by lia | rewrite (range_false x b y p q) by lia]
  end.

Lemma handler_size l : 0 < l -> zget init_fast_memcpy_handlers (u8 l) = Some (if l mod 256 =? 0 then 256 else l mod 256).
Proof.
  intros Hl. change (u8 l) with (l mod 256).
  pose proof (all_between_spec 0 256 (fun i => match zget init_fast_memcpy_handlers i with
    | Some n => n =? (if i =? 0 then 256 else i) | None => false end) (l mod 256) eq_refl ltac:(zdiv)) as H.
  simpl in H. destruct (zget _ _); [|done]. apply Z.eqb_eq in H. by subst.
Qed.

(** The bytes that a round handles. *)
Definition chunk (l : Z) : Z := if l mod 256 =? 0 then 256 else l mod 256.

Lemma chunk_range l : 0 < l -> 1 <= chunk l <= 256 /\ chunk l <= l /\ (l - chunk l) mod 256 = 0 /\
  rounds l = S (rounds (l - chunk l)).
Proof. intros Hl. unfold chunk, rounds. bdestr (l mod 256 =? 0); zdiv. Qed.

Lemma fast_memcpy_loop_spec n : forall mem dest src ab l,
  rounds l = n -> 0 <= ab -> 0 <= l -> ab + l < 2 ^ 64 ->
  dest + ab + l <= src + ab \/ src + ab + l <= dest + ab ->
  exists mem', fast_memcpy_loop n init_fast_memcpy_handlers mem dest src ab l = Some mem' /\
    forall b, mem' b = if (dest + ab <=? b) && (b <? dest + ab + l) then mem (src + (b - dest)) else mem b.
Proof.
  induction n as [|n IH]; intros mem dest src ab l Hr Hab Hl Htop Hov.
  - assert (l = 0) as -> by (unfold rounds in Hr; zdiv). exists mem. split; [done|]. intros b. zcases; lia || done.
  - assert (0 < l) as Hpos by (unfold rounds in Hr; zdiv).
    destruct (chunk_range l Hpos) as (C1 & C2 & C3 & C4). cbn [fast_memcpy_loop].
    bdestr (l =? 0); [lia|]. rewrite handler_size by done. fold (chunk l). cbn [mbind option_bind fast_memcpy_n].
    rewrite (u16_small (chunk l)), !u64_small by lia.
    destruct (IH (write_bytes mem (dest + ab) (read_bytes mem (src + ab) (chunk l))) dest src (ab + chunk l) (l - chunk l))
      as (mem' & -> & Hm); [rewrite C4 in Hr; by injection Hr | lia | lia | lia | lia |].
    exists mem'. split; [done|]. intros b. rewrite Hm, !write_read. zcases; try lia; f_equal; lia.
Qed.

Lemma fast_memcpy_run mem dest src l :
  0 <= l < 2 ^ 64 -> dest + l <= src \/ src + l <= dest ->
  exists mem', fast_memcpy mem dest src l = Some mem' /\ forall b, mem' b = write_bytes mem dest (read_bytes mem src l) b.
Proof.
  intros Hl Hov. destruct (fast_memcpy_loop_spec (rounds l) mem dest src 0 l)
    as (mem' & E & H); [done | lia | lia | lia | lia |].
  exists mem'. split; [exact E|]. intros b. rewrite H, write_read. zcases; lia || done.
Qed.

Lemma fast_memswap_loop_spec n : forall mem dest src ab l,
  rounds l = n -> 0 <= ab -> 0 <= l -> ab + l <= 65535 ->
  dest + ab + l <= src + ab \/ src + ab + l <= dest + ab ->
  exists mem', fast_memswap_loop n init_fast_memswap_handlers mem dest src ab l = Some mem' /\
    forall b, mem' b = if (dest + ab <=? b) && (b <? dest + ab + l) then mem (src + (b - dest))
                       else if (src + ab <=? b) && (b <? src + ab + l) then mem (dest + (b - src)) else mem b.
Proof.
  induction n as [|n IH]; intros mem dest src ab l Hr Hab Hl Htop Hov.
  - assert (l = 0) as -> by (unfold rounds in Hr; zdiv). exists mem. split; [done|]. intros b. zcases; lia || done.
  - assert (0 < l) as Hpos by (unfold rounds in Hr; zdiv).
    destruct (chunk_range l Hpos) as (C1 & C2 & C3 & C4). cbn [fast_memswap_loop].
    bdestr (l =? 0); [lia|]. change init_fast_memswap_handlers with init_fast_memcpy_handlers in *.
    rewrite handler_size by done. fold (chunk l). cbn [mbind option_bind fast_memswap_n].
    rewrite (u16_small (chunk l)), (u16_small (ab + chunk l)), u64_small by lia.
    edestruct (IH (write_bytes (write_bytes mem (src + ab) (read_bytes mem (dest + ab) (chunk l))) (dest + ab)
      (read_bytes mem (src + ab) (chunk l))) dest src (ab + chunk l) (l - chunk l))
      as (mem' & -> & Hm); [rewrite C4 in Hr; by injection Hr | lia | lia | lia | lia |].
    exists mem'. split; [done|]. intros b. rewrite Hm, !write_read.
    assert (dest + ab <= b < dest + ab + chunk l \/ dest + ab + chunk l <= b < dest + ab + l \/
      src + ab <= b < src + ab + chunk l \/ src + ab + chunk l <= b < src + ab + l \/
      (b < dest + ab \/ dest + ab + l <= b) /\ (b < src + ab \/ src + ab + l <= b)) as Hw by lia.
    destruct Hw as [Hw|[Hw|[Hw|[Hw|Hw]]]]; ranges; try done; f_equal; lia.
Qed.

(** * Properties *)

(** C27: the table driven copy.  For two blocks that do not overlap,
    [fast_memcpy] ends and copies exactly the [l] bytes, whatever [l] is. *)
Theorem fast_memcpy_copies mem dest src l :
  0 <= l < 2 ^ 64 -> dest + l <= src \/ src + l <= dest ->
  exists mem', fast_memcpy mem dest src l = Some mem' /\
    (forall i, 0 <= i < l -> mem' (dest + i) = mem (src + i)) /\
    forall b, ~ (dest <= b < dest + l) -> mem' b = mem b.
Proof.
  intros Hl Hov. destruct (fast_memcpy_loop_spec (rounds l) mem dest src 0 l) as (mem' & E & H);
    [done | lia | lia | lia | lia |].
  exists mem'. split; [done|]. split; intros i Hi; rewrite H; zcases; try lia; try done. f_equal. lia.
Qed.

Lemma fast_memcpy_copies_witness :
  exists mem', fast_memcpy (fun a => a mod 256) 5000 1000 1027 = Some mem' /\ mem' (5000 + 1026) = 2026 mod 256.
Proof.
  destruct (fast_memcpy_copies (fun a => a mod 256) 5000 1000 1027) as (mem' & E & Hr & _); [lia | lia |].
  exists mem'. split; [exact E|]. exact (Hr 1026 ltac:(lia)).
Defined.

(** The table driven exchange.  Two blocks of up to 65535 bytes that do not
    overlap are exchanged and nothing else changes.  (The offset has 16 bits:
    longer blocks would start again at their first byte.) *)
Theorem fast_memswap_swaps mem dest src l :
  0 <= l <= 65535 -> dest + l <= src \/ src + l <= dest ->
  exists mem', fast_memswap mem dest src l = Some mem' /\
    (forall i, 0 <= i < l -> mem' (dest + i) = mem (src + i) /\ mem' (src + i) = mem (dest + i)) /\
    forall b, ~ (dest <= b < dest + l) -> ~ (src <= b < src + l) -> mem' b = mem b.
Proof.
  intros Hl Hov. destruct (fast_memswap_loop_spec (rounds l) mem dest src 0 l) as (mem' & E & H);
    [done | lia | lia | lia | lia |].
  exists mem'. split; [done|]. split; [intros i Hi|intros b Hb Hs]; rewrite !H.
  - split; zcases; try lia; f_equal; lia.
  - zcases; lia || done.
Qed.

Lemma fast_memswap_swaps_witness :
  exists mem', fast_memswap (fun a => a mod 256) 5000 1000 300 = Some mem' /\ mem' (5000 + 299) = 1299 mod 256.
Proof.
  destruct (fast_memswap_swaps (fun a => a mod 256) 5000 1000 300) as (mem' & E & Hr & _); [lia | lia |].
  exists mem'. split; [exact E|]. exact (proj1 (Hr 299 ltac:(lia))).
Defined.
