(* ===== verification/Network.v ===== *)
(** * Packets: [sources/devices/network/Ethernet.c], [ARP.c], [IP.c], [ICMP.c],
    [sources/misc/checksum.c] and [sources/misc/NetUtils.c]

    A packet is the bytes of memory behind the address of its Ethernet header.
    The driver is its hardware address, and [sent] collects the frames handed to
    its [send] function.  Small copies are [write_bytes] (see [FastMem]); local
    arrays are lists. *)

From S2P Require Import Prelude Defines FastMem.

#[local] Open Scope Z_scope.

Definition ETH_HLEN : Z := 14.
Definition ETHERTYPE_IP : Z := 0x0800.
Definition ETHERTYPE_ARP : Z := 0x0806.
Definition ETHERTYPE_IPIOE : Z := 0x0812.
Definition ARPHRD_ETHER : Z := 1.
Definition ARPOP_REQUEST : Z := 1.
Definition ARPOP_REPLY : Z := 2.
Definition IP_PACKET_TYPE_ICMP : Z := 1.
Definition ICMP_ECHO : Z := 8.

Record NetworkPacket := mkNetworkPacket { ethernetPacket : Z; packet_size : Z }.

(** The addresses of the members of a frame at [e]. *)
Definition h_dest (e : Z) : Z := e.
Definition h_source (e : Z) : Z := e + 6.
Definition h_proto (e : Z) : Z := e + 12.
Definition h_data (e : Z) : Z := e + 14.

(** [arp_header_t], [ip_header_t] and [icmp_header_t]. *)
Definition ar_hrd (h : Z) : Z := h.
Definition ar_pro (h : Z) : Z := h + 2.
Definition ar_hln (h : Z) : Z := h + 4.
Definition ar_pln (h : Z) : Z := h + 5.
Definition ar_op (h : Z) : Z := h + 6.
Definition sender_hw_address (h : Z) : Z := h + 8.
Definition sender_protocol_address (h : Z) : Z := h + 14.
Definition target_hw_address (h : Z) : Z := h + 18.
Definition target_protocol_address (h : Z) : Z := h + 24.
Definition tot_len (h : Z) : Z := h + 2.
Definition protocol (h : Z) : Z := h + 9.
Definition check (h : Z) : Z := h + 10.
Definition saddr (h : Z) : Z := h + 12.
Definition daddr (h : Z) : Z := h + 16.
Definition icmp_type (h : Z) : Z := h.
Definition icmp_code (h : Z) : Z := h + 1.
Definition icmp_chk (h : Z) : Z := h + 2.

Definition get16 (mem : memory) (a : Z) : Z := mem a + 256 * mem (a + 1).
Definition put16 (mem : memory) (a v : Z) : memory := write_bytes mem a [u8 v; u8 (v / 256)].
Definition put8 (mem : memory) (a v : Z) : memory := write_bytes mem a [u8 v].
Definition ihl (mem : memory) (ip : Z) : Z := mem ip mod 16.

Definition getEthernetPacketFromSKB (skb : NetworkPacket) : Z := ethernetPacket skb.
Definition getARPPacketFromSKB (skb : NetworkPacket) : Z := ethernetPacket skb + ETH_HLEN.
Definition getIPPacketFromSKB (skb : NetworkPacket) : Z := ethernetPacket skb + ETH_HLEN.
Definition getIPPacketBodyFromSKB (mem : memory) (skb : NetworkPacket) : Z :=
  let ip_header := ethernetPacket skb + ETH_HLEN in ip_header + ihl mem ip_header * 4.

(** ** The checksum *)

Fixpoint calcsum_loop (words : nat) (mem : memory) (buffer sum : Z) : Z * Z :=
  match words with
  | O => (buffer, sum)
  | S words => calcsum_loop words mem (buffer + 2) (u32 (sum + get16 mem buffer))
  end.

Definition calcsum (mem : memory) (buffer length : Z) : Z :=
  let '(buffer, sum) := calcsum_loop (Z.to_nat (length / 2)) mem buffer 0 in
  let sum := if length mod 2 =? 1 then u32 (sum + u8 (get16 mem buffer)) else sum in
  let sum := u32 (Z.shiftr sum 16 + Z.land sum 0xFFFF) in
  let sum := u32 (sum + Z.shiftr sum 16) in
  u16 (Z.lnot sum).

(** ** Hardware addresses in text *)

Definition COLON : Z := 58.

Definition mac_digit (c : Z) : Z :=
  if (48 <=? c) && (c <=? 57) then c - 48
  else if (65 <=? c) && (c <=? 90) then c - 65 + 10
  else if (97 <=? c) && (c <=? 122) then c - 97 + 10 else 0.

(** [mac_str] without its terminator, whose length is [l]. *)
Definition mac_char (mac_str : list Z) (i : Z) : option Z := zget (mac_str ++ [0]) i.

Fixpoint mac_loop (fuel : nat) (mac_str : list Z) (l i j : Z) (mac_bin : list Z) : option (list Z) :=
  if i <=? u64 (l - 2) then
    match fuel with
    | O => None
    | S fuel =>
        mac_bin ← zset mac_bin j 0;
        c2 ← mac_char mac_str (i + 2);
        x ← (if (c2 =? COLON) || (i + 2 =? l) then
               c ← mac_char mac_str i;
               mac_bin ← zupd mac_bin j (fun v => u8 (v + 16 * mac_digit c)); Some (i + 1, mac_bin)
             else Some (i, mac_bin));
        let '(i, mac_bin) := x in
        c1 ← mac_char mac_str (i + 1);
        x ← (if (c1 =? COLON) || (i + 1 =? l) then
               c ← mac_char mac_str i;
               mac_bin ← zupd mac_bin j (fun v => u8 (v + mac_digit c)); Some (i + 1, mac_bin)
             else Some (i, mac_bin));
        let '(i, mac_bin) := x in
        mac_loop fuel mac_str l (u64 (i + 1)) (u8 (j + 1)) mac_bin
    end
  else Some mac_bin.

Definition mac_str_to_bin (mac_str mac_bin : list Z) : option (list Z) :=
  let l := zlen mac_str in mac_loop (S (Z.to_nat l)) mac_str l 0 0 mac_bin.

(** ** Processing *)

(** Exchanges the addresses twice. *)
Definition ReverseSourceAndDestination (mem : memory) (source destination : Z) : option memory :=
  mem ← fast_memswap mem source destination 6;
  let temp := read_bytes mem source 6 in
  let mem := write_bytes mem source (read_bytes mem destination 6) in
  Some (write_bytes mem destination temp).

(** What a handler does: the memory and the frames sent. *)
Definition outcome : Type := memory * list (list Z).

Definition send (mem : memory) (skb : NetworkPacket) : outcome :=
  (mem, [read_bytes mem (ethernetPacket skb) (packet_size skb)]).

(** [destinationMACAddress] is a local of 24 bytes of which six are set: a
    longer hardware address in the packet reads the others. *)
Definition processARPPacket (mac : list Z) (mem : memory) (skb : NetworkPacket) : option outcome :=
  let e := ethernetPacket skb in
  let arp_header := getARPPacketFromSKB skb in
  let destinationMACAddress := read_bytes mem (h_source e) 6 in
  mem ← ReverseSourceAndDestination mem (h_source e) (h_dest e);
  if (htons (get16 mem (ar_hrd arp_header)) =? ARPHRD_ETHER) &&
     (htons (get16 mem (ar_op arp_header)) =? ARPOP_REQUEST) && (mem (ar_pln arp_header) =? 4) then
    let mem := write_bytes mem (h_source e) mac in
    let mem := write_bytes mem (h_dest e) destinationMACAddress in
    let mem := put16 mem (ar_op arp_header) (ntohs ARPOP_REPLY) in
    mem ← fast_memswap mem (target_protocol_address arp_header) (sender_protocol_address arp_header)
            (mem (ar_pln arp_header));
    if 6 <? mem (ar_hln arp_header) then None else
    let mem := write_bytes mem (target_hw_address arp_header)
                 (take (Z.to_nat (mem (ar_hln arp_header))) destinationMACAddress) in
    let mem := write_bytes mem (sender_hw_address arp_header) mac in
    let mem := write_bytes mem (sender_protocol_address arp_header) [192; 168; 1; 4] in
    let mem := put8 mem (ar_hln arp_header) 6 in
    let mem := put8 mem (ar_pln arp_header) 4 in
    let mem := put16 mem (ar_hrd arp_header) (htons 0x01) in
    let mem := put16 mem (ar_pro arp_header) (htons 0x0800) in
    Some (send mem skb)
  else Some (mem, []).

(** The packet is built at [e], in fresh memory; the argument with the wanted
    address is not used, and the code behind the [return] never runs. *)
Definition RequestMACAddress (mac : list Z) (mem : memory) (e : Z) : outcome :=
  let savedPacket := mkNetworkPacket e (ETH_HLEN + 28) in
  let arphead := h_data e in
  let mem := put16 mem (ar_hrd arphead) 0x0100 in
  let mem := put16 mem (ar_pro arphead) 0x0008 in
  let mem := put8 mem (ar_hln arphead) 6 in
  let mem := put8 mem (ar_pln arphead) 4 in
  let mem := put16 mem (ar_op arphead) 0x0100 in
  let mem := write_bytes mem (sender_hw_address arphead) mac in
  let mem := write_bytes mem (target_hw_address arphead) [0; 0; 0; 0; 0; 0; 0] in
  let mem := write_bytes mem (sender_protocol_address arphead) [192; 168; 1; 100] in
  let mem := write_bytes mem (target_protocol_address arphead) [192; 168; 1; 1] in
  let mem := write_bytes mem (h_source e) mac in
  let mem := write_bytes mem (h_dest e) [0xFF; 0xFF; 0xFF; 0xFF; 0xFF; 0xFF; 0xFF] in
  let mem := put16 mem (h_proto e) 1544 in
  send mem savedPacket.

Definition reverseIPSourceAndDestination (mem : memory) (ip_header : Z) : memory :=
  let temp := read_bytes mem (daddr ip_header) 4 in
  let mem := write_bytes mem (daddr ip_header) (read_bytes mem (saddr ip_header) 4) in
  write_bytes mem (saddr ip_header) temp.

Definition processICMPPacket (mac : list Z) (mem : memory) (skb : NetworkPacket) : option outcome :=
  let e := ethernetPacket skb in
  let ip_header := getIPPacketFromSKB skb in
  let payload_size := u16 (ntohs (get16 mem (tot_len ip_header)) - ihl mem ip_header * 4) in
  let icmp_header := getIPPacketBodyFromSKB mem skb in
  if mem (icmp_type icmp_header) =? ICMP_ECHO then
    let destinationMACAddress := read_bytes mem (h_source e) 6 in
    mem ← ReverseSourceAndDestination mem (h_source e) (h_dest e);
    let mem := write_bytes mem (h_source e) mac in
    let mem := write_bytes mem (h_dest e) destinationMACAddress in
    let mem := reverseIPSourceAndDestination mem ip_header in
    let mem := put8 mem (icmp_type icmp_header) 0 in
    let mem := put8 mem (icmp_code icmp_header) 0 in
    let mem := put16 mem (icmp_chk icmp_header) 0 in
    let mem := put16 mem (icmp_chk icmp_header) (calcsum mem icmp_header payload_size) in
    let mem := put16 mem (check ip_header) 0 in
    let mem := put16 mem (check ip_header) (calcsum mem ip_header (ihl mem ip_header * 4)) in
    Some (send mem skb)
  else Some (mem, []).

Definition processIPPacket (mac : list Z) (mem : memory) (skb : NetworkPacket) : option outcome :=
  let ip_header := getIPPacketFromSKB skb in
  if mem (protocol ip_header) =? IP_PACKET_TYPE_ICMP then processICMPPacket mac mem skb else Some (mem, []).

(** [answer] goes on with what ARP and IP did; [processIPIOEPacket] works on the queues of the cores. *)
Definition processEthernetPacket {A} (answer : option outcome -> A) (processIPIOEPacket : A)
    (mac : list Z) (mem : memory) (skb : NetworkPacket) : A :=
  let p := getEthernetPacketFromSKB skb in
  if bool_decide (read_bytes mem (h_source p) 6 = mac) then answer (Some (mem, []))
  else if ntohs (get16 mem (h_proto p)) =? ETHERTYPE_ARP then answer (processARPPacket mac mem skb)
  else if ntohs (get16 mem (h_proto p)) =? ETHERTYPE_IP then answer (processIPPacket mac mem skb)
  else if ntohs (get16 mem (h_proto p)) =? ETHERTYPE_IPIOE then processIPIOEPacket
  else answer (Some (mem, [])).

(** ** Lemmas: memory *)

Definition byte_memory (mem : memory) : Prop := forall b, 0 <= mem b < 256.

Lemma write_byte_memory mem a l : byte_memory mem -> Forall (fun v => 0 <= v < 256) l -> byte_memory (write_bytes mem a l).
Proof.
  intros Hm Hl b. unfold write_bytes. destruct (zget l (b - a)) as [v|] eqn:E; [|done].
  unfold zget in E. bdestr (0 <=? b - a); [|done]. rewrite Forall_forall in Hl. apply Hl. by eapply list_elem_of_lookup_2.
Qed.

Lemma read_byte_memory mem a n : byte_memory mem -> Forall (fun v => 0 <= v < 256) (read_bytes mem a n).
Proof. intros Hm. unfold read_bytes. rewrite Forall_map. by apply Forall_true. Qed.

Lemma get16_put16 mem a v : 0 <= v < 65536 -> get16 (put16 mem a v) a = v.
Proof.
  intros Hv. unfold get16, put16, write_bytes. replace (a - a) with 0 by lia. replace (a + 1 - a) with 1 by lia.
  simpl. unfold u8. zdiv.
Qed.

Lemma put16_out mem a v b : b < a \/ a + 2 <= b -> put16 mem a v b = mem b.
Proof. intros. unfold put16. apply write_bytes_out. change (zlen _) with 2. lia. Qed.

Lemma get16_out mem a v b : b + 2 <= a \/ a + 2 <= b -> get16 (put16 mem a v) b = get16 mem b.
Proof. intros. unfold get16. by rewrite !put16_out by lia. Qed.

Lemma put16_byte_memory mem a v : byte_memory mem -> byte_memory (put16 mem a v).
Proof. intros. apply write_byte_memory; [done|]. repeat constructor; apply u8_range. Qed.

Lemma reverse_identity mem s d : s + 6 <= d \/ d + 6 <= s ->
  exists mem', ReverseSourceAndDestination mem s d = Some mem' /\ forall b, mem' b = mem b.
Proof.
  intros Hov. unfold ReverseSourceAndDestination.
  destruct (fast_memswap_loop_spec (rounds 6) mem s d 0 6) as (m & E & H); [done | lia | lia | lia | lia |].
  unfold fast_memswap. rewrite E. cbn [mbind option_bind]. eexists. split; [reflexivity|].
  intros b. rewrite !write_read, !H.
  assert (s <= b < s + 6 \/ d <= b < d + 6 \/ (b < s \/ s + 6 <= b) /\ (b < d \/ d + 6 <= b)) as [Hb|[Hb|Hb]] by lia;
    ranges; try done; try (f_equal; lia).
Qed.

(** ** Lemmas: the checksum *)

Definition word_sum (mem : memory) (a n : Z) : Z := foldr Z.add 0 (map (fun i => get16 mem (a + 2 * i)) (seqZ 0 n)).

Lemma word_sum_0 mem a : word_sum mem a 0 = 0.
Proof. done. Qed.

Lemma word_sum_succ mem a n : 0 <= n -> word_sum mem a (Z.succ n) = get16 mem a + word_sum mem (a + 2) n.
Proof.
  intros Hn. unfold word_sum. rewrite seqZ_cons, Z.pred_succ by lia. simpl. f_equal; [f_equal; lia|].
  change (Z.succ 0) with 1. replace (seqZ 1 n) with (Z.add 1 <$> seqZ 0 n) by (by rewrite fmap_add_seqZ). change (map ?f) with (fmap (M := list) f).
  rewrite <- list_fmap_compose. f_equal. apply list_fmap_ext. intros i z _. simpl. f_equal. lia.
Qed.

Lemma word_sum_bounds mem : byte_memory mem -> forall n, 0 <= n -> forall a, 0 <= word_sum mem a n <= 65535 * n.
Proof.
  intros Hm. apply (natlike_ind (fun n => forall a, _)); [intros; rewrite word_sum_0; lia|].
  intros n Hn IH a. rewrite word_sum_succ by done. specialize (IH (a + 2)). unfold get16.
  pose proof (Hm a). pose proof (Hm (a + 1)). lia.
Qed.

Lemma calcsum_loop_spec mem : byte_memory mem -> forall n a sum,
  0 <= sum -> sum + word_sum mem a (Z.of_nat n) < 2 ^ 32 ->
  calcsum_loop n mem a sum = (a + 2 * Z.of_nat n, sum + word_sum mem a (Z.of_nat n)).
Proof.
  intros Hm. induction n as [|n IH]; intros a sum Hs Hb.
  - simpl. f_equal; rewrite ?word_sum_0; lia.
  - cbn [calcsum_loop]. rewrite Nat2Z.inj_succ, word_sum_succ in Hb |- * by lia.
    pose proof (word_sum_bounds mem Hm (Z.of_nat n) ltac:(lia) (a + 2)).
    assert (0 <= get16 mem a) by (unfold get16; pose proof (Hm a); pose proof (Hm (a + 1)); lia).
    rewrite u32_small by lia. rewrite IH by lia. f_equal; lia.
Qed.

(** The 16-bit one's complement sum. *)
Definition fold16 (s : Z) : Z :=
  let r := s / 65536 + s mod 65536 in if r <? 65536 then r else r - 65535.

Definition total (mem : memory) (a len : Z) : Z :=
  word_sum mem a (len / 2) + (if len mod 2 =? 1 then mem (a + (len - 1)) else 0).

Lemma total_bounds mem a len : byte_memory mem -> 0 <= len < 65536 -> 0 <= total mem a len < 2 ^ 31.
Proof.
  intros Hm Hl. unfold total. pose proof (word_sum_bounds mem Hm (len / 2) ltac:(zdiv) a).
  pose proof (Hm (a + (len - 1))). case_match; zdiv.
Qed.

Lemma calcsum_eq mem a len : byte_memory mem -> 0 <= len < 65536 -> calcsum mem a len = 65535 - fold16 (total mem a len).
Proof.
  intros Hm Hl. unfold calcsum. pose proof (total_bounds mem a len Hm Hl) as Ht.
  pose proof (word_sum_bounds mem Hm (len / 2) ltac:(zdiv) a).
  rewrite calcsum_loop_spec by (done || rewrite ?Z2Nat.id; zdiv). rewrite Z2Nat.id by zdiv.
  assert ((if len mod 2 =? 1 then u32 (0 + word_sum mem a (len / 2) + u8 (get16 mem (a + 2 * (len / 2))))
           else 0 + word_sum mem a (len / 2)) = total mem a len) as ->.
  { unfold total. bdestr (len mod 2 =? 1); [|lia].
    assert (a + 2 * (len / 2) = a + (len - 1)) as -> by zdiv.
    pose proof (Hm (a + (len - 1))).
    assert (u8 (get16 mem (a + (len - 1))) = mem (a + (len - 1))) as -> by (unfold u8, get16; zdiv).
    rewrite u32_small by zdiv. lia. }
  generalize dependent (total mem a len). intros t Ht. unfold fold16.
  rewrite !Z.shiftr_div_pow2 by lia. change 0xFFFF with (Z.ones 16). rewrite Z.land_ones by lia.
  change (2 ^ 16) with 65536. assert (0 <= t / 65536 < 32768 /\ 0 <= t mod 65536 < 65536) as [Hq Hr] by zdiv.
  generalize dependent (t mod 65536). generalize dependent (t / 65536). intros q Hq m Hr.
  rewrite (u32_small (q + m)) by lia. rewrite u32_small by zdiv. unfold u16, Z.lnot.
  change (Z.ones 16) with 65535. change (2 ^ 16) with 65536. bdestr (q + m <? 65536); zdiv.
Qed.

Lemma fold16_split q m : 0 <= m < 65536 ->
  fold16 (65536 * q + m) = if q + m <? 65536 then q + m else q + m - 65535.
Proof.
  intros Hm. unfold fold16.
  assert ((65536 * q + m) / 65536 = q) as -> by zdiv. by assert ((65536 * q + m) mod 65536 = m) as -> by zdiv.
Qed.

Lemma fold16_complement s : 0 <= s < 2 ^ 31 -> fold16 (s + (65535 - fold16 s)) = 65535.
Proof.
  intros Hs. assert (s = 65536 * (s / 65536) + s mod 65536) as E by zdiv.
  assert (0 <= s mod 65536 < 65536 /\ 0 <= s / 65536 < 32768) as [Hm Hq] by zdiv.
  rewrite E. generalize dependent (s mod 65536). generalize dependent (s / 65536). intros q Hq m E Hm.
  rewrite fold16_split by done. bdestr (q + m <? 65536).
  - replace (65536 * q + m + (65535 - (q + m))) with (65536 * q + (65535 - q)) by lia.
    rewrite fold16_split by lia. zcases; lia.
  - replace (65536 * q + m + (65535 - (q + m - 65535))) with (65536 * (q + 1) + (65534 - q)) by lia.
    rewrite fold16_split by lia. zcases; lia.
Qed.

Lemma word_sum_put mem v : 0 <= v < 65536 -> forall n, 0 <= n -> forall a k, 0 <= k < n -> get16 mem (a + 2 * k) = 0 ->
  word_sum (put16 mem (a + 2 * k) v) a n = word_sum mem a n + v.
Proof.
  intros Hv. apply (natlike_ind (fun n => forall a k, 0 <= k < n -> get16 mem (a + 2 * k) = 0 ->
    word_sum (put16 mem (a + 2 * k) v) a n = word_sum mem a n + v)); [lia|].
  intros n Hn IH a k Hk Hz. rewrite !word_sum_succ by done.
  destruct (decide (k = 0)) as [->|Hk0].
  - rewrite Z.mul_0_r, Z.add_0_r in *. rewrite get16_put16, Hz by done.
    enough (word_sum (put16 mem a v) (a + 2) n = word_sum mem (a + 2) n) by lia.
    unfold word_sum. f_equal. apply map_ext_in. intros i Hi. apply list_elem_of_In, elem_of_seqZ in Hi.
    apply get16_out. lia.
  - rewrite get16_out by lia. replace (a + 2 * k) with (a + 2 + 2 * (k - 1)) by lia.
    rewrite IH; [lia | lia |]. rewrite <- Hz. f_equal. lia.
Qed.

Lemma calcsum_ext mem mem' a len : byte_memory mem -> byte_memory mem' -> 0 <= len < 65536 ->
  (forall b, a <= b < a + len -> mem b = mem' b) -> calcsum mem a len = calcsum mem' a len.
Proof.
  intros Hm Hm' Hl H. rewrite !calcsum_eq by done. do 2 f_equal. unfold total. f_equal.
  - unfold word_sum. f_equal. apply map_ext_in. intros i Hi. apply list_elem_of_In, elem_of_seqZ in Hi.
    unfold get16. rewrite !H by zdiv. done.
  - bdestr (len mod 2 =? 1); [|done]. apply H. zdiv.
Qed.

(** Storing the checksum in a zero field at an even offset makes the block sum up to zero. *)
Lemma checksum_verifies mem a len k :
  byte_memory mem -> 0 <= len < 65536 -> 0 <= k -> 2 * k + 2 <= len -> get16 mem (a + 2 * k) = 0 ->
  calcsum (put16 mem (a + 2 * k) (calcsum mem a len)) a len = 0.
Proof.
  intros Hm Hl Hk Hk2 Hz. rewrite (calcsum_eq mem) by done. pose proof (total_bounds mem a len Hm Hl) as Ht.
  assert (0 <= fold16 (total mem a len) <= 65535) by (unfold fold16; case_match; zdiv).
  rewrite calcsum_eq by (done || by apply put16_byte_memory).
  enough (total (put16 mem (a + 2 * k) (65535 - fold16 (total mem a len))) a len =
          total mem a len + (65535 - fold16 (total mem a len))) as ->.
  { rewrite fold16_complement by done. done. }
  unfold total at 1. rewrite word_sum_put by (done || zdiv). unfold total at 3.
  bdestr (len mod 2 =? 1); [rewrite put16_out by zdiv; lia | lia].
Qed.

(** ** Lemmas: fields of a rewritten packet *)

Lemma get16_write_out mem a l b : b + 2 <= a \/ a + zlen l <= b -> get16 (write_bytes mem a l) b = get16 mem b.
Proof. intros H. unfold get16. by rewrite !write_bytes_out by lia. Qed.

Lemma write_in1 mem a v : write_bytes mem a [v] a = v.
Proof. unfold write_bytes. by replace (a - a) with 0 by lia. Qed.

Ltac offsets :=
  unfold h_dest, h_source, h_proto, h_data, ar_hrd, ar_pro, ar_hln, ar_pln, ar_op, sender_hw_address,
    sender_protocol_address, target_hw_address, target_protocol_address, tot_len, protocol, check, saddr, daddr,
    icmp_type, icmp_code, icmp_chk, ETH_HLEN, put16, put8 in *.

(** The length of a literal, of a hardware address, or of bytes read. *)
Ltac block_side :=
  rewrite ?zlen_read by lia; unfold zlen; cbn [length]; rewrite ?length_take; lia.

(** Read through the writes of a handler. *)
Ltac fields :=
  repeat first
    [ rewrite read_write_n by block_side
    | rewrite read_out by block_side
    | rewrite get16_write_out by block_side
    | rewrite write_in1
    | rewrite write_bytes_out by block_side ].

Lemma get16_ext mem mem' a : mem a = mem' a -> mem (a + 1) = mem' (a + 1) -> get16 mem a = get16 mem' a.
Proof. unfold get16. lia. Qed.

Lemma get16_write mem a v : 0 <= v < 65536 -> get16 (write_bytes mem a [u8 v; u8 (v / 256)]) a = v.
Proof. apply get16_put16. Qed.

Lemma write_in mem a l b v : zget l (b - a) = Some v -> write_bytes mem a l b = v.
Proof. unfold write_bytes. by intros ->. Qed.

(** [RequestMACAddress] stores a seventh byte behind the destination: the frame
    it broadcasts carries 0xFF for the first byte of its own address. *)
Lemma arp_request_source_corrupted mac mem e : length mac = 6%nat ->
  exists mem', RequestMACAddress mac mem e = (mem', [read_bytes mem' e 42]) /\
    (forall i, 0 <= i < 7 -> mem' (h_dest e + i) = 255) /\ h_source e = h_dest e + 6 /\
    (forall i, 1 <= i < 6 -> Some (mem' (h_source e + i)) = zget mac i) /\
    read_bytes mem' (sender_hw_address (h_data e)) 6 = mac.
Proof.
  intros Hmac. unfold RequestMACAddress, send. eexists. split; [reflexivity|]. offsets.
  split; [|split; [done|split]].
  - intros i Hi. rewrite write_bytes_out by lia. apply write_in. replace (e + i - e) with i by lia.
    assert (i = 0 \/ i = 1 \/ i = 2 \/ i = 3 \/ i = 4 \/ i = 5 \/ i = 6) as [->|[->|[->|[->|[->|[->| ->]]]]]] by lia; done.
  - intros i Hi. rewrite (write_bytes_out _ (e + 12)), (write_bytes_out _ e) by block_side.
    destruct (zget_some mac i) as [v Hv]; [unfold zlen; lia|]. rewrite Hv. f_equal. apply write_in.
    by replace (e + 6 + i - (e + 6)) with i by lia.
  - by fields.
Qed.

(** * Properties *)

(** C20: the answer to an ARP request.  For a request about Ethernet and IPv4
    whose address lengths are 6 and 4, [processARPPacket] sends exactly the
    rewritten frame: addressed to the requester, from the driver's own address,
    a reply that gives the driver's address for 192.168.1.4 and repeats the
    requester's addresses as the target; bytes outside the two headers stay. *)
Theorem arp_reply mac mem skb :
  let e := ethernetPacket skb in let a := e + 14 in
  length mac = 6%nat -> htons (get16 mem (ar_hrd a)) = ARPHRD_ETHER -> htons (get16 mem (ar_op a)) = ARPOP_REQUEST ->
  mem (ar_pln a) = 4 -> mem (ar_hln a) = 6 ->
  exists mem', processARPPacket mac mem skb = Some (mem', [read_bytes mem' e (packet_size skb)]) /\
    read_bytes mem' (h_dest e) 6 = read_bytes mem (h_source e) 6 /\ read_bytes mem' (h_source e) 6 = mac /\
    get16 mem' (ar_op a) = htons ARPOP_REPLY /\
    read_bytes mem' (sender_hw_address a) 6 = mac /\
    read_bytes mem' (sender_protocol_address a) 4 = [192; 168; 1; 4] /\
    read_bytes mem' (target_hw_address a) 6 = read_bytes mem (h_source e) 6 /\
    read_bytes mem' (target_protocol_address a) 4 = read_bytes mem (sender_protocol_address a) 4 /\
    forall b, b < e \/ e + 42 <= b \/ e + 12 <= b < e + 14 -> mem' b = mem b.
Proof.
  intros e a Hmac Hhrd Hop Hpln Hhln. unfold processARPPacket, getARPPacketFromSKB. fold e.
  destruct (reverse_identity mem (h_source e) (h_dest e)) as (m & -> & Hm); [offsets; lia|]. cbn [mbind option_bind].
  change (e + ETH_HLEN) with a.
  rewrite (get16_ext m mem (ar_hrd a)), (get16_ext m mem (ar_op a)), (Hm (ar_pln a)), Hhrd, Hop, Hpln by apply Hm.
  cbn [Z.eqb Pos.eqb andb]. set (req := read_bytes mem (h_source e) 6).
  assert (length req = 6%nat) as Hreq by (unfold req, read_bytes; rewrite length_map, length_seqZ; lia).
  set (m1 := put16 (write_bytes (write_bytes m (h_source e) mac) (h_dest e) req) (ar_op a) (ntohs ARPOP_REPLY)).
  assert (m1 (ar_pln a) = 4 /\ m1 (ar_hln a) = 6) as [P1 P2].
  { unfold m1, a. offsets. fields. rewrite !Hm. done. }
  rewrite P1. unfold fast_memswap.
  destruct (fast_memswap_loop_spec (rounds 4) m1 (target_protocol_address a) (sender_protocol_address a) 0 4)
    as (m2 & -> & Hm2); [done | lia | lia | lia | offsets; lia |]. cbn [mbind option_bind].
  assert (m2 (ar_hln a) = 6) as Hh by (rewrite Hm2; offsets; ranges; done). rewrite Hh.
  cbn [Z.ltb Z.compare Pos.compare Pos.compare_cont]. rewrite take_ge by (rewrite Hreq; reflexivity).
  assert (read_bytes m2 (target_protocol_address a) 4 = read_bytes mem (sender_protocol_address a) 4) as Ht.
  { apply zget_ext; [unfold read_bytes; by rewrite !length_map, !length_seqZ|]. intros i Hi.
    rewrite zlen_read in Hi by lia. rewrite !zget_read, !range_true by lia. f_equal. rewrite Hm2.
    offsets. ranges. unfold m1, a. offsets. rewrite !write_bytes_out by block_side. rewrite Hm. f_equal. lia. }
  assert (forall b, b < e \/ e + 42 <= b \/ e + 12 <= b < e + 14 -> m2 b = mem b) as Hout.
  { intros b Hb. rewrite Hm2. unfold a in *. offsets. ranges. unfold m1. offsets. rewrite !write_bytes_out by block_side. apply Hm. }
  assert (forall b, e <= b < e + 12 -> m2 b = m1 b) as Hhead.
  { intros b Hb. rewrite Hm2. unfold a in *. offsets. by ranges. }
  assert (get16 m2 (ar_op a) = htons ARPOP_REPLY) as Hop2.
  { rewrite (get16_ext m2 m1) by (rewrite Hm2; offsets; by ranges). unfold m1. by apply get16_put16. }
  assert (read_bytes m2 (h_dest e) 6 = req /\ read_bytes m2 (h_source e) 6 = mac) as [Hd Hs].
  { rewrite !(read_ext m2 m1) by (intros; apply Hhead; offsets; lia). unfold m1, a. offsets. by fields. }
  eexists. split; [unfold send; reflexivity|].
  clear Hm Hm2 Hhead P1 P2 Hh. clearbody m1 req. subst a. offsets.
  split_and!; fields; try done. intros b Hb. fields. apply Hout. lia.
Qed.

Definition arp_request_bytes : list Z :=
  [255; 255; 255; 255; 255; 255; 8; 0; 39; 12; 27; 147; 8; 6;
   0; 1; 8; 0; 6; 4; 0; 1; 8; 0; 39; 12; 27; 147; 192; 168; 1; 7; 0; 0; 0; 0; 0; 0; 192; 168; 1; 4].

Definition packet_memory (l : list Z) : memory := fun a => match zget l (a - 1000) with Some v => v | None => 0 end.

Lemma arp_reply_witness :
  exists mem', processARPPacket [82; 84; 0; 18; 52; 86] (packet_memory arp_request_bytes) (mkNetworkPacket 1000 42) =
      Some (mem', [read_bytes mem' 1000 42]) /\
    read_bytes mem' 1032 6 = [8; 0; 39; 12; 27; 147] /\ get16 mem' 1020 = 0x0200.
Proof.
  destruct (arp_reply [82; 84; 0; 18; 52; 86] (packet_memory arp_request_bytes) (mkNetworkPacket 1000 42))
    as (mem' & E & _ & _ & Hop & _ & _ & Ht & _ & _).
  - reflexivity.
  - vm_compute. reflexivity.
  - vm_compute. reflexivity.
  - vm_compute. reflexivity.
  - vm_compute. reflexivity.
  - exists mem'. split; [exact E|]. split; [exact Ht | exact Hop].
Defined.


(** Filling the two checksum fields of an ICMP packet, the ICMP field being zero. *)
Lemma two_checksums m ip icmp n payload :
  byte_memory m -> icmp = ip + n * 4 -> 5 <= n <= 15 -> 4 <= payload < 65536 -> get16 m (icmp + 2) = 0 ->
  let m4 := put16 m (icmp + 2) (calcsum m icmp payload) in let m5 := put16 m4 (ip + 10) 0 in
  let m6 := put16 m5 (ip + 10) (calcsum m5 ip (n * 4)) in
  calcsum m6 icmp payload = 0 /\ calcsum m6 ip (n * 4) = 0 /\ m5 ip = m ip /\
  forall b, b < ip + 10 \/ ip + 12 <= b < icmp + 2 \/ icmp + 4 <= b -> m6 b = m b.
Proof.
  intros Hbm -> Hn Hp Hz m4 m5 m6.
  assert (byte_memory m4 /\ byte_memory m5 /\ byte_memory m6) as (B4 & B5 & B6)
    by (split_and!; unfold m6, m5, m4; auto using put16_byte_memory).
  split_and!.
  - rewrite (calcsum_ext m6 m4) by (done || (lia || (intros; unfold m6, m5; rewrite !put16_out by lia; done))).
    apply (checksum_verifies m (ip + n * 4) payload 1); (done || lia).
  - apply (checksum_verifies m5 ip (n * 4) 5); (done || lia || apply get16_put16; lia).
  - unfold m5, m4. by rewrite !put16_out by lia.
  - intros b Hb. unfold m6, m5, m4. by rewrite !put16_out by lia.
Qed.

(** The answer to a ping.  For an ICMP echo request with an IP header of at
    least 20 bytes and at least four bytes of ICMP, [processICMPPacket] sends
    the frame back: addressed to the sender from the driver's own address, IP
    addresses exchanged, type and code 0, all other payload kept, and both
    checksums as a receiver verifies them. *)
Theorem icmp_reply mac mem skb :
  let e := ethernetPacket skb in let ip := e + 14 in let icmp := getIPPacketBodyFromSKB mem skb in
  let payload := u16 (ntohs (get16 mem (tot_len ip)) - ihl mem ip * 4) in
  byte_memory mem -> length mac = 6%nat -> Forall (fun v => 0 <= v < 256) mac ->
  5 <= ihl mem ip -> 4 <= payload -> mem icmp = ICMP_ECHO ->
  exists mem', processICMPPacket mac mem skb = Some (mem', [read_bytes mem' e (packet_size skb)]) /\
    read_bytes mem' (h_dest e) 6 = read_bytes mem (h_source e) 6 /\ read_bytes mem' (h_source e) 6 = mac /\
    read_bytes mem' (saddr ip) 4 = read_bytes mem (daddr ip) 4 /\
    read_bytes mem' (daddr ip) 4 = read_bytes mem (saddr ip) 4 /\
    mem' icmp = 0 /\ mem' (icmp + 1) = 0 /\
    calcsum mem' icmp payload = 0 /\ calcsum mem' ip (ihl mem ip * 4) = 0 /\
    forall b, b < e \/ e + 12 <= b < ip + 10 \/ ip + 20 <= b < icmp \/ icmp + 4 <= b -> mem' b = mem b.
Proof.
  intros e ip icmp payload Hbm Hmac Hmacb Hihl Hpay Hecho. unfold processICMPPacket, getIPPacketFromSKB. fold e.
  change (e + ETH_HLEN) with ip. fold icmp. fold payload. change (icmp_type icmp) with icmp. rewrite Hecho.
  change (ICMP_ECHO =? ICMP_ECHO) with true. cbv iota.
  assert (icmp = ip + ihl mem ip * 4) as Hicmp by done.
  assert (ihl mem ip <= 15) as Hihl' by (unfold ihl; zdiv).
  assert (0 <= payload < 65536) as Hpr by (unfold payload, u16; zdiv).
  destruct (reverse_identity mem (h_source e) (h_dest e)) as (m & -> & Hm); [offsets; lia|]. cbn [mbind option_bind].
  set (req := read_bytes mem (h_source e) 6).
  assert (length req = 6%nat) as Hreq by (unfold req, read_bytes; rewrite length_map, length_seqZ; lia).
  assert (Forall (fun v => 0 <= v < 256) req) as Hreqb by by apply read_byte_memory.
  assert (byte_memory m) as Hbm0 by (intros b; rewrite Hm; apply Hbm).
  unfold reverseIPSourceAndDestination.
  set (m1 := write_bytes (write_bytes m (h_source e) mac) (h_dest e) req).
  assert (byte_memory m1) as Hbm1 by (unfold m1; auto using write_byte_memory).
  set (m3 := put16 (put8 (put8 (write_bytes (write_bytes m1 (daddr ip) (read_bytes m1 (saddr ip) 4)) (saddr ip)
    (read_bytes m1 (daddr ip) 4)) icmp 0) (icmp_code icmp) 0) (icmp_chk icmp) 0).
  assert (byte_memory m3) as Hbm3.
  { unfold m3, put16, put8. repeat apply write_byte_memory; auto using read_byte_memory; repeat constructor; apply u8_range. }
  assert (forall b, ip <= b < ip + 12 -> m3 b = mem b) as Hkeep.
  { intros b Hb. unfold m3, m1. clearbody icmp. subst ip. offsets. rewrite !write_bytes_out by block_side. apply Hm. }
  destruct (two_checksums m3 ip icmp (ihl mem ip) payload) as (C1 & C2 & C3 & C4);
    [done | done | lia | lia | unfold m3; apply get16_put16; lia |].
  unfold icmp_chk, check. unfold ihl at 1. rewrite C3, (Hkeep ip) by lia. fold (ihl mem ip).
  eexists. split; [unfold send; reflexivity|].
  assert (forall a n, a + n <= ip + 10 \/ ip + 12 <= a /\ a + n <= icmp -> read_bytes (put16 (put16 (put16 m3 (icmp + 2)
    (calcsum m3 icmp payload)) (ip + 10) 0) (ip + 10) (calcsum (put16 (put16 m3 (icmp + 2)
    (calcsum m3 icmp payload)) (ip + 10) 0) ip (ihl mem ip * 4))) a n = read_bytes m3 a n) as Hread.
  { intros a n Ha. apply read_ext. intros b Hb. apply C4. lia. }
  rewrite !Hread by (clearbody icmp; unfold ip; offsets; lia). rewrite (C4 icmp), (C4 (icmp + 1)) by lia.
  split_and!; try done.
  all: clearbody icmp; unfold m3, m1, ip in *; offsets.
  - fields. done.
  - fields. done.
  - fields. apply read_ext. intros. by apply Hm.
  - fields. apply read_ext. intros. by apply Hm.
  - fields. done.
  - fields. done.
  - intros b Hb. rewrite C4 by lia. fields. apply Hm.
Qed.

Definition ping_bytes : list Z :=
  [82; 84; 0; 18; 52; 86; 8; 0; 39; 12; 27; 147; 8; 0;
   69; 0; 0; 32; 0; 1; 0; 0; 64; 1; 0; 0; 10; 0; 2; 2; 10; 0; 2; 15;
   8; 0; 0; 0; 18; 52; 0; 1; 97; 98; 99; 100].

Lemma packet_byte_memory l : forallb (fun v => (0 <=? v) && (v <? 256)) l = true -> byte_memory (packet_memory l).
Proof.
  intros Hl b. unfold packet_memory. destruct (zget l (b - 1000)) as [v|] eqn:E; [|lia].
  unfold zget in E. bdestr (0 <=? b - 1000); [|done]. rewrite forallb_forall in Hl.
  specialize (Hl v). rewrite <- list_elem_of_In, andb_true_iff in Hl.
  specialize (Hl ltac:(by eapply list_elem_of_lookup_2)). lia.
Qed.

Lemma icmp_reply_witness :
  exists mem', processICMPPacket [82; 84; 0; 18; 52; 86] (packet_memory ping_bytes) (mkNetworkPacket 1000 46) =
      Some (mem', [read_bytes mem' 1000 46]) /\
    calcsum mem' 1034 12 = 0 /\ calcsum mem' 1014 20 = 0 /\ read_bytes mem' 1026 4 = [10; 0; 2; 15].
Proof.
  destruct (icmp_reply [82; 84; 0; 18; 52; 86] (packet_memory ping_bytes) (mkNetworkPacket 1000 46))
    as (mem' & E & _ & _ & Hs & _ & _ & _ & C1 & C2 & _).
  - apply packet_byte_memory. vm_compute. reflexivity.
  - reflexivity.
  - repeat constructor; lia.
  - vm_compute. congruence.
  - vm_compute. congruence.
  - vm_compute. reflexivity.
  - exists mem'. split; [exact E|]. split; [exact C1|]. split; [exact C2 | exact Hs].
Defined.

