(* ===== verification/Device.v ===== *)
(** * Devices: [sources/misc/Ports.c], [sources/misc/MMIOUtils.c]

    Code that talks to hardware is a computation over the trace of what it read
    and wrote, newest event first.  A device is a parameter: the value the next
    read of a port or register yields, given the trace so far.  A theorem that
    needs a device to behave says so about the values it returns; one that does
    not holds for every device. *)

From S2P Require Import Prelude.

#[local] Open Scope Z_scope.

Inductive space := Port | Mmio.

(** [n] is the width of the access in bytes. *)
Inductive event :=
| Rd (s : space) (n a v : Z)
| Wr (s : space) (n a v : Z)
| RTCSleep_ev (seconds : Z).

Definition device : Type := list event -> space -> Z -> Z -> Z.

Definition IO (A : Type) : Type := device -> list event -> option (A * list event).

#[export] Instance IO_ret : MRet IO := fun A a _ t => Some (a, t).
#[export] Instance IO_bind : MBind IO := fun A B f m dev t =>
  match m dev t with Some (a, t') => f a dev t' | None => None end.

(** Code that does not touch a device; [None] is undefined behaviour. *)
Definition pure {A} (o : option A) : IO A := fun _ t => match o with Some a => Some (a, t) | None => None end.

Definition read (s : space) (n a : Z) : IO Z := fun dev t =>
  let v := dev t s n a mod 2 ^ (8 * n) in Some (v, Rd s n a v :: t).

Definition write (s : space) (n a v : Z) : IO unit := fun _ t =>
  Some (tt, Wr s n a (v mod 2 ^ (8 * n)) :: t).

(** ** Ports.c *)

Definition outportb (p_port p_data : Z) : IO unit := write Port 1 (u16 p_port) p_data.
Definition outportw (p_port p_data : Z) : IO unit := write Port 2 (u16 p_port) p_data.
Definition outportl (p_port p_data : Z) : IO unit := write Port 4 (u16 p_port) p_data.
Definition inportb (p_port : Z) : IO Z := read Port 1 (u16 p_port).
Definition inportw (p_port : Z) : IO Z := read Port 2 (u16 p_port).
Definition inportl (p_port : Z) : IO Z := read Port 4 (u16 p_port).

(** ** MMIOUtils.c *)

Definition mmio_read8 (p_address : Z) : IO Z := read Mmio 1 p_address.
Definition mmio_read16 (p_address : Z) : IO Z := read Mmio 2 p_address.
Definition mmio_read32 (p_address : Z) : IO Z := read Mmio 4 p_address.
Definition mmio_read64 (p_address : Z) : IO Z := read Mmio 8 p_address.
Definition mmio_write8 (p_address p_value : Z) : IO unit := write Mmio 1 p_address p_value.
Definition mmio_write16 (p_address p_value : Z) : IO unit := write Mmio 2 p_address p_value.
Definition mmio_write32 (p_address p_value : Z) : IO unit := write Mmio 4 p_address p_value.
Definition mmio_write64 (p_address p_value : Z) : IO unit := write Mmio 8 p_address p_value.

(** Waiting for the real-time clock (see [Clock]) takes time and nothing else. *)
Definition RTCSleep_io (seconds : Z) : IO unit := fun _ t => Some (tt, RTCSleep_ev seconds :: t).

(** ** Loops

    [io_loop] is a loop that ends by itself: [inl] goes round, [inr] leaves.
    Without enough fuel, as without an end, there is no result. *)

Fixpoint io_loop {S A} (fuel : nat) (body : S -> IO (S + A)) (s : S) : IO A :=
  match fuel with
  | O => pure None
  | Datatypes.S fuel =>
      r ← body s; match r with inl s' => io_loop fuel body s' | inr a => mret a end
  end.

Fixpoint io_for {S} (n : nat) (i step : Z) (body : Z -> S -> IO S) (s : S) : IO S :=
  match n with
  | O => mret s
  | Datatypes.S n => s' ← body i s; io_for n (i + step) step body s'
  end.

(** Read a register until it shows what is waited for. *)
Definition poll (fuel : nat) (r : IO Z) (stop : Z -> bool) : IO Z :=
  io_loop fuel (fun _ : unit => v ← r; mret (if stop v then inr v else inl tt)) tt.

(** ** Lemmas *)

Lemma run_bind {A B} (m : IO A) (f : A -> IO B) dev t a t' :
  m dev t = Some (a, t') -> (x ← m; f x) dev t = f a dev t'.
Proof. intros E. unfold mbind, IO_bind. by rewrite E. Qed.

Lemma run_pure {A B} a (f : A -> IO B) dev t : (x ← pure (Some a); f x) dev t = f a dev t.
Proof. done. Qed.

Lemma run_bind_inv {A B} (m : IO A) (f : A -> IO B) dev t b t' :
  (x ← m; f x) dev t = Some (b, t') -> exists a t1, m dev t = Some (a, t1) /\ f a dev t1 = Some (b, t').
Proof. unfold mbind, IO_bind. destruct (m dev t) as [[a t1]|] eqn:E; [|done]. eauto. Qed.

Lemma bind_assoc {A B C} (m : IO A) (f : A -> IO B) (g : B -> IO C) dev t :
  (y ← (x ← m; f x); g y) dev t = (x ← m; y ← f x; g y) dev t.
Proof. unfold mbind, IO_bind. by destruct (m dev t) as [[a t1]|]. Qed.

(** The trace after [k] reads of one register. *)
Fixpoint reads (dev : device) (s : space) (n a : Z) (k : nat) (t : list event) : list event :=
  match k with
  | O => t
  | S k => reads dev s n a k (Rd s n a (dev t s n a mod 2 ^ (8 * n)) :: t)
  end.

(** What the read after [k] others shows. *)
Definition shows (dev : device) (s : space) (n a : Z) (k : nat) (t : list event) : Z :=
  dev (reads dev s n a k t) s n a mod 2 ^ (8 * n).

Lemma reads_succ dev s n a k t : reads dev s n a (S k) t = Rd s n a (shows dev s n a k t) :: reads dev s n a k t.
Proof.
  revert t. induction k as [|k IH]; intros t; [done|].
  change (reads dev s n a (S (S k)) t) with (reads dev s n a (S k) (Rd s n a (dev t s n a mod 2 ^ (8 * n)) :: t)).
  by rewrite IH.
Qed.

Lemma poll_step fuel dev s n a (stop : Z -> bool) t :
  poll (S fuel) (read s n a) stop dev t =
    if stop (shows dev s n a 0 t) then Some (shows dev s n a 0 t, reads dev s n a 1 t)
    else poll fuel (read s n a) stop dev (reads dev s n a 1 t).
Proof.
  unfold poll. cbn [io_loop]. unfold mbind, IO_bind, read, mret, IO_ret, shows, reads.
  by destruct (stop (dev t s n a mod 2 ^ (8 * n))).
Qed.

(** A poll ends with the first value that is accepted, whatever fuel is left. *)
Lemma poll_stops fuel dev s n a (stop : Z -> bool) k t :
  (k < fuel)%nat -> (forall j, (j < k)%nat -> stop (shows dev s n a j t) = false) -> stop (shows dev s n a k t) = true ->
  poll fuel (read s n a) stop dev t = Some (shows dev s n a k t, reads dev s n a (S k) t).
Proof.
  revert k t. induction fuel as [|fuel IH]; intros k t Hk Hno Hyes; [lia|].
  rewrite poll_step. destruct k as [|k]; [by rewrite Hyes|].
  rewrite (Hno 0%nat ltac:(lia)). rewrite (IH k); [done | lia | | done].
  intros j Hj. exact (Hno (S j) ltac:(lia)).
Qed.

(** It ends if some value within reach is accepted. *)
Lemma poll_total fuel dev s n a (stop : Z -> bool) j t :
  (j < fuel)%nat -> stop (shows dev s n a j t) = true ->
  exists v k, poll fuel (read s n a) stop dev t = Some (v, reads dev s n a k t) /\ stop v = true.
Proof.
  revert j t. induction fuel as [|fuel IH]; intros j t Hj Hyes; [lia|].
  rewrite poll_step. destruct (stop (shows dev s n a 0 t)) eqn:E; [by eexists _, 1%nat|].
  destruct j as [|j]; [congruence|]. destruct (IH j (reads dev s n a 1 t)) as (v & k & E' & Hv); [lia | done |].
  exists v, (S k). by rewrite E'.
Qed.

(** A poll that ends, ends with an accepted value, having done nothing but read. *)
Lemma poll_result fuel dev s n a (stop : Z -> bool) t v t' :
  poll fuel (read s n a) stop dev t = Some (v, t') ->
  exists k, v = shows dev s n a k t /\ t' = reads dev s n a (S k) t /\ stop v = true /\
    forall j, (j < k)%nat -> stop (shows dev s n a j t) = false.
Proof.
  revert t. induction fuel as [|fuel IH]; intros t; [done|].
  rewrite poll_step. destruct (stop (shows dev s n a 0 t)) eqn:E.
  - intros [= <- <-]. exists 0%nat. split_and!; try done. intros j Hj. lia.
  - intros H. destruct (IH _ H) as (k & -> & -> & Hs & Hj). exists (S k). split_and!; try done.
    intros [|j] Hlt; [done|]. apply Hj. lia.
Qed.

(** A loop that goes through the states [st 0], [st 1], ... and leaves from the [k]-th. *)
Lemma io_loop_run {S A} (body : S -> IO (S + A)) dev (st : nat -> S) (tr : nat -> list event) k r t' fuel :
  (forall j, (j < k)%nat -> body (st j) dev (tr j) = Some (inl (st (Datatypes.S j)), tr (Datatypes.S j))) ->
  body (st k) dev (tr k) = Some (inr r, t') -> (k < fuel)%nat -> io_loop fuel body (st 0%nat) dev (tr 0%nat) = Some (r, t').
Proof.
  revert k fuel st tr. induction k as [|k IH]; intros [|fuel] st tr Hs Hend Hf; try lia; cbn [io_loop].
  - by rewrite (run_bind _ _ _ _ _ _ Hend).
  - rewrite (run_bind _ _ _ _ _ _ (Hs 0%nat ltac:(lia))).
    apply (IH fuel (fun j => st (Datatypes.S j)) (fun j => tr (Datatypes.S j))); [|done|lia].
    intros j Hj. apply Hs. lia.
Qed.

Lemma io_loop_S {S A} fuel (body : S -> IO (S + A)) s :
  io_loop (Datatypes.S fuel) body s = r ← body s; match r with inl s' => io_loop fuel body s' | inr a => mret a end.
Proof. done. Qed.

(** A loop whose first round has no result has none. *)
Lemma io_loop_none {S A} fuel (body : S -> IO (S + A)) s dev t : (fuel <> O -> body s dev t = None) ->
  io_loop fuel body s dev t = None.
Proof. intros H. destruct fuel as [|fuel]; [done|]. cbn [io_loop]. unfold mbind, IO_bind. by rewrite H. Qed.

Lemma run_bind_none {A B} (m : IO A) (f : A -> IO B) dev t : m dev t = None -> (x ← m; f x) dev t = None.
Proof. intros E. unfold mbind, IO_bind. by rewrite E. Qed.

Lemma io_for_0 {S} i step (body : Z -> S -> IO S) s dev t : io_for 0 i step body s dev t = Some (s, t).
Proof. done. Qed.

Lemma io_for_inv {S} (P : Z -> S -> list event -> Prop) (step : Z) (body : Z -> S -> IO S) dev n i s t :
  P i s t ->
  (forall k s t, (exists j, k = i + step * Z.of_nat j /\ (j < n)%nat) -> P k s t ->
     exists s' t', body k s dev t = Some (s', t') /\ P (k + step) s' t') ->
  exists s' t', io_for n i step body s dev t = Some (s', t') /\ P (i + step * Z.of_nat n) s' t'.
Proof.
  revert i s t. induction n as [|n IH]; intros i s t HP Hstep; cbn [io_for].
  - exists s, t. rewrite Z.mul_0_r, Z.add_0_r. done.
  - destruct (Hstep i s t) as (s1 & t1 & E & HP1); [exists 0%nat; lia | done |]. rewrite (run_bind _ _ _ _ _ _ E).
    destruct (IH (i + step) s1 t1 HP1) as (s' & t' & E' & HP').
    + intros k u v (j & -> & Hj). apply Hstep. exists (Datatypes.S j). lia.
    + exists s', t'. split; [exact E'|]. by replace (i + step * Z.of_nat (Datatypes.S n)) with (i + step + step * Z.of_nat n) by lia.
Qed.

#[global] Arguments io_loop : simpl never.
#[global] Arguments io_for : simpl never.

(** Run straight-line device code. *)
Ltac run_io :=
  cbv beta iota zeta delta [outportb outportw outportl inportb inportw inportl mmio_read8 mmio_read16 mmio_read32
    mmio_read64 mmio_write8 mmio_write16 mmio_write32 mmio_write64 RTCSleep_io write read pure mbind IO_bind mret IO_ret option_bind].

(** The accesses of a trace, oldest first. *)
Definition accesses (t : list event) : list event := rev t.

(** The writes among them. *)
Fixpoint writes (t : list event) : list (space * Z * Z) :=
  match t with
  | [] => []
  | Wr s _ a v :: t => writes t ++ [(s, a, v)]
  | _ :: t => writes t
  end.

Lemma writes_reads dev s n a k t : writes (reads dev s n a k t) = writes t.
Proof. revert t. induction k as [|k IH]; intros t; [done|]. cbn [reads]. by rewrite IH. Qed.

(** The last value written to a port. *)
Fixpoint last_write (p : Z) (t : list event) : option Z :=
  match t with
  | [] => None
  | Wr Port _ a v :: t => if a =? p then Some v else last_write p t
  | _ :: t => last_write p t
  end.

Lemma last_write_reads p dev a k t : last_write p (reads dev Port 1 a k t) = last_write p t.
Proof. revert t. induction k as [|k IH]; intros t; [done|]. cbn [reads]. by rewrite IH. Qed.
