(* ===== verification/Worker.v ===== *)
(** * IPIoE packets and the queue of a worker: [headers/devices/network/IPIoE.h]

    A packet header is sixteen bytes; [encode] and [decode] are its layout. *)

From S2P Require Import Prelude Spinlock.

#[local] Open Scope Z_scope.

Definition IPIoE_OPCODE_REQUEST : Z := 1.
Definition IPIoE_OPCODE_REPLY : Z := 2.
Definition IPIoE_QUEUE_LENGTH : Z := 1.
Definition ENTRY_DATA_SIZE : Z := 1000.

Record IPIOE_Packet := mkIPIOE_Packet {
  version : Z;                                (* 4 bits *)
  IHL : Z;                                    (* 4 bits *)
  opcode : Z;
  dataLength : Z;
  messageID : Z;
  ipioe_checksum : Z;
  sourceCore : Z;
  destinationCore : Z;
  ipioe_flags : Z;
  serviceNumber : Z;
  methodNumber : Z
}.

#[export] Instance eta_IPIOE_Packet : Eta IPIOE_Packet :=
  fun r => mkIPIOE_Packet (version r) (IHL r) (opcode r) (dataLength r) (messageID r) (ipioe_checksum r)
    (sourceCore r) (destinationCore r) (ipioe_flags r) (serviceNumber r) (methodNumber r).

Definition le16 (v : Z) : list Z := [v mod 256; v / 256 mod 256].

Definition encode (p : IPIOE_Packet) : list Z :=
  [version p + 16 * IHL p; opcode p] ++ le16 (dataLength p) ++ le16 (messageID p) ++ le16 (ipioe_checksum p) ++
  le16 (sourceCore p) ++ le16 (destinationCore p) ++ le16 (ipioe_flags p) ++ [serviceNumber p; methodNumber p].

Definition decode (l : list Z) : IPIOE_Packet :=
  let b i := nth i l 0 in let w i := b i + 256 * b (S i) in
  mkIPIOE_Packet (b 0%nat mod 16) (b 0%nat / 16) (b 1%nat) (w 2%nat) (w 4%nat) (w 6%nat) (w 8%nat) (w 10%nat)
    (w 12%nat) (b 14%nat) (b 15%nat).

Record IPIoE_Queue_Entry := mkEntry {
  smac : list Z;
  dmac : list Z;
  ipioe_p : IPIOE_Packet;
  data : list Z                               (* ENTRY_DATA_SIZE characters *)
}.

#[export] Instance eta_IPIoE_Queue_Entry : Eta IPIoE_Queue_Entry :=
  fun r => mkEntry (smac r) (dmac r) (ipioe_p r) (data r).

Record Worker := mkWorker {
  ipioe_queue : list IPIoE_Queue_Entry;       (* IPIoE_QUEUE_LENGTH entries *)
  queue_size : Z;
  queue_index : Z;
  queue_end : Z;
  worker_lock : spinlock_t;
  is_running : bool
}.

#[export] Instance eta_Worker : Eta Worker :=
  fun r => mkWorker (ipioe_queue r) (queue_size r) (queue_index r) (queue_end r) (worker_lock r) (is_running r).

(** [fast_memcpy] of the first [n] bytes of one array over another. *)
Definition copy_data (dst src : list Z) (n : Z) : option (list Z) :=
  if (n <=? zlen dst) && (n <=? zlen src) then Some (take (Z.to_nat n) src ++ drop (Z.to_nat n) dst) else None.

Definition packet_ok (p : IPIOE_Packet) : Prop :=
  0 <= version p < 16 /\ 0 <= IHL p < 16 /\ 0 <= opcode p < 256 /\ 0 <= dataLength p < 65536 /\
  0 <= messageID p < 65536 /\ 0 <= ipioe_checksum p < 65536 /\ 0 <= sourceCore p < 65536 /\
  0 <= destinationCore p < 65536 /\ 0 <= ipioe_flags p < 65536 /\ 0 <= serviceNumber p < 256 /\ 0 <= methodNumber p < 256.

Lemma zlen_encode p : zlen (encode p) = 16.
Proof. done. Qed.

Lemma decode_encode p : packet_ok p -> decode (encode p) = p.
Proof.
  destruct p as [v h o dl m c sc dc f sn mn]. unfold packet_ok. cbn [version IHL opcode dataLength messageID ipioe_checksum
    sourceCore destinationCore ipioe_flags serviceNumber methodNumber]. intros H.
  unfold decode, encode, le16. cbn -[Z.mul Z.add Z.div Z.modulo]. f_equal; try tauto; zdiv.
Qed.
