(* ===== verification/Apic.v ===== *)
(** * Local APICs, the APIC manager, inter-processor interrupts and the timer:
    [sources/devices/apic/], [sources/ipi/ipi.c], [sources/devices/pit/pit.c],
    [sources/misc/CoreUtils.c]

    [Kernel] holds the parts of the global [kernel] these functions share.  What
    the interrupts taken during a [hlt] do is an argument; [sti], [cli],
    [wbinvd] and [sfence] have no effect of their own here. *)

From S2P Require Import Prelude Defines Device Spinlock KMalloc Service PhysicalMemory MemoryPageMap FastMem Interrupts Worker.

#[local] Open Scope Z_scope.

Definition LAPIC_SVR_APIC_ENABLE : Z := Z.lor 0x100 0xff.
Definition IO_APIC_MMREG_IOREGSEL : Z := 0x00.
Definition IO_APIC_MMREG_IOWIN : Z := 0x10.
Definition APIC_DISABLE : Z := 0x010000.
Definition TRAMPOLINE : Z := 0x0A.
Definition MEM_PAGE_SIZE : Z := 0x1000.
Definition USER_STACK_SIZE_IN_PAGES : Z := 0x100.
Definition KERNEL_STACK_SIZE_IN_PAGES : Z := 0x24.

Record APIC := mkAPIC {
  apic_id : Z;
  apicio_base : Z;
  lapic_base : Z;
  lapic_reg : Z;
  lapic_apicver : Z;
  lapic_taskprior : Z;
  lapic_eoi : Z;
  lapic_ldr : Z;
  lapic_dfr : Z;
  lapic_svr : Z;
  lapic_esr : Z;
  lapic_icr0 : Z;
  lapic_icr1 : Z;
  lapic_lvt_tmr : Z;
  lapic_lvt_perf : Z;
  lapic_lvt_lint0 : Z;
  lapic_lvt_lint1 : Z;
  lapic_lvt_err : Z;
  lapic_tmr_init_cnt : Z;
  lapic_tmr_curr_cnt : Z;
  lapic_tmr_div : Z;
  lapic_last : Z;
  lapic_disable : Z;
  lapic_sw_enable : Z;
  lapic_cpufocus : Z;
  lapic_nmi : Z;
  tmr_periodic : Z;
  tmr_basediv : Z;
  bsp : bool;
  timer_enabled : bool;
  touch_flag : bool;
  stack_ptr : Z;
  kstack_ptr : Z;
  pit_counter : Z;
  wakeup_counter : Z;
  wakeup_apic_id : Z;
  wakeup_interrupt : Z;
  worker : Worker;
  fired : list Z;                             (* fired_interrupts *)
  role : list Z
}.

#[export] Instance eta_APIC : Eta APIC :=
  fun r => mkAPIC (apic_id r) (apicio_base r) (lapic_base r) (lapic_reg r) (lapic_apicver r) (lapic_taskprior r)
    (lapic_eoi r) (lapic_ldr r) (lapic_dfr r) (lapic_svr r) (lapic_esr r) (lapic_icr0 r) (lapic_icr1 r)
    (lapic_lvt_tmr r) (lapic_lvt_perf r) (lapic_lvt_lint0 r) (lapic_lvt_lint1 r) (lapic_lvt_err r)
    (lapic_tmr_init_cnt r) (lapic_tmr_curr_cnt r) (lapic_tmr_div r) (lapic_last r) (lapic_disable r)
    (lapic_sw_enable r) (lapic_cpufocus r) (lapic_nmi r) (tmr_periodic r) (tmr_basediv r) (bsp r)
    (timer_enabled r) (touch_flag r) (stack_ptr r) (kstack_ptr r) (pit_counter r) (wakeup_counter r)
    (wakeup_apic_id r) (wakeup_interrupt r) (worker r) (fired r) (role r).

Record APICManager := mkAPICManager {
  apics : list APIC;
  apics_count : Z;
  p_start_stack : Z;
  p_end_stack : Z;
  p_apics_count : Z;
  returned_core_id : Z
}.

#[export] Instance eta_APICManager : Eta APICManager :=
  fun r => mkAPICManager (apics r) (apics_count r) (p_start_stack r) (p_end_stack r) (p_apics_count r)
    (returned_core_id r).

Record Kernel := mkKernel {
  apicManager : APICManager;
  physicalMemoryManager : PhysicalMemoryManager;
  memoryAllocator : MemoryAllocator;
  kernel_memory : memory;
  local_apic_addr : Z;
  local_apicio_addr : Z;
  interruptManager : InterruptManager;
  ipi_receiverCore_id : Z;
  ipi_p_irq : Z;
  pit_ticks : Z;
  packets_received : Z
}.

#[export] Instance eta_Kernel : Eta Kernel :=
  fun r => mkKernel (apicManager r) (physicalMemoryManager r) (memoryAllocator r) (kernel_memory r)
    (local_apic_addr r) (local_apicio_addr r) (interruptManager r) (ipi_receiverCore_id r) (ipi_p_irq r)
    (pit_ticks r) (packets_received r).

(** [kernel.apicManager.apics[i]]. *)
Definition get_apic (k : Kernel) (i : Z) : option APIC := zget (apics (apicManager k)) i.

Definition upd_apic (k : Kernel) (i : Z) (f : APIC -> APIC) : option Kernel :=
  l ← zupd (apics (apicManager k)) i f;
  Some (k {{ apicManager := (apicManager k) {{ apics := l }} }}).

(** [apics[i].fired_interrupts[irq] = v] *)
Definition set_fired (k : Kernel) (i irq v : Z) : option Kernel :=
  a ← get_apic k i; f ← zset (fired a) irq v; upd_apic k i (fun a => a {{ fired := f }}).

(** ** CoreUtils.c *)

Definition LAST (k n : Z) : Z := Z.land k (Z.shiftl 1 n - 1).
Definition MID (k m n : Z) : Z := LAST (Z.shiftr k m) (n - m).
Definition createMask (p_value p_start p_end : Z) : Z := u32 (MID p_value p_start p_end).

Definition writeLocalAPIC (p_reg p_val : Z) : IO unit := write Mmio 4 p_reg p_val.
Definition readLocalAPIC (p_reg : Z) : IO Z := read Mmio 4 p_reg.

Definition getAPICId (p_reg : Z) : IO Z := cpuid ← readLocalAPIC p_reg; mret (createMask cpuid 24 31).

(** ** APIC.c *)

Definition ioapicRead (a : APIC) (p_index : Z) : IO Z :=
  _ ← write Mmio 4 (u64 (apicio_base a + IO_APIC_MMREG_IOREGSEL)) (u8 p_index);
  read Mmio 4 (u64 (apicio_base a + IO_APIC_MMREG_IOWIN)).

Definition ioapicWrite (a : APIC) (p_index p_value : Z) : IO unit :=
  _ ← write Mmio 4 (u64 (apicio_base a + IO_APIC_MMREG_IOREGSEL)) (u8 p_index);
  write Mmio 4 (u64 (apicio_base a + IO_APIC_MMREG_IOWIN)) p_value.

(** The dispatch of [get_virtual_address]. *)
Definition virtual_of (k : Kernel) (a : Z) : option (Kernel * Z) :=
  m ← GetVirtualAddress ((physicalMemoryManager k) {{ p_physical_address := a }});
  Some (k {{ physicalMemoryManager := m }}, virtualAddress m).

Definition lapic_registers (base : Z) (a : APIC) : APIC :=
  a {{ lapic_reg := u64 (base + 0x0020); lapic_apicver := u64 (base + 0x0030); lapic_taskprior := u64 (base + 0x0080);
       lapic_eoi := u64 (base + 0x00B0); lapic_ldr := u64 (base + 0x00D0); lapic_dfr := u64 (base + 0x00E0);
       lapic_svr := u64 (base + 0x00F0); lapic_esr := u64 (base + 0x280); lapic_icr0 := u64 (base + 0x300);
       lapic_icr1 := u64 (base + 0x310); lapic_lvt_tmr := u64 (base + 0x320); lapic_lvt_perf := u64 (base + 0x340);
       lapic_lvt_lint0 := u64 (base + 0x350); lapic_lvt_lint1 := u64 (base + 0x360);
       lapic_lvt_err := u64 (base + 0x370); lapic_tmr_init_cnt := u64 (base + 0x380);
       lapic_tmr_curr_cnt := u64 (base + 0x390); lapic_tmr_div := u64 (base + 0x3e0);
       lapic_last := u64 (base + 0x38f) }}.

(** [core] is the core that runs this.  [apic] holds whatever memory [kmalloc] returned. *)
Definition initialize_apic (core : Z) (k : Kernel) (apic : APIC) (p_apic_id p_local_apic : Z) (p_bsp : bool)
  : option (Kernel * APIC) :=
  let apic := apic {{ apic_id := p_apic_id; lapic_base := p_local_apic }} in
  x ← virtual_of k (local_apicio_addr k);
  let '(k, va) := x in
  let apic := apic {{ apicio_base := va; fired := replicate 256 0 }} in
  let apic := lapic_registers p_local_apic apic in
  let apic := apic {{ lapic_disable := 0x10000; lapic_sw_enable := 0x100; lapic_cpufocus := 0x200;
       lapic_nmi := Z.shiftl 4 8; tmr_periodic := 0x20000; tmr_basediv := Z.shiftl 1 20; bsp := p_bsp;
       touch_flag := p_bsp; timer_enabled := false }} in
  x ← kvalloc core (memoryAllocator k) (USER_STACK_SIZE_IN_PAGES * MEM_PAGE_SIZE);
  let '(al, s) := x in
  x ← kvalloc core al (KERNEL_STACK_SIZE_IN_PAGES * MEM_PAGE_SIZE);
  let '(al, ks) := x in
  let apic := apic {{ kstack_ptr := u64 (ks + KERNEL_STACK_SIZE_IN_PAGES * MEM_PAGE_SIZE);
                      stack_ptr := u64 (u64 (s + USER_STACK_SIZE_IN_PAGES * MEM_PAGE_SIZE) - 0x10) }} in
  let mem := put 8 (kernel_memory k) (stack_ptr apic) 0 in
  let apic := apic {{ pit_counter := 0; wakeup_counter := 0; wakeup_apic_id := 0 }} in
  x ← (if negb p_bsp then
         mem ← fast_memcpy mem (u64 (0x200000 + s32 (p_apic_id * 0x200000))) 0x200000 0x100000;
         Some (mem, apic {{ worker := (worker apic) {{ is_running := true; queue_index := 0; queue_size := 0;
                 queue_end := 0; worker_lock := spinlock_init (worker_lock (worker apic)) }} }})
       else Some (mem, apic));
  let '(mem, apic) := x in
  Some (k {{ memoryAllocator := al; kernel_memory := mem }}, apic {{ role := replicate 5 0 }}).

Definition initAPICIO (a : APIC) : IO unit :=
  _ ← writeLocalAPIC (lapic_taskprior a) 0;
  _ ← writeLocalAPIC (lapic_dfr a) 0xFFFFFFFF;
  _ ← writeLocalAPIC (lapic_ldr a) 0x01000000;
  writeLocalAPIC (lapic_svr a) LAPIC_SVR_APIC_ENABLE.

Definition disableAPICTimer (a : APIC) : IO unit := writeLocalAPIC (lapic_lvt_tmr a) APIC_DISABLE.

(** The timer of the core [i]. *)
Definition enableAPICTimer (k : Kernel) (i : Z) : IO Kernel :=
  r ← pure (RegisterInterrupt ((interruptManager k) {{ p_interruptNumber := IRQ0;
                                                       p_interruptHandler := Some "pit_fire"%string }}));
  k ← pure (upd_apic (k {{ interruptManager := fst r }}) i (fun a => a {{ pit_counter := 0 }}));
  a ← pure (get_apic k i);
  _ ← writeLocalAPIC (lapic_tmr_div a) 0x3;
  _ ← writeLocalAPIC (lapic_tmr_init_cnt a) 0xFFFFFFFF;
  _ ← RTCSleep_io 5;
  current_timer ← readLocalAPIC (lapic_tmr_curr_cnt a);
  _ ← writeLocalAPIC (lapic_lvt_tmr a) APIC_DISABLE;
  apic_ap_svr ← readLocalAPIC (lapic_svr a);
  _ ← writeLocalAPIC (lapic_svr a) (Z.lor (Z.lor apic_ap_svr 0x100) 0xff);
  _ ← writeLocalAPIC (lapic_lvt_tmr a) (Z.lor IRQ0 (tmr_periodic a));
  _ ← writeLocalAPIC (lapic_tmr_div a) 0x3;
  _ ← writeLocalAPIC (lapic_tmr_init_cnt a) (u64 (0xFFFFFFFF - current_timer) / (5 * 30));
  pure (upd_apic k i (fun a => a {{ timer_enabled := true }})).

Definition sendAPICEOI (a : APIC) : IO unit := writeLocalAPIC (lapic_eoi a) 0.

Definition mapAPICIRQ (a : APIC) (p_irq p_vector : Z) : IO unit :=
  let low_index := 0x10 + p_irq * 2 in
  let high_index := 0x10 + p_irq * 2 + 1 in
  high ← ioapicRead a high_index;
  let high := Z.land high (u32 (Z.lnot 0xff000000)) in
  let high := u32 (Z.lor high (Z.shiftl (apic_id a) 24)) in
  _ ← ioapicWrite a high_index high;
  low ← ioapicRead a low_index;
  let low := Z.land low (u32 (Z.lnot (Z.shiftl 1 16))) in
  let low := Z.land low (u32 (Z.lnot (Z.shiftl 1 11))) in
  let low := Z.land low (u32 (Z.lnot 0x700)) in
  let low := Z.land low (u32 (Z.lnot 0xff)) in
  let low := Z.lor low p_vector in
  ioapicWrite a low_index low.

(** [touched n]: the flag the started core sets, as the wait finds it the [n]-th time. *)
Fixpoint wait_touched (fuel : nat) (touched : nat -> bool) (n : nat) : option nat :=
  match fuel with
  | O => None
  | S fuel => if touched n then Some n else wait_touched fuel touched (S n)
  end.

Definition startup (fuel : nat) (touched : nat -> bool) (a : APIC) : IO bool :=
  if bsp a then mret true
  else
    let _core_id := u32 (Z.shiftl (apic_id a) 24) in
    _ ← writeLocalAPIC (lapic_icr1 a) _core_id;
    _ ← writeLocalAPIC (lapic_icr0 a) (Z.lor 0x4500 TRAMPOLINE);
    _ ← RTCSleep_io 1;
    _ ← writeLocalAPIC (lapic_icr1 a) _core_id;
    _ ← writeLocalAPIC (lapic_icr0 a) (Z.lor 0x4600 TRAMPOLINE);
    _ ← RTCSleep_io 1;
    _ ← writeLocalAPIC (lapic_icr0 a) (Z.lor 0x4600 TRAMPOLINE);
    _ ← pure (wait_touched fuel touched 0);
    mret true.

(** ** APICManager.c *)

Definition apic_services : list (string * Z) :=
  [("startupAPIC", 0); ("getCurrentCoreId", 1); ("touchCore", 3); ("moveInitialKernelStack", 2)]%string.

(** One round of the loop of [initAPICManager]; [raw] is the fresh memory of the new APIC. *)
Definition init_one_apic (core : Z) (raw : APIC) (i : Z) (k : Kernel) : option Kernel :=
  x ← virtual_of k (local_apic_addr k);
  let '(k, va) := x in
  x ← initialize_apic core k raw i va (i =? 0);
  let '(k, a) := x in
  l ← zset (apics (apicManager k)) i a;
  Some (k {{ apicManager := (apicManager k) {{ apics := l }} }}).

(** [sizeof(APIC)] is the argument [size]. *)
Definition initAPICManager (core size : Z) (raw : APIC) (k : Kernel) (p_service : Service) : IO (Kernel * Service) :=
  let n := u8 (p_apics_count (apicManager k)) in
  x ← pure (kmalloc core (memoryAllocator k) (u64 (size * n)));
  let k := k {{ memoryAllocator := fst x;
                apicManager := (apicManager k) {{ apics_count := n; apics := replicate (Z.to_nat n) raw }} }} in
  k ← pure (for_each (Z.to_nat n) 0 (init_one_apic core raw) k);
  a ← pure (get_apic k 0);
  _ ← initAPICIO a;
  p_service ← pure (add_services apic_services p_service);
  mret (k, p_service).

Definition startupAPIC (fuel : nat) (touched : Z -> nat -> bool) (k : Kernel) : IO unit :=
  io_for (Z.to_nat (apics_count (apicManager k) - 1)) 1 1
    (fun i _ => a ← pure (get_apic k i); _ ← startup fuel (touched i) a; mret tt) tt.

Definition getCurrentCoreId (k : Kernel) : IO Kernel :=
  x ← pure (virtual_of k (local_apic_addr k));
  let '(k, lapic_reg) := x in
  id ← getAPICId (u64 (lapic_reg + 0x0020));
  mret (k {{ apicManager := (apicManager k) {{ returned_core_id := id }} }}).

(** The dispatch of [get_current_core_id] and its answer. *)
Definition current_core (k : Kernel) : IO (Kernel * Z) :=
  k ← getCurrentCoreId k; mret (k, returned_core_id (apicManager k)).

Definition touchCore (k : Kernel) : IO (Kernel * bool) :=
  x ← current_core k;
  let '(k, apic_id) := x in
  if apic_id <? apics_count (apicManager k) then
    a ← pure (get_apic k apic_id);
    _ ← initAPICIO a;
    k ← pure (upd_apic k apic_id (fun a => a {{ touch_flag := true }}));
    mret (k, true)
  else mret (k, false).

(** The copy of the stack, from its base down to the word at [old_stack_pointer];
    [stack_words] is memory by words of eight bytes. *)
Fixpoint move_stack (n : nat) (p_start_stack old_stack_pointer stack_diff : Z) (stack_words : words) (i : Z) : words :=
  let src := old_stack_pointer + 8 * i in
  let dest := old_stack_pointer + stack_diff + 8 * i in
  let v := stack_words src in
  let stack_words := store stack_words dest
    (if (v <=? p_start_stack) && (old_stack_pointer <=? v) then u64 (v + stack_diff) else v) in
  match n with
  | O => stack_words
  | S n => if i =? 0 then stack_words else move_stack n p_start_stack old_stack_pointer stack_diff stack_words (i - 1)
  end.

(** [rsp] is the stack pointer; [None] for a new one is a stack that stays. *)
Definition moveInitialKernelStack (k : Kernel) (stack_words : words) (rsp : Z) : IO (Kernel * words * option Z) :=
  let p_start := p_start_stack (apicManager k) in
  let p_end := p_end_stack (apicManager k) in
  x ← current_core k;
  let '(k, id) := x in
  a ← pure (get_apic k id);
  if KERNEL_STACK_SIZE_IN_PAGES * MEM_PAGE_SIZE <? u64 (p_start - p_end) then mret (k, stack_words, None)
  else
    let stack_diff := u64 (stack_ptr a - p_start) in
    let new_stack_pointer := u64 (rsp + stack_diff) in
    let i := u64 (u64 (p_start - rsp) / 8 - 1) in
    mret (k, move_stack (Z.to_nat i) p_start rsp (new_stack_pointer - rsp) stack_words i, Some new_stack_pointer).

(** ** ipi.c *)

Definition SendFixedIPI (fuel : nat) (a : APIC) (p_irq : Z) : IO unit :=
  let _core_id := u32 (Z.shiftl (apic_id a) 24) in
  _ ← writeLocalAPIC (lapic_icr1 a) _core_id;
  _ ← writeLocalAPIC (lapic_icr0 a) (Z.lor 0x4000 p_irq);
  _ ← poll fuel (readLocalAPIC (lapic_icr0 a)) (fun v => Z.land v 0x1000 =? 0);
  mret tt.

Definition sendIPI (fuel : nat) (k : Kernel) : IO unit :=
  a ← pure (get_apic k (ipi_receiverCore_id k)); SendFixedIPI fuel a (ipi_p_irq k).

Definition InitializeIPI (p_service : Service) : option Service := add_services [("sendIPI"%string, 0)] p_service.

(** Setting the parameters of the service and dispatching it. *)
Definition dispatch_ipi (fuel : nat) (k : Kernel) (receiver irq : Z) : IO Kernel :=
  let k := k {{ ipi_receiverCore_id := u16 receiver; ipi_p_irq := u8 irq }} in
  _ ← sendIPI fuel k; mret k.

(** ** pit.c *)

(** [hlt k]: the state after the interrupts that end one [hlt]. *)
Definition pit_sleep (fuel : nat) (hlt : Kernel -> IO Kernel) (p_sleep p_apic_id p_interrupt : Z) (p_do_sleep : bool)
    (k : Kernel) : IO Kernel :=
  x ← current_core k;
  let '(k, id) := x in
  let me := u16 id in
  other ← pure (get_apic k p_apic_id);
  k ← pure (upd_apic k me (fun a => a {{ wakeup_counter := u64 (pit_counter other + p_sleep);
                                         wakeup_apic_id := p_apic_id; wakeup_interrupt := p_interrupt }}));
  if negb p_do_sleep then mret k
  else
    let set_fired v a := (f ← zset (fired a) p_interrupt v; Some (a {{ fired := f }}) : option APIC) in
    a ← pure (get_apic k me); a ← pure (set_fired 0 a);
    k ← pure (upd_apic k me (fun _ => a));
    k ← io_loop fuel (fun k =>
          a ← pure (get_apic k me); f ← pure (zget (fired a) p_interrupt);
          if f =? 0 then k ← hlt k; a ← pure (get_apic k me); _ ← sendAPICEOI a; mret (inl k)
          else mret (inr k)) k;
    a ← pure (get_apic k me); a ← pure (set_fired 0 a);
    pure (upd_apic k me (fun _ => a {{ wakeup_counter := 0; wakeup_apic_id := 0 }})).

Definition wakes (k : Kernel) (me i : Z) : option bool :=
  if i =? me then Some false
  else
    other ← get_apic k i; mine ← get_apic k me;
    Some ((wakeup_apic_id other =? me) && (wakeup_counter other <? pit_counter mine)).

Definition pit_fire (fuel : nat) (interrupt_number : Z) (k : Kernel) : IO Kernel :=
  x ← current_core k;
  let '(k, id) := x in
  let me := u8 id in
  k ← (if interrupt_number =? IRQ0 then
         k ← pure (upd_apic k me (fun a => a {{ pit_counter := u64 (pit_counter a + 1) }}));
         mine ← pure (get_apic k me);
         let k := if pit_counter mine mod 100 =? 0 then k {{ pit_ticks := u64 (pit_ticks k + 1) }} else k in
         io_for (Z.to_nat (apics_count (apicManager k))) 0 1 (fun i k =>
           b ← pure (wakes k me i);
           if (b : bool) then
             other ← pure (get_apic k i);
             dispatch_ipi fuel k i (wakeup_interrupt other)
           else mret k) k
       else mret k);
  a ← pure (get_apic k me);
  _ ← sendAPICEOI a;
  mret k.

(** ** The devices behind the registers *)

(** The I/O APIC: an index register that selects what the window reads and writes. *)
Fixpoint ioapic (base : Z) (regs : Z -> Z) (t : list event) : Z * (Z -> Z) :=
  match t with
  | [] => (0, regs)
  | Wr Mmio _ a v :: t =>
      let '(index, r) := ioapic base regs t in
      if a =? base + IO_APIC_MMREG_IOREGSEL then (v, r)
      else if a =? base + IO_APIC_MMREG_IOWIN then (index, fun i => if i =? index then v else r i)
      else (index, r)
  | _ :: t => ioapic base regs t
  end.

Definition ioapic_register (base : Z) (regs : Z -> Z) (t : list event) (i : Z) : Z := snd (ioapic base regs t) i.

Definition behind_window (dev : device) (base : Z) (regs : Z -> Z) : Prop :=
  forall t, let '(index, r) := ioapic base regs t in dev t Mmio 4 (base + IO_APIC_MMREG_IOWIN) = r index.

Definition ipi_events (dev : device) (a : APIC) (irq : Z) (k : nat) (t : list event) : list event :=
  reads dev Mmio 4 (lapic_icr0 a) (S k)
    (Wr Mmio 4 (lapic_icr0 a) (Z.lor 0x4000 irq) :: Wr Mmio 4 (lapic_icr1 a) (u32 (Z.shiftl (apic_id a) 24)) :: t).

(** ** Lemmas *)

Lemma createMask_id v : 0 <= v < 2 ^ 32 -> createMask v 24 31 = v / 2 ^ 24 mod 128.
Proof.
  intros Hv. unfold createMask, MID, LAST. change (Z.shiftl 1 (31 - 24) - 1) with (Z.ones 7).
  rewrite Z.land_ones, Z.shiftr_div_pow2 by lia. apply u32_small. change (2 ^ 7) with 128. zdiv.
Qed.

Lemma ioapicRead_run a i dev t regs : u64 (apicio_base a + IO_APIC_MMREG_IOREGSEL) = apicio_base a + IO_APIC_MMREG_IOREGSEL ->
  u64 (apicio_base a + IO_APIC_MMREG_IOWIN) = apicio_base a + IO_APIC_MMREG_IOWIN -> 0 <= i < 256 ->
  behind_window dev (apicio_base a) regs -> (forall j, 0 <= ioapic_register (apicio_base a) regs t j < 2 ^ 32) ->
  exists t', ioapicRead a i dev t = Some (ioapic_register (apicio_base a) regs t i, t') /\
    forall j, ioapic_register (apicio_base a) regs t' j = ioapic_register (apicio_base a) regs t j.
Proof.
  intros H0 H1 Hi Hdev Hr. unfold ioapicRead. run_io. rewrite H0, H1.
  change (8 * 4) with 32. rewrite (u8_small i), (Z.mod_small i) by lia.
  specialize (Hdev (Wr Mmio 4 (apicio_base a + IO_APIC_MMREG_IOREGSEL) i :: t)). cbn [ioapic] in Hdev.
  pose proof (Hr i) as Hri. unfold ioapic_register in *. destruct (ioapic (apicio_base a) regs t) as [ix r] eqn:E.
  rewrite Z.eqb_refl in Hdev. rewrite Hdev. cbn [snd] in *. rewrite Z.mod_small by lia.
  eexists. split; [reflexivity|]. intros j. cbn [ioapic]. by rewrite E, Z.eqb_refl.
Qed.

Lemma ioapicWrite_run a i v dev t regs : u64 (apicio_base a + IO_APIC_MMREG_IOREGSEL) = apicio_base a + IO_APIC_MMREG_IOREGSEL ->
  u64 (apicio_base a + IO_APIC_MMREG_IOWIN) = apicio_base a + IO_APIC_MMREG_IOWIN -> 0 <= i < 256 -> 0 <= v < 2 ^ 32 ->
  exists t', ioapicWrite a i v dev t = Some (tt, t') /\
    forall j, ioapic_register (apicio_base a) regs t' j = if j =? i then v else ioapic_register (apicio_base a) regs t j.
Proof.
  intros H0 H1 Hi Hv. unfold ioapicWrite. run_io. rewrite H0, H1. change (8 * 4) with 32.
  rewrite (u8_small i), (Z.mod_small i), (Z.mod_small v) by lia. eexists. split; [reflexivity|].
  intros j. unfold ioapic_register. cbn [ioapic]. destruct (ioapic (apicio_base a) regs t) as [ix r].
  rewrite Z.eqb_refl. bdestr (apicio_base a + IO_APIC_MMREG_IOWIN =? apicio_base a + IO_APIC_MMREG_IOREGSEL).
  - unfold IO_APIC_MMREG_IOWIN, IO_APIC_MMREG_IOREGSEL in Hb. lia.
  - by rewrite Z.eqb_refl.
Qed.

(** Masking with a 32-bit constant, bit by bit. *)
Lemma land_const c (P : Z -> bool) v n :
  all_between 0 32 (fun n => eqb (Z.testbit c n) (P n)) = true -> 0 <= v < 2 ^ 32 -> 0 <= n ->
  Z.testbit (Z.land v c) n = Z.testbit v n && P n.
Proof.
  intros Hc Hv Hn. rewrite Z.land_spec. destruct (decide (n < 32)) as [Hlt|Hge].
  - f_equal. apply eqb_true_iff. exact (all_between_spec 0 32 _ n Hc (conj Hn Hlt)).
  - by rewrite (testbit_high v 32) by lia.
Qed.

Lemma land_bound v c : 0 <= v < 2 ^ 32 -> 0 <= c -> 0 <= Z.land v c < 2 ^ 32.
Proof.
  intros Hv Hc. split; [apply Z.land_nonneg; lia|].
  destruct (decide (Z.land v c = 0)) as [->|Hne]; [lia|]. apply Z.log2_lt_pow2.
  - assert (0 <= Z.land v c) by (apply Z.land_nonneg; lia). lia.
  - eapply Z.le_lt_trans; [apply Z.log2_land; lia|].
    destruct (decide (v = 0)) as [->|]; [rewrite Z.land_0_l in Hne; lia|].
    assert (Z.log2 v < 32) by (apply Z.log2_lt_pow2; lia). lia.
Qed.

(** What [mapAPICIRQ] makes of the two halves of a redirection entry. *)
Definition high_half (high id : Z) : Z :=
  u32 (Z.lor (Z.land high (u32 (Z.lnot 0xff000000))) (Z.shiftl id 24)).

Definition low_half (low vector : Z) : Z :=
  Z.lor (Z.land (Z.land (Z.land (Z.land low (u32 (Z.lnot (Z.shiftl 1 16)))) (u32 (Z.lnot (Z.shiftl 1 11))))
    (u32 (Z.lnot 0x700))) (u32 (Z.lnot 0xff))) vector.

Lemma high_half_bits high id n : 0 <= high < 2 ^ 32 -> 0 <= id < 256 -> 0 <= n < 32 ->
  Z.testbit (high_half high id) n = if n <? 24 then Z.testbit high n else Z.testbit id (n - 24).
Proof.
  intros Hh Hid Hn. unfold high_half. unfold u32 at 1. rewrite Z.mod_pow2_bits_low, Z.lor_spec, Z.shiftl_spec by lia.
  rewrite (land_const _ (fun n => n <? 24)) by (done || lia). bdestr (n <? 24).
  - by rewrite andb_true_r, (Z.testbit_neg_r id) , orb_false_r by lia.
  - by rewrite andb_false_r.
Qed.

Lemma low_half_bits low vector n : 0 <= low < 2 ^ 32 -> 0 <= vector < 256 -> 0 <= n < 32 ->
  Z.testbit (low_half low vector) n =
    if n <? 8 then Z.testbit vector n else if (n <=? 11) || (n =? 16) then false else Z.testbit low n.
Proof.
  intros Hl Hv Hn. unfold low_half. rewrite Z.lor_spec.
  rewrite (land_const _ (fun n => 8 <=? n)) by (done || (repeat apply land_bound; done || lia)).
  rewrite (land_const _ (fun n => negb ((8 <=? n) && (n <=? 10)))) by (done || (repeat apply land_bound; done || lia)).
  rewrite (land_const _ (fun n => negb (n =? 11))) by (done || (repeat apply land_bound; done || lia)).
  rewrite (land_const _ (fun n => negb (n =? 16))) by (done || lia).
  destruct (decide (n < 8)).
  - zcases; try lia. by rewrite ?andb_false_r.
  - rewrite (testbit_high vector 8) by lia. rewrite orb_false_r. zcases; try lia; by rewrite ?andb_true_r, ?andb_false_r.
Qed.

Lemma half_bounds high low id vector : 0 <= high < 2 ^ 32 -> 0 <= low < 2 ^ 32 -> 0 <= vector < 256 ->
  0 <= high_half high id < 2 ^ 32 /\ 0 <= low_half low vector < 2 ^ 32.
Proof.
  intros Hh Hl Hv. split; [apply u32_range|]. apply lor_bound; [lia| |lia]. repeat apply land_bound; done || lia.
Qed.

(** C18: routing an interrupt line.  Against an I/O APIC that behaves as an index
    register and a window, [mapAPICIRQ] changes the redirection entry of the
    line and nothing else: it becomes unmasked, edge or level as before, fixed
    delivery in physical mode to this core, with the given vector. *)
Theorem irq_routed dev a p_irq p_vector regs t :
  let base := apicio_base a in let reg := ioapic_register base regs in
  0 <= base < 2 ^ 64 - 16 -> behind_window dev base regs -> (forall j, 0 <= reg t j < 2 ^ 32) ->
  0 <= p_irq < 120 -> 0 <= p_vector < 256 -> 0 <= apic_id a < 256 ->
  exists t', mapAPICIRQ a p_irq p_vector dev t = Some (tt, t') /\
    (forall j, j <> 0x10 + p_irq * 2 -> j <> 0x10 + p_irq * 2 + 1 -> reg t' j = reg t j) /\
    (forall n, 0 <= n < 32 -> Z.testbit (reg t' (0x10 + p_irq * 2 + 1)) n =
       if n <? 24 then Z.testbit (reg t (0x10 + p_irq * 2 + 1)) n else Z.testbit (apic_id a) (n - 24)) /\
    (forall n, 0 <= n < 32 -> Z.testbit (reg t' (0x10 + p_irq * 2)) n =
       if n <? 8 then Z.testbit p_vector n
       else if (n <=? 11) || (n =? 16) then false else Z.testbit (reg t (0x10 + p_irq * 2)) n).
Proof.
  intros base reg Hbase Hdev Hreg Hirq Hvec Hid. unfold mapAPICIRQ. cbv zeta.
  assert (u64 (base + IO_APIC_MMREG_IOREGSEL) = base + IO_APIC_MMREG_IOREGSEL) as H0
    by (apply u64_small; unfold IO_APIC_MMREG_IOREGSEL; lia).
  assert (u64 (base + IO_APIC_MMREG_IOWIN) = base + IO_APIC_MMREG_IOWIN) as H1
    by (apply u64_small; unfold IO_APIC_MMREG_IOWIN; lia).
  set (lo := 0x10 + p_irq * 2). set (hi := lo + 1).
  assert (0 <= lo < 256 /\ hi = lo + 1 /\ 0 <= hi < 256) as (Hlo & Hlh & Hhi) by (unfold lo, hi; lia). clearbody lo hi.
  destruct (half_bounds (reg t hi) (reg t lo) (apic_id a) p_vector (Hreg hi) (Hreg lo) Hvec) as [B1 B2].
  destruct (ioapicRead_run a hi dev t regs H0 H1 Hhi Hdev Hreg) as (t1 & E1 & R1).
  rewrite (run_bind _ _ _ _ _ _ E1). fold base reg in R1.
  fold base reg.
  destruct (ioapicWrite_run a hi (high_half (reg t hi) (apic_id a)) dev t1 regs H0 H1 Hhi B1) as (t2 & E2 & R2).
  fold base reg in R2. fold (high_half (reg t hi) (apic_id a)). rewrite (run_bind _ _ _ _ _ _ E2).
  destruct (ioapicRead_run a lo dev t2 regs H0 H1 Hlo Hdev) as (t3 & E3 & R3).
  { intros j. fold base reg. rewrite R2. destruct (j =? hi); [done|]. rewrite R1. apply Hreg. }
  rewrite (run_bind _ _ _ _ _ _ E3). fold base reg in R3. fold base reg.
  assert (reg t2 lo = reg t lo) as El by (rewrite R2, R1; bdestr (lo =? hi); [lia | done]).
  rewrite El. fold (low_half (reg t lo) p_vector).
  destruct (ioapicWrite_run a lo (low_half (reg t lo) p_vector) dev t3 regs H0 H1 Hlo B2) as (t4 & E4 & R4).
  exists t4. split; [exact E4|]. fold base reg in R4.
  assert (forall j, reg t4 j = if j =? lo then low_half (reg t lo) p_vector
    else if j =? hi then high_half (reg t hi) (apic_id a) else reg t j) as R.
  { intros j. rewrite R4, R3, R2, R1. done. }
  split_and!; intros.
  - rewrite R. zcases; done || lia.
  - rewrite R, Z.eqb_refl. bdestr (hi =? lo); [lia|]. apply high_half_bits; [apply Hreg | lia | lia].
  - rewrite R, Z.eqb_refl. apply low_half_bits; [apply Hreg | lia | lia].
Qed.

(** An I/O APIC whose entries start as [regs]. *)
Definition ioapic_device (base : Z) (regs : Z -> Z) : device := fun t _ _ a =>
  if a =? base + IO_APIC_MMREG_IOWIN then let '(index, r) := ioapic base regs t in r index else 0.

Definition blank_worker : Worker := mkWorker [] 0 0 0 (mkspinlock 0 0 0 0) false.

Definition blank_apic : APIC :=
  mkAPIC 0 0 0 0 0 0 0 0 0 0 0 0 0 0 0 0 0 0 0 0 0 0 0 0 0 0 0 0 false false false 0 0 0 0 0 0 blank_worker (replicate 256 0) [].

Definition apic_two : APIC := (lapic_registers 0xFEE00000 blank_apic) {{ apic_id := 2; apicio_base := 0xFEC00000 }}.

Lemma irq_routed_witness :
  exists t', mapAPICIRQ apic_two 14 46 (ioapic_device 0xFEC00000 (fun _ => 0x10000)) [] = Some (tt, t') /\
    ioapic_register 0xFEC00000 (fun _ => 0x10000) t' 46 = 0x10000 /\
    Z.testbit (ioapic_register 0xFEC00000 (fun _ => 0x10000) t' 45) 25 = true /\
    Z.testbit (ioapic_register 0xFEC00000 (fun _ => 0x10000) t' 44) 16 = false.
Proof.
  destruct (irq_routed (ioapic_device 0xFEC00000 (fun _ => 0x10000)) apic_two 14 46 (fun _ => 0x10000) [])
    as (t' & E & H1 & H2 & H3).
  - vm_compute. split; congruence.
  - intros t. change (apicio_base apic_two) with 0xFEC00000. unfold ioapic_device. rewrite Z.eqb_refl.
    by destruct (ioapic 0xFEC00000 (fun _ => 0x10000) t).
  - intros j. vm_compute. split; congruence.
  - lia.
  - lia.
  - vm_compute. split; congruence.
  - exists t'. split; [exact E|]. split; [exact (H1 46 ltac:(lia) ltac:(lia))|].
    split; [exact (H2 25 ltac:(lia)) | exact (H3 16 ltac:(lia))].
Defined.

(** A local APIC that delivers an interrupt within fewer than [fuel] polls. *)
Definition delivers (fuel : nat) (dev : device) (a : APIC) : Prop :=
  forall t, exists j, (j < fuel)%nat /\ Z.land (shows dev Mmio 4 (lapic_icr0 a) j t) 0x1000 = 0.

(** The accesses that make up one inter-processor interrupt. *)
Definition ipi_writes (a : APIC) (irq : Z) : list (space * Z * Z) :=
  [(Mmio, lapic_icr1 a, u32 (Z.shiftl (apic_id a) 24)); (Mmio, lapic_icr0 a, Z.lor 0x4000 irq)].

Lemma SendFixedIPI_run fuel dev a irq t : delivers fuel dev a -> 0 <= irq < 256 ->
  exists t', SendFixedIPI fuel a irq dev t = Some (tt, t') /\ writes t' = writes t ++ ipi_writes a irq.
Proof.
  intros Hd Hirq. unfold SendFixedIPI, writeLocalAPIC, readLocalAPIC.
  set (id := u32 (Z.shiftl (apic_id a) 24)). assert (0 <= id < 2 ^ 32) by apply u32_range.
  assert (0 <= Z.lor 0x4000 irq < 2 ^ 32) by (apply lor_bound; lia).
  destruct (Hd (Wr Mmio 4 (lapic_icr0 a) (Z.lor 0x4000 irq) :: Wr Mmio 4 (lapic_icr1 a) id :: t)) as (j & Hj & Hz).
  destruct (poll_total fuel dev Mmio 4 (lapic_icr0 a) (fun v => Z.land v 0x1000 =? 0) j
    (Wr Mmio 4 (lapic_icr0 a) (Z.lor 0x4000 irq) :: Wr Mmio 4 (lapic_icr1 a) id :: t) Hj) as (v & k & E & _).
  { by rewrite Z.eqb_eq. }
  eexists. split.
  - unfold mbind, IO_bind, write, mret, IO_ret. change (8 * 4) with 32. rewrite !Z.mod_small by lia.
    unfold poll in E. unfold poll. rewrite E. reflexivity.
  - rewrite writes_reads. cbn [writes]. by rewrite <- app_assoc.
Qed.

(** The cores [pit_fire] wakes, as it finds them. *)
Definition sleeps_on (k : Kernel) (me counter i : Z) : bool :=
  negb (i =? me) && match get_apic k i with
  | Some a => (wakeup_apic_id a =? me) && (wakeup_counter a <? counter)
  | None => false end.

Definition wake_writes (k : Kernel) (me counter i : Z) : list (space * Z * Z) :=
  if sleeps_on k me counter i then
    match get_apic k i with Some a => ipi_writes a (u8 (wakeup_interrupt a)) | None => [] end
  else [].

(** [dev] tells the running core, through the register [reg], that it is [me]. *)
Definition identifies (dev : device) (reg me : Z) : Prop :=
  forall t, dev t Mmio 4 reg mod 2 ^ 32 / 2 ^ 24 mod 128 = me.

Lemma current_core_exact k m dev me t :
  GetVirtualAddress ((physicalMemoryManager k) {{ p_physical_address := local_apic_addr k }}) = Some m ->
  identifies dev (u64 (virtualAddress m + 0x20)) me ->
  exists a v, current_core k dev t =
      Some ((k {{ physicalMemoryManager := m; apicManager := (apicManager k) {{ returned_core_id := me }} }}, me), Rd Mmio 4 a v :: t).
Proof.
  intros Hm Hid. unfold current_core, getCurrentCoreId, virtual_of. rewrite Hm.
  unfold getAPICId, readLocalAPIC. run_io.
  change (8 * 4) with 32. rewrite createMask_id, Hid by (apply Z.mod_pos_bound; lia).
  eexists _, _. reflexivity.
Qed.

Lemma current_core_run k m dev me t :
  GetVirtualAddress ((physicalMemoryManager k) {{ p_physical_address := local_apic_addr k }}) = Some m ->
  identifies dev (u64 (virtualAddress m + 0x20)) me ->
  exists t', current_core k dev t =
      Some ((k {{ physicalMemoryManager := m; apicManager := (apicManager k) {{ returned_core_id := me }} }}, me), t') /\
    writes t' = writes t.
Proof.
  intros Hm Hid. destruct (current_core_exact k m dev me t Hm Hid) as (a & v & E). eexists. split; [exact E | done].
Qed.

(** The running core can tell, again and again, that it is [me]. *)
Definition knows_itself (dev : device) (me : Z) (k : Kernel) : Prop :=
  exists m, GetVirtualAddress ((physicalMemoryManager k) {{ p_physical_address := local_apic_addr k }}) = Some m /\
    identifies dev (u64 (virtualAddress m + 0x20)) me.

(** All that asking changes of the kernel. *)
Lemma current_core_again k dev me t : knows_itself dev me k -> exists k' a v,
  current_core k dev t = Some ((k', me), Rd Mmio 4 a v :: t) /\ knows_itself dev me k' /\
  apics (apicManager k') = apics (apicManager k) /\ kernel_memory k' = kernel_memory k /\ memoryAllocator k' = memoryAllocator k.
Proof.
  intros (m & Hm & Hid). destruct (current_core_exact k m dev me t Hm Hid) as (a & v & E).
  eexists _, a, v. split; [exact E|]. split; [|done]. exists m. split; [|exact Hid]. by apply GetVirtualAddress_again in Hm.
Qed.

Lemma get_upd k i f k' : upd_apic k i f = Some k' ->
  (forall j, get_apic k' j = if j =? i then f <$> get_apic k j else get_apic k j) /\
  apics_count (apicManager k') = apics_count (apicManager k) /\ pit_ticks k' = pit_ticks k.
Proof.
  unfold upd_apic, get_apic, zupd. destruct (zget (apics (apicManager k)) i) as [a|] eqn:E; [|done]. cbn [mbind option_bind].
  destruct (zset (apics (apicManager k)) i (f a)) as [l|] eqn:El; [|done]. cbn [mbind option_bind].
  intros [= <-]. split; [|done]. intros j. cbn [apicManager apics]. simpl.
  rewrite (zget_zset _ _ _ _ _ El). bdestr (j =? i); [|done]. subst j. by rewrite E.
Qed.

Lemma upd_some k i a f : get_apic k i = Some a -> exists k', upd_apic k i f = Some k'.
Proof.
  intros E. unfold upd_apic, zupd. unfold get_apic in E. rewrite E. cbn [mbind option_bind].
  rewrite zset_eq by (eapply zget_lt; eauto). eexists. reflexivity.
Qed.

Lemma dispatch_ipi_run fuel dev k i irq a t :
  0 <= i < 65536 -> get_apic k i = Some a -> delivers fuel dev a ->
  exists k' t', dispatch_ipi fuel k i irq dev t = Some (k', t') /\ apicManager k' = apicManager k /\
    pit_ticks k' = pit_ticks k /\ writes t' = writes t ++ ipi_writes a (u8 irq).
Proof.
  intros Hi Ha Hd. unfold dispatch_ipi, sendIPI. cbn [ipi_receiverCore_id ipi_p_irq]. simpl.
  rewrite u16_small by lia.
  destruct (SendFixedIPI_run fuel dev a (u8 irq) t Hd (u8_range irq)) as (t' & E & Hw).
  eexists _, t'. split; [|split; [|split; [|exact Hw]]].
  - unfold get_apic in *. simpl. rewrite Ha. run_io. rewrite E. reflexivity.
  - done.
  - done.
Qed.

(** The loop of [pit_fire] over the cores of [k1]. *)
Lemma wake_loop_run fuel dev k1 me mine tick n t :
  get_apic k1 me = Some mine -> pit_counter mine = tick -> n = apics_count (apicManager k1) ->
  n = zlen (apics (apicManager k1)) -> n < 65536 -> (forall i a, get_apic k1 i = Some a -> delivers fuel dev a) ->
  exists k2 t', io_for (Z.to_nat n) 0 1 (fun i k =>
      b ← pure (wakes k me i);
      if (b : bool) then other ← pure (get_apic k i); dispatch_ipi fuel k i (wakeup_interrupt other)
      else mret k) k1 dev t = Some (k2, t') /\
    apicManager k2 = apicManager k1 /\ pit_ticks k2 = pit_ticks k1 /\
    writes t' = writes t ++ concat (map (wake_writes k1 me tick) (seqZ 0 n)).
Proof.
  intros Hme Htick Hn Hlen Hn16 Hdel. assert (0 <= n) by (rewrite Hlen; unfold zlen; lia).
  destruct (io_for_inv (fun i k2 t2 => apicManager k2 = apicManager k1 /\ pit_ticks k2 = pit_ticks k1 /\
      writes t2 = writes t ++ concat (map (wake_writes k1 me tick) (seqZ 0 i))) 1
    (fun i k => b ← pure (wakes k me i);
      if (b : bool) then other ← pure (get_apic k i); dispatch_ipi fuel k i (wakeup_interrupt other) else mret k)
    dev (Z.to_nat n) 0 k1 t) as (k2 & t2 & E & P).
  - by rewrite app_nil_r.
  - intros i k t3 (j & -> & Hj) (Hm & Ht & Hw). replace (0 + 1 * Z.of_nat j) with (Z.of_nat j) in * by lia.
    destruct (zget_some (apics (apicManager k1)) (Z.of_nat j)) as [other Ho]; [lia|].
    assert (forall x, get_apic k x = get_apic k1 x) as Hg by (intros; unfold get_apic; by rewrite Hm).
    unfold wakes. rewrite !Hg, Hme. assert (get_apic k1 (Z.of_nat j) = Some other) as Ho' by done. rewrite Ho'.
    rewrite seqZ_snoc, map_app, concat_app by lia. simpl. rewrite app_nil_r, app_assoc, <- Hw.
    unfold wake_writes, sleeps_on. rewrite Ho'. subst tick.
    bdestr (Z.of_nat j =? me); cbn [negb andb].
    { run_io. eexists _, _. split; [reflexivity|]. by rewrite app_nil_r. }
    cbn [mbind option_bind].
    destruct ((wakeup_apic_id other =? me) && (wakeup_counter other <? pit_counter mine)).
    2: { run_io. eexists _, _. split; [reflexivity|]. by rewrite app_nil_r. }
    destruct (dispatch_ipi_run fuel dev k (Z.of_nat j) (wakeup_interrupt other) other t3) as (k' & t' & E & E1 & E2 & E3);
      [lia | by rewrite Hg | by eapply Hdel |].
    eexists k', t'. split; [exact E | by rewrite E1, E2, E3].
  - exists k2, t2. split; [exact E|]. replace (0 + 1 * Z.of_nat (Z.to_nat n)) with n in P by lia. exact P.
Qed.

(** A timer tick.  On the core [me], [pit_fire] counts the tick and sends the
    interrupt each sleeper asked for to exactly the other cores that wait on
    this one and whose wake-up time has passed, in the order of the cores, then
    acknowledges the interrupt; it terminates whenever the local APIC delivers. *)
Theorem pit_fire_wakes fuel dev k m me mine t :
  let tick := u64 (pit_counter mine + 1) in
  GetVirtualAddress ((physicalMemoryManager k) {{ p_physical_address := local_apic_addr k }}) = Some m ->
  identifies dev (u64 (virtualAddress m + 0x20)) me -> get_apic k me = Some mine ->
  apics_count (apicManager k) = zlen (apics (apicManager k)) -> apics_count (apicManager k) < 256 ->
  (forall i a, get_apic k i = Some a -> delivers fuel dev a) ->
  exists k' t', pit_fire fuel IRQ0 k dev t = Some (k', t') /\
    writes t' = writes t ++ concat (map (wake_writes k me tick) (seqZ 0 (apics_count (apicManager k)))) ++
      [(Mmio, lapic_eoi mine, 0)] /\
    get_apic k' me = Some (mine {{ pit_counter := tick }}) /\
    (forall i, i <> me -> get_apic k' i = get_apic k i) /\
    pit_ticks k' = if tick mod 100 =? 0 then u64 (pit_ticks k + 1) else pit_ticks k.
Proof.
  intros tick Hm Hid Hme Hcount H256 Hdel. unfold pit_fire.
  destruct (current_core_run k m dev me t Hm Hid) as (t1 & E1 & W1). rewrite (run_bind _ _ _ _ _ _ E1).
  set (k0 := k {{ physicalMemoryManager := m; apicManager := (apicManager k) {{ returned_core_id := me }} }}).
  assert (forall i, get_apic k0 i = get_apic k i) as Hk0 by done.
  assert (0 <= me < 256) as Hme256 by (pose proof (zget_lt _ _ _ Hme); lia). rewrite (u8_small me) by lia.
  destruct (upd_some k0 me mine (fun a => a {{ pit_counter := u64 (pit_counter a + 1) }})) as [k1 Eu]; [by rewrite Hk0|].
  change (IRQ0 =? IRQ0) with true. cbv iota. rewrite Eu. destruct (get_upd _ _ _ _ Eu) as (Hg & Hc & Ht).
  assert (get_apic k1 me = Some (mine {{ pit_counter := tick }})) as Hme1.
  { rewrite Hg, Z.eqb_refl, Hk0, Hme. done. }
  assert (forall i, i <> me -> get_apic k1 i = get_apic k i) as Hot.
  { intros i Hi. rewrite Hg. bdestr (i =? me); [lia | apply Hk0]. }
  set (k1' := if pit_counter (mine {{ pit_counter := tick }}) mod 100 =? 0 then k1 {{ pit_ticks := u64 (pit_ticks k1 + 1) }} else k1).
  assert (apicManager k1' = apicManager k1) as Hk1' by (unfold k1'; by destruct (_ =? _)).
  assert (forall i, get_apic k1' i = get_apic k1 i) as Hg' by (intros; unfold get_apic; by rewrite Hk1').
  destruct (wake_loop_run fuel dev k1' me (mine {{ pit_counter := tick }}) tick (apics_count (apicManager k1')) t1)
    as (k2 & t2 & E2 & A2 & T2 & W2).
  - by rewrite Hg'.
  - done.
  - done.
  - rewrite Hk1', Hc. unfold upd_apic in Eu. destruct (zupd _ me _) as [l|] eqn:El in Eu; [|done].
    injection Eu as <-. unfold zupd in El. destruct (zget _ me) in El; [|done]. cbn [mbind option_bind] in El.
    simpl. apply zset_len in El. unfold zlen in *. by rewrite El.
  - rewrite Hk1', Hc. simpl. lia.
  - intros i a Hi. rewrite Hg' in Hi. destruct (decide (i = me)) as [->|Hne].
    + rewrite Hme1 in Hi. injection Hi as <-. exact (Hdel me mine Hme).
    + rewrite Hot in Hi by done. by eapply Hdel.
  - exists k2, (Wr Mmio 4 (lapic_eoi mine) 0 :: t2).
    assert (forall i, get_apic k2 i = get_apic k1 i) as Hg2 by (intros; rewrite <- Hg'; unfold get_apic; by rewrite A2).
    split; [|split; [|split; [|split]]].
    + unfold pure, mbind, IO_bind. rewrite Hme1. unfold mbind, IO_bind in E2. fold k1'.
      unfold pure in E2. rewrite E2. rewrite Hg2, Hme1. unfold sendAPICEOI, writeLocalAPIC. run_io. done.
    + cbn [writes]. rewrite W2, W1, Hk1', Hc, <- !app_assoc. do 3 f_equal. apply map_ext. intros i.
      unfold wake_writes, sleeps_on. destruct (decide (i = me)) as [->|Hne]; [by rewrite Z.eqb_refl|].
      by rewrite !Hg', !Hot by done.
    + by rewrite Hg2.
    + intros i Hi. rewrite Hg2. by apply Hot.
    + rewrite T2. unfold k1'. change (pit_counter (mine {{ pit_counter := tick }})) with tick.
      destruct (tick mod 100 =? 0); simpl; by rewrite Ht.
Qed.

Definition quiet_device : device := fun _ _ _ _ => 0.

Lemma quiet_delivers a : delivers 1 quiet_device a.
Proof. intros t. exists 0%nat. split; [lia | done]. Qed.

(** Two cores that share one local APIC address; neither ever slept. *)
Definition two_cores : Kernel :=
  let a := lapic_registers 0xFEE00000 blank_apic in
  mkKernel (mkAPICManager [a; a {{ apic_id := 1; wakeup_interrupt := 99 }}] 2 0 0 2 0) sample_manager small_allocator
    (fun _ => 0) 0xFEE00000 0xFEC00000 (mkInterruptManager (replicate 256 None) 0 None) 0 0 0 0.

(** Even a core that never went to sleep is sent an interrupt at every tick of core 0. *)
Lemma pit_fire_wakes_witness :
  exists k' t', pit_fire 1 IRQ0 two_cores quiet_device [] = Some (k', t') /\
    writes t' = [(Mmio, 0xFEE00310, 0x1000000); (Mmio, 0xFEE00300, 0x4063); (Mmio, 0xFEE000B0, 0)].
Proof.
  destruct (GetVirtualAddress ((physicalMemoryManager two_cores) {{ p_physical_address := local_apic_addr two_cores }}))
    as [m|] eqn:E; [|vm_compute in E; discriminate E].
  destruct (pit_fire_wakes 1 quiet_device two_cores m 0 (lapic_registers 0xFEE00000 blank_apic) [])
    as (k' & t' & E1 & W & _).
  - exact E.
  - intros t. reflexivity.
  - reflexivity.
  - reflexivity.
  - reflexivity.
  - intros i a _. apply quiet_delivers.
  - exists k', t'. split; [exact E1|]. rewrite W. vm_compute. reflexivity.
Defined.

(** ** The stack *)

(** The word [v] of a stack from [lo] to [hi] in its new place, [d] further on. *)
Definition relocated (lo hi d v : Z) : Z := if (v <=? hi) && (lo <=? v) then u64 (v + d) else v.

Lemma move_stack_spec hi lo d n : forall w, lo + 8 * Z.of_nat n + 8 <= lo + d \/ lo + d + 8 * Z.of_nat n + 8 <= lo ->
  (forall a, 0 <= w a < 2 ^ 64) ->
  (forall j, 0 <= j <= Z.of_nat n -> move_stack n hi lo d w (Z.of_nat n) (lo + d + 8 * j) = relocated lo hi d (w (lo + 8 * j))) /\
  (forall b, (forall j, 0 <= j <= Z.of_nat n -> b <> lo + d + 8 * j) -> move_stack n hi lo d w (Z.of_nat n) b = w b).
Proof.
  assert (forall v, 0 <= v < 2 ^ 64 -> 0 <= relocated lo hi d v < 2 ^ 64) as Hrel.
  { intros v Hv. unfold relocated. destruct (_ && _); [apply u64_range | done]. }
  induction n as [|n IH]; intros w Hov Hw.
  - cbn [move_stack]. fold (relocated lo hi d (w (lo + 8 * Z.of_nat 0))). unfold store. split.
    + intros j Hj. replace j with 0 by lia. change (Z.of_nat 0) with 0. rewrite Z.eqb_refl. by apply u64_small, Hrel.
    + intros b Hb. bdestr (b =? lo + d + 8 * Z.of_nat 0); [|done]. specialize (Hb 0). lia.
  - cbn [move_stack]. fold (relocated lo hi d (w (lo + 8 * Z.of_nat (S n)))).
    set (w' := store w _ _). bdestr (Z.of_nat (S n) =? 0); [lia|].
    replace (Z.of_nat (S n) - 1) with (Z.of_nat n) by lia.
    assert (forall b, w' b = if b =? lo + d + 8 * Z.of_nat (S n) then relocated lo hi d (w (lo + 8 * Z.of_nat (S n))) else w b) as Hw'.
    { intros b. unfold w', store. bdestr (b =? lo + d + 8 * Z.of_nat (S n)); [by apply u64_small, Hrel | done]. }
    destruct (IH w') as [H1 H2]; [lia | intros a; rewrite Hw'; destruct (_ =? _); [by apply Hrel | done] |].
    split.
    + intros j Hj. destruct (decide (j = Z.of_nat (S n))) as [->|Hne].
      * rewrite H2 by lia. by rewrite Hw', Z.eqb_refl.
      * rewrite H1 by lia. rewrite Hw'. bdestr (lo + 8 * j =? lo + d + 8 * Z.of_nat (S n)); [lia | done].
    + intros b Hall. rewrite H2 by (intros j Hj; apply Hall; lia). rewrite Hw'.
      bdestr (b =? lo + d + 8 * Z.of_nat (S n)); [|done]. specialize (Hall (Z.of_nat (S n))). lia.
Qed.

(** The move of the boot stack.  For a stack that fits and whose new place
    does not overlap the old one, [moveInitialKernelStack] returns the stack
    pointer moved by the distance of the two bases; every word between the stack
    pointer and the base is found at that distance, the saved pointers into the
    stack (base included) moved along, and no other word of memory changes. *)
Theorem stack_moved dev k m me a rsp w t :
  let hi := p_start_stack (apicManager k) in let d := stack_ptr a - hi in
  GetVirtualAddress ((physicalMemoryManager k) {{ p_physical_address := local_apic_addr k }}) = Some m ->
  identifies dev (u64 (virtualAddress m + 0x20)) me -> get_apic k me = Some a ->
  0 <= u64 (hi - p_end_stack (apicManager k)) <= 0x24000 ->
  0 <= rsp < hi -> (hi - rsp) mod 8 = 0 -> hi < 2 ^ 64 -> 0 <= rsp + d -> hi + d < 2 ^ 64 ->
  hi <= rsp + d \/ hi + d <= rsp -> (forall b, 0 <= w b < 2 ^ 64) ->
  exists k' w' t', moveInitialKernelStack k w rsp dev t = Some ((k', w', Some (rsp + d)), t') /\
    (forall b, rsp <= b < hi -> (b - rsp) mod 8 = 0 -> w' (b + d) = relocated rsp hi d (w b)) /\
    (forall b, b < rsp + d \/ hi + d <= b -> w' b = w b).
Proof.
  intros hi d Hm Hid Ha Hsize Hrsp Hal Hhi Hd0 Hd1 Hov Hw. unfold moveInitialKernelStack.
  destruct (current_core_run k m dev me t Hm Hid) as (t1 & E1 & _). rewrite (run_bind _ _ _ _ _ _ E1).
  change (get_apic (k {{ physicalMemoryManager := m; apicManager := (apicManager k) {{ returned_core_id := me }} }}) me)
    with (get_apic k me). rewrite Ha. fold hi.
  bdestr (KERNEL_STACK_SIZE_IN_PAGES * MEM_PAGE_SIZE <? u64 (hi - p_end_stack (apicManager k))).
  { unfold KERNEL_STACK_SIZE_IN_PAGES, MEM_PAGE_SIZE in Hb. lia. }
  run_io. fold d.
  assert (u64 (rsp + u64 d) = rsp + d) as ->.
  { rewrite Z.add_comm, u64_add_l, Z.add_comm. apply u64_small. lia. }
  set (n := Z.to_nat ((hi - rsp) / 8 - 1)). assert ((hi - rsp) / 8 - 1 = Z.of_nat n) as Hn by (unfold n; zdiv).
  assert (8 * Z.of_nat n + 8 = hi - rsp) as Hsz by zdiv.
  rewrite (u64_small (hi - rsp)), Hn, (u64_small (Z.of_nat n)), Nat2Z.id by lia.
  replace (rsp + d - rsp) with d by lia.
  destruct (move_stack_spec hi rsp d n w) as [H1 H2]; [lia | done |].
  eexists _, _, _. split; [reflexivity|]. split.
  - intros b Hb0 Hb8. specialize (H1 ((b - rsp) / 8)).
    replace (rsp + d + 8 * ((b - rsp) / 8)) with (b + d) in H1 by zdiv.
    replace (rsp + 8 * ((b - rsp) / 8)) with b in H1 by zdiv. apply H1. zdiv.
  - intros b Hb0. apply H2. intros j Hj. lia.
Qed.

Definition boot_stack_kernel : Kernel :=
  two_cores {{ apicManager := (apicManager two_cores) {{ p_start_stack := 0x9000; p_end_stack := 0x8000;
    apics := [(lapic_registers 0xFEE00000 blank_apic) {{ stack_ptr := 0x109000 }}] }} }}.

(** Three words, the middle one a saved frame pointer. *)
Definition boot_stack : words := fun b => if b =? 0x8FF0 then 0x8FF8 else if b =? 0x8FE8 then 7 else 0.

Lemma stack_moved_witness :
  exists k' w' t', moveInitialKernelStack boot_stack_kernel boot_stack 0x8FE8 quiet_device [] =
      Some ((k', w', Some 0x108FE8), t') /\ w' 0x108FE8 = 7 /\ w' 0x108FF0 = 0x108FF8 /\ w' 0x8FF0 = 0x8FF8.
Proof.
  destruct (GetVirtualAddress ((physicalMemoryManager boot_stack_kernel) {{ p_physical_address := local_apic_addr boot_stack_kernel }}))
    as [m|] eqn:E; [|vm_compute in E; discriminate E].
  destruct (stack_moved quiet_device boot_stack_kernel m 0 ((lapic_registers 0xFEE00000 blank_apic) {{ stack_ptr := 0x109000 }})
    0x8FE8 boot_stack []) as (k' & w' & t' & E1 & H1 & H2).
  - exact E.
  - intros t. reflexivity.
  - reflexivity.
  - vm_compute. split; congruence.
  - vm_compute. split; congruence.
  - reflexivity.
  - reflexivity.
  - vm_compute. congruence.
  - reflexivity.
  - left. vm_compute. congruence.
  - intros b. unfold boot_stack. destruct (b =? 0x8FF0); [lia|]. destruct (b =? 0x8FE8); lia.
  - exists k', w', t'. split; [exact E1|].
    split; [exact (H1 0x8FE8 ltac:(vm_compute; split; congruence) eq_refl)|].
    split; [exact (H1 0x8FF0 ltac:(vm_compute; split; congruence) eq_refl)|].
    exact (H2 0x8FF0 ltac:(left; reflexivity)).
Defined.

(** Bit 31 of the identifier register is dropped: core 200 takes itself for core 72. *)
Lemma core_number_truncated : createMask (Z.shiftl 200 24) 24 31 = 72.
Proof. reflexivity. Qed.
