(* ===== verification/IPIoE.v ===== *)
(** * Messages between cores over Ethernet: [sources/devices/network/IPIoE.c]

    A frame is bytes of [kernel_memory]; the queue of a core is in its APIC. *)

From S2P Require Import Prelude Defines Device Spinlock KMalloc PhysicalMemory FastMem Network Worker Interrupts Apic.

#[local] Open Scope Z_scope.

Definition SIZEOF_NetworkPacket : Z := 16.
Definition SIZEOF_EthernetPacket : Z := 14 + 1600.

Definition getIPIOEPacketFromSKB (skb : NetworkPacket) : Z := ethernetPacket skb + ETH_HLEN.

Definition getIPIOEPacketBodyFromSKB (mem : memory) (skb : NetworkPacket) : Z :=
  let ipoe_header := ethernetPacket skb + ETH_HLEN in
  ipoe_header + IHL (decode (read_bytes mem ipoe_header 16)) * 4.

(** What a request leaves in the worker of its core; [None] is an array overrun. *)
Definition enqueue (mem : memory) (skb : NetworkPacket) (w : Worker) : option Worker :=
  let e := getEthernetPacketFromSKB skb in
  let p := getIPIOEPacketFromSKB skb in
  let at_end := queue_end w in
  let w := w {{ queue_end := (queue_end w + 1) mod IPIoE_QUEUE_LENGTH; queue_size := u16 (queue_size w + 1) }} in
  let hdr := decode (read_bytes mem p 16) in
  entry ← zget (ipioe_queue w) at_end;
  d ← copy_data (data entry) (read_bytes mem (p + 16) (dataLength hdr)) (dataLength hdr);
  q ← zset (ipioe_queue w) at_end
        (entry {{ ipioe_p := hdr; smac := read_bytes mem (h_source e) 6; dmac := read_bytes mem (h_dest e) 6; data := d }});
  Some (w {{ ipioe_queue := q }}).

Definition processIPIOEPacket (fuel : nat) (k : Kernel) (skb : NetworkPacket) : IO Kernel :=
  let hdr := decode (read_bytes (kernel_memory k) (getIPIOEPacketFromSKB skb) 16) in
  if opcode hdr =? IPIoE_OPCODE_REQUEST then
    x ← current_core k;
    let '(k, cur_core_id) := x in
    let core_id := destinationCore hdr in
    a ← pure (get_apic k core_id);
    if queue_size (worker a) =? IPIoE_QUEUE_LENGTH then mret k
    else
      w ← pure (enqueue (kernel_memory k) skb (worker a));
      k ← pure (upd_apic k core_id (fun a => a {{ worker := w }}));
      if negb (core_id =? cur_core_id) then
        a ← pure (get_apic k core_id); _ ← SendFixedIPI fuel a IPIOE_IPI; mret k
      else
        a ← pure (get_apic k cur_core_id); f ← pure (zset (fired a) IPIOE_IPI 1);
        pure (upd_apic k cur_core_id (fun a => a {{ fired := f }}))
  else mret k.

(** [mac] is the destination, [driver_mac] the address of the driver, [data] the
    address of the message; the result is 1, whatever happens to the frame. *)
Definition sendIPIoE_Packet (core : Z) (driver_mac : list Z) (k : Kernel) (opcode : Z) (mac : list Z)
    (coreid score_id service method data datalen : Z) : option (Kernel * list Z * Z) :=
  x ← kmalloc core (memoryAllocator k) SIZEOF_NetworkPacket;
  x ← kmalloc core (fst x) SIZEOF_EthernetPacket;
  let '(al, e) := x in
  let np := mkNetworkPacket e (u16 (ETH_HLEN + 16 + datalen)) in
  let mem := write_bytes (kernel_memory k) (h_dest e) mac in
  let mem := write_bytes mem (h_source e) driver_mac in
  let mem := put 2 mem (h_proto e) (htons ETHERTYPE_IPIOE) in
  let mem := write_bytes mem (h_data e)
        (encode (mkIPIOE_Packet 1 0x00 opcode datalen 1 0x0000 score_id coreid 0x0000 service method)) in
  mem ← fast_memcpy mem (h_data e + 16) data datalen;
  Some (k {{ memoryAllocator := al; kernel_memory := mem }}, read_bytes mem e (packet_size np), 1).

Definition set_running (k : Kernel) (i : Z) (b : bool) : option Kernel :=
  upd_apic k i (fun a => a {{ worker := (worker a) {{ is_running := b }} }}).

(** Sleep until [ready] holds of the APIC of the core. *)
Definition wait_until (fuel : nat) (hlt : Kernel -> IO Kernel) (ready : APIC -> option bool) (k : Kernel) : IO Kernel :=
  x ← current_core k;
  let '(k, id) := x in
  let me := u16 id in
  k ← pure (set_fired k me IPIOE_IPI 0);
  k ← io_loop fuel (fun k =>
        a ← pure (get_apic k me); r ← pure (ready a);
        if (r : bool) then mret (inr k)
        else
          k ← pure (set_running k me false);
          k ← hlt k; a ← pure (get_apic k me); _ ← sendAPICEOI a; mret (inl k)) k;
  k ← pure (set_running k me true);
  pure (set_fired k me IPIOE_IPI 0).

Definition wait_IPIoE (fuel : nat) (hlt : Kernel -> IO Kernel) (k : Kernel) : IO Kernel :=
  wait_until fuel hlt (fun a => f ← zget (fired a) IPIOE_IPI; Some (negb (f =? 0))) k.

(** Looks at the first slot of the queue only. *)
Definition wait_IPIoE_messageId (fuel : nat) (hlt : Kernel -> IO Kernel) (message_id : Z) (k : Kernel) : IO Kernel :=
  wait_until fuel hlt (fun a =>
    f ← zget (fired a) IPIOE_IPI; e ← zget (ipioe_queue (worker a)) 0;
    Some (negb ((f =? 0) || negb (messageID (ipioe_p e) =? message_id)))) k.

(** [raw] is the memory [kmalloc] returned for the copy. *)
Definition workerDequeue (core : Z) (raw : IPIoE_Queue_Entry) (k : Kernel) (core_id : Z)
  : option (Kernel * IPIoE_Queue_Entry) :=
  a ← get_apic k core_id;
  let w := worker a in
  q ← zget (ipioe_queue w) (queue_index w);
  x ← kmalloc core (memoryAllocator k) (12 + 16 + ENTRY_DATA_SIZE);
  d ← copy_data (data raw) (data q) (dataLength (ipioe_p q));
  let e := raw {{ smac := smac q; dmac := dmac q; ipioe_p := ipioe_p q; data := d }} in
  k ← upd_apic (k {{ memoryAllocator := fst x }}) core_id (fun a => a {{ worker := (worker a)
        {{ queue_index := (queue_index (worker a) + 1) mod IPIoE_QUEUE_LENGTH;
           queue_size := u16 (queue_size (worker a) - 1) }} }});
  Some (k, e).

(** ** Lemmas *)

(** The frame of a message. *)
Definition message_frame (mac driver_mac : list Z) (p : IPIOE_Packet) (payload : list Z) : list Z :=
  mac ++ driver_mac ++ [8; 18] ++ encode p ++ payload.

Definition message_header (coreid score_id service method datalen : Z) : IPIOE_Packet :=
  mkIPIOE_Packet 1 0 IPIoE_OPCODE_REQUEST datalen 1 0 score_id coreid 0 service method.

(** The parts of a frame in memory. *)
Lemma frame_parts mem e mac driver_mac p payload n :
  length mac = 6%nat -> length driver_mac = 6%nat -> zlen payload = n ->
  read_bytes mem e (30 + n) = message_frame mac driver_mac p payload <->
  read_bytes mem e 6 = mac /\ read_bytes mem (e + 6) 6 = driver_mac /\ read_bytes mem (e + 12) 2 = [8; 18] /\
  read_bytes mem (e + 14) 16 = encode p /\ read_bytes mem (e + 30) n = payload.
Proof.
  intros H1 H2 Hn. assert (0 <= n) by (unfold zlen in Hn; lia).
  replace (30 + n) with (6 + (6 + (2 + (16 + n)))) by lia. unfold message_frame.
  rewrite !read_bytes_app by lia. rewrite <- !Z.add_assoc. change (6 + 6) with 12. change (12 + 2) with 14. change (14 + 16) with 30.
  change (6 + (6 + 2)) with 14. change (6 + (6 + (2 + 16))) with 30.
  assert (forall a k, 0 <= k -> length (read_bytes mem a k) = Z.to_nat k) as Hl by (intros; unfold read_bytes; by rewrite length_map, length_seqZ).
  split.
  - intros Heq. apply app_inj_1 in Heq as [-> Heq]; [|rewrite Hl by lia; by rewrite H1].
    apply app_inj_1 in Heq as [-> Heq]; [|rewrite Hl by lia; by rewrite H2].
    apply app_inj_1 in Heq as [-> Heq]; [|by rewrite Hl by lia].
    apply app_inj_1 in Heq as [-> ->]; [|by rewrite Hl by lia]. done.
  - by intros (-> & -> & -> & -> & ->).
Qed.

(** What [sendIPIoE_Packet] hands to the driver. *)
Lemma sent_frame core driver_mac k mac coreid score_id service method data datalen x y :
  kmalloc core (memoryAllocator k) SIZEOF_NetworkPacket = Some x -> kmalloc core (fst x) SIZEOF_EthernetPacket = Some y ->
  length mac = 6%nat -> length driver_mac = 6%nat -> 0 <= datalen <= 1584 ->
  data + datalen <= snd y \/ snd y + 30 + datalen <= data ->
  exists k', sendIPIoE_Packet core driver_mac k IPIoE_OPCODE_REQUEST mac coreid score_id service method data datalen =
    Some (k', message_frame mac driver_mac (message_header coreid score_id service method datalen)
      (read_bytes (kernel_memory k) data datalen), 1) /\
    exists mem', k' = k {{ memoryAllocator := fst y; kernel_memory := mem' }}.
Proof.
  intros Ex Ey Hm Hdm Hd Hov. unfold sendIPIoE_Packet. rewrite Ex. cbn [mbind option_bind]. rewrite Ey. cbn [mbind option_bind].
  destruct y as [al e]. cbn [snd] in Hov. fold (message_header coreid score_id service method datalen).
  set (hdr := message_header coreid score_id service method datalen).
  set (mem1 := write_bytes (put 2 (write_bytes (write_bytes (kernel_memory k) (h_dest e) mac) (h_source e) driver_mac)
     (h_proto e) (htons ETHERTYPE_IPIOE)) (h_data e) (encode hdr)).
  destruct (fast_memcpy_run mem1 (h_data e + 16) data datalen) as (mem2 & -> & H2); [lia | offsets; lia |].
  cbn [mbind option_bind]. eexists. split; [|eexists; reflexivity]. do 3 f_equal. cbn [packet_size]. change (ETH_HLEN + 16 + datalen) with (30 + datalen).
  rewrite u16_small by lia. unfold mem1 in *. clear mem1. change (put 2 ?m ?a (htons ETHERTYPE_IPIOE)) with (write_bytes m a [8; 18]) in *.
  assert (zlen (encode hdr) = 16) as He by done. assert (zlen (read_bytes (kernel_memory k) data datalen) = datalen) as Hl by (apply zlen_read; lia).
  rewrite (read_ext _ _ _ _ (fun b _ => H2 b)). apply frame_parts; [done | done | done |].
  assert (length (encode hdr) = 16%nat) as Hen by done. clearbody hdr. offsets.
  assert (read_bytes (write_bytes (write_bytes (write_bytes (write_bytes (kernel_memory k) e mac) (e + 6) driver_mac)
    (e + 12) [8; 18]) (e + 14) (encode hdr)) data datalen = read_bytes (kernel_memory k) data datalen) as ->.
  { rewrite !read_out by block_side. done. }
  replace (e + 14 + 16) with (e + 30) in * by lia. split_and!; fields; done.
Qed.

(** A worker whose queue is empty. *)
Definition idle_worker (w : Worker) : Prop :=
  queue_size w = 0 /\ queue_index w = 0 /\ queue_end w = 0 /\
  exists q, ipioe_queue w = [q] /\ zlen (data q) = ENTRY_DATA_SIZE.

(** A worker that holds one message. *)
Definition holds_message (w : Worker) (s d : list Z) (p : IPIOE_Packet) (payload : list Z) : Prop :=
  queue_size w = 1 /\ queue_index w = 0 /\ queue_end w = 0 /\
  exists dat, ipioe_queue w = [mkEntry s d p dat] /\ zlen dat = ENTRY_DATA_SIZE /\ take (Z.to_nat (zlen payload)) dat = payload.

Lemma copy_data_run dst src n : 0 <= n -> n <= zlen dst -> n = zlen src ->
  exists d, copy_data dst src n = Some d /\ zlen d = zlen dst /\ take (Z.to_nat n) d = src.
Proof.
  unfold copy_data, zlen. intros Hn Hd Hs. bdestr (n <=? Z.of_nat (length dst)); [|lia].
  bdestr (n <=? Z.of_nat (length src)); [|lia]. simpl. eexists. split; [reflexivity|].
  rewrite (take_ge src) by lia. split.
  - rewrite length_app, length_drop. lia.
  - rewrite take_app_le by lia. apply take_ge. lia.
Qed.

Lemma enqueue_run mem skb w mac driver_mac p payload :
  let n := zlen payload in
  idle_worker w -> packet_ok p -> dataLength p = n -> n <= ENTRY_DATA_SIZE -> length mac = 6%nat -> length driver_mac = 6%nat ->
  read_bytes mem (ethernetPacket skb) (30 + n) = message_frame mac driver_mac p payload ->
  exists w', enqueue mem skb w = Some w' /\ holds_message w' driver_mac mac p payload.
Proof.
  intros n (Hs & Hi & He & q & Hq & Hqd) Hp Hn Hn1 Hm Hdm Hf.
  apply frame_parts in Hf as (F1 & F2 & F3 & F4 & F5); [|done..].
  unfold enqueue, getIPIOEPacketFromSKB, getEthernetPacketFromSKB. unfold ETH_HLEN, h_source, h_dest.
  rewrite F1, F2, F4, decode_encode, Hn by done. simpl. rewrite Hq, He.
  change (zget [q] 0) with (Some q). cbn [mbind option_bind].
  replace (ethernetPacket skb + 14 + 16) with (ethernetPacket skb + 30) by lia. rewrite F5.
  destruct (copy_data_run (data q) payload n) as (d & -> & Hd1 & Hd2); [unfold n, zlen; lia | lia | done |].
  cbn [mbind option_bind]. eexists. split; [reflexivity|]. unfold holds_message. simpl. rewrite Hs, Hi.
  split_and!; [done | done | done |]. exists d. split_and!; [|by rewrite Hd1 | done]. by destruct q.
Qed.

(** The rest of [upd_apic]. *)
Lemma upd_rest k i f k' : upd_apic k i f = Some k' ->
  kernel_memory k' = kernel_memory k /\ memoryAllocator k' = memoryAllocator k /\ packets_received k' = packets_received k.
Proof. unfold upd_apic. destruct (zupd _ i f); [|done]. intros [= <-]. done. Qed.

(** Taking the message of a worker out again. *)
Lemma dequeue_run core raw k core_id a x s d p payload :
  get_apic k core_id = Some a -> holds_message (worker a) s d p payload -> dataLength p = zlen payload ->
  zlen payload <= ENTRY_DATA_SIZE -> zlen (data raw) = ENTRY_DATA_SIZE ->
  kmalloc core (memoryAllocator k) (12 + 16 + ENTRY_DATA_SIZE) = Some x ->
  exists k' e a', workerDequeue core raw k core_id = Some (k', e) /\ smac e = s /\ dmac e = d /\ ipioe_p e = p /\
    data e = payload ++ drop (Z.to_nat (zlen payload)) (data raw) /\ get_apic k' core_id = Some a' /\ idle_worker (worker a') /\
    kernel_memory k' = kernel_memory k /\ memoryAllocator k' = fst x.
Proof.
  intros Ha (H1 & H2 & H3 & dat & Hq & Hdl & Htk) Hn Hle Hraw Hk. unfold workerDequeue. rewrite Ha. cbn [mbind option_bind].
  rewrite Hq, H2. change (zget [?x] 0) with (Some x). cbn [mbind option_bind]. rewrite Hk. cbn [mbind option_bind ipioe_p data].
  rewrite Hn. assert (0 <= zlen payload) by (unfold zlen; lia).
  unfold copy_data. bdestr (zlen payload <=? zlen (data raw)); [|lia]. bdestr (zlen payload <=? zlen dat); [|lia]. cbn [andb mbind option_bind].
  match goal with |- context [upd_apic ?kk core_id ?f] => destruct (upd_some kk core_id a f) as [k' Ek]; [done|] end.
  rewrite Ek. cbn [mbind option_bind]. destruct (get_upd _ _ _ _ Ek) as [Hg _]. specialize (Hg core_id). rewrite Z.eqb_refl in Hg.
  change (get_apic (k {{ memoryAllocator := fst x }}) core_id) with (get_apic k core_id) in Hg. rewrite Ha in Hg.
  destruct (upd_rest _ _ _ _ Ek) as (Hmem & Hal & _). eexists _, _, _. split; [reflexivity|]. simpl. rewrite Htk.
  split; [done|]. split; [done|]. split; [done|]. split; [done|]. split; [exact Hg|]. split; [|by rewrite Hmem, Hal].
  unfold idle_worker. simpl. rewrite H1, H2, H3. split_and!; try done. exists (mkEntry s d p dat). done.
Qed.

(** A request for an idle worker: the message is queued and the core told. *)
Lemma process_request fuel dev k skb mac driver_mac p payload m cur a t :
  read_bytes (kernel_memory k) (ethernetPacket skb) (30 + zlen payload) = message_frame mac driver_mac p payload ->
  length mac = 6%nat -> length driver_mac = 6%nat -> packet_ok p -> opcode p = IPIoE_OPCODE_REQUEST ->
  dataLength p = zlen payload -> zlen payload <= ENTRY_DATA_SIZE ->
  GetVirtualAddress ((physicalMemoryManager k) {{ p_physical_address := local_apic_addr k }}) = Some m ->
  identifies dev (u64 (virtualAddress m + 0x20)) cur -> get_apic k (destinationCore p) = Some a ->
  idle_worker (worker a) -> zlen (fired a) = 256 -> delivers fuel dev a ->
  exists k' t' a', processIPIOEPacket fuel k skb dev t = Some (k', t') /\ get_apic k' (destinationCore p) = Some a' /\
    holds_message (worker a') driver_mac mac p payload /\ memoryAllocator k' = memoryAllocator k /\ packets_received k' = packets_received k /\
    writes t' = writes t ++ (if destinationCore p =? cur then [] else ipi_writes a IPIOE_IPI) /\
    (destinationCore p = cur -> zget (fired a') IPIOE_IPI = Some 1).
Proof.
  intros Hf Hm Hdm Hp Hop Hn Hle Hvirt Hid Ha Hidle Hfired Hdel.
  destruct (enqueue_run _ skb (worker a) mac driver_mac p payload Hidle Hp Hn Hle Hm Hdm Hf) as (w & Ew & Hw).
  pose proof (proj1 (frame_parts _ _ _ _ _ _ _ Hm Hdm eq_refl) Hf) as (_ & _ & _ & F4 & _).
  unfold processIPIOEPacket, getIPIOEPacketFromSKB, ETH_HLEN. rewrite F4, decode_encode, Hop by done. cbn [Z.eqb Pos.eqb].
  change (IPIoE_OPCODE_REQUEST =? IPIoE_OPCODE_REQUEST) with true. cbv iota.
  destruct (current_core_run k m dev cur t Hvirt Hid) as (t1 & E1 & W1). rewrite (run_bind _ _ _ _ _ _ E1). cbv beta iota.
  set (k0 := k {{ physicalMemoryManager := m; apicManager := (apicManager k) {{ returned_core_id := cur }} }}).
  assert (forall i, get_apic k0 i = get_apic k i) as Hk0 by done. rewrite Hk0, Ha.
  destruct (upd_some k0 (destinationCore p) a (fun a => a {{ worker := w }})) as [k1 Eu]; [by rewrite Hk0|].
  destruct (get_upd _ _ _ _ Eu) as (Hg & _). destruct (upd_rest _ _ _ _ Eu) as (_ & Hal & Hpr).
  pose proof (Hg (destinationCore p)) as Hg1. rewrite Z.eqb_refl, Hk0, Ha in Hg1. cbn [fmap option_fmap option_map] in Hg1.
  destruct Hidle as (Hs & _). run_io. rewrite Hs. change (0 =? IPIoE_QUEUE_LENGTH) with false. cbv iota.
  change (kernel_memory k0) with (kernel_memory k). rewrite Ew, Eu.
  bdestr (destinationCore p =? cur); cbn [negb].
  - subst cur. rewrite Hg1. change (fired (a {{ worker := w }})) with (fired a).
    rewrite (zset_eq (fired a) IPIOE_IPI 1) by (rewrite Hfired; unfold IPIOE_IPI; lia).
    set (f := <[_ := _]> _). destruct (upd_some k1 (destinationCore p) _ (fun a => a {{ fired := f }}) Hg1) as [k2 Eu2].
    rewrite Eu2. destruct (get_upd _ _ _ _ Eu2) as (Hg2 & _). destruct (upd_rest _ _ _ _ Eu2) as (_ & Hal2 & Hpr2).
    specialize (Hg2 (destinationCore p)). rewrite Z.eqb_refl, Hg1 in Hg2. cbn [fmap option_fmap option_map] in Hg2.
    eexists _, _, _. split; [reflexivity|]. split; [exact Hg2|]. split; [exact Hw|]. split; [by rewrite Hal2, Hal|]. split; [by rewrite Hpr2, Hpr|].
    rewrite W1, app_nil_r. split; [done|]. intros _. simpl. unfold f, zget. cbn [Z.leb Z.compare IPIOE_IPI].
    apply list_lookup_insert_eq. unfold zlen in Hfired. unfold IPIOE_IPI. lia.
  - rewrite Hg1. assert (delivers fuel dev (a {{ worker := w }})) as Hdel' by exact Hdel.
    destruct (SendFixedIPI_run fuel dev (a {{ worker := w }}) IPIOE_IPI t1 Hdel') as (t2 & E2 & W2); [unfold IPIOE_IPI; lia|].
    rewrite E2. eexists _, _, _. split; [reflexivity|]. split; [exact Hg1|]. split; [exact Hw|]. split; [by rewrite Hal|]. split; [by rewrite Hpr|].
    rewrite W2, W1. split; [done | lia].
Qed.

(** A request for a worker whose queue is full is dropped. *)
Lemma full_queue_drops fuel dev k skb mac driver_mac p payload m cur a t :
  read_bytes (kernel_memory k) (ethernetPacket skb) (30 + zlen payload) = message_frame mac driver_mac p payload ->
  length mac = 6%nat -> length driver_mac = 6%nat -> packet_ok p ->
  GetVirtualAddress ((physicalMemoryManager k) {{ p_physical_address := local_apic_addr k }}) = Some m ->
  identifies dev (u64 (virtualAddress m + 0x20)) cur -> get_apic k (destinationCore p) = Some a ->
  queue_size (worker a) = IPIoE_QUEUE_LENGTH ->
  exists k' t', processIPIOEPacket fuel k skb dev t = Some (k', t') /\ writes t' = writes t /\
    forall i, get_apic k' i = get_apic k i.
Proof.
  intros Hf Hm Hdm Hp Hvirt Hid Ha Hfull.
  pose proof (proj1 (frame_parts _ _ _ _ _ _ _ Hm Hdm eq_refl) Hf) as (_ & _ & _ & F4 & _).
  unfold processIPIOEPacket, getIPIOEPacketFromSKB, ETH_HLEN. rewrite F4, decode_encode by done.
  destruct (opcode p =? IPIoE_OPCODE_REQUEST); [|by eexists _, _].
  destruct (current_core_run k m dev cur t Hvirt Hid) as (t1 & E1 & W1). rewrite (run_bind _ _ _ _ _ _ E1). cbv beta iota.
  change (get_apic (k {{ physicalMemoryManager := m; apicManager := (apicManager k) {{ returned_core_id := cur }} }})
    (destinationCore p)) with (get_apic k (destinationCore p)). rewrite Ha.
  run_io. rewrite Hfull, Z.eqb_refl. eexists _, _. split; [reflexivity|]. split; [exact W1 | done].
Qed.

(** ** Waiting *)

Lemma set_fired_run k i a v : get_apic k i = Some a -> zlen (fired a) = 256 -> exists k',
  set_fired k i IPIOE_IPI v = Some k' /\ get_apic k' i = Some (a {{ fired := <[98%nat := v]> (fired a) }}) /\
  kernel_memory k' = kernel_memory k /\ memoryAllocator k' = memoryAllocator k.
Proof.
  intros Ha Hf. unfold set_fired. rewrite Ha. cbn [mbind option_bind]. rewrite (zset_eq (fired a)) by (rewrite Hf; unfold IPIOE_IPI; lia).
  cbn [mbind option_bind]. destruct (upd_some k i a (fun a0 => a0 {{ fired := <[98%nat := v]> (fired a) }}) Ha) as [k' E].
  exists k'. split; [exact E|]. destruct (upd_rest _ _ _ _ E) as (H1 & H2 & _). destruct (get_upd _ _ _ _ E) as [Hg _].
  specialize (Hg i). rewrite Z.eqb_refl, Ha in Hg. done.
Qed.

Lemma fired_at (f : list Z) v : zlen f = 256 -> zget (<[98%nat := v]> f) IPIOE_IPI = Some v.
Proof. intros Hf. unfold zget. cbn [Z.leb Z.compare IPIOE_IPI]. apply list_lookup_insert_eq. unfold zlen in Hf. lia. Qed.

(** A core that waits sleeps, and leaves with the interrupt that makes it ready. *)
Lemma wait_run (P : Kernel -> APIC -> Prop) fuel hlt ready k dev me a t :
  knows_itself dev me k -> get_apic k me = Some a -> 0 <= me < 65536 -> zlen (fired a) = 256 ->
  (forall a' : APIC, zget (fired a') IPIOE_IPI = Some 0 -> worker a' = worker a -> ready a' = Some false) ->
  (forall k1 t1, memoryAllocator k1 = memoryAllocator k -> kernel_memory k1 = kernel_memory k ->
     exists k2 t2 a2, hlt k1 dev t1 = Some (k2, t2) /\ get_apic k2 me = Some a2 /\ ready a2 = Some true /\ zlen (fired a2) = 256 /\ P k2 a2) ->
  exists k2 a2 k' t' a', P k2 a2 /\ wait_until (S (S fuel)) hlt ready k dev t = Some (k', t') /\
    get_apic k' me = Some a' /\ worker a' = (worker a2) {{ is_running := true }} /\
    memoryAllocator k' = memoryAllocator k2 /\ kernel_memory k' = kernel_memory k2.
Proof.
  intros Hme Ha Hrange Hf Hno Hhlt. unfold wait_until.
  destruct (current_core_again k dev me t Hme) as (k0 & b & v & E & _ & Hap & Hmem0 & Hal0). rewrite (run_bind _ _ _ _ _ _ E). cbv beta iota.
  rewrite u16_small by lia. assert (get_apic k0 me = Some a) as Ha0 by (unfold get_apic; by rewrite Hap).
  destruct (set_fired_run k0 me a 0 Ha0 Hf) as (k1 & E1 & Ha1 & Hmem1 & Hal1). rewrite E1, run_pure, io_loop_S.
  run_io. rewrite Ha1, Hno by (try apply fired_at; done).
  unfold set_running at 1. destruct (upd_some k1 me _ (fun a => a {{ worker := (worker a) {{ is_running := false }} }}) Ha1) as [k1' E1'].
  rewrite E1'. destruct (upd_rest _ _ _ _ E1') as (Hmem1' & Hal1' & _).
  destruct (Hhlt k1' (Rd Mmio 4 b v :: t)) as (k2 & t2 & a2 & E2 & Ha2 & Hready & Hf2 & HP); [congruence | congruence |].
  exists k2, a2. rewrite E2, Ha2. unfold sendAPICEOI, writeLocalAPIC. run_io. rewrite io_loop_S. run_io. rewrite Ha2, Hready.
  destruct (upd_some k2 me _ (fun a => a {{ worker := (worker a) {{ is_running := true }} }}) Ha2) as [k3 E3]. unfold set_running. rewrite E3.
  destruct (upd_rest _ _ _ _ E3) as (Hmem3 & Hal3 & _). destruct (get_upd _ _ _ _ E3) as [Hg3 _].
  specialize (Hg3 me). rewrite Z.eqb_refl, Ha2 in Hg3. cbn [fmap option_fmap option_map] in Hg3.
  destruct (set_fired_run k3 me _ 0 Hg3 Hf2) as (k4 & E4 & Ha4 & Hmem4 & Hal4). rewrite E4.
  eexists _, _, _. split; [exact HP|]. split; [reflexivity|]. split; [exact Ha4|]. split; [done|]. split; congruence.
Qed.

(** * Properties *)

(** C9: a message from core to core.  The frame [sendIPIoE_Packet] hands to the
    driver, received by a machine whose destination core has an empty queue and
    a message of at most 1000 bytes, is queued and the core is told, by an
    inter-processor interrupt or by its own flag; [workerDequeue] then returns
    both hardware addresses, the header and the bytes of the message as they
    were sent, and leaves the queue empty. *)
Theorem ipioe_delivered fuel dev core driver_mac k1 mac coreid score_id service method msg datalen x y
    k2 skb m cur a raw rcore z t :
  let payload := read_bytes (kernel_memory k1) msg datalen in
  let hdr := message_header coreid score_id service method datalen in
  let frame := message_frame mac driver_mac hdr payload in
  kmalloc core (memoryAllocator k1) SIZEOF_NetworkPacket = Some x -> kmalloc core (fst x) SIZEOF_EthernetPacket = Some y ->
  length mac = 6%nat -> length driver_mac = 6%nat -> 0 <= datalen <= ENTRY_DATA_SIZE ->
  msg + datalen <= snd y \/ snd y + 30 + datalen <= msg ->
  0 <= coreid < 65536 -> 0 <= score_id < 65536 -> 0 <= service < 256 -> 0 <= method < 256 ->
  read_bytes (kernel_memory k2) (ethernetPacket skb) (30 + datalen) = frame ->
  GetVirtualAddress ((physicalMemoryManager k2) {{ p_physical_address := local_apic_addr k2 }}) = Some m ->
  identifies dev (u64 (virtualAddress m + 0x20)) cur -> get_apic k2 coreid = Some a -> idle_worker (worker a) ->
  zlen (fired a) = 256 -> delivers fuel dev a -> zlen (data raw) = ENTRY_DATA_SIZE ->
  kmalloc rcore (memoryAllocator k2) (12 + 16 + ENTRY_DATA_SIZE) = Some z ->
  exists k1' k3 t' a3 k4 e a4,
    sendIPIoE_Packet core driver_mac k1 IPIoE_OPCODE_REQUEST mac coreid score_id service method msg datalen =
      Some (k1', frame, 1) /\
    processIPIOEPacket fuel k2 skb dev t = Some (k3, t') /\ get_apic k3 coreid = Some a3 /\
    writes t' = writes t ++ (if coreid =? cur then [] else ipi_writes a IPIOE_IPI) /\
    (coreid = cur -> zget (fired a3) IPIOE_IPI = Some 1) /\
    workerDequeue rcore raw k3 coreid = Some (k4, e) /\ smac e = driver_mac /\ dmac e = mac /\ ipioe_p e = hdr /\
    take (Z.to_nat datalen) (data e) = payload /\ get_apic k4 coreid = Some a4 /\ idle_worker (worker a4).
Proof.
  intros payload hdr frame Ex Ey Hm Hdm Hd Hov Hc Hsc Hsv Hmt Hf Hvirt Hid Ha Hidle Hfired Hdel Hraw Hz.
  assert (datalen <= 1000) as Hd1000 by (unfold ENTRY_DATA_SIZE in Hd; lia).
  destruct (sent_frame core driver_mac k1 mac coreid score_id service method msg datalen x y Ex Ey Hm Hdm) as (k1' & E1 & _); [lia | done |].
  fold payload hdr frame in E1. assert (zlen payload = datalen) as Hlen by (apply zlen_read; lia).
  assert (packet_ok hdr) as Hp by (unfold packet_ok, hdr, message_header, IPIoE_OPCODE_REQUEST; simpl; lia).
  destruct (process_request fuel dev k2 skb mac driver_mac hdr payload m cur a t) as (k3 & t' & a3 & E2 & Ha3 & Hh & Hal & _ & W & Hl);
    try done; [by rewrite Hlen | by rewrite Hlen; lia |].
  change (destinationCore hdr) with coreid in *. rewrite <- Hal in Hz.
  destruct (dequeue_run rcore raw k3 coreid a3 z driver_mac mac hdr payload Ha3 Hh) as (k4 & e & a4 & E3 & H1 & H2 & H3 & H4 & H5 & H6 & _);
    try done; [by rewrite Hlen; lia |]. rewrite Hlen in H4.
  assert (take (Z.to_nat datalen) (data e) = payload) by (rewrite H4; apply take_app_length'; unfold zlen in Hlen; lia).
  exists k1', k3, t', a3, k4, e, a4. split_and!; done.
Qed.

Definition message_bytes : list Z := codes "<params><FirstValue> 3 </FirstValue></params>".

Definition sending_kernel : Kernel :=
  two_cores {{ kernel_memory := write_bytes (fun _ => 0) 0x5000 message_bytes }}.

Definition example_frame : list Z :=
  message_frame [8; 0; 39; 36; 65; 179] [8; 0; 39; 12; 27; 147] (message_header 1 1 9 0 45) message_bytes.

Definition waiting_worker : Worker :=
  blank_worker {{ ipioe_queue := [mkEntry [] [] (decode []) (replicate 1000 0)] }}.

Definition receiving_kernel : Kernel :=
  let a := (lapic_registers 0xFEE00000 blank_apic) {{ worker := waiting_worker }} in
  two_cores {{ kernel_memory := write_bytes (fun _ => 0) 0x7000 example_frame;
               apicManager := (apicManager two_cores) {{ apics := [a; a {{ apic_id := 1 }}] }} }}.

Lemma ipioe_delivered_witness :
  exists k3 t' k4 e, processIPIOEPacket 1 receiving_kernel (mkNetworkPacket 0x7000 75) quiet_device [] = Some (k3, t') /\
    writes t' = [(Mmio, 0xFEE00310, 0x1000000); (Mmio, 0xFEE00300, 0x4062)] /\
    workerDequeue 1 (mkEntry [] [] (decode []) (replicate 1000 0)) k3 1 = Some (k4, e) /\
    take 45 (data e) = message_bytes.
Proof.
  destruct (kmalloc 0 (memoryAllocator sending_kernel) SIZEOF_NetworkPacket) as [x|] eqn:Ex; [|vm_compute in Ex; discriminate Ex].
  destruct (kmalloc 0 (fst x) SIZEOF_EthernetPacket) as [y|] eqn:Ey;
    [|vm_compute in Ex; injection Ex as <-; vm_compute in Ey; discriminate Ey].
  assert (snd y = 0x10020) as Hy by (vm_compute in Ex; injection Ex as <-; vm_compute in Ey; by injection Ey as <-).
  destruct (GetVirtualAddress ((physicalMemoryManager receiving_kernel) {{ p_physical_address := local_apic_addr receiving_kernel }}))
    as [m|] eqn:Em; [|vm_compute in Em; discriminate Em].
  destruct (kmalloc 1 (memoryAllocator receiving_kernel) (12 + 16 + ENTRY_DATA_SIZE)) as [z|] eqn:Ez; [|vm_compute in Ez; discriminate Ez].
  destruct (ipioe_delivered 1 quiet_device 0 [8; 0; 39; 12; 27; 147] sending_kernel [8; 0; 39; 36; 65; 179] 1 1 9 0 0x5000 45 x y
    receiving_kernel (mkNetworkPacket 0x7000 75) m 0
    (((lapic_registers 0xFEE00000 blank_apic) {{ worker := waiting_worker }}) {{ apic_id := 1 }})
    (mkEntry [] [] (decode []) (replicate 1000 0)) 1 z [])
    as (k1' & k3 & t' & a3 & k4 & e & a4 & _ & E & _ & W & _ & E' & _ & _ & _ & Hd & _).
  - exact Ex.
  - exact Ey.
  - reflexivity.
  - reflexivity.
  - vm_compute. split; congruence.
  - left. rewrite Hy. lia.
  - lia.
  - lia.
  - lia.
  - lia.
  - vm_compute. reflexivity.
  - exact Em.
  - intros t. reflexivity.
  - reflexivity.
  - split; [reflexivity|]. split; [reflexivity|]. split; [reflexivity|]. eexists. split; reflexivity.
  - reflexivity.
  - apply quiet_delivers.
  - reflexivity.
  - exact Ez.
  - exists k3, t', k4, e. split; [exact E|]. split; [rewrite W; vm_compute; reflexivity|]. split; [exact E'|].
    transitivity (read_bytes (kernel_memory sending_kernel) 0x5000 45); [exact Hd | vm_compute; reflexivity].
Defined.

(** A message that comes too early is not noticed.  [wait_IPIoE] clears the flag of the interrupt before
    it looks at it: a core whose queue holds a message, and whose flag the interrupt has set, still sleeps,
    and without a further interrupt does not return. *)
Theorem early_message_unnoticed fuel hlt dev k me a t s d p payload :
  knows_itself dev me k -> get_apic k me = Some a -> 0 <= me < 65536 -> zlen (fired a) = 256 ->
  zget (fired a) IPIOE_IPI = Some 1 -> holds_message (worker a) s d p payload ->
  (forall k1 t1, hlt k1 dev t1 = None) -> wait_IPIoE fuel hlt k dev t = None.
Proof.
  intros Hme Ha Hrange Hf _ _ Hhlt. unfold wait_IPIoE, wait_until.
  destruct (current_core_again k dev me t Hme) as (k0 & b & v & E & _ & Hap & _). rewrite (run_bind _ _ _ _ _ _ E). cbv beta iota.
  rewrite u16_small by lia. assert (get_apic k0 me = Some a) as Ha0 by (unfold get_apic; by rewrite Hap).
  destruct (set_fired_run k0 me a 0 Ha0 Hf) as (k1 & E1 & Ha1 & _). rewrite E1, run_pure.
  apply run_bind_none, io_loop_none. intros _. run_io. rewrite Ha1. cbn [fired]. change (zget (fired (a {{ fired := ?f }}))) with (zget f).
  rewrite fired_at by done. change (negb (0 =? 0)) with false. cbv iota.
  destruct (set_running k1 me false); [by rewrite Hhlt | done].
Qed.

Definition told_worker : Worker :=
  blank_worker {{ ipioe_queue := [mkEntry [] [] (decode []) (message_bytes ++ replicate 955 0)] }} {{ queue_size := 1 }}.

Definition told_kernel : Kernel :=
  two_cores {{ apicManager := (apicManager two_cores) {{ apics :=
    [(lapic_registers 0xFEE00000 blank_apic) {{ worker := told_worker; fired := <[98%nat := 1]> (fired blank_apic) }}] }} }}.

Lemma early_message_unnoticed_witness :
  (a ← get_apic told_kernel 0; zget (fired a) IPIOE_IPI) = Some 1 /\
  forall fuel, wait_IPIoE fuel (fun _ => pure None) told_kernel quiet_device [] = None.
Proof.
  split; [vm_compute; reflexivity|]. intros fuel.
  destruct (GetVirtualAddress ((physicalMemoryManager told_kernel) {{ p_physical_address := local_apic_addr told_kernel }}))
    as [m|] eqn:Em; [|vm_compute in Em; discriminate Em].
  apply (early_message_unnoticed fuel (fun _ => pure None) quiet_device told_kernel 0
    ((lapic_registers 0xFEE00000 blank_apic) {{ worker := told_worker; fired := <[98%nat := 1]> (fired blank_apic) }}) []
    [] [] (decode []) message_bytes).
  - exists m. split; [exact Em|]. intros t. reflexivity.
  - reflexivity.
  - lia.
  - reflexivity.
  - reflexivity.
  - split; [reflexivity|]. split; [reflexivity|]. split; [reflexivity|]. eexists. split; [reflexivity|]. split; reflexivity.
  - reflexivity.
Defined.
