(* ===== verification/Pci.v ===== *)
(** * The PCI bus: [sources/devices/pci/pci_device.c] and [pci_service.c]

    A device is the header read from its configuration space.  Pointers into
    [pciDevices] are indices; [kernel.pciService] is the service itself. *)

From S2P Require Import Prelude Device Service.

#[local] Open Scope Z_scope.

Definition PCI_ADDRESS : Z := 0xCF8.
Definition PCI_DATA : Z := 0xCFC.
Definition PCI_HEADER_SIZE : Z := 0x3f.
Definition BAR_COUNT : Z := 6.
Definition PCI_BAR_OUT_OF_RANGE : Z := 4.
Definition PCI_COMMAND_OFFSET : Z := 4.
Definition PCI_STATUS_OFFSET : Z := 6.
Definition MAX_PCI_BUSES : Z := 256.
Definition MAX_PCI_BUS_DEVICES : Z := 32.
Definition MAX_PCI_DEVICE_FUNCTIONS : Z := 8.

(** Two reserved areas and [data] are never written. *)
Record PCIDevice := mkPCIDevice {
  vend_id : Z;
  dev_id : Z;
  pci_command : Z;
  pci_status : Z;
  rev : Z;
  pci_interface : Z;
  pci_minor : Z;
  pci_major : Z;
  clg : Z;
  latency : Z;
  header : Z;
  bist : Z;
  bars : list Z;
  pci_reserved : list Z;
  romaddr : Z;
  pci_reserved2 : list Z;
  int_line : Z;
  int_pin : Z;
  mingnt : Z;
  max_lat : Z;
  bus : Z;
  pci_device : Z;
  func : Z
}.

#[export] Instance eta_PCIDevice : Eta PCIDevice :=
  fun r => mkPCIDevice (vend_id r) (dev_id r) (pci_command r) (pci_status r) (rev r) (pci_interface r) (pci_minor r)
    (pci_major r) (clg r) (latency r) (header r) (bist r) (bars r) (pci_reserved r) (romaddr r) (pci_reserved2 r)
    (int_line r) (int_pin r) (mingnt r) (max_lat r) (bus r) (pci_device r) (func r).

Record PCIService := mkPCIService {
  pciDevices : list PCIDevice;
  total_pci_devices : Z;
  total_pci_devices2 : Z;
  p_vendor : Z;
  p_pci_device : Z;
  p_index : Z;
  pciDevice_ptr : option Z;
  returned_count : Z
}.

#[export] Instance eta_PCIService : Eta PCIService :=
  fun r => mkPCIService (pciDevices r) (total_pci_devices r) (total_pci_devices2 r) (p_vendor r) (p_pci_device r)
    (p_index r) (pciDevice_ptr r) (returned_count r).

(** ** pci_device.c *)

(** What both accesses write to the address port. *)
Definition l_address (p_bus p_device p_function p_offset : Z) : Z :=
  u32 (Z.lor (Z.lor (Z.lor (Z.lor (Z.shiftl p_bus 16) (Z.shiftl p_device 11)) (Z.shiftl p_function 8))
    (Z.land p_offset 0xfc)) 0x80000000).

Definition PciConfigReadWord (p_bus p_device p_function p_offset : Z) : IO Z :=
  _ ← outportl PCI_ADDRESS (l_address p_bus p_device p_function p_offset);
  v ← inportl PCI_DATA;
  mret (u16 (Z.land (Z.shiftr v (Z.land p_offset 2 * 8)) 0xffff)).

Definition PciConfigWriteWord (p_bus p_device p_function p_offset p_value : Z) : IO unit :=
  _ ← outportl PCI_ADDRESS (l_address p_bus p_device p_function p_offset);
  outportl PCI_DATA p_value.

(** The structure laid over its first 64 bytes, as 32 words. *)
Definition header_of_words (words : list Z) (p_bus p_device p_function : Z) : PCIDevice :=
  let w j := nth (Z.to_nat j) words 0 in
  let lo j := w j mod 256 in
  let hi j := w j / 256 in
  let dw j := w j + 65536 * w (j + 1) in
  mkPCIDevice (w 0) (w 1) (w 2) (w 3) (lo 4) (hi 4) (lo 5) (hi 5) (lo 6) (hi 6) (lo 7) (hi 7)
    [dw 8; dw 10; dw 12; dw 14; dw 16; dw 18] [dw 20; dw 22] (dw 24) [dw 26; dw 28]
    (lo 30) (hi 30) (lo 31) (hi 31) p_bus p_device p_function.

Definition PciConfigInitialize (p_bus p_device p_function : Z) : IO PCIDevice :=
  words ← io_for 32 0 2 (fun i words => w ← PciConfigReadWord p_bus p_device p_function (u8 i); mret (words ++ [w])) [];
  mret (header_of_words words p_bus p_device p_function).

Definition read_config (p : PCIDevice) (p_address : Z) : IO Z :=
  PciConfigReadWord (u8 (bus p)) (u8 (pci_device p)) (u8 (func p)) (u8 p_address).

Definition write_config (p : PCIDevice) (p_address p_value : Z) : IO unit :=
  PciConfigWriteWord (u8 (bus p)) (u8 (pci_device p)) (u8 (func p)) (u8 p_address) (u16 p_value).

Definition PciConfigWriteCommand (p : PCIDevice) (p_address p_command : Z) : IO PCIDevice :=
  c ← read_config p p_address;
  let p := p {{ pci_command := c }} in
  _ ← write_config p p_address (Z.lor (pci_command p) p_command);
  mret p.

Definition ReadStatus (p : PCIDevice) : IO (PCIDevice * Z) :=
  s ← read_config p PCI_STATUS_OFFSET; mret (p {{ pci_status := s }}, s).

Definition PciConfigReadCommand (p : PCIDevice) : IO (PCIDevice * Z) :=
  c ← read_config p PCI_COMMAND_OFFSET; mret (p {{ pci_command := c }}, c).

Definition EnablePCIBusMastering (p : PCIDevice) : IO (PCIDevice * bool) :=
  c ← read_config p 4;
  _ ← write_config p 4 (Z.lor c 0x00000006);
  c ← read_config p 4;
  mret (p {{ pci_command := c }}, truthy (Z.land c 0x00000006)).

Definition GetPCIBarType (p : PCIDevice) (p_num : Z) : option Z :=
  if p_num <? BAR_COUNT then bar ← zget (bars p) p_num; Some (Z.land bar 0x1) else Some PCI_BAR_OUT_OF_RANGE.

Definition GetPCIBar (p : PCIDevice) (p_type : Z) : option Z :=
  r ← for_loop 6 0 1 (fun i _ =>
        bar ← zget (bars p) i; Some (if Z.land bar 0x1 =? p_type then inr bar else inl tt)) tt;
  Some (match r with inr bar => bar | inl _ => 0xFFFFFFFF end).

(** ** pci_service.c *)

Definition pci_services : list (string * Z) :=
  [("CollectHWInventory", 0); ("GetPCIDevice", 1); ("GetPCIDeviceAtIndex", 2); ("GetPCIDeviceCount", 3); ("PrintAllPCI", 4)]%string.

Definition initializePCIService (s : PCIService) (p_service : Service) : option (PCIService * Service) :=
  p_service ← add_services pci_services p_service;
  Some (s {{ total_pci_devices := 0; total_pci_devices2 := 0 }}, p_service).

Definition count_function (b i : Z) (j : Z) (s : PCIService) : IO PCIService :=
  d ← PciConfigInitialize b i j;
  mret (if vend_id d =? 0xFFFF then s
        else s {{ total_pci_devices := s32 (total_pci_devices s + 1); total_pci_devices2 := s32 (total_pci_devices2 s + 1) }}).

Definition ScanBusesForCount (s : PCIService) : IO PCIService :=
  io_for 256 0 1 (fun b s => io_for 32 0 1 (fun i s => io_for 8 0 1 (count_function (u8 b) i) s) s) s.

(** One function, [alloc] devices being found; the access to [header] is the one
    of the empty test for further functions. *)
Definition allocate_function (b i j : Z) (s : PCIService) (alloc : Z) : IO (PCIService * Z) :=
  d ← PciConfigInitialize b i j;
  l ← pure (zset (pciDevices s) alloc d);
  let s := s {{ pciDevices := l }} in
  if vend_id d =? 0xFFFF then mret (s, alloc)
  else _ ← pure (zget (pciDevices s) (u16 (alloc + 1))); mret (s, u16 (alloc + 1)).

(** The functions of one slot, until all devices are found. *)
Fixpoint allocate_functions (n : nat) (b i j : Z) (x : PCIService * Z) : IO (PCIService * Z) :=
  match n with
  | O => mret x
  | S n =>
      let '(s, alloc) := x in
      if alloc <? total_pci_devices s then
        x ← allocate_function b i j s alloc; allocate_functions n b i (j + 1) x
      else mret x
  end.

Definition ScanBusesForAllocation (s : PCIService) : IO PCIService :=
  x ← io_for 256 0 1 (fun b x => io_for 32 0 1 (fun i x => allocate_functions 8 (u8 b) i 0 x) x) (s, 0);
  mret (fst x).

Definition CollectHWInventory (s : PCIService) : IO PCIService :=
  s ← ScanBusesForCount s; ScanBusesForAllocation s.

(** The device in slot [i] is the one asked for. *)
Definition is_wanted (s : PCIService) (d : PCIDevice) : bool :=
  (vend_id d =? p_vendor s) && (dev_id d =? p_pci_device s).

(** A search with an 8-bit index that ends at [total_pci_devices], an [int]. *)
Fixpoint search_pci {A} (fuel : nat) (s : PCIService) (hit : Z -> A -> A + A) (i : Z) (acc : A) : option (A + A) :=
  match fuel with
  | O => None
  | S fuel =>
      if i <? total_pci_devices s then
        d ← zget (pciDevices s) i;
        if is_wanted s d then
          match hit i acc with inl acc => search_pci fuel s hit (u8 (i + 1)) acc | inr r => Some (inr r) end
        else search_pci fuel s hit (u8 (i + 1)) acc
      else Some (inl acc)
  end.

Definition GetPCIDevice (fuel : nat) (s : PCIService) : option (PCIService * option Z) :=
  r ← search_pci fuel s (fun i _ => inr (Some i)) 0 None;
  let p := match r with inr p => p | inl _ => None end in
  Some (s {{ pciDevice_ptr := p }}, p).

(** The accumulator is [ind], and then the device found. *)
Definition GetPCIDeviceAtIndex (fuel : nat) (s : PCIService) : option (PCIService * option Z) :=
  r ← search_pci fuel s (fun i acc => if snd acc =? p_index s then inr (Some i, snd acc) else inl (fst acc, u16 (snd acc + 1)))
        0 (None, 0);
  let p := match r with inr (p, _) => p | inl _ => None end in
  Some (s {{ pciDevice_ptr := p }}, p).

Definition GetPCIDeviceCount (fuel : nat) (s : PCIService) : option (PCIService * Z) :=
  r ← search_pci fuel s (fun _ count => inl (u16 (count + 1))) 0 0;
  match r with inl count => Some (s {{ returned_count := count }}, count) | inr _ => None end.

(** ** Configuration space

    The address register selects the 32-bit register that the data register reads
    and writes. *)

Fixpoint config_space (regs : Z -> Z) (t : list event) : Z * (Z -> Z) :=
  match t with
  | [] => (0, regs)
  | Wr Port _ a v :: t =>
      let '(latch, r) := config_space regs t in
      if a =? PCI_ADDRESS then (v, r)
      else if a =? PCI_DATA then (latch, fun x => if x =? latch then v else r x)
      else (latch, r)
  | _ :: t => config_space regs t
  end.

Definition config_regs (regs : Z -> Z) (t : list event) : Z -> Z := snd (config_space regs t).

Definition behind_config (dev : device) (regs : Z -> Z) : Prop :=
  (forall a, 0 <= regs a < 2 ^ 32) /\
  forall t, dev t Port 4 PCI_DATA = config_regs regs t (fst (config_space regs t)).

(** The register of a function that holds the byte [off]. *)
Definition config_address (b d f off : Z) : Z := 2 ^ 31 + 2 ^ 16 * b + 2 ^ 11 * d + 2 ^ 8 * f + (off - off mod 4).

Definition config_word (r : Z -> Z) (b d f off : Z) : Z := r (config_address b d f off) / 2 ^ (16 * (off / 2 mod 2)) mod 65536.

(** What the header of a function holds, and whether there is one. *)
Definition config_header (r : Z -> Z) (b d f : Z) : PCIDevice :=
  header_of_words (map (fun k => config_word r b d f (2 * k)) (seqZ 0 32)) b d f.

Definition present (r : Z -> Z) (x : Z * Z * Z) : bool :=
  let '(b, d, f) := x in negb (config_word r b d f 0 =? 0xFFFF).

(** All functions of all slots of all buses, in order, and the devices among them. *)
Definition slot_functions (b d : Z) : list (Z * Z * Z) := map (fun f => (b, d, f)) (seqZ 0 8).
Definition bus_functions (b : Z) : list (Z * Z * Z) := flat_map (slot_functions b) (seqZ 0 32).
Definition all_functions : list (Z * Z * Z) := flat_map bus_functions (seqZ 0 256).
Definition devices (r : Z -> Z) : list PCIDevice :=
  map (fun '(b, d, f) => config_header r b d f) (List.filter (present r) all_functions).

(** ** Lemmas *)

Lemma lor_pow2 k q c : 0 <= k -> 0 <= c < 2 ^ k -> Z.lor (2 ^ k * q) c = 2 ^ k * q + c.
Proof.
  intros Hk Hc. rewrite <- Z.lxor_lor, <- Z.add_nocarry_lxor; [done| |];
    (apply Z.bits_inj'; intros n Hn; rewrite Z.land_spec, Z.bits_0, (Z.mul_comm (2 ^ k));
     destruct (decide (n < k)); [by rewrite Z.mul_pow2_bits_low by lia|];
     rewrite <- (Z.mod_small c (2 ^ k)), Z.mod_pow2_bits_high by lia; apply andb_false_r).
Qed.

Lemma l_address_spec b d f off : 0 <= b < 256 -> 0 <= d < 32 -> 0 <= f < 8 -> 0 <= off < 256 ->
  l_address b d f off = config_address b d f off.
Proof.
  intros Hb Hd Hf Ho. unfold l_address, config_address. rewrite !Z.shiftl_mul_pow2 by lia.
  assert (Z.land off 252 = off - off mod 4) as -> by
    (refine (proj1 (Z.eqb_eq _ _) (all_between_spec 0 256 (fun off => Z.land off 252 =? off - off mod 4) off eq_refl Ho))).
  assert (0 <= off - off mod 4 < 2 ^ 8) as Ho' by zdiv. set (o := off - off mod 4) in *.
  rewrite !(Z.mul_comm _ (2 ^ _)). rewrite (lor_pow2 16 b (2 ^ 11 * d)) by lia.
  replace (2 ^ 16 * b + 2 ^ 11 * d) with (2 ^ 11 * (2 ^ 5 * b + d)) by lia. rewrite (lor_pow2 11) by lia.
  replace (2 ^ 11 * (2 ^ 5 * b + d) + 2 ^ 8 * f) with (2 ^ 8 * (2 ^ 8 * b + 2 ^ 3 * d + f)) by lia. rewrite (lor_pow2 8) by lia.
  rewrite Z.lor_comm. change 0x80000000 with (2 ^ 31 * 1). rewrite (lor_pow2 31) by lia. rewrite u32_small by lia. lia.
Qed.

Lemma config_read_run dev regs b d f off t : behind_config dev regs ->
  0 <= b < 256 -> 0 <= d < 32 -> 0 <= f < 8 -> 0 <= off < 256 ->
  (forall a, 0 <= config_regs regs t a < 2 ^ 32) ->
  exists t', PciConfigReadWord b d f off dev t = Some (config_word (config_regs regs t) b d f off, t') /\
    config_regs regs t' = config_regs regs t.
Proof.
  intros [_ Hdev] Hb Hd Hf Ho Hr. unfold PciConfigReadWord. rewrite l_address_spec by done.
  assert (0 <= config_address b d f off < 2 ^ 32) as Ha by (unfold config_address; zdiv).
  run_io. change (8 * 4) with 32. change (u16 PCI_ADDRESS) with PCI_ADDRESS. change (u16 PCI_DATA) with PCI_DATA.
  rewrite Hdev, (Z.mod_small (config_address _ _ _ _)) by done. unfold config_regs in *. cbn [config_space].
  destruct (config_space regs t) as [latch r] eqn:E. change (PCI_ADDRESS =? PCI_ADDRESS) with true. cbn [fst snd].
  eexists. split; [apply f_equal, (f_equal2 pair); [|reflexivity]|cbn [config_space]; rewrite E; reflexivity].
  cbn [snd] in Hr. rewrite Z.mod_small by apply Hr.
  assert (Z.land off 2 * 8 = 16 * (off / 2 mod 2)) as ->.
  { refine (proj1 (Z.eqb_eq _ _) (all_between_spec 0 256 (fun off => Z.land off 2 * 8 =? 16 * (off / 2 mod 2)) off eq_refl Ho)). }
  change 65535 with (Z.ones 16). rewrite Z.land_ones, Z.shiftr_div_pow2 by zdiv. unfold u16. by rewrite Zmod_mod.
Qed.

Lemma config_init_run dev regs b d f t : behind_config dev regs -> 0 <= b < 256 -> 0 <= d < 32 -> 0 <= f < 8 ->
  (forall a, 0 <= config_regs regs t a < 2 ^ 32) ->
  exists t', PciConfigInitialize b d f dev t = Some (config_header (config_regs regs t) b d f, t') /\
    config_regs regs t' = config_regs regs t.
Proof.
  intros Hdev Hb Hd Hf Hr. unfold PciConfigInitialize.
  destruct (io_for_inv (fun k words t' => config_regs regs t' = config_regs regs t /\ 0 <= k /\ k mod 2 = 0 /\
      words = map (fun j => config_word (config_regs regs t) b d f (2 * j)) (seqZ 0 (k / 2))) 2
    (fun i words => w ← PciConfigReadWord b d f (u8 i); mret (words ++ [w])) dev 32 0 [] t) as (words & t' & E & Et & _ & _ & Ew).
  - done.
  - intros k words t' (j & -> & Hj) (I1 & I2 & I3 & ->). replace (0 + 2 * Z.of_nat j) with (2 * Z.of_nat j) in * by lia.
    rewrite u8_small by lia. destruct (config_read_run dev regs b d f (2 * Z.of_nat j) t' Hdev Hb Hd Hf) as (t2 & E & E2);
      [lia | by rewrite I1|]. rewrite (run_bind _ _ _ _ _ _ E). eexists _, t2. split; [reflexivity|].
    split_and!; [by rewrite E2 | lia | zdiv|]. replace ((2 * Z.of_nat j + 2) / 2) with (Z.of_nat j + 1) by zdiv.
    replace (2 * Z.of_nat j / 2) with (Z.of_nat j) by zdiv. rewrite seqZ_snoc, map_app by lia. cbn [map].
    by rewrite I1.
  - rewrite (run_bind _ _ _ _ _ _ E). exists t'. split; [|done]. rewrite Ew. reflexivity.
Qed.

(** The functions before the slot [i] of the bus [b]. *)
Definition prefix (b i : Z) : list (Z * Z * Z) := flat_map bus_functions (seqZ 0 b) ++ flat_map (slot_functions b) (seqZ 0 i).

Lemma flat_map_succ {A} (f : Z -> list A) n : 0 <= n -> flat_map f (seqZ 0 (n + 1)) = flat_map f (seqZ 0 n) ++ f n.
Proof. intros Hn. rewrite seqZ_snoc, flat_map_app by done. cbn [flat_map]. by rewrite app_nil_r, Z.add_0_l. Qed.

Lemma prefix_slot b i : 0 <= i -> prefix b (i + 1) = prefix b i ++ slot_functions b i.
Proof. intros Hi. unfold prefix. by rewrite flat_map_succ, app_assoc. Qed.

Lemma prefix_bus b : 0 <= b -> prefix (b + 1) 0 = prefix b 32.
Proof. intros Hb. unfold prefix at 1. rewrite flat_map_succ by done. by rewrite app_nil_r. Qed.

Lemma flat_map_split {A} (f : Z -> list A) n m : 0 <= n < m -> exists l, flat_map f (seqZ 0 m) = flat_map f (seqZ 0 n) ++ f n ++ l.
Proof.
  intros H. exists (flat_map f (seqZ (n + 1) (m - n - 1))). replace m with (n + 1 + (m - n - 1)) at 1 by lia.
  rewrite seqZ_app, flat_map_app, flat_map_succ by lia. by rewrite <- app_assoc, Z.add_0_l.
Qed.

Lemma prefix_of_all b i : 0 <= b < 256 -> 0 <= i < 32 -> exists l, all_functions = prefix b i ++ slot_functions b i ++ l.
Proof.
  intros Hb Hi. destruct (flat_map_split bus_functions b 256 Hb) as (l1 & E1).
  destruct (flat_map_split (slot_functions b) i 32 Hi) as (l2 & E2).
  exists (l2 ++ l1). unfold all_functions, prefix. rewrite E1. unfold bus_functions at 2. rewrite E2. by rewrite !app_assoc.
Qed.

Lemma flat_map_length {A} (f : Z -> list A) k m : (forall x, length (f x) = k) -> 0 <= m -> zlen (flat_map f (seqZ 0 m)) = m * Z.of_nat k.
Proof.
  intros Hf. revert m. apply (natlike_ind (fun m => zlen _ = _)); [done|]. intros m Hm IH.
  rewrite <- Z.add_1_r, flat_map_succ by done. unfold zlen in *. rewrite length_app, Hf. lia.
Qed.

Lemma all_functions_length : zlen all_functions = 65536.
Proof.
  apply (flat_map_length bus_functions 256 256); [|done]. intros b.
  pose proof (flat_map_length (slot_functions b) 8 32 (fun _ => eq_refl) ltac:(lia)) as H. unfold bus_functions. unfold zlen in H. lia.
Qed.

(** A scan of all slots that goes through the functions in order. *)
Lemma scan_slots {S} (P : list (Z * Z * Z) -> S -> list event -> Prop) (slot : Z -> Z -> S -> IO S) dev s t :
  P [] s t ->
  (forall b i s t, 0 <= b < 256 -> 0 <= i < 32 -> P (prefix b i) s t ->
     exists s' t', slot b i s dev t = Some (s', t') /\ P (prefix b i ++ slot_functions b i) s' t') ->
  exists s' t', io_for 256 0 1 (fun b s => io_for 32 0 1 (fun i s => slot b i s) s) s dev t = Some (s', t') /\ P all_functions s' t'.
Proof.
  intros H0 Hstep.
  destruct (io_for_inv (fun b s t => P (prefix b 0) s t) 1 (fun b s => io_for 32 0 1 (fun i s => slot b i s) s) dev 256 0 s t)
    as (s' & t' & E & HP).
  - exact H0.
  - intros b s1 t1 (j & -> & Hj) HP. replace (0 + 1 * Z.of_nat j) with (Z.of_nat j) in * by lia.
    destruct (io_for_inv (fun i s t => P (prefix (Z.of_nat j) i) s t) 1 (fun i s => slot (Z.of_nat j) i s) dev 32 0 s1 t1 HP)
      as (s2 & t2 & E & HP2).
    + intros i s2 t2 (q & -> & Hq) HP2. replace (0 + 1 * Z.of_nat q) with (Z.of_nat q) in * by lia.
      rewrite prefix_slot by lia. apply Hstep; [lia | lia | done].
    + exists s2, t2. split; [exact E|]. rewrite prefix_bus by lia. exact HP2.
  - exists s', t'. split; [exact E|]. unfold prefix in HP. rewrite app_nil_r in HP. exact HP.
Qed.

Section scan.
Context (dev : device) (regs r : Z -> Z) (Hdev : behind_config dev regs) (Hr : forall a, 0 <= r a < 2 ^ 32).

Definition found (l : list (Z * Z * Z)) : list PCIDevice := map (fun '(b, d, f) => config_header r b d f) (List.filter (present r) l).

Lemma found_app l l' : found (l ++ l') = found l ++ found l'.
Proof. unfold found. by rewrite List.filter_app, map_app. Qed.

Lemma vend_id_header b d f : vend_id (config_header r b d f) = config_word r b d f 0.
Proof. reflexivity. Qed.

Lemma found_one b d f : found [(b, d, f)] = if vend_id (config_header r b d f) =? 0xFFFF then [] else [config_header r b d f].
Proof. unfold found. cbn [List.filter present]. rewrite vend_id_header. by destruct (_ =? _). Qed.

Definition counted (s0 : PCIService) (l : list (Z * Z * Z)) (s : PCIService) (t : list event) : Prop :=
  config_regs regs t = r /\ pciDevices s = pciDevices s0 /\ total_pci_devices s = zlen (found l).

Lemma found_bound l : zlen (found l) <= zlen l.
Proof. unfold found, zlen. rewrite length_map. pose proof (List.filter_length_le (present r) l). lia. Qed.

Lemma count_slot_run s0 b i s t : 0 <= b < 256 -> 0 <= i < 32 -> counted s0 (prefix b i) s t ->
  exists s' t', io_for 8 0 1 (count_function (u8 b) i) s dev t = Some (s', t') /\ counted s0 (prefix b i ++ slot_functions b i) s' t'.
Proof.
  intros Hb Hi HP. rewrite u8_small by done.
  destruct (prefix_of_all b i Hb Hi) as (l2 & Eall).
  assert (zlen (prefix b i) <= 65536 - 8) as Hlen.
  { pose proof all_functions_length as L. rewrite Eall in L. unfold zlen in *. rewrite !length_app in L.
    change (length (slot_functions b i)) with 8%nat in L. lia. }
  destruct (io_for_inv (fun j s t => counted s0 (prefix b i ++ map (fun f => (b, i, f)) (seqZ 0 j)) s t) 1 (count_function b i) dev 8 0 s t)
    as (s' & t' & E & HP').
  - by rewrite app_nil_r.
  - intros j s1 t1 (q & -> & Hq) (P1 & P2 & P3). replace (0 + 1 * Z.of_nat q) with (Z.of_nat q) in * by lia.
    unfold count_function. destruct (config_init_run dev regs b i (Z.of_nat q) t1 Hdev) as (t2 & E2 & R2); [lia..| by rewrite P1|].
    rewrite (run_bind _ _ _ _ _ _ E2). eexists _, t2. split; [reflexivity|]. rewrite P1 in *.
    rewrite seqZ_snoc, map_app, app_assoc by lia. cbn [map]. unfold counted. rewrite found_app, found_one, Z.add_0_l.
    set (d := config_header r b i (Z.of_nat q)).
    pose proof (found_bound (prefix b i ++ map (λ f : Z, (b, i, f)) (seqZ 0 (Z.of_nat q)))) as Hfb.
    unfold zlen in Hfb, Hlen. rewrite length_app, length_map, length_seqZ in Hfb.
    destruct (vend_id d =? 65535); unfold zlen in *.
    + rewrite app_nil_r. by split_and!.
    + rewrite length_app. simpl. rewrite P3, s32_small by lia. split_and!; [done | done | lia].
  - exists s', t'. split; [exact E | exact HP'].
Qed.

Lemma count_scan_run s t : config_regs regs t = r -> total_pci_devices s = 0 ->
  exists s' t', ScanBusesForCount s dev t = Some (s', t') /\ counted s all_functions s' t'.
Proof.
  intros Ht H0. apply (scan_slots (counted s) (fun b i s => io_for 8 0 1 (count_function (u8 b) i) s)); [done|].
  intros b i s1 t1 Hb Hi HP. by apply count_slot_run.
Qed.

Definition allocated (n : Z) (l : list (Z * Z * Z)) (x : PCIService * Z) (t : list event) : Prop :=
  config_regs regs t = r /\ length (pciDevices (fst x)) = 256%nat /\ total_pci_devices (fst x) = n /\
  snd x = zlen (found l) /\ take (length (found l)) (pciDevices (fst x)) = found l.

Lemma found_prefix l l' : zlen (found l) <= zlen (found (l ++ l')).
Proof. rewrite found_app. unfold zlen. rewrite length_app. lia. Qed.

Lemma allocate_function_run n b i j l s alloc t : 0 <= b < 256 -> 0 <= i < 32 -> 0 <= j < 8 -> n <= 255 ->
  allocated n l (s, alloc) t -> alloc < n ->
  exists x' t', allocate_function b i j s alloc dev t = Some (x', t') /\ allocated n (l ++ [(b, i, j)]) x' t'.
Proof.
  intros Hb Hi Hj Hn (P1 & P2 & P3 & P4 & P5) Ha. cbn [fst snd] in *. unfold allocate_function.
  destruct (config_init_run dev regs b i j t Hdev) as (t2 & E2 & R2); [lia..| by rewrite P1|]. rewrite P1 in *.
  rewrite (run_bind _ _ _ _ _ _ E2). set (d := config_header r b i j) in *.
  assert (0 <= alloc) as Ha0 by (rewrite P4; unfold zlen; lia).
  rewrite zset_eq by (unfold zlen; lia). unfold pure at 1.
  erewrite run_bind by reflexivity. set (l' := <[Z.to_nat alloc := d]> (pciDevices s)).
  assert (take (length (found l)) l' = found l) as Hkeep.
  { unfold l'. rewrite take_insert_ge by (rewrite P4; unfold zlen; lia). done. }
  assert (length l' = 256%nat) as Hlen by (unfold l'; by rewrite length_insert).
  unfold allocated. cbn [pciDevices total_pci_devices fst snd]. rewrite found_app, found_one. fold d.
  destruct (vend_id d =? 65535).
  - eexists _, t2. split; [reflexivity|]. rewrite app_nil_r. cbn [fst snd]. simpl. by split_and!.
  - rewrite u16_small by lia. destruct (zget_some l' (alloc + 1)) as [y Hy]; [unfold zlen; lia|].
    simpl. rewrite Hy. unfold pure. erewrite run_bind by reflexivity. eexists _, t2. split; [reflexivity|]. cbn [fst snd]. simpl.
    split_and!; [done | done | done | rewrite P4; unfold zlen; rewrite length_app; cbn [length]; lia|].
    rewrite length_app. cbn [length]. rewrite Nat.add_1_r.
    assert (Z.to_nat alloc = length (found l)) as Eal by (rewrite P4; unfold zlen; lia).
    rewrite (take_S_r _ _ d); [by rewrite Hkeep|]. unfold l'. rewrite Eal, list_lookup_insert_eq; [done | lia].
Qed.

Lemma allocate_functions_run n b i m j l rest x t : 0 <= b < 256 -> 0 <= i < 32 -> 0 <= j -> j + Z.of_nat m = 8 -> n <= 255 ->
  zlen (found (l ++ map (fun f => (b, i, f)) (seqZ j (Z.of_nat m)) ++ rest)) = n -> allocated n l x t ->
  exists x' t', allocate_functions m b i j x dev t = Some (x', t') /\
    allocated n (l ++ map (fun f => (b, i, f)) (seqZ j (Z.of_nat m))) x' t'.
Proof.
  intros Hb Hi. revert j l x t. induction m as [|m IH]; intros j l [s alloc] t Hj0 Hj Hn Hall HP; cbn [allocate_functions].
  { exists (s, alloc), t. by rewrite app_nil_r. }
  pose proof HP as (P1 & P2 & P3 & P4 & P5). cbn [fst snd] in *. rewrite P3.
  assert (seqZ j (Z.of_nat (S m)) = j :: seqZ (j + 1) (Z.of_nat m)) as Eseq
    by (rewrite seqZ_cons by lia; replace (Z.pred (Z.of_nat (S m))) with (Z.of_nat m) by lia; by rewrite Z.add_1_r).
  set (mid := map (fun f => (b, i, f)) (seqZ (j + 1) (Z.of_nat m))).
  assert (map (fun f => (b, i, f)) (seqZ j (Z.of_nat (S m))) = [(b, i, j)] ++ mid) as Emap by (by rewrite Eseq).
  rewrite Emap in *. rewrite <- (app_assoc [(b, i, j)] mid rest), app_assoc in Hall. rewrite app_assoc.
  bdestr (alloc <? n).
  - destruct (allocate_function_run n b i j l s alloc t) as (x' & t' & E & HP'); [lia..| done | done |].
    rewrite (run_bind _ _ _ _ _ _ E). destruct (IH (j + 1) (l ++ [(b, i, j)]) x' t') as (x2 & t2 & E2 & HP2);
      [lia | lia | exact Hn | exact Hall | exact HP' |]. exists x2, t2. split; [exact E2 | exact HP2].
  - exists (s, alloc), t. split; [reflexivity|].
    assert (found ((l ++ [(b, i, j)]) ++ mid) = found l) as Efound.
    { rewrite !found_app in Hall. rewrite !found_app. unfold zlen in *. rewrite !length_app in Hall.
      rewrite (nil_length_inv (found [(b, i, j)])), (nil_length_inv (found mid)) by lia. by rewrite !app_nil_r. }
    unfold allocated. rewrite Efound. by split_and!.
Qed.

Lemma allocation_run s n t : config_regs regs t = r -> total_pci_devices s = n -> n = zlen (found all_functions) -> n <= 255 ->
  length (pciDevices s) = 256%nat ->
  exists s' t', ScanBusesForAllocation s dev t = Some (s', t') /\ total_pci_devices s' = n /\
    take (length (found all_functions)) (pciDevices s') = found all_functions.
Proof.
  intros Ht Hs Hn Hn255 Hlen. unfold ScanBusesForAllocation.
  destruct (scan_slots (allocated n) (fun b i x => allocate_functions 8 (u8 b) i 0 x) dev (s, 0) t) as (x & t' & E & P1 & P2 & P3 & P4 & P5).
  - by split_and!.
  - intros b i x t1 Hb Hi HP. rewrite u8_small by done. destruct (prefix_of_all b i Hb Hi) as (rest & Eall).
    apply (allocate_functions_run n b i 8 0 (prefix b i) rest); try done. by rewrite Hn, Eall.
  - rewrite (run_bind _ _ _ _ _ _ E). exists (fst x), t'. split; [reflexivity|]. done.
Qed.
End scan.

(** The slots from [i] on that hold a device asked for, and a search over them. *)
Definition wanted_from (s : PCIService) (i : Z) : list Z :=
  List.filter (fun j => match zget (pciDevices s) j with Some d => is_wanted s d | None => false end)
    (seqZ i (total_pci_devices s - i)).

Fixpoint walk {A} (hit : Z -> A -> A + A) (l : list Z) (acc : A) : A + A :=
  match l with
  | [] => inl acc
  | j :: l => match hit j acc with inl acc => walk hit l acc | inr r => inr r end
  end.

Lemma search_pci_spec {A} fuel s (hit : Z -> A -> A + A) i acc :
  0 <= i <= total_pci_devices s -> total_pci_devices s <= 255 -> total_pci_devices s <= zlen (pciDevices s) ->
  total_pci_devices s - i < Z.of_nat fuel -> search_pci fuel s hit i acc = Some (walk hit (wanted_from s i) acc).
Proof.
  revert i acc. induction fuel as [|fuel IH]; intros i acc Hi H255 Hlen Hf; [lia|]. cbn [search_pci].
  bdestr (i <? total_pci_devices s).
  - destruct (zget_some (pciDevices s) i) as [d Hd]; [lia|]. rewrite Hd. cbn [mbind option_bind].
    rewrite u8_small by lia. unfold wanted_from. rewrite seqZ_cons by lia. cbn [List.filter].
    replace (Z.succ i) with (i + 1) by lia. replace (Z.pred (total_pci_devices s - i)) with (total_pci_devices s - (i + 1)) by lia.
    fold (wanted_from s (i + 1)). rewrite Hd. destruct (is_wanted s d).
    + cbn [walk]. destruct (hit i acc); [|done]. apply IH; lia.
    + apply IH; lia.
  - unfold wanted_from. by replace (total_pci_devices s - i) with 0 by lia.
Qed.

Lemma walk_index k l c : 0 <= c -> c + zlen l <= 65535 ->
  match walk (fun i (acc : option Z * Z) => if snd acc =? k then inr (Some i, snd acc) else inl (fst acc, u16 (snd acc + 1))) l (None, c)
  with inr (p, _) => p | inl _ => None end = if c <=? k then zget l (k - c) else None.
Proof.
  revert c. induction l as [|x l IH]; intros c Hc Hb; cbn [walk snd fst].
  - destruct (c <=? k); [|done]. unfold zget. by destruct (0 <=? _).
  - assert (zlen (x :: l) = zlen l + 1) as El by (unfold zlen; cbn [length]; lia).
    bdestr (c =? k).
    + subst. rewrite Z.leb_refl, Z.sub_diag. done.
    + rewrite u16_small by (unfold zlen in *; lia). rewrite IH by lia. zcases; try lia; try done.
      unfold zget. bdestr (0 <=? k - c); [|lia]. bdestr (0 <=? k - (c + 1)); [|lia].
      replace (Z.to_nat (k - c)) with (S (Z.to_nat (k - (c + 1)))) by lia. done.
Qed.

Lemma walk_count l c : 0 <= c -> c + zlen l <= 65535 -> walk (fun _ count => inl (u16 (count + 1))) l c = inl (c + zlen l).
Proof.
  revert c. induction l as [|x l IH]; intros c Hc Hb; cbn [walk]; [by rewrite Z.add_0_r|].
  assert (zlen (x :: l) = zlen l + 1) as El by (unfold zlen; cbn [length]; lia).
  rewrite u16_small, IH by (unfold zlen in *; lia). f_equal. lia.
Qed.

Lemma wanted_length s i : 0 <= i <= total_pci_devices s -> zlen (wanted_from s i) <= total_pci_devices s - i.
Proof.
  intros Hi. unfold wanted_from, zlen. etrans; [apply inj_le, List.filter_length_le|]. rewrite length_seqZ. lia.
Qed.

(** A bus with a bridge in slot 0 and an IDE controller in slot 1, function 1. *)
Definition small_bus (a : Z) : Z :=
  if a =? config_address 0 0 0 0 then 0x12378086
  else if a =? config_address 0 1 1 0 then 0x70108086
  else if a =? config_address 0 1 1 8 then 0x01018000
  else 0xFFFFFFFF.

Definition small_bus_device : device := fun t _ _ _ => config_regs small_bus t (fst (config_space small_bus t)).

Lemma small_bus_behind : behind_config small_bus_device small_bus.
Proof. split; [|done]. intros a. unfold small_bus. zcases; lia. Qed.

Lemma filter_nil {A} (P : A -> bool) l : (forall x, In x l -> P x = false) -> List.filter P l = [].
Proof.
  induction l as [|x l IH]; intros H; [done|]. cbn [List.filter]. rewrite (H x (in_eq x l)). apply IH. intros y Hy. apply H, in_cons, Hy.
Qed.

Lemma small_bus_devices : devices small_bus = [config_header small_bus 0 0 0; config_header small_bus 0 1 1].
Proof.
  unfold devices, all_functions. rewrite (seqZ_cons 0 256) by lia. cbn [flat_map]. rewrite List.filter_app.
  assert (List.filter (present small_bus) (flat_map bus_functions (seqZ 1 255)) = []) as E.
  { apply filter_nil. intros [[b d] f] Hin.
    apply in_flat_map in Hin as (b' & Hb & Hin). apply in_flat_map in Hin as (d' & Hd & Hin).
    apply in_map_iff in Hin as (f' & [= -> -> ->] & Hf). rewrite <- !list_elem_of_In in *. rewrite !elem_of_seqZ in *.
    unfold present, config_word, small_bus, config_address. change (0 - 0 mod 4) with 0. change (8 - 8 mod 4) with 8.
    repeat match goal with |- context [?x =? ?p + ?y] => rewrite (proj2 (Z.eqb_neq x (p + y))) by lia end. reflexivity. }
  change (Z.succ 0) with 1. change (Z.pred 256) with 255. rewrite E, app_nil_r. vm_compute. reflexivity.
Qed.

Definition no_device : PCIDevice := header_of_words [] 0 0 0.

Definition empty_pci : PCIService := mkPCIService (replicate 256 no_device) 0 0 0x8086 0x7010 0 None 0.

(** * Properties *)

(** C19: the scan.  With up to 255 devices on the buses, [CollectHWInventory]
    counts them and fills the table with exactly their headers, each read from
    its own configuration space, in the order of bus, slot and function. *)
Theorem scan_finds_devices dev regs s t :
  behind_config dev regs -> total_pci_devices s = 0 -> length (pciDevices s) = 256%nat ->
  (forall a, 0 <= config_regs regs t a < 2 ^ 32) ->
  let ds := devices (config_regs regs t) in
  zlen ds <= 255 ->
  exists s' t', CollectHWInventory s dev t = Some (s', t') /\ total_pci_devices s' = zlen ds /\
    take (length ds) (pciDevices s') = ds.
Proof.
  intros Hdev H0 Hlen Hr ds Hds. unfold CollectHWInventory.
  destruct (count_scan_run dev regs (config_regs regs t) Hdev Hr s t eq_refl H0) as (s1 & t1 & E1 & P1 & P2 & P3).
  rewrite (run_bind _ _ _ _ _ _ E1).
  assert (ds = found (config_regs regs t) all_functions) as Eds by (unfold ds, devices, found; reflexivity).
  clearbody ds. subst ds.
  apply (allocation_run dev regs (config_regs regs t) Hdev Hr s1 _ t1 P1 P3); [reflexivity | exact Hds | by rewrite P2].
Qed.

Lemma scan_finds_devices_witness : exists s' t',
  CollectHWInventory empty_pci small_bus_device [] = Some (s', t') /\ total_pci_devices s' = 2 /\
  map (fun d => (dev_id d, pci_device d, func d)) (take 2 (pciDevices s')) = [(0x1237, 0, 0); (0x7010, 1, 1)].
Proof.
  destruct (scan_finds_devices small_bus_device small_bus empty_pci [] small_bus_behind eq_refl eq_refl)
    as (s' & t' & E & Ht & Hd).
  - exact (proj1 small_bus_behind).
  - change (config_regs small_bus []) with small_bus. rewrite small_bus_devices. vm_compute. discriminate.
  - exists s', t'. split; [exact E|]. change (config_regs small_bus []) with small_bus in Ht, Hd. rewrite small_bus_devices in Ht, Hd.
    split; [exact Ht|]. simpl length in Hd. rewrite Hd. vm_compute. reflexivity.
Defined.

(** The lookups.  With up to 255 devices, the three queries agree on the
    devices of the given vendor and kind: the count is the number of them, the
    query by index gives the slot of the [p_index]-th one, or nothing, and the
    first query gives the first one.  They always end. *)
Theorem pci_lookup fuel s :
  0 <= total_pci_devices s <= 255 -> length (pciDevices s) = 256%nat -> 0 <= p_index s < 65536 -> (255 < fuel)%nat ->
  let l := wanted_from s 0 in
  (exists s', GetPCIDeviceCount fuel s = Some (s', zlen l) /\ returned_count s' = zlen l) /\
  (exists s', GetPCIDeviceAtIndex fuel s = Some (s', zget l (p_index s)) /\ pciDevice_ptr s' = zget l (p_index s)) /\
  exists s', GetPCIDevice fuel s = Some (s', hd_error l) /\ pciDevice_ptr s' = hd_error l.
Proof.
  intros Hn Hlen Hidx Hf l.
  assert (zlen l <= 255) as Hl by (pose proof (wanted_length s 0 ltac:(lia)); unfold l; lia).
  assert (total_pci_devices s <= zlen (pciDevices s)) as Hn2 by (unfold zlen; lia).
  split_and!.
  - unfold GetPCIDeviceCount. rewrite search_pci_spec, walk_count by (fold l; lia). fold l. cbn [mbind option_bind]. eexists. split; [reflexivity|]. done.
  - unfold GetPCIDeviceAtIndex. rewrite search_pci_spec by lia. fold l. cbn [mbind option_bind].
    pose proof (walk_index (p_index s) l 0 ltac:(lia) ltac:(lia)) as E. bdestr (0 <=? p_index s); [|lia]. rewrite Z.sub_0_r in E.
    rewrite E. eexists. split; [reflexivity|]. done.
  - unfold GetPCIDevice. rewrite search_pci_spec by lia. fold l. cbn [mbind option_bind]. exists (s {{ pciDevice_ptr := hd_error l }}).
    by destruct l.
Qed.

Lemma pci_lookup_witness :
  exists s', GetPCIDeviceAtIndex 256 (empty_pci {{ pciDevices := header_of_words [0x8086; 0x7010] 0 1 1 :: replicate 255 no_device;
                                                  total_pci_devices := 2 }}) = Some (s', Some 0).
Proof.
  destruct (pci_lookup 256 (empty_pci {{ pciDevices := header_of_words [0x8086; 0x7010] 0 1 1 :: replicate 255 no_device;
                                         total_pci_devices := 2 }})) as (_ & (s' & E & _) & _);
    [simpl; lia | reflexivity | simpl; lia | lia |]. exists s'. exact E.
Defined.

(** Writing configuration words.  [PciConfigWriteCommand] reads the word at
    [off], joins the bits to it and writes the result to the whole 32-bit
    register that holds it: the register's low word gets the new value and its
    high word becomes zero.  For a word in the high half (the second channel's
    timing, 0x42) the old value of the word is therefore lost, and it is the
    word before it that is overwritten. *)
Theorem pci_write_takes_register dev regs p off bits t :
  behind_config dev regs -> (forall a, 0 <= config_regs regs t a < 2 ^ 32) ->
  0 <= bus p < 256 -> 0 <= pci_device p < 32 -> 0 <= func p < 8 -> 0 <= off < 256 -> 0 <= bits < 65536 ->
  let r := config_regs regs t in
  let w := Z.lor (config_word r (bus p) (pci_device p) (func p) off) bits in
  exists p' t', PciConfigWriteCommand p off bits dev t = Some (p', t') /\
    forall a, config_regs regs t' a = if a =? config_address (bus p) (pci_device p) (func p) off then w else r a.
Proof.
  intros Hdev Hr Hb Hd Hf Ho Hbits r w. unfold PciConfigWriteCommand, read_config, write_config.
  rewrite !u8_small by lia.
  destruct (config_read_run dev regs (bus p) (pci_device p) (func p) off t Hdev Hb Hd Hf Ho Hr) as (t1 & E1 & R1).
  rewrite (run_bind _ _ _ _ _ _ E1). fold r in E1, R1 |- *. set (v := config_word r (bus p) (pci_device p) (func p) off) in *.
  assert (0 <= v < 2 ^ 16) as Hv by (apply Z.mod_pos_bound; lia).
  pose proof (lor_bound 16 v bits ltac:(lia) Hv ltac:(lia)) as Hw. fold w in Hw.
  set (a0 := config_address (bus p) (pci_device p) (func p) off).
  assert (0 <= a0 < 2 ^ 32) as Ha by (unfold a0, config_address; zdiv).
  unfold PciConfigWriteWord. cbn [bus pci_device func pci_command]. simpl. rewrite ?u8_small by lia. rewrite l_address_spec by done. fold a0 w.
  eexists _, _. split; [run_io; reflexivity|]. intros a. unfold config_regs in *.
  cbn [config_space]. destruct (config_space regs t1) as [latch r1]. cbn [fst snd] in *.
  change (u16 PCI_ADDRESS =? PCI_ADDRESS) with true. change (u16 PCI_DATA =? PCI_ADDRESS) with false.
  change (u16 PCI_DATA =? PCI_DATA) with true. cbn [snd]. change (8 * 4) with 32. rewrite (Z.mod_small a0 (2 ^ 32)) by exact Ha.
  rewrite R1. rewrite (Z.mod_small (u16 w) (2 ^ 32)) by (rewrite u16_small; lia). by rewrite u16_small by lia.
Qed.

(** The second channel's timing of the controller in [small_bus]: what is enabled is the first channel's. *)
Definition timing_bus (a : Z) : Z := if a =? config_address 0 1 1 0x40 then 0x12340000 else small_bus a.

Definition timing_device : device := fun t _ _ _ => config_regs timing_bus t (fst (config_space timing_bus t)).

Lemma timing_bus_behind : behind_config timing_device timing_bus.
Proof. split; [|done]. intros a. unfold timing_bus, small_bus. zcases; lia. Qed.

Lemma pci_write_takes_register_witness : exists p' t',
  PciConfigWriteCommand (config_header small_bus 0 1 1) 0x42 0xA344 timing_device [] = Some (p', t') /\
  config_regs timing_bus t' (config_address 0 1 1 0x40) = 0x0000B374.
Proof.
  destruct (pci_write_takes_register timing_device timing_bus (config_header small_bus 0 1 1) 0x42 0xA344 [] timing_bus_behind
    (proj1 timing_bus_behind)) as (p' & t' & E & H); [simpl; lia.. |].
  exists p', t'. split; [exact E|]. rewrite H. vm_compute. reflexivity.
Defined.
