(* ===== verification/Ata.v ===== *)
(** * ATA disks: [sources/devices/ata/ATADisk.c]

    Ports are accesses of [Device]; the descriptor table and the DMA area are
    bytes of memory.  What the controller puts into the DMA area is not part of
    these functions (see [AtaManager]). *)

From S2P Require Import Prelude Defines Device KMalloc FastMem.

#[local] Open Scope Z_scope.

Definition DMA_READ_CHUNK : Z := 256.
Definition DMA_READ_CHUNK_EXT : Z := 65534.
Definition DMA_WRITE_CHUNK : Z := 256.
Definition DMA_WRITE_CHUNK_EXT : Z := 65534.
Definition DMA_AREA : Z := 0x2000000.
Definition ATA_PRIMARY_IO : Z := 0x1F0.
Definition ATA_SECONDARY_IO : Z := 0x170.
Definition ATA_PRIMARY_DCR_AS : Z := 0x3F6.
Definition ATA_SECONDARY_DCR_AS : Z := 0x376.
Definition ATA_MASTER_DRV_SELECTOR : Z := 0xA0.
Definition ATA_SLAVE_DRV_SELECTOR : Z := 0xB0.
Definition ATA_REG_FEATURES : Z := 1.
Definition ATA_REG_SECCOUNT : Z := 2.
Definition ATA_REG_LBA0 : Z := 3.
Definition ATA_REG_LBA1 : Z := 4.
Definition ATA_REG_LBA2 : Z := 5.
Definition ATA_REG_HDDEVSEL : Z := 6.
Definition ATA_REG_COMMAND : Z := 7.
Definition ATA_REG_STATUS : Z := 7.
Definition ATA_REG_ALT_STATUS : Z := 0.
Definition ATA_CMD_READ_PIO : Z := 0x20.
Definition ATA_CMD_READ_PIO_EXT : Z := 0x24.
Definition ATA_CMD_READ_DMA : Z := 0xC8.
Definition ATA_CMD_READ_DMA_EXT : Z := 0x25.
Definition ATA_CMD_WRITE_PIO : Z := 0x30.
Definition ATA_CMD_WRITE_PIO_EXT : Z := 0x34.
Definition ATA_CMD_WRITE_DMA : Z := 0xCA.
Definition ATA_CMD_WRITE_DMA_EXT : Z := 0x35.
Definition BM0_COMMAND : Z := 0.
Definition BM0_STATUS : Z := 2.
Definition BM0_ADDRESS : Z := 4.
Definition WRITE_PIO_SUCCESS : Z := 1.
Definition WRITE_PIO_FAIL : Z := 2.
Definition READ_PIO_SUCCESS : Z := 3.
Definition READ_PIO_FAIL : Z := 4.
Definition WRITE_DMA_SUCCESS : Z := 5.
Definition WRITE_DMA_FAIL : Z := 6.
Definition READ_DMA_SUCCESS : Z := 7.
Definition READ_DMA_FAIL : Z := 8.

(** The bits of the status register. *)
Definition is_BSY (status : Z) : bool := truthy (Z.land status 0x80).
Definition is_DRDY (status : Z) : bool := truthy (Z.land status 0x40).
Definition is_DRQ (status : Z) : bool := truthy (Z.land status 0x08).
Definition is_ERR (status : Z) : bool := truthy (Z.land status 0x01).

Record ATADisk := mkATADisk {
  ata_desc : list Z;                          (* 512 bytes *)
  serial : list Z;
  fw_revision : list Z;
  model_no : list Z;
  io_port : Z;
  control_base : Z;
  drv_selector : Z;
  disk_size : Z;
  slavebit : Z;
  dma : bool;
  prdt : Z;
  dma_phy_address : Z;
  dma_port_address : Z;
  dma_mmio_address : Z;
  bm_offset : Z;
  capabilities : Z;
  commandsets : Z;
  lba48 : bool;
  done_read : bool
}.

#[export] Instance eta_ATADisk : Eta ATADisk :=
  fun r => mkATADisk (ata_desc r) (serial r) (fw_revision r) (model_no r) (io_port r) (control_base r) (drv_selector r)
    (disk_size r) (slavebit r) (dma r) (prdt r) (dma_phy_address r) (dma_port_address r) (dma_mmio_address r)
    (bm_offset r) (capabilities r) (commandsets r) (lba48 r) (done_read r).

Definition control_port (d : ATADisk) : Z :=
  if io_port d =? ATA_PRIMARY_IO then ATA_PRIMARY_DCR_AS else ATA_SECONDARY_DCR_AS.

Definition ide_400ns_delay (d : ATADisk) : IO unit :=
  io_for 4 0 1 (fun _ _ => _ ← inportb (io_port d + ATA_REG_STATUS); mret tt) tt.

Definition readATAStatus (d : ATADisk) : IO unit := _ ← inportb (io_port d + ATA_REG_STATUS); mret tt.

(** The drive and, for 28-bit addresses, their top bits. *)
Definition select_drive (d : ATADisk) (addr : Z) : IO unit :=
  let select := Z.lor 0xE0 (Z.shiftl (slavebit d) 4) in
  outportb (io_port d + ATA_REG_HDDEVSEL) (if lba48 d then select else Z.lor select (Z.land (Z.shiftr addr 24) 0x0F)).

(** The registers of a command, high bytes first, and the command itself. *)
Definition issue_command (d : ATADisk) (addr p_sector_count cmd_ext cmd : Z) : IO unit :=
  _ ← outportb (io_port d + ATA_REG_FEATURES) 0x00;
  _ ← outportb (io_port d + ATA_REG_SECCOUNT) (u8 (Z.shiftr p_sector_count 8));
  _ ← outportb (io_port d + ATA_REG_LBA0) (u8 (Z.shiftr addr 24));
  _ ← outportb (io_port d + ATA_REG_LBA1) (u8 (Z.shiftr addr 32));
  _ ← outportb (io_port d + ATA_REG_LBA2) (u8 (Z.shiftr addr 40));
  _ ← outportb (io_port d + ATA_REG_SECCOUNT) (u8 p_sector_count);
  _ ← outportb (io_port d + ATA_REG_LBA0) (u8 addr);
  _ ← outportb (io_port d + ATA_REG_LBA1) (u8 (Z.shiftr addr 8));
  _ ← outportb (io_port d + ATA_REG_LBA2) (u8 (Z.shiftr addr 16));
  outportb (io_port d + ATA_REG_COMMAND) (if lba48 d then cmd_ext else cmd).

Definition flush_command (d : ATADisk) : IO unit :=
  outportb (io_port d + ATA_REG_COMMAND) (if lba48 d then 0xEA else 0xE7).

(** ** Programmed I/O *)

(** Wait for data: [false] is an error of the drive. *)
Definition wait_data (fuel : nat) (d : ATADisk) (after : IO unit) : IO bool :=
  first ← inportb (io_port d + ATA_REG_STATUS);
  if truthy first then
    io_loop fuel (fun _ : unit =>
      status ← inportb (io_port d + ATA_REG_STATUS);
      if is_DRQ status then mret (inr true)
      else if is_ERR status then mret (inr false)
      else _ ← after; mret (inl tt)) tt
  else mret true.

Definition writePIODiskSectors (fuel : nat) (d : ATADisk) (addr : Z) (mem : memory) (p_buffer p_sector_count : Z) : IO Z :=
  _ ← outportb (control_port d) 2;
  _ ← select_drive d addr;
  _ ← issue_command d addr p_sector_count ATA_CMD_WRITE_PIO_EXT ATA_CMD_WRITE_PIO;
  ok ← wait_data fuel d (mret tt);
  if negb ok then mret WRITE_PIO_FAIL
  else
    _ ← io_for (Z.to_nat (256 * p_sector_count)) 0 1 (fun idx _ =>
          let writeword := Z.lor (mem (p_buffer + idx * 2)) (Z.shiftl (mem (p_buffer + idx * 2 + 1)) 8) in
          _ ← outportw (io_port d) writeword;
          if (idx mod 256 =? 0) && (0 <? idx) then flush_command d else mret tt) tt;
    _ ← flush_command d;
    _ ← io_for 10 0 1 (fun _ _ => ide_400ns_delay d) tt;
    mret WRITE_PIO_SUCCESS.

(** The words of the sector [x]. *)
Definition read_words (d : ATADisk) (p_buffer x : Z) (mem : memory) : IO memory :=
  io_for 256 (256 * x) 1 (fun idx mem =>
    readword ← inportw (io_port d);
    mret (write_bytes mem (p_buffer + idx * 2) [u8 readword; u8 (Z.shiftr readword 8)])) mem.

Fixpoint read_sectors (fuel n : nat) (d : ATADisk) (p_buffer x : Z) (mem : memory) : IO (memory * Z) :=
  match n with
  | O => mret (mem, READ_PIO_SUCCESS)
  | S n =>
      ok ← wait_data fuel d (ide_400ns_delay d);
      if negb ok then mret (mem, READ_PIO_FAIL)
      else mem ← read_words d p_buffer x mem; read_sectors fuel n d p_buffer (x + 1) mem
  end.

Definition readPIODiskSectors (fuel : nat) (d : ATADisk) (addr : Z) (mem : memory) (p_buffer p_sector_count : Z)
  : IO (memory * Z) :=
  _ ← outportb (control_port d) 2;
  _ ← select_drive d addr;
  _ ← issue_command d addr p_sector_count ATA_CMD_READ_PIO_EXT ATA_CMD_READ_PIO;
  let sector_count := if p_sector_count =? 0 then 256 else p_sector_count in
  read_sectors fuel (Z.to_nat sector_count) d p_buffer 0 mem.

(** ** DMA *)

(** The descriptors of the DMA area: one for each 64 KiB, the last one marked. *)
Fixpoint fill_prdt (fuel : nat) (d : ATADisk) (i sectors : Z) (mem : memory) : option memory :=
  if sectors =? 0 then Some mem
  else match fuel with
  | O => None
  | S fuel =>
      let mem := put 4 mem (prdt d + 4 * i) (u32 (u64 (dma_phy_address d + i / 2 * 0x10000))) in
      if 128 <? sectors then
        let mem := put 4 mem (prdt d + 4 * (i + 1)) (Z.lor 0x00000000 (128 * 0x200)) in
        fill_prdt fuel d (u16 (i + 2)) (sectors - 128) mem
      else
        let mem := put 4 mem (prdt d + 4 * (i + 1)) (Z.lor 0x80000000 (sectors * 0x200)) in
        fill_prdt fuel d (u16 (i + 2)) 0 mem
  end.

Definition PRDT_FUEL : nat := 513.

Definition bm_port (d : ATADisk) (r : Z) : Z := u32 (dma_port_address d + r + bm_offset d).

(** What both directions do before the drive is selected; reading clears the area first. *)
Definition prepare_dma (clear : bool) (d : ATADisk) (p_sector_count : Z) (mem : memory) : IO memory :=
  _ ← inportb (bm_port d BM0_STATUS);
  let mem := if clear then memset mem (dma_phy_address d) 0 DMA_AREA else mem in
  bm_status ← inportb (bm_port d BM0_STATUS);
  _ ← outportb (bm_port d BM0_COMMAND) 0;
  _ ← outportb (bm_port d BM0_STATUS) bm_status;
  mem ← pure (fill_prdt PRDT_FUEL d 0 p_sector_count mem);
  _ ← outportb (bm_port d BM0_COMMAND) 0;
  _ ← outportb (bm_port d BM0_STATUS) 6;
  _ ← outportl (bm_port d BM0_ADDRESS) (prdt d);
  mret mem.

Definition reset_after_error (d : ATADisk) : IO unit :=
  _ ← outportb (if bm_offset d =? 0 then ATA_PRIMARY_DCR_AS else ATA_SECONDARY_DCR_AS) 0;
  _ ← outportb (io_port d + ATA_REG_HDDEVSEL)
        (if truthy (slavebit d) then ATA_SLAVE_DRV_SELECTOR else ATA_MASTER_DRV_SELECTOR);
  _ ← ide_400ns_delay d;
  _ ← inportb (io_port d + ATA_REG_STATUS);
  mret tt.

(** The result: memory, the new [dmaBuffer.current_select] and the return value. *)
Definition writeDMADiskSectors (fuel : nat) (d : ATADisk) (addr p_sector_count : Z) (mem : memory)
  : IO (memory * Z * Z) :=
  mem ← prepare_dma false d p_sector_count mem;
  let alt := control_port d + ATA_REG_ALT_STATUS in
  _ ← select_drive d addr;
  _ ← ide_400ns_delay d;
  let current_select := u8 (Z.lor 0xE0 (Z.shiftl (slavebit d) 4)) in
  status ← inportb alt;
  _ ← (if truthy status then
         io_loop fuel (fun status => if is_DRDY status then mret (inr tt) else s ← inportb alt; mret (inl s)) status
       else mret tt);
  _ ← issue_command d addr p_sector_count ATA_CMD_WRITE_DMA_EXT ATA_CMD_WRITE_DMA;
  status ← inportb alt;
  r ← (if truthy status then
         io_loop fuel (fun '(i, status) =>
           if negb (is_BSY status) && is_ERR status then _ ← reset_after_error d; mret (inr None)
           else if negb (is_BSY status) && is_DRQ status then mret (inr (Some status))
           else
             status ← inportb alt;
             if negb (is_DRQ status) && (5000 <? i) && (100000 <? i) then _ ← reset_after_error d; mret (inr None)
             else mret (inl (u64 (i + 1), status))) (0, status)
       else mret (Some status));
  match r with
  | None => mret (mem, 0, WRITE_DMA_FAIL)
  | Some status =>
      if is_DRQ status then
        _ ← outportb (bm_port d BM0_COMMAND) 1; mret (mem, current_select, WRITE_DMA_SUCCESS)
      else mret (mem, current_select, WRITE_DMA_FAIL)
  end.

(** One attempt to read; [None] is an attempt that starts over.  An error of the
    drive hangs the kernel: [for (;;);]. *)
Definition read_attempt (fuel : nat) (d : ATADisk) (addr p_sector_count : Z) (mem : memory) : IO (memory * bool) :=
  mem ← prepare_dma true d p_sector_count mem;
  let alt := control_port d + ATA_REG_ALT_STATUS in
  _ ← select_drive d addr;
  status ← inportb alt;
  ready ← (if truthy status then
         status ← io_loop fuel (fun '(stuck, status) =>
           if is_DRDY status then mret (inr status)
           else s ← inportb alt; mret (if 2000 <? stuck then inr s else inl (stuck + 1, s))) (0, status);
         mret (is_DRDY status)
       else mret true);
  if negb ready then mret (mem, false)
  else
    _ ← issue_command d addr p_sector_count ATA_CMD_READ_DMA_EXT ATA_CMD_READ_DMA;
    status ← inportb alt;
    status ← (if truthy status then
         io_loop fuel (fun '(i, status) =>
           if negb (is_BSY status) && is_ERR status then pure None
           else if negb (is_BSY status) && is_DRQ status then mret (inr status)
           else s ← inportb alt; mret (if negb (is_DRQ s) && (5000 <? i) then inr s else inl (u64 (i + 1), s)))
           (0, status)
       else mret status);
    if is_DRQ status then _ ← outportb (bm_port d BM0_COMMAND) 9; mret (mem, true)
    else mret (mem, false).

Definition readDMADiskSectors (fuel : nat) (d : ATADisk) (addr p_sector_count : Z) (mem : memory)
  : IO (memory * Z * Z) :=
  mem ← io_loop fuel (fun mem =>
    x ← read_attempt fuel d addr p_sector_count mem;
    let '(mem, started) := x in mret (if started : bool then inr mem else inl mem)) mem;
  mret (mem, u8 (Z.lor 0xE0 (Z.shiftl (slavebit d) 4)), READ_DMA_SUCCESS).

(** The [uint8_t] count of these two. *)
Definition writeDiskSectors (fuel : nat) (d : ATADisk) (p_addr : Z) (mem : memory) (p_buffer p_sector_count : Z) : IO (memory * Z) :=
  if dma d then x ← writeDMADiskSectors fuel d p_addr (u8 p_sector_count) mem; mret (fst (fst x), snd x)
  else r ← writePIODiskSectors fuel d p_addr mem p_buffer (u8 p_sector_count); mret (mem, r).

Definition readDiskSectors (fuel : nat) (d : ATADisk) (p_addr : Z) (mem : memory) (p_buffer p_sector_count : Z) : IO (memory * Z) :=
  if dma d then x ← readDMADiskSectors fuel d p_addr (u8 p_sector_count) mem; mret (fst (fst x), snd x)
  else readPIODiskSectors fuel d p_addr mem p_buffer (u8 p_sector_count).

Definition copyDMABuffer (d : ATADisk) (mem : memory) (p_buffer p_sector_count : Z) : memory :=
  write_bytes mem p_buffer (read_bytes mem (dma_phy_address d) (p_sector_count * 0x200)).

(** ** Identification *)

Definition ATA_IDENT_MAX_LBA : Z := 120.
Definition ATA_IDENT_COMMANDSETS : Z := 164.
Definition ATA_IDENT_CAPABILITIES : Z := 98.
Definition ATA_IDENT_MAX_LBA_EXT : Z := 200.

(** Four bytes of the description as a [uint32_t]. *)
Definition desc32 (desc : list Z) (i : Z) : option Z :=
  b0 ← zget desc i; b1 ← zget desc (i + 1); b2 ← zget desc (i + 2); b3 ← zget desc (i + 3);
  Some (u32 (Z.lor (Z.lor (Z.lor b0 (Z.shiftl b1 8)) (Z.shiftl b2 16)) (Z.shiftl b3 24))).

(** [dst[k] = desc[from + k]] for [n] characters. *)
Definition copy_chars (desc dst : list Z) (from n : Z) : option (list Z) :=
  for_each (Z.to_nat n) 0 (fun k dst => c ← zget desc (from + k); zset dst k (s8 c)) dst.

(** [d] is the memory [kmalloc] returned. *)
Definition initATADisk (d : ATADisk) (p_io_port p_drv_selector p_slavebit : Z) (p_dma : bool)
    (p_prdt p_dma_phy_address p_dma_port_address p_dma_mmio_address p_bm_offset : Z) : IO ATADisk :=
  let d := d {{ io_port := p_io_port; drv_selector := p_drv_selector; slavebit := p_slavebit;
                serial := replicate 21 0; fw_revision := replicate 10 0; ata_desc := replicate 512 0 }} in
  desc ← io_for 256 0 1 (fun idx desc =>
    readword ← inportw (io_port d);
    desc ← pure (zset desc (idx * 2) (u8 readword));
    pure (zset desc (idx * 2 + 1) (u8 (Z.shiftr readword 8)))) (ata_desc d);
  let d := d {{ ata_desc := desc; dma := p_dma; prdt := p_prdt; dma_phy_address := p_dma_phy_address;
                dma_port_address := p_dma_port_address; dma_mmio_address := p_dma_mmio_address; bm_offset := p_bm_offset }} in
  caps ← pure (desc32 desc ATA_IDENT_CAPABILITIES);
  sets ← pure (desc32 desc ATA_IDENT_COMMANDSETS);
  let ext := truthy (Z.land sets (Z.shiftl 1 26)) in
  size ← pure (desc32 desc (if ext then ATA_IDENT_MAX_LBA_EXT else ATA_IDENT_MAX_LBA));
  ser ← pure (copy_chars desc (serial d) 20 20);
  fw ← pure (copy_chars desc (fw_revision d) 46 8);
  model ← pure (copy_chars desc (model_no d) 54 40);
  mret (d {{ capabilities := caps; commandsets := sets; lba48 := ext; disk_size := size; serial := ser;
             fw_revision := fw; model_no := model }}).

(** ** The drive's side of the registers

    A write to the count or an address register pushes the previous value into
    the register's high byte; a 48-bit command uses both bytes, a 28-bit one the
    low bytes and the low half of the drive register. *)

Record task_file := mkTaskFile { r_count : Z * Z; r_lba0 : Z * Z; r_lba1 : Z * Z; r_lba2 : Z * Z; r_drive : Z }.

Definition power_on : task_file := mkTaskFile (0, 0) (0, 0) (0, 0) (0, 0) 0.

(** A command as the drive executes it: code, first sector, number of sectors. *)
Definition command : Type := Z * Z * Z.

Definition ext_command (c : Z) : bool := bool_decide (c ∈ [0x24; 0x25; 0x34; 0x35]).
Definition data_command (c : Z) : bool := bool_decide (c ∈ [0x20; 0xC8; 0x30; 0xCA]) || ext_command c.

Definition execute (r : task_file) (c : Z) : command :=
  let low := fst (r_lba0 r) + 2 ^ 8 * fst (r_lba1 r) + 2 ^ 16 * fst (r_lba2 r) in
  if ext_command c then
    let n := fst (r_count r) + 2 ^ 8 * snd (r_count r) in
    (c, low + 2 ^ 24 * snd (r_lba0 r) + 2 ^ 32 * snd (r_lba1 r) + 2 ^ 40 * snd (r_lba2 r), if n =? 0 then 65536 else n)
  else (c, low + 2 ^ 24 * (r_drive r mod 16), if fst (r_count r) =? 0 then 256 else fst (r_count r)).

Definition task_write (r : task_file) (reg v : Z) : task_file :=
  let push p := (v, fst p) : Z * Z in
  if reg =? 2 then mkTaskFile (push (r_count r)) (r_lba0 r) (r_lba1 r) (r_lba2 r) (r_drive r)
  else if reg =? 3 then mkTaskFile (r_count r) (push (r_lba0 r)) (r_lba1 r) (r_lba2 r) (r_drive r)
  else if reg =? 4 then mkTaskFile (r_count r) (r_lba0 r) (push (r_lba1 r)) (r_lba2 r) (r_drive r)
  else if reg =? 5 then mkTaskFile (r_count r) (r_lba0 r) (r_lba1 r) (push (r_lba2 r)) (r_drive r)
  else if reg =? 6 then mkTaskFile (r_count r) (r_lba0 r) (r_lba1 r) (r_lba2 r) v
  else r.

(** The registers and the data commands a trace issues, newest first. *)
Fixpoint drive (io : Z) (t : list event) : task_file * list command :=
  match t with
  | [] => (power_on, [])
  | Wr Port _ a v :: t =>
      let '(r, cs) := drive io t in
      (task_write r (a - io) v, if (a =? io + 7) && data_command v then execute r v :: cs else cs)
  | _ :: t => drive io t
  end.

Definition commands (io : Z) (t : list event) : list command := snd (drive io t).

(** The bus master: it takes the descriptors from memory and scatters the data
    over the regions they describe.  A size of 0 stands for 64 KiB; the bits
    above the low 16 are reserved, the highest marks the last descriptor. *)
Fixpoint transfer (fuel : nat) (mem : memory) (p : Z) (data : list Z) : option memory :=
  match fuel with
  | O => None
  | S fuel =>
      let base := get 4 mem p in
      let w := get 4 mem (p + 4) in
      let size := if w mod 65536 =? 0 then 65536 else w mod 65536 in
      let mem := write_bytes mem base (take (Z.to_nat size) data) in
      if Z.testbit w 31 then Some mem else transfer fuel mem (p + 8) (drop (Z.to_nat size) data)
  end.

(** The number of words taken from the data port. *)
Fixpoint data_reads (io : Z) (t : list event) : nat :=
  match t with
  | [] => O
  | Rd Port n a _ :: t => if (n =? 2) && (a =? io) then S (data_reads io t) else data_reads io t
  | _ :: t => data_reads io t
  end.

(** ** Lemmas *)

Lemma last_size s : 0 < s <= 128 ->
  let w := Z.lor 0x80000000 (s * 0x200) in
  0 <= w < 2 ^ 32 /\ (if w mod 65536 =? 0 then 65536 else w mod 65536) = s * 512 /\ Z.testbit w 31 = true.
Proof.
  intros Hs. pose proof (all_between_spec 1 129 (fun s => let w := Z.lor 0x80000000 (s * 0x200) in
    (0 <=? w) && (w <? 2 ^ 32) && ((if w mod 65536 =? 0 then 65536 else w mod 65536) =? s * 512) && Z.testbit w 31) s eq_refl) as H.
  simpl in H. specialize (H ltac:(lia)). rewrite !andb_true_iff, Z.leb_le, Z.ltb_lt, Z.eqb_eq in H. simpl. tauto.
Qed.

(** The tables of the bus master: the descriptors written from slot [q] on send
    the data to the DMA area from its [q]-th 64 KiB on. *)
Lemma fill_prdt_spec d fuel : 0 <= dma_phy_address d -> dma_phy_address d + 2 ^ 25 <= 2 ^ 32 ->
  dma_phy_address d + 2 ^ 25 <= prdt d \/ prdt d + 4096 <= dma_phy_address d ->
  forall q sectors mem, 0 <= q -> 0 < sectors -> sectors <= 128 * Z.of_nat fuel -> 128 * q + sectors <= 65536 ->
  exists mem', fill_prdt fuel d (2 * q) sectors mem = Some mem' /\
    (forall b, b < prdt d + 8 * q \/ prdt d + 4096 <= b -> mem' b = mem b) /\
    forall m data, (forall b, prdt d + 8 * q <= b < prdt d + 4096 -> m b = mem' b) -> zlen data = sectors * 512 ->
      exists m2, transfer fuel m (prdt d + 8 * q) data = Some m2 /\
        forall b, m2 b = write_bytes m (dma_phy_address d + 65536 * q) data b.
Proof.
  intros H0 Htop Hsep. induction fuel as [|fuel IH]; intros q sectors mem Hq Hs Hf Hbound; [lia|].
  cbn [fill_prdt]. bdestr (sectors =? 0); [lia|].
  replace (2 * q / 2) with q by (by rewrite Z.mul_comm, Z.div_mul by lia). replace (q * 0x10000) with (65536 * q) by lia.
  rewrite (u64_small (dma_phy_address d + 65536 * q)), u32_small by lia.
  set (base := dma_phy_address d + 65536 * q) in *.
  replace (prdt d + 4 * (2 * q)) with (prdt d + 8 * q) by lia. replace (prdt d + 4 * (2 * q + 1)) with (prdt d + 8 * q + 4) by lia.
  set (p := prdt d + 8 * q) in *. set (m1 := put 4 mem p base).
  bdestr (128 <? sectors).
  - rewrite u16_small by lia. replace (2 * q + 2) with (2 * (q + 1)) by lia.
    set (m2 := put 4 m1 (p + 4) _).
    destruct (IH (q + 1) (sectors - 128) m2) as (mem' & E & Hout & Htr); [lia..|].
    exists mem'. split; [exact E|]. split.
    + intros b Hx. rewrite Hout by lia. unfold m2, m1. rewrite !put_out by lia. done.
    + intros m data Hm Hlen.
      assert (get 4 m p = base) as Gb.
      { rewrite (get_ext 4 m m1). { apply get_put. change (2 ^ (8 * Z.of_nat 4)) with (2 ^ 32). lia. }
        intros b Hx. rewrite Hm, Hout by lia. unfold m2. apply put_out. lia. }
      assert (get 4 m (p + 4) = 65536) as Gw.
      { rewrite (get_ext 4 m m2). { unfold m2. by rewrite get_put. } intros b Hx. rewrite Hm, Hout by lia. done. }
      cbn [transfer]. rewrite Gb, Gw. change (65536 mod 65536 =? 0) with true. change (Z.testbit 65536 31) with false. cbv iota.
      set (m' := write_bytes m base (take (Z.to_nat 65536) data)).
      assert (zlen (take (Z.to_nat 65536) data) = 65536) as Lt by (unfold zlen in *; rewrite length_take; lia).
      destruct (Htr m' (drop (Z.to_nat 65536) data)) as (mf & Ef & Hf').
      * intros b Hx. unfold m'. rewrite write_bytes_out by lia. apply Hm. lia.
      * unfold zlen in *. rewrite length_drop. lia.
      * exists mf. replace (p + 8) with (prdt d + 8 * (q + 1)) by lia. split; [exact Ef|].
        intros b. rewrite Hf'. rewrite <- (take_drop (Z.to_nat 65536) data) at 2. rewrite write_bytes_app, Lt.
        replace (base + 65536) with (dma_phy_address d + 65536 * (q + 1)) by lia. done.
  - destruct (last_size sectors) as (Hw & Hsize & Hbit); [lia|].
    set (w := Z.lor 0x80000000 (sectors * 0x200)) in *. set (m2 := put 4 m1 (p + 4) w).
    exists m2. split; [by destruct fuel|]. split; [intros b Hx; unfold m2, m1; rewrite !put_out by lia; done|].
    intros m data Hm Hlen.
    assert (get 4 m p = base) as Gb.
    { rewrite (get_ext 4 m m1). { apply get_put. change (2 ^ (8 * Z.of_nat 4)) with (2 ^ 32). lia. }
      intros b Hx. rewrite Hm by lia. unfold m2. apply put_out. lia. }
    assert (get 4 m (p + 4) = w) as Gw.
    { rewrite (get_ext 4 m m2). { apply get_put. done. } intros b Hx. rewrite Hm by lia. done. }
    cbn [transfer]. rewrite Gb, Gw, Hsize, Hbit. eexists. split; [done|]. intros b. rewrite take_ge; [done | unfold zlen in *; lia].
Qed.

Lemma drive_reads io dev a k t : drive io (reads dev Port 1 a k t) = drive io t.
Proof. revert t. induction k as [|k IH]; intros t; [done|]. cbn [reads]. by rewrite IH. Qed.

(** Only writes count. *)
Definition drive_step (io : Z) (x : task_file * list command) (w : space * Z * Z) : task_file * list command :=
  let '(r, cs) := x in
  let '(s, a, v) := w in
  match s with
  | Port => (task_write r (a - io) v, if (a =? io + 7) && data_command v then execute r v :: cs else cs)
  | Mmio => (r, cs)
  end.

Lemma drive_of_writes io t : drive io t = foldl (drive_step io) (power_on, []) (writes t).
Proof.
  induction t as [|[s n a v|s n a v|] t IH]; cbn [drive writes]; try done. rewrite foldl_app, <- IH. cbn [foldl drive_step].
  by destruct s, (drive io t).
Qed.

Lemma commands_of_writes io t t' : writes t = writes t' -> commands io t = commands io t'.
Proof. intros H. unfold commands. by rewrite !drive_of_writes, H. Qed.

(** Writes to other ports do not reach the drive. *)
Lemma drive_skip io n a v t : a < io + 2 \/ io + 7 < a -> drive io (Wr Port n a v :: t) = drive io t.
Proof.
  intros H. cbn [drive]. destruct (drive io t) as [r cs]. unfold task_write.
  repeat match goal with |- context [a - io =? ?k] => destruct (Z.eqb_spec (a - io) k); [lia|] end.
  destruct (Z.eqb_spec a (io + 7)); [lia|]. done.
Qed.

(** Where the code finds the disk. *)
Record disk_ok (d : ATADisk) : Prop := {
  io_known : io_port d = ATA_PRIMARY_IO \/ io_port d = ATA_SECONDARY_IO;
  slave_bit : slavebit d = 0 \/ slavebit d = 1;
  channel : bm_offset d = 0 \/ bm_offset d = 8;
  bm_above : 0x400 <= dma_port_address d < 0xFFF0;
  prdt_32 : 0 <= prdt d < 2 ^ 32;
  area_below : 0 <= dma_phy_address d /\ dma_phy_address d + 2 ^ 25 <= 2 ^ 32;
  tables_apart : dma_phy_address d + 2 ^ 25 <= prdt d \/ prdt d + 4096 <= dma_phy_address d
}.

(** Sectors a command of the disk can name. *)
Definition addressable (d : ATADisk) (addr n : Z) : Prop :=
  0 <= addr /\ 0 < n /\ if lba48 d then addr + n <= 2 ^ 48 /\ n < 65536 else addr + n <= 2 ^ 28 /\ n <= 256.

(** A drive that is ready before the code gives up and that, given a command,
    asks for data without an error. *)
Definition answers (dev : device) (d : ATADisk) : Prop :=
  let alt := control_port d + ATA_REG_ALT_STATUS in
  (forall t, exists k, (k <= 2000)%nat /\ is_DRDY (shows dev Port 1 alt k t) = true /\
     forall j, (j < k)%nat -> is_DRDY (shows dev Port 1 alt j t) = false) /\
  forall c t, data_command c = true -> let t := Wr Port 1 (io_port d + 7) c :: t in
    exists k, (k <= 5000)%nat /\
      (forall j, (j < k)%nat -> is_BSY (shows dev Port 1 alt j t) = true) /\
      is_BSY (shows dev Port 1 alt k t) = false /\ is_ERR (shows dev Port 1 alt k t) = false /\
      is_DRQ (shows dev Port 1 alt k t) = true.

Lemma alt_port d : disk_ok d -> u16 (control_port d + ATA_REG_ALT_STATUS) = control_port d + ATA_REG_ALT_STATUS.
Proof. intros _. unfold control_port. by destruct (_ =? _). Qed.

Lemma bm_port_ok d r : disk_ok d -> 0 <= r <= 7 ->
  u16 (bm_port d r) = dma_port_address d + r + bm_offset d /\ 0x400 <= dma_port_address d + r + bm_offset d.
Proof. intros [] Hr. unfold bm_port. rewrite u32_small, u16_small by lia. lia. Qed.

Lemma ata_port d r : disk_ok d -> 0 <= r <= 7 -> u16 (io_port d + r) = io_port d + r.
Proof. intros [[Hp|Hp] _ _ _ _ _ _] Hr; rewrite Hp; apply u16_small; unfold ATA_PRIMARY_IO, ATA_SECONDARY_IO; lia. Qed.

Lemma shiftr_byte a k : 0 <= k -> u8 (Z.shiftr a k) = a / 2 ^ k mod 256.
Proof. intros. by rewrite Z.shiftr_div_pow2. Qed.

(** The bytes a command is written in name the sectors they were taken from. *)
Lemma bytes_of_48 addr : 0 <= addr < 2 ^ 48 ->
  addr mod 256 + 2 ^ 8 * (addr / 2 ^ 8 mod 256) + 2 ^ 16 * (addr / 2 ^ 16 mod 256) + 2 ^ 24 * (addr / 2 ^ 24 mod 256) +
  2 ^ 32 * (addr / 2 ^ 32 mod 256) + 2 ^ 40 * (addr / 2 ^ 40 mod 256) = addr.
Proof. intros. zdiv. Qed.

Lemma bytes_of_28 addr : 0 <= addr < 2 ^ 28 ->
  addr mod 256 + 2 ^ 8 * (addr / 2 ^ 8 mod 256) + 2 ^ 16 * (addr / 2 ^ 16 mod 256) + 2 ^ 24 * (addr / 2 ^ 24 mod 16) = addr.
Proof. intros. zdiv. Qed.

(** Selecting the drive and issuing a command make the drive execute it on the sectors asked for. *)
Lemma select_drive_run d addr dev t : disk_ok d -> 0 <= addr -> exists t1,
  select_drive d addr dev t = Some (tt, t1) /\
  snd (drive (io_port d) t1) = snd (drive (io_port d) t) /\
  (lba48 d = false -> r_drive (fst (drive (io_port d) t1)) mod 16 = addr / 2 ^ 24 mod 16) /\
  data_reads (io_port d) t1 = data_reads (io_port d) t /\
  forall p, 0x400 <= p -> last_write p t1 = last_write p t.
Proof.
  intros Hd Ha. unfold select_drive, outportb, write. rewrite ata_port by done. eexists. split; [reflexivity|].
  assert (io_port d <= 0x1F0) as Hio by (destruct Hd as [[->| ->] _ _ _ _ _ _]; unfold ATA_PRIMARY_IO, ATA_SECONDARY_IO; lia).
  split_and!.
  - cbn [drive]. destruct (drive (io_port d) t) as [r cs]. destruct (Z.eqb_spec (io_port d + ATA_REG_HDDEVSEL) (io_port d + 7)) as [E|E];
      [unfold ATA_REG_HDDEVSEL in E; lia | done].
  - intros Hl. rewrite Hl. cbn [drive]. destruct (drive (io_port d) t) as [r cs].
    replace (io_port d + ATA_REG_HDDEVSEL - io_port d) with 6 by (unfold ATA_REG_HDDEVSEL; lia). cbn [fst task_write].
    change (6 =? 2) with false. change (6 =? 6) with true. cbn -[Z.shiftl Z.shiftr Z.land Z.lor Z.pow Z.modulo Z.div].
    set (x := Z.land (Z.shiftr addr 24) 15).
    assert (x = addr / 2 ^ 24 mod 16) as -> by (unfold x; change 15 with (Z.ones 4); by rewrite Z.land_ones, Z.shiftr_div_pow2).
    assert (0 <= addr / 2 ^ 24 mod 16 < 16) as Hx by zdiv. revert Hx. generalize (addr / 2 ^ 24 mod 16). intros y Hy.
    destruct Hd as [_ [-> | ->] _ _ _ _ _]; refine (proj1 (Z.eqb_eq _ _) (all_between_spec 0 16 (fun y => _ =? y) y _ Hy)); reflexivity.
  - done.
  - intros p Hp. cbn [last_write]. destruct (Z.eqb_spec (io_port d + ATA_REG_HDDEVSEL) p) as [E|E]; [unfold ATA_REG_HDDEVSEL in E; lia | done].
Qed.

Lemma drive_registers io n r v t : fst (drive io (Wr Port n (io + r) v :: t)) = task_write (fst (drive io t)) r v.
Proof. cbn [drive]. destruct (drive io t) as [rf cs]. by replace (io + r - io) with r by lia. Qed.

Lemma drive_command io n v t : data_command v = true ->
  snd (drive io (Wr Port n (io + 7) v :: t)) = execute (fst (drive io t)) v :: snd (drive io t).
Proof. intros Hv. cbn [drive]. destruct (drive io t) as [rf cs]. by rewrite Z.eqb_refl, Hv. Qed.

Lemma drive_no_command io n r v t : r <> 7 -> snd (drive io (Wr Port n (io + r) v :: t)) = snd (drive io t).
Proof. intros Hr. cbn [drive]. destruct (drive io t) as [rf cs]. by destruct (Z.eqb_spec (io + r) (io + 7)); [lia|]. Qed.

(** The registers after the ten writes, and what the drive makes of them. *)
Lemma task_file_of_command r f ch l3 l4 l5 cl l0 l1 l2 :
  task_write (task_write (task_write (task_write (task_write (task_write (task_write (task_write (task_write r 1 f) 2 ch)
    3 l3) 4 l4) 5 l5) 2 cl) 3 l0) 4 l1) 5 l2 = mkTaskFile (cl, ch) (l0, l3) (l1, l4) (l2, l5) (r_drive r).
Proof. reflexivity. Qed.

Lemma execute_named d r addr n ext cmd : addressable d addr n -> ext_command ext = true -> ext_command cmd = false ->
  (lba48 d = false -> r_drive r mod 16 = addr / 2 ^ 24 mod 16) ->
  let b k := addr / 2 ^ k mod 256 in
  let c := if lba48 d then ext else cmd in
  execute (mkTaskFile (n mod 256, n / 2 ^ 8 mod 256) (addr mod 256, b 24) (b 8, b 32) (b 16, b 40) (r_drive r)) c = (c, addr, n).
Proof.
  intros (Ha & Hn & Hb) Hext Hcmd Hdrv. unfold execute. cbn [r_count r_lba0 r_lba1 r_lba2 r_drive fst snd].
  destruct (lba48 d).
  - rewrite Hext, bytes_of_48 by lia. f_equal. bdestr (n mod 256 + 2 ^ 8 * (n / 2 ^ 8 mod 256) =? 0); zdiv.
  - rewrite Hcmd, (Hdrv eq_refl), bytes_of_28 by lia. f_equal. bdestr (n mod 256 =? 0); zdiv.
Qed.

Lemma issue_command_run d addr n ext cmd dev t : disk_ok d -> addressable d addr n ->
  ext_command ext = true -> ext_command cmd = false -> data_command cmd = true -> 0 <= ext < 256 -> 0 <= cmd < 256 ->
  (lba48 d = false -> r_drive (fst (drive (io_port d) t)) mod 16 = addr / 2 ^ 24 mod 16) ->
  let c := if lba48 d then ext else cmd in
  exists t1, issue_command d addr n ext cmd dev t = Some (tt, Wr Port 1 (io_port d + 7) c :: t1) /\
    commands (io_port d) (Wr Port 1 (io_port d + 7) c :: t1) = (c, addr, n) :: commands (io_port d) t /\
    data_reads (io_port d) t1 = data_reads (io_port d) t /\
    forall p, 0x400 <= p -> last_write p t1 = last_write p t.
Proof.
  intros Hd (Ha & Hn & Hb) Hext Hcmd Hdat Hre Hrc Hdrv c.
  assert (io_port d <= 0x1F0) as Hio by (destruct Hd as [[->| ->] _ _ _ _ _ _]; unfold ATA_PRIMARY_IO, ATA_SECONDARY_IO; lia).
  assert (c mod 2 ^ 8 = c) as Hc by (apply Z.mod_small; unfold c; destruct (lba48 d); lia).
  unfold issue_command. run_io. rewrite !ata_port by (done || unfold ATA_REG_FEATURES, ATA_REG_SECCOUNT, ATA_REG_LBA0, ATA_REG_LBA1, ATA_REG_LBA2, ATA_REG_COMMAND; lia).
  fold c. change (8 * 1) with 8. rewrite Hc. eexists. split; [reflexivity|]. split_and!.
  - unfold commands, ATA_REG_FEATURES, ATA_REG_SECCOUNT, ATA_REG_LBA0, ATA_REG_LBA1, ATA_REG_LBA2.
    rewrite drive_command by (unfold c; destruct (lba48 d); [unfold data_command; by rewrite Hext, orb_true_r | done]).
    rewrite !drive_no_command by lia. f_equal. rewrite !drive_registers, task_file_of_command.
    rewrite !shiftr_byte by lia. unfold u8. rewrite !Zmod_mod. by apply execute_named.
  - done.
  - intros p Hp. cbn [last_write].
    repeat match goal with |- context [io_port d + ?k =? p] => destruct (Z.eqb_spec (io_port d + k) p) as [E|E];
      [unfold ATA_REG_FEATURES, ATA_REG_SECCOUNT, ATA_REG_LBA0, ATA_REG_LBA1, ATA_REG_LBA2, ATA_REG_COMMAND in E; lia|clear E] end.
    done.
Qed.

Lemma prepare_dma_run clear d n dev t mem : disk_ok d -> 0 < n <= 65536 -> exists mem' t1,
  prepare_dma clear d n mem dev t = Some (mem', t1) /\
  drive (io_port d) t1 = drive (io_port d) t /\
  last_write (dma_port_address d + BM0_ADDRESS + bm_offset d) t1 = Some (prdt d) /\
  (forall b, b < prdt d \/ prdt d + 4096 <= b ->
     mem' b = (if clear then memset mem (dma_phy_address d) 0 DMA_AREA else mem) b) /\
  forall data, zlen data = n * 512 -> exists m2, transfer PRDT_FUEL mem' (prdt d) data = Some m2 /\
    forall b, m2 b = write_bytes mem' (dma_phy_address d) data b.
Proof.
  intros Hd Hn. unfold prepare_dma. run_io.
  assert (io_port d <= 0x1F0) as Hio by (destruct Hd as [[->| ->] _ _ _ _ _ _]; unfold ATA_PRIMARY_IO, ATA_SECONDARY_IO; lia).
  destruct (bm_port_ok d BM0_COMMAND Hd ltac:(unfold BM0_COMMAND; lia)) as [-> Hc].
  destruct (bm_port_ok d BM0_STATUS Hd ltac:(unfold BM0_STATUS; lia)) as [-> Hs].
  destruct (bm_port_ok d BM0_ADDRESS Hd ltac:(unfold BM0_ADDRESS; lia)) as [-> Hx].
  set (m := if clear then memset mem (dma_phy_address d) 0 DMA_AREA else mem).
  destruct (fill_prdt_spec d PRDT_FUEL (proj1 (area_below d Hd)) (proj2 (area_below d Hd)) (tables_apart d Hd) 0 n m)
    as (mem' & E & Hout & Htr); [unfold PRDT_FUEL; lia..|].
  change (2 * 0) with 0 in E. rewrite E. eexists mem', _. split; [reflexivity|]. split_and!.
  - rewrite !drive_skip by lia. reflexivity.
  - cbn [last_write]. rewrite Z.eqb_refl. f_equal. apply Z.mod_small. apply (prdt_32 d Hd).
  - intros b Hb. apply Hout. lia.
  - intros data Hlen. destruct (Htr mem' data (fun b _ => eq_refl) Hlen) as (m2 & E2 & H2).
    rewrite Z.mul_0_r, Z.add_0_r in E2. exists m2. split; [exact E2|]. intros b. by rewrite H2, Z.mul_0_r, Z.add_0_r.
Qed.

(** Waiting for [DRDY]: whether the register shows nothing or becomes ready. *)
Lemma wait_drdy_run fuel dev d t : disk_ok d -> answers dev d -> 2001 < Z.of_nat fuel ->
  let alt := control_port d + ATA_REG_ALT_STATUS in
  let status := shows dev Port 1 alt 0 t in
  exists k, (if truthy status then
         status ← io_loop fuel (fun '(stuck, status) =>
           if is_DRDY status then mret (inr status)
           else s ← inportb alt; mret (if 2000 <? stuck then inr s else inl (stuck + 1, s))) (0, status);
         mret (is_DRDY status)
       else mret true) dev (reads dev Port 1 alt 1 t) = Some (true, reads dev Port 1 alt k t).
Proof.
  intros Hd [Hrdy _] Hf alt status. destruct (truthy status) eqn:Et; [|by exists 1%nat].
  destruct (Hrdy t) as (k & Hk & Hyes & Hno). fold alt in Hyes, Hno. exists (S k).
  rewrite (run_bind _ _ _ _ (shows dev Port 1 alt k t) (reads dev Port 1 alt (S k) t)).
  - unfold mret, IO_ret. by rewrite Hyes.
  - apply (io_loop_run _ dev (fun j => (Z.of_nat j, shows dev Port 1 alt j t)) (fun j => reads dev Port 1 alt (S j) t) k); [| |lia].
    + intros j Hj. rewrite (Hno j Hj). unfold inportb. rewrite (alt_port d Hd : u16 alt = alt).
      rewrite (run_bind _ _ _ _ (shows dev Port 1 alt (S j) t) (reads dev Port 1 alt (S (S j)) t));
        [|rewrite (reads_succ dev Port 1 alt (S j)); reflexivity].
      bdestr (2000 <? Z.of_nat j); [lia|]. unfold mret, IO_ret. by replace (Z.of_nat j + 1) with (Z.of_nat (S j)) by lia.
    + by rewrite Hyes.
Qed.

Lemma is_DRQ_truthy s : is_DRQ s = true \/ is_BSY s = true -> truthy s = true.
Proof. destruct (Z.eqb_spec s 0) as [->|H]; [by intros [|]|]. intros _. unfold truthy. by apply negb_true_iff, Z.eqb_neq. Qed.

(** Waiting for the data of the command just issued. *)
Lemma wait_drq_run fuel dev d c t : disk_ok d -> answers dev d -> data_command c = true -> 5001 < Z.of_nat fuel ->
  let alt := control_port d + ATA_REG_ALT_STATUS in
  let t := Wr Port 1 (io_port d + 7) c :: t in
  let status := shows dev Port 1 alt 0 t in
  exists status' k, (if truthy status then
         io_loop fuel (fun '(i, status) =>
           if negb (is_BSY status) && is_ERR status then pure None
           else if negb (is_BSY status) && is_DRQ status then mret (inr status)
           else s ← inportb alt; mret (if negb (is_DRQ s) && (5000 <? i) then inr s else inl (u64 (i + 1), s)))
           (0, status)
       else mret status) dev (reads dev Port 1 alt 1 t) = Some (status', reads dev Port 1 alt k t) /\ is_DRQ status' = true.
Proof.
  intros Hd [_ Hdrq] Hc Hf alt t1 status. destruct (Hdrq c t Hc) as (k & Hk & Hbusy & Hnb & Hne & Hyes).
  fold t1 alt in Hbusy, Hnb, Hne, Hyes.
  assert (truthy status = true) as ->.
  { apply is_DRQ_truthy. destruct k; [by left | right; apply (Hbusy 0%nat); lia]. }
  exists (shows dev Port 1 alt k t1), (S k). split; [|done].
  apply (io_loop_run _ dev (fun j => (Z.of_nat j, shows dev Port 1 alt j t1)) (fun j => reads dev Port 1 alt (S j) t1) k); [| |lia].
  - intros j Hj. rewrite (Hbusy j Hj). cbn [negb andb]. unfold inportb. rewrite (alt_port d Hd : u16 alt = alt).
    rewrite (run_bind _ _ _ _ (shows dev Port 1 alt (S j) t1) (reads dev Port 1 alt (S (S j)) t1));
      [|rewrite (reads_succ dev Port 1 alt (S j)); reflexivity].
    bdestr (5000 <? Z.of_nat j); [lia|]. rewrite andb_false_r. unfold mret, IO_ret. rewrite u64_small by lia.
    by replace (Z.of_nat j + 1) with (Z.of_nat (S j)) by lia.
  - by rewrite Hnb, Hne, Hyes.
Qed.

(** Reading, once the drive answers: one attempt issues the command, sets up the
    transfer and starts it. *)
Lemma read_attempt_run fuel dev d addr n mem t : disk_ok d -> answers dev d -> addressable d addr n -> 5001 < Z.of_nat fuel ->
  exists mem' t', read_attempt fuel d addr n mem dev t = Some ((mem', true), Wr Port 1 (dma_port_address d + BM0_COMMAND + bm_offset d) 9 :: t') /\
    commands (io_port d) t' = (if lba48 d then ATA_CMD_READ_DMA_EXT else ATA_CMD_READ_DMA, addr, n) :: commands (io_port d) t /\
    last_write (dma_port_address d + BM0_ADDRESS + bm_offset d) t' = Some (prdt d) /\
    (forall b, b < prdt d \/ prdt d + 4096 <= b -> mem' b = memset mem (dma_phy_address d) 0 DMA_AREA b) /\
    forall data, zlen data = n * 512 -> exists m2, transfer PRDT_FUEL mem' (prdt d) data = Some m2 /\
      forall b, m2 b = write_bytes mem' (dma_phy_address d) data b.
Proof.
  intros Hd Ha Hr Hf. assert (0 < n <= 65536) as Hn by (destruct Hr as (_ & ? & Hb); destruct (lba48 d); lia).
  destruct (bm_port_ok d BM0_ADDRESS Hd ltac:(unfold BM0_ADDRESS; lia)) as [_ Hx].
  destruct (bm_port_ok d BM0_COMMAND Hd ltac:(unfold BM0_COMMAND; lia)) as [Hcp Hc].
  destruct (prepare_dma_run true d n dev t mem Hd Hn) as (mem' & t1 & E1 & D1 & L1 & M1 & X1).
  destruct (select_drive_run d addr dev t1 Hd (proj1 Hr)) as (t2 & E2 & C2 & R2 & _ & L2).
  unfold read_attempt. rewrite (run_bind _ _ _ _ _ _ E1), (run_bind _ _ _ _ _ _ E2).
  set (alt := control_port d + ATA_REG_ALT_STATUS).
  pose proof (alt_port d Hd : u16 alt = alt) as Ealt.
  rewrite (run_bind (inportb alt) _ dev t2 (shows dev Port 1 alt 0 t2) (reads dev Port 1 alt 1 t2)) by (unfold inportb; rewrite Ealt; reflexivity).
  destruct (wait_drdy_run fuel dev d t2 Hd Ha ltac:(lia)) as (k3 & E3). rewrite (run_bind _ _ _ _ _ _ E3). cbn [negb].
  set (t3 := reads dev Port 1 (control_port d + ATA_REG_ALT_STATUS) k3 t2).
  destruct (issue_command_run d addr n ATA_CMD_READ_DMA_EXT ATA_CMD_READ_DMA dev t3) as (t4 & E4 & C4 & _ & L4);
    [done | done | done | done | done | unfold ATA_CMD_READ_DMA_EXT; lia | unfold ATA_CMD_READ_DMA; lia | |].
  { intros Hl. unfold t3. rewrite drive_reads. by apply R2. }
  rewrite (run_bind _ _ _ _ _ _ E4). set (c := if lba48 d then _ else _) in *.
  set (t5 := Wr Port 1 (io_port d + 7) c :: t4) in *.
  rewrite (run_bind (inportb alt) _ dev t5 (shows dev Port 1 alt 0 t5) (reads dev Port 1 alt 1 t5)) by (unfold inportb; rewrite Ealt; reflexivity).
  destruct (wait_drq_run fuel dev d c t4 Hd Ha ltac:(unfold c; by destruct (lba48 d)) ltac:(lia)) as (s' & k6 & E6 & Hq).
  rewrite (run_bind _ _ _ _ _ _ E6), Hq. set (t6 := reads dev Port 1 _ k6 _).
  exists mem', t6. split; [|split_and!].
  - unfold outportb. rewrite Hcp. reflexivity.
  - unfold commands, t6. rewrite drive_reads. fold t5. fold (commands (io_port d) t5). rewrite C4. f_equal.
    unfold commands, t3. rewrite drive_reads, C2, D1. done.
  - unfold t6. rewrite last_write_reads. cbn [last_write].
    destruct (Z.eqb_spec (io_port d + 7) (dma_port_address d + BM0_ADDRESS + bm_offset d)) as [E|_].
    { destruct Hd as [[Hi|Hi] _ _ _ _ _ _]; rewrite Hi in E; unfold ATA_PRIMARY_IO, ATA_SECONDARY_IO in E; lia. }
    rewrite L4 by done. unfold t3. by rewrite last_write_reads, L2, L1.
  - exact M1.
  - exact X1.
Qed.

(** Writing: the same, with a wait for [DRDY] that does not give up. *)
Lemma ide_delay_run d dev t : disk_ok d ->
  ide_400ns_delay d dev t = Some (tt, reads dev Port 1 (io_port d + ATA_REG_STATUS) 4 t).
Proof.
  intros Hd. unfold ide_400ns_delay, inportb. rewrite ata_port by (done || unfold ATA_REG_STATUS; lia). reflexivity.
Qed.

Lemma wait_drdy_write_run fuel dev d t : disk_ok d -> answers dev d -> 2000 < Z.of_nat fuel ->
  let alt := control_port d + ATA_REG_ALT_STATUS in
  let status := shows dev Port 1 alt 0 t in
  exists k, (if truthy status then
         io_loop fuel (fun status => if is_DRDY status then mret (inr tt) else s ← inportb alt; mret (inl s)) status
       else mret tt) dev (reads dev Port 1 alt 1 t) = Some (tt, reads dev Port 1 alt k t).
Proof.
  intros Hd [Hrdy _] Hf alt status. destruct (truthy status) eqn:Et; [|by exists 1%nat].
  destruct (Hrdy t) as (k & Hk & Hyes & Hno). fold alt in Hyes, Hno. exists (S k).
  apply (io_loop_run _ dev (fun j => shows dev Port 1 alt j t) (fun j => reads dev Port 1 alt (S j) t) k); [| |lia].
  - intros j Hj. rewrite (Hno j Hj). unfold inportb. rewrite (alt_port d Hd : u16 alt = alt).
    rewrite (run_bind _ _ _ _ (shows dev Port 1 alt (S j) t) (reads dev Port 1 alt (S (S j)) t));
      [|rewrite (reads_succ dev Port 1 alt (S j)); reflexivity]. done.
  - by rewrite Hyes.
Qed.

Lemma wait_drq_write_run fuel dev d c t : disk_ok d -> answers dev d -> data_command c = true -> 5001 < Z.of_nat fuel ->
  let alt := control_port d + ATA_REG_ALT_STATUS in
  let t := Wr Port 1 (io_port d + 7) c :: t in
  let status := shows dev Port 1 alt 0 t in
  exists status' k, (if truthy status then
         io_loop fuel (fun '(i, status) =>
           if negb (is_BSY status) && is_ERR status then _ ← reset_after_error d; mret (inr None)
           else if negb (is_BSY status) && is_DRQ status then mret (inr (Some status))
           else
             status ← inportb alt;
             if negb (is_DRQ status) && (5000 <? i) && (100000 <? i) then _ ← reset_after_error d; mret (inr None)
             else mret (inl (u64 (i + 1), status))) (0, status)
       else mret (Some status)) dev (reads dev Port 1 alt 1 t) = Some (Some status', reads dev Port 1 alt k t) /\ is_DRQ status' = true.
Proof.
  intros Hd [_ Hdrq] Hc Hf alt t1 status. destruct (Hdrq c t Hc) as (k & Hk & Hbusy & Hnb & Hne & Hyes).
  fold t1 alt in Hbusy, Hnb, Hne, Hyes.
  assert (truthy status = true) as ->.
  { apply is_DRQ_truthy. destruct k; [by left | right; apply (Hbusy 0%nat); lia]. }
  exists (shows dev Port 1 alt k t1), (S k). split; [|done].
  apply (io_loop_run _ dev (fun j => (Z.of_nat j, shows dev Port 1 alt j t1)) (fun j => reads dev Port 1 alt (S j) t1) k); [| |lia].
  - intros j Hj. rewrite (Hbusy j Hj). cbn [negb andb]. unfold inportb. rewrite (alt_port d Hd : u16 alt = alt).
    rewrite (run_bind _ _ _ _ (shows dev Port 1 alt (S j) t1) (reads dev Port 1 alt (S (S j)) t1));
      [|rewrite (reads_succ dev Port 1 alt (S j)); reflexivity].
    bdestr (5000 <? Z.of_nat j); [lia|]. rewrite andb_false_r. cbn [andb]. unfold mret, IO_ret. rewrite u64_small by lia.
    by replace (Z.of_nat j + 1) with (Z.of_nat (S j)) by lia.
  - by rewrite Hnb, Hne, Hyes.
Qed.

Lemma write_run fuel dev d addr n mem t : disk_ok d -> answers dev d -> addressable d addr n -> 5001 < Z.of_nat fuel ->
  exists mem' t', writeDMADiskSectors fuel d addr n mem dev t =
      Some ((mem', u8 (Z.lor 0xE0 (Z.shiftl (slavebit d) 4)), WRITE_DMA_SUCCESS),
            Wr Port 1 (dma_port_address d + BM0_COMMAND + bm_offset d) 1 :: t') /\
    commands (io_port d) t' = (if lba48 d then ATA_CMD_WRITE_DMA_EXT else ATA_CMD_WRITE_DMA, addr, n) :: commands (io_port d) t /\
    last_write (dma_port_address d + BM0_ADDRESS + bm_offset d) t' = Some (prdt d) /\
    (forall b, b < prdt d \/ prdt d + 4096 <= b -> mem' b = mem b).
Proof.
  intros Hd Ha Hr Hf. assert (0 < n <= 65536) as Hn by (destruct Hr as (_ & ? & Hb); destruct (lba48 d); lia).
  destruct (bm_port_ok d BM0_ADDRESS Hd ltac:(unfold BM0_ADDRESS; lia)) as [_ Hx].
  destruct (bm_port_ok d BM0_COMMAND Hd ltac:(unfold BM0_COMMAND; lia)) as [Hcp Hc].
  destruct (prepare_dma_run false d n dev t mem Hd Hn) as (mem' & t1 & E1 & D1 & L1 & M1 & X1).
  destruct (select_drive_run d addr dev t1 Hd (proj1 Hr)) as (t2 & E2 & C2 & R2 & _ & L2).
  unfold writeDMADiskSectors. rewrite (run_bind _ _ _ _ _ _ E1), (run_bind _ _ _ _ _ _ E2), (run_bind _ _ _ _ _ _ (ide_delay_run d dev t2 Hd)).
  set (t2' := reads dev Port 1 _ 4 t2). set (alt := control_port d + ATA_REG_ALT_STATUS).
  pose proof (alt_port d Hd : u16 alt = alt) as Ealt.
  rewrite (run_bind (inportb alt) _ dev t2' (shows dev Port 1 alt 0 t2') (reads dev Port 1 alt 1 t2')) by (unfold inportb; rewrite Ealt; reflexivity).
  destruct (wait_drdy_write_run fuel dev d t2' Hd Ha ltac:(lia)) as (k3 & E3). rewrite (run_bind _ _ _ _ _ _ E3).
  set (t3 := reads dev Port 1 (control_port d + ATA_REG_ALT_STATUS) k3 t2').
  destruct (issue_command_run d addr n ATA_CMD_WRITE_DMA_EXT ATA_CMD_WRITE_DMA dev t3) as (t4 & E4 & C4 & _ & L4);
    [done | done | done | done | done | unfold ATA_CMD_WRITE_DMA_EXT; lia | unfold ATA_CMD_WRITE_DMA; lia | |].
  { intros Hl. unfold t3, t2'. rewrite !drive_reads. by apply R2. }
  rewrite (run_bind _ _ _ _ _ _ E4). set (c := if lba48 d then _ else _) in *.
  set (t5 := Wr Port 1 (io_port d + 7) c :: t4) in *.
  rewrite (run_bind (inportb alt) _ dev t5 (shows dev Port 1 alt 0 t5) (reads dev Port 1 alt 1 t5)) by (unfold inportb; rewrite Ealt; reflexivity).
  destruct (wait_drq_write_run fuel dev d c t4 Hd Ha ltac:(unfold c; by destruct (lba48 d)) ltac:(lia)) as (s' & k6 & E6 & Hq).
  rewrite (run_bind _ _ _ _ _ _ E6), Hq. set (t6 := reads dev Port 1 _ k6 _).
  exists mem', t6. split; [|split_and!].
  - unfold outportb. rewrite Hcp. reflexivity.
  - unfold commands, t6. rewrite drive_reads. fold t5. fold (commands (io_port d) t5). rewrite C4. f_equal.
    unfold commands, t3, t2'. rewrite !drive_reads, C2, D1. done.
  - unfold t6. rewrite last_write_reads. cbn [last_write].
    destruct (Z.eqb_spec (io_port d + 7) (dma_port_address d + BM0_ADDRESS + bm_offset d)) as [E|_].
    { destruct Hd as [[Hi|Hi] _ _ _ _ _ _]; rewrite Hi in E; unfold ATA_PRIMARY_IO, ATA_SECONDARY_IO in E; lia. }
    rewrite L4 by done. unfold t3, t2'. by rewrite !last_write_reads, L2, L1.
  - exact M1.
Qed.

Lemma readDMADiskSectors_run fuel dev d addr n mem t : disk_ok d -> answers dev d -> addressable d addr n -> 5001 < Z.of_nat fuel ->
  exists mem' t', readDMADiskSectors fuel d addr n mem dev t =
      Some ((mem', u8 (Z.lor 0xE0 (Z.shiftl (slavebit d) 4)), READ_DMA_SUCCESS),
            Wr Port 1 (dma_port_address d + BM0_COMMAND + bm_offset d) 9 :: t') /\
    commands (io_port d) t' = (if lba48 d then ATA_CMD_READ_DMA_EXT else ATA_CMD_READ_DMA, addr, n) :: commands (io_port d) t /\
    last_write (dma_port_address d + BM0_ADDRESS + bm_offset d) t' = Some (prdt d) /\
    (forall b, b < prdt d \/ prdt d + 4096 <= b -> mem' b = memset mem (dma_phy_address d) 0 DMA_AREA b) /\
    forall data, zlen data = n * 512 -> exists m2, transfer PRDT_FUEL mem' (prdt d) data = Some m2 /\
      forall b, m2 b = write_bytes mem' (dma_phy_address d) data b.
Proof.
  intros Hd Ha Hr Hf. destruct (read_attempt_run fuel dev d addr n mem t Hd Ha Hr Hf) as (mem' & t' & E & C & L & M & X).
  exists mem', t'. split; [|by split_and!].
  unfold readDMADiskSectors. erewrite run_bind; [reflexivity|].
  apply (io_loop_run _ dev (fun _ => mem) (fun _ => t) 0); [lia | | lia]. by rewrite (run_bind _ _ _ _ _ _ E).
Qed.

(** ** Programmed I/O *)

(** A drive that offers the words [w 0], [w 1], ... and comes to ask for data. *)
Definition supplies (dev : device) (d : ATADisk) (w : nat -> Z) (patience : nat) : Prop :=
  let st := io_port d + ATA_REG_STATUS in
  (forall t, dev t Port 2 (io_port d) = w (data_reads (io_port d) t)) /\
  (forall i, 0 <= w i < 65536) /\
  forall t, (forall j, (patience <= j)%nat -> is_DRQ (shows dev Port 1 st j t) = true) /\
    forall j, is_ERR (shows dev Port 1 st j t) = false.

Definition word_bytes (v : Z) : list Z := [v mod 256; v / 256].

Lemma data_reads_status io dev a k t : data_reads io (reads dev Port 1 a k t) = data_reads io t.
Proof. revert t. induction k as [|k IH]; intros t; [done|]. cbn [reads]. by rewrite IH. Qed.

Lemma reads_add dev s n a j k t : reads dev s n a (j + k) t = reads dev s n a k (reads dev s n a j t).
Proof. revert t. induction j as [|j IH]; intros t; [done|]. cbn [reads Nat.add]. by rewrite IH. Qed.

(** The polls are five reads apart: one to look and four to wait. *)
Lemma wait_data_run fuel dev d w p t : disk_ok d -> supplies dev d w p -> (p < fuel)%nat ->
  exists k, wait_data fuel d (ide_400ns_delay d) dev t = Some (true, reads dev Port 1 (io_port d + ATA_REG_STATUS) k t).
Proof.
  intros Hd (_ & _ & Hs) Hf. unfold wait_data. set (st := io_port d + ATA_REG_STATUS).
  assert (u16 st = st) as Est by (apply ata_port; [done | unfold ATA_REG_STATUS; lia]).
  assert (inportb st = read Port 1 st) as Ein by (unfold inportb; by rewrite Est).
  rewrite Ein. erewrite run_bind; [|reflexivity]. set (t1 := _ :: t).
  assert (t1 = reads dev Port 1 st 1 t) as Et1 by done.
  destruct (truthy _); [|by exists 1%nat]. destruct (Hs t1) as [Hyes Hne]. fold st in Hyes, Hne.
  assert (exists k, is_DRQ (shows dev Port 1 st (5 * k) t1) = true /\ (k <= p)%nat /\
    forall j, (j < k)%nat -> is_DRQ (shows dev Port 1 st (5 * j) t1) = false) as (k & Hk & Hkp & Hno).
  { destruct (first_true (fun z => is_DRQ (shows dev Port 1 st (5 * Z.to_nat z) t1)) 0 (Z.of_nat p + 1) ltac:(lia))
      as [H|(z & Hz & Hy & Hn)].
    - specialize (H (Z.of_nat p) ltac:(lia)). simpl in H. rewrite Hyes in H by lia. done.
    - exists (Z.to_nat z). split_and!; [done | lia|]. intros j Hj. specialize (Hn (Z.of_nat j) ltac:(lia)).
      by rewrite Nat2Z.id in Hn. }
  exists (1 + (5 * k + 1))%nat. rewrite reads_add, <- Et1.
  apply (io_loop_run _ dev (fun _ => tt) (fun j => reads dev Port 1 st (5 * j) t1) k); [| |lia].
  - intros j Hj. rewrite (run_bind _ _ _ _ (shows dev Port 1 st (5 * j) t1) (reads dev Port 1 st (S (5 * j)) t1))
      by (rewrite reads_succ; reflexivity).
    rewrite (Hno j Hj), Hne, (run_bind _ _ _ _ _ _ (ide_delay_run d dev _ Hd)). fold st.
    unfold mret, IO_ret. rewrite <- reads_add. do 3 f_equal. lia.
  - rewrite (run_bind _ _ _ _ (shows dev Port 1 st (5 * k) t1) (reads dev Port 1 st (S (5 * k)) t1))
      by (rewrite reads_succ; reflexivity).
    rewrite Hk. unfold mret, IO_ret. do 3 f_equal. lia.
Qed.

Lemma flat_snoc w i n : flat_map (fun k => word_bytes (w k)) (seq i (S n)) =
  flat_map (fun k => word_bytes (w k)) (seq i n) ++ word_bytes (w (i + n)%nat).
Proof. rewrite seq_S, flat_map_app. simpl. done. Qed.

Lemma zlen_words w i n : zlen (flat_map (fun k => word_bytes (w k)) (seq i n)) = 2 * Z.of_nat n.
Proof.
  induction n as [|n IH]; [done|]. rewrite flat_snoc. unfold zlen in *. rewrite length_app, Nat2Z.inj_add, IH. simpl. lia.
Qed.

Lemma read_words_run dev d w p buf x mem t : disk_ok d -> supplies dev d w p -> exists mem' t',
  read_words d buf x mem dev t = Some (mem', t') /\
  drive (io_port d) t' = drive (io_port d) t /\
  data_reads (io_port d) t' = (data_reads (io_port d) t + 256)%nat /\
  forall b, mem' b = write_bytes mem (buf + 512 * x) (flat_map (fun k => word_bytes (w k)) (seq (data_reads (io_port d) t) 256)) b.
Proof.
  intros Hd (Hw & Hr & _). unfold read_words. set (io := io_port d) in *. set (i0 := data_reads io t).
  destruct (io_for_inv (fun k m t' => drive io t' = drive io t /\
      Z.of_nat (data_reads io t') = Z.of_nat i0 + (k - 256 * x) /\ 0 <= k - 256 * x /\
      forall b, m b = write_bytes mem (buf + 512 * x) (flat_map (fun k => word_bytes (w k)) (seq i0 (Z.to_nat (k - 256 * x)))) b)
      1 (fun idx mem => readword ← inportw io;
           mret (write_bytes mem (buf + idx * 2) [u8 readword; u8 (Z.shiftr readword 8)])) dev 256 (256 * x) mem t)
    as (mem' & t' & E & H1 & H2 & H3 & H4).
  - rewrite Z.sub_diag. split_and!; [done | unfold i0; lia | done|]. intros b. unfold write_bytes, zget. simpl.
    by destruct (0 <=? _).
  - intros k m t' _ (I1 & I2 & I3 & I4).
    assert (u16 io = io) as Eio by (rewrite <- (Z.add_0_r io) at 1; unfold io; rewrite ata_port by (done || lia); lia).
    unfold inportw. rewrite Eio. run_io. rewrite Hw. fold io. set (v := w (data_reads io t')).
    rewrite (Z.mod_small v) by (apply Hr). eexists _, _. split; [reflexivity|]. split_and!.
    + cbn [drive]. done.
    + cbn [data_reads]. change (2 =? 2) with true. rewrite Z.eqb_refl. cbv iota beta delta [andb]. lia.
    + lia.
    + intros b. replace (Z.to_nat (k + 1 - 256 * x)) with (S (Z.to_nat (k - 256 * x))) by lia.
      rewrite flat_snoc, write_bytes_app, zlen_words. replace (i0 + Z.to_nat (k - 256 * x))%nat with (data_reads io t') by lia. fold v.
      replace (buf + 512 * x + 2 * Z.of_nat (Z.to_nat (k - 256 * x))) with (buf + k * 2) by lia.
      rewrite Z.shiftr_div_pow2 by lia. unfold word_bytes.
      assert (u8 (v / 2 ^ 8) = v / 256) as -> by (unfold u8; pose proof (Hr (data_reads io t')); zdiv).
      by apply write_bytes_ext.
  - exists mem', t'. rewrite Z.mul_1_l in H2, H4. split_and!; [exact E | done | lia|]. intros b. rewrite H4. do 3 f_equal. lia.
Qed.

Lemma read_sectors_run fuel dev d w p buf n : disk_ok d -> supplies dev d w p -> (p < fuel)%nat -> forall x mem t,
  exists mem' t', read_sectors fuel n d buf x mem dev t = Some ((mem', READ_PIO_SUCCESS), t') /\
  drive (io_port d) t' = drive (io_port d) t /\
  forall b, mem' b = write_bytes mem (buf + 512 * x) (flat_map (fun k => word_bytes (w k)) (seq (data_reads (io_port d) t) (256 * n))) b.
Proof.
  intros Hd Hs Hf. induction n as [|n IH]; intros x mem t; cbn [read_sectors].
  - exists mem, t. split_and!; try done. intros b. rewrite Nat.mul_0_r. unfold write_bytes, zget. simpl. by destruct (0 <=? _).
  - destruct (wait_data_run fuel dev d w p t Hd Hs Hf) as (k & E1). rewrite (run_bind _ _ _ _ _ _ E1). cbn [negb].
    set (t1 := reads dev Port 1 _ k t). destruct (read_words_run dev d w p buf x mem t1 Hd Hs) as (m2 & t2 & E2 & D2 & R2 & M2).
    rewrite (run_bind _ _ _ _ _ _ E2). destruct (IH (x + 1) m2 t2) as (m3 & t3 & E3 & D3 & M3).
    unfold t1 in D2, R2, M2. rewrite drive_reads in D2. rewrite data_reads_status in R2, M2.
    exists m3, t3. split_and!; [exact E3 | by rewrite D3|]. intros b. rewrite M3, R2.
    replace (256 * S n)%nat with (256 + 256 * n)%nat by lia. rewrite seq_app, flat_map_app, write_bytes_app, zlen_words.
    replace (buf + 512 * x + 2 * Z.of_nat 256) with (buf + 512 * (x + 1)) by lia. apply write_bytes_ext, M2.
Qed.

Lemma control_run d v dev t : disk_ok d -> exists t1, outportb (control_port d) v dev t = Some (tt, t1) /\
  drive (io_port d) t1 = drive (io_port d) t /\ data_reads (io_port d) t1 = data_reads (io_port d) t.
Proof.
  intros Hd. eexists. split; [reflexivity|]. split; [|done]. unfold control_port.
  destruct Hd as [[->| ->] _ _ _ _ _ _]; apply drive_skip; vm_compute; by right.
Qed.

(** [t'] adds to [t] one data command, the table's address and the start of the bus master. *)
Definition starts (d : ATADisk) (code direction addr n : Z) (t t' : list event) : Prop :=
  exists t1, t' = Wr Port 1 (dma_port_address d + BM0_COMMAND + bm_offset d) direction :: t1 /\
    commands (io_port d) t1 = (code, addr, n) :: commands (io_port d) t /\
    last_write (dma_port_address d + BM0_ADDRESS + bm_offset d) t1 = Some (prdt d).

(** The table in [mem] sends [n] sectors to the DMA area. *)
Definition scatters (d : ATADisk) (n : Z) (mem : memory) : Prop :=
  forall data, zlen data = n * 512 -> exists mem', transfer PRDT_FUEL mem (prdt d) data = Some mem' /\
    forall b, mem' b = write_bytes mem (dma_phy_address d) data b.

(** Instances *)

Definition first_disk (ext : bool) : ATADisk :=
  mkATADisk [] [] [] [] ATA_PRIMARY_IO 0 ATA_MASTER_DRV_SELECTOR 0 0 true 0x7000 0x4000000 0xC000 0 0 0 0 ext false.

Lemma first_disk_ok ext : disk_ok (first_disk ext).
Proof. constructor; vm_compute; (by left) || (by split) || (by right) || done. Qed.

(** A drive that is always ready for data, and whose words are [w]. *)
Definition steady_drive (w : nat -> Z) : device := fun t _ _ a =>
  if a =? ATA_PRIMARY_IO then w (data_reads ATA_PRIMARY_IO t) else 0x48.

Lemma steady_shows w n k t a : a <> ATA_PRIMARY_IO -> shows (steady_drive w) Port n a k t = 0x48 mod 2 ^ (8 * n).
Proof. intros H. unfold shows, steady_drive. by destruct (Z.eqb_spec a ATA_PRIMARY_IO). Qed.

Lemma steady_answers w ext : answers (steady_drive w) (first_disk ext).
Proof.
  split; [intros t; exists 0%nat | intros c t _ t'; exists 0%nat];
    rewrite steady_shows by done; (split; [lia|]); split_and!; done || (intros; lia).
Qed.

Lemma steady_supplies w ext : (forall i, 0 <= w i < 65536) -> supplies (steady_drive w) (first_disk ext) w 0.
Proof.
  intros Hw. split; [|split; [done|]].
  - intros t. unfold steady_drive. reflexivity.
  - intros t. split; intros j; intros; by rewrite steady_shows.
Qed.

(** * Properties *)

(** C15: DMA commands.  With a drive that gets ready and answers, reading and
    writing of up to 65535 sectors (256 with 28-bit addresses) end with success
    having issued exactly one data command for exactly the sectors asked for, in
    the right encoding for the drive; the bus master is given the descriptor
    table and started in the right direction; and the table, 4 KiB at most,
    sends all the data to the DMA area, sector after sector, with no other
    memory touched. *)
Theorem dma_command_started fuel dev d addr n mem t :
  disk_ok d -> answers dev d -> addressable d addr n -> 5001 < Z.of_nat fuel ->
  (exists mem' sel t', readDMADiskSectors fuel d addr n mem dev t = Some ((mem', sel, READ_DMA_SUCCESS), t') /\
     starts d (if lba48 d then 0x25 else 0xC8) 9 addr n t t' /\ scatters d n mem' /\
     forall b, (b < prdt d \/ prdt d + 4096 <= b) -> (b < dma_phy_address d \/ dma_phy_address d + DMA_AREA <= b) -> mem' b = mem b) /\
  exists mem' sel t', writeDMADiskSectors fuel d addr n mem dev t = Some ((mem', sel, WRITE_DMA_SUCCESS), t') /\
     starts d (if lba48 d then 0x35 else 0xCA) 1 addr n t t' /\
     forall b, (b < prdt d \/ prdt d + 4096 <= b) -> mem' b = mem b.
Proof.
  intros Hd Ha Hr Hf. split.
  - destruct (readDMADiskSectors_run fuel dev d addr n mem t Hd Ha Hr Hf) as (mem' & t' & E & C & L & M & X).
    eexists mem', _, _. split; [exact E|]. split; [by exists t'|]. split; [done|].
    intros b Hb Hb'. rewrite M by done. unfold memset. zcases; lia || done.
  - destruct (write_run fuel dev d addr n mem t Hd Ha Hr Hf) as (mem' & t' & E & C & L & M).
    eexists mem', _, _. split; [exact E|]. split; [by exists t'|]. done.
Qed.

Lemma dma_command_started_witness : exists mem' sel t',
  readDMADiskSectors (Z.to_nat 6000) (first_disk true) 5000000000 1000 (fun _ => 1) (steady_drive (fun _ => 0)) [] =
    Some ((mem', sel, READ_DMA_SUCCESS), t') /\ starts (first_disk true) 0x25 9 5000000000 1000 [] t' /\
  scatters (first_disk true) 1000 mem'.
Proof.
  destruct (dma_command_started (Z.to_nat 6000) (steady_drive (fun _ => 0)) (first_disk true) 5000000000 1000 (fun _ => 1) []
    (first_disk_ok true) (steady_answers _ _)) as [(mem' & sel & t' & E & S1 & S2 & _) _];
    [split_and!; simpl; lia | lia |].
  exists mem', sel, t'. split; [exact E|]. split; [exact S1 | exact S2].
Defined.

(** Programmed I/O.  From a drive that comes to ask for data and reports no
    error, [readPIODiskSectors] reads exactly [n] sectors: it issues one command
    for them and the buffer holds the words of the data port, low byte first. *)
Theorem pio_read_delivers fuel dev d addr n mem buf w p t :
  disk_ok d -> supplies dev d w p -> (p < fuel)%nat -> addressable d addr n ->
  exists mem' t', readPIODiskSectors fuel d addr mem buf n dev t = Some ((mem', READ_PIO_SUCCESS), t') /\
    commands (io_port d) t' = (if lba48 d then 0x24 else 0x20, addr, n) :: commands (io_port d) t /\
    forall b, mem' b = write_bytes mem buf
      (flat_map (fun k => word_bytes (w k)) (seq (data_reads (io_port d) t) (Z.to_nat (256 * n)))) b.
Proof.
  intros Hd Hs Hf Hr. unfold readPIODiskSectors. destruct (control_run d 2 dev t Hd) as (t1 & E1 & D1 & W1).
  destruct (select_drive_run d addr dev t1 Hd (proj1 Hr)) as (t2 & E2 & C2 & R2 & W2 & _).
  destruct (issue_command_run d addr n ATA_CMD_READ_PIO_EXT ATA_CMD_READ_PIO dev t2) as (t3 & E3 & C3 & W3 & _);
    [done | done | done | done | done | unfold ATA_CMD_READ_PIO_EXT; lia | unfold ATA_CMD_READ_PIO; lia | done |].
  rewrite (run_bind _ _ _ _ _ _ E1), (run_bind _ _ _ _ _ _ E2), (run_bind _ _ _ _ _ _ E3).
  destruct Hr as (Ha & Hn & Hb). bdestr (n =? 0); [lia|].
  match goal with |- context [read_sectors _ _ _ _ _ _ _ ?t3] => set (t3' := t3) in * end.
  destruct (read_sectors_run fuel dev d w p buf (Z.to_nat n) Hd Hs Hf 0 mem t3') as (mem' & t4 & E4 & D4 & M4).
  exists mem', t4. split; [exact E4|]. split.
  - unfold commands in *. rewrite D4, C3, C2, D1. done.
  - intros b. rewrite M4, Z.mul_0_r, Z.add_0_r. unfold t3'. cbn [data_reads]. rewrite W3, W2, W1. do 3 f_equal. lia.
Qed.

Lemma pio_read_delivers_witness : exists mem' t',
  readPIODiskSectors 1 (first_disk false) 7 (fun _ => 0) 0x9000 2 (steady_drive (fun i => Z.of_nat i mod 65536)) [] =
    Some ((mem', READ_PIO_SUCCESS), t') /\ mem' (0x9000 + 1023) = 1 /\ mem' (0x9000 + 1022) = 255.
Proof.
  destruct (pio_read_delivers 1 (steady_drive (fun i => Z.of_nat i mod 65536)) (first_disk false) 7 2 (fun _ => 0) 0x9000
    (fun i => Z.of_nat i mod 65536) 0 [] (first_disk_ok false)) as (mem' & t' & E & _ & M);
    [apply steady_supplies; intros i; zdiv | lia | split_and!; simpl; lia |].
  exists mem', t'. split; [exact E|]. rewrite !M. split; vm_compute; reflexivity.
Defined.

(** A drive that is ready but answers every command with an error. *)
Definition rejects (dev : device) (d : ATADisk) : Prop :=
  let alt := control_port d + ATA_REG_ALT_STATUS in
  (forall t, is_DRDY (shows dev Port 1 alt 0 t) = true) /\
  forall c t, data_command c = true -> let t := Wr Port 1 (io_port d + 7) c :: t in
    is_BSY (shows dev Port 1 alt 0 t) = false /\ is_ERR (shows dev Port 1 alt 0 t) = true.

Lemma flag_truthy (f : Z -> bool) s : f 0 = false -> f s = true -> truthy s = true.
Proof. intros H0 Hs. unfold truthy. apply negb_true_iff, Z.eqb_neq. intros ->. congruence. Qed.

Lemma read_attempt_hangs fuel dev d addr n mem t :
  disk_ok d -> rejects dev d -> addressable d addr n -> read_attempt (S fuel) d addr n mem dev t = None.
Proof.
  intros Hd [Hrdy Herr] Hr. assert (0 < n <= 65536) as Hn by (destruct Hr as (_ & ? & Hb); destruct (lba48 d); lia).
  destruct (prepare_dma_run true d n dev t mem Hd Hn) as (mem' & t1 & E1 & D1 & L1 & M1 & X1).
  destruct (select_drive_run d addr dev t1 Hd (proj1 Hr)) as (t2 & E2 & C2 & R2 & _ & L2).
  unfold read_attempt. rewrite (run_bind _ _ _ _ _ _ E1), (run_bind _ _ _ _ _ _ E2).
  set (alt := control_port d + ATA_REG_ALT_STATUS) in *. pose proof (alt_port d Hd : u16 alt = alt) as Ealt.
  assert (forall t, inportb alt dev t = Some (shows dev Port 1 alt 0 t, reads dev Port 1 alt 1 t)) as Ein
    by (intros t'; unfold inportb; rewrite Ealt; reflexivity).
  rewrite (run_bind _ _ _ _ _ _ (Ein t2)), (flag_truthy is_DRDY) by (done || apply Hrdy).
  rewrite (run_bind _ _ dev _ true (reads dev Port 1 alt 1 t2)); cycle 1.
  { erewrite run_bind; [|apply (io_loop_run _ dev (fun _ => (0, shows dev Port 1 alt 0 t2)) (fun _ => reads dev Port 1 alt 1 t2) 0);
      [lia | by rewrite Hrdy | lia]]. by rewrite Hrdy. }
  cbn [negb]. set (t3 := reads dev Port 1 alt 1 t2).
  destruct (issue_command_run d addr n ATA_CMD_READ_DMA_EXT ATA_CMD_READ_DMA dev t3) as (t4 & E4 & _);
    [done | done | done | done | done | unfold ATA_CMD_READ_DMA_EXT; lia | unfold ATA_CMD_READ_DMA; lia | |].
  { intros Hl. unfold t3. rewrite drive_reads. by apply R2. }
  rewrite (run_bind _ _ _ _ _ _ E4), (run_bind _ _ _ _ _ _ (Ein _)).
  match goal with |- context [Wr Port 1 (io_port d + 7) ?c] => destruct (Herr c t4) as [Hb He]; [by destruct (lba48 d)|] end.
  rewrite (flag_truthy is_ERR) by done. apply run_bind_none, io_loop_none. intros _. by rewrite Hb, He.
Qed.

Lemma first_disk_rejects : rejects (fun _ _ _ _ => 0x41) (first_disk false).
Proof. split; [intros t | intros c t Hc t']; [vm_compute; reflexivity | split; vm_compute; reflexivity]. Qed.

(** Errors of the drive.  When the drive answers a read command with an
    error (no such sector, a bad one), [readDMADiskSectors] never returns,
    neither with success nor with the failure it has a code for: the kernel
    hangs in its empty loop.  Nothing is ever read from such a disk again. *)
Theorem read_error_hangs fuel dev d addr n mem t :
  disk_ok d -> rejects dev d -> addressable d addr n -> readDMADiskSectors fuel d addr n mem dev t = None.
Proof.
  intros Hd Hj Hr. apply run_bind_none, io_loop_none. intros Hf.
  destruct fuel as [|fuel]; [done|]. by apply run_bind_none, read_attempt_hangs.
Qed.

Lemma read_error_hangs_witness :
  readDMADiskSectors (Z.to_nat 100000) (first_disk false) 3 1 (fun _ => 0) (fun _ _ _ _ => 0x41) [] = None.
Proof.
  exact (read_error_hangs (Z.to_nat 100000) (fun _ _ _ _ => 0x41) (first_disk false) 3 1 (fun _ => 0) []
    (first_disk_ok false) first_disk_rejects ltac:(split_and!; simpl; lia)).
Defined.
