(* ===== verification/AtaManager.v ===== *)
(** * The ATA manager: [sources/devices/ata/ATAManager.c] and the transfers of
    many sectors of [ATADisk.c]

    A pointer to a disk is its index in [ataDisks].  [now] is the time stamp that
    the real-time clock gives (see [Clock]); it is only recorded. *)

From S2P Require Import Prelude Defines Device Spinlock KMalloc PhysicalMemory FastMem Apic Pci Ata.

#[local] Open Scope Z_scope.

Definition ATA_COUNT : Z := 4.
Definition ATA_CMD_IDENTIFY : Z := 0xEC.
Definition DEVICE_TYPE_COUNT : Z := 12.

Record DMABuffer := mkDMABuffer {
  ataDisk : option Z;
  buffer : Z;
  current_read : Z;
  total_read : Z;
  total_read_bytes : Z;
  target_read : Z;
  current_write : Z;
  total_write : Z;
  target_write : Z;
  current_address : Z;
  start_offset : Z;
  end_offset : Z;
  start_time : Z;
  dma_core_id : Z;
  dma_lba48 : bool;
  reading : bool;                             (* read *)
  dma_spinlock : spinlock_t;
  current_select : Z;
  write_done : bool;
  enabled : bool
}.

#[export] Instance eta_DMABuffer : Eta DMABuffer :=
  fun r => mkDMABuffer (ataDisk r) (buffer r) (current_read r) (total_read r) (total_read_bytes r) (target_read r)
    (current_write r) (total_write r) (target_write r) (current_address r) (start_offset r) (end_offset r) (start_time r)
    (dma_core_id r) (dma_lba48 r) (reading r) (dma_spinlock r) (current_select r) (write_done r) (enabled r).

Record ATAManager := mkATAManager {
  ataDisks : list (option ATADisk);
  ata_dma_port_address : Z;
  ata_dma_mmio_address : Z;
  device_names : list string;
  device_ids : list Z;
  prdt1 : Z;
  prdt2 : Z;
  dma_phy_address1 : Z;
  dma_phy_address2 : Z
}.

#[export] Instance eta_ATAManager : Eta ATAManager :=
  fun r => mkATAManager (ataDisks r) (ata_dma_port_address r) (ata_dma_mmio_address r) (device_names r) (device_ids r)
    (prdt1 r) (prdt2 r) (dma_phy_address1 r) (dma_phy_address2 r).

(** The parts of [kernel] these functions share. *)
Record Ata := mkAta { kernel : Kernel; ataManager : ATAManager; dmaBuffer : DMABuffer; pciService : PCIService }.

#[export] Instance eta_Ata : Eta Ata := fun r => mkAta (kernel r) (ataManager r) (dmaBuffer r) (pciService r).

Definition mem_of (s : Ata) : memory := kernel_memory (kernel s).
Definition set_mem (s : Ata) (m : memory) : Ata := s {{ kernel := (kernel s) {{ kernel_memory := m }} }}.
Definition set_dma (s : Ata) (b : DMABuffer) : Ata := s {{ dmaBuffer := b }}.

Definition get_disk (s : Ata) (i : Z) : option ATADisk := d ← zget (ataDisks (ataManager s)) i; d.

Definition upd_disk (s : Ata) (i : Z) (f : ATADisk -> ATADisk) : option Ata :=
  d ← get_disk s i;
  l ← zset (ataDisks (ataManager s)) i (Some (f d));
  Some (s {{ ataManager := (ataManager s) {{ ataDisks := l }} }}).

(** [kernel.dmaBuffer.ataDisk]; following a null pointer has no meaning here. *)
Definition dma_disk (s : Ata) : option ATADisk := i ← ataDisk (dmaBuffer s); get_disk s i.

(** ** Detection *)

Definition getDiskPCIDevice (s : Ata) : option (option Z) :=
  r ← for_loop (Z.to_nat (total_pci_devices (pciService s))) 0 1 (fun i _ =>
        d ← zget (pciDevices (pciService s)) i;
        Some (if (pci_major d =? 0x1) && (pci_minor d =? 0x1) then inr (Some i) else inl tt)) tt;
  Some (match r with inr p => p | inl _ => None end).

(** The index of the name. *)
Definition getDeviceTypeName (s : Ata) (p_device_id : Z) : option Z :=
  r ← for_loop 12 0 1 (fun i _ =>
        id ← zget (device_ids (ataManager s)) i; Some (if id =? p_device_id then inr i else inl tt)) tt;
  Some (match r with inr i => i | inl _ => DEVICE_TYPE_COUNT - 1 end).

Definition selectDrive (p_io_port p_drv_selector : Z) : IO unit := outportb (p_io_port + ATA_REG_HDDEVSEL) p_drv_selector.

Definition identifyDisk (fuel : nat) (p_io_port p_drv_selector : Z) : IO bool :=
  _ ← outportb (if p_io_port =? ATA_PRIMARY_IO then ATA_PRIMARY_DCR_AS else ATA_SECONDARY_DCR_AS) 0;
  _ ← selectDrive p_io_port p_drv_selector;
  _ ← outportb (p_io_port + ATA_REG_SECCOUNT) 0;
  _ ← outportb (p_io_port + ATA_REG_LBA0) 0;
  _ ← outportb (p_io_port + ATA_REG_LBA1) 0;
  _ ← outportb (p_io_port + ATA_REG_LBA2) 0;
  _ ← outportb (p_io_port + ATA_REG_COMMAND) ATA_CMD_IDENTIFY;
  status ← inportb (p_io_port + ATA_REG_STATUS);
  if (status =? 0) || is_ERR status then mret false
  else
    io_loop fuel (fun _ : unit =>
      status ← inportb (p_io_port + ATA_REG_STATUS);
      mret (if is_DRQ status then inr true else if is_ERR status then inr false else inl tt)) tt.

Definition upd_pci (s : Ata) (i : Z) (p : PCIDevice) : option Ata :=
  l ← zset (pciDevices (pciService s)) i p;
  Some (s {{ pciService := (pciService s) {{ pciDevices := l }} }}).

Definition identifyPCI (s : Ata) : IO Ata :=
  i ← pure (getDiskPCIDevice s);
  match i with
  | None => mret s
  | Some i =>
      p ← pure (zget (pciDevices (pciService s)) i);
      if Z.testbit (pci_interface p) 7 then
        let pci_device_id := dev_id p in
        p ← (if (pci_device_id =? 0x1230) || (pci_device_id =? 0x7010) || (pci_device_id =? 0x7111) then
               x ← EnablePCIBusMastering p;
               p ← PciConfigWriteCommand (fst x) 0x40 0xA344;
               PciConfigWriteCommand p 0x42 0xA344
             else mret p);
        s ← pure (upd_pci s i p);
        bar ← pure (zget (bars p) 4);
        mret (if Z.land bar 0x1 =? 0x1 then
                s {{ ataManager := (ataManager s) {{ ata_dma_port_address := Z.land bar (u32 (Z.lnot (Z.shiftl 1 0))) }} }}
              else s {{ ataManager := (ataManager s) {{ ata_dma_mmio_address := bar }} }})
      else mret s
  end.

Definition controller_ids : list Z :=
  [0x1230; 0x2411; 0x2421; 0x244B; 0x24DB; 0x266F; 0x248B; 0x24CB; 0x2922; 0x7010; 0x7111; 0].

Definition controller_names : list string :=
  ["CNTRL_TYPE_PIIX"; "CNTRL_TYPE_ICH"; "CNTRL_TYPE_ICH0"; "CNTRL_TYPE_ICH2"; "CNTRL_TYPE_ICH5"; "CNTRL_TYPE_ICH6";
   "CNTRL_TYPE_ICH3"; "CNTRL_TYPE_ICH4"; "CNTRL_TYPE_ICH9"; "CNTRL_TYPE_PIIX3"; "CNTRL_TYPE_PIIX4"; "Not Found"]%string.

Definition initATAManager (core : Z) (s : Ata) : option Ata :=
  x ← kvalloc core (memoryAllocator (kernel s)) 0x1000;
  let '(al, a1) := x in
  x ← kvalloc core al 0x1000;
  let '(al, a2) := x in
  x ← kvalloc core al 0x2000000;
  let '(al, b1) := x in
  x ← kvalloc core al 0x2000000;
  let '(al, b2) := x in
  let mem := memset (memset (mem_of s) b1 0 0x2000000) b2 0 0x2000000 in
  let m := (ataManager s) {{ ata_dma_port_address := 0; ata_dma_mmio_address := 0; prdt1 := a1; prdt2 := a2;
              dma_phy_address1 := b1; dma_phy_address2 := b2; device_ids := controller_ids; device_names := controller_names }} in
  Some (s {{ kernel := (kernel s) {{ memoryAllocator := al; kernel_memory := mem }}; ataManager := m;
             dmaBuffer := (dmaBuffer s) {{ dma_spinlock := spinlock_init (dma_spinlock (dmaBuffer s)); current_select := 0 }} }}).

(** The disk [j] of the channel [i]; [size] is [sizeof(ATADisk)], [raw] what [kmalloc] returned. *)
Definition detect_one (fuel : nat) (core size : Z) (raw : ATADisk) (i j : Z) (x : Ata * Z * Z) : IO (Ata * Z * Z) :=
  let '(s, si, ata_count) := x in
  let io := if i =? 0 then ATA_PRIMARY_IO else ATA_SECONDARY_IO in
  let selector := if j =? 0 then ATA_MASTER_DRV_SELECTOR else ATA_SLAVE_DRV_SELECTOR in
  let m := ataManager s in
  ready ← identifyDisk fuel io selector;
  if ready : bool then
    a ← pure (kmalloc core (memoryAllocator (kernel s)) size);
    let has_dma := truthy (ata_dma_mmio_address m) || truthy (ata_dma_port_address m) in
    d ← initATADisk raw io selector j has_dma (if i =? 0 then prdt1 m else prdt2 m)
          (if i =? 0 then dma_phy_address1 m else dma_phy_address2 m) (ata_dma_port_address m) (ata_dma_mmio_address m) (i * 0x08);
    l ← pure (zset (ataDisks m) si (Some d));
    mret (s {{ kernel := (kernel s) {{ memoryAllocator := fst a }}; ataManager := m {{ ataDisks := l }} }}, u8 (si + 1), u8 (ata_count + 1))
  else
    l ← pure (zset (ataDisks m) si None);
    mret (s {{ ataManager := m {{ ataDisks := l }} }}, u8 (si + 1), ata_count).

Definition detectATADisks (fuel : nat) (core size : Z) (raw : ATADisk) (s : Ata) : IO (Ata * Z) :=
  s ← identifyPCI s;
  x ← io_for 2 0 1 (fun i x => io_for 2 0 1 (fun j x => detect_one fuel core size raw i j x) x) (s, 0, 0);
  let '(s, _, ata_count) := x in mret (s, ata_count).

Definition getATADisk (s : Ata) (p_index : Z) : option (option ATADisk) :=
  if p_index <? ATA_COUNT then zget (ataDisks (ataManager s)) p_index else Some None.

Definition ata_400ns_delay (p_io_port : Z) : IO unit :=
  io_for 4 0 1 (fun _ _ => _ ← inportb (p_io_port + ATA_REG_STATUS); mret tt) tt.

(** ** Transfers *)

(** Read sectors by DMA until the driver reports success; the pointer of [dmaBuffer] is followed each time. *)
Definition start_read (fuel : nat) (s : Ata) : IO Ata :=
  io_loop fuel (fun s =>
    d ← pure (dma_disk s);
    x ← readDMADiskSectors fuel d (current_address (dmaBuffer s)) (u16 (current_read (dmaBuffer s))) (mem_of s);
    let '(mem, select, r) := x in
    let s := set_dma (set_mem s mem) ((dmaBuffer s) {{ current_select := select }}) in
    mret (if r =? READ_DMA_SUCCESS then inr s else inl s)) s.

Definition start_write (fuel : nat) (s : Ata) : IO Ata :=
  io_loop fuel (fun s =>
    d ← pure (dma_disk s);
    x ← writeDMADiskSectors fuel d (current_address (dmaBuffer s)) (u16 (current_write (dmaBuffer s))) (mem_of s);
    let '(mem, select, r) := x in
    let s := set_dma (set_mem s mem) ((dmaBuffer s) {{ current_select := select }}) in
    mret (if r =? WRITE_DMA_SUCCESS then inr s else inl s)) s.

Definition read_chunk (ext : bool) : Z := if ext then DMA_READ_CHUNK_EXT else DMA_READ_CHUNK.
Definition write_chunk (ext : bool) : Z := if ext then DMA_WRITE_CHUNK_EXT else DMA_WRITE_CHUNK.

(** The core that asks, for the interrupt that ends the transfer. *)
Definition record_core (s : Ata) : IO Ata :=
  x ← current_core (kernel s);
  let '(k, id) := x in
  mret (set_dma (s {{ kernel := k }}) ((dmaBuffer s) {{ dma_core_id := u8 id }})).

Definition readDMADisk (fuel : nat) (now : Z) (s : Ata) (p_ataDisk p_addr p_buffer p_sector_count p_start_offset p_end_offset : Z)
  : IO (Ata * Z) :=
  old ← pure (ataDisk (dmaBuffer s));
  s ← pure (upd_disk s old (fun d => d {{ done_read := false }}));
  d ← pure (get_disk s p_ataDisk);
  let chunk := read_chunk (lba48 d) in
  let s := set_dma s ((dmaBuffer s) {{ buffer := p_buffer; current_address := p_addr; dma_lba48 := lba48 d;
      start_offset := p_start_offset; end_offset := p_end_offset;
      current_read := (if chunk <? p_sector_count then chunk else p_sector_count);
      start_time := now; total_read := 0; total_read_bytes := 0; target_read := p_sector_count; ataDisk := Some p_ataDisk }}) in
  s ← record_core s;
  let s := set_dma s ((dmaBuffer s) {{ reading := true }}) in
  s ← start_read fuel s;
  mret (s, READ_DMA_SUCCESS).

Definition writeDMADisk (fuel : nat) (now : Z) (s : Ata) (p_ataDisk p_addr p_buffer p_sector_count : Z) : IO (Ata * Z) :=
  d ← pure (get_disk s p_ataDisk);
  let chunk := write_chunk (lba48 d) in
  let s := set_dma s ((dmaBuffer s) {{ buffer := p_buffer; current_address := p_addr; dma_lba48 := lba48 d;
      current_read := 0; total_read := 0; target_read := 0;
      current_write := (if chunk <? p_sector_count then chunk else p_sector_count);
      start_time := now; total_write := 0; target_write := p_sector_count; ataDisk := Some p_ataDisk }}) in
  s ← record_core s;
  let s := set_dma s ((dmaBuffer s) {{ reading := false }}) in
  let b := dmaBuffer s in
  mem ← pure (fast_memcpy (mem_of s) (dma_phy_address d) (u64 (buffer b + total_write b * 0x200)) (u64 (current_write b * 0x200)));
  s ← start_write fuel (set_mem s mem);
  mret (s, WRITE_DMA_SUCCESS).

(** ** Interrupts *)

(** The bus master's status bit for an interrupt; otherwise the interrupt was not ours. *)
Definition bm_interrupt (d : ATADisk) : IO bool :=
  bm_status ← inportb (bm_port d BM0_STATUS);
  _ ← inportb (io_port d + ATA_REG_STATUS);
  mret (truthy (Z.land bm_status 0x4)).

Definition tell_core (fuel : nat) (s : Ata) : IO Ata :=
  k ← dispatch_ipi fuel (kernel s) (dma_core_id (dmaBuffer s)) ATA_IPI; mret (s {{ kernel := k }}).

Definition ataHandleReadInterrupt (fuel : nat) (interrupt_number : Z) (s : Ata) : IO Ata :=
  if negb (enabled (dmaBuffer s)) then mret s
  else if negb (interrupt_number =? IRQ14) && negb (interrupt_number =? IRQ15) then mret s
  else
    i ← pure (ataDisk (dmaBuffer s));
    d ← pure (get_disk s i);
    ours ← bm_interrupt d;
    if negb ours then mret s
    else
      let chunk := read_chunk (lba48 d) in
      let b := dmaBuffer s in
      let b := if current_read b =? 0 then b {{ current_read := chunk }} else b in
      let p_start := if total_read b =? 0 then start_offset b else 0 in
      let p_end := if target_read b <=? u64 (total_read b + current_read b) then end_offset b else 0 in
      let n := u64 (u64 (current_read b * 0x200) - p_end) in
      mem ← pure (fast_memcpy (mem_of s) (u64 (buffer b + u64 (total_read b * 0x200))) (dma_phy_address d + p_start) n);
      let b := b {{ total_read_bytes := u64 (total_read_bytes b + n); total_read := u64 (total_read b + current_read b) }} in
      let s := set_mem s mem in
      s ← (if total_read b <? target_read b then
             let left := u64 (target_read b - total_read b) in
             let b := b {{ current_address := u64 (current_address b + current_read b);
                           current_read := (if chunk <? left then chunk else left) }} in
             start_read fuel (set_dma s b)
           else
             s ← pure (upd_disk (set_dma s b) i (fun d => d {{ done_read := true }}));
             tell_core fuel s);
      _ ← inportb (io_port d + ATA_REG_STATUS);
      mret s.

Definition ataHandleWriteInterrupt (fuel : nat) (interrupt_number : Z) (s : Ata) : IO Ata :=
  if negb (enabled (dmaBuffer s)) || write_done (dmaBuffer s) then mret s
  else if negb (interrupt_number =? IRQ14) && negb (interrupt_number =? IRQ15) then mret s
  else
    d ← pure (dma_disk s);
    ours ← bm_interrupt d;
    if negb ours then mret s
    else
      let chunk := write_chunk (lba48 d) in
      let b := dmaBuffer s in
      s ← (if total_write b <? target_write b then
             let b := b {{ total_write := u64 (total_write b + current_write b);
                           current_address := u64 (current_address b + current_write b) }} in
             let left := u64 (target_write b - total_write b) in
             let b := b {{ current_write := (if chunk <? left then chunk else left) }} in
             let b := if current_write b =? 0 then b {{ current_write := chunk }} else b in
             mem ← pure (fast_memcpy (memset (mem_of s) (dma_phy_address d) 0 0x2000000) (dma_phy_address d)
                           (u64 (buffer b + u64 (total_write b * 0x200))) (u64 (current_write b * 0x200)));
             _ ← inportb (bm_port d BM0_STATUS);
             bm_status ← inportb (bm_port d BM0_STATUS);
             _ ← outportb (bm_port d BM0_COMMAND) 0;
             _ ← outportb (bm_port d BM0_STATUS) bm_status;
             start_write fuel (set_dma (set_mem s mem) b)
           else
             _ ← outportb (io_port d + ATA_REG_COMMAND) (if lba48 d then 0xEA else 0xE7);
             tell_core fuel (set_dma s (b {{ write_done := true }})));
      _ ← inportb (io_port d + ATA_REG_STATUS);
      mret s.

Definition ataHandleInterrupt (fuel : nat) (interrupt_number : Z) (s : Ata) : IO Ata :=
  if negb (enabled (dmaBuffer s)) then
    _ ← outportb ATA_PRIMARY_DCR_AS 0;
    _ ← outportb ATA_SECONDARY_DCR_AS 0;
    _ ← outportb (ATA_PRIMARY_IO + ATA_REG_HDDEVSEL) ATA_SLAVE_DRV_SELECTOR;
    _ ← outportb (ATA_PRIMARY_IO + ATA_REG_HDDEVSEL) ATA_MASTER_DRV_SELECTOR;
    _ ← inportb (ATA_PRIMARY_IO + ATA_REG_STATUS);
    mret s
  else if reading (dmaBuffer s) then ataHandleReadInterrupt fuel interrupt_number s
  else ataHandleWriteInterrupt fuel interrupt_number s.

(** ** The controller's side

    When a transfer completes, the bus master has moved the sectors of the last
    command through the table it was given. *)

Definition disk_bytes (dsk : Z -> list Z) (addr n : Z) : list Z := flat_map dsk (seqZ addr n).

Definition bm_register (d : ATADisk) (r : Z) : Z := dma_port_address d + r + bm_offset d.

Definition bus_master (dsk : Z -> list Z) (s : Ata) : IO Ata := fun _ t =>
  d ← dma_disk s;
  match commands (io_port d) t, last_write (bm_register d BM0_ADDRESS) t, last_write (bm_register d BM0_COMMAND) t with
  | (_, addr, n) :: _, Some p, Some 9 =>
      mem ← transfer PRDT_FUEL (mem_of s) p (disk_bytes dsk addr n); Some (set_mem s mem, t)
  | _, _, _ => None
  end.

(** [k] transfers complete, each followed by its interrupt. *)
Fixpoint serve_reads (dsk : Z -> list Z) (fuel k : nat) (s : Ata) : IO Ata :=
  match k with
  | O => mret s
  | S k => s ← bus_master dsk s; s ← ataHandleInterrupt fuel IRQ14 s; serve_reads dsk fuel k s
  end.

(** ** Lemmas *)

Lemma disk_bytes_app dsk addr n m : 0 <= n -> 0 <= m ->
  disk_bytes dsk addr (n + m) = disk_bytes dsk addr n ++ disk_bytes dsk (addr + n) m.
Proof. intros. unfold disk_bytes. by rewrite seqZ_app, flat_map_app by lia. Qed.

Lemma zlen_disk_bytes dsk addr n : (forall i, zlen (dsk i) = 512) -> 0 <= n -> zlen (disk_bytes dsk addr n) = n * 512.
Proof.
  intros Hs. revert n. apply (natlike_ind (fun n => zlen _ = _)); [done|]. intros n Hn IH.
  rewrite <- Z.add_1_r, disk_bytes_app, zlen_app, IH by lia. unfold disk_bytes. cbn [seqZ]. change (seqZ (addr + n) 1) with [0 + (addr + n)].
  cbn [flat_map]. rewrite app_nil_r, Hs. lia.
Qed.

Section transfer.
Context (fuel : nat) (dev : device) (d : ATADisk).
Context (Hd : disk_ok d) (Ha : answers dev d) (Hfuel : 5001 < Z.of_nat fuel).
Context (Hirq : forall t, truthy (Z.land (dev t Port 1 (bm_register d BM0_STATUS) mod 2 ^ 8) 0x4) = true).

(** What a started read of [n] sectors from [addr] leaves behind. *)
Definition read_started (addr n : Z) (mem : memory) (t : list event) : Prop :=
  (exists c cs, commands (io_port d) t = (c, addr, n) :: cs) /\
  last_write (bm_register d BM0_ADDRESS) t = Some (prdt d) /\
  last_write (bm_register d BM0_COMMAND) t = Some 9 /\ scatters d n mem.

Lemma start_read_run s t : dma_disk s = Some d ->
  addressable d (current_address (dmaBuffer s)) (current_read (dmaBuffer s)) ->
  exists mem select t',
    start_read fuel s dev t = Some (set_dma (set_mem s mem) ((dmaBuffer s) {{ current_select := select }}), t') /\
    read_started (current_address (dmaBuffer s)) (current_read (dmaBuffer s)) mem t' /\
    forall b, (b < prdt d \/ prdt d + 4096 <= b) -> (b < dma_phy_address d \/ dma_phy_address d + DMA_AREA <= b) -> mem b = mem_of s b.
Proof.
  intros Hs Hr. assert (0 < current_read (dmaBuffer s) < 65536) as Hn by (destruct Hr as (_ & ? & Hb); destruct (lba48 d); lia).
  destruct (readDMADiskSectors_run fuel dev d (current_address (dmaBuffer s)) (current_read (dmaBuffer s)) (mem_of s) t Hd Ha Hr Hfuel)
    as (mem & t1 & E & C & L & M & X).
  destruct (bm_port_ok d BM0_COMMAND Hd ltac:(unfold BM0_COMMAND; lia)) as [Hcp Hc].
  assert (io_port d + 7 < 0x400) as Hio by (destruct Hd as [[->| ->] _ _ _ _ _ _]; unfold ATA_PRIMARY_IO, ATA_SECONDARY_IO; lia).
  eexists mem, _, _. split; [|split].
  - unfold start_read. refine (io_loop_run _ dev (fun _ => s) (fun _ => t) 0 _ _ fuel _ _ ltac:(lia)); [intros j Hj; lia|].
    unfold pure. rewrite Hs. erewrite run_bind by reflexivity. rewrite u16_small by lia.
    rewrite (run_bind _ _ _ _ _ _ E). reflexivity.
  - split_and!.
    + eexists _, _. unfold commands in *. rewrite drive_skip by lia. rewrite C. reflexivity.
    + cbn [last_write]. destruct (Z.eqb_spec (dma_port_address d + BM0_COMMAND + bm_offset d) (bm_register d BM0_ADDRESS)) as [E2|_];
        [unfold bm_register, BM0_COMMAND, BM0_ADDRESS in E2; lia | exact L].
    + cbn [last_write]. unfold bm_register. by rewrite Z.eqb_refl.
    + exact X.
  - intros b Hb Hb'. rewrite M by done. unfold memset. zcases; lia || done.
Qed.

Lemma bm_interrupt_run t : exists t', bm_interrupt d dev t = Some (true, t') /\
  drive (io_port d) t' = drive (io_port d) t /\ forall p, last_write p t' = last_write p t.
Proof.
  destruct (bm_port_ok d BM0_STATUS Hd ltac:(unfold BM0_STATUS; lia)) as [Hsp _].
  unfold bm_interrupt, inportb. rewrite Hsp. run_io. change (8 * 1) with 8. fold (bm_register d BM0_STATUS).
  rewrite Hirq. eexists. split; [reflexivity|]. done.
Qed.

Lemma start_write_run s t : dma_disk s = Some d ->
  addressable d (current_address (dmaBuffer s)) (current_write (dmaBuffer s)) ->
  exists mem select t',
    start_write fuel s dev t = Some (set_dma (set_mem s mem) ((dmaBuffer s) {{ current_select := select }}), t') /\
    commands (io_port d) t' = (if lba48 d then ATA_CMD_WRITE_DMA_EXT else ATA_CMD_WRITE_DMA,
      current_address (dmaBuffer s), current_write (dmaBuffer s)) :: commands (io_port d) t /\
    forall b, (b < prdt d \/ prdt d + 4096 <= b) -> mem b = mem_of s b.
Proof.
  intros Hs Hr. assert (0 < current_write (dmaBuffer s) < 65536) as Hn by (destruct Hr as (_ & ? & Hb); destruct (lba48 d); lia).
  destruct (write_run fuel dev d (current_address (dmaBuffer s)) (current_write (dmaBuffer s)) (mem_of s) t Hd Ha Hr Hfuel)
    as (mem & t1 & E & C & L & M).
  destruct (bm_port_ok d BM0_COMMAND Hd ltac:(unfold BM0_COMMAND; lia)) as [Hcp Hc].
  assert (io_port d + 7 < 0x400) as Hio by (destruct Hd as [[->| ->] _ _ _ _ _ _]; unfold ATA_PRIMARY_IO, ATA_SECONDARY_IO; lia).
  eexists mem, _, _. split; [|split; [|exact M]].
  - unfold start_write. refine (io_loop_run _ dev (fun _ => s) (fun _ => t) 0 _ _ fuel _ _ ltac:(lia)); [intros j Hj; lia|].
    unfold pure. rewrite Hs. erewrite run_bind by reflexivity. rewrite u16_small by lia.
    rewrite (run_bind _ _ _ _ _ _ E). reflexivity.
  - unfold commands in *. rewrite drive_skip by lia. exact C.
Qed.

Context (dsk : Z -> list Z) (Hdsk : forall k, zlen (dsk k) = 512).
Context (i addr N buf me : Z) (Hme : 0 <= me < 256).
Context (HN : 0 < N) (Haddr : 0 <= addr) (Hsize : addr + N <= if lba48 d then 2 ^ 48 else 2 ^ 28).
Context (Hbuf : 0 <= buf) (Hbuf64 : buf + N * 512 < 2 ^ 64).
Context (Harea : buf + N * 512 <= dma_phy_address d \/ dma_phy_address d + DMA_AREA <= buf).
Context (Htable : buf + N * 512 <= prdt d \/ prdt d + 4096 <= buf).

Definition now_reading (done : Z) : Z := Z.min (read_chunk (lba48 d)) (N - done).

Definition copied (done : Z) (mem : memory) : Prop :=
  forall k, 0 <= k < done * 512 -> zget (disk_bytes dsk addr N) k = Some (mem (buf + k)).

(** What the cores know of each other and of themselves is the same. *)
Definition same_cores (k k' : Kernel) : Prop :=
  apicManager k' = apicManager k /\ physicalMemoryManager k' = physicalMemoryManager k /\ local_apic_addr k' = local_apic_addr k /\
  memoryAllocator k' = memoryAllocator k.

Definition can_tell (k : Kernel) : Prop := exists a, get_apic k me = Some a /\ delivers fuel dev a.

Definition in_progress (done : Z) (s : Ata) (t : list event) : Prop :=
  get_disk s i = Some d /\ can_tell (kernel s) /\
  (let b := dmaBuffer s in
   ataDisk b = Some i /\ buffer b = buf /\ target_read b = N /\ total_read b = done /\ current_read b = now_reading done /\
   current_address b = addr + done /\ total_read_bytes b = done * 512 /\ start_offset b = 0 /\ end_offset b = 0 /\
   reading b = true /\ enabled b = true /\ dma_core_id b = me) /\
  read_started (addr + done) (now_reading done) (mem_of s) t /\ copied done (mem_of s).

(** A transfer writes to its buffer, the DMA area and the table, and nowhere else. *)
Definition kept (mem mem' : memory) : Prop := forall b, (b < buf \/ buf + N * 512 <= b) ->
  (b < prdt d \/ prdt d + 4096 <= b) -> (b < dma_phy_address d \/ dma_phy_address d + DMA_AREA <= b) -> mem' b = mem b.

Definition finished (s : Ata) : Prop :=
  (exists d', get_disk s i = Some d' /\ done_read d' = true) /\ total_read (dmaBuffer s) = N /\
  total_read_bytes (dmaBuffer s) = N * 512 /\ copied N (mem_of s) /\ target_read (dmaBuffer s) = N.

Lemma now_reading_ok done : 0 <= done < N -> 0 < now_reading done <= N - done /\ now_reading done <= 65534 /\
  addressable d (addr + done) (now_reading done).
Proof.
  intros H. unfold now_reading, read_chunk, addressable, DMA_READ_CHUNK_EXT, DMA_READ_CHUNK in *. destruct (lba48 d); lia.
Qed.

Lemma zget_disk done cur j : 0 <= done -> 0 <= cur -> done + cur <= N -> 0 <= j < cur * 512 ->
  zget (disk_bytes dsk addr N) (done * 512 + j) = zget (disk_bytes dsk (addr + done) cur) j.
Proof.
  intros Hdone Hcur Hle Hj. replace N with (done + (cur + (N - done - cur))) by lia.
  rewrite disk_bytes_app, (disk_bytes_app dsk (addr + done)) by lia.
  pose proof (zlen_disk_bytes dsk addr done Hdsk Hdone) as L1. pose proof (zlen_disk_bytes dsk (addr + done) cur Hdsk Hcur) as L2.
  unfold zget, zlen in *. bdestr (0 <=? done * 512 + j); [|lia]. bdestr (0 <=? j); [|lia].
  rewrite lookup_app_r by lia. rewrite lookup_app_l by lia. f_equal. lia.
Qed.

(** What the copy out of the DMA area makes of the buffer. *)
Lemma copied_more done cur mem m2 mem' : 0 <= done -> 0 < cur -> done + cur <= N -> cur * 512 <= DMA_AREA -> copied done mem ->
  (forall b, m2 b = write_bytes mem (dma_phy_address d) (disk_bytes dsk (addr + done) cur) b) ->
  (forall b, mem' b = write_bytes m2 (buf + done * 512) (read_bytes m2 (dma_phy_address d) (cur * 512)) b) ->
  copied (done + cur) mem'.
Proof.
  intros Hdone Hcur Hle Hb Hc H2 H' k Hk.
  pose proof (zlen_disk_bytes dsk (addr + done) cur Hdsk ltac:(lia)) as L.
  rewrite H', write_read. bdestr (buf + done * 512 <=? buf + k); cbn [andb].
  - bdestr (buf + k <? buf + done * 512 + cur * 512); [|lia]. rewrite H2.
    replace k with (done * 512 + (k - done * 512)) at 1 by lia. rewrite (zget_disk done cur) by lia. unfold write_bytes.
    replace (dma_phy_address d + (buf + k - (buf + done * 512)) - dma_phy_address d) with (k - done * 512) by lia.
    destruct (zget_some (disk_bytes dsk (addr + done) cur) (k - done * 512)) as [x Hx]; [lia|]. by rewrite Hx.
  - rewrite Hc by lia. rewrite H2, write_bytes_out; [done|]. rewrite L. lia.
Qed.

Lemma copied_ext done mem mem' : done <= N -> copied done mem ->
  (forall b, (b < prdt d \/ prdt d + 4096 <= b) -> (b < dma_phy_address d \/ dma_phy_address d + DMA_AREA <= b) -> mem' b = mem b) ->
  copied done mem'.
Proof. intros Hle Hc He k Hk. rewrite (Hc k Hk). rewrite He; [done | lia | lia]. Qed.

Lemma upd_disk_some s j d0 f : get_disk s j = Some d0 -> exists s', upd_disk s j f = Some s' /\
  get_disk s' j = Some (f d0) /\ (forall k, k <> j -> get_disk s' k = get_disk s k) /\ kernel s' = kernel s /\ dmaBuffer s' = dmaBuffer s.
Proof.
  intros E. unfold upd_disk. rewrite E. cbn [mbind option_bind]. unfold get_disk in E.
  destruct (zget (ataDisks (ataManager s)) j) as [x|] eqn:Ez; [|done].
  destruct (zset (ataDisks (ataManager s)) j (Some (f d0))) as [l|] eqn:El;
    [|rewrite zset_eq in El by (eapply zget_lt; exact Ez); done].
  cbn [mbind option_bind]. eexists. split; [reflexivity|]. unfold get_disk. simpl. split_and!; try done.
  - by rewrite (zget_zset_eq _ _ _ _ El).
  - intros k Hk. by rewrite (zget_zset_ne _ _ _ _ _ El Hk).
Qed.

Lemma tell_core_run s t : dma_core_id (dmaBuffer s) = me -> can_tell (kernel s) -> exists s' t',
  tell_core fuel s dev t = Some (s', t') /\ dmaBuffer s' = dmaBuffer s /\ ataManager s' = ataManager s /\ mem_of s' = mem_of s /\
  same_cores (kernel s) (kernel s').
Proof.
  intros Hcore (a & Hget & Hdel). unfold tell_core, dispatch_ipi, sendIPI. cbn [ipi_receiverCore_id ipi_p_irq]. rewrite Hcore. simpl.
  rewrite u16_small by lia. destruct (SendFixedIPI_run fuel dev a (u8 ATA_IPI) t Hdel (u8_range ATA_IPI)) as (t' & E & _).
  eexists _, t'. split; [|split_and!].
  - unfold get_apic in *. simpl. rewrite Hget. run_io. rewrite E. reflexivity.
  - done.
  - done.
  - done.
  - by split_and!.
Qed.

(** The transfer the controller makes, before its interrupt. *)
Lemma transferred done s t : 0 <= done < N -> in_progress done s t -> exists m2,
  bus_master dsk s dev t = Some (set_mem s m2, t) /\
  forall b, m2 b = write_bytes (mem_of s) (dma_phy_address d) (disk_bytes dsk (addr + done) (now_reading done)) b.
Proof.
  intros Hdone (Hg & _ & (B1 & _) & ((c & cs & R1) & R2 & R3 & R4) & _). destruct (now_reading_ok done Hdone) as (Hcur & Hcur2 & _).
  destruct (R4 (disk_bytes dsk (addr + done) (now_reading done))) as (m2 & E2 & M2); [apply zlen_disk_bytes; [done | lia]|].
  exists m2. split; [|exact M2]. unfold bus_master, dma_disk. rewrite B1. cbn [mbind option_bind]. rewrite Hg. cbn [mbind option_bind].
  rewrite R1, R2, R3, E2. reflexivity.
Qed.

(** After the last chunk the disk is marked and the waiting core told. *)
Lemma last_told s t : get_disk s i = Some d -> dma_core_id (dmaBuffer s) = me -> can_tell (kernel s) ->
  total_read (dmaBuffer s) = N -> total_read_bytes (dmaBuffer s) = N * 512 -> target_read (dmaBuffer s) = N -> copied N (mem_of s) ->
  exists s' t', (s ← pure (upd_disk s i (fun d => d {{ done_read := true }})); tell_core fuel s) dev t = Some (s', t') /\
    finished s' /\ same_cores (kernel s) (kernel s') /\ dmaBuffer s' = dmaBuffer s /\ mem_of s' = mem_of s.
Proof.
  intros Hg Hcore Htell H1 H2 H3 Hc.
  destruct (upd_disk_some s i d (fun d => d {{ done_read := true }}) Hg) as (s1 & E1 & G1 & _ & K1 & B1). rewrite E1, run_pure.
  destruct (tell_core_run s1 t) as (s2 & t2 & E2 & F1 & F2 & F3 & F4); [by rewrite B1 | by rewrite K1 |].
  exists s2, t2. split; [exact E2|]. rewrite K1 in F4. assert (mem_of s2 = mem_of s) as Hm by (rewrite F3; unfold mem_of; by rewrite K1).
  split; [|split; [exact F4|split; [by rewrite F1, B1 | exact Hm]]].
  unfold finished. rewrite F1, B1, Hm. split_and!; try done. eexists. split; [unfold get_disk; rewrite F2; exact G1 | done].
Qed.

Lemma round_run done s t : 0 <= done < N -> in_progress done s t -> exists s' t',
  (s ← bus_master dsk s; ataHandleInterrupt fuel IRQ14 s) dev t = Some (s', t') /\
  (if done + now_reading done <? N then in_progress (done + now_reading done) s' t' else finished s') /\
  same_cores (kernel s) (kernel s') /\ dma_spinlock (dmaBuffer s') = dma_spinlock (dmaBuffer s) /\ kept (mem_of s) (mem_of s').
Proof.
  intros Hdone Hp. pose proof Hp as (Hg & Htell & (B1 & B2 & B3 & B4 & B5 & B6 & B7 & B8 & B9 & B10 & B11 & B12) & _ & Hc).
  destruct (now_reading_ok done Hdone) as (Hcur & Hcur2 & Hadr). set (cur := now_reading done) in *.
  destruct (transferred done s t Hdone Hp) as (m2 & E2 & M2). rewrite (run_bind _ _ _ _ _ _ E2). fold cur in M2.
  unfold ataHandleInterrupt. change (dmaBuffer (set_mem s m2)) with (dmaBuffer s). rewrite B11, B10. cbn [negb].
  unfold ataHandleReadInterrupt. change (dmaBuffer (set_mem s m2)) with (dmaBuffer s). rewrite B11, B1. cbn [negb].
  change (IRQ14 =? IRQ14) with true. cbn [negb andb]. rewrite run_pure.
  change (get_disk (set_mem s m2) i) with (get_disk s i). rewrite Hg. rewrite run_pure.
  destruct (bm_interrupt_run t) as (t1 & E1 & D1 & L1). rewrite (run_bind _ _ _ _ _ _ E1). cbn [negb].
  rewrite B5. bdestr (cur =? 0); [lia|]. rewrite B4, B8, B9, B3, B2, B5, B7.
  assert ((if done =? 0 then 0 else 0) = 0) as -> by (by destruct (done =? 0)).
  assert ((if N <=? u64 (done + cur) then 0 else 0) = 0) as -> by (by destruct (N <=? _)).
  rewrite (u64_small (cur * 512)), (u64_small (done * 512)), Z.sub_0_r, Z.add_0_r, (u64_small (cur * 512)), (u64_small (buf + done * 512)) by lia.
  destruct (fast_memcpy_run m2 (buf + done * 512) (dma_phy_address d) (cur * 512)) as (m3 & E3 & M3);
    [lia | destruct Harea; unfold DMA_AREA in *; lia |].
  change (mem_of (set_mem s m2)) with m2.
  rewrite E3, run_pure. rewrite !u64_small by lia.
  assert (kept (mem_of s) m3) as Hk3.
  { intros b Hb1 Hb2 Hb3. rewrite M3, write_bytes_out by (rewrite zlen_read by lia; lia). rewrite M2. apply write_bytes_out.
    rewrite zlen_disk_bytes by (done || lia). unfold DMA_AREA in *. lia. }
  match goal with |- context [start_read fuel (set_dma ?x ?b)] => set (s1 := set_dma x b) end.
  match goal with |- context [upd_disk (set_dma ?x ?b)] => set (s2 := set_dma x b) end.
  match goal with |- context [if ?c then start_read _ _ else _] => change c with (done + cur <? target_read (dmaBuffer s)) end.
  rewrite B3. bdestr (done + cur <? N).
  - assert (current_address (dmaBuffer s1) = addr + (done + cur)) as A1 by (simpl; rewrite B6, B5, u64_small; destruct (lba48 d); lia).
    assert (current_read (dmaBuffer s1) = now_reading (done + cur)) as A2.
    { simpl. rewrite B3, (u64_small (N - _)) by lia. unfold now_reading. zcases; lia. }
    assert (dma_disk s1 = Some d) as A3 by (unfold dma_disk; simpl; rewrite B1; exact Hg).
    destruct (now_reading_ok (done + cur)) as (_ & _ & Hadr'); [lia|].
    destruct (start_read_run s1 t1 A3) as (m4 & sel & t2 & E4 & R4' & M4); [by rewrite A1, A2|]. rewrite A1, A2 in R4'.
    rewrite (run_bind _ _ _ _ _ _ E4). run_io. eexists _, _. split; [reflexivity|].
    split; [|split; [by split_and! | split; [done | intros b Hb1 Hb2 Hb3; etrans; [exact (M4 b Hb2 Hb3) | exact (Hk3 b Hb1 Hb2 Hb3)]]]].
    split; [exact Hg|]. split; [exact Htell|]. split; [|split; [exact R4'|]].
    + unfold s1, set_dma, set_mem. simpl. simpl in A1, A2. split_and!; try assumption; lia.
    + apply (copied_ext (done + cur) m3); [lia | | exact M4].
      apply (copied_more done cur (mem_of s) m2); (done || unfold DMA_AREA; lia).
  - assert (done + cur = N) as EN by lia.
    destruct (last_told s2 t1) as (s4 & t2 & E5 & F1 & F2 & F3 & F4); [exact Hg | exact B12 | exact Htell | exact EN | simpl; lia | exact B3 | |].
    { rewrite <- EN. apply (copied_more done cur (mem_of s) m2); (done || unfold DMA_AREA; lia). }
    rewrite (run_bind _ _ _ _ _ _ E5). run_io. eexists _, _. split; [reflexivity|].
    split; [exact F1|]. split; [exact F2|]. split; [by rewrite F3|]. intros b Hb1 Hb2 Hb3. rewrite F4. by apply Hk3.
Qed.

Lemma serve_run k : forall done s t, 0 <= done < N -> in_progress done s t ->
  Z.of_nat k = (N - done + read_chunk (lba48 d) - 1) / read_chunk (lba48 d) ->
  exists s' t', serve_reads dsk fuel k s dev t = Some (s', t') /\ finished s'.
Proof.
  assert (0 < read_chunk (lba48 d)) as Hch by (unfold read_chunk, DMA_READ_CHUNK_EXT, DMA_READ_CHUNK; destruct (lba48 d); lia).
  induction k as [|k IH]; intros done s t Hdone HP Hk.
  - assert (1 <= (N - done + read_chunk (lba48 d) - 1) / read_chunk (lba48 d)) by (apply Z.div_le_lower_bound; lia). lia.
  - cbn [serve_reads]. destruct (round_run done s t Hdone HP) as (s1 & t1 & E & H1 & _).
    rewrite <- bind_assoc, (run_bind _ _ _ _ _ _ E). unfold now_reading in *. bdestr (done + Z.min (read_chunk (lba48 d)) (N - done) <? N).
    + rewrite Z.min_l in * by lia. apply (IH (done + read_chunk (lba48 d)) s1 t1); [lia | done |].
      replace (N - (done + read_chunk (lba48 d)) + read_chunk (lba48 d) - 1) with
        (N - done + read_chunk (lba48 d) - 1 + (-1) * read_chunk (lba48 d)) by lia. rewrite Z.div_add by lia. lia.
    + assert (k = O) as ->.
      { assert ((N - done + read_chunk (lba48 d) - 1) / read_chunk (lba48 d) < 2) by (apply Z.div_lt_upper_bound; lia). lia. }
      exists s1, t1. done.
Qed.

Lemma copied_all mem : copied N mem -> read_bytes mem buf (N * 512) = disk_bytes dsk addr N.
Proof.
  intros Hc. apply list_eq. intros j. pose proof (zlen_disk_bytes dsk addr N Hdsk ltac:(lia)) as L. unfold zlen in L.
  unfold read_bytes. rewrite list_lookup_fmap. destruct (decide (j < Z.to_nat (N * 512))%nat) as [Hj|Hj].
  - rewrite lookup_seqZ_lt by lia. simpl. specialize (Hc (Z.of_nat j) ltac:(lia)). unfold zget in Hc.
    bdestr (0 <=? Z.of_nat j); [|lia]. by rewrite Nat2Z.id in Hc.
  - rewrite lookup_seqZ_ge by lia. rewrite lookup_ge_None_2 by lia. done.
Qed.

End transfer.

(** ** Starting a read *)

(** A machine on which the core [me] can read [n] sectors of the disk [i] into [buf]. *)
Record can_read (fuel : nat) (dev : device) (s : Ata) (i addr buf n me : Z) (d : ATADisk) : Prop := {
  disk_there : get_disk s i = Some d;
  disk_good : disk_ok d;
  disk_answers : answers dev d;
  disk_interrupts : forall t, truthy (Z.land (dev t Port 1 (bm_register d BM0_STATUS) mod 2 ^ 8) 0x4) = true;
  patience : 5001 < Z.of_nat fuel;
  buffer_free : exists old d', ataDisk (dmaBuffer s) = Some old /\ get_disk s old = Some d';
  transfers_on : enabled (dmaBuffer s) = true;
  core_known : knows_itself dev me (kernel s);
  core_told : can_tell fuel dev me (kernel s);
  sectors_there : 0 < n /\ 0 <= addr /\ addr + n <= if lba48 d then 2 ^ 48 else 2 ^ 28;
  buffer_fits : 0 <= buf /\ buf + n * 512 < 2 ^ 64;
  area_apart : buf + n * 512 <= dma_phy_address d \/ dma_phy_address d + DMA_AREA <= buf;
  table_apart : buf + n * 512 <= prdt d \/ prdt d + 4096 <= buf
}.

Lemma disk_ok_done d b : disk_ok d -> disk_ok (d {{ done_read := b }}).
Proof. intros []. by constructor. Qed.

Lemma readDMADisk_run fuel dev now s i addr buf n me d dsk t : can_read fuel dev s i addr buf n me d ->
  exists d1 s1 t1, (d1 = d \/ d1 = d {{ done_read := false }}) /\
    readDMADisk fuel now s i addr buf n 0 0 dev t = Some ((s1, READ_DMA_SUCCESS), t1) /\
    in_progress fuel dev d1 dsk i addr n buf me 0 s1 t1 /\
    apics (apicManager (kernel s1)) = apics (apicManager (kernel s)) /\ knows_itself dev me (kernel s1) /\
    dma_spinlock (dmaBuffer s1) = dma_spinlock (dmaBuffer s) /\ kept d n buf (mem_of s) (mem_of s1) /\
    memoryAllocator (kernel s1) = memoryAllocator (kernel s).
Proof.
  intros [Hg Hok Hans Hirq Hf (old & d' & Eold & Gold) Hen (m & Em & Hid) (a & Ha & Hdel) (Hn & Haddr & Hsz) (Hb & Hb64) Har Htab].
  destruct (upd_disk_some s old d' (fun d => d {{ done_read := false }}) Gold) as (s1 & E1 & G1 & O1 & K1 & B1).
  assert (exists d1, (d1 = d \/ d1 = d {{ done_read := false }}) /\ get_disk s1 i = Some d1) as (d1 & Hd1 & Hg1).
  { destruct (decide (i = old)) as [->|Hne].
    - exists (d {{ done_read := false }}). rewrite Gold in Hg. injection Hg as ->. split; [by right | exact G1].
    - exists d. split; [by left|]. by rewrite O1. }
  assert (lba48 d1 = lba48 d /\ disk_ok d1 /\ answers dev d1) as (El & Hok1 & Hans1).
  { destruct Hd1 as [-> | ->]; [done|]. split; [done|]. split; [by apply disk_ok_done | exact Hans]. }
  assert (0 <= me < 128) as Hme by (rewrite <- (Hid []); apply Z.mod_pos_bound; lia).
  unfold readDMADisk. rewrite Eold, run_pure, E1, run_pure, Hg1, run_pure.
  match goal with |- context [record_core (set_dma s1 ?b)] => set (s2 := set_dma s1 b) end.
  unfold record_core. rewrite bind_assoc. change (kernel s2) with (kernel s1). rewrite K1.
  destruct (current_core_run (kernel s) m dev me t Em Hid) as (t1 & E2 & _). rewrite (run_bind _ _ _ _ _ _ E2).
  rewrite u8_small by lia. erewrite run_bind by reflexivity.
  match goal with |- context [start_read fuel ?x] => set (s3 := x) end.
  assert (current_address (dmaBuffer s3) = addr + 0) as A1 by (simpl; lia).
  assert (current_read (dmaBuffer s3) = now_reading d1 n 0) as A2 by (simpl; unfold now_reading; rewrite Z.sub_0_r; zcases; lia).
  destruct (now_reading_ok fuel d1 addr n Haddr ltac:(rewrite El; done) 0) as (_ & _ & Hadr); [lia|].
  destruct (start_read_run fuel dev d1 Hok1 Hans1 Hf s3 t1) as (mem & sel & t2 & E3 & R3 & M3); [|by rewrite A1, A2|].
  { unfold dma_disk. simpl. exact Hg1. }
  rewrite (run_bind _ _ _ _ _ _ E3). eexists d1, _, _. split; [done|]. split; [reflexivity|].
  rewrite A1, A2 in R3. split; [|split; [done | split; [exists m; split; [by apply GetVirtualAddress_again in Em | exact Hid] | split; [by rewrite <- B1 | split; [|done]]]]].
  2: { intros b _ Hb2 Hb3. etrans; [refine (M3 b _ _); by destruct Hd1 as [-> | ->]|]. unfold s3, s2, mem_of, set_dma. done. }
  split; [exact Hg1|]. split; [exists a; split; [exact Ha | exact Hdel]|].
  split; [|split; [exact R3 | intros k Hk; lia]].
  unfold s3, s2, set_dma, set_mem. simpl. simpl in A1, A2. rewrite Hen || (rewrite B1, Hen). split_and!; try done; lia.
Qed.

(** * Properties *)

(** C5: reading a disk.  On a machine whose drive answers and whose bus master
    follows the tables it is given, [readDMADisk] of any number of sectors,
    together with as many interrupts as there are chunks (65534 sectors, or 256
    for a drive with 28-bit addresses), puts exactly these sectors of the disk
    into the caller's buffer, in order, and then reports that it is done. *)
Theorem read_disk_delivers fuel dev now s i addr buf n me d dsk t :
  can_read fuel dev s i addr buf n me d -> (forall k, zlen (dsk k) = 512) ->
  let chunk := read_chunk (lba48 d) in
  exists s1 t1 s2 t2,
    readDMADisk fuel now s i addr buf n 0 0 dev t = Some ((s1, READ_DMA_SUCCESS), t1) /\
    serve_reads dsk fuel (Z.to_nat ((n + chunk - 1) / chunk)) s1 dev t1 = Some (s2, t2) /\
    read_bytes (mem_of s2) buf (n * 512) = disk_bytes dsk addr n /\
    (exists d', get_disk s2 i = Some d' /\ done_read d' = true) /\
    total_read (dmaBuffer s2) = n /\ total_read_bytes (dmaBuffer s2) = n * 512.
Proof.
  intros Hcan Hdsk chunk. destruct (readDMADisk_run fuel dev now s i addr buf n me d dsk t Hcan) as (d1 & s1 & t1 & Hd1 & E1 & P1 & _).
  destruct Hcan as [Hg Hok Hans Hirq Hf _ Hen (m & Em & Hid) _ (Hn & Haddr & Hsz) (Hb & Hb64) Har Htab].
  assert (0 <= me < 128) as Hme by (rewrite <- (Hid []); apply Z.mod_pos_bound; lia).
  assert (0 < chunk) as Hch by (unfold chunk, read_chunk, DMA_READ_CHUNK_EXT, DMA_READ_CHUNK; destruct (lba48 d); lia).
  destruct (serve_run fuel dev d1 ltac:(destruct Hd1 as [-> | ->]; [done | by apply disk_ok_done]) ltac:(by destruct Hd1 as [-> | ->]) Hf
    ltac:(by destruct Hd1 as [-> | ->]) dsk Hdsk i addr n buf me ltac:(lia) Hn Haddr ltac:(by destruct Hd1 as [-> | ->]) Hb Hb64
    ltac:(by destruct Hd1 as [-> | ->]) ltac:(by destruct Hd1 as [-> | ->]) (Z.to_nat ((n + chunk - 1) / chunk)) 0 s1 t1)
    as (s2 & t2 & E2 & F1 & F2 & F3 & F4 & _); [lia | done | |].
  { assert (lba48 d1 = lba48 d) as -> by (by destruct Hd1 as [-> | ->]). fold chunk.
    rewrite Z2Nat.id by (apply Z.div_pos; lia). by rewrite Z.sub_0_r. }
  exists s1, t1, s2, t2. split_and!; try done. by apply (copied_all fuel).
Qed.

(** A small machine: two cores, one disk, a controller that is always ready. *)
Definition ready_controller : device := fun _ sp _ _ => match sp with Port => 0x4C | Mmio => 0 end.

Definition idle_buffer : DMABuffer :=
  mkDMABuffer (Some 0) 0 0 0 0 0 0 0 0 0 0 0 0 0 false false (spinlock (memoryAllocator two_cores)) 0 false true.

Definition small_machine : Ata :=
  mkAta two_cores (mkATAManager [Some (first_disk false); None; None; None] 0xC000 0 [] [] 0 0 0 0) idle_buffer empty_pci.

Lemma ready_shows n a k t : shows ready_controller Port n a k t = 0x4C mod 2 ^ (8 * n).
Proof. reflexivity. Qed.

Lemma small_machine_reads addr buf n : 0 <= addr -> 0 < n -> addr + n <= 2 ^ 28 -> 0x8000000 <= buf -> buf + n * 512 < 2 ^ 64 ->
  can_read (Z.to_nat 6000) ready_controller small_machine 0 addr buf n 0 (first_disk false).
Proof.
  intros Haddr Hn Htop Hbuf Hbuf64.
  destruct (GetVirtualAddress ((physicalMemoryManager two_cores) {{ p_physical_address := local_apic_addr two_cores }}))
    as [m|] eqn:E; [|vm_compute in E; discriminate E].
  constructor; simpl; try done.
  - apply first_disk_ok.
  - split; [intros t; exists 0%nat | intros c t _ t'; exists 0%nat]; rewrite ready_shows;
      (split; [lia|]); split_and!; done || (intros; lia).
  - exists 0, (first_disk false). done.
  - exists m. split; [exact E | by intros t].
  - eexists. split; [reflexivity|]. intros t. exists 0%nat. split; [lia | done].
  - unfold DMA_AREA. lia.
  - lia.
  - right. lia.
Qed.

Lemma read_disk_delivers_witness : exists s2,
  read_bytes (mem_of s2) 0x9000000 (600 * 512) = disk_bytes (fun k => replicate 512 (k mod 256)) 1000 600 /\
  total_read (dmaBuffer s2) = 600.
Proof.
  destruct (read_disk_delivers (Z.to_nat 6000) ready_controller 0 small_machine 0 1000 0x9000000 600 0 (first_disk false)
    (fun k => replicate 512 (k mod 256)) []) as (s1 & t1 & s2 & t2 & _ & _ & R & _ & T & _).
  - apply small_machine_reads; lia.
  - intros k. unfold zlen. rewrite length_replicate. reflexivity.
  - exists s2. split; [exact R | exact T].
Defined.

(** The state after [writeDMADisk] sent [n] sectors at [addr] from [buf], and before any interrupt. *)
Definition write_started (s : Ata) (d : ATADisk) (addr buf n : Z) : Prop :=
  dma_disk s = Some d /\ enabled (dmaBuffer s) = true /\ reading (dmaBuffer s) = false /\ write_done (dmaBuffer s) = false /\
  total_write (dmaBuffer s) = 0 /\ target_write (dmaBuffer s) = n /\ current_write (dmaBuffer s) = n /\
  current_address (dmaBuffer s) = addr /\ buffer (dmaBuffer s) = buf.

Definition write_command (d : ATADisk) : Z := if lba48 d then ATA_CMD_WRITE_DMA_EXT else ATA_CMD_WRITE_DMA.

Lemma write_chunk_range d : 0 < write_chunk (lba48 d) <= 65534 /\ write_chunk (lba48 d) * 512 <= DMA_AREA.
Proof. unfold write_chunk, DMA_WRITE_CHUNK_EXT, DMA_WRITE_CHUNK, DMA_AREA. destruct (lba48 d); lia. Qed.

Lemma first_write fuel dev now s i addr buf n me d t :
  can_read fuel dev s i addr buf (n + write_chunk (lba48 d)) me d -> 0 < n <= write_chunk (lba48 d) -> write_done (dmaBuffer s) = false ->
  exists s1 t1, writeDMADisk fuel now s i addr buf n dev t = Some ((s1, WRITE_DMA_SUCCESS), t1) /\
    write_started s1 d addr buf n /\
    commands (io_port d) t1 = (write_command d, addr, n) :: commands (io_port d) t /\
    (forall k, 0 <= k < n * 512 -> mem_of s1 (dma_phy_address d + k) = mem_of s (buf + k)) /\
    forall x, buf <= x < buf + (n + write_chunk (lba48 d)) * 512 -> mem_of s1 x = mem_of s x.
Proof.
  intros [Hg Hok Hans Hirq Hf (old & d' & Eold & Gold) Hen (m & Em & Hid) _ (Hn & Haddr & Hsz) (Hb & Hb64) Har Htab] Hnc Hwd.
  assert (0 <= me < 128) as Hme by (rewrite <- (Hid []); apply Z.mod_pos_bound; lia).
  destruct (write_chunk_range d) as [Hch Hchb]. pose proof (tables_apart d Hok).
  assert (addressable d addr n) as Hadr by (unfold addressable, write_chunk, DMA_WRITE_CHUNK_EXT, DMA_WRITE_CHUNK in *; destruct (lba48 d); lia).
  unfold writeDMADisk. rewrite Hg, run_pure. bdestr (write_chunk (lba48 d) <? n); [lia|].
  unfold record_core. rewrite bind_assoc. match goal with |- context [current_core ?k] => change k with (kernel s) end.
  destruct (current_core_run (kernel s) m dev me t Em Hid) as (t0 & E0 & W0). rewrite (run_bind _ _ _ _ _ _ E0).
  rewrite u8_small by lia. erewrite run_bind by reflexivity.
  match goal with |- context [fast_memcpy ?mem _ ?src ?l] => replace src with buf by (simpl; rewrite u64_small; lia);
    replace l with (n * 512) by (simpl; rewrite u64_small; destruct (lba48 d); lia); change mem with (mem_of s) end.
  destruct (fast_memcpy_run (mem_of s) (dma_phy_address d) buf (n * 512)) as (m1 & F1 & M1); [lia | lia |].
  rewrite F1, run_pure. match goal with |- context [start_write fuel ?x] => set (s0 := x) end.
  destruct (start_write_run fuel dev d Hok Hans Hf s0 t0) as (m2 & sel & t1 & E1 & C1 & M2); [exact Hg | exact Hadr |].
  rewrite (run_bind _ _ _ _ _ _ E1). simpl in C1. rewrite (commands_of_writes _ _ _ W0) in C1.
  eexists _, t1. split; [reflexivity|]. split; [by split_and!|]. split; [exact C1|].
  match goal with |- context [mem_of ?x] => change (mem_of x) with m2 end. split.
  - intros k Hk. rewrite M2 by (unfold DMA_AREA in *; lia). change (mem_of s0) with m1. rewrite M1, write_read. ranges. f_equal. lia.
  - intros x Hx. rewrite M2 by lia. change (mem_of s0) with m1.
    rewrite M1, write_bytes_out; [done|]. rewrite zlen_read by lia. lia.
Qed.

(** The interrupt of that write copies the next full chunk, of which nothing was asked, and sends it. *)
Lemma next_write fuel dev s d addr buf n t :
  let chunk := write_chunk (lba48 d) in
  disk_ok d -> answers dev d -> (forall t, truthy (Z.land (dev t Port 1 (bm_register d BM0_STATUS) mod 2 ^ 8) 0x4) = true) ->
  5001 < Z.of_nat fuel -> write_started s d addr buf n -> 0 < n <= chunk ->
  0 <= addr /\ addr + (n + chunk) <= (if lba48 d then 2 ^ 48 else 2 ^ 28) -> 0 <= buf /\ buf + (n + chunk) * 512 < 2 ^ 64 ->
  buf + (n + chunk) * 512 <= dma_phy_address d \/ dma_phy_address d + DMA_AREA <= buf ->
  exists s2 t2, ataHandleInterrupt fuel IRQ14 s dev t = Some (s2, t2) /\
    commands (io_port d) t2 = (write_command d, addr + n, chunk) :: commands (io_port d) t /\
    forall k, 0 <= k < chunk * 512 -> mem_of s2 (dma_phy_address d + k) = mem_of s (buf + n * 512 + k).
Proof.
  intros chunk Hok Hans Hirq Hf (Hg & Hen & Hrd & Hwd & Htot & Htgt & Hcur & Hadd & Hbuf) Hnc (Haddr & Hsz) (Hb & Hb64) Har.
  destruct (write_chunk_range d) as [Hch Hchb]. fold chunk in Hch, Hchb. pose proof (tables_apart d Hok).
  assert (addressable d (addr + n) chunk) as Hadr
    by (unfold addressable, chunk, write_chunk, DMA_WRITE_CHUNK_EXT, DMA_WRITE_CHUNK in *; destruct (lba48 d); lia).
  assert (addr + n < 2 ^ 64) as H64 by (destruct (lba48 d); lia).
  unfold ataHandleInterrupt, ataHandleWriteInterrupt. rewrite Hen, Hrd, Hwd. cbn [negb orb].
  change (IRQ14 =? IRQ14) with true. cbn [negb andb]. rewrite Hg, run_pure.
  destruct (bm_interrupt_run fuel dev d Hok Hirq t) as (t1 & E1 & D1 & _). rewrite (run_bind _ _ _ _ _ _ E1). cbn [negb].
  rewrite Htot, Htgt. bdestr (0 <? n); [|lia]. fold chunk. cbv zeta. simpl. rewrite ?Htot, ?Htgt, ?Hcur, ?Hadd, ?Hbuf.
  rewrite !(u64_small n), Z.sub_diag, (u64_small 0) by lia. bdestr (chunk <? 0); [lia|]. simpl.
  rewrite (u64_small (n * 512)), (u64_small (buf + n * 512)), (u64_small (chunk * 512)), (u64_small (addr + n)) by lia.
  destruct (fast_memcpy_run (memset (mem_of s) (dma_phy_address d) 0 33554432) (dma_phy_address d) (buf + n * 512) (chunk * 512))
    as (m1 & F1 & M1); [lia | lia |]. rewrite F1, bind_assoc, run_pure.
  do 4 (rewrite bind_assoc; erewrite run_bind; [|reflexivity]).
  match goal with |- context [start_write fuel ?x] => set (s1 := x) end.
  match goal with |- context [(start_write fuel s1 ≫= ?f) dev ?t] => set (t2 := t) end.
  destruct (start_write_run fuel dev d Hok Hans Hf s1 t2) as (m2 & sel & t3 & E2 & C2 & M2); [exact Hg | exact Hadr |].
  rewrite (run_bind _ _ _ _ _ _ E2). erewrite run_bind; [|reflexivity].
  destruct (bm_port_ok d BM0_COMMAND Hok ltac:(unfold BM0_COMMAND; lia)) as [Hcp Hcb].
  destruct (bm_port_ok d BM0_STATUS Hok ltac:(unfold BM0_STATUS; lia)) as [Hsp Hsb].
  assert (io_port d + 7 < 0x400) as Hio by (destruct Hok as [[->| ->] _ _ _ _ _ _]; unfold ATA_PRIMARY_IO, ATA_SECONDARY_IO; lia).
  eexists _, _. split; [reflexivity|]. split.
  - match goal with |- commands ?p ?x = _ => change (commands p x) with (commands p t3) end. rewrite C2. simpl. f_equal.
    unfold commands, t2. rewrite !drive_skip by (rewrite ?Hcp, ?Hsp; lia). cbn [drive]. by rewrite D1.
  - intros k Hk. match goal with |- mem_of ?x ?a = _ => change (mem_of x a) with (m2 a) end.
    rewrite M2 by (unfold DMA_AREA in *; lia). change (mem_of s1) with m1.
    rewrite M1, write_read. ranges. unfold memset. unfold DMA_AREA in *. ranges. f_equal. lia.
Qed.

(** C36: writing a disk.  [writeDMADisk] of a single chunk issues exactly the write
    asked for.  But its interrupt finds [total_write] still at zero, so the
    handler takes the transfer as unfinished, finds nothing left, and then writes
    a whole chunk of sectors more: it fills the DMA area with the memory behind
    the caller's buffer and writes it over the sectors behind the ones asked
    for.  Every write destroys 256 (or 65534) sectors that follow it. *)
Theorem write_disk_overruns fuel dev now s i addr buf n me d t :
  let chunk := write_chunk (lba48 d) in
  can_read fuel dev s i addr buf (n + chunk) me d -> 0 < n <= chunk -> write_done (dmaBuffer s) = false ->
  let code := if lba48 d then 0x35 else 0xCA in
  exists s1 t1 s2 t2,
    writeDMADisk fuel now s i addr buf n dev t = Some ((s1, WRITE_DMA_SUCCESS), t1) /\
    commands (io_port d) t1 = (code, addr, n) :: commands (io_port d) t /\
    (forall k, 0 <= k < n * 512 -> mem_of s1 (dma_phy_address d + k) = mem_of s (buf + k)) /\
    ataHandleInterrupt fuel IRQ14 s1 dev t1 = Some (s2, t2) /\
    commands (io_port d) t2 = (code, addr + n, chunk) :: commands (io_port d) t1 /\
    forall k, 0 <= k < chunk * 512 -> mem_of s2 (dma_phy_address d + k) = mem_of s (buf + n * 512 + k).
Proof.
  intros chunk Hr Hnc Hwd code.
  destruct (first_write fuel dev now s i addr buf n me d t Hr Hnc Hwd) as (s1 & t1 & E1 & Hs & C1 & M1 & K1).
  destruct Hr as [_ Hok Hans Hirq Hf _ _ _ _ (_ & Hsz) Hb Har _].
  destruct (next_write fuel dev s1 d addr buf n t1 Hok Hans Hirq Hf Hs Hnc Hsz Hb Har) as (s2 & t2 & E2 & C2 & M2).
  exists s1, t1, s2, t2. split; [exact E1|]. split; [exact C1|]. split; [exact M1|]. split; [exact E2|]. split; [exact C2|].
  intros k Hk. fold chunk in M2. rewrite (M2 k Hk). apply K1. fold chunk. lia.
Qed.

Lemma write_disk_overruns_witness : exists s1 t1 s2 t2,
  writeDMADisk (Z.to_nat 6000) 0 small_machine 0 1000 0x9000000 1 ready_controller [] = Some ((s1, WRITE_DMA_SUCCESS), t1) /\
  ataHandleInterrupt (Z.to_nat 6000) IRQ14 s1 ready_controller t1 = Some (s2, t2) /\
  commands ATA_PRIMARY_IO t2 = [(0xCA, 1001, 256); (0xCA, 1000, 1)].
Proof.
  destruct (write_disk_overruns (Z.to_nat 6000) ready_controller 0 small_machine 0 1000 0x9000000 1 0 (first_disk false) [])
    as (s1 & t1 & s2 & t2 & E1 & C1 & _ & E2 & C2 & _).
  - apply small_machine_reads; unfold write_chunk, DMA_WRITE_CHUNK; simpl; lia.
  - unfold write_chunk, DMA_WRITE_CHUNK; simpl; lia.
  - reflexivity.
  - exists s1, t1, s2, t2. split; [exact E1|]. split; [exact E2|].
    change ATA_PRIMARY_IO with (io_port (first_disk false)). rewrite C2, C1. reflexivity.
Defined.
