(* ===== verification/Asm.v ===== *)
(** * The processor: what the routines of [asm/stage2/misc] use of it

    Five general registers of 64 bits, the flags the conditional jumps read, the
    direction flag, memory and the stack.  A routine is a [code]: every jump of
    these routines goes forward, so a label is a [code] of its own that the jumps
    to it share.  [run] executes it.

    - A memory operand of [w] bytes is the list of its bytes; it does not reach
      over the end of the address space.
    - SF and OF are read by the signed jump [jg] only, which follows a [cmp]: the
      flag [greater] is the outcome of the last one.
    - DIV leaves ZF undefined (Intel SDM, volume 2A): its value afterwards is a
      parameter, [zf_after_div].  A REP prefix with RCX = 0 changes no flag.
    - The stack is a list of words: a routine does not write where its own stack
      lies. *)

From S2P Require Import Prelude FastMem.

#[local] Open Scope Z_scope.

(** ** State *)

Inductive reg := RAX | RCX | RDX | RSI | RDI.

Record cpu := {
  rax : Z;
  rcx : Z;
  rdx : Z;
  rsi : Z;
  rdi : Z;
  zf : bool;
  greater : bool;
  df : bool;
  ram : memory;
  stack : list Z
}.

#[export] Instance eta_cpu : Eta cpu := fun r =>
  {| rax := rax r; rcx := rcx r; rdx := rdx r; rsi := rsi r; rdi := rdi r; zf := zf r; greater := greater r;
     df := df r; ram := ram r; stack := stack r |}.

Definition get_reg (r : reg) (s : cpu) : Z :=
  match r with RAX => rax s | RCX => rcx s | RDX => rdx s | RSI => rsi s | RDI => rdi s end.

Definition set_reg (r : reg) (v : Z) (s : cpu) : cpu :=
  match r with
  | RAX => s {{ rax := v }}
  | RCX => s {{ rcx := v }}
  | RDX => s {{ rdx := v }}
  | RSI => s {{ rsi := v }}
  | RDI => s {{ rdi := v }}
  end.

(** What the manual leaves open. *)
Class Processor := { zf_after_div : bool -> Z -> Z -> Z -> bool }.

(** A processor, or emulator, whose DIV leaves ZF alone. *)
Class DivKeeps `{Processor} : Prop := { div_keeps z high low d : zf_after_div z high low d = z }.

#[export] Instance keeping : Processor := {| zf_after_div z _ _ _ := z |}.

#[export] Instance keeping_keeps : DivKeeps.
Proof. by constructor. Qed.

(** ** Instructions *)

Inductive instr :=
| Push (r : reg)
| Pop (r : reg)
| Mov (d s : reg)
| MovI (d : reg) (v : Z)
| MovD (d s : reg)
| MovW (d s : reg)
| MovAl (v : Z)
| MovAh (v : Z)
| Xor (d s : reg)
| Add (d s : reg)
| AddI (d : reg) (v : Z)
| Sub (d s : reg)
| SubI (d : reg) (v : Z)
| Inc (d : reg)
| Dec (d : reg)
| Shl (d : reg) (k : Z)
| Div (d : reg)
| Cmp (a b : reg)
| CmpI (a : reg) (v : Z)
| Cld
| Std
| Rep_movs (w : Z)
| Rep_stos (w : Z)
| Repe_cmps (w : Z)
| Repne_scas (w : Z).

(** The result of an arithmetic instruction. *)
Definition set_arith (d : reg) (v : Z) (s : cpu) : cpu := (set_reg d (u64 v) s) {{ zf := u64 v =? 0 }}.

Definition compare (a b : Z) (s : cpu) : cpu := s {{ zf := a =? b }} {{ greater := s64 b <? s64 a }}.

(** String instructions move by the width of the operand, down if DF is set. *)
Definition stride (w : Z) (s : cpu) : Z := if df s then - w else w.

Definition movs (w : Z) (s : cpu) : cpu :=
  s {{ ram := write_bytes (ram s) (rdi s) (read_bytes (ram s) (rsi s) w) }}
    {{ rsi := u64 (rsi s + stride w s) }} {{ rdi := u64 (rdi s + stride w s) }}.

Definition stos (w : Z) (s : cpu) : cpu :=
  s {{ ram := write_bytes (ram s) (rdi s) (le_bytes (Z.to_nat w) (rax s)) }} {{ rdi := u64 (rdi s + stride w s) }}.

Definition cmps (w : Z) (s : cpu) : cpu :=
  s {{ zf := bool_decide (read_bytes (ram s) (rsi s) w = read_bytes (ram s) (rdi s) w) }}
    {{ rsi := u64 (rsi s + stride w s) }} {{ rdi := u64 (rdi s + stride w s) }}.

Definition scas (w : Z) (s : cpu) : cpu :=
  s {{ zf := bool_decide (le_bytes (Z.to_nat w) (rax s) = read_bytes (ram s) (rdi s) w) }} {{ rdi := u64 (rdi s + stride w s) }}.

(** Up to [p] rounds; [inr] ends the loop. *)
Fixpoint iter_until {S} (p : positive) (f : S -> S + S) (s : S) : S + S :=
  match p with
  | xH => f s
  | xO p => match iter_until p f s with inl s => iter_until p f s | r => r end
  | xI p =>
      match f s with
      | inl s => match iter_until p f s with inl s => iter_until p f s | r => r end
      | r => r
      end
  end.

Definition rep_round (go : cpu -> bool) (op : cpu -> cpu) (s : cpu) : cpu + cpu :=
  let s := op (s {{ rcx := rcx s - 1 }}) in if go s then inl s else inr s.

(** The prefixes: RCX counts the rounds down. *)
Definition rep (go : cpu -> bool) (op : cpu -> cpu) (s : cpu) : cpu :=
  match rcx s with
  | Zpos p => match iter_until p (rep_round go op) s with inl s => s | inr s => s end
  | _ => s
  end.

Definition always (_ : cpu) : bool := true.
Definition not_equal (s : cpu) : bool := negb (zf s).

Section run.
Context `{Processor}.

Definition exec (i : instr) (s : cpu) : option cpu :=
  match i with
  | Push r => Some (s {{ stack := get_reg r s :: stack s }})
  | Pop r => match stack s with v :: l => Some ((set_reg r v s) {{ stack := l }}) | [] => None end
  | Mov d r => Some (set_reg d (get_reg r s) s)
  | MovI d v => Some (set_reg d (u64 v) s)
  | MovD d r => Some (set_reg d (u32 (get_reg r s)) s)
  | MovW d r => Some (set_reg d (get_reg d s - u16 (get_reg d s) + u16 (get_reg r s)) s)
  | MovAl v => Some (s {{ rax := rax s - u8 (rax s) + v }})
  | MovAh v => Some (s {{ rax := rax s - (u16 (rax s) - u8 (rax s)) + 256 * v }})
  | Xor d r => Some (set_arith d (Z.lxor (get_reg d s) (get_reg r s)) s)
  | Add d r => Some (set_arith d (get_reg d s + get_reg r s) s)
  | AddI d v => Some (set_arith d (get_reg d s + v) s)
  | Sub d r => Some (set_arith d (get_reg d s - get_reg r s) s)
  | SubI d v => Some (set_arith d (get_reg d s - v) s)
  | Inc d => Some (set_arith d (get_reg d s + 1) s)
  | Dec d => Some (set_arith d (get_reg d s - 1) s)
  | Shl d k => Some (set_arith d (Z.shiftl (get_reg d s) k) s)
  | Div r =>
      let d := get_reg r s in
      let n := rdx s * 2 ^ 64 + rax s in
      if (d =? 0) || (2 ^ 64 <=? n / d) then None
      else Some (s {{ zf := zf_after_div (zf s) (rdx s) (rax s) d }} {{ rax := n / d }} {{ rdx := n mod d }})
  | Cmp a b => Some (compare (get_reg a s) (get_reg b s) s)
  | CmpI a v => Some (compare (get_reg a s) v s)
  | Cld => Some (s {{ df := false }})
  | Std => Some (s {{ df := true }})
  | Rep_movs w => Some (rep always (movs w) s)
  | Rep_stos w => Some (rep always (stos w) s)
  | Repe_cmps w => Some (rep zf (cmps w) s)
  | Repne_scas w => Some (rep not_equal (scas w) s)
  end.

Inductive cond := IfE | IfNE | IfG.

Definition holds (c : cond) (s : cpu) : bool := match c with IfE => zf s | IfNE => negb (zf s) | IfG => greater s end.

Inductive code := Ret | Do (i : instr) (c : code) | Jump (b : cond) (target next : code).

Fixpoint run (c : code) (s : cpu) : option cpu :=
  match c with
  | Ret => Some s
  | Do i c => s ← exec i s; run c s
  | Jump b target next => if holds b s then run target s else run next s
  end.

(** A call: the arguments in RDI, RSI and RDX, the other registers and the flags as
    they are.  DF is clear, which the calling convention guarantees. *)
Definition call (c : code) (s : cpu) (mem : memory) (a b n : Z) : option cpu :=
  run c (s {{ rdi := u64 a }} {{ rsi := u64 b }} {{ rdx := u64 n }} {{ ram := mem }} {{ df := false }}).
End run.

Notation "i ;; c" := (Do i c) (at level 100, c at level 200, right associativity) : nile_scope.

(** ** Lemmas: the repeat prefixes *)

Fixpoint iter_nat {S} (n : nat) (f : S -> S + S) (s : S) : S + S :=
  match n with O => inl s | Datatypes.S n => match f s with inl s => iter_nat n f s | r => r end end.

Lemma iter_nat_add {S} n m (f : S -> S + S) s :
  iter_nat (n + m) f s = match iter_nat n f s with inl s => iter_nat m f s | r => r end.
Proof. revert s. induction n as [|n IH]; intros s; [done|]. simpl. destruct (f s); [apply IH | done]. Qed.

Lemma iter_until_nat {S} p (f : S -> S + S) s : iter_until p f s = iter_nat (Pos.to_nat p) f s.
Proof.
  revert s. induction p as [p IH|p IH|]; intros s; cbn [iter_until].
  - replace (Pos.to_nat p~1) with (Datatypes.S (Pos.to_nat p + Pos.to_nat p)) by lia. cbn [iter_nat].
    destruct (f s) as [s'|s']; [|done]. rewrite iter_nat_add, <- IH. destruct (iter_until p f s'); [by rewrite <- IH | done].
  - replace (Pos.to_nat p~0) with (Pos.to_nat p + Pos.to_nat p)%nat by lia. rewrite iter_nat_add, <- IH.
    destruct (iter_until p f s); [by rewrite <- IH | done].
  - change (Pos.to_nat 1) with 1%nat. cbn [iter_nat]. by destruct (f s).
Qed.

Definition rep_nat (n : nat) (go : cpu -> bool) (op : cpu -> cpu) (s : cpu) : cpu :=
  match iter_nat n (rep_round go op) s with inl s => s | inr s => s end.

Lemma rep_unfold go op s : rep go op s = rep_nat (Z.to_nat (rcx s)) go op s.
Proof. unfold rep, rep_nat. destruct (rcx s); [done | by rewrite iter_until_nat | done]. Qed.

(** The states a prefix goes through are [F 0], [F 1], ...; it stops at [F n], or at the first that
    does not pass the test. *)
Lemma rep_trajectory go op (F : nat -> cpu) n :
  rcx (F 0%nat) = Z.of_nat n ->
  (forall k, (k < n)%nat -> op ((F k) {{ rcx := rcx (F k) - 1 }}) = F (S k)) ->
  exists k, (k <= n)%nat /\ rep go op (F 0%nat) = F k /\
    (forall j, (0 < j < k)%nat -> go (F j) = true) /\
    ((k = n /\ ((0 < n)%nat -> go (F n) = true)) \/ ((0 < k)%nat /\ go (F k) = false)).
Proof.
  intros Hn HF. rewrite rep_unfold, Hn, Nat2Z.id. clear Hn.
  enough (forall d i, (i + d = n)%nat -> exists k, (i <= k <= n)%nat /\ rep_nat d go op (F i) = F k /\
    (forall j, (i < j < k)%nat -> go (F j) = true) /\
    ((k = n /\ ((i < n)%nat -> go (F n) = true)) \/ ((i < k)%nat /\ go (F k) = false))) as H.
  { destruct (H n 0%nat eq_refl) as (k & ? & ? & ? & ?). exists k. split_and!; try done; lia. }
  induction d as [|d IH]; intros i Hi.
  - exists n. replace i with n by lia. split_and!; [lia | lia | done | intros; lia | left; split; [done|lia]].
  - unfold rep_nat. cbn [iter_nat]. unfold rep_round at 1. rewrite HF by lia. destruct (go (F (S i))) eqn:Eg.
    + destruct (IH (S i)) as (k & Hk & Hrep & Hgo & Hend); [lia|]. exists k. unfold rep_nat in Hrep. split_and!; [lia | lia | done | |].
      * intros j Hj. destruct (decide (j = S i)) as [->|]; [done | apply Hgo; lia].
      * destruct Hend as [[-> Hend] | [Hlt Hend]]; [left | right; split; [lia | done]].
        split; [done|]. intros _. destruct (decide (S i = n)) as [<-|]; [done | apply Hend; lia].
    + exists (S i). split_and!; [lia | lia | done | intros; lia | right; split; [lia | done]].
Qed.

(** A prefix without a test runs to the end. *)
Lemma rep_always op (F : nat -> cpu) n :
  rcx (F 0%nat) = Z.of_nat n ->
  (forall k, (k < n)%nat -> op ((F k) {{ rcx := rcx (F k) - 1 }}) = F (S k)) ->
  rep always op (F 0%nat) = F n.
Proof.
  intros Hn HF. destruct (rep_trajectory always op F n Hn HF) as (k & _ & -> & _ & [[-> _] | [_ Hf]]); [done | discriminate Hf].
Qed.

(** ** Lemmas: the string instructions

    From [a], in steps of [e], [n] operands lie in the address space. *)
Definition within (a e n : Z) : Prop := forall k, 0 <= k < n -> 0 <= a + e * k < 2 ^ 64.

Lemma within_up a w n : 0 <= a -> 0 < w -> a + w * n <= 2 ^ 64 -> within a w n.
Proof. intros Ha Hw Hn k Hk. nia. Qed.

Lemma within_down a w n : 0 < w -> 0 <= a + w - w * n -> a < 2 ^ 64 -> within a (- w) n.
Proof. intros Hw Ha Hn k Hk. nia. Qed.

Definition step_of (w : Z) (down : bool) : Z := if down then - w else w.

(** Memory after [k] moves. *)
Fixpoint moved (k : nat) (w e si di : Z) (m : memory) : memory :=
  match k with
  | O => m
  | S k => let m := moved k w e si di m in write_bytes m (di + e * Z.of_nat k) (read_bytes m (si + e * Z.of_nat k) w)
  end.

Lemma u64_idem x d : u64 (u64 x + d) = u64 (x + d).
Proof. apply u64_add_l. Qed.

Lemma rep_movs w a n d si di z g f m st : let e := step_of w f in
  0 <= n -> within si e n -> within di e n ->
  rep always (movs w) (Build_cpu a n d (u64 si) (u64 di) z g f m st) =
    Build_cpu a 0 d (u64 (si + e * n)) (u64 (di + e * n)) z g f (moved (Z.to_nat n) w e si di m) st.
Proof.
  intros e Hn Hs Hd.
  pose (F := fun k => Build_cpu a (n - Z.of_nat k) d (u64 (si + e * Z.of_nat k)) (u64 (di + e * Z.of_nat k)) z g f (moved k w e si di m) st).
  assert (F 0%nat = Build_cpu a n d (u64 si) (u64 di) z g f m st) as H0.
  { unfold F. cbn [moved]. change (Z.of_nat 0) with 0. f_equal; [lia | f_equal; lia | f_equal; lia]. }
  rewrite <- H0, (rep_always _ F (Z.to_nat n)).
  - unfold F. rewrite Z2Nat.id by lia. f_equal. lia.
  - unfold F. cbn [rcx]. lia.
  - intros k Hk. unfold F, movs, stride, step_of in *. simpl. f_equal.
    + lia.
    + rewrite u64_idem. f_equal. subst e. lia.
    + rewrite u64_idem. f_equal. subst e. lia.
    + rewrite !u64_small by (apply Hs || apply Hd; lia). done.
Qed.

(** Memory after [k] stores of the bytes [l]. *)
Fixpoint stored (k : nat) (e di : Z) (l : list Z) (m : memory) : memory :=
  match k with O => m | S k => write_bytes (stored k e di l m) (di + e * Z.of_nat k) l end.

Lemma rep_stos w a n d si di z g f m st : let e := step_of w f in
  0 <= n -> within di e n ->
  rep always (stos w) (Build_cpu a n d si (u64 di) z g f m st) =
    Build_cpu a 0 d si (u64 (di + e * n)) z g f (stored (Z.to_nat n) e di (le_bytes (Z.to_nat w) a) m) st.
Proof.
  intros e Hn Hd.
  pose (F := fun k => Build_cpu a (n - Z.of_nat k) d si (u64 (di + e * Z.of_nat k)) z g f (stored k e di (le_bytes (Z.to_nat w) a) m) st).
  assert (F 0%nat = Build_cpu a n d si (u64 di) z g f m st) as H0.
  { unfold F. cbn [stored]. change (Z.of_nat 0) with 0. f_equal; [lia | f_equal; lia]. }
  rewrite <- H0, (rep_always _ F (Z.to_nat n)).
  - unfold F. rewrite Z2Nat.id by lia. f_equal. lia.
  - unfold F. cbn [rcx]. lia.
  - intros k Hk. unfold F, stos, stride, step_of in *. simpl. f_equal.
    + lia.
    + rewrite u64_idem. f_equal. subst e. lia.
    + rewrite u64_small by (apply Hd; lia). done.
Qed.

(** A test of the [k]-th operand: the prefix stops behind the first that ends the loop ([P k = go]
    fails), with ZF its outcome. *)
Definition stops (P : Z -> bool) (go : bool) (n k : Z) : Prop :=
  (k = n /\ forall j, 0 <= j < n -> P j = go) \/ (0 <= k < n /\ P k = negb go /\ forall j, 0 <= j < k -> P j = go).

Definition same (w e si di : Z) (m : memory) (k : Z) : bool :=
  bool_decide (read_bytes m (si + e * k) w = read_bytes m (di + e * k) w).

(** The position and ZF after the loop. *)
Definition ends (n k : Z) : Z := if k =? n then n else k + 1.
Definition last_zf (P : Z -> bool) (n k : Z) (z : bool) : bool := if n =? 0 then z else if k =? n then P (n - 1) else P k.

Lemma ends_last P b n k z : 0 <= n -> stops P b n k ->
  0 <= ends n k /\ match Z.to_nat (ends n k) with O => z | S j => P (Z.of_nat j) end = last_zf P n k z.
Proof.
  intros Hn Hk. unfold last_zf, ends. destruct Hk as [[-> _] | (Hk & _)].
  - rewrite Z.eqb_refl. split; [done|]. destruct (Z.eqb_spec n 0) as [->|]; [done|].
    destruct (Z.to_nat n) eqn:En; [lia|]. f_equal. lia.
  - destruct (Z.eqb_spec k n); [lia|]. destruct (Z.eqb_spec n 0); [lia|]. split; [lia|].
    destruct (Z.to_nat (k + 1)) eqn:En; [lia|]. f_equal. lia.
Qed.

Lemma rep_tested op go b P (F : nat -> cpu) n :
  rcx (F 0%nat) = Z.of_nat n -> (forall k, (k < n)%nat -> op ((F k) {{ rcx := rcx (F k) - 1 }}) = F (S k)) ->
  (forall k, (k < n)%nat -> go (F (S k)) = Bool.eqb (P (Z.of_nat k)) b) ->
  exists k, stops P b (Z.of_nat n) k /\ rep go op (F 0%nat) = F (Z.to_nat (ends (Z.of_nat n) k)).
Proof.
  intros Hn HF Hgo. destruct (rep_trajectory go op F n Hn HF) as (k & Hk & -> & Hbefore & Hend).
  assert (forall j, (0 < j <= n)%nat -> go (F j) = true -> P (Z.of_nat (j - 1)) = b) as Hj.
  { intros j Hj Hg. specialize (Hgo (j - 1)%nat ltac:(lia)). replace (S (j - 1)) with j in Hgo by lia.
    rewrite Hg in Hgo. by destruct (P _), b. }
  destruct Hend as [[-> Hlast] | [Hpos Hfail]].
  - exists (Z.of_nat n). unfold ends. rewrite Z.eqb_refl, Nat2Z.id. split; [|done]. left. split; [done|]. intros j Hjn.
    replace j with (Z.of_nat (S (Z.to_nat j) - 1)) by lia. apply Hj; [lia|].
    destruct (decide (S (Z.to_nat j) = n)) as [->|]; [apply Hlast; lia | apply Hbefore; lia].
  - exists (Z.of_nat k - 1). unfold ends. replace (Z.of_nat k - 1 =? Z.of_nat n) with false by (symmetry; apply Z.eqb_neq; lia).
    split; [|f_equal; lia]. right. split; [lia|]. split.
    + specialize (Hgo (k - 1)%nat ltac:(lia)). replace (S (k - 1)) with k in Hgo by lia. rewrite Hfail in Hgo.
      replace (Z.of_nat k - 1) with (Z.of_nat (k - 1)) by lia. by destruct (P _), b.
    + intros j Hjk. replace j with (Z.of_nat (S (Z.to_nat j) - 1)) by lia. apply Hj; [lia | apply Hbefore; lia].
Qed.

Lemma rep_cmps w a n d si di z g f m st : let e := step_of w f in
  0 <= n -> within si e n -> within di e n ->
  exists k, stops (same w e si di m) true n k /\
    rep zf (cmps w) (Build_cpu a n d (u64 si) (u64 di) z g f m st) =
      Build_cpu a (n - ends n k) d (u64 (si + e * ends n k)) (u64 (di + e * ends n k)) (last_zf (same w e si di m) n k z) g f m st.
Proof.
  intros e Hn Hs Hd.
  pose (F := fun k => Build_cpu a (n - Z.of_nat k) d (u64 (si + e * Z.of_nat k)) (u64 (di + e * Z.of_nat k))
    (match k with O => z | S k => same w e si di m (Z.of_nat k) end) g f m st).
  assert (F 0%nat = Build_cpu a n d (u64 si) (u64 di) z g f m st) as H0.
  { unfold F. change (Z.of_nat 0) with 0. f_equal; [lia | f_equal; lia | f_equal; lia]. }
  rewrite <- H0. destruct (rep_tested (cmps w) zf true (same w e si di m) F (Z.to_nat n)) as (k & Hk & ->).
  - unfold F. cbn [rcx]. lia.
  - intros k Hk. unfold F, cmps, stride, step_of in *. simpl. f_equal.
    + lia.
    + rewrite u64_idem. f_equal. subst e. lia.
    + rewrite u64_idem. f_equal. subst e. lia.
    + unfold same. rewrite !u64_small by (apply Hs || apply Hd; lia). done.
  - intros k Hk. unfold F. cbn [zf]. by destruct (same _ _ _ _ _ _).
  - rewrite Z2Nat.id in * by lia. exists k. split; [done|]. destruct (ends_last (same w e si di m) true n k z Hn Hk) as [He Hz].
    unfold F. rewrite Z2Nat.id by lia. f_equal. exact Hz.
Qed.

Definition found (w e di : Z) (l : list Z) (m : memory) (k : Z) : bool := bool_decide (l = read_bytes m (di + e * k) w).

(** Without a bound on the addresses. *)
Definition found_at (w e di : Z) (l : list Z) (m : memory) (k : Z) : bool := bool_decide (l = read_bytes m (u64 (di + e * k)) w).

Lemma rep_scas_at w a n d si di z g f m st : let e := step_of w f in let P := found_at w e di (le_bytes (Z.to_nat w) a) m in
  0 <= n ->
  exists k, stops P false n k /\
    rep not_equal (scas w) (Build_cpu a n d si (u64 di) z g f m st) =
      Build_cpu a (n - ends n k) d si (u64 (di + e * ends n k)) (last_zf P n k z) g f m st.
Proof.
  intros e P Hn.
  pose (F := fun k => Build_cpu a (n - Z.of_nat k) d si (u64 (di + e * Z.of_nat k))
    (match k with O => z | S k => P (Z.of_nat k) end) g f m st).
  assert (F 0%nat = Build_cpu a n d si (u64 di) z g f m st) as H0.
  { unfold F. change (Z.of_nat 0) with 0. f_equal; [lia | f_equal; lia]. }
  rewrite <- H0. destruct (rep_tested (scas w) not_equal false P F (Z.to_nat n)) as (k & Hk & ->).
  - unfold F. cbn [rcx]. lia.
  - intros k Hk. unfold F, scas, stride, step_of in *. simpl. f_equal.
    + lia.
    + rewrite u64_idem. f_equal. subst e. lia.
  - intros k Hk. unfold F, not_equal. cbn [zf]. by destruct (P _).
  - rewrite Z2Nat.id in * by lia. exists k. split; [done|]. destruct (ends_last P false n k z Hn Hk) as [He Hz].
    unfold F. rewrite Z2Nat.id by lia. f_equal. exact Hz.
Qed.

Lemma stops_ext P Q b n k z : (forall j, 0 <= j < n -> P j = Q j) -> 0 <= n -> stops P b n k -> stops Q b n k /\ last_zf P n k z = last_zf Q n k z.
Proof.
  intros H Hn Hk. split.
  - destruct Hk as [[-> Hall] | (Hk & Hq & Hfirst)]; [left | right].
    + split; [done|]. intros j Hj. rewrite <- H by lia. by apply Hall.
    + split; [done|]. split; [by rewrite <- H|]. intros j Hj. rewrite <- H by lia. by apply Hfirst.
  - unfold last_zf. destruct (Z.eqb_spec n 0); [done|]. destruct (Z.eqb_spec k n); apply H; [lia|].
    destruct Hk as [[-> _] | (Hk & _)]; [done | exact Hk].
Qed.

Lemma rep_scas w a n d si di z g f m st : let e := step_of w f in let P := found w e di (le_bytes (Z.to_nat w) a) m in
  0 <= n -> within di e n ->
  exists k, stops P false n k /\
    rep not_equal (scas w) (Build_cpu a n d si (u64 di) z g f m st) =
      Build_cpu a (n - ends n k) d si (u64 (di + e * ends n k)) (last_zf P n k z) g f m st.
Proof.
  intros e P Hn Hd. destruct (rep_scas_at w a n d si di z g f m st Hn) as (k & Hk & Hrep). exists k.
  destruct (stops_ext (found_at w e di (le_bytes (Z.to_nat w) a) m) P false n k z) as [Hs Hz]; [| done | done |].
  - intros j Hj. unfold found_at, P, found. by rewrite u64_small by (apply Hd; lia).
  - split; [done|]. rewrite Hrep. f_equal. exact Hz.
Qed.

(** The moves of a block copy it, upwards if the destination does not start inside the source, ... *)
Lemma moved_up k w si di m b : 0 < w -> di <= si \/ si + w * Z.of_nat k <= di ->
  moved k w w si di m b = write_bytes m di (read_bytes m si (w * Z.of_nat k)) b.
Proof.
  intros Hw. revert b. induction k as [|k IH]; intros b Hdis; cbn [moved]; rewrite !write_read; [zcases; lia || done|].
  rewrite Nat2Z.inj_succ in *. rewrite !IH, !write_read by nia.
  set (t := w * Z.of_nat k) in *. replace (w * Z.succ (Z.of_nat k)) with (t + w) in * by lia. assert (0 <= t) by lia. clearbody t.
  zcases; try lia; try done; f_equal; lia.
Qed.

(** ... downwards, from the last operand, if it does not end inside. *)
Lemma moved_down k w si di m b : 0 < w -> si <= di \/ di + w <= si + w - w * Z.of_nat k ->
  moved k w (- w) si di m b = write_bytes m (di + w - w * Z.of_nat k) (read_bytes m (si + w - w * Z.of_nat k) (w * Z.of_nat k)) b.
Proof.
  intros Hw. revert b. induction k as [|k IH]; intros b Hdis; cbn [moved]; rewrite !write_read; [zcases; lia || done|].
  rewrite Nat2Z.inj_succ in *. rewrite !IH, !write_read by nia. rewrite Z.mul_opp_l.
  set (t := w * Z.of_nat k) in *. replace (w * Z.succ (Z.of_nat k)) with (t + w) in * by lia. assert (0 <= t) by lia. clearbody t.
  zcases; try lia; try done; f_equal; lia.
Qed.

(** A block of [k] operands. *)
Definition filled (k : nat) (l : list Z) : list Z := concat (replicate k l).

Lemma stored_up k w di l m b : zlen l = w -> stored k w di l m b = write_bytes m di (filled k l) b.
Proof.
  intros Hl. revert b. induction k as [|k IH]; intros b.
  - cbn [stored filled replicate concat]. by rewrite write_bytes_out by (unfold zlen; simpl; lia).
  - cbn [stored]. assert (filled (S k) l = filled k l ++ l) as ->.
    { unfold filled. rewrite replicate_S_end, concat_app. cbn [concat]. by rewrite app_nil_r. }
    assert (zlen (filled k l) = w * Z.of_nat k) as Hf.
    { clear IH. unfold filled. induction k as [|k IH]; [unfold zlen; simpl; lia|]. cbn [replicate concat]. unfold zlen in *. rewrite length_app. lia. }
    rewrite write_bytes_app, Hf. by apply write_bytes_ext.
Qed.
