(* ===== verification/MemoryAsm.v ===== *)
(** * The assembly of [asm/stage2/misc/MemoryUtilities.asm]

    The routines of the file as code of the machine of Asm.v, one [code] per label,
    and what they promise: the [contract]s, which the comments of
    [headers/misc/MemoryUtilities.h] state function by function.  [meets] says
    that a routine keeps a contract, [meets_for] for which lengths; MemoryRoutines.v
    proves it.  Routines with
    several names (memcpyc, memcpy8, memcpy) are listed once, under the last name.

    The two routines on SSE 4.2 instructions, which nothing calls, are left out. *)

From S2P Require Import Prelude FastMem Asm.

#[local] Open Scope Z_scope.

(** ** The listing *)

Definition asm_memcpy : code :=
  Push RDI;; Push RSI;; Push RDX;; Push RCX;; Mov RAX RDX;; Xor RDX RDX;; MovI RCX 8;; Div RCX;;
  Mov RCX RAX;; Cld;; Rep_movs 8;; Mov RCX RDX;; Cld;; Rep_movs 1;; Pop RCX;; Pop RDX;; Pop RSI;;
  Pop RDI;; Ret.

Definition asm_memcpy16 : code :=
  Push RDI;; Push RSI;; Push RDX;; Push RCX;; Mov RAX RDX;; Xor RDX RDX;; MovI RCX 4;; Div RCX;;
  Mov RCX RAX;; Cld;; Rep_movs 8;; Shl RDX 1;; Mov RCX RDX;; Cld;; Rep_movs 2;; Pop RCX;; Pop RDX;;
  Pop RSI;; Pop RDI;; Ret.

Definition asm_memcpy32 : code :=
  Push RDI;; Push RSI;; Push RDX;; Push RCX;; Mov RAX RDX;; Xor RDX RDX;; MovI RCX 2;; Div RCX;;
  Mov RCX RAX;; Cld;; Rep_movs 8;; Shl RDX 2;; Mov RCX RDX;; Cld;; Rep_movs 4;; Pop RCX;; Pop RDX;;
  Pop RSI;; Pop RDI;; Ret.

Definition asm_memcpy64 : code :=
  Push RDI;; Push RSI;; Push RDX;; Push RCX;; Mov RCX RDX;; Cld;; Rep_movs 8;; Pop RCX;; Pop RDX;;
  Pop RSI;; Pop RDI;; Ret.

Definition asm_memmove : code :=
  Cmp RSI RDI;; Jump IfG asm_memcpy (Push RDI;; Push RSI;; Push RDX;; Push RCX;; Mov RCX RDX;;
  Dec RDX;; Add RDI RDX;; Add RSI RDX;; Std;; Rep_movs 1;; Pop RCX;; Pop RDX;; Pop RSI;; Pop RDI;; Ret).

Definition asm_memmove16 : code :=
  Cmp RSI RDI;; Jump IfG asm_memcpy16 (Push RDI;; Push RSI;; Push RDX;; Push RCX;; Mov RCX RDX;;
  Shl RDX 1;; SubI RDX 2;; Add RDI RDX;; Add RSI RDX;; Std;; Rep_movs 2;; Pop RCX;; Pop RDX;;
  Pop RSI;; Pop RDI;; Ret).

Definition asm_memmove32 : code :=
  Cmp RSI RDI;; Jump IfG asm_memcpy32 (Push RDI;; Push RSI;; Push RDX;; Push RCX;; Mov RCX RDX;;
  Shl RDX 2;; SubI RDX 4;; Add RDI RDX;; Add RSI RDX;; Std;; Rep_movs 4;; Pop RCX;; Pop RDX;;
  Pop RSI;; Pop RDI;; Ret).

Definition asm_memmove64 : code :=
  Cmp RSI RDI;; Jump IfG asm_memcpy64 (Push RDI;; Push RSI;; Push RDX;; Push RCX;; Mov RCX RDX;;
  Shl RDX 3;; SubI RDX 8;; Add RDI RDX;; Add RSI RDX;; Std;; Rep_movs 8;; Pop RCX;; Pop RDX;;
  Pop RSI;; Pop RDI;; Ret).

Definition asm_memset : code :=
  Push RSI;; Push RDI;; Push RDX;; Push RCX;; Xor RAX RAX;; MovW RAX RSI;; MovAh 0;; Mov RCX RDX;;
  Cld;; Rep_stos 1;; Pop RCX;; Pop RDX;; Pop RDI;; Pop RSI;; Ret.

Definition asm_memset16 : code :=
  Push RSI;; Push RDI;; Push RDX;; Push RCX;; Xor RAX RAX;; MovW RAX RSI;; Mov RCX RDX;; Cld;;
  Rep_stos 2;; Pop RCX;; Pop RDX;; Pop RDI;; Pop RSI;; Ret.

Definition asm_memset32 : code :=
  Push RSI;; Push RDI;; Push RDX;; Push RCX;; Xor RAX RAX;; MovD RAX RSI;; Mov RCX RDX;; Cld;;
  Rep_stos 4;; Pop RCX;; Pop RDX;; Pop RDI;; Pop RSI;; Ret.

Definition asm_memset64 : code :=
  Push RSI;; Push RDI;; Push RDX;; Push RCX;; Mov RAX RSI;; Mov RCX RDX;; Cld;; Rep_stos 8;;
  Pop RCX;; Pop RDX;; Pop RDI;; Pop RSI;; Ret.

Definition asm_memcmp_out : code :=
  Pop RAX;; Pop RCX;; Pop RDX;; Pop RDI;; Pop RSI;; Ret.

Definition asm_memcmp_mismatch : code :=
  Dec RDI;; Pop RAX;; Push RDI;; asm_memcmp_out.

Definition asm_memcmp_normal : code :=
  Mov RCX RDX;; Cld;; Repe_cmps 1;; Jump IfE asm_memcmp_out (asm_memcmp_mismatch).

Definition asm_memcmp : code :=
  Push RSI;; Push RDI;; Push RDX;; Push RCX;; Xor RAX RAX;; Push RAX;; Mov RAX RDX;; Xor RDX RDX;;
  MovI RCX 8;; Div RCX;; Mov RCX RAX;; Cld;; Repe_cmps 8;; Jump IfE asm_memcmp_normal (SubI RDI 8;;
  SubI RSI 8;; AddI RDX 8;; asm_memcmp_normal).

Definition asm_memcmp16_out : code :=
  Pop RAX;; Pop RCX;; Pop RDX;; Pop RDI;; Pop RSI;; Ret.

Definition asm_memcmp16_mismatch : code :=
  SubI RDI 2;; Pop RAX;; Push RDI;; asm_memcmp16_out.

Definition asm_memcmp_normal16 : code :=
  Mov RCX RDX;; Cld;; Repe_cmps 2;; Jump IfE asm_memcmp16_out (asm_memcmp16_mismatch).

Definition asm_memcmp16 : code :=
  Push RSI;; Push RDI;; Push RDX;; Push RCX;; Xor RAX RAX;; Push RAX;; Mov RAX RDX;; Xor RDX RDX;;
  MovI RCX 4;; Div RCX;; Mov RCX RAX;; Cld;; Repe_cmps 8;; Jump IfE asm_memcmp_normal16 (
  SubI RDI 8;; SubI RSI 8;; AddI RDX 4;; asm_memcmp_normal16).

Definition asm_memcmp32_out : code :=
  Pop RAX;; Pop RCX;; Pop RDX;; Pop RDI;; Pop RSI;; Ret.

Definition asm_memcmp32_mismatch : code :=
  SubI RDI 4;; Pop RAX;; Push RDI;; asm_memcmp32_out.

Definition asm_memcmp_normal32 : code :=
  Mov RCX RDX;; Cld;; Repe_cmps 4;; Jump IfE asm_memcmp32_out (asm_memcmp32_mismatch).

Definition asm_memcmp32 : code :=
  Push RSI;; Push RDI;; Push RDX;; Push RCX;; Xor RAX RAX;; Push RAX;; Mov RAX RDX;; Xor RDX RDX;;
  MovI RCX 2;; Div RCX;; Mov RCX RAX;; Cld;; Repe_cmps 8;; Jump IfNE asm_memcmp32_mismatch (
  Mov RCX RDX;; Cld;; Repe_cmps 4;; Jump IfE asm_memcmp_normal32 (SubI RDI 8;; SubI RSI 8;;
  AddI RDX 2;; asm_memcmp_normal32)).

Definition asm_memcmp64_out : code :=
  Pop RAX;; Pop RCX;; Pop RDX;; Pop RDI;; Pop RSI;; Ret.

Definition asm_memcmp64 : code :=
  Push RSI;; Push RDI;; Push RDX;; Push RCX;; Xor RAX RAX;; Push RAX;; Mov RCX RDX;; Cld;;
  Repe_cmps 8;; Jump IfE asm_memcmp64_out (SubI RDI 8;; Pop RAX;; Push RDI;; asm_memcmp64_out).

Definition asm_rmemcmp_out : code :=
  Pop RAX;; Pop RCX;; Pop RDX;; Pop RDI;; Pop RSI;; Ret.

Definition asm_rmemcmp_match_until_now : code :=
  Mov RCX RDX;; Std;; Repe_cmps 1;; Jump IfE asm_rmemcmp_out (Inc RDI;; Pop RAX;; Push RDI;;
  asm_rmemcmp_out).

Definition asm_rmemcmp_normal : code :=
  Xor RAX RAX;; Push RAX;; Add RDI RDX;; Add RSI RDX;; SubI RDI 8;; SubI RSI 8;; Mov RAX RDX;;
  Xor RDX RDX;; MovI RCX 8;; Div RCX;; Mov RCX RAX;; Std;; Repe_cmps 8;;
  Jump IfE asm_rmemcmp_match_until_now (AddI RDX 8;; AddI RDI 15;; AddI RSI 15;;
  asm_rmemcmp_match_until_now).

Definition asm_rmemcmp_adjust : code :=
  Xor RAX RAX;; Push RAX;; asm_rmemcmp_out.

Definition asm_rmemcmp : code :=
  Push RSI;; Push RDI;; Push RDX;; Push RCX;; CmpI RDX 8;; Jump IfG asm_rmemcmp_normal (
  Mov RCX RDX;; Dec RDX;; Add RDI RDX;; Add RSI RDX;; Std;; Repe_cmps 1;;
  Jump IfE asm_rmemcmp_adjust (Inc RDI;; Inc RSI;; Push RDI;; asm_rmemcmp_out)).

Definition asm_rmemcmp_out16 : code :=
  Pop RAX;; Pop RCX;; Pop RDX;; Pop RDI;; Pop RSI;; Ret.

Definition asm_rmemcmp_match_until_now16 : code :=
  Mov RCX RDX;; Std;; Repe_cmps 2;; Jump IfE asm_rmemcmp_out16 (AddI RDI 2;; Pop RAX;; Push RDI;;
  asm_rmemcmp_out16).

Definition asm_rmemcmp_normal16 : code :=
  Xor RAX RAX;; Push RAX;; Add RDI RDX;; Add RSI RDX;; Add RDI RDX;; Add RSI RDX;; SubI RDI 8;;
  SubI RSI 8;; Mov RAX RDX;; Xor RDX RDX;; MovI RCX 4;; Div RCX;; Mov RCX RAX;; Std;; Repe_cmps 8;;
  Jump IfE asm_rmemcmp_match_until_now16 (AddI RDX 4;; AddI RDI 14;; AddI RSI 14;;
  asm_rmemcmp_match_until_now16).

Definition asm_rmemcmp_adjust16 : code :=
  Xor RAX RAX;; Push RAX;; asm_rmemcmp_out16.

Definition asm_rmemcmp16 : code :=
  Push RSI;; Push RDI;; Push RDX;; Push RCX;; CmpI RDX 4;; Jump IfG asm_rmemcmp_normal16 (
  Mov RCX RDX;; Add RDX RDX;; SubI RDX 2;; Add RDI RDX;; Add RSI RDX;; Std;; Repe_cmps 2;;
  Jump IfE asm_rmemcmp_adjust16 (AddI RDI 2;; AddI RSI 2;; Push RDI;; asm_rmemcmp_out16)).

Definition asm_rmemcmp_out32 : code :=
  Pop RAX;; Pop RCX;; Pop RDX;; Pop RDI;; Pop RSI;; Ret.

Definition asm_rmemcmp_match_until_now32 : code :=
  Mov RCX RDX;; Std;; Repe_cmps 4;; Jump IfE asm_rmemcmp_out32 (AddI RDI 4;; Pop RAX;; Push RDI;;
  asm_rmemcmp_out32).

Definition asm_rmemcmp_normal32 : code :=
  Xor RAX RAX;; Push RAX;; Add RDI RDX;; Add RSI RDX;; Add RDI RDX;; Add RSI RDX;; Add RDI RDX;;
  Add RSI RDX;; Add RDI RDX;; Add RSI RDX;; SubI RDI 8;; SubI RSI 8;; Mov RAX RDX;; Xor RDX RDX;;
  MovI RCX 2;; Div RCX;; Mov RCX RAX;; Std;; Repe_cmps 8;; Jump IfE asm_rmemcmp_match_until_now32 (
  AddI RDX 2;; AddI RDI 12;; AddI RSI 12;; asm_rmemcmp_match_until_now32).

Definition asm_rmemcmp_adjust32 : code :=
  Xor RAX RAX;; Push RAX;; asm_rmemcmp_out32.

Definition asm_rmemcmp32 : code :=
  Push RSI;; Push RDI;; Push RDX;; Push RCX;; CmpI RDX 2;; Jump IfG asm_rmemcmp_normal32 (
  Mov RCX RDX;; Add RDX RDX;; Add RDX RDX;; SubI RDX 4;; Add RDI RDX;; Add RSI RDX;; Std;;
  Repe_cmps 4;; Jump IfE asm_rmemcmp_adjust32 (AddI RDI 4;; AddI RSI 4;; Push RDI;; asm_rmemcmp_out32)).

Definition asm_rmemcmp_out64 : code :=
  Pop RAX;; Pop RCX;; Pop RDX;; Pop RDI;; Pop RSI;; Ret.

Definition asm_rmemcmp64 : code :=
  Push RSI;; Push RDI;; Push RDX;; Push RCX;; Xor RAX RAX;; Push RAX;; Add RDI RDX;; Add RSI RDX;;
  Add RDI RDX;; Add RSI RDX;; Add RDI RDX;; Add RSI RDX;; Add RDI RDX;; Add RSI RDX;; Add RDI RDX;;
  Add RSI RDX;; Add RDI RDX;; Add RSI RDX;; Add RDI RDX;; Add RSI RDX;; Add RDI RDX;; Add RSI RDX;;
  SubI RDI 8;; SubI RSI 8;; Mov RCX RDX;; Std;; Repe_cmps 8;; Jump IfE asm_rmemcmp_out64 (
  AddI RDI 8;; Pop RAX;; Push RDI;; asm_rmemcmp_out64).

Definition asm_scanb_out : code :=
  Pop RCX;; Pop RDX;; Pop RDI;; Pop RSI;; Ret.

Definition asm_scanb_failed : code :=
  MovI RAX 0;; asm_scanb_out.

Definition asm_scan8 : code :=
  Push RSI;; Push RDI;; Push RDX;; Push RCX;; Xor RAX RAX;; MovW RAX RSI;; MovAh 0;; Mov RCX RDX;;
  Cld;; Repne_scas 1;; Jump IfNE asm_scanb_failed (Dec RDI;; Mov RAX RDI;; asm_scanb_out).

Definition asm_scan16_out : code :=
  Pop RCX;; Pop RDX;; Pop RDI;; Pop RSI;; Ret.

Definition asm_scan16_failed : code :=
  MovI RAX 0;; asm_scan16_out.

Definition asm_scan16 : code :=
  Push RSI;; Push RDI;; Push RDX;; Push RCX;; Xor RAX RAX;; MovW RAX RSI;; Mov RCX RDX;; Cld;;
  Repne_scas 2;; Jump IfNE asm_scan16_failed (SubI RDI 2;; Mov RAX RDI;; asm_scan16_out).

Definition asm_scan32_out : code :=
  Pop RCX;; Pop RDX;; Pop RDI;; Pop RSI;; Ret.

Definition asm_scan32_failed : code :=
  MovI RAX 0;; asm_scan32_out.

Definition asm_scan32 : code :=
  Push RSI;; Push RDI;; Push RDX;; Push RCX;; Xor RAX RAX;; MovD RAX RSI;; Mov RCX RDX;; Cld;;
  Repne_scas 4;; Jump IfNE asm_scan32_failed (SubI RDI 4;; Mov RAX RDI;; asm_scan32_out).

Definition asm_scan64_out : code :=
  Pop RCX;; Pop RDX;; Pop RDI;; Pop RSI;; Ret.

Definition asm_scan64_failed : code :=
  MovI RAX 0;; asm_scan64_out.

Definition asm_scan64 : code :=
  Push RSI;; Push RDI;; Push RDX;; Push RCX;; Mov RAX RSI;; Mov RCX RDX;; Cld;; Repne_scas 8;;
  Jump IfNE asm_scan64_failed (SubI RDI 8;; Mov RAX RDI;; asm_scan64_out).

Definition asm_rscanb_out : code :=
  Pop RCX;; Pop RDX;; Pop RDI;; Pop RSI;; Ret.

Definition asm_rscanb_failed : code :=
  MovI RAX 0;; asm_rscanb_out.

Definition asm_rscan8 : code :=
  Push RSI;; Push RDI;; Push RDX;; Push RCX;; Xor RAX RAX;; MovW RAX RSI;; MovAh 0;; Add RDI RDX;;
  Dec RDI;; Mov RCX RDX;; Std;; Repne_scas 1;; Jump IfNE asm_rscanb_failed (Inc RDI;; Mov RAX RDI;;
  asm_rscanb_out).

Definition asm_rscan16_out : code :=
  Pop RCX;; Pop RDX;; Pop RDI;; Pop RSI;; Ret.

Definition asm_rscan16_failed : code :=
  MovI RAX 0;; asm_rscan16_out.

Definition asm_rscan16 : code :=
  Push RSI;; Push RDI;; Push RDX;; Push RCX;; Xor RAX RAX;; MovW RAX RSI;; Add RDI RDX;;
  Add RDI RDX;; SubI RDI 2;; Mov RCX RDX;; Std;; Repne_scas 2;; Jump IfNE asm_rscan16_failed (
  AddI RDI 2;; Mov RAX RDI;; asm_rscan16_out).

Definition asm_rscan32_out : code :=
  Pop RCX;; Pop RDX;; Pop RDI;; Pop RSI;; Ret.

Definition asm_rscan32_failed : code :=
  MovI RAX 0;; asm_rscan32_out.

Definition asm_rscan32 : code :=
  Push RSI;; Push RDI;; Push RDX;; Push RCX;; Xor RAX RAX;; MovD RAX RSI;; Add RDI RDX;;
  Add RDI RDX;; Add RDI RDX;; Add RDI RDX;; SubI RDI 4;; Mov RCX RDX;; Std;; Repne_scas 4;;
  Jump IfNE asm_rscan32_failed (AddI RDI 4;; Mov RAX RDI;; asm_rscan32_out).

Definition asm_rscan64_out : code :=
  Pop RCX;; Pop RDX;; Pop RDI;; Pop RSI;; Ret.

Definition asm_rscan64_failed : code :=
  MovI RAX 0;; asm_rscan64_out.

Definition asm_rscan64 : code :=
  Push RSI;; Push RDI;; Push RDX;; Push RCX;; Mov RAX RSI;; Add RDI RDX;; Add RDI RDX;;
  Add RDI RDX;; Add RDI RDX;; Add RDI RDX;; Add RDI RDX;; Add RDI RDX;; Add RDI RDX;; SubI RDI 8;;
  Mov RCX RDX;; Std;; Repne_scas 8;; Jump IfNE asm_rscan64_failed (AddI RDI 8;; Mov RAX RDI;;
  asm_rscan64_out).

Definition asm_strlen : code :=
  Push RSI;; Push RDI;; Push RDX;; Push RCX;; MovAl 0;; MovI RCX (-1);; Cld;; Repne_scas 1;;
  MovI RAX (-2);; Sub RAX RCX;; Pop RCX;; Pop RDX;; Pop RDI;; Pop RSI;; Ret.

(** ** The contracts *)

Inductive contract :=
| Copies (w : Z) (overlap : bool)
| Sets (w : Z)
| Compares (w : Z) (back : bool)
| Scans (w : Z) (back : bool)
| Measures.

(** [r] is the address of the first operand of [w] bytes from [p] on, among [n], that passes the
    test (from the end with [back]), or NULL if none does. *)
Definition finds (back : bool) (P : Z -> bool) (w p n r : Z) : Prop :=
  (r = 0 /\ forall k, 0 <= k < n -> P k = false) \/
  exists k, r = p + w * k /\ 0 <= k < n /\ P k = true /\
    forall j, 0 <= j < n -> (if back then k < j else j < k) -> P j = false.

(** Blocks that are copied lie in one half of the address space. *)
Definition in_half (a l : Z) : Prop := (0 <= a /\ a + l <= 2 ^ 63) \/ (2 ^ 63 <= a /\ a + l <= 2 ^ 64).

Definition apart (a b l : Z) : Prop := a + l <= b \/ b + l <= a.

Definition accepts (k : contract) (mem : memory) (a b n : Z) : Prop :=
  match k with
  | Copies w overlap => in_half a (w * n) /\ in_half b (w * n) /\ (overlap = false -> apart a b (w * n))
  | Sets w => 0 <= a /\ a + w * n <= 2 ^ 64
  | Compares w _ => 0 < a /\ a + w * n <= 2 ^ 64 /\ 0 < b /\ b + w * n <= 2 ^ 64
  | Scans w _ => 0 < a /\ a + w * n <= 2 ^ 64 /\ 0 <= b < 2 ^ (8 * w)
  | Measures => exists s, cstring mem a s /\ 0 < a /\ a + zlen s < 2 ^ 64
  end.

Definition yields (k : contract) (mem : memory) (a b n : Z) (s : cpu) : Prop :=
  match k with
  | Copies w _ => forall x, ram s x = write_bytes mem a (read_bytes mem b (w * n)) x
  | Sets w => forall x, ram s x = write_bytes mem a (filled (Z.to_nat n) (le_bytes (Z.to_nat w) b)) x
  | Compares w back => ram s = mem /\ finds back (fun k => negb (same w w b a mem k)) w a n (rax s)
  | Scans w back => ram s = mem /\ finds back (found w w a (le_bytes (Z.to_nat w) b) mem) w a n (rax s)
  | Measures => ram s = mem /\ forall t, cstring mem a t -> rax s = zlen t
  end.

(** A routine keeps its contract for the lengths that satisfy [len]: whatever the registers and flags
    hold when it is called, it returns, has done what it promises, and the stack is as it was. *)
Definition meets_for `{Processor} (len : Z -> Prop) (k : contract) (c : code) : Prop :=
  forall s mem a b n, 0 <= n < 2 ^ 64 -> len n -> accepts k mem a b n ->
  exists s', call c s mem a b n = Some s' /\ yields k mem a b n s' /\ stack s' = stack s.

Definition meets `{Processor} : contract -> code -> Prop := meets_for (fun _ => True).

(** ** What the header promises, function by function *)

Definition promised_memcpy : contract := Copies 1 false.
Definition promised_memcpyc : contract := Copies 1 false.
Definition promised_memcpy8 : contract := Copies 1 false.
Definition promised_memcpy16 : contract := Copies 2 false.
Definition promised_memcpy32 : contract := Copies 4 false.
Definition promised_memcpy64 : contract := Copies 8 false.
Definition promised_memmove : contract := Copies 1 true.
Definition promised_memmovec : contract := Copies 1 true.
Definition promised_memmove8 : contract := Copies 1 true.
Definition promised_memmove16 : contract := Copies 2 true.
Definition promised_memmove32 : contract := Copies 4 true.
Definition promised_memmove64 : contract := Copies 8 true.
Definition promised_memset : contract := Sets 1.
Definition promised_memsetc : contract := Sets 1.
Definition promised_memset8 : contract := Sets 1.
Definition promised_memset16 : contract := Sets 2.
Definition promised_memset32 : contract := Sets 4.
Definition promised_memset64 : contract := Sets 8.
Definition promised_memcmp : contract := Compares 1 false.
Definition promised_memcmpc : contract := Compares 1 false.
Definition promised_memcmp8 : contract := Compares 1 false.
Definition promised_memcmp16 : contract := Compares 2 false.
Definition promised_memcmp32 : contract := Compares 4 false.
Definition promised_memcmp64 : contract := Compares 8 false.
Definition promised_rmemcmp : contract := Compares 1 true.
Definition promised_rmemcmpc : contract := Compares 1 true.
Definition promised_rmemcmp8 : contract := Compares 1 true.
Definition promised_rmemcmp16 : contract := Compares 2 true.
Definition promised_rmemcmp32 : contract := Compares 4 true.
Definition promised_rmemcmp64 : contract := Compares 8 true.
Definition promised_scanc : contract := Scans 1 false.
Definition promised_scan8 : contract := Scans 1 false.
Definition promised_scan16 : contract := Scans 2 false.
Definition promised_scan32 : contract := Scans 4 false.
Definition promised_scan64 : contract := Scans 8 false.
Definition promised_rscanc : contract := Scans 1 true.
Definition promised_rscan8 : contract := Scans 1 true.
Definition promised_rscan16 : contract := Scans 2 true.
Definition promised_rscan32 : contract := Scans 4 true.
Definition promised_rscan64 : contract := Scans 8 true.
Definition promised_strlen : contract := Measures.
