(* ===== verification/MemoryRoutines.v ===== *)
(** * The routines of MemoryAsm.v keep what the header promises

    A symbolic execution, instruction by instruction, with one lemma per string
    instruction; a family of routines (copies up, copies down, fills, scans,
    comparisons) shares the lemma on what is around its loop.  Then the table of
    routines, contracts and lengths, and what fails for the other lengths. *)

From S2P Require Import Prelude FastMem Asm MemoryAsm.

#[local] Open Scope Z_scope.

(** ** Stepping through a routine *)

Section proofs.
Context {P : Processor}.

Lemma run_do i c s s' : exec i s = Some s' -> run (Do i c) s = run c s'.
Proof. intros H. cbn [run]. by rewrite H. Qed.

Lemma run_jump b t c s : run (Jump b t c) s = if holds b s then run t s else run c s.
Proof. reflexivity. Qed.

Lemma run_ret s : run Ret s = Some s.
Proof. reflexivity. Qed.

(** DIV by a power of two, of a register. *)
Lemma run_div c a w si di z g f m st : 0 <= a < 2 ^ 64 -> 0 < w ->
  run (Div RCX;; c) (Build_cpu a w 0 si di z g f m st) =
    run c (Build_cpu (a / w) w (a mod w) si di (zf_after_div z 0 a w) g f m st).
Proof.
  intros Ha Hw. apply run_do. cbn [exec get_reg rcx rdx rax]. rewrite Z.mul_0_l, Z.add_0_l.
  replace (w =? 0) with false by (symmetry; apply Z.eqb_neq; lia).
  replace (2 ^ 64 <=? a / w) with false; [done|]. symmetry. apply Z.leb_gt.
  assert (a / w <= a) by (apply Z.div_le_upper_bound; nia). lia.
Qed.

Lemma run_movs w c a n d si di z g f m st : 0 <= n -> within si (step_of w f) n -> within di (step_of w f) n ->
  run (Rep_movs w;; c) (Build_cpu a n d (u64 si) (u64 di) z g f m st) =
    run c (Build_cpu a 0 d (u64 (si + step_of w f * n)) (u64 (di + step_of w f * n)) z g f (moved (Z.to_nat n) w (step_of w f) si di m) st).
Proof. intros. apply run_do. cbn [exec]. f_equal. by apply rep_movs. Qed.

Lemma run_stos w c a n d si di z g f m st : 0 <= n -> within di (step_of w f) n ->
  run (Rep_stos w;; c) (Build_cpu a n d si (u64 di) z g f m st) =
    run c (Build_cpu a 0 d si (u64 (di + step_of w f * n)) z g f (stored (Z.to_nat n) (step_of w f) di (le_bytes (Z.to_nat w) a) m) st).
Proof. intros. apply run_do. cbn [exec]. f_equal. by apply rep_stos. Qed.
End proofs.

#[global] Arguments run : simpl never.

Ltac compute_step :=
  cbn [exec get_reg set_reg set_arith compare rax rcx rdx rsi rdi zf greater df ram stack
       RecordSetters.apply_update RecordSetters.constant eta_cpu];
  rewrite ?Z.lxor_nilpotent; change (u64 0) with 0; change (u64 8) with 8; change (u64 4) with 4; change (u64 2) with 2;
  reflexivity.

(** One instruction; those that need an argument are left alone. *)
Ltac step :=
  lazymatch goal with
  | |- context [run (Do ?i _) _] =>
      lazymatch i with
      | Div _ => fail | Rep_movs _ => fail | Rep_stos _ => fail | Repe_cmps _ => fail | Repne_scas _ => fail
      | _ => erewrite run_do by compute_step
      end
  | |- context [run Ret _] => rewrite run_ret
  end.

Ltac steps := repeat step.


Ltac start := unfold call; cbn [RecordSetters.apply_update RecordSetters.constant eta_cpu rax rcx rdx rsi rdi zf greater df ram stack].

(** The string instructions, upwards and downwards. *)
Lemma u64_add_r a b : u64 (a + u64 b) = u64 (a + b).
Proof. unfold u64. by rewrite Zplus_mod_idemp_r. Qed.

Lemma u64_shiftl x k : 0 <= k -> u64 (Z.shiftl (u64 x) k) = u64 (x * 2 ^ k).
Proof. intros Hk. rewrite Z.shiftl_mul_pow2 by done. unfold u64. by rewrite Zmult_mod_idemp_l. Qed.

Lemma shiftl_small x k : 0 <= k -> 0 <= x * 2 ^ k < 2 ^ 64 -> u64 (Z.shiftl x k) = x * 2 ^ k.
Proof. intros Hk Hx. by rewrite Z.shiftl_mul_pow2, u64_small by done. Qed.

Ltac registers := cbn [set_reg rax RecordSetters.apply_update RecordSetters.constant eta_cpu rcx rdx rsi rdi zf greater df ram stack].

Ltac leave := eexists; split; [reflexivity|]; split; [|reflexivity].

(** Bring the addresses to the form [u64 x], from the inside out. *)
Ltac plain x := lazymatch x with context [u64 _] => fail | _ => idtac end.

Ltac back_addresses :=
  rewrite ?u64_shiftl, ?Z.shiftl_mul_pow2 by lia;
  repeat match goal with
  | |- context [u64 (u64 ?a + ?b)] => plain a; rewrite (u64_add_l a b)
  | |- context [u64 (u64 ?a - ?b)] => plain a; rewrite (u64_sub_l a b)
  | |- context [u64 (?a + u64 ?b)] => plain b; rewrite (u64_add_r a b)
  end.

Ltac bounds := cbn [step_of]; first [lia | zdiv | apply within_up; (lia || zdiv) | apply within_down; (lia || zdiv)].
Ltac rep_step := first [rewrite run_movs by bounds | rewrite run_stos by bounds | rewrite run_div by (rewrite ?u64_small; lia)]; cbn [step_of].

Section proofs.
Context {P : Processor}.

(** What is behind the first [q] operands of eight bytes. *)
Lemma moved_twice w w' q r si di m x : 0 < w -> 0 < w' -> 0 <= q -> 0 <= r -> di <= si \/ si + w' * q + w * r <= di ->
  moved (Z.to_nat r) w w (si + w' * q) (di + w' * q) (moved (Z.to_nat q) w' w' si di m) x =
  write_bytes m di (read_bytes m si (w' * q + w * r)) x.
Proof.
  intros Hw Hw' Hq Hr Hdis. rewrite moved_up, Z2Nat.id by nia. rewrite !write_read.
  rewrite !moved_up, Z2Nat.id by nia. rewrite !write_read.
  assert (0 <= w' * q /\ 0 <= w * r) as [? ?] by nia. set (t := w' * q) in *. set (u := w * r) in *. clearbody t u.
  zcases; try lia; try done; f_equal; lia.
Qed.

Lemma in_half_bounds a l : in_half a l -> 0 <= l -> 0 <= a /\ a + l <= 2 ^ 64.
Proof. unfold in_half. lia. Qed.

(** A routine copies [bytes n] bytes upwards. *)
Definition forward (bytes : Z -> Z) (c : code) : Prop := forall ax cx n si di z g f m st,
  0 <= n < 2 ^ 64 -> 0 <= si /\ si + bytes n <= 2 ^ 64 -> 0 <= di /\ di + bytes n <= 2 ^ 64 -> di <= si \/ si + bytes n <= di ->
  exists s', run c (Build_cpu ax cx n (u64 si) (u64 di) z g f m st) = Some s' /\
    (forall x, ram s' x = write_bytes m di (read_bytes m si (bytes n)) x) /\ stack s' = st.

Lemma forward_memcpy : forward (fun n => n) asm_memcpy.
Proof.
  intros ax cx n si di z g f m st Hn Hs Hd Hdis. unfold asm_memcpy. steps. rep_step. steps. rep_step. steps. rep_step. steps.
  leave. intros x. cbn [ram]. rewrite moved_twice by (lia || zdiv). do 2 f_equal. zdiv.
Qed.

Lemma forward_memcpy16 : forward (fun n => 2 * (n + n mod 4)) asm_memcpy16.
Proof.
  intros ax cx n si di z g f m st Hn Hs Hd Hdis. unfold asm_memcpy16. steps. rep_step. steps. rep_step. steps.
  rewrite shiftl_small by zdiv. rep_step. steps.
  leave. intros x. cbn [ram]. rewrite moved_twice by (lia || zdiv). do 2 f_equal. zdiv.
Qed.

Lemma forward_memcpy32 : forward (fun n => 4 * (n + 3 * (n mod 2))) asm_memcpy32.
Proof.
  intros ax cx n si di z g f m st Hn Hs Hd Hdis. unfold asm_memcpy32. steps. rep_step. steps. rep_step. steps.
  rewrite shiftl_small by zdiv. rep_step. steps.
  leave. intros x. cbn [ram]. rewrite moved_twice by (lia || zdiv). do 2 f_equal. zdiv.
Qed.

Lemma forward_memcpy64 : forward (fun n => 8 * n) asm_memcpy64.
Proof.
  intros ax cx n si di z g f m st Hn Hs Hd Hdis. unfold asm_memcpy64. steps. rep_step. steps.
  leave. intros x. cbn [ram]. by rewrite moved_up, Z2Nat.id by lia.
Qed.

Lemma forward_meets bytes (len : Z -> Prop) w c : forward bytes c -> (forall n, 0 <= n -> len n -> bytes n = w * n) -> 0 < w ->
  meets_for len (Copies w false) c.
Proof.
  intros Hc Hlen Hw s mem a b n Hn Hl (Ha & Hb & Hap). specialize (Hap eq_refl).
  pose proof (Hlen n ltac:(lia) Hl) as Hbytes. apply in_half_bounds in Ha, Hb; [|nia..]. start. rewrite (u64_small n) by lia.
  destruct (Hc (rax s) (rcx s) n b a (zf s) (greater s) false mem (stack s)) as (s' & Hr & Hm & Hs);
    rewrite ?Hbytes; try lia; [unfold apart in Hap; lia|].
  exists s'. rewrite Hbytes in Hm. done.
Qed.

(** The part of a memmove behind its jump copies [n] operands downwards, and leaves DF set. *)
Definition backward (w : Z) (c : code) : Prop := forall ax cx n si di z g f m st,
  0 <= n < 2 ^ 64 -> 0 <= si /\ si + w * n <= 2 ^ 64 -> 0 <= di /\ di + w * n <= 2 ^ 64 -> si <= di \/ di + w * n <= si ->
  exists s', run c (Build_cpu ax cx n (u64 si) (u64 di) z g f m st) = Some s' /\
    (forall x, ram s' x = write_bytes m di (read_bytes m si (w * n)) x) /\ stack s' = st /\ df s' = true.

Lemma backward_spec w si di n m x : 0 < w -> 0 <= n -> si <= di \/ di + w * n <= si ->
  moved (Z.to_nat n) w (- w) (si + w * (n - 1)) (di + w * (n - 1)) m x = write_bytes m di (read_bytes m si (w * n)) x.
Proof.
  intros Hw Hn Hdis. rewrite moved_down, !Z2Nat.id by nia. f_equal; [lia|]. f_equal; lia.
Qed.

Ltac backward_proof :=
  intros ax cx n si di z g f m st Hn Hs Hd Hdis; steps; back_addresses;
  match goal with |- context [run (Rep_movs ?w;; _) (Build_cpu _ _ _ (u64 ?b) (u64 ?a) _ _ _ _ _)] =>
    replace b with (si + w * (n - 1)) by lia; replace a with (di + w * (n - 1)) by lia end;
  rep_step; steps; eexists; split; [reflexivity|]; split; [|done]; intros x; by apply backward_spec; lia.

Definition next_of (c : code) : code := match c with Do _ (Jump _ _ c) => c | _ => Ret end.

Lemma backward_memmove : backward 1 (next_of asm_memmove).
Proof. cbn [next_of asm_memmove]. backward_proof. Qed.

Lemma backward_memmove16 : backward 2 (next_of asm_memmove16).
Proof. cbn [next_of asm_memmove16]. backward_proof. Qed.

Lemma backward_memmove32 : backward 4 (next_of asm_memmove32).
Proof. cbn [next_of asm_memmove32]. backward_proof. Qed.

Lemma backward_memmove64 : backward 8 (next_of asm_memmove64).
Proof. cbn [next_of asm_memmove64]. backward_proof. Qed.
End proofs.

Section families.
Context {P : Processor}.

(** The signed comparison of addresses: in one half it is theirs, otherwise the blocks are apart. *)
Lemma greater_half a b l : in_half a l -> in_half b l -> 0 < l ->
  if s64 a <? s64 b then a <= b \/ b + l <= a else b <= a \/ a + l <= b.
Proof.
  unfold in_half, s64. intros Ha Hb Hl.
  assert (forall x, 0 <= x < 2 ^ 63 -> (x + 2 ^ 63) mod 2 ^ 64 = x + 2 ^ 63) as Hlow by (intros; apply Z.mod_small; lia).
  assert (forall x, 2 ^ 63 <= x < 2 ^ 64 -> (x + 2 ^ 63) mod 2 ^ 64 = x - 2 ^ 63) as Hhigh.
  { intros. replace (x + 2 ^ 63) with (x - 2 ^ 63 + 1 * 2 ^ 64) by lia. rewrite Z.mod_add by lia. apply Z.mod_small. lia. }
  destruct Ha as [Ha|Ha], Hb as [Hb|Hb]; rewrite ?Hlow, ?Hhigh by lia; zcases; lia.
Qed.

Lemma move_meets bytes (len : Z -> Prop) w f c : forward bytes f -> backward w c -> (forall n, 0 <= n -> len n -> bytes n = w * n) -> 0 < w ->
  meets_for len (Copies w true) (Do (Cmp RSI RDI) (Jump IfG f c)).
Proof.
  intros Hf Hc Hlen Hw s mem a b n Hn Hl (Ha & Hb & _). pose proof (Hlen n ltac:(lia) Hl) as Hbytes.
  assert (if s64 (u64 a) <? s64 (u64 b) then a <= b \/ b + w * n <= a else b <= a \/ a + w * n <= b) as Hg.
  { destruct (decide (n = 0)) as [->|]; [destruct (_ <? _); lia|].
    pose proof Ha as Ha'. pose proof Hb as Hb'. apply in_half_bounds in Ha', Hb'; [|nia..].
    rewrite !u64_small by nia. apply greater_half; [done | done | nia]. }
  apply in_half_bounds in Ha, Hb; [|nia..]. start. rewrite (u64_small n) by lia. step. rewrite run_jump. cbn [holds greater].
  destruct (_ <? _).
  - edestruct Hf as (s' & Hr & Hm & Hs); [exact Hn | rewrite Hbytes; exact Hb | rewrite Hbytes; exact Ha | rewrite Hbytes; exact Hg |].
    exists s'. rewrite Hbytes in Hm. split; [exact Hr | done].
  - edestruct Hc as (s' & Hr & Hm & Hs & _); [exact Hn | exact Hb | exact Ha | exact Hg |]. exists s'. split; [exact Hr | done].
Qed.

(** ** Filling *)

Definition fills (w : Z) (c : code) : Prop := forall ax cx n v di z g m st,
  0 <= n < 2 ^ 64 -> 0 <= di /\ di + w * n <= 2 ^ 64 ->
  exists s', run c (Build_cpu ax cx n (u64 v) (u64 di) z g false m st) = Some s' /\
    (forall x, ram s' x = write_bytes m di (filled (Z.to_nat n) (le_bytes (Z.to_nat w) v)) x) /\ stack s' = st.

Lemma le_bytes_mod k n v : (k <= n)%nat -> le_bytes k (v mod 2 ^ (8 * Z.of_nat n)) = le_bytes k v.
Proof.
  revert n v. induction k as [|k IH]; intros [|n] v Hk; try lia; [done..|]. cbn [le_bytes].
  replace (8 * Z.of_nat (S n)) with (8 * Z.of_nat n + 8) by lia. rewrite Z.pow_add_r by lia. change (2 ^ 8) with 256.
  assert (0 < 2 ^ (8 * Z.of_nat n)) by (apply Z.pow_pos_nonneg; lia). f_equal.
  - rewrite Z.mul_comm, Z.rem_mul_r by lia. rewrite Z.mul_comm, Z_mod_plus_full, Z.mod_mod by lia. done.
  - rewrite <- (IH n (v / 256)) by lia. f_equal. rewrite Z.mul_comm, Z.rem_mul_r by lia.
    rewrite Z.add_comm, Z.mul_comm, Z.div_add_l by lia. rewrite (Z.div_small (v mod 256)) by (apply Z.mod_pos_bound; lia). lia.
Qed.

Lemma le_bytes_u64 k v : (k <= 8)%nat -> le_bytes k (u64 v) = le_bytes k v.
Proof. apply (le_bytes_mod k 8). Qed.

Lemma fills_meets w c : fills w c -> 0 < w -> meets (Sets w) c.
Proof.
  intros Hc Hw s mem a b n Hn _ Ha. start. rewrite (u64_small n) by lia. edestruct Hc as (s' & Hr & Hm); [exact Hn | exact Ha|].
  exists s'. split; [exact Hr | done].
Qed.


(** The values the routines build in RAX have the bytes of the argument. *)
Lemma value_d v : le_bytes 4 (u32 (u64 v)) = le_bytes 4 v.
Proof. transitivity (le_bytes 4 (u64 v)); [apply (le_bytes_mod 4 4) | apply le_bytes_u64]; lia. Qed.

Lemma value_w v : le_bytes 2 (0 - u16 0 + u16 (u64 v)) = le_bytes 2 v.
Proof.
  change (0 - u16 0) with 0. rewrite Z.add_0_l. transitivity (le_bytes 2 (u64 v)); [apply (le_bytes_mod 2 2) | apply le_bytes_u64]; lia.
Qed.

Lemma value_b v : le_bytes 1 (0 - u16 0 + u16 (u64 v) - (u16 (0 - u16 0 + u16 (u64 v)) - u8 (0 - u16 0 + u16 (u64 v))) + 256 * 0) = le_bytes 1 v.
Proof.
  change (0 - u16 0) with 0. rewrite !Z.add_0_l. set (x := u16 (u64 v)).
  replace (x - (u16 x - u8 x) + 256 * 0) with (u8 x) by (rewrite (u16_small x) by apply u16_range; lia).
  transitivity (le_bytes 1 x); [apply (le_bytes_mod 1 1); lia|].
  transitivity (le_bytes 1 (u64 v)); [apply (le_bytes_mod 1 2) | apply le_bytes_u64]; lia.
Qed.

Ltac fills_proof :=
  intros ax cx n v di z g m st Hn Hd; steps; rep_step; steps; leave; intros x; cbn [ram];
  match goal with |- stored _ ?w _ _ _ _ = _ => rewrite <- (stored_up _ w) by (unfold zlen; by rewrite length_le_bytes) end; f_equal.

Lemma fills_memset : fills 1 asm_memset.
Proof. unfold asm_memset. fills_proof. apply value_b. Qed.

Lemma fills_memset16 : fills 2 asm_memset16.
Proof. unfold asm_memset16. fills_proof. apply value_w. Qed.

Lemma fills_memset32 : fills 4 asm_memset32.
Proof. unfold asm_memset32. fills_proof. apply value_d. Qed.

Lemma fills_memset64 : fills 8 asm_memset64.
Proof. unfold asm_memset64. fills_proof. by apply le_bytes_u64. Qed.

(** ** Scanning *)

Lemma run_scas w c a n d si di z g f m st : let e := step_of w f in let Q := found w e di (le_bytes (Z.to_nat w) a) m in
  0 < n -> within di e n ->
  ((forall j, 0 <= j < n -> Q j = false) /\
    run (Repne_scas w;; c) (Build_cpu a n d si (u64 di) z g f m st) = run c (Build_cpu a 0 d si (u64 (di + e * n)) false g f m st)) \/
  exists k, 0 <= k < n /\ Q k = true /\ (forall j, 0 <= j < k -> Q j = false) /\
    run (Repne_scas w;; c) (Build_cpu a n d si (u64 di) z g f m st) =
      run c (Build_cpu a (n - (k + 1)) d si (u64 (di + e * (k + 1))) true g f m st).
Proof.
  intros e Q Hn Hd. destruct (rep_scas w a n d si di z g f m st) as (k & Hk & Hrep); [lia | done|].
  rewrite (run_do (Repne_scas w) c _ _ (f_equal Some Hrep)). unfold last_zf, ends. rewrite (proj2 (Z.eqb_neq n 0)) by lia.
  destruct Hk as [[-> Hall] | (Hk & Hq & Hfirst)].
  - left. split; [done|]. rewrite Z.eqb_refl, Z.sub_diag. do 2 f_equal. by apply Hall; lia.
  - right. exists k. split; [done|]. split; [done|]. split; [done|]. rewrite (proj2 (Z.eqb_neq k n)) by lia. do 2 f_equal. exact Hq.
Qed.

Definition scanner (w : Z) (back : bool) (c : code) : Prop := forall ax cx n v di z g m st,
  0 < n < 2 ^ 64 -> 0 < di /\ di + w * n <= 2 ^ 64 ->
  exists s', run c (Build_cpu ax cx n (u64 v) (u64 di) z g false m st) = Some s' /\
    (ram s' = m /\ finds back (found w w di (le_bytes (Z.to_nat w) v) m) w di n (rax s')) /\ stack s' = st.


Lemma finds_first (Q : Z -> bool) w p n k : 0 <= k < n -> Q k = true -> (forall j, 0 <= j < k -> Q j = false) -> finds false Q w p n (p + w * k).
Proof. intros Hk Hq Hj. right. exists k. split_and!; try done; [lia | lia |]. intros j Hr Hlt. apply Hj. lia. Qed.

Lemma finds_none back (Q : Z -> bool) w p n : (forall j, 0 <= j < n -> Q j = false) -> finds back Q w p n 0.
Proof. intros. by left. Qed.

Lemma finds_last (Q : Z -> bool) w p n k : 0 <= k < n -> Q (n - 1 - k) = true -> (forall j, 0 <= j < k -> Q (n - 1 - j) = false) ->
  finds true Q w p n (p + w * (n - 1 - k)).
Proof.
  intros Hk Hq Hj. right. exists (n - 1 - k). split_and!; try done; [lia | lia |]. intros j Hr Hlt.
  replace j with (n - 1 - (n - 1 - j)) by lia. apply Hj. lia.
Qed.

(** The operands from the last one on, downwards. *)
Lemma found_back w di l m n j : found w (- w) (di + w * (n - 1)) l m j = found w w di l m (n - 1 - j).
Proof. unfold found. by replace (di + w * (n - 1) + - w * j) with (di + w * (n - 1 - j)) by ring. Qed.

Lemma found_back_all w di l m n : (forall j, 0 <= j < n -> found w (- w) (di + w * (n - 1)) l m j = false) ->
  forall j, 0 <= j < n -> found w w di l m j = false.
Proof. intros H j Hj. replace j with (n - 1 - (n - 1 - j)) by lia. rewrite <- found_back. apply H. lia. Qed.

Ltac scan_run :=
  match goal with |- context [run (Repne_scas ?w;; ?c) (Build_cpu ?a ?n ?d ?si (u64 ?x) ?z ?g ?f ?m ?st)] =>
    destruct (run_scas w c a n d si x z g f m st) as [[Hall ->] | (k & Hk & Hq & Hall & ->)]; [lia | bounds | |] end;
  cbn [step_of] in *; rewrite run_jump; cbn [holds zf negb]; steps; leave; (split; [reflexivity|]); registers.

(** The address behind the match, taken back by one operand. *)
Lemma finds_up w v di m n k : let Q := found w w di v m in 0 < w -> 0 < di /\ di + w * n <= 2 ^ 64 ->
  0 <= k < n -> Q k = true -> (forall j, 0 <= j < k -> Q j = false) ->
  finds false Q w di n (u64 (u64 (di + w * (k + 1)) - w)).
Proof.
  intros Q Hw Hd Hk Hq Hj. rewrite u64_sub_l, u64_small by nia. replace (di + w * (k + 1) - w) with (di + w * k) by lia.
  by apply finds_first.
Qed.

Lemma finds_down w v di m n k : let Q := found w (- w) (di + w * (n - 1)) v m in 0 < w -> 0 < di /\ di + w * n <= 2 ^ 64 ->
  0 <= k < n -> Q k = true -> (forall j, 0 <= j < k -> Q j = false) ->
  finds true (found w w di v m) w di n (u64 (u64 (di + w * (n - 1) + - w * (k + 1)) + w)).
Proof.
  intros Q Hw Hd Hk Hq Hj. rewrite u64_add_l, u64_small by nia.
  replace (di + w * (n - 1) + - w * (k + 1) + w) with (di + w * (n - 1 - k)) by lia. unfold Q in *. rewrite found_back in Hq.
  apply finds_last; [done | done |]. intros j Hr. rewrite <- found_back. by apply Hj.
Qed.

Ltac scan_proof value :=
  intros ax cx n v di z g m st Hn Hd; steps; scan_run; rewrite ?value in *; [by apply finds_none | apply finds_up; done || lia].

Ltac rscan_proof value :=
  intros ax cx n v di z g m st Hn Hd; steps; back_addresses;
  match goal with |- context [run (Repne_scas ?w;; _) (Build_cpu _ _ _ _ (u64 ?x) _ _ _ _ _)] =>
    replace x with (di + w * (n - 1)) by lia end;
  scan_run; rewrite ?value in *; [by apply finds_none, found_back_all | apply finds_down; done || lia].

Lemma value_q v : le_bytes 8 (u64 v) = le_bytes 8 v.
Proof. by apply le_bytes_u64. Qed.

Lemma scanner_scan8 : scanner 1 false asm_scan8.
Proof. unfold asm_scan8, asm_scanb_failed, asm_scanb_out. scan_proof value_b. Qed.

Lemma scanner_scan16 : scanner 2 false asm_scan16.
Proof. unfold asm_scan16, asm_scan16_failed, asm_scan16_out. scan_proof value_w. Qed.

Lemma scanner_scan32 : scanner 4 false asm_scan32.
Proof. unfold asm_scan32, asm_scan32_failed, asm_scan32_out. scan_proof value_d. Qed.

Lemma scanner_scan64 : scanner 8 false asm_scan64.
Proof. unfold asm_scan64, asm_scan64_failed, asm_scan64_out. scan_proof value_q. Qed.

Lemma scanner_rscan8 : scanner 1 true asm_rscan8.
Proof. unfold asm_rscan8, asm_rscanb_failed, asm_rscanb_out. rscan_proof value_b. Qed.

Lemma scanner_rscan16 : scanner 2 true asm_rscan16.
Proof. unfold asm_rscan16, asm_rscan16_failed, asm_rscan16_out. rscan_proof value_w. Qed.

Lemma scanner_rscan32 : scanner 4 true asm_rscan32.
Proof. unfold asm_rscan32, asm_rscan32_failed, asm_rscan32_out. rscan_proof value_d. Qed.

Lemma scanner_rscan64 : scanner 8 true asm_rscan64.
Proof. unfold asm_rscan64, asm_rscan64_failed, asm_rscan64_out. rscan_proof value_q. Qed.

End families.

(** ** Comparing *)

Section compare.
Context {P : Processor}.

Lemma same_iff w e si di m k : same w e si di m k = true <-> forall i, 0 <= i < w -> m (si + e * k + i) = m (di + e * k + i).
Proof.
  unfold same. rewrite bool_decide_eq_true. split.
  - intros E i Hi. apply (f_equal (fun l => zget l i)) in E. rewrite !zget_read in E.
    replace ((0 <=? i) && (i <? w)) with true in E by (symmetry; apply andb_true_intro; split; [apply Z.leb_le | apply Z.ltb_lt]; lia).
    by injection E.
  - intros H. apply zget_ext; [unfold read_bytes; by rewrite !length_map, !length_seqZ|].
    intros i _. rewrite !zget_read. bdestr ((0 <=? i) && (i <? w)); [|done]. f_equal. apply H. lia.
Qed.

(** A wide operand is the same if its [c] narrow ones are. *)
Lemma same_wide w c si di m k : 0 < w -> 0 < c ->
  same (w * c) (w * c) si di m k = true <-> forall i, 0 <= i < c -> same w w si di m (c * k + i) = true.
Proof.
  intros Hw Hc. rewrite same_iff. split.
  - intros H i Hi. apply same_iff. intros j Hj. specialize (H (w * i + j) ltac:(nia)).
    replace (si + w * (c * k + i) + j) with (si + w * c * k + (w * i + j)) by ring.
    by replace (di + w * (c * k + i) + j) with (di + w * c * k + (w * i + j)) by ring.
  - intros H j Hj. specialize (H (j / w)). rewrite same_iff in H.
    specialize (H (conj (Z.div_pos j w ltac:(lia) Hw) (Z.div_lt_upper_bound j w c Hw ltac:(lia))) (j mod w) (Z.mod_pos_bound j w Hw)).
    pose proof (Z.div_mod j w ltac:(lia)) as Ej. set (q := j / w) in *. set (r := j mod w) in *. clearbody q r. subst j.
    replace (si + w * c * k + (w * q + r)) with (si + w * (c * k + q) + r) by ring.
    by replace (di + w * c * k + (w * q + r)) with (di + w * (c * k + q) + r) by ring.
Qed.

Lemma run_cmps w c a n d si di z g f m st : let e := step_of w f in let Q := same w e si di m in
  0 < n -> within si e n -> within di e n ->
  ((forall j, 0 <= j < n -> Q j = true) /\
    run (Repe_cmps w;; c) (Build_cpu a n d (u64 si) (u64 di) z g f m st) =
      run c (Build_cpu a 0 d (u64 (si + e * n)) (u64 (di + e * n)) true g f m st)) \/
  exists k, 0 <= k < n /\ Q k = false /\ (forall j, 0 <= j < k -> Q j = true) /\
    run (Repe_cmps w;; c) (Build_cpu a n d (u64 si) (u64 di) z g f m st) =
      run c (Build_cpu a (n - (k + 1)) d (u64 (si + e * (k + 1))) (u64 (di + e * (k + 1))) false g f m st).
Proof.
  intros e Q Hn Hs Hd. destruct (rep_cmps w a n d si di z g f m st) as (k & Hk & Hrep); [lia | done | done |].
  rewrite (run_do (Repe_cmps w) c _ _ (f_equal Some Hrep)). unfold last_zf, ends. rewrite (proj2 (Z.eqb_neq n 0)) by lia.
  destruct Hk as [[-> Hall] | (Hk & Hq & Hfirst)].
  - left. split; [done|]. rewrite Z.eqb_refl, Z.sub_diag. do 2 f_equal. by apply Hall; lia.
  - right. exists k. split; [done|]. split; [done|]. split; [done|]. rewrite (proj2 (Z.eqb_neq k n)) by lia. do 2 f_equal. exact Hq.
Qed.

(** No operand is left: nothing changes. *)
Lemma run_cmps_none w c a d si di z g f m st :
  run (Repe_cmps w;; c) (Build_cpu a 0 d si di z g f m st) = run c (Build_cpu a 0 d si di z g f m st).
Proof. done. Qed.

Definition differs (w si di : Z) (m : memory) (k : Z) : bool := negb (same w w si di m k).

Lemma differs_false w si di m k : differs w si di m k = false <-> same w w si di m k = true.
Proof. unfold differs. apply negb_false_iff. Qed.

Lemma differs_shift w si di m j k : differs w (si + w * j) (di + w * j) m k = differs w si di m (j + k).
Proof.
  unfold differs, same. replace (si + w * (j + k)) with (si + w * j + w * k) by ring.
  by replace (di + w * (j + k)) with (di + w * j + w * k) by ring.
Qed.

(** The first difference behind [j] equal operands. *)
Lemma finds_behind w si di m n j r : 0 <= j -> (forall i, 0 <= i < j -> differs w si di m i = false) ->
  finds false (differs w (si + w * j) (di + w * j) m) w (di + w * j) n r -> finds false (differs w si di m) w di (j + n) r.
Proof.
  intros Hj Hpre [[-> Hnone] | (k & -> & Hk & Hq & Hfirst)].
  - left. split; [done|]. intros k Hk. destruct (decide (k < j)); [apply Hpre; lia|].
    replace k with (j + (k - j)) by lia. rewrite <- differs_shift. apply Hnone. lia.
  - right. exists (j + k). rewrite <- differs_shift. split_and!; [lia | lia | lia | done |].
    intros i Hi Hlt. destruct (decide (i < j)); [apply Hpre; lia|].
    replace i with (j + (i - j)) by lia. rewrite <- differs_shift. apply Hfirst; lia.
Qed.

(** It does not change if more operands follow. *)
Lemma finds_more w si di m n n' r k : 0 <= k < n -> n <= n' -> differs w si di m k = true ->
  finds false (differs w si di m) w di n r -> finds false (differs w si di m) w di n' r.
Proof.
  intros Hk Hn Hd [[-> Hnone] | (i & -> & Hi & Hq & Hfirst)]; [rewrite Hnone in Hd by lia; done|].
  right. exists i. split_and!; [done | lia | lia | done |]. intros j Hj Hlt. apply Hfirst; lia.
Qed.

(** What follows the comparison by eight bytes: [n] operands, with ZF set if there are none.  The
    result waits on the stack. *)
Definition compares_rest (w : Z) (c : code) : Prop := forall ax cx n si di z g m x1 x2 x3 x4 st,
  0 <= n < 2 ^ 64 -> (n = 0 -> z = true) -> 0 < si /\ si + w * n <= 2 ^ 64 -> 0 < di /\ di + w * n <= 2 ^ 64 ->
  exists s', run c (Build_cpu ax cx n (u64 si) (u64 di) z g false m (0 :: x1 :: x2 :: x3 :: x4 :: st)) = Some s' /\
    (ram s' = m /\ finds false (differs w si di m) w di n (rax s')) /\ stack s' = st.

Lemma finds_differs w si di m n k : 0 < w -> 0 < di /\ di + w * n <= 2 ^ 64 -> 0 <= k < n -> same w w si di m k = false ->
  (forall j, 0 <= j < k -> same w w si di m j = true) -> finds false (differs w si di m) w di n (u64 (u64 (di + w * (k + 1)) - w)).
Proof.
  intros Hw Hd Hk Hq Hj. rewrite u64_sub_l, u64_small by nia. replace (di + w * (k + 1) - w) with (di + w * k) by lia.
  apply finds_first; [done | by unfold differs; rewrite Hq |]. intros j Hr. by apply differs_false, Hj.
Qed.

Lemma finds_same w si di m n : (forall j, 0 <= j < n -> same w w si di m j = true) -> finds false (differs w si di m) w di n 0.
Proof. intros H. apply finds_none. intros j Hj. by apply differs_false, H. Qed.

Ltac rest_proof :=
  intros ax cx n si di z g m x1 x2 x3 x4 st Hn Hz Hs Hd; steps;
  match goal with |- context [run (Repe_cmps ?w;; ?c) (Build_cpu ?a _ ?d _ _ _ _ _ _ ?st)] =>
    destruct (decide (n = 0)) as [->|];
    [ rewrite run_cmps_none, (Hz eq_refl) | destruct (run_cmps w c a n d si di z g false m st) as [[Hall ->] | (k & Hk & Hq & Hall & ->)]; [lia | bounds | bounds | |] ]
  end;
  cbn [step_of] in *; rewrite run_jump; cbn [holds zf]; steps; leave; (split; [reflexivity|]); registers;
  [apply finds_same; intros; lia | by apply finds_same | apply finds_differs; done || lia].

Lemma rest_memcmp : compares_rest 1 asm_memcmp_normal.
Proof. unfold asm_memcmp_normal, asm_memcmp_mismatch, asm_memcmp_out. rest_proof. Qed.

Lemma rest_memcmp16 : compares_rest 2 asm_memcmp_normal16.
Proof. unfold asm_memcmp_normal16, asm_memcmp16_mismatch, asm_memcmp16_out. rest_proof. Qed.

Lemma same_narrow_at w c si di m i : 0 < w -> 0 < c -> w * c = 8 -> same 8 8 si di m (i / c) = true -> same w w si di m i = true.
Proof.
  intros Hw Hc H8 H. pose proof (Z.mod_pos_bound i c Hc). pose proof (Z.div_mod i c ltac:(lia)) as Ei.
  rewrite <- H8, (same_wide w c) in H by done. rewrite Ei. by apply H.
Qed.

Lemma same_narrow w c si di m q : 0 < w -> 0 < c -> w * c = 8 -> (forall j, 0 <= j < q -> same 8 8 si di m j = true) ->
  forall i, 0 <= i < c * q -> same w w si di m i = true.
Proof.
  intros Hw Hc H8 H i Hi. apply (same_narrow_at w c); try done. apply H. split; [apply Z.div_pos; lia | apply Z.div_lt_upper_bound; lia].
Qed.

Lemma same_wide_false w c si di m k : 0 < w -> 0 < c -> same (w * c) (w * c) si di m k = false ->
  exists i, 0 <= i < c /\ same w w si di m (c * k + i) = false.
Proof.
  intros Hw Hc H. destruct (decide (Forall (fun i => same w w si di m (c * k + i) = true) (seqZ 0 c))) as [Hall | Hex].
  - rewrite Forall_forall in Hall. rewrite (proj2 (same_wide w c si di m k Hw Hc)) in H; [done|].
    intros i Hi. apply Hall, elem_of_seqZ. lia.
  - apply not_Forall_Exists in Hex; [|typeclasses eauto]. apply Exists_exists in Hex as (i & Hi%elem_of_seqZ & Hn).
    exists i. split; [lia | by apply not_true_is_false].
Qed.

(** The comparison by eight bytes in front of it, of operands of [w] bytes, [c] in eight. *)
Lemma compare_meets w c rest : compares_rest w rest -> 0 < w -> 0 < c -> w * c = 8 -> DivKeeps ->
  meets (Compares w false)
    (Push RSI;; Push RDI;; Push RDX;; Push RCX;; Xor RAX RAX;; Push RAX;; Mov RAX RDX;; Xor RDX RDX;;
     MovI RCX c;; Div RCX;; Mov RCX RAX;; Cld;; Repe_cmps 8;; Jump IfE rest (SubI RDI 8;; SubI RSI 8;; AddI RDX c;; rest)).
Proof.
  intros Hrest Hw Hc H8 Hdiv s mem a b n Hn _ (Ha & Ha' & Hb & Hb'). start. rewrite (u64_small n) by lia.
  steps. rewrite (u64_small c) by nia. rewrite run_div by lia. steps. rewrite div_keeps, Z.eqb_refl.
  pose proof (Z.mod_pos_bound n c Hc) as Hr. pose proof (Z.div_mod n c ltac:(lia)) as En. pose proof (Z.div_pos n c ltac:(lia) Hc) as Hq.
  set (q := n / c) in *. set (r := n mod c) in *. clearbody q r.
  assert (8 * q + w * r = w * n) as E8 by nia. assert (0 <= w * r) as Hwr by nia.
  destruct (decide (q = 0)) as [->|Hq0].
  - rewrite run_cmps_none, run_jump. cbn [holds zf]. replace n with r in * by lia.
    edestruct Hrest as (s' & -> & Hy & Hs'); [| | | | exists s'; split; [reflexivity|]; split; [exact Hy | exact Hs']]; done || lia.
  - match goal with |- context [run (Repe_cmps _;; ?k) (Build_cpu ?x _ ?d _ _ ?z ?g _ _ ?st)] =>
      destruct (run_cmps 8 k x q d b a z g false mem st) as [[Hall ->] | (k' & Hk & Hq' & Hall & ->)]; [lia | bounds | bounds | |] end;
      cbn [step_of] in *; rewrite run_jump; cbn [holds zf].
    + edestruct Hrest as (s' & -> & [Hm Hf] & Hs'); [| | | | exists s'; split; [reflexivity|]; split; [split; [exact Hm|] | exact Hs']]; [lia | done | lia | lia |].
      rewrite En. apply finds_behind; [nia | | by replace (w * (c * q)) with (8 * q) by nia].
      intros i Hi. apply differs_false. by apply (same_narrow w c b a mem q).
    + steps. rewrite !u64_sub_l, (u64_small (r + c)) by nia.
      replace (a + 8 * (k' + 1) - 8) with (a + 8 * k') by lia. replace (b + 8 * (k' + 1) - 8) with (b + 8 * k') by lia.
      edestruct Hrest as (s' & -> & [Hm Hf] & Hs'); [| | | | exists s'; split; [reflexivity|]; split; [split; [exact Hm|] | exact Hs']]; [nia | lia | nia | nia |].
      destruct (same_wide_false w c b a mem k') as (i & Hi & Hd); [done | done | by rewrite H8|].
      apply (finds_more w b a mem (c * k' + (r + c)) n _ (c * k' + i)); [nia | nia | by unfold differs; rewrite Hd |].
      apply finds_behind; [nia | | by replace (w * (c * k')) with (8 * k') by nia].
      intros j Hj. apply differs_false. by apply (same_narrow w c b a mem k').
Qed.

End compare.

(** ** Comparing from the end *)

Section backwards.
Context {P : Processor}.

Lemma meets_memcmp64 : meets (Compares 8 false) asm_memcmp64.
Proof.
  intros s mem a b n Hn _ (Ha & Ha' & Hb & Hb'). start. rewrite (u64_small n) by lia. unfold asm_memcmp64, asm_memcmp64_out. steps.
  destruct (decide (n = 0)) as [->|].
  { rewrite run_cmps_none, run_jump. cbn [holds zf]. rewrite Z.eqb_refl. steps. leave. split; [done|]. registers.
    apply finds_same. intros. lia. }
  match goal with |- context [run (Repe_cmps _;; ?k) (Build_cpu ?x _ ?d _ _ ?z ?g _ _ ?st)] =>
    destruct (run_cmps 8 k x n d b a z g false mem st) as [[Hall ->] | (i & Hk & Hq & Hall & ->)]; [lia | bounds | bounds | |] end;
    cbn [step_of] in *; rewrite run_jump; cbn [holds zf]; steps; leave; (split; [reflexivity|]); registers;
    [by apply finds_same | apply finds_differs; done || lia].
Qed.

Lemma same_down w si di m n k : same w (- w) (si + w * (n - 1)) (di + w * (n - 1)) m k = same w w si di m (n - 1 - k).
Proof.
  unfold same. replace (si + w * (n - 1) + - w * k) with (si + w * (n - 1 - k)) by ring.
  by replace (di + w * (n - 1) + - w * k) with (di + w * (n - 1 - k)) by ring.
Qed.

(** The last difference, [k] operands from the end; its address is one operand above where the loop stops. *)
Lemma finds_differs_down w si di m n k : 0 < w -> 0 < di /\ di + w * n <= 2 ^ 64 -> 0 <= k < n ->
  same w (- w) (si + w * (n - 1)) (di + w * (n - 1)) m k = false ->
  (forall j, 0 <= j < k -> same w (- w) (si + w * (n - 1)) (di + w * (n - 1)) m j = true) ->
  finds true (differs w si di m) w di n (u64 (u64 (di + w * (n - 1) + - w * (k + 1)) + w)).
Proof.
  intros Hw Hd Hk Hq Hj. rewrite u64_add_l, u64_small by nia.
  replace (di + w * (n - 1) + - w * (k + 1) + w) with (di + w * (n - 1 - k)) by lia. rewrite same_down in Hq.
  apply finds_last; [done | by unfold differs; rewrite Hq |]. intros j Hr. apply differs_false. rewrite <- same_down. by apply Hj.
Qed.

Lemma finds_same_down w si di m n : (forall j, 0 <= j < n -> same w (- w) (si + w * (n - 1)) (di + w * (n - 1)) m j = true) ->
  finds true (differs w si di m) w di n 0.
Proof.
  intros H. apply finds_none. intros j Hj. apply differs_false. replace j with (n - 1 - (n - 1 - j)) by lia. rewrite <- same_down. apply H. lia.
Qed.

(** The narrow loop from the last operand on. *)
Definition narrow (w : Z) (c : code) : Prop := forall ax n d si di z g f m x1 x2 x3 x4 st,
  0 < n < 2 ^ 64 -> 0 < si /\ si + w * n <= 2 ^ 64 -> 0 < di /\ di + w * n <= 2 ^ 64 ->
  exists s', run c (Build_cpu ax n d (u64 (si + w * (n - 1))) (u64 (di + w * (n - 1))) z g f m (x1 :: x2 :: x3 :: x4 :: st)) = Some s' /\
    (ram s' = m /\ finds true (differs w si di m) w di n (rax s')) /\ stack s' = st.

Ltac narrow_proof :=
  intros ax n d si di z g f m x1 x2 x3 x4 st Hn Hs Hd; steps;
  match goal with |- context [run (Repe_cmps ?w;; ?c) (Build_cpu ?a _ ?d (u64 ?si) (u64 ?di) _ _ _ _ ?st)] =>
    destruct (run_cmps w c a n d si di z g true m st) as [[Hall ->] | (k & Hk & Hq & Hall & ->)]; [lia | bounds | bounds | |] end;
  cbn [step_of] in *; rewrite run_jump; cbn [holds zf]; steps; leave; (split; [reflexivity|]); registers;
  [by apply finds_same_down | apply finds_differs_down; done || lia].

Lemma narrow_rmemcmp : narrow 1 (Std;; Repe_cmps 1;; Jump IfE asm_rmemcmp_adjust (Inc RDI;; Inc RSI;; Push RDI;; asm_rmemcmp_out)).
Proof. unfold asm_rmemcmp_adjust, asm_rmemcmp_out. narrow_proof. Qed.

Lemma narrow_rmemcmp16 : narrow 2 (Std;; Repe_cmps 2;; Jump IfE asm_rmemcmp_adjust16 (AddI RDI 2;; AddI RSI 2;; Push RDI;; asm_rmemcmp_out16)).
Proof. unfold asm_rmemcmp_adjust16, asm_rmemcmp_out16. narrow_proof. Qed.

Lemma narrow_rmemcmp32 : narrow 4 (Std;; Repe_cmps 4;; Jump IfE asm_rmemcmp_adjust32 (AddI RDI 4;; AddI RSI 4;; Push RDI;; asm_rmemcmp_out32)).
Proof. unfold asm_rmemcmp_adjust32, asm_rmemcmp_out32. narrow_proof. Qed.

(** What follows the loop by eight bytes, with the operands from [di] on left, the last one first. *)
Definition rest_down (w : Z) (c : code) : Prop := forall ax cx n si di z g m x1 x2 x3 x4 st,
  0 <= n < 2 ^ 64 -> (n = 0 -> z = true) -> (0 < n -> 0 < si /\ si + w * n <= 2 ^ 64) -> (0 < n -> 0 < di /\ di + w * n <= 2 ^ 64) ->
  exists s', run c (Build_cpu ax cx n (u64 (si + w * (n - 1))) (u64 (di + w * (n - 1))) z g true m (0 :: x1 :: x2 :: x3 :: x4 :: st)) = Some s' /\
    (ram s' = m /\ finds true (differs w si di m) w di n (rax s')) /\ stack s' = st.

Ltac rest_down_proof :=
  intros ax cx n si di z g m x1 x2 x3 x4 st Hn Hz Hs Hd; steps;
  match goal with |- context [run (Repe_cmps ?w;; ?c) (Build_cpu ?a _ ?d (u64 ?si) (u64 ?di) _ _ _ _ ?st)] =>
    destruct (decide (n = 0)) as [->|];
    [ rewrite run_cmps_none, (Hz eq_refl) | destruct (run_cmps w c a n d si di z g true m st) as [[Hall ->] | (k & Hk & Hq & Hall & ->)]; [lia | bounds | bounds | |] ]
  end;
  cbn [step_of] in *; rewrite run_jump; cbn [holds zf]; steps; leave; (split; [reflexivity|]); registers;
  [apply finds_same_down; intros; lia | by apply finds_same_down | apply finds_differs_down; done || lia].

Lemma rest_rmemcmp : rest_down 1 asm_rmemcmp_match_until_now.
Proof. unfold asm_rmemcmp_match_until_now, asm_rmemcmp_out. rest_down_proof. Qed.

Lemma rest_rmemcmp16 : rest_down 2 asm_rmemcmp_match_until_now16.
Proof. unfold asm_rmemcmp_match_until_now16, asm_rmemcmp_out16. rest_down_proof. Qed.

Lemma rest_rmemcmp32 : rest_down 4 asm_rmemcmp_match_until_now32.
Proof. unfold asm_rmemcmp_match_until_now32, asm_rmemcmp_out32. rest_down_proof. Qed.

(** A last difference inside the [j]-th and following [n] operands, if those behind are equal. *)
Lemma finds_inside w si di m j n n' r k : 0 <= j -> 0 <= k < n -> j + n <= n' -> differs w si di m (j + k) = true ->
  (forall i, j + n <= i < n' -> differs w si di m i = false) ->
  finds true (differs w (si + w * j) (di + w * j) m) w (di + w * j) n r -> finds true (differs w si di m) w di n' r.
Proof.
  intros Hj Hk Hn Hd Hbehind [[-> Hnone] | (i & -> & Hi & Hq & Hlast)].
  { specialize (Hnone k Hk). rewrite differs_shift in Hnone. congruence. }
  right. exists (j + i). rewrite differs_shift in Hq. split_and!; [lia | lia | lia | done |].
  intros l Hl Hlt. destruct (decide (l < j + n)); [|apply Hbehind; lia].
  replace l with (j + (l - j)) by lia. rewrite <- differs_shift. apply Hlast; lia.
Qed.

(** The loop by eight bytes downwards, over a length that is a multiple of eight bytes. *)
Lemma quads_down w c k0 rest n si di z g m x1 x2 x3 x4 st : rest_down w rest -> 0 < w -> 0 < c -> w * c = 8 -> k0 = 16 - w ->
  0 < n < 2 ^ 64 -> n mod c = 0 -> 0 < si /\ si + w * n <= 2 ^ 64 -> 0 < di /\ di + w * n <= 2 ^ 64 ->
  exists s', run (Div RCX;; Mov RCX RAX;; Std;; Repe_cmps 8;;
      Jump IfE rest (AddI RDX c;; AddI RDI k0;; AddI RSI k0;; rest))
    (Build_cpu n c 0 (u64 (si + w * n - 8)) (u64 (di + w * n - 8)) z g false m (0 :: x1 :: x2 :: x3 :: x4 :: st)) = Some s' /\
    (ram s' = m /\ finds true (differs w si di m) w di n (rax s')) /\ stack s' = st.
Proof.
  intros Hrest Hw Hc H8 -> Hn Hmod Hs Hd. rewrite run_div by lia. steps.
  pose proof (Z.div_mod n c ltac:(lia)) as En. pose proof (Z.div_pos n c ltac:(lia) Hc) as Hq.
  rewrite Hmod in *. set (q := n / c) in *. clearbody q. assert (w * n = 8 * q) as E8 by nia. rewrite E8.
  replace (si + 8 * q - 8) with (si + 8 * (q - 1)) by lia. replace (di + 8 * q - 8) with (di + 8 * (q - 1)) by lia.
  match goal with |- context [run (Repe_cmps _;; ?k) (Build_cpu ?x _ ?d (u64 ?b) (u64 ?a) ?z ?g _ _ ?st)] =>
    destruct (run_cmps 8 k x q d b a z g true m st) as [[Hall ->] | (k' & Hk & Hq' & Hall & ->)]; [nia | bounds | bounds | |] end;
    cbn [step_of] in *; rewrite run_jump; cbn [holds zf].
  - destruct (Hrest q 0 0 (si - 8 + w) (di - 8 + w) true g m x1 x2 x3 x4 st) as (s' & Hr & [Hm Hf] & Hst); [lia | done | lia | lia |].
    exists s'. replace (si + 8 * (q - 1) + - (8) * q) with (si - 8 + w + w * (0 - 1)) by lia.
    replace (di + 8 * (q - 1) + - (8) * q) with (di - 8 + w + w * (0 - 1)) by lia. split; [exact Hr|]. split; [|done]. split; [done|].
    destruct Hf as [[-> _] | (k & _ & Hk & _)]; [|lia]. apply finds_none. intros j Hj. apply differs_false.
    apply (same_narrow w c si di m q); try done; [|lia]. intros i Hi. replace i with (q - 1 - (q - 1 - i)) by lia.
    rewrite <- same_down. apply Hall. lia.
  - steps. rewrite !u64_add_l, Z.add_0_l, (u64_small c) by nia. set (t := q - 1 - k').
    replace (si + 8 * (q - 1) + - (8) * (k' + 1) + (16 - w)) with (si + w * (c * t) + w * (c - 1)) by nia.
    replace (di + 8 * (q - 1) + - (8) * (k' + 1) + (16 - w)) with (di + w * (c * t) + w * (c - 1)) by nia.
    rewrite same_down in Hq'. fold t in Hq'. rewrite <- H8 in Hq'.
    destruct (same_wide_false w c si di m t Hw Hc Hq') as (i & Hi & Hd').
    match goal with |- context [run rest (Build_cpu _ _ _ _ _ ?z _ _ _ _)] =>
      destruct (Hrest q (q - (k' + 1)) c (si + w * (c * t)) (di + w * (c * t)) z g m x1 x2 x3 x4 st) as (s' & Hr & [Hm Hf] & Hst);
      [nia | lia | nia | nia |] end.
    exists s'. split; [exact Hr|]. split; [|done]. split; [done|].
    eapply (finds_inside w si di m (c * t) c n _ i); [nia | lia | nia | by unfold differs; rewrite Hd' | | exact Hf].
    intros l Hl. apply differs_false. apply (same_narrow_at w c); try done.
    assert (t + 1 <= l / c) by (apply Z.div_le_lower_bound; lia). assert (l / c < q) by (apply Z.div_lt_upper_bound; lia).
    replace (l / c) with (q - 1 - (q - 1 - l / c)) by lia. rewrite <- same_down. apply Hall. lia.
Qed.


(** The lengths the routines can compare: up to eight bytes, or a multiple of eight bytes. *)
Definition whole (c n : Z) : Prop := 0 < n /\ (n <= c \/ n mod c = 0).

Lemma greater_than c n : 0 < c <= 8 -> 0 <= n < 2 ^ 64 -> (s64 c <? s64 n) = true -> c < n.
Proof.
  intros Hc Hn H. apply Z.ltb_lt in H. rewrite (s64_small c) in H by lia. unfold s64 in H.
  assert (n < 2 ^ 63 \/ 2 ^ 63 <= n) as [Hlow|Hhigh] by lia; [rewrite Z.mod_small in H by lia; lia|].
  replace (n + 2 ^ 63) with (n - 2 ^ 63 + 1 * 2 ^ 64) in H by lia. rewrite Z.mod_add, Z.mod_small in H by lia. lia.
Qed.

Ltac rmemcmp_proof w c narrow quads :=
  intros s mem a b n Hn [Hpos Hlen] (Ha & Ha' & Hb & Hb'); start; rewrite (u64_small n) by lia;
  steps; rewrite run_jump; cbn [holds greater]; destruct (s64 _ <? s64 _) eqn:Eg;
  [ apply greater_than in Eg; [|lia|lia]; steps; back_addresses;
    match goal with |- context [run _ (Build_cpu _ _ _ (u64 ?y) (u64 ?x) _ _ _ _ _)] =>
      replace x with (a + w * n - 8) by lia; replace y with (b + w * n - 8) by lia end;
    eapply (quads_down w c); [apply quads | lia | lia | lia | lia | lia | lia | lia | lia]
  | do 8 (try lazymatch goal with |- context [run (Std;; _) _] => fail | _ => step end); back_addresses;
    match goal with |- context [run _ (Build_cpu _ _ _ (u64 ?y) (u64 ?x) _ _ _ _ _)] =>
      replace x with (a + w * (n - 1)) by lia; replace y with (b + w * (n - 1)) by lia end;
    apply narrow; lia ].

Lemma meets_rmemcmp : meets_for (whole 8) (Compares 1 true) asm_rmemcmp.
Proof. unfold asm_rmemcmp, asm_rmemcmp_normal. rmemcmp_proof 1 8 narrow_rmemcmp rest_rmemcmp. Qed.

Lemma meets_rmemcmp16 : meets_for (whole 4) (Compares 2 true) asm_rmemcmp16.
Proof. unfold asm_rmemcmp16, asm_rmemcmp_normal16. rmemcmp_proof 2 4 narrow_rmemcmp16 rest_rmemcmp16. Qed.

Lemma meets_rmemcmp32 : meets_for (whole 2) (Compares 4 true) asm_rmemcmp32.
Proof. unfold asm_rmemcmp32, asm_rmemcmp_normal32. rmemcmp_proof 4 2 narrow_rmemcmp32 rest_rmemcmp32. Qed.

End backwards.

Section strings.
Context {P : Processor}.

Lemma meets_rmemcmp64 : meets_for (fun n => 0 < n) (Compares 8 true) asm_rmemcmp64.
Proof.
  intros s mem a b n Hn Hpos (Ha & Ha' & Hb & Hb'). start. rewrite (u64_small n) by lia. unfold asm_rmemcmp64, asm_rmemcmp_out64. steps.
  back_addresses. match goal with |- context [run (Repe_cmps _;; ?k) (Build_cpu ?x _ ?d (u64 ?y) (u64 ?v) ?z ?g _ _ ?st)] =>
    replace v with (a + 8 * (n - 1)) by lia; replace y with (b + 8 * (n - 1)) by lia end.
  match goal with |- context [run (Repe_cmps _;; ?k) (Build_cpu ?x _ ?d (u64 ?y) (u64 ?v) ?z ?g _ _ ?st)] =>
    destruct (run_cmps 8 k x n d y v z g true mem st) as [[Hall ->] | (i & Hk & Hq & Hall & ->)]; [lia | bounds | bounds | |] end;
    cbn [step_of] in *; rewrite run_jump; cbn [holds zf]; steps; leave; (split; [reflexivity|]); registers;
    [by apply finds_same_down | apply finds_differs_down; done || lia].
Qed.

Lemma read_one m a : read_bytes m a 1 = [m a].
Proof. done. Qed.

Lemma cstring_found mem a s k : cstring mem a s -> 0 <= a -> a + k < 2 ^ 64 -> 0 <= k <= zlen s ->
  found_at 1 1 a [0] mem k = (k =? zlen s).
Proof.
  intros (Hr & He & Hs) Ha Hl Hk. unfold found_at. rewrite read_one, u64_small by lia. replace (a + 1 * k) with (a + k) by lia.
  destruct (Z.eqb_spec k (zlen s)) as [->|Hne]; [by rewrite He, bool_decide_true|]. apply bool_decide_false. intros [= E].
  assert (zget s k = Some (mem (a + k))) as Hc.
  { rewrite <- Hr, zget_read. rewrite (proj2 (Z.leb_le 0 k)), (proj2 (Z.ltb_lt k (zlen s))) by lia. done. }
  unfold zget in Hc. rewrite (proj2 (Z.leb_le 0 k)) in Hc by lia. apply list_elem_of_lookup_2, list_elem_of_In in Hc.
  rewrite List.Forall_forall in Hs. specialize (Hs _ Hc). lia.
Qed.

Lemma meets_strlen : meets Measures asm_strlen.
Proof.
  intros s mem a b n Hn _ (t & Ht & Ha & Hl). start. unfold asm_strlen. steps.
  match goal with |- context [run (Repne_scas 1;; ?c) (Build_cpu ?x ?n ?d ?si (u64 ?y) ?z ?g _ _ ?st)] =>
    destruct (rep_scas_at 1 x n d si y z g false mem st ltac:(unfold u64; zdiv)) as (k & Hk & Hrep);
    rewrite (run_do (Repne_scas 1) c _ _ (f_equal Some Hrep)); clear Hrep end.
  cbn [step_of] in *. assert (le_bytes (Z.to_nat 1) (rax s - u8 (rax s) + 0) = [0]) as Hv.
  { change (le_bytes (Z.to_nat 1) ?v) with [v mod 256]. f_equal. unfold u8. change (2 ^ 8) with 256. by rewrite Z.add_0_r, Zminus_mod_idemp_r, Z.sub_diag. }
  rewrite Hv in Hk. steps.
  assert (k = zlen t) as ->.
  { change (u64 (-1)) with (2 ^ 64 - 1) in Hk. unfold zlen in *. destruct Hk as [[-> Hall] | (Hk & Hq & Hfirst)].
    - specialize (Hall (zlen t) ltac:(unfold zlen; lia)). rewrite (cstring_found mem a t) in Hall by (unfold zlen; done || lia).
      by rewrite Z.eqb_refl in Hall.
    - destruct (Z.lt_trichotomy k (zlen t)) as [Hlt | [? | Hgt]]; [| done |].
      + rewrite (cstring_found mem a t) in Hq by (unfold zlen in *; done || lia). apply Z.eqb_eq in Hq. unfold zlen in *. lia.
      + specialize (Hfirst (zlen t) ltac:(unfold zlen in *; lia)). rewrite (cstring_found mem a t) in Hfirst by (unfold zlen; done || lia).
        by rewrite Z.eqb_refl in Hfirst. }
  leave. split; [done|]. intros t' Ht'. registers.
  assert (zlen t' = zlen t) as ->.
  { pose proof (Zle_0_nat (length t)). pose proof (Zle_0_nat (length t')). fold (zlen t) (zlen t') in *.
    destruct (decide (zlen t' <= zlen t)).
    - pose proof (cstring_found mem a t (zlen t') Ht ltac:(lia) ltac:(lia) ltac:(lia)) as Hf.
      rewrite (cstring_found mem a t') in Hf by (done || lia). rewrite Z.eqb_refl in Hf. symmetry in Hf. by apply Z.eqb_eq in Hf.
    - pose proof (cstring_found mem a t (zlen t) Ht ltac:(lia) ltac:(lia) ltac:(lia)) as Hf.
      rewrite (cstring_found mem a t') in Hf by (done || lia). rewrite Z.eqb_refl in Hf. by apply Z.eqb_eq in Hf. }
  pose proof (Zle_0_nat (length t)). fold (zlen t) in *. unfold ends. change (u64 (-1)) with (2 ^ 64 - 1). change (u64 (-2)) with (2 ^ 64 - 2).
  destruct (Z.eqb_spec (zlen t) (2 ^ 64 - 1)); [lia|]. rewrite u64_small by lia. lia.
Qed.
End strings.

(** ** Properties *)

Definition any (n : Z) : Prop := True.
Definition some (n : Z) : Prop := 0 < n.

(** For which lengths the routine behind a function of the header does what the header promises. *)
Definition kept : list ((Z -> Prop) * contract * code) := [
  (any, promised_memcpy, asm_memcpy); (any, promised_memcpyc, asm_memcpy); (any, promised_memcpy8, asm_memcpy);
  (fun n => n mod 4 = 0, promised_memcpy16, asm_memcpy16); (fun n => n mod 2 = 0, promised_memcpy32, asm_memcpy32);
  (any, promised_memcpy64, asm_memcpy64);
  (any, promised_memmove, asm_memmove); (any, promised_memmovec, asm_memmove); (any, promised_memmove8, asm_memmove);
  (fun n => n mod 4 = 0, promised_memmove16, asm_memmove16); (fun n => n mod 2 = 0, promised_memmove32, asm_memmove32);
  (any, promised_memmove64, asm_memmove64);
  (any, promised_memset, asm_memset); (any, promised_memsetc, asm_memset); (any, promised_memset8, asm_memset);
  (any, promised_memset16, asm_memset16); (any, promised_memset32, asm_memset32); (any, promised_memset64, asm_memset64);
  (any, promised_memcmp, asm_memcmp); (any, promised_memcmpc, asm_memcmp); (any, promised_memcmp8, asm_memcmp);
  (any, promised_memcmp16, asm_memcmp16); (any, promised_memcmp64, asm_memcmp64);
  (whole 8, promised_rmemcmp, asm_rmemcmp); (whole 8, promised_rmemcmpc, asm_rmemcmp); (whole 8, promised_rmemcmp8, asm_rmemcmp);
  (whole 4, promised_rmemcmp16, asm_rmemcmp16); (whole 2, promised_rmemcmp32, asm_rmemcmp32);
  (some, promised_rmemcmp64, asm_rmemcmp64);
  (some, promised_scanc, asm_scan8); (some, promised_scan8, asm_scan8); (some, promised_scan16, asm_scan16);
  (some, promised_scan32, asm_scan32); (some, promised_scan64, asm_scan64);
  (some, promised_rscanc, asm_rscan8); (some, promised_rscan8, asm_rscan8); (some, promised_rscan16, asm_rscan16);
  (some, promised_rscan32, asm_rscan32); (some, promised_rscan64, asm_rscan64);
  (any, promised_strlen, asm_strlen)].

Section meets.
Context {P : Processor}.

Lemma scanner_meets w back c : scanner w back c -> 0 < w -> w <= 8 -> meets_for some (Scans w back) c.
Proof.
  intros Hc Hw H8 s mem a b n Hn Hpos (Ha & Ha' & Hb). unfold some in Hpos. start. rewrite (u64_small n) by lia.
  edestruct Hc as (s' & Hr & Hy); [| | exists s'; split; [exact Hr | exact Hy]]; lia.
Qed.

Lemma meets_any k c : meets k c -> meets_for any k c.
Proof. intros H s mem a b n Hn _ Ha. by apply H. Qed.

Lemma copies_any bytes w c : forward bytes c -> (forall n, bytes n = w * n) -> 0 < w -> meets_for any (Copies w false) c.
Proof. intros Hc Hb Hw. apply (forward_meets bytes); auto. Qed.

Lemma moves_any bytes w f c : forward bytes f -> backward w c -> (forall n, bytes n = w * n) -> 0 < w ->
  meets_for any (Copies w true) (Do (Cmp RSI RDI) (Jump IfG f c)).
Proof. intros Hf Hc Hb Hw. apply (move_meets bytes); auto. Qed.

Lemma meets_copies :
  meets_for any (Copies 1 false) asm_memcpy /\ meets_for (fun n => n mod 4 = 0) (Copies 2 false) asm_memcpy16 /\
  meets_for (fun n => n mod 2 = 0) (Copies 4 false) asm_memcpy32 /\ meets_for any (Copies 8 false) asm_memcpy64.
Proof.
  split_and!.
  - apply (copies_any (fun n => n)); [apply forward_memcpy | lia | lia].
  - apply (forward_meets (fun n => 2 * (n + n mod 4))); [apply forward_memcpy16 | lia | lia].
  - apply (forward_meets (fun n => 4 * (n + 3 * (n mod 2)))); [apply forward_memcpy32 | lia | lia].
  - apply (copies_any (fun n => 8 * n)); [apply forward_memcpy64 | lia | lia].
Qed.

Lemma meets_moves :
  meets_for any (Copies 1 true) asm_memmove /\ meets_for (fun n => n mod 4 = 0) (Copies 2 true) asm_memmove16 /\
  meets_for (fun n => n mod 2 = 0) (Copies 4 true) asm_memmove32 /\ meets_for any (Copies 8 true) asm_memmove64.
Proof.
  split_and!.
  - apply (moves_any (fun n => n)); [apply forward_memcpy | apply backward_memmove | lia | lia].
  - apply (move_meets (fun n => 2 * (n + n mod 4))); [apply forward_memcpy16 | apply backward_memmove16 | lia | lia].
  - apply (move_meets (fun n => 4 * (n + 3 * (n mod 2)))); [apply forward_memcpy32 | apply backward_memmove32 | lia | lia].
  - apply (moves_any (fun n => 8 * n)); [apply forward_memcpy64 | apply backward_memmove64 | lia | lia].
Qed.

Lemma meets_sets :
  meets_for any (Sets 1) asm_memset /\ meets_for any (Sets 2) asm_memset16 /\ meets_for any (Sets 4) asm_memset32 /\ meets_for any (Sets 8) asm_memset64.
Proof.
  split_and!; apply meets_any, fills_meets; try lia; [apply fills_memset | apply fills_memset16 | apply fills_memset32 | apply fills_memset64].
Qed.

Lemma meets_compares : DivKeeps ->
  meets_for any (Compares 1 false) asm_memcmp /\ meets_for any (Compares 2 false) asm_memcmp16 /\ meets_for any (Compares 8 false) asm_memcmp64.
Proof.
  intros D. split_and!; apply meets_any; [| | apply meets_memcmp64].
  - by apply (compare_meets 1 8); [apply rest_memcmp|..].
  - by apply (compare_meets 2 4); [apply rest_memcmp16|..].
Qed.

Lemma meets_scans :
  (meets_for some (Scans 1 false) asm_scan8 /\ meets_for some (Scans 2 false) asm_scan16 /\
   meets_for some (Scans 4 false) asm_scan32 /\ meets_for some (Scans 8 false) asm_scan64) /\
  (meets_for some (Scans 1 true) asm_rscan8 /\ meets_for some (Scans 2 true) asm_rscan16 /\
   meets_for some (Scans 4 true) asm_rscan32 /\ meets_for some (Scans 8 true) asm_rscan64).
Proof.
  split_and!; apply scanner_meets; try lia; [apply scanner_scan8 | apply scanner_scan16 | apply scanner_scan32 | apply scanner_scan64 |
    apply scanner_rscan8 | apply scanner_rscan16 | apply scanner_rscan32 | apply scanner_rscan64].
Qed.
End meets.


Definition idle : cpu := {| rax := 0; rcx := 0; rdx := 0; rsi := 0; rdi := 0; zf := false; greater := false; df := false;
  ram := fun _ => 0; stack := [] |}.

(** Bytes [l] at [a] and [l'] at [b], zeros elsewhere. *)
Definition two_blocks (a : Z) (l : list Z) (b : Z) (l' : list Z) : memory := write_bytes (write_bytes (fun _ => 0) a l) b l'.


(** What a call leaves at an address, and what it returns. *)
Lemma call_observed {P : Processor} (o : cpu -> Z) v c s mem a b n s' :
  option_map o (call c s mem a b n) = Some v -> call c s mem a b n = Some s' -> o s' = v.
Proof. intros H Hc. rewrite Hc in H. by injection H. Qed.

Lemma copy_broken {P : Processor} w overlap c mem a b n x v : 0 <= n < 2 ^ 64 -> accepts (Copies w overlap) mem a b n ->
  option_map (fun s => ram s x) (call c idle mem a b n) = Some v -> write_bytes mem a (read_bytes mem b (w * n)) x <> v ->
  ~ meets_for (fun k => k = n) (Copies w overlap) c.
Proof.
  intros Hn Ha Hv Hne H. destruct (H idle mem a b n Hn eq_refl Ha) as (s' & Hc & Hy & _). apply Hne. rewrite <- Hy.
  exact (call_observed (fun s => ram s x) v c idle mem a b n s' Hv Hc).
Qed.

(** The answer of a search is wrong if it is not NULL and the operand there does not count, ... *)
Lemma search_broken {P : Processor} k back Q w c s mem a b n v :
  (forall s', yields k mem a b n s' -> finds back Q w a n (rax s')) -> 0 <= n < 2 ^ 64 -> accepts k mem a b n ->
  option_map rax (call c s mem a b n) = Some v -> v <> 0 -> (forall i, 0 <= i < n -> v = a + w * i -> Q i = false) ->
  ~ meets_for (fun l => l = n) k c.
Proof.
  intros Hk Hn Ha Hv Hv0 Hno H. destruct (H s mem a b n Hn eq_refl Ha) as (s' & Hc & Hy & _). apply Hk in Hy.
  rewrite (call_observed rax v c s mem a b n s' Hv Hc) in Hy. destruct Hy as [[E _] | (i & E & Hi & Hq & _)]; [done|].
  rewrite (Hno i Hi E) in Hq. done.
Qed.

Definition numbered : memory := two_blocks 0x2000 (seqZ 1 16) 0 [].
Definition behind : memory := two_blocks 0x1000 (replicate 8 1 ++ replicate 12 5) 0x2000 (replicate 8 2 ++ replicate 12 5).

Definition clearing : Processor := {| zf_after_div _ _ _ _ := false |}.

Ltac broken_copy x := apply (copy_broken _ _ _ numbered 0x1000 0x2000 1 x (x - 0xFFF));
  [lia | cbn [accepts]; unfold in_half, apart; lia | vm_compute; reflexivity | by vm_compute].

Ltac broken_search back Q w s mem b n v := apply (search_broken _ back Q w _ s mem 0x1008 b n v);
  [intros s' Hy; exact (proj2 Hy) | lia | cbn [accepts]; lia | vm_compute; reflexivity | done | intros i Hi E; try lia].

(** The rest of the table: memcpy16 and memcpy32 (and memmove in that direction) multiply the operands left over
    from the copy by eight bytes where they should not, and write behind the destination; rmemcmp, rmemcmp16 and
    rmemcmp32 look for the operands left over in front of the blocks; memcmp32 compares the second half of a
    pair only; a search of nothing answers with an address unless the flags happen to be right; and short
    comparisons by memcmp rely on a flag that DIV may change. *)
Theorem routines_break_promises {P : Processor} :
  Forall (fun '(n, k, c) => ~ meets_for (fun l => l = n) k c) [
    (1, promised_memcpy16, asm_memcpy16); (1, promised_memcpy32, asm_memcpy32);
    (1, promised_memmove16, asm_memmove16); (1, promised_memmove32, asm_memmove32);
    (2, promised_memcmp32, asm_memcmp32);
    (9, promised_rmemcmp, asm_rmemcmp); (5, promised_rmemcmp16, asm_rmemcmp16); (3, promised_rmemcmp32, asm_rmemcmp32);
    (0, promised_rmemcmp64, asm_rmemcmp64);
    (0, promised_scanc, asm_scan8); (0, promised_scan16, asm_scan16); (0, promised_scan32, asm_scan32); (0, promised_scan64, asm_scan64)] /\
  ~ @meets_for clearing (fun l => l = 1) promised_memcmp asm_memcmp.
Proof.
  unfold promised_memcmp32, promised_memcmp, promised_rmemcmp, promised_rmemcmp16, promised_rmemcmp32, promised_rmemcmp64,
    promised_scanc, promised_scan16, promised_scan32, promised_scan64.
  split; [repeat constructor|].
  - broken_copy 0x1002.
  - broken_copy 0x1004.
  - broken_copy 0x1002.
  - broken_copy 0x1004.
  - broken_search false (fun k => negb (same 4 4 0x2008 0x1008 (two_blocks 0x1008 [1] 0x2008 [2]) k)) 4 idle (two_blocks 0x1008 [1] 0x2008 [2]) 0x2008 2 0x100C.
    replace i with 1 by lia. by vm_compute.
  - broken_search true (fun k => negb (same 1 1 0x2008 0x1008 behind k)) 1 idle behind 0x2008 9 0x1001.
  - broken_search true (fun k => negb (same 2 2 0x2008 0x1008 behind k)) 2 idle behind 0x2008 5 0x1002.
  - broken_search true (fun k => negb (same 4 4 0x2008 0x1008 behind k)) 4 idle behind 0x2008 3 0x1004.
  - broken_search true (fun k => negb (same 8 8 0x2008 0x1008 behind k)) 8 idle behind 0x2008 0 0x1008.
  - broken_search false (found 1 1 0x1008 (le_bytes 1 5) behind) 1 idle behind 5 0 0x1007. 
  - broken_search false (found 2 2 0x1008 (le_bytes 2 5) behind) 2 idle behind 5 0 0x1006.
  - broken_search false (found 4 4 0x1008 (le_bytes 4 5) behind) 4 idle behind 5 0 0x1004.
  - broken_search false (found 8 8 0x1008 (le_bytes 8 5) behind) 8 (idle {{ zf := true }}) behind 5 0 0x1000.
  - broken_search false (fun k => negb (same 1 1 0x2008 0x1008 behind k)) 1 idle behind 0x2008 1 0x1000.
Qed.

(** A memmove that goes down, like rmemcmp and rscanc, returns with the direction flag set, which the
    calling convention of the C code wants clear. *)
Theorem direction_left_set {P : Processor} s mem a b n : 0 <= n < 2 ^ 64 -> accepts promised_memmove mem a b n -> s64 b <= s64 a ->
  exists s', call asm_memmove s mem a b n = Some s' /\ df s' = true.
Proof.
  intros Hn (Ha & Hb & _) Hle.
  assert (n = 0 \/ b <= a \/ a + n <= b) as Hg.
  { destruct (decide (n = 0)); [by left|]. right. pose proof (greater_half a b (1 * n) Ha Hb ltac:(lia)) as H.
    rewrite (proj2 (Z.ltb_ge (s64 a) (s64 b)) Hle) in H. lia. }
  apply in_half_bounds in Ha, Hb; [|lia..]. start. rewrite (u64_small n) by lia. unfold asm_memmove. step. rewrite run_jump. cbn [holds greater].
  replace (s64 (u64 a) <? s64 (u64 b)) with false.
  2:{ symmetry. apply Z.ltb_ge. assert (forall x, s64 (u64 x) = s64 x) as Hx by (intros x; unfold s64, u64; by rewrite Zplus_mod_idemp_l).
      by rewrite !Hx. }
  edestruct backward_memmove as (s' & Hr & _ & _ & Hd); [exact Hn | | | | exists s'; split; [exact Hr | exact Hd]]; lia.
Qed.

Lemma direction_left_set_witness : exists s', @call keeping asm_memmove idle numbered 0x2004 0x2000 8 = Some s' /\ df s' = true.
Proof.
  apply (@direction_left_set keeping); [lia | | vm_compute; discriminate].
  unfold promised_memmove, accepts, in_half. split; [lia|]. split; [lia | discriminate].
Defined.
