(* ===== verification/CopyAsm.v ===== *)
(** * The copy and exchange routines of [asm/stage2/misc/memcpy.asm] and [memswap.asm]

    [fast_memcpy1] to [fast_memcpy256] and [fast_memswap1] to [fast_memswap256], which
    the tables of [misc/memcpy.c] and [misc/memswap.c] call, are straight lines of loads
    and stores.  All routines of a file follow one scheme: as many vectors of 16 bytes as
    there are, then, where the number of bytes has the bit, 8, 4, 2 and 1 bytes.
    [fast_memcpy_code n] and [fast_memswap_code n] are the instructions of the routine of
    [n] bytes.  The theorem: they do what FastMem.v says of them.

    [fast_ndfs_full_packet_copy], which nothing calls, is left out. *)

From S2P Require Import Prelude FastMem.

#[local] Open Scope Z_scope.

(** ** The machine *)

Inductive mover_register := Xmm (i : Z) | Rax | R8 | R9.

#[export] Instance mover_register_eq_dec : EqDecision mover_register.
Proof. solve_decision. Defined.

Inductive pointer := Rsi | Rdi.

(** [Load r w p off] is [mov r,[p+off]] with the name of [r] for [w] bytes ([al], [ax], [eax], [rax], [xmm]). *)
Inductive instruction :=
| Load (r : mover_register) (w : Z) (p : pointer) (off : Z)
| Store (r : mover_register) (w : Z) (p : pointer) (off : Z)
| Answer (n : Z).          (* mov rax,n *)

(** A register holds bytes; what a load of a part of it leaves in the others is not read by any routine. *)
Record mover := {
  held : mover_register -> list Z;
  rsi : Z;
  rdi : Z;
  moved : memory;
  answer : Z
}.

#[export] Instance eta_mover : Eta mover := fun r =>
  {| held := held r; rsi := rsi r; rdi := rdi r; moved := moved r; answer := answer r |}.

Definition operand (p : pointer) (off : Z) (s : mover) : Z := u64 (match p with Rsi => rsi s | Rdi => rdi s end + off).

Definition step (i : instruction) (s : mover) : mover :=
  match i with
  | Load r w p off =>
      s {{ held := fun r' => if decide (r' = r) then read_bytes (moved s) (operand p off s) w else held s r' }}
  | Store r w p off => s {{ moved := write_bytes (moved s) (operand p off s) (take (Z.to_nat w) (held s r)) }}
  | Answer n => s {{ answer := n }}
  end.

Definition steps (l : list instruction) (s : mover) : mover := foldl (fun s i => step i s) s l.

(** ** The routines *)

(** The pieces behind the vectors: offset and width. *)
Definition pieces (n : Z) : list (Z * Z) :=
  concat (map (fun w => if Z.odd (n / w) then [(2 * w * (n / (2 * w)), w)] else []) [8; 4; 2; 1]).

Definition copy_piece (x : Z * Z) : list instruction := let '(off, w) := x in [Load Rax w Rsi off; Store Rax w Rdi off].

(** All vectors are loaded before the first is stored. *)
Definition fast_memcpy_code (n : Z) : list instruction :=
  map (fun i => Load (Xmm i) 16 Rsi (16 * i)) (seqZ 0 (n / 16)) ++
  map (fun i => Store (Xmm i) 16 Rdi (16 * i)) (seqZ 0 (n / 16)) ++
  concat (map copy_piece (pieces n)) ++ [Answer n].

Definition swap_vector (i : Z) : list instruction :=
  [Load (Xmm 0) 16 Rsi (16 * i); Load (Xmm 1) 16 Rdi (16 * i); Store (Xmm 1) 16 Rsi (16 * i); Store (Xmm 0) 16 Rdi (16 * i)].

Definition swap_piece (x : Z * Z) : list instruction :=
  let '(off, w) := x in [Load R8 w Rdi off; Load R9 w Rsi off; Store R8 w Rsi off; Store R9 w Rdi off].

Definition fast_memswap_code (n : Z) : list instruction :=
  concat (map swap_vector (seqZ 0 (n / 16))) ++ concat (map swap_piece (pieces n)) ++ [Answer n].

(** ** What they do *)

Lemma steps_app a b s : steps (a ++ b) s = steps b (steps a s).
Proof. apply foldl_app. Qed.

(** The first [k] bytes are copied, or exchanged. *)
Definition copied (mem : memory) (dest src k : Z) (s : mover) : Prop :=
  rdi s = dest /\ rsi s = src /\ forall x, moved s x = fst (fast_memcpy_n k mem dest src) x.

Definition exchanged (mem : memory) (dest src k : Z) (s : mover) : Prop :=
  rdi s = dest /\ rsi s = src /\ forall x, moved s x = fst (fast_memswap_n k mem dest src) x.

(** Blocks that do not meet, inside the address space. *)
Definition apart (dest src n : Z) : Prop :=
  0 <= dest /\ dest + n <= 2 ^ 64 /\ 0 <= src /\ src + n <= 2 ^ 64 /\ (dest + n <= src \/ src + n <= dest).

Section routines.
Context (mem : memory) (dest src n : Z) (Hapart : apart dest src n).

Lemma read_whole m a w : 0 <= w -> take (Z.to_nat w) (read_bytes m a w) = read_bytes m a w.
Proof. intros Hw. apply take_ge. pose proof (zlen_read m a w Hw). unfold zlen in *. lia. Qed.

Lemma copy_piece_run k w s : 0 <= k -> 0 < w -> k + w <= n -> copied mem dest src k s -> copied mem dest src (k + w) (steps (copy_piece (k, w)) s).
Proof using Hapart.
  intros Hk Hw Hn (Ed & Es & Hm). destruct Hapart as (H1 & H2 & H3 & H4 & H5). split; [done|]. split; [done|]. intros x.
  cbn. rewrite decide_True by done. unfold operand. cbn. rewrite Ed, Es, !u64_small by lia. rewrite read_whole by lia.
  rewrite !write_read, !Hm. cbn [fast_memcpy_n fst]. rewrite !write_read. zcases; try lia; f_equal; lia.
Qed.

Lemma swap_run r r' pieces k w s :
  (pieces = [Load r w Rsi k; Load r' w Rdi k; Store r' w Rsi k; Store r w Rdi k] \/
   pieces = [Load r' w Rdi k; Load r w Rsi k; Store r' w Rsi k; Store r w Rdi k]) -> r <> r' ->
  0 <= k -> 0 < w -> k + w <= n -> exchanged mem dest src k s -> exchanged mem dest src (k + w) (steps pieces s).
Proof using Hapart.
  intros Hp Hr Hk Hw Hn (Ed & Es & Hm). destruct Hapart as (H1 & H2 & H3 & H4 & H5).
  assert (moved (steps pieces s) = write_bytes (write_bytes (moved s) (src + k) (read_bytes (moved s) (dest + k) w)) (dest + k)
    (read_bytes (moved s) (src + k) w) /\ rdi (steps pieces s) = dest /\ rsi (steps pieces s) = src) as (Em & Ed' & Es').
  { destruct Hp as [-> | ->]; cbn; unfold operand; cbn; rewrite Ed, Es, !u64_small by lia;
      rewrite ?(decide_True (P := r = r)), ?(decide_True (P := r' = r')), ?(decide_False (P := r = r')), ?(decide_False (P := r' = r)) by congruence;
      by rewrite !read_whole by lia. }
  split; [done|]. split; [done|]. intros x. rewrite Em, !write_read, !Hm. cbn [fast_memswap_n fst]. rewrite !write_read.
  assert (dest <= x < dest + k \/ dest + k <= x < dest + k + w \/ src <= x < src + k \/ src + k <= x < src + k + w \/
    (x < dest \/ dest + k + w <= x) /\ (x < src \/ src + k + w <= x)) as Hx by lia.
  clear Em Ed' Es' Hp. destruct Hx as [Hx | [Hx | [Hx | [Hx | Hx]]]]; ranges; try done; f_equal; lia.
Qed.

(** The vectors of a copy: all are in registers before the first is stored. *)
Lemma loads_run q s : 0 <= q -> 16 * q <= n -> rsi s = src -> moved s = mem ->
  let s' := steps (map (fun i => Load (Xmm i) 16 Rsi (16 * i)) (seqZ 0 q)) s in
  rdi s' = rdi s /\ rsi s' = src /\ moved s' = mem /\ forall i, 0 <= i < q -> held s' (Xmm i) = read_bytes mem (src + 16 * i) 16.
Proof using Hapart.
  intros Hq Hn Es Em. pose proof Hapart as (_ & _ & H3 & H4 & _). revert Hn. pattern q. apply natlike_ind; [| |exact Hq]; clear q Hq.
  - intros _. cbn. split_and!; try done. lia.
  - intros q Hq IH Hn. rewrite <- Z.add_1_r, seqZ_snoc, map_app, steps_app by lia. cbv zeta in *. destruct IH as (I1 & I2 & I3 & I4); [lia|].
    set (s' := steps _ s) in *. cbn. rewrite I1, I2, I3. split_and!; try done. intros i Hi. unfold operand. rewrite I2, u64_small by lia.
    destruct (decide (i = q)) as [->|Hne]; [by rewrite decide_True|]. rewrite decide_False by congruence. apply I4. lia.
Qed.

Lemma stores_run q s : 0 <= q -> 16 * q <= n -> copied mem dest src 0 s ->
  (forall i, 0 <= i < q -> held s (Xmm i) = read_bytes mem (src + 16 * i) 16) ->
  copied mem dest src (16 * q) (steps (map (fun i => Store (Xmm i) 16 Rdi (16 * i)) (seqZ 0 q)) s).
Proof using Hapart.
  intros Hq Hn Hs Hheld. pose proof Hapart as (H1 & H2 & _). 
  assert (forall j, 0 <= j -> j <= q -> let s' := steps (map (fun i => Store (Xmm i) 16 Rdi (16 * i)) (seqZ 0 j)) s in
    copied mem dest src (16 * j) s' /\ held s' = held s) as H; [|by apply (H q)].
  intros j Hj. pattern j. apply natlike_ind; [| |exact Hj]; clear j Hj.
  - intros _. by split.
  - intros j Hj IH Hjq. rewrite <- Z.add_1_r, seqZ_snoc, map_app, steps_app by lia. cbv zeta in *. destruct IH as ((I1 & I2 & I3) & I4); [lia|].
    set (s' := steps _ s) in *. split; [|exact I4]. split; [exact I1|]. split; [exact I2|]. intros x. cbn. unfold operand.
    rewrite I1, I4, (Hheld j), u64_small, read_whole, write_read, I3 by lia. cbn [fast_memcpy_n fst]. rewrite !write_read. zcases; try lia; f_equal; lia.
Qed.

Lemma swaps_run q s : 0 <= q -> 16 * q <= n -> exchanged mem dest src 0 s ->
  exchanged mem dest src (16 * q) (steps (concat (map swap_vector (seqZ 0 q))) s).
Proof using Hapart.
  intros Hq Hn Hs. revert Hn. pattern q. apply natlike_ind; [| |exact Hq]; clear q Hq; [done|]. intros q Hq IH Hn.
  rewrite <- Z.add_1_r, seqZ_snoc, map_app, concat_app, steps_app by lia. cbn [map concat]. rewrite app_nil_r.
  rewrite Z.add_0_l. replace (16 * (q + 1)) with (16 * q + 16) by lia. apply (swap_run (Xmm 0) (Xmm 1) _ (16 * q)); [by left | done | lia | lia | lia | apply IH; lia].
Qed.

(** The pieces take the count from the vectors to all bytes. *)
Lemma pieces_run (P : Z -> mover -> Prop) (f : Z * Z -> list instruction) s :
  0 <= n -> (forall k w s, 0 <= k -> 0 < w -> k + w <= n -> P k s -> P (k + w) (steps (f (k, w)) s)) ->
  P (16 * (n / 16)) s -> P n (steps (concat (map f (pieces n))) s).
Proof using Type.
  intros Hn0 Hf Hs.
  assert (forall w s, w = 8 \/ w = 4 \/ w = 2 \/ w = 1 -> P (2 * w * (n / (2 * w))) s ->
    P (w * (n / w)) (steps (concat (map f (if Z.odd (n / w) then [(2 * w * (n / (2 * w)), w)] else []))) s)) as Hstep.
  { intros w s' Hw HP. pose proof (Zmod_odd (n / w)) as Ho. destruct (Z.odd (n / w)).
    - cbn [map concat]. rewrite app_nil_r. replace (w * (n / w)) with (2 * w * (n / (2 * w)) + w) by (destruct Hw as [-> | [-> | [-> | ->]]]; zdiv).
      apply Hf; [| | |exact HP]; destruct Hw as [-> | [-> | [-> | ->]]]; zdiv.
    - cbn. replace (w * (n / w)) with (2 * w * (n / (2 * w))) by (destruct Hw as [-> | [-> | [-> | ->]]]; zdiv). exact HP. }
  unfold pieces. cbn [map concat]. rewrite app_nil_r, !map_app, !concat_app, !steps_app.
  match goal with |- P n ?x => cut (P (1 * (n / 1)) x); [by rewrite Z.div_1_r, Z.mul_1_l|] end. apply (Hstep 1); [auto|]. apply (Hstep 2); [auto|]. apply (Hstep 4); [auto|]. apply (Hstep 8); [auto|]. exact Hs.
Qed.
End routines.

(** C40: The 512 copy and exchange routines.  Run on blocks that do not meet, [fast_memcpyN] leaves memory as
    [fast_memcpy_n] says and [fast_memswapN] as [fast_memswap_n] says, for every number of bytes in the tables of the C
    code; each answers with its number of bytes. *)
Theorem routines_move held0 mem dest src answer0 :
  Forall (fun n => apart dest src n ->
    let s := {| held := held0; rsi := src; rdi := dest; moved := mem; answer := answer0 |} in
    let c := steps (fast_memcpy_code n) s in
    let e := steps (fast_memswap_code n) s in
    (forall x, moved c x = fst (fast_memcpy_n n mem dest src) x) /\ answer c = snd (fast_memcpy_n n mem dest src) /\
    (forall x, moved e x = fst (fast_memswap_n n mem dest src) x) /\ answer e = snd (fast_memswap_n n mem dest src))
    (init_fast_memcpy_handlers ++ init_fast_memswap_handlers).
Proof.
  apply Forall_forall. intros n Hn Ha. cbv zeta.
  assert (1 <= n) as H1.
  { unfold init_fast_memcpy_handlers, init_fast_memswap_handlers in Hn. rewrite elem_of_app, !elem_of_cons, !elem_of_seqZ in Hn. lia. }
  set (s := {| held := held0; rsi := src; rdi := dest; moved := mem; answer := answer0 |}).
  assert (copied mem dest src 0 s /\ exchanged mem dest src 0 s) as [Hc He]
    by (split; (split; [done|]; split; [done|]; intros x; cbn [fast_memcpy_n fast_memswap_n fst]; rewrite ?write_read; zcases; lia || done)).
  assert (0 <= n / 16 /\ 16 * (n / 16) <= n) as [Hq0 Hq] by zdiv.
  destruct (loads_run mem dest src n Ha (n / 16) s Hq0 Hq eq_refl eq_refl) as (L1 & L2 & L3 & L4).
  unfold fast_memcpy_code, fast_memswap_code. rewrite !steps_app. set (s1 := steps _ s) in *.
  assert (copied mem dest src 0 s1) as Hc1 by (split; [exact L1|]; split; [exact L2|]; intros x; rewrite L3; cbn [fast_memcpy_n fst]; rewrite write_read; zcases; lia || done).
  pose proof (stores_run mem dest src n Ha (n / 16) s1 Hq0 Hq Hc1 L4) as Hc2.
  pose proof (pieces_run n (copied mem dest src) copy_piece _ ltac:(lia) (copy_piece_run mem dest src n Ha) Hc2) as (_ & _ & Hcopy).
  pose proof (pieces_run n (exchanged mem dest src) swap_piece _ ltac:(lia)
    (fun k w s H1 H2 H3 => swap_run mem dest src n Ha R9 R8 (swap_piece (k, w)) k w s (or_intror eq_refl) ltac:(discriminate) H1 H2 H3)
    (swaps_run mem dest src n Ha (n / 16) s Hq0 Hq He)) as (_ & _ & Hswap).
  split; [exact Hcopy|]. split; [reflexivity|]. split; [exact Hswap | reflexivity].
Qed.
