(* ===== verification/Strings.v ===== *)
(** * Strings: [sources/misc/MemoryUtilities.c]

    The functions of this file are C over five assembly routines, [strlen],
    [memcmp], [rmemcmp], [scanc] and [rscanc].  What they are good for is the class
    [RoutinesOk]: the promises of [headers/misc/MemoryUtilities.h], for the lengths
    for which the assembly keeps them.  The theorems on the C code are proved from
    the class; [assembly], the code of MemoryAsm.v, is its instance.  A null
    pointer is 0. *)

From S2P Require Import Prelude FastMem Asm MemoryAsm MemoryRoutines.

#[local] Open Scope Z_scope.

Definition NULL : Z := 0.

(** ** The assembly routines *)

Class Routines := {
  strlen : memory -> Z -> option Z;
  memcmp : memory -> Z -> Z -> Z -> Z;
  rmemcmp : memory -> Z -> Z -> Z -> Z;
  scanc : memory -> Z -> Z -> Z -> Z;
  rscanc : memory -> Z -> Z -> Z -> Z
}.

(** [p + k] is the first, or the last, of [n] addresses that passes a test. *)
Definition is_first (P : Z -> bool) (p n r : Z) : Prop :=
  (r = NULL /\ forall k, 0 <= k < n -> P k = false) \/
  exists k, r = p + k /\ 0 <= k < n /\ P k = true /\ forall j, 0 <= j < k -> P j = false.

Definition is_last (P : Z -> bool) (p n r : Z) : Prop :=
  (r = NULL /\ forall k, 0 <= k < n -> P k = false) \/
  exists k, r = p + k /\ 0 <= k < n /\ P k = true /\ forall j, k < j < n -> P j = false.

Definition differ (mem : memory) (p q k : Z) : bool := negb (mem (p + k) =? mem (q + k)).

(** Blocks of [n] bytes in the address space. *)
Definition in_space (p n : Z) : Prop := 0 < p /\ p + n <= 2 ^ 64.

Class RoutinesOk `{Routines} : Prop := {
  strlen_ok mem p s : cstring mem p s -> 0 < p -> p + zlen s < 2 ^ 64 -> strlen mem p = Some (zlen s);
  memcmp_ok mem p q n : in_space p n -> in_space q n -> 0 <= n -> is_first (differ mem p q) p n (memcmp mem p q n);
  rmemcmp_ok mem p q n : in_space p n -> in_space q n -> whole 8 n -> is_last (differ mem p q) p n (rmemcmp mem p q n);
  scanc_ok mem p c n : in_space p n -> 0 <= c < 256 -> 0 < n -> is_first (fun k => mem (p + k) =? c) p n (scanc mem p c n);
  rscanc_ok mem p c n : in_space p n -> 0 <= c < 256 -> 0 < n -> is_last (fun k => mem (p + k) =? c) p n (rscanc mem p c n)
}.

(** A call of a routine from C: what RAX holds when it returns. *)
Definition returned `{Processor} (c : code) (mem : memory) (a b n : Z) : option Z := option_map rax (call c idle mem a b n).
Definition result_of `{Processor} (c : code) (mem : memory) (a b n : Z) : Z := default NULL (returned c mem a b n).

#[export] Instance assembly `{Processor} : Routines := {
  strlen mem p := returned asm_strlen mem p 0 0;
  memcmp mem p q n := result_of asm_memcmp mem p q n;
  rmemcmp mem p q n := result_of asm_rmemcmp mem p q n;
  scanc mem p c n := result_of asm_scan8 mem p c n;
  rscanc mem p c n := result_of asm_rscan8 mem p c n
}.

(** Examples run on the processor of Asm.v that keeps ZF. *)
#[export] Existing Instances keeping keeping_keeps.

(** ** MemoryUtilities.c *)

Section functions.
Context `{Routines}.

(** The shifts of the two searches, from a mismatch at [ptr]; [None] when the
    string has no end. *)
Fixpoint strstr_loop (fuel : nat) (mem : memory) (p_needle needle_len haystack_end temp : Z) : option Z :=
  match fuel with
  | O => None
  | S fuel =>
      if temp + needle_len <=? haystack_end then
        let ptr := rmemcmp mem temp p_needle needle_len in
        if ptr =? NULL then Some temp
        else if ptr =? temp then strstr_loop fuel mem p_needle needle_len haystack_end (temp + 1)
        else
          let ptr1 := rscanc mem p_needle (mem ptr) (ptr - temp) in
          if ptr1 =? NULL then strstr_loop fuel mem p_needle needle_len haystack_end (temp + needle_len)
          else n ← strlen mem ptr1; strstr_loop fuel mem p_needle needle_len haystack_end (temp + (n - 1))
      else Some NULL
  end.

(** One round for every place where the needle could start, and one to leave. *)
Definition strstr (mem : memory) (p_haystack p_needle : Z) : option Z :=
  haystack_len ← strlen mem p_haystack;
  needle_len ← strlen mem p_needle;
  if haystack_len <? needle_len then Some NULL
  else strstr_loop (Z.to_nat (haystack_len + 2)) mem p_needle needle_len (p_haystack + haystack_len) p_haystack.

Fixpoint scanmem_loop (fuel : nat) (mem : memory) (p_needle p_needle_len haystack_end temp : Z) : option Z :=
  match fuel with
  | O => None
  | S fuel =>
      if temp + p_needle_len <=? haystack_end then
        let ptr := rmemcmp mem temp p_needle p_needle_len in
        if ptr =? NULL then Some temp
        else if ptr =? temp then scanmem_loop fuel mem p_needle p_needle_len haystack_end (temp + 1)
        else
          let ptr1 := rscanc mem p_needle (mem ptr) (ptr - temp) in
          if ptr1 =? NULL then scanmem_loop fuel mem p_needle p_needle_len haystack_end (temp + 1)
          else scanmem_loop fuel mem p_needle p_needle_len haystack_end (temp + ((p_needle_len - (ptr1 - p_needle)) - 1))
      else Some NULL
  end.

Definition scanmem (mem : memory) (p_haystack p_needle p_haystack_len p_needle_len : Z) : option Z :=
  if p_haystack_len <? p_needle_len then Some NULL
  else scanmem_loop (Z.to_nat (p_haystack_len + 2)) mem p_needle p_needle_len (p_haystack + p_haystack_len) p_haystack.

(** [memcpy] of regions that do not overlap. *)
Definition memcpy (mem : memory) (dest src n : Z) : memory := write_bytes mem dest (read_bytes mem src n).

Definition strncat (mem : memory) (p_dest p_src p_len : Z) : option memory :=
  n ← strlen mem p_dest; Some (memcpy mem (p_dest + n) p_src p_len).

Definition strcat (mem : memory) (p_dest p_src : Z) : option memory :=
  n ← strlen mem p_dest; l ← strlen mem p_src; Some (memcpy mem (p_dest + n) p_src (l + 1)).

Definition strncpy (mem : memory) (p_dest p_src p_len : Z) : memory := memcpy mem p_dest p_src p_len.

Definition strcpy (mem : memory) (p_dest p_src : Z) : option memory :=
  l ← strlen mem p_src; Some (memcpy mem p_dest p_src (l + 1)).

Definition strcmp (mem : memory) (p_dest p_src : Z) : option Z :=
  l_dest ← strlen mem p_dest;
  l_src ← strlen mem p_src;
  let len := if l_src <? l_dest then l_src else l_dest in
  let result := memcmp mem p_dest p_src len in
  Some (if negb (result =? NULL) then result
        else if l_src <? l_dest then u64 (p_dest + (len - 1))
        else if l_dest <? l_src then u64 (p_src + (len - 1))
        else NULL).

(** [char] is signed. *)
Definition lstrcmp (mem : memory) (p_dest p_src : Z) : option Z :=
  l_dest ← strlen mem p_dest;
  l_src ← strlen mem p_src;
  Some (if l_src <? l_dest then 1
        else if l_dest <? l_src then -1
        else
          let diff := memcmp mem p_dest p_src l_dest in
          if diff =? NULL then 0
          else if s8 (mem (p_src + (diff - p_dest))) <? s8 (mem (p_dest + (diff - p_dest))) then 1
          else -1).
End functions.

(** ** Lemmas *)

Lemma cstring_char mem p s k : cstring mem p s -> 0 <= k < zlen s -> exists c, zget s k = Some c /\ mem (p + k) = c /\ 0 < c < 256.
Proof.
  intros (Hr & _ & Hs) Hk. destruct (zget_some s k Hk) as [c Hc]. exists c. split; [done|].
  pose proof Hc as Hc'. rewrite <- Hr, zget_read in Hc'. 
  replace ((0 <=? k) && (k <? zlen s)) with true in Hc' by (symmetry; apply andb_true_iff; lia). injection Hc' as Hc'.
  split; [done|]. unfold zget in Hc. destruct (0 <=? k); [|done]. by eapply Forall_lookup_1 in Hs.
Qed.

Lemma differ_false mem p q k : differ mem p q k = false <-> mem (p + k) = mem (q + k).
Proof. unfold differ. by rewrite negb_false_iff, Z.eqb_eq. Qed.

(** What a contract of MemoryAsm.v says of bytes. *)
Lemma differs_byte mem p q k : differs 1 q p mem k = differ mem p q k.
Proof.
  unfold differs, differ. f_equal. destruct (same 1 1 q p mem k) eqn:Es; symmetry.
  - apply Z.eqb_eq. pose proof (proj1 (same_iff 1 1 q p mem k) Es 0 ltac:(lia)) as H.
    replace (p + k) with (p + 1 * k + 0) by lia. replace (q + k) with (q + 1 * k + 0) by lia. done.
  - apply Z.eqb_neq. intros E. apply not_true_iff_false in Es. apply Es, same_iff. intros i Hi. replace i with 0 by lia.
    replace (p + 1 * k + 0) with (p + k) by lia. replace (q + 1 * k + 0) with (q + k) by lia. done.
Qed.

Lemma found_byte mem p c k : 0 <= c < 256 -> found 1 1 p (le_bytes (Z.to_nat 1) c) mem k = (mem (p + k) =? c).
Proof.
  intros Hc. unfold found. change (le_bytes (Z.to_nat 1) c) with [c mod 256]. rewrite Z.mod_small by lia.
  change (read_bytes mem (p + 1 * k) 1) with [mem (p + 1 * k)]. replace (p + 1 * k) with (p + k) by lia.
  destruct (Z.eqb_spec (mem (p + k)) c) as [->|Hne]; [by apply bool_decide_true | apply bool_decide_false; congruence].
Qed.

Lemma finds_is_first P Q p n r : (forall k, P k = Q k) -> finds false P 1 p n r -> is_first Q p n r.
Proof.
  intros HPQ [[-> H] | (k & -> & Hk & HP & Hj)]; [left | right].
  - split; [done|]. intros k Hk. rewrite <- HPQ. by apply H.
  - exists k. rewrite <- HPQ. split_and!; [lia | lia | lia | done |]. intros j Hlt. rewrite <- HPQ. apply Hj; lia.
Qed.

Lemma finds_is_last P Q p n r : (forall k, P k = Q k) -> finds true P 1 p n r -> is_last Q p n r.
Proof.
  intros HPQ [[-> H] | (k & -> & Hk & HP & Hj)]; [left | right].
  - split; [done|]. intros k Hk. rewrite <- HPQ. by apply H.
  - exists k. rewrite <- HPQ. split_and!; [lia | lia | lia | done |]. intros j Hlt. rewrite <- HPQ. apply Hj; lia.
Qed.

Lemma answer_yields `{Processor} len k c mem a b n : meets_for len k c -> 0 <= n < 2 ^ 64 -> len n -> accepts k mem a b n ->
  exists s, returned c mem a b n = Some (rax s) /\ result_of c mem a b n = rax s /\ yields k mem a b n s.
Proof.
  intros Hc Hn Hl Ha. destruct (Hc idle mem a b n Hn Hl Ha) as (s & Hr & Hy & _). exists s. unfold result_of, returned. by rewrite Hr.
Qed.

#[export] Instance assembly_ok `{DivKeeps} : RoutinesOk.
Proof.
  split.
  - intros mem p s Hs Hp Hl. destruct (answer_yields _ _ _ mem p 0 0 meets_strlen) as (s' & Hr & _ & _ & Hy); [lia | done | by exists s |].
    cbn [strlen assembly]. rewrite Hr. f_equal. by apply Hy.
  - intros mem p q n [Hp Hp'] [Hq Hq'] Hn. destruct (meets_compares _) as (Hc & _).
    destruct (answer_yields _ _ _ mem p q n Hc) as (s' & _ & Hr & _ & Hy); [lia | done | cbn [accepts]; lia |].
    cbn [memcmp assembly]. rewrite Hr. eapply finds_is_first; [|exact Hy]. intros k. apply differs_byte.
  - intros mem p q n [Hp Hp'] [Hq Hq'] Hn. pose proof Hn as [Hn' _].
    destruct (answer_yields _ _ _ mem p q n meets_rmemcmp) as (s' & _ & Hr & _ & Hy); [lia | done | cbn [accepts]; lia |].
    cbn [rmemcmp assembly]. rewrite Hr. eapply finds_is_last; [|exact Hy]. intros k. apply differs_byte.
  - intros mem p c n [Hp Hp'] Hc Hn. destruct meets_scans as ((Hs & _) & _).
    destruct (answer_yields _ _ _ mem p c n Hs) as (s' & _ & Hr & _ & Hy); [lia | done | cbn [accepts]; lia |].
    cbn [scanc assembly]. rewrite Hr. eapply finds_is_first; [|exact Hy]. intros k. by apply found_byte.
  - intros mem p c n [Hp Hp'] Hc Hn. destruct meets_scans as (_ & Hs & _).
    destruct (answer_yields _ _ _ mem p c n Hs) as (s' & _ & Hr & _ & Hy); [lia | done | cbn [accepts]; lia |].
    cbn [rscanc assembly]. rewrite Hr. eapply finds_is_last; [|exact Hy]. intros k. by apply found_byte.
Qed.

Lemma cstring_suffix mem p s k : cstring mem p s -> 0 <= k <= zlen s ->
  exists t, cstring mem (p + k) t /\ zlen t = zlen s - k.
Proof.
  intros (Hr & He & Hs) Hk. exists (drop (Z.to_nat k) s).
  assert (zlen (drop (Z.to_nat k) s) = zlen s - k) as Hl by (unfold zlen in *; rewrite length_drop; lia).
  split; [split_and!|done].
  - rewrite Hl. rewrite <- Hr at 2. apply zget_ext.
    + rewrite length_drop. unfold read_bytes. rewrite !length_map, !length_seqZ. lia.
    + intros i Hi. rewrite zlen_read in Hi by lia. rewrite zget_read.
      replace ((0 <=? i) && (i <? zlen s - k)) with true by (symmetry; apply andb_true_iff; lia).
      unfold zget. bdestr (0 <=? i); [|lia]. rewrite lookup_drop.
      replace (Z.to_nat k + Z.to_nat i)%nat with (Z.to_nat (k + i)) by lia.
      pose proof (zget_read mem p (zlen s) (k + i)) as E. unfold zget in E. bdestr (0 <=? k + i); [|lia].
      rewrite E. bdestr (k + i <? zlen s); [|lia]. cbn. do 2 f_equal. lia.
  - rewrite Hl. replace (p + k + (zlen s - k)) with (p + zlen s) by lia. done.
  - by apply Forall_drop.
Qed.

(** The needle lies at [a]. *)
Definition occurs (mem : memory) (n : list Z) (a : Z) : Prop := read_bytes mem a (zlen n) = n.

Lemma occurs_differ mem q n a : cstring mem q n ->
  occurs mem n a <-> forall k, 0 <= k < zlen n -> differ mem a q k = false.
Proof.
  intros (Hr & _). unfold occurs. split.
  - intros E k Hk. apply differ_false. pose proof (read_bytes_at _ _ _ _ k E Hk). pose proof (read_bytes_at _ _ _ _ k Hr Hk). congruence.
  - intros H. transitivity (read_bytes mem q (zlen n)); [|done]. apply read_bytes_equal. intros k Hk. by apply differ_false, H.
Qed.

Section proofs.
Context {R : Routines} {Rok : RoutinesOk}.

Lemma strcmp_spec mem p q s t :
  cstring mem p s -> cstring mem q t -> 1 < p -> 1 < q -> p + zlen s < 2 ^ 64 -> q + zlen t < 2 ^ 64 ->
  exists r, strcmp mem p q = Some r /\ (r = NULL <-> s = t).
Proof.
  intros Hs Ht Hp Hq Hps Hqt. unfold strcmp. pose proof (Zle_0_nat (length s)). pose proof (Zle_0_nat (length t)).
  fold (zlen s) (zlen t) in *.
  rewrite (strlen_ok mem p s Hs), (strlen_ok mem q t Ht) by lia. cbn [mbind option_bind]. eexists. split; [done|].
  set (len := if zlen t <? zlen s then zlen t else zlen s).
  assert (0 <= len <= zlen s /\ len <= zlen t /\ (len = zlen s \/ len = zlen t)) as Hlen by (subst len; zcases; lia).
  destruct (memcmp_ok mem p q len) as [[-> Heq] | (k & -> & Hk & Hd & _)]; [unfold in_space; lia | unfold in_space; lia | lia | |].
  - rewrite Z.eqb_refl. cbn [negb]. destruct (Z.ltb_spec (zlen t) (zlen s)); [|destruct (Z.ltb_spec (zlen s) (zlen t))].
    + unfold NULL. rewrite u64_small by lia. split; [lia|]. intros ->. lia.
    + unfold NULL. rewrite u64_small by lia. split; [lia|]. intros ->. lia.
    + split; [intros _|done]. assert (len = zlen s) as El by lia. assert (zlen t = zlen s) as Et by lia.
      destruct Hs as (Hs & _), Ht as (Ht & _). rewrite <- Hs, <- Ht, Et. apply read_bytes_equal.
      intros k Hk. apply differ_false, Heq. lia.
  - unfold NULL. replace (p + k =? 0) with false by (symmetry; apply Z.eqb_neq; lia). cbn [negb].
    split; [lia|]. intros ->. apply not_false_iff_true in Hd. destruct Hd. apply differ_false.
    destruct (cstring_char mem p t k) as (c & Hc & -> & _); [done | lia |].
    destruct (cstring_char mem q t k) as (c' & Hc' & -> & _); [done | lia |]. congruence.
Qed.

(** What a round of the searches learns: an occurrence, or the place of the last difference. *)
Lemma strstr_loop_spec fuel mem q n hend : cstring mem q n -> 0 < q -> q + zlen n < 2 ^ 64 -> whole 8 (zlen n) -> hend < 2 ^ 64 ->
  forall temp, 0 < temp -> (forall b, temp <= b < hend -> 0 <= mem b < 256) -> hend - zlen n - temp + 1 < Z.of_nat fuel -> 0 < Z.of_nat fuel ->
  exists r, strstr_loop fuel mem q (zlen n) hend temp = Some r /\
    (r = NULL \/ (temp <= r /\ r + zlen n <= hend /\ occurs mem n r)) /\
    (zlen n <= 2 -> forall a, temp <= a -> a + zlen n <= hend -> (r = NULL \/ a < r) -> ~ occurs mem n a).
Proof.
  intros Hn Hq Hlen Hwhole Htop. pose proof Hwhole as [Hpos _]. induction fuel as [|fuel IH]; intros temp Htemp Hbytes Hfuel Hf0; [lia|].
  cbn [strstr_loop].
  destruct (Z.leb_spec (temp + zlen n) hend) as [Hle|Hgt].
  2:{ exists NULL. split_and!; [done | by left | intros _ a Ha Ha'; lia]. }
  destruct (rmemcmp_ok mem temp q (zlen n)) as [[-> Heq] | (k & -> & Hk & Hd & Hafter)]; [unfold in_space; lia | unfold in_space; lia | done | |].
  { rewrite Z.eqb_refl. exists temp. split_and!; [done | right; split_and!; [lia | lia | by apply (occurs_differ mem q)] |].
    intros _ a Ha _ [-> | Hlt]; [unfold NULL in *; lia | lia]. }
  unfold NULL at 1. replace (temp + k =? 0) with false by (symmetry; apply Z.eqb_neq; lia).
  assert (~ occurs mem n temp) as Hno.
  { intros Ho. rewrite (occurs_differ mem q) in Ho by done. specialize (Ho k ltac:(lia)). congruence. }
  (* going on from [temp + d] *)
  assert (forall d, 0 < d -> (zlen n <= 2 -> d = 1 \/ (d = 2 /\ ~ occurs mem n (temp + 1))) ->
    exists r, strstr_loop fuel mem q (zlen n) hend (temp + d) = Some r /\
      (r = NULL \/ (temp <= r /\ r + zlen n <= hend /\ occurs mem n r)) /\
      (zlen n <= 2 -> forall a, temp <= a -> a + zlen n <= hend -> (r = NULL \/ a < r) -> ~ occurs mem n a)) as Hgo.
  { intros d Hd0 Hshort. destruct (IH (temp + d)) as (r & -> & Hr & Hc); [lia | intros; apply Hbytes; lia | lia | lia |]. exists r.
    split_and!; [done | |].
    - destruct Hr as [-> | (? & ? & ?)]; [by left | right; split_and!; try done; lia].
    - intros H2 a Ha Hend Hr'. destruct (Hshort H2) as [-> | [-> Hno1]];
        [destruct (decide (a = temp)) as [->|] | destruct (decide (a = temp)) as [->|]; [|destruct (decide (a = temp + 1)) as [->|]]];
        try done; apply Hc; try done; lia. }
  destruct (Z.eqb_spec (temp + k) temp) as [Ek|Ek]; [apply Hgo; [lia | by left]|].
  replace (temp + k - temp) with k by lia.
  destruct (rscanc_ok mem q (mem (temp + k)) k) as [[-> Hnone] | (i & -> & Hi & Hfound & _)]; [unfold in_space; lia | apply Hbytes; lia | lia | |].
  - rewrite Z.eqb_refl. apply Hgo; [lia|]. intros H2. right. split; [lia|]. intros Ho.
    rewrite (occurs_differ mem q) in Ho by done. specialize (Ho 0 ltac:(lia)). apply differ_false in Ho.
    specialize (Hnone 0 ltac:(lia)). cbv beta in Hnone. rewrite Z.eqb_neq in Hnone. apply Hnone.
    rewrite <- Ho. f_equal. lia.
  - unfold NULL at 1. replace (q + i =? 0) with false by (symmetry; apply Z.eqb_neq; lia).
    destruct (cstring_suffix mem q n i Hn) as (t & Ht & Hl); [lia|].
    rewrite (strlen_ok mem (q + i) t Ht) by lia. cbn [mbind option_bind]. apply Hgo; [lia|]. left. lia.
Qed.

Lemma strstr_spec mem p q h n :
  cstring mem p h -> cstring mem q n -> 0 < p -> 0 < q -> p + zlen h < 2 ^ 64 -> q + zlen n < 2 ^ 64 -> whole 8 (zlen n) ->
  exists r, strstr mem p q = Some r /\
    (r = NULL \/ (p <= r /\ r + zlen n <= p + zlen h /\ occurs mem n r)) /\
    (zlen n <= 2 -> forall a, p <= a -> a + zlen n <= p + zlen h -> (r = NULL \/ a < r) -> ~ occurs mem n a).
Proof.
  intros Hh Hn Hp Hq Hlh Hln H0. pose proof H0 as [Hpos _]. unfold strstr. rewrite (strlen_ok mem p h Hh), (strlen_ok mem q n Hn) by lia. cbn [mbind option_bind].
  destruct (Z.ltb_spec (zlen h) (zlen n)).
  - exists NULL. split_and!; [done | by left | intros; lia].
  - apply strstr_loop_spec; try done; try lia. intros b Hb. replace b with (p + (b - p)) by lia.
    destruct (cstring_char mem p h (b - p)) as (c & _ & -> & Hc); [done | lia | lia].
Qed.
End proofs.

(** Order by length, then by the first difference. *)
Fixpoint char_order (s t : list Z) : Z :=
  match s, t with
  | a :: s, b :: t => if a =? b then char_order s t else if s8 b <? s8 a then 1 else -1
  | _, _ => 0
  end.

Definition shortlex (s t : list Z) : Z :=
  if zlen t <? zlen s then 1 else if zlen s <? zlen t then -1 else char_order s t.

Lemma char_order_refl s : char_order s s = 0.
Proof. induction s as [|a s IH]; [done|]. simpl. by rewrite Z.eqb_refl. Qed.

Lemma char_order_nat s t k a b : s !! k = Some a -> t !! k = Some b -> a <> b ->
  (forall j, (j < k)%nat -> s !! j = t !! j) -> char_order s t = if s8 b <? s8 a then 1 else -1.
Proof.
  revert s t. induction k as [|k IH]; intros [|x s] [|y t]; try done; simpl; intros Ha Hb Hne Hj.
  - injection Ha as ->. injection Hb as ->. by bdestr (a =? b).
  - specialize (Hj 0%nat ltac:(lia)) as Hxy. injection Hxy as ->. rewrite Z.eqb_refl. apply (IH s t Ha Hb Hne).
    intros j Hlt. exact (Hj (S j) ltac:(lia)).
Qed.

Lemma char_order_first s t k a b : zget s k = Some a -> zget t k = Some b -> a <> b ->
  (forall j, 0 <= j < k -> zget s j = zget t j) -> char_order s t = if s8 b <? s8 a then 1 else -1.
Proof.
  intros Ha Hb Hne Hj. pose proof (zget_lt _ _ _ Ha) as Hk. unfold zget in *. bdestr (0 <=? k); [|lia].
  apply (char_order_nat s t (Z.to_nat k)); try done. intros j Hlt. specialize (Hj (Z.of_nat j) ltac:(lia)).
  bdestr (0 <=? Z.of_nat j); [|lia]. by rewrite Nat2Z.id in Hj.
Qed.

Section more.
Context {R : Routines} {Rok : RoutinesOk}.

Lemma lstrcmp_spec mem p q s t :
  cstring mem p s -> cstring mem q t -> 0 < p -> 0 < q -> p + zlen s < 2 ^ 64 -> q + zlen t < 2 ^ 64 ->
  lstrcmp mem p q = Some (shortlex s t).
Proof.
  intros Hs Ht Hp Hq Hps Hqt. unfold lstrcmp, shortlex. pose proof (Zle_0_nat (length s)). pose proof (Zle_0_nat (length t)).
  fold (zlen s) (zlen t) in *.
  rewrite (strlen_ok mem p s Hs), (strlen_ok mem q t Ht) by lia. cbn [mbind option_bind]. f_equal.
  destruct (Z.ltb_spec (zlen t) (zlen s)); [done|]. destruct (Z.ltb_spec (zlen s) (zlen t)); [done|].
  destruct (memcmp_ok mem p q (zlen s)) as [[-> Heq] | (k & -> & Hk & Hd & Hb)]; [unfold in_space; lia | unfold in_space; lia | lia | |].
  - rewrite Z.eqb_refl. replace t with s; [by rewrite char_order_refl|]. destruct Hs as (Hs & _), Ht as (Ht & _).
    rewrite <- Hs, <- Ht. replace (zlen t) with (zlen s) by lia. apply read_bytes_equal. intros k Hk. by apply differ_false, Heq.
  - unfold NULL. replace (p + k =? 0) with false by (symmetry; apply Z.eqb_neq; lia).
    replace (p + k - p) with k by lia.
    destruct (cstring_char mem p s k) as (c & Hc & -> & _); [done | lia |].
    destruct (cstring_char mem q t k) as (c' & Hc' & Ec' & _); [done | lia |]. rewrite Ec'. symmetry.
    apply (char_order_first s t k); try done.
    + intros ->. apply not_false_iff_true in Hd. destruct Hd. apply differ_false.
      destruct (cstring_char mem p s k) as (d & Hd' & -> & _); [done | lia |]. congruence.
    + intros j Hj. specialize (Hb j Hj). apply differ_false in Hb.
      destruct (cstring_char mem p s j) as (d & -> & Ed & _); [done | lia |].
      destruct (cstring_char mem q t j) as (d' & -> & Ed' & _); [done | lia |]. congruence.
Qed.

Lemma scanmem_loop_spec fuel mem q len hend : in_space q len -> whole 8 len -> hend <= 2 ^ 64 ->
  forall temp, 0 < temp -> (forall b, temp <= b < hend -> 0 <= mem b < 256) -> hend - len - temp + 1 < Z.of_nat fuel -> 0 < Z.of_nat fuel ->
  exists r, scanmem_loop fuel mem q len hend temp = Some r /\
    (r = NULL \/ (temp <= r /\ r + len <= hend /\ read_bytes mem r len = read_bytes mem q len)).
Proof.
  intros Hq Hwhole Hend. pose proof Hq as [Hq0 _]. pose proof Hwhole as [Hpos _].
  induction fuel as [|fuel IH]; intros temp Htemp Hbytes Hfuel Hf0; [lia|]. cbn [scanmem_loop].
  destruct (Z.leb_spec (temp + len) hend) as [Hle|Hgt]; [|exists NULL; split; [done | by left]].
  destruct (rmemcmp_ok mem temp q len) as [[-> Heq] | (k & -> & Hk & Hd & _)]; [unfold in_space; lia | done | done | |].
  { rewrite Z.eqb_refl. exists temp. split; [done|]. right. split_and!; [lia | lia |].
    apply read_bytes_equal. intros k Hk. by apply differ_false, Heq. }
  unfold NULL at 1. replace (temp + k =? 0) with false by (symmetry; apply Z.eqb_neq; lia).
  assert (forall d, 0 < d -> exists r, scanmem_loop fuel mem q len hend (temp + d) = Some r /\
    (r = NULL \/ (temp <= r /\ r + len <= hend /\ read_bytes mem r len = read_bytes mem q len))) as Hgo.
  { intros d Hd0. destruct (IH (temp + d)) as (r & -> & Hr); [lia | intros; apply Hbytes; lia | lia | lia |]. exists r. split; [done|].
    destruct Hr as [-> | (? & ? & ?)]; [by left | right; split_and!; try done; lia]. }
  destruct (Z.eqb_spec (temp + k) temp) as [Ek|Ek]; [apply Hgo; lia|]. replace (temp + k - temp) with k by lia.
  destruct (rscanc_ok mem q (mem (temp + k)) k) as [[-> _] | (i & -> & Hi & _)]; [unfold in_space in *; lia | apply Hbytes; lia | lia | |].
  - rewrite Z.eqb_refl. apply Hgo. lia.
  - unfold NULL at 1. replace (q + i =? 0) with false by (symmetry; apply Z.eqb_neq; lia). apply Hgo. lia.
Qed.

Lemma scanmem_spec mem p q hlen len : in_space p hlen -> in_space q len -> 0 <= hlen -> whole 8 len ->
  (forall b, p <= b < p + hlen -> 0 <= mem b < 256) ->
  exists r, scanmem mem p q hlen len = Some r /\
    (r = NULL \/ (p <= r /\ r + len <= p + hlen /\ read_bytes mem r len = read_bytes mem q len)).
Proof.
  intros [Hp Hp'] Hq Hh Hlen Hbytes. pose proof Hlen as [Hpos _]. unfold scanmem. destruct (Z.ltb_spec hlen len); [exists NULL; split; [done | by left]|].
  apply scanmem_loop_spec; done || lia.
Qed.

Lemma memcpy_out mem dest src n b : b < dest \/ dest + Z.max 0 n <= b -> memcpy mem dest src n b = mem b.
Proof. intros Hb. apply write_bytes_out. unfold read_bytes, zlen. rewrite length_map, length_seqZ. lia. Qed.

Lemma memcpy_in mem dest src n k : 0 <= k < n -> memcpy mem dest src n (dest + k) = mem (src + k).
Proof. intros Hk. unfold memcpy. rewrite write_read, range_true by lia. f_equal. lia. Qed.

(** A string, copied with its terminator. *)
Lemma cstring_copied mem p t d : cstring mem p t ->
  cstring (memcpy mem d p (zlen t + 1)) d t.
Proof.
  intros (Hr & He & Hs). pose proof (Zle_0_nat (length t)). fold (zlen t) in *. split_and!; [|by rewrite memcpy_in by lia|done].
  rewrite <- Hr at 3. apply zget_ext; [unfold read_bytes; by rewrite !length_map, !length_seqZ|].
  intros i Hi. rewrite zlen_read in Hi by lia. rewrite !zget_read, memcpy_in by lia. done.
Qed.

Lemma cstring_app mem p s t : cstring mem (p + zlen s) t -> read_bytes mem p (zlen s) = s -> Forall (fun c => 0 < c < 256) s ->
  cstring mem p (s ++ t).
Proof.
  intros (Hr & He & Ht) Hs Hs'. assert (zlen (s ++ t) = zlen s + zlen t) as El by (unfold zlen; rewrite length_app; lia).
  split_and!; [rewrite El, read_bytes_app by (unfold zlen; lia); by rewrite Hs, Hr | by rewrite El, Z.add_assoc | by apply Forall_app].
Qed.

Lemma strcpy_spec mem p q t : cstring mem q t -> 0 < q -> q + zlen t < 2 ^ 64 ->
  exists mem', strcpy mem p q = Some mem' /\ cstring mem' p t /\ forall b, b < p \/ p + zlen t < b -> mem' b = mem b.
Proof.
  intros Ht Hq Hl. unfold strcpy. rewrite (strlen_ok mem q t Ht) by lia. cbn [mbind option_bind].
  eexists. split_and!; [done | by apply cstring_copied |]. intros b Hb. apply memcpy_out. unfold zlen in *. lia.
Qed.

Lemma strcat_spec mem p q s t : cstring mem p s -> cstring mem q t -> 0 < p -> 0 < q -> p + zlen s < 2 ^ 64 -> q + zlen t < 2 ^ 64 ->
  exists mem', strcat mem p q = Some mem' /\ cstring mem' p (s ++ t) /\
    forall b, b < p + zlen s \/ p + zlen s + zlen t < b -> mem' b = mem b.
Proof.
  intros Hs Ht Hp Hq Hl Hl'. unfold strcat. rewrite (strlen_ok mem p s Hs), (strlen_ok mem q t Ht) by lia. cbn [mbind option_bind].
  eexists. split_and!; [done | |].
  - apply cstring_app; [by apply cstring_copied | | apply Hs]. destruct Hs as (Hs & _).
    transitivity (read_bytes mem p (zlen s)); [|done]. apply zget_ext; [unfold read_bytes; by rewrite !length_map, !length_seqZ|].
    intros i Hi. rewrite zlen_read in Hi by (unfold zlen; lia). rewrite !zget_read, memcpy_out by lia. done.
  - intros b Hb. apply memcpy_out. unfold zlen in *. lia.
Qed.
End more.

Lemma char_order_zero s t : length s = length t -> char_order s t = 0 -> s = t.
Proof.
  revert t. induction s as [|a s IH]; intros [|b t]; try done; simpl. intros [= Hl]. destruct (Z.eqb_spec a b) as [->|].
  - intros H0. by rewrite (IH t).
  - by destruct (s8 b <? s8 a).
Qed.

(** Strings of a concrete memory. *)
Lemma is_cstring mem p s : read_bytes mem p (zlen s) = s -> mem (p + zlen s) = 0 ->
  forallb (fun c => (0 <? c) && (c <? 256)) s = true -> cstring mem p s.
Proof.
  intros Hr He Hs. split; [done|]. split; [done|]. apply List.Forall_forall. intros c Hc. rewrite forallb_forall in Hs.
  specialize (Hs c Hc). rewrite andb_true_iff, !Z.ltb_lt in Hs. done.
Qed.

(** ** Properties *)

(** C37: two strings are equal exactly if strcmp returns NULL, and exactly if lstrcmp returns 0;
    lstrcmp orders them by length first and then by the first character that differs. *)
Theorem strings_compared {R : Routines} {Rok : RoutinesOk} mem p q s t :
  cstring mem p s -> cstring mem q t -> 1 < p -> 1 < q -> p + zlen s < 2 ^ 64 -> q + zlen t < 2 ^ 64 ->
  (exists r, strcmp mem p q = Some r /\ (r = NULL <-> s = t)) /\
  lstrcmp mem p q = Some (shortlex s t) /\ (shortlex s t = 0 <-> s = t).
Proof.
  intros Hs Ht Hp Hq Hps Hqt. destruct (strcmp_spec mem p q s t) as (r & Hr & Heq); try done.
  split; [by exists r|]. split; [apply lstrcmp_spec; try done; lia|]. split.
  - unfold shortlex. destruct (Z.ltb_spec (zlen t) (zlen s)); [done|]. destruct (Z.ltb_spec (zlen s) (zlen t)); [done|].
    intros Hz. apply char_order_zero; [unfold zlen in *; lia | done].
  - intros ->. unfold shortlex. by rewrite !Z.ltb_irrefl, char_order_refl.
Qed.

Definition two_strings (s t : string) : memory := write_bytes (write_bytes (fun _ => 0) 0x1000 (codes s)) 0x2000 (codes t).

Lemma strings_compared_witness :
  cstring (two_strings "FirstValue" "FirstVal") 0x1000 (codes "FirstValue") /\
  lstrcmp (two_strings "FirstValue" "FirstVal") 0x1000 0x2000 = Some 1 /\
  exists r, strcmp (two_strings "FirstValue" "FirstVal") 0x1000 0x2000 = Some r /\ (r = NULL <-> codes "FirstValue" = codes "FirstVal").
Proof.
  assert (cstring (two_strings "FirstValue" "FirstVal") 0x1000 (codes "FirstValue")) as H1.
  { apply is_cstring; vm_compute; reflexivity. }
  assert (cstring (two_strings "FirstValue" "FirstVal") 0x2000 (codes "FirstVal")) as H2.
  { apply is_cstring; vm_compute; reflexivity. }
  destruct (strings_compared (two_strings "FirstValue" "FirstVal") 0x1000 0x2000 (codes "FirstValue") (codes "FirstVal"))
    as (Hr & Hl & _); [exact H1 | exact H2 | lia | lia | vm_compute; reflexivity | vm_compute; reflexivity |].
  split; [exact H1|]. split; [rewrite Hl; vm_compute; reflexivity | exact Hr].
Defined.



(** From three characters on strstr can miss an occurrence: after a mismatch it moves by the length of
    the needle, or by the length of what follows the character in the needle, and not to the next place
    where the character could match.  scanmem moves too far in the second case. *)
Theorem searches_miss :
  occurs (two_strings "xcaba" "aba") (codes "aba") 0x1002 /\
  strstr (two_strings "xcaba" "aba") 0x1000 0x2000 = Some NULL /\
  occurs (two_strings "aabb" "abb") (codes "abb") 0x1001 /\
  scanmem (two_strings "aabb" "abb") 0x1000 0x2000 4 3 = Some NULL.
Proof. split_and!; vm_compute; reflexivity. Qed.

(** A needle of nine characters, in a haystack that starts with it: rmemcmp compares the byte seven places in
    front of the two strings instead of their first ones, and the search goes astray. *)
Definition preceded : memory :=
  write_bytes (write_bytes (two_strings "ninechars, then more" "ninechars") 0xFF9 [5]) 0x1FF8 [5; 6; 6; 6; 6; 6; 6; 6].

Theorem long_needle_missed :
  cstring preceded 0x1000 (codes "ninechars, then more") /\ cstring preceded 0x2000 (codes "ninechars") /\
  occurs preceded (codes "ninechars") 0x1000 /\ strstr preceded 0x1000 0x2000 = Some NULL.
Proof. split_and!; [apply is_cstring; vm_compute; reflexivity.. | vm_compute; reflexivity | vm_compute; reflexivity]. Qed.
