(* ===== verification/XmlParser.v ===== *)
(** * XML documents: [sources/xml/XMLParser.c] and [sources/misc/void_ptr_stack.c]

    The parser works in place: it writes terminators into the text of the
    document and keeps pointers into it.  Memory is the function of [FastMem];
    a pointer to a node is its index in [xml_nodes], [None] for NULL; a node that
    was never allocated is uninitialised memory. *)

From S2P Require Import Prelude FastMem Strings.

#[local] Open Scope Z_scope.

Definition CH_LT : Z := 60.
Definition CH_GT : Z := 62.
Definition CH_SLASH : Z := 47.
Definition CH_QUESTION : Z := 63.
Definition CH_BLANK : Z := 32.

(** One byte written. *)
Definition poke (mem : memory) (a v : Z) : memory := fun b => if b =? a then v else mem b.

(** ** void_ptr_stack.c *)

Definition MAX_VOID_STACK_SIZE : Z := 128.

Record void_ptr_stack_t := mkStack {
  stack : list Z;               (* MAX_VOID_STACK_SIZE pointers *)
  stack_ptr : Z                 (* 16 bits *)
}.

#[export] Instance eta_void_ptr_stack_t : Eta void_ptr_stack_t := fun r => mkStack (stack r) (stack_ptr r).

(** [stack_ptr] is read before it is set: every round writes the slot that the
    uninitialised counter points at. *)
Definition void_ptr_stack_init (s : void_ptr_stack_t) : option void_ptr_stack_t :=
  l ← for_each (Z.to_nat MAX_VOID_STACK_SIZE) 0 (fun _ l => zset l (stack_ptr s) NULL) (stack s);
  Some (mkStack l 0).

Definition void_ptr_stack_push (s : void_ptr_stack_t) (item : Z) : option (void_ptr_stack_t * bool) :=
  if stack_ptr s <=? MAX_VOID_STACK_SIZE then
    l ← zset (stack s) (stack_ptr s) item; Some (mkStack l (u16 (stack_ptr s + 1)), true)
  else Some (s, false).

Definition void_ptr_stack_pop (s : void_ptr_stack_t) : option (void_ptr_stack_t * Z) :=
  if 0 <? stack_ptr s then
    item ← zget (stack s) (stack_ptr s - 1); Some (s {{ stack_ptr := u16 (stack_ptr s - 1) }}, item)
  else Some (s, NULL).

(** ** XMLParser.c *)

Definition MAX_XML_NODES : Z := 1024 * 128.

Record xml_node_t := mkNode {
  tag : Z;
  parent : option Z;
  right_node : option Z;
  child_start : option Z;
  child_end : option Z;
  content : Z
}.

#[export] Instance eta_xml_node_t : Eta xml_node_t := fun r =>
  mkNode (tag r) (parent r) (right_node r) (child_start r) (child_end r) (content r).

Record xml_heap_t := mkHeap {
  xml_source : Z;
  xml_nodes : gmap Z xml_node_t;
  current_node : Z;
  index : Z;
  len : Z;
  current_content : Z
}.

#[export] Instance eta_xml_heap_t : Eta xml_heap_t := fun r =>
  mkHeap (xml_source r) (xml_nodes r) (current_node r) (index r) (len r) (current_content r).

Definition blank_node : xml_node_t := mkNode NULL None None None None NULL.

Definition getNewXMLNode (h : xml_heap_t) : xml_heap_t * option Z :=
  if MAX_XML_NODES <=? current_node h then (h, None)
  else (h {{ xml_nodes := <[current_node h := blank_node]> (xml_nodes h); current_node := current_node h + 1 }},
        Some (current_node h)).

(** The loop of the two tag parsers: [n] is its trip count. *)
Fixpoint tag_loop (n : nat) (mem : memory) (ptr i : Z) : memory * Z :=
  match n with
  | O => (mem, i)
  | S n =>
      if mem (ptr + i) =? CH_BLANK then tag_loop n (poke mem (ptr + i) 0) ptr (i + 1)
      else if mem (ptr + i) =? CH_GT then (poke mem (ptr + i) 0, i)
      else tag_loop n mem ptr (i + 1)
  end.

Definition parse_open_tag (mem : memory) (h : xml_heap_t) : memory * xml_heap_t * Z :=
  let ptr := xml_source h in
  let i := index h + 1 in
  let return_ptr := ptr + i in
  let '(mem, i) := tag_loop (Z.to_nat (len h - i)) mem ptr i in
  (mem, h {{ index := i }}, return_ptr).

Definition parse_close_tag (mem : memory) (h : xml_heap_t) : memory * xml_heap_t * Z :=
  let ptr := xml_source h in
  let i := index h + 2 in
  let return_ptr := ptr + i in
  let '(mem, i) := tag_loop (Z.to_nat (len h - i)) mem ptr i in
  (mem, h {{ index := i }}, return_ptr).

Notation xml_nodes_map := (gmap Z xml_node_t).

(** A field of a node is written through a pointer. *)
Definition write_node (nodes : xml_nodes_map) (p : option Z) (f : xml_node_t -> xml_node_t) : option xml_nodes_map :=
  k ← p; n ← nodes !! k; Some (<[k := f n]> nodes).

(** The node above, unless it is the top. *)
Definition go_up (nodes : xml_nodes_map) (parent_node : option Z) : option (option Z) :=
  match parent_node with
  | None => Some None
  | Some k => n ← nodes !! k; Some (match parent n with Some p => Some p | None => Some k end)
  end.

(** The new node becomes the last child of its parent; the first node has none. *)
Definition link_node (nodes : xml_nodes_map) (parent_node : option Z) (k : Z) : option xml_nodes_map :=
  match parent_node with
  | None => Some nodes
  | Some p =>
      pn ← nodes !! p;
      nodes ← match child_start pn with
              | None => write_node nodes (Some p) (fun n => n {{ child_start := Some k; child_end := Some k }})
              | Some _ =>
                  nodes ← write_node nodes (child_end pn) (fun n => n {{ right_node := Some k }});
                  write_node nodes (Some p) (fun n => n {{ child_end := Some k }})
              end;
      write_node nodes (Some k) (fun n => n {{ parent := Some p }})
  end.

Record parser := mkParser {
  text : memory;
  heap : xml_heap_t;
  tags : void_ptr_stack_t;
  parent_node : option Z
}.

(** Every round of the loop either goes on, or leaves the function with a value. *)
Inductive round := Next (p : parser) | Return (code : Z) (p : parser).

Section parser.
Context `{Routines}.

Definition close_element (p : parser) : option round :=
  let h := heap p in
  '(mem, nodes) ← (if negb (current_content h =? NULL) then
      nodes ← write_node (xml_nodes h) (parent_node p) (fun n => n {{ content := current_content h }});
      Some (poke (text p) (xml_source h + index h) 0, nodes)
    else Some (text p, xml_nodes h));
  up ← go_up nodes (parent_node p);
  let '(mem, h, tag) := parse_close_tag mem (h {{ xml_nodes := nodes }}) in
  '(tags, t) ← void_ptr_stack_pop (tags p);
  differs ← strcmp mem tag t;
  Some (if negb (differs =? NULL) then Return 0 (mkParser mem h tags up)
        else Next (mkParser mem (h {{ current_content := NULL }}) tags up)).

Definition open_element (p : parser) : option round :=
  let '(mem, h, tag_ptr) := parse_open_tag (text p) (heap p) in
  let '(h, xml_node) := getNewXMLNode h in
  match xml_node with
  | None => Some (Return 0 (mkParser mem h (tags p) (parent_node p)))
  | Some k =>
      nodes ← write_node (xml_nodes h) (Some k) (fun n => n {{ tag := tag_ptr }});
      nodes ← link_node nodes (parent_node p) k;
      let h := h {{ xml_nodes := nodes }} in
      l ← strlen mem tag_ptr;
      let last := tag_ptr + l - 1 in
      if (mem last =? CH_SLASH) || (mem (xml_source h + index h - 1) =? CH_SLASH) then
        let mem := if mem last =? CH_SLASH then poke mem last 0 else mem in
        up ← go_up nodes (Some k);
        Some (Next (mkParser mem (h {{ current_content := NULL }}) (tags p) up))
      else
        '(tags, ok) ← void_ptr_stack_push (tags p) tag_ptr;
        Some (if negb ok then Return 0 (mkParser mem h tags (Some k))
              else Next (mkParser mem (h {{ current_content := xml_source h + index h + 1 }}) tags (Some k)))
  end.

Definition parse_step (p : parser) : option round :=
  let a := xml_source (heap p) + index (heap p) in
  if (text p a =? CH_LT) && (text p (a + 1) =? CH_SLASH) then close_element p
  else if (text p a =? CH_LT) && negb (text p (a + 1) =? CH_QUESTION) then open_element p
  else Some (Next p).

Definition next_index (p : parser) : parser := p {{ heap := (heap p) {{ index := index (heap p) + 1 }} }}.

Fixpoint parse_loop (fuel : nat) (p : parser) : option (Z * parser) :=
  if index (heap p) <? len (heap p) then
    match fuel with
    | O => None
    | S fuel =>
        r ← parse_step p;
        match r with
        | Next p => parse_loop fuel (next_index p)
        | Return code p => Some (code, p)
        end
    end
  else Some (1, p).

(** The index moves on in every round. *)
Definition rounds_left (p : parser) : nat := Z.to_nat (len (heap p) - index (heap p)).

(** [uninitialised] is what the stack frame holds before the local [stack] is
    initialised. *)
Definition parse_xml (uninitialised : void_ptr_stack_t) (mem : memory) (h : xml_heap_t) : option (Z * memory * xml_heap_t) :=
  tags ← void_ptr_stack_init uninitialised;
  let p := mkParser mem h tags None in
  '(code, p) ← parse_loop (rounds_left p) p;
  Some (code, text p, heap p).

(** [xml_nodes] is whatever the memory held. *)
Definition xml_heap_init (mem : memory) (h : xml_heap_t) (source : Z) : option xml_heap_t :=
  n ← strlen mem source;
  Some (h {{ len := n; xml_source := source; current_node := 0; index := 0; current_content := NULL }}).
End parser.

(** ** Documents

    What the parser is for: elements with text, or with further elements between
    pieces of text, or empty ones.  [gap]s and the [tail] are not kept by the
    parser. *)

Inductive doc :=
| Leaf (name attributes txt : list Z)
| Branch (name attributes : list Z) (kids : list (list Z * doc)) (tail : list Z)
| Empty (name attributes : list Z).

Definition name_of (d : doc) : list Z :=
  match d with Leaf n _ _ | Branch n _ _ _ | Empty n _ => n end.

Definition kids_of (d : doc) : list doc :=
  match d with Branch _ _ kids _ => map snd kids | _ => [] end.

Definition open_tag (name attributes : list Z) : list Z := CH_LT :: name ++ attributes ++ [CH_GT].
Definition close_tag (name : list Z) : list Z := CH_LT :: CH_SLASH :: name ++ [CH_GT].

Fixpoint render (d : doc) : list Z :=
  match d with
  | Leaf name attributes txt => open_tag name attributes ++ txt ++ close_tag name
  | Branch name attributes kids tail =>
      open_tag name attributes ++ concat (map (fun '(gap, k) => gap ++ render k) kids) ++ tail ++ close_tag name
  | Empty name attributes => CH_LT :: name ++ attributes ++ [CH_SLASH; CH_GT]
  end.

(** The number of elements, and of open tags at a time. *)
Fixpoint size (d : doc) : Z :=
  match d with Branch _ _ kids _ => 1 + foldr Z.add 0 (map (fun x => size (snd x)) kids) | _ => 1 end.

Fixpoint height (d : doc) : Z :=
  match d with
  | Leaf _ _ _ => 1
  | Branch _ _ kids _ => 1 + foldr Z.max 0 (map (fun x => height (snd x)) kids)
  | Empty _ _ => 0
  end.

Definition name_char (c : Z) : bool :=
  (0 <? c) && (c <? 256) && negb (c =? CH_LT) && negb (c =? CH_GT) && negb (c =? CH_BLANK) && negb (c =? CH_SLASH) && negb (c =? CH_QUESTION).

Definition good_name (l : list Z) : bool := forallb name_char l && negb (zlen l =? 0).

(** Attributes start with a blank; neither a tag's end nor a slash at the end. *)
Definition good_attributes (l : list Z) : bool :=
  forallb (fun c => (0 <? c) && (c <? 256) && negb (c =? CH_GT)) l && negb (List.last l 0 =? CH_SLASH) &&
  match l with [] => true | c :: _ => c =? CH_BLANK end.

(** No element starts in it; declarations may. *)
Fixpoint quiet (l : list Z) : bool :=
  match l with
  | [] => true
  | c :: l => (0 <? c) && (c <? 256) && (negb (c =? CH_LT) || match l with d :: _ => d =? CH_QUESTION | [] => false end) && quiet l
  end.

Fixpoint good (d : doc) : bool :=
  match d with
  | Leaf name attributes txt => good_name name && good_attributes attributes && quiet txt
  | Branch name attributes kids tail =>
      good_name name && good_attributes attributes && negb (zlen kids =? 0) && quiet tail &&
      forallb (fun '(gap, k) => quiet gap && good k) kids
  | Empty name attributes => good_name name && good_attributes attributes
  end.

(** Induction over a document and its children. *)
Fixpoint doc_induction (P : doc -> Prop)
    (Hleaf : forall n a t, P (Leaf n a t)) (Hempty : forall n a, P (Empty n a))
    (Hbranch : forall n a kids tail, Forall (fun x => P (snd x)) kids -> P (Branch n a kids tail)) (d : doc) : P d :=
  match d with
  | Leaf n a t => Hleaf n a t
  | Empty n a => Hempty n a
  | Branch n a kids tail =>
      Hbranch n a kids tail
        ((fix all (l : list (list Z * doc)) : Forall (fun x => P (snd x)) l :=
            match l with [] => List.Forall_nil _ | x :: l => List.Forall_cons _ x l (doc_induction P Hleaf Hempty Hbranch (snd x)) (all l) end) kids)
  end.

(** ** Text in memory *)

Fixpoint text_at (mem : memory) (a : Z) (l : list Z) : Prop :=
  match l with [] => True | c :: l => mem a = c /\ text_at mem (a + 1) l end.

Lemma text_at_app mem a l k : text_at mem a (l ++ k) <-> text_at mem a l /\ text_at mem (a + zlen l) k.
Proof.
  revert a. induction l as [|c l IH]; intros a; cbn [app text_at].
  - change (zlen []) with 0. rewrite Z.add_0_r. tauto.
  - rewrite IH, zlen_cons. replace (a + 1 + zlen l) with (a + (1 + zlen l)) by lia. tauto.
Qed.

Lemma text_at_ext mem mem' a l : (forall b, a <= b < a + zlen l -> mem' b = mem b) -> text_at mem a l -> text_at mem' a l.
Proof.
  revert a. induction l as [|c l IH]; intros a Hm; [done|]. rewrite zlen_cons in Hm. pose proof (zlen_nonneg l).
  intros [Hc Hl]. split; [rewrite Hm by lia; done | apply IH; [|done]]. intros b Hb. apply Hm. lia.
Qed.

Lemma text_at_read mem a l : text_at mem a l <-> read_bytes mem a (zlen l) = l.
Proof.
  revert a. induction l as [|c l IH]; intros a; [done|]. rewrite zlen_cons. pose proof (zlen_nonneg l).
  rewrite read_bytes_app by lia. change (read_bytes mem a 1) with [mem a]. cbn [text_at app]. rewrite IH.
  split; [intros [-> ->]; done | intros [= ? ?]; done].
Qed.

Lemma text_at_cstring mem a l : text_at mem a l -> mem (a + zlen l) = 0 -> Forall (fun c => 0 < c < 256) l -> cstring mem a l.
Proof. intros H%text_at_read Hz Hl. split; [done|]. by split. Qed.

Lemma cstring_ext mem mem' a l : (forall b, a <= b <= a + zlen l -> mem' b = mem b) -> cstring mem a l -> cstring mem' a l.
Proof.
  intros Hm (Hr & Hz & Hl). apply text_at_read in Hr. pose proof (zlen_nonneg l). apply text_at_cstring; [|rewrite Hm by lia; done|done].
  eapply text_at_ext; [|done]. intros b Hb. apply Hm. lia.
Qed.

(** ** The tag parsers *)

(** Blanks and the end of the tag become terminators. *)
Definition blanked (mem : memory) (lo hi : Z) : memory := fun b =>
  if (lo <=? b) && (b <? hi) && ((mem b =? CH_BLANK) || (mem b =? CH_GT)) then 0 else mem b.

Lemma blanked_out mem lo hi b : b < lo \/ hi <= b -> blanked mem lo hi b = mem b.
Proof. intros Hb. unfold blanked. replace ((lo <=? b) && (b <? hi)) with false; [done|]. symmetry. apply andb_false_iff. lia. Qed.

Lemma blanked_in mem lo hi b : lo <= b < hi ->
  blanked mem lo hi b = if (mem b =? CH_BLANK) || (mem b =? CH_GT) then 0 else mem b.
Proof. intros Hb. unfold blanked. replace ((lo <=? b) && (b <? hi)) with true; [done|]. symmetry. apply andb_true_iff. lia. Qed.

Lemma blanked_ext mem mem' lo hi b : mem b = mem' b -> blanked mem lo hi b = blanked mem' lo hi b.
Proof. intros E. unfold blanked. by rewrite E. Qed.

Lemma poke_eq mem a v : poke mem a v a = v.
Proof. unfold poke. by rewrite Z.eqb_refl. Qed.

Lemma poke_ne mem a v b : b <> a -> poke mem a v b = mem b.
Proof. intros Hb. unfold poke. by bdestr (b =? a). Qed.

Lemma blanked_or (lo hi b : Z) : (lo <= b < hi) \/ (b < lo \/ hi <= b).
Proof. lia. Qed.

Lemma tag_loop_spec l : forall n mem ptr i,
  text_at mem (ptr + i) (l ++ [CH_GT]) -> Forall (fun c => c <> CH_GT) l -> zlen l < Z.of_nat n ->
  exists mem', tag_loop n mem ptr i = (mem', i + zlen l) /\ forall b, mem' b = blanked mem (ptr + i) (ptr + i + zlen l + 1) b.
Proof.
  induction l as [|c l IH]; intros [|n] mem ptr i Ht Hl Hn; try (unfold zlen in Hn; simpl in Hn; lia); cbn [tag_loop].
  - destruct Ht as [E _]. rewrite E. replace (CH_GT =? CH_BLANK) with false by done. rewrite Z.eqb_refl.
    change (zlen []) with 0. rewrite Z.add_0_r. eexists. split; [done|]. intros b.
    destruct (decide (b = ptr + i)) as [->|Hb].
    + by rewrite poke_eq, blanked_in, E by lia.
    + by rewrite poke_ne, blanked_out by lia.
  - rewrite zlen_cons in *. pose proof (zlen_nonneg l) as H0. apply Forall_cons in Hl as [Hc Hl]. destruct Ht as [E Ht].
    rewrite E. replace (ptr + i + 1) with (ptr + (i + 1)) in Ht by lia.
    assert (forall mem0, (forall b, b <> ptr + i -> mem0 b = mem b) ->
      mem0 (ptr + i) = (if c =? CH_BLANK then 0 else c) ->
      exists mem', tag_loop n mem0 ptr (i + 1) = (mem', i + (1 + zlen l)) /\
        forall b, mem' b = blanked mem (ptr + i) (ptr + i + (1 + zlen l) + 1) b) as Hgo.
    { intros mem0 Hm0 Hi. destruct (IH n mem0 ptr (i + 1)) as (mem' & -> & Hm); [| done | lia |].
      { eapply text_at_ext; [|done]. intros b Hb. apply Hm0. lia. }
      exists mem'. split; [f_equal; lia|]. intros b. rewrite Hm. destruct (decide (b = ptr + i)) as [->|Hne].
      - rewrite blanked_out, blanked_in, Hi, E by lia. replace (c =? CH_GT) with false by (symmetry; by apply Z.eqb_neq). by rewrite orb_false_r.
      - rewrite (blanked_ext mem0 mem) by auto. destruct (blanked_or (ptr + i) (ptr + i + (1 + zlen l) + 1) b).
        + rewrite !blanked_in by lia. done.
        + rewrite !blanked_out by lia. done. }
    bdestr (c =? CH_BLANK).
    + apply Hgo; [intros b Hb'; by apply poke_ne | apply poke_eq].
    + bdestr (c =? CH_GT); [done|]. by apply Hgo.
Qed.

(** ** The loop *)

Lemma tag_loop_index n mem ptr i : i <= snd (tag_loop n mem ptr i).
Proof.
  revert mem i. induction n as [|n IH]; intros mem i; cbn [tag_loop]; [done|].
  destruct (_ =? CH_BLANK); [etrans; [|apply IH]; lia|]. destruct (_ =? CH_GT); [done | etrans; [|apply IH]; lia].
Qed.

#[local] Arguments write_node : simpl never.
#[local] Arguments link_node : simpl never.
#[local] Arguments go_up : simpl never.

Section loop.
Context {R : Routines}.

Definition moves (p p' : parser) : Prop := index (heap p) <= index (heap p') /\ len (heap p') = len (heap p).

Lemma close_moves p p' : close_element p = Some (Next p') -> moves p p'.
Proof.
  unfold close_element. destruct (if negb _ then _ else _) as [[mem nodes]|]; cbn [mbind option_bind]; [|done].
  destruct (go_up _ _) as [up|]; cbn [mbind option_bind]; [|done]. unfold parse_close_tag. cbn.
  match goal with |- context [tag_loop ?n ?m ?s ?i] => pose proof (tag_loop_index n m s i) as Hi; destruct (tag_loop n m s i) as [mem' i'] end.
  destruct (void_ptr_stack_pop _) as [[tg t]|]; cbn [mbind option_bind]; [|done]. destruct (strcmp _ _ _) as [r|]; cbn [mbind option_bind]; [|done].
  destruct (negb _); [done|]. intros [= <-]. unfold moves. cbn in *. lia.
Qed.

Lemma open_moves p p' : open_element p = Some (Next p') -> moves p p'.
Proof.
  unfold open_element, parse_open_tag. cbn.
  match goal with |- context [tag_loop ?n ?m ?s ?i] => pose proof (tag_loop_index n m s i) as Hi; destruct (tag_loop n m s i) as [mem' i'] end.
  unfold getNewXMLNode. cbn. match goal with |- context [if ?b then (_, None) else _] => destruct b end; [done|].
  destruct (write_node _ _ _) as [n1|]; cbn [mbind option_bind]; [|done]. destruct (link_node _ _ _) as [n2|]; cbn [mbind option_bind]; [|done].
  destruct (strlen _ _) as [l|]; cbn [mbind option_bind]; [|done]. destruct (_ || _).
  - destruct (go_up _ _) as [up|]; cbn [mbind option_bind]; [|done]. intros [= <-]. unfold moves. cbn in *. lia.
  - destruct (void_ptr_stack_push _ _) as [[tg []]|]; cbn [mbind option_bind]; [|done|done]. intros [= <-]. unfold moves. cbn in *. lia.
Qed.

Lemma step_moves p p' : parse_step p = Some (Next p') -> moves p p'.
Proof.
  unfold parse_step. destruct (_ && _); [apply close_moves|]. destruct (_ && _); [apply open_moves|].
  intros [= <-]. by split.
Qed.

Lemma parse_loop_fuel n m p : (rounds_left p <= n)%nat -> (rounds_left p <= m)%nat -> parse_loop n p = parse_loop m p.
Proof.
  revert m p. induction n as [|n IH]; intros [|m] p Hn Hm; cbn [parse_loop]; try done;
    destruct (Z.ltb_spec (index (heap p)) (len (heap p))); try done; unfold rounds_left in *; try lia.
  destruct (parse_step p) as [[p'|c p']|] eqn:E; cbn [mbind option_bind]; [|done|done].
  destruct (step_moves _ _ E) as [Hi Hl]. apply IH; unfold rounds_left, next_index; cbn; lia.
Qed.

Definition run (p : parser) : option (Z * parser) := parse_loop (rounds_left p) p.

Lemma run_next p p' : parse_step p = Some (Next p') -> index (heap p) < len (heap p) -> run p = run (next_index p').
Proof.
  intros E Hlt. unfold run at 1. destruct (step_moves _ _ E) as [Hi Hl].
  destruct (rounds_left p) as [|n] eqn:En; [unfold rounds_left in En; lia|]. cbn [parse_loop].
  destruct (Z.ltb_spec (index (heap p)) (len (heap p))); [|lia]. rewrite E. cbn [mbind option_bind].
  apply parse_loop_fuel; [|done]. unfold rounds_left, next_index in *. cbn. lia.
Qed.

Lemma run_end p : len (heap p) <= index (heap p) -> run p = Some (1, p).
Proof.
  intros Hle. unfold run. replace (rounds_left p) with 0%nat by (unfold rounds_left; lia). cbn [parse_loop].
  destruct (Z.ltb_spec (index (heap p)) (len (heap p))); [lia | done].
Qed.
End loop.

(** ** The tree in the heap

    [represents mem nodes d a id par]: the document [d], read at address [a], is
    the tree of nodes from [id] on, below the node [par].  Nodes are numbered in
    the order of their open tags. *)

Definition total_size (l : list (list Z * doc)) : Z := foldr Z.add 0 (map (fun x => size (snd x)) l).
Definition render_all (l : list (list Z * doc)) : list Z := concat (map (fun '(gap, k) => gap ++ render k) l).
Definition top_height (l : list (list Z * doc)) : Z := foldr Z.max 0 (map (fun x => height (snd x)) l).

Section forest.
Context (represents : doc -> Z -> Z -> option Z -> Prop) (nodes : xml_nodes_map) (par : Z).

Fixpoint forest_of (l : list (list Z * doc)) (a c : Z) : Prop :=
  match l with
  | [] => True
  | (gap, k) :: rest =>
      represents k (a + zlen gap) c (Some par) /\
      (exists m, nodes !! c = Some m /\ right_node m = match rest with [] => None | _ => Some (c + size k) end) /\
      forest_of rest (a + zlen gap + zlen (render k)) (c + size k)
  end.
End forest.

Fixpoint represents (mem : memory) (nodes : xml_nodes_map) (d : doc) (a id : Z) (par : option Z) : Prop :=
  exists n, nodes !! id = Some n /\ parent n = par /\ tag n = a + 1 /\ cstring mem (a + 1) (name_of d) /\
  match d with
  | Leaf name attributes txt =>
      let c := a + zlen (open_tag name attributes) in child_start n = None /\ content n = c /\ cstring mem c txt
  | Empty _ _ => child_start n = None /\ content n = NULL
  | Branch name attributes kids _ =>
      child_start n = Some (id + 1) /\ content n = NULL /\
      forest_of (represents mem nodes) nodes id kids (a + zlen (open_tag name attributes)) (id + 1)
  end.

Definition forest (mem : memory) (nodes : xml_nodes_map) (l : list (list Z * doc)) (a c par : Z) : Prop :=
  forest_of (represents mem nodes) nodes par l a c.

Lemma forest_cons mem nodes gap k rest a c par :
  forest mem nodes ((gap, k) :: rest) a c par <->
    represents mem nodes k (a + zlen gap) c (Some par) /\
    (exists m, nodes !! c = Some m /\ right_node m = match rest with [] => None | _ => Some (c + size k) end) /\
    forest mem nodes rest (a + zlen gap + zlen (render k)) (c + size k) par.
Proof. done. Qed.

Lemma represents_branch mem nodes name attributes kids tail a id par :
  represents mem nodes (Branch name attributes kids tail) a id par <->
  exists n, nodes !! id = Some n /\ parent n = par /\ tag n = a + 1 /\ cstring mem (a + 1) name /\
    child_start n = Some (id + 1) /\ content n = NULL /\
    forest mem nodes kids (a + zlen (open_tag name attributes)) (id + 1) id.
Proof. done. Qed.

(** What nodes agree on apart from the link to the right. *)
Definition same_node (n m : xml_node_t) : Prop :=
  tag n = tag m /\ parent n = parent m /\ child_start n = child_start m /\ child_end n = child_end m /\ content n = content m.

Lemma render_all_cons gap k l : render_all ((gap, k) :: l) = gap ++ render k ++ render_all l.
Proof. unfold render_all. cbn [map concat]. by rewrite app_assoc. Qed.

Lemma render_branch name attributes kids tail :
  render (Branch name attributes kids tail) = open_tag name attributes ++ render_all kids ++ tail ++ close_tag name.
Proof. done. Qed.

Lemma size_branch name attributes kids tail : size (Branch name attributes kids tail) = 1 + total_size kids.
Proof. done. Qed.

Lemma total_size_cons gap k l : total_size ((gap, k) :: l) = size k + total_size l.
Proof. done. Qed.

Lemma total_size_nonneg l : Forall (fun x => 0 < size (snd x)) l -> 0 <= total_size l.
Proof. induction 1 as [|[gap k] l Hk _ IH]; [done|]. rewrite total_size_cons. cbn in Hk. lia. Qed.

Lemma size_pos d : 0 < size d.
Proof.
  induction d as [| |n a kids tail IH] using doc_induction; try done. rewrite size_branch.
  pose proof (total_size_nonneg kids IH). lia.
Qed.

Lemma sizes_nonneg l : 0 <= total_size l.
Proof. apply total_size_nonneg, List.Forall_forall. intros x _. apply size_pos. Qed.

Lemma top_height_cons gap k l : top_height ((gap, k) :: l) = Z.max (height k) (top_height l).
Proof. done. Qed.

Lemma top_height_nonneg l : 0 <= top_height l.
Proof. induction l as [|[gap k] l IH]; [done|]. rewrite top_height_cons. lia. Qed.

Lemma zlen_open name attributes : zlen (open_tag name attributes) = 2 + zlen name + zlen attributes.
Proof. unfold open_tag. rewrite zlen_cons, !zlen_app. change (zlen [CH_GT]) with 1. lia. Qed.

Lemma zlen_close name : zlen (close_tag name) = 3 + zlen name.
Proof. unfold close_tag. rewrite !zlen_cons, !zlen_app. change (zlen [CH_GT]) with 1. lia. Qed.

(** The tree stays when nothing of it changes but the link to the right of its top. *)
Lemma represents_frame mem mem' d : forall nodes nodes' a id par,
  (forall b, a <= b < a + zlen (render d) -> mem' b = mem b) ->
  (forall j, id < j < id + size d -> nodes' !! j = nodes !! j) ->
  (forall n, nodes !! id = Some n -> exists n', nodes' !! id = Some n' /\ same_node n n') ->
  represents mem nodes d a id par -> represents mem' nodes' d a id par.
Proof.
  induction d as [name attributes txt|name attributes|name attributes kids tail IH] using doc_induction;
    intros nodes nodes' a id par Hm Hn Hid.
  - intros (n & Hnode & Hp & Ht & Hname & Hcs & Hc & Htxt). destruct (Hid n Hnode) as (n' & Hn' & E1 & E2 & E3 & _ & E5).
    cbn [render name_of] in *. rewrite !zlen_app, zlen_open, zlen_close in Hm. pose proof (zlen_nonneg txt). pose proof (zlen_nonneg attributes). pose proof (zlen_nonneg name).
    rewrite zlen_open in Htxt, Hc.
    cbn [represents name_of]. exists n'. rewrite <- E1, <- E2, <- E3, <- E5, zlen_open. do 3 (split; [done|]).
    split; [|do 2 (split; [done|])]; (eapply cstring_ext; [|done]); intros b Hb; apply Hm; lia.
  - intros (n & Hnode & Hp & Ht & Hname & Hcs & Hc). destruct (Hid n Hnode) as (n' & Hn' & E1 & E2 & E3 & _ & E5).
    cbn [render name_of] in *. rewrite zlen_cons, !zlen_app in Hm. change (zlen [CH_SLASH; CH_GT]) with 2 in Hm. pose proof (zlen_nonneg attributes).
    cbn [represents name_of]. exists n'. rewrite <- E1, <- E2, <- E3, <- E5. do 3 (split; [done|]). split; [|done].
    eapply cstring_ext; [|done]. intros b Hb; apply Hm; lia.
  - rewrite !represents_branch. intros (n & Hnode & Hp & Ht & Hname & Hcs & Hc & Hf). destruct (Hid n Hnode) as (n' & Hn' & E1 & E2 & E3 & _ & E5).
    rewrite render_branch, !zlen_app, zlen_open, zlen_close in Hm. pose proof (zlen_nonneg attributes). pose proof (zlen_nonneg name).
    pose proof (zlen_nonneg tail). pose proof (zlen_nonneg (render_all kids)). rewrite size_branch in Hn.
    exists n'. rewrite <- E1, <- E2, <- E3, <- E5. do 3 (split; [done|]). split; [|do 2 (split; [done|])].
    + eapply cstring_ext; [|done]. intros b Hb; apply Hm; lia.
    + assert (forall b, a + zlen (open_tag name attributes) <= b < a + zlen (open_tag name attributes) + zlen (render_all kids) -> mem' b = mem b) as Hm'
        by (rewrite zlen_open; intros b Hb; apply Hm; lia).
      assert (forall j, id + 1 <= j < id + 1 + total_size kids -> nodes' !! j = nodes !! j) as Hn1 by (intros j Hj; apply Hn; lia).
      clear Hm Hn Hnode Hp Ht Hname Hcs Hc Hid Hn' E1 E2 E3 E5. revert Hf Hm' Hn1.
      generalize (a + zlen (open_tag name attributes)) as a0. generalize (id + 1) as c.
      induction IH as [|[gap k] kids Hk _ IHl]; intros c a0; [done|]. rewrite !forest_cons. intros (Hr & (m & Hm0 & Hright) & Hf) Hm' Hn1.
      rewrite render_all_cons, !zlen_app in Hm'. rewrite total_size_cons in Hn1. pose proof (zlen_nonneg (render_all kids)).
      pose proof (size_pos k). pose proof (sizes_nonneg kids). pose proof (zlen_nonneg gap). pose proof (zlen_nonneg (render k)).
      split; [|split].
      * cbn in Hk. eapply Hk; [..|done]; [intros b Hb; apply Hm'; lia | intros j Hj; apply Hn1; lia |].
        intros n0 Hn0. exists n0. rewrite Hn1 by lia. by split.
      * exists m. rewrite Hn1 by lia. done.
      * apply (IHl ltac:(lia) _ _ Hf); [intros b Hb; apply Hm'; lia | intros j Hj; apply Hn1; lia].
Qed.

(** ** Parsing a document *)

(** What linking a new node [k] does to the nodes there are. *)
Definition relink (nodes : xml_nodes_map) (po : option Z) (k : Z) : option xml_nodes_map :=
  match po with
  | None => Some nodes
  | Some p =>
      pn ← nodes !! p;
      match child_start pn with
      | None => write_node nodes (Some p) (fun n => n {{ child_start := Some k; child_end := Some k }})
      | Some _ =>
          nodes ← write_node nodes (child_end pn) (fun n => n {{ right_node := Some k }});
          write_node nodes (Some p) (fun n => n {{ child_end := Some k }})
      end
  end.

(** The node that was there before [k] and will have it as a child, or to its right. *)
Definition attached (nodes : xml_nodes_map) (po : option Z) (k : Z) : Prop :=
  match po with
  | None => True
  | Some p => exists pn, p < k /\ nodes !! p = Some pn /\
      match child_start pn with
      | None => True
      | Some _ => exists e en, child_end pn = Some e /\ nodes !! e = Some en /\ p < e < k
      end
  end.

Lemma write_node_some nodes k n f : nodes !! k = Some n -> write_node nodes (Some k) f = Some (<[k := f n]> nodes).
Proof. intros E. unfold write_node. cbn [mbind option_bind]. by rewrite E. Qed.

Lemma link_relink nodes po k n : attached nodes po k ->
  exists nodes', relink nodes po k = Some nodes' /\
    link_node (<[k := n]> nodes) po k = Some (<[k := match po with Some p => n {{ parent := Some p }} | None => n end]> nodes').
Proof.
  unfold link_node. destruct po as [p|]; cbn [attached relink]; [|intros _; by exists nodes]. intros (pn & Hpk & Hp & Hc).
  rewrite Hp, lookup_insert_ne, Hp by lia. cbn [mbind option_bind]. destruct (child_start pn) as [c|].
  - destruct Hc as (e & en & -> & He & Hek). rewrite !(write_node_some _ e en) by (done || rewrite lookup_insert_ne; done || lia).
    cbn [mbind option_bind]. rewrite !(write_node_some _ p pn) by (rewrite ?lookup_insert_ne by lia; done).
    eexists. split; [done|]. cbn [mbind option_bind]. rewrite (write_node_some _ k n) by (rewrite !lookup_insert_ne by lia; apply lookup_insert_eq).
    f_equal. apply map_eq. intros j. rewrite !lookup_insert. repeat case_decide; congruence || lia.
  - rewrite !(write_node_some _ p pn) by (rewrite ?lookup_insert_ne by lia; done).
    eexists. split; [done|]. cbn [mbind option_bind]. rewrite (write_node_some _ k n) by (rewrite !lookup_insert_ne by lia; apply lookup_insert_eq).
    f_equal. apply map_eq. intros j. rewrite !lookup_insert. repeat case_decide; congruence || lia.
Qed.

Section parse.
Context {R : Routines} {Rok : RoutinesOk} (src L : Z) (Hsrc : 0 < src) (Hend : src + L < 2 ^ 64).

Definition state (mem : memory) (nodes : xml_nodes_map) (k i cc : Z) (stk : list Z) (sp : Z) (po : option Z) : parser :=
  mkParser mem (mkHeap src nodes k i L cc) (mkStack stk sp) po.

Lemma quiet_run l mem nodes k i cc stk sp po : text_at mem (src + i) l -> quiet l = true -> i + zlen l <= L ->
  run (state mem nodes k i cc stk sp po) = run (state mem nodes k (i + zlen l) cc stk sp po).
Proof.
  revert i. induction l as [|c l IH]; intros i Ht Hq Hi; [by rewrite Z.add_0_r|].
  rewrite zlen_cons in *. pose proof (zlen_nonneg l). destruct Ht as [Hc Ht]. cbn [quiet] in Hq.
  rewrite !andb_true_iff, orb_true_iff, negb_true_iff in Hq. destruct Hq as [[_ Hc'] Hq].
  rewrite (run_next _ (state mem nodes k i cc stk sp po)); [|clear IH|cbn; lia].
  - change (next_index (state mem nodes k i cc stk sp po)) with (state mem nodes k (i + 1) cc stk sp po).
    rewrite IH; [|by rewrite Z.add_assoc|done|lia]. by replace (i + 1 + zlen l) with (i + (1 + zlen l)) by lia.
  - unfold parse_step, state. cbn. rewrite Hc. destruct (c =? CH_LT) eqn:Elt; [|done]. destruct Hc' as [|Hc']; [done|].
    destruct l as [|d l]; [done|]. destruct Ht as [Hd _]. rewrite Hd. apply Z.eqb_eq in Hc' as ->. done.
Qed.

Definition word_char (c : Z) : Prop := 0 < c < 256 /\ c <> CH_GT /\ c <> CH_BLANK.

Lemma good_name_chars l : good_name l = true ->
  0 < zlen l /\ Forall (fun c => word_char c /\ c <> CH_LT /\ c <> CH_SLASH /\ c <> CH_QUESTION) l.
Proof.
  unfold good_name. rewrite andb_true_iff, negb_true_iff, Z.eqb_neq, forallb_forall. intros [Hl H0]. pose proof (zlen_nonneg l).
  split; [lia|]. apply List.Forall_forall. intros c Hc. specialize (Hl c Hc). unfold name_char in Hl.
  rewrite !andb_true_iff, !negb_true_iff, !Z.eqb_neq, !Z.ltb_lt in Hl. unfold word_char. tauto.
Qed.

Lemma good_attributes_chars l : good_attributes l = true ->
  Forall (fun c => 0 < c < 256 /\ c <> CH_GT) l /\ (l = [] \/ exists l', l = CH_BLANK :: l') /\ List.last l 0 <> CH_SLASH.
Proof.
  unfold good_attributes. rewrite !andb_true_iff, negb_true_iff, Z.eqb_neq, forallb_forall. intros [[Hl Hlast] Hhead]. split_and!; [|..|done].
  - apply List.Forall_forall. intros c Hc. specialize (Hl c Hc). rewrite !andb_true_iff, !negb_true_iff, !Z.eqb_neq, !Z.ltb_lt in Hl. tauto.
  - destruct l as [|c l]; [by left|]. right. apply Z.eqb_eq in Hhead as ->. by eexists.
Qed.

Lemma quiet_chars l : quiet l = true -> Forall (fun c => 0 < c < 256) l.
Proof.
  induction l as [|c l IH]; [done|]. cbn [quiet]. rewrite !andb_true_iff, !Z.ltb_lt. intros [[? _] ?]. constructor; [done | by apply IH].
Qed.

Lemma text_last mem a l c : text_at mem a (l ++ [c]) -> mem (a + zlen l) = c.
Proof. rewrite text_at_app. intros (_ & Hc & _). done. Qed.

(** A word before a blank or the end of the tag becomes a string. *)
Lemma word_blanked mem mem' a w c rest hi :
  text_at mem a (w ++ c :: rest) -> c = CH_BLANK \/ c = CH_GT -> Forall word_char w -> a + zlen w < hi ->
  (forall b, mem' b = blanked mem a hi b) -> cstring mem' a w.
Proof.
  intros Ht Hc Hw Hhi Hm. apply text_at_app in Ht as [Ht [Hc' _]]. pose proof (zlen_nonneg w). apply text_at_cstring.
  - assert (forall a', a <= a' -> a' + zlen w < hi -> text_at mem a' w -> text_at mem' a' w) as Hgo; [|by apply Hgo].
    clear Hc' Ht Hhi. induction Hw as [|x w Hx Hw IH]; intros a' Ha Hhi; [done|]. rewrite zlen_cons in Hhi. intros [Hc' Ht].
    pose proof (zlen_nonneg w). split; [|apply IH; try done; lia].
    rewrite Hm, blanked_in, Hc' by lia. destruct Hx as (_ & H1 & H2). apply Z.eqb_neq in H1 as ->, H2 as ->. done.
  - rewrite Hm, blanked_in, Hc' by lia. by destruct Hc as [-> | ->].
  - eapply Forall_impl; [done|]. by intros x [? _].
Qed.

Lemma last_snoc {A} (l : list A) d : l <> [] -> l = removelast l ++ [List.last l d].
Proof. apply app_removelast_last. Qed.

(** The character before the end of an open tag is not a slash. *)
Lemma no_slash mem a name attributes rest :
  good_name name = true -> good_attributes attributes = true -> text_at mem a (name ++ attributes ++ rest) ->
  mem (a + zlen name - 1) <> CH_SLASH /\ mem (a + zlen name + zlen attributes - 1) <> CH_SLASH.
Proof.
  intros [Hlen Hname]%good_name_chars (_ & _ & Hlast)%good_attributes_chars Ht.
  rewrite !text_at_app in Ht. destruct Ht as (Hn & Ha & _).
  assert (mem (a + zlen name - 1) <> CH_SLASH) as H1.
  { destruct name as [|c name _] using rev_ind; [done|]. apply text_last in Hn. rewrite zlen_app. change (zlen [c]) with 1.
    replace (a + (zlen name + 1) - 1) with (a + zlen name) by lia. rewrite Hn. apply Forall_app in Hname as [_ Hc].
    inversion Hc. tauto. }
  split; [done|]. destruct attributes as [|c l _] using rev_ind; [by rewrite Z.add_0_r|].
  apply text_last in Ha. rewrite zlen_app. change (zlen [c]) with 1.
  replace (a + zlen name + (zlen l + 1) - 1) with (a + zlen name + zlen l) by lia. rewrite Ha. by rewrite List.last_last in Hlast.
Qed.

Lemma first_text mem a l : text_at mem a l -> mem a = match l with c :: _ => c | [] => mem a end.
Proof. destruct l; [done|]. by intros [-> _]. Qed.

Lemma not_char c d : c <> d -> (c =? d) = false.
Proof. apply Z.eqb_neq. Qed.

Lemma name_first mem a name rest : good_name name = true -> text_at mem a (name ++ rest) ->
  mem a <> CH_SLASH /\ mem a <> CH_QUESTION.
Proof.
  intros [Hl Hn]%good_name_chars Ht. destruct name as [|c name]; [done|]. destruct Ht as [-> _]. inversion Hn. tauto.
Qed.

(** Whatever the tag is: the text of an open or empty element is blanked and its node linked. *)
Lemma open_begin mem nodes k i cc stk sp po name attributes rest n :
  good_name name = true -> text_at mem (src + i) (CH_LT :: name ++ rest) -> 0 <= i ->
  text_at mem (src + i + 1) (attributes ++ [CH_GT]) -> Forall (fun c => c <> CH_GT) attributes ->
  n = zlen attributes -> i + n + 2 <= L -> k < MAX_XML_NODES -> attached nodes po k ->
  exists mem' nodes0, relink nodes po k = Some nodes0 /\
    (forall b, mem' b = blanked mem (src + i + 1) (src + i + n + 2) b) /\
    parse_step (state mem nodes k i cc stk sp po) =
      (let p := mkHeap src (<[k := mkNode (src + i + 1) po None None None NULL]> nodes0) (k + 1) (i + n + 1) L cc in
       l ← strlen mem' (src + i + 1);
       let last := src + i + 1 + l - 1 in
       if (mem' last =? CH_SLASH) || (mem' (src + (i + n + 1) - 1) =? CH_SLASH) then
         let mem' := if mem' last =? CH_SLASH then poke mem' last 0 else mem' in
         up ← go_up (xml_nodes p) (Some k);
         Some (Next (mkParser mem' (p {{ current_content := NULL }}) (mkStack stk sp) up))
       else
         '(tags, ok) ← void_ptr_stack_push (mkStack stk sp) (src + i + 1);
         Some (if negb ok then Return 0 (mkParser mem' p tags (Some k))
               else Next (mkParser mem' (p {{ current_content := src + (i + n + 1) + 1 }}) tags (Some k)))).
Proof.
  intros Hname [Hlt Ht] Hi Hattr Hgt -> Hfit Hk Hatt. pose proof (zlen_nonneg attributes).
  destruct (name_first _ _ _ _ Hname Ht) as [Hslash Hq].
  destruct (tag_loop_spec attributes (Z.to_nat (L - (i + 1))) mem src (i + 1)) as (mem' & El & Hm);
    [by rewrite Z.add_assoc | done | lia |].
  destruct (link_relink nodes po k (mkNode (src + i + 1) None None None None NULL) Hatt) as (nodes0 & Hre & Hlink).
  exists mem', nodes0. split; [done|]. split.
  { intros b. rewrite Hm. f_equal; lia. }
  unfold parse_step, state. cbn [text heap xml_source index]. rewrite Hlt, (not_char _ _ Hslash), (not_char _ _ Hq), Z.eqb_refl. cbn [andb negb].
  unfold open_element, parse_open_tag. cbn [text heap xml_source index len]. rewrite El.
  unfold getNewXMLNode. cbn. change (Z.pos (1024 * 128)) with MAX_XML_NODES. destruct (Z.leb_spec MAX_XML_NODES k); [lia|].
  replace (src + (i + 1)) with (src + i + 1) by lia. rewrite (write_node_some _ k blank_node) by apply lookup_insert_eq. cbn. rewrite insert_insert_eq.
  rewrite Hlink. cbn.
  replace (i + 1 + zlen attributes) with (i + zlen attributes + 1) by lia. by destruct po.
Qed.

Lemma go_up_top nodes k n : nodes !! k = Some n -> go_up nodes (Some k) = Some (Some (default k (parent n))).
Proof. intros E. unfold go_up. rewrite E. cbn. by destruct (parent n). Qed.

Lemma Forall_tag name attributes : good_name name = true -> good_attributes attributes = true ->
  Forall (fun c => c <> CH_GT) (name ++ attributes).
Proof.
  intros [_ Hn]%good_name_chars (Ha & _)%good_attributes_chars. apply Forall_app. split; eapply Forall_impl; try done.
  - intros c [(_ & ? & _) _]. done.
  - by intros c [_ ?].
Qed.

Lemma word_name name : good_name name = true -> Forall word_char name.
Proof. intros [_ Hn]%good_name_chars. eapply Forall_impl; [done|]. by intros c [? _]. Qed.

Lemma open_run mem nodes k i cc stk sp po name attributes :
  good_name name = true -> good_attributes attributes = true -> text_at mem (src + i) (open_tag name attributes) ->
  0 <= i -> i + zlen (open_tag name attributes) <= L -> k < MAX_XML_NODES -> attached nodes po k ->
  zlen stk = MAX_VOID_STACK_SIZE -> 0 <= sp < MAX_VOID_STACK_SIZE ->
  exists mem' nodes0, relink nodes po k = Some nodes0 /\
    (forall b, b <= src + i \/ src + i + zlen (open_tag name attributes) <= b -> mem' b = mem b) /\
    cstring mem' (src + i + 1) name /\
    run (state mem nodes k i cc stk sp po) =
      run (state mem' (<[k := mkNode (src + i + 1) po None None None NULL]> nodes0) (k + 1) (i + zlen (open_tag name attributes))
             (src + i + zlen (open_tag name attributes)) (<[Z.to_nat sp := src + i + 1]> stk) (sp + 1) (Some k)).
Proof.
  intros Hname Hattr Ht Hi Hfit Hk Hatt Hstk Hsp. rewrite zlen_open in *. set (o := 2 + zlen name + zlen attributes) in *.
  pose proof (zlen_nonneg name). pose proof (zlen_nonneg attributes).
  pose proof (proj1 (good_name_chars _ Hname)) as Hlen.
  destruct (open_begin mem nodes k i cc stk sp po name (name ++ attributes) (attributes ++ [CH_GT]) (zlen name + zlen attributes))
    as (mem' & nodes0 & Hre & Hm & Hstep); [done | done | done | | by apply Forall_tag | by rewrite zlen_app | lia | done | done |].
  { rewrite <- app_assoc. apply Ht. }
  exists mem', nodes0. split; [done|]. split; [intros b Hb; rewrite Hm; apply blanked_out; lia|].
  destruct Ht as [_ Ht].
  assert (cstring mem' (src + i + 1) name) as Hc.
  { destruct (good_attributes_chars _ Hattr) as (_ & [-> | [l ->]] & _).
    - eapply (word_blanked mem); [exact Ht | by right | by apply word_name | | exact Hm]. lia.
    - eapply (word_blanked mem); [exact Ht | by left | by apply word_name | | exact Hm]. lia. }
  split; [done|]. destruct (no_slash _ _ _ _ _ Hname Hattr Ht) as [Hs1 Hs2].
  assert (forall b, mem b <> CH_SLASH -> (mem' b =? CH_SLASH) = false) as Hns.
  { intros b Hb. rewrite Hm. unfold blanked. apply Z.eqb_neq. by destruct (_ && _). }
  rewrite (strlen_ok mem' _ _ Hc) in Hstep by lia. cbn [mbind option_bind] in Hstep. cbv zeta in Hstep.
  rewrite !Hns in Hstep; [|by replace (src + (i + (zlen name + zlen attributes) + 1) - 1) with (src + i + 1 + zlen name + zlen attributes - 1) by lia | done].
  cbn [orb] in Hstep. unfold void_ptr_stack_push in Hstep. cbn [stack_ptr stack] in Hstep.
  destruct (Z.leb_spec sp MAX_VOID_STACK_SIZE); [|lia]. rewrite zset_eq in Hstep by lia. cbn [mbind option_bind negb] in Hstep.
  rewrite (run_next _ _ Hstep) by (cbn; lia). unfold next_index, state. cbn. rewrite u16_small by (unfold MAX_VOID_STACK_SIZE in *; lia).
  do 3 f_equal; lia.
Qed.

Lemma empty_run mem nodes k i cc stk sp po name attributes :
  good_name name = true -> good_attributes attributes = true -> text_at mem (src + i) (render (Empty name attributes)) ->
  0 <= i -> i + zlen (render (Empty name attributes)) <= L -> k < MAX_XML_NODES -> attached nodes po k ->
  exists mem' nodes0, relink nodes po k = Some nodes0 /\
    (forall b, b <= src + i \/ src + i + zlen (render (Empty name attributes)) <= b -> mem' b = mem b) /\
    cstring mem' (src + i + 1) name /\
    run (state mem nodes k i cc stk sp po) =
      run (state mem' (<[k := mkNode (src + i + 1) po None None None NULL]> nodes0) (k + 1) (i + zlen (render (Empty name attributes)))
             NULL stk sp (Some (default k po))).
Proof.
  intros Hname Hattr Ht Hi Hfit Hk Hatt. cbn [render] in *. rewrite zlen_cons, !zlen_app in *. change (zlen [CH_SLASH; CH_GT]) with 2 in *.
  pose proof (zlen_nonneg name). pose proof (zlen_nonneg attributes). pose proof (proj1 (good_name_chars _ Hname)) as Hlen.
  destruct (open_begin mem nodes k i cc stk sp po name (name ++ attributes ++ [CH_SLASH]) (attributes ++ [CH_SLASH; CH_GT]) (zlen name + zlen attributes + 1))
    as (mem1 & nodes0 & Hre & Hm & Hstep); [done | done | done | | | rewrite !zlen_app; change (zlen [CH_SLASH]) with 1; lia | lia | done | done |].
  { rewrite <- !app_assoc. apply Ht. }
  { rewrite app_assoc. apply Forall_app. split; [by apply Forall_tag | by repeat constructor]. }
  destruct Ht as [_ Ht]. destruct (no_slash _ _ _ _ _ Hname Hattr Ht) as [Hs1 _].
  assert (mem (src + i + 1 + zlen name + zlen attributes) = CH_SLASH) as Hsl.
  { rewrite app_assoc, text_at_app in Ht. destruct Ht as [_ [Ht _]]. rewrite zlen_app in Ht. by rewrite <- Z.add_assoc. }
  assert (forall b, src + i + 1 <= b < src + i + 1 + zlen name + zlen attributes + 2 -> mem b = CH_SLASH -> (mem1 b =? CH_SLASH) = true) as Hss.
  { intros b Hb Hb'. rewrite Hm, blanked_in, Hb' by lia. done. }
  assert (forall b, mem b <> CH_SLASH -> (mem1 b =? CH_SLASH) = false) as Hns.
  { intros b Hb. rewrite Hm. unfold blanked. apply Z.eqb_neq. by destruct (_ && _). }
  set (node := mkNode (src + i + 1) po None None None NULL) in *. cbv zeta in Hstep.
  rewrite (go_up_top _ k node) in Hstep by (cbn; apply lookup_insert_eq). change (parent node) with po in Hstep.
  assert ((mem1 (src + (i + (zlen name + zlen attributes + 1) + 1) - 1) =? CH_SLASH) = true) as Hend_slash
    by (apply Hss; [lia | rewrite <- Hsl; f_equal; lia]).
  destruct (good_attributes_chars _ Hattr) as (_ & [-> | [l ->]] & _).
  - change (zlen []) with 0 in *. cbn [app] in Ht.
    assert (cstring mem1 (src + i + 1) (name ++ [CH_SLASH])) as Hc.
    { eapply (word_blanked mem); [rewrite <- app_assoc; exact Ht | by right | | | exact Hm].
      - apply Forall_app. split; [by apply word_name | by repeat constructor].
      - rewrite zlen_app. change (zlen [CH_SLASH]) with 1. lia. }
    rewrite (strlen_ok mem1 _ _ Hc) in Hstep by (rewrite ?zlen_app; change (zlen [CH_SLASH]) with 1; lia).
    cbn [mbind option_bind] in Hstep. rewrite zlen_app in Hstep. change (zlen [CH_SLASH]) with 1 in Hstep.
    rewrite (Hss (src + i + 1 + (zlen name + 1) - 1)) in Hstep; [|lia | rewrite <- Hsl; f_equal; lia]. cbn [orb] in Hstep.
    exists (poke mem1 (src + i + 1 + (zlen name + 1) - 1) 0), nodes0. split; [done|]. split; [|split].
    + intros b Hb. rewrite poke_ne, Hm by lia. apply blanked_out. lia.
    + destruct Hc as (Hr & _ & Hc). apply text_at_read, text_at_app in Hr as [Hr _]. apply text_at_cstring.
      * eapply text_at_ext; [|done]. intros b Hb. apply poke_ne. lia.
      * replace (src + i + 1 + (zlen name + 1) - 1) with (src + i + 1 + zlen name) by lia. apply poke_eq.
      * by apply Forall_app in Hc as [? _].
    + rewrite (run_next _ _ Hstep) by (cbn; lia). unfold next_index, state. cbn. do 3 f_equal; lia.
  - assert (cstring mem1 (src + i + 1) name) as Hc.
    { eapply (word_blanked mem); [exact Ht | by left | by apply word_name | | exact Hm]. lia. }
    rewrite (strlen_ok mem1 _ _ Hc) in Hstep by lia. cbn [mbind option_bind] in Hstep.
    rewrite (Hns (src + i + 1 + zlen name - 1)), Hend_slash in Hstep by done. cbn [orb] in Hstep.
    exists mem1, nodes0. split; [done|]. split; [|split; [done|]].
    + intros b Hb. rewrite Hm. apply blanked_out. lia.
    + rewrite (run_next _ _ Hstep) by (cbn; lia). unfold next_index, state. cbn. do 3 f_equal; lia.
Qed.

Lemma close_run mem nodes c i cc stk sp k nk t name :
  good_name name = true -> text_at mem (src + i) (close_tag name) -> 0 <= i -> i + zlen (close_tag name) <= L ->
  nodes !! k = Some nk -> zlen stk = MAX_VOID_STACK_SIZE -> 0 < sp <= MAX_VOID_STACK_SIZE ->
  zget stk (sp - 1) = Some t -> cstring mem t name -> 1 < t -> t + zlen name < src + i ->
  exists mem',
    (forall b, b < src + i \/ src + i + zlen (close_tag name) <= b -> mem' b = mem b) /\
    (cc <> NULL -> mem' (src + i) = 0) /\
    run (state mem nodes c i cc stk sp (Some k)) =
      run (state mem' (if cc =? NULL then nodes else <[k := nk {{ content := cc }}]> nodes) c (i + zlen (close_tag name))
             NULL stk (sp - 1) (Some (default k (parent nk)))).
Proof.
  intros Hname Ht Hi Hfit Hnk Hstk Hsp Htop Hc Ht1 Hbelow. rewrite zlen_close in *.
  pose proof (zlen_nonneg name). pose proof (proj1 (good_name_chars _ Hname)) as Hlen.
  destruct Ht as (Hlt & Hsl & Ht). replace (src + i + 1 + 1) with (src + i + 2) in Ht by lia.
  set (mem0 := if cc =? NULL then mem else poke mem (src + i) 0).
  set (nodes0 := if cc =? NULL then nodes else <[k := nk {{ content := cc }}]> nodes).
  assert (forall b, b <> src + i -> mem0 b = mem b) as Hm0 by (intros b Hb; subst mem0; destruct (cc =? NULL); [done | by apply poke_ne]).
  assert (exists n0, nodes0 !! k = Some n0 /\ parent n0 = parent nk) as (n0 & Hn0 & Hpar).
  { subst nodes0. destruct (cc =? NULL); [by exists nk | rewrite lookup_insert_eq; by eexists]. }
  destruct (tag_loop_spec name (Z.to_nat (L - (i + 2))) mem0 src (i + 2)) as (mem' & El & Hm); [| | lia |].
  { eapply text_at_ext; [|by replace (src + (i + 2)) with (src + i + 2) by lia]. intros b Hb. apply Hm0. lia. }
  { destruct (good_name_chars _ Hname) as [_ Hn]. eapply Forall_impl; [done|]. by intros x [(_ & ? & _) _]. }
  assert (forall b, b < src + i + 2 \/ src + i + 3 + zlen name <= b -> mem' b = mem0 b) as Hout by (intros b Hb; rewrite Hm; apply blanked_out; lia).
  exists mem'. split; [intros b Hb; rewrite Hout, Hm0 by lia; done|]. split.
  { intros Hcc. rewrite Hout by lia. subst mem0. apply Z.eqb_neq in Hcc as ->. apply poke_eq. }
  assert (cstring mem' (src + i + 2) name) as Hc'.
  { eapply (word_blanked mem0 mem' _ _ CH_GT []); [| by right | by apply word_name | | intros b; rewrite Hm; f_equal; lia]; [|lia].
    eapply text_at_ext; [|exact Ht]. intros b Hb. apply Hm0. lia. }
  assert (cstring mem' t name) as Hct by (eapply cstring_ext; [|exact Hc]; intros b Hb; rewrite Hout, Hm0 by lia; done).
  destruct (strcmp_spec mem' (src + i + 2) t name name Hc' Hct) as (r & Hr & Hnull); try lia.
  assert (parse_step (state mem nodes c i cc stk sp (Some k)) =
    Some (Next (mkParser mem' (mkHeap src nodes0 c (i + 2 + zlen name) L NULL) (mkStack stk (u16 (sp - 1))) (Some (default k (parent nk)))))) as Hstep.
  { unfold parse_step, state. cbn [text heap xml_source index]. rewrite Hlt, Hsl, !Z.eqb_refl. cbn [andb].
    unfold close_element. cbn [text heap xml_source index current_content xml_nodes parent_node].
    assert ((if negb (cc =? NULL) then nodes1 ← write_node nodes (Some k) (fun n => n {{ content := cc }}); Some (poke mem (src + i) 0, nodes1)
      else Some (mem, nodes)) = Some (mem0, nodes0)) as ->.
    { subst mem0 nodes0. destruct (cc =? NULL); cbn [negb]; [done|]. by rewrite (write_node_some _ k nk). }
    cbn [mbind option_bind]. rewrite (go_up_top _ k n0), Hpar by done. cbn [mbind option_bind].
    unfold parse_close_tag. cbn. rewrite El.
    unfold void_ptr_stack_pop. cbn [stack stack_ptr]. destruct (Z.ltb_spec 0 sp); [|lia]. rewrite Htop. cbn [mbind option_bind].
    replace (src + (i + 2)) with (src + i + 2) by lia. rewrite Hr. cbn [mbind option_bind]. rewrite (proj2 Hnull) by done. done. }
  rewrite (run_next _ _ Hstep) by (cbn; lia). unfold next_index, state. cbn. rewrite u16_small by (unfold MAX_VOID_STACK_SIZE in *; lia).
  do 3 f_equal; lia.
Qed.

(** What a new child changes: its parent and the node to its left. *)
Lemma relink_child nodes p k pn : attached nodes (Some p) k -> nodes !! p = Some pn ->
  exists nodes0 pn', relink nodes (Some p) k = Some nodes0 /\ nodes0 !! p = Some pn' /\
    tag pn' = tag pn /\ parent pn' = parent pn /\ content pn' = content pn /\ right_node pn' = right_node pn /\
    child_start pn' = Some (default k (child_start pn)) /\ child_end pn' = Some k /\
    forall j, j <> p -> nodes0 !! j =
      match child_start pn with
      | Some _ => if decide (Some j = child_end pn) then (fun n => n {{ right_node := Some k }}) <$> nodes !! j else nodes !! j
      | None => nodes !! j
      end.
Proof.
  intros (pn0 & Hpk & Hp & Hc) Hp'. rewrite Hp in Hp'. injection Hp' as ->. unfold relink. rewrite Hp. cbn [mbind option_bind].
  destruct (child_start pn) as [c|] eqn:Ec.
  - destruct Hc as (e & en & -> & He & Hek). rewrite (write_node_some _ e en) by done. cbn [mbind option_bind].
    rewrite (write_node_some _ p pn) by (rewrite lookup_insert_ne; done || lia).
    eexists _, _. split; [done|]. split; [apply lookup_insert_eq|]. cbn. rewrite Ec. do 6 (split; [done|]).
    intros j Hj. rewrite !lookup_insert. repeat case_decide; try congruence; simplify_eq. by rewrite He.
  - rewrite (write_node_some _ p pn) by done. eexists _, _. split; [done|]. split; [apply lookup_insert_eq|]. cbn.
    do 6 (split; [done|]). intros j Hj. by rewrite lookup_insert_ne.
Qed.

Definition parses (d : doc) : Prop := forall mem nodes k i cc stk sp po nodes0,
  good d = true -> text_at mem (src + i) (render d) -> 0 <= i -> i + zlen (render d) <= L ->
  0 <= k -> k + size d <= MAX_XML_NODES -> attached nodes po k -> relink nodes po k = Some nodes0 ->
  zlen stk = MAX_VOID_STACK_SIZE -> 0 <= sp -> sp + height d <= MAX_VOID_STACK_SIZE ->
  exists mem' nodes' stk',
    run (state mem nodes k i cc stk sp po) =
      run (state mem' nodes' (k + size d) (i + zlen (render d)) NULL stk' sp (Some (default k po))) /\
    (forall b, b < src + i \/ src + i + zlen (render d) <= b -> mem' b = mem b) /\
    (forall j, j < k -> nodes' !! j = nodes0 !! j) /\
    represents mem' nodes' d (src + i) k po /\
    (exists n, nodes' !! k = Some n /\ right_node n = None) /\
    zlen stk' = MAX_VOID_STACK_SIZE /\ (forall j, 0 <= j < sp -> zget stk' j = zget stk j).

Lemma kids_run l : Forall (fun x => parses (snd x)) l -> forall mem nodes c i cc stk sp k nk,
  forallb (fun '(gap, d) => quiet gap && good d) l = true -> text_at mem (src + i) (render_all l) -> 0 <= i -> i + zlen (render_all l) <= L ->
  0 <= k < c -> c + total_size l <= MAX_XML_NODES -> attached nodes (Some k) c -> nodes !! k = Some nk ->
  zlen stk = MAX_VOID_STACK_SIZE -> 0 <= sp -> sp + top_height l <= MAX_VOID_STACK_SIZE ->
  exists mem' nodes' stk' nk',
    run (state mem nodes c i cc stk sp (Some k)) =
      run (state mem' nodes' (c + total_size l) (i + zlen (render_all l)) (match l with [] => cc | _ => NULL end) stk' sp (Some k)) /\
    (forall b, b < src + i \/ src + i + zlen (render_all l) <= b -> mem' b = mem b) /\
    nodes' !! k = Some nk' /\ tag nk' = tag nk /\ parent nk' = parent nk /\ content nk' = content nk /\ right_node nk' = right_node nk /\
    child_start nk' = match l with [] => child_start nk | _ => Some (default c (child_start nk)) end /\
    (forall j, j < c -> j <> k -> nodes' !! j =
      match l, child_start nk with
      | _ :: _, Some _ => if decide (Some j = child_end nk) then (fun n => n {{ right_node := Some c }}) <$> nodes !! j else nodes !! j
      | _, _ => nodes !! j
      end) /\
    forest mem' nodes' l (src + i) c k /\
    zlen stk' = MAX_VOID_STACK_SIZE /\ (forall j, 0 <= j < sp -> zget stk' j = zget stk j).
Proof.
  induction 1 as [|[gap d] l Hd _ IH]; intros mem nodes c i cc stk sp k nk Hgood Ht Hi Hfit Hk Hsize Hatt Hnk Hstk Hsp Hheight.
  { exists mem, nodes, stk, nk. change (total_size []) with 0. change (zlen (render_all [])) with 0. rewrite !Z.add_0_r. by split_and!. }
  cbn [forallb] in Hgood. rewrite !andb_true_iff in Hgood. destruct Hgood as [[Hgap Hgood] Hrest]. cbn [snd] in Hd.
  rewrite render_all_cons, !zlen_app in *. rewrite total_size_cons, top_height_cons in *. rewrite !text_at_app in Ht. destruct Ht as (Htg & Htd & Htr).
  pose proof (zlen_nonneg gap). pose proof (zlen_nonneg (render d)). pose proof (zlen_nonneg (render_all l)). pose proof (size_pos d). pose proof (sizes_nonneg l).
  destruct (relink_child nodes k c nk Hatt Hnk) as (nodes0 & nk1 & Hre & Hnk1 & Et & Ep & Ec & Er & Ecs & Ece & Hother).
  rewrite (quiet_run gap) by (done || lia). rewrite <- Z.add_assoc in Htd.
  destruct (Hd mem nodes c (i + zlen gap) cc stk sp (Some k) nodes0 Hgood Htd) as (mem1 & nodes1 & stk1 & -> & Hm1 & Hn1 & Hr1 & (n & Hn & Hnr) & Hl1 & Hs1); try done; try lia.
  change (default c (Some k)) with k.
  assert (nodes1 !! k = Some nk1) as Hk1 by (rewrite Hn1 by lia; done).
  destruct (IH mem1 nodes1 (c + size d) (i + zlen gap + zlen (render d)) NULL stk1 sp k nk1)
    as (mem' & nodes' & stk' & nk' & -> & Hm' & Hnk' & Et' & Ep' & Ec' & Er' & Ecs' & Hother' & Hf & Hl' & Hs'); try done; try lia.
  { eapply text_at_ext; [|by rewrite !Z.add_assoc in *; exact Htr]. intros b Hb. apply Hm1. lia. }
  { exists nk1. split; [lia|]. split; [done|]. rewrite Ecs. exists c, n. split_and!; done || lia. }
  exists mem', nodes', stk', nk'. split.
  { replace (i + (zlen gap + (zlen (render d) + zlen (render_all l)))) with (i + zlen gap + zlen (render d) + zlen (render_all l)) by lia.
    rewrite Z.add_assoc. by destruct l. }
  split; [intros b Hb; rewrite Hm', Hm1 by lia; done|]. split; [done|]. do 4 (split; [congruence|]). split.
  { rewrite Ecs', Ecs. by destruct l. }
  assert (forall j, j < c -> j <> k -> nodes' !! j = nodes0 !! j) as Hlow.
  { intros j Hj Hjk. rewrite Hother' by lia. rewrite Ecs, Ece. rewrite <- Hn1 by lia. destruct l; [done|].
    rewrite decide_False by (intros [= ->]; lia). done. }
  split; [intros j Hj Hjk; rewrite Hlow, Hother by lia; done|]. split; [|split; [done|intros j Hj; rewrite Hs', Hs1 by done; done]].
  assert (nodes' !! c = Some (match l with [] => n | _ => n {{ right_node := Some (c + size d) }} end)) as Hc'.
  { rewrite Hother' by lia. rewrite Ecs, Ece, Hn. destruct l; [done|]. by rewrite decide_True. }
  rewrite forest_cons. split; [|split].
  - rewrite <- Z.add_assoc. eapply represents_frame; [..|exact Hr1].
    + intros b Hb. apply Hm'. lia.
    + intros j Hj. rewrite Hother' by lia. rewrite Ecs, Ece. destruct l; [done|]. by rewrite decide_False by (intros [= ->]; lia).
    + intros n0 Hn0. rewrite Hn in Hn0. injection Hn0 as <-. eexists. split; [exact Hc'|]. by destruct l.
  - eexists. split; [exact Hc'|]. by destruct l.
  - by rewrite !Z.add_assoc in *.
Qed.

Lemma stack_push (stk : list Z) sp v : zlen stk = MAX_VOID_STACK_SIZE -> 0 <= sp < MAX_VOID_STACK_SIZE ->
  zlen (<[Z.to_nat sp := v]> stk) = MAX_VOID_STACK_SIZE /\ zget (<[Z.to_nat sp := v]> stk) sp = Some v /\
  forall j, 0 <= j < sp -> zget (<[Z.to_nat sp := v]> stk) j = zget stk j.
Proof.
  intros Hl Hsp. assert (zset stk sp v = Some (<[Z.to_nat sp := v]> stk)) as E by (apply zset_eq; lia). split_and!.
  - unfold zlen in *. by rewrite length_insert.
  - by apply zget_zset_eq in E.
  - intros j Hj. apply (zget_zset_ne _ _ _ _ j E). lia.
Qed.

Lemma forest_frame mem mem' nodes l a c par : (forall b, a <= b < a + zlen (render_all l) -> mem' b = mem b) ->
  forest mem nodes l a c par -> forest mem' nodes l a c par.
Proof.
  revert a c. induction l as [|[gap k] l IH]; intros a c Hm; [done|]. rewrite render_all_cons, !zlen_app in Hm. rewrite !forest_cons.
  pose proof (zlen_nonneg gap). pose proof (zlen_nonneg (render k)). pose proof (zlen_nonneg (render_all l)).
  intros (Hr & Hn & Hf). split; [|split; [done|]].
  - eapply represents_frame; [..|exact Hr]; [intros b Hb; apply Hm; lia | done | by intros n ->; exists n].
  - apply IH; [|done]. intros b Hb. apply Hm. lia.
Qed.

Lemma parse_leaf name attributes txt : parses (Leaf name attributes txt).
Proof.
  intros mem nodes k i cc stk sp po nodes0 Hgood Ht Hi Hfit Hk Hsize Hatt Hre Hstk Hsp Hheight.
  cbn [good] in Hgood. rewrite !andb_true_iff in Hgood.
  destruct Hgood as [[Hname Hattr] Htxt]. cbn [render size height] in *. rewrite !zlen_app, zlen_close in *.
  rewrite !text_at_app in Ht. destruct Ht as (Hto & Htt & Htc). pose proof (zlen_nonneg txt). pose proof (zlen_nonneg name).
  set (o := zlen (open_tag name attributes)) in *. assert (o = 2 + zlen name + zlen attributes) as Eo by apply zlen_open. pose proof (zlen_nonneg attributes).
  destruct (open_run mem nodes k i cc stk sp po name attributes) as (mem1 & nodes1 & Hre1 & Hm1 & Hc1 & ->); try done; try lia.
  rewrite Hre in Hre1. injection Hre1 as <-. fold o in Hm1. fold o.
  destruct (stack_push stk sp (src + i + 1)) as (Hl1 & Htop & Hs1); [done | lia |].
  rewrite (quiet_run txt); [| |done|lia]; [|eapply text_at_ext; [|rewrite Z.add_assoc; exact Htt]; intros b Hb; apply Hm1; lia].
  set (node := mkNode (src + i + 1) po None None None NULL).
  destruct (close_run mem1 (<[k := node]> nodes0) (k + 1) (i + o + zlen txt) (src + i + o) (<[Z.to_nat sp := src + i + 1]> stk) (sp + 1) k node (src + i + 1) name)
    as (mem' & Hm' & Hz & ->); rewrite ?zlen_close in *; try done; try lia; try (by apply lookup_insert_eq); try (by replace (sp + 1 - 1) with sp by lia); try (rewrite zlen_close; lia).
  { eapply text_at_ext; [|rewrite !Z.add_assoc; rewrite ?Z.add_assoc in Htc; exact Htc]. intros b Hb. apply Hm1. rewrite zlen_close in Hb. lia. }
  replace (src + i + o =? NULL) with false by (symmetry; apply Z.eqb_neq; unfold NULL; lia).
  cbv iota. rewrite insert_insert_eq. exists mem', (<[k := node {{ content := src + i + o }}]> nodes0), (<[Z.to_nat sp := src + i + 1]> stk).
  split; [change (parent node) with po; do 2 f_equal; lia|].
  split; [intros b Hb; rewrite Hm', Hm1 by lia; done|].
  split; [intros j Hj; by rewrite lookup_insert_ne by lia|]. split; [|split; [|split; [done|exact Hs1]]].
  - cbn [represents name_of]. eexists. split; [apply lookup_insert_eq|]. cbn. fold o.
    do 2 (split; [done|]). split; [|split; [done|split; [done|]]].
    + eapply cstring_ext; [|exact Hc1]. intros b Hb. apply Hm'. lia.
    + apply text_at_cstring; [|rewrite <- Hz by (unfold NULL; lia); f_equal; lia|by apply quiet_chars].
      eapply text_at_ext; [|exact Htt]. intros b Hb. rewrite Hm', Hm1 by lia. done.
  - eexists. split; [apply lookup_insert_eq | done].
Qed.

Lemma parse_empty name attributes : parses (Empty name attributes).
Proof.
  intros mem nodes k i cc stk sp po nodes0 Hgood Ht Hi Hfit Hk Hsize Hatt Hre Hstk Hsp Hheight.
  cbn [good] in Hgood. rewrite !andb_true_iff in Hgood.
  destruct Hgood as [Hname Hattr]. cbn [size height] in *.
  destruct (empty_run mem nodes k i cc stk sp po name attributes) as (mem' & nodes1 & Hre1 & Hm' & Hc & ->); try done; try lia.
  rewrite Hre in Hre1. injection Hre1 as <-. exists mem', (<[k := mkNode (src + i + 1) po None None None NULL]> nodes0), stk.
  split; [done|]. split; [intros b Hb; apply Hm'; lia|]. split; [intros j Hj; by rewrite lookup_insert_ne by lia|].
  split; [|split; [eexists; split; [apply lookup_insert_eq | done]|done]].
  cbn [represents name_of]. eexists. split; [apply lookup_insert_eq|]. done.
Qed.

Lemma parse_branch name attributes kids tail : Forall (fun x => parses (snd x)) kids -> parses (Branch name attributes kids tail).
Proof.
  intros IH.
  intros mem nodes k i cc stk sp po nodes0 Hgood Ht Hi Hfit Hk Hsize Hatt Hre Hstk Hsp Hheight.
  cbn [good] in Hgood. rewrite !andb_true_iff in Hgood.
  destruct Hgood as [[[[Hname Hattr] Hne] Htail] Hkids]. rewrite render_branch, size_branch in *. change (height (Branch name attributes kids tail)) with (1 + top_height kids) in *.
  pose proof (top_height_nonneg kids). pose proof (sizes_nonneg kids). rewrite !zlen_app, zlen_close in *.
  rewrite !text_at_app in Ht. destruct Ht as (Hto & Htk & Htt & Htc).
  pose proof (zlen_nonneg (render_all kids)). pose proof (zlen_nonneg name). pose proof (zlen_nonneg tail).
  set (o := zlen (open_tag name attributes)) in *. assert (o = 2 + zlen name + zlen attributes) as Eo by apply zlen_open. pose proof (zlen_nonneg attributes).
  destruct (open_run mem nodes k i cc stk sp po name attributes) as (mem1 & nodes1 & Hre1 & Hm1 & Hc1 & ->); try done; try lia.
  rewrite Hre in Hre1. injection Hre1 as <-. fold o in Hm1. fold o.
  destruct (stack_push stk sp (src + i + 1)) as (Hl1 & Htop & Hs1); [done | lia |].
  set (node := mkNode (src + i + 1) po None None None NULL).
  destruct (kids_run kids IH mem1 (<[k := node]> nodes0) (k + 1) (i + o) (src + i + o) (<[Z.to_nat sp := src + i + 1]> stk) (sp + 1) k node)
    as (mem2 & nodes2 & stk2 & nk & -> & Hm2 & Hnk & Et & Ep & Ec & Er & Ecs & Hother & Hf & Hl2 & Hs2); try done; try lia.
  { eapply text_at_ext; [|rewrite Z.add_assoc; exact Htk]. intros b Hb. apply Hm1. lia. }
  { exists node. split; [lia|]. split; [apply lookup_insert_eq | done]. }
  { apply lookup_insert_eq. }
  destruct kids as [|kid kids]; [done|]. set (l := kid :: kids) in *. cbn [default child_start node] in Ecs.
  rewrite (quiet_run tail); [| |done|lia]; [|eapply text_at_ext; [|rewrite !Z.add_assoc; exact Htt]; intros b Hb; rewrite Hm2, Hm1 by lia; done].
  destruct (close_run mem2 nodes2 (k + 1 + total_size l) (i + o + zlen (render_all l) + zlen tail) NULL stk2 (sp + 1) k nk (src + i + 1) name)
    as (mem' & Hm' & _ & ->); try done; try lia; try (rewrite zlen_close; lia).
  { eapply text_at_ext; [|rewrite !Z.add_assoc; rewrite ?Z.add_assoc in Htc; exact Htc]. intros b Hb. rewrite Hm2, Hm1 by (rewrite zlen_close in Hb; lia). done. }
  { replace (sp + 1 - 1) with sp by lia. by rewrite Hs2 by lia. }
  { eapply cstring_ext; [|exact Hc1]. intros b Hb. apply Hm2. lia. }
  rewrite zlen_close in Hm'. rewrite zlen_close, Z.eqb_refl. cbv iota. exists mem', nodes2, stk2. rewrite Ep. change (parent node) with po.
  split; [do 2 f_equal; lia|]. split; [intros b Hb; rewrite Hm', Hm2, Hm1 by lia; done|].
  assert (forall j, j < k -> nodes2 !! j = nodes0 !! j) as Hlow by (intros j Hj; rewrite Hother by lia; by rewrite lookup_insert_ne by lia).
  split; [done|]. split; [|split; [eexists; split; [exact Hnk | by rewrite Er]|split; [done|]]].
  - apply represents_branch. exists nk. split; [done|]. split; [by rewrite Ep|]. split; [by rewrite Et|]. fold o.
    split; [eapply cstring_ext; [|exact Hc1]; intros b Hb; rewrite Hm', Hm2 by lia; done|].
    split; [done|]. split; [by rewrite Ec|].
    eapply forest_frame; [..|by rewrite Z.add_assoc in Hf]. intros b Hb. apply Hm'. lia.
  - intros j Hj. rewrite Hs2, Hs1 by lia. done.
Qed.

Lemma parse_doc d : parses d.
Proof. induction d using doc_induction; [apply parse_leaf | apply parse_empty | by apply parse_branch]. Qed.
End parse.

(** ** The whole parser *)

Definition frame_ok (u : void_ptr_stack_t) : Prop := zlen (stack u) = MAX_VOID_STACK_SIZE /\ 0 <= stack_ptr u < MAX_VOID_STACK_SIZE.

Lemma stack_init_ok u : frame_ok u -> exists l, void_ptr_stack_init u = Some (mkStack l 0) /\ zlen l = MAX_VOID_STACK_SIZE.
Proof.
  intros [Hl Hp]. unfold void_ptr_stack_init.
  destruct (for_each_inv (fun _ l => zlen l = MAX_VOID_STACK_SIZE) (fun _ l => zset l (stack_ptr u) NULL) (Z.to_nat MAX_VOID_STACK_SIZE) 0 (stack u))
    as (l & -> & H); [done | | by exists l].
  intros _ l _ H. rewrite zset_eq by lia. eexists. split; [done|]. unfold zlen in *. by rewrite length_insert.
Qed.

Lemma parse_xml_doc `{RoutinesOk} u mem h src pre d post :
  frame_ok u -> cstring mem src (pre ++ render d ++ post) -> 0 < src -> src + zlen (pre ++ render d ++ post) < 2 ^ 64 ->
  quiet pre = true -> good d = true -> quiet post = true -> size d <= MAX_XML_NODES -> height d <= MAX_VOID_STACK_SIZE ->
  exists h0 mem' h', xml_heap_init mem h src = Some h0 /\ parse_xml u mem h0 = Some (1, mem', h') /\
    xml_source h' = src /\ current_node h' = size d /\
    represents mem' (xml_nodes h') d (src + zlen pre) 0 None /\
    (exists n, xml_nodes h' !! 0 = Some n /\ right_node n = None) /\
    (forall b, b < src \/ src + zlen (pre ++ render d ++ post) <= b -> mem' b = mem b).
Proof.
  intros Hu Hc Hsrc Hend Hpre Hd Hpost Hsize Hheight. set (L := zlen (pre ++ render d ++ post)) in *.
  assert (L = zlen pre + zlen (render d) + zlen post) as EL by (subst L; rewrite !zlen_app; lia).
  pose proof (zlen_nonneg pre). pose proof (zlen_nonneg (render d)). pose proof (zlen_nonneg post).
  exists (mkHeap src (xml_nodes h) 0 0 L NULL). destruct (stack_init_ok u Hu) as (stk & Hinit & Hstk).
  pose proof Hc as (Hr & _). apply text_at_read in Hr. rewrite !text_at_app in Hr. destruct Hr as (Ht1 & Ht2 & Ht3).
  destruct (parse_doc src L Hsrc Hend d mem (xml_nodes h) 0 (zlen pre) NULL stk 0 None (xml_nodes h) Hd Ht2)
    as (mem' & nodes' & stk' & Hrun & Hm & _ & Hrep & Hright & _); try done; try lia.
  exists mem', (mkHeap src nodes' (size d) L L NULL). split; [|split; [|split_and!; try done]].
  - unfold xml_heap_init. rewrite (strlen_ok mem src _ Hc) by (fold L; lia). done.
  - unfold parse_xml. rewrite Hinit. cbn [mbind option_bind].
    change (mkParser mem (mkHeap src (xml_nodes h) 0 0 L NULL) (mkStack stk 0) None) with (state src L mem (xml_nodes h) 0 0 NULL stk 0 None).
    match goal with |- context [parse_loop (rounds_left ?p) ?p] => change (parse_loop (rounds_left p) p) with (run p) end.
    rewrite (quiet_run src L pre) by (done || lia || by rewrite Z.add_0_r). cbn [Z.add]. rewrite Hrun.
    rewrite (quiet_run src L post); [| |done|lia].
    + rewrite run_end by (cbn; lia). cbn. do 3 f_equal. lia.
    + eapply text_at_ext; [|rewrite Z.add_assoc; exact Ht3]. intros b Hb. apply Hm. lia.
  - intros b Hb. apply Hm. lia.
Qed.

(** The bound of the stack is off by one, and its counter is used before it is set. *)
Lemma full_stack_overruns s item : zlen (stack s) = MAX_VOID_STACK_SIZE -> stack_ptr s = MAX_VOID_STACK_SIZE ->
  void_ptr_stack_push s item = None.
Proof.
  intros Hl Hp. unfold void_ptr_stack_push. rewrite Hp, Z.leb_refl. destruct (zset (stack s) MAX_VOID_STACK_SIZE item) eqn:E; [|done].
  apply zset_inv in E as [E _]. lia.
Qed.

Lemma stack_init_overruns s : zlen (stack s) = MAX_VOID_STACK_SIZE -> MAX_VOID_STACK_SIZE <= stack_ptr s -> void_ptr_stack_init s = None.
Proof.
  intros Hl Hp. unfold void_ptr_stack_init. change (Z.to_nat MAX_VOID_STACK_SIZE) with (S 127). set (n := 127%nat). unfold for_each. fold (@for_each (list Z)).
  destruct (zset (stack s) (stack_ptr s) NULL) eqn:E; [|done]. apply zset_inv in E as [E _]. lia.
Qed.

(** ** Properties *)

(** C7: parsing the text of a document, with anything but elements around it, returns 1 and builds exactly
    its tree: every node has its name, its parent, its first child and its right neighbour, and a leaf its
    text; nothing outside the text is written. *)
Theorem document_parsed {R : Routines} {Rok : RoutinesOk} u mem h src pre d post :
  frame_ok u -> cstring mem src (pre ++ render d ++ post) -> 0 < src -> src + zlen (pre ++ render d ++ post) < 2 ^ 64 ->
  quiet pre = true -> good d = true -> quiet post = true -> size d <= MAX_XML_NODES -> height d <= MAX_VOID_STACK_SIZE ->
  exists h0 mem' h', xml_heap_init mem h src = Some h0 /\ parse_xml u mem h0 = Some (1, mem', h') /\
    current_node h' = size d /\ represents mem' (xml_nodes h') d (src + zlen pre) 0 None /\
    forall b, b < src \/ src + zlen (pre ++ render d ++ post) <= b -> mem' b = mem b.
Proof.
  intros Hu Hc Hsrc Hend Hpre Hd Hpost Hsize Hheight.
  destruct (parse_xml_doc u mem h src pre d post) as (h0 & mem' & h' & E1 & E2 & _ & E3 & E4 & _ & E5); try done. exists h0, mem', h'. exact (conj E1 (conj E2 (conj E3 (conj E4 E5)))).
Qed.

Definition sample_doc : doc :=
  Branch (codes "config") [] [(codes "", Leaf (codes "size") (codes " unit=k") (codes "12 ")); (codes ", ", Empty (codes "fast") [])] (codes ".").
Definition sample_text : list Z := codes "<?xml?>" ++ render sample_doc ++ codes " ".
Definition sample_memory : memory := write_bytes (fun _ => 0) 0x1000 sample_text.
Definition sample_frame : void_ptr_stack_t := mkStack (replicate 128 7) 3.
Definition garbage_heap : xml_heap_t := mkHeap 0 ∅ 77 77 77 77.

Lemma sample_text_at : cstring sample_memory 0x1000 sample_text.
Proof. apply is_cstring; vm_compute; reflexivity. Qed.

Lemma document_parsed_witness :
  sample_text = codes "<?xml?><config><size unit=k>12 </size>, <fast/>.</config> " /\
  exists h0 mem' h', xml_heap_init sample_memory garbage_heap 0x1000 = Some h0 /\ parse_xml sample_frame sample_memory h0 = Some (1, mem', h') /\
    current_node h' = 3 /\ represents mem' (xml_nodes h') sample_doc 0x1007 0 None.
Proof.
  split; [vm_compute; reflexivity|].
  destruct (document_parsed sample_frame sample_memory garbage_heap 0x1000 (codes "<?xml?>") sample_doc (codes " "))
    as (h0 & mem' & h' & E1 & E2 & E3 & E4 & _).
  - split; vm_compute; [reflexivity | split; [discriminate | reflexivity]].
  - exact sample_text_at.
  - lia.
  - vm_compute; reflexivity.
  - reflexivity.
  - vm_compute; reflexivity.
  - reflexivity.
  - vm_compute; discriminate.
  - vm_compute; discriminate.
  - exists h0, mem', h'. split; [exact E1|]. split; [exact E2|]. split; [exact E3 | exact E4].
Defined.
