(* ===== verification/XmlQuery.v ===== *)
(** * Queries on XML documents: [sources/xml/XQuery.c] and [sources/xml/XMLService.c]

    The local buffers of the code (the copy [q] of the query and the array
    [xquery] of its steps) are memory at addresses given as arguments. *)

From S2P Require Import Prelude FastMem KMalloc Service Stdio Strings XmlParser.

#[local] Open Scope Z_scope.

Definition CH_OPEN : Z := 91.
Definition CH_CLOSE : Z := 93.

(** [xquery_item_t]: 128 characters and a 16-bit index; [xquery_t]: 32 of them and an 8-bit count. *)
Definition XQUERY_ITEM : Z := 130.
Definition item_tag (xquery i : Z) : Z := xquery + XQUERY_ITEM * i.
Definition item_index (xquery i : Z) : Z := item_tag xquery i + 128.
Definition items_count (xquery : Z) : Z := xquery + XQUERY_ITEM * 32.
Definition XQUERY_SIZE : Z := XQUERY_ITEM * 32 + 1.

(** The buffer of a query. *)
Definition QUERY_SIZE : Z := 1024.

Section query.
Context `{Routines}.

(** The tag and the index of the next item are written and the count goes up. *)
Definition add_item (mem : memory) (xquery xquery_item i : Z) : option memory :=
  let n := mem (items_count xquery) in
  let mem := memset mem (item_tag xquery n) 0 128 in
  mem ← strcpy mem (item_tag xquery n) xquery_item;
  let mem := put 2 mem (item_index xquery n) (u16 i) in
  Some (poke mem (items_count xquery) (u8 (n + 1))).

(** The number between brackets is looked for in the rest of the buffer. *)
Definition parse_xquery_item (mem : memory) (xquery_item xquery : Z) : option memory :=
  l ← strlen mem xquery_item;
  let open_bracket := scanc mem xquery_item CH_OPEN l in
  let close_bracket := scanc mem xquery_item CH_CLOSE l in
  if negb (open_bracket =? NULL) && negb (close_bracket =? NULL) && (open_bracket + 1 <? close_bracket) then
    let mem := poke (poke mem open_bracket 0) close_bracket 0 in
    n ← atoi (read_bytes mem (open_bracket + 1) QUERY_SIZE);
    add_item mem xquery xquery_item n
  else add_item mem xquery xquery_item 0.

Fixpoint getXMLNode_loop (fuel : nat) (mem : memory) (nodes : xml_nodes_map) (xml_node_ptr : option Z) (tag_ptr index i : Z) : option (option Z) :=
  match xml_node_ptr with
  | None => Some None
  | Some k =>
      match fuel with
      | O => None
      | S fuel =>
          n ← nodes !! k;
          r ← strcmp mem (tag n) tag_ptr;
          if r =? 0 then
            if i =? index then Some (Some k)
            else getXMLNode_loop fuel mem nodes (right_node n) tag_ptr index (u32 (i + 1))
          else getXMLNode_loop fuel mem nodes (right_node n) tag_ptr index i
      end
  end.

(** No more nodes than there are can lie to the right. *)
Definition getXMLNode (mem : memory) (h : xml_heap_t) (xml_node : option Z) (tag_ptr index : Z) : option (option Z) :=
  getXMLNode_loop (Z.to_nat (current_node h) + 1) mem (xml_nodes h) xml_node tag_ptr index 0.

(** The text from [start] on is an item, unless it is empty. *)
Definition item_ends (xquery empty : Z) (s : memory * Z) : option memory :=
  let '(mem, start) := s in
  r ← strcmp mem start empty;
  if negb (r =? 0) then parse_xquery_item mem start xquery else Some mem.

(** One character of the query: a slash ends an item. *)
Definition split_step (xquery q empty i : Z) (s : memory * Z) : option (memory * Z) :=
  let '(mem, start) := s in
  if mem (q + i) =? CH_SLASH then
    let mem := poke mem (q + i) 0 in
    mem ← item_ends xquery empty (mem, start);
    Some (mem, q + (i + 1))
  else Some (mem, start).

(** From the node of one item to that of the next. *)
Fixpoint descend (n : nat) (mem : memory) (h : xml_heap_t) (xquery i : Z) (xml_node : option Z) : option (option Z) :=
  match xml_node, n with
  | Some k, S n =>
      m ← xml_nodes h !! k;
      node ← getXMLNode mem h (child_start m) (item_tag xquery i) (get 2 mem (item_index xquery i));
      descend n mem h xquery (i + 1) node
  | _, _ => Some xml_node
  end.

(** [empty] is the address of the literal "". *)
Definition exec_xquery (mem : memory) (q xquery empty xquery_str : Z) (h : xml_heap_t) : option (memory * option Z) :=
  let mem := memset mem q 0 QUERY_SIZE in
  mem ← strcpy mem q xquery_str;
  l ← strlen mem q;
  let mem := poke mem (items_count xquery) 0 in
  s ← for_each (Z.to_nat l) 0 (split_step xquery q empty) (mem, q);
  mem ← item_ends xquery empty s;
  node ← getXMLNode mem h (Some 0) (item_tag xquery 0) (get 2 mem (item_index xquery 0));
  node ← descend (Z.to_nat (mem (items_count xquery) - 1)) mem h xquery 1 node;
  Some (mem, node).

(** ** XMLService.c *)

Definition initializeXMLService : Service -> option Service := add_services [("parseAFile", 0); ("getValueFromTag", 1)].

(** Where the service and the buffers of its functions lie. *)
Record XMLService := mkXMLService {
  tagDirectory : Z;
  value : Z;                    (* 256 characters *)
  q_buffer : Z;                 (* the local q of the service, 1024 characters *)
  query_buffer : Z;             (* that of exec_xquery *)
  xquery_buffer : Z;
  empty_literal : Z
}.

(** The two lookups differ in the directory they put in front of the tag. *)
Definition get_value (directory : list Z) (s : XMLService) (mem : memory) (sys_xml_confg : xml_heap_t) : option memory :=
  let mem := memset mem (q_buffer s) 0 QUERY_SIZE in
  l ← strlen mem (tagDirectory s);
  out ← sprintf_raw (directory ++ codes "%s") [VaStr (Some (read_bytes mem (tagDirectory s) l))];
  let mem := write_bytes mem (q_buffer s) (out ++ [0]) in
  '(mem, xml_node) ← exec_xquery mem (query_buffer s) (xquery_buffer s) (empty_literal s) (q_buffer s) sys_xml_confg;
  match xml_node with
  | Some k => n ← xml_nodes sys_xml_confg !! k; strcpy mem (value s) (content n)
  | None => Some mem
  end.

Definition getValueFromTag : XMLService -> memory -> xml_heap_t -> option memory := get_value (codes "/SystemConfig/").
Definition getValueFromTagMessage : XMLService -> memory -> xml_heap_t -> option memory := get_value (codes "params/").

(** The size of [xml_heap_t]. *)
Definition XML_HEAP_SIZE : Z := 8 + MAX_XML_NODES * 48 + 4 * 8.

(** A heap with uninitialised nodes is allocated; the result is what
    [kernel.sys_xml_confg] becomes. *)
Definition ParseXMLString (apic : Z) (k : MemoryAllocator) (uninitialised : void_ptr_stack_t) (garbage : xml_heap_t) (mem : memory) (xmlString : Z)
  : option (MemoryAllocator * memory * option xml_heap_t) :=
  '(k, address) ← kvalloc apic k XML_HEAP_SIZE;
  if address =? NULL then None
  else
    h ← xml_heap_init mem garbage xmlString;
    '(done, mem, h) ← parse_xml uninitialised mem h;
    Some (k, mem, if done =? 0 then None else Some h).
End query.

(** ** Queries and what they mean *)

(** A step names a tag; the number in brackets counts the elements with that tag,
    but it is only read when a blank follows it. *)
Inductive step := Plain (name : list Z) | Nth (name digits : list Z) (blank : bool).

Definition step_name (s : step) : list Z := match s with Plain n | Nth n _ _ => n end.

Definition step_index (s : step) : Z :=
  match s with Nth _ ds true => u16 (Stdio.value 10 ds) | _ => 0 end.

Definition between_brackets (ds : list Z) (blank : bool) : list Z := show_digits ds ++ (if blank then [CH_BLANK] else []).

Definition render_step (s : step) : list Z :=
  match s with
  | Plain n => n
  | Nth n ds blank => n ++ CH_OPEN :: between_brackets ds blank ++ [CH_CLOSE]
  end.

Definition step_char (c : Z) : bool := name_char c && negb (c =? CH_OPEN) && negb (c =? CH_CLOSE).

Definition good_step (s : step) : bool :=
  forallb step_char (step_name s) && negb (zlen (step_name s) =? 0) && (zlen (step_name s) <? 128) &&
  match s with
  | Plain _ => true
  | Nth _ ds _ => forallb (fun d => (0 <=? d) && (d <? 10)) ds && negb (zlen ds =? 0) && (Stdio.value 10 ds <? 2 ^ 64)
  end.

Fixpoint path_text (s : step) (ss : list step) : list Z :=
  match ss with [] => render_step s | t :: ss => render_step s ++ CH_SLASH :: path_text t ss end.

(** The elements with a name, counted from 0. *)
Definition select (l : list doc) (name : list Z) (i : Z) : option doc :=
  filter (fun d => name_of d = name) l !! Z.to_nat i.

Fixpoint follow (d : doc) (ss : list step) : option doc :=
  match ss with
  | [] => Some d
  | s :: ss => e ← select (kids_of d) (step_name s) (step_index s); follow e ss
  end.

Definition query (d : doc) (s : step) (ss : list step) : option doc :=
  e ← select [d] (step_name s) (step_index s); follow e ss.

(** ** Lemmas *)

Lemma is_first_at P p n k r : is_first P p n r -> 0 <= k < n -> P k = true -> (forall j, 0 <= j < k -> P j = false) -> r = p + k.
Proof.
  intros [[_ Hno] | (i & -> & Hi & HP & Hj)] Hk HPk Hbefore; [specialize (Hno k Hk); congruence|].
  destruct (Z.lt_trichotomy i k) as [Hlt | [-> | Hgt]]; [specialize (Hbefore i ltac:(lia)); congruence | done | specialize (Hj k ltac:(lia)); congruence].
Qed.

Lemma is_first_none P p n r : is_first P p n r -> (forall j, 0 <= j < n -> P j = false) -> r = NULL.
Proof. intros [[-> _] | (i & _ & Hi & HP & _)] Hno; [done | specialize (Hno i Hi); congruence]. Qed.

Lemma text_char mem a l k c : text_at mem a l -> zget l k = Some c -> mem (a + k) = c.
Proof. intros Ht%text_at_read Hk. pose proof (zget_lt _ _ _ Hk). pose proof (read_bytes_at _ _ _ _ k Ht). rewrite H0 in Hk by lia. by injection Hk. Qed.

(** Looking for a character in a text that does not have it. *)
Lemma char_absent mem a l c k : text_at mem a l -> Forall (fun x => x <> c) l -> 0 <= k < zlen l -> (mem (a + k) =? c) = false.
Proof.
  intros Ht Hl Hk. destruct (zget_some l k Hk) as [x Hx]. rewrite (text_char _ _ _ _ _ Ht Hx). apply Z.eqb_neq.
  unfold zget in Hx. destruct (0 <=? k); [|done]. by eapply Forall_lookup_1 in Hl.
Qed.

Lemma read_text mem a l n : text_at mem a l -> zlen l <= n -> read_bytes mem a n = l ++ read_bytes mem (a + zlen l) (n - zlen l).
Proof.
  intros Ht%text_at_read Hn. pose proof (zlen_nonneg l). replace n with (zlen l + (n - zlen l)) at 1 by lia.
  rewrite read_bytes_app by lia. by rewrite Ht.
Qed.

Lemma value_nonneg ds : Forall (fun d => 0 <= d < 10) ds -> 0 <= Stdio.value 10 ds.
Proof. intros H. apply (foldl_ge ds 0 H). done. Qed.

Lemma atoi_digits ds c rest : ds <> [] -> Forall (fun d => 0 <= d < 10) ds -> Stdio.value 10 ds < 2 ^ 64 -> c = CH_SPACE \/ c = 0 ->
  atoi (show_digits ds ++ c :: rest) = Some (if c =? CH_SPACE then Stdio.value 10 ds else 0).
Proof.
  intros Hne Hds Hv Hc. unfold atoi.
  assert (atoi_skip (show_digits ds ++ c :: rest) = Some (show_digits ds ++ c :: rest)) as ->.
  { destruct ds as [|d ds]; [done|]. inversion Hds. cbn [show_digits map app atoi_skip]. unfold CH_SPACE, CH_ZERO.
    by destruct (Z.eqb_spec (d + 48) 32); [lia|]. }
  cbn [mbind option_bind]. rewrite atoi_loop_digits by (done || lia). by destruct Hc as [-> | ->].
Qed.

Lemma step_chars s : good_step s = true ->
  0 < zlen (step_name s) < 128 /\ Forall (fun c => 0 < c < 256 /\ c <> CH_SLASH /\ c <> CH_OPEN /\ c <> CH_CLOSE) (step_name s).
Proof.
  unfold good_step. rewrite !andb_true_iff, negb_true_iff, Z.eqb_neq, Z.ltb_lt, forallb_forall. intros [[[Hc H0] Hl] _].
  pose proof (zlen_nonneg (step_name s)). split; [lia|]. apply List.Forall_forall. intros c Hin. specialize (Hc c Hin).
  unfold step_char, name_char in Hc. rewrite !andb_true_iff, !negb_true_iff, !Z.eqb_neq, !Z.ltb_lt in Hc. tauto.
Qed.

Lemma step_digits n ds b : good_step (Nth n ds b) = true ->
  ds <> [] /\ Forall (fun d => 0 <= d < 10) ds /\ Stdio.value 10 ds < 2 ^ 64.
Proof.
  unfold good_step. rewrite !andb_true_iff, !negb_true_iff, !forallb_forall. intros [_ [[Hd Hne] Hv]].
  split; [by intros ->|]. split; [|by apply Z.ltb_lt]. apply List.Forall_forall. intros d Hin. specialize (Hd d Hin).
  rewrite andb_true_iff, Z.leb_le, Z.ltb_lt in Hd. done.
Qed.

Lemma shown_digits ds : Forall (fun d => 0 <= d < 10) ds ->
  Forall (fun c => 0 < c < 256 /\ c <> CH_SLASH /\ c <> CH_OPEN /\ c <> CH_CLOSE) (show_digits ds).
Proof. induction 1 as [|d ds Hd _ IH]; constructor; [unfold CH_ZERO, CH_SLASH, CH_OPEN, CH_CLOSE; lia | done]. Qed.

Lemma bracket_chars ds b : Forall (fun d => 0 <= d < 10) ds ->
  Forall (fun c => 0 < c < 256 /\ c <> CH_SLASH /\ c <> CH_OPEN /\ c <> CH_CLOSE) (between_brackets ds b).
Proof.
  intros Hd. apply Forall_app. split; [by apply shown_digits|]. destruct b; constructor; [|constructor].
  unfold CH_BLANK, CH_SLASH, CH_OPEN, CH_CLOSE. lia.
Qed.

(** No slash and no terminator in a step. *)
Lemma step_text s : good_step s = true -> 0 < zlen (render_step s) /\ Forall (fun c => 0 < c < 256 /\ c <> CH_SLASH) (render_step s).
Proof.
  intros Hs. destruct (step_chars s Hs) as [Hl Hc]. destruct s as [n|n ds b]; cbn [step_name render_step] in *.
  - split; [lia|]. eapply Forall_impl; [done|]. by intros c (? & ? & _).
  - destruct (step_digits _ _ _ Hs) as (_ & Hd & _). rewrite zlen_app.
    split; [pose proof (zlen_nonneg (CH_OPEN :: between_brackets ds b ++ [CH_CLOSE])); lia|].
    apply Forall_app. split; [eapply Forall_impl; [done|]; by intros c (? & ? & _)|].
    constructor; [split; [split; reflexivity | discriminate]|]. apply Forall_app. split; [|constructor; [split; [split; reflexivity | discriminate]|constructor]].
    eapply Forall_impl; [by apply (bracket_chars ds b)|]. by intros c (? & ? & _).
Qed.

Lemma path_chars ss s : Forall (fun t => good_step t = true) (s :: ss) -> Forall (fun c => 0 < c < 256) (path_text s ss).
Proof.
  revert s. induction ss as [|t ss IH]; intros s Hs; inversion Hs as [|? ? Hs0 Hss]; subst x l; destruct (step_text s Hs0) as [_ Hc].
  - eapply Forall_impl; [exact Hc|]. by intros c [? _].
  - cbn [path_text]. apply Forall_app. split; [eapply Forall_impl; [exact Hc|]; by intros c [? _]|]. constructor; [split; reflexivity|]. by apply IH.
Qed.

Lemma sprintf_directory w l : forallb (fun c => negb (c =? CH_PERCENT)) w = true ->
  sprintf_raw (w ++ codes "%s") [VaStr (Some l)] = Some (w ++ l).
Proof.
  induction w as [|c w IH]; intros Hw.
  - cbn [app]. change (codes "%s") with [CH_PERCENT; CH_s]. cbn [sprintf_raw]. change (CH_PERCENT =? CH_PERCENT) with true.
    change (CH_s =? CH_c) with false. change (CH_s =? CH_s) with true. cbn. by rewrite app_nil_r.
  - cbn [forallb] in Hw. rewrite andb_true_iff, negb_true_iff in Hw. destruct Hw as [Hc Hw]. cbn [app sprintf_raw]. rewrite Hc, IH by done. done.
Qed.

(** What an item of the query array holds. *)
Definition holds (mem : memory) (xq k : Z) (s : step) : Prop :=
  cstring mem (item_tag xq k) (step_name s) /\ get 2 mem (item_index xq k) = step_index s.

Lemma step_index_range s : 0 <= step_index s < 65536.
Proof. destruct s as [|n ds []]; cbn; try lia. apply u16_range. Qed.

Lemma memset_out mem a v n b : b < a \/ a + n <= b -> memset mem a v n b = mem b.
Proof. intros Hb. unfold memset. replace ((a <=? b) && (b <? a + n)) with false; [done|]. symmetry. apply andb_false_iff. lia. Qed.

Lemma holds_frame mem mem' xq k s : good_step s = true -> (forall b, item_tag xq k <= b < item_tag xq (k + 1) -> mem' b = mem b) -> holds mem xq k s -> holds mem' xq k s.
Proof.
  intros Hs Hm [Hc Hi]. destruct (step_chars s Hs) as [Hl _]. unfold holds, item_index, item_tag, XQUERY_ITEM in *. split.
  - eapply cstring_ext; [|done]. intros b Hb. apply Hm. lia.
  - rewrite <- Hi. apply get_ext. intros b Hb. apply Hm. lia.
Qed.

Section proofs.
Context {R : Routines} {Rok : RoutinesOk}.

Lemma add_item_spec mem xq p name i k :
  cstring mem p name -> 0 < p -> p + zlen name < 2 ^ 64 -> zlen name < 128 -> mem (items_count xq) = k -> 0 <= k < 32 ->
  p + zlen name < xq \/ xq + XQUERY_SIZE <= p ->
  exists mem', add_item mem xq p i = Some mem' /\ cstring mem' (item_tag xq k) name /\ get 2 mem' (item_index xq k) = u16 i /\
    mem' (items_count xq) = k + 1 /\
    (forall b, b < item_tag xq k \/ item_tag xq (k + 1) <= b -> b <> items_count xq -> mem' b = mem b).
Proof.
  intros Hc Hp0 Hp64 Hl Hk Hk32 Hp. pose proof (zlen_nonneg name). unfold add_item. rewrite Hk.
  unfold item_index, item_tag, items_count, XQUERY_SIZE, XQUERY_ITEM in *. set (slot := xq + 130 * k) in *.
  destruct (strcpy_spec (memset mem slot 0 128) slot p name) as (mem1 & -> & Hc1 & Hm1); [| lia | lia |].
  { eapply cstring_ext; [|done]. intros b Hb. apply memset_out. lia. }
  cbn [mbind option_bind]. eexists. split; [done|]. unfold item_tag, XQUERY_ITEM. fold slot. split; [|split; [|split]].
  - eapply cstring_ext; [|done]. intros b Hb. rewrite poke_ne, put_out by lia. done.
  - rewrite (get_ext 2 _ (put 2 mem1 (slot + 128) (u16 i))) by (intros b Hb; apply poke_ne; lia). apply get_put, u16_range.
  - rewrite poke_eq. apply u8_small. lia.
  - intros b Hb Hne. rewrite poke_ne, put_out, Hm1, memset_out by lia. done.
Qed.

Lemma plain_brackets mem p name c : cstring mem p name -> Forall (fun x => x <> c) name -> 0 <= c < 256 -> 0 < p -> p + zlen name < 2 ^ 64 -> 0 < zlen name ->
  scanc mem p c (zlen name) = NULL.
Proof.
  intros (Hr & _) Hn Hcc Hp Hl Hpos. apply text_at_read in Hr.
  apply (is_first_none _ _ _ _ (scanc_ok mem p c (zlen name) ltac:(unfold in_space; lia) Hcc Hpos)). intros k Hk. by apply (char_absent mem p name).
Qed.

Lemma scanc_found mem p pre c post : cstring mem p (pre ++ c :: post) -> Forall (fun x => x <> c) pre -> 0 < p -> p + zlen (pre ++ c :: post) < 2 ^ 64 ->
  scanc mem p c (zlen (pre ++ c :: post)) = p + zlen pre.
Proof.
  intros (Hr & _ & Hchars) Hn Hp Hl. pose proof (zlen_nonneg pre). pose proof (zlen_nonneg post). apply text_at_read in Hr.
  assert (0 <= c < 256) as Hcc by (apply Forall_app in Hchars as [_ Hchars]; apply Forall_cons in Hchars as [? _]; lia). rewrite zlen_app, zlen_cons in *.
  eapply is_first_at; [apply scanc_ok; [unfold in_space; lia | done | lia] | lia | |].
  - apply text_at_app in Hr as [_ [Hr _]]. rewrite Hr. apply Z.eqb_refl.
  - intros j Hj. apply text_at_app in Hr as [Hr _]. by apply (char_absent mem p pre).
Qed.

(** The brackets are found, and between them the index. *)
Lemma brackets_found mem p name ds blank :
  good_step (Nth name ds blank) = true -> cstring mem p (render_step (Nth name ds blank)) -> 0 < p -> p + zlen (render_step (Nth name ds blank)) < 2 ^ 64 ->
  scanc mem p CH_OPEN (zlen (render_step (Nth name ds blank))) = p + zlen name /\
  scanc mem p CH_CLOSE (zlen (render_step (Nth name ds blank))) = p + (zlen name + 1 + zlen (between_brackets ds blank)).
Proof.
  intros Hs Hc Hp Hl. destruct (step_chars _ Hs) as [_ Hchars]. destruct (step_digits _ _ _ Hs) as (_ & Hds & _).
  cbn [step_name render_step] in *. set (inner := between_brackets ds blank) in *. split.
  - apply scanc_found; try done. eapply Forall_impl; [exact Hchars|]. cbn. tauto.
  - assert (name ++ CH_OPEN :: inner ++ [CH_CLOSE] = (name ++ CH_OPEN :: inner) ++ CH_CLOSE :: []) as E by (by rewrite <- app_assoc).
    rewrite E in *. rewrite scanc_found; [rewrite zlen_app, zlen_cons; lia | done | | done | lia].
    apply Forall_app. split; [eapply Forall_impl; [exact Hchars|]; cbn; tauto|]. constructor; [done|].
    eapply Forall_impl; [by apply (bracket_chars ds blank)|]. cbn. tauto.
Qed.

Lemma bracket_index mem p ds blank :
  ds <> [] -> Forall (fun d => 0 <= d < 10) ds -> Stdio.value 10 ds < 2 ^ 64 -> zlen (between_brackets ds blank) < QUERY_SIZE ->
  text_at mem p (between_brackets ds blank) -> mem (p + zlen (between_brackets ds blank)) = 0 ->
  atoi (read_bytes mem p QUERY_SIZE) = Some (if blank then Stdio.value 10 ds else 0).
Proof.
  intros Hne Hds Hv Hl Ht Hz. assert (text_at mem p (show_digits ds ++ (if blank then CH_SPACE else 0) :: [])) as Ht'.
  { unfold between_brackets in *. apply text_at_app in Ht as [Ht1 Ht2]. apply text_at_app. split; [done|].
    destruct blank; cbn [text_at] in *; [done|]. rewrite app_nil_r in Hz. done. }
  rewrite (read_text _ _ _ _ Ht').
  - rewrite <- app_assoc. cbn [app]. rewrite atoi_digits by (done || (destruct blank; auto)). by destruct blank.
  - unfold between_brackets in Hl. rewrite zlen_app in *. change (zlen [_]) with 1. pose proof (zlen_nonneg (if blank then [CH_BLANK] else [])). lia.
Qed.

Definition item_parsed (s : step) : Prop := forall mem xq p k,
  good_step s = true -> cstring mem p (render_step s) -> 0 < p -> p + zlen (render_step s) < 2 ^ 64 -> zlen (render_step s) < QUERY_SIZE ->
  mem (items_count xq) = k -> 0 <= k < 32 -> p + zlen (render_step s) < xq \/ xq + XQUERY_SIZE <= p ->
  exists mem', parse_xquery_item mem p xq = Some mem' /\ holds mem' xq k s /\ mem' (items_count xq) = k + 1 /\
    (forall b, b < p \/ p + zlen (render_step s) <= b -> b < item_tag xq k \/ item_tag xq (k + 1) <= b -> b <> items_count xq -> mem' b = mem b).

Lemma plain_parsed name : item_parsed (Plain name).
Proof.
  intros mem xq p k Hs Hc Hp Hp64 Hl Hk Hk32 Hd. destruct (step_chars _ Hs) as [Hname Hchars]. unfold parse_xquery_item.
  rewrite (strlen_ok mem p _ Hc) by (unfold QUERY_SIZE in *; lia). cbn [mbind option_bind step_name render_step] in *.
  rewrite !(plain_brackets mem p name) by (done || lia || (eapply Forall_impl; [done|]; cbn; tauto)).
  rewrite Z.eqb_refl. cbn [negb andb].
  destruct (add_item_spec mem xq p name 0 k) as (mem' & -> & Ht & Hi & Hcount & Hm); try done; [lia|].
  exists mem'. split; [done|]. split; [by split|]. split; [done|]. intros b _ Hb. by apply Hm.
Qed.

Lemma nth_parsed name ds blank : item_parsed (Nth name ds blank).
Proof.
  intros mem xq p k Hs Hc Hp Hp64 Hl Hk Hk32 Hd. destruct (step_chars _ Hs) as [Hname Hchars].
  destruct (step_digits _ _ _ Hs) as (Hne & Hds & Hv). destruct (brackets_found _ _ _ _ _ Hs Hc Hp Hp64) as [Eopen Eclose].
  unfold parse_xquery_item. rewrite (strlen_ok mem p _ Hc) by (unfold QUERY_SIZE in *; lia). cbn [mbind option_bind].
  rewrite Eopen, Eclose. clear Eopen Eclose. cbn [step_name render_step] in *. set (inner := between_brackets ds blank) in *.
  assert (0 < zlen inner) as Hpos.
  { unfold inner, between_brackets. destruct ds as [|d ds]; [done|]. cbn [show_digits map app]. rewrite zlen_cons. match goal with |- context [zlen ?l] => pose proof (zlen_nonneg l) end. lia. }
  rewrite !zlen_app, zlen_cons, zlen_app in *. change (zlen [CH_CLOSE]) with 1 in *.
  replace (p + zlen name =? NULL) with false by (symmetry; apply Z.eqb_neq; unfold NULL; lia).
  replace (p + (zlen name + 1 + zlen inner) =? NULL) with false by (symmetry; apply Z.eqb_neq; unfold NULL; lia).
  destruct (Z.ltb_spec (p + zlen name + 1) (p + (zlen name + 1 + zlen inner))); [|lia]. cbn [negb andb].
  set (mem1 := poke (poke mem (p + zlen name) 0) (p + (zlen name + 1 + zlen inner)) 0).
  assert (forall b, b <> p + zlen name -> b <> p + (zlen name + 1 + zlen inner) -> mem1 b = mem b) as Hm1
    by (intros b H1 H2; unfold mem1; rewrite !poke_ne by done; done).
  pose proof (proj1 Hc) as Hr. apply text_at_read in Hr. rewrite text_at_app in Hr. cbn [text_at] in Hr. rewrite text_at_app in Hr.
  destruct Hr as (Htn & _ & Hti & _).
  assert (cstring mem1 p name) as Hcn.
  { apply text_at_cstring; [eapply text_at_ext; [|done]; intros b Hb; apply Hm1; lia | unfold mem1; rewrite poke_ne by lia; apply poke_eq |].
    eapply Forall_impl; [done|]. cbn. tauto. }
  rewrite (bracket_index mem1 (p + zlen name + 1) ds blank); try done; fold inner; [| lia | |].
  2:{ eapply text_at_ext; [|done]. intros b Hb. apply Hm1; lia. }
  2:{ replace (p + zlen name + 1 + zlen inner) with (p + (zlen name + 1 + zlen inner)) by lia. apply poke_eq. }
  cbn [mbind option_bind].
  destruct (add_item_spec mem1 xq p name (if blank then Stdio.value 10 ds else 0) k) as (mem' & -> & Ht & Hi & Hcount & Hm); try done; try lia.
  { rewrite <- Hk. unfold items_count, XQUERY_SIZE, XQUERY_ITEM in *. apply Hm1; lia. }
  exists mem'. split; [done|]. split; [split; [done | rewrite Hi; by destruct blank]|].
  split; [done|]. intros b Hb Hb1 Hb2. rewrite Hm by done. apply Hm1; lia.
Qed.

Lemma parse_item_spec s : item_parsed s.
Proof. destruct s; [apply plain_parsed | apply nth_parsed]. Qed.

Fixpoint items_at (mem : memory) (xq k : Z) (ss : list step) : Prop :=
  match ss with [] => True | s :: ss => holds mem xq k s /\ items_at mem xq (k + 1) ss end.

Lemma split_char mem q xq empty start i : mem (q + i) <> CH_SLASH -> split_step xq q empty i (mem, start) = Some (mem, start).
Proof. intros Hne%Z.eqb_neq. unfold split_step. by rewrite Hne. Qed.

Lemma split_slash mem q xq empty start i : mem (q + i) = CH_SLASH ->
  split_step xq q empty i (mem, start) =
    mem ← item_ends xq empty (poke mem (q + i) 0, start);
    Some (mem, q + (i + 1)).
Proof. intros E. unfold split_step. by rewrite E. Qed.

Lemma no_slash_skip w : forall mem q xq empty start i, text_at mem (q + i) w -> Forall (fun c => 0 < c < 256 /\ c <> CH_SLASH) w ->
  for_each (length w) i (split_step xq q empty) (mem, start) = Some (mem, start).
Proof.
  induction w as [|c w IH]; intros mem q xq empty start i Ht Hw; [done|]. destruct Ht as [Hc Ht]. inversion Hw as [|? ? [_ Hne] Hw']; subst.
  cbn [length]. rewrite for_each_S, split_char by done. cbn [mbind option_bind]. apply IH; [by rewrite Z.add_assoc | done].
Qed.

Lemma cstring_nil mem p : mem p = 0 -> cstring mem p [].
Proof. intros H. apply text_at_cstring; [done | by rewrite Z.add_0_r | done]. Qed.

(** Where the buffers of a query lie. *)
Record buffers (q xq empty : Z) : Prop := {
  q_low : 1 < q; q_high : q + QUERY_SIZE < 2 ^ 64; xq_low : 1 < xq; xq_high : xq + XQUERY_SIZE < 2 ^ 64;
  empty_low : 1 < empty; empty_high : empty < 2 ^ 64;
  q_xq : q + QUERY_SIZE <= xq \/ xq + XQUERY_SIZE <= q;
  q_empty : empty < q \/ q + QUERY_SIZE <= empty;
  xq_empty : empty < xq \/ xq + XQUERY_SIZE <= empty
}.

Section split.
Context (q xq empty : Z) (B : buffers q xq empty).

Lemma item_ends_spec mem i s k :
  good_step s = true -> cstring mem (q + i) (render_step s) -> 0 <= i -> i + zlen (render_step s) < QUERY_SIZE ->
  mem empty = 0 -> mem (items_count xq) = k -> 0 <= k < 32 ->
  exists mem', item_ends xq empty (mem, q + i) = Some mem' /\ holds mem' xq k s /\ mem' (items_count xq) = k + 1 /\
    (forall b, b < q + i \/ q + i + zlen (render_step s) <= b -> b < item_tag xq k \/ item_tag xq (k + 1) <= b -> b <> items_count xq -> mem' b = mem b).
Proof.
  intros Hs Hc Hi Hl He Hk Hk32. destruct B. destruct (step_text s Hs) as [Hpos _]. unfold item_ends.
  assert (cstring mem empty []) as Hce by by apply cstring_nil.
  unfold QUERY_SIZE, XQUERY_SIZE in *.
  destruct (strcmp_spec mem (q + i) empty _ _ Hc Hce) as (r & -> & Hr); try lia; [by rewrite Z.add_0_r|]. cbn [mbind option_bind].
  destruct (Z.eqb_spec r 0) as [E|Hne]; [apply Hr in E; rewrite E in Hpos; done|]. cbn [negb].
  apply (parse_item_spec s); try done; unfold QUERY_SIZE, XQUERY_SIZE; lia.
Qed.

(** A query from [q + i] on fills the items from [k] on. *)
Lemma split_spec ss : forall s mem i k,
  Forall (fun t => good_step t = true) (s :: ss) -> text_at mem (q + i) (path_text s ss) -> mem (q + i + zlen (path_text s ss)) = 0 ->
  0 <= i -> i + zlen (path_text s ss) < QUERY_SIZE -> mem empty = 0 -> mem (items_count xq) = k -> 0 <= k -> k + zlen (s :: ss) <= 32 ->
  exists mem', (for_each (length (path_text s ss)) i (split_step xq q empty) (mem, q + i) ≫= item_ends xq empty) = Some mem' /\
    items_at mem' xq k (s :: ss) /\ mem' (items_count xq) = k + zlen (s :: ss) /\
    (forall b, b < q \/ q + QUERY_SIZE <= b -> b < item_tag xq k \/ xq + XQUERY_SIZE <= b -> mem' b = mem b).
Proof.
  induction ss as [|t ss IH]; intros s mem i k Hgood Ht Hz Hi Hl He Hk Hk0 Hk32; inversion Hgood as [|? ? Hs Hss]; subst x l.
  - cbn [path_text] in *. destruct (step_text s Hs) as [Hpos Hchars]. rewrite no_slash_skip by done. cbn [mbind option_bind].
    destruct (item_ends_spec mem i s k) as (mem' & -> & Hh & Hcount & Hm); try done.
    { apply text_at_cstring; [done | done |]. eapply Forall_impl; [done|]. by intros c [? _]. }
    { change (zlen [s]) with 1 in Hk32. lia. }
    exists mem'. split; [done|]. split; [by split|]. split; [done|]. intros b Hb Hb'.
    unfold items_count, item_tag, XQUERY_SIZE, XQUERY_ITEM in *. change (zlen [s]) with 1 in *. pose proof (zlen_nonneg (render_step s)). apply Hm; lia.
  - cbn [path_text] in *. destruct (step_text s Hs) as [Hpos Hchars]. rewrite zlen_cons in Hk32. pose proof (zlen_nonneg ss). rewrite zlen_cons in Hk32.
    rewrite zlen_app, zlen_cons in Hz, Hl. apply text_at_app in Ht as [Hts [Hslash Htr]].
    pose proof (zlen_nonneg (path_text t ss)). destruct B.
    rewrite length_app, for_each_app, no_slash_skip by done. cbn [mbind option_bind length].
    change (Z.of_nat (length (render_step s))) with (zlen (render_step s)). set (w := zlen (render_step s)) in *.
    rewrite for_each_S, split_slash by (by rewrite Z.add_assoc). replace (q + (i + w)) with (q + i + w) by lia.
    destruct (item_ends_spec (poke mem (q + i + w) 0) i s k) as (mem1 & E1 & Hh & Hcount & Hm1); try done; try lia.
    { apply text_at_cstring.
      - eapply text_at_ext; [|done]. intros b Hb. apply poke_ne. fold w in Hb. lia.
      - apply poke_eq.
      - eapply Forall_impl; [done|]. by intros c [? _]. }
    { rewrite poke_ne; [done|]. lia. }
    { rewrite poke_ne; [done|]. unfold items_count, XQUERY_SIZE, XQUERY_ITEM, QUERY_SIZE in *. lia. }
    rewrite E1. cbn [mbind option_bind].
    assert (forall b, q + i + w < b \/ b < q + i -> b < item_tag xq k \/ item_tag xq (k + 1) <= b -> b <> items_count xq -> mem1 b = mem b) as Hm.
    { intros b Hb Hb1 Hb2. rewrite Hm1, poke_ne by (done || fold w; lia). done. }
    assert (forall b, q + i + w < b < q + QUERY_SIZE -> mem1 b = mem b) as Hrest.
    { intros b Hb. unfold items_count, item_tag, XQUERY_SIZE, XQUERY_ITEM, QUERY_SIZE in *. apply Hm; lia. }
    replace (q + i + w + 1) with (q + (i + w + 1)) in Htr by lia. replace (q + (i + w + 1)) with (q + (i + w + 1)) by lia.
    destruct (IH t mem1 (i + w + 1) (k + 1)) as (mem' & E' & Hitems & Hcount' & Hm'); try done; try lia.
    { eapply text_at_ext; [|done]. intros b Hb. apply Hrest. lia. }
    { rewrite Hrest by lia. rewrite <- Hz. f_equal. lia. }
    { rewrite Hm; [done | lia | unfold item_tag, XQUERY_SIZE, XQUERY_ITEM in *; lia | unfold items_count, XQUERY_SIZE, XQUERY_ITEM in *; lia]. }
    { rewrite zlen_cons. lia. }
    exists mem'. split; [exact E'|]. split; [split; [|done]|].
    { eapply holds_frame; [done| |exact Hh]. intros b Hb. unfold items_count, item_tag, XQUERY_SIZE, XQUERY_ITEM, QUERY_SIZE in *. apply Hm'; lia. }
    split; [rewrite Hcount', !zlen_cons; lia|].
    intros b Hb Hb'. unfold items_count, item_tag, XQUERY_SIZE, XQUERY_ITEM, QUERY_SIZE in *. rewrite Hm', Hm by lia. done.
Qed.
End split.

(** ** Looking up nodes *)

Lemma select_cons d l name i : 0 <= i -> select (d :: l) name i =
  if decide (name_of d = name) then (if i =? 0 then Some d else select l name (i - 1)) else select l name i.
Proof.
  intros Hi. unfold select. rewrite filter_cons. case_decide; [|done]. destruct (Z.eqb_spec i 0) as [->|Hne]; [done|].
  replace (Z.to_nat i) with (S (Z.to_nat (i - 1))) by lia. done.
Qed.

(** The result of a lookup among trees in memory between [lo] and [hi]. *)
Definition found (mem : memory) (nodes : xml_nodes_map) (lo hi : Z) (par : option Z) (o : option doc) (r : option Z) : Prop :=
  match o with
  | Some d => exists id a, r = Some id /\ represents mem nodes d a id par /\ lo <= a /\ a + zlen (render d) <= hi
  | None => r = None
  end.

Lemma getXMLNode_step fuel mem nodes d a id par t name index i n :
  represents mem nodes d a id par -> nodes !! id = Some n -> cstring mem t name ->
  0 < a -> 1 < t -> a + zlen (render d) < 2 ^ 64 -> t + zlen name < 2 ^ 64 ->
  getXMLNode_loop (S fuel) mem nodes (Some id) t index i =
    if decide (name_of d = name) then
      (if i =? index then Some (Some id) else getXMLNode_loop fuel mem nodes (right_node n) t index (u32 (i + 1)))
    else getXMLNode_loop fuel mem nodes (right_node n) t index i.
Proof.
  intros Hr Hn Ht Ha Ht1 Hd Htb. cbn [getXMLNode_loop]. rewrite Hn. cbn [mbind option_bind].
  assert (exists n', nodes !! id = Some n' /\ tag n' = a + 1 /\ cstring mem (a + 1) (name_of d)) as (n' & Hn' & Htag & Hname)
    by (destruct d; destruct Hr as (n' & ? & ? & ? & ? & _); by exists n').
  rewrite Hn in Hn'. injection Hn' as <-. rewrite Htag.
  assert (zlen (name_of d) + 1 < zlen (render d)) as Hlen.
  { destruct d; cbn [name_of render]; rewrite ?zlen_cons, ?zlen_app; unfold open_tag; rewrite ?zlen_cons, ?zlen_app, ?zlen_close;
      change (zlen [CH_GT]) with 1; change (zlen [CH_SLASH; CH_GT]) with 2;
      repeat match goal with |- context [zlen ?l] => lazymatch goal with H : 0 <= zlen l |- _ => fail | _ => pose proof (zlen_nonneg l) end end; lia. }
  destruct (strcmp_spec mem (a + 1) t _ _ Hname Ht) as (r & -> & Hrn); try lia. cbn [mbind option_bind].
  destruct (Z.eqb_spec r 0) as [->|Hne].
  - by rewrite decide_True by (by apply Hrn).
  - rewrite decide_False; [done|]. intros E. by apply Hrn in E.
Qed.

Lemma getXMLNode_forest l : forall fuel mem nodes a c par t name index i,
  forest mem nodes l a c par -> cstring mem t name -> 0 < a -> 1 < t -> a + zlen (render_all l) < 2 ^ 64 -> t + zlen name < 2 ^ 64 ->
  (length l < fuel)%nat -> 0 <= i <= index -> index < 65536 ->
  exists r, getXMLNode_loop fuel mem nodes (match l with [] => None | _ => Some c end) t index i = Some r /\
    found mem nodes a (a + zlen (render_all l)) (Some par) (select (map snd l) name (index - i)) r.
Proof.
  induction l as [|[gap d] l IH]; intros fuel mem nodes a c par t name index i Hf Ht Ha Ht1 Hend Htb Hfuel Hi Hidx.
  - exists None. destruct fuel; by split.
  - destruct fuel as [|fuel]; [lia|]. cbn [length] in Hfuel. rewrite forest_cons in Hf. destruct Hf as (Hr & (n & Hn & Hright) & Hf).
    rewrite render_all_cons, !zlen_app in *. pose proof (zlen_nonneg gap). pose proof (zlen_nonneg (render d)). pose proof (zlen_nonneg (render_all l)).
    rewrite (getXMLNode_step _ _ _ d (a + zlen gap) c (Some par) t name index i n) by (done || lia). rewrite Hright.
    cbn [map snd]. rewrite select_cons by lia.
    assert (forall i', i' <= index -> 0 <= i' -> exists r,
      getXMLNode_loop fuel mem nodes (match l with [] => None | _ => Some (c + size d) end) t index i' = Some r /\
      found mem nodes a (a + (zlen gap + (zlen (render d) + zlen (render_all l)))) (Some par) (select (map snd l) name (index - i')) r) as Hgo.
    { intros i' Hi' Hi0. destruct (IH fuel mem nodes (a + zlen gap + zlen (render d)) (c + size d) par t name index i' Hf Ht) as (r & -> & Hfd); try lia.
      exists r. split; [done|]. unfold found in *. destruct (select _ _ _); [|done].
      destruct Hfd as (id & a' & ? & ? & ? & ?). exists id, a'. split_and!; try done; lia. }
    destruct (decide (name_of d = name)) as [Heq|Hne].
    + destruct (Z.eqb_spec i index) as [->|Hni].
      * exists (Some c). split; [done|]. rewrite Z.sub_diag. cbn [Z.eqb]. exists c, (a + zlen gap). split_and!; try done; lia.
      * destruct (Z.eqb_spec (index - i) 0); [lia|]. rewrite u32_small by lia. replace (index - i - 1) with (index - (i + 1)) by lia. apply Hgo; lia.
    + apply Hgo; lia.
Qed.

Lemma length_total l : Z.of_nat (length l) <= total_size l.
Proof. induction l as [|[gap d] l IH]; [done|]. rewrite total_size_cons. pose proof (size_pos d). cbn [length]. lia. Qed.

Lemma good_kids d : good d = true -> forall k, In k (kids_of d) -> good k = true.
Proof.
  destruct d as [|name attributes kids tail|]; try done. cbn [good kids_of]. rewrite !andb_true_iff, forallb_forall. intros [_ Hk] k Hin.
  apply in_map_iff in Hin as ([gap k'] & <- & Hin). specialize (Hk _ Hin). cbn in Hk. rewrite andb_true_iff in Hk. apply Hk.
Qed.

Lemma select_in l name i d : select l name i = Some d -> In d l.
Proof. unfold select. intros H%list_elem_of_lookup_2. apply list_elem_of_In. by apply list_elem_of_filter in H as [_ ?]. Qed.

Lemma size_kids d k : In k (kids_of d) -> size k < size d.
Proof.
  destruct d as [|name attributes kids tail|]; try done. cbn [kids_of]. intros Hin. rewrite size_branch.
  induction kids as [|[gap k'] kids IH]; [done|]. rewrite total_size_cons. pose proof (sizes_nonneg kids). pose proof (size_pos k').
  cbn [map snd] in Hin. destruct Hin as [<- | Hin]; [lia|]. specialize (IH Hin). lia.
Qed.

(** The children of a node. *)
Lemma getXMLNode_kids mem h d a id par n t s :
  represents mem (xml_nodes h) d a id par -> xml_nodes h !! id = Some n -> good d = true -> size d <= current_node h ->
  cstring mem t (step_name s) -> 0 < a -> 1 < t -> a + zlen (render d) < 2 ^ 64 -> t + zlen (step_name s) < 2 ^ 64 ->
  exists r, getXMLNode mem h (child_start n) t (step_index s) = Some r /\
    found mem (xml_nodes h) a (a + zlen (render d)) (Some id) (select (kids_of d) (step_name s) (step_index s)) r.
Proof.
  intros Hr Hn Hgood Hsize Ht Ha Ht1 Hend Htb. unfold getXMLNode. pose proof (step_index_range s).
  destruct d as [name attributes txt|name attributes kids tail|name attributes].
  - destruct Hr as (n' & Hn' & _ & _ & _ & Hcs & _). rewrite Hn in Hn'. injection Hn' as <-. rewrite Hcs. exists None. split; [by destruct (_ + _)%nat | done].
  - apply represents_branch in Hr as (n' & Hn' & _ & _ & _ & Hcs & _ & Hf). rewrite Hn in Hn'. injection Hn' as <-. rewrite Hcs.
    rewrite size_branch in Hsize. pose proof (length_total kids). rewrite render_branch, !zlen_app, zlen_close in *.
    pose proof (zlen_nonneg (open_tag name attributes)). pose proof (zlen_nonneg tail). pose proof (zlen_nonneg name). pose proof (zlen_nonneg (render_all kids)).
    destruct (getXMLNode_forest kids (Z.to_nat (current_node h) + 1) mem (xml_nodes h) _ (id + 1) id t (step_name s) (step_index s) 0 Hf Ht)
      as (r & E & Hfd); try lia. rewrite Z.sub_0_r in Hfd.
    exists r. split.
    + cbn [good] in Hgood. rewrite !andb_true_iff, negb_true_iff, Z.eqb_neq in Hgood. destruct kids; [tauto | exact E].
    + cbn [kids_of]. unfold found in *. destruct (select _ _ _); [|done]. destruct Hfd as (id' & a' & ? & ? & ? & ?). exists id', a'. split_and!; try done; lia.
  - destruct Hr as (n' & Hn' & _ & _ & _ & Hcs & _). rewrite Hn in Hn'. injection Hn' as <-. rewrite Hcs. exists None. split; [by destruct (_ + _)%nat | done].
Qed.

Lemma descend_spec mem h xq ss : forall d a id par k,
  represents mem (xml_nodes h) d a id par -> good d = true -> size d <= current_node h ->
  items_at mem xq k ss -> Forall (fun t => good_step t = true) ss -> 0 <= k -> k + zlen ss <= 32 -> 1 < xq -> xq + XQUERY_SIZE < 2 ^ 64 ->
  0 < a -> a + zlen (render d) < 2 ^ 64 ->
  exists r, descend (length ss) mem h xq k (Some id) = Some r /\
    match follow d ss with Some e => exists id' a' p', r = Some id' /\ represents mem (xml_nodes h) e a' id' p' /\ a <= a' /\ a' + zlen (render e) <= a + zlen (render d) | None => r = None end.
Proof.
  induction ss as [|s ss IH]; intros d a id par k Hr Hgood Hsize Hitems Hss Hk Hk32 Hxq Hxqb Ha Hend.
  - exists (Some id). split; [done|]. cbn [follow]. exists id, a, par. split_and!; try done; lia.
  - inversion Hss as [|? ? Hs Hss']; subst x l. destruct Hitems as [[Hc Hi] Hitems]. rewrite zlen_cons in Hk32. pose proof (zlen_nonneg ss).
    destruct (step_chars s Hs) as [Hl _].
    assert (exists n, xml_nodes h !! id = Some n) as [n Hn] by (destruct d; destruct Hr as (n & ? & _); by exists n).
    destruct (getXMLNode_kids mem h d a id par n (item_tag xq k) s) as (r & E & Hfd); try done.
    { unfold item_tag, XQUERY_ITEM. lia. }
    { unfold item_tag, XQUERY_SIZE, XQUERY_ITEM in *. lia. }
    cbn [length descend follow]. rewrite Hn. cbn [mbind option_bind]. rewrite Hi, E. cbn [mbind option_bind].
    destruct (select (kids_of d) (step_name s) (step_index s)) as [e|] eqn:Esel; cbn [mbind option_bind found] in *.
    + destruct Hfd as (id' & a' & -> & Hre & Hlo & Hhi). apply select_in in Esel. pose proof (size_kids _ _ Esel).
      destruct (IH e a' id' (Some id) (k + 1) Hre) as (r & -> & Hres); try done; try lia; [by eapply good_kids|].
      exists r. split; [done|]. destruct (follow e ss) as [f|]; [|done]. destruct Hres as (i & b & p & ? & ? & ? & ?). exists i, b, p. split_and!; try done; lia.
    + subst r. exists None. split; [by destruct ss | done].
Qed.

(** ** The whole query *)

Definition outside (b lo n : Z) : Prop := b < lo \/ lo + n <= b.

Lemma getXMLNode_top mem h d a t s n :
  represents mem (xml_nodes h) d a 0 None -> xml_nodes h !! 0 = Some n -> right_node n = None -> 0 < current_node h ->
  cstring mem t (step_name s) -> 0 < a -> 1 < t -> a + zlen (render d) < 2 ^ 64 -> t + zlen (step_name s) < 2 ^ 64 ->
  getXMLNode mem h (Some 0) t (step_index s) = Some (match select [d] (step_name s) (step_index s) with Some _ => Some 0 | None => None end).
Proof.
  intros Hr Hn Hright Hc Ht Ha Ht1 Hend Htb. unfold getXMLNode. replace (Z.to_nat (current_node h) + 1)%nat with (S (S (Z.to_nat (current_node h - 1)))) by lia.
  pose proof (step_index_range s). rewrite (getXMLNode_step _ _ _ d a 0 None t (step_name s) (step_index s) 0 n) by done. rewrite Hright, select_cons by lia.
  assert (forall i, select [] (step_name s) i = None) as Hnil by (intros i; done). rewrite !Hnil.
  destruct (decide _); [|done]. rewrite (Z.eqb_sym 0). by destruct (step_index s =? 0).
Qed.

(** The characters of the copy of a query are split into items. *)
Lemma split_query q xq empty (B : buffers q xq empty) mem lead s ss :
  lead = [] \/ lead = [CH_SLASH] -> Forall (fun t => good_step t = true) (s :: ss) -> cstring mem q (lead ++ path_text s ss) ->
  zlen (lead ++ path_text s ss) < QUERY_SIZE -> mem empty = 0 -> mem (items_count xq) = 0 -> zlen (s :: ss) <= 32 ->
  exists mem', (for_each (length (lead ++ path_text s ss)) 0 (split_step xq q empty) (mem, q) ≫= item_ends xq empty) = Some mem' /\
    items_at mem' xq 0 (s :: ss) /\ mem' (items_count xq) = zlen (s :: ss) /\
    (forall b, outside b q QUERY_SIZE -> outside b xq XQUERY_SIZE -> mem' b = mem b).
Proof.
  intros Hlead Hgood Hc Hl He Hcount Hn. pose proof Hc as (Ht & Hz & _). apply text_at_read in Ht. destruct Hlead as [-> | ->].
  - cbn [app] in *. pose proof (split_spec q xq empty B ss s mem 0 0) as H. rewrite !Z.add_0_r in H.
    destruct H as (mem' & E & Hi & Hcnt & Hm); try done. exists mem'. split; [exact E|]. split; [done|]. split; [done|].
    intros b Hb Hb'. unfold outside in *. apply Hm; [done|]. unfold item_tag. lia.
  - cbn [app length] in *. rewrite !zlen_cons in *. destruct Ht as [Hs Ht]. destruct B as [? ? ? ? ? ? ? ? ?] eqn:EB.
    assert (cstring (poke mem (q + 0) 0) q []) as Hq by (apply cstring_nil; rewrite Z.add_0_r; apply poke_eq).
    assert (cstring (poke mem (q + 0) 0) empty []) as Hce.
    { apply cstring_nil. rewrite poke_ne; [done|]. unfold QUERY_SIZE in *. lia. }
    rewrite for_each_S, split_slash by (by rewrite Z.add_0_r).
    assert (item_ends xq empty (poke mem (q + 0) 0, q) = Some (poke mem (q + 0) 0)) as ->.
    { unfold item_ends. unfold QUERY_SIZE, XQUERY_SIZE in *.
      destruct (strcmp_spec _ q empty _ _ Hq Hce) as (r & -> & Hr); try (change (zlen []) with 0; lia). cbn [mbind option_bind]. by rewrite (proj2 Hr). }
    unfold QUERY_SIZE, XQUERY_SIZE in *. cbn [mbind option_bind].
    change (0 + 1) with 1. pose proof (zlen_nonneg (path_text s ss)).
    destruct (split_spec q xq empty B ss s (poke mem (q + 0) 0) 1 0) as (mem' & E & Hi & Hcnt & Hm); try done; try (unfold QUERY_SIZE; lia).
    + eapply text_at_ext; [|done]. intros b Hb. apply poke_ne. lia.
    + rewrite poke_ne by lia. rewrite <- Hz. f_equal. lia.
    + rewrite poke_ne; [done|]. lia.
    + rewrite poke_ne; [done|]. unfold items_count, XQUERY_ITEM in *. lia.
    + rewrite zlen_cons. lia.
    + exists mem'. split; [exact E|]. split; [done|]. split; [by rewrite Hcnt, zlen_cons|]. intros b Hb Hb'. unfold outside in *.
      rewrite Hm; [apply poke_ne; lia | unfold QUERY_SIZE; lia | unfold item_tag, XQUERY_SIZE; lia].
Qed.

Lemma exec_xquery_spec q xq empty (B : buffers q xq empty) mem h d a n str lead s ss :
  represents mem (xml_nodes h) d a 0 None -> xml_nodes h !! 0 = Some n -> right_node n = None -> good d = true -> size d <= current_node h ->
  0 < a -> a + zlen (render d) < 2 ^ 64 ->
  a + zlen (render d) <= q \/ q + QUERY_SIZE <= a -> a + zlen (render d) <= xq \/ xq + XQUERY_SIZE <= a ->
  lead = [] \/ lead = [CH_SLASH] -> Forall (fun t => good_step t = true) (s :: ss) -> cstring mem str (lead ++ path_text s ss) ->
  zlen (lead ++ path_text s ss) < QUERY_SIZE -> zlen (s :: ss) <= 32 ->
  0 < str -> str + zlen (lead ++ path_text s ss) < 2 ^ 64 ->
  str + zlen (lead ++ path_text s ss) < q \/ q + QUERY_SIZE <= str -> mem empty = 0 ->
  exists mem' r, exec_xquery mem q xq empty str h = Some (mem', r) /\
    match query d s ss with
    | Some e => exists id a' p, r = Some id /\ represents mem' (xml_nodes h) e a' id p /\ a <= a' /\ a' + zlen (render e) <= a + zlen (render d)
    | None => r = None
    end /\
    (forall b, outside b q QUERY_SIZE -> outside b xq XQUERY_SIZE -> mem' b = mem b).
Proof.
  intros Hr Hn Hright Hgood Hsize Ha Hend Hdq Hdx Hlead Hsteps Hc Hl H32 Hstr0 Hstr64 Hstr He. pose proof B as [? ? ? ? ? ? ? ? ?].
  set (path := lead ++ path_text s ss) in *. pose proof (zlen_nonneg path). pose proof (zlen_nonneg (render d)).
  unfold exec_xquery. destruct (strcpy_spec (memset mem q 0 QUERY_SIZE) q str path) as (mem1 & -> & Hc1 & Hm1); [| lia | lia |].
  { eapply cstring_ext; [|exact Hc]. intros b Hb. apply memset_out. lia. }
  cbn [mbind option_bind]. rewrite (strlen_ok mem1 q path Hc1) by (unfold QUERY_SIZE in *; lia). cbn [mbind option_bind].
  assert (forall b, outside b q QUERY_SIZE -> mem1 b = mem b) as Hm by (intros b Hb; unfold outside in *; rewrite Hm1, memset_out by lia; done).
  set (mem2 := poke mem1 (items_count xq) 0).
  assert (forall b, outside b xq XQUERY_SIZE -> mem2 b = mem1 b) as Hm2
    by (intros b Hb; apply poke_ne; unfold outside, items_count, XQUERY_SIZE, XQUERY_ITEM in *; lia).
  destruct (split_query q xq empty B mem2 lead s ss) as (mem' & E & Hitems & Hcount & Hm'); try done.
  { eapply cstring_ext; [|exact Hc1]. intros b Hb. apply Hm2. fold path in Hb. unfold outside. lia. }
  { rewrite Hm2, Hm by (unfold outside; lia). done. }
  { apply poke_eq. }
  fold path in E. replace (Z.to_nat (zlen path)) with (length path) by (unfold zlen; lia).
  destruct (for_each (length path) 0 (split_step xq q empty) (mem2, q)) as [s3|]; cbn [mbind option_bind] in *; [|done]. rewrite E. cbn [mbind option_bind].
  assert (forall b, outside b q QUERY_SIZE -> outside b xq XQUERY_SIZE -> mem' b = mem b) as Hframe by (intros b Hb Hb'; rewrite Hm', Hm2, Hm by done; done).
  assert (represents mem' (xml_nodes h) d a 0 None) as Hr'.
  { eapply represents_frame; [..|exact Hr]; [intros b Hb; apply Hframe; unfold outside; lia | done | intros m Hm0; by exists m]. }
  inversion Hsteps as [|? ? Hs Hss]; subst x l. destruct Hitems as [[Hc0 Hi0] Hitems]. destruct (step_chars s Hs) as [Hls _]. pose proof (size_pos d).
  rewrite Hi0, (getXMLNode_top mem' h d a (item_tag xq 0) s n) by (done || (unfold item_tag, XQUERY_SIZE, XQUERY_ITEM in *; lia)). cbn [mbind option_bind].
  rewrite zlen_cons in *. pose proof (zlen_nonneg ss). replace (Z.to_nat (mem' (items_count xq) - 1)) with (length ss) by (rewrite Hcount; unfold zlen; lia).
  unfold query. destruct (select [d] (step_name s) (step_index s)) as [e|] eqn:Esel; cbn [mbind option_bind].
  - apply select_in in Esel. destruct Esel as [<- | []].
    destruct (descend_spec mem' h xq ss d a 0 None 1 Hr') as (r' & -> & Hres); try done; try lia.
    cbn [mbind option_bind]. exists mem', r'. split; [done|]. split; [|done]. destruct (follow d ss); done.
  - assert (descend (length ss) mem' h xq 1 None = Some None) as -> by (by destruct ss). cbn [mbind option_bind]. exists mem', None. by split.
Qed.

(** ** The service *)

(** The buffers lie apart from each other and from the [n] characters at [src]. *)
Record placed (s : XMLService) (src n : Z) : Prop := {
  placed_buffers : buffers (query_buffer s) (xquery_buffer s) (empty_literal s);
  placed_q : 0 < q_buffer s /\ q_buffer s + QUERY_SIZE < 2 ^ 64;
  placed_value : 0 < value s /\ value s + 256 < 2 ^ 64;
  doc_q : src + n < q_buffer s \/ q_buffer s + QUERY_SIZE <= src;
  doc_query : src + n < query_buffer s \/ query_buffer s + QUERY_SIZE <= src;
  doc_xquery : src + n < xquery_buffer s \/ xquery_buffer s + XQUERY_SIZE <= src;
  doc_value : src + n < value s \/ value s + 256 <= src;
  doc_empty : src + n < empty_literal s \/ empty_literal s < src;
  q_query : q_buffer s + QUERY_SIZE <= query_buffer s \/ query_buffer s + QUERY_SIZE <= q_buffer s;
  q_empty_literal : empty_literal s < q_buffer s \/ q_buffer s + QUERY_SIZE <= empty_literal s;
  value_q : outside (value s) (q_buffer s) QUERY_SIZE;
  value_query : outside (value s) (query_buffer s) QUERY_SIZE;
  value_xquery : outside (value s) (xquery_buffer s) XQUERY_SIZE
}.

(** The answer to a query is the text of the leaf it leads to, or nothing. *)
Definition answer (before after : memory) (v : Z) (o : option doc) : Prop :=
  match o with
  | Some (Leaf _ _ txt) => zlen txt < 256 -> cstring after v txt
  | Some _ => True
  | None => after v = before v
  end.

Lemma leaf_content mem nodes name attributes txt a id par :
  represents mem nodes (Leaf name attributes txt) a id par ->
  exists n, nodes !! id = Some n /\ content n = a + zlen (open_tag name attributes) /\ cstring mem (content n) txt.
Proof. intros (n & Hn & _ & _ & _ & _ & Hc & Ht). exists n. split; [done|]. split; [done|]. by rewrite Hc. Qed.

(** The addresses a lookup leaves alone, when the text fits into the field. *)
Definition untouched (s : XMLService) (b : Z) : Prop :=
  outside b (q_buffer s) QUERY_SIZE /\ outside b (query_buffer s) QUERY_SIZE /\ outside b (xquery_buffer s) XQUERY_SIZE /\ outside b (value s) 256.

Definition fits_field (o : option doc) : Prop := match o with Some (Leaf _ _ txt) => zlen txt < 256 | _ => True end.

Lemma get_value_spec directory lead st0 s mem h src n d a node t st sts :
  (forall l, sprintf_raw (directory ++ codes "%s") [VaStr (Some l)] = Some (directory ++ l)) ->
  directory = lead ++ render_step st0 ++ [CH_SLASH] -> lead = [] \/ lead = [CH_SLASH] ->
  placed s src n -> src <= a -> a + zlen (render d) <= src + n -> 0 < src -> src + n < 2 ^ 64 ->
  represents mem (xml_nodes h) d a 0 None -> xml_nodes h !! 0 = Some node -> right_node node = None -> good d = true -> size d <= current_node h ->
  t = path_text st sts -> cstring mem (tagDirectory s) t -> Forall (fun x => good_step x = true) (st0 :: st :: sts) ->
  zlen directory + zlen t < QUERY_SIZE -> zlen (st :: sts) < 32 -> mem (empty_literal s) = 0 ->
  0 < tagDirectory s -> tagDirectory s + zlen t < 2 ^ 64 ->
  tagDirectory s + zlen t < q_buffer s \/ q_buffer s + QUERY_SIZE <= tagDirectory s ->
  (forall e, query d st0 (st :: sts) = Some e -> exists nm at_ txt, e = Leaf nm at_ txt) ->
  exists mem', get_value directory s mem h = Some mem' /\ answer mem mem' (value s) (query d st0 (st :: sts)) /\
    (fits_field (query d st0 (st :: sts)) -> forall b, untouched s b -> mem' b = mem b).
Proof.
  intros Hsprintf Hdir Hlead P Ha Hdn Hsrc Hn Hr Hnode Hright Hgood Hsize -> Ht Hsteps Hl H32 He Htag Htagb Htq Hleaf.
  destruct P as [B [Hq Hqb] _ Hdq Hdy Hdx Hdv Hde Hqy Hqe Hvq Hvy Hvx].
  pose proof (zlen_nonneg (path_text st sts)). pose proof (zlen_nonneg directory). pose proof (zlen_nonneg (render d)).
  unfold get_value. set (mem1 := memset mem (q_buffer s) 0 QUERY_SIZE).
  assert (forall b, outside b (q_buffer s) QUERY_SIZE -> mem1 b = mem b) as Hm1 by (intros b Hb; by apply memset_out).
  assert (cstring mem1 (tagDirectory s) (path_text st sts)) as Ht1 by (eapply cstring_ext; [|exact Ht]; intros b Hb; apply Hm1; unfold outside; lia).
  rewrite (strlen_ok mem1 _ _ Ht1) by (unfold QUERY_SIZE in *; lia). cbn [mbind option_bind].
  pose proof (proj1 Ht1) as Hread. rewrite Hread, Hsprintf. cbn [mbind option_bind].
  set (path := directory ++ path_text st sts). assert (zlen path = zlen directory + zlen (path_text st sts)) as Hlp by (unfold path; by rewrite zlen_app).
  set (mem2 := write_bytes mem1 (q_buffer s) (path ++ [0])).
  assert (forall b, outside b (q_buffer s) QUERY_SIZE -> mem2 b = mem b) as Hm2.
  { intros b Hb. rewrite <- Hm1 by done. apply write_bytes_out. rewrite zlen_app. change (zlen [0]) with 1. unfold outside in *. lia. }
  assert (path = lead ++ path_text st0 (st :: sts)) as Hpath by (unfold path; rewrite Hdir, <- !app_assoc; done).
  assert (cstring mem2 (q_buffer s) path) as Hc2.
  { pose proof (proj2 (text_at_read mem2 (q_buffer s) (path ++ [0])) (read_write_same mem1 (q_buffer s) (path ++ [0]))) as Hw.
    apply text_at_app in Hw as [Hw [Hz _]]. apply text_at_cstring; [done | done |]. rewrite Hpath. apply Forall_app. split.
    - destruct Hlead as [-> | ->]; repeat constructor.
    - apply path_chars. done. }
  destruct (exec_xquery_spec _ _ _ B mem2 h d a node (q_buffer s) lead st0 (st :: sts)) as (mem3 & r & E & Hres & Hm3); try done; try lia.
  { eapply represents_frame; [..|exact Hr]; [intros b Hb; apply Hm2; unfold outside; lia | done | intros m Hm; by exists m]. }
  { rewrite <- Hpath. exact Hc2. }
  { rewrite <- Hpath. lia. }
  { rewrite zlen_cons. lia. }
  { rewrite <- Hpath. unfold QUERY_SIZE in *. lia. }
  { rewrite <- Hpath. lia. }
  { rewrite Hm2; [done | unfold outside; lia]. }
  rewrite E. cbn [mbind option_bind]. destruct (query d st0 (st :: sts)) as [e|] eqn:Eq.
  - destruct Hres as (id & a' & p & -> & Hre & Hlo & Hhi). destruct (Hleaf e eq_refl) as (nm & at_ & txt & ->).
    destruct (leaf_content _ _ _ _ _ _ _ _ Hre) as (n' & Hn' & Hcn & Hct). rewrite Hn'. cbn [mbind option_bind render] in *.
    rewrite !zlen_app in Hhi. pose proof (zlen_nonneg (open_tag nm at_)). pose proof (zlen_nonneg (close_tag nm)).
    destruct (strcpy_spec mem3 (value s) (content n') txt Hct) as (mem4 & -> & Hc4 & Hm4); [lia | lia |]. exists mem4. split; [done|]. split; [by intros _|].
    cbn [fits_field]. intros Hf b (Hb1 & Hb2 & Hb3 & Hb4). rewrite Hm4, Hm3, Hm2; [done..|]. unfold outside in Hb4. lia.
  - rewrite Hres. exists mem3. split; [done|]. cbn [answer]. split; [rewrite Hm3, Hm2; done|]. intros _ b (Hb1 & Hb2 & Hb3 & _). by rewrite Hm3, Hm2.
Qed.

End proofs.

(** ** Properties *)

(** The two lookups and the element they look below. *)
Definition lookup_tag `{Routines} (message : bool) : XMLService -> memory -> xml_heap_t -> option memory :=
  if message then getValueFromTagMessage else getValueFromTag.
Definition root_tag (message : bool) : list Z := if message then codes "params" else codes "SystemConfig".

Lemma value_of_document {R : Routines} {Rok : RoutinesOk} apic k k' address u garbage mem src pre d post message s st sts :
  kvalloc apic k XML_HEAP_SIZE = Some (k', address) -> address <> NULL ->
  frame_ok u -> cstring mem src (pre ++ render d ++ post) -> 0 < src -> src + zlen (pre ++ render d ++ post) < 2 ^ 64 ->
  quiet pre = true -> good d = true -> quiet post = true -> size d <= MAX_XML_NODES -> height d <= MAX_VOID_STACK_SIZE ->
  placed s src (zlen (pre ++ render d ++ post)) -> mem (empty_literal s) = 0 ->
  cstring mem (tagDirectory s) (path_text st sts) -> Forall (fun x => good_step x = true) (st :: sts) -> zlen (st :: sts) < 32 ->
  zlen (path_text st sts) < QUERY_SIZE - 16 -> 0 < tagDirectory s -> tagDirectory s + zlen (path_text st sts) < 2 ^ 64 ->
  outside (tagDirectory s) (src - zlen (path_text st sts)) (zlen (pre ++ render d ++ post) + zlen (path_text st sts)) ->
  tagDirectory s + zlen (path_text st sts) < q_buffer s \/ q_buffer s + QUERY_SIZE <= tagDirectory s ->
  (forall e, query d (Plain (root_tag message)) (st :: sts) = Some e -> exists nm at_ txt, e = Leaf nm at_ txt) ->
  exists mem1 h mem2, ParseXMLString apic k u garbage mem src = Some (k', mem1, Some h) /\
    lookup_tag message s mem1 h = Some mem2 /\ answer mem1 mem2 (value s) (query d (Plain (root_tag message)) (st :: sts)).
Proof.
  intros Hk Hnull Hu Hc Hsrc Hend Hpre Hd Hpost Hsize Hheight P He Ht Hsteps H32 Hl Htag Htagb Htd Htq Hleaf.
  destruct (parse_xml_doc u mem garbage src pre d post) as (h0 & mem1 & h & E1 & E2 & _ & Hcur & Hr & (n & Hn & Hright) & Hm); try done.
  exists mem1, h. pose proof P as [_ _ _ _ _ _ _ Hde _ _ _ _ _].
  assert (ParseXMLString apic k u garbage mem src = Some (k', mem1, Some h)) as EP.
  { unfold ParseXMLString. rewrite Hk. cbn [mbind option_bind]. apply Z.eqb_neq in Hnull as ->. rewrite E1. cbn [mbind option_bind]. by rewrite E2. }
  rewrite !zlen_app in *. pose proof (zlen_nonneg pre). pose proof (zlen_nonneg post). pose proof (zlen_nonneg (render d)). pose proof (zlen_nonneg (path_text st sts)).
  unfold outside, QUERY_SIZE in *.
  destruct (get_value_spec (if message then codes "params/" else codes "/SystemConfig/") (if message then [] else [CH_SLASH]) (Plain (root_tag message)) s mem1 h src
    (zlen pre + (zlen (render d) + zlen post)) d (src + zlen pre) n (path_text st sts) st sts) as (mem2 & E3 & Hans & _); try done; try lia.
  - intros l. by destruct message; apply sprintf_directory.
  - by destruct message.
  - destruct message; auto.
  - eapply cstring_ext; [|exact Ht]. intros b Hb. apply Hm. lia.
  - constructor; [by destruct message | done].
  - destruct message; [change (zlen (codes "params/")) with 7 | change (zlen (codes "/SystemConfig/")) with 14]; unfold QUERY_SIZE; lia.
  - rewrite Hm; [done | lia].
  - exists mem2. split; [done|]. split; [by destruct message | done].
Qed.


Definition message_doc : doc :=
  Branch (codes "params") [] [([], Leaf (codes "FirstValue") [] (codes " 3 ")); ([], Leaf (codes "SecondValue") [] (codes " 12 "))] [].
Definition message_text : list Z := codes "<params><FirstValue> 3 </FirstValue><SecondValue> 12 </SecondValue></params>".
Definition message_memory : memory := write_bytes (write_bytes (fun _ => 0) 0x1000 message_text) 0x9000 (codes "SecondValue").
Definition message_service : XMLService := mkXMLService 0x9000 0x7000 0x2000 0x3000 0x4000 0x8000.
Definition large_allocator : MemoryAllocator := small_allocator {{ kernel_memory_end_address := 0x10000000 }}.

Lemma message_placed : placed message_service 0x1000 (zlen message_text).
Proof.
  change (zlen message_text) with 76. unfold message_service. split; cbn; unfold QUERY_SIZE, XQUERY_SIZE, XQUERY_ITEM, outside; try lia.
  split; unfold QUERY_SIZE, XQUERY_SIZE, XQUERY_ITEM; lia.
Qed.


(** An index is read only when a blank follows it: atoi gives 0 for a number that ends with the bracket. *)
Theorem index_needs_blank {R : Routines} {Rok : RoutinesOk} mem xq p name ds k :
  good_step (Nth name ds false) = true -> cstring mem p (render_step (Nth name ds false)) -> 0 < p -> p + zlen (render_step (Nth name ds false)) < 2 ^ 64 ->
  zlen (render_step (Nth name ds false)) < QUERY_SIZE -> mem (items_count xq) = k -> 0 <= k < 32 ->
  p + zlen (render_step (Nth name ds false)) < xq \/ xq + XQUERY_SIZE <= p ->
  exists mem', parse_xquery_item mem p xq = Some mem' /\ get 2 mem' (item_index xq k) = 0.
Proof.
  intros Hs Hc Hp Hp64 Hl Hk Hk32 Hd. destruct (parse_item_spec (Nth name ds false) mem xq p k) as (mem' & E & [_ Hi] & _); try done.
  by exists mem'.
Qed.
