(* ===== verification/ServiceXml.v ===== *)
(** * Values as XML text: [ConvertTagToXML] of [sources/devices/service/service.c]

    The values lie in memory at the addresses the caller passes; the buffer of
    the message and the buffers of the encoder and the decoder come from the
    kernel arena, one behind the other. *)

From S2P Require Import Prelude FastMem Spinlock KMalloc Base64 Service Stdio Strings XmlParser XmlQuery.

#[local] Open Scope Z_scope.

(** One round of arguments: the parameter, the address of the value, and the
    size that follows when the parameter has no fixed one. *)
Record xml_argument := mkArgument {
  arg_param : Parameter_t;
  arg_value : Z;
  arg_size : Z
}.

Definition tag_of (a : xml_argument) : list Z := codes (param_tag (arg_param a)).

Definition sizeOfData (a : xml_argument) : Z :=
  if variableSize (arg_param a) then arg_size a else sizeOfParameter (arg_param a).

(** The first loop; [4 / 3] is a division of integers. *)
Definition maximumTotalSize (l : list xml_argument) : Z :=
  let total := foldl (fun total a =>
    let total := u64 (total + (zlen (tag_of a) * 2 + 9)) in
    u64 (total + u64 (sizeOfData a * 4) / 3)) 0 l in
  u64 (total * (4 / 3)).

(** [base64_encode] and [base64_decode] with their buffers in memory: a buffer
    is the next address of the arena.  A failed call returns NULL and leaves the length 0. *)
Definition base64_encode_at (apic : Z) (k : MemoryAllocator) (mem : memory) (src len : Z)
  : option (MemoryAllocator * memory * Z * Z) :=
  '(k', out) ← base64_encode apic k (read_bytes mem src len);
  Some (match out with
        | Some l => (k', write_bytes mem (kernel_memory_current_address k) l, kernel_memory_current_address k, zlen l)
        | None => (k', mem, NULL, 0)
        end).

Definition base64_decode_at (apic : Z) (k : MemoryAllocator) (mem : memory) (src len : Z)
  : option (MemoryAllocator * memory * Z * Z) :=
  '(k', out) ← base64_decode apic k (read_bytes mem src len);
  Some (match out with
        | Some l => (k', write_bytes mem (kernel_memory_current_address k) l, kernel_memory_current_address k, zlen l)
        | None => (k', mem, NULL, 0)
        end).

Definition NEWLINE : Z := 10.
Definition opening_format : list Z := codes "<params><%s> ".
Definition closing_format : list Z := codes " </%s></params>" ++ [NEWLINE].

(** One round of the second loop: the element is written at [end_]. *)
Definition write_tag (apic : Z) (k : MemoryAllocator) (mem : memory) (end_ : Z) (a : xml_argument)
  : option (MemoryAllocator * memory * Z) :=
  let tag := tag_of a in
  let tagLength := zlen tag in
  '(k, mem, encodedData, encodedDataLength) ← base64_encode_at apic k mem (arg_value a) (sizeOfData a);
  '(k, mem, _, _) ← base64_decode_at apic k mem encodedData encodedDataLength;
  opening ← sprintf_raw opening_format [VaStr (Some tag)];
  let mem := write_bytes mem end_ opening in
  let end_ := end_ + (tagLength + 11) in
  let mem := memcpy mem end_ encodedData encodedDataLength in
  let end_ := end_ + encodedDataLength in
  closing ← sprintf_raw closing_format [VaStr (Some tag)];
  let mem := write_bytes mem end_ closing in
  Some (k, mem, end_ + (tagLength + 14)).

Fixpoint write_tags (apic : Z) (k : MemoryAllocator) (mem : memory) (end_ : Z) (l : list xml_argument)
  : option (MemoryAllocator * memory * Z) :=
  match l with
  | [] => Some (k, mem, end_)
  | a :: l => '(k, mem, end_) ← write_tag apic k mem end_ a; write_tags apic k mem end_ l
  end.

Definition ConvertTagToXML (apic : Z) (k : MemoryAllocator) (mem : memory) (l : list xml_argument)
  : option (MemoryAllocator * memory * Z) :=
  '(k, buffer) ← kmalloc apic k (maximumTotalSize l);
  let mem := memset mem buffer 0 (maximumTotalSize l) in
  '(k, mem, end_) ← write_tags apic k mem buffer l;
  Some (k, poke mem end_ 0, buffer).

(** ** What is written *)

Definition encoded (bytes : list Z) : list Z := default [] (encode_loop bytes).

Definition element (tag bytes : list Z) : list Z :=
  codes "<params><" ++ tag ++ codes "> " ++ encoded bytes ++ codes " </" ++ tag ++ codes "></params>" ++ [NEWLINE].

Definition value_bytes (mem : memory) (a : xml_argument) : list Z := read_bytes mem (arg_value a) (sizeOfData a).

Definition message (mem : memory) (l : list xml_argument) : list Z :=
  concat (map (fun a => element (tag_of a) (value_bytes mem a)) l).

(** The bytes the first loop counts for an argument, and the room its round takes from the arena. *)
Definition counted (a : xml_argument) : Z := zlen (tag_of a) * 2 + 9 + sizeOfData a * 4 / 3.
Definition taken (a : xml_argument) : Z := sizeOfData a * 4 / 3 + 4 + 3 * ((sizeOfData a + 2) / 3).

Definition sum (l : list Z) : Z := foldr Z.add 0 l.

(** An argument of six characters and six bytes or more: what the message has
    beyond the counted size still lies behind the end of the text and before the encoded data. *)
Record long_enough (mem : memory) (lo hi : Z) (a : xml_argument) : Prop := {
  long_tag : 6 <= zlen (tag_of a) < 50;
  long_size : 6 <= sizeOfData a < 2 ^ 60;
  long_bytes : in_bytes (value_bytes mem a);
  long_apart : arg_value a + sizeOfData a <= lo \/ hi <= arg_value a
}.

(** ** Lemmas *)

Lemma element_length tag bytes : in_bytes bytes ->
  zlen (element tag bytes) = 2 * zlen tag + 25 + 4 * ((zlen bytes + 2) / 3).
Proof.
  intros Hb. unfold element, encoded. destruct (encode_decode_loop bytes Hb) as (w & -> & Hw & _). cbn [default from_option id].
  rewrite !zlen_app, Hw. change (zlen (codes "<params><")) with 9. change (zlen (codes "> ")) with 2. change (zlen (codes " </")) with 3.
  change (zlen (codes "></params>")) with 10. change (zlen [NEWLINE]) with 1. lia.
Qed.

Lemma sprintf_around a b tag :
  forallb (fun c => negb (c =? CH_PERCENT)) a = true -> forallb (fun c => negb (c =? CH_PERCENT)) b = true ->
  sprintf_raw (a ++ CH_PERCENT :: CH_s :: b) [VaStr (Some tag)] = Some (a ++ tag ++ b).
Proof.
  intros Ha Hb. induction a as [|c a IH].
  - cbn [app sprintf_raw]. change (CH_PERCENT =? CH_PERCENT) with true. change (CH_s =? CH_c) with false. change (CH_s =? CH_s) with true.
    cbn [next_string mbind option_bind]. assert (sprintf_raw b [] = Some b) as ->; [|done].
    induction b as [|c b IH]; [done|]. cbn [forallb] in Hb. rewrite andb_true_iff, negb_true_iff in Hb. destruct Hb as [Hc Hb].
    cbn [sprintf_raw]. by rewrite Hc, IH.
  - cbn [forallb] in Ha. rewrite andb_true_iff, negb_true_iff in Ha. destruct Ha as [Hc Ha]. cbn [app sprintf_raw]. rewrite Hc, IH by done. done.
Qed.

(** Three texts written one behind the other. *)
Lemma write_three mem e l1 l2 l3 :
  text_at (write_bytes (write_bytes (write_bytes mem e l1) (e + zlen l1) l2) (e + zlen l1 + zlen l2) l3) e (l1 ++ l2 ++ l3) /\
  forall b, b < e \/ e + zlen (l1 ++ l2 ++ l3) <= b ->
    write_bytes (write_bytes (write_bytes mem e l1) (e + zlen l1) l2) (e + zlen l1 + zlen l2) l3 b = mem b.
Proof.
  assert (forall b, write_bytes (write_bytes (write_bytes mem e l1) (e + zlen l1) l2) (e + zlen l1 + zlen l2) l3 b =
    write_bytes mem e (l1 ++ l2 ++ l3) b) as E.
  { intros b. rewrite app_assoc, (write_bytes_app mem e (l1 ++ l2) l3 b), zlen_app, Z.add_assoc.
    apply write_bytes_ext. symmetry. apply write_bytes_app. }
  split; [|intros b Hb; rewrite E; by apply write_bytes_out].
  eapply text_at_ext; [intros b _; exact (E b)|]. apply text_at_read, read_write_same.
Qed.

(** One round with room: the text lies at [end_], the arena has moved on. *)
Lemma write_tag_spec apic k mem lo end_ a rest hi :
  alloc_wf k -> 0 <= apic < 65535 -> long_enough mem lo hi a -> lo <= end_ -> 0 <= rest ->
  end_ + counted a + rest <= kernel_memory_current_address k ->
  kernel_memory_current_address k + taken a < hi -> hi <= kernel_memory_end_address k ->
  exists k' mem', write_tag apic k mem end_ a = Some (k', mem', end_ + zlen (element (tag_of a) (value_bytes mem a))) /\
    alloc_wf k' /\ kernel_memory_end_address k' = kernel_memory_end_address k /\
    kernel_memory_current_address k' = kernel_memory_current_address k + taken a /\
    end_ + zlen (element (tag_of a) (value_bytes mem a)) + rest <= kernel_memory_current_address k' /\
    text_at mem' end_ (element (tag_of a) (value_bytes mem a)) /\
    forall b, b < end_ \/ hi <= b -> mem' b = mem b.
Proof.
  intros Hk Ha [Ht Hn Hb Hv] Hlo Hrest Hend Hroom Hhi. unfold counted, taken in *.
  set (bytes := value_bytes mem a) in *. set (n := sizeOfData a) in *. set (tag := tag_of a) in *.
  assert (zlen bytes = n) as Hzn by (apply zlen_read; lia). rewrite (element_length tag bytes Hb), Hzn.
  destruct (encode_decode_loop bytes Hb) as (w & Ew & Hw & Hval & Hdec). rewrite Hzn in Hw.
  assert (0 <= n * 4 / 3 /\ n * 4 / 3 <= 4 * ((n + 2) / 3) <= n * 4 / 3 + 3 /\ n <= 3 * ((n + 2) / 3) /\ 4 * ((n + 2) / 3) - n * 4 / 3 + 12 <= n * 4 / 3 + 3 * ((n + 2) / 3)) as (Hd0 & Hd1 & Hd2 & Hd3) by zdiv.
  set (q := (n + 2) / 3) in *. set (f := n * 4 / 3) in *. set (cur := kernel_memory_current_address k) in *.
  pose proof (base64_encode_fits apic k bytes w) as He. rewrite Hzn in He. fold f cur in He.
  destruct He as [E1 Hk1]; try done; try lia.
  set (k1 := k {{ kernel_memory_current_address := cur + (f + 4) }}) in *.
  assert (count_valid the_dtable w = Some (4 * q)) as Hcv by (rewrite count_valid_all, Hw by exact Hval; reflexivity).
  destruct (base64_decode_fits apic k1 w q bytes Hk1 Ha Hcv ltac:(lia) ltac:(lia) (Hdec []) ltac:(cbn; lia)) as [E2 Hk2].
  unfold write_tag, base64_encode_at, base64_decode_at. fold bytes n tag cur.
  change (read_bytes mem (arg_value a) n) with bytes. rewrite E1. cbn [mbind option_bind].
  rewrite read_write_same, E2. cbn [mbind option_bind].
  unfold opening_format, closing_format.
  rewrite (sprintf_around (codes "<params><") (codes "> ") tag eq_refl eq_refl : sprintf_raw (codes "<params><%s> ") _ = _).
  rewrite (sprintf_around (codes " </") (codes "></params>" ++ [NEWLINE]) tag eq_refl eq_refl : sprintf_raw (codes " </%s></params>" ++ [NEWLINE]) _ = _).
  cbn [mbind option_bind]. set (mem2 := write_bytes (write_bytes mem cur w) _ bytes).
  set (opening := codes "<params><" ++ tag ++ codes "> "). set (closing := codes " </" ++ tag ++ codes "></params>" ++ [NEWLINE]).
  assert (zlen opening = zlen tag + 11) as Hop by (unfold opening; rewrite !zlen_app; change (zlen (codes "<params><")) with 9; change (zlen (codes "> ")) with 2; lia).
  assert (read_bytes (write_bytes mem2 end_ opening) cur (zlen w) = w) as Hrw.
  { transitivity (read_bytes (write_bytes mem cur w) cur (zlen w)); [|apply read_write_same]. apply map_ext_in. intros b Hb'%list_elem_of_In%elem_of_seqZ.
    rewrite write_bytes_out by lia. apply write_bytes_out. cbn. lia. }
  unfold memcpy. rewrite Hrw, <- Hop. destruct (write_three mem2 end_ opening w closing) as [Htext Hout].
  assert (opening ++ w ++ closing = element tag bytes) as Hel by (unfold element, encoded, opening, closing; rewrite Ew; cbn [default from_option id]; by rewrite <- !app_assoc).
  rewrite Hel in *. eexists _, _. split; [do 2 f_equal; lia|].
  split; [exact Hk2|]. split; [done|]. split; [cbn; lia|]. split; [cbn; lia|]. split; [exact Htext|].
  intros b Hb'. rewrite Hout. 
  - unfold mem2. rewrite !write_bytes_out; [done|..]; cbn; fold cur; lia.
  - rewrite element_length, Hzn by done. fold q. lia.
Qed.

Lemma value_bytes_ext mem mem' lo hi a : long_enough mem lo hi a -> (forall b, b < lo \/ hi <= b -> mem' b = mem b) ->
  value_bytes mem' a = value_bytes mem a /\ long_enough mem' lo hi a.
Proof.
  intros [Ht Hn Hb Hv] Hm. assert (value_bytes mem' a = value_bytes mem a) as E.
  { apply map_ext_in. intros b Hb'%list_elem_of_In%elem_of_seqZ. apply Hm. lia. }
  split; [done|]. split; try done. by rewrite E.
Qed.

Lemma message_ext mem mem' lo hi l : Forall (long_enough mem lo hi) l -> (forall b, b < lo \/ hi <= b -> mem' b = mem b) ->
  message mem' l = message mem l /\ Forall (long_enough mem' lo hi) l.
Proof.
  intros Hl Hm. induction Hl as [|a l Ha Hl [IH1 IH2]]; [done|]. destruct (value_bytes_ext _ _ _ _ _ Ha Hm) as [E Ha'].
  split; [|by constructor]. cbn [message map concat] in *. unfold message in *. by rewrite E, IH1.
Qed.

Lemma counted_nonneg mem lo hi l : Forall (long_enough mem lo hi) l -> 0 <= sum (map counted l) /\ 0 <= sum (map taken l).
Proof.
  induction 1 as [|a l [Ht Hn Hb Hv] _ IH]; cbn [map sum foldr]; [lia|]. fold (sum (map counted l)) (sum (map taken l)).
  unfold counted at 1, taken at 1. assert (0 <= sizeOfData a * 4 / 3 /\ 0 <= (sizeOfData a + 2) / 3) by zdiv. lia.
Qed.

Lemma write_tags_spec apic lo hi l : 0 <= apic < 65535 -> forall k mem end_,
  alloc_wf k -> Forall (long_enough mem lo hi) l -> lo <= end_ ->
  end_ + sum (map counted l) <= kernel_memory_current_address k ->
  kernel_memory_current_address k + sum (map taken l) < hi -> hi <= kernel_memory_end_address k ->
  exists k' mem', write_tags apic k mem end_ l = Some (k', mem', end_ + zlen (message mem l)) /\
    alloc_wf k' /\ kernel_memory_end_address k' = kernel_memory_end_address k /\
    kernel_memory_current_address k' = kernel_memory_current_address k + sum (map taken l) /\
    end_ + zlen (message mem l) <= kernel_memory_current_address k' /\
    text_at mem' end_ (message mem l) /\
    forall b, b < end_ \/ hi <= b -> mem' b = mem b.
Proof.
  intros Ha. induction l as [|a l IH]; intros k mem end_ Hk Hl Hlo Hend Hroom Hhi.
  - cbn in *. exists k, mem. split; [do 2 f_equal; unfold zlen; cbn; lia|]. do 5 (split; [done || (unfold zlen; cbn; lia)|]). done.
  - apply Forall_cons in Hl as [Hlong Hl]. cbn [map sum foldr] in *. fold (sum (map counted l)) (sum (map taken l)) in *.
    destruct (counted_nonneg _ _ _ _ Hl) as [H1 H2].
    destruct (write_tag_spec apic k mem lo end_ a (sum (map counted l)) hi) as (k1 & mem1 & E1 & Hk1 & He1 & Hc1 & Hr1 & Ht1 & Hm1); try done; try lia.
    destruct (message_ext mem mem1 lo hi l Hl) as [Emsg Hl1]; [intros b Hb; apply Hm1; lia|].
    set (e := element (tag_of a) (value_bytes mem a)) in *. pose proof (zlen_nonneg e).
    destruct (IH k1 mem1 (end_ + zlen e)) as (k2 & mem2 & E2 & Hk2 & He2 & Hc2 & Hr2 & Ht2 & Hm2); try done; try lia.
    change (message mem (a :: l)) with (e ++ message mem l). rewrite zlen_app, Emsg in *.
    exists k2, mem2. cbn [write_tags]. rewrite E1. cbn [mbind option_bind]. rewrite E2. split; [do 2 f_equal; lia|].
    do 4 (split; [done || lia|]). split; [apply text_at_app; split; [|done] | intros b Hb; rewrite Hm2, Hm1 by lia; done].
    eapply text_at_ext; [|exact Ht1]. intros b Hb. apply Hm2. lia.
Qed.

Lemma maximumTotalSize_sum mem lo hi l : Forall (long_enough mem lo hi) l -> sum (map counted l) < 2 ^ 64 ->
  maximumTotalSize l = sum (map counted l).
Proof.
  intros Hl Hs. unfold maximumTotalSize. change (4 / 3) with 1. rewrite Z.mul_1_r.
  assert (forall n, 0 <= n -> n + sum (map counted l) < 2 ^ 64 ->
    foldl (fun total a => u64 (u64 (total + (zlen (tag_of a) * 2 + 9)) + u64 (sizeOfData a * 4) / 3)) n l = n + sum (map counted l)) as H.
  { clear Hs. induction Hl as [|a l [Ht Hn Hb Hv] Hl IH]; intros n H0 Hn'; cbn [map sum foldr foldl] in *; [lia|]. fold (sum (map counted l)) in *.
    destruct (counted_nonneg _ _ _ _ Hl) as [H1 _]. assert (counted a = zlen (tag_of a) * 2 + 9 + sizeOfData a * 4 / 3) as Ec by reflexivity.
    assert (0 <= sizeOfData a * 4 / 3) by zdiv.
    rewrite (u64_small (sizeOfData a * 4)), (u64_small (n + _)), u64_small by lia. rewrite IH by lia. lia. }
  rewrite H; destruct (counted_nonneg _ _ _ _ Hl); [|lia..]. apply u64_small. lia.
Qed.

(** The whole function: the elements one behind the other, then the terminator. *)
Lemma convert_spec apic k mem l :
  alloc_wf k -> 0 <= apic < 65535 ->
  let buffer := kernel_memory_current_address k in
  let hi := buffer + sum (map counted l) + sum (map taken l) + 1 in
  Forall (long_enough mem buffer hi) l -> hi <= kernel_memory_end_address k -> sum (map counted l) < 2 ^ 64 ->
  Forall (fun c => 0 < c < 256) (message mem l) ->
  exists k' mem', ConvertTagToXML apic k mem l = Some (k', mem', buffer) /\
    alloc_wf k' /\ kernel_memory_end_address k' = kernel_memory_end_address k /\
    kernel_memory_current_address k' = buffer + sum (map counted l) + sum (map taken l) /\
    buffer + zlen (message mem l) <= kernel_memory_current_address k' /\ buffer <> 0 /\
    cstring mem' buffer (message mem l) /\ forall b, b < buffer \/ hi <= b -> mem' b = mem b.
Proof.
  intros Hk Ha buffer hi Hl Hhi Hs Hc. destruct (counted_nonneg _ _ _ _ Hl) as [H1 H2]. unfold ConvertTagToXML.
  rewrite (maximumTotalSize_sum _ _ _ _ Hl Hs). set (total := sum (map counted l)) in *. set (room := sum (map taken l)) in *.
  assert (hi = buffer + total + room + 1) as Ehi by reflexivity. clearbody hi.
  destruct (kmalloc_fits apic k total Hk Ha ltac:(lia) ltac:(lia)) as (-> & Hk1 & Hnz). cbn [mbind option_bind]. fold buffer in Hnz |- *.
  set (k1 := k {{ kernel_memory_current_address := buffer + total }}) in *.
  assert (forall b, b < buffer \/ hi <= b -> memset mem buffer 0 total b = mem b) as Hset by (intros b Hb; apply memset_out; lia).
  destruct (message_ext _ _ _ _ _ Hl Hset) as [Emsg Hl1].
  destruct (write_tags_spec apic buffer hi l Ha k1 (memset mem buffer 0 total) buffer) as (k2 & mem2 & -> & Hk2 & He2 & Hc2 & Hr2 & Ht2 & Hm2); try done; try (cbn; lia).
  cbn [mbind option_bind]. rewrite Emsg in *. pose proof (zlen_nonneg (message mem l)). cbn [kernel_memory_current_address k1] in Hc2.
  eexists _, _. split; [reflexivity|]. do 5 (split; [done || (cbn in *; lia)|]). split.
  - apply text_at_cstring; [|apply poke_eq|done]. eapply text_at_ext; [|exact Ht2]. intros b Hb. apply poke_ne. lia.
  - intros b Hb. rewrite poke_ne, Hm2 by (cbn in *; lia). by apply Hset.
Qed.

(** Base64 text is quiet: no element starts in it. *)
Lemma valid_char_quiet l : Forall valid_char l -> Forall (fun c => 0 < c < 256 /\ c <> CH_LT) l.
Proof.
  intros Hl. eapply Forall_impl; [exact Hl|]. intros c (d & Hd & Hne). pose proof (zget_lt _ _ _ Hd) as Hc. change (zlen the_dtable) with 256 in Hc.
  assert (match zget the_dtable c with Some d => (d =? 0x80) || ((0 <? c) && negb (c =? CH_LT)) | None => true end = true) as H.
  { refine (all_between_spec 0 256 (fun c => match zget the_dtable c with Some d => (d =? 0x80) || ((0 <? c) && negb (c =? CH_LT)) | None => true end) c _ Hc).
    vm_compute. reflexivity. }
  rewrite Hd in H. bdestr (d =? 0x80); [done|]. cbn [orb] in H. rewrite andb_true_iff, negb_true_iff, Z.eqb_neq, Z.ltb_lt in H. lia.
Qed.

Lemma quiet_text l : Forall (fun c => 0 < c < 256 /\ c <> CH_LT) l -> quiet l = true.
Proof.
  induction 1 as [|c l [Hc Hlt] _ IH]; [done|]. cbn [quiet]. rewrite IH. apply Z.eqb_neq in Hlt. rewrite Hlt.
  rewrite !andb_true_iff, !Z.ltb_lt. cbn [negb orb]. lia.
Qed.

Lemma encoded_quiet bytes : in_bytes bytes -> Forall (fun c => 0 < c < 256 /\ c <> CH_LT) (CH_BLANK :: encoded bytes ++ [CH_BLANK]).
Proof.
  intros Hb. unfold encoded. destruct (encode_decode_loop bytes Hb) as (w & -> & _ & Hval & _). cbn [default from_option id].
  assert (0 < CH_BLANK < 256 /\ CH_BLANK <> CH_LT) by done.
  constructor; [done|]. apply Forall_app. split; [by apply valid_char_quiet | by constructor].
Qed.

(** The element as a document with a line end behind it. *)
Definition answer_doc (tag bytes : list Z) : doc :=
  Branch (codes "params") [] [([], Leaf tag [] (CH_BLANK :: encoded bytes ++ [CH_BLANK]))] [].

Lemma element_render tag bytes : element tag bytes = [] ++ render (answer_doc tag bytes) ++ [NEWLINE].
Proof.
  unfold element, answer_doc. cbn [render map concat app]. unfold open_tag, close_tag. cbn.
  repeat (progress (rewrite <- ?app_assoc; cbn [app])). reflexivity.
Qed.

Lemma good_step_name tag : good_step (Plain tag) = true -> good_name tag = true /\ Forall (fun c => 0 < c < 256) tag.
Proof.
  intros H. destruct (step_chars _ H) as [Hl Hc]. cbn [step_name] in *.
  split; [|eapply Forall_impl; [exact Hc | by intros c [? _]]]. unfold good_step in H. cbn [step_name] in H.
  rewrite !andb_true_iff in H. destruct H as [[[H Hn] _] _]. unfold good_name. rewrite Hn, andb_true_r. apply forallb_forall. intros c Hin.
  rewrite forallb_forall in H. specialize (H c Hin). unfold step_char in H. rewrite !andb_true_iff in H. tauto.
Qed.

Lemma answer_doc_good tag bytes : good_step (Plain tag) = true -> in_bytes bytes -> good (answer_doc tag bytes) = true.
Proof.
  intros [Ht _]%good_step_name Hb. cbn [good answer_doc forallb]. rewrite Ht.
  rewrite (quiet_text (CH_BLANK :: _)) by by apply encoded_quiet. done.
Qed.

Lemma literal_chars l : forallb (fun c => (0 <? c) && (c <? 256)) l = true -> Forall (fun c => 0 < c < 256) l.
Proof.
  rewrite forallb_forall. intros H. apply List.Forall_forall. intros c Hc. specialize (H c Hc).
  rewrite andb_true_iff, !Z.ltb_lt in H. done.
Qed.

Lemma element_chars tag bytes : good_step (Plain tag) = true -> in_bytes bytes -> Forall (fun c => 0 < c < 256) (element tag bytes).
Proof.
  intros [_ Ht]%good_step_name Hb. pose proof (encoded_quiet bytes Hb) as He. apply Forall_cons in He as [_ He]. apply Forall_app in He as [He _].
  unfold element. repeat (apply Forall_app; split); try exact Ht; try (apply literal_chars; reflexivity).
  eapply Forall_impl; [exact He|]. by intros c [? _].
Qed.

(** The decoded text of the value field. *)
Lemma decode_answer apic k bytes : alloc_wf k -> 0 <= apic < 65535 -> in_bytes bytes -> 0 < zlen bytes ->
  kernel_memory_current_address k + (zlen bytes + 2) < kernel_memory_end_address k ->
  exists k', base64_decode apic k (CH_BLANK :: encoded bytes ++ [CH_BLANK]) = Some (k', Some bytes).
Proof.
  intros Hk Ha Hb Hl Hroom. destruct (encode_decode_loop bytes Hb) as (w & Ew & _). unfold encoded. rewrite Ew. cbn [default from_option id].
  destruct (base64_decode_blanks apic k bytes w Hk Ha Hb Hl Ew Hroom) as (k' & E & _). exists k'. exact E.
Qed.

Lemma select_only d name : name_of d = name -> select [d] name 0 = Some d.
Proof. intros E. unfold select. by rewrite filter_cons, decide_True. Qed.

Lemma query_answer tag bytes :
  query (answer_doc tag bytes) (Plain (root_tag true)) [Plain tag] = Some (Leaf tag [] (CH_BLANK :: encoded bytes ++ [CH_BLANK])).
Proof.
  unfold query. cbn [step_name step_index root_tag]. rewrite select_only by done. cbn [mbind option_bind follow answer_doc kids_of map snd step_name step_index].
  by rewrite select_only.
Qed.

Lemma long_enough_within mem lo hi hi' a : long_enough mem lo hi a -> hi' <= hi -> long_enough mem lo hi' a.
Proof. intros [Ht Hn Hb Hv] Hhi. split; try done. lia. Qed.

(** A value of at most 180 bytes, so that its text fits into the field of the service. *)
Record small_value (mem : memory) (k : MemoryAllocator) (a : xml_argument) : Prop := {
  small_long : long_enough mem (kernel_memory_current_address k) (kernel_memory_end_address k) a;
  small_tag : good_step (Plain (tag_of a)) = true;
  small_size : sizeOfData a <= 180
}.

(** The room the message, the parsed document and the decoded value take. *)
Definition ROOM : Z := XML_HEAP_SIZE + 16384.

(** A message that is one element, looked up under its tag. *)
Lemma value_taken {R : Routines} {Rok : RoutinesOk} apic k mem src tag bytes u garbage s :
  alloc_wf k -> 0 <= apic < 65535 -> kernel_memory_current_address k + ROOM - 8192 < kernel_memory_end_address k -> frame_ok u ->
  cstring mem src (element tag bytes) -> 0 < src -> src + zlen (element tag bytes) < 2 ^ 64 ->
  good_step (Plain tag) = true -> zlen tag < 50 -> in_bytes bytes -> 0 < zlen bytes <= 180 ->
  placed s src (zlen (element tag bytes)) -> mem (empty_literal s) = 0 -> cstring mem (tagDirectory s) tag ->
  0 < tagDirectory s -> tagDirectory s + zlen tag < 2 ^ 64 ->
  tagDirectory s + zlen tag < q_buffer s \/ q_buffer s + QUERY_SIZE <= tagDirectory s ->
  tagDirectory s + zlen tag < src \/ src + zlen (element tag bytes) <= tagDirectory s ->
  exists k2 mem2 h mem3 text k3,
    ParseXMLString apic k u garbage mem src = Some (k2, mem2, Some h) /\ getValueFromTagMessage s mem2 h = Some mem3 /\
    cstring mem3 (value s) text /\ zlen text < 256 /\ base64_decode apic k2 text = Some (k3, Some bytes).
Proof.
  intros Hk Ha Hroom Hu Hcs Hsrc Hhigh Htag Ht Hb Hzn Hplaced He Htd Htd0 Htd64 Htq Hout.
  unfold ROOM in Hroom. change XML_HEAP_SIZE with 6291496 in Hroom.
  destruct (kvalloc_fits apic k XML_HEAP_SIZE Hk Ha) as (k2 & address & E2 & Hk2 & He2 & Haddr & Hc2); try (change XML_HEAP_SIZE with 6291496; lia).
  change XML_HEAP_SIZE with 6291496 in Hc2. destruct (wf_kernel _ Hk) as [? ?].
  assert (Hin := encoded_quiet bytes Hb). set (text := CH_BLANK :: encoded bytes ++ [CH_BLANK]) in *.
  assert (0 <= (zlen bytes + 2) / 3 <= 60) as Hq by zdiv.
  rewrite element_length in Hhigh, Hplaced, Hout by done. pose proof (zlen_nonneg tag).
  assert (zlen (element tag bytes) = zlen ([] ++ render (answer_doc tag bytes) ++ [NEWLINE])) as El by by rewrite <- element_render.
  rewrite element_length in El by done. rewrite element_render in Hcs. rewrite El in Hhigh, Hplaced, Hout.
  pose proof (query_answer tag bytes) as Eq. fold text in Eq.
  destruct (value_of_document apic k k2 address u garbage mem src [] (answer_doc tag bytes) [NEWLINE] true s (Plain tag) [])
    as (mem2 & h & mem3 & E3 & E4 & E5); try done; try lia.
  - unfold NULL. lia.
  - by apply answer_doc_good.
  - by constructor.
  - cbn [path_text render_step]. unfold QUERY_SIZE. lia.
  - cbn [path_text render_step]. unfold outside. lia.
  - rewrite Eq. intros e [= <-]. by eexists _, _, _.
  - rewrite Eq in E5. cbn [answer] in E5. destruct (decode_answer apic k2 bytes Hk2 Ha Hb ltac:(lia) ltac:(lia)) as (k3 & E6).
    assert (zlen text < 256) as Hl.
    { unfold text, encoded. destruct (encode_decode_loop bytes Hb) as (w & -> & Hw & _). cbn [default from_option id].
      rewrite zlen_cons, zlen_app, Hw. change (zlen [CH_BLANK]) with 1. lia. }
    exists k2, mem2, h, mem3, text, k3. split; [done|]. split; [exact E4|]. split; [by apply E5|]. split; [done | exact E6].
Qed.

(** ** Properties *)


(** A result of eight bytes, its tag and the service as in message_service. *)
Definition roomy_allocator : MemoryAllocator :=
  mkMemoryAllocator 0x10000 0x10010 0x10000000 0x10000000 0x10000000 0x20000000 0 (mkspinlock 0 0 0 0).

Definition result_memory : memory :=
  put 8 (write_bytes (write_bytes (fun _ => 0) 0x9000 (codes "Result")) 0x9040 (codes "Status")) 0x9100 61.

Definition result_argument : xml_argument := mkArgument (mkParameter "Result" "uint64_t" false true false 8) 0x9100 0.
Definition status_argument : xml_argument := mkArgument (mkParameter "Status" "uint64_t" false true false 8) 0x9100 0.


Definition status_service : XMLService := mkXMLService 0x9040 0x7000 0x2000 0x3000 0x4000 0x8000.

(** Two tagged values are sent, and one of them is asked for. *)
Definition two_results (s : XMLService) : option (Z * option Z * list Z) :=
  '(k1, mem1, buffer) ← ConvertTagToXML 0 roomy_allocator result_memory [result_argument; status_argument];
  '(_, mem2, h) ← ParseXMLString 0 k1 sample_frame garbage_heap mem1 buffer;
  h ← h;
  mem3 ← getValueFromTagMessage s mem2 h;
  Some (current_node h, xml_nodes h !! 2 ≫= parent, read_bytes mem3 (value s) 14).

(** With two values in a message only the first is found: every value gets a params element of its own,
    the parser makes the second a child of the first, and the query does not look there. *)
Theorem second_value_lost :
  two_results message_service = Some (4, Some 0, codes " PQAAAAAAAAA= ") /\
  two_results status_service = Some (4, Some 0, replicate 14 0).
Proof. split; vm_compute; reflexivity. Qed.
