(* ===== verification/Ackermann.v ===== *)
(** * The Ackermann service: [sources/dummyServs/AckermannFunction.c],
    and [ParseSharedMemoryXML] of [sources/memory/SharedMemory.c]

    The structures a request is parsed into lie in memory, at the address
    [kmalloc] returned.  A C function that ends without a [return] has no value. *)

From S2P Require Import Prelude FastMem Spinlock KMalloc Base64 Service Stdio Strings XmlParser XmlQuery ServiceXml.

#[local] Open Scope Z_scope.

(** ** The function *)

(** [fuel] bounds the depth of the recursion. *)
Fixpoint ack (fuel : nat) (m n : Z) : option Z :=
  match fuel with
  | O => None
  | S fuel =>
      if m =? 0 then Some (s32 (n + 1))
      else if (0 <? m) && (n =? 0) then ack fuel (s32 (m - 1)) 1
      else if (0 <? m) && (0 <? n) then
        r ← ack fuel m (s32 (n - 1));
        ack fuel (s32 (m - 1)) r
      else None
  end.

(** The function as iteration: [A (m + 1) n] applies [A m] n + 1 times to 1. *)
Fixpoint A (m : nat) : nat -> nat :=
  match m with
  | O => S
  | S m => fun n => Nat.iter (S n) (A m) 1%nat
  end.

(** ** Requests *)

Section requests.
Context `{Routines}.

(** The fields of a request: the address of the literal a tag is compared with,
    and the offset in the structure.  The first one that is equal is written. *)
Fixpoint set_field (mem : memory) (temp tag v : Z) (fields : list (Z * Z)) : option memory :=
  match fields with
  | [] => Some mem
  | (literal, offset) :: fields =>
      r ← strcmp mem tag literal;
      if r =? NULL then
        n ← atoi (read_bytes mem v 256);
        Some (put 8 mem (temp + offset) n)
      else set_field mem temp tag v fields
  end.

(** [tags i] is the address of the tag of parameter [i]. *)
Definition parse_parameter (xs : XMLService) (h : option xml_heap_t) (tags : Z -> Z) (temp : Z) (fields : list (Z * Z)) (i : Z) (mem : memory) : option memory :=
  h ← h;
  let xs := mkXMLService (tags i) (value xs) (q_buffer xs) (query_buffer xs) (xquery_buffer xs) (empty_literal xs) in
  mem ← getValueFromTagMessage xs mem h;
  set_field mem temp (tags i) (value xs) fields.

Definition parse_request (apic : Z) (u : void_ptr_stack_t) (garbage : xml_heap_t) (xs : XMLService) (tags : Z -> Z) (fields : list (Z * Z))
    (service : Service) (xmlString location : Z) (k : MemoryAllocator) (mem : memory) : option (MemoryAllocator * memory * Z) :=
  '(k, temp) ← kmalloc apic k 16;
  '(k, mem, h) ← ParseXMLString apic k u garbage mem xmlString;
  method ← zget (testMethod service) location;
  mem ← for_each (Z.to_nat (parametersCount method)) 0 (parse_parameter xs h tags temp fields) mem;
  Some (k, mem, temp).

(** [params_t] has the two fields one behind the other, as [AckermannFunctionParams]. *)
Definition ParseSharedMemoryXML (apic : Z) (u : void_ptr_stack_t) (garbage : xml_heap_t) (xs : XMLService) (tags : Z -> Z) (numberOfBytes virtualAddress : Z) :=
  parse_request apic u garbage xs tags [(numberOfBytes, 0); (virtualAddress, 8)].

Definition ParseAckermannFunctionXML (apic : Z) (u : void_ptr_stack_t) (garbage : xml_heap_t) (xs : XMLService) (tags : Z -> Z) (FirstValue SecondValue : Z) :=
  parse_request apic u garbage xs tags [(FirstValue, 0); (SecondValue, 8)].
End requests.

Definition AckFunction_t : Z := 0.

Definition numberOfTimesToCallFunction : Z := 5.

(** [res] is the address of the local variable; the calls in the loop are the same. *)
Definition CallAckermannFunction (fuel : nat) (apic : Z) (t : service_transport_kernel) (res : Z) (times : Z) (p_params : Z)
    (k : MemoryAllocator) (mem : memory) : option (MemoryAllocator * memory * Z) :=
  let m := get 8 mem p_params in
  let n := get 8 mem (p_params + 8) in
  r ← for_each (Z.to_nat times) 0 (fun _ _ => r ← ack fuel (s32 m) (s32 n); Some (u64 r)) 0;
  let mem := put 8 mem res r in
  s ← zget (kernel_services t) ackermannFunctionService_t; s ← s;
  method ← zget (testMethod s) AckFunction_t;
  returnTag ← zget (method_returns method) 0;
  ConvertTagToXML apic k mem [mkArgument returnTag res 0].

(** The number of calls the initialiser sets, and the service. *)
Definition initAckermannFunctionService (p_service : Service) : option (Z * Service) :=
  let p_service := p_service {{ service_method_count := 1 }} in
  '(s, _) ← add_service_test p_service (Some "CallAckermannFunction"%string) AckFunction_t "Call Ackermann's Function";
  s ← add_serviceTestParameterDescription s AckFunction_t "FirstValue" "uint64_t" 8 false false true false;
  s ← add_serviceTestParameterDescription s AckFunction_t "SecondValue" "uint64_t" 8 false false true false;
  s ← add_serviceTestParameterDescription s AckFunction_t "Result" "uint64_t" 8 false false true true;
  Some (numberOfTimesToCallFunction, s {{ parserMethod := Some "ParseAckermannFunctionXML"%string }}).

(** ** Lemmas *)

Lemma A_zero m : A (S m) 0 = A m 1.
Proof. done. Qed.

Lemma A_succ m n : A (S m) (S n) = A m (A (S m) n).
Proof. done. Qed.

#[local] Arguments A : simpl never.

(** The value is greater than the sum of the arguments, and grows with the second. *)
Lemma A_grows m n : (m + n < A m n)%nat.
Proof.
  revert n. induction m as [|m IH]; intros n; [unfold A; lia|].
  induction n as [|n IHn]; [rewrite A_zero; specialize (IH 1%nat); lia|].
  rewrite A_succ. specialize (IH (A (S m) n)). lia.
Qed.

Lemma A_next m n : (A m n < A m (S n))%nat.
Proof. destruct m as [|m]; [unfold A; lia|]. rewrite A_succ. pose proof (A_grows m (A (S m) n)). lia. Qed.

(** Below 2^31 the recursion is at most one deeper than the sum of the first argument and the value. *)
Lemma ack_spec m : forall n fuel, Z.of_nat (A m n) < 2 ^ 31 -> (A m n + m < fuel)%nat ->
  ack fuel (Z.of_nat m) (Z.of_nat n) = Some (Z.of_nat (A m n)).
Proof.
  induction m as [|m IH]; intros n fuel.
  - unfold A. intros Hlt Hf. destruct fuel as [|fuel]; [lia|]. cbn [ack Z.of_nat Z.eqb]. rewrite s32_small by lia. f_equal. lia.
  - revert fuel. induction n as [|n IHn]; intros fuel Hlt Hf; (destruct fuel as [|fuel]; [lia|]);
      cbn [ack]; (bdestr (Z.of_nat (S m) =? 0); [lia|]); (bdestr (0 <? Z.of_nat (S m)); [|lia]).
    + rewrite A_zero in *. change (Z.of_nat 0 =? 0) with true. cbn [andb]. pose proof (A_grows m 1).
      rewrite s32_small by lia. replace (Z.of_nat (S m) - 1) with (Z.of_nat m) by lia. apply (IH 1%nat); lia.
    + pose proof (A_grows (S m) n). pose proof (A_next (S m) n). pose proof (A_grows (S m) (S n)).
      bdestr (Z.of_nat (S n) =? 0); [lia|]. bdestr (0 <? Z.of_nat (S n)); [|lia]. cbn [andb].
      rewrite !s32_small by lia. replace (Z.of_nat (S n) - 1) with (Z.of_nat n) by lia. replace (Z.of_nat (S m) - 1) with (Z.of_nat m) by lia.
      rewrite IHn by lia. cbn [mbind option_bind]. rewrite A_succ in *. apply IH; lia.
Qed.

Lemma ack_more fuel : forall fuel' m n r, ack fuel m n = Some r -> (fuel <= fuel')%nat -> ack fuel' m n = Some r.
Proof.
  induction fuel as [|fuel IH]; intros [|fuel'] m n r E Hf; try (done || lia). cbn [ack] in *.
  destruct (m =? 0); [done|]. destruct ((0 <? m) && (n =? 0)); [apply (IH fuel'); [done | lia]|].
  destruct ((0 <? m) && (0 <? n)); [|done].
  destruct (ack fuel m (s32 (n - 1))) as [r1|] eqn:E1; [|done]. rewrite (IH fuel' _ _ _ E1) by lia.
  cbn [mbind option_bind] in *. apply (IH fuel'); [done | lia].
Qed.

(** It is no less deep than the value. *)
Lemma ack_deep m : forall n fuel, (0 < m)%nat -> Z.of_nat (A m n) < 2 ^ 31 -> (fuel < A m n)%nat -> ack fuel (Z.of_nat m) (Z.of_nat n) = None.
Proof.
  induction m as [|m IH]; intros n fuel Hm Hlt Hf; [lia|].
  revert fuel Hf. induction n as [|n IHn]; intros fuel Hf; (destruct fuel as [|fuel]; [done|]);
    cbn [ack]; (bdestr (Z.of_nat (S m) =? 0); [lia|]); (bdestr (0 <? Z.of_nat (S m)); [|lia]).
  - rewrite A_zero in *. change (Z.of_nat 0 =? 0) with true. cbn [andb]. pose proof (A_grows m 1).
    rewrite s32_small by lia. replace (Z.of_nat (S m) - 1) with (Z.of_nat m) by lia. destruct m as [|m]; [unfold A in Hf; destruct fuel; [done | lia]|].
    apply (IH 1%nat); lia.
  - pose proof (A_grows (S m) n). pose proof (A_next (S m) n). pose proof (A_grows (S m) (S n)).
    bdestr (Z.of_nat (S n) =? 0); [lia|]. bdestr (0 <? Z.of_nat (S n)); [|lia]. cbn [andb].
    rewrite !s32_small by lia. replace (Z.of_nat (S n) - 1) with (Z.of_nat n) by lia. replace (Z.of_nat (S m) - 1) with (Z.of_nat m) by lia.
    destruct (ack fuel (Z.of_nat (S m)) (Z.of_nat n)) as [r|] eqn:Er; [|done]. cbn [mbind option_bind].
    destruct (decide (fuel < A (S m) n)%nat) as [Hd|Hd]; [rewrite IHn in Er by lia; done|].
    assert (r = Z.of_nat (A (S m) n)) as ->.
    { apply (ack_more _ (S (A (S m) n + S m + fuel))) in Er; [|lia]. rewrite ack_spec in Er by lia. by injection Er as <-. }
    rewrite A_succ in *. destruct m as [|m]; [unfold A at 1 in Hf; lia|]. apply IH; lia.
Qed.

(** The third row in closed form. *)
Lemma A_three n : (A 3 n + 3 = 2 ^ (n + 3))%nat.
Proof.
  assert (forall n, A 1 n = n + 2)%nat as H1.
  { induction n0 as [|k IH]; [done|]. rewrite A_succ, IH. unfold A. lia. }
  assert (forall n, A 2 n = 2 * n + 3)%nat as H2.
  { induction n0 as [|k IH]; [done|]. rewrite A_succ, IH, H1. lia. }
  induction n as [|n IH]; [done|]. rewrite A_succ, H2. cbn [Nat.add Nat.pow]. rewrite <- IH. lia.
Qed.

(** ** A request and its answer *)

(** The numbers are written in decimal, with a blank on either side. *)
Definition number_text (ds : list Z) : list Z := CH_BLANK :: show_digits ds ++ [CH_BLANK].

Definition first_name : list Z := codes "FirstValue".
Definition second_name : list Z := codes "SecondValue".

Definition request (ds1 ds2 : list Z) : doc :=
  Branch (codes "params") [] [([], Leaf first_name [] (number_text ds1)); ([], Leaf second_name [] (number_text ds2))] [].

(** At most twenty digits, and the number they stand for. *)
Definition number (ds : list Z) (n : Z) : Prop :=
  Forall (fun d => 0 <= d < 10) ds /\ ds <> [] /\ zlen ds <= 20 /\ Stdio.value 10 ds = n /\ n < 2 ^ 31.

(** The addresses a request and the names it is compared with take. *)
Definition named (tags : Z -> Z) (first second : Z) (b : Z) : Prop :=
  tags 0 <= b <= tags 0 + 10 \/ tags 1 <= b <= tags 1 + 11 \/ first <= b <= first + 10 \/ second <= b <= second + 11.

(** A request lies in memory, apart from the buffers of the XML service and from the free kernel arena. *)
Record request_at (k : MemoryAllocator) (xs : XMLService) (tags : Z -> Z) (first second src : Z) (d : doc) (mem : memory) : Prop := {
  req_text : cstring mem src (render d);
  req_tag1 : cstring mem (tags 0) first_name;
  req_tag2 : cstring mem (tags 1) second_name;
  req_first : cstring mem first first_name;
  req_second : cstring mem second second_name;
  req_empty : mem (empty_literal xs) = 0;
  req_low : 0 < src /\ 1 < tags 0 /\ 1 < tags 1 /\ 1 < first /\ 1 < second;
  req_high : src + zlen (render d) < 2 ^ 64 /\ tags 0 + 10 < 2 ^ 64 /\ tags 1 + 11 < 2 ^ 64 /\ first + 10 < 2 ^ 64 /\ second + 11 < 2 ^ 64;
  req_placed : placed xs src (zlen (render d));
  req_kept b : src <= b <= src + zlen (render d) \/ named tags first second b \/ b = empty_literal xs ->
    untouched xs b /\ (b < kernel_memory_current_address k \/ kernel_memory_end_address k <= b);
  req_names b : named tags first second b -> b < src \/ src + zlen (render d) <= b;
  req_buffers b : kernel_memory_current_address k <= b < kernel_memory_end_address k -> untouched xs b
}.

Lemma number_text_chars ds : Forall (fun d => 0 <= d < 10) ds -> Forall (fun c => 0 < c < 256 /\ c <> CH_LT) (number_text ds).
Proof.
  intros Hd. constructor; [done|]. apply Forall_app. split; [|by constructor].
  induction Hd as [|d ds Hd _ IH]; constructor; [unfold CH_ZERO, CH_LT; lia | done].
Qed.

Lemma request_good ds1 ds2 n1 n2 : number ds1 n1 -> number ds2 n2 -> good (request ds1 ds2) = true.
Proof.
  intros (H1 & _) (H2 & _). cbn [good request forallb]. rewrite !(quiet_text (number_text _)) by by apply number_text_chars. done.
Qed.

Lemma atoi_number ds n rest : number ds n -> atoi (number_text ds ++ 0 :: rest) = Some n.
Proof.
  intros (Hd & Hne & _ & <- & Hn). unfold number_text. cbn [app]. rewrite <- app_assoc.
  transitivity (atoi (show_digits ds ++ [CH_BLANK] ++ 0 :: rest)); [reflexivity|]. cbn [app].
  rewrite (atoi_digits ds CH_BLANK) by (done || lia || by left). done.
Qed.

(** The two children of a request, by name. *)
Lemma request_query ds1 ds2 :
  query (request ds1 ds2) (Plain (root_tag true)) [Plain first_name] = Some (Leaf first_name [] (number_text ds1)) /\
  query (request ds1 ds2) (Plain (root_tag true)) [Plain second_name] = Some (Leaf second_name [] (number_text ds2)).
Proof. by split. Qed.

Section served.
Context {R : Routines} {Rok : RoutinesOk}.
Context (k : MemoryAllocator) (xs : XMLService) (tags : Z -> Z) (first second src : Z) (ds1 ds2 : list Z) (n1 n2 : Z) (mem0 : memory).
Context (L : request_at k xs tags first second src (request ds1 ds2) mem0) (N1 : number ds1 n1) (N2 : number ds2 n2).

(** What is neither the text of the request, nor a buffer of the service, nor free. *)
Definition kept_byte (b : Z) : Prop :=
  untouched xs b /\ (b < kernel_memory_current_address k \/ kernel_memory_end_address k <= b) /\
  (b < src \/ src + zlen (render (request ds1 ds2)) <= b).

(** The request is parsed, and what the lookups need is as it was. *)
Record parsed (h : xml_heap_t) (mem : memory) : Prop := {
  parsed_tree : represents mem (xml_nodes h) (request ds1 ds2) src 0 None;
  parsed_root : exists n, xml_nodes h !! 0 = Some n /\ right_node n = None;
  parsed_size : current_node h = 3;
  parsed_names b : named tags first second b \/ b = empty_literal xs -> mem b = mem0 b;
  parsed_rest b : kept_byte b -> mem b = mem0 b
}.

Lemma parsed_frame h mem mem' : parsed h mem ->
  (forall b, untouched xs b -> b < kernel_memory_current_address k \/ kernel_memory_end_address k <= b -> mem' b = mem b) -> parsed h mem'.
Proof.
  intros [Ht Hr Hs Hn Hrest] Hm. pose proof L as [_ _ _ _ _ _ _ _ _ Hk _ _]. split; try done.
  - eapply represents_frame; [..|exact Ht]; [|done|intros m Hm'; by exists m]. intros b Hb. destruct (Hk b) as [H1 H2]; [lia|]. by apply Hm.
  - intros b Hb. rewrite <- Hn by done. destruct (Hk b) as [H1 H2]; [tauto|]. by apply Hm.
  - intros b Hb. rewrite <- Hrest by done. destruct Hb as (H1 & H2 & _). by apply Hm.
Qed.

Lemma names_kept h mem : parsed h mem ->
  cstring mem (tags 0) first_name /\ cstring mem (tags 1) second_name /\ cstring mem first first_name /\ cstring mem second second_name.
Proof.
  intros [_ _ _ Hn _]. pose proof L as [_ H1 H2 H3 H4 _ _ _ _ _ _ _]. unfold named in Hn.
  split; [|split; [|split]]; (eapply cstring_ext; [|eassumption]; intros b Hb; apply Hn; left);
    (change (zlen first_name) with 10 in Hb || change (zlen second_name) with 11 in Hb); lia.
Qed.

(** One lookup: the text of the number is in the value field. *)
Lemma lookup_number h mem i name ds n :
  parsed h mem -> number ds n -> (i = 0 /\ name = first_name \/ i = 1 /\ name = second_name) ->
  query (request ds1 ds2) (Plain (root_tag true)) [Plain name] = Some (Leaf name [] (number_text ds)) ->
  exists mem', getValueFromTagMessage (mkXMLService (tags i) (value xs) (q_buffer xs) (query_buffer xs) (xquery_buffer xs) (empty_literal xs)) mem h = Some mem' /\
    cstring mem' (value xs) (number_text ds) /\ forall b, untouched xs b -> mem' b = mem b.
Proof.
  intros Hp Hnum Hi Hq. pose proof (names_kept h mem Hp) as (Ht1 & Ht2 & _). pose proof Hp as [Ht (node & Hnode & Hright) Hs Hn _].
  pose proof L as [_ _ _ _ _ He Hlow Hhigh P Hkept _ _]. set (s' := mkXMLService _ _ _ _ _ _).
  assert (placed s' src (zlen (render (request ds1 ds2)))) as P' by (destruct P; by split).
  assert (cstring mem (tags i) name /\ zlen name <= 11 /\ (zlen name = 10 \/ zlen name = 11) /\ good_step (Plain name) = true /\
    forall b, tags i <= b <= tags i + zlen name -> named tags first second b) as (Hc & Hl & Hl' & Hg & Hin).
  { unfold named. destruct Hi as [[-> ->] | [-> ->]].
    - split; [done|]. change (zlen first_name) with 10. split; [lia|]. split; [by left|]. split; [reflexivity|]. intros b Hb. tauto.
    - split; [done|]. change (zlen second_name) with 11. split; [lia|]. split; [by right|]. split; [reflexivity|]. intros b Hb. tauto. }
  destruct (get_value_spec (codes "params/") [] (Plain (root_tag true)) s' mem h src (zlen (render (request ds1 ds2))) (request ds1 ds2) src node name (Plain name) [])
    as (mem' & E & Hans & Hframe); try done; try lia.
  - intros l. by apply sprintf_directory.
  - by left.
  - by apply (request_good ds1 ds2 n1 n2).
  - by rewrite Hs.
  - constructor; [done|]. by constructor.
  - change (zlen (codes "params/")) with 7. unfold QUERY_SIZE. lia.
  - cbn. rewrite Hn by tauto. done.
  - cbn. destruct Hi as [[-> _] | [-> _]]; lia.
  - cbn. destruct Hi as [[-> ->] | [-> ->]]; [change (zlen first_name) with 10 | change (zlen second_name) with 11]; lia.
  - cbn. destruct (Hkept (tags i)) as [[Hk1 _] _]; [right; left; apply Hin; lia|].
    destruct (Hkept (tags i + zlen name)) as [[Hk2 _] _]; [right; left; apply Hin; lia|]. unfold outside, QUERY_SIZE in *.
    destruct Hk1; [|by right]. left. destruct Hk2; [done|]. lia.
  - rewrite Hq. intros e [= <-]. by eexists _, _, _.
  - rewrite Hq in Hans, Hframe. cbn [answer fits_field] in *. assert (zlen (number_text ds) < 256) as Hlen.
    { destruct Hnum as (_ & _ & Hz & _). unfold number_text. rewrite zlen_cons, zlen_app. change (zlen [CH_BLANK]) with 1.
      unfold show_digits, zlen in *. rewrite length_map. lia. }
    exists mem'. split; [exact E|]. split; [by apply Hans|]. intros b Hb. by apply Hframe.
Qed.

Lemma read_number mem v ds n : number ds n -> cstring mem v (number_text ds) -> atoi (read_bytes mem v 256) = Some n.
Proof.
  intros Hnum (Hr & Hz & _). assert (zlen (number_text ds) < 30) as Hl.
  { destruct Hnum as (_ & _ & Hz' & _). unfold number_text, show_digits, zlen in *. cbn [length]. rewrite length_app, length_map. cbn [length]. lia. }
  pose proof (zlen_nonneg (number_text ds)). rewrite (read_text mem v (number_text ds) 256) by (try apply text_at_read; done || lia).
  replace (256 - zlen (number_text ds)) with (1 + (255 - zlen (number_text ds))) by lia. rewrite read_bytes_app by lia.
  change (read_bytes mem (v + zlen (number_text ds)) 1) with [mem (v + zlen (number_text ds))]. rewrite Hz. cbn [app]. by apply atoi_number.
Qed.

(** The field of the name is written, the names differing. *)
Lemma set_number h mem v temp i ds n :
  parsed h mem -> number ds n -> cstring mem v (number_text ds) -> i = 0 \/ i = 1 ->
  set_field mem temp (tags i) v [(first, 0); (second, 8)] = Some (put 8 mem (temp + 8 * i) n).
Proof.
  intros Hp Hnum Hv Hi. pose proof (names_kept h mem Hp) as (Ht1 & Ht2 & Hf & Hs).
  pose proof L as [_ _ _ _ _ _ Hlow Hhigh _ _ _ _]. cbn [set_field].
  destruct Hi as [-> | ->].
  - destruct (strcmp_spec mem (tags 0) first first_name first_name Ht1 Hf) as (r & -> & Hr); try (change (zlen first_name) with 10; lia).
    cbn [mbind option_bind]. rewrite (proj2 Hr eq_refl), (read_number _ _ _ _ Hnum Hv). done.
  - destruct (strcmp_spec mem (tags 1) first second_name first_name Ht2 Hf) as (r & -> & Hr);
      try (change (zlen first_name) with 10); try (change (zlen second_name) with 11); try lia.
    cbn [mbind option_bind]. bdestr (r =? NULL).
    { apply Hr in Hb. discriminate Hb. }
    destruct (strcmp_spec mem (tags 1) second second_name second_name Ht2 Hs) as (r' & -> & Hr'); try (change (zlen second_name) with 11; lia).
    cbn [mbind option_bind]. rewrite (proj2 Hr' eq_refl), (read_number _ _ _ _ Hnum Hv). done.
Qed.

(** Parsing takes the room of the tree from the arena. *)
Lemma request_tree apic k1 u garbage :
  alloc_wf k1 -> 0 <= apic < 65535 -> kernel_memory_current_address k1 + ROOM - 8192 < kernel_memory_end_address k1 -> frame_ok u ->
  exists k2 h mem1, ParseXMLString apic k1 u garbage mem0 src = Some (k2, mem1, Some h) /\ parsed h mem1 /\
    alloc_wf k2 /\ kernel_memory_end_address k2 = kernel_memory_end_address k1 /\
    kernel_memory_current_address k1 <= kernel_memory_current_address k2 < kernel_memory_current_address k1 + ROOM - 8192.
Proof.
  intros Hk1 Ha Hroom Hu. unfold ROOM in *. change XML_HEAP_SIZE with 6291496 in *. pose proof L as [Htext _ _ _ _ _ Hlow Hhigh P _ Hnames _].
  destruct (kvalloc_fits apic k1 XML_HEAP_SIZE Hk1 Ha) as (k2 & address & E1 & Hk2 & He2 & Haddr & Hc2); [done | change XML_HEAP_SIZE with 6291496; lia |].
  change XML_HEAP_SIZE with 6291496 in Hc2.
  destruct (parse_xml_doc u mem0 garbage src [] (request ds1 ds2) []) as (h0 & mem1 & h & E2 & E3 & _ & Hcur & Hrep & Hroot & Hm1); try done.
  { cbn [app]. by rewrite app_nil_r. }
  { lia. }
  { cbn [app]. rewrite app_nil_r. lia. }
  { by apply (request_good ds1 ds2 n1 n2). }
  cbn [app] in Hm1. rewrite app_nil_r in Hm1. change (zlen []) with 0 in Hrep. rewrite Z.add_0_r in Hrep.
  exists k2, h, mem1. split; [|split; [|split; [done|split; [done|lia]]]].
  - unfold ParseXMLString. rewrite E1. cbn [mbind option_bind]. destruct (wf_kernel _ Hk1) as [? ?].
    bdestr (address =? NULL); [unfold NULL in *; lia|]. rewrite E2. cbn [mbind option_bind]. by rewrite E3.
  - split; try done; intros b Hb; apply Hm1.
    + destruct Hb as [Hb | ->]; [specialize (Hnames b Hb); lia|]. destruct P. lia.
    + destruct Hb as (_ & _ & Hb). lia.
Qed.

(** One parameter: its field gets the number. *)
Lemma parameter_parsed h mem i name ds n temp :
  parsed h mem -> number ds n -> (i = 0 /\ name = first_name \/ i = 1 /\ name = second_name) ->
  query (request ds1 ds2) (Plain (root_tag true)) [Plain name] = Some (Leaf name [] (number_text ds)) ->
  kernel_memory_current_address k <= temp -> temp + 16 <= kernel_memory_end_address k ->
  exists mem', parse_parameter xs (Some h) tags temp [(first, 0); (second, 8)] i mem = Some mem' /\ parsed h mem' /\
    get 8 mem' (temp + 8 * i) = n /\
    forall b, temp <= b < temp + 16 -> b < temp + 8 * i \/ temp + 8 * i + 8 <= b -> mem' b = mem b.
Proof.
  intros Hp Hnum Hi Hq Hlo Hhi. pose proof L as [_ _ _ _ _ _ _ _ _ _ _ Hbuf].
  destruct (lookup_number h mem i name ds n Hp Hnum Hi Hq) as (mem2 & E & Hv & Hm2).
  assert (parsed h mem2) as Hp2 by (eapply parsed_frame; [exact Hp|]; intros b Hb _; by apply Hm2).
  unfold parse_parameter. cbn [mbind option_bind]. rewrite E. cbn [mbind option_bind XmlQuery.value].
  rewrite (set_number h mem2 (value xs) temp i ds n Hp2 Hnum Hv) by tauto. eexists. split; [reflexivity|]. split; [|split].
  - eapply parsed_frame; [exact Hp2|]. intros b _ Hb. apply put_out. lia.
  - apply get_put. destruct Hnum as (Hd & _ & _ & <- & Hn). pose proof (value_nonneg ds Hd). cbn. lia.
  - intros b Hb Hne. rewrite put_out by lia. apply Hm2, Hbuf. lia.
Qed.

(** What a request becomes: the two numbers in a fresh structure. *)
Lemma request_parsed apic u garbage service location method :
  alloc_wf k -> 0 <= apic < 65535 -> kernel_memory_current_address k + ROOM < kernel_memory_end_address k -> frame_ok u ->
  zget (testMethod service) location = Some method -> parametersCount method = 2 ->
  exists k' mem', ParseAckermannFunctionXML apic u garbage xs tags first second service src location k mem0 = Some (k', mem', kernel_memory_current_address k) /\
    alloc_wf k' /\ kernel_memory_end_address k' = kernel_memory_end_address k /\
    kernel_memory_current_address k + 16 <= kernel_memory_current_address k' <= kernel_memory_current_address k + ROOM - 8000 /\
    get 8 mem' (kernel_memory_current_address k) = n1 /\ get 8 mem' (kernel_memory_current_address k + 8) = n2 /\
    forall b, kept_byte b -> mem' b = mem0 b.
Proof.
  intros Hk Ha Hroom Hu Hm Hcount. assert (ROOM = 6307880) as ER by reflexivity. set (temp := kernel_memory_current_address k) in *.
  destruct (kmalloc_fits apic k 16 Hk Ha ltac:(lia) ltac:(lia)) as (E0 & Hk1 & _). fold temp in E0, Hk1.
  destruct (request_tree apic (k {{ kernel_memory_current_address := temp + 16 }}) u garbage Hk1 Ha) as (k2 & h & mem1 & E1 & Hp1 & Hk2 & He2 & Hc2); [cbn; lia | done |].
  cbn [kernel_memory_current_address kernel_memory_end_address] in He2, Hc2. destruct (request_query ds1 ds2) as [Q1 Q2].
  destruct (parameter_parsed h mem1 0 first_name ds1 n1 temp Hp1 N1 ltac:(by left) Q1) as (mem2 & E2 & Hp2 & Hg2 & _); [done | lia |].
  destruct (parameter_parsed h mem2 1 second_name ds2 n2 temp Hp2 N2 ltac:(by right) Q2) as (mem3 & E3 & Hp3 & Hg3 & Hm3); [done | lia |].
  exists k2, mem3. split.
  - unfold ParseAckermannFunctionXML, parse_request. rewrite E0. cbn [mbind option_bind]. rewrite E1. cbn [mbind option_bind]. rewrite Hm. cbn [mbind option_bind].
    rewrite Hcount. change (Z.to_nat 2) with 2%nat. rewrite for_each_S, E2. cbn [mbind option_bind]. change (0 + 1) with 1. rewrite for_each_S, E3. done.
  - split; [done|]. split; [done|]. split; [cbn in Hc2; lia|]. split; [|split; [exact Hg3 | apply Hp3]].
    rewrite <- Hg2, Z.mul_0_r, Z.add_0_r. apply get_ext. intros b Hb. apply Hm3; lia.
Qed.
End served.

(** ** The method *)

Lemma le_bytes_in n v : in_bytes (le_bytes n v).
Proof. revert v. induction n as [|n IH]; intros v; constructor; [apply Z.mod_pos_bound; lia | apply IH]. Qed.

Lemma calls_agree (r : Z) n i s : for_each n i (fun _ _ => Some r) s = Some (if (0 <? n)%nat then r else s).
Proof.
  revert i s. induction n as [|n IH]; intros i s; [done|]. rewrite for_each_S. cbn [mbind option_bind]. rewrite IH. by destruct n.
Qed.

(** The service, as [service_init] and the initialiser leave it. *)
Definition ack_service : Service :=
  default blank_service ('(s, _) ← service_init blank_service ackermannFunctionService_t; '(_, s) ← initAckermannFunctionService s; Some s).

Definition ack_method : MethodStructure := default no_method (zget (testMethod ack_service) AckFunction_t).
Definition result_tag : Parameter_t := default (mkParameter EmptyString EmptyString false false false 0) (zget (method_returns ack_method) 0).

Lemma ack_service_ok : zget (testMethod ack_service) AckFunction_t = Some ack_method /\ parametersCount ack_method = 2 /\
  zget (method_returns ack_method) 0 = Some result_tag /\ result_tag = mkParameter "Result" "uint64_t" false true false 8 /\
  parserMethod ack_service = Some "ParseAckermannFunctionXML"%string /\ methodPtr ack_method = Some "CallAckermannFunction"%string.
Proof. repeat split; vm_compute; reflexivity. Qed.

(** The text the answer is. *)
Definition answer_text (v : Z) : list Z := element (codes "Result") (le_bytes 8 v).

Lemma call_spec fuel apic t res times p k mem m n :
  alloc_wf k -> 0 <= apic < 65535 -> kernel_memory_current_address k + 4096 < kernel_memory_end_address k ->
  zget (kernel_services t) ackermannFunctionService_t = Some (Some ack_service) ->
  res + 8 <= kernel_memory_current_address k \/ kernel_memory_end_address k <= res ->
  get 8 mem p = Z.of_nat m -> get 8 mem (p + 8) = Z.of_nat n -> Z.of_nat (A m n) < 2 ^ 31 -> (A m n + m < fuel)%nat -> 0 < times ->
  exists k' mem', CallAckermannFunction fuel apic t res times p k mem = Some (k', mem', kernel_memory_current_address k) /\
    cstring mem' (kernel_memory_current_address k) (answer_text (Z.of_nat (A m n))) /\ alloc_wf k' /\
    kernel_memory_end_address k' = kernel_memory_end_address k /\
    kernel_memory_current_address k + zlen (answer_text (Z.of_nat (A m n))) <= kernel_memory_current_address k' <= kernel_memory_current_address k + 100 /\
    forall b, b < kernel_memory_current_address k \/ kernel_memory_end_address k <= b -> b < res \/ res + 8 <= b -> mem' b = mem b.
Proof.
  intros Hk Ha Hroom Ht Hres Hm Hn Hlt Hf Htimes. unfold CallAckermannFunction. rewrite Hm, Hn. pose proof (A_grows m n).
  destruct ack_service_ok as (E1 & _ & E2 & E3 & _).
  rewrite !s32_small, ack_spec by (done || lia). cbn [mbind option_bind]. rewrite calls_agree. cbn [mbind option_bind].
  destruct (Nat.ltb_spec 0 (Z.to_nat times)); [|lia]. rewrite u64_small by lia. rewrite Ht. cbn [mbind option_bind]. rewrite E1. cbn [mbind option_bind].
  rewrite E2. cbn [mbind option_bind]. rewrite E3. set (a := mkArgument _ res 0). set (mem1 := put 8 mem res _).
  assert (value_bytes mem1 a = le_bytes 8 (Z.of_nat (A m n))) as Ev by (exact (read_write_same mem res (le_bytes 8 (Z.of_nat (A m n))))).
  assert (message mem1 [a] = answer_text (Z.of_nat (A m n))) as Emsg by (unfold message; cbn [map concat]; rewrite Ev; apply app_nil_r).
  assert (counted a = 31 /\ taken a = 23) as [Ec Et] by done.
  destruct (convert_spec apic k mem1 [a] Hk Ha) as (k2 & mem2 & E & Hk2 & He2 & Hc2 & Hle & _ & Hcs & Hm2).
  - constructor; [|constructor]. split; [by vm_compute | by vm_compute | rewrite Ev; apply le_bytes_in |].
    cbn [map sum foldr]. rewrite Ec, Et. change (sizeOfData a) with 8. change (arg_value a) with res. lia.
  - cbn [map sum foldr]. rewrite Ec, Et. lia.
  - cbn [map sum foldr]. rewrite Ec. lia.
  - rewrite Emsg. apply element_chars; [reflexivity | apply le_bytes_in].
  - exists k2, mem2. rewrite Emsg in *. cbn [map sum foldr] in *. rewrite Ec, Et in *.
    do 4 (split; [done|]). split; [lia|]. intros b Hb Hr. rewrite Hm2 by lia. apply put_out. lia.
Qed.

(** ** The kernel's tables of functions, for this service *)

Definition kernel_parser `{Routines} (apic : Z) (u : void_ptr_stack_t) (garbage : xml_heap_t) (xs : XMLService) (tags : Z -> Z) (first second : Z)
    (f : string) (s : Service) (message location : Z) (w : MemoryAllocator * memory) : option (MemoryAllocator * memory * Z) :=
  if String.eqb f "ParseAckermannFunctionXML"
  then ParseAckermannFunctionXML apic u garbage xs tags first second s message location (fst w) (snd w) else None.

Definition kernel_method (fuel : nat) (apic : Z) (t : service_transport_kernel) (res times : Z)
    (f : string) (p : Z) (w : MemoryAllocator * memory) : option (MemoryAllocator * memory * Z) :=
  if String.eqb f "CallAckermannFunction" then CallAckermannFunction fuel apic t res times p (fst w) (snd w) else None.

(** A request dispatched to the service: the answer, where it lies, and what is as it was. *)
Lemma request_dispatched {R : Routines} {Rok : RoutinesOk} fuel apic u garbage t k mem xs tags first second res src ds1 ds2 m n times :
  alloc_wf k -> 0 <= apic < 65535 -> kernel_memory_current_address k + ROOM < kernel_memory_end_address k -> frame_ok u ->
  request_at k xs tags first second src (request ds1 ds2) mem -> number ds1 (Z.of_nat m) -> number ds2 (Z.of_nat n) ->
  Z.of_nat (A m n) < 2 ^ 31 -> (A m n + m < fuel)%nat -> 0 < times ->
  zget (kernel_services t) ackermannFunctionService_t = Some (Some ack_service) ->
  res + 8 <= kernel_memory_current_address k \/ kernel_memory_end_address k <= res ->
  exists k' mem' buffer,
    DispatchKernelTest (kernel_parser apic u garbage xs tags first second) (kernel_method fuel apic t res times)
      t ackermannFunctionService_t AckFunction_t src (k, mem) = Some (k', mem', buffer) /\
    cstring mem' buffer (answer_text (Z.of_nat (A m n))) /\ alloc_wf k' /\ kernel_memory_end_address k' = kernel_memory_end_address k /\
    kernel_memory_current_address k <= buffer /\ buffer + zlen (answer_text (Z.of_nat (A m n))) <= kernel_memory_current_address k' /\
    kernel_memory_current_address k' < kernel_memory_current_address k + ROOM - 4096 /\
    forall b, kept_byte k xs src ds1 ds2 b -> b < res \/ res + 8 <= b -> mem' b = mem b.
Proof.
  intros Hk Ha Hroom Hu HL N1 N2 Hlt Hf Htimes Ht Hres. destruct ack_service_ok as (E1 & Ec & _ & _ & Ep & Em).
  assert (ROOM = 6307880) as ER by reflexivity.
  destruct (request_parsed k xs tags first second src ds1 ds2 (Z.of_nat m) (Z.of_nat n) mem HL N1 N2 apic u garbage ack_service AckFunction_t ack_method)
    as (k1 & mem1 & E2 & Hk1 & He1 & Hc1 & Hg1 & Hg2 & Hm1); try done.
  destruct (call_spec fuel apic t res times (kernel_memory_current_address k) k1 mem1 m n) as (k2 & mem2 & E3 & Hcs & Hk2 & He2 & Hc2 & Hm2); try done; try lia.
  exists k2, mem2, (kernel_memory_current_address k1). split.
  - unfold DispatchKernelTest. rewrite Ht. cbn [mbind option_bind]. rewrite Ep. cbn [mbind option_bind].
    unfold kernel_parser at 1. change (String.eqb _ _) with true. cbn [fst snd]. rewrite E2. cbn [mbind option_bind].
    rewrite E1. cbn [mbind option_bind]. rewrite Em. cbn [mbind option_bind]. unfold kernel_method. change (String.eqb _ _) with true. cbn [fst snd]. by rewrite E3.
  - do 2 (split; [done|]). split; [congruence|]. do 3 (split; [lia|]). intros b Hb Hr. rewrite Hm2; [by apply Hm1 | | done].
    destruct Hb as (_ & Hb & _). rewrite He1. lia.
Qed.

(** ** Properties *)

(** C28: the C function computes the Ackermann function, and how deep it recurses: for every pair whose value is an
    int it returns the iterated function's value if the depth may be more than the sum of the value and the first
    argument, and, the first argument not being 0, not if it may be less than the value. *)
Theorem ack_computes m n :
  Z.of_nat (A m n) < 2 ^ 31 ->
  (forall fuel, (A m n + m < fuel)%nat -> ack fuel (Z.of_nat m) (Z.of_nat n) = Some (Z.of_nat (A m n))) /\
  (forall fuel, (0 < m)%nat -> (fuel < A m n)%nat -> ack fuel (Z.of_nat m) (Z.of_nat n) = None).
Proof. intros Hlt. split; intros fuel; [by apply ack_spec | intros Hm; by apply ack_deep]. Qed.

(** Three and twelve, what the kernel's demonstration asks for: more than thirty thousand calls deep. *)
Lemma ack_computes_witness :
  A 3 12 = Z.to_nat 32765 /\
  (forall fuel, (Z.to_nat 32765 + 3 < fuel)%nat -> ack fuel 3 12 = Some 32765) /\
  (forall fuel, (fuel < Z.to_nat 32765)%nat -> ack fuel 3 12 = None).
Proof.
  assert (A 3 12 = Z.to_nat 32765) as E.
  { apply Nat2Z.inj. pose proof (f_equal Z.of_nat (A_three 12)) as H. rewrite Nat2Z.inj_add, Nat2Z.inj_pow in H. 
    change (Z.of_nat 2 ^ Z.of_nat (12 + 3)) with 32768 in H. rewrite Z2Nat.id by lia. lia. }
  split; [exact E|]. destruct (ack_computes 3 12) as [H1 H2].
  - rewrite E, Z2Nat.id by lia. lia.
  - rewrite E in H1, H2. rewrite Z2Nat.id in H1 by lia. split; [exact H1 | intros fuel; apply H2; lia].
Defined.

(** A request is answered: dispatched to the Ackermann service, a message with two numbers in decimal is parsed
    into a fresh structure, and the answer that is returned is the element Result with the Base64 text of
    the eight bytes of the Ackermann function's value. *)
Theorem request_answered {R : Routines} {Rok : RoutinesOk} fuel apic u garbage t k mem xs tags first second res src ds1 ds2 m n times :
  alloc_wf k -> 0 <= apic < 65535 -> kernel_memory_current_address k + ROOM < kernel_memory_end_address k -> frame_ok u ->
  request_at k xs tags first second src (request ds1 ds2) mem -> number ds1 (Z.of_nat m) -> number ds2 (Z.of_nat n) ->
  Z.of_nat (A m n) < 2 ^ 31 -> (A m n + m < fuel)%nat -> 0 < times ->
  zget (kernel_services t) ackermannFunctionService_t = Some (Some ack_service) ->
  res + 8 <= kernel_memory_current_address k \/ kernel_memory_end_address k <= res ->
  exists k' mem' buffer,
    DispatchKernelTest (kernel_parser apic u garbage xs tags first second) (kernel_method fuel apic t res times)
      t ackermannFunctionService_t AckFunction_t src (k, mem) = Some (k', mem', buffer) /\
    cstring mem' buffer (answer_text (Z.of_nat (A m n))) /\ alloc_wf k'.
Proof.
  intros Hk Ha Hroom Hu HL N1 N2 Hlt Hf Htimes Ht Hres.
  destruct (request_dispatched fuel apic u garbage t k mem xs tags first second res src ds1 ds2 m n times) as (k' & mem' & buffer & H1 & H2 & H3 & _); try done.
  by exists k', mem', buffer.
Qed.

(** The request of the kernel's demonstration, without the tag it leaves open. *)
Definition request_text : list Z := codes "<params><FirstValue> 2 </FirstValue><SecondValue> 3 </SecondValue></params>".

Definition request_memory : memory :=
  write_bytes (write_bytes (write_bytes (write_bytes (write_bytes (fun _ => 0) 0x1000 request_text)
    0x9000 first_name) 0x9020 second_name) 0x9040 first_name) 0x9060 second_name.

Definition request_tags (i : Z) : Z := 0x9000 + 0x20 * i.

Definition request_service : XMLService := mkXMLService 0 0x7000 0x2000 0x3000 0x4000 0x8000.

Definition ack_transport : service_transport_kernel :=
  default blank_transport ('(t, _) ← RegisterServiceToKernel (fst (InitServiceTransportLayer blank_transport)) ack_service ackermannFunctionService_t; Some t).

Lemma request_placed : request_at roomy_allocator request_service request_tags 0x9040 0x9060 0x1000 (request [2] [3]) request_memory.
Proof.
  assert (render (request [2] [3]) = request_text) as E by (vm_compute; reflexivity).
  split; rewrite ?E; try (apply is_cstring; vm_compute; reflexivity); try reflexivity.
  - unfold request_tags. lia.
  - change (zlen request_text) with 75. unfold request_tags. lia.
  - change (zlen request_text) with 75. unfold request_service. split; cbn; unfold QUERY_SIZE, XQUERY_SIZE, XQUERY_ITEM, outside; try lia.
    split; unfold QUERY_SIZE, XQUERY_SIZE, XQUERY_ITEM; lia.
  - intros b. change (zlen request_text) with 75. unfold named, request_tags, untouched, outside, QUERY_SIZE, XQUERY_SIZE, XQUERY_ITEM. cbn. lia.
  - intros b. change (zlen request_text) with 75. unfold named, request_tags. lia.
  - intros b. unfold untouched, outside, QUERY_SIZE, XQUERY_SIZE, XQUERY_ITEM. cbn. lia.
Qed.

Lemma request_answered_witness :
  answer_text 9 = codes "<params><Result> CQAAAAAAAAA= </Result></params>" ++ [NEWLINE] /\
  exists k' mem' buffer,
    DispatchKernelTest (kernel_parser 0 sample_frame garbage_heap request_service request_tags 0x9040 0x9060) (kernel_method 12 0 ack_transport 0x9100 5)
      ack_transport ackermannFunctionService_t AckFunction_t 0x1000 (roomy_allocator, request_memory) = Some (k', mem', buffer) /\
    cstring mem' buffer (answer_text (Z.of_nat (A 2 3))) /\ alloc_wf k'.
Proof.
  split; [vm_compute; reflexivity|].
  apply (request_answered 12 0 sample_frame garbage_heap ack_transport roomy_allocator request_memory request_service request_tags 0x9040 0x9060 0x9100 0x1000 [2] [3] 2 3 5).
  - by split.
  - lia.
  - vm_compute. reflexivity.
  - split; vm_compute; [reflexivity | split; [discriminate | reflexivity]].
  - exact request_placed.
  - split; [repeat constructor; lia|]. split; [discriminate|]. vm_compute. repeat split; discriminate.
  - split; [repeat constructor; lia|]. split; [discriminate|]. vm_compute. repeat split; discriminate.
  - vm_compute. reflexivity.
  - vm_compute. lia.
  - lia.
  - vm_compute. reflexivity.
  - left. cbn. lia.
Defined.
