(* ===== verification/Acpi.v ===== *)
(** * ACPI tables: [sources/devices/acpi/ACPI.c]

    The tables are read from memory through their addresses.  The physical
    memory manager is called through the dispatcher of the kernel. *)

From S2P Require Import Prelude Defines Service PhysicalMemory FastMem Strings XmlParser.

#[local] Open Scope Z_scope.

Definition APIC_TYPE_LOCAL_APIC : Z := 0.
Definition APIC_TYPE_IO_APIC : Z := 1.

(** Numbers of the service and of its functions. *)
Definition physical_memory_t : Z := 1.
Definition add_physical_memory_entry : Z := 2.
Definition get_virtual_address : Z := 3.
Definition is_address : Z := 5.

Record ACPI := mkACPI {
  rsdpDescriptor : Z;
  local_apic_addr : Z;
  local_apicio_addr : Z;
  cores_count : Z
}.

#[export] Instance eta_ACPI : Eta ACPI :=
  fun r => mkACPI (rsdpDescriptor r) (local_apic_addr r) (local_apicio_addr r) (cores_count r).

(** Sizes of the packed headers, and offsets of the fields that are read. *)
Definition ACPIHeader_size : Z := 36.
Definition ACPIMadt_size : Z := 44.
Definition table_signature (mem : memory) (t : Z) : Z := get 4 mem t.
Definition table_length (mem : memory) (t : Z) : Z := get 4 mem (t + 4).
Definition madt_localApicAddr (mem : memory) (t : Z) : Z := get 4 mem (t + 36).
Definition apicio_address (mem : memory) (h : Z) : Z := get 4 mem (h + 4).
Definition rsdp_revision (mem : memory) (d : Z) : Z := mem (d + 15).
Definition rsdp_rsdtAddr (mem : memory) (d : Z) : Z := get 4 mem (d + 16).
Definition rsdp_xsdtAddr (mem : memory) (d : Z) : Z := get 8 mem (d + 24).

(** The functions of the physical memory service that are called here. *)
Definition exec_physical (f : string) (m : PhysicalMemoryManager) : option PhysicalMemoryManager :=
  if String.eqb f "IsAddress" then IsAddress m
  else if String.eqb f "AddPhysicalMemoryEntry" then AddPhysicalMemoryEntry m
  else if String.eqb f "GetVirtualAddress" then GetVirtualAddress m
  else None.

Section acpi.
Context (t : service_transport_kernel) (mem : memory).

Definition dispatch (method : Z) (m : PhysicalMemoryManager) : option PhysicalMemoryManager :=
  '(m, _) ← DispatchKernel exec_physical t physical_memory_t method m; Some m.

(** A device page that the table of memory entries does not have is added. *)
Definition register_page (address : Z) (m : PhysicalMemoryManager) : option PhysicalMemoryManager :=
  let m := m {{ p_physical_address := address }} in
  m ← dispatch is_address m;
  if negb (PhysicalMemory.is_address m) then
    let m := m {{ p_physical_address := address; p_size := FOUR_KiB_MEMORY_PAGE_SIZE }} in
    dispatch add_physical_memory_entry m
  else Some m.

(** One structure of the MADT. *)
Definition apic_structure (p : Z) (a : ACPI) (m : PhysicalMemoryManager) : option (ACPI * PhysicalMemoryManager) :=
  let type := mem p in
  if type =? APIC_TYPE_LOCAL_APIC then
    Some (if negb (p =? NULL) then a {{ cores_count := u16 (cores_count a + 1) }} else a, m)
  else if type =? APIC_TYPE_IO_APIC then
    let a := a {{ local_apicio_addr := apicio_address mem p }} in
    m ← register_page (local_apicio_addr a) m;
    Some (a, m)
  else Some (a, m).

Fixpoint parseAPIC_loop (fuel : nat) (p end_ : Z) (a : ACPI) (m : PhysicalMemoryManager) : option (ACPI * PhysicalMemoryManager) :=
  if p <? end_ then
    match fuel with
    | O => None
    | S fuel =>
        '(a, m) ← apic_structure p a m;
        parseAPIC_loop fuel (p + mem (p + 1)) end_ a m
    end
  else Some (a, m).

(** A structure has at least one byte, or the loop does not end. *)
Definition parseAPIC (a : ACPI) (madt : Z) (m : PhysicalMemoryManager) : option (bool * ACPI * PhysicalMemoryManager) :=
  let p := madt + ACPIMadt_size in
  let end_ := madt + table_length mem madt in
  let a := a {{ local_apic_addr := madt_localApicAddr mem madt }} in
  m ← register_page (local_apic_addr a) m;
  let a := a {{ cores_count := 0 }} in
  '(a, m) ← parseAPIC_loop (Z.to_nat (end_ - p)) p end_ a m;
  Some (true, a, m).

Definition MADT_SIGNATURE : Z := 0x43495041.

Definition to_virtual (address : Z) (m : PhysicalMemoryManager) : option (Z * PhysicalMemoryManager) :=
  m ← dispatch get_virtual_address (m {{ p_physical_address := address }});
  Some (virtualAddress m, m).

(** One entry of the RSDT or XSDT: only the MADT is looked into. *)
Definition parse_table (address : Z) (a : ACPI) (m : PhysicalMemoryManager) : option (ACPI * PhysicalMemoryManager) :=
  '(address, m) ← to_virtual address m;
  if table_signature mem address =? MADT_SIGNATURE then
    '(_, a, m) ← parseAPIC a address m; Some (a, m)
  else Some (a, m).

(** [width] is the size of an entry. *)
Fixpoint tables_loop (width : nat) (fuel : nat) (p end_ : Z) (a : ACPI) (m : PhysicalMemoryManager) : option (ACPI * PhysicalMemoryManager) :=
  if p <? end_ then
    match fuel with
    | O => None
    | S fuel =>
        '(a, m) ← parse_table (get width mem p) a m;
        tables_loop width fuel (p + Z.of_nat width) end_ a m
    end
  else Some (a, m).

Definition parse_root (width : nat) (address : Z) (a : ACPI) (m : PhysicalMemoryManager) : option (bool * ACPI * PhysicalMemoryManager) :=
  '(rsdt, m) ← to_virtual address m;
  let p := rsdt + ACPIHeader_size in
  let end_ := rsdt + table_length mem rsdt in
  '(a, m) ← tables_loop width (Z.to_nat (end_ - p)) p end_ a m;
  Some (true, a, m).

Definition parseAPICV1 (a : ACPI) (m : PhysicalMemoryManager) : option (bool * ACPI * PhysicalMemoryManager) :=
  parse_root 4 (rsdp_rsdtAddr mem (rsdpDescriptor a)) a m.

Definition parseAPICV2 (a : ACPI) (m : PhysicalMemoryManager) : option (bool * ACPI * PhysicalMemoryManager) :=
  parse_root 8 (rsdp_xsdtAddr mem (rsdpDescriptor a)) a m.

Definition parseACPIHeader (a : ACPI) (m : PhysicalMemoryManager) : option (bool * ACPI * PhysicalMemoryManager) :=
  if (rsdp_revision mem (rsdpDescriptor a) =? 0) || (rsdp_xsdtAddr mem (rsdpDescriptor a) =? 0) then parseAPICV1 a m
  else if 1 <=? rsdp_revision mem (rsdpDescriptor a) then parseAPICV2 a m
  else Some (false, a, m).

(** The first twenty bytes must sum up to zero. *)
Definition parseRSDT (p_rsdp : Z) : Z :=
  let sum := foldl (fun sum b => u8 (sum + b)) 0 (read_bytes mem p_rsdp 20) in
  if truthy sum then NULL else p_rsdp.

Definition ACPI_START : Z := 0xe0000.
Definition ACPI_END : Z := 0xfffff.

(** [signature] is the address of the literal. *)
Fixpoint init_acpi_loop `{Routines} (fuel : nat) (signature ptr : Z) (a : ACPI) (m : PhysicalMemoryManager) : option (bool * ACPI * PhysicalMemoryManager) :=
  if ptr <? ACPI_END then
    match fuel with
    | O => None
    | S fuel =>
        l ← strlen mem signature;
        if memcmp mem ptr signature l =? NULL then
          let a := a {{ rsdpDescriptor := parseRSDT ptr }} in
          if negb (rsdpDescriptor a =? NULL) then parseACPIHeader a m else Some (false, a, m)
        else init_acpi_loop fuel signature (ptr + 16) a m
    end
  else Some (false, a, m).

Definition init_acpi `{Routines} (signature : Z) (a : ACPI) (m : PhysicalMemoryManager) : option (bool * ACPI * PhysicalMemoryManager) :=
  init_acpi_loop (Z.to_nat ((ACPI_END - ACPI_START) / 16 + 1)) signature ACPI_START a m.
End acpi.

(** ** What a MADT says *)

(** A structure: its type, and the bytes behind type and length. *)
Record structure := mkStructure { structure_type : Z; structure_body : list Z }.

Definition structure_bytes (s : structure) : list Z :=
  structure_type s :: (2 + zlen (structure_body s)) :: structure_body s.

(** An I/O APIC has an identifier, a reserved byte and its address first. *)
Definition structure_ok (s : structure) : Prop :=
  structure_type s = APIC_TYPE_IO_APIC -> 6 <= zlen (structure_body s).

Definition madt_bytes (l : list structure) : list Z := concat (map structure_bytes l).

Definition processors (l : list structure) : Z := zlen (List.filter (fun s => structure_type s =? APIC_TYPE_LOCAL_APIC) l).

Definition io_address (s : structure) : Z := le_value (take 4 (drop 2 (structure_body s))).

Definition io_apics (l : list structure) : list Z :=
  map io_address (List.filter (fun s => structure_type s =? APIC_TYPE_IO_APIC) l).

(** The table of memory entries covers an address. *)
Definition known (m : PhysicalMemoryManager) (a : Z) : bool :=
  existsb (fun e => (entry_start e <=? a) && (a <? u64 (entry_start e + entry_size e))) (used_entries m).

(** The functions of the physical memory service are where the kernel put them. *)
Definition physical_registered (t : service_transport_kernel) : Prop :=
  exists s, zget (kernel_services t) physical_memory_t = Some (Some s) /\
    zget (service_method s) is_address = Some (Some "IsAddress"%string) /\
    zget (service_method s) add_physical_memory_entry = Some (Some "AddPhysicalMemoryEntry"%string) /\
    zget (service_method s) get_virtual_address = Some (Some "GetVirtualAddress"%string).

(** ** Lemmas *)

Section lemmas.
Context (t : service_transport_kernel) (mem : memory) (Ht : physical_registered t).

Lemma dispatch_eq m :
  dispatch t is_address m = IsAddress m /\ dispatch t add_physical_memory_entry m = AddPhysicalMemoryEntry m /\
  dispatch t get_virtual_address m = GetVirtualAddress m.
Proof.
  destruct Ht as (s & Hs & H1 & H2 & H3). unfold dispatch, DispatchKernel. rewrite Hs. cbn [mbind option_bind].
  rewrite H1, H2, H3. cbn [mbind option_bind]. unfold exec_physical. cbn [String.eqb Ascii.eqb Bool.eqb].
  split; [by destruct (IsAddress m) | split; [by destruct (AddPhysicalMemoryEntry m) | by destruct (GetVirtualAddress m)]].
Qed.

(** The table has room for [n] more entries. *)
Record has_room (m : PhysicalMemoryManager) (n : Z) : Prop := {
  room_wf : table_wf m;
  room_table : memory_entries m + n <= zlen (physicalMemoryEntry m);
  room_count : memory_entries m + n < 65536
}.

(** Adding an entry behind the others. *)
Lemma used_entries_add m e : table_wf m -> memory_entries m < zlen (physicalMemoryEntry m) ->
  used_entries (m {{ physicalMemoryEntry := <[Z.to_nat (memory_entries m) := e]> (physicalMemoryEntry m); memory_entries := memory_entries m + 1 }}) =
    used_entries m ++ [e].
Proof.
  unfold table_wf, used_entries, zlen. intros Hm Hlt. simpl.
  replace (Z.to_nat (memory_entries m + 1)) with (Datatypes.S (Z.to_nat (memory_entries m))) by lia.
  erewrite take_S_r; [|apply list_lookup_insert_eq; lia]. by rewrite take_insert_ge by lia.
Qed.

Lemma register_page_spec a m n : has_room m (1 + n) -> 0 <= n -> 0 <= a < 2 ^ 32 ->
  exists m', register_page t a m = Some m' /\ has_room m' n /\ known m' a = true /\ forall b, known m b = true -> known m' b = true.
Proof.
  intros [Hwf Hr Hc] Hn Ha. unfold register_page. destruct (dispatch_eq (m {{ p_physical_address := a }})) as (-> & _).
  rewrite IsAddress_spec by done. cbn [mbind option_bind]. cbn [PhysicalMemory.is_address].
  change (existsb _ _) with (known m a). destruct (known m a) eqn:E; cbn [negb].
  - eexists. split; [reflexivity|]. split; [split; simpl; done || lia|]. split; [exact E | done].
  - match goal with |- context [dispatch t add_physical_memory_entry ?x] => set (m1 := x); destruct (dispatch_eq m1) as (_ & -> & _) end.
    unfold AddPhysicalMemoryEntry. rewrite IsAddress_spec by done. cbn [mbind option_bind]. cbn [PhysicalMemory.is_address].
    change (existsb _ _) with (known m a). rewrite E. cbn [negb]. simpl. unfold table_wf in Hwf. unfold zupd.
    destruct (zget_some (physicalMemoryEntry m) (memory_entries m)) as [e He]; [lia|]. rewrite He. simpl.
    unfold FOUR_KiB_MEMORY_PAGE_SIZE. rewrite zset_eq by lia. simpl. rewrite u16_small, (u64_small (a + 4096)) by lia. eexists. split; [reflexivity|].
    split; [split; unfold table_wf, zlen in *; simpl; rewrite ?length_insert; lia|].
    match goal with |- known ?x _ = _ /\ _ => assert (used_entries x = used_entries m ++
      [e {{ entry_start := a; entry_size := 0x1000; entry_type := E820_MEMORY_ENTRY_TYPE_RESEARVED; entry_end := a + 4096 }}]) as Eu
      by (exact (used_entries_add m _ Hwf ltac:(lia))) end.
    unfold known. rewrite Eu. split.
    + rewrite existsb_app. apply orb_true_iff. right. cbn [existsb]. rewrite orb_false_r. simpl.
      rewrite u64_small by lia. apply andb_true_iff. lia.
    + intros b Hb. rewrite existsb_app, Hb. done.
Qed.

Lemma le_value_range l : Forall (fun b => 0 <= b < 256) l -> 0 <= le_value l < 256 ^ zlen l.
Proof.
  induction 1 as [|b l Hb _ IH]; [by vm_compute|]. cbn [le_value]. rewrite zlen_cons, Z.pow_add_r by (try lia; apply zlen_nonneg). change (256 ^ 1) with 256. nia.
Qed.

Lemma io_address_range s : Forall (fun b => 0 <= b < 256) (structure_body s) -> 0 <= io_address s < 2 ^ 32.
Proof.
  intros Hb. assert (Forall (fun b => 0 <= b < 256) (take 4 (drop 2 (structure_body s)))) as H by (by apply Forall_take, Forall_drop).
  pose proof (le_value_range _ H) as Hr. unfold io_address. assert (zlen (take 4 (drop 2 (structure_body s))) <= 4) by (unfold zlen; rewrite length_take; lia).
  pose proof (Z.pow_le_mono_r 256 (zlen (take 4 (drop 2 (structure_body s)))) 4). change (2 ^ 32) with (256 ^ 4). lia.
Qed.

(** The address of an I/O APIC, read from its structure. *)
Lemma apicio_address_spec p s : text_at mem p (structure_bytes s) -> 6 <= zlen (structure_body s) -> apicio_address mem p = io_address s.
Proof.
  intros Hm Hl. unfold apicio_address, io_address, get. f_equal. destruct s as [ty body]. cbn [structure_body] in *.
  destruct body as [|b0 [|b1 [|b2 [|b3 [|b4 [|b5 body]]]]]]; try (by exfalso; unfold zlen in Hl; cbn in Hl; lia).
  set (len := 2 + zlen (b0 :: b1 :: b2 :: b3 :: b4 :: b5 :: body)).
  assert (text_at mem p ([ty; len; b0; b1] ++ [b2; b3; b4; b5] ++ body)) as H by exact Hm.
  rewrite !text_at_app in H. destruct H as (_ & H & _). apply text_at_read in H. exact H.
Qed.

(** One structure. *)
Definition after_structure (s : structure) (a : ACPI) : ACPI :=
  if structure_type s =? APIC_TYPE_LOCAL_APIC then a {{ cores_count := u16 (cores_count a + 1) }}
  else if structure_type s =? APIC_TYPE_IO_APIC then a {{ local_apicio_addr := io_address s }} else a.

Definition pages (l : list structure) : Z := zlen (io_apics l).

Lemma apic_structure_spec p s a m n :
  text_at mem p (structure_bytes s) -> structure_ok s -> Forall (fun b => 0 <= b < 256) (structure_body s) -> 0 < p -> 0 <= n -> has_room m (pages [s] + n) ->
  exists m', apic_structure t mem p a m = Some (after_structure s a, m') /\ has_room m' n /\
    (forall b, b ∈ io_apics [s] -> known m' b = true) /\ forall b, known m b = true -> known m' b = true.
Proof.
  intros Hm Hok Hb Hp Hn Hroom. assert (mem p = structure_type s) as Et by apply Hm. unfold apic_structure, after_structure. rewrite Et.
  unfold pages, io_apics in *. cbn [List.filter] in *.
  bdestr (structure_type s =? APIC_TYPE_LOCAL_APIC).
  - bdestr (p =? NULL); [unfold NULL in *; lia|]. cbn [negb]. exists m. replace (structure_type s =? APIC_TYPE_IO_APIC) with false in * by (rewrite Hb0; done).
    split; [done|]. split; [done|]. split; [|done]. intros b Hin. by apply not_elem_of_nil in Hin.
  - bdestr (structure_type s =? APIC_TYPE_IO_APIC); cbn [map] in *.
    + rewrite (apicio_address_spec p s Hm (Hok Hb1)). change (zlen [io_address s]) with 1 in Hroom.
      destruct (register_page_spec (io_address s) m n Hroom Hn (io_address_range s Hb)) as (m' & E & Hr' & Hk & Hmono).
      cbn [local_apicio_addr apply_update constant]. rewrite E. cbn [mbind option_bind]. exists m'. split; [done|]. split; [done|]. split; [|done]. intros b Hin. apply list_elem_of_singleton in Hin. by subst b.
    + exists m. split; [done|]. split; [done|]. split; [|done]. intros b Hin. by apply not_elem_of_nil in Hin.
Qed.

Lemma io_apics_cons s l : io_apics (s :: l) = io_apics [s] ++ io_apics l.
Proof. unfold io_apics. cbn [List.filter]. by destruct (structure_type s =? APIC_TYPE_IO_APIC). Qed.

Lemma processors_cons s l : processors (s :: l) = processors [s] + processors l.
Proof. unfold processors. cbn [List.filter]. destruct (structure_type s =? APIC_TYPE_LOCAL_APIC); unfold zlen; cbn [length]; lia. Qed.

Lemma pages_cons s l : pages (s :: l) = pages [s] + pages l.
Proof. unfold pages. by rewrite io_apics_cons, zlen_app. Qed.

(** All structures, one behind the other. *)
Definition after_structures (l : list structure) (a : ACPI) : ACPI := foldl (fun a s => after_structure s a) a l.

Lemma parse_loop_spec l : forall fuel p a m n,
  text_at mem p (madt_bytes l) -> Forall structure_ok l -> Forall (fun s => Forall (fun b => 0 <= b < 256) (structure_body s)) l ->
  0 < p -> 0 <= n -> has_room m (pages l + n) -> zlen (madt_bytes l) <= Z.of_nat fuel ->
  exists m', parseAPIC_loop t mem fuel p (p + zlen (madt_bytes l)) a m = Some (after_structures l a, m') /\ has_room m' n /\
    (forall b, b ∈ io_apics l -> known m' b = true) /\ forall b, known m b = true -> known m' b = true.
Proof.
  induction l as [|s l IH]; intros fuel p a m n Hm Hok Hb Hp Hn Hroom Hf.
  - exists m. split; [|split; [done|split; [|done]]]; [|intros b Hin; by apply not_elem_of_nil in Hin].
    change (zlen (madt_bytes [])) with 0. destruct fuel; cbn [parseAPIC_loop]; bdestr (p <? p + 0); (lia || done).
  - apply Forall_cons in Hok as [Hs Hok]. apply Forall_cons in Hb as [Hb Hbl]. rewrite pages_cons in Hroom.
    change (madt_bytes (s :: l)) with (structure_bytes s ++ madt_bytes l) in *. rewrite zlen_app in *. apply text_at_app in Hm as [Hm Hml].
    assert (zlen (structure_bytes s) = 2 + zlen (structure_body s)) as El by (unfold structure_bytes; rewrite !zlen_cons; lia).
    pose proof (zlen_nonneg (structure_body s)). pose proof (zlen_nonneg (madt_bytes l)). pose proof (zlen_nonneg (io_apics l) : 0 <= pages l).
    destruct fuel as [|fuel]; [lia|]. cbn [parseAPIC_loop]. bdestr (p <? p + (zlen (structure_bytes s) + zlen (madt_bytes l))); [|lia].
    destruct (apic_structure_spec p s a m (pages l + n)) as (m1 & -> & Hr1 & Hk1 & Hmono1); try done; [lia | by rewrite Z.add_assoc |]. cbn [mbind option_bind].
    replace (mem (p + 1)) with (zlen (structure_bytes s)) by (rewrite El; symmetry; apply Hm).
    destruct (IH fuel (p + zlen (structure_bytes s)) (after_structure s a) m1 n) as (m2 & E & Hr2 & Hk2 & Hmono2); try done; try lia.
    rewrite Z.add_assoc. exists m2. split; [exact E|]. split; [done|]. split; [|auto].
    intros b. rewrite io_apics_cons, elem_of_app. intros [Hin | Hin]; auto.
Qed.

Lemma last_after (l : list Z) x d : List.last (x :: l) d = List.last l x.
Proof. revert x d. induction l as [|y l IH]; intros x d; [done|]. change (List.last (y :: l) d = List.last (y :: l) x). by rewrite !IH. Qed.

Lemma after_structures_eq l a c : cores_count a = u16 c ->
  after_structures l a = a {{ cores_count := u16 (c + processors l); local_apicio_addr := List.last (io_apics l) (local_apicio_addr a) }}.
Proof.
  revert a c. induction l as [|s l IH]; intros a c Hc.
  - destruct a. cbn in *. subst. change (processors []) with 0. by rewrite Z.add_0_r.
  - cbn [after_structures foldl]. fold (after_structures l (after_structure s a)).
    rewrite processors_cons, io_apics_cons. unfold processors at 1, io_apics at 1. cbn [List.filter]. unfold after_structure.
    bdestr (structure_type s =? APIC_TYPE_LOCAL_APIC).
    + replace (structure_type s =? APIC_TYPE_IO_APIC) with false by (by rewrite Hb). cbn [map app]. change (zlen [s]) with 1.
      rewrite (IH _ (c + 1)); [destruct a; cbn; by rewrite Z.add_assoc|]. cbn [cores_count apply_update constant]. rewrite Hc. unfold u16. apply Zplus_mod_idemp_l.
    + change (zlen []) with 0. rewrite Z.add_0_l. bdestr (structure_type s =? APIC_TYPE_IO_APIC); cbn [map app].
      * rewrite (IH _ c), last_after by (destruct a; done). by destruct a.
      * by apply IH.
Qed.
End lemmas.

(** ** The search for the root pointer *)

Definition RSDP_SIGNATURE : list Z := codes "RSD PTR ".

Definition byte_sum (l : list Z) : Z := foldr Z.add 0 l.

Lemma sum_bytes l a : foldl (fun sum b => u8 (sum + b)) (u8 a) l = u8 (a + byte_sum l).
Proof.
  revert a. induction l as [|b l IH]; intros a; cbn [foldl byte_sum foldr]; [by rewrite Z.add_0_r|].
  replace (u8 (u8 a + b)) with (u8 (a + b)) by (unfold u8; by rewrite Zplus_mod_idemp_l). rewrite IH. f_equal. unfold byte_sum. lia.
Qed.

Lemma parseRSDT_spec mem p : parseRSDT mem p = if byte_sum (read_bytes mem p 20) mod 256 =? 0 then p else NULL.
Proof.
  unfold parseRSDT. change 0 with (u8 0) at 1. rewrite sum_bytes, Z.add_0_l. unfold truthy, u8. change (2 ^ 8) with 256. by destruct (_ =? 0).
Qed.

Section search.
Context {R : Routines} {Rok : RoutinesOk}.
Context (t : service_transport_kernel) (mem : memory) (signature : Z) (Hc : cstring mem signature RSDP_SIGNATURE) (Hs : in_space signature 9).

Lemma signature_compared p : 0 < p -> p < ACPI_END -> (memcmp mem p signature 8 =? NULL) = bool_decide (read_bytes mem p 8 = RSDP_SIGNATURE).
Proof.
  intros Hp Hend. unfold in_space, ACPI_END in *.
  pose proof (memcmp_ok mem p signature 8 ltac:(unfold in_space; lia) ltac:(unfold in_space; lia) ltac:(lia)) as H. pose proof Hc as (Hr & _). change (zlen RSDP_SIGNATURE) with 8 in Hr.
  destruct H as [[-> Hall] | (k & -> & Hk & Hd & _)].
  - rewrite bool_decide_true; [done|]. rewrite <- Hr. apply read_bytes_equal. intros k Hk. by apply differ_false, Hall.
  - bdestr (p + k =? NULL); [unfold NULL in *; lia|]. symmetry. apply bool_decide_false. intros E. rewrite <- Hr in E.
    assert (differ mem p signature k = false) as E'; [|congruence]. apply differ_false.
    pose proof (read_bytes_at _ _ _ _ k E Hk) as E1. rewrite (read_bytes_at mem signature 8 _ k eq_refl Hk) in E1. by injection E1.
Qed.

Lemma search_step fuel p a m : 0 < p -> p < ACPI_END ->
  init_acpi_loop t mem (S fuel) signature p a m =
    if bool_decide (read_bytes mem p 8 = RSDP_SIGNATURE)
    then if byte_sum (read_bytes mem p 20) mod 256 =? 0 then parseACPIHeader t mem (a {{ rsdpDescriptor := p }}) m
         else Some (false, a {{ rsdpDescriptor := NULL }}, m)
    else init_acpi_loop t mem fuel signature (p + 16) a m.
Proof.
  intros Hp Hend. cbn [init_acpi_loop]. bdestr (p <? ACPI_END); [|lia].
  rewrite (strlen_ok mem signature _ Hc) by (change (zlen RSDP_SIGNATURE) with 8; unfold in_space in *; lia). cbn [mbind option_bind].
  change (zlen RSDP_SIGNATURE) with 8. rewrite signature_compared by done. destruct (bool_decide _); [|done]. rewrite parseRSDT_spec.
  destruct (_ mod 256 =? 0); cbn [rsdpDescriptor apply_update constant]; [|done]. bdestr (p =? NULL); [unfold NULL in *; lia | done].
Qed.

Lemma search_skips n : forall fuel p a m, 0 < p -> (forall j, 0 <= j < Z.of_nat n -> p + 16 * j < ACPI_END /\ read_bytes mem (p + 16 * j) 8 <> RSDP_SIGNATURE) ->
  init_acpi_loop t mem (n + fuel) signature p a m = init_acpi_loop t mem fuel signature (p + 16 * Z.of_nat n) a m.
Proof.
  induction n as [|n IH]; intros fuel p a m Hp Hno; [f_equal; lia|]. change (S n + fuel)%nat with (S (n + fuel)).
  destruct (Hno 0 ltac:(lia)) as [H1 H2]. rewrite Z.mul_0_r, Z.add_0_r in H1, H2. rewrite search_step, bool_decide_false by done.
  rewrite IH; [f_equal; lia | lia |]. intros j Hj. replace (p + 16 + 16 * j) with (p + 16 * (j + 1)) by lia. apply Hno. lia.
Qed.
End search.

(** ** Properties *)

(** C21: the processors are counted: from a MADT whose structures lie one behind the other the kernel takes the number of
    local APIC structures, enabled or not, and the address of the last I/O APIC, and the pages of the local APIC
    and of every I/O APIC are in the table of memory entries afterwards, with all that was in it before. *)
Theorem processors_counted t mem madt l a m :
  physical_registered t -> 0 < madt -> text_at mem (madt + ACPIMadt_size) (madt_bytes l) ->
  table_length mem madt = ACPIMadt_size + zlen (madt_bytes l) -> 0 <= madt_localApicAddr mem madt < 2 ^ 32 ->
  Forall structure_ok l -> Forall (fun s => Forall (fun b => 0 <= b < 256) (structure_body s)) l ->
  has_room m (1 + zlen (io_apics l)) ->
  exists m', parseAPIC t mem a madt m = Some (true, a {{ local_apic_addr := madt_localApicAddr mem madt; cores_count := u16 (processors l);
        local_apicio_addr := List.last (io_apics l) (local_apicio_addr a) }}, m') /\
    (forall b, b = madt_localApicAddr mem madt \/ b ∈ io_apics l -> known m' b = true) /\ (forall b, known m b = true -> known m' b = true) /\ table_wf m'.
Proof.
  intros Ht Hpos Hm Hl Ha Hok Hb Hroom. unfold parseAPIC.
  destruct (register_page_spec t Ht (madt_localApicAddr mem madt) m (zlen (io_apics l)) Hroom) as (m1 & E1 & Hr1 & Hk1 & Hmono1); [apply zlen_nonneg | done |].
  cbn [local_apic_addr apply_update constant]. rewrite E1. cbn [mbind option_bind]. rewrite Hl. unfold ACPIMadt_size in *.
  replace (madt + (44 + zlen (madt_bytes l)) - (madt + 44)) with (zlen (madt_bytes l)) by lia. rewrite Z.add_assoc.
  match goal with |- context [parseAPIC_loop t mem _ _ _ ?x _] => set (a1 := x) end.
  destruct (parse_loop_spec t mem Ht l (Z.to_nat (zlen (madt_bytes l))) (madt + 44) a1 m1 0) as (m2 & E2 & Hr2 & Hk2 & Hmono2); try done; try lia.
  { by rewrite Z.add_0_r. }
  rewrite E2. cbn [mbind option_bind]. exists m2. split; [|split; [|split; [auto | apply Hr2]]].
  - rewrite (after_structures_eq l a1 0) by done. destruct a. done.
  - intros b [-> | Hin]; auto.
Qed.

(** Two processors, the second disabled, an I/O APIC and an interrupt override. *)
Definition sample_structures : list structure :=
  [mkStructure 0 [0; 0; 1; 0; 0; 0]; mkStructure 0 [1; 1; 0; 0; 0; 0];
   mkStructure 1 [2; 0; 0; 0; 0xC0; 0xFE; 0; 0; 0; 0]; mkStructure 2 [0; 0; 2; 0; 0; 0; 0; 0]].

Definition madt_at (mem : memory) (a : Z) : memory :=
  write_bytes (put 4 (put 4 (put 4 mem a MADT_SIGNATURE) (a + 4) (44 + 38)) (a + 36) 0xFEE00000) (a + 44) (madt_bytes sample_structures).

(** One usable entry that is mapped to itself, and room for more. *)
Definition boot_memory : PhysicalMemoryManager :=
  sample_manager {{ physicalMemoryEntry := mkPhysicalMemoryEntry 0 0x1000000 E820_MEMORY_ENTRY_TYPE_USABLE 0 0 0x1000000 :: replicate 9 (mkPhysicalMemoryEntry 0 0 0 0 0 0);
    memory_entries := 1 }}.

Definition boot_transport : service_transport_kernel :=
  default blank_transport (s ← add_services exposed_functions blank_service;
    '(t, _) ← RegisterServiceToKernel (fst (InitServiceTransportLayer blank_transport)) s physical_memory_t; Some t).

Lemma boot_registered : physical_registered boot_transport.
Proof. eexists. split; [vm_compute; reflexivity|]. split; [vm_compute; reflexivity|]. split; vm_compute; reflexivity. Qed.

Lemma processors_counted_witness :
  processors sample_structures = 2 /\ io_apics sample_structures = [0xFEC00000] /\
  exists m', parseAPIC boot_transport (madt_at (fun _ => 0) 0x5000) (mkACPI 0 0 0 7) 0x5000 boot_memory = Some (true, mkACPI 0 0xFEE00000 0xFEC00000 2, m') /\
    (forall b, b = 0xFEE00000 \/ b ∈ [0xFEC00000] -> known m' b = true) /\ (forall b, known boot_memory b = true -> known m' b = true) /\ table_wf m'.
Proof.
  split; [reflexivity|]. split; [reflexivity|].
  apply (processors_counted boot_transport (madt_at (fun _ => 0) 0x5000) 0x5000 sample_structures (mkACPI 0 0 0 7) boot_memory).
  - exact boot_registered.
  - lia.
  - apply text_at_read. vm_compute. reflexivity.
  - vm_compute. reflexivity.
  - vm_compute. split; [discriminate | reflexivity].
  - repeat constructor; intros Ht; vm_compute; discriminate || (exfalso; discriminate Ht).
  - repeat constructor; lia.
  - split; [split; vm_compute; discriminate | vm_compute; discriminate | vm_compute; reflexivity].
Defined.

(** ** The tables and the search *)

(** The loop over a root table is the loop over the list of its entries. *)
Fixpoint parse_tables (t : service_transport_kernel) (mem : memory) (addresses : list Z) (a : ACPI) (m : PhysicalMemoryManager) : option (ACPI * PhysicalMemoryManager) :=
  match addresses with
  | [] => Some (a, m)
  | address :: l => '(a, m) ← parse_table t mem address a m; parse_tables t mem l a m
  end.

Lemma tables_loop_spec t mem width l : (0 < width)%nat -> forall fuel p a m,
  (forall i x, zget l i = Some x -> get width mem (p + Z.of_nat width * i) = x) -> (length l <= fuel)%nat ->
  tables_loop t mem width fuel p (p + Z.of_nat width * zlen l) a m = parse_tables t mem l a m.
Proof.
  intros Hw. induction l as [|x l IH]; intros fuel p a m Hget Hf.
  - change (zlen []) with 0. destruct fuel; cbn [tables_loop parse_tables]; bdestr (p <? p + Z.of_nat width * 0); (lia || done).
  - rewrite zlen_cons. pose proof (zlen_nonneg l). destruct fuel as [|fuel]; [cbn in Hf; lia|]. cbn [tables_loop parse_tables].
    bdestr (p <? p + Z.of_nat width * (1 + zlen l)); [|nia].
    pose proof (Hget 0 x eq_refl) as Hx. rewrite Z.mul_0_r, Z.add_0_r in Hx. rewrite Hx. destruct (parse_table t mem x a m) as [[a' m']|]; cbn [mbind option_bind]; [|done].
    replace (p + Z.of_nat width * (1 + zlen l)) with (p + Z.of_nat width + Z.of_nat width * zlen l) by lia. apply IH; [|cbn in Hf; lia].
    intros i y Hy. replace (p + Z.of_nat width + Z.of_nat width * i) with (p + Z.of_nat width * (1 + i)) by lia. apply Hget.
    pose proof (zget_lt _ _ _ Hy). unfold zget in *. bdestr (0 <=? i); [|lia]. bdestr (0 <=? 1 + i); [|lia].
    by replace (Z.to_nat (1 + i)) with (S (Z.to_nat i)) by lia.
Qed.

(** The search for the tables: the kernel takes the first of the 16-byte steps below 1 MiB that has the signature, and parses
    the tables it points to if its first twenty bytes sum up to zero; if they do not it gives up, without a look
    at the steps behind; without a signature the search ends and nothing is changed. *)
Theorem root_pointer_found {R : Routines} {Rok : RoutinesOk} t mem signature a m k :
  cstring mem signature RSDP_SIGNATURE -> in_space signature 9 -> 0 <= k -> ACPI_START + 16 * (k - 1) < ACPI_END ->
  (forall j, 0 <= j < k -> read_bytes mem (ACPI_START + 16 * j) 8 <> RSDP_SIGNATURE) ->
  (ACPI_END <= ACPI_START + 16 * k -> init_acpi t mem signature a m = Some (false, a, m)) /\
  (ACPI_START + 16 * k < ACPI_END -> read_bytes mem (ACPI_START + 16 * k) 8 = RSDP_SIGNATURE ->
    init_acpi t mem signature a m =
      if byte_sum (read_bytes mem (ACPI_START + 16 * k) 20) mod 256 =? 0
      then parseACPIHeader t mem (a {{ rsdpDescriptor := ACPI_START + 16 * k }}) m
      else Some (false, a {{ rsdpDescriptor := NULL }}, m)).
Proof.
  intros Hc Hs Hk Hlast Hno. unfold ACPI_START, ACPI_END in *. unfold init_acpi, ACPI_START, ACPI_END. change ((0xfffff - 0xe0000) / 16 + 1) with 8192.
  replace (Z.to_nat 8192) with (Z.to_nat k + Z.to_nat (8192 - k))%nat by (rewrite <- Z2Nat.inj_add by lia; f_equal; lia).
  rewrite (search_skips t mem signature Hc Hs) by (lia || (intros j Hj; split; [unfold ACPI_END; lia | apply Hno; lia])). rewrite Z2Nat.id by lia. split.
  - intros Hend. destruct (Z.to_nat (8192 - k)); cbn [init_acpi_loop]; unfold ACPI_END; bdestr (0xe0000 + 16 * k <? 0xfffff); lia || done.
  - intros Hend Hsig. destruct (Z.to_nat (8192 - k)) as [|n] eqn:E; [lia|].
    rewrite (search_step t mem signature Hc Hs), bool_decide_true by (done || unfold ACPI_END; lia). done.
Qed.

(** Version 1 tables in memory: the root pointer at the third step, a table that is passed over, and a MADT. *)
Definition acpi_memory : memory :=
  madt_at (put 4 (put 4 (put 4 (put 4 (write_bytes (write_bytes (write_bytes (fun _ => 0) 0x9000 RSDP_SIGNATURE)
    0xe0020 (RSDP_SIGNATURE ++ [161])) 0xe0030 [0; 0x40; 0; 0])
    0x4004 44) 0x4024 0x4800) 0x4028 0x5000) 0x4800 0x50434146) 0x5000.

Lemma root_pointer_found_witness :
  init_acpi boot_transport acpi_memory 0x9000 (mkACPI 0 0 0 7) boot_memory = parseACPIHeader boot_transport acpi_memory (mkACPI 0xe0020 0 0 7) boot_memory /\
  (fst <$> parseACPIHeader boot_transport acpi_memory (mkACPI 0xe0020 0 0 7) boot_memory) = Some (true, mkACPI 0xe0020 0xFEE00000 0xFEC00000 2).
Proof.
  split; [|vm_compute; reflexivity].
  destruct (root_pointer_found boot_transport acpi_memory 0x9000 (mkACPI 0 0 0 7) boot_memory 2) as [_ E].
  - apply is_cstring; vm_compute; reflexivity.
  - split; vm_compute; [reflexivity | discriminate].
  - lia.
  - reflexivity.
  - intros j Hj. assert (j = 0 \/ j = 1) as [-> | ->] by lia; vm_compute; discriminate.
  - rewrite E; [reflexivity | reflexivity | vm_compute; reflexivity].
Defined.

(** A structure of length 0 is never passed: the loop goes on for ever. *)
Theorem empty_structure_hangs t mem p end_ fuel a m :
  p < end_ -> mem (p + 1) = 0 -> parseAPIC_loop t mem fuel p end_ a m = None.
Proof.
  intros Hp Hl. revert a m. induction fuel as [|fuel IH]; intros a m; cbn [parseAPIC_loop]; (bdestr (p <? end_); [|lia]); [done|].
  destruct (apic_structure t mem p a m) as [[a' m']|]; cbn [mbind option_bind]; [|done]. rewrite Hl, Z.add_0_r. apply IH.
Qed.

Lemma empty_structure_hangs_witness :
  parseAPIC_loop boot_transport (fun _ => 0) 1000 0x502c 0x5052 (mkACPI 0 0 0 0) boot_memory = None.
Proof. apply empty_structure_hangs; [lia | reflexivity]. Defined.
