(* ===== verification/E1000.v ===== *)
(** * The E1000 network card: [sources/devices/network/E1000.c]

    Registers and descriptors are shared with the card: every access to them is
    an event, and what a read yields is up to the card.  Pointers to
    descriptors are addresses.  Printing is left out. *)

From S2P Require Import Prelude Defines Spinlock KMalloc Device FastMem PhysicalMemory MemoryPageMap Interrupts Pci Apic Network.

#[local] Open Scope Z_scope.

Definition E1000_NUM_RX_DESC : Z := 32.
Definition E1000_NUM_TX_DESC : Z := 8.
Definition RX_PACKET_SIZE : Z := 1600.
Definition E1000_TYPE : Z := 69.
Definition INTEL_VEND : Z := 0x8086.
Definition e1000_models : list Z := [0x100E; 0x153A; 0x10EA; 0x100F; 0x1004].

Definition REG_CTRL : Z := 0x0000.
Definition REG_STATUS : Z := 0x0008.
Definition REG_EEPROM : Z := 0x0014.
Definition REG_ICR : Z := 0x00C0.
Definition REG_IMASK : Z := 0x00D0.
Definition REG_RCTRL : Z := 0x0100.
Definition REG_TCTRL : Z := 0x0400.
Definition REG_TIPG : Z := 0x0410.
Definition REG_RXDESCLO : Z := 0x2800.
Definition REG_RXDESCHI : Z := 0x2804.
Definition REG_RXDESCLEN : Z := 0x2808.
Definition REG_RXDESCHEAD : Z := 0x2810.
Definition REG_RXDESCTAIL : Z := 0x2818.
Definition REG_TXDESCLO : Z := 0x3800.
Definition REG_TXDESCHI : Z := 0x3804.
Definition REG_TXDESCLEN : Z := 0x3808.
Definition REG_TXDESCHEAD : Z := 0x3810.
Definition REG_TXDESCTAIL : Z := 0x3818.

(** ASDE, FD, SLU, 100M and FRCSPD. *)
Definition ECTRL_LINK : Z := Z.lor 0x40 (Z.lor 0x20 (Z.lor 0x01 (Z.lor 0x100 0x800))).

(** EN, SBP, UPE, MPE, LBM_NONE, RDMTS_HALF, BAM, SECRC and BSIZE_8192. *)
Definition RCTL_EN : Z := Z.shiftl 1 1.
Definition RCTL_RECEIVE : Z :=
  Z.lor RCTL_EN (Z.lor (Z.shiftl 1 2) (Z.lor (Z.shiftl 1 3) (Z.lor (Z.shiftl 1 4) (Z.lor (Z.shiftl 0 6) (Z.lor (Z.shiftl 0 8)
    (Z.lor (Z.shiftl 1 15) (Z.lor (Z.shiftl 1 26) (Z.lor (Z.shiftl 2 16) (Z.shiftl 1 25))))))))).

(** EOP, IFCS, RS and RPS. *)
Definition CMD_SEND : Z := Z.lor (Z.shiftl 1 0) (Z.lor (Z.shiftl 1 1) (Z.lor (Z.shiftl 1 3) (Z.shiftl 1 4))).
Definition TSTA_DD : Z := Z.shiftl 1 0.

Record E1000 := mkE1000 {
  bar_type : Z;
  io_base : Z;
  mem_base : Z;
  eerprom_exists : bool;
  mac : list Z;                 (* 6 bytes *)
  mac_str : list Z;             (* 18 bytes *)
  rx_vaddr : list Z;            (* E1000_NUM_RX_DESC *)
  rx_descs : list Z;            (* E1000_NUM_RX_DESC *)
  tx_descs : list Z;            (* E1000_NUM_TX_DESC *)
  rx_cur : Z;
  tx_cur : Z;
  spinlock : spinlock_t;
  int_line : Z
}.

#[export] Instance eta_E1000 : Eta E1000 :=
  fun r => mkE1000 (bar_type r) (io_base r) (mem_base r) (eerprom_exists r) (mac r) (mac_str r) (rx_vaddr r)
    (rx_descs r) (tx_descs r) (rx_cur r) (tx_cur r) (spinlock r) (int_line r).

(** [sizeof(E1000)] and [sizeof(NetworkDriver)]. *)
Definition E1000_SIZE : Z := 664.
Definition NetworkDriver_SIZE : Z := 32.

(** Fields of a descriptor. *)
Definition desc_addr (d : Z) : Z := d.
Definition desc_length (d : Z) : Z := d + 8.
Definition rx_status (d : Z) : Z := d + 12.
Definition tx_cmd (d : Z) : Z := d + 11.
Definition tx_status (d : Z) : Z := d + 12.

(** ** Registers *)

Definition e1000WriteCommand (e : E1000) (p_address p_value : Z) : IO unit :=
  if bar_type e =? 0 then mmio_write32 (u64 (mem_base e + u16 p_address)) (u32 p_value)
  else _ ← outportl (io_base e) (u16 p_address); outportl (io_base e + 4) (u32 p_value).

Definition e1000ReadCommand (e : E1000) (p_address : Z) : IO Z :=
  if bar_type e =? 0 then mmio_read32 (u64 (mem_base e + u16 p_address))
  else _ ← outportl (io_base e) (u16 p_address); inportl (io_base e + 4).

Definition e1000DetectEEProm (e : E1000) : IO E1000 :=
  _ ← e1000WriteCommand e REG_EEPROM 0x1;
  exists_ ← io_for 1000 0 1 (fun _ (exists_ : bool) =>
    if exists_ then mret exists_ else val ← e1000ReadCommand e REG_EEPROM; mret (truthy (Z.land val 0x10))) (eerprom_exists e);
  mret (e {{ eerprom_exists := exists_ }}).

Definition e1000EEpromRead (fuel : nat) (e : E1000) (addr : Z) : IO Z :=
  let '(shift, bit) := if eerprom_exists e then (8, 4) else (2, 1) in
  _ ← e1000WriteCommand e REG_EEPROM (Z.lor 1 (Z.shiftl (u8 addr) shift));
  tmp ← poll fuel (e1000ReadCommand e REG_EEPROM) (fun tmp => truthy (Z.land tmp (Z.shiftl 1 bit)));
  mret (u16 (Z.land (Z.shiftr tmp 16) 0xFFFF)).

Definition mac_word (temp : Z) : list Z := [u8 (Z.land temp 0xff); u8 (Z.shiftr temp 8)].

Definition e1000ReadMACAddress (fuel : nat) (e : E1000) : IO E1000 :=
  if eerprom_exists e then
    w0 ← e1000EEpromRead fuel e 0;
    w1 ← e1000EEpromRead fuel e 1;
    w2 ← e1000EEpromRead fuel e 2;
    mret (e {{ mac := mac_word w0 ++ mac_word w1 ++ mac_word w2 }})
  else
    first ← mmio_read32 (u64 (mem_base e + 0x5400));
    if negb (first =? 0) then
      m ← io_for 6 0 1 (fun i m => b ← mmio_read8 (u64 (mem_base e + 0x5400 + i)); mret (m ++ [b])) [];
      mret (e {{ mac := m }})
    else mret e.

Definition e1000StartLink (e : E1000) : IO unit :=
  val ← e1000ReadCommand e REG_CTRL;
  _ ← e1000WriteCommand e REG_CTRL (Z.lor val ECTRL_LINK);
  _ ← e1000WriteCommand e 0x0030 0x8808;
  _ ← e1000WriteCommand e 0x0028 0x00000100;
  _ ← e1000WriteCommand e 0x002C 0x00C28001;
  e1000WriteCommand e 0x0170 0x0.

Definition e1000EnableInterrupt (e : E1000) : IO unit :=
  _ ← e1000WriteCommand e REG_IMASK 0x0000;
  _ ← e1000WriteCommand e REG_IMASK 0x009D;
  _ ← e1000ReadCommand e REG_ICR;
  mret tt.

(** ** Sending

    [core] runs this; [tables] and [pgd] are the memory and the first table of
    the walk of [v2p2m].  A packet that is never reported as sent is waited for
    without end. *)

Section transfer.
Context (core : Z) (tables : words) (pgd : Z).

Definition to_card (v_address : Z) : Z := v2p2m tables v_address pgd.

Definition e1000SendPacket (fuel : nat) (e : E1000) (p_data p_len : Z) : IO (E1000 * Z) :=
  lock ← pure (spinlock_lock core (spinlock e));
  let e := e {{ spinlock := lock }} in
  d ← pure (zget (tx_descs e) (tx_cur e));
  _ ← write Mmio 8 (desc_addr d) (to_card p_data);
  _ ← write Mmio 2 (desc_length d) (u16 p_len);
  _ ← write Mmio 1 (tx_cmd d) CMD_SEND;
  _ ← write Mmio 1 (tx_status d) 0;
  current_head ← e1000ReadCommand e REG_TXDESCHEAD;
  let e := e {{ tx_cur := (tx_cur e + 1) mod E1000_NUM_TX_DESC }} in
  _ ← e1000WriteCommand e REG_TXDESCTAIL (tx_cur e);
  status ← read Mmio 1 (tx_status d);
  if truthy (Z.land status 0xff) then mret (e {{ spinlock := spinlock_unlock core (spinlock e) }}, 0)
  else
    _ ← poll fuel (read Mmio 1 (tx_status d)) (fun status => truthy (Z.land status 0xff));
    mret (e {{ spinlock := spinlock_unlock core (spinlock e) }}, 0).

(** ** Setting up the rings *)

Definition rx_slot (descs i : Z) (s : MemoryAllocator * E1000) : IO (MemoryAllocator * E1000) :=
  let '(al, e) := s in
  let d := descs + i * 16 in
  l ← pure (zset (rx_descs e) i d);
  x ← pure (kvalloc core al RX_PACKET_SIZE);
  let '(al, buffer) := x in
  _ ← write Mmio 8 (desc_addr d) buffer;
  v ← read Mmio 8 (desc_addr d);
  vs ← pure (zset (rx_vaddr e) i v);
  p ← read Mmio 8 (desc_addr d);
  _ ← write Mmio 8 (desc_addr d) (to_card p);
  _ ← write Mmio 1 (rx_status d) 0;
  mret (al, e {{ rx_descs := l; rx_vaddr := vs }}).

Definition e1000RXInit (al : MemoryAllocator) (e : E1000) : IO (MemoryAllocator * E1000) :=
  rctl ← e1000ReadCommand e REG_RCTRL;
  _ ← e1000WriteCommand e REG_RCTRL (Z.land rctl (u32 (Z.lnot RCTL_EN)));
  _ ← e1000WriteCommand e REG_RCTRL 0;
  x ← pure (kvalloc core al (16 * E1000_NUM_RX_DESC + 16));
  let '(al, ptr) := x in
  x ← io_for (Z.to_nat E1000_NUM_RX_DESC) 0 1 (rx_slot ptr) (al, e);
  let '(al, e) := x in
  let ptr := to_card ptr in
  _ ← e1000WriteCommand e REG_RXDESCLO (Z.land ptr 0xffffffff);
  _ ← e1000WriteCommand e REG_RXDESCHI (Z.shiftr ptr 32);
  _ ← e1000WriteCommand e REG_RXDESCLEN (E1000_NUM_RX_DESC * 16);
  _ ← e1000WriteCommand e REG_RXDESCHEAD 0;
  _ ← e1000WriteCommand e REG_RXDESCTAIL (E1000_NUM_RX_DESC - 1);
  let e := e {{ rx_cur := 0 }} in
  _ ← e1000WriteCommand e REG_RCTRL RCTL_RECEIVE;
  mret (al, e).

Definition tx_slot (descs i : Z) (e : E1000) : IO E1000 :=
  let d := descs + i * 16 in
  l ← pure (zset (tx_descs e) i d);
  _ ← write Mmio 8 (desc_addr d) 0;
  _ ← write Mmio 1 (tx_cmd d) 0;
  _ ← write Mmio 1 (tx_status d) TSTA_DD;
  mret (e {{ tx_descs := l }}).

Definition e1000TXInit (al : MemoryAllocator) (e : E1000) : IO (MemoryAllocator * E1000) :=
  x ← pure (kvalloc core al (16 * E1000_NUM_TX_DESC + 16));
  let '(al, ptr) := x in
  e ← io_for (Z.to_nat E1000_NUM_TX_DESC) 0 1 (tx_slot ptr) e;
  let ptr := to_card ptr in
  _ ← e1000WriteCommand e REG_TXDESCHI (Z.shiftr ptr 32);
  _ ← e1000WriteCommand e REG_TXDESCLO (Z.land ptr 0xffffffff);
  _ ← e1000WriteCommand e REG_TXDESCHEAD 0;
  _ ← e1000WriteCommand e REG_TXDESCTAIL 0;
  _ ← e1000WriteCommand e REG_TXDESCLEN (E1000_NUM_TX_DESC * 16);
  let e := e {{ tx_cur := 0 }} in
  _ ← e1000WriteCommand e REG_TCTRL 0x3003F0FA;
  _ ← e1000WriteCommand e REG_TIPG 0x0060200A;
  mret (al, e).

(** ** Receiving

    [process] handles one packet; it may send through the card. *)

Section receive.
Context (process : NetworkPacket -> E1000 * Kernel -> IO (E1000 * Kernel)).

(** One round of the loop: the status decides whether there is another packet. *)
Definition receive_one (s : E1000 * Kernel) : IO ((E1000 * Kernel) + (E1000 * Kernel)) :=
  let '(e, k) := s in
  d ← pure (zget (rx_descs e) (rx_cur e));
  status ← read Mmio 1 (rx_status d);
  if truthy (Z.land status 0x1) then
    let k := k {{ packets_received := u64 (packets_received k + 1) }} in
    buf ← read Mmio 8 (desc_addr d);
    len ← read Mmio 2 (desc_length d);
    current_head ← e1000ReadCommand e REG_RXDESCHEAD;
    _ ← write Mmio 1 (rx_status d) 0;
    let old_cur := rx_cur e in
    let e := e {{ rx_cur := (rx_cur e + 1) mod E1000_NUM_RX_DESC }} in
    x ← process (mkNetworkPacket buf len) (e, k);
    let '(e, k) := x in
    _ ← e1000WriteCommand e REG_RXDESCTAIL old_cur;
    mret (inl (e, k))
  else mret (inr (e, k)).

Definition e1000HandleReceive (fuel : nat) (e : E1000) (k : Kernel) : IO (E1000 * Kernel) :=
  current_head ← e1000ReadCommand e REG_RXDESCHEAD;
  if u16 current_head =? rx_cur e then mret (e, k)
  else io_loop fuel receive_one (e, k).

(** [kernel.e1000]: the driver's address, the type, the scope and the padding behind it. *)
Record NetworkDriver := mkNetworkDriver { driver : Z; type : Z; scope : Z; padding : Z }.

(** The fields of an [E1000] at the address of a [NetworkDriver]. *)
Definition misread (n : NetworkDriver) (e : E1000) : E1000 :=
  e {{ bar_type := u8 (driver n); io_base := u16 (Z.shiftr (driver n) 16);
       mem_base := u64 (u8 (type n) + 2 ^ 8 * u8 (scope n) + 2 ^ 16 * padding n) }}.

Definition e1000InterruptHandler (fuel : nat) (interrupt_number : Z) (n : NetworkDriver) (e : E1000) (k : Kernel) : IO (E1000 * Kernel) :=
  x ← (if (type n =? E1000_TYPE) && (int_line e =? interrupt_number) then
         status ← e1000ReadCommand e REG_ICR;
         if truthy (Z.land status 0x04) then _ ← e1000StartLink (misread n e); mret (e, k)
         else if truthy (Z.land status 0x10) then e1000HandleReceive fuel e k
         else if truthy (Z.land status 0x80) then e1000HandleReceive fuel e k
         else mret (e, k)
       else mret (e, k));
  let '(e, k) := x in
  x ← current_core k;
  let '(k, core_id) := x in
  v ← e1000ReadCommand e REG_ICR;
  _ ← e1000WriteCommand e REG_ICR (Z.lor v 0xFFFFFFFF);
  a ← pure (get_apic k core_id);
  _ ← sendAPICEOI a;
  mret (e, k).
End receive.

(** The packet goes up through the protocols; what ARP and IP answer leaves from the
    buffer the packet came in.  [ram] is memory with what the card has put into it. *)
Definition deliver (processIPIOEPacket : Kernel -> NetworkPacket -> IO Kernel) (ram : list event -> memory -> memory) (fuel : nat)
    (skb : NetworkPacket) (s : E1000 * Kernel) : IO (E1000 * Kernel) :=
  let '(e, k) := s in
  t ← (fun _ t => Some (t, t));
  let k := k {{ kernel_memory := ram t (kernel_memory k) }} in
  processEthernetPacket
    (fun o => x ← pure o;
       let '(mem, frames) := x in
       e ← foldl (fun e frame => e ← e; x ← e1000SendPacket fuel e (ethernetPacket skb) (zlen frame); mret (fst x)) (mret e) frames;
       mret (e, k {{ kernel_memory := mem }}))
    (k ← processIPIOEPacket k skb; mret (e, k))
    (mac e) (kernel_memory k) skb.
End transfer.

(** ** Starting the card *)

(** What the initialisation works on besides the kernel: the page tables of the cores, and CR3. *)
Record mapping := mkMapping { pages : paging; core_tables : list MemoryPageTable; cr3 : Z; pgd : Z }.

#[export] Instance eta_mapping : Eta mapping := fun r => mkMapping (pages r) (core_tables r) (cr3 r) (pgd r).

(** The card's registers are mapped if no memory entry has them. *)
Definition map_registers (core : Z) (e : E1000) (k : Kernel) (p : mapping) : option (Kernel * mapping) :=
  m ← IsAddress ((Apic.physicalMemoryManager k) {{ p_physical_address := mem_base e }});
  if (bar_type e =? 0) && negb (is_address m) then
    m ← AddPhysicalMemoryEntry (m {{ p_physical_address := mem_base e; p_size := FOUR_KiB_MEMORY_PAGE_SIZE * 20 }});
    x ← RefreshReserved (core_tables p) core ((pages p) {{ MemoryPageMap.physicalMemoryManager := m }}) (cr3 p);
    let '(s, c) := x in
    Some (k {{ Apic.physicalMemoryManager := MemoryPageMap.physicalMemoryManager s }}, p {{ pages := s; cr3 := c }})
  else Some (k {{ Apic.physicalMemoryManager := m }}, p).

(** [raw] is what the memory behind the new driver held. *)
Definition e1000Init (fuel : nat) (core : Z) (raw : E1000) (pci : PCIDevice) (k : Kernel) (p : mapping)
  : IO (PCIDevice * Kernel * mapping * E1000 * Z) :=
  x ← pure (kmalloc core (memoryAllocator k) E1000_SIZE);
  let '(al, address) := x in
  let k := k {{ memoryAllocator := al }} in
  let e := raw {{ mac_str := replicate 18 0; spinlock := spinlock_init (spinlock raw) }} in
  type ← pure (GetPCIBarType pci 0);
  io ← pure (GetPCIBar pci 1);
  mem ← pure (GetPCIBar pci 0);
  let e := e {{ bar_type := type; io_base := u16 (Z.land io (u32 (Z.lnot 1))); mem_base := Z.land mem (u32 (Z.lnot 3)) }} in
  x ← pure (map_registers core e k p);
  let '(k, p) := x in
  x ← EnablePCIBusMastering pci;
  let '(pci, _) := x in
  x ← pure (virtual_of k (mem_base e));
  let '(k, va) := x in
  let e := e {{ mem_base := va }} in
  e ← e1000DetectEEProm e;
  e ← e1000ReadMACAddress fuel e;
  _ ← e1000StartLink e;
  _ ← io_for 0x80 0 1 (fun i _ => e1000WriteCommand e (0x5200 + i * 4) 0) tt;
  x ← current_core k;
  let '(k, core_id) := x in
  let line := Pci.int_line pci in
  r ← pure (RegisterInterrupt ((interruptManager k) {{ p_interruptNumber := line + IRQ0; p_interruptHandler := Some "e1000InterruptHandler"%string }}));
  let k := k {{ interruptManager := fst r }} in
  x ← e1000RXInit core (pg_mem (pages p)) (pgd p) (memoryAllocator k) e;
  let '(al, e) := x in
  x ← e1000TXInit core (pg_mem (pages p)) (pgd p) al e;
  let '(al, e) := x in
  let k := k {{ memoryAllocator := al }} in
  let e := e {{ int_line := u8 (line + IRQ0) }} in
  a ← pure (get_apic k core_id);
  _ ← mapAPICIRQ a line (line + IRQ0);
  _ ← e1000EnableInterrupt e;
  _ ← e1000ReadCommand e REG_STATUS;
  mret (pci, k, p, e, address).

(** [kernel.e1000] and the driver it points to. *)
Definition nic : Type := option (NetworkDriver * E1000).

Record scanner := mkScanner { scan_pci : PCIService; scan_kernel : Kernel; scan_mapping : mapping; scan_nic : nic }.

(** The device with an index: a new [NetworkDriver] takes the place of the one before. *)
Definition scan_index (fuel : nat) (core : Z) (raw : E1000) (unused : NetworkDriver) (model j : Z) (s : scanner) : IO scanner :=
  x ← pure (GetPCIDeviceAtIndex fuel ((scan_pci s) {{ p_vendor := INTEL_VEND; p_pci_device := model; p_index := j }}));
  let '(svc, found) := x in
  match found with
  | None => mret (mkScanner svc (scan_kernel s) (scan_mapping s) (scan_nic s))
  | Some i =>
      x ← pure (kmalloc core (memoryAllocator (scan_kernel s)) NetworkDriver_SIZE);
      let '(al, address) := x in
      let k := (scan_kernel s) {{ memoryAllocator := al }} in
      if address =? 0 then mret (mkScanner svc k (scan_mapping s) None)
      else
        device ← pure (zget (pciDevices svc) i);
        x ← e1000Init fuel core raw device k (scan_mapping s);
        let '(device, k, p, e, a) := x in
        l ← pure (zset (pciDevices svc) i device);
        mret (mkScanner (svc {{ pciDevices := l }}) k p (Some (mkNetworkDriver a E1000_TYPE (scope unused) (padding unused), e)))
  end.

Definition scan_model (fuel : nat) (core : Z) (raw : E1000) (unused : NetworkDriver) (i : Z) (s : scanner) : IO scanner :=
  model ← pure (zget e1000_models i);
  x ← pure (GetPCIDeviceCount fuel ((scan_pci s) {{ p_vendor := INTEL_VEND; p_pci_device := model }}));
  let '(svc, count) := x in
  io_for (Z.to_nat count) 0 1 (scan_index fuel core raw unused model) (mkScanner svc (scan_kernel s) (scan_mapping s) (scan_nic s)).

Definition e1000Scan (fuel : nat) (core : Z) (raw : E1000) (unused : NetworkDriver) (s : scanner) : IO scanner :=
  io_for 5 0 1 (scan_model fuel core raw unused) s.

(** ** Lemmas *)

Lemma WriteCommand_mapped e a v : bar_type e = 0 -> e1000WriteCommand e a v = write Mmio 4 (u64 (mem_base e + u16 a)) (u32 v).
Proof. intros H. unfold e1000WriteCommand. by rewrite H. Qed.

Lemma ReadCommand_mapped e a : bar_type e = 0 -> e1000ReadCommand e a = read Mmio 4 (u64 (mem_base e + u16 a)).
Proof. intros H. unfold e1000ReadCommand. by rewrite H. Qed.

(** The tables of a driver are complete and its cursors within them. *)
Record card_wf (e : E1000) : Prop := {
  wf_rx : length (rx_descs e) = 32%nat;
  wf_va : length (rx_vaddr e) = 32%nat;
  wf_tx : length (tx_descs e) = 8%nat;
  wf_rx_cur : 0 <= rx_cur e < E1000_NUM_RX_DESC;
  wf_tx_cur : 0 <= tx_cur e < E1000_NUM_TX_DESC
}.

(** Nothing but the cursors and the lock differ. *)
Definition same_rings (e e' : E1000) : Prop :=
  bar_type e' = bar_type e /\ mem_base e' = mem_base e /\ rx_descs e' = rx_descs e /\ rx_vaddr e' = rx_vaddr e /\
  tx_descs e' = tx_descs e /\ rx_cur e' = rx_cur e.

(** *** Sending *)

Definition reg (e : E1000) (a : Z) : Z := u64 (mem_base e + a).

(** What [e1000SendPacket] writes before it waits, with the descriptor [d]. *)
Definition send_writes (tables : words) (pgd : Z) (e : E1000) (d p_data p_len : Z) : list (space * Z * Z) :=
  [(Mmio, d, v2p2m tables p_data pgd); (Mmio, d + 8, u16 p_len); (Mmio, d + 11, CMD_SEND); (Mmio, d + 12, 0);
   (Mmio, reg e REG_TXDESCTAIL, (tx_cur e + 1) mod E1000_NUM_TX_DESC)].

(** The trace when the waiting begins. *)
Definition queued (dev : device) (tables : words) (pgd : Z) (e : E1000) (d p_data p_len : Z) (t : list event) : list event :=
  let t1 := Wr Mmio 1 (d + 12) 0 :: Wr Mmio 1 (d + 11) CMD_SEND :: Wr Mmio 2 (d + 8) (u16 p_len) ::
    Wr Mmio 8 d (v2p2m tables p_data pgd) :: t in
  Wr Mmio 4 (reg e REG_TXDESCTAIL) ((tx_cur e + 1) mod E1000_NUM_TX_DESC) ::
  Rd Mmio 4 (reg e REG_TXDESCHEAD) (dev t1 Mmio 4 (reg e REG_TXDESCHEAD) mod 2 ^ 32) :: t1.

Lemma queued_writes dev tables pgd e d p_data p_len t :
  writes (queued dev tables pgd e d p_data p_len t) = writes t ++ send_writes tables pgd e d p_data p_len.
Proof. unfold queued, send_writes. cbn [writes]. by rewrite <- !app_assoc. Qed.

Lemma v2p2m_range tables a pgd : 0 <= v2p2m tables a pgd < 2 ^ 64.
Proof. unfold v2p2m. apply u64_range. Qed.

Lemma send_run core tables pgd fuel e d p_data p_len dev t :
  bar_type e = 0 -> unheld (spinlock e) -> 0 <= core < 65535 -> zget (tx_descs e) (tx_cur e) = Some d ->
  e1000SendPacket core tables pgd fuel e p_data p_len dev t =
    (_ ← poll (S fuel) (read Mmio 1 (d + 12)) (fun status => truthy (Z.land status 0xff));
     mret (e {{ tx_cur := (tx_cur e + 1) mod E1000_NUM_TX_DESC }}, 0)) dev (queued dev tables pgd e d p_data p_len t).
Proof.
  intros Hb Hl Hc Hd. destruct (lock_unlock core (spinlock e) Hl Hc) as (s & E1 & E2).
  destruct e as [bt io mb ee m ms va rx tx rc tc l il]; cbn [bar_type spinlock tx_descs tx_cur] in *; subst bt.
  unfold e1000SendPacket. cbn [spinlock]. rewrite E1, run_pure. cbv beta zeta.
  cbn [tx_descs tx_cur apply_update constant spinlock bar_type io_base mem_base eerprom_exists mac mac_str rx_vaddr rx_descs rx_cur int_line].
  rewrite Hd, run_pure. unfold e1000ReadCommand, e1000WriteCommand. cbn [bar_type mem_base Z.eqb].
  assert (Hm : (tc + 1) mod E1000_NUM_TX_DESC mod 2 ^ 32 = (tc + 1) mod E1000_NUM_TX_DESC).
  { pose proof (Z.mod_pos_bound (tc + 1) E1000_NUM_TX_DESC ltac:(done)). unfold E1000_NUM_TX_DESC in *. apply Z.mod_small. lia. }
  rewrite !(run_bind (write _ _ _ _) _ _ _ tt _ eq_refl), (run_bind (mmio_read32 _) _ _ _ _ _ eq_refl), !(run_bind (mmio_write32 _ _) _ _ _ tt _ eq_refl).
  rewrite (run_bind (read _ _ _) _ _ _ _ _ eq_refl).
  match goal with |- (if truthy (Z.land (dev ?T _ _ _ mod _) _) then _ else _) _ _ = _ ?Q => assert (HT : T = Q) end.
  { unfold queued, reg. rewrite (Z.mod_small (to_card _ _ _)) by apply v2p2m_range. rewrite (Z.mod_small (u16 p_len)) by apply u16_range.
    rewrite (Z.mod_small (u32 _)) by apply u32_range. unfold u32 at 1. cbn [mem_base tx_cur]. by rewrite Hm. }
  rewrite HT, E2. clear HT. unfold mbind at 2, IO_bind at 2. rewrite poll_step. unfold shows. cbn [reads].
  by destruct (truthy _).
Qed.

(** C14: With the card mapped into memory and its lock free, a packet takes the
    descriptor at the cursor: the physical address, the length, the command and
    a cleared status are written in this order, then the tail register hands the
    descriptor over, and the call returns 0 with the lock free and the cursor
    on the next of the eight descriptors as soon as the status shows something,
    however long that takes.  While it shows nothing the call does not return. *)
Theorem packet_sent core tables pgd e p_data p_len dev t :
  card_wf e -> bar_type e = 0 -> unheld (spinlock e) -> 0 <= core < 65535 ->
  exists d, zget (tx_descs e) (tx_cur e) = Some d /\
    let t1 := queued dev tables pgd e d p_data p_len t in
    let done_at k := truthy (Z.land (shows dev Mmio 1 (d + 12) k t1) 0xff) in
    (forall k fuel, (k <= fuel)%nat -> done_at k = true -> (forall j, (j < k)%nat -> done_at j = false) ->
      exists e' t', e1000SendPacket core tables pgd fuel e p_data p_len dev t = Some ((e', 0), t') /\
        card_wf e' /\ same_rings e e' /\ unheld (spinlock e') /\ tx_cur e' = (tx_cur e + 1) mod E1000_NUM_TX_DESC /\
        writes t' = writes t ++ send_writes tables pgd e d p_data p_len) /\
    ((forall k, done_at k = false) -> forall fuel, e1000SendPacket core tables pgd fuel e p_data p_len dev t = None).
Proof.
  intros [W1 W2 W3 W4 W5] Hb Hl Hc.
  destruct (zget_some (tx_descs e) (tx_cur e)) as [d Hd]; [unfold zlen; rewrite W3; exact W5|].
  exists d. split; [done|]. cbv zeta. split.
  - intros k fuel Hk Hyes Hno. rewrite (send_run core tables pgd fuel e d) by done.
    rewrite (run_bind _ _ _ _ _ _ (poll_stops (S fuel) _ _ _ _ _ k _ ltac:(lia) Hno Hyes)).
    eexists _, _. split; [reflexivity|]. rewrite writes_reads, queued_writes.
    pose proof (Z.mod_pos_bound (tx_cur e + 1) E1000_NUM_TX_DESC ltac:(done)).
    by split_and!.
  - intros Hno fuel. rewrite (send_run core tables pgd fuel e d) by done. apply run_bind_none.
    destruct (poll _ _ _ _ _) as [[v t']|] eqn:E; [|done].
    apply poll_result in E as (k & -> & _ & Hs & _). by rewrite Hno in Hs.
Qed.

(** A card with its rings at 0x40000 and 0x50000, and one that sends what it is told. *)
Definition sample_card : E1000 :=
  mkE1000 0 0 0xF0000000 true [0x52; 0x54; 0; 1; 2; 3] (replicate 18 0) (map (fun i => 0x60000 + 4096 * i) (seqZ 0 32))
    (map (fun i => 0x40000 + 16 * i) (seqZ 0 32)) (map (fun i => 0x50000 + 16 * i) (seqZ 0 8)) 30 7 (mkspinlock 0 0 0 0) 43.

Lemma sample_card_wf : card_wf sample_card.
Proof. split; vm_compute; first [done | split; [discriminate | done]]. Qed.

Definition sending_card : device := fun t _ _ _ => if bool_decide (zlen t < 10) then 0 else 1.

Lemma packet_sent_witness :
  card_wf sample_card /\ unheld (spinlock sample_card) /\
  exists e' t', e1000SendPacket 0 (fun _ => 0) 0 8 sample_card 0x1234 60 sending_card [] = Some ((e', 0), t') /\
    tx_cur e' = 0 /\ writes t' = [(Mmio, 0x50070, 0x1234); (Mmio, 0x50078, 60); (Mmio, 0x5007B, 0x1B); (Mmio, 0x5007C, 0);
      (Mmio, 0xF0003818, 0)].
Proof.
  split; [exact sample_card_wf|]. split; [by split|].
  destruct (packet_sent 0 (fun _ => 0) 0 sample_card 0x1234 60 sending_card []) as (d & Hd & H & _);
    [exact sample_card_wf | reflexivity | by split | lia |].
  assert (d = 0x50070) as -> by (vm_compute in Hd; congruence).
  destruct (H 4%nat 8%nat) as (e' & t' & E & _ & _ & _ & Hc & Hw); [lia | vm_compute; reflexivity | |].
  - intros j Hj. do 4 (destruct j as [|j]; [vm_compute; reflexivity|]). lia.
  - exists e', t'. split; [exact E|]. split; [exact Hc|]. rewrite Hw. vm_compute. reflexivity.
Defined.

(** *** The rings *)

Definition ring (p n : Z) : list Z := map (fun i => p + i * 16) (seqZ 0 n).

Lemma zget_ring p n i : 0 <= i < n -> zget (ring p n) i = Some (p + i * 16).
Proof.
  intros Hi. unfold zget, ring. bdestr (0 <=? i); [|lia]. rewrite list_lookup_fmap, lookup_seqZ_lt by lia. simpl. do 2 f_equal. lia.
Qed.

Lemma ring_length p n : length (ring p n) = Z.to_nat n.
Proof. unfold ring. by rewrite length_map, length_seqZ. Qed.

Lemma ring_eq p n l : 0 <= n -> length l = Z.to_nat n -> (forall i, 0 <= i < n -> zget l i = Some (p + i * 16)) -> l = ring p n.
Proof.
  intros Hn Hl H. apply zget_ext; [by rewrite Hl, ring_length|]. intros i Hi. unfold zlen in Hi.
  rewrite H, zget_ring by lia. done.
Qed.

(** The state of the driver in the middle of the first loop: [i] slots are set up. *)
Definition rx_partial (p : Z) (al0 : MemoryAllocator) (e0 : E1000) (i : Z) (s : MemoryAllocator * E1000) : Prop :=
  let '(al, e) := s in
  alloc_wf al /\ kernel_memory_end_address al = kernel_memory_end_address al0 /\
  kernel_memory_current_address al0 <= kernel_memory_current_address al <= kernel_memory_current_address al0 + i * 8192 /\
  length (rx_descs e) = 32%nat /\ length (rx_vaddr e) = 32%nat /\
  (forall j, 0 <= j < i -> zget (rx_descs e) j = Some (p + j * 16)) /\
  bar_type e = bar_type e0 /\ mem_base e = mem_base e0 /\ tx_descs e = tx_descs e0 /\ tx_cur e = tx_cur e0.

Lemma rx_slot_run core tables pgd p al0 e0 i s dev t :
  rx_partial p al0 e0 i s -> 0 <= core < 65535 -> 0 <= i < 32 ->
  kernel_memory_current_address al0 + 32 * 8192 < kernel_memory_end_address al0 ->
  exists s' t', rx_slot core tables pgd p i s dev t = Some (s', t') /\ rx_partial p al0 e0 (i + 1) s'.
Proof.
  destruct s as [al e]. intros (Ha & He & Hcur & Hl & Hv & Hj & R) Hc Hi Hroom. unfold rx_slot.
  destruct (kvalloc_fits core al RX_PACKET_SIZE Ha Hc) as (al' & b & Ek & Ha' & He' & Hb & Hcur'); [done|unfold RX_PACKET_SIZE; lia|].
  rewrite (zset_eq (rx_descs e)) by (unfold zlen; lia). rewrite run_pure, Ek, run_pure. cbv beta iota.
  rewrite (run_bind (write _ _ _ _) _ _ _ tt _ eq_refl), (run_bind (read _ _ _) _ _ _ _ _ eq_refl).
  rewrite (zset_eq (rx_vaddr e)) by (unfold zlen; lia). rewrite run_pure.
  rewrite (run_bind (read _ _ _) _ _ _ _ _ eq_refl), !(run_bind (write _ _ _ _) _ _ _ tt _ eq_refl).
  eexists _, _. split; [reflexivity|]. unfold rx_partial. destruct R as (R1 & R2 & R3 & R4). unfold RX_PACKET_SIZE in *.
  split; [done|]. split; [congruence|]. split; [lia|].
  cbn [rx_descs rx_vaddr tx_descs tx_cur bar_type mem_base apply_update constant]. rewrite !length_insert.
  split_and!; try done. intros j Hj'. rewrite (zget_zset (rx_descs e) i (p + i * 16)) by (by apply zset_eq; unfold zlen; lia).
  bdestr (j =? i); [by subst j|]. apply Hj. lia.
Qed.

Lemma WriteCommand_total e a v dev t : exists t', e1000WriteCommand e a v dev t = Some (tt, t').
Proof. unfold e1000WriteCommand. destruct (bar_type e =? 0); eexists; reflexivity. Qed.

Lemma ReadCommand_total e a dev t : exists v t', e1000ReadCommand e a dev t = Some (v, t').
Proof. unfold e1000ReadCommand. destruct (bar_type e =? 0); eexists _, _; reflexivity. Qed.

(** What the card is told about its rings. *)
Definition rx_registers (tables : words) (pgd : Z) (e : E1000) (p : Z) : list (space * Z * Z) :=
  let q := v2p2m tables p pgd in
  [(Mmio, reg e REG_RXDESCLO, u32 q); (Mmio, reg e REG_RXDESCHI, q / 2 ^ 32); (Mmio, reg e REG_RXDESCLEN, 512);
   (Mmio, reg e REG_RXDESCHEAD, 0); (Mmio, reg e REG_RXDESCTAIL, 31); (Mmio, reg e REG_RCTRL, RCTL_RECEIVE)].

Definition tx_registers (tables : words) (pgd : Z) (e : E1000) (p : Z) : list (space * Z * Z) :=
  let q := v2p2m tables p pgd in
  [(Mmio, reg e REG_TXDESCHI, q / 2 ^ 32); (Mmio, reg e REG_TXDESCLO, u32 q); (Mmio, reg e REG_TXDESCHEAD, 0);
   (Mmio, reg e REG_TXDESCTAIL, 0); (Mmio, reg e REG_TXDESCLEN, 128); (Mmio, reg e REG_TCTRL, 0x3003F0FA);
   (Mmio, reg e REG_TIPG, 0x0060200A)].

Lemma address_halves q : 0 <= q < 2 ^ 64 -> u32 (Z.land q 0xffffffff) mod 2 ^ (8 * 4) = u32 q /\
  u32 (Z.shiftr q 32) mod 2 ^ (8 * 4) = q / 2 ^ 32.
Proof.
  intros Hq. change 0xffffffff with (Z.ones 32). rewrite Z.land_ones, Z.shiftr_div_pow2 by lia. unfold u32.
  change (8 * 4) with 32. rewrite !Z.mod_mod by done. split; [done|]. apply Z.mod_small. split; [apply Z.div_pos | apply Z.div_lt_upper_bound]; lia.
Qed.

Lemma RXInit_run core tables pgd al e dev t :
  alloc_wf al -> 0 <= core < 65535 -> bar_type e = 0 -> length (rx_descs e) = 32%nat -> length (rx_vaddr e) = 32%nat ->
  kernel_memory_current_address al + 33 * 8192 < kernel_memory_end_address al ->
  exists p al' e' t' l, e1000RXInit core tables pgd al e dev t = Some ((al', e'), t') /\
    alloc_wf al' /\ kernel_memory_end_address al' = kernel_memory_end_address al /\
    kernel_memory_current_address al <= p /\ p + 512 <= kernel_memory_current_address al' <= kernel_memory_current_address al + 33 * 8192 /\
    rx_descs e' = ring p 32 /\ length (rx_vaddr e') = 32%nat /\ rx_cur e' = 0 /\
    bar_type e' = bar_type e /\ mem_base e' = mem_base e /\ tx_descs e' = tx_descs e /\ tx_cur e' = tx_cur e /\
    writes t' = l ++ rx_registers tables pgd e p.
Proof.
  intros Ha Hc Hb Hl Hv Hroom. unfold e1000RXInit.
  destruct (ReadCommand_total e REG_RCTRL dev t) as (v & t1 & E1). rewrite (run_bind _ _ _ _ _ _ E1).
  destruct (WriteCommand_total e REG_RCTRL (Z.land v (u32 (Z.lnot RCTL_EN))) dev t1) as (t2 & E2). rewrite (run_bind _ _ _ _ _ _ E2).
  destruct (WriteCommand_total e REG_RCTRL 0 dev t2) as (t3 & E3). rewrite (run_bind _ _ _ _ _ _ E3).
  destruct (kvalloc_fits core al (16 * E1000_NUM_RX_DESC + 16) Ha Hc) as (al1 & p & Ek & Ha1 & He1 & Hp & Hcur1); [done|unfold E1000_NUM_RX_DESC; lia|].
  rewrite Ek, run_pure. cbv beta iota. unfold E1000_NUM_RX_DESC in Hcur1.
  destruct (io_for_inv (fun i s _ => rx_partial p al1 e i s) 1 (rx_slot core tables pgd p) dev 32 0 (al1, e) t3) as ((al' & e') & t' & E & H).
  - unfold rx_partial. split_and!; (done || lia).
  - intros k s u (j & -> & Hj) Hs. apply rx_slot_run; try done; lia.
  - change (Z.to_nat E1000_NUM_RX_DESC) with 32%nat. rewrite (run_bind _ _ _ _ _ _ E). cbv beta iota zeta.
    change (0 + 1 * Z.of_nat 32) with 32 in H. destruct H as (A1 & A2 & A3 & A4 & A5 & A6 & A7 & A8 & A9 & A10).
    rewrite !WriteCommand_mapped by (cbn [bar_type apply_update constant]; congruence).
    rewrite !(run_bind (write _ _ _ _) _ _ _ tt _ eq_refl).
    eexists p, al', _, _, (writes t'). split; [reflexivity|].
    cbn [rx_descs rx_vaddr tx_descs tx_cur rx_cur bar_type mem_base apply_update constant].
    split; [done|]. split; [congruence|]. split; [lia|]. split; [lia|]. split; [apply ring_eq; done || lia|].
    split_and!; try done.
    cbn [writes]. unfold rx_registers, to_card. destruct (address_halves _ (v2p2m_range tables p pgd)) as [-> ->].
    rewrite A8, <- !app_assoc. done.
Qed.

Definition tx_partial (p : Z) (e0 : E1000) (i : Z) (e : E1000) : Prop :=
  length (tx_descs e) = 8%nat /\ (forall j, 0 <= j < i -> zget (tx_descs e) j = Some (p + j * 16)) /\
  bar_type e = bar_type e0 /\ mem_base e = mem_base e0 /\ rx_descs e = rx_descs e0 /\ rx_vaddr e = rx_vaddr e0 /\ rx_cur e = rx_cur e0.

Lemma TXInit_run core tables pgd al e dev t :
  alloc_wf al -> 0 <= core < 65535 -> bar_type e = 0 -> length (tx_descs e) = 8%nat ->
  kernel_memory_current_address al + 8192 < kernel_memory_end_address al ->
  exists p al' e' t' l, e1000TXInit core tables pgd al e dev t = Some ((al', e'), t') /\
    alloc_wf al' /\ kernel_memory_current_address al <= p /\ p + 128 <= kernel_memory_current_address al' /\
    tx_descs e' = ring p 8 /\ tx_cur e' = 0 /\
    rx_descs e' = rx_descs e /\ rx_vaddr e' = rx_vaddr e /\ rx_cur e' = rx_cur e /\
    writes t' = l ++ tx_registers tables pgd e p.
Proof.
  intros Ha Hc Hb Hl Hroom. unfold e1000TXInit.
  destruct (kvalloc_fits core al (16 * E1000_NUM_TX_DESC + 16) Ha Hc) as (al1 & p & Ek & Ha1 & He1 & Hp & Hcur1); [done|unfold E1000_NUM_TX_DESC; lia|].
  rewrite Ek, run_pure. cbv beta iota. unfold E1000_NUM_TX_DESC in Hcur1.
  destruct (io_for_inv (fun i s _ => tx_partial p e i s) 1 (tx_slot p) dev 8 0 e t) as (e' & t' & E & H).
  - unfold tx_partial. split_and!; (done || lia).
  - intros k s u (j & -> & Hj) (B1 & B2 & B3 & B4 & B5 & B6 & B7). unfold tx_slot.
    rewrite (zset_eq (tx_descs s)) by (unfold zlen; lia). rewrite run_pure, !(run_bind (write _ _ _ _) _ _ _ tt _ eq_refl).
    eexists _, _. split; [reflexivity|]. unfold tx_partial.
    cbn [rx_descs rx_vaddr tx_descs rx_cur bar_type mem_base apply_update constant]. rewrite length_insert.
    split_and!; try done. intros i Hi. erewrite (zget_zset (tx_descs s)) by (apply zset_eq; unfold zlen; lia).
    bdestr (i =? 0 + 1 * Z.of_nat j); [by subst i|]. apply B2. lia.
  - change (Z.to_nat E1000_NUM_TX_DESC) with 8%nat. rewrite (run_bind _ _ _ _ _ _ E). cbv beta iota zeta.
    change (0 + 1 * Z.of_nat 8) with 8 in H. destruct H as (B1 & B2 & B3 & B4 & B5 & B6 & B7).
    rewrite !WriteCommand_mapped by (cbn [bar_type apply_update constant]; congruence).
    rewrite !(run_bind (write _ _ _ _) _ _ _ tt _ eq_refl).
    eexists p, al1, _, _, (writes t'). split; [reflexivity|].
    cbn [rx_descs rx_vaddr tx_descs tx_cur rx_cur bar_type mem_base apply_update constant].
    split; [done|]. split; [lia|]. split; [lia|]. split; [apply ring_eq; done || lia|]. split_and!; try done.
    cbn [writes]. unfold tx_registers, to_card. destruct (address_halves _ (v2p2m_range tables p pgd)) as [-> ->].
    rewrite B4, <- !app_assoc. done.
Qed.

(** A driver whose tables have room for them gets its rings: with enough
    kernel memory the two initialisations return, every entry of the tables is
    in place, the 32 receive and the 8 transmit descriptors follow each other
    in blocks that do not meet, the cursors are at their starts, and the last
    the card is told about each ring is its physical address and its size. *)
Theorem rings_set_up core tables pgd al e dev t :
  alloc_wf al -> 0 <= core < 65535 -> bar_type e = 0 ->
  length (rx_descs e) = 32%nat -> length (rx_vaddr e) = 32%nat -> length (tx_descs e) = 8%nat ->
  kernel_memory_current_address al + 34 * 8192 < kernel_memory_end_address al ->
  exists p q al1 al2 e1 e2 t1 t2 l1 l2,
    e1000RXInit core tables pgd al e dev t = Some ((al1, e1), t1) /\
    e1000TXInit core tables pgd al1 e1 dev t1 = Some ((al2, e2), t2) /\
    card_wf e2 /\ rx_descs e2 = ring p 32 /\ tx_descs e2 = ring q 8 /\ rx_cur e2 = 0 /\ tx_cur e2 = 0 /\
    kernel_memory_current_address al <= p /\ p + 32 * 16 <= q /\ q + 8 * 16 <= kernel_memory_current_address al2 /\
    writes t1 = l1 ++ rx_registers tables pgd e p /\ writes t2 = l2 ++ tx_registers tables pgd e q.
Proof.
  intros Ha Hc Hb Hr Hv Ht Hroom.
  destruct (RXInit_run core tables pgd al e dev t) as (p & al1 & e1 & t1 & l1 & E1 & A1 & A2 & A3 & A4 & A5 & A6 & A7 & A8 & A9 & A10 & A11 & A12); try done; [lia|].
  destruct (TXInit_run core tables pgd al1 e1 dev t1) as (q & al2 & e2 & t2 & l2 & E2 & B1 & B2 & B3 & B4 & B5 & B6 & B7 & B8 & B9); try done; try congruence; [lia|].
  exists p, q, al1, al2, e1, e2, t1, t2, l1, l2. split; [done|]. split; [done|].
  split; [split; rewrite ?B6, ?B7, ?B8, ?B4, ?B5, ?A5, ?A7, ?ring_length; unfold E1000_NUM_RX_DESC, E1000_NUM_TX_DESC; done || lia|].
  split; [congruence|]. split; [done|]. split; [congruence|]. split; [done|]. split; [lia|]. split; [lia|]. split; [lia|].
  split; [done|]. rewrite B9. unfold tx_registers, reg. by rewrite A9.
Qed.

Definition blank_card : E1000 :=
  mkE1000 0 0 0xF0000000 true [] [] (replicate 32 0) (replicate 32 0) (replicate 8 0) 0 0 (mkspinlock 0 0 0 0) 0.

Lemma rings_set_up_witness :
  exists p q al1 al2 e1 e2 t1 t2, e1000RXInit 0 (fun _ => 0) 0 (mkMemoryAllocator 0x10000 0x10010 0x10000000 0x10000000 0x10000000 0x20000000 0 (mkspinlock 0 0 0 0)) blank_card (fun _ _ _ _ => 0) [] = Some ((al1, e1), t1) /\
    e1000TXInit 0 (fun _ => 0) 0 al1 e1 (fun _ _ _ _ => 0) t1 = Some ((al2, e2), t2) /\ card_wf e2 /\ p + 512 <= q.
Proof.
  destruct (rings_set_up 0 (fun _ => 0) 0 (mkMemoryAllocator 0x10000 0x10010 0x10000000 0x10000000 0x10000000 0x20000000 0 (mkspinlock 0 0 0 0))
    blank_card (fun _ _ _ _ => 0) []) as (p & q & al1 & al2 & e1 & e2 & t1 & t2 & l1 & l2 & E1 & E2 & W & _ & _ & _ & _ & _ & Hpq & _);
    [split; vm_compute; repeat split; discriminate || done | lia | done | done | done | done | cbn; lia |].
  exists p, q, al1, al2, e1, e2, t1, t2. split; [exact E1|]. split; [exact E2|]. split; [exact W | exact Hpq].
Defined.

(** *** Receiving *)

Section receiving.
Context (dev : device) (process : NetworkPacket -> E1000 * Kernel -> IO (E1000 * Kernel)).

(** The card has filled the descriptors from the cursor on with [packets], and no more. *)
Record fills (e : E1000) (packets : list NetworkPacket) : Prop := {
  dl_room : zlen packets < E1000_NUM_RX_DESC;
  dl_full : forall i d t, 0 <= i < zlen packets -> zget (rx_descs e) ((rx_cur e + i) mod E1000_NUM_RX_DESC) = Some d ->
    Z.testbit (dev t Mmio 1 (d + 12)) 0 = true;
  dl_packet : forall i d t s, zget packets i = Some s -> zget (rx_descs e) ((rx_cur e + i) mod E1000_NUM_RX_DESC) = Some d ->
    dev t Mmio 8 d mod 2 ^ 64 = ethernetPacket s /\ dev t Mmio 2 (d + 8) mod 2 ^ 16 = packet_size s;
  dl_end : forall d t, zget (rx_descs e) ((rx_cur e + zlen packets) mod E1000_NUM_RX_DESC) = Some d ->
    Z.testbit (dev t Mmio 1 (d + 12)) 0 = false
}.

(** What holds of the driver, the kernel and the trace once some packets have been handled, and does not depend
    on the cursor, on the count of packets and on further events. *)
Record stable (P : list NetworkPacket -> E1000 -> Kernel -> list event -> Prop) : Prop := {
  stable_event : forall l e k t ev, P l e k t -> P l e k (ev :: t);
  stable_count : forall l e k t n, P l e k t -> P l e (k {{ packets_received := n }}) t;
  stable_cursor : forall l e k t n, P l e k t -> P l (e {{ rx_cur := n }}) k t
}.

(** Handling the next of the packets leaves the rings and the count alone. *)
Definition handles (packets : list NetworkPacket) (P : list NetworkPacket -> E1000 -> Kernel -> list event -> Prop) : Prop :=
  stable P /\ forall l s r e k t, packets = l ++ s :: r -> P l e k t -> exists e' k' t', process s (e, k) dev t = Some ((e', k'), t') /\
    same_rings e e' /\ (card_wf e -> card_wf e') /\ P (l ++ [s]) e' k' t' /\ packets_received k' = packets_received k.

Lemma delivers_shift e e' s packets :
  fills e (s :: packets) -> rx_descs e' = rx_descs e -> rx_cur e' = (rx_cur e + 1) mod E1000_NUM_RX_DESC ->
  fills e' packets.
Proof.
  intros [D1 D2 D3 D4] Hd Hcur. rewrite zlen_cons in *. pose proof (zlen_nonneg packets).
  assert (forall i, (rx_cur e' + i) mod E1000_NUM_RX_DESC = (rx_cur e + (1 + i)) mod E1000_NUM_RX_DESC) as Hm.
  { intros i. rewrite Hcur, Zplus_mod_idemp_l. f_equal. lia. }
  split; rewrite ?Hd.
  - lia.
  - intros i d t Hi. rewrite Hm. apply D2. lia.
  - intros i d t s' Hs. rewrite Hm. apply D3. pose proof (zget_lt _ _ _ Hs). unfold zget in *.
    bdestr (0 <=? i); [|done]. bdestr (0 <=? 1 + i); [|lia]. by replace (Z.to_nat (1 + i)) with (Datatypes.S (Z.to_nat i)) by lia.
  - intros d t. rewrite Hm. apply D4.
Qed.

Lemma status_bit v : truthy (Z.land (v mod 2 ^ (8 * 1)) 0x1) = Z.testbit v 0.
Proof.
  transitivity (Z.testbit (v mod 2 ^ (8 * 1)) 0); [exact (land_bit _ 0 ltac:(lia))|]. apply Z.mod_pow2_bits_low. lia.
Qed.

(** One round of the loop with a packet in the slot, and one without. *)
Lemma receive_one_full all P l e k s packets t :
  handles all P -> all = l ++ s :: packets -> card_wf e -> bar_type e = 0 -> fills e (s :: packets) -> P l e k t ->
  exists e' k' t', receive_one process (e, k) dev t = Some (inl (e', k'), t') /\
    card_wf e' /\ bar_type e' = 0 /\ fills e' packets /\ P (l ++ [s]) e' k' t' /\
    rx_cur e' = (rx_cur e + 1) mod E1000_NUM_RX_DESC /\ packets_received k' = u64 (packets_received k + 1).
Proof.
  intros [HS HP] Hall [W1 W2 W3 W4 W5] Hb Hdel Hl.
  destruct (zget_some (rx_descs e) (rx_cur e)) as [d Hd]; [unfold zlen; rewrite W1; exact W4|].
  assert (zget (rx_descs e) ((rx_cur e + 0) mod E1000_NUM_RX_DESC) = Some d) as Hd0 by (by rewrite Z.add_0_r, Z.mod_small).
  pose proof (zlen_nonneg packets).
  unfold receive_one, rx_status, desc_addr, desc_length. rewrite Hd, run_pure, (run_bind (read _ _ _) _ _ _ _ _ eq_refl), status_bit.
  rewrite (dl_full _ _ Hdel 0 d t) by (done || (rewrite zlen_cons; lia)). cbv zeta.
  rewrite !(run_bind (read _ _ _) _ _ _ _ _ eq_refl), ReadCommand_mapped by done.
  rewrite (run_bind (read _ _ _) _ _ _ _ _ eq_refl), (run_bind (write _ _ _ _) _ _ _ tt _ eq_refl).
  rewrite (fun u => proj1 (dl_packet _ _ Hdel 0 d u s eq_refl Hd0) : _ mod 2 ^ (8 * 8) = _).
  rewrite (fun u => proj2 (dl_packet _ _ Hdel 0 d u s eq_refl Hd0) : _ mod 2 ^ (8 * 2) = _).
  match goal with |- context [process _ (?e1, ?k1)] => set (e1' := e1); set (k1' := k1) end.
  destruct s as [buf len]. cbn [ethernetPacket packet_size].
  match goal with |- context [(process ?x ?y ≫= ?f) dev ?u] =>
    destruct (HP l x packets e1' k1' u Hall) as (e' & k' & t' & E & Hs & Hw & HP' & Hr) end.
  { apply (stable_cursor _ HS), (stable_count _ HS). by do 5 apply (stable_event _ HS). }
  destruct Hs as (S1 & S2 & S3 & S4 & S5 & S6). rewrite (run_bind _ _ _ _ _ _ E). cbv beta iota.
  rewrite WriteCommand_mapped, (run_bind (write _ _ _ _) _ _ _ tt _ eq_refl) by (by rewrite S1).
  eexists e', k', _. split; [reflexivity|].
  split; [apply Hw; by split; try apply Z.mod_pos_bound|]. split; [by rewrite S1|].
  split; [exact (delivers_shift e e' _ _ Hdel S3 S6)|]. split; [by apply (stable_event _ HS)|]. done.
Qed.

Lemma receive_one_empty e k t : card_wf e -> fills e [] ->
  exists ev, receive_one process (e, k) dev t = Some (inr (e, k), ev :: t).
Proof.
  intros [W1 W2 W3 W4 W5] Hdel.
  destruct (zget_some (rx_descs e) (rx_cur e)) as [d Hd]; [unfold zlen; rewrite W1; exact W4|].
  unfold receive_one, rx_status. rewrite Hd, run_pure, (run_bind (read _ _ _) _ _ _ _ _ eq_refl), status_bit.
  rewrite (dl_end _ _ Hdel d t) by (by rewrite Z.add_0_r, Z.mod_small). by eexists.
Qed.

Lemma receive_loop all P packets : handles all P -> forall l e k t fuel,
  all = l ++ packets -> card_wf e -> bar_type e = 0 -> fills e packets -> P l e k t -> 0 <= packets_received k < 2 ^ 64 ->
  (length packets < fuel)%nat ->
  exists e' k' t', io_loop fuel (receive_one process) (e, k) dev t = Some ((e', k'), t') /\ card_wf e' /\
    P all e' k' t' /\ rx_cur e' = (rx_cur e + zlen packets) mod E1000_NUM_RX_DESC /\
    packets_received k' = u64 (packets_received k + zlen packets).
Proof.
  intros HP. induction packets as [|s packets IH]; intros l e k t [|fuel] Hall W Hb Hdel Hl Hk Hf; simpl in Hf; try lia; rewrite io_loop_S.
  - destruct (receive_one_empty e k t W Hdel) as (ev & E). rewrite (run_bind _ _ _ _ _ _ E).
    exists e, k, (ev :: t). split; [reflexivity|]. rewrite app_nil_r in Hall. subst l. change (zlen []) with 0. rewrite !Z.add_0_r.
    rewrite u64_small, Z.mod_small by (done || exact (wf_rx_cur _ W)). split; [done|]. split; [|done]. by apply (stable_event _ (proj1 HP)).
  - destruct (receive_one_full all P l e k s packets t HP Hall W Hb Hdel Hl) as (e1 & k1 & t1 & E & W1 & Hb1 & Hd1 & Hl1 & Hc1 & Hk1).
    rewrite (run_bind _ _ _ _ _ _ E).
    destruct (IH (l ++ [s]) e1 k1 t1 fuel) as (e' & k' & t' & E' & W' & HP' & Hc' & Hk'); try done; [by rewrite <- app_assoc | rewrite Hk1; apply u64_range | lia |].
    exists e', k', t'. split; [exact E'|]. split; [done|]. split; [done|].
    rewrite zlen_cons. rewrite Hc', Hk', Hc1, Hk1. unfold u64. rewrite Zplus_mod_idemp_l, Zplus_mod_idemp_l. split; f_equal; lia.
Qed.

Lemma receive_all P packets fuel e k t :
  handles packets P -> card_wf e -> bar_type e = 0 -> fills e packets -> P [] e k t ->
  0 <= packets_received k < 2 ^ 64 -> (length packets < fuel)%nat ->
  u16 (dev t Mmio 4 (reg e REG_RXDESCHEAD) mod 2 ^ 32) <> rx_cur e ->
  exists e' k' t', e1000HandleReceive process fuel e k dev t = Some ((e', k'), t') /\ card_wf e' /\
    P packets e' k' t' /\ rx_cur e' = (rx_cur e + zlen packets) mod E1000_NUM_RX_DESC /\
    packets_received k' = u64 (packets_received k + zlen packets).
Proof.
  intros HP W Hb Hdel Hl Hk Hf Hhead. unfold e1000HandleReceive.
  rewrite ReadCommand_mapped by done. rewrite (run_bind (read _ _ _) _ _ _ _ _ eq_refl).
  destruct (_ =? _) eqn:Eh; [exfalso; apply Hhead; by apply Z.eqb_eq in Eh|].
  apply (receive_loop packets P packets HP [] e k); try done. by apply (stable_event _ (proj1 HP)).
Qed.

End receiving.

(** Three packets in the slots 30, 31 and 0. *)
Definition three_packets : list NetworkPacket := [mkNetworkPacket 0x7E000 60; mkNetworkPacket 0x7F000 61; mkNetworkPacket 0x60000 62].

Definition filled_card : device := fun _ _ n a =>
  if n =? 8 then 0x60000 + 4096 * ((a - 0x40000) / 16)
  else if n =? 2 then match (a - 0x40000 - 8) / 16 with 30 => 60 | 31 => 61 | _ => 62 end
  else if n =? 1 then match (a - 0x40000 - 12) / 16 with 30 | 31 | 0 => 1 | _ => 0 end
  else 1.

(** Each packet appends its size to a number kept at address 0. *)
Definition note_size (s : NetworkPacket) (x : E1000 * Kernel) : IO (E1000 * Kernel) :=
  let '(e, k) := x in
  let m := kernel_memory k in
  mret (e, k {{ kernel_memory := fun a => if a =? 0 then m 0 * 100 + packet_size s else m a }}).

Definition sizes_noted (l : list NetworkPacket) (e : E1000) (k : Kernel) (t : list event) : Prop :=
  kernel_memory k 0 = foldl (fun n s => n * 100 + packet_size s) 0 l.

Lemma note_size_handles : handles filled_card note_size three_packets sizes_noted.
Proof.
  split; [by split|]. intros l s r e k t _ Hl. eexists _, _, _. split; [reflexivity|]. split; [by split_and!|]. split; [done|]. split; [|done].
  unfold sizes_noted. cbn [kernel_memory apply_update constant]. rewrite Z.eqb_refl, Hl, foldl_app. done.
Qed.

Lemma three_packets_delivered : fills filled_card sample_card three_packets.
Proof.
  split.
  - done.
  - intros i d t Hi Hd. assert (i = 0 \/ i = 1 \/ i = 2) as Hc by (change (zlen three_packets) with 3 in Hi; lia).
    destruct Hc as [-> | [-> | ->]]; vm_compute in Hd; injection Hd as <-; reflexivity.
  - intros i d t s Hs Hd. pose proof (zget_lt _ _ _ Hs) as Hi. assert (i = 0 \/ i = 1 \/ i = 2) as Hc by (change (zlen three_packets) with 3 in Hi; lia).
    destruct Hc as [-> | [-> | ->]]; vm_compute in Hd, Hs; injection Hd as <-; injection Hs as <-; split; reflexivity.
  - intros d t Hd. vm_compute in Hd. injection Hd as <-. reflexivity.
Qed.

Definition quiet_kernel : Kernel := two_cores {{ kernel_memory := fun _ => 0; packets_received := 7 }}.


(** *** A change of the link *)

(** The registers of [e1000StartLink], at [base]. *)
Definition link_writes (base ctrl : Z) : list (space * Z * Z) :=
  [(Mmio, u64 (base + REG_CTRL), u32 (Z.lor ctrl ECTRL_LINK)); (Mmio, u64 (base + 0x30), 0x8808); (Mmio, u64 (base + 0x28), 0x100);
   (Mmio, u64 (base + 0x2C), 0x00C28001); (Mmio, u64 (base + 0x170), 0)].

Lemma StartLink_run e dev t : bar_type e = 0 ->
  exists v t', e1000StartLink e dev t = Some (tt, t') /\ writes t' = writes t ++ link_writes (mem_base e) v.
Proof.
  intros Hb. unfold e1000StartLink. rewrite ReadCommand_mapped, !WriteCommand_mapped by done.
  rewrite (run_bind (read _ _ _) _ _ _ _ _ eq_refl), WriteCommand_mapped, !(run_bind (write _ _ _ _) _ _ _ tt _ eq_refl) by done.
  eexists _, _. split; [reflexivity|]. cbn [writes]. rewrite <- !app_assoc. unfold link_writes.
  match goal with |- context [u32 (Z.lor ?v ECTRL_LINK) mod _] => instantiate (1 := v) end.
  rewrite (Z.mod_small (u32 (Z.lor _ _))) by apply u32_range. done.
Qed.

(** The address the card's registers are taken to be at when the link changes. *)
Definition misread_base (n : NetworkDriver) : Z := u64 (u8 (type n) + 2 ^ 8 * u8 (scope n) + 2 ^ 16 * padding n).

(** When the card reports a change of its link, the handler takes the generic driver for the
    card's own: it sets up the link at an address made of the driver's type, its scope and the
    padding behind them. *)
Theorem link_change_misses_card process fuel n e k m a me dev t :
  type n = E1000_TYPE -> bar_type e = 0 -> u8 (driver n) = 0 ->
  Z.testbit (dev t Mmio 4 (reg e REG_ICR) mod 2 ^ 32) 2 = true ->
  GetVirtualAddress ((Apic.physicalMemoryManager k) {{ p_physical_address := local_apic_addr k }}) = Some m ->
  identifies dev (u64 (virtualAddress m + 0x20)) me -> get_apic k me = Some a ->
  exists v w k' t', e1000InterruptHandler process fuel (int_line e) n e k dev t = Some ((e, k'), t') /\
    writes t' = writes t ++ link_writes (misread_base n) v ++ [(Mmio, reg e REG_ICR, w); (Mmio, lapic_eoi a, 0)].
Proof.
  intros Hty Hb Hd Hbit Hm Hid Ha. unfold e1000InterruptHandler. rewrite Hty, !Z.eqb_refl. cbn [andb].
  rewrite bind_assoc, ReadCommand_mapped by done. rewrite (run_bind (read _ _ _) _ _ _ _ _ eq_refl).
  rewrite (land_bit _ 2 ltac:(lia) : truthy (Z.land _ 4) = _). unfold reg in Hbit. change (u16 REG_ICR) with REG_ICR.
  change (2 ^ (8 * 4)) with (2 ^ 32). rewrite Hbit, bind_assoc.
  match goal with |- context [(e1000StartLink _ ≫= _) dev ?u] =>
    destruct (StartLink_run (misread n e) dev u) as (v & t1 & E1 & W1); [exact Hd|] end.
  rewrite (run_bind _ _ _ _ _ _ E1), (run_bind (mret _) _ _ _ _ _ eq_refl). cbv beta iota.
  destruct (current_core_run k m dev me t1 Hm Hid) as (t2 & E2 & W2). rewrite (run_bind _ _ _ _ _ _ E2). cbv beta iota.
  rewrite ReadCommand_mapped by done. rewrite (run_bind (read _ _ _) _ _ _ _ _ eq_refl), WriteCommand_mapped by done.
  rewrite (run_bind (write _ _ _ _) _ _ _ tt _ eq_refl). 
  match goal with |- context [pure (get_apic ?k' me)] => change (get_apic k' me) with (get_apic k me) end.
  rewrite Ha, run_pure. eexists v, _, _, _. split; [reflexivity|].
  cbn [writes]. rewrite W2, W1. cbn [writes]. by rewrite <- !app_assoc.
Qed.
