(* ===== verification/Rtl8139.v ===== *)
(** * The RTL8139 network card: [sources/devices/network/rtl8139.c]

    The card writes what it receives into the kernel's memory; [kernel_memory] is
    memory as it finds it.  Printing is left out. *)

From S2P Require Import Prelude Defines KMalloc Interrupts Device FastMem Pci Apic Network.

#[local] Open Scope Z_scope.

Definition RTL8139_VENDOR_ID : Z := 0x10EC.
Definition RTL8139_DEVICE_ID : Z := 0x8139.
Definition RX_BUF_SIZE : Z := 8192.
Definition CAPR : Z := 0x38.
(** [~3] *)
Definition RX_READ_POINTER_MASK : Z := 2 ^ 32 - 4.
Definition ROK : Z := Z.shiftl 1 0.

Record rtl8139_dev_t := mkRtl8139 {
  rtl_bar_type : Z;
  rtl_io_base : Z;
  rtl_mem_base : Z;
  mac_addr : list Z;       (* 6 bytes *)
  rx_buffer : Z;
  rtl_tx_cur : Z
}.

#[export] Instance eta_rtl8139_dev_t : Eta rtl8139_dev_t :=
  fun r => mkRtl8139 (rtl_bar_type r) (rtl_io_base r) (rtl_mem_base r) (mac_addr r) (rx_buffer r) (rtl_tx_cur r).

(** [rtl8139_device], [current_packet_ptr] and the kernel. *)
Record driver_state := mkDriver { rtl8139_device : rtl8139_dev_t; current_packet_ptr : Z; rtl_kernel : Kernel }.

#[export] Instance eta_driver_state : Eta driver_state :=
  fun r => mkDriver (rtl8139_device r) (current_packet_ptr r) (rtl_kernel r).

Definition port (s : driver_state) (r : Z) : Z := rtl_io_base (rtl8139_device s) + r.

(** A copy of the packet is made, and dropped. *)
Definition receive_packet (core : Z) (s : driver_state) : IO driver_state :=
  let k := rtl_kernel s in
  let t := rx_buffer (rtl8139_device s) + current_packet_ptr s in
  let packet_length := get 2 (kernel_memory k) (t + 2) in
  x ← pure (kmalloc core (memoryAllocator k) packet_length);
  let '(al, packet) := x in
  mem ← pure (fast_memcpy (kernel_memory k) packet (t + 4) packet_length);
  let next := Z.land (u32 (current_packet_ptr s + packet_length + 4 + 3)) RX_READ_POINTER_MASK in
  let next := if RX_BUF_SIZE <? next then u32 (next - RX_BUF_SIZE) else next in
  _ ← outportw (port s CAPR) (u16 (u32 (next - 0x10)));
  mret (s {{ current_packet_ptr := next; rtl_kernel := k {{ memoryAllocator := al; kernel_memory := mem }} }}).

Definition rtl8139_handler (core : Z) (s : driver_state) : IO driver_state :=
  status ← inportw (port s 0x3e);
  s ← (if truthy (Z.land status ROK) then receive_packet core s else mret s);
  _ ← outportw (port s 0x3E) 0x5;
  mret s.

Definition read_mac_addr (s : driver_state) : IO driver_state :=
  mac_part1 ← inportl (port s 0x00);
  mac_part2 ← inportw (port s 0x04);
  mret (s {{ rtl8139_device := (rtl8139_device s) {{ mac_addr :=
    [u8 mac_part1; u8 (Z.shiftr mac_part1 8); u8 (Z.shiftr mac_part1 16); u8 (Z.shiftr mac_part1 24);
     u8 mac_part2; u8 (Z.shiftr mac_part2 8)] }} }}).

Definition get_mac_addr (mem : memory) (src_mac_addr : Z) (s : driver_state) : memory :=
  write_bytes mem src_mac_addr (mac_addr (rtl8139_device s)).

Definition RX_AREA : Z := 8192 + 16 + 1500.

(** What the BAR says about the card. *)
Definition set_bars (ret : Z) (d : rtl8139_dev_t) : rtl8139_dev_t :=
  mkRtl8139 (Z.land ret 0x1) (u16 (Z.land ret (u32 (Z.lnot 0x3)))) (Z.land ret (u32 (Z.lnot 0xf))) (mac_addr d) (rx_buffer d) 0.

(** The receive buffer, as the card is told. *)
Definition allocate_buffer (core : Z) (s : driver_state) : option driver_state :=
  let k := rtl_kernel s in
  x ← kmalloc core (memoryAllocator k) RX_AREA;
  let '(al, buffer) := x in
  Some (s {{ rtl8139_device := (rtl8139_device s) {{ rx_buffer := buffer }};
             rtl_kernel := k {{ memoryAllocator := al; kernel_memory := memset (kernel_memory k) buffer 0 RX_AREA }} }}).

(** From waking the card up to turning it on. *)
Definition start_card (fuel : nat) (core : Z) (s : driver_state) : IO driver_state :=
  _ ← outportb (port s 0x52) 0x0;
  _ ← outportb (port s 0x37) 0x10;
  _ ← poll fuel (inportb (port s 0x37)) (fun v => Z.land v 0x10 =? 0);
  s ← pure (allocate_buffer core s);
  _ ← outportl (port s 0x30) (u32 (rx_buffer (rtl8139_device s)));
  _ ← outportw (port s 0x3C) 0x0005;
  _ ← outportl (port s 0x44) (Z.lor 0xf (Z.shiftl 1 7));
  _ ← outportb (port s 0x37) 0x0C;
  mret s.

Definition register_handler (irq_num : Z) (s : driver_state) : option driver_state :=
  let k := rtl_kernel s in
  r ← RegisterInterrupt ((interruptManager k) {{ p_interruptNumber := irq_num; p_interruptHandler := Some "rtl8139_handler"%string }});
  Some (s {{ rtl_kernel := k {{ interruptManager := fst r }} }}).

(** Without a card the code follows a null pointer. *)
Definition rtl8139_init (fuel : nat) (core : Z) (svc : PCIService) (s : driver_state) : IO (PCIService * driver_state) :=
  x ← pure (GetPCIDevice fuel (svc {{ p_vendor := RTL8139_VENDOR_ID; p_pci_device := RTL8139_DEVICE_ID }}));
  let '(svc, found) := x in
  i ← pure found;
  p ← pure (zget (pciDevices svc) i);
  ret ← pure (zget (bars p) 0);
  x ← EnablePCIBusMastering p;
  let '(p, enabled) := x in
  l ← pure (zset (pciDevices svc) i p);
  let svc := svc {{ pciDevices := l }} in
  let s := s {{ rtl8139_device := set_bars ret (rtl8139_device s) }} in
  if negb enabled then mret (svc, s)
  else
    s ← start_card fuel core s;
    let irq_num := Pci.int_line p + 32 in
    a ← pure (get_apic (rtl_kernel s) 0);
    _ ← mapAPICIRQ a (irq_num - IRQ0) irq_num;
    s ← pure (register_handler irq_num s);
    s ← read_mac_addr s;
    mret (svc, s).

(** ** Lemmas *)

(** [(p + n + 4 + 3) & ~3]: the next multiple of 4 behind a packet of [n] bytes and its header. *)
Definition behind (p n : Z) : Z := (p + n + 7) / 4 * 4.

Lemma land_mask x : 0 <= x < 2 ^ 32 -> Z.land x RX_READ_POINTER_MASK = x / 4 * 4.
Proof.
  intros Hx. transitivity (Z.ldiff x (Z.ones 2)).
  - apply Z.bits_inj'. intros n Hn. rewrite Z.land_spec, Z.ldiff_spec. destruct (decide (n < 32)) as [Hlt|Hge].
    + f_equal. apply eqb_true_iff.
      exact (all_between_spec 0 32 (fun n => eqb (Z.testbit RX_READ_POINTER_MASK n) (negb (Z.testbit (Z.ones 2) n))) n eq_refl (conj Hn Hlt)).
    + by rewrite (testbit_high x 32) by lia.
  - rewrite ldiff_ones by lia. change (2 ^ 2) with 4. pose proof (Z.div_mod x 4). lia.
Qed.

Definition next_pointer (p n : Z) : Z := if RX_BUF_SIZE <? behind p n then behind p n - RX_BUF_SIZE else behind p n.

Lemma next_pointer_spec p n : 0 <= p <= 8192 -> 0 <= n <= 4096 ->
  0 <= next_pointer p n <= 8192 /\ next_pointer p n mod 4 = 0 /\
  (if RX_BUF_SIZE <? behind p n then u32 (behind p n - RX_BUF_SIZE) else behind p n) = next_pointer p n.
Proof.
  intros Hp Hn. assert (p + n + 4 <= behind p n <= p + n + 7 /\ behind p n mod 4 = 0) as (Hb1 & Hb2).
  { unfold behind. pose proof (Z.div_mod (p + n + 7) 4). pose proof (Z.mod_pos_bound (p + n + 7) 4). split; [lia | apply Z.mod_mul; lia]. }
  unfold next_pointer, RX_BUF_SIZE. destruct (Z.ltb_spec 8192 (behind p n)); [|split; [lia | done]].
  rewrite u32_small by lia. split; [lia|]. split; [|done].
  replace (behind p n - 8192) with (behind p n + -2048 * 4) by lia. by rewrite Z.mod_add.
Qed.

(** * Properties *)

(** C29: A received packet is copied into fresh memory and the read pointer goes
    to the header behind it: it stays a multiple of 4 within the 8192 bytes of
    the ring, the register of the card gets it less 16, and nothing but the copy
    is written.  The end of the ring is not taken for its start: a packet that
    ends there leaves the pointer at 8192, where the card writes the next one at 0. *)
Theorem packet_received core s dev t :
  let d := rtl8139_device s in let k := rtl_kernel s in let p := current_packet_ptr s in
  let mem := kernel_memory k in let n := get 2 mem (rx_buffer d + p + 2) in
  alloc_wf (memoryAllocator k) -> 0 <= core < 65535 -> 0 <= p <= RX_BUF_SIZE -> p mod 4 = 0 -> 0 <= n <= 4096 ->
  rx_buffer d + p + 4 + n <= kernel_memory_current_address (memoryAllocator k) ->
  kernel_memory_current_address (memoryAllocator k) + n < kernel_memory_end_address (memoryAllocator k) ->
  exists s' packet, receive_packet core s dev t = Some (s', Wr Port 2 (u16 (rtl_io_base d + 0x38)) (u16 (next_pointer p n - 16)) :: t) /\
    current_packet_ptr s' = next_pointer p n /\ 0 <= next_pointer p n <= RX_BUF_SIZE /\ next_pointer p n mod 4 = 0 /\
    (behind p n = RX_BUF_SIZE -> current_packet_ptr s' = RX_BUF_SIZE) /\
    read_bytes (kernel_memory (rtl_kernel s')) packet n = read_bytes mem (rx_buffer d + p + 4) n /\
    (forall b, b < packet \/ packet + n <= b -> kernel_memory (rtl_kernel s') b = mem b) /\
    alloc_wf (memoryAllocator (rtl_kernel s')).
Proof.
  cbv zeta. set (p := current_packet_ptr s). set (mem := kernel_memory (rtl_kernel s)). set (rx := rx_buffer (rtl8139_device s)).
  set (n := get 2 mem (rx + p + 2)). intros Ha Hc Hp Hp4 Hn Hbelow Hroom. unfold RX_BUF_SIZE in *.
  unfold receive_packet. fold mem rx p. fold n.
  set (al := memoryAllocator (rtl_kernel s)) in *.
  destruct (kmalloc_fits core al n Ha Hc ltac:(lia) Hroom) as (E & Hal & _). rewrite E, run_pure. cbv beta iota.
  destruct (fast_memcpy_run mem (kernel_memory_current_address al) (rx + p + 4) n) as (mem' & E' & M); [lia | lia |].
  rewrite E', run_pure. replace (p + n + 4 + 3) with (p + n + 7) by lia.
  rewrite (u32_small (p + n + 7)), land_mask by lia. fold (behind p n).
  destruct (next_pointer_spec p n Hp Hn) as (Hr & Hm & Hu). rewrite Hu.
  unfold outportw. rewrite (run_bind (write _ _ _ _) _ _ _ tt _ eq_refl).
  eexists _, (kernel_memory_current_address al). split.
  { unfold mret, IO_ret, port. do 3 f_equal. rewrite (Z.mod_small (u16 _)) by apply u16_range. unfold u16, u32.
    by rewrite <- (Znumtheory.Zmod_div_mod (2 ^ 16) (2 ^ 32)) by (done || by exists (2 ^ 16)). }
  cbn [current_packet_ptr rtl_kernel kernel_memory memoryAllocator apply_update constant].
  split; [done|]. split; [done|]. split; [done|].
  split; [intros Hend; unfold next_pointer, RX_BUF_SIZE in *; by rewrite Hend|].
  assert (zlen (read_bytes mem (rx + p + 4) n) = n) as Hl by (apply zlen_read; lia).
  split; [rewrite (read_ext mem' _ _ _ (fun b _ => M b)); by apply read_write_n|].
  split; [|exact Hal]. intros b Hb. rewrite M. apply write_bytes_out. lia.
Qed.

(** A packet of 1012 bytes that ends at the end of the ring. *)
Definition last_packet : driver_state :=
  mkDriver (mkRtl8139 1 0xC000 0 [] 0x8000 0) 7176
    (two_cores {{ memoryAllocator := mkMemoryAllocator 0x10000 0x10010 0x100000 0x100000 0x100000 0x200000 0 (spinlock (memoryAllocator two_cores));
                  kernel_memory := fun a => if a =? 0x8000 + 7176 + 2 then 0xF4 else if a =? 0x8000 + 7176 + 3 then 3 else 7 }}).

Lemma packet_received_witness : exists s' packet,
  receive_packet 0 last_packet quiet_device [] = Some (s', [Wr Port 2 0xC038 8176]) /\ current_packet_ptr s' = 8192 /\
  read_bytes (kernel_memory (rtl_kernel s')) packet 1012 = replicate 1012 7.
Proof.
  destruct (packet_received 0 last_packet quiet_device []) as (s' & packet & E & P & _ & _ & _ & R & _).
  - split; vm_compute; try reflexivity; try discriminate; repeat split; discriminate || reflexivity.
  - lia.
  - vm_compute. split; discriminate.
  - reflexivity.
  - vm_compute. split; discriminate.
  - vm_compute. discriminate.
  - vm_compute. reflexivity.
  - exists s', packet. split; [exact E|]. split; [exact P|]. etrans; [exact R|]. vm_compute. reflexivity.
Defined.
