(* ===== verification/BlockService.v ===== *)
(** * The block service: [sources/memory/BlockService.c]

    Two buffers keep what was last read from the disk.  The fields [current_read],
    [total_read] and [target_read] of the service are never used and left out.
    The functions are declared to return a [bool] and return nothing. *)

From S2P Require Import Prelude Defines Device Spinlock KMalloc PhysicalMemory FastMem Apic Ata AtaManager.

#[local] Open Scope Z_scope.

Definition sector_unit : Z := 2048.

Record BlockService := mkBlockService {
  cache : list Z;                 (* buffer[2] *)
  primaryBuffer : bool;
  start_sector : Z;
  current_cache_index : list Z;   (* two *)
  blocks_to_read_number : Z;
  skip_start : list Z;            (* two *)
  skip_end : list Z               (* two *)
}.

#[export] Instance eta_BlockService : Eta BlockService :=
  fun r => mkBlockService (cache r) (primaryBuffer r) (start_sector r) (current_cache_index r) (blocks_to_read_number r)
    (skip_start r) (skip_end r).

(** -1 as a [uint64_t]. *)
Definition NONE : Z := 2 ^ 64 - 1.

Definition CACHE_SIZE : Z := 32 * sector_unit.

Definition init_BlockService (core : Z) (s : Ata) (b : BlockService) : option (Ata * BlockService) :=
  x ← kvalloc core (memoryAllocator (kernel s)) CACHE_SIZE;
  let '(al, b0) := x in
  x ← kvalloc core al CACHE_SIZE;
  let '(al, b1) := x in
  let mem := memset (memset (mem_of s) b0 0 CACHE_SIZE) b1 0 CACHE_SIZE in
  Some (s {{ kernel := (kernel s) {{ memoryAllocator := al; kernel_memory := mem }} }},
        b {{ cache := [b0; b1]; primaryBuffer := false; current_cache_index := [NONE; NONE]; skip_start := [NONE; NONE];
             skip_end := [NONE; NONE] }}).

(** ** Waiting for the disk

    [hlt] is what the interrupts do that end one [hlt], [eoi] what follows it;
    [who] is the core whose flag is watched. *)

Section waiting.
Context (fuel : nat) (hlt eoi : Ata -> IO Ata).

Definition clear_flag (who : Z) (s : Ata) : option Ata :=
  k ← set_fired (kernel s) who ATA_IPI 0; Some (s {{ kernel := k }}).

Definition wait_round (who : Z) (s : Ata) : IO (Ata + Ata) :=
  a ← pure (get_apic (kernel s) who);
  f ← pure (zget (fired a) ATA_IPI);
  if f =? 0 then
    s ← hlt s;
    s ← eoi s;
    mret (if total_read (dmaBuffer s) =? target_read (dmaBuffer s) then inr s else inl s)
  else mret (inr s).

Definition wait_disk (who : Z) (s : Ata) : IO Ata :=
  s ← pure (clear_flag who s);
  s ← io_loop fuel (wait_round who) s;
  s ← pure (clear_flag 0 s);
  mret (set_dma s ((dmaBuffer s) {{ enabled := false }})).

(** [readDMADisk], again while it fails. *)
Definition read_until_success (now p_ataDisk p_addr p_buffer p_sector_count : Z) (s : Ata) : IO Ata :=
  io_loop fuel (fun s =>
    x ← readDMADisk fuel now s p_ataDisk p_addr p_buffer p_sector_count 0 0;
    let '(s, r) := x in mret (if r =? READ_DMA_FAIL then inl s else inr s)) s.

(** The transfer, from turning it on to turning it off. *)
Definition read_and_wait (who now p_ataDisk p_addr p_buffer p_sector_count : Z) (s : Ata) : IO Ata :=
  let s := set_dma s ((dmaBuffer s) {{ enabled := true; total_read := 0 }}) in
  s ← read_until_success now p_ataDisk p_addr p_buffer p_sector_count s;
  wait_disk who s.
End waiting.

(** [DispatchKernel(apic_t, get_current_core_id)] and the end of the interrupt. *)
Definition current_eoi (s : Ata) : IO Ata :=
  x ← current_core (kernel s);
  let '(k, id) := x in
  a ← pure (get_apic k id);
  _ ← sendAPICEOI a;
  mret (s {{ kernel := k }}).

(** ** Reading

    [core] runs this; [now] is the time recorded with each transfer. *)

Section reading.
Context (fuel : nat) (hlt : Ata -> IO Ata) (core now : Z).

(** What the cached part of buffer [l] lets the reading skip: before the loop, and in it. *)
Definition skip_first (b : BlockService) (l total_read : Z) : option Z :=
  ss ← zget (skip_start b) l; se ← zget (skip_end b) l;
  Some (if (ss <=? u64 (total_read + start_sector b)) && (total_read <? se)
        then u64 (total_read + u64 (u64 (se - start_sector b) * 512)) else total_read).

Definition skip_more (b : BlockService) (l total_read : Z) : option Z :=
  ss ← zget (skip_start b) l; se ← zget (skip_end b) l;
  Some (if (u64 (ss * 512) <=? u64 (u64 (total_read + start_sector b) * 512)) && (total_read <? u64 (se * 512))
        then u64 (total_read + u64 (u64 (se - u64 (start_sector b + total_read / 512)) * 512)) else total_read).

Definition chunck : Z := 32 * sector_unit * 512.

(** One round: the next chunk, by way of one of the two buffers. *)
Definition read_round (p_ataDisk user_buffer target_read : Z) (x : Ata * BlockService * Z) : IO ((Ata * BlockService * Z) + (Ata * BlockService)) :=
  let '(s, b, total) := x in
  if u64 (target_read - total) =? 0 then mret (inr (s, b))
  else
    total ← pure (for_each 4 0 (fun i total => skip_more b (i mod 2) total) total);
    let current := if chunck <? u64 (target_read - total) then chunck else u64 (target_read - total) in
    let index := Z.b2z (primaryBuffer b) in
    buffer ← pure (zget (cache b) index);
    let s := set_mem s (memset (mem_of s) buffer 0 CACHE_SIZE) in
    lock ← pure (spinlock_lock core (dma_spinlock (dmaBuffer s)));
    s ← read_and_wait fuel hlt current_eoi 0 now p_ataDisk (u64 (start_sector b + total / 512)) buffer (32 * sector_unit)
          (set_dma s ((dmaBuffer s) {{ dma_spinlock := lock }}));
    let s := set_dma s ((dmaBuffer s) {{ dma_spinlock := spinlock_unlock core (dma_spinlock (dmaBuffer s)) }}) in
    mem ← pure (fast_memcpy (mem_of s) (u64 (user_buffer + total)) buffer current);
    l ← pure (zset (current_cache_index b) index (total / 512));
    mret (inl (set_mem s mem, b {{ current_cache_index := l; primaryBuffer := negb (primaryBuffer b) }}, u64 (total + current))).

Definition read_nBlocks (p_ataDisk user_buffer num_blocks : Z) (s : Ata) (b : BlockService) : IO (Ata * BlockService) :=
  let target_read := u64 (num_blocks * sector_unit * 512) in
  total ← pure (skip_first b 0 0);
  total ← pure (skip_first b 1 total);
  io_loop fuel (read_round p_ataDisk user_buffer target_read) (s, b, total).

(** What the buffer [i] has of the sectors from [start] on, in front of [end_]. *)
Definition from_cache (user_buffer start end_ i : Z) (x : Ata * BlockService) : option (Ata * BlockService) :=
  let '(s, b) := x in
  let chunck := 32 * sector_unit in
  idx ← zget (current_cache_index b) i;
  buffer ← zget (cache b) i;
  if (idx <=? start) && (start <? u64 (idx + chunck)) then
    let user_start := u64 (start - idx) in
    let user_end := u64 (end_ - user_start) in
    let user_end := if chunck <? user_end then u64 (chunck - user_start) else user_end in
    mem ← fast_memcpy (mem_of s) user_buffer (u64 (buffer + u64 (user_start * 512))) (u64 (user_end * 512));
    ss ← zset (skip_start b) i start;
    se ← zset (skip_end b) i (u64 (start + user_end));
    Some (set_mem s mem, b {{ skip_start := ss; skip_end := se }})
  else if (start <? idx) && (idx <? u64 (start + end_)) then
    let user_start := u64 (idx - start) in
    let user_end := u64 (end_ - user_start) in
    let user_end := if chunck <? user_end then u64 (chunck - user_start) else user_end in
    mem ← fast_memcpy (mem_of s) (u64 (user_buffer + u64 (user_start * 512))) buffer (u64 (user_end * 512));
    ss ← zset (skip_start b) i user_start;
    se ← zset (skip_end b) i (u64 (user_start + user_end));
    Some (set_mem s mem, b {{ skip_start := ss; skip_end := se }})
  else Some (s, b).

Definition read_blocks (p_ataDisk user_buffer : Z) (s : Ata) (b : BlockService) : IO (Ata * BlockService) :=
  let start := start_sector b in
  let end_ := u64 (blocks_to_read_number b * sector_unit + start) in
  b0 ← pure (zget (current_cache_index b) 0);
  b1 ← pure (zget (current_cache_index b) 1);
  if (b0 =? NONE) && (b1 =? NONE) then read_nBlocks p_ataDisk user_buffer (blocks_to_read_number b) s b
  else
    x ← pure (for_each 2 0 (from_cache user_buffer start end_) (s, b));
    let '(s, b) := x in
    x ← read_nBlocks p_ataDisk user_buffer (blocks_to_read_number b) s b;
    let '(s, b) := x in
    mret (s, b {{ skip_start := [NONE; NONE]; skip_end := [NONE; NONE] }}).
End reading.

(** ** Lemmas *)

(** What an [hlt] waits for here: the transfer of a command completes and the interrupt is handled. *)
Definition one_transfer (dsk : Z -> list Z) (fuel : nat) (s : Ata) : IO Ata :=
  s ← bus_master dsk s; ataHandleInterrupt fuel IRQ14 s.

(** The flag of the core [who] is there, and down. *)
Definition flag_down (who : Z) (k : Kernel) : Prop := exists a, get_apic k who = Some a /\ zget (fired a) ATA_IPI = Some 0.

Lemma get_apic_same k k' j : apics (apicManager k') = apics (apicManager k) -> get_apic k' j = get_apic k j.
Proof. intros H. unfold get_apic. by rewrite H. Qed.

Lemma flag_down_same who k k' : apics (apicManager k') = apics (apicManager k) -> flag_down who k -> flag_down who k'.
Proof. intros H (a & Ha & Hf). exists a. split; [by rewrite (get_apic_same _ _ _ H) | exact Hf]. Qed.

(** Nothing of the transfer has changed. *)
Definition undisturbed (s s' : Ata) (t t' : list event) : Prop :=
  dmaBuffer s' = dmaBuffer s /\ ataManager s' = ataManager s /\ mem_of s' = mem_of s /\
  apics (apicManager (kernel s')) = apics (apicManager (kernel s)) /\ memoryAllocator (kernel s') = memoryAllocator (kernel s) /\
  (forall io, drive io t' = drive io t) /\ (forall p, last_write p t' = last_write p t).

(** An [eoi] that does not disturb the transfer. *)
Definition harmless (dev : device) (me : Z) (eoi : Ata -> IO Ata) : Prop :=
  forall s t, knows_itself dev me (kernel s) -> (exists a, get_apic (kernel s) me = Some a) ->
  exists s' t', eoi s dev t = Some (s', t') /\ undisturbed s s' t t' /\ knows_itself dev me (kernel s').

Lemma current_eoi_harmless dev me : harmless dev me current_eoi.
Proof.
  intros s t Hk [a Ha]. destruct (current_core_again (kernel s) dev me t Hk) as (k' & b & v & E & Hk' & Hap & Hm & Hal).
  unfold current_eoi. rewrite (run_bind _ _ _ _ _ _ E). cbv beta iota.
  rewrite (get_apic_same _ _ _ Hap), Ha, run_pure. unfold sendAPICEOI, writeLocalAPIC.
  rewrite (run_bind (write _ _ _ _) _ _ _ tt _ eq_refl). eexists _, _. split; [reflexivity|].
  split; [|exact Hk']. unfold undisturbed, mem_of. cbn [kernel ataManager dmaBuffer apply_update constant]. by split_and!.
Qed.

Section waiting.
Context (fuel : nat) (dev : device) (d : ATADisk).
Context (Hd : disk_ok d) (Ha : answers dev d) (Hfuel : 5001 < Z.of_nat fuel).
Context (Hirq : forall t, truthy (Z.land (dev t Port 1 (bm_register d BM0_STATUS) mod 2 ^ 8) 0x4) = true).
Context (dsk : Z -> list Z) (Hdsk : forall k, zlen (dsk k) = 512).
Context (i addr N buf me : Z) (Hme : 0 <= me < 256).
Context (HN : 0 < N) (Haddr : 0 <= addr) (Hsize : addr + N <= if lba48 d then 2 ^ 48 else 2 ^ 28).
Context (Hbuf : 0 <= buf) (Hbuf64 : buf + N * 512 < 2 ^ 64).
Context (Harea : buf + N * 512 <= dma_phy_address d \/ dma_phy_address d + DMA_AREA <= buf).
Context (Htable : buf + N * 512 <= prdt d \/ prdt d + 4096 <= buf).
Context (eoi : Ata -> IO Ata) (Heoi : harmless dev me eoi) (who : Z).

Lemma in_progress_undisturbed done s s' t t' : undisturbed s s' t t' ->
  in_progress fuel dev d dsk i addr N buf me done s t -> in_progress fuel dev d dsk i addr N buf me done s' t'.
Proof.
  intros (U1 & U2 & U3 & U4 & _ & U5 & U6) (G & T & B & R & C).
  unfold in_progress, read_started, commands, get_disk, can_tell in *. rewrite U1, U2, U3, U5, !U6.
  rewrite (get_apic_same _ _ _ U4). done.
Qed.

Lemma finished_undisturbed s s' t t' : undisturbed s s' t t' ->
  finished dsk i addr N buf s -> finished dsk i addr N buf s'.
Proof. intros (U1 & U2 & U3 & _) F. unfold finished, get_disk in *. by rewrite U1, U2, U3. Qed.

(** The machine can go on: the core knows itself, the flag is down, the lock is [lock] and the allocator [al]. *)
Definition waits (lock : spinlock_t) (al : MemoryAllocator) (s : Ata) : Prop :=
  knows_itself dev me (kernel s) /\ flag_down who (kernel s) /\ dma_spinlock (dmaBuffer s) = lock /\ memoryAllocator (kernel s) = al.

Lemma wait_round_run done s t lock al : 0 <= done < N -> in_progress fuel dev d dsk i addr N buf me done s t -> waits lock al s ->
  exists s' t', wait_round (one_transfer dsk fuel) eoi who s dev t =
      Some (if done + now_reading d N done <? N then inl s' else inr s', t') /\
    (if done + now_reading d N done <? N then in_progress fuel dev d dsk i addr N buf me (done + now_reading d N done) s' t'
     else finished dsk i addr N buf s') /\
    waits lock al s' /\ apics (apicManager (kernel s')) = apics (apicManager (kernel s)) /\ kept d N buf (mem_of s) (mem_of s').
Proof.
  intros Hdone HP (Hself & (a & Ea & Ef) & Hlock & Hal).
  unfold wait_round. rewrite Ea, run_pure, Ef, run_pure. cbn [Z.eqb].
  destruct (round_run fuel dev d Hd Ha Hfuel Hirq dsk Hdsk i addr N buf me Hme HN Haddr Hsize Hbuf Hbuf64 Harea Htable done s t Hdone HP)
    as (s1 & t1 & E1 & H1 & (K1 & K2 & K3 & K5) & L1 & W1).
  unfold one_transfer. rewrite (run_bind _ _ _ _ _ _ E1).
  assert (apics (apicManager (kernel s1)) = apics (apicManager (kernel s))) as K4 by (by rewrite K1).
  assert (exists a, get_apic (kernel s1) me = Some a) as Hget.
  { destruct HP as (_ & (x & Hx & _) & _). exists x. by rewrite (get_apic_same (kernel s)). }
  destruct (Heoi s1 t1) as (s2 & t2 & E2 & U & Hself2); [unfold knows_itself in *; by rewrite K2, K3 | done |].
  rewrite (run_bind _ _ _ _ _ _ E2). pose proof U as (U1 & U2 & U3 & U4 & U7 & _).
  exists s2, t2. split; [|split; [|split; [|split; [congruence | rewrite U3; exact W1]]]].
  - destruct (_ <? N) eqn:El.
    + destruct H1 as (_ & _ & (_ & _ & B3 & B4 & _) & _). rewrite U1, B3, B4.
      destruct (Z.eqb_spec (done + now_reading d N done) N); [lia | done].
    + destruct H1 as (_ & B3 & _ & _ & B4). by rewrite U1, B3, B4, Z.eqb_refl.
  - destruct (_ <? N); [by apply (in_progress_undisturbed _ s1 s2 t1 t2) | by apply (finished_undisturbed s1 s2 t1 t2)].
  - split; [exact Hself2|]. split; [|split; congruence]. apply (flag_down_same who (kernel s)); [congruence|]. by exists a.
Qed.

(** The waiting ends with the last of the chunks. *)
Lemma wait_loop k : forall done s t lock al n, 0 <= done < N -> in_progress fuel dev d dsk i addr N buf me done s t ->
  Z.of_nat k = (N - done + read_chunk (lba48 d) - 1) / read_chunk (lba48 d) -> (k <= n)%nat -> waits lock al s ->
  exists s' t', io_loop n (wait_round (one_transfer dsk fuel) eoi who) s dev t = Some (s', t') /\ finished dsk i addr N buf s' /\
    waits lock al s' /\ apics (apicManager (kernel s')) = apics (apicManager (kernel s)) /\ kept d N buf (mem_of s) (mem_of s').
Proof.
  assert (0 < read_chunk (lba48 d)) as Hch by (unfold read_chunk, DMA_READ_CHUNK_EXT, DMA_READ_CHUNK; destruct (lba48 d); lia).
  induction k as [|k IH]; intros done s t lock al n Hdone HP Hk Hn Hw.
  - assert (1 <= (N - done + read_chunk (lba48 d) - 1) / read_chunk (lba48 d)) by (apply Z.div_le_lower_bound; lia). lia.
  - destruct n as [|n]; [lia|]. rewrite io_loop_S.
    destruct (wait_round_run done s t lock al Hdone HP Hw) as (s1 & t1 & E & H1 & Hw1 & A1 & M1). rewrite (run_bind _ _ _ _ _ _ E).
    unfold now_reading in *. destruct (Z.ltb_spec (done + Z.min (read_chunk (lba48 d)) (N - done)) N).
    + rewrite Z.min_l in * by lia.
      destruct (IH (done + read_chunk (lba48 d)) s1 t1 lock al n) as (s' & t' & E' & F & W & A' & M'); [lia | done | | lia | done |].
      { replace (N - (done + read_chunk (lba48 d)) + read_chunk (lba48 d) - 1) with
          (N - done + read_chunk (lba48 d) - 1 + (-1) * read_chunk (lba48 d)) by lia. rewrite Z.div_add by lia. lia. }
      exists s', t'. split; [exact E'|]. split; [done|]. split; [done|]. split; [congruence|].
      intros b Hb1 Hb2 Hb3. by rewrite M', M1.
    + exists s1, t1. done.
Qed.
End waiting.

(** There is a flag to watch. *)
Definition flag_there (who : Z) (k : Kernel) : Prop := exists a, get_apic k who = Some a /\ 0 <= ATA_IPI < zlen (fired a).

Lemma clear_flag_run fuel dev me who s : flag_there who (kernel s) -> can_tell fuel dev me (kernel s) -> knows_itself dev me (kernel s) ->
  exists s', clear_flag who s = Some s' /\ flag_down who (kernel s') /\ can_tell fuel dev me (kernel s') /\ knows_itself dev me (kernel s') /\
    (forall j, flag_there j (kernel s) -> flag_there j (kernel s')) /\
    dmaBuffer s' = dmaBuffer s /\ ataManager s' = ataManager s /\ mem_of s' = mem_of s /\
    memoryAllocator (kernel s') = memoryAllocator (kernel s).
Proof.
  intros (a & Ha & Hr) (b & Hb & Hdel) Hk. unfold clear_flag, set_fired. rewrite Ha. cbn [mbind option_bind].
  rewrite (zset_eq (fired a)) by done. cbn [mbind option_bind]. set (f := <[Z.to_nat ATA_IPI := 0]> (fired a)).
  destruct (upd_some (kernel s) who a (fun a => a {{ fired := f }}) Ha) as (k' & E). rewrite E. cbn [mbind option_bind].
  destruct (get_upd _ _ _ _ E) as (Hget & _). eexists. split; [reflexivity|].
  assert (get_apic k' who = Some (a {{ fired := f }})) as Hwho by (by rewrite Hget, Z.eqb_refl, Ha).
  unfold upd_apic in E. destruct (zupd _ _ _) as [l|]; [|done]. injection E as <-.
  split; [exists (a {{ fired := f }}); split; [exact Hwho | apply (zget_zset_eq (fired a)); by apply zset_eq]|].
  split; [|split; [exact Hk|split; [|done]]].
  - destruct (Z.eqb_spec me who) as [->|Hne].
    + exists (a {{ fired := f }}). split; [exact Hwho|]. rewrite Ha in Hb. injection Hb as <-. exact Hdel.
    + exists b. split; [|exact Hdel]. cbn [kernel apply_update constant]. rewrite Hget. by destruct (Z.eqb_spec me who).
  - intros j (c & Hc & Hrc). destruct (Z.eqb_spec j who) as [->|Hne].
    + exists (a {{ fired := f }}). split; [exact Hwho|]. cbn [fired apply_update constant]. unfold f, zlen in *. by rewrite length_insert.
    + exists c. split; [|exact Hrc]. cbn [kernel apply_update constant]. rewrite Hget. by destruct (Z.eqb_spec j who).
Qed.

Lemma flag_there_same who k k' : apics (apicManager k') = apics (apicManager k) -> flag_there who k -> flag_there who k'.
Proof. intros H (a & Ha & Hr). exists a. split; [by rewrite (get_apic_same _ _ _ H) | exact Hr]. Qed.

Lemma read_until_success_run fuel dev now s i addr buf n me d dsk t : can_read fuel dev s i addr buf n me d ->
  exists d1 s1 t1, (d1 = d \/ d1 = d {{ done_read := false }}) /\
    read_until_success fuel now i addr buf n s dev t = Some (s1, t1) /\
    in_progress fuel dev d1 dsk i addr n buf me 0 s1 t1 /\
    apics (apicManager (kernel s1)) = apics (apicManager (kernel s)) /\ knows_itself dev me (kernel s1) /\
    dma_spinlock (dmaBuffer s1) = dma_spinlock (dmaBuffer s) /\ kept d n buf (mem_of s) (mem_of s1) /\
    memoryAllocator (kernel s1) = memoryAllocator (kernel s).
Proof.
  intros Hcan. destruct (readDMADisk_run fuel dev now s i addr buf n me d dsk t Hcan) as (d1 & s1 & t1 & Hd1 & E1 & R).
  exists d1, s1, t1. split; [exact Hd1|]. split; [|exact R].
  assert (exists m, fuel = Datatypes.S m) as [m ->] by (destruct fuel; [destruct Hcan; lia | by eexists]).
  unfold read_until_success. rewrite io_loop_S, bind_assoc, (run_bind _ _ _ _ _ _ E1). done.
Qed.

(** A whole transfer: the sectors asked for are in the buffer, nothing is left of the lock or the flag. *)
Lemma read_and_wait_run fuel dev now s i addr buf n me who d dsk eoi t :
  (let s := set_dma s ((dmaBuffer s) {{ enabled := true; total_read := 0 }}) in can_read fuel dev s i addr buf n me d) ->
  (forall k, zlen (dsk k) = 512) -> harmless dev me eoi -> flag_there who (kernel s) -> flag_there 0 (kernel s) ->
  (n + read_chunk (lba48 d) - 1) / read_chunk (lba48 d) <= Z.of_nat fuel ->
  exists s' t', read_and_wait fuel (one_transfer dsk fuel) eoi who now i addr buf n s dev t = Some (s', t') /\
    read_bytes (mem_of s') buf (n * 512) = disk_bytes dsk addr n /\ dma_spinlock (dmaBuffer s') = dma_spinlock (dmaBuffer s) /\
    kept d n buf (mem_of s) (mem_of s') /\ memoryAllocator (kernel s') = memoryAllocator (kernel s).
Proof.
  cbv zeta. intros Hcan Hdsk Heoi Hwho H0 Hrounds. unfold read_and_wait.
  destruct (read_until_success_run fuel dev now _ i addr buf n me d dsk t Hcan) as (d1 & s1 & t1 & Hd1 & E1 & P1 & A1 & K1 & L1 & W1 & Y1).
  rewrite (run_bind _ _ _ _ _ _ E1). unfold wait_disk.
  destruct (clear_flag_run fuel dev me who s1) as (s2 & E2 & F2 & T2 & K2 & V2 & B2 & M2 & X2 & Y2).
  { by apply (flag_there_same who (kernel s)). }
  { by destruct P1 as (_ & T & _). }
  { exact K1. }
  rewrite E2, run_pure.
  assert (in_progress fuel dev d1 dsk i addr n buf me 0 s2 t1) as P2.
  { destruct P1 as (G & _ & B & R & C). unfold in_progress, get_disk in *. rewrite B2, M2, X2. done. }
  destruct Hcan as [Hg Hok Hans Hirq Hf _ Hen (m & Em & Hid) _ (Hn & Haddr & Hsz) (Hb & Hb64) Har Htab].
  assert (0 <= me < 128) as Hme by (rewrite <- (Hid []); apply Z.mod_pos_bound; lia).
  assert (0 < read_chunk (lba48 d)) as Hch by (unfold read_chunk, DMA_READ_CHUNK_EXT, DMA_READ_CHUNK; destruct (lba48 d); lia).
  destruct (wait_loop fuel dev d1 ltac:(destruct Hd1 as [-> | ->]; [done | by apply disk_ok_done]) ltac:(by destruct Hd1 as [-> | ->]) Hf
    ltac:(by destruct Hd1 as [-> | ->]) dsk Hdsk i addr n buf me ltac:(lia) Hn Haddr ltac:(by destruct Hd1 as [-> | ->]) Hb Hb64
    ltac:(by destruct Hd1 as [-> | ->]) ltac:(by destruct Hd1 as [-> | ->]) eoi Heoi who (Z.to_nat ((n + read_chunk (lba48 d) - 1) / read_chunk (lba48 d)))
    0 s2 t1 (dma_spinlock (dmaBuffer s)) (memoryAllocator (kernel s)) fuel) as (s3 & t3 & E3 & (_ & _ & _ & C3 & _) & (K3 & _ & L3 & Y3) & A3 & W3); try done; try lia.
  { assert (lba48 d1 = lba48 d) as -> by (by destruct Hd1 as [-> | ->]).
    rewrite Z2Nat.id by (apply Z.div_pos; lia). by rewrite Z.sub_0_r. }
  { split; [exact K2|]. split; [exact F2|]. split; [by rewrite B2, L1 | by rewrite Y2, Y1]. }
  rewrite (run_bind _ _ _ _ _ _ E3).
  destruct (clear_flag_run fuel dev me 0 s3) as (s4 & E4 & _ & _ & _ & _ & B4 & M4 & X4 & Y4).
  { apply (flag_there_same 0 (kernel s2)); [exact A3|]. apply V2. by apply (flag_there_same 0 (kernel s)). }
  { destruct T2 as (a & Ha & Hdel). exists a. split; [by rewrite (get_apic_same _ _ _ A3) | exact Hdel]. }
  { exact K3. }
  rewrite E4, run_pure. eexists _, _. split; [reflexivity|]. split; [|split; [|split]].
  - change (mem_of (set_dma s4 _)) with (mem_of s4). rewrite X4. by apply (copied_all fuel).
  - cbn [dmaBuffer set_dma dma_spinlock apply_update constant]. by rewrite B4.
  - change (mem_of (set_dma s4 _)) with (mem_of s4). rewrite X4. intros b Hb1 Hb2 Hb3. etrans; [apply W3; [exact Hb1 | by destruct Hd1 as [-> | ->]..]|].
    rewrite X2. by apply W1.
  - change (kernel (set_dma s4 _)) with (kernel s4). by rewrite Y4.
Qed.

(** Memory, locks and counters play no part in whether a disk can be read. *)
Lemma can_read_same fuel dev s s' i addr buf n me d :
  ataManager s' = ataManager s -> ataDisk (dmaBuffer s') = ataDisk (dmaBuffer s) -> enabled (dmaBuffer s') = true ->
  apics (apicManager (kernel s')) = apics (apicManager (kernel s)) ->
  physicalMemoryManager (kernel s') = physicalMemoryManager (kernel s) -> local_apic_addr (kernel s') = local_apic_addr (kernel s) ->
  can_read fuel dev s i addr buf n me d -> can_read fuel dev s' i addr buf n me d.
Proof.
  intros H1 H2 H3 H4 H5 H6 [Hg Hok Hans Hirq Hf Hfree Hen Hk Hcan Hn Hb Har Htab].
  constructor; try assumption; unfold get_disk, knows_itself, can_tell in *; rewrite ?H1, ?H2, ?H5, ?H6, ?(get_apic_same _ _ _ H4); assumption.
Qed.

(** ** The service before its first reading *)

(** A service that has read nothing, on a machine that can read the disk [i] into its first buffer. *)
Record fresh (fuel : nat) (dev : device) (s : Ata) (b : BlockService) (i core me user b0 b1 : Z) (d : ATADisk) : Prop := {
  fr_reads : can_read fuel dev (set_dma s ((dmaBuffer s) {{ enabled := true }})) i (start_sector b) b0 (32 * sector_unit) me d;
  fr_flag : flag_there 0 (kernel s);
  fr_lock : unheld (dma_spinlock (dmaBuffer s));
  fr_core : 0 <= core < 65535;
  fr_cache : cache b = [b0; b1];
  fr_primary : primaryBuffer b = false;
  fr_index : current_cache_index b = [NONE; NONE];
  fr_skip : skip_start b = [NONE; NONE] /\ skip_end b = [NONE; NONE];
  fr_blocks : 0 < blocks_to_read_number b <= 32;
  fr_user : 0 <= user /\ user + blocks_to_read_number b * sector_unit * 512 < 2 ^ 64;
  fr_apart : user + blocks_to_read_number b * sector_unit * 512 <= b0 \/ b0 + 32 * sector_unit * 512 <= user
}.

Lemma skip_none b l total : 0 <= l < 2 -> skip_start b = [NONE; NONE] -> skip_end b = [NONE; NONE] ->
  0 <= total -> 0 <= start_sector b -> total + start_sector b < 2 ^ 48 -> skip_first b l total = Some total /\ skip_more b l total = Some total.
Proof.
  intros Hl H1 H2 Ht Hs Hsum. assert (zget [NONE; NONE] l = Some NONE) as E by (assert (l = 0 \/ l = 1) as [-> | ->] by lia; done).
  unfold skip_first, skip_more. rewrite H1, H2, E. cbn [mbind option_bind]. unfold NONE.
  rewrite (u64_small (total + _)), (u64_small ((total + _) * 512)) by lia. change (u64 ((2 ^ 64 - 1) * 512)) with (2 ^ 64 - 512).
  destruct (Z.leb_spec (2 ^ 64 - 1) (total + start_sector b)); [lia|].
  destruct (Z.leb_spec (2 ^ 64 - 512) ((total + start_sector b) * 512)); [lia|]. done.
Qed.

(** The start of what is in a buffer is what was read first. *)
Lemma read_prefix dsk mem a addr m n : (forall k, zlen (dsk k) = 512) -> 0 <= m <= n -> read_bytes mem a (n * 512) = disk_bytes dsk addr n ->
  forall k, 0 <= k -> k + m <= n -> read_bytes mem (a + k * 512) (m * 512) = disk_bytes dsk (addr + k) m.
Proof.
  intros Hd Hm H k Hk Hkm. replace n with (k + (m + (n - k - m))) in H by lia.
  rewrite !disk_bytes_app in H by lia. rewrite !Z.mul_add_distr_r, !read_bytes_app in H by lia.
  apply app_inj_1 in H as [_ H].
  - apply app_inj_1 in H as [H _]; [exact H|].
    pose proof (zlen_disk_bytes dsk (addr + k) m Hd ltac:(lia)) as L. pose proof (zlen_read mem (a + k * 512) (m * 512) ltac:(lia)). unfold zlen in *. lia.
  - pose proof (zlen_disk_bytes dsk addr k Hd ltac:(lia)) as L. pose proof (zlen_read mem a (k * 512) ltac:(lia)). unfold zlen in *. lia.
Qed.

Section first_reading.
Context (fuel : nat) (dev : device) (core now : Z) (s : Ata) (b : BlockService) (i me user b0 b1 : Z) (d : ATADisk).
Context (Hfresh : fresh fuel dev s b i core me user b0 b1 d) (dsk : Z -> list Z) (Hdsk : forall k, zlen (dsk k) = 512).

Notation blocks := (blocks_to_read_number b).

(** The one round that reads everything. *)
Lemma first_round_run t : exists s' t',
  read_round fuel (one_transfer dsk fuel) core now i user (blocks * sector_unit * 512) (s, b, 0) dev t =
    Some (inl (s', b {{ current_cache_index := [0; NONE]; primaryBuffer := true }}, blocks * sector_unit * 512), t') /\
  read_bytes (mem_of s') b0 (32 * sector_unit * 512) = disk_bytes dsk (start_sector b) (32 * sector_unit) /\
  read_bytes (mem_of s') user (blocks * sector_unit * 512) = disk_bytes dsk (start_sector b) (blocks * sector_unit) /\
  dma_spinlock (dmaBuffer s') = dma_spinlock (dmaBuffer s).
Proof.
  destruct Hfresh as [Hcan Hflag Hlock Hcore Hcache Hprim Hidx [Hss Hse] Hn Huser Hap].
  assert (0 <= start_sector b < 2 ^ 48) as Hst by (destruct Hcan as [_ _ _ _ _ _ _ _ _ (H1 & H2 & H3) _ _ _]; unfold sector_unit in *; destruct (lba48 d); lia).
  unfold read_round, chunck, sector_unit in *. rewrite Z.sub_0_r, (u64_small (blocks * 2048 * 512)) by lia.
  destruct (Z.eqb_spec (blocks * 2048 * 512) 0); [lia|].
  assert (for_each 4 0 (fun j total => skip_more b (j mod 2) total) 0 = Some 0) as ->.
  { do 4 (rewrite for_each_S, (proj2 (skip_none b _ 0 ltac:(apply Z.mod_pos_bound; lia) Hss Hse ltac:(lia) ltac:(lia) ltac:(lia))); cbn [mbind option_bind]). done. }
  rewrite run_pure, Z.sub_0_r, Hprim, Hcache. cbn [Z.b2z]. change (zget [b0; b1] 0) with (Some b0). rewrite run_pure.
  rewrite (u64_small (blocks * 2048 * 512)) by lia. destruct (Z.ltb_spec (32 * 2048 * 512) (blocks * 2048 * 512)); [lia|].
  destruct (lock_unlock core (dma_spinlock (dmaBuffer s)) Hlock Hcore) as (lock & E1 & E2).
  change (dma_spinlock (dmaBuffer (set_mem s _))) with (dma_spinlock (dmaBuffer s)). rewrite E1, run_pure.

  replace (u64 (start_sector b + 0 / 512)) with (start_sector b) by (rewrite Z.div_0_l, Z.add_0_r, u64_small; lia).
  match goal with |- context [read_and_wait _ _ _ _ _ _ _ _ _ ?s1] =>
    destruct (read_and_wait_run fuel dev now s1 i (start_sector b) b0 (32 * 2048) me 0 d dsk current_eoi t) as (s2 & t2 & E3 & R & L & _) end;
    [by revert Hcan; apply can_read_same | exact Hdsk | apply current_eoi_harmless | exact Hflag | exact Hflag | |].
  { destruct Hcan as [_ _ _ _ Hf _ _ _ _ _ _ _ _]. assert (256 <= read_chunk (lba48 d)) by (unfold read_chunk, DMA_READ_CHUNK_EXT, DMA_READ_CHUNK; destruct (lba48 d); lia).
    apply Z.lt_le_incl, Z.div_lt_upper_bound; nia. }
  rewrite (run_bind _ _ _ _ _ _ E3).
  match goal with |- context [fast_memcpy ?m _ _ _] => change m with (mem_of s2) end. rewrite Z.add_0_r, (u64_small user) by lia.
  destruct (fast_memcpy_run (mem_of s2) user b0 (blocks * 2048 * 512)) as (mem & E4 & M); [lia | lia |].
  rewrite E4, run_pure, Hidx. cbn [mbind option_bind]. change (zset [NONE; NONE] 0 (0 / 512)) with (Some [0; NONE]). rewrite run_pure.
  rewrite Z.add_0_l, (u64_small (blocks * 2048 * 512)) by lia.
  eexists _, t2. split; [reflexivity|]. 
  match goal with |- context [set_mem ?x mem] => change (mem_of (set_mem x mem)) with mem end.
  assert (zlen (read_bytes (mem_of s2) b0 (blocks * 2048 * 512)) = blocks * 2048 * 512) as Lr by (apply zlen_read; lia).
  split; [|split].
  - rewrite <- R. apply read_ext. intros c Hc. rewrite M. apply write_bytes_out. rewrite Lr. lia.
  - rewrite (read_ext mem _ _ _ (fun c _ => M c)), read_write_n by exact Lr.
    pose proof (read_prefix dsk (mem_of s2) b0 (start_sector b) (blocks * 2048) (32 * 2048) Hdsk ltac:(lia) R 0 ltac:(lia) ltac:(lia)) as Hp.
    by rewrite Z.mul_0_l, !Z.add_0_r in Hp.
  - cbn [dmaBuffer set_mem set_dma dma_spinlock apply_update constant]. rewrite L. exact E2.
Qed.

Lemma first_reading t : exists s' t',
  read_blocks fuel (one_transfer dsk fuel) core now i user s b dev t =
    Some ((s', b {{ current_cache_index := [0; NONE]; primaryBuffer := true }}), t') /\
  read_bytes (mem_of s') b0 (32 * sector_unit * 512) = disk_bytes dsk (start_sector b) (32 * sector_unit) /\
  read_bytes (mem_of s') user (blocks * sector_unit * 512) = disk_bytes dsk (start_sector b) (blocks * sector_unit) /\
  dma_spinlock (dmaBuffer s') = dma_spinlock (dmaBuffer s).
Proof.
  destruct (first_round_run t) as (s' & t' & E & R). exists s', t'. split; [|exact R].
  destruct Hfresh as [Hcan _ _ _ _ _ Hidx [Hss Hse] Hn Huser _].
  assert (exists m, fuel = Datatypes.S (Datatypes.S m)) as [m Hm]
    by (destruct Hcan; destruct fuel as [|[|m]]; [lia | lia | by eexists]).
  assert (0 <= start_sector b < 2 ^ 48) as Hst by (destruct Hcan as [_ _ _ _ _ _ _ _ _ (H1 & H2 & H3) _ _ _]; unfold sector_unit in *; destruct (lba48 d); lia).
  unfold read_blocks. rewrite Hidx. change (zget [NONE; NONE] 0) with (Some NONE). change (zget [NONE; NONE] 1) with (Some NONE).
  rewrite !run_pure, Z.eqb_refl. cbn [andb]. unfold read_nBlocks. rewrite u64_small by (unfold sector_unit in *; lia).
  rewrite (proj1 (skip_none b 0 0 ltac:(lia) Hss Hse ltac:(lia) ltac:(lia) ltac:(lia))), run_pure.
  rewrite (proj1 (skip_none b 1 0 ltac:(lia) Hss Hse ltac:(lia) ltac:(lia) ltac:(lia))), run_pure.
  assert (forall A B (body : A -> IO (A + B)) x, io_loop fuel body x = io_loop (Datatypes.S (Datatypes.S m)) body x) as Hl by (intros; by rewrite Hm).
  rewrite Hl, io_loop_S, (run_bind _ _ _ _ _ _ E), io_loop_S.
  unfold read_round at 2. rewrite Z.sub_diag. done.
Qed.
End first_reading.

(** All that is asked for is skipped: nothing is read. *)
Lemma skip_all fuel hlt core now i user s b n S dev t : fuel <> O -> start_sector b = S -> n = blocks_to_read_number b * sector_unit ->
  0 < n -> 0 < S -> S + n < 2 ^ 48 -> skip_start b = [S; NONE] -> skip_end b = [S + n; NONE] ->
  read_nBlocks fuel hlt core now i user (blocks_to_read_number b) s b dev t = Some ((s, b), t).
Proof.
  intros Hf HS Hn Hn0 HS0 Hle Hss Hse. unfold read_nBlocks. rewrite <- Hn, (u64_small (n * 512)) by lia.
  assert (skip_first b 0 0 = Some (n * 512)) as ->.
  { unfold skip_first. rewrite Hss, Hse, HS. change (zget [S; NONE] 0) with (Some S). change (zget [S + n; NONE] 0) with (Some (S + n)).
    cbn [mbind option_bind]. rewrite Z.add_0_l, (u64_small S), Z.leb_refl by lia. destruct (Z.ltb_spec 0 (S + n)); [|lia]. cbn [andb].
    replace (S + n - S) with n by lia. by rewrite (u64_small n), (u64_small (n * 512)), Z.add_0_l, (u64_small (n * 512)) by lia. }
  rewrite run_pure. assert (skip_first b 1 (n * 512) = Some (n * 512)) as ->.
  { unfold skip_first. rewrite Hss, Hse, HS. change (zget [S; NONE] 1) with (Some NONE). change (zget [S + n; NONE] 1) with (Some NONE).
    cbn [mbind option_bind]. rewrite (u64_small (n * 512 + S)) by lia. unfold NONE. destruct (Z.leb_spec (2 ^ 64 - 1) (n * 512 + S)); [lia | done]. }
  rewrite run_pure. destruct fuel as [|fuel]; [done|]. rewrite io_loop_S. unfold read_round at 2. by rewrite Z.sub_diag.
Qed.

Section second_reading.
Context (user : Z) (s : Ata) (b : BlockService) (b0 b1 : Z).
Notation S := (start_sector b).
Notation n := (blocks_to_read_number b * 2048).
Context (Hc : cache b = [b0; b1]) (Hi : current_cache_index b = [0; NONE]).
Context (Hss : skip_start b = [NONE; NONE]) (Hse : skip_end b = [NONE; NONE]).
Context (Hn : 0 < n) (Hst : 0 < S) (Hle : S + n <= 32 * 2048).
Context (Hu : 0 <= user /\ user + n * 512 < 2 ^ 64) (Hb : 0 <= b0 /\ b0 + 32 * 2048 * 512 < 2 ^ 64).

Lemma cache_hit mem : fast_memcpy (mem_of s) user (b0 + S * 512) (n * 512) = Some mem ->
  from_cache user S (n + S) 0 (s, b) = Some (set_mem s mem, b {{ skip_start := [S; NONE]; skip_end := [S + n; NONE] }}).
Proof.
  intros E. unfold from_cache, sector_unit. rewrite Hi, Hc, Hss, Hse. change (zget [0; NONE] 0) with (Some 0). change (zget [b0; b1] 0) with (Some b0).
  cbn [mbind option_bind]. rewrite !Z.sub_0_r, Z.add_0_l, (u64_small (32 * 2048)), (u64_small S) by lia.
  destruct (Z.leb_spec 0 S); [|lia]. destruct (Z.ltb_spec S (32 * 2048)); [|lia]. cbn [andb].
  replace (n + S - S) with n by lia. rewrite (u64_small n) by lia. destruct (Z.ltb_spec (32 * 2048) n); [lia|].
  rewrite (u64_small (S * 512)), (u64_small (b0 + _)), (u64_small (n * 512)), E by lia. cbn [mbind option_bind].
  by rewrite (u64_small (S + n)) by lia.
Qed.

Lemma cache_miss s' b' : current_cache_index b' = [0; NONE] -> cache b' = [b0; b1] -> from_cache user S (n + S) 1 (s', b') = Some (s', b').
Proof.
  intros Hi' Hc'. unfold from_cache. rewrite Hi', Hc'. change (zget [0; NONE] 1) with (Some NONE). change (zget [b0; b1] 1) with (Some b1).
  cbn [mbind option_bind]. rewrite (u64_small (S + (n + S))) by lia. unfold NONE.
  destruct (Z.leb_spec (2 ^ 64 - 1) S); [lia|]. destruct (Z.ltb_spec (2 ^ 64 - 1) (S + (n + S))); [lia|]. by rewrite andb_false_r.
Qed.

(** A reading from what the first one left does not touch the disk: the cache is taken to start at sector 0. *)
Lemma second_reading fuel hlt core now i dev t : fuel <> O ->
  user + n * 512 <= b0 \/ b0 + 32 * 2048 * 512 <= user ->
  exists mem, read_blocks fuel hlt core now i user s b dev t = Some ((set_mem s mem, b), t) /\
    read_bytes mem user (n * 512) = read_bytes (mem_of s) (b0 + S * 512) (n * 512).
Proof.
  intros Hf Hap.
  destruct (fast_memcpy_run (mem_of s) user (b0 + S * 512) (n * 512)) as (mem & E & M); [lia | lia |].
  exists mem. split; [|rewrite (read_ext mem _ _ _ (fun c _ => M c)); apply read_write_n, zlen_read; lia].
  unfold read_blocks. rewrite Hi. change (zget [0; NONE] 0) with (Some 0). change (zget [0; NONE] 1) with (Some NONE).
  rewrite !run_pure. change (0 =? NONE) with false. cbn [andb]. unfold sector_unit. rewrite (u64_small (n + S)) by lia.
  rewrite for_each_S, (cache_hit mem E). cbn [mbind option_bind]. rewrite for_each_S. change (0 + 1) with 1.
  rewrite cache_miss by done. cbn [mbind option_bind]. change (for_each 0 _ _ ?x) with (Some x). rewrite run_pure.
  match goal with |- context [read_nBlocks _ _ _ _ _ _ _ ?s' ?b'] =>
    pose proof (skip_all fuel hlt core now i user s' b' n S dev t Hf eq_refl eq_refl Hn Hst ltac:(lia) eq_refl eq_refl) as Es end.
  rewrite (run_bind _ _ _ _ _ _ Es). unfold mret, IO_ret. do 3 f_equal. destruct b. simpl in *. by subst.
Qed.
End second_reading.

(** * Properties *)


(** Blocks that are read for the second time are wrong.  The cache remembers
    that its buffer starts at sector 0, whatever sector was asked for; the
    second reading of the same blocks finds them all in the cache, leaves the
    disk alone, and delivers the sectors from twice the starting sector on. *)
Theorem second_blocks_wrong fuel dev core now s b i me user b0 b1 d dsk t :
  fresh fuel dev s b i core me user b0 b1 d -> (forall k, zlen (dsk k) = 512) ->
  let n := blocks_to_read_number b * sector_unit in
  0 < start_sector b -> start_sector b + n <= 32 * sector_unit ->
  exists s1 b' t1 s2, read_blocks fuel (one_transfer dsk fuel) core now i user s b dev t = Some ((s1, b'), t1) /\
    read_bytes (mem_of s1) user (n * 512) = disk_bytes dsk (start_sector b) n /\
    read_blocks fuel (one_transfer dsk fuel) core now i user s1 b' dev t1 = Some ((s2, b'), t1) /\
    read_bytes (mem_of s2) user (n * 512) = disk_bytes dsk (2 * start_sector b) n.
Proof.
  intros Hf Hd n Hst Hle. destruct (first_reading fuel dev core now s b i me user b0 b1 d Hf dsk Hd t) as (s1 & t1 & E & R & U & _).
  destruct Hf as [Hcan _ _ _ Hc _ _ [Hss Hse] Hn Hu Hap]. destruct (buffer_fits _ _ _ _ _ _ _ _ _ Hcan) as [Hb Hb64].
  pose proof (patience _ _ _ _ _ _ _ _ _ Hcan) as Hfuel. unfold n, sector_unit in *.
  set (b' := b {{ current_cache_index := [0; NONE]; primaryBuffer := true }}) in *.
  assert (cache b' = [b0; b1] /\ current_cache_index b' = [0; NONE] /\ skip_start b' = [NONE; NONE] /\ skip_end b' = [NONE; NONE] /\
    blocks_to_read_number b' = blocks_to_read_number b /\ start_sector b' = start_sector b) as (C1 & C2 & C3 & C4 & C5 & C6) by (by destruct b).
  destruct (second_reading user s1 b' b0 b1 C1 C2 C3 C4 ltac:(lia) ltac:(lia) ltac:(lia) ltac:(lia) ltac:(lia)
    fuel (one_transfer dsk fuel) core now i dev t1 ltac:(lia) ltac:(lia)) as (mem & E2 & M). rewrite C5, C6 in M.
  eexists s1, _, t1, _. split; [exact E|]. split; [exact U|]. split; [exact E2|].
  change (mem_of (set_mem s1 mem)) with mem. etrans; [exact M|].
  replace (2 * start_sector b) with (start_sector b + start_sector b) by lia.
  exact (read_prefix dsk (mem_of s1) b0 (start_sector b) (blocks_to_read_number b * 2048) (32 * 2048) Hd ltac:(lia) R (start_sector b) ltac:(lia) Hle).
Qed.

(** Ten blocks from sector 1000 on, into a buffer far from all others. *)
Definition ten_blocks : BlockService :=
  mkBlockService [0x8000000; 0x8010000] false 1000 [NONE; NONE] 10 [NONE; NONE] [NONE; NONE].

Definition numbered_disk (k : Z) : list Z := replicate 512 (k mod 256).

Lemma ten_blocks_fresh : fresh (Z.to_nat 6000) ready_controller small_machine ten_blocks 0 0 0 0x20000000 0x8000000 0x8010000 (first_disk false).
Proof.
  split; try done.
  - exact (small_machine_reads 1000 0x8000000 65536 ltac:(lia) ltac:(lia) ltac:(lia) ltac:(lia) ltac:(lia)).
  - eexists. split; [reflexivity|]. vm_compute. split; [discriminate | reflexivity].
  - right. vm_compute. discriminate.
Qed.


Lemma second_blocks_wrong_witness : exists s1 b' t1 s2,
  read_blocks (Z.to_nat 6000) (one_transfer numbered_disk (Z.to_nat 6000)) 0 0 0 0x20000000 s1 b' ready_controller t1 = Some ((s2, b'), t1) /\
  read_bytes (mem_of s1) 0x20000000 (10 * sector_unit * 512) = disk_bytes numbered_disk 1000 (10 * sector_unit) /\
  read_bytes (mem_of s2) 0x20000000 (10 * sector_unit * 512) = disk_bytes numbered_disk 2000 (10 * sector_unit).
Proof.
  destruct (second_blocks_wrong (Z.to_nat 6000) ready_controller 0 0 small_machine ten_blocks 0 0 0x20000000 0x8000000 0x8010000
    (first_disk false) numbered_disk []) as (s1 & b' & t1 & s2 & _ & U & E & W).
  - exact ten_blocks_fresh.
  - intros k. unfold numbered_disk, zlen. rewrite length_replicate. reflexivity.
  - cbn. lia.
  - unfold sector_unit. cbn. lia.
  - exists s1, b', t1, s2. split; [exact E|]. split; [exact U | exact W].
Defined.
