(* ===== verification/XmlConfig.v ===== *)
(** * The configuration file: [parseAFile] of [sources/xml/XMLService.c]

    The file is read from the disk between the tags of the root element and
    parsed.  The parameters of the service are arguments. *)

From S2P Require Import Prelude Defines Device Spinlock KMalloc PhysicalMemory FastMem Stdio Apic Ata AtaManager BlockService Strings XmlParser XmlQuery.

#[local] Open Scope Z_scope.

Definition SECTOR_SIZE : Z := 512.
Definition open_config : list Z := codes "<SystemConfig>" ++ [10].
Definition close_config : list Z := codes "</SystemConfig>" ++ [10].

Section parse.
Context `{Routines} (fuel : nat) (hlt : Ata -> IO Ata) (core now : Z).

(** [sendAPICEOI] of the core that waits. *)
Definition fixed_eoi (who : Z) (s : Ata) : IO Ata :=
  a ← pure (get_apic (kernel s) who);
  _ ← sendAPICEOI a;
  mret s.

(** [sprintf(p, text)] with nothing to format. *)
Definition print_text (mem : memory) (p : Z) (text : list Z) : option memory :=
  out ← sprintf_raw text []; Some (write_bytes mem p (out ++ [0])).

(** What the string at [p] is followed by. *)
Definition print_behind (mem : memory) (p : Z) (text : list Z) : option memory :=
  l ← strlen mem p; print_text mem (p + l) text.

(** The result is what [kernel.sys_xml_confg] becomes; from the allocation of the
    heap on the code is that of [ParseXMLString]. *)
Definition parseAFile (uninitialised : void_ptr_stack_t) (garbage : xml_heap_t) (sectors_start sectors_count_to_read ata_core_id : Z) (s : Ata)
  : IO (Ata * option xml_heap_t) :=
  let size := u64 (u64 (sectors_count_to_read + 1) * SECTOR_SIZE) in
  x ← pure (kvalloc core (memoryAllocator (kernel s)) size);
  let '(al, config_buffer) := x in
  mem ← pure (print_text (memset (mem_of s) config_buffer 0 size) config_buffer open_config);
  l ← pure (strlen mem config_buffer);
  s ← read_and_wait fuel hlt (fixed_eoi ata_core_id) ata_core_id now 0 sectors_start (u64 (config_buffer + l)) sectors_count_to_read
        (set_mem (s {{ kernel := (kernel s) {{ memoryAllocator := al }} }}) mem);
  mem ← pure (print_behind (mem_of s) config_buffer close_config);
  x ← pure (ParseXMLString core (memoryAllocator (kernel s)) uninitialised garbage mem config_buffer);
  let '(al, mem, h) := x in
  mret (set_mem (s {{ kernel := (kernel s) {{ memoryAllocator := al }} }}) mem, h).
End parse.

(** ** Lemmas *)

Lemma fixed_eoi_harmless dev me : harmless dev me (fixed_eoi me).
Proof.
  intros s t Hk [a Ha]. unfold fixed_eoi. rewrite Ha, run_pure. unfold sendAPICEOI, writeLocalAPIC.
  rewrite (run_bind (write _ _ _ _) _ _ _ tt _ eq_refl). eexists _, _. split; [reflexivity|]. split; [|exact Hk]. by split_and!.
Qed.

(** Text put behind a string makes one string. *)
Lemma append_cstring mem p s t : cstring mem p s -> Forall (fun c => 0 < c < 256) t ->
  cstring (write_bytes mem (p + zlen s) (t ++ [0])) p (s ++ t).
Proof.
  intros (Hr & _ & Hs) Ht. pose proof (zlen_nonneg s). pose proof (zlen_nonneg t).
  assert (zlen (t ++ [0]) = zlen t + 1) as Hl by (rewrite zlen_app; done).
  pose proof (proj2 (text_at_read (write_bytes mem (p + zlen s) (t ++ [0])) (p + zlen s) (t ++ [0])) (read_write_same mem (p + zlen s) (t ++ [0]))) as Hw.
  apply text_at_app in Hw as [Hw [Hz _]]. apply text_at_cstring.
  - apply text_at_app. split; [|exact Hw]. apply text_at_read. rewrite read_out by lia. exact Hr.
  - rewrite zlen_app, Z.add_assoc. exact Hz.
  - by apply Forall_app.
Qed.

Lemma empty_cstring mem p : mem p = 0 -> cstring mem p [].
Proof. intros H. split; [done|]. split; [|constructor]. change (zlen []) with 0. by rewrite Z.add_0_r. Qed.

(** The file between the tags: its characters, and zeros up to the end of the last sector. *)
Lemma file_cstring mem mem' buf n file :
  zlen file <= n * 512 -> Forall (fun c => 0 < c < 256) file ->
  cstring mem buf open_config -> mem (buf + 15 + n * 512) = 0 ->
  read_bytes mem' (buf + 15) (n * 512) = file ++ replicate (Z.to_nat (n * 512 - zlen file)) 0 ->
  (forall b, buf <= b < buf + 15 \/ b = buf + 15 + n * 512 -> mem' b = mem b) -> cstring mem' buf (open_config ++ file).
Proof.
  intros Hn Hf (Hr & _ & Ho) Hend Hread Hm. pose proof (zlen_nonneg file). change (zlen open_config) with 15 in *.
  assert (read_bytes mem' (buf + 15) (zlen file) = file /\ mem' (buf + 15 + zlen file) = 0) as [Hr' Hz].
  { destruct (decide (zlen file = n * 512)) as [E|Hne].
    - rewrite <- E, Z.sub_diag in Hread. cbn [Z.to_nat replicate] in Hread. rewrite app_nil_r in Hread. split; [done|].
      rewrite E, Hm by (by right). exact Hend.
    - replace (n * 512) with (zlen file + (1 + (n * 512 - zlen file - 1))) in Hread at 1 by lia.
      rewrite read_bytes_app, (read_bytes_app _ _ 1) in Hread by lia.
      apply app_inj_1 in Hread as [H1 H2]; [|pose proof (zlen_read mem' (buf + 15) (zlen file) ltac:(lia)); unfold zlen in *; lia].
      split; [exact H1|]. replace (Z.to_nat (n * 512 - zlen file)) with (S (Z.to_nat (n * 512 - zlen file - 1))) in H2 by lia.
      cbn [replicate] in H2. change (read_bytes mem' (buf + 15 + zlen file) 1) with [mem' (0 + (buf + 15 + zlen file))] in H2.
      rewrite Z.add_0_l in H2. by injection H2. }
  apply text_at_cstring; [apply text_at_app; split; apply text_at_read| |by apply Forall_app].
  - change (zlen open_config) with 15. etrans; [|exact Hr]. apply read_ext. intros b Hb. apply Hm. lia.
  - exact Hr'.
  - rewrite zlen_app. change (zlen open_config) with 15. by rewrite Z.add_assoc.
Qed.

Lemma config_chars : Forall (fun c => 0 < c < 256) open_config /\ Forall (fun c => 0 < c < 256) close_config.
Proof.
  assert (forall l, forallb (fun c => (0 <? c) && (c <? 256)) l = true -> Forall (fun c => 0 < c < 256) l) as H.
  { intros l Hl. apply List.Forall_forall. intros c Hc. rewrite forallb_forall in Hl. specialize (Hl c Hc). rewrite andb_true_iff, !Z.ltb_lt in Hl. done. }
  split; apply H; reflexivity.
Qed.

Lemma print_config mem p : print_text mem p open_config = Some (write_bytes mem p (open_config ++ [0])) /\
  print_text mem p close_config = Some (write_bytes mem p (close_config ++ [0])).
Proof. split; reflexivity. Qed.

(** * Properties *)

(** C23: The configuration file gets from the disk into the tree.  If the sectors
    hold a text, padded with zeros, that makes a document when the tags of the
    root element are put around it, then [parseAFile] reads them, and the
    document it has put together, which fits into the memory allocated for it,
    is parsed to exactly this tree. *)
Theorem config_loaded {R : Routines} {Rok : RoutinesOk} fuel dev now s start n me al1 al2 buf address u garbage d file dsk disk t :
  let room := (n + 1) * SECTOR_SIZE in
  kvalloc me (memoryAllocator (kernel s)) room = Some (al1, buf) -> kvalloc me al1 XML_HEAP_SIZE = Some (al2, address) ->
  0 < buf -> address <> NULL -> frame_ok u ->
  can_read fuel dev (set_dma s ((dmaBuffer s) {{ enabled := true }})) 0 start (buf + 15) n me disk ->
  flag_there me (kernel s) -> flag_there 0 (kernel s) -> (forall k, zlen (dsk k) = 512) ->
  (n + read_chunk (lba48 disk) - 1) / read_chunk (lba48 disk) <= Z.of_nat fuel ->
  buf + room <= dma_phy_address disk \/ dma_phy_address disk + DMA_AREA <= buf -> buf + room <= prdt disk \/ prdt disk + 4096 <= buf ->
  buf + room < 2 ^ 64 ->
  disk_bytes dsk start n = file ++ replicate (Z.to_nat (n * 512 - zlen file)) 0 -> zlen file <= n * 512 -> Forall (fun c => 0 < c < 256) file ->
  render d ++ [10] = open_config ++ file ++ close_config -> good d = true -> size d <= MAX_XML_NODES -> height d <= MAX_VOID_STACK_SIZE ->
  exists s' h t', parseAFile fuel (one_transfer dsk fuel) me now u garbage start n me s dev t = Some ((s', Some h), t') /\
    current_node h = size d /\ represents (mem_of s') (xml_nodes h) d buf 0 None /\ zlen (render d ++ [10]) < room.
Proof.
  cbv zeta. unfold SECTOR_SIZE. intros Hk1 Hk2 Hbuf Hnull Hu Hcan Hwho H0 Hdsk Hrounds Harea Htable Hb64 Hfile Hlen Hchars Hdoc Hgood Hsize Hheight.
  pose proof (zlen_nonneg file). destruct config_chars as [Ho Hcl].
  unfold parseAFile, SECTOR_SIZE. rewrite (u64_small (n + 1)), (u64_small ((n + 1) * 512)), Hk1, run_pure by lia. cbv beta iota.
  set (mem0 := memset (mem_of s) buf 0 ((n + 1) * 512)). rewrite (proj1 (print_config mem0 buf)), run_pure.
  set (mem1 := write_bytes mem0 buf (open_config ++ [0])).
  assert (cstring mem1 buf open_config) as Hc1.
  { pose proof (append_cstring mem0 buf [] open_config) as Ha. change (zlen []) with 0 in Ha. rewrite Z.add_0_r in Ha. apply Ha; [|done].
    apply empty_cstring. unfold mem0, memset. zcases; lia || done. }
  rewrite (strlen_ok mem1 buf _ Hc1) by (change (zlen open_config) with 15; lia). rewrite run_pure. change (zlen open_config) with 15. rewrite (u64_small (buf + 15)) by lia.
  match goal with |- context [read_and_wait _ _ _ _ _ _ _ _ _ ?s1] => set (s1' := s1) end.
  destruct (read_and_wait_run fuel dev now s1' 0 start (buf + 15) n me me disk dsk (fixed_eoi me) t) as (s2 & t2 & E2 & R2 & _ & K2 & Y2);
    [by revert Hcan; apply can_read_same | done | apply fixed_eoi_harmless | done | done | done |].
  rewrite (run_bind _ _ _ _ _ _ E2). rewrite Hfile in R2.
  assert (0 < n) as Hn by (by destruct (sectors_there _ _ _ _ _ _ _ _ _ Hcan)).
  assert (cstring (mem_of s2) buf (open_config ++ file)) as Hc2.
  { apply (file_cstring mem1 _ buf n file); try done.
    - unfold mem1. rewrite write_bytes_out by (change (zlen (open_config ++ [0])) with 16; lia). unfold mem0, memset. zcases; lia || done.
    - intros b Hb. apply K2; lia. }
  unfold print_behind. rewrite (strlen_ok _ buf _ Hc2) by (rewrite ?zlen_app; change (zlen open_config) with 15; lia).
  cbn [mbind option_bind]. rewrite (proj2 (print_config _ _)), run_pure. set (mem3 := write_bytes _ _ _).
  assert (cstring mem3 buf ([] ++ render d ++ [10])) as Hc3.
  { cbn [app]. rewrite Hdoc, app_assoc. by apply append_cstring. }
  assert (zlen ([] ++ render d ++ [10]) < (n + 1) * 512) as Hfit.
  { cbn [app]. rewrite Hdoc, !zlen_app. change (zlen open_config) with 15. change (zlen close_config) with 16. lia. }
  destruct (parse_xml_doc u mem3 garbage buf [] d [10] Hu Hc3 Hbuf ltac:(lia) eq_refl Hgood eq_refl Hsize Hheight)
    as (h0 & mem4 & h & E3 & E4 & _ & Hcur & Hrep & _).
  unfold ParseXMLString. rewrite Y2. change (memoryAllocator (kernel s1')) with al1. rewrite Hk2. cbn [mbind option_bind].
  rewrite (proj2 (Z.eqb_neq address NULL) Hnull), E3. cbn [mbind option_bind]. rewrite E4. cbn [mbind option_bind]. rewrite run_pure.
  eexists _, h, t2. split; [reflexivity|]. split; [exact Hcur|]. split; [|exact Hfit].
  change (zlen []) with 0 in Hrep. by rewrite Z.add_0_r in Hrep.
Qed.

(** A sector with one entry. *)
Definition role_entry : list Z := codes "<Role> 1 </Role>".
Definition role_doc : doc := Branch (codes "SystemConfig") [] [([10], Leaf (codes "Role") [] (codes " 1 "))] [].
Definition config_disk (k : Z) : list Z := role_entry ++ replicate 496 0.

Definition config_machine : Ata :=
  small_machine {{ kernel := (kernel small_machine) {{ memoryAllocator :=
    mkMemoryAllocator 0x8000000 0x9000000 0x10000000 0x10000000 0x10000000 0x20000000 0 (mkspinlock 0 0 0 0) }} }}.

Lemma config_loaded_witness : exists s' h t',
  parseAFile (Z.to_nat 6000) (one_transfer config_disk (Z.to_nat 6000)) 0 0 sample_frame garbage_heap 1000 1 0 config_machine ready_controller []
    = Some ((s', Some h), t') /\ represents (mem_of s') (xml_nodes h) role_doc 0x9000000 0 None.
Proof.
  destruct (config_loaded (Z.to_nat 6000) ready_controller 0 config_machine 1000 1 0
    ((memoryAllocator (kernel config_machine)) {{ kernel_memory_current_address := 0x9000400 }})
    ((memoryAllocator (kernel config_machine)) {{ kernel_memory_current_address := 0x9001000 + XML_HEAP_SIZE }}) 0x9000000 0x9001000
    sample_frame garbage_heap role_doc role_entry config_disk (first_disk false) []) as (s' & h & t' & E & _ & H & _).
  - vm_compute. reflexivity.
  - vm_compute. reflexivity.
  - lia.
  - discriminate.
  - split; vm_compute; [reflexivity | split; [discriminate | reflexivity]].
  - generalize (small_machine_reads 1000 0x900000F 1 ltac:(lia) ltac:(lia) ltac:(lia) ltac:(lia) ltac:(lia)). by apply can_read_same.
  - eexists. split; [reflexivity|]. vm_compute. split; [discriminate | reflexivity].
  - eexists. split; [reflexivity|]. vm_compute. split; [discriminate | reflexivity].
  - intros k. vm_compute. reflexivity.
  - vm_compute. discriminate.
  - right. vm_compute. discriminate.
  - right. vm_compute. discriminate.
  - vm_compute. reflexivity.
  - vm_compute. reflexivity.
  - vm_compute. discriminate.
  - vm_compute. repeat (constructor; [split; reflexivity|]). constructor.
  - vm_compute. reflexivity.
  - vm_compute. reflexivity.
  - vm_compute. discriminate.
  - vm_compute. discriminate.
  - exists s', h, t'. split; [exact E | exact H].
Defined.
