(* ===== verification/NetStack.v ===== *)
(** * From the card to a core: [e1000HandleReceive], [processEthernetPacket] and [processIPIOEPacket] together

    The receive loop of the E1000 driver with the protocols in place of its argument. *)

From S2P Require Import Prelude Defines Device FastMem Spinlock KMalloc PhysicalMemory MemoryPageMap Network Worker Interrupts Apic IPIoE E1000.

#[local] Open Scope Z_scope.

Section stack.
Context (core : Z) (tables : words) (pgd : Z) (ram : list event -> memory -> memory) (fuel : nat).

(** One packet, handed to the protocols. *)
Definition protocols : NetworkPacket -> E1000 * Kernel -> IO (E1000 * Kernel) :=
  deliver core tables pgd (processIPIOEPacket fuel) ram fuel.

Definition receive_packets (rounds : nat) (e : E1000) (k : Kernel) : IO (E1000 * Kernel) :=
  e1000HandleReceive protocols rounds e k.
End stack.

(** ** Lemmas *)

Lemma type_of_frame mem p d s pk payload :
  length d = 6%nat -> length s = 6%nat -> read_bytes mem p (30 + zlen payload) = message_frame d s pk payload ->
  read_bytes mem (h_source p) 6 = s /\ ntohs (get16 mem (h_proto p)) = ETHERTYPE_IPIOE.
Proof.
  intros Hd Hs Hf. apply frame_parts in Hf as (_ & H2 & H3 & _); [|done..]. split; [exact H2|].
  change (read_bytes mem (p + 12) 2) with [mem (0 + (p + 12)); mem (1 + (p + 12))] in H3. injection H3 as E1 E2.
  replace (0 + (p + 12)) with (p + 12) in E1 by lia. replace (1 + (p + 12)) with (p + 12 + 1) in E2 by lia.
  unfold get16, h_proto. rewrite E1, E2. done.
Qed.

(** A frame from another machine goes to [processIPIOEPacket]. *)
Lemma deliver_message core tables pgd ram fuel skb e k dev t d s p payload :
  length d = 6%nat -> length s = 6%nat -> s <> mac e ->
  read_bytes (ram t (kernel_memory k)) (ethernetPacket skb) (30 + zlen payload) = message_frame d s p payload ->
  protocols core tables pgd ram fuel skb (e, k) dev t =
    (k ← processIPIOEPacket fuel (k {{ kernel_memory := ram t (kernel_memory k) }}) skb; mret (e, k)) dev t.
Proof.
  intros Hd Hs Hne Hf. destruct (type_of_frame _ _ _ _ _ _ Hd Hs Hf) as [H1 H2].
  unfold protocols, deliver. rewrite (run_bind (fun _ t => Some (t, t)) _ _ _ _ _ eq_refl). cbv zeta.
  unfold processEthernetPacket, getEthernetPacketFromSKB.
  change (kernel_memory (k {{ kernel_memory := ?m }})) with m. rewrite H1, H2. rewrite bool_decide_eq_false_2 by done. done.
Qed.

(** The core of a message has it in its queue and has been told. *)
Definition told (cur : Z) (a : APIC) (s d : list Z) (p : IPIOE_Packet) (payload : list Z) (k : Kernel) (t : list event) : Prop :=
  exists a', get_apic k (destinationCore p) = Some a' /\ holds_message (worker a') s d p payload /\
    (destinationCore p = cur -> zget (fired a') IPIOE_IPI = Some 1) /\
    (destinationCore p <> cur -> exists w1 w2, writes t = w1 ++ ipi_writes a IPIOE_IPI ++ w2).

Lemma told_event cur a s d p payload k t ev : told cur a s d p payload k t -> told cur a s d p payload k (ev :: t).
Proof.
  intros (a' & H1 & H2 & H3 & H4). exists a'. split_and!; try done. intros Hne. destruct (H4 Hne) as (w1 & w2 & E).
  destruct ev as [sp n b v|sp n b v|sec]; cbn [writes]; [by exists w1, w2 | | by exists w1, w2].
  exists w1, (w2 ++ [(sp, b, v)]). by rewrite E, <- !app_assoc.
Qed.

(** ** Properties *)

(** C6: a message that arrives at the card reaches its core.  When the card has put a frame of another machine's
    request into the ring, and the core it is for has an empty queue, the receive loop takes the frame out of the
    ring, puts its addresses, its header and its data into the queue of that core, and tells the core: by its flag
    if it is the core that runs, by an inter-processor interrupt otherwise. *)
Theorem message_reaches_core core tables pgd ram fuel rounds e k dev t skb d s p payload m cur a :
  card_wf e -> bar_type e = 0 -> fills dev e [skb] -> u16 (dev t Mmio 4 (reg e REG_RXDESCHEAD) mod 2 ^ 32) <> rx_cur e ->
  0 <= packets_received k < 2 ^ 64 -> (1 < rounds)%nat ->
  length d = 6%nat -> length s = 6%nat -> s <> mac e -> packet_ok p -> opcode p = IPIoE_OPCODE_REQUEST ->
  dataLength p = zlen payload -> zlen payload <= ENTRY_DATA_SIZE ->
  (forall t mem, read_bytes (ram t mem) (ethernetPacket skb) (30 + zlen payload) = message_frame d s p payload) ->
  GetVirtualAddress ((Apic.physicalMemoryManager k) {{ p_physical_address := local_apic_addr k }}) = Some m ->
  identifies dev (u64 (virtualAddress m + 0x20)) cur -> get_apic k (destinationCore p) = Some a ->
  idle_worker (worker a) -> zlen (fired a) = 256 -> delivers fuel dev a ->
  exists e' k' t', receive_packets core tables pgd ram fuel rounds e k dev t = Some ((e', k'), t') /\ card_wf e' /\
    told cur a s d p payload k' t' /\ rx_cur e' = (rx_cur e + 1) mod E1000_NUM_RX_DESC /\
    packets_received k' = u64 (packets_received k + 1).
Proof.
  intros W Hb Hfill Hhead Hcount Hrounds Hd Hs Hne Hp Hop Hlen Hle Hram Hvirt Hid Ha Hidle Hfired Hdel.
  set (P := fun (l : list NetworkPacket) (e1 : E1000) (k1 : Kernel) (t1 : list event) => mac e1 = mac e /\
    match l with
    | [] => GetVirtualAddress ((Apic.physicalMemoryManager k1) {{ p_physical_address := local_apic_addr k1 }}) = Some m /\
            get_apic k1 (destinationCore p) = Some a
    | _ :: _ => told cur a s d p payload k1 t1
    end).
  destruct (receive_all dev (protocols core tables pgd ram fuel) P [skb] rounds e k t) as (e' & k' & t' & E & W' & [_ HP] & Hc & Hn); try done.
  - split.
    + split; intros [|x l] e1 k1 t1 y [H1 H2]; (split; [exact H1|]); try exact H2. by apply told_event.
    + intros l s' r e1 k1 t1 Hl HP. destruct l as [|x [|y l]]; [|discriminate Hl | discriminate Hl]. injection Hl as <- <-. destruct HP as [Hm [Hv Hg]].
      rewrite (deliver_message core tables pgd ram fuel skb e1 k1 dev t1 d s p payload) by (try done; by rewrite Hm).
      destruct (process_request fuel dev (k1 {{ kernel_memory := ram t1 (kernel_memory k1) }}) skb d s p payload m cur a t1)
        as (k2 & t2 & a2 & E & Ha2 & Hh & _ & Hpr & Hw & Hf); try done; [exact (Hram t1 _)|].
      rewrite (run_bind _ _ _ _ _ _ E). exists e1, k2, t2. split; [reflexivity|]. split; [by split_and!|]. split; [done|].
      split; [|exact Hpr]. split; [exact Hm|]. exists a2. split_and!; try done. intros Hne'. rewrite Hw.
      bdestr (destinationCore p =? cur); [done|]. exists (writes t1), []. by rewrite app_nil_r.
  - exists e', k', t'. done.
Qed.

(** One packet in slot 30, and a local APIC with the identifier 0. *)
Definition one_packet_card : device := fun _ _ n a =>
  if n =? 8 then 0x60000 + 4096 * ((a - 0x40000) / 16)
  else if n =? 2 then 75
  else if n =? 1 then if (a - 0x40000 - 12) / 16 =? 30 then 1 else 0
  else 1.

Lemma one_packet_filled : fills one_packet_card sample_card [mkNetworkPacket 0x7E000 75].
Proof.
  split.
  - done.
  - intros i d t Hi Hd. assert (i = 0) as -> by (change (zlen [mkNetworkPacket 0x7E000 75]) with 1 in Hi; lia). vm_compute in Hd. injection Hd as <-. reflexivity.
  - intros i d t s Hs Hd. assert (i = 0) as -> by (pose proof (zget_lt _ _ _ Hs) as Hi; change (zlen [mkNetworkPacket 0x7E000 75]) with 1 in Hi; lia).
    vm_compute in Hd, Hs. injection Hd as <-. injection Hs as <-. by split.
  - intros d t Hd. vm_compute in Hd. injection Hd as <-. reflexivity.
Qed.

Lemma message_reaches_core_witness :
  let a := ((lapic_registers 0xFEE00000 blank_apic) {{ worker := waiting_worker }}) {{ apic_id := 1 }} in
  exists e' k' t', receive_packets 0 (fun _ => 0) 0 (fun _ mem => write_bytes mem 0x7E000 example_frame) 1 2 sample_card receiving_kernel one_packet_card [] =
      Some ((e', k'), t') /\
    told 0 a [8; 0; 39; 12; 27; 147] [8; 0; 39; 36; 65; 179] (message_header 1 1 9 0 45) message_bytes k' t' /\ rx_cur e' = 31.
Proof.
  intros a. destruct (GetVirtualAddress ((Apic.physicalMemoryManager receiving_kernel) {{ p_physical_address := local_apic_addr receiving_kernel }}))
    as [m|] eqn:Em; [|vm_compute in Em; discriminate Em].
  destruct (message_reaches_core 0 (fun _ => 0) 0 (fun _ mem => write_bytes mem 0x7E000 example_frame) 1 2 sample_card receiving_kernel one_packet_card []
    (mkNetworkPacket 0x7E000 75) [8; 0; 39; 36; 65; 179] [8; 0; 39; 12; 27; 147] (message_header 1 1 9 0 45) message_bytes m 0 a)
    as (e' & k' & t' & E & _ & Ht & Hc & _).
  - exact sample_card_wf.
  - reflexivity.
  - exact one_packet_filled.
  - vm_compute. discriminate.
  - vm_compute. split; [discriminate | reflexivity].
  - lia.
  - reflexivity.
  - reflexivity.
  - vm_compute. discriminate.
  - unfold packet_ok, message_header, IPIoE_OPCODE_REQUEST. cbn. lia.
  - reflexivity.
  - reflexivity.
  - vm_compute. discriminate.
  - intros t mem. exact (read_write_same mem 0x7E000 example_frame).
  - exact Em.
  - intros t. reflexivity.
  - reflexivity.
  - split; [reflexivity|]. split; [reflexivity|]. split; [reflexivity|]. eexists. split; reflexivity.
  - reflexivity.
  - intros t. exists 0%nat. split; [lia | done].
  - exists e', k', t'. split; [exact E|]. split; [exact Ht | exact Hc].
Defined.
