(* ===== verification/KernelMain.v ===== *)
(** * A service called from another machine: the cores of [sources/KernelMain.c]

    Core 1 asks when an arrow key is pressed, core 2 of the other machine serves.
    Frames are what the two hand to the driver; the kernel's start is in KernelStart.v. *)

From S2P Require Import Prelude Defines Device FastMem Spinlock KMalloc PhysicalMemory Network Base64 Service Stdio Strings.
From S2P Require Import XmlParser XmlQuery ServiceXml Ackermann Worker Interrupts Apic IPIoE.

#[local] Open Scope Z_scope.

(** ** A queue entry in memory *)

Definition entry_bytes (e : IPIoE_Queue_Entry) : list Z := smac e ++ dmac e ++ encode (ipioe_p e) ++ data e.

Definition entry_at (mem : memory) (p : Z) : IPIoE_Queue_Entry :=
  mkEntry (read_bytes mem p 6) (read_bytes mem (p + 6) 6) (decode (read_bytes mem (p + 12) 16)) (read_bytes mem (p + 28) ENTRY_DATA_SIZE).

(** [ipioe_p->data] *)
Definition data_of (p : Z) : Z := p + 28.

(** [workerDequeue] with its copy at the next address of the arena. *)
Definition dequeue_at (core_id : Z) (k : Kernel) : option (Kernel * Z) :=
  let p := kernel_memory_current_address (memoryAllocator k) in
  '(k, e) ← workerDequeue core_id (entry_at (kernel_memory k) p) k core_id;
  Some (k {{ kernel_memory := write_bytes (kernel_memory k) p (entry_bytes e) }}, p).

Section cores.
Context `{Routines}.

(** ** Core 2 *)

(** The message is dispatched, and what the method returns is sent back; the frame is the second result. *)
Definition serve_message (parse : string -> Service -> Z -> Z -> MemoryAllocator * memory -> option (MemoryAllocator * memory * Z))
    (call : string -> Z -> MemoryAllocator * memory -> option (MemoryAllocator * memory * Z))
    (t : service_transport_kernel) (driver_mac : list Z) (core_id : Z) (k : Kernel) : option (Kernel * list Z) :=
  '(k, p) ← dequeue_at core_id k;
  let packet := ipioe_p (entry_at (kernel_memory k) p) in
  '(al, mem, response) ← DispatchKernelTest parse call t (serviceNumber packet) (methodNumber packet) (data_of p)
    (memoryAllocator k, kernel_memory k);
  let e := entry_at mem p in
  len ← strlen mem response;
  '(k, frame, _) ← sendIPIoE_Packet core_id driver_mac (k {{ memoryAllocator := al; kernel_memory := mem }}) IPIoE_OPCODE_REQUEST
    (smac e) (sourceCore (ipioe_p e)) (destinationCore (ipioe_p e)) 10 1 response (u16 len);
  Some (k, frame).

(** One round of the loop of core 2. *)
Definition serve_round (fuel : nat) (hlt : Kernel -> IO Kernel)
    (parse : string -> Service -> Z -> Z -> MemoryAllocator * memory -> option (MemoryAllocator * memory * Z))
    (call : string -> Z -> MemoryAllocator * memory -> option (MemoryAllocator * memory * Z))
    (t : service_transport_kernel) (driver_mac : list Z) (core_id : Z) (k : Kernel) : IO (Kernel * list Z) :=
  a ← pure (get_apic k core_id);
  k ← (if queue_size (worker a) =? 0 then wait_IPIoE fuel hlt k else mret k);
  pure (serve_message parse call t driver_mac core_id k).

(** ** Core 1 *)

Definition down_arrow_mac : list Z := [0x08; 0x00; 0x27; 0x24; 0x41; 0xb3].
Definition up_arrow_mac : list Z := [0x08; 0x00; 0x27; 0x0c; 0x1b; 0x93].

(** The text the kernel sends, which ends with an opening tag. *)
Definition demo_text : list Z :=
  codes "<params><FirstValue> 3 </FirstValue><SecondValue> 12 </SecondValue><params>".

(** [char dataToBeSend[100]], a local variable, gets [text]; the message identifier is the third result. *)
Definition ask (text : list Z) (driver_mac mac : list Z) (dataToBeSend : Z) (k : Kernel) : option (Kernel * list Z * Z) :=
  let mem := write_bytes (kernel_memory k) dataToBeSend (text ++ replicate (100 - length text) 0) in
  len ← strlen mem dataToBeSend;
  '(k, frame, msgId) ← sendIPIoE_Packet 1 driver_mac (k {{ kernel_memory := mem }}) IPIoE_OPCODE_REQUEST mac 2 1
    ackermannFunctionService_t AckFunction_t dataToBeSend (u16 len);
  Some (k, frame, u16 msgId).

(** The answer is parsed, and the value under the tag of the result decoded. *)
Definition take_message (u : void_ptr_stack_t) (garbage : xml_heap_t) (xs : XMLService) (sourceCore : Z) (k : Kernel) : option (Kernel * Z) :=
  '(k, p) ← dequeue_at sourceCore k;
  '(al, mem, h) ← ParseXMLString sourceCore (memoryAllocator k) u garbage (kernel_memory k) (data_of p);
  h ← h;
  mem ← getValueFromTagMessage xs mem h;
  len ← strlen mem (value xs);
  '(al, mem, decodedResult, _) ← base64_decode_at sourceCore al mem (value xs) len;
  Some (k {{ memoryAllocator := al; kernel_memory := mem }}, get 8 mem decodedResult).

Definition take_answer (fuel : nat) (hlt : Kernel -> IO Kernel) (msgId : Z) (u : void_ptr_stack_t) (garbage : xml_heap_t)
    (xs : XMLService) (sourceCore : Z) (k : Kernel) : IO (Kernel * Z) :=
  k ← wait_IPIoE_messageId fuel hlt msgId k;
  pure (take_message u garbage xs sourceCore k).

(** One call: the frame that was sent and the number that is printed. *)
Definition call_remote (fuel : nat) (hlt : Kernel -> IO Kernel) (u : void_ptr_stack_t) (garbage : xml_heap_t) (xs : XMLService)
    (text driver_mac mac : list Z) (dataToBeSend : Z) (k : Kernel) : IO (Kernel * list Z * Z) :=
  x ← pure (ask text driver_mac mac dataToBeSend k);
  let '(k, frame, msgId) := x in
  x ← take_answer fuel hlt msgId u garbage xs 1 k;
  let '(k, decodedResult) := x in
  mret (k, frame, decodedResult).

(** One round of the loop of core 1: the calls of the keys that were pressed, whose flags are cleared. *)
Definition arrow_round (fuel : nat) (hlt : Kernel -> IO Kernel) (u : void_ptr_stack_t) (garbage : xml_heap_t) (xs : XMLService)
    (driver_mac : list Z) (dataToBeSend : Z) (down_arrow up_arrow : bool) (k : Kernel) : IO (Kernel * list (list Z * Z)) :=
  let press (arrow : bool) mac (s : Kernel * list (list Z * Z)) : IO (Kernel * list (list Z * Z)) :=
    if arrow then
      x ← call_remote fuel hlt u garbage xs demo_text driver_mac mac dataToBeSend (fst s);
      let '(k, frame, v) := x in mret (k, snd s ++ [(frame, v)])
    else mret s in
  s ← press down_arrow down_arrow_mac (k, []);
  press up_arrow up_arrow_mac s.
End cores.

(** ** Interrupts *)

(** [InterruptContext], as far as the handlers of this file look at it. *)
Definition syscall (fuel : nat) (hlt : Kernel -> IO Kernel) (interrupt_number rdi rsi : Z) (k : Kernel) : IO Kernel :=
  x ← current_core k;
  let '(k, _) := x in
  if interrupt_number =? 0x80 then pit_sleep fuel hlt (u16 rdi) (u16 rsi) WAKEUP_IPI true k else mret k.

Definition zero_handler (hlt : Kernel -> IO Kernel) (interrupt_number : Z) (k : Kernel) : IO Kernel :=
  if interrupt_number =? 0 then hlt k else mret k.

Definition fault_handler (hlt : Kernel -> IO Kernel) (interrupt_number : Z) (k : Kernel) : IO Kernel :=
  if interrupt_number =? 13 then hlt k else mret k.

(** ** Lemmas *)

(** The bytes of an entry in memory. *)
Lemma entry_read mem p s d pk dat :
  length s = 6%nat -> length d = 6%nat -> packet_ok pk -> zlen dat = ENTRY_DATA_SIZE ->
  entry_at (write_bytes mem p (entry_bytes (mkEntry s d pk dat))) p = mkEntry s d pk dat.
Proof.
  intros Hs Hd Hpk Hdat. unfold entry_at, entry_bytes. cbn [smac dmac ipioe_p data].
  assert (zlen (encode pk) = 16) as He by done. assert (zlen s = 6 /\ zlen d = 6) as [Hs' Hd'] by (unfold zlen; lia).
  pose proof (read_write_same mem p (s ++ d ++ encode pk ++ dat)) as Hr. rewrite !zlen_app, Hs', Hd', He, Hdat in Hr.
  change (6 + (6 + (16 + ENTRY_DATA_SIZE))) with (6 + (6 + (16 + 1000))) in Hr. rewrite !read_bytes_app in Hr by lia.
  assert (forall m a k, 0 <= k -> length (read_bytes m a k) = Z.to_nat k) as Hl by (intros; unfold read_bytes; by rewrite length_map, length_seqZ).
  apply app_inj_1 in Hr as [-> Hr]; [|rewrite Hl by lia; by rewrite Hs].
  apply app_inj_1 in Hr as [-> Hr]; [|rewrite Hl by lia; by rewrite Hd].
  apply app_inj_1 in Hr as [E3 E4]; [|by rewrite Hl by lia].
  replace (p + 6 + 6 + 16) with (p + 28) in E4 by lia. replace (p + 6 + 6) with (p + 12) in E3 by lia.
  rewrite E3, decode_encode by done. f_equal. exact E4.
Qed.

Lemma entry_ext mem mem' p : (forall b, p <= b < p + 28 -> mem' b = mem b) ->
  smac (entry_at mem' p) = smac (entry_at mem p) /\ ipioe_p (entry_at mem' p) = ipioe_p (entry_at mem p).
Proof.
  intros Hm. unfold entry_at. cbn [smac ipioe_p]. split; [|f_equal]; apply map_ext_in; intros b Hb%list_elem_of_In%elem_of_seqZ; apply Hm; lia.
Qed.

(** A frame a worker holds. *)
Definition holds_frame (w : Worker) (frame : list Z) : Prop :=
  exists d s p payload, frame = message_frame d s p payload /\ length d = 6%nat /\ length s = 6%nat /\ packet_ok p /\
    dataLength p = zlen payload /\ holds_message w s d p payload.

(** A held message, taken out: a string in a fresh entry. *)
Lemma dequeue_spec core k a s d p payload :
  let al := memoryAllocator k in let cur := kernel_memory_current_address al in
  0 <= core < 65535 -> alloc_wf al -> cur + 1028 < kernel_memory_end_address al ->
  get_apic k core = Some a -> holds_message (worker a) s d p payload -> length s = 6%nat -> length d = 6%nat -> packet_ok p ->
  dataLength p = zlen payload -> zlen payload < 1000 -> Forall (fun c => 0 < c < 256) payload ->
  kernel_memory k (cur + 28 + zlen payload) = 0 ->
  exists k', dequeue_at core k = Some (k', cur) /\ smac (entry_at (kernel_memory k') cur) = s /\ ipioe_p (entry_at (kernel_memory k') cur) = p /\
    cstring (kernel_memory k') (cur + 28) payload /\ (forall b, b < cur \/ cur + 1028 <= b -> kernel_memory k' b = kernel_memory k b) /\
    memoryAllocator k' = al {{ kernel_memory_current_address := cur + 1028 }} /\ alloc_wf (memoryAllocator k').
Proof.
  intros al cur Hcore Hal Hroom Ha Hh Hs Hd Hp Hn Hlt Hc Hz. pose proof (zlen_nonneg payload).
  destruct (kmalloc_fits core al 1028 Hal Hcore ltac:(lia) Hroom) as (E & Hal' & _). fold cur in E, Hal'.
  set (raw := entry_at (kernel_memory k) cur). assert (zlen (data raw) = ENTRY_DATA_SIZE) as Hraw by (apply zlen_read; done).
  destruct (dequeue_run core raw k core a (al {{ kernel_memory_current_address := cur + 1028 }}, cur) s d p payload Ha Hh Hn) as (k1 & e & a1 & E1 & H1 & H2 & H3 & H4 & _ & _ & Hmem & Hal1);
    [unfold ENTRY_DATA_SIZE; lia | done | exact E |].
  unfold dequeue_at. fold al cur raw. rewrite E1. cbn [mbind option_bind]. eexists. split; [reflexivity|].
  change (kernel_memory (k1 {{ kernel_memory := ?m }})) with m. change (memoryAllocator (k1 {{ kernel_memory := ?m }})) with (memoryAllocator k1). destruct e as [es ed ep edat]. cbn [smac dmac ipioe_p data] in H1, H2, H3, H4. subst es ed ep.
  assert (zlen edat = ENTRY_DATA_SIZE) as Hdat.
  { rewrite H4, zlen_app. unfold zlen in *. rewrite length_drop. unfold ENTRY_DATA_SIZE in *. lia. }
  pose proof (entry_read (kernel_memory k1) cur s d p edat Hs Hd Hp Hdat) as Her.
  rewrite Hmem in *.
  assert (zlen (entry_bytes (mkEntry s d p edat)) = 1028) as Hlen.
  { unfold entry_bytes. cbn [smac dmac ipioe_p data]. rewrite !zlen_app, Hdat, zlen_encode. unfold zlen. rewrite Hs, Hd. done. }
  set (mem' := write_bytes (kernel_memory k) cur _) in *.
  split; [by rewrite Her|]. split; [by rewrite Her|]. split; [|split; [intros b Hb; apply write_bytes_out; rewrite Hlen; lia | split; [exact Hal1 | by rewrite Hal1]]].
  assert (read_bytes mem' (cur + 28) 1000 = edat) as Hrd by (apply (f_equal data) in Her; exact Her).
  assert (text_at mem' (cur + 28) edat) as Ht by (apply text_at_read; rewrite Hdat; exact Hrd).
  rewrite H4 in Ht. apply text_at_app in Ht as [Ht1 Ht2]. apply text_at_cstring; [done | | done].
  assert (drop (Z.to_nat (zlen payload)) (data raw) = read_bytes (kernel_memory k) (cur + 28 + zlen payload) (1000 - zlen payload)) as Hdrop.
  { unfold raw, entry_at. cbn [data]. unfold ENTRY_DATA_SIZE. replace 1000 with (zlen payload + (1000 - zlen payload)) at 1 by lia.
    rewrite read_bytes_app by lia. apply drop_app_length'. unfold read_bytes. rewrite length_map, length_seqZ. done. }
  rewrite Hdrop in Ht2. apply first_text in Ht2. replace (1000 - zlen payload) with (1 + (999 - zlen payload)) in Ht2 by lia.
  rewrite read_bytes_app in Ht2 by lia. rewrite <- Hz. exact Ht2.
Qed.

(** ** Serving *)

(** The buffers and the names the XML service works with lie apart from the free arena. *)
Record service_ready (xs : XMLService) (tags : Z -> Z) (first second : Z) (k : MemoryAllocator) (mem : memory) : Prop := {
  ready_placed : placed xs (kernel_memory_current_address k) (kernel_memory_end_address k - kernel_memory_current_address k);
  ready_tag1 : cstring mem (tags 0) first_name;
  ready_tag2 : cstring mem (tags 1) second_name;
  ready_first : cstring mem first first_name;
  ready_second : cstring mem second second_name;
  ready_empty : mem (empty_literal xs) = 0;
  ready_low : 1 < tags 0 /\ 1 < tags 1 /\ 1 < first /\ 1 < second;
  ready_high : tags 0 + 10 < 2 ^ 64 /\ tags 1 + 11 < 2 ^ 64 /\ first + 10 < 2 ^ 64 /\ second + 11 < 2 ^ 64;
  ready_kept b : named tags first second b \/ b = empty_literal xs ->
    untouched xs b /\ (b < kernel_memory_current_address k \/ kernel_memory_end_address k <= b)
}.

Lemma placed_within s src n src' n' : placed s src n -> src <= src' -> 0 <= n' -> src' + n' <= src + n -> placed s src' n'.
Proof. intros [] H1 H2 H3. split; try done; lia. Qed.

Lemma arena_untouched xs lo n b : placed xs lo n -> lo <= b <= lo + n -> untouched xs b.
Proof. intros [] Hb. unfold untouched, outside. lia. Qed.

(** A request in the data of a fresh entry. *)
Lemma request_ready xs tags first second al mem mem' d :
  let cur := kernel_memory_current_address al in
  service_ready xs tags first second al mem -> alloc_wf al -> cur + 1028 < kernel_memory_end_address al ->
  (forall b, b < cur \/ cur + 1028 <= b -> mem' b = mem b) -> cstring mem' (cur + 28) (render d) -> zlen (render d) < 1000 ->
  request_at (al {{ kernel_memory_current_address := cur + 1028 }}) xs tags first second (cur + 28) d mem'.
Proof.
  intros cur [HP T1 T2 F S He Hlow Hhigh Hk] Hal Hroom Hm Hc Hlen. pose proof Hal as [_ ? ? ? ? ? _]. fold cur in HP, Hk.
  pose proof (zlen_nonneg (render d)). 
  assert (forall a nm, cstring mem a nm -> (forall b, a <= b <= a + zlen nm -> named tags first second b) -> cstring mem' a nm) as Hname.
  { intros a nm Ha Hb. eapply cstring_ext; [|exact Ha]. intros b Hb'. apply Hm. destruct (Hk b) as [_ Hout]; [left; apply Hb; lia | lia]. }
  split.
  - exact Hc.
  - apply (Hname _ _ T1). unfold named. change (zlen first_name) with 10. lia.
  - apply (Hname _ _ T2). unfold named. change (zlen second_name) with 11. lia.
  - apply (Hname _ _ F). unfold named. change (zlen first_name) with 10. lia.
  - apply (Hname _ _ S). unfold named. change (zlen second_name) with 11. lia.
  - rewrite Hm; [done|]. destruct (Hk (empty_literal xs)) as [_ Hout]; [by right | lia].
  - lia.
  - lia.
  - apply (placed_within _ _ _ _ _ HP); lia.
  - intros b [Hb | Hb].
    + split; [apply (arena_untouched _ _ _ _ HP); lia | cbn; lia].
    + destruct (Hk b Hb) as [H1 H2]. split; [done|]. cbn. lia.
  - intros b Hb. destruct (Hk b) as [_ H2]; [by left | lia].
  - intros b Hb. cbn in Hb. apply (arena_untouched _ _ _ _ HP). lia.
Qed.

(** What the machine that serves must have: a registered service, room, and the buffers apart. *)
Record server_ready `{Routines} (fuel : nat) (u : void_ptr_stack_t) (t : service_transport_kernel) (res times : Z) (driver_mac : list Z)
    (xs : XMLService) (tags : Z -> Z) (first second : Z) (k : MemoryAllocator) (mem : memory) : Prop := {
  server_alloc : alloc_wf k;
  server_room : kernel_memory_current_address k + ROOM + 8192 < kernel_memory_end_address k;
  server_frame : frame_ok u;
  server_service : zget (kernel_services t) ackermannFunctionService_t = Some (Some ack_service);
  server_names : service_ready xs tags first second k mem;
  server_local : res + 8 <= kernel_memory_current_address k \/ kernel_memory_end_address k <= res;
  server_times : 0 < times;
  server_mac : length driver_mac = 6%nat
}.

Lemma answer_length v : zlen (answer_text v) = 49.
Proof. unfold answer_text. rewrite element_length by apply le_bytes_in. unfold zlen. rewrite length_le_bytes. done. Qed.

Lemma answer_chars v : Forall (fun c => 0 < c < 256) (answer_text v).
Proof. apply element_chars; [reflexivity | apply le_bytes_in]. Qed.

(** The text of a request. *)
Lemma request_render ds1 ds2 : render (request ds1 ds2) = codes "<params><FirstValue>" ++ number_text ds1 ++
  codes "</FirstValue><SecondValue>" ++ number_text ds2 ++ codes "</SecondValue></params>".
Proof.
  unfold request. cbn [render map concat app]. unfold open_tag, close_tag. cbn.
  repeat (progress (rewrite <- ?app_assoc; cbn [app])). reflexivity.
Qed.

Lemma request_fits ds1 ds2 n1 n2 : number ds1 n1 -> number ds2 n2 ->
  zlen (render (request ds1 ds2)) <= 120 /\ Forall (fun c => 0 < c < 256) (render (request ds1 ds2)).
Proof.
  intros (H1 & _ & L1 & _) (H2 & _ & L2 & _). rewrite request_render. split.
  - unfold number_text, show_digits. rewrite !zlen_app, !zlen_cons, !zlen_app. unfold zlen in *. rewrite !length_map.
    change (Z.of_nat (length [CH_BLANK])) with 1.
    change (Z.of_nat (length (codes "<params><FirstValue>"))) with 20.
    change (Z.of_nat (length (codes "</FirstValue><SecondValue>"))) with 26. change (Z.of_nat (length (codes "</SecondValue></params>"))) with 23. lia.
  - pose proof (number_text_chars _ H1) as C1. pose proof (number_text_chars _ H2) as C2.
    repeat (apply Forall_app; split); try (apply literal_chars; reflexivity); (eapply Forall_impl; [eassumption | by intros c [? _]]).
Qed.

(** A held request is answered by a frame to the machine it came from. *)
Lemma serve_message_spec {R : Routines} {Rok : RoutinesOk} fuel u garbage t res times driver_mac xs tags first second k a s d p ds1 ds2 m n core :
  let al := memoryAllocator k in
  let answer := answer_text (Z.of_nat (A m n)) in
  server_ready fuel u t res times driver_mac xs tags first second al (kernel_memory k) -> 0 <= core < 65535 ->
  get_apic k core = Some a -> holds_message (worker a) s d p (render (request ds1 ds2)) ->
  length s = 6%nat -> length d = 6%nat -> packet_ok p -> dataLength p = zlen (render (request ds1 ds2)) ->
  serviceNumber p = ackermannFunctionService_t -> methodNumber p = AckFunction_t ->
  kernel_memory k (kernel_memory_current_address al + 28 + zlen (render (request ds1 ds2))) = 0 ->
  number ds1 (Z.of_nat m) -> number ds2 (Z.of_nat n) -> Z.of_nat (A m n) < 2 ^ 31 -> (A m n + m < fuel)%nat ->
  exists k', serve_message (kernel_parser core u garbage xs tags first second) (kernel_method fuel core t res times) t driver_mac core k =
    Some (k', message_frame s driver_mac (message_header (sourceCore p) (destinationCore p) 10 1 49) answer).
Proof.
  intros al answer [Hal Hroom Hu Ht Hnames Hres Htimes Hdm] Hcore Ha Hh Hs Hd Hp Hlen Hsv Hmt Hz N1 N2 Hval Hfuel.
  set (cur := kernel_memory_current_address al) in *. assert (ROOM = 6307880) as ER by reflexivity.
  destruct (request_fits _ _ _ _ N1 N2) as [Hfit Hchars]. pose proof (zlen_nonneg (render (request ds1 ds2))).
  destruct (dequeue_spec core k a s d p (render (request ds1 ds2)) Hcore Hal ltac:(fold al cur; lia) Ha Hh Hs Hd Hp Hlen ltac:(lia) Hchars Hz)
    as (k1 & E1 & Hes & Hep & Hcs & Hm1 & Hal1 & Hwf1). fold al cur in E1, Hes, Hep, Hcs, Hm1, Hal1.
  pose proof (request_ready _ _ _ _ al _ _ _ Hnames Hal ltac:(fold cur; lia) Hm1 Hcs ltac:(lia)) as Hreq. fold cur in Hreq. rewrite <- Hal1 in Hreq.
  assert (kernel_memory_current_address (memoryAllocator k1) = cur + 1028) as Ec by by rewrite Hal1.
  assert (kernel_memory_end_address (memoryAllocator k1) = kernel_memory_end_address al) as Ee by by rewrite Hal1.
  destruct (request_dispatched fuel core u garbage t (memoryAllocator k1) (kernel_memory k1) xs tags first second res (cur + 28) ds1 ds2 m n times)
    as (al2 & mem2 & buffer & E2 & Hans & Hwf2 & He2 & Hb1 & Hb2 & Hc2 & Hm2); try done; [rewrite Ec, Ee; lia | rewrite Ec, Ee; lia |].
  fold answer in Hans, Hb2. unfold serve_message. rewrite E1. cbn [mbind option_bind]. rewrite Hep, Hsv, Hmt. unfold data_of.
  rewrite E2. cbn [mbind option_bind]. assert (zlen answer = 49) as El by apply answer_length. rewrite El in *.
  rewrite (strlen_ok _ _ _ Hans) by (rewrite ?El; destruct Hal, Hwf2; lia). cbn [mbind option_bind]. rewrite El. rewrite u16_small by lia.
  destruct (entry_ext (kernel_memory k1) mem2 cur) as [Es2 Ep2].
  { intros b Hb. apply Hm2; [|lia]. pose proof (ready_placed _ _ _ _ _ _ Hnames) as HP. fold cur in HP.
    split; [apply (arena_untouched _ _ _ _ HP); lia|]. lia. }
  rewrite Es2, Ep2, Hes, Hep.
  destruct (kmalloc_fits core al2 SIZEOF_NetworkPacket Hwf2 Hcore) as (E3 & Hwf3 & _); [done | unfold SIZEOF_NetworkPacket; lia |].
  set (al3 := al2 {{ kernel_memory_current_address := _ }}) in *.
  destruct (kmalloc_fits core al3 SIZEOF_EthernetPacket Hwf3 Hcore) as (E4 & _); [done | unfold SIZEOF_EthernetPacket, al3, SIZEOF_NetworkPacket; cbn; lia |].
  set (k2 := k1 {{ memoryAllocator := al2; kernel_memory := mem2 }}).
  destruct (sent_frame core driver_mac k2 s (sourceCore p) (destinationCore p) 10 1 buffer 49 _ _ E3 E4 Hs Hdm) as (k3 & E5 & _); [lia | |].
  - left. cbn [snd]. unfold al3. cbn. unfold SIZEOF_NetworkPacket. lia.
  - rewrite E5. cbn [mbind option_bind]. eexists. do 3 f_equal. change (kernel_memory k2) with mem2. destruct Hans as [Hr _]. by rewrite El in Hr.
Qed.

(** ** The answer *)

(** What the machine that asks must have. *)
Record client_ready (u : void_ptr_stack_t) (xs : XMLService) (k : MemoryAllocator) (mem : memory) : Prop := {
  client_alloc : alloc_wf k;
  client_room : kernel_memory_current_address k + ROOM + 8192 < kernel_memory_end_address k;
  client_frame : frame_ok u;
  client_placed : placed xs (kernel_memory_current_address k) (kernel_memory_end_address k - kernel_memory_current_address k);
  client_empty : mem (empty_literal xs) = 0;
  client_tag : cstring mem (tagDirectory xs) (codes "Result");
  client_tag_space : 0 < tagDirectory xs /\ tagDirectory xs + 6 < 2 ^ 64;
  client_tag_q : tagDirectory xs + 6 < q_buffer xs \/ q_buffer xs + QUERY_SIZE <= tagDirectory xs;
  client_tag_arena : tagDirectory xs + 6 < kernel_memory_current_address k \/ kernel_memory_end_address k <= tagDirectory xs
}.

Lemma take_message_spec {R : Routines} {Rok : RoutinesOk} u garbage xs k a s d p v core :
  let al := memoryAllocator k in
  client_ready u xs al (kernel_memory k) -> 0 <= core < 65535 ->
  get_apic k core = Some a -> holds_message (worker a) s d p (answer_text v) ->
  length s = 6%nat -> length d = 6%nat -> packet_ok p -> dataLength p = 49 ->
  kernel_memory k (kernel_memory_current_address al + 28 + 49) = 0 -> 0 <= v < 2 ^ 64 ->
  exists k', take_message u garbage xs core k = Some (k', v).
Proof.
  intros al [Hal Hroom Hu HP He Htag [Htag0 Htag64] Htq Hta] Hcore Ha Hh Hs Hd Hp Hlen Hz Hv. set (cur := kernel_memory_current_address al) in *.
  assert (ROOM = 6307880) as ER by reflexivity. pose proof Hal as [_ Hks Hke Hko Hus Hue _]. fold cur in Hks, Hke. pose proof (answer_length v) as El.
  destruct (dequeue_spec core k a s d p (answer_text v) Hcore Hal ltac:(fold al cur; lia) Ha Hh Hs Hd Hp ltac:(lia) ltac:(lia) (answer_chars v) ltac:(by rewrite El))
    as (k1 & E1 & _ & _ & Hcs & Hm1 & Hal1 & Hwf1). fold al cur in E1, Hcs, Hm1, Hal1.
  unfold take_message. rewrite E1. cbn [mbind option_bind]. unfold data_of.
  assert (kernel_memory_current_address (memoryAllocator k1) = cur + 1028) as Ec by by rewrite Hal1.
  assert (kernel_memory_end_address (memoryAllocator k1) = kernel_memory_end_address al) as Ee by by rewrite Hal1.
  unfold answer_text in Hcs, El. set (bytes := le_bytes 8 v) in *.
  assert (kernel_memory_current_address (memoryAllocator k1) + ROOM - 8192 < kernel_memory_end_address (memoryAllocator k1)) as Hroom1 by (rewrite Ec, Ee; lia).
  assert (zlen (codes "Result") = 6) as Hl6 by done.
  destruct (value_taken core (memoryAllocator k1) (kernel_memory k1) (cur + 28) (codes "Result") bytes u garbage xs Hwf1 Hcore Hroom1 Hu Hcs)
    as (k2 & mem2 & h & mem3 & text & k3 & E2 & E3 & E4 & Hl & E5); rewrite ?El; try lia.
  - reflexivity.
  - apply le_bytes_in.
  - unfold bytes, zlen. rewrite length_le_bytes. lia.
  - apply (placed_within _ _ _ _ _ HP); lia.
  - rewrite Hm1; [done|]. destruct HP. lia.
  - eapply cstring_ext; [|exact Htag]. intros b Hb. apply Hm1. lia.
  - rewrite E2. cbn [mbind option_bind]. rewrite E3. cbn [mbind option_bind]. rewrite (strlen_ok _ _ _ E4) by (destruct HP; lia). cbn [mbind option_bind].
    unfold base64_decode_at. destruct E4 as [Hr _]. rewrite Hr, E5. cbn [mbind option_bind]. eexists. do 2 f_equal.
    exact (get_put 8 mem3 (kernel_memory_current_address k2) v Hv).
Qed.

(** ** The call *)

(** The fields of a frame are the frame's only ones. *)
Lemma frame_inj d s p payload d' s' p' payload' :
  message_frame d s p payload = message_frame d' s' p' payload' ->
  length d = length d' -> length s = length s' -> packet_ok p -> packet_ok p' -> d = d' /\ s = s' /\ p = p' /\ payload = payload'.
Proof.
  unfold message_frame. intros E Hd Hs Hp Hp'. apply app_inj_1 in E as [-> E]; [|done]. apply app_inj_1 in E as [-> E]; [|done].
  apply app_inj_1 in E as [_ E]; [|done]. apply app_inj_1 in E as [E ->]; [|done].
  split; [done|]. split; [done|]. split; [|done]. rewrite <- (decode_encode p Hp), <- (decode_encode p' Hp'). by rewrite E.
Qed.

Lemma header_ok coreid score_id service method n : 0 <= coreid < 65536 -> 0 <= score_id < 65536 -> 0 <= service < 256 -> 0 <= method < 256 ->
  0 <= n < 65536 -> packet_ok (message_header coreid score_id service method n).
Proof. intros. unfold packet_ok, message_header, IPIoE_OPCODE_REQUEST. simpl. lia. Qed.

Lemma held_message w d s p payload : holds_frame w (message_frame d s p payload) -> length d = 6%nat -> length s = 6%nat -> packet_ok p ->
  holds_message w s d p payload.
Proof.
  intros (d' & s' & p' & payload' & E & Hd' & Hs' & Hp' & _ & Hh) Hd Hs Hp.
  apply frame_inj in E as (-> & -> & -> & ->); [done | congruence | congruence | done | done].
Qed.

(** The interrupt that ends the sleep of core [me] comes with a frame in its queue, and a state [Q] holds of. *)
Definition arrives (hlt : Kernel -> IO Kernel) (dev : device) (me : Z) (frame : list Z) (Q : MemoryAllocator -> memory -> Prop) : Prop :=
  forall k1 t1, exists k2 t2 a2, hlt k1 dev t1 = Some (k2, t2) /\ get_apic k2 me = Some a2 /\ zlen (fired a2) = 256 /\
    zget (fired a2) IPIOE_IPI = Some 1 /\ holds_frame (worker a2) frame /\ Q (memoryAllocator k2) (kernel_memory k2).

(** The byte behind a message of [n] bytes is 0 in the entry it will be copied to. *)
Definition clean (n : Z) (al : MemoryAllocator) (mem : memory) : Prop := mem (kernel_memory_current_address al + 28 + n) = 0.

(** A sleeping core wakes up with the frame. *)
Lemma frame_taken (ready : APIC -> option bool) fuel hlt dev k me a t frame Q :
  knows_itself dev me k -> get_apic k me = Some a -> 0 <= me < 65536 -> zlen (fired a) = 256 -> arrives hlt dev me frame Q ->
  (forall a' : APIC, zget (fired a') IPIOE_IPI = Some 0 -> worker a' = worker a -> ready a' = Some false) ->
  (forall a' : APIC, zget (fired a') IPIOE_IPI = Some 1 -> holds_frame (worker a') frame -> ready a' = Some true) ->
  exists k' t' a', wait_until (S (S fuel)) hlt ready k dev t = Some (k', t') /\ get_apic k' me = Some a' /\
    holds_frame (worker a') frame /\ Q (memoryAllocator k') (kernel_memory k').
Proof.
  intros Hme Ha Hrange Hf Harr Hno Hyes.
  destruct (wait_run (fun k2 a2 => holds_frame (worker a2) frame /\ Q (memoryAllocator k2) (kernel_memory k2)) fuel hlt ready k dev me a t)
    as (k2 & a2 & k' & t' & a' & [Hh HQ] & E & Ha' & Hw & Hal & Hmem); try done.
  - intros k1 t1 _ _. destruct (Harr k1 t1) as (k2 & t2 & a2 & H1 & H2 & H3 & H4 & H5 & H6). exists k2, t2, a2. split_and!; auto.
  - exists k', t', a'. split; [done|]. split; [done|]. rewrite Hw, Hal, Hmem. split; [|done].
    destruct Hh as (d & s & p & payload & H1 & H2 & H3 & H4 & H5 & H6). exists d, s, p, payload. done.
Qed.

(** What [ask] hands to the driver. *)
Lemma ask_spec {R : Routines} {Rok : RoutinesOk} text driver_mac mac buf k :
  let al := memoryAllocator k in
  alloc_wf al -> kernel_memory_current_address al + 2000 < kernel_memory_end_address al ->
  Forall (fun c => 0 < c < 256) text -> zlen text < 100 -> length mac = 6%nat -> length driver_mac = 6%nat ->
  0 < buf -> buf + 100 < 2 ^ 64 -> buf + 100 <= kernel_memory_current_address al \/ kernel_memory_end_address al <= buf ->
  exists k', ask text driver_mac mac buf k = Some (k', message_frame mac driver_mac (message_header 2 1 9 0 (zlen text)) text, 1) /\
    exists al' mem', k' = k {{ memoryAllocator := al'; kernel_memory := mem' }}.
Proof.
  intros al Hal Hroom Hc Hl Hm Hdm Hpos H64 Hbuf. unfold ask. pose proof (zlen_nonneg text).
  assert (exists n, (100 - length text)%nat = S n) as [n En] by (unfold zlen in Hl; exists (99 - length text)%nat; lia). rewrite En. cbn [replicate].
  set (mem1 := write_bytes (kernel_memory k) buf _).
  assert (cstring mem1 buf text) as Hcs.
  { pose proof (read_write_same (kernel_memory k) buf (text ++ 0 :: replicate n 0)) as Hr. fold mem1 in Hr.
    apply text_at_read, text_at_app in Hr as [H1 H2]. apply first_text in H2. by apply text_at_cstring. }
  rewrite (strlen_ok _ _ _ Hcs) by lia. cbn [mbind option_bind]. rewrite u16_small by lia.
  destruct (kmalloc_fits 1 al SIZEOF_NetworkPacket Hal) as (E1 & Hwf1 & _); [lia | done | unfold SIZEOF_NetworkPacket; lia |].
  set (al1 := al {{ kernel_memory_current_address := _ }}) in *.
  destruct (kmalloc_fits 1 al1 SIZEOF_EthernetPacket Hwf1) as (E2 & _); [lia | done | unfold SIZEOF_EthernetPacket, al1, SIZEOF_NetworkPacket; cbn; lia |].
  set (k0 := k {{ kernel_memory := mem1 }}).
  destruct (sent_frame 1 driver_mac k0 mac 2 1 9 0 buf (zlen text) _ _ E1 E2 Hm Hdm) as (k' & E3 & mem' & Ek); [lia | |].
  - cbn [snd]. unfold al1. cbn. unfold SIZEOF_NetworkPacket. lia.
  - change ackermannFunctionService_t with 9. change AckFunction_t with 0. rewrite E3. cbn [mbind option_bind]. change (kernel_memory k0) with mem1.
    destruct Hcs as [-> _]. exists k'. split; [done|]. rewrite Ek. by eexists _, _.
Qed.

(** ** Properties *)


(** Two machines with three cores each, and what each finds when it wakes up. *)
Definition core_state (w : Worker) (flag : Z) : APIC :=
  (lapic_registers 0xFEE00000 blank_apic) {{ worker := w; fired := <[98%nat := flag]> (fired blank_apic) }}.

Definition machine (mem : memory) (w : Worker) (flag : Z) : Kernel :=
  two_cores {{ memoryAllocator := roomy_allocator; kernel_memory := mem;
               apicManager := (apicManager two_cores) {{ apics := replicate 3 (core_state w flag) }} }}.

Definition worker_with (s d : list Z) (p : IPIOE_Packet) (payload : list Z) : Worker :=
  blank_worker {{ ipioe_queue := [mkEntry s d p (payload ++ replicate (1000 - length payload) 0)] }} {{ queue_size := 1 }}.

Definition awake (mem : memory) (s d : list Z) (p : IPIOE_Packet) (payload : list Z) : Kernel -> IO Kernel :=
  fun _ => pure (Some (machine mem (worker_with s d p payload) 1)).

Definition core_device (id : Z) : device := fun _ _ _ _ => id * 2 ^ 24.

Definition answer_memory : memory := write_bytes (fun _ => 0) 0x9300 (codes "Result").
Definition answer_service : XMLService := mkXMLService 0x9300 0x7000 0x2000 0x3000 0x4000 0x8000.

Lemma machine_knows id mem w flag : 0 <= id < 3 -> knows_itself (core_device id) id (machine mem w flag).
Proof.
  intros Hid. destruct (GetVirtualAddress ((physicalMemoryManager two_cores) {{ p_physical_address := local_apic_addr two_cores }})) as [m|] eqn:Em;
    [|vm_compute in Em; discriminate Em].
  exists m. split; [exact Em|]. intros t. unfold core_device. assert (id = 0 \/ id = 1 \/ id = 2) as [-> | [-> | ->]] by lia; reflexivity.
Qed.

Lemma machine_core id mem w flag : 0 <= id < 3 -> get_apic (machine mem w flag) id = Some (core_state w flag).
Proof. intros Hid. assert (id = 0 \/ id = 1 \/ id = 2) as [-> | [-> | ->]] by lia; reflexivity. Qed.

Lemma core_flags w flag : zlen (fired (core_state w flag)) = 256 /\ zget (fired (core_state w flag)) IPIOE_IPI = Some flag.
Proof. by split. Qed.

Lemma awake_arrives id mem s d p payload (Q : MemoryAllocator -> memory -> Prop) : 0 <= id < 3 -> length s = 6%nat -> length d = 6%nat -> packet_ok p ->
  dataLength p = zlen payload -> zlen payload <= 1000 -> Q roomy_allocator mem ->
  arrives (awake mem s d p payload) (core_device id) id (message_frame d s p payload) Q.
Proof.
  intros Hid Hs Hd Hp Hl Hle HQ k1 t1. exists (machine mem (worker_with s d p payload) 1), t1, (core_state (worker_with s d p payload) 1).
  destruct (core_flags (worker_with s d p payload) 1) as [H1 H2]. split; [done|]. split; [by apply machine_core|]. split; [done|]. split; [done|].
  split; [|exact HQ]. exists d, s, p, payload. split; [done|]. do 4 (split; [done|]). split; [done|]. split; [done|]. split; [done|].
  exists (payload ++ replicate (1000 - length payload) 0). split; [done|]. unfold zlen in *. split.
  - rewrite length_app, length_replicate. unfold ENTRY_DATA_SIZE. lia.
  - apply take_app_length'. lia.
Qed.

Lemma sample_placed : placed answer_service 0x10010 (0x10000000 - 0x10010) /\ placed request_service 0x10010 (0x10000000 - 0x10010).
Proof.
  unfold answer_service, request_service.
  split; split; cbn; unfold QUERY_SIZE, XQUERY_SIZE, XQUERY_ITEM, outside; try lia; split; unfold QUERY_SIZE, XQUERY_SIZE, XQUERY_ITEM; lia.
Qed.


(** The request of the demonstration, parsed, and then read: the nodes, the parent of the last, the two numbers. *)
Definition demo_read : option (Z * option Z * Z * Z) :=
  let mem := write_bytes request_memory 0x1000 demo_text in
  '(_, _, h) ← ParseXMLString 2 roomy_allocator sample_frame garbage_heap mem 0x1000;
  h ← h;
  '(_, mem, p) ← ParseAckermannFunctionXML 2 sample_frame garbage_heap request_service request_tags 0x9040 0x9060 ack_service
    0x1000 AckFunction_t roomy_allocator mem;
  Some (current_node h, xml_nodes h !! 3 ≫= parent, get 8 mem p, get 8 mem (p + 8)).

(** The text ends with a second opening tag.  It is read as if that tag closed the first: the parser makes it a
    further child of the first, and the lookups of the numbers do not meet it. *)
Theorem demo_text_understood : demo_read = Some (4, Some 0, 3, 12).
Proof. vm_compute. reflexivity. Qed.

(** ** The system call *)

(** The kernel takes 16 bits of rdi and rsi: a program that sleeps for 65536 ticks sleeps for none. *)
Theorem long_sleep_cut fuel hlt k dev t rdi rsi :
  syscall fuel hlt 0x80 (rdi + 65536) rsi k dev t = syscall fuel hlt 0x80 rdi rsi k dev t.
Proof.
  unfold syscall. assert (u16 (rdi + 65536) = u16 rdi) as ->; [|done]. unfold u16. zdiv.
Qed.
