(* ===== verification/KernelStart.v ===== *)
(** * The start of the kernel: [bsp_kernel_main] and [ap_kernel_main] of [sources/KernelMain.c]

    The straight lines of calls, with the service layer as it is and every other
    function a name: what a call or an assignment does to the rest of the system is
    an argument.  Printing is left out; the loops that end [ap_kernel_main] on cores 1
    and 2 are in KernelMain.v. *)

From S2P Require Import Prelude Defines Service.
From S2P Require PhysicalMemory Pci Console MemoryPageMap Apic Interrupts XmlQuery Ackermann.

#[local] Open Scope Z_scope.

Definition console_t : Z := 0.
Definition physical_memory_t : Z := 1.
Definition pci_t : Z := 2.
Definition virtual_memory_t : Z := 3.
Definition apic_t : Z := 4.
Definition interruptManager_t : Z := 5.
Definition ipi_t : Z := 6.
Definition xmlService_t : Z := 8.

(** A number, or the address of a function or variable. *)
Inductive value := Num (z : Z) | Ref (name : string).

(** What happens outside the service layer: a call with constant arguments, or an assignment. *)
Inductive event :=
| Called (f : string) (args : list Z)
| Assigned (field : string) (v : value).

(** A statement.  [Start] is [service_init], the initialiser [f], which adds [methods], and the registration. *)
Inductive statement :=
| Call (f : string) (args : list Z)
| Assign (field : string) (v : value)
| Dispatch (service method : Z)
| Start (service : Z) (f : string) (methods : Service -> option Service).

Definition sectors : Z := 2048.

(** [register_interrupt] through the dispatcher, with its parameters. *)
Definition register (number : Z) (handler : string) : list statement :=
  [Assign "interruptManager.params.p_interruptNumber" (Num number);
   Assign "interruptManager.params.p_interruptHandler" (Ref handler); Dispatch interruptManager_t 0].

Definition before_acpi : list statement :=
  [Call "init_fast_memcpy_handlers" []; Call "init_fast_memswap_handlers" [];
   Start physical_memory_t "InitializePhysicalMemory" (add_services PhysicalMemory.exposed_functions);
   Start pci_t "initializePCIService" (add_services Pci.pci_services);
   Call "PageMapStage1" [];
   Start console_t "console_preInialize" (Console.register_services Console.console_services);
   Dispatch pci_t 0;
   Assign "pciService.params.p_summary" (Num 1);
   Dispatch physical_memory_t 0; Dispatch physical_memory_t 6;
   Call "kvalloc bootstrapCorePageTable" [];
   Start virtual_memory_t "InitVirtualMemoryService" (add_services MemoryPageMap.virtual_memory_services);
   Call "enablePageDirectory" [];
   Assign "acpi.physicalMemoryManager" (Ref "physicalMemoryManager")].

(** [keyboard_init] of [devices/keyboard/keyboard.c]. *)
Definition keyboard_init : list statement :=
  Call "mapAPICIRQ" [0; 33 - IRQ0; 33] :: register 33 "keyboard_handler".

(** What core 0 does alone, and what it does once it lets the other cores start. *)
Definition up_to_cores : list statement :=
  [Call "MapReservedMemory" []; Call "BuildApCoresPageTables" [];
    Assign "physicalMemoryManager.params.p_physical_address" (Ref "rsdpDescriptor->xsdtAddr");
    Assign "physicalMemoryManager.params.p_physical_address" (Ref "rsdpDescriptor->rsdtAddr");
    Assign "physicalMemoryManager.params.p_physical_address" (Ref "acpi.local_apic_addr");
    Assign "physicalMemoryManager.params.p_physical_address" (Ref "acpi.local_apicio_addr");
    Call "kmalloc globalDescriptorTable" []; Assign "globalDescriptorTablePointer" (Ref "globalDescriptorTablePointer");
    Start ipi_t "InitializeIPI" Apic.InitializeIPI;
    Assign "apicManager.params.p_apics_count" (Ref "acpi.cores_count");
    Start apic_t "initAPICManager" (add_services Apic.apic_services);
    Call "mapAPICIRQ" [0; 0; IRQ0];
    Call "initGlobalDescriptorTable" []; Call "gdtInit" []; Call "tssFlush" [];
    Assign "pciService.params.p_summary" (Num 1); Dispatch pci_t 4;
    Start interruptManager_t "InitializeInterruptManager" (add_services Interrupts.interrupt_services);
    Assign "apicManager.params.p_start_stack" (Ref "p_start_stack"); Assign "apicManager.params.p_end_stack" (Ref "p_end_stack");
    Dispatch apic_t 2;
    Call "initATAManager" []; Call "detectATADisks" []] ++
   register IRQ14 "ataHandleInterrupt" ++ register IRQ15 "ataHandleInterrupt" ++
   [Call "mapAPICIRQ" [0; IRQ14 - IRQ0; IRQ14]; Call "mapAPICIRQ" [0; IRQ15 - IRQ0; IRQ15];
    Call "kmalloc" [15 * sectors + 2]; Call "init_BlockService" [];
    Assign "blockService.start_sector" (Num 52825); Assign "blockService.blocks_to_read_number" (Num 10);
    Call "read_blocks" [0]; Call "read_blocks" [0]] ++
   register 0x80 "syscall" ++ register 0 "zero_handler" ++ register 13 "fault_handler" ++
   [Call "enableAPICTimer" [0]].

Definition with_cores : list statement :=
  [Dispatch apic_t 0; Dispatch apic_t 1] ++ keyboard_init ++
   [Call "disableInterrupts" []; Call "e1000Scan" []; Call "enableInterrupts" [];
    Start xmlService_t "initializeXMLService" XmlQuery.initializeXMLService;
    Start ackermannFunctionService_t "initAckermannFunctionService" (fun s => snd <$> Ackermann.initAckermannFunctionService s)].

Definition after_acpi : list statement := up_to_cores ++ with_cores.

(** A further core, which learns its number in the middle. *)
Definition ap_find_core : list statement :=
  [Call "enablePageDirectory bootstrapCorePageTable" []; Dispatch apic_t 1].

Definition ap_set_up (core_id p_start_stack p_end_stack : Z) : list statement :=
  [Call "enablePageDirectory coresPageTables" [core_id];
   Assign "apicManager.params.p_start_stack" (Num p_start_stack); Assign "apicManager.params.p_end_stack" (Num p_end_stack);
   Dispatch apic_t 2;
   Assign "globalDescriptorTablePointer" (Ref "globalDescriptorTablePointer");
   Call "initGlobalDescriptorTable" []; Call "gdtInit" []; Call "tssFlush" []; Call "idtInit" [];
   Dispatch apic_t 3].

(** ** Running the statements *)

Section run.
Context {W : Type} (exec : event -> W -> option W) (acpi_found : W -> bool).

Definition run_function (f : string) : W -> option W := exec (Called f []).

Definition statement_step (s : statement) (t : service_transport_kernel) (w : W) : option (service_transport_kernel * W) :=
  match s with
  | Call f args => w ← exec (Called f args) w; Some (t, w)
  | Assign field v => w ← exec (Assigned field v) w; Some (t, w)
  | Dispatch service method => '(w, _) ← DispatchKernel run_function t service method w; Some (t, w)
  | Start service f methods =>
      '(s, _) ← service_init blank_service service;
      w ← run_function f w;
      s ← methods s;
      '(t, _) ← RegisterServiceToKernel t s service;
      Some (t, w)
  end.

Fixpoint run_statements (l : list statement) (t : service_transport_kernel) (w : W) : option (service_transport_kernel * W) :=
  match l with
  | [] => Some (t, w)
  | s :: l => '(t, w) ← statement_step s t w; run_statements l t w
  end.

(** The branch is on what [init_acpi] returned. *)
Definition bsp_kernel_main (t : service_transport_kernel) (w : W) : option (service_transport_kernel * W) :=
  let '(t, _) := InitServiceTransportLayer t in
  '(t, w) ← run_statements before_acpi t w;
  w ← run_function "init_acpi" w;
  if acpi_found w then run_statements after_acpi t w else Some (t, w).

(** Up to its loop, which the number of the core selects; [core_of] reads [apicManager.returns.core_id]. *)
Definition ap_kernel_main (core_of : W -> Z) (p_start_stack p_end_stack : Z) (t : service_transport_kernel) (w : W) :
    option (Z * service_transport_kernel * W) :=
  '(t, w) ← run_statements ap_find_core t w;
  let core_id := core_of w in
  '(t, w) ← run_statements (ap_set_up core_id p_start_stack p_end_stack) t w;
  Some (core_id, t, w).
End run.

(** The methods the kernel calls through the dispatcher, by the numbers of the enumerations. *)
Definition kernel_methods : list (Z * Z * string) :=
  [(console_t, 0, "console_addStringToCurrentTerminal"); (console_t, 3, "console_switchTerminal"); (console_t, 4, "console_writeToTerminal");
   (physical_memory_t, 0, "CreatePhysicalPagesBitMap"); (physical_memory_t, 2, "AddPhysicalMemoryEntry");
   (physical_memory_t, 3, "GetVirtualAddress"); (physical_memory_t, 4, "IsUsableAddress"); (physical_memory_t, 5, "IsAddress");
   (physical_memory_t, 6, "InitializePhysicalMemoryFrames");
   (pci_t, 0, "CollectHWInventory"); (pci_t, 1, "GetPCIDevice"); (pci_t, 2, "GetPCIDeviceAtIndex"); (pci_t, 3, "GetPCIDeviceCount");
   (pci_t, 4, "PrintAllPCI");
   (apic_t, 0, "startupAPIC"); (apic_t, 1, "getCurrentCoreId"); (apic_t, 2, "moveInitialKernelStack"); (apic_t, 3, "touchCore");
   (interruptManager_t, 0, "RegisterInterrupt"); (interruptManager_t, 1, "ServiceInterrupt"); (ipi_t, 0, "sendIPI")].

(** ** Lemmas *)

(** The transport layer's part of a statement. *)
Definition step_transport (s : statement) (t : service_transport_kernel) : option service_transport_kernel :=
  match s with
  | Start service _ methods =>
      '(s, _) ← service_init blank_service service; s ← methods s; '(t, _) ← RegisterServiceToKernel t s service; Some t
  | _ => Some t
  end.

(** The function a method number stands for. *)
Definition registered (t : service_transport_kernel) (service method : Z) : option string :=
  s ← zget (kernel_services t) service; s ← s; f ← zget (service_method s) method; f.

(** What happens outside, with every dispatch replaced by the method. *)
Definition step_event (t : service_transport_kernel) (s : statement) : option event :=
  match s with
  | Call f args => Some (Called f args)
  | Assign field v => Some (Assigned field v)
  | Dispatch service method => f ← registered t service method; Some (Called f [])
  | Start _ f _ => Some (Called f [])
  end.

Fixpoint statement_events (l : list statement) (t : service_transport_kernel) : option (list event * service_transport_kernel) :=
  match l with
  | [] => Some ([], t)
  | s :: l =>
      ev ← step_event t s; t ← step_transport s t; '(evs, t) ← statement_events l t; Some (ev :: evs, t)
  end.

Definition do_events {W} (exec : event -> W -> option W) : list event -> W -> option W :=
  fix go l w := match l with [] => Some w | ev :: l => w ← exec ev w; go l w end.

Lemma dispatch_registered {W} (exec : string -> W -> option W) t service method f w :
  registered t service method = Some f -> DispatchKernel exec t service method w = (w' ← exec f w; Some (w', true)).
Proof.
  unfold registered, DispatchKernel. destruct (zget (kernel_services t) service) as [[s|]|]; try done. cbn [mbind option_bind].
  by destruct (zget (service_method s) method) as [[g|]|]; intros [= ->].
Qed.

Lemma run_statements_events {W} (exec : event -> W -> option W) l : forall t w evs t',
  statement_events l t = Some (evs, t') -> run_statements exec l t w = (w' ← do_events exec evs w; Some (t', w')).
Proof.
  induction l as [|s l IH]; intros t w evs t'; cbn [statement_events run_statements do_events].
  - intros [= <- <-]. done.
  - destruct (step_event t s) as [ev|] eqn:Ee; [|done]. cbn [mbind option_bind].
    destruct (step_transport s t) as [t1|] eqn:Et; [|done]. cbn [mbind option_bind].
    destruct (statement_events l t1) as [[evs1 t2]|] eqn:El; [|done]. cbn [mbind option_bind]. intros [= <- <-].
    assert (statement_step exec s t w = (w1 ← exec ev w; Some (t1, w1))) as ->.
    { destruct s as [f args|field v|service method|service f methods]; cbn [step_event step_transport statement_step] in *.
      - by injection Ee as <-; injection Et as <-.
      - by injection Ee as <-; injection Et as <-.
      - destruct (registered t service method) as [f|] eqn:Er; [|done]. injection Ee as <-. injection Et as <-.
        rewrite (dispatch_registered _ _ _ _ _ _ Er). unfold run_function. by destruct (exec (Called f []) w).
      - injection Ee as <-. destruct (service_init blank_service service) as [[s0 x]|]; [|done]. cbn [mbind option_bind] in *.
        unfold run_function. destruct (exec _ w); cbn [mbind option_bind]; [|done].
        destruct (methods s0) as [s1|]; [|done]. cbn [mbind option_bind] in *.
        destruct (RegisterServiceToKernel t s1 service) as [[t3 y]|]; cbn [mbind option_bind] in *; [|done].
        by injection Et as ->. }
    change (do_events exec (ev :: evs1) w) with (w ← exec ev w; do_events exec evs1 w).
    destruct (exec ev w) as [w1|]; cbn [mbind option_bind]; [|done]. exact (IH t1 w1 evs1 t2 El).
Qed.

(** The same calls made directly. *)
Definition ap_calls (core_id p_start_stack p_end_stack : Z) : list event :=
  [Called "enablePageDirectory coresPageTables" [core_id];
   Assigned "apicManager.params.p_start_stack" (Num p_start_stack); Assigned "apicManager.params.p_end_stack" (Num p_end_stack);
   Called "moveInitialKernelStack" [];
   Assigned "globalDescriptorTablePointer" (Ref "globalDescriptorTablePointer");
   Called "initGlobalDescriptorTable" []; Called "gdtInit" []; Called "tssFlush" []; Called "idtInit" [];
   Called "touchCore" []].

Lemma statement_events_app l1 : forall l2 t,
  statement_events (l1 ++ l2) t =
    ('(evs1, t1) ← statement_events l1 t; '(evs2, t2) ← statement_events l2 t1; Some (evs1 ++ evs2, t2)).
Proof.
  induction l1 as [|s l1 IH]; intros l2 t; cbn [app statement_events mbind option_bind].
  - by destruct (statement_events l2 t) as [[]|].
  - destruct (step_event t s) as [ev|]; [|done]. cbn [mbind option_bind].
    destruct (step_transport s t) as [t1|]; [|done]. cbn [mbind option_bind]. rewrite IH.
    destruct (statement_events l1 t1) as [[evs1 t2]|]; [|done]. cbn [mbind option_bind].
    by destruct (statement_events l2 t2) as [[evs2 t3]|].
Qed.

(** Every dispatch of a starting core is to the manager of the interrupt controllers. *)
Definition core_can_start (t : service_transport_kernel) : bool :=
  bool_decide (registered t apic_t 1 = Some "getCurrentCoreId") &&
  bool_decide (registered t apic_t 2 = Some "moveInitialKernelStack") &&
  bool_decide (registered t apic_t 3 = Some "touchCore").

Lemma ap_events t core_id p_start_stack p_end_stack : core_can_start t = true ->
  statement_events ap_find_core t =
    Some ([Called "enablePageDirectory bootstrapCorePageTable" []; Called "getCurrentCoreId" []], t) /\
  statement_events (ap_set_up core_id p_start_stack p_end_stack) t = Some (ap_calls core_id p_start_stack p_end_stack, t).
Proof.
  unfold core_can_start. rewrite !andb_true_iff, !bool_decide_eq_true. intros [[H1 H2] H3].
  split; cbn [ap_find_core ap_set_up statement_events step_event step_transport mbind option_bind];
    rewrite ?H1, ?H2, ?H3; reflexivity.
Qed.

Lemma ap_run {W} (exec : event -> W -> option W) core_of p_start_stack p_end_stack t w : core_can_start t = true ->
  ap_kernel_main exec core_of p_start_stack p_end_stack t w =
    (w1 ← do_events exec [Called "enablePageDirectory bootstrapCorePageTable" []; Called "getCurrentCoreId" []] w;
     w2 ← do_events exec (ap_calls (core_of w1) p_start_stack p_end_stack) w1; Some (core_of w1, t, w2)).
Proof.
  intros H. unfold ap_kernel_main.
  rewrite (run_statements_events exec _ _ _ _ _ (proj1 (ap_events t 0 p_start_stack p_end_stack H))).
  set (evs := [_; _]). destruct (do_events exec evs w) as [w1|]; cbn [mbind option_bind]; [|done].
  rewrite (run_statements_events exec _ _ _ _ _ (proj2 (ap_events t (core_of w1) p_start_stack p_end_stack H))).
  by destruct (do_events exec (ap_calls _ _ _) w1) as [w2|].
Qed.

(** The tables hold the functions of [kernel_methods], and the first one lacks three services. *)
Definition tables_agree (t1 t2 : service_transport_kernel) : bool :=
  forallb (fun '(service, method, f) =>
    bool_decide (registered t2 service method = Some f) &&
    (negb ((service =? apic_t) || (service =? interruptManager_t) || (service =? ipi_t)) ||
     match zget (kernel_services t1) service with Some None => true | _ => false end)) kernel_methods.

Definition not_yet (t : service_transport_kernel) (service : Z) : bool :=
  match zget (kernel_services t) service with Some None => true | _ => false end.

(** The events of the three stretches, and the tables they leave. *)
Definition stretches (t : service_transport_kernel) :
    option (list event * service_transport_kernel * (list event * service_transport_kernel) * (list event * service_transport_kernel)) :=
  '(evs1, t1) ← statement_events before_acpi (fst (InitServiceTransportLayer t));
  '(evs2, t2) ← statement_events up_to_cores t1;
  '(evs3, t3) ← statement_events with_cores t2;
  Some (evs1, t1, (evs2, t2), (evs3, t3)).

Definition start_agrees (t : service_transport_kernel) : bool :=
  match stretches t with
  | Some (_, t1, (_, t2), (_, t3)) =>
      tables_agree t1 t3 && core_can_start t2 && core_can_start t3 &&
      not_yet t2 xmlService_t && not_yet t2 ackermannFunctionService_t
  | None => false
  end.

Lemma kernel_start_agrees : start_agrees blank_transport = true.
Proof. vm_compute. reflexivity. Qed.

Lemma stretches_run t : start_agrees t = true -> exists evs1 t1 evs2 t2 evs3 t3,
  statement_events before_acpi (fst (InitServiceTransportLayer t)) = Some (evs1, t1) /\
  statement_events up_to_cores t1 = Some (evs2, t2) /\ statement_events with_cores t2 = Some (evs3, t3) /\
  tables_agree t1 t3 = true /\ core_can_start t2 = true /\ core_can_start t3 = true /\
  not_yet t2 xmlService_t = true /\ not_yet t2 ackermannFunctionService_t = true.
Proof.
  unfold start_agrees, stretches.
  destruct (statement_events before_acpi (fst (InitServiceTransportLayer t))) as [[evs1 t1]|]; [|done]. cbn [mbind option_bind].
  destruct (statement_events up_to_cores t1) as [[evs2 t2]|] eqn:E2; [|done]. cbn [mbind option_bind].
  destruct (statement_events with_cores t2) as [[evs3 t3]|] eqn:E3; [|done]. cbn [mbind option_bind].
  rewrite !andb_true_iff. intros [[[[H1 H2] H3] H4] H5]. by exists evs1, t1, evs2, t2, evs3, t3.
Qed.

Lemma not_yet_null t service : not_yet t service = true -> zget (kernel_services t) service = Some None.
Proof. unfold not_yet. by destruct (zget (kernel_services t) service) as [[s|]|]. Qed.

Lemma methods_dispatched t1 t2 {W} (exec : string -> W -> option W) w :
  tables_agree t1 t2 = true -> Forall (fun '(service, method, f) =>
    DispatchKernel exec t2 service method w = (w' ← exec f w; Some (w', true)) /\
    (service = apic_t \/ service = interruptManager_t \/ service = ipi_t -> DispatchKernel exec t1 service method w = None)) kernel_methods.
Proof.
  unfold tables_agree. rewrite forallb_forall. intros H.
  apply List.Forall_forall. intros [[service method] f] Hin. specialize (H _ Hin). cbv beta iota in H.
  rewrite andb_true_iff, bool_decide_eq_true in H. destruct H as [H1 H2]. split; [by apply dispatch_registered|].
  intros Hs. unfold DispatchKernel.
  assert ((service =? apic_t) || (service =? interruptManager_t) || (service =? ipi_t) = true) as Hs' by (rewrite !orb_true_iff, !Z.eqb_eq; tauto).
  rewrite Hs' in H2. cbn [negb orb] in H2. by destruct (zget (kernel_services t1) service) as [[s|]|].
Qed.

Lemma start_run {W} (exec : event -> W -> option W) acpi_found t evs1 t1 evs2 t2 w :
  statement_events before_acpi (fst (InitServiceTransportLayer t)) = Some (evs1, t1) -> statement_events after_acpi t1 = Some (evs2, t2) ->
  bsp_kernel_main exec acpi_found t w =
    (w1 ← do_events exec evs1 w; w2 ← exec (Called "init_acpi" []) w1;
     if acpi_found w2 then w3 ← do_events exec evs2 w2; Some (t2, w3) else Some (t1, w2)).
Proof.
  intros E1 E2. unfold bsp_kernel_main. destruct (InitServiceTransportLayer t) as [t0 b]. cbn [fst] in E1.
  rewrite (run_statements_events exec _ _ _ _ _ E1). destruct (do_events exec evs1 w) as [w1|]; cbn [mbind option_bind]; [|done].
  unfold run_function. destruct (exec (Called "init_acpi" []) w1) as [w2|]; cbn [mbind option_bind]; [|done].
  destruct (acpi_found w2); [|done]. exact (run_statements_events exec _ _ _ _ _ E2).
Qed.

(** ** Properties *)

