(* ===== verification/Regex.v ===== *)
(** * Regular expressions: what [preprocessor/ProgrammingModel.cpp] uses of [std::regex]

    The patterns of the preprocessor are sequences of characters and character
    classes, repeated greedily or lazily, some of them captured.  A match is found the
    way ECMAScript defines it: the leftmost start, then item by item the
    preferred number of repetitions for which the rest of the pattern matches.
    [iterate] is [std::regex_iterator]: each search begins where the last match
    ended; no pattern here matches the empty text. *)

From S2P Require Import Prelude.

#[local] Open Scope Z_scope.

Notation text := (list Z) (only parsing).

(** ** Patterns *)

Record item := mkItem {
  group : nat;              (* the captured group it belongs to, 0 for none *)
  admits : Z -> bool;
  least : nat;
  most : option nat;
  lazily : bool
}.

Definition is_space (c : Z) : bool := ((9 <=? c) && (c <=? 13)) || (c =? 32).
Definition is_letter (c : Z) : bool := ((65 <=? c) && (c <=? 90)) || ((97 <=? c) && (c <=? 122)).
(** [.] matches no end of line. *)
Definition in_line (c : Z) : bool := negb ((c =? 10) || (c =? 13)).
Definition anything (_ : Z) : bool := true.

Definition one (g : nat) (P : Z -> bool) : item := mkItem g P 1 (Some 1%nat) false.
Definition char (g : nat) (c : Z) : item := one g (Z.eqb c).
Definition many (g : nat) (m : nat) (P : Z -> bool) : item := mkItem g P m None false.
Definition many_lazily (g : nat) (m : nat) (P : Z -> bool) : item := mkItem g P m None true.
Definition maybe (g : nat) (P : Z -> bool) : item := mkItem g P 0 (Some 1%nat) false.
Definition literal (l : text) : list item := map (char 0) l.

(** ** Matching *)

(** How many of the first characters pass the test. *)
Fixpoint run_of (P : Z -> bool) (s : text) : nat :=
  match s with [] => O | c :: s => if P c then S (run_of P s) else O end.

(** The numbers of characters an item can take, in the order they are tried. *)
Definition choices (i : item) (s : text) : list nat :=
  let top := match most i with Some m => Nat.min m (run_of (admits i) s) | None => run_of (admits i) s end in
  let l := seq (least i) (S top - least i) in
  if lazily i then l else rev l.

Fixpoint first_choice {A B} (f : A -> option B) (l : list A) : option B :=
  match l with
  | [] => None
  | x :: l => match f x with Some r => Some r | None => first_choice f l end
  end.

(** The text each item takes, and the text behind the match. *)
Fixpoint match_here (p : list item) (s : text) : option (list text * text) :=
  match p with
  | [] => Some ([], s)
  | i :: p => first_choice (fun k => '(l, r) ← match_here p (drop k s); Some (take k s :: l, r)) (choices i s)
  end.

Fixpoint search (p : list item) (s : text) : option (list text * text) :=
  match match_here p s with
  | Some m => Some m
  | None => match s with [] => None | _ :: s => search p s end
  end.

(** A captured group. *)
Definition captured (g : nat) (p : list item) (l : list text) : text :=
  concat (zip_with (fun i t => if Nat.eqb (group i) g then t else []) p l).

Fixpoint iterate_from (fuel : nat) (p : list item) (s : text) : list (list text) :=
  match fuel with
  | O => []
  | S fuel => match search p s with Some (l, r) => l :: iterate_from fuel p r | None => [] end
  end.

Definition iterate (p : list item) (s : text) : list (list text) := iterate_from (S (length s)) p s.

(** ** What a match is *)

(** [t] is one way for the item to match. *)
Definition takes (i : item) (t : text) : Prop :=
  Forall (fun c => admits i c = true) t /\ (least i <= length t)%nat /\
  match most i with Some m => (length t <= m)%nat | None => True end.

Lemma first_choice_some {A B} (f : A -> option B) l r : first_choice f l = Some r -> exists x, x ∈ l /\ f x = Some r.
Proof.
  induction l as [|x l IH]; cbn; [done|]. destruct (f x) eqn:E.
  - intros [= ->]. exists x. split; [by left | done].
  - intros H. destruct (IH H) as (y & Hy & Ey). exists y. split; [by right | done].
Qed.

Lemma first_choice_none {A B} (f : A -> option B) l : first_choice f l = None <-> forall x, x ∈ l -> f x = None.
Proof.
  induction l as [|x l IH]; cbn.
  - split; [|done]. intros _ x Hx. by apply not_elem_of_nil in Hx.
  - destruct (f x) eqn:E.
    + split; [done|]. intros H. rewrite (H x) in E by left. done.
    + rewrite IH. split.
      * intros H y [->|Hy]%elem_of_cons; [done | by apply H].
      * intros H y Hy. apply H. by right.
Qed.

Lemma first_choice_app {A B} (f : A -> option B) l l' :
  first_choice f (l ++ l') = match first_choice f l with Some r => Some r | None => first_choice f l' end.
Proof. induction l as [|x l IH]; cbn; [done|]. rewrite IH. by destruct (f x). Qed.

Lemma run_of_take P s k : (k <= run_of P s)%nat -> Forall (fun c => P c = true) (take k s) /\ length (take k s) = k.
Proof.
  revert k. induction s as [|c s IH]; intros k Hk; cbn in Hk.
  - by replace k with 0%nat by lia.
  - destruct k as [|k]; [done|]. destruct (P c) eqn:E; [|lia]. destruct (IH k) as [H1 H2]; [lia|]. cbn. split; [by constructor | lia].
Qed.

Lemma run_of_app P a b : Forall (fun c => P c = true) a -> run_of P (a ++ b) = (length a + run_of P b)%nat.
Proof. induction 1 as [|c a E _ IH]; cbn; [done|]. by rewrite E, IH. Qed.

Lemma elem_choices i s k : k ∈ choices i s <-> (least i <= k)%nat /\ (k <= run_of (admits i) s)%nat /\
  match most i with Some m => (k <= m)%nat | None => True end.
Proof.
  unfold choices. assert (forall l : list nat, k ∈ (if lazily i then l else rev l) <-> k ∈ l) as Hrev.
  { intros l. destruct (lazily i); [done|]. rewrite !list_elem_of_In, <- in_rev. done. }
  rewrite Hrev, elem_of_seq. destruct (most i); lia.
Qed.

(** A match is a way to split the text, ... *)
Lemma match_sound p s l r : match_here p s = Some (l, r) -> Forall2 takes p l /\ s = concat l ++ r.
Proof.
  revert s l r. induction p as [|i p IH]; intros s l r; cbn [match_here].
  - intros [= <- <-]. split; [constructor | done].
  - intros (k & Hk & E)%first_choice_some. apply elem_choices in Hk as (H1 & H2 & H3).
    destruct (match_here p (drop k s)) as [[l' r']|] eqn:Em; [|done]. injection E as <- <-. apply IH in Em as [Hp Hs].
    destruct (run_of_take _ _ _ H2) as [Hc Hl]. split.
    + constructor; [|done]. split; [done|]. split; [lia|]. destruct (most i); lia.
    + cbn. rewrite <- app_assoc, <- Hs. symmetry. apply take_drop.
Qed.

(** ... and if there is a way, then there is a match. *)
Lemma match_complete p l r : Forall2 takes p l -> is_Some (match_here p (concat l ++ r)).
Proof.
  intros H. revert r. induction H as [|i t p l (Hc & Hl & Hm) _ IH]; intros r; [by eexists|].
  cbn [match_here]. rewrite <- not_eq_None_Some. intros Hno. rewrite first_choice_none in Hno.
  specialize (Hno (length t)). cbn [concat] in Hno. rewrite <- app_assoc, drop_app_length in Hno.
  destruct (IH r) as [[l' r'] E]. rewrite E in Hno. discriminate Hno.
  apply elem_choices. rewrite run_of_app by done. split; [done|]. split; [lia | done].
Qed.

Lemma search_shorter p s l r : match_here p [] = None -> search p s = Some (l, r) -> Forall2 takes p l /\ exists x, s = x ++ concat l ++ r.
Proof.
  intros Hnil. induction s as [|c s IH]; cbn [search].
  - by rewrite Hnil.
  - destruct (match_here p (c :: s)) as [m|] eqn:E.
    + intros [= ->]. apply match_sound in E as [H1 H2]. split; [done|]. by exists [].
    + intros (H1 & x & H2)%IH. split; [done|]. exists (c :: x). cbn. by rewrite H2.
Qed.

(** ** Running patterns *)

Lemma match_one g P p c s : P c = true -> match_here (one g P :: p) (c :: s) = '(l, r) ← match_here p s; Some ([c] :: l, r).
Proof.
  intros E. cbn [match_here]. unfold choices. cbn. rewrite E. cbn. rewrite drop_0. by destruct (match_here p s) as [[l r]|].
Qed.

Lemma match_one_fails g P p s : match s with [] => True | c :: _ => P c = false end -> match_here (one g P :: p) s = None.
Proof. intros H. cbn [match_here]. unfold choices. destruct s as [|c s]; cbn; [done|]. by rewrite H. Qed.

(** Taking [a], when everything the item tries before that fails. *)
Lemma match_choice i p a b l r :
  takes i a -> match_here p b = Some (l, r) ->
  (forall k, k ∈ choices i (a ++ b) -> (if lazily i then k < length a else length a < k)%nat -> match_here p (drop k (a ++ b)) = None) ->
  match_here (i :: p) (a ++ b) = Some (a :: l, r).
Proof.
  intros (Hc & Hl & Hm) Hp Hno. cbn [match_here]. set (f := fun k => _).
  assert (f (length a) = Some (a :: l, r)) as Ha by (unfold f; by rewrite drop_app_length, take_app_length, Hp).
  assert (length a ∈ choices i (a ++ b)) as Hin by (apply elem_choices; rewrite run_of_app by done; split; [done|]; split; [lia | done]).
  assert (exists x y, choices i (a ++ b) = x ++ length a :: y /\
    forall k, k ∈ x -> (if lazily i then k < length a else length a < k)%nat) as (x & y & E & Hx).
  { revert Hin. unfold choices. set (top := match most i with Some m => _ | None => _ end). clear Hno. intros Hin.
    assert (length a ∈ seq (least i) (S top - least i)) as Hs.
    { destruct (lazily i); [done|]. rewrite list_elem_of_In, <- in_rev, <- list_elem_of_In in Hin. done. }
    apply elem_of_seq in Hs. replace (S top - least i)%nat with ((length a - least i) + S (top - length a))%nat by lia.
    rewrite seq_app. cbn [seq]. replace (least i + (length a - least i))%nat with (length a) by lia. destruct (lazily i).
    - eexists _, _. split; [reflexivity|]. intros k Hk. apply elem_of_seq in Hk. lia.
    - eexists _, _. rewrite rev_app_distr. cbn [rev]. rewrite <- app_assoc. split; [reflexivity|].
      intros k Hk. rewrite list_elem_of_In, <- in_rev, <- list_elem_of_In in Hk. apply elem_of_seq in Hk. lia. }
  rewrite E in *. rewrite first_choice_app. assert (first_choice f x = None) as ->.
  { apply first_choice_none. intros k Hk. unfold f. rewrite Hno; [done | set_solver | by apply Hx]. }
  cbn [first_choice]. by rewrite Ha.
Qed.

(** Lazily: everything shorter fails. *)
Lemma match_lazily g m P p a b l r :
  Forall (fun c => P c = true) a -> (m <= length a)%nat -> match_here p b = Some (l, r) ->
  (forall k, (m <= k < length a)%nat -> match_here p (drop k a ++ b) = None) ->
  match_here (many_lazily g m P :: p) (a ++ b) = Some (a :: l, r).
Proof.
  intros Hc Hm Hp Hno. apply match_choice; [by split | done |]. intros k Hk Hlt. apply elem_choices in Hk as (H1 & _). cbn in *.
  rewrite drop_app_le by lia. apply Hno. lia.
Qed.

(** Greedily: everything longer fails. *)
Lemma match_greedily g m P p a b l r :
  Forall (fun c => P c = true) a -> (m <= length a)%nat -> match_here p b = Some (l, r) ->
  (forall k, (0 < k <= run_of P b)%nat -> match_here p (drop k b) = None) ->
  match_here (many g m P :: p) (a ++ b) = Some (a :: l, r).
Proof.
  intros Hc Hm Hp Hno. apply match_choice; [by split | done |]. intros k Hk Hlt. apply elem_choices in Hk as (_ & H2 & _). cbn in *.
  rewrite run_of_app in H2 by done. rewrite drop_app_ge by lia. apply Hno. lia.
Qed.

(** A greedy item takes all it can if the pattern can go on from there. *)
Lemma match_all g m P p a b l r :
  Forall (fun c => P c = true) a -> (m <= length a)%nat -> match b with [] => True | c :: _ => P c = false end ->
  match_here p b = Some (l, r) -> match_here (many g m P :: p) (a ++ b) = Some (a :: l, r).
Proof.
  intros Hc Hm Hb Hp. apply match_greedily; try done. intros k Hk. destruct b as [|c b]; cbn in Hk; [lia|]. rewrite Hb in Hk. lia.
Qed.

Lemma match_none i p s : (forall k, k ∈ choices i s -> match_here p (drop k s) = None) -> match_here (i :: p) s = None.
Proof. intros H. cbn [match_here]. apply first_choice_none. intros k Hk. by rewrite H. Qed.

(** An item that need not take anything and cannot. *)
Lemma match_skip i p s : least i = 0%nat -> match s with [] => True | c :: _ => admits i c = false end ->
  match_here (i :: p) s = '(l, r) ← match_here p s; Some ([] :: l, r).
Proof.
  intros Hl Hs. cbn [match_here]. assert (choices i s = [0%nat]) as ->.
  { unfold choices. assert (run_of (admits i) s = 0%nat) as -> by (destruct s; [done|]; cbn; by rewrite Hs).
    rewrite Hl. destruct (most i) as [m|]; [rewrite Nat.min_0_r|]; by destruct (lazily i). }
  cbn [first_choice]. rewrite drop_0. by destruct (match_here p s) as [[l r]|].
Qed.

(** *** Words *)

(** The text begins with the word. *)
Fixpoint starts (w s : text) : bool :=
  match w, s with
  | [], _ => true
  | c :: w, d :: s => (c =? d) && starts w s
  | _, [] => false
  end.

Definition letters (w : text) : list text := map (fun c => [c]) w.

Lemma starts_app w s : starts w (w ++ s) = true.
Proof. induction w as [|c w IH]; cbn; [done|]. by rewrite Z.eqb_refl. Qed.

Lemma match_word w p s : match_here (literal w ++ p) (w ++ s) = '(l, r) ← match_here p s; Some (letters w ++ l, r).
Proof.
  induction w as [|c w IH]; [cbn; by destruct (match_here p s) as [[l r]|]|].
  change (literal (c :: w) ++ p) with (one 0 (Z.eqb c) :: (literal w ++ p)). change ((c :: w) ++ s) with (c :: (w ++ s)).
  rewrite match_one by apply Z.eqb_refl. rewrite IH.
  by destruct (match_here p s) as [[l r]|].
Qed.

Lemma match_no_word w p s : starts w s = false -> match_here (literal w ++ p) s = None.
Proof.
  revert s. induction w as [|c w IH]; intros s; cbn [starts]; [done|]. destruct s as [|d s].
  - intros _. by apply match_one_fails.
  - intros H. change (literal (c :: w) ++ p) with (one 0 (Z.eqb c) :: (literal w ++ p)). destruct (Z.eqb_spec c d) as [->|Hne].
    + rewrite match_one by apply Z.eqb_refl. by rewrite IH.
    + apply match_one_fails. by apply Z.eqb_neq.
Qed.

(** The word begins nowhere in [a], if [b] follows. *)
Definition absent (w a b : text) : Prop := forall k, (k < length a)%nat -> starts w (drop k (a ++ b)) = false.

Lemma absent_app w a a' b : absent w a (a' ++ b) -> absent w a' b -> absent w (a ++ a') b.
Proof.
  intros H1 H2 k Hk. rewrite length_app in Hk. destruct (decide (k < length a)%nat) as [Hlt|Hge].
  - rewrite <- app_assoc. by apply H1.
  - rewrite <- app_assoc, drop_app_ge by lia. apply H2. lia.
Qed.

Lemma absent_cons w c a b : starts w (c :: a ++ b) = false -> absent w a b -> absent w (c :: a) b.
Proof. intros H1 H2 [|k] Hk; cbn in *; [done | apply H2; lia]. Qed.

Lemma absent_nil w b : absent w [] b.
Proof. intros k Hk. cbn in Hk. lia. Qed.

Lemma regex_search_skips w p a b : absent w a b -> search (literal w ++ p) (a ++ b) = search (literal w ++ p) b.
Proof.
  induction a as [|c a IH]; intros H; [done|]. cbn [app search]. rewrite match_no_word by exact (H 0%nat ltac:(cbn; lia)).
  apply IH. intros k Hk. apply (H (S k)). cbn. lia.
Qed.

Lemma search_found p s m : match_here p s = Some m -> search p s = Some m.
Proof. intros E. destruct s; cbn [search]; by rewrite E. Qed.

Lemma search_missing w p a : w <> [] -> absent w a [] -> search (literal w ++ p) a = None.
Proof.
  intros Hw H. rewrite <- (app_nil_r a). rewrite regex_search_skips by done. cbn [search]. rewrite match_no_word; [done|]. by destruct w.
Qed.

Lemma iterate_next fuel p s l r : search p s = Some (l, r) -> iterate_from (S fuel) p s = l :: iterate_from fuel p r.
Proof. intros E. cbn [iterate_from]. by rewrite E. Qed.

Lemma iterate_end fuel p s : search p s = None -> iterate_from fuel p s = [].
Proof. intros E. destruct fuel; cbn [iterate_from]; [done | by rewrite E]. Qed.
