(* ===== verification/ProgrammingModel.v ===== *)
(** * The preprocessor: [preprocessor/ProgrammingModel.cpp]

    A service is written as a C file whose functions are marked for the kernel or for
    user programs, and a header with the structure of its data.  The preprocessor
    splits the C file in two, adds to the header an enumeration of the exposed
    functions, and writes Library.h, whose [generateServices] registers every
    function with the transport layer under its enumerator.

    - Files are texts under their paths: what is read is an argument, what is written
      the result; directories are there and can be written to.  The order in
      which the directory is listed is part of the argument.
    - [None] is an exception nobody catches, or undefined behaviour: a
      match that is not there, a formatted text longer than its buffer, the string
      made of NULL, the last element of an empty vector.
    - The two globals [functions] and [serviceDetailsArr] are passed on. *)

From S2P Require Import Prelude Stdio Regex.

#[local] Open Scope Z_scope.

(** ** Data *)

Record function_desc := mkFunction {
  return_type : text;
  function_pointer : text;
  fn_parameters : text;
  fn_body : text;
  fn_type : Z
}.

Record serviceDetails := mkDetails {
  fileName : text;
  serviceName : text;
  functionPointers : list (text * text)
}.

#[export] Instance eta_serviceDetails : Eta serviceDetails :=
  fun r => mkDetails (fileName r) (serviceName r) (functionPointers r).

Definition KERNEL : Z := 75.      (* 'K' *)
Definition USER : Z := 85.        (* 'U' *)
Definition TAB : Z := 9.
Definition LF : Z := 10.
Definition QUOTE : Z := 34.
Definition BUFFER_SIZE : Z := 1000.

(** ** The patterns *)

(** [\S]. *)
Definition no_space (c : Z) : bool := negb (is_space c).

(** [kernelFunctionTokenDef], [userFunctionTokenDef]. *)
Definition function_token (type : Z) : list item :=
  literal (codes "//STL_" ++ [type]) ++ [many_lazily 1 0 anything] ++ literal (codes "//END_STL_" ++ [type]).

Definition serviceObjectNameToken : list item :=
  literal (codes "typedef struct {") ++ [many 0 0 is_space; many 1 0 anything; many 0 0 is_space] ++ literal (codes "}") ++
  [many 2 0 no_space; maybe 0 is_space] ++ literal (codes ";").

Definition function_expression : list item :=
  [one 1 is_letter; many_lazily 1 1 in_line; one 0 is_space; many_lazily 2 1 in_line; many 0 0 is_space;
   char 3 40; many 3 1 in_line; char 3 41; one 0 is_space; many 4 1 anything].

(** ** Texts *)

(** [sprintf(buffer, ...)]: the text and its terminator fit or the stack is overwritten. *)
Definition formatted (s : text) : option text := if zlen s <? BUFFER_SIZE then Some s else None.

Definition include_line (name : text) : text := codes "#include " ++ [QUOTE] ++ name ++ codes ".h" ++ [QUOTE; LF].

(** [s.find(w) != npos]. *)
Fixpoint contains (w s : text) : bool :=
  starts w s || match s with [] => false | _ :: s => contains w s end.

(** [s.substr(pos, n)]; the length is unsigned, a negative one is as good as no bound. *)
Definition substr (s : text) (pos n : Z) : option text :=
  if zlen s <? pos then None else
  let s := drop (Z.to_nat pos) s in Some (if n <? 0 then s else take (Z.to_nat n) s).

(** The enumerator of a function. *)
Definition function_enumerator (f : function_desc) : text := return_type f ++ codes "_" ++ function_pointer f.

Definition map_function_to_struct (function : text) (type : Z) (d : serviceDetails) (functions : list function_desc) :
    option (serviceDetails * list function_desc) :=
  '(l, _) ← search function_expression function;
  let group g := captured g function_expression l in
  let temp_fn := mkFunction (group 1%nat) (group 2%nat) (group 3%nat) (group 4%nat) type in
  Some (d {{ functionPointers := functionPointers d ++ [(function_pointer temp_fn, function_enumerator temp_fn)] }}, functions ++ [temp_fn]).

(** The loop over the matches of one kind: what is written to the output, and what is noted. *)
Fixpoint map_functions (type : Z) (found : list text) (out : text) (d : serviceDetails) (functions : list function_desc) :
    option (text * serviceDetails * list function_desc) :=
  match found with
  | [] => Some (out, d, functions)
  | s :: found => '(d, functions) ← map_function_to_struct s type d functions; map_functions type found (out ++ s) d functions
  end.

(** Items with a comma between them. *)
Fixpoint separated (l : list text) : text :=
  match l with [] => [] | [x] => x | x :: l => x ++ codes ", " ++ separated l end.

Definition create_service_enum_values (serviceObjectName : text) (functions : list function_desc) : option text :=
  match functions with
  | [] => None
  | _ =>
      head ← formatted ([LF] ++ codes "enum " ++ serviceObjectName ++ codes "_exposed_functions { ");
      Some (head ++ separated (map function_enumerator functions) ++ codes " };" ++ [LF])
  end.

(** ** One source file *)

Definition files : Type := text -> option text.
Definition written : Type := list (text * text).

Definition found_functions (type : Z) (s : text) : list text :=
  map (captured 1 (function_token type)) (iterate (function_token type) s).

Definition process_file (fs : files) (inputDirectory outputDirectory path : text) : option (written * serviceDetails) :=
  fileName ← substr path (zlen inputDirectory) (zlen path - zlen inputDirectory - 2);
  let streamIteratorCFile := default [] (fs (inputDirectory ++ fileName ++ codes ".c")) in
  header ← fs (inputDirectory ++ fileName ++ codes ".h");
  '(name, _) ← search serviceObjectNameToken header;
  let serviceObjectName := captured 2 serviceObjectNameToken name in
  own ← formatted (include_line fileName);
  console ← formatted (include_line (codes "Console"));
  '(kernelFile, d, functions) ← map_functions KERNEL (found_functions KERNEL streamIteratorCFile) (own ++ console)
      (mkDetails fileName serviceObjectName []) [];
  '(userFile, d, functions) ← map_functions USER (found_functions USER streamIteratorCFile) (own ++ console) d functions;
  enums ← create_service_enum_values serviceObjectName functions;
  Some ([(outputDirectory ++ fileName ++ codes ".h", header ++ enums ++ [LF]);
         (outputDirectory ++ fileName ++ codes "_K.c", kernelFile);
         (outputDirectory ++ fileName ++ codes "_U.c", userFile)], d).

(** The loop over the directory; what is no C file by its name is skipped. *)
Fixpoint process_directory (fs : files) (inputDirectory outputDirectory : text) (entries : list text) (out : written)
    (serviceDetailsArr : list serviceDetails) : option (written * list serviceDetails) :=
  match entries with
  | [] => Some (out, serviceDetailsArr)
  | path :: entries =>
      if contains (codes ".c") path then
        '(w, d) ← process_file fs inputDirectory outputDirectory path;
        process_directory fs inputDirectory outputDirectory entries (out ++ w) (serviceDetailsArr ++ [d])
      else process_directory fs inputDirectory outputDirectory entries out serviceDetailsArr
  end.

(** ** Library.h *)

Fixpoint format_all (l : list text) : option text :=
  match l with [] => Some [] | s :: l => s ← formatted s; r ← format_all l; Some (s ++ r) end.

(** The middle enumerators; the last one closes the list. *)
Fixpoint services_enum_from (i : Z) (l : list serviceDetails) : option text :=
  match l with
  | [] => None
  | [d] => Some (serviceName d ++ codes "_t" ++ codes " } user_service_enum;" ++ [LF])
  | d :: l => r ← services_enum_from (i + 1) l; Some (serviceName d ++ codes "_t" ++ (if i =? 0 then codes " = 10" else codes " ") ++ codes ", " ++ r)
  end.

Definition create_services_enum (serviceDetailsArr : list serviceDetails) : option text :=
  temp ← services_enum_from 0 serviceDetailsArr; Some (codes "typedef enum user_services_enum_t { " ++ temp).

(** The number of an entry, for [%d]. *)
Definition decimal (n : Z) : text := if n =? 0 then codes "0" else show_digits (drop_zeros (digits 10 20 n)).

Definition declaration_text (d : serviceDetails) : text :=
  serviceName d ++ codes " " ++ serviceName d ++ codes "_object;" ++ [LF] ++ codes "Service " ++ serviceName d ++ codes "Service;" ++ [LF].

Definition pointer_text (i : Z) (x : text) : text :=
  [LF; TAB] ++ codes "kernel.void_pointers[" ++ decimal i ++ codes "] = (void*) &" ++ x ++ codes "_object;" ++ [LF].
Definition init_text (x : text) : text :=
  [TAB] ++ codes "service_init(&" ++ x ++ codes "Service, (void *)&" ++ x ++ codes "_object, " ++ x ++ codes "_t);" ++ [LF].
Definition add_text (x : text) (f : text * text) : text :=
  [TAB] ++ x ++ codes "Service.add_service(&" ++ x ++ codes "Service, " ++ fst f ++ codes ", " ++ snd f ++ codes ");" ++ [LF].
Definition register_text (x : text) : text :=
  [TAB] ++ codes "RegisterServiceToKernel(&kernel.service_transporter, &" ++ x ++ codes "Service, " ++ x ++ codes "_t);" ++ [LF].

(** The statements of one service. *)
Definition service_text (i : Z) (d : serviceDetails) : option text :=
  let x := serviceName d in
  format_all ([pointer_text i x; init_text x] ++ map (add_text x) (functionPointers d) ++ [register_text x]).

Fixpoint services_text (counter : Z) (l : list serviceDetails) : option text :=
  match l with [] => Some [] | d :: l => s ← service_text counter d; r ← services_text (counter + 1) l; Some (s ++ r) end.

Definition createLibraryFile (serviceDetailsArr : list serviceDetails) : option text :=
  includes ← format_all (map (fun d => include_line (fileName d)) serviceDetailsArr);
  enum ← create_services_enum serviceDetailsArr;
  declarations ← format_all (map declaration_text serviceDetailsArr);
  statements ← services_text 0 serviceDetailsArr;
  Some ([LF] ++ include_line (codes "service") ++ [LF] ++ include_line (codes "Kernel") ++ includes ++ enum ++ [LF] ++
        [LF] ++ codes "extern Kernel kernel;" ++ [LF; LF] ++ declarations ++
        [LF] ++ codes "bool generateServices()" ++ [LF] ++ codes "{" ++ statements ++ codes "}" ++ [LF]).

(** ** The linker script *)

Definition object_line (name : text) : text := [TAB] ++ name ++ codes ".o (.text)" ++ [LF].

(** The objects of the kernel, in the order they are linked in. *)
Definition kernel_objects : list string :=
  ["gdt"; "idt"; "isr"; "pit"; "PhysicalMemory"; "MemoryUtilities_asm"; "ClockUtils"; "MemoryUtilities"; "memcpy_asm"; "memcpy";
   "memswap_asm"; "checksum_asm"; "pci_device"; "pci_service"; "memswap"; "ipi"; "Terminal"; "Console"; "ACPI"; "APIC"; "ATADisk";
   "ATAManager"; "TSSDescriptor"; "GlobalDescriptorTableEntry"; "GlobalDescriptorTable"; "InterruptManager";
   "InterruptDescriptorTable"; "isr_stub"; "APICManager"; "Ports"; "CoreUtils"; "NetUtils"; "MMIOUtils"; "stdio"; "printk";
   "service1_K"; "checksum"; "MemoryPageMap"; "SharedMemory"; "BlockService"; "Service"; "ServiceTransport"; "numbers"; "rtl8139";
   "Spinlock"; "KMalloc"; "E1000"; "ARP"; "IP"; "ICMP"; "Ethernet"; "NetworkDriver"; "keyboard"; "void_ptr_stack"; "XMLParser";
   "XQuery"; "XMLService"; "Base64Encoding"; "IPIoE"; "AckermannFunction"; "HashTable"]%string.

(** Lines, each with its end. *)
Definition lines (l : list text) : text := concat (map (fun s => s ++ [LF]) l).

(** The lines of the literals are continued, so some of what reads as separate lines is one. *)
Definition part1 : text :=
  lines [codes "ENTRY(_start)"; codes " "; codes "SECTIONS"; codes " {"; [TAB] ++ codes ".text BLOCK(4K) : ALIGN(4K)";
         [TAB] ++ codes "{" ++ [TAB; TAB] ++ codes "KernelWrapper.o (.text) /* This needs to be the first file for";
         replicate 44 32 ++ codes "stage1 to be able to switch to"; replicate 44 32 ++ codes "stage2"] ++
  codes " */" ++ concat (map (fun o => object_line (codes o)) kernel_objects).

Definition section (name : string) (body : list text) : list text :=
  [[TAB; TAB] ++ codes name ++ codes " BLOCK(4K) : ALIGN(4K)"; [TAB] ++ codes "{"] ++ map (fun s => [TAB] ++ s) body ++
  [[TAB; TAB] ++ codes ". = ALIGN(4K);"; [TAB] ++ codes "}"].

Definition part2 : text :=
  [LF] ++ object_line (codes "Kernel") ++ lines ([[TAB; TAB] ++ codes ". = ALIGN(4K);"; [TAB] ++ codes "}"] ++
    section ".rodata" [codes "*(.rodata)"] ++ section ".data" [codes "*(.data)"] ++
    section ".bss" [codes "*(COMMON)"; codes "*(.bss)"; codes "*(.bootstrap_stack)"] ++ [[]; [TAB] ++ codes "end = .;"]) ++ codes "}".

Definition generateLinkerFile (serviceDetailsArr : list serviceDetails) : text :=
  let middle := concat (map (fun d => object_line (fileName d ++ codes "_K") ++ object_line (fileName d ++ codes "_U")) serviceDetailsArr) in
  part1 ++ middle ++ part2.

(** ** The program *)

(** The result, and the files in the order they were opened; [entries] is the listing of the input directory. *)
Definition main (fs : files) (entries argv : list text) : option (Z * written) :=
  match argv with
  | [_; inputDirectory; outputDirectory] =>
      '(out, serviceDetailsArr) ← process_directory fs inputDirectory outputDirectory entries [] [];
      library ← createLibraryFile serviceDetailsArr;
      Some (0, out ++ [(outputDirectory ++ codes "Library.h", library);
                       (codes "output/linker.ld", generateLinkerFile serviceDetailsArr)])
  | _ => Some (1, [])
  end.

(** ** What the preprocessor is for: the files of a service

    A function as the programming model wants it: [void f (int x)], the body on the
    next line.  The parameters include their parentheses. *)

Record function_source := mkFunctionSource {
  fs_lead : text;           (* blanks and ends of lines *)
  fs_return : text;
  fs_name : text;
  fs_blanks : text;
  fs_parameters : text;
  fs_newline : Z;
  fs_body : text
}.

Definition function_text (f : function_source) : text :=
  fs_lead f ++ fs_return f ++ [32] ++ fs_name f ++ fs_blanks f ++ [40] ++ fs_parameters f ++ [41; fs_newline f] ++ fs_body f.

Definition in_name (c : Z) : bool := no_space c && negb (c =? 40).
Definition all (P : Z -> bool) (s : text) : Prop := Forall (fun c => P c = true) s.

Record good_function (f : function_source) : Prop := {
  good_lead : all is_space (fs_lead f);
  good_return : exists c w, fs_return f = c :: w /\ is_letter c = true /\ w <> [] /\ all no_space w;
  good_function_name : fs_name f <> [] /\ all in_name (fs_name f);
  good_blanks : all is_space (fs_blanks f);
  good_parameters : fs_parameters f <> [] /\ all in_line (fs_parameters f);
  good_newline : fs_newline f = 10 \/ fs_newline f = 13;
  good_body : fs_body f <> []
}.

(** What is exposed: the function, and its enumerator. *)
Definition exposed (f : function_source) : text * text := (fs_name f, fs_return f ++ codes "_" ++ fs_name f).

Lemma all_impl (P Q : Z -> bool) s : (forall c, P c = true -> Q c = true) -> all P s -> all Q s.
Proof. intros H Hs. induction Hs; constructor; auto. Qed.

(** What is no blank is in a line. *)
Lemma no_space_line c : no_space c = true -> in_line c = true.
Proof. unfold no_space, in_line, is_space. bdestr (c =? 10); [by subst|]. bdestr (c =? 13); [by subst | done]. Qed.

Lemma first_of_all P s k : all P s -> (k < length s)%nat -> exists c r, drop k s = c :: r /\ P c = true.
Proof.
  intros H Hk. destruct (drop k s) as [|c r] eqn:E.
  - apply (f_equal length) in E. rewrite length_drop in E. cbn in E. lia.
  - exists c, r. split; [done|]. apply (Forall_drop _ k) in H. rewrite E in H. by inversion H.
Qed.

Lemma head_of_line a c r : all in_line a -> in_line c = false -> run_of in_line (a ++ c :: r) = length a.
Proof. intros Ha Hc. rewrite run_of_app by exact Ha. cbn. rewrite Hc. lia. Qed.

(** The name up to the parameters. *)
Lemma name_found n blanks ps nl body :
  n <> [] -> all in_name n -> all is_space blanks -> ps <> [] -> all in_line ps -> nl = 10 \/ nl = 13 -> body <> [] ->
  exists l, match_here (many_lazily 2 1 in_line :: skipn 4 function_expression) (n ++ blanks ++ [40] ++ ps ++ [41; nl] ++ body) =
    Some (n :: blanks :: l, []) /\ l = [[40]; ps; [41]; [nl]; body].
Proof.
  intros Hn0 Hn Hb Hp0 Hp Hnl Hbody. eexists. split; [|reflexivity].
  assert (in_line nl = false /\ is_space nl = true) as [Hl Hs] by by destruct Hnl as [-> | ->].
  assert (match_here (skipn 5 function_expression) ([40] ++ ps ++ [41; nl] ++ body) = Some ([[40]; ps; [41]; [nl]; body], [])) as Hrest.
  { unfold function_expression, skipn, char. cbn [app]. rewrite match_one by done.
    rewrite (match_greedily 3 1 in_line _ ps (41 :: nl :: body) [[41]; [nl]; body] []); [done | done | by destruct ps; [|cbn; lia] | |].
    - rewrite match_one by done. rewrite match_one by exact Hs.
      rewrite <- (app_nil_r body) at 1. erewrite match_all; [reflexivity | | | done | reflexivity].
      + apply Forall_true. done.
      + destruct body; [done | cbn; lia].
    - intros k Hk. cbn in Hk. rewrite Hl in Hk. replace k with 1%nat by lia. cbn [drop]. apply match_one_fails.
      by destruct Hnl as [-> | ->]. }
  apply match_lazily.
  - eapply all_impl; [|exact Hn]. intros c Hc. unfold in_name in Hc. apply andb_prop in Hc as [Hc _]. by apply no_space_line.
  - destruct n; [done | cbn; lia].
  - change (skipn 4 function_expression) with (many 0 0 is_space :: skipn 5 function_expression).
    apply match_all; [exact Hb | lia | done | exact Hrest].
  - intros k Hk. destruct (first_of_all in_name n k Hn ltac:(lia)) as (c & r & -> & Hc).
    unfold in_name, no_space in Hc. apply andb_prop in Hc as [Hc1 Hc2]. apply negb_true_iff in Hc1, Hc2.
    change (skipn 4 function_expression) with (many 0 0 is_space :: skipn 5 function_expression). cbn [app].
    rewrite match_skip by done. unfold function_expression, skipn, char. rewrite match_one_fails; [done|]. by rewrite Z.eqb_sym.
Qed.

(** The pattern finds the parts of a function. *)
Lemma function_found f : good_function f ->
  exists l, search function_expression (function_text f) = Some (l, []) /\
    captured 1 function_expression l = fs_return f /\ captured 2 function_expression l = fs_name f.
Proof.
  intros [Hlead (c & w & Er & Hc & Hw0 & Hw) [Hn0 Hn] Hb [Hp0 Hp] Hnl Hbody].
  destruct (name_found (fs_name f) (fs_blanks f) (fs_parameters f) (fs_newline f) (fs_body f)) as (l & E & El); try done.
  exists ([c] :: w :: [32] :: fs_name f :: fs_blanks f :: l). split.
  - unfold function_text. induction Hlead as [|x lead Hx _ IH].
    + apply search_found. rewrite Er. cbn [app]. change function_expression with (one 1 is_letter :: skipn 1 function_expression).
      rewrite match_one by done. 
      change (skipn 1 function_expression) with (many_lazily 1 1 in_line :: one 0 is_space :: many_lazily 2 1 in_line :: skipn 4 function_expression).
      erewrite match_lazily; [reflexivity | | | |].
      * eapply all_impl; [exact no_space_line | exact Hw].
      * destruct w; [done | cbn; lia].
      * rewrite match_one by done. cbn [app] in E. by rewrite E.
      * intros k Hk. destruct (first_of_all no_space w k Hw ltac:(lia)) as (d & r & -> & Hd). cbn [app]. apply match_one_fails.
        by apply negb_true_iff in Hd.
    + cbn [app search]. change function_expression with (one 1 is_letter :: skipn 1 function_expression) at 1.
      rewrite match_one_fails; [exact IH|]. unfold is_space, is_letter in *. lia.
  - rewrite El. unfold captured. cbn. rewrite !app_nil_r. by rewrite Er.
Qed.

Lemma function_mapped f type d fns : good_function f ->
  exists g, map_function_to_struct (function_text f) type d fns =
      Some (d {{ functionPointers := functionPointers d ++ [exposed f] }}, fns ++ [g]) /\ function_enumerator g = snd (exposed f).
Proof.
  intros Hf. destruct (function_found f Hf) as (l & E & E1 & E2). unfold map_function_to_struct. rewrite E. cbn [mbind option_bind].
  unfold exposed. rewrite <- E1, <- E2. eexists. split; reflexivity.
Qed.

Lemma functions_mapped type fs : Forall good_function fs -> forall out d fns,
  exists gs, map_functions type (map function_text fs) out d fns =
      Some (out ++ concat (map function_text fs), d {{ functionPointers := functionPointers d ++ map exposed fs }}, fns ++ gs) /\
    map function_enumerator gs = map (snd ∘ exposed) fs.
Proof.
  induction 1 as [|f fs Hf _ IH]; intros out d fns; cbn [map map_functions concat].
  - exists []. split; [|reflexivity]. cbn. rewrite !app_nil_r. destruct d. reflexivity.
  - destruct (function_mapped f type d fns Hf) as (g & -> & Eg). cbn [mbind option_bind].
    destruct (IH (out ++ function_text f) (d {{ functionPointers := functionPointers d ++ [exposed f] }}) (fns ++ [g])) as (gs & -> & Egs).
    exists (g :: gs). cbn [map]. split; [|by rewrite Eg, Egs].
    rewrite <- !app_assoc. destruct d. cbn. by rewrite <- !app_assoc.
Qed.

(** ** Marked functions

    A block is a marked function with the text behind it. *)

Record block := mkBlock { block_type : Z; block_function : function_source; block_gap : text }.

Definition token (type : Z) : text := codes "//STL_" ++ [type].
Definition end_token (type : Z) : text := codes "//END_STL_" ++ [type].

Definition block_text (b : block) : text :=
  token (block_type b) ++ function_text (block_function b) ++ end_token (block_type b) ++ block_gap b.

Definition blocks_text (bs : list block) : text := concat (map block_text bs).

(** Nothing in the text looks like the beginning of a mark. *)
Fixpoint quiet (s : text) : bool :=
  match s with [] => true | _ :: r => negb (starts (codes "//S") s || starts (codes "//E") s) && quiet r end.

Definition good_block (b : block) : Prop :=
  (block_type b = KERNEL \/ block_type b = USER) /\ good_function (block_function b) /\
  quiet (function_text (block_function b)) = true /\ quiet (block_gap b) = true.

(** The functions of one kind. *)
Definition of_type (type : Z) (bs : list block) : list function_source :=
  map block_function (filter (fun b => block_type b = type) bs).

Lemma starts_within w a b : (length w <= length a)%nat -> starts w (a ++ b) = starts w a.
Proof.
  revert a. induction w as [|c w IH]; intros a H; [done|]. destruct a as [|d a]; cbn in H; [lia|]. cbn. by rewrite IH by lia.
Qed.

(** In a quiet text before a mark, or at the end, there is no mark. *)
Lemma quiet_absent x w a b : quiet a = true -> x = 83 \/ x = 69 -> (b = [] \/ exists r, b = 47 :: 47 :: r) ->
  absent (47 :: 47 :: x :: w) a b.
Proof.
  intros Ha Hx Hb. induction a as [|c a IH]; [apply absent_nil|]. cbn [quiet] in Ha. apply andb_prop in Ha as [Hc Ha].
  apply absent_cons; [|by apply IH]. apply negb_true_iff, orb_false_iff in Hc as [H1 H2].
  assert (starts [47; 47; x] (c :: a ++ b) = false) as H.
  { destruct a as [|d [|e a]].
    - destruct Hb as [-> | [r ->]]; cbn; destruct Hx as [-> | ->]; by bdestr (47 =? c).
    - destruct Hb as [-> | [r ->]]; cbn; destruct Hx as [-> | ->]; bdestr (47 =? c); by bdestr (47 =? d).
    - change (c :: (d :: e :: a) ++ b) with ([c; d; e] ++ a ++ b). rewrite starts_within by (cbn; lia).
      change (c :: d :: e :: a) with ([c; d; e] ++ a) in H1, H2. rewrite starts_within in H1, H2 by (cbn; lia). by destruct Hx as [-> | ->]. }
  cbn in H |- *. destruct (47 =? c); cbn in *; [|done]. destruct (a ++ b) as [|d r]; [done|].
  destruct (47 =? d); cbn in *; [|done]. destruct r as [|e r]; [done|]. rewrite andb_true_r in H. by rewrite H.
Qed.

Lemma token_absent type a b : quiet a = true -> (b = [] \/ exists r, b = 47 :: 47 :: r) -> absent (token type) a b.
Proof. intros H Hb. apply quiet_absent; auto. Qed.

Lemma end_token_absent type a b : quiet a = true -> (exists r, b = 47 :: 47 :: r) -> absent (end_token type) a b.
Proof. intros H Hb. apply quiet_absent; auto. Qed.

Lemma blocks_begin bs : blocks_text bs = [] \/ exists r, blocks_text bs = 47 :: 47 :: r.
Proof. destruct bs as [|b bs]; [by left|]. right. eexists. reflexivity. Qed.

(** No mark of one kind in a block of the other kind. *)
Lemma other_absent type b rest : good_block b -> block_type b <> type -> (rest = [] \/ exists r, rest = 47 :: 47 :: r) ->
  absent (token type) (block_text b) rest.
Proof.
  intros (Ht & _ & Hq & Hg) Hne Hrest. unfold block_text. apply absent_app.
  - assert (type =? block_type b = false) as E by by apply Z.eqb_neq.
    destruct Ht as [Ht | Ht]; rewrite Ht in *; (repeat (apply absent_cons; [cbn; rewrite ?E; reflexivity|]); apply absent_nil).
  - apply absent_app; [apply token_absent; [done | right; eexists; reflexivity]|].
    apply absent_app; [|by apply token_absent]. destruct Ht as [Ht | Ht]; rewrite Ht; (repeat (apply absent_cons; [reflexivity|]); apply absent_nil).
Qed.

Lemma captured_cons g i p t l : captured g (i :: p) (t :: l) = (if Nat.eqb (group i) g then t else []) ++ captured g p l.
Proof. reflexivity. Qed.

Lemma captured_word g w p l : g <> 0%nat -> captured g (literal w ++ p) (letters w ++ l) = captured g p l.
Proof.
  intros Hg. induction w as [|c w IH]; [done|]. change (literal (c :: w) ++ p) with (char 0 c :: (literal w ++ p)).
  change (letters (c :: w) ++ l) with ([c] :: (letters w ++ l)). rewrite captured_cons, IH. by destruct g.
Qed.

Lemma token_found type body r : absent (end_token type) body (end_token type ++ r) ->
  match_here (function_token type) (token type ++ body ++ end_token type ++ r) = Some (letters (token type) ++ body :: letters (end_token type), r).
Proof.
  intros H. unfold function_token. fold (token type) (end_token type). rewrite match_word. cbn [app].
  rewrite (match_lazily 1 0 anything _ body (end_token type ++ r) (letters (end_token type)) r); [done | by apply Forall_true | lia | |].
  - pose proof (match_word (end_token type) [] r) as E. rewrite app_nil_r in E. by rewrite E.
  - intros k Hk. pose proof (match_no_word (end_token type) [] (drop k body ++ end_token type ++ r)) as E. rewrite app_nil_r in E. apply E.
    rewrite <- drop_app_le by lia. apply H. lia.
Qed.

Lemma body_captured type body : captured 1 (function_token type) (letters (token type) ++ body :: letters (end_token type)) = body.
Proof.
  unfold function_token. fold (token type) (end_token type). rewrite captured_word by done. cbn [app]. rewrite captured_cons. cbn [group many_lazily Nat.eqb].
  pose proof (captured_word 1 (end_token type) [] [] ltac:(done)) as E. rewrite !app_nil_r in E. rewrite E. cbn. by rewrite app_nil_r.
Qed.

(** The iteration finds the functions of its kind, in order. *)
Lemma blocks_found type bs : Forall good_block bs -> forall fuel pre,
  (length bs < fuel)%nat -> absent (token type) pre (blocks_text bs) ->
  map (captured 1 (function_token type)) (iterate_from fuel (function_token type) (pre ++ blocks_text bs)) = map function_text (of_type type bs).
Proof.
  induction 1 as [|b bs Hb Hbs IH]; intros fuel pre Hf Hpre.
  - cbn [blocks_text map concat] in *. rewrite iterate_end; [done|]. rewrite app_nil_r. by apply search_missing.
  - pose proof Hb as (_ & _ & Hq & Hg). unfold blocks_text in *. cbn [map concat length] in *. fold (blocks_text bs) in *.
    destruct (decide (block_type b = type)) as [<-|Hne].
    + assert (search (function_token (block_type b)) (pre ++ block_text b ++ blocks_text bs) =
        Some (letters (token (block_type b)) ++ function_text (block_function b) :: letters (end_token (block_type b)), block_gap b ++ blocks_text bs)) as E.
      { unfold function_token. fold (token (block_type b)) (end_token (block_type b)). rewrite regex_search_skips by done. apply search_found.
        unfold block_text. rewrite <- !app_assoc. apply token_found. apply end_token_absent; [done|]. by eexists. }
      destruct fuel as [|fuel]; [lia|]. rewrite (iterate_next _ _ _ _ _ E). cbn [map]. rewrite body_captured.
      unfold of_type. rewrite filter_cons_True by done. cbn [map]. f_equal. apply IH; [lia|]. apply token_absent; [done | apply blocks_begin].
    + unfold of_type. rewrite filter_cons_False by done. rewrite app_assoc. apply IH; [lia|].
      apply absent_app; [done|]. apply other_absent; [done | done | apply blocks_begin].
Qed.

Lemma source_found type pre bs : Forall good_block bs -> quiet pre = true ->
  found_functions type (pre ++ blocks_text bs) = map function_text (of_type type bs).
Proof.
  intros Hbs Hpre. apply blocks_found; [done | | apply token_absent; [done | apply blocks_begin]].
  rewrite length_app. assert (length bs <= length (blocks_text bs))%nat; [|lia]. clear.
  induction bs as [|b bs IH]; [done|]. unfold blocks_text in *. cbn [map concat length]. rewrite length_app.
  assert (1 <= length (block_text b))%nat; [cbn; lia | lia].
Qed.

(** ** The header *)

Record header_source := mkHeader { hs_before : text; hs_blanks : text; hs_fields : text; hs_struct : text; hs_after : text }.

Definition struct_begin : text := codes "typedef struct {".

Definition header_text (h : header_source) : text :=
  hs_before h ++ struct_begin ++ hs_blanks h ++ hs_fields h ++ codes "}" ++ hs_struct h ++ codes ";" ++ hs_after h.

Definition no_brace (c : Z) : bool := negb (c =? 125).

(** The name is a word; behind it there is no closing brace, and a blank that is not followed by a semicolon. *)
Record good_header (h : header_source) : Prop := {
  good_before : absent struct_begin (hs_before h) (drop (length (hs_before h)) (header_text h));
  good_struct_blanks : all is_space (hs_blanks h);
  good_fields : match hs_fields h with [] => True | c :: _ => is_space c = false end;
  good_struct : hs_struct h <> [] /\ all no_space (hs_struct h) /\ all no_brace (hs_struct h);
  good_after : all no_brace (hs_after h) /\
    (hs_after h = [] \/ exists c r, hs_after h = c :: r /\ is_space c = true /\ head r <> Some 59)
}.

Lemma no_brace_behind p s : all no_brace s -> match_here (many 0 0 is_space :: char 0 125 :: p) s = None.
Proof.
  intros H. destruct (match_here _ s) as [[l r]|] eqn:E; [|done]. exfalso. apply match_sound in E as [Hl ->].
  inversion Hl as [|? t ? l1 _ Hl1]; subst. inversion Hl1 as [|? t1 ? l2 (H1 & H2 & _) _]; subst.
  destruct t1 as [|c t1]; [cbn in H2; lia|]. inversion H1 as [|? ? Hc _]; subst. cbn in Hc. apply Z.eqb_eq in Hc. subst c.
  cbn [concat] in H. unfold all in H. rewrite !Forall_app in H. destruct H as [[_ [H _]] _]. by inversion H.
Qed.


Definition ends_struct (after : text) : Prop := after = [] \/ exists c r, after = c :: r /\ is_space c = true /\ head r <> Some 59.

Lemma no_semicolon s : head s <> Some 59 -> match_here [char 0 59] s = None.
Proof. intros H. apply match_one_fails. destruct s as [|c s]; [done|]. apply Z.eqb_neq. intros <-. done. Qed.

(** What follows the name of the structure. *)
Lemma struct_name_found n after : all no_space n -> ends_struct after ->
  match_here [many 2 0 no_space; maybe 0 is_space; char 0 59] (n ++ [59] ++ after) = Some ([n; []; [59]], after).
Proof.
  intros Hn Ha. apply match_greedily; [exact Hn | lia | |].
  - rewrite match_skip by done. unfold char. cbn [app]. by rewrite match_one.
  - intros k Hk. cbn [app run_of] in Hk. change (no_space 59) with true in Hk. cbv iota in Hk.
    assert (run_of no_space after = 0%nat) as E.
    { destruct Ha as [-> | (c & r & -> & Hc & _)]; [done|]. cbn. unfold no_space. by rewrite Hc. }
    rewrite E in Hk. replace k with 1%nat by lia. cbn [app drop].
    assert (match_here [char 0 59] after = None) as H0.
    { apply no_semicolon. destruct Ha as [-> | (c & r & -> & Hc & _)]; [done|]. cbn. intros [= ->]. done. }
    apply match_none. intros j Hj. apply elem_choices in Hj as (_ & _ & Hj). cbn in Hj.
    destruct j as [|[|j]]; [by rewrite drop_0 | | lia]. destruct Ha as [-> | (c & r & -> & _ & Hr)]; [done|]. by apply no_semicolon.
Qed.

(** The header's pattern finds the name of the structure. *)
Lemma struct_found h : good_header h ->
  exists l r, search serviceObjectNameToken (header_text h) = Some (l, r) /\ captured 2 serviceObjectNameToken l = hs_struct h.
Proof.
  intros [Hb Hbl Hf (Hs0 & Hs & Hsb) (Hab & Ha)].
  exists (letters struct_begin ++ [hs_blanks h; hs_fields h; []; [125]; hs_struct h; []; [59]]), (hs_after h). split.
  - unfold serviceObjectNameToken. fold struct_begin. change (codes "}") with [125]. change (codes ";") with [59].
    unfold header_text in *. rewrite drop_app_length in Hb. rewrite regex_search_skips by exact Hb. apply search_found. rewrite match_word.
    cbn [app literal map]. rewrite (match_all 0 0 is_space _ (hs_blanks h) (hs_fields h ++ [125] ++ hs_struct h ++ [59] ++ hs_after h)
      [hs_fields h; []; [125]; hs_struct h; []; [59]] (hs_after h)); [done | exact Hbl | lia | by destruct (hs_fields h) |].
    apply match_greedily; [by apply Forall_true | lia | |].
    + rewrite match_skip by done. unfold char at 1. cbn [app]. rewrite match_one by done.
      pose proof (struct_name_found _ _ Hs Ha) as E. cbn [app] in E. by rewrite E.
    + intros k Hk. apply no_brace_behind. destruct k as [|k]; [lia|]. cbn [app drop]. apply Forall_drop.
      apply Forall_app. split; [done|]. by constructor.
  - unfold serviceObjectNameToken. fold struct_begin. rewrite captured_word by done. unfold captured. cbn. by rewrite app_nil_r.
Qed.

(** ** A service *)

Record service_source := mkServiceSource {
  ss_file : text;
  ss_header : header_source;
  ss_before : text;
  ss_blocks : list block
}.

Definition c_text (s : service_source) : text := ss_before s ++ blocks_text (ss_blocks s).

Definition struct_of (s : service_source) : text := hs_struct (ss_header s).

(** The functions are numbered with those of the kernel first. *)
Definition functions_of (s : service_source) : list (text * text) :=
  map exposed (of_type KERNEL (ss_blocks s) ++ of_type USER (ss_blocks s)).

Definition details_of (s : service_source) : serviceDetails := mkDetails (ss_file s) (struct_of s) (functions_of s).

Definition enum_head (x : text) : text := [LF] ++ codes "enum " ++ x ++ codes "_exposed_functions { ".

Definition enum_of (s : service_source) : text :=
  enum_head (struct_of s) ++ separated (map snd (functions_of s)) ++ codes " };" ++ [LF].

Definition split_file (type : Z) (s : service_source) : text :=
  include_line (ss_file s) ++ include_line (codes "Console") ++ concat (map function_text (of_type type (ss_blocks s))).

Definition files_of (dir : text) (s : service_source) : written :=
  [(dir ++ ss_file s ++ codes ".h", header_text (ss_header s) ++ enum_of s ++ [LF]);
   (dir ++ ss_file s ++ codes "_K.c", split_file KERNEL s); (dir ++ ss_file s ++ codes "_U.c", split_file USER s)].

Record good_service (s : service_source) : Prop := {
  service_header : good_header (ss_header s);
  service_before : quiet (ss_before s) = true;
  service_blocks : Forall good_block (ss_blocks s);
  service_some : ss_blocks s <> [];
  service_file : zlen (include_line (ss_file s)) < BUFFER_SIZE;
  service_enum : zlen (enum_head (struct_of s)) < BUFFER_SIZE
}.

Definition source_path (dir : text) (s : service_source) : text := dir ++ ss_file s ++ codes ".c".

Definition on_disk (fs : files) (dir : text) (s : service_source) : Prop :=
  fs (source_path dir s) = Some (c_text s) /\ fs (dir ++ ss_file s ++ codes ".h") = Some (header_text (ss_header s)).

Lemma formatted_fits s : zlen s < BUFFER_SIZE -> formatted s = Some s.
Proof. intros H. unfold formatted. by rewrite (proj2 (Z.ltb_lt _ _) H). Qed.

Lemma name_cut dir w : substr (dir ++ w ++ codes ".c") (zlen dir) (zlen (dir ++ w ++ codes ".c") - zlen dir - 2) = Some w.
Proof.
  unfold substr. rewrite !zlen_app. change (zlen (codes ".c")) with 2. pose proof (zlen_nonneg dir). pose proof (zlen_nonneg w).
  rewrite (proj2 (Z.ltb_ge _ _)) by lia. rewrite (proj2 (Z.ltb_ge (_ - _ - 2) 0)) by lia.
  replace (Z.to_nat (zlen dir)) with (length dir) by (unfold zlen; lia). rewrite drop_app_length. replace (Z.to_nat _) with (length w) by (unfold zlen in *; lia). by rewrite take_app_length.
Qed.

Lemma good_functions s type : good_service s -> Forall good_function (of_type type (ss_blocks s)).
Proof.
  intros [_ _ H _ _ _]. unfold of_type. apply Forall_forall. intros f Hf.
  apply list_elem_of_fmap in Hf as (b & -> & Hb). apply list_elem_of_filter in Hb as [_ Hb].
  rewrite Forall_forall in H. by destruct (H b Hb) as (_ & Hg & _).
Qed.

Lemma some_function s : good_service s -> functions_of s <> [].
Proof.
  intros [_ _ H Hne _ _]. unfold functions_of, of_type. destruct (ss_blocks s) as [|b bs]; [done|]. inversion H as [|? ? ([Ht|Ht] & _) _]; subst.
  - by rewrite filter_cons_True.
  - rewrite (filter_cons_True (fun b => block_type b = USER)) by done. rewrite map_app. cbn. by destruct (map exposed _).
Qed.

Lemma enum_made x gs (l : list (text * text)) : map function_enumerator gs = map snd l -> l <> [] -> zlen (enum_head x) < BUFFER_SIZE ->
  create_service_enum_values x gs = Some (enum_head x ++ separated (map snd l) ++ codes " };" ++ [LF]).
Proof.
  intros E Hl Hx. unfold create_service_enum_values. destruct gs as [|g gs]; [by destruct l|]. fold (enum_head x).
  rewrite formatted_fits by exact Hx. cbn [mbind option_bind]. by rewrite E.
Qed.

(** A service is split into its files, and its functions are noted. *)
Lemma process_file_spec fs inputDirectory outputDirectory s : good_service s -> on_disk fs inputDirectory s ->
  process_file fs inputDirectory outputDirectory (source_path inputDirectory s) = Some (files_of outputDirectory s, details_of s).
Proof.
  intros Hs [Hc Hh]. pose proof Hs as [Hhead Hpre Hbs _ Hfile Henum]. unfold process_file, source_path in *. rewrite name_cut. cbn [mbind option_bind].
  rewrite Hh. cbn [mbind option_bind]. destruct (struct_found _ Hhead) as (l & r & -> & Hx). cbn [mbind option_bind]. rewrite Hx, Hc. fold (struct_of s).
  rewrite !formatted_fits by done. cbn [mbind option_bind]. change (default [] (Some (c_text s))) with (c_text s).
  unfold c_text. rewrite !source_found by done.
  destruct (functions_mapped KERNEL _ (good_functions s KERNEL Hs) (include_line (ss_file s) ++ include_line (codes "Console"))
    (mkDetails (ss_file s) (struct_of s) []) []) as (gk & -> & Ek). cbn [mbind option_bind].
  match goal with |- context [map_functions USER _ ?o ?d ?f] =>
    destruct (functions_mapped USER _ (good_functions s USER Hs) o d f) as (gu & -> & Eu) end. cbn [mbind option_bind].
  rewrite (enum_made _ _ (functions_of s)); [|unfold functions_of; by rewrite !map_app, Ek, Eu, !map_map | by apply some_function | exact Henum].
  cbn [mbind option_bind]. unfold files_of, details_of, enum_of, split_file, functions_of. cbn. rewrite map_app, <- !app_assoc. reflexivity.
Qed.

(** A directory with the files of the services; other files are not C files by their names. *)
Record directory (fs : files) (dir : text) (entries : list text) (ss : list service_source) : Prop := {
  listed : filter (fun p => contains (codes ".c") p = true) entries = map (source_path dir) ss;
  all_good : Forall good_service ss;
  all_on_disk : Forall (on_disk fs dir) ss
}.

Lemma process_directory_spec fs inputDirectory outputDirectory entries : forall ss out arr, directory fs inputDirectory entries ss ->
  process_directory fs inputDirectory outputDirectory entries out arr =
    Some (out ++ concat (map (files_of outputDirectory) ss), arr ++ map details_of ss).
Proof.
  induction entries as [|p entries IH]; intros ss out arr [Hl Hg Hd]; cbn [process_directory].
  - destruct ss; [|done]. cbn. by rewrite !app_nil_r.
  - destruct (contains (codes ".c") p) eqn:E.
    + rewrite filter_cons_True in Hl by done. destruct ss as [|s ss]; [done|]. cbn [map] in Hl. injection Hl as -> Hl.
      inversion Hg as [|? ? Hs Hg']; subst. inversion Hd as [|? ? Hs' Hd']; subst.
      rewrite process_file_spec by done. cbn [mbind option_bind]. rewrite (IH ss) by by split.
      cbn [map concat]. by rewrite <- !app_assoc.
    + rewrite filter_cons_False in Hl by by rewrite E. by apply IH.
Qed.
