(* ===== verification/GeneratedServices.v ===== *)
(** * What the generated code does: Library.h of [preprocessor/ProgrammingModel.cpp]

    The enumerations the preprocessor writes are read the way C reads them, and
    [generateServices] is run on the services of Service.v.  [statements] is its
    body; ProgrammingModel.v writes exactly their text.  The theorem at
    the end takes the source files of services to the dispatcher: a function that is
    marked in a source file is what a dispatch by its enumerators calls. *)

From S2P Require Import Prelude Defines Stdio Service Regex ProgrammingModel.

#[local] Open Scope Z_scope.

(** ** Enumerations *)

Definition COMMA : Z := 44.
Definition EQUALS : Z := 61.
Definition OPEN_BRACE : Z := 123.
Definition CLOSE_BRACE : Z := 125.

Fixpoint split_at (c : Z) (s : text) : list text :=
  match s with
  | [] => [[]]
  | d :: s => if d =? c then [] :: split_at c s else match split_at c s with x :: l => (d :: x) :: l | [] => [[d]] end
  end.

Fixpoint trim_left (s : text) : text := match s with c :: r => if is_space c then trim_left r else s | [] => [] end.
Definition trim (s : text) : text := rev (trim_left (rev (trim_left s))).

Fixpoint up_to (c : Z) (s : text) : text := match s with [] => [] | d :: s => if d =? c then [] else d :: up_to c s end.
Fixpoint behind (c : Z) (s : text) : text := match s with [] => [] | d :: s => if d =? c then s else behind c s end.

(** An enumerator, with the value it is given. *)
Definition enumerator (s : text) : text * option Z :=
  match split_at EQUALS s with
  | [n; v] => (trim n, Some (value 10 (map (fun c => c - CH_ZERO) (trim v))))
  | n :: _ => (trim n, None)
  | [] => ([], None)
  end.

(** An enumerator without a value is one more than the one before it. *)
Fixpoint number_from (next : Z) (l : list (text * option Z)) : list (text * Z) :=
  match l with [] => [] | (n, v) :: l => let x := default next v in (n, x) :: number_from (x + 1) l end.

Definition enumeration (s : text) : list (text * Z) :=
  number_from 0 (map enumerator (split_at COMMA (up_to CLOSE_BRACE (behind OPEN_BRACE s)))).

(** ** Statements *)

Inductive statement :=
| SetPointer (i : Z) (x : text)            (* kernel.void_pointers[i] = &x_object *)
| Init (x : text)                          (* service_init(&xService, &x_object, x_t) *)
| Add (x : text) (f : text * text)         (* xService.add_service(&xService, function, enumerator) *)
| Register (x : text).                     (* RegisterServiceToKernel(&kernel.service_transporter, &xService, x_t) *)

Definition statement_text (st : statement) : text :=
  match st with
  | SetPointer i x => pointer_text i x
  | Init x => init_text x
  | Add x f => add_text x f
  | Register x => register_text x
  end.

Definition service_statements (i : Z) (d : serviceDetails) : list statement :=
  let x := serviceName d in [SetPointer i x; Init x] ++ map (Add x) (functionPointers d) ++ [Register x].

(** The body of [generateServices]. *)
Fixpoint statements (i : Z) (l : list serviceDetails) : list statement :=
  match l with [] => [] | d :: l => service_statements i d ++ statements (i + 1) l end.

(** The variables of the generated file, and of the kernel. *)
Record program := mkProgram {
  objects : gmap text Service;
  void_pointers : list (option text);       (* 256 entries *)
  transporter : service_transport_kernel
}.

#[export] Instance eta_program : Eta program := fun r => mkProgram (objects r) (void_pointers r) (transporter r).

Definition name_of (s : text) : string := String.string_of_list_ascii (map (fun c => Ascii.ascii_of_N (Z.to_N c)) s).

(** The number of a service. *)
Definition service_enumerator (x : text) : text := x ++ codes "_t".

Definition exec_statement (env : gmap text Z) (st : statement) (p : program) : option program :=
  match st with
  | SetPointer i x => ps ← zset (void_pointers p) i (Some x); Some (p {{ void_pointers := ps }})
  | Init x =>
      n ← env !! service_enumerator x; s ← objects p !! x; '(s, _) ← service_init s n;
      Some (p {{ objects := <[x := s]> (objects p) }})
  | Add x (f, e) =>
      n ← env !! e; s ← objects p !! x; add ← add_service_ptr s;
      if String.eqb add "add_service" then
        '(s, _) ← add_service s (Some (name_of f)) n; Some (p {{ objects := <[x := s]> (objects p) }})
      else None
  | Register x =>
      n ← env !! service_enumerator x; s ← objects p !! x; '(t, _) ← RegisterServiceToKernel (transporter p) s n;
      Some (p {{ transporter := t }})
  end.

Fixpoint exec_all (env : gmap text Z) (l : list statement) (p : program) : option program :=
  match l with [] => Some p | st :: l => p ← exec_statement env st p; exec_all env l p end.

(** Before [generateServices]: the declared services are zeroed. *)
Definition declared (l : list serviceDetails) (t : service_transport_kernel) : program :=
  mkProgram (list_to_map (map (fun d => (serviceName d, blank_service)) l)) (replicate 256 None) t.

(** ** Reading what was written *)

(** A name without blanks, commas, equals signs and braces. *)
Definition plain_char (c : Z) : bool :=
  no_space c && negb ((c =? COMMA) || (c =? EQUALS) || (c =? OPEN_BRACE) || (c =? CLOSE_BRACE)).
Definition plain (s : text) : Prop := s <> [] /\ all plain_char s.

Definition lacks (c : Z) (s : text) : Prop := all (fun d => negb (d =? c)) s.

Lemma lacks_cons c d s : lacks c (d :: s) <-> (d =? c) = false /\ lacks c s.
Proof. unfold lacks, all. rewrite Forall_cons. by rewrite negb_true_iff. Qed.

Lemma lacks_app c a b : lacks c (a ++ b) <-> lacks c a /\ lacks c b.
Proof. apply Forall_app. Qed.

Lemma plain_lacks c s : plain s -> c = COMMA \/ c = EQUALS \/ c = OPEN_BRACE \/ c = CLOSE_BRACE -> lacks c s.
Proof.
  intros [_ H] Hc. eapply all_impl; [|exact H]. intros d Hd. unfold plain_char in Hd. apply andb_prop in Hd as [_ Hd].
  apply negb_true_iff, orb_false_iff in Hd as [[[H1 H2]%orb_false_iff H3]%orb_false_iff H4].
  apply negb_true_iff. by destruct Hc as [-> | [-> | [-> | ->]]].
Qed.

Lemma split_none c s : lacks c s -> split_at c s = [s].
Proof.
  induction s as [|d s IH]; [done|]. intros [H1 H2]%lacks_cons. cbn [split_at]. by rewrite H1, IH.
Qed.

Lemma split_next c a s : lacks c a -> split_at c (a ++ c :: s) = a :: split_at c s.
Proof.
  induction a as [|d a IH]; cbn [app split_at]; [by rewrite Z.eqb_refl|]. intros [H1 H2]%lacks_cons. by rewrite H1, IH.
Qed.

Lemma up_to_next c a s : lacks c a -> up_to c (a ++ c :: s) = a.
Proof. induction a as [|d a IH]; cbn [app up_to]; [by rewrite Z.eqb_refl|]. intros [H1 H2]%lacks_cons. by rewrite H1, IH. Qed.

Lemma behind_next c a s : lacks c a -> behind c (a ++ c :: s) = s.
Proof. induction a as [|d a IH]; cbn [app behind]; [by rewrite Z.eqb_refl|]. intros [H1 H2]%lacks_cons. by rewrite H1, IH. Qed.

Lemma trim_left_spaces a s : all is_space a -> trim_left (a ++ s) = trim_left s.
Proof. induction 1 as [|c a Hc _ IH]; [done|]. cbn. by rewrite Hc. Qed.

Lemma trim_left_stays s : match s with [] => True | c :: _ => is_space c = false end -> trim_left s = s.
Proof. destruct s as [|c s]; [done|]. intros H. cbn. by rewrite H. Qed.

Lemma trim_plain a n b : all is_space a -> plain n -> all is_space b -> trim (a ++ n ++ b) = n.
Proof.
  intros Ha [Hn0 Hn] Hb.
  assert (forall s, s <> [] -> all plain_char s -> forall r, trim_left (s ++ r) = s ++ r) as Hstay.
  { intros s Hs0 Hs r. apply trim_left_stays. destruct Hs as [|c s Hc _]; [done|]. cbn. unfold plain_char, no_space in Hc.
    apply andb_prop in Hc as [Hc _]. by apply negb_true_iff. }
  unfold trim. rewrite trim_left_spaces, Hstay by done. rewrite rev_app_distr.
  rewrite trim_left_spaces by (apply Forall_forall; intros c Hc; rewrite list_elem_of_In, <- in_rev, <- list_elem_of_In in Hc;
    unfold all in Hb; rewrite Forall_forall in Hb; by apply Hb).
  rewrite <- (app_nil_r (rev n)), Hstay.
  - by rewrite app_nil_r, rev_involutive.
  - intros E. apply (f_equal (@rev Z)) in E. rewrite rev_involutive in E. done.
  - apply Forall_forall. intros c Hc. rewrite list_elem_of_In, <- in_rev, <- list_elem_of_In in Hc. unfold all in Hn. rewrite Forall_forall in Hn. by apply Hn.
Qed.

Lemma space_all : all is_space [32].
Proof. by repeat constructor. Qed.

Lemma enumerator_plain a n b : all is_space a -> plain n -> all is_space b -> lacks EQUALS a -> lacks EQUALS b ->
  enumerator (a ++ n ++ b) = (n, None).
Proof.
  intros Ha Hn Hb La Lb. unfold enumerator. rewrite split_none.
  - by rewrite trim_plain.
  - rewrite !lacks_app. split; [done|]. split; [|done]. apply plain_lacks; [done | by right; left].
Qed.

Definition unnumbered (l : list text) : list (text * option Z) := map (fun n => (n, None)) l.

Definition numbered_from (n : Z) (l : list text) : list (text * Z) := imap (fun i x => (x, n + Z.of_nat i)) l.

Lemma numbered_cons n x l : numbered_from n (x :: l) = (x, n) :: numbered_from (n + 1) l.
Proof.
  unfold numbered_from. cbn [imap]. f_equal; [by rewrite Z.add_0_r|]. apply imap_ext. intros i y _. cbn. f_equal. lia.
Qed.

Lemma number_unnumbered n l : number_from n (unnumbered l) = numbered_from n l.
Proof. revert n. induction l as [|x l IH]; intros n; [done|]. cbn [unnumbered map number_from default]. by rewrite numbered_cons, <- IH. Qed.

Lemma separated_items l : l <> [] -> Forall plain l -> forall a b, all is_space a -> all is_space b -> lacks COMMA a -> lacks EQUALS a ->
  lacks COMMA b -> lacks EQUALS b -> map enumerator (split_at COMMA (a ++ separated l ++ b)) = unnumbered l.
Proof.
  intros Hl0 Hl. induction Hl as [|x l Hx Hl IH]; [done|]. intros a b Ha Hb Ca Ea Cb Eb.
  pose proof (plain_lacks COMMA x Hx ltac:(by left)) as Cx. destruct l as [|y l].
  - cbn [separated]. rewrite split_none by by rewrite !lacks_app. cbn [map]. by rewrite enumerator_plain.
  - cbn [separated]. fold (separated (y :: l)). change (codes ", ") with [COMMA; 32]. rewrite <- !app_assoc, app_assoc.
    cbn [app]. rewrite split_next by by rewrite lacks_app. cbn [map unnumbered]. f_equal.
    + replace (a ++ x) with (a ++ x ++ []) by (by rewrite app_nil_r). apply enumerator_plain; [done | done | constructor | done | constructor].
    + apply (IH ltac:(done) [32] b); [exact space_all | done | by repeat constructor | by repeat constructor | done | done].
Qed.

Lemma separated_lacks c l : Forall (lacks c) l -> lacks c (codes ", ") -> lacks c (separated l).
Proof.
  intros H Hc. induction H as [|x l Hx Hl IH]; [constructor|]. destruct l as [|y l]; [done|].
  cbn [separated]. fold (separated (y :: l)). rewrite !lacks_app. auto.
Qed.

Lemma concrete_lacks c s : forallb (fun d => negb (d =? c)) s = true -> lacks c s.
Proof. intros H. apply Forall_forall. intros d Hd. rewrite forallb_forall in H. apply H. by apply list_elem_of_In. Qed.

(** The enumeration of the functions of a service numbers them from 0. *)
Lemma functions_enumeration x l rest : plain x -> l <> [] -> Forall plain l ->
  enumeration (enum_head x ++ separated l ++ codes " };" ++ rest) = numbered_from 0 l.
Proof.
  intros Hx Hl0 Hl. unfold enumeration.
  assert (enum_head x ++ separated l ++ codes " };" ++ rest =
    ([LF] ++ codes "enum " ++ x ++ codes "_exposed_functions ") ++ OPEN_BRACE :: (([32] ++ separated l ++ [32]) ++ CLOSE_BRACE :: ([59] ++ rest))) as ->.
  { unfold enum_head. change (codes "_exposed_functions { ") with (codes "_exposed_functions " ++ [OPEN_BRACE; 32]).
    change (codes " };") with [32; CLOSE_BRACE; 59]. rewrite <- !app_assoc. reflexivity. }
  rewrite behind_next, up_to_next.
  - rewrite (separated_items l Hl0 Hl [32] [32]) by first [exact space_all | by repeat constructor]. apply number_unnumbered.
  - rewrite !lacks_app. split; [by repeat constructor|]. split; [|by repeat constructor]. apply separated_lacks; [|by repeat constructor].
    eapply Forall_impl; [exact Hl|]. intros s Hs. apply plain_lacks; auto.
  - rewrite !lacks_app. split_and!; [by repeat constructor | by apply concrete_lacks | apply plain_lacks; auto | by apply concrete_lacks].
Qed.

(** *** The enumeration of the services *)

Lemma plain_enumerator x : plain x -> plain (service_enumerator x).
Proof. intros [H0 H]. split; [by destruct x|]. apply Forall_app. split; [exact H | by repeat constructor]. Qed.

Lemma services_items l : forall i, l <> [] -> 1 <= i -> Forall (fun d => plain (serviceName d)) l ->
  exists r, services_enum_from i l = Some (r ++ [CLOSE_BRACE] ++ codes " user_service_enum;" ++ [LF]) /\ lacks CLOSE_BRACE r /\
    forall a, all is_space a -> lacks COMMA a -> lacks EQUALS a ->
      map enumerator (split_at COMMA (a ++ r)) = unnumbered (map (fun d => service_enumerator (serviceName d)) l).
Proof.
  induction l as [|d l IH]; [done|]. intros i _ Hi Hl. inversion Hl as [|? ? Hd Hl']; subst. apply plain_enumerator in Hd.
  pose proof (plain_lacks COMMA _ Hd ltac:(auto)) as Cd. pose proof (plain_lacks CLOSE_BRACE _ Hd ltac:(auto)) as Bd. destruct l as [|d' l].
  - exists (service_enumerator (serviceName d) ++ [32]). split; [|split].
    + cbn [services_enum_from]. f_equal. unfold service_enumerator. rewrite <- !app_assoc. reflexivity.
    + rewrite lacks_app. split; [done | by repeat constructor].
    + intros a Ha Ca Ea. rewrite split_none by (rewrite !lacks_app; split_and!; [done | done | by repeat constructor]).
      cbn [map]. rewrite enumerator_plain; [done | done | done | exact space_all | done | by repeat constructor].
  - destruct (IH (i + 1) ltac:(done) ltac:(lia) Hl') as (r & E & Br & Hr). clear IH.
    exists (service_enumerator (serviceName d) ++ [32; COMMA; 32] ++ r). split; [|split].
    + change (services_enum_from i (d :: d' :: l)) with (r ← services_enum_from (i + 1) (d' :: l);
        Some (serviceName d ++ codes "_t" ++ (if i =? 0 then codes " = 10" else codes " ") ++ codes ", " ++ r)).
      rewrite E. cbn [mbind option_bind]. rewrite (proj2 (Z.eqb_neq i 0)) by lia. f_equal. unfold service_enumerator.
      rewrite <- !app_assoc. reflexivity.
    + rewrite !lacks_app. split_and!; [done | by repeat constructor | done].
    + intros a Ha Ca Ea. replace (a ++ service_enumerator (serviceName d) ++ [32; COMMA; 32] ++ r)
        with ((a ++ service_enumerator (serviceName d) ++ [32]) ++ COMMA :: ([32] ++ r)) by (rewrite <- !app_assoc; reflexivity).
      rewrite split_next by (rewrite !lacks_app; split_and!; [done | done | by repeat constructor]).
      rewrite map_cons, enumerator_plain, Hr; try done; by repeat constructor.
Qed.

(** Two or more services are numbered from 10. *)
Lemma services_enumeration l : (2 <= length l)%nat -> Forall (fun d => plain (serviceName d)) l ->
  exists e, create_services_enum l = Some e /\ enumeration e = numbered_from 10 (map (fun d => service_enumerator (serviceName d)) l).
Proof.
  intros H2 Hl. destruct l as [|d [|d' l]]; [cbn in H2; lia.. |]. inversion Hl as [|? ? Hd Hl']; subst. apply plain_enumerator in Hd.
  destruct (services_items (d' :: l) 1 ltac:(done) ltac:(lia) Hl') as (r & E & Br & Hr).
  unfold create_services_enum. change (services_enum_from 0 (d :: d' :: l)) with (r ← services_enum_from 1 (d' :: l);
    Some (serviceName d ++ codes "_t" ++ codes " = 10" ++ codes ", " ++ r)). rewrite E. cbn [mbind option_bind].
  eexists. split; [reflexivity|]. unfold enumeration.
  assert (codes "typedef enum user_services_enum_t { " ++ serviceName d ++ codes "_t" ++ codes " = 10" ++ codes ", " ++ r ++
      [CLOSE_BRACE] ++ codes " user_service_enum;" ++ [LF] =
    codes "typedef enum user_services_enum_t " ++ OPEN_BRACE :: (([32] ++ service_enumerator (serviceName d) ++ codes " = 10, " ++ r) ++
      CLOSE_BRACE :: codes " user_service_enum;" ++ [LF])) as ->.
  { unfold service_enumerator. rewrite <- !app_assoc. reflexivity. }
  rewrite behind_next by by apply concrete_lacks.
  rewrite up_to_next by (rewrite !lacks_app; split_and!; [by repeat constructor | apply plain_lacks; auto | by apply concrete_lacks | done]).
  replace ([32] ++ service_enumerator (serviceName d) ++ codes " = 10, " ++ r)
    with (([32] ++ service_enumerator (serviceName d) ++ codes " = 10") ++ COMMA :: ([32] ++ r)) by (rewrite <- !app_assoc; reflexivity).
  rewrite split_next by (rewrite !lacks_app; split_and!; [by repeat constructor | apply plain_lacks; auto | by apply concrete_lacks]).
  rewrite map_cons, Hr by by repeat constructor.
  assert (enumerator ([32] ++ service_enumerator (serviceName d) ++ codes " = 10") = (service_enumerator (serviceName d), Some 10)) as ->.
  { unfold enumerator. replace ([32] ++ service_enumerator (serviceName d) ++ codes " = 10")
      with (([32] ++ service_enumerator (serviceName d) ++ [32]) ++ EQUALS :: codes " 10") by (rewrite <- !app_assoc; reflexivity).
    rewrite split_next by (rewrite !lacks_app; split_and!; [by repeat constructor | apply plain_lacks; auto | by repeat constructor]).
    rewrite split_none by by apply concrete_lacks. rewrite trim_plain by first [done | exact space_all]. reflexivity. }
  cbn [number_from default]. rewrite number_unnumbered. cbn [map]. by rewrite !numbered_cons.
Qed.

(** A single service is numbered from 0: the value is written behind every enumerator but the last. *)
Lemma single_enumeration d : plain (serviceName d) ->
  exists e, create_services_enum [d] = Some e /\ enumeration e = [(service_enumerator (serviceName d), 0)].
Proof.
  intros Hd. apply plain_enumerator in Hd. eexists. split; [reflexivity|]. unfold enumeration.
  assert (codes "typedef enum user_services_enum_t { " ++ serviceName d ++ codes "_t" ++ codes " } user_service_enum;" ++ [LF] =
    codes "typedef enum user_services_enum_t " ++ OPEN_BRACE :: (([32] ++ service_enumerator (serviceName d) ++ [32]) ++
      CLOSE_BRACE :: codes " user_service_enum;" ++ [LF])) as ->.
  { unfold service_enumerator. rewrite <- !app_assoc. reflexivity. }
  rewrite behind_next by by apply concrete_lacks.
  rewrite up_to_next by (rewrite !lacks_app; split_and!; [by repeat constructor | apply plain_lacks; auto | by repeat constructor]).
  rewrite split_none by (rewrite !lacks_app; split_and!; [by repeat constructor | apply plain_lacks; auto | by repeat constructor]).
  cbn [map]. rewrite enumerator_plain; [done | exact space_all | done | exact space_all | by repeat constructor..].
Qed.

(** ** Running [generateServices] *)

Lemma exec_app env a b p : exec_all env (a ++ b) p = (p ← exec_all env a p; exec_all env b p).
Proof. revert p. induction a as [|st a IH]; intros p; [done|]. cbn [app exec_all]. destruct (exec_statement env st p); [apply IH | done]. Qed.

(** The enumerators of the functions, from number [n] on. *)
Definition numbers (env : gmap text Z) (n : Z) (fs : list (text * text)) : Prop :=
  forall i f, fs !! i = Some f -> env !! snd f = Some (n + Z.of_nat i).

(** The methods of a service from number [n] on. *)
Definition methods_at (s : Service) (n : Z) (fs : list (text * text)) : Prop :=
  forall i f, fs !! i = Some f -> zget (service_method s) (n + Z.of_nat i) = Some (Some (name_of (fst f))).

Lemma add_all env x fs : forall n s p, numbers env n fs -> 0 <= n -> n + zlen fs <= MAX_FUNCTIONS -> zlen (service_method s) = MAX_FUNCTIONS ->
  add_service_ptr s = Some "add_service"%string -> objects p !! x = Some s ->
  exists s', exec_all env (map (Add x) fs) p = Some (p {{ objects := <[x := s']> (objects p) }}) /\
    zlen (service_method s') = MAX_FUNCTIONS /\ methods_at s' n fs /\ forall i, i < n -> zget (service_method s') i = zget (service_method s) i.
Proof.
  induction fs as [|f fs IH]; intros n s p Hn H0 Hmax Hlen Hadd Hobj.
  - exists s. cbn. split; [by rewrite insert_id; destruct p|]. split; [done|]. split; [by intros i f Hf|]. done.
  - rewrite zlen_cons in Hmax. pose proof (zlen_nonneg fs). destruct f as [f e]. cbn [map exec_all exec_statement].
    assert (env !! e = Some n) as -> by (pose proof (Hn 0%nat (f, e) eq_refl) as E; cbn [snd] in E; rewrite E; f_equal; lia).
    cbn [mbind option_bind]. rewrite Hobj. cbn [mbind option_bind]. rewrite Hadd. cbn [mbind option_bind].
    change (String.eqb "add_service" "add_service") with true. cbv iota. unfold add_service. rewrite (proj2 (Z.leb_gt MAX_FUNCTIONS n)) by lia.
    pose proof (zset_eq (service_method s) n (Some (name_of f)) ltac:(lia)) as Es. rewrite Es. cbn [mbind option_bind].
    set (s1 := s {{ service_method := _ }}). set (p1 := p {{ objects := _ }}).
    destruct (IH (n + 1) s1 p1) as (s' & E & Hlen' & Hm & Hk).
    + intros i g Hg. rewrite (Hn (S i) g Hg). f_equal. lia.
    + lia.
    + lia.
    + rewrite <- Hlen. unfold zlen. cbn. by rewrite length_insert.
    + done.
    + apply lookup_insert_eq.
    + exists s'. rewrite E. split; [|split; [done | split]].
      * f_equal. unfold p1. cbn. rewrite insert_insert_eq. by destruct p.
      * intros [|i] g Hg.
        -- injection Hg as <-. rewrite Z.add_0_r, Hk by lia. exact (zget_zset_eq _ _ _ _ Es).
        -- rewrite <- (Hm i g Hg). f_equal. lia.
      * intros i Hi. rewrite Hk by lia. apply (zget_zset_ne _ _ _ _ _ Es). lia.
Qed.

(** What a service must find: its number, its functions' numbers, a place. *)
Record registrable (env : gmap text Z) (n : Z) (d : serviceDetails) : Prop := {
  reg_number : env !! service_enumerator (serviceName d) = Some n;
  reg_range : 0 <= n < 256 /\ n <> sharedMemory_t /\ n <> ackermannFunctionService_t;
  reg_functions : numbers env 0 (functionPointers d) /\ zlen (functionPointers d) <= MAX_FUNCTIONS
}.

Definition transport_ready (t : service_transport_kernel) (n : Z) : Prop :=
  zlen (kernel_services t) = 256 /\ 0 <= curr_count t /\ curr_count t + n <= max_services t /\ max_services t < 2 ^ 31.

(** The statements of one service register it with its functions. *)
Lemma service_run env i n d p :
  registrable env n d -> 0 <= i < 256 -> zlen (void_pointers p) = 256 -> objects p !! serviceName d = Some blank_service ->
  transport_ready (transporter p) 1 ->
  exists s ps, exec_all env (service_statements i d) p =
      Some (mkProgram (<[serviceName d := s]> (objects p)) ps
        ((transporter p) {{ curr_count := curr_count (transporter p) + 1;
                            kernel_services := <[Z.to_nat n := Some s]> (kernel_services (transporter p)) }})) /\
    zlen ps = 256 /\ methods_at s 0 (functionPointers d).
Proof.
  intros [Hn [Hr [Hs Ha]] [Hf Hlen]] Hi Hps Hobj (Ht & Hc0 & Hc & Hm). unfold service_statements. rewrite !exec_app.
  cbn [exec_all exec_statement]. pose proof (zset_eq (void_pointers p) i (Some (serviceName d)) ltac:(lia)) as Ep. rewrite Ep. cbn [mbind option_bind].
  cbn [objects]. rewrite Hn. cbn [mbind option_bind]. change (objects (p {{ void_pointers := ?x }})) with (objects p). rewrite Hobj.
  cbn [mbind option_bind]. unfold service_init. rewrite (proj2 (Z.eqb_neq n sharedMemory_t)), (proj2 (Z.eqb_neq n ackermannFunctionService_t)) by done.
  cbn [negb andb]. change (Z.to_nat (service_method_count _)) with 0%nat. 
  match goal with |- context [for_each 0 0 ?f ?x] => change (for_each 0 0 f x) with (Some x) end. cbn [mbind option_bind]. rewrite exec_app.
  match goal with |- context [exec_all env (map _ _) ?x] => set (p1 := x) end.
  destruct (add_all env (serviceName d) (functionPointers d) 0 (blank_service {{ service_name := n }} {{ add_service_ptr := Some "add_service"%string }}) p1) as (s & E & Hl & Hm' & _); [done | lia | lia | done | done | apply lookup_insert_eq |].
  rewrite E. cbn [mbind option_bind exec_all exec_statement]. rewrite Hn. cbn [mbind option_bind].
  change (objects (p1 {{ objects := ?x }})) with x. rewrite lookup_insert_eq. cbn [mbind option_bind].
  change (transporter (p1 {{ objects := _ }})) with (transporter p).
  unfold RegisterServiceToKernel. rewrite (proj2 (Z.eqb_neq _ _)) by lia. rewrite zset_eq by lia. cbn [mbind option_bind].
  exists s. eexists. split; [|split; [|exact Hm']].
  - f_equal. unfold p1. cbn. rewrite insert_insert_eq, s32_small by lia. reflexivity.
  - rewrite <- Hps. unfold zlen. by rewrite length_insert.
Qed.

(** A service with these methods is registered under a number. *)
Definition registered (t : service_transport_kernel) (n : Z) (fs : list (text * text)) : Prop :=
  exists s, zget (kernel_services t) n = Some (Some s) /\ methods_at s 0 fs.

Lemma services_run env base l : forall i p, (forall k d, l !! k = Some d -> registrable env (base + i + Z.of_nat k) d) ->
  NoDup (map serviceName l) -> (forall d, d ∈ l -> objects p !! serviceName d = Some blank_service) ->
  0 <= base -> 0 <= i -> base + i + zlen l <= 256 -> zlen (void_pointers p) = 256 -> transport_ready (transporter p) (zlen l) ->
  exists p', exec_all env (statements i l) p = Some p' /\
    (forall k d, l !! k = Some d -> registered (transporter p') (base + i + Z.of_nat k) (functionPointers d)) /\
    forall n, n < base + i -> zget (kernel_services (transporter p')) n = zget (kernel_services (transporter p)) n.
Proof.
  induction l as [|d l IH]; intros i p Hreg Hnd Hobj Hbase Hi Hmax Hps (Ht & Hc0 & Hc & Hm).
  - exists p. split; [done|]. split; [by intros k d Hd | done].
  - rewrite zlen_cons in *. pose proof (zlen_nonneg l). cbn [map] in Hnd. apply NoDup_cons in Hnd as [Hnew Hnd].
    pose proof (Hreg 0%nat d eq_refl) as Hd. rewrite Z.add_0_r in Hd.
    destruct (service_run env i (base + i) d p Hd ltac:(lia) Hps (Hobj d ltac:(left))) as (s & ps & E & Hps' & Hms); [split; [done | lia]|].
    pose proof (zset_eq (kernel_services (transporter p)) (base + i) (Some s) ltac:(lia)) as Es.
    cbn [statements]. rewrite exec_app, E. cbn [mbind option_bind].
    match goal with |- context [exec_all env _ ?x] => destruct (IH (i + 1) x) as (p' & E' & Hr & Hk) end.
    + intros k d' Hd'. replace (base + (i + 1) + Z.of_nat k) with (base + i + Z.of_nat (S k)) by lia. by apply Hreg.
    + done.
    + intros d' Hd'. cbn [objects]. rewrite lookup_insert_ne; [by apply Hobj; right|]. intros E'. apply Hnew. rewrite E'.
      by apply list_elem_of_fmap_2.
    + lia.
    + lia.
    + lia.
    + done.
    + split; [|cbn; lia]. cbn. rewrite <- Ht. unfold zlen. by rewrite length_insert.
    + exists p'. split; [exact E'|]. split.
      * intros [|k] d' Hd'.
        -- injection Hd' as <-. exists s. rewrite Z.add_0_r, Hk by lia. cbn. split; [|done]. exact (zget_zset_eq _ _ _ _ Es).
        -- replace (base + i + Z.of_nat (S k)) with (base + (i + 1) + Z.of_nat k) by lia. by apply Hr.
      * intros n Hn. rewrite Hk by lia. cbn. apply (zget_zset_ne _ _ _ _ _ Es). lia.
Qed.

(** ** The text of the library *)

(** Names short enough for the buffer. *)
Definition brief (d : serviceDetails) : Prop :=
  zlen (fileName d) <= 900 /\ zlen (serviceName d) <= 200 /\ Forall (fun f => zlen (fst f) + zlen (snd f) <= 400) (functionPointers d).

Lemma format_all_spec l : Forall (fun s => zlen s < BUFFER_SIZE) l -> format_all l = Some (concat l).
Proof.
  induction 1 as [|s l Hs _ IH]; [done|]. cbn [format_all concat]. rewrite formatted_fits by done. cbn [mbind option_bind]. by rewrite IH.
Qed.

Lemma decimal_short n : zlen (decimal n) <= 20.
Proof.
  unfold decimal. destruct (n =? 0); [done|]. unfold show_digits, zlen. rewrite length_map.
  assert (forall l, (length (drop_zeros l) <= length l)%nat) as H.
  { induction l as [|d l IH]; cbn; [lia|]. destruct (d =? 0); cbn; lia. }
  specialize (H (digits 10 20 n)). rewrite digits_length in H. lia.
Qed.

(** The length of a text, literals evaluated. *)
Ltac literal_lengths :=
  rewrite ?zlen_app; repeat match goal with |- context [zlen (codes ?s)] => let n := eval vm_compute in (zlen (codes s)) in change (zlen (codes s)) with n end;
  change (zlen [LF; TAB]) with 2; change (zlen [TAB]) with 1; change (zlen [LF]) with 1; change (zlen [QUOTE]) with 1; change (zlen [QUOTE; LF]) with 2.

Lemma statement_fits i d : brief d -> Forall (fun st => zlen (statement_text st) < BUFFER_SIZE) (service_statements i d).
Proof.
  intros (_ & Hx & Hf). pose proof (decimal_short i). unfold BUFFER_SIZE, service_statements.
  repeat apply Forall_app_2; repeat constructor; cbn [statement_text]; unfold pointer_text, init_text, register_text; [literal_lengths; lia.. | |literal_lengths; lia].
  apply Forall_forall. intros st Hst. apply list_elem_of_fmap in Hst as (f & -> & Hin). rewrite Forall_forall in Hf. specialize (Hf f Hin).
  cbn [statement_text]. unfold add_text. literal_lengths. lia.
Qed.

(** [generateServices] is the text of the statements. *)
Lemma services_text_spec l : Forall brief l -> forall i, services_text i l = Some (concat (map statement_text (statements i l))).
Proof.
  induction 1 as [|d l Hd _ IH]; intros i; [done|]. cbn [services_text statements]. unfold service_text.
  assert ([pointer_text i (serviceName d); init_text (serviceName d)] ++ map (add_text (serviceName d)) (functionPointers d) ++ [register_text (serviceName d)] =
    map statement_text (service_statements i d)) as ->.
  { unfold service_statements. rewrite !map_app, map_map. reflexivity. }
  rewrite format_all_spec by by apply Forall_map, statement_fits. cbn [mbind option_bind]. rewrite IH. cbn [mbind option_bind].
  by rewrite map_app, concat_app.
Qed.

(** The library: the enumeration of the services, and the statements. *)
Lemma library_spec l e : Forall brief l -> create_services_enum l = Some e ->
  exists before between, createLibraryFile l = Some (before ++ e ++ between ++ codes "bool generateServices()" ++ [LF] ++ codes "{" ++
    concat (map statement_text (statements 0 l)) ++ codes "}" ++ [LF]).
Proof.
  intros Hl He. unfold createLibraryFile. rewrite !format_all_spec.
  - cbn [mbind option_bind]. rewrite He. cbn [mbind option_bind]. rewrite services_text_spec by done. cbn [mbind option_bind].
    eexists ([LF] ++ include_line (codes "service") ++ [LF] ++ include_line (codes "Kernel") ++ concat (map (fun d => include_line (fileName d)) l)),
      ([LF] ++ [LF] ++ codes "extern Kernel kernel;" ++ [LF; LF] ++ concat (map declaration_text l) ++ [LF]).
    f_equal. rewrite <- !app_assoc. reflexivity.
  - apply Forall_map. eapply Forall_impl; [exact Hl|]. intros d (H & _). change (zlen (include_line (fileName d)) < BUFFER_SIZE). unfold include_line, BUFFER_SIZE. literal_lengths. lia.
  - apply Forall_map. eapply Forall_impl; [exact Hl|]. intros d (_ & H & _). change (zlen (declaration_text d) < BUFFER_SIZE). unfold declaration_text, BUFFER_SIZE. literal_lengths. lia.
Qed.

(** ** From the sources to the dispatcher *)

(** The names of the enumerators the preprocessor makes, and what the compiler takes them for. *)
Definition enumerators (ss : list service_source) : list text :=
  map (fun s => service_enumerator (struct_of s)) ss ++ concat (map (fun s => map snd (functions_of s)) ss).

Definition environment (e : text) (ss : list service_source) : list (text * Z) :=
  enumeration e ++ concat (map (fun s => enumeration (enum_of s)) ss).

(** Names C accepts, of a length the buffers take. *)
Record well_named (s : service_source) : Prop := {
  named_brief : brief (details_of s);
  named_struct : plain (struct_of s);
  named_functions : Forall plain (map snd (functions_of s));
  named_count : zlen (functions_of s) <= MAX_FUNCTIONS
}.

Lemma numbered_names n l : (numbered_from n l).*1 = l.
Proof.
  unfold numbered_from. revert n. induction l as [|x l IH]; intros n; [done|]. fold (numbered_from n (x :: l)). rewrite numbered_cons. cbn [fmap list_fmap fst]. f_equal. apply IH.
Qed.

Lemma numbered_lookup n l i x : l !! i = Some x -> (x, n + Z.of_nat i) ∈ numbered_from n l.
Proof. intros H. apply list_elem_of_lookup. exists i. unfold numbered_from. by rewrite list_lookup_imap, H. Qed.

Lemma environment_names base e ss : enumeration e = numbered_from base (map (fun s => service_enumerator (struct_of s)) ss) ->
  Forall good_service ss -> Forall well_named ss -> (environment e ss).*1 = enumerators ss.
Proof.
  intros He Hg Hw. unfold environment, enumerators. rewrite He, fmap_app, numbered_names. f_equal. clear He.
  induction ss as [|s ss IH]; [done|]. inversion Hg as [|? ? Hs Hg']; subst. inversion Hw as [|? ? [_ Hx Hf _] Hw']; subst.
  cbn [map concat]. rewrite fmap_app, IH by done. f_equal. unfold enum_of. rewrite functions_enumeration; [apply numbered_names | done | | done].
  pose proof (some_function s Hs). by destruct (functions_of s).
Qed.

(** Every enumerator has the number the registration expects. *)
Lemma environment_numbers base e ss : enumeration e = numbered_from base (map (fun s => service_enumerator (struct_of s)) ss) ->
  Forall good_service ss -> Forall well_named ss -> NoDup (enumerators ss) -> forall k s, ss !! k = Some s ->
  (list_to_map (environment e ss) : gmap text Z) !! service_enumerator (struct_of s) = Some (base + Z.of_nat k) /\
  numbers (list_to_map (environment e ss)) 0 (functions_of s).
Proof.
  intros He Hg Hw Hnd k s Hk. assert (NoDup (environment e ss).*1) as Hnd' by by rewrite (environment_names base). split.
  - apply elem_of_list_to_map_1; [done|]. unfold environment. apply elem_of_app. left. rewrite He. apply numbered_lookup.
    by rewrite (list_lookup_fmap (fun s => service_enumerator (struct_of s))), Hk.
  - intros i f Hf. apply elem_of_list_to_map_1; [done|]. unfold environment. apply elem_of_app. right.
    assert (s ∈ ss) as Hs by (by eapply list_elem_of_lookup_2). rewrite Forall_forall in Hg, Hw. destruct (Hw s Hs) as [_ Hx Hp _].
    apply list_elem_of_In, in_concat. exists (enumeration (enum_of s)). rewrite <- !list_elem_of_In. split; [by apply (list_elem_of_fmap_2 (fun s => enumeration (enum_of s)))|].
    unfold enum_of. rewrite functions_enumeration; [|done | | done].
    + apply numbered_lookup. by rewrite (list_lookup_fmap snd), Hf.
    + pose proof (some_function s (Hg s Hs)). by destruct (functions_of s).
Qed.

(** Every function of every service is dispatched to. *)
Lemma registered_dispatch {W} (exec : string -> W -> option W) t n fs i f w : registered t n fs -> fs !! i = Some f ->
  DispatchKernel exec t n (Z.of_nat i) w = (w' ← exec (name_of (fst f)) w; Some (w', true)).
Proof.
  intros (s & Hs & Hm) Hf. unfold DispatchKernel. rewrite Hs. cbn [mbind option_bind].
  pose proof (Hm i f Hf) as E. cbn in E. rewrite E. reflexivity.
Qed.

Lemma declared_blank l t d : NoDup (map serviceName l) -> d ∈ l -> objects (declared l t) !! serviceName d = Some blank_service.
Proof.
  intros Hnd Hd. unfold declared. cbn [objects]. apply elem_of_list_to_map_1.
  - by rewrite <- list_fmap_compose.
  - apply (list_elem_of_fmap_2 (fun d => (serviceName d, blank_service))). exact Hd.
Qed.

Lemma structs_distinct ss : NoDup (enumerators ss) -> NoDup (map serviceName (map details_of ss)).
Proof.
  unfold enumerators. intros [H _]%NoDup_app. rewrite map_map.
  rewrite <- (map_map struct_of service_enumerator) in H. apply NoDup_fmap_1 in H. exact H.
Qed.

(** C22: From the source files to the dispatcher.  If the input directory has the files of at least two services, whose
    functions are marked and written as the programming model wants it, under distinct names, then the preprocessor
    succeeds: it splits every C file and appends an enumeration to every header, and writes Library.h, which has an
    enumeration of the services and the statements of [generateServices].  These statements, run with the values the
    enumerations give, register all services: a dispatch by the enumerators of a service and of a function calls this
    function, and the services of the kernel, which have the numbers below 10, are untouched. *)
Theorem exposed_functions_dispatched {W} (exec : string -> W -> option W) fs entries prog inDir outDir ss t :
  directory fs inDir entries ss -> Forall well_named ss -> NoDup (enumerators ss) ->
  (2 <= length ss)%nat -> 10 + zlen ss <= 256 -> transport_ready t (zlen ss) ->
  exists before services between p,
    let l := map details_of ss in
    let library := before ++ services ++ between ++ codes "bool generateServices()" ++ [LF] ++ codes "{" ++
      concat (map statement_text (statements 0 l)) ++ codes "}" ++ [LF] in
    let env := list_to_map (environment services ss) in
    main fs entries [prog; inDir; outDir] = Some (0, concat (map (files_of outDir) ss) ++
      [(outDir ++ codes "Library.h", library); (codes "output/linker.ld", generateLinkerFile l)]) /\
    exec_all env (statements 0 l) (declared l t) = Some p /\
    (forall k s i f w, ss !! k = Some s -> functions_of s !! i = Some f -> exists service method,
      env !! service_enumerator (struct_of s) = Some service /\ env !! snd f = Some method /\
      DispatchKernel exec (transporter p) service method w = (w' ← exec (name_of (fst f)) w; Some (w', true))) /\
    forall n, n < 10 -> zget (kernel_services (transporter p)) n = zget (kernel_services t) n.
Proof.
  intros Hdir Hw Hnd H2 Hmax Ht. pose proof Hdir as [_ Hg _].
  assert (Forall brief (map details_of ss)) as Hbrief.
  { apply Forall_map. eapply Forall_impl; [exact Hw|]. by intros s []. }
  destruct (services_enumeration (map details_of ss)) as (e & E & He).
  { by rewrite length_map. }
  { apply Forall_map. eapply Forall_impl; [exact Hw|]. by intros s []. }
  rewrite map_map in He. destruct (library_spec _ _ Hbrief E) as (before & between & El).
  pose proof (environment_numbers 10 e ss He Hg Hw Hnd) as Henv. pose proof (structs_distinct ss Hnd) as Hdis.
  destruct (services_run (list_to_map (environment e ss)) 10 (map details_of ss) 0 (declared (map details_of ss) t)) as (p & Ep & Hr & Hk).
  - intros k d Hd. rewrite (list_lookup_fmap details_of) in Hd. destruct (ss !! k) as [s|] eqn:Es; [|done]. injection Hd as <-.
    destruct (Henv k s Es) as [H1 H3]. apply lookup_lt_Some in Es as Hlt. rewrite Forall_lookup in Hw. destruct (Hw k s Es).
    unfold zlen in Hmax. split; [exact H1 | | done]. unfold sharedMemory_t, ackermannFunctionService_t. lia.
  - done.
  - intros d Hd. by apply declared_blank.
  - done.
  - done.
  - unfold zlen in *. rewrite length_map. lia.
  - done.
  - unfold zlen in *. by rewrite length_map.
  - exists before, e, between, p. cbv zeta. split; [|split; [exact Ep | split; [|exact Hk]]].
    + unfold main. rewrite (process_directory_spec fs inDir outDir entries ss) by done. cbn [mbind option_bind]. rewrite !app_nil_l.
      rewrite El. reflexivity.
    + intros k s i f w Hs Hf. destruct (Henv k s Hs) as [H1 H3]. exists (10 + Z.of_nat k), (Z.of_nat i).
      split; [exact H1|]. split; [by rewrite (H3 i f Hf)|].
      apply (registered_dispatch _ _ _ (functions_of s)); [|done]. apply (Hr k (details_of s)).
      by rewrite (list_lookup_fmap details_of), Hs.
Qed.

(** *** The services of [preprocessor/input] *)

(** A source text, with backquotes for quotation marks. *)
Definition typed (s : string) : text := map (fun c => if c =? 96 then QUOTE else c) (codes s).

(** A text with the ends of lines of another system. *)
Definition dos (s : text) : text := concat (map (fun c => if c =? LF then [13; LF] else [c]) s).

Definition three_fields : text := codes "int x;
	int y;
	char z;

".

Definition hamada_function (name body : string) : function_source :=
  mkFunctionSource [LF] (codes "void") (codes name) [32] (codes "void* s1") LF (typed body).

Definition hamada : service_source :=
  mkServiceSource (codes "hamada")
    (mkHeader [] [LF; LF; TAB] three_fields (codes "hamadaStruct") (typed "

void hamada1(void* s1);
void hamada2(void* s1);
void hamada3(void* s1);"))
    (typed "#include `hamada.h`

")
    [mkBlock KERNEL (hamada_function "hamada1" "{
	hamadaStruct* s2 = (hamadaStruct*) s1;
	s2->x = 1;
	printk(`%d`, s2->x);
}
") (replicate 3 LF);
     mkBlock KERNEL (hamada_function "hamada2" "{
	hamadaStruct* s2 = (hamadaStruct*) s1;
	s2->y = 20;
	printk(`%d`, s2->y);
}
") (replicate 2 LF);
     mkBlock USER (hamada_function "hamada3" "{
	hamadaStruct* s2 = (hamadaStruct*) s1;

	s2->z = 'A';
	printk(`%c`, s2->z);
}
") [LF]].

Definition method (name body : string) : function_source :=
  mkFunctionSource (dos [LF]) (codes "void") (codes name) [32] (codes "void* s1") 13 (LF :: dos (typed body)).

Definition service1 : service_source :=
  mkServiceSource (codes "service1")
    (mkHeader (dos (codes "#include <stdio.h>

")) (dos [LF; LF; TAB]) (dos three_fields) (codes "service1") (dos (codes "

void method1(void* s1);
void method2(void* s1);
void method3(void* s1);")))
    (dos (typed "#include `service1.h`


"))
    [mkBlock KERNEL (method "method1" "{
	service1* s2 = (service1*) s1;
	s2->x = 1;
}
") (dos (replicate 3 LF));
     mkBlock KERNEL (method "method2" "{
	service1* s2 = (service1*) s1;
	s2->y = 20;
}
") (dos (replicate 2 LF));
     mkBlock USER (method "method3" "{
	service1* s2 = (service1*) s1;
	s2->z = 'A';
	printk(`%c`, s2->z);
}
") (dos [LF])].

Lemma all_check P s : forallb P s = true -> all P s.
Proof. intros H. apply Forall_forall. intros c Hc. rewrite forallb_forall in H. apply H. by apply list_elem_of_In. Qed.

Lemma absent_check w a b : forallb (fun k => negb (starts w (drop k (a ++ b)))) (seq 0 (length a)) = true -> absent w a b.
Proof. intros H k Hk. rewrite forallb_forall in H. specialize (H k). apply negb_true_iff, H, in_seq. lia. Qed.

Ltac check_all := apply all_check; vm_compute; reflexivity.
Ltac check_less := vm_compute; reflexivity.

Ltac check_function :=
  split; [check_all | do 2 eexists; split; [vm_compute; reflexivity|]; split; [reflexivity | split; [discriminate | check_all]] |
    split; [discriminate | check_all] | check_all | split; [discriminate | check_all] | vm_compute; tauto | discriminate].

Ltac check_block := split; [vm_compute; tauto | split; [check_function | split; vm_compute; reflexivity]].

Ltac check_header :=
  split; [apply absent_check; vm_compute; reflexivity | check_all | reflexivity | split; [discriminate | split; check_all] |
    split; [check_all | right; do 2 eexists; split; [vm_compute; reflexivity | split; [reflexivity | discriminate]]]].

Ltac check_service := split; [check_header | vm_compute; reflexivity | repeat (constructor; [check_block|]); constructor | discriminate | check_less..].

Lemma samples_good : Forall good_service [hamada; service1].
Proof. constructor; [check_service|]. constructor; [check_service | constructor]. Qed.

Ltac check_plain := split; [discriminate | check_all].
Ltac check_names :=
  split; [split; [vm_compute; discriminate | split; [vm_compute; discriminate | repeat constructor; vm_compute; discriminate]] | check_plain |
    repeat (constructor; [check_plain|]); constructor | vm_compute; discriminate].

Lemma samples_named : Forall well_named [hamada; service1] /\ NoDup (enumerators [hamada; service1]).
Proof.
  split; [constructor; [check_names|]; constructor; [check_names | constructor]|].
  apply (bool_decide_unpack _). vm_compute. exact I.
Qed.

Definition input : text := codes "./input/".
Definition output : text := codes "./output/".

Definition sample_files : files := fun path =>
  if decide (path = source_path input hamada) then Some (c_text hamada)
  else if decide (path = input ++ codes "hamada.h") then Some (header_text (ss_header hamada))
  else if decide (path = source_path input service1) then Some (c_text service1)
  else if decide (path = input ++ codes "service1.h") then Some (header_text (ss_header service1))
  else None.

Definition listing : list text :=
  map (fun s => input ++ codes s) [".vscode"; "hamada.c"; "service1.h"; "service1.c"; "hamada.h"]%string.

(** The Library.h of [preprocessor/output]. *)
Definition sample_library : text := typed "
#include `service.h`

#include `Kernel.h`
#include `hamada.h`
#include `service1.h`
typedef enum user_services_enum_t { hamadaStruct_t = 10, service1_t } user_service_enum;


extern Kernel kernel;

hamadaStruct hamadaStruct_object;
Service hamadaStructService;
service1 service1_object;
Service service1Service;

bool generateServices()
{
	kernel.void_pointers[0] = (void*) &hamadaStruct_object;
	service_init(&hamadaStructService, (void *)&hamadaStruct_object, hamadaStruct_t);
	hamadaStructService.add_service(&hamadaStructService, hamada1, void_hamada1);
	hamadaStructService.add_service(&hamadaStructService, hamada2, void_hamada2);
	hamadaStructService.add_service(&hamadaStructService, hamada3, void_hamada3);
	RegisterServiceToKernel(&kernel.service_transporter, &hamadaStructService, hamadaStruct_t);

	kernel.void_pointers[1] = (void*) &service1_object;
	service_init(&service1Service, (void *)&service1_object, service1_t);
	service1Service.add_service(&service1Service, method1, void_method1);
	service1Service.add_service(&service1Service, method2, void_method2);
	service1Service.add_service(&service1Service, method3, void_method3);
	RegisterServiceToKernel(&kernel.service_transporter, &service1Service, service1_t);
}
".

Definition kernel_transport : service_transport_kernel := fst (InitServiceTransportLayer blank_transport).

Definition noted (f : string) (w : list string) : option (list string) := Some (f :: w).

Lemma exposed_functions_dispatched_witness :
  main sample_files listing [codes "./a.out"; input; output] =
    Some (0, concat (map (files_of output) [hamada; service1]) ++
      [(output ++ codes "Library.h", sample_library); (codes "output/linker.ld", generateLinkerFile (map details_of [hamada; service1]))]) /\
  exists env p service method,
    exec_all env (statements 0 (map details_of [hamada; service1])) (declared (map details_of [hamada; service1]) kernel_transport) = Some p /\
    env !! codes "service1_t" = Some service /\ env !! codes "void_method2" = Some method /\
    DispatchKernel noted (transporter p) service method [] = Some (["method2"%string], true).
Proof.
  split; [vm_compute; reflexivity|].
  destruct (exposed_functions_dispatched noted sample_files listing (codes "./a.out") input output [hamada; service1] kernel_transport)
    as (before & services & between & p & _ & Ep & Hd & _).
  - split; [vm_compute; reflexivity | exact samples_good | repeat constructor; vm_compute; reflexivity].
  - exact (proj1 samples_named).
  - exact (proj2 samples_named).
  - vm_compute. lia.
  - vm_compute. discriminate.
  - split; [reflexivity|]. vm_compute. repeat split; discriminate.
  - destruct (Hd 1%nat service1 1%nat (codes "method2", codes "void_method2") []) as (sv & me & E1 & E2 & E3); [reflexivity | vm_compute; reflexivity |].
    exists (list_to_map (environment services [hamada; service1])), p, sv, me. split; [exact Ep|]. split; [exact E1|]. split; [exact E2 | exact E3].
Defined.

(** ** Where the preprocessor falls short *)

(** The number 10 is written behind the first enumerator only if there is another one: a service that is alone gets the
    number 0, and its registration takes the place of the kernel's first service, the console. *)
Theorem lone_service_takes_console s t :
  good_service s -> well_named s -> NoDup (enumerators [s]) -> transport_ready t 1 ->
  exists e p, create_services_enum [details_of s] = Some e /\
    exec_all (list_to_map (environment e [s])) (statements 0 [details_of s]) (declared [details_of s] t) = Some p /\
    registered (transporter p) 0 (functions_of s).
Proof.
  intros Hg Hw Hnd Ht. destruct (single_enumeration (details_of s)) as (e & E & He); [by destruct Hw|].
  pose proof (environment_numbers 0 e [s] He ltac:(constructor; [exact Hg | constructor]) ltac:(constructor; [exact Hw | constructor]) Hnd 0%nat s eq_refl) as [H1 H2].
  destruct (services_run (list_to_map (environment e [s])) 0 [details_of s] 0 (declared [details_of s] t)) as (p & Ep & Hr & _).
  - intros [|k] d Hd; [|done]. injection Hd as <-. destruct Hw. split; [exact H1 | done | done].
  - by apply (structs_distinct [s]).
  - intros d Hd. apply declared_blank; [by apply (structs_distinct [s]) | done].
  - done.
  - done.
  - done.
  - done.
  - done.
  - exists e, p. split; [exact E|]. split; [exact Ep | exact (Hr 0%nat (details_of s) eq_refl)].
Qed.

Lemma lone_service_takes_console_witness : exists e p, create_services_enum [details_of hamada] = Some e /\
  exec_all (list_to_map (environment e [hamada])) (statements 0 [details_of hamada]) (declared [details_of hamada] kernel_transport) = Some p /\
  DispatchKernel noted (transporter p) 0 2 [] = Some (["hamada3"%string], true).
Proof.
  destruct (lone_service_takes_console hamada kernel_transport) as (e & p & E & Ep & Hr).
  - pose proof samples_good as H. by inversion H.
  - destruct samples_named as [H _]. by inversion H.
  - apply (bool_decide_unpack _). vm_compute. exact I.
  - split; [reflexivity|]. vm_compute. repeat split; discriminate.
  - exists e, p. split; [exact E|]. split; [exact Ep|].
    exact (registered_dispatch noted _ _ _ 2 (codes "hamada3", codes "void_hamada3") [] Hr ltac:(vm_compute; reflexivity)).
Defined.

Definition no_details : serviceDetails := mkDetails [] [] [].

(** The enumerators a function's text leads to. *)
Definition read_function (s : string) : option (list text) :=
  option_map (fun x => map function_enumerator (snd x)) (map_function_to_struct (typed s) KERNEL no_details []).

(** A function without parameters is not found; of a return type of two words the second becomes part of the name, as
    the asterisk of a pointer does, and the enumerator is no identifier; a blank before the name of the
    structure hides it; of two structures in a header the last is taken; and a file with [.c] anywhere in its path counts as a source, whose header is then missing. *)
Theorem sources_misread :
  read_function "
void f ()
{
}
" = None /\
  read_function "
unsigned int f (int x)
{
}
" = Some [codes "unsigned_int f"] /\
  read_function "
char *f (int x)
{
}
" = Some [codes "char_*f"] /\
  option_map (fun x => captured 2 serviceObjectNameToken (fst x)) (search serviceObjectNameToken (codes "typedef struct {
int x;
} first;
")) = None /\
  option_map (fun x => captured 2 serviceObjectNameToken (fst x)) (search serviceObjectNameToken (codes "typedef struct {
int x;
}first;
typedef struct {
int y;
}second;
")) = Some (codes "second") /\
  main sample_files (listing ++ [input ++ codes "notes.cfg"]) [codes "./a.out"; input; output] = None.
Proof. split_and!; vm_compute; reflexivity. Qed.
